(* ===== verification/_CoqProject ===== *)
-Q . S2P
Prelude.v
GoText.v
NetIP.v
NetIP6.v
GoConv.v
Address.v
Transport.v
ChinaIPData.v
ChinaIP.v
Router.v
RouterSpec.v
Sniffer.v
Frame.v
PacketBridge.v
Netstack.v
NetstackProxy.v
Echo.v
NetstackFlows.v
Engine.v
Uuid.v
FoloJson.v
Buf.v
AddressParser.v
BufAppend.v
Mux.v
MultiBuffer.v
BufIO.v
ChunkStream.v
AuthStream.v
MuxStream.v
MuxSession.v
MuxServer.v
MuxRefine.v
MuxDelivery.v
AddressTotal.v
MuxTotal.v
MuxTyped.v
MuxSafety.v
MuxXudp.v
MuxClient.v
MuxWitness.v
Xudp.v
Validator.v
Vless.v
VlessPackets.v
Trojan.v
Pipe.v
KcpSegment.v
KcpPacket.v
KcpReceiving.v
KcpSending.v
KcpConnection.v
KcpListener.v
Vision.v
StrMatcher.v
AcAutomaton.v
Mph.v
Conditions.v
RouteRules.v
Balancer.v
CoreRouter.v
OutboundManager.v
Lru.v
FakeDns.v
DnsHosts.v
DnsCache.v
Dns.v
ContentSniff.v
Dispatcher.v
Freedom.v
Talk.v
Socks.v
SocksSpec.v
Fallback.v
ConfCommon.v
ConfRouter.v
ConfRouterSpec.v
