(* ===== verification/Prelude.v ===== *)
(** * A verification of the Folo Xray library for Apple platforms

    The repository builds one static C library.  Its own code is the wrapper in
    src/apple-wrapper (the C calls, a user-space network stack that turns IP
    packets into connections, a domain sniffer and a router) and the two packages
    folotun and folojson in src/upstream/xray-core/main (packet framing, dialing,
    validation of profiles).  Behind them stands a trimmed copy of the Xray core,
    of which this development models the buffers and pipes, the addresses, the
    protocols and streams that a profile can select, the multiplexing of
    connections, the mKCP transport, and the way of a connection through the core:
    sniffing, fake DNS, DNS, routing, the choice of a handler.

    ** How the parts interact

    A host calls FoloXrayStartJSON with a profile; folojson turns the profile into
    a core configuration and the engine starts a core instance.
    FoloXrayNetstackStart attaches the network stack: the host injects IP packets
    and reads the answers, and every TCP connection or UDP flow in them is
    sniffed, routed (block, direct or proxy) and copied to a connection that is
    dialed directly or through the instance.  The packet bridge is an independent
    test path that echoes framed packets over a socket.  In the core, the
    dispatcher makes a link of two pipes, sniffs what comes in, may replace the
    target by a sniffed name or by the name behind a fake address, asks the router
    for an outbound and hands the link to its handler, whose protocol writes the
    buffers of the link to a stream: VLESS, Trojan, VMess chunks, mux frames, or
    mKCP segments.

    ** Files

    Foundations, shared by all parts:
    - Prelude: bytes, the result type and its notation, machine integers with
      their wrap-around, big-endian numbers, tactics and the hint database go.
    - GoText, NetIP, NetIP6, GoConv: what the code uses of Go's packages strings,
      unicode/utf8, net, net/netip, strconv, encoding/hex and encoding/base64.
      The lower-case table of package unicode is the class UnicodeTables.

    Wrapper (src/apple-wrapper):
    - ChinaIPData, ChinaIP (router/china_ip_data.go, router/china_ip.go): the two
      range tables, entry by entry, and the binary searches over them.
    - Router, RouterSpec (router/router.go, compact_trie.go, compact_cidr.go,
      builtin_rules.go): the matchers, NewRouter and Route; the specification of
      the decision as inductive rules and its refinement.
    - Sniffer (sniffer.go): the TLS and HTTP sniffers with slice bounds checks.
    - Netstack, NetstackProxy, NetstackFlows (netstack.go, router/direct.go): the
      packet path over a channel endpoint (an interface with its laws); one
      connection from sniffing to copying (the dialers are arguments); token
      semaphores, wait group and close as a step relation over any number of
      flows.
    - PacketBridge, Echo (folo_apple.go, folotun/socket.go): start, stop and pump
      goroutines as a step relation over their critical sections; one run of the
      echo pump.
    - Engine (folo_apple.go, startNetstack and stopNetstack of netstack.go): every
      call as one transition under the engine mutex, with its error paths.

    Boundary packages (src/upstream/xray-core/main):
    - Frame, Transport (folotun/frame.go, folotun/transport.go).
    - FoloJson (folojson/folojson.go): from the decoded profile to the core
      configuration, or the error.

    Core (src/upstream/xray-core), data and streams:
    - Address (common/net), Uuid (common/uuid), Lru (common/cache/lru.go).
    - Buf, MultiBuffer (common/buf/buffer.go, multi_buffer.go), BufAppend (the
      calls encoders make on a buffer), BufIO (reader.go, writer.go, copy.go,
      io.go): buffered readers and writers and the copy between them.
    - Pipe (transport/pipe, common/signal): the pipe that joins the two ends of a
      proxied connection, as a step relation over any number of calls.
    - AddressParser (common/protocol/address.go), AddressTotal (reads that never
      panic, for any parser), Validator (the user tables of
      proxy/vless and proxy/trojan), Vless, VlessPackets (proxy/vless/encoding),
      Trojan (proxy/trojan/protocol.go), Vision (proxy/proxy.go).
    - ChunkStream, AuthStream (common/crypto/chunk.go, auth.go): the chunks of a
      VMess body, plain and authenticated.

    Core, multiplexing (common/mux, common/xudp):
    - Mux (frame.go), MuxStream (writer.go, reader.go), MuxSession (session.go),
      MuxServer (server.go), MuxClient (client.go), Xudp (common/xudp/xudp.go):
      the definitions; sessions, links and entries live in a store, and a server is
      a step relation over all its connections.
    - MuxRefine, MuxDelivery, MuxTotal, MuxTyped, MuxSafety, MuxXudp: what they
      promise.  MuxWitness: the promises at concrete inputs.

    Core, mKCP (transport/internet/kcp and headers):
    - KcpSegment (segment.go), KcpPacket (crypt.go, xor.go, io.go and the
      disguising headers), KcpReceiving (receiving.go), KcpSending (sending.go),
      KcpConnection (connection.go), KcpListener (listener.go).

    Core, the way of a connection:
    - StrMatcher, AcAutomaton, Mph (common/strmatcher): groups of matchers, the
      automaton of keywords, the perfect hash of large sets.
    - Conditions, RouteRules, Balancer, CoreRouter (app/router), OutboundManager
      (app/proxyman/outbound/outbound.go).
    - ConfCommon, ConfRouter, ConfRouterSpec (infra/conf/common.go, router.go,
      router_strategy.go): the routing section of the JSON configuration and the
      configuration of the router made of it.
    - FakeDns, DnsHosts, DnsCache, Dns (app/dns): fake addresses, static hosts, the
      caches of the name servers, the client over them.
    - ContentSniff (common/protocol: tls, http, bittorrent), Dispatcher
      (app/dispatcher).
    - Talk (programs that read one end of a connection and write the other, and
      when two of them finish their conversation), Socks, SocksSpec (proxy/socks),
      Fallback (the front of the VLESS and Trojan servers), Freedom (proxy/freedom).

    ** How the code is represented

    A byte is an integer from 0 to 255, a string or a slice is the list of its
    bytes, and a w-bit integer is an integer with its wrap-around written out.  An
    index or slice expression that Go would reject at run time gives None, or the
    outcome Panic, where errors are Fail; so a theorem that a call
    returns also says that it does not panic.  A connection is a stream of
    Frame.v: the chunks that successive reads deliver, then an error; statements
    about reading hold for every chunking.  Where objects are shared (the sessions
    of a mux server, the balancers of a router, the elements of a cache) they are
    cells of a store and a pointer is an index.  Writers, the channel endpoint, the
    dialers, the core instance, ciphers, hashes, the random source, the clock,
    regular expressions, the parser of DNS messages and the protobuf codec are
    arguments, with their documented behaviour as classes or named hypotheses and a
    concrete instance in each witness.  Goroutines are step relations whose steps
    are the critical sections of the code.

    ** What the theorems show

    - Routing of the wrapper: the domain matcher implements exact, longest suffix,
      first keyword; the binary searches agree with a scan of the tables; Route
      returns exactly the action that the decision rules derive.
    - Routing of the core: the conditions made of a rule hold exactly when the rule
      means so, the first such rule is taken; a rule made of a text holds of the
      connections that the text is about, and a code finds its list in a data file;
      groups of matchers, automaton and
      perfect hash answer like the patterns one by one; balancers are fair and
      within bounds; a cached selection of handlers is current.
    - DNS: the servers for a name are those with a matching rule, then the fallback
      ones, each once; lookups never panic on the tables that New builds; static
      hosts follow at most five replacements; a cached record was asked for and
      answered; a fake address belongs to one name, which keeps it.
    - Dispatching: sniffing ends, loses no byte, and only gives the target a sniffed
      name; the name behind a fake address is restored.
    - Sniffing: no input makes a sniffer panic or loop; the server name of any
      well-formed ClientHello and the host of any HTTP request are found.
    - Proxies: client and server finish the SOCKS handshake with each other, and the
      server ends it without a panic for any client; a connection whose first bytes
      name no user reaches the fallback that fits it, untouched, and nothing else;
      fragments carry the bytes that were written, or the same ClientHello in
      smaller records.
    - Framing and echo: frames survive any chunking and partial writers; what is
      accepted is what the encoder produces.
    - Packet path and proxying: injected packets reach the stack unchanged, queued
      packets are delivered in order; a connection is forwarded byte for byte, the
      sniffed bytes included.
    - Lifetimes: invariants of the flows, the packet bridge and the engine by
      induction over all interleavings or call sequences, with progress: no worker
      is ever stuck on a token, closing is final, a serial stop completes.
    - Profiles: an accepted profile has one outbound, no listener and the
      transport security of its version; well-formed VLESS profiles are accepted.
    - Wire formats: addresses, mux frames, VLESS requests, responses and packets,
      Trojan headers and packets, chunks with their padding, Vision padding and
      mKCP packets are read back as they were written; a VLESS request is accepted
      only under an identifier of the user table.
    - Multiplexing: sessions that write side by side are delivered unmixed; the
      server refines the meaning of the frames and keeps its tables consistent
      under any input; UDP sessions move between connections; a client finds a
      worker within its limits.
    - mKCP: over a network that loses, reorders and repeats packets what is read is
      a prefix of what was written; acknowledged data has arrived; closing ends.
    - Pipe, buffers and caches: the pipe is a queue that loses no data and no
      wake-up; a buffer is a bounded queue of bytes; the cache is a list in the
      order of last use.
    Some theorems state behaviour that is not what the code means to do, among them:
    built-in rules replace custom ones, overlapping stops hang, direct UDP sends
    nothing, malformed UUIDs panic, large Trojan packets break the framing, a
    long fragments of a ClientHello panic, an outbound of SOCKS 4 speaks SOCKS 5, a
    fallback for every connection is not inherited by all others, a bare port number
    above 65535 wraps around, a list without the wanted attribute restricts nothing, a
    dropped packet desynchronises an authenticated stream, a full mux worker can be
    picked, a fake DNS pool under 0.0.0.0/8 panics, uTP is never recognised, static
    hosts are asked for a name with its port.

    ** Fuel

    Loops that are not structural take fuel that is shown to be enough: the
    sniffer loops one round more than the input has bytes, writeAll, MergeBytes
    and the read loops of packets the number of bytes still to move, since every
    round moves at least one, sort.Search the number of entries, reading to
    the end of a stream one round more than there are bytes; a copy the weight of
    what is to be read and two more, chunks and frames the pieces of what is
    written and one more, the automaton its nodes and one more, the seeds of the
    perfect hash as many as separate the keys (a hypothesis on the hash), a fake
    address one round more than there are live entries.  The bounds 16 of the mux
    dispatch, 5 of the static hosts and 2 of the sniffing are those of the code.
    Running out of fuel is None or Panic, which the theorems exclude.

    ** Not modelled

    Decoding of JSON text (folojson Load) and the JSON of the statistics; of the JSON
    configuration of the full core (infra/conf), which folojson replaces, all but
    the routing section and the sections of freedom, SOCKS and fallbacks; timers,
    deadlines and buffer pools; the registration of features in an instance; the
    handlers of the proxies beyond their encodings, their choice of a target and
    the conversations named above, since they are plumbing between a link and a
    connection; the transports other than mKCP, and TLS, REALITY and
    QUIC, which wrap third-party libraries; VMess headers, which are encrypted;
    sending and awaiting DNS queries; generated protobuf code; the stub for other
    platforms and the bindings of libXray, which the library does not link. *)
From stdpp Require Export base list gmap strings numbers relations.
From Stdlib Require Export ZArith Lia.

Open Scope Z_scope.

(** ** Go values *)

(** A Go [byte] is a [Z] in the range [0, 256); a [[]byte] or a [string] is the
    list of its bytes.  [is_byte] and [wf_bytes] state the range. *)
Abbreviation bytes := (list Z).

Definition is_byte (b : Z) : Prop := 0 ≤ b < 256.
Abbreviation wf_bytes := (Forall is_byte).

#[global] Instance is_byte_dec b : Decision (is_byte b).
Proof. unfold is_byte. apply _. Defined.

(** The bytes of a Go string literal. *)
Definition lit (s : string) : bytes :=
  (λ c, Z.of_nat (Ascii.nat_of_ascii c)) <$> String.list_ascii_of_string s.

(** A Go function with an [error] result.  A run-time panic is modelled
    separately, by [option]: [None] is the panic. *)
Inductive result (E A : Type) : Type :=
| Ok (a : A)
| Err (e : E).
Arguments Ok {E A} a.
Arguments Err {E A} e.

#[global] Instance result_eq_dec {E A} `{!EqDecision E, !EqDecision A} :
  EqDecision (result E A).
Proof. solve_decision. Defined.

Definition is_Ok {E A} (r : result E A) : bool :=
  match r with Ok _ => true | Err _ => false end.

Definition result_bind {E A B} (m : result E A) (k : A → result E B) : result E B :=
  match m with Ok a => k a | Err e => Err e end.

Declare Scope go_scope.
Delimit Scope go_scope with go.
Open Scope go_scope.

(** [let! x := m in k]: the idiom [x, err := m; if err != nil { return err }]. *)
Notation "'let!' x ':=' m 'in' k" := (result_bind m (λ x, k))
  (at level 10, x pattern, k at level 200) : go_scope.
(** [guard! c or e in k]: the idiom [if !c { return e }; k]. *)
Notation "'guard!' c 'or' e 'in' k" := (if decide c then k else Err e)
  (at level 10, k at level 200) : go_scope.

(** Unsigned machine integers keep their width: [wrap w] is reduction modulo
    [2^w]. *)
Definition wrap (w : Z) (x : Z) : Z := x mod 2 ^ w.
Abbreviation u8 := (wrap 8).
Abbreviation u16 := (wrap 16).
Abbreviation u32 := (wrap 32).
Abbreviation u64 := (wrap 64).
Definition is_uint (w x : Z) : Prop := 0 ≤ x < 2 ^ w.

#[global] Instance is_uint_dec w x : Decision (is_uint w x).
Proof. unfold is_uint. apply _. Defined.

(** [s[i:j]], with the run-time bounds check of Go. *)
Definition slice (l : bytes) (i j : nat) : option bytes :=
  if decide (i ≤ j ∧ j ≤ length l)%nat then Some (take (j - i) (drop i l)) else None.

(** ** Tactics and hint databases *)

Create HintDb go.
Create Rewrite HintDb go.

(** Case analysis on every [decide] of the goal, closing contradictory cases. *)
Ltac decide_all := repeat (case_decide; try (exfalso; lia); try done).

Ltac split_all := repeat match goal with |- _ ∧ _ => split end.

(** ** Lists *)

Section lists.
Context {A : Type}.
Implicit Types (l k : list A).

Lemma take_app_length' l k n : n = length l → take n (l ++ k) = l.
Proof. intros ->. by rewrite take_app_length. Qed.

Lemma drop_app_length' l k n : n = length l → drop n (l ++ k) = k.
Proof. intros ->. by rewrite drop_app_length. Qed.

Lemma Forall_take_drop (P : A → Prop) l n m : Forall P l → Forall P (take n (drop m l)).
Proof. intros. by apply Forall_take, Forall_drop. Qed.

Lemma lookup_total_lt l (i : nat) : (i < length l)%nat → ∃ x, l !! i = Some x.
Proof. intros H. apply lookup_lt_is_Some_2 in H as [x Hx]. eauto. Qed.

Lemma drop_cons_lookup l i x : l !! i = Some x → drop i l = x :: drop (S i) l.
Proof. intros. by rewrite (drop_S _ x). Qed.
End lists.

(** ** Slices *)

Lemma slice_Some l i j :
  (i ≤ j ∧ j ≤ length l)%nat → slice l i j = Some (take (j - i) (drop i l)).
Proof. intros. unfold slice. by case_decide. Qed.

Lemma slice_is_Some l i j s :
  slice l i j = Some s → (i ≤ j ≤ length l)%nat ∧ length s = (j - i)%nat.
Proof.
  unfold slice. case_decide; intros [= <-]. rewrite length_take, length_drop. lia.
Qed.

Lemma slice_wf l i j s : wf_bytes l → slice l i j = Some s → wf_bytes s.
Proof. unfold slice. case_decide; intros ? [= <-]. by apply Forall_take_drop. Qed.

Lemma app_split_le {A} (x y a b : list A) :
  x ++ y = a ++ b → (length x ≤ length a)%nat → ∃ k, a = x ++ k ∧ y = k ++ b.
Proof.
  intros E Hl. apply app_eq_inv in E as [(k & -> & ->)|(k & -> & ->)].
  - rewrite length_app in Hl. destruct k; [|cbn in Hl; lia]. exists []. by rewrite !app_nil_r.
  - by exists k.
Qed.

(** ** Machine integers *)

Lemma wrap_small w x : is_uint w x → wrap w x = x.
Proof. unfold wrap, is_uint. intros. by apply Z.mod_small. Qed.

Lemma wrap_bound w x : 0 ≤ w → is_uint w (wrap w x).
Proof. intros. unfold wrap, is_uint. apply Z.mod_pos_bound. lia. Qed.

Lemma wrap_wrap w x : wrap w (wrap w x) = wrap w x.
Proof. unfold wrap. apply Zmod_mod. Qed.

#[export] Hint Rewrite wrap_wrap : go.
#[export] Hint Resolve wrap_small wrap_bound : go.

(** ** Big-endian integers (encoding/binary.BigEndian) *)

Definition be_val (l : bytes) : Z := foldl (λ a b, a * 256 + b) 0 l.

Fixpoint be_bytes (n : nat) (v : Z) : bytes :=
  match n with
  | O => []
  | S n => (v / 256 ^ Z.of_nat n) mod 256 :: be_bytes n v
  end.

Lemma be_bytes_length n v : length (be_bytes n v) = n.
Proof. induction n; simpl; congruence. Qed.

Lemma be_bytes_wf n v : wf_bytes (be_bytes n v).
Proof.
  induction n; simpl; constructor; [|done].
  unfold is_byte. apply Z.mod_pos_bound. lia.
Qed.

Lemma be_val_snoc l b : be_val (l ++ [b]) = be_val l * 256 + b.
Proof. unfold be_val. by rewrite foldl_app. Qed.

Lemma be_val_foldl l a :
  foldl (λ a b, a * 256 + b) a l = a * 256 ^ Z.of_nat (length l) + be_val l.
Proof.
  unfold be_val. revert a. induction l as [|b l IH]; intros a; cbn [foldl length].
  { lia. }
  rewrite IH, (IH (0 * 256 + b)), Nat2Z.inj_succ, Z.pow_succ_r by lia. ring.
Qed.

Lemma be_val_cons b l : be_val (b :: l) = b * 256 ^ Z.of_nat (length l) + be_val l.
Proof. unfold be_val at 1. cbn [foldl]. rewrite be_val_foldl. f_equal. Qed.

Lemma be_val_app l k :
  be_val (l ++ k) = be_val l * 256 ^ Z.of_nat (length k) + be_val k.
Proof. unfold be_val at 1. rewrite foldl_app. apply be_val_foldl. Qed.

Lemma be_val_bound l : wf_bytes l → 0 ≤ be_val l < 256 ^ Z.of_nat (length l).
Proof.
  induction 1 as [|b l Hb _ IH]; [by unfold be_val; simpl; lia|].
  rewrite be_val_cons. cbn [length]. rewrite Nat2Z.inj_succ, Z.pow_succ_r by lia.
  unfold is_byte in Hb. nia.
Qed.

Lemma be_val_be_bytes_mod n v : be_val (be_bytes n v) = v mod 256 ^ Z.of_nat n.
Proof.
  induction n as [|n IH]; [by rewrite Z.mod_1_r|].
  cbn [be_bytes]. rewrite be_val_cons, be_bytes_length, IH.
  rewrite Nat2Z.inj_succ, Z.pow_succ_r by lia.
  rewrite (Z.mul_comm 256), Z.rem_mul_r by lia. lia.
Qed.

Lemma be_val_be_bytes n v : 0 ≤ v < 256 ^ Z.of_nat n → be_val (be_bytes n v) = v.
Proof. intros. rewrite be_val_be_bytes_mod. by apply Z.mod_small. Qed.

Lemma be_val_inj l k :
  length l = length k → wf_bytes l → wf_bytes k → be_val l = be_val k → l = k.
Proof.
  revert k. induction l as [|a l IH]; intros [|b k] Hlen Hl Hk Hv; try done.
  inv Hl. inv Hk. rewrite !be_val_cons in Hv. simpl in Hlen.
  pose proof (be_val_bound l ltac:(done)). pose proof (be_val_bound k ltac:(done)).
  rewrite Hlen in *. unfold is_byte in *.
  assert (a = b) as -> by nia. f_equal. apply IH; auto. lia.
Qed.

Lemma be_bytes_be_val l : wf_bytes l → be_bytes (length l) (be_val l) = l.
Proof.
  intros Hl. apply be_val_inj; [apply be_bytes_length|apply be_bytes_wf|done|].
  apply be_val_be_bytes, be_val_bound, Hl.
Qed.

#[export] Hint Rewrite be_bytes_length : go.
#[export] Hint Resolve be_bytes_wf be_val_be_bytes : go.

(** ** Calls that may panic *)

(** A call that may return, fail with an error, or panic. *)
Inductive outcome (A : Type) := Ret (a : A) | Fail | Panic.
Arguments Ret {A} a.
Arguments Fail {A}.
Arguments Panic {A}.

#[global] Instance outcome_eq_dec {A} `{!EqDecision A} : EqDecision (outcome A).
Proof. solve_decision. Defined.

Definition ret_or_panic {A B} (o : option A) (k : A → outcome B) : outcome B :=
  match o with Some a => k a | None => Panic end.

Definition outcome_bind {A B} (o : outcome A) (k : A → outcome B) : outcome B :=
  match o with Ret a => k a | Fail => Fail | Panic => Panic end.

(** [let? x := m in k]: a call whose error is passed on and whose panic is not
    recovered. *)
Notation "'let?' x ':=' m 'in' k" := (outcome_bind m (λ x, k))
  (at level 10, x pattern, k at level 200) : go_scope.

Lemma Ret_inj {A} (x y : A) : Ret x = Ret y → x = y.
Proof. by intros [= ->]. Qed.

Lemma Ret_pair_inj {A B} (x x' : A) (y y' : B) : Ret (x, y) = Ret (x', y') → x = x' ∧ y = y'.
Proof. by intros [= -> ->]. Qed.

(** The first [n] bytes as a big-endian number, and the rest; Go panics when
    there are fewer. *)
Definition read_be (n : nat) (buf : bytes) : outcome (Z * bytes) :=
  if decide (length buf < n)%nat then Panic else Ret (be_val (take n buf), drop n buf).

Lemma read_be_bytes n v rest : 0 ≤ v < 256 ^ Z.of_nat n → read_be n (be_bytes n v ++ rest) = Ret (v, rest).
Proof.
  intros Hv. unfold read_be. rewrite decide_False by (rewrite length_app, be_bytes_length; lia).
  rewrite take_app_length', drop_app_length' by (by rewrite be_bytes_length). by rewrite be_val_be_bytes.
Qed.

Lemma read_be_long n buf : (n ≤ length buf)%nat → read_be n buf = Ret (be_val (take n buf), drop n buf).
Proof. intros. unfold read_be. by rewrite decide_False by lia. Qed.

(** ** Reachability *)

(** An invariant of a step relation holds in every reachable state. *)
Lemma rtc_invariant {S : Type} (step : S → S → Prop) (I : S → Prop) s s' :
  (∀ x y, step x y → I x → I y) → rtc step s s' → I s → I s'.
Proof. intros Hstep. induction 1; eauto. Qed.
