(* ===== verification/GoText.v ===== *)
(** Go strings: UTF-8 decoding and the functions of the packages [strings],
    [bytes], [unicode] and [unicode/utf8] that the modelled code calls.  The
    only part that is not spelled out is the lower-case table of package
    [unicode], which is the class [UnicodeTables]. *)
From S2P Require Import Prelude.

(** ** unicode/utf8 *)
Module Utf8.

Definition RuneError : Z := 0xFFFD.

Definition is_cont (lo hi b : Z) : bool := bool_decide (lo ≤ b ≤ hi).

(** [utf8.DecodeRune]: the first rune and its width; an invalid or truncated
    sequence is [RuneError] of width 1, the empty input is [RuneError], 0. *)
Definition DecodeRune (p : bytes) : Z * nat :=
  match p with
  | [] => (RuneError, 0%nat)
  | b0 :: q =>
    if decide (b0 < 0x80) then (b0, 1%nat)
    else if decide (0xC2 ≤ b0 ≤ 0xDF) then
      match q with
      | b1 :: _ =>
        if is_cont 0x80 0xBF b1
        then (Z.lor (Z.shiftl (Z.land b0 0x1F) 6) (Z.land b1 0x3F), 2%nat)
        else (RuneError, 1%nat)
      | _ => (RuneError, 1%nat)
      end
    else if decide (0xE0 ≤ b0 ≤ 0xEF) then
      let lo := if decide (b0 = 0xE0) then 0xA0 else 0x80 in
      let hi := if decide (b0 = 0xED) then 0x9F else 0xBF in
      match q with
      | b1 :: b2 :: _ =>
        if is_cont lo hi b1 && is_cont 0x80 0xBF b2
        then (Z.lor (Z.lor (Z.shiftl (Z.land b0 0x0F) 12) (Z.shiftl (Z.land b1 0x3F) 6))
                (Z.land b2 0x3F), 3%nat)
        else (RuneError, 1%nat)
      | _ => (RuneError, 1%nat)
      end
    else if decide (0xF0 ≤ b0 ≤ 0xF4) then
      let lo := if decide (b0 = 0xF0) then 0x90 else 0x80 in
      let hi := if decide (b0 = 0xF4) then 0x8F else 0xBF in
      match q with
      | b1 :: b2 :: b3 :: _ =>
        if is_cont lo hi b1 && is_cont 0x80 0xBF b2 && is_cont 0x80 0xBF b3
        then (Z.lor (Z.lor (Z.shiftl (Z.land b0 0x07) 18) (Z.shiftl (Z.land b1 0x3F) 12))
                (Z.lor (Z.shiftl (Z.land b2 0x3F) 6) (Z.land b3 0x3F)), 4%nat)
        else (RuneError, 1%nat)
      | _ => (RuneError, 1%nat)
      end
    else (RuneError, 1%nat)
  end.

(** [utf8.AppendRune]. *)
Definition EncodeRune (r : Z) : bytes :=
  let enc3 r := [Z.lor 0xE0 (Z.shiftr r 12);
                 Z.lor 0x80 (Z.land (Z.shiftr r 6) 0x3F);
                 Z.lor 0x80 (Z.land r 0x3F)] in
  if decide (0 ≤ r < 0x80) then [r]
  else if decide (0 ≤ r < 0x800) then
    [Z.lor 0xC0 (Z.shiftr r 6); Z.lor 0x80 (Z.land r 0x3F)]
  else if decide (r < 0 ∨ 0x10FFFF < r ∨ 0xD800 ≤ r ≤ 0xDFFF) then enc3 RuneError
  else if decide (r < 0x10000) then enc3 r
  else [Z.lor 0xF0 (Z.shiftr r 18);
        Z.lor 0x80 (Z.land (Z.shiftr r 12) 0x3F);
        Z.lor 0x80 (Z.land (Z.shiftr r 6) 0x3F);
        Z.lor 0x80 (Z.land r 0x3F)].

Definition RuneStart (b : Z) : bool := bool_decide (Z.land b 0xC0 ≠ 0x80).

(** [utf8.DecodeLastRune]: scan back at most four bytes for the start of a rune
    that ends the input. *)
Definition DecodeLastRune (p : bytes) : Z * nat :=
  let e := length p in
  match last p with
  | None => (RuneError, 0%nat)
  | Some r =>
    if decide (r < 0x80) then (r, 1%nat)
    else
      let try_at k :=
        let '(r, size) := DecodeRune (drop (e - k) p) in
        if decide (size = k) then (r, size) else (RuneError, 1%nat) in
      let start k := bool_decide (k ≤ e)%nat &&
                     match p !! (e - k)%nat with Some b => RuneStart b | None => false end in
      if start 2%nat then try_at 2%nat
      else if start 3%nat then try_at 3%nat
      else if start 4%nat then try_at 4%nat
      else (RuneError, 1%nat)
  end.

(** The runes a [for range] loop over the string visits, with their widths. *)
Fixpoint runes_fuel (n : nat) (p : bytes) : list (Z * nat) :=
  match n, p with
  | S n, _ :: _ => let '(r, w) := DecodeRune p in (r, w) :: runes_fuel n (drop w p)
  | _, _ => []
  end.
Definition runes (p : bytes) : list (Z * nat) := runes_fuel (length p) p.

Lemma DecodeRune_width p : p ≠ [] → (1 ≤ (DecodeRune p).2 ≤ length p)%nat.
Proof.
  destruct p as [|b0 q]; [done|intros _]. unfold DecodeRune.
  repeat (case_decide || case_match); simpl; lia.
Qed.

Lemma DecodeRune_ascii b p : b < 0x80 → DecodeRune (b :: p) = (b, 1%nat).
Proof. intros. unfold DecodeRune. by case_decide. Qed.

(** The fuel of [runes] is enough: the widths add up to the whole string. *)
Lemma runes_fuel_width n p :
  (length p ≤ n)%nat → sum_list_with snd (runes_fuel n p) = length p.
Proof.
  revert p. induction n as [|n IH]; intros [|b q] Hn; try done; [simpl in Hn; lia|].
  cbn [runes_fuel]. pose proof (DecodeRune_width (b :: q) ltac:(done)) as Hw.
  destruct (DecodeRune (b :: q)) as [r w] eqn:E.
  cbn [sum_list_with snd] in *. rewrite IH; rewrite length_drop; cbn [length] in *; lia.
Qed.

Lemma runes_ascii p : Forall (λ b, b < 0x80) p → runes p = (λ b, (b, 1%nat)) <$> p.
Proof.
  unfold runes. induction 1 as [|b p Hb _ IH]; [done|].
  cbn [length runes_fuel fmap list_fmap]. rewrite DecodeRune_ascii by done. by f_equal.
Qed.
End Utf8.

(** ** unicode *)

(** The lower-case mapping of the runes above ASCII is data of package
    [unicode]; [unicode.ToLower] treats ASCII itself. *)
Class UnicodeTables := unicode_lower : Z → Z.

(** Only ASCII letters have case: a table to evaluate examples with. *)
Definition ascii_tables : UnicodeTables := λ r, r.

Definition ascii_lower (b : Z) : Z := if decide (65 ≤ b ≤ 90) then b + 32 else b.

Definition unicode_ToLower `{UnicodeTables} (r : Z) : Z :=
  if decide (r < 0x80) then ascii_lower r else unicode_lower r.

Definition unicode_IsSpace (r : Z) : bool :=
  bool_decide (r ∈ [9; 10; 11; 12; 13; 32; 0x85; 0xA0; 0x1680; 0x2028; 0x2029; 0x202F;
                    0x205F; 0x3000]) || bool_decide (0x2000 ≤ r ≤ 0x200A).

(** ** strings and bytes *)

Definition HasPrefix (s p : bytes) : bool := bool_decide (p `prefix_of` s).

Definition TrimPrefix (s p : bytes) : bytes :=
  if HasPrefix s p then drop (length p) s else s.

Definition encode_mapped (r : Z) : bytes := if decide (r < 0) then [] else Utf8.EncodeRune r.

(** [strings.Map] and [bytes.Map]. *)
Definition Map (f : Z → Z) (s : bytes) : bytes :=
  mjoin ((λ rw, encode_mapped (f rw.1)) <$> Utf8.runes s).

(** [strings.ToLower] and [bytes.ToLower]. *)
Definition ToLower `{UnicodeTables} (s : bytes) : bytes :=
  if decide (Forall (λ b, b < 0x80) s) then ascii_lower <$> s else Map unicode_ToLower s.

Fixpoint trim_left_fuel (n : nat) (s : bytes) : bytes :=
  match n, s with
  | S n, _ :: _ =>
    let '(r, w) := Utf8.DecodeRune s in
    if unicode_IsSpace r then trim_left_fuel n (drop w s) else s
  | _, _ => s
  end.

Fixpoint trim_right_fuel (n : nat) (s : bytes) : bytes :=
  match n, s with
  | S n, _ :: _ =>
    let '(r, w) := Utf8.DecodeLastRune s in
    if unicode_IsSpace r then trim_right_fuel n (take (length s - w) s) else s
  | _, _ => s
  end.

(** [strings.TrimSpace]: white space is trimmed rune by rune on both sides. *)
Definition TrimSpace (s : bytes) : bytes :=
  let l := trim_left_fuel (length s) s in trim_right_fuel (length l) l.

(** [strings.Index]. *)
Fixpoint Index (s sub : bytes) : option nat :=
  if decide (sub `prefix_of` s) then Some 0%nat
  else match s with
       | [] => None
       | _ :: s' => S <$> Index s' sub
       end.

Definition Contains (s sub : bytes) : bool := bool_decide (is_Some (Index s sub)).

Fixpoint split_fuel (n : nat) (s sep : bytes) : list bytes :=
  match n with
  | O => [s]
  | S n => match Index s sep with
           | None => [s]
           | Some m => take m s :: split_fuel n (drop (m + length sep) s) sep
           end
  end.

(** [strings.Split] and [bytes.Split] for a non-empty separator. *)
Definition Split (s sep : bytes) : list bytes := split_fuel (length s) s sep.

(** [strings.Join]. *)
Fixpoint Join (parts : list bytes) (sep : bytes) : bytes :=
  match parts with
  | [] => []
  | [p] => p
  | p :: ps => p ++ sep ++ Join ps sep
  end.

(** ** Lemmas *)

Lemma Index_Some s sub i :
  Index s sub = Some i →
  sub `prefix_of` drop i s ∧ (i + length sub ≤ length s)%nat ∧
  ∀ j, (j < i)%nat → ¬ sub `prefix_of` drop j s.
Proof.
  revert i. induction s as [|b s IH]; intros i; cbn [Index]; case_decide as Hp; try done.
  - intros [= <-]. rewrite drop_0. apply prefix_length in Hp as ?.
    split_all; [done|lia|lia].
  - intros [= <-]. rewrite drop_0. apply prefix_length in Hp as ?.
    split_all; [done|lia|lia].
  - destruct (Index s sub) as [k|]; intros [= <-]. destruct (IH k eq_refl) as (?&?&Hj).
    split_all; [done|simpl; lia|]. intros [|j] ?; [done|]. apply Hj. lia.
Qed.

Lemma Index_None s sub : Index s sub = None → ∀ j, (j ≤ length s)%nat → ¬ sub `prefix_of` drop j s.
Proof.
  induction s as [|b s IH]; cbn [Index]; case_decide as Hp; try done; intros Hn j Hj.
  - simpl in Hj. by replace j with 0%nat by lia.
  - destruct (Index s sub); [done|]. destruct j as [|j]; [done|]. apply IH; [done|].
    simpl in Hj. lia.
Qed.

Lemma Contains_spec s sub : Contains s sub = true ↔ ∃ p q, s = p ++ sub ++ q.
Proof.
  unfold Contains. rewrite bool_decide_eq_true. split.
  - intros [i Hi]. apply Index_Some in Hi as ([k Hk] & _ & _).
    exists (take i s), k. by rewrite <- Hk, take_drop.
  - intros (p & q & ->). destruct (Index _ sub) eqn:E; [by eauto|exfalso].
    eapply (Index_None _ _ E (length p)); [rewrite length_app; lia|].
    rewrite drop_app_length. by exists q.
Qed.

Lemma Split_ne s sep : Split s sep ≠ [].
Proof. unfold Split. destruct (length s); simpl; [done|by case_match]. Qed.

Lemma Join_cons p ps sep : ps ≠ [] → Join (p :: ps) sep = p ++ sep ++ Join ps sep.
Proof. by destruct ps. Qed.

Lemma split_fuel_ne n s sep : split_fuel n s sep ≠ [].
Proof. destruct n; simpl; [done|by case_match]. Qed.

(** Joining the parts of a split gives the string back. *)
Lemma Join_Split s sep : sep ≠ [] → Join (Split s sep) sep = s.
Proof.
  intros Hsep. unfold Split. generalize (length s) as n. intros n. revert s.
  induction n as [|n IH]; intros s; simpl; [done|].
  destruct (Index s sep) as [m|] eqn:E; [|done].
  rewrite Join_cons by apply split_fuel_ne. rewrite IH.
  apply Index_Some in E as ([k Hk] & Hlen & _).
  rewrite <- (take_drop m s) at 3. f_equal.
  rewrite <- drop_drop, Hk. by rewrite drop_app_length.
Qed.

Lemma lor_ge_0x80 a b : 0x80 ≤ a → 0 ≤ b → 0x80 ≤ Z.lor a b.
Proof.
  intros Ha Hb. destruct (decide (0x80 ≤ Z.lor a b)) as [|Hn]; [done|exfalso].
  assert (0 ≤ Z.lor a b) by (apply Z.lor_nonneg; lia).
  assert (Z.log2 (Z.lor a b) ≤ 6) by (apply (Z.log2_le_mono _ 127); lia).
  rewrite Z.log2_lor in * by lia.
  pose proof (Z.log2_le_mono 0x80 a Ha). change (Z.log2 0x80) with 7 in *. lia.
Qed.

(** A rune is encoded by one ASCII byte, or its first byte is not ASCII. *)
Lemma EncodeRune_head r : 0 ≤ r →
  Utf8.EncodeRune r = [r] ∧ r < 0x80 ∨
  ∃ b q, Utf8.EncodeRune r = b :: q ∧ 0x80 ≤ b.
Proof.
  intros Hr. unfold Utf8.EncodeRune.
  repeat case_decide; try lia; [by left; split; [|lia]|right..];
    eexists _, _; (split; [reflexivity|]); (apply lor_ge_0x80; [lia|]);
    apply Z.shiftr_nonneg; unfold Utf8.RuneError; lia.
Qed.

Lemma prefix_mjoin_encode (f : Z → Z) (rs : list (Z * nat)) k :
  Forall (λ b, b < 0x80) k →
  k `prefix_of` mjoin ((λ rw, encode_mapped (f rw.1)) <$> rs) → (length k ≤ length rs)%nat.
Proof.
  revert k. induction rs as [|[r w] rs IH]; intros k Hk Hp; cbn in Hp.
  { apply prefix_nil_inv in Hp. by subst. }
  destruct k as [|b k]; [simpl; lia|]. inv Hk.
  unfold encode_mapped in Hp at 1. case_decide.
  { cbn [app] in Hp. apply IH in Hp; [simpl in *; lia|by constructor]. }
  destruct (EncodeRune_head (f r)) as [[E ?]|(b' & q & E & ?)]; [lia|..]; rewrite E in Hp.
  - apply prefix_cons_inv_2 in Hp. apply IH in Hp; [simpl; lia|done].
  - apply prefix_cons_inv_1 in Hp. lia.
Qed.

Lemma length_runes s : (length (Utf8.runes s) ≤ length s)%nat.
Proof.
  unfold Utf8.runes. rewrite <- (Utf8.runes_fuel_width (length s) s) at 2 by done.
  generalize (length s) as n. intros n. revert s. induction n as [|n IH]; intros [|b q]; try done.
  cbn [Utf8.runes_fuel]. pose proof (Utf8.DecodeRune_width (b :: q) ltac:(done)).
  destruct (Utf8.DecodeRune (b :: q)) as [r w]. cbn [length sum_list_with snd] in *.
  specialize (IH (drop w (b :: q))). lia.
Qed.

(** The ASCII prefix of a lower-cased string is at most as long as the string. *)
Lemma ToLower_prefix_length `{UnicodeTables} s k :
  Forall (λ b, b < 0x80) k → k `prefix_of` ToLower s → (length k ≤ length s)%nat.
Proof.
  intros Hk Hp. unfold ToLower in Hp. case_decide.
  - apply prefix_length in Hp. by rewrite length_fmap in Hp.
  - unfold Map in Hp. apply prefix_mjoin_encode in Hp; [|done].
    pose proof (length_runes s). lia.
Qed.

Lemma ascii_lower_idem b : ascii_lower (ascii_lower b) = ascii_lower b.
Proof. unfold ascii_lower. repeat case_decide; lia. Qed.

Lemma ToLower_ascii `{UnicodeTables} s :
  Forall (λ b, b < 0x80) s → ToLower s = ascii_lower <$> s.
Proof. intros. unfold ToLower. by case_decide. Qed.

(** ** Split after Join *)

Lemma Index_app_sep c sep p r :
  c ∉ p → Index (p ++ (c :: sep) ++ r) (c :: sep) = Some (length p).
Proof.
  induction p as [|b p IH]; intros Hc.
  - cbn [app length Index]. rewrite decide_True; [done|]. by apply prefix_cons, prefix_app_r.
  - apply not_elem_of_cons in Hc as [Hb Hc]. cbn [app Index]. rewrite decide_False.
    + cbn [app] in IH. by rewrite IH.
    + intros Hp. by apply prefix_cons_inv_1 in Hp.
Qed.

Lemma Index_no_sep c sep p : c ∉ p → Index p (c :: sep) = None.
Proof.
  induction p as [|b p IH]; intros Hc; cbn [Index].
  - rewrite decide_False; [done|]. by intros ?%prefix_nil_inv.
  - apply not_elem_of_cons in Hc as [Hb Hc]. rewrite decide_False; [by rewrite IH|].
    by intros ?%prefix_cons_inv_1.
Qed.

Lemma split_fuel_Join c sep parts n :
  parts ≠ [] → Forall (λ p, c ∉ p) parts → (length parts ≤ S n)%nat →
  split_fuel n (Join parts (c :: sep)) (c :: sep) = parts.
Proof.
  intros Hne Hall. revert n. induction Hall as [|p parts Hp Hall IH]; intros n Hn; [done|].
  destruct parts as [|q parts].
  - cbn [Join]. destruct n; cbn [split_fuel]; [done|]. by rewrite Index_no_sep.
  - rewrite Join_cons by done. destruct n as [|n]; [simpl in Hn; lia|]. cbn [split_fuel].
    rewrite Index_app_sep by done. rewrite take_app_length. f_equal.
    rewrite <- drop_drop, drop_app_length, drop_app_length.
    apply IH; [done|simpl in *; lia].
Qed.

Lemma length_Join parts sep :
  sep ≠ [] → (length parts ≤ S (length (Join parts sep)))%nat.
Proof.
  intros Hsep. induction parts as [|p parts IH]; [simpl; lia|].
  destruct parts as [|q parts]; [simpl; lia|]. rewrite Join_cons by done.
  rewrite !length_app. destruct sep; [done|]. cbn [length] in *. lia.
Qed.

(** Splitting what was joined gives the parts back, when the first byte of the
    separator occurs in no part. *)
Lemma Split_Join c sep parts :
  parts ≠ [] → Forall (λ p, c ∉ p) parts → Split (Join parts (c :: sep)) (c :: sep) = parts.
Proof. intros. apply split_fuel_Join; [done..|]. by apply length_Join. Qed.
