(* ===== verification/NetIP.v ===== *)
(** IP addresses as Go's packages [net] and [net/netip] handle them: the text
    forms ([ParseIP], [ParseCIDR], [IP.String]), the classes of addresses
    ([IsPrivate], [IsLoopback], ...) and [IPNet.Contains]. *)
From S2P Require Import Prelude GoText.

(** A [net.IP] is a byte slice of length 4 or 16, or nil ([None]). *)
Abbreviation IP := (option bytes).

Definition v4in6Prefix : bytes := [0;0;0;0;0;0;0;0;0;0;0xff;0xff].

Definition To4 (ip : bytes) : option bytes :=
  if decide (length ip = 4%nat) then Some ip
  else if decide (length ip = 16%nat ∧ take 12 ip = v4in6Prefix) then Some (drop 12 ip)
  else None.

Definition To16 (ip : bytes) : option bytes :=
  if decide (length ip = 4%nat) then Some (v4in6Prefix ++ ip)
  else if decide (length ip = 16%nat) then Some ip
  else None.

Definition IP_Equal (ip x : bytes) : bool :=
  if decide (length ip = length x) then bool_decide (ip = x)
  else if decide (length ip = 4 ∧ length x = 16)%nat
  then bool_decide (take 12 x = v4in6Prefix ∧ ip = drop 12 x)
  else if decide (length ip = 16 ∧ length x = 4)%nat
  then bool_decide (take 12 ip = v4in6Prefix ∧ drop 12 ip = x)
  else false.

Definition IPv6loopback : bytes := replicate 15 0 ++ [1].
Definition IPv6unspecified : bytes := replicate 16 0.
Definition IPv4zero : bytes := v4in6Prefix ++ [0;0;0;0].

(** [at_ ip i] is [ip[i]] for an index the caller has checked. *)
Definition at_ (ip : bytes) (i : nat) : Z := default 0 (ip !! i).

Definition IsUnspecified (ip : bytes) : bool := IP_Equal ip IPv4zero || IP_Equal ip IPv6unspecified.

Definition IsLoopback (ip : bytes) : bool :=
  match To4 ip with
  | Some ip4 => bool_decide (at_ ip4 0 = 127)
  | None => IP_Equal ip IPv6loopback
  end.

Definition IsPrivate (ip : bytes) : bool :=
  match To4 ip with
  | Some ip4 =>
    bool_decide (at_ ip4 0 = 10)
    || bool_decide (at_ ip4 0 = 172 ∧ Z.land (at_ ip4 1) 0xf0 = 16)
    || bool_decide (at_ ip4 0 = 192 ∧ at_ ip4 1 = 168)
  | None => bool_decide (length ip = 16%nat ∧ Z.land (at_ ip 0) 0xfe = 0xfc)
  end.

Definition IsLinkLocalUnicast (ip : bytes) : bool :=
  match To4 ip with
  | Some ip4 => bool_decide (at_ ip4 0 = 169 ∧ at_ ip4 1 = 254)
  | None => bool_decide (length ip = 16%nat ∧ at_ ip 0 = 0xfe ∧ Z.land (at_ ip 1) 0xc0 = 0x80)
  end.

Definition IsLinkLocalMulticast (ip : bytes) : bool :=
  match To4 ip with
  | Some ip4 => bool_decide (at_ ip4 0 = 224 ∧ at_ ip4 1 = 0 ∧ at_ ip4 2 = 0)
  | None => bool_decide (length ip = 16%nat ∧ at_ ip 0 = 0xff ∧ Z.land (at_ ip 1) 0x0f = 0x02)
  end.

(** ** Masks and networks *)

(** [CIDRMask(ones, bits)] for [0 <= ones <= bits] and [bits] 32 or 128. *)
Fixpoint mask_bytes (k : nat) (ones : Z) : bytes :=
  match k with
  | O => []
  | S k => if decide (8 ≤ ones) then 0xff :: mask_bytes k (ones - 8)
           else (0xff - (Z.shiftr 0xff ones)) :: mask_bytes k 0
  end.
Definition CIDRMask (ones bits : Z) : bytes := mask_bytes (Z.to_nat (bits / 8)) ones.

Definition and_bytes (a b : bytes) : bytes := zip_with Z.land a b.

Definition all_ff : bytes := replicate 12 0xff.

(** [IP.Mask]. *)
Definition IP_Mask (ip mask : bytes) : option bytes :=
  let mask' := if decide (length mask = 16 ∧ length ip = 4 ∧ take 12 mask = all_ff)%nat
               then drop 12 mask else mask in
  let ip' := if decide (length mask' = 4 ∧ length ip = 16 ∧ take 12 ip = v4in6Prefix)%nat
             then drop 12 ip else ip in
  if decide (length ip' = length mask') then Some (and_bytes ip' mask') else None.

Record IPNet := { net_IP : bytes; net_Mask : bytes }.

Definition networkNumberAndMask (n : IPNet) : option (bytes * bytes) :=
  let ip := match To4 (net_IP n) with
            | Some ip4 => Some ip4
            | None => if decide (length (net_IP n) = 16%nat) then Some (net_IP n) else None
            end in
  match ip with
  | None => None
  | Some ip =>
    if decide (length (net_Mask n) = 4%nat) then
      if decide (length ip = 4%nat) then Some (ip, net_Mask n) else None
    else if decide (length (net_Mask n) = 16%nat) then
      if decide (length ip = 4%nat) then Some (ip, drop 12 (net_Mask n)) else Some (ip, net_Mask n)
    else None
  end.

(** [IPNet.Contains]. *)
Definition IPNet_Contains (n : IPNet) (ip : bytes) : bool :=
  let '(nn, m) := default ([], []) (networkNumberAndMask n) in
  let ip := default ip (To4 ip) in
  bool_decide (length ip = length nn ∧ and_bytes nn m = and_bytes ip m).

(** ** Text forms *)

Definition is_digit (c : Z) : bool := bool_decide (48 ≤ c ≤ 57).

(** [parseIPv4Fields]: the loop over the characters with its local variables
    [val], [pos], [digLen] and the previous character. *)
Fixpoint parseIPv4Fields (s : bytes) (first : bool) (prev : Z) (val : Z) (digLen : nat)
    (fields : bytes) : option bytes :=
  match s with
  | [] => if decide (length fields < 3)%nat then None else Some (fields ++ [val])
  | c :: s' =>
    if is_digit c then
      if decide (digLen = 1%nat ∧ val = 0) then None
      else let val := val * 10 + (c - 48) in
           if decide (val > 255) then None
           else parseIPv4Fields s' false c val (S digLen) fields
    else if decide (c = 46) then
      if decide (first = true ∨ s' = [] ∨ prev = 46) then None
      else if decide (length fields = 3%nat) then None
      else parseIPv4Fields s' false c 0 0 (fields ++ [val])
    else None
  end.

Definition parseIPv4 (s : bytes) : option bytes := parseIPv4Fields s true 0 0 0 [].

Definition hex_digit (c : Z) : option Z :=
  if decide (48 ≤ c ≤ 57) then Some (c - 48)
  else if decide (97 ≤ c ≤ 102) then Some (c - 97 + 10)
  else if decide (65 ≤ c ≤ 70) then Some (c - 65 + 10)
  else None.

(** The inner loop of [parseIPv6]: a hex number of at most four digits; the
    result is its value, the number of digits and the rest. *)
Fixpoint parse_hex16 (s : bytes) (off : nat) (acc : Z) : option (Z * nat * bytes) :=
  match s with
  | [] => Some (acc, off, s)
  | c :: s' =>
    match hex_digit c with
    | None => Some (acc, off, s)
    | Some d =>
      let acc := acc * 16 + d in
      if decide (3 < off)%nat then None
      else if decide (acc > 0xffff) then None
      else parse_hex16 s' (S off) acc
    end
  end.

(** The outer loop of [parseIPv6].  [out] holds the bytes written so far (its
    length is the local [i]); each round writes two bytes or stops, so eight
    rounds are enough. *)
Fixpoint parseIPv6_loop (n : nat) (s : bytes) (out : bytes) (ellipsis : option nat)
    : option (bytes * bytes * option nat) :=
  match n with
  | O => Some (s, out, ellipsis)
  | S n =>
    match parse_hex16 s 0 0 with
    | None => None
    | Some (acc, off, rest) =>
      if decide (off = 0%nat) then None
      else if decide (head rest = Some 46) then
        if decide (ellipsis = None ∧ length out ≠ 12%nat) then None
        else if decide (16 < length out + 4)%nat then None
        else match parseIPv4 s with
             | None => None
             | Some f => Some ([], out ++ f, ellipsis)
             end
      else
        let out := out ++ [acc / 256; acc mod 256] in
        match rest with
        | [] => Some ([], out, ellipsis)
        | c :: s1 =>
          if decide (c ≠ 58) then None
          else match s1 with
               | [] => None
               | c1 :: s2 =>
                 if decide (c1 = 58) then
                   if decide (ellipsis ≠ None) then None
                   else match s2 with
                        | [] => Some ([], out, Some (length out))
                        | _ => parseIPv6_loop n s2 out (Some (length out))
                        end
                 else parseIPv6_loop n s1 out ellipsis
               end
        end
    end
  end.

Definition expand_ellipsis (out : bytes) (e : nat) : bytes :=
  take e out ++ replicate (16 - length out) 0 ++ drop e out.

(** [parseIPv6] on the part before the zone. *)
Definition parseIPv6 (s : bytes) : option bytes :=
  let lead := HasPrefix s [58; 58] in
  let s' := if lead then drop 2 s else s in
  if decide (lead = true ∧ s' = []) then Some IPv6unspecified
  else
    match parseIPv6_loop 8 s' [] (if lead then Some 0%nat else None) with
    | None => None
    | Some (rest, out, ellipsis) =>
      if decide (rest ≠ []) then None
      else if decide (length out < 16)%nat then
        match ellipsis with
        | None => None
        | Some e => Some (expand_ellipsis out e)
        end
      else match ellipsis with Some _ => None | None => Some out end
    end.

(** [netip.ParseAddr] restricted to addresses without a zone, which is what
    [net.ParseIP] and [net.ParseCIDR] accept: the first of ['.'], [':'], ['%']
    decides the family. *)
Fixpoint parse_family (s : bytes) : option bool :=
  match s with
  | [] => None
  | c :: s' => if decide (c = 46) then Some true
               else if decide (c = 58) then Some false
               else if decide (c = 37) then None
               else parse_family s'
  end.

Definition ParseAddr (s : bytes) : option bytes :=
  match parse_family s with
  | None => None
  | Some true => parseIPv4 s
  | Some false => if decide (37 ∈ s) then None else parseIPv6 s
  end.

(** [net.ParseIP]: always the 16-byte form. *)
Definition ParseIP (s : bytes) : IP := ParseAddr s ≫= To16.

(** [dtoi] applied to a whole string: decimal digits, below the constant
    [big] = 0xFFFFFF. *)
Fixpoint dtoi_all (s : bytes) (n : Z) : option Z :=
  match s with
  | [] => Some n
  | c :: s' => if is_digit c then
                 let n := n * 10 + (c - 48) in
                 if decide (0xFFFFFF ≤ n) then None else dtoi_all s' n
               else None
  end.

(** [net.ParseCIDR], keeping the network it returns. *)
Definition ParseCIDR (s : bytes) : option IPNet :=
  match Index s [47] with
  | None => None
  | Some i =>
    let addr := take i s in
    let mask := drop (S i) s in
    match ParseAddr addr with
    | None => None
    | Some ip =>
      let bits := Z.of_nat (length ip) * 8 in
      match mask, dtoi_all mask 0 with
      | _ :: _, Some n =>
        if decide (n > bits) then None
        else
          let m := CIDRMask n bits in
          match To16 ip with
          | Some ip16 => match IP_Mask ip16 m with
                         | Some nip => Some {| net_IP := nip; net_Mask := m |}
                         | None => None
                         end
          | None => None
          end
      | _, _ => None
      end
    end
  end.

(** ** Printing *)

Definition dec_byte (v : Z) : bytes :=
  if decide (v < 10) then [48 + v]
  else if decide (v < 100) then [48 + v / 10; 48 + v mod 10]
  else [48 + v / 100; 48 + (v / 10) mod 10; 48 + v mod 10].

Definition string4 (ip4 : bytes) : bytes := Join (dec_byte <$> ip4) [46].

Definition hex_char (d : Z) : Z := if decide (d < 10) then 48 + d else 97 + (d - 10).

Definition hex16 (v : Z) : bytes :=
  if decide (v < 16) then [hex_char v]
  else if decide (v < 256) then [hex_char (v / 16); hex_char (v mod 16)]
  else if decide (v < 4096) then
    [hex_char (v / 256); hex_char ((v / 16) mod 16); hex_char (v mod 16)]
  else [hex_char (v / 4096); hex_char ((v / 256) mod 16); hex_char ((v / 16) mod 16);
        hex_char (v mod 16)].

Fixpoint v6_groups (ip : bytes) : list Z :=
  match ip with
  | a :: b :: ip' => (a * 256 + b) :: v6_groups ip'
  | _ => []
  end.

(** The number of leading zero groups. *)
Fixpoint zero_run (g : list Z) : nat :=
  match g with
  | 0 :: g' => S (zero_run g')
  | _ => 0%nat
  end.

(** The first longest run of at least two zero groups, as the loop of
    [appendTo6] finds it. *)
Fixpoint longest_zeros (g : list Z) (i : nat) (best : option (nat * nat)) : option (nat * nat) :=
  match g with
  | [] => best
  | _ :: g' =>
    let l := zero_run g in
    let cur := match best with Some (s, e) => (e - s)%nat | None => 0%nat end in
    let best := if decide (2 ≤ l ∧ cur < l)%nat then Some (i, (i + l)%nat) else best in
    longest_zeros g' (S i) best
  end.

Definition colon_groups (g : list Z) : bytes := Join (hex16 <$> g) [58].

Definition string6 (ip : bytes) : bytes :=
  let g := v6_groups ip in
  match longest_zeros g 0 None with
  | None => colon_groups g
  | Some (s, e) => colon_groups (take s g) ++ [58; 58] ++ colon_groups (drop e g)
  end.

(** [IP.String] for addresses of length 4 and 16. *)
Definition IP_String (ip : bytes) : bytes :=
  match To4 ip with
  | Some ip4 => string4 ip4
  | None => string6 ip
  end.

(** ** Facts about masks *)

(** A check over all pairs of a mask length below 8 and a byte. *)
Definition check_partial_mask : bool :=
  forallb (λ o, forallb (λ b,
    bool_decide (Z.land (Z.of_nat b) (0xff - Z.shiftr 0xff (Z.of_nat o)) =
                 (Z.of_nat b / 2 ^ (8 - Z.of_nat o)) * 2 ^ (8 - Z.of_nat o)))
    (seq 0 256)) (seq 0 8).

Lemma partial_mask b o : is_byte b → 0 ≤ o < 8 →
  Z.land b (0xff - Z.shiftr 0xff o) = (b / 2 ^ (8 - o)) * 2 ^ (8 - o).
Proof.
  intros Hb Ho. assert (check_partial_mask = true) as H by (vm_compute; reflexivity).
  unfold check_partial_mask in H. rewrite forallb_forall in H.
  specialize (H (Z.to_nat o)). rewrite in_seq in H. specialize (H ltac:(lia)).
  cbv beta in H. rewrite forallb_forall in H. specialize (H (Z.to_nat b)).
  rewrite in_seq in H. unfold is_byte in Hb. specialize (H ltac:(lia)).
  cbv beta in H. apply bool_decide_eq_true in H. by rewrite !Z2Nat.id in H by lia.
Qed.

Lemma land_0xff b : is_byte b → Z.land b 0xff = b.
Proof. intros. change 0xff with (Z.ones 8). rewrite Z.land_ones by lia. by apply Z.mod_small. Qed.

Lemma and_bytes_mask_0 k a b :
  length a = k → length b = k → and_bytes a (mask_bytes k 0) = and_bytes b (mask_bytes k 0).
Proof.
  revert a b. induction k as [|k IH]; intros [|x a] [|y b] Ha Hb; try done.
  cbn [mask_bytes]. case_decide; [lia|]. cbn [and_bytes zip_with].
  change (0xff - Z.shiftr 0xff 0) with 0. rewrite !Z.land_0_r. f_equal.
  apply IH; simpl in *; lia.
Qed.

Lemma be_cons_div k b l e : wf_bytes l → length l = k → 0 ≤ e ≤ 8 →
  be_val (b :: l) / 2 ^ (8 * Z.of_nat k + e) = b / 2 ^ e.
Proof.
  intros Hl Hk He. rewrite be_val_cons, Hk.
  replace (256 ^ Z.of_nat k) with (2 ^ (8 * Z.of_nat k)) by (rewrite Z.pow_mul_r by lia; done).
  rewrite Z.pow_add_r by lia. rewrite <- Z.div_div by lia.
  rewrite Z.div_add_l by lia. rewrite (Z.div_small (be_val l)); [f_equal; lia|].
  pose proof (be_val_bound l Hl) as H. rewrite Hk in H.
  by rewrite Z.pow_mul_r by lia.
Qed.

Lemma be_cons_div_low k b l e : length l = k → 0 ≤ e ≤ 8 * Z.of_nat k →
  be_val (b :: l) / 2 ^ e = b * 2 ^ (8 * Z.of_nat k - e) + be_val l / 2 ^ e.
Proof.
  intros Hk He. rewrite be_val_cons, Hk.
  replace (256 ^ Z.of_nat k) with (2 ^ (8 * Z.of_nat k - e) * 2 ^ e).
  { rewrite Z.mul_assoc, Z.div_add_l by lia. done. }
  rewrite <- Z.pow_add_r by lia. change 256 with (2 ^ 8). rewrite <- Z.pow_mul_r by lia.
  f_equal. lia.
Qed.

Lemma be_val_div_bound k l e : wf_bytes l → length l = k → 0 ≤ e ≤ 8 * Z.of_nat k →
  0 ≤ be_val l / 2 ^ e < 2 ^ (8 * Z.of_nat k - e).
Proof.
  intros Hl Hk He. pose proof (be_val_bound l Hl) as [H0 H1]. rewrite Hk in H1. split.
  { apply Z.div_pos; lia. }
  apply Z.div_lt_upper_bound; [lia|]. rewrite <- Z.pow_add_r by lia.
  change 256 with (2 ^ 8) in H1. rewrite <- Z.pow_mul_r in H1 by lia.
  by replace (e + (8 * Z.of_nat k - e)) with (8 * Z.of_nat k) by lia.
Qed.

(** Two addresses agree under a mask of [n] ones exactly when their first [n]
    bits agree. *)
Lemma mask_agree k a b n :
  wf_bytes a → wf_bytes b → length a = k → length b = k → 0 ≤ n ≤ 8 * Z.of_nat k →
  and_bytes a (mask_bytes k n) = and_bytes b (mask_bytes k n) ↔
  be_val a / 2 ^ (8 * Z.of_nat k - n) = be_val b / 2 ^ (8 * Z.of_nat k - n).
Proof.
  intros Ha. revert k b n. induction Ha as [|x a Hx Ha IH]; intros k b n Hb Hk Hk' Hn.
  { destruct b; [|simpl in *; lia]. simpl in *. by subst k. }
  destruct Hb as [|y b Hy Hb]; [simpl in *; lia|].
  destruct k as [|k]; [done|]. simpl in Hk, Hk'. injection Hk as Hk. injection Hk' as Hk'.
  cbn [mask_bytes]. unfold is_byte in *. case_decide as Hc; cbn [and_bytes zip_with].
  - rewrite !land_0xff by done. fold (and_bytes a (mask_bytes k (n - 8))).
    fold (and_bytes b (mask_bytes k (n - 8))).
    specialize (IH k b (n - 8) Hb Hk Hk' ltac:(lia)).
    replace (8 * Z.of_nat (S k) - n) with (8 * Z.of_nat k - (n - 8)) by lia.
    pose proof (be_val_div_bound k a (8 * Z.of_nat k - (n - 8)) Ha Hk ltac:(lia)).
    pose proof (be_val_div_bound k b (8 * Z.of_nat k - (n - 8)) Hb Hk' ltac:(lia)).
    rewrite !(be_cons_div_low k) by (done || lia).
    split.
    + intros [= -> Heq]. apply IH in Heq. by rewrite Heq.
    + intros Heq. assert (x = y) as -> by nia. f_equal. apply IH. lia.
  - rewrite !partial_mask by (unfold is_byte; lia).
    fold (and_bytes a (mask_bytes k 0)). fold (and_bytes b (mask_bytes k 0)).
    rewrite (and_bytes_mask_0 k a b) by done.
    replace (8 * Z.of_nat (S k) - n) with (8 * Z.of_nat k + (8 - n)) by lia.
    rewrite !be_cons_div by (done || lia).
    assert (2 ^ (8 - n) ≠ 0) by (apply Z.pow_nonzero; lia).
    split; [intros [= H2]; nia|by intros ->].
Qed.

(** ** Text round trip *)

Lemma parse_digit d s first prev val digLen fields :
  0 ≤ d ≤ 9 → ¬ (digLen = 1%nat ∧ val = 0) → val * 10 + d ≤ 255 →
  parseIPv4Fields ((48 + d) :: s) first prev val digLen fields =
  parseIPv4Fields s false (48 + d) (val * 10 + d) (S digLen) fields.
Proof.
  intros Hd Hl Hv. cbn [parseIPv4Fields]. unfold is_digit.
  rewrite bool_decide_eq_true_2 by lia. rewrite decide_False by done.
  replace (48 + d - 48) with d by lia. by rewrite decide_False by lia.
Qed.

Lemma parse_dec_byte v s first prev fields : is_byte v →
  ∃ prev' n', prev' ≠ 46 ∧
    parseIPv4Fields (dec_byte v ++ s) first prev 0 0 fields =
    parseIPv4Fields s false prev' v n' fields.
Proof.
  unfold is_byte. intros Hv.
  pose proof (Z.div_mod v 10). pose proof (Z.mod_pos_bound v 10).
  pose proof (Z.div_mod (v / 10) 10). pose proof (Z.mod_pos_bound (v / 10) 10).
  assert (v / 10 / 10 = v / 100) by (rewrite Z.div_div; done).
  unfold dec_byte. case_decide; [|case_decide]; cbn [app].
  - exists (48 + v), 1%nat. split; [lia|]. rewrite parse_digit by lia. by f_equal.
  - exists (48 + v mod 10), 2%nat. split; [lia|].
    rewrite !parse_digit by lia. f_equal. lia.
  - exists (48 + v mod 10), 3%nat. split; [lia|].
    rewrite !parse_digit by lia. f_equal. lia.
Qed.

Lemma parse_dot s prev v n fields :
  s ≠ [] → prev ≠ 46 → length fields ≠ 3%nat →
  parseIPv4Fields (46 :: s) false prev v n fields = parseIPv4Fields s false 46 0 0 (fields ++ [v]).
Proof.
  intros. cbn [parseIPv4Fields]. change (is_digit 46) with false. cbv iota.
  rewrite decide_True by done. rewrite decide_False by naive_solver. by rewrite decide_False.
Qed.

Lemma dec_byte_ne v : dec_byte v ≠ [].
Proof. unfold dec_byte. by repeat case_decide. Qed.

Lemma parseIPv4_string4 a b c d :
  wf_bytes [a; b; c; d] → parseIPv4 (string4 [a; b; c; d]) = Some [a; b; c; d].
Proof.
  intros H. repeat (apply Forall_cons in H as [? H]). unfold parseIPv4, string4.
  cbn [fmap list_fmap Join app].
  assert (∀ v (s : bytes), dec_byte v ++ s ≠ []) as Hne.
  { intros v s E. apply app_eq_nil in E as [E _]. by apply dec_byte_ne in E. }
  destruct (parse_dec_byte a (46 :: dec_byte b ++ 46 :: dec_byte c ++ 46 :: dec_byte d) true 0 [])
    as (p1 & n1 & ? & ->); [done|]. rewrite parse_dot by (done || apply Hne). cbn [app].
  destruct (parse_dec_byte b (46 :: dec_byte c ++ 46 :: dec_byte d) false 46 [a])
    as (p2 & n2 & ? & ->); [done|]. rewrite parse_dot by (done || apply Hne). cbn [app].
  destruct (parse_dec_byte c (46 :: dec_byte d) false 46 [a; b])
    as (p3 & n3 & ? & ->); [done|]. rewrite parse_dot by (done || apply dec_byte_ne). cbn [app].
  rewrite <- (app_nil_r (dec_byte d)).
  destruct (parse_dec_byte d [] false 46 [a; b; c]) as (p4 & n4 & ? & ->); done.
Qed.

Lemma parse_family_app s k :
  Forall (λ c, c ≠ 46 ∧ c ≠ 58 ∧ c ≠ 37) s → parse_family (s ++ k) = parse_family k.
Proof.
  induction 1 as [|c s (?&?&?) _ IH]; [done|]. cbn [app parse_family].
  by rewrite !decide_False by done.
Qed.

Lemma dec_byte_plain v : is_byte v → Forall (λ c, c ≠ 46 ∧ c ≠ 58 ∧ c ≠ 37) (dec_byte v).
Proof.
  unfold is_byte. intros Hv. pose proof (Z.mod_pos_bound v 10).
  pose proof (Z.mod_pos_bound (v / 10) 10).
  assert (v / 100 < 10) by (apply Z.div_lt_upper_bound; lia).
  assert (0 ≤ v / 100) by (apply Z.div_pos; lia).
  assert (0 ≤ v / 10) by (apply Z.div_pos; lia).
  unfold dec_byte. repeat case_decide; repeat constructor; try lia.
  all: assert (v / 10 < 10) by (apply Z.div_lt_upper_bound; lia); lia.
Qed.

Lemma ParseAddr_string4 ip4 :
  length ip4 = 4%nat → wf_bytes ip4 → ParseAddr (string4 ip4) = Some ip4.
Proof.
  intros Hl Hw. destruct ip4 as [|a [|b [|c [|d [|]]]]]; try done.
  unfold ParseAddr.
  assert (parse_family (string4 [a; b; c; d]) = Some true) as ->.
  { unfold string4. cbn [fmap list_fmap Join]. inv Hw.
    by rewrite parse_family_app by by apply dec_byte_plain. }
  by apply parseIPv4_string4.
Qed.

Lemma To4_cases ip ip4 : To4 ip = Some ip4 →
  length ip4 = 4%nat ∧ (ip = ip4 ∨ ip = v4in6Prefix ++ ip4).
Proof.
  unfold To4. case_decide; [by intros [= ->]; auto|]. case_decide as H2; [|done].
  destruct H2 as [H2 H3]. intros [= <-]. rewrite length_drop, H2. split; [done|right].
  rewrite <- H3. by rewrite take_drop.
Qed.

Lemma To16_v4 ip4 : length ip4 = 4%nat → To16 ip4 = Some (v4in6Prefix ++ ip4).
Proof. intros. unfold To16. by rewrite decide_True. Qed.

(** Printing an IPv4 address and parsing the text gives the address back, in
    the 16-byte form. *)
Lemma ParseIP_IP_String_v4 ip ip4 :
  To4 ip = Some ip4 → wf_bytes ip4 → ParseIP (IP_String ip) = Some (v4in6Prefix ++ ip4).
Proof.
  intros H4 Hw. pose proof (To4_cases _ _ H4) as [Hl _].
  unfold ParseIP, IP_String. rewrite H4, ParseAddr_string4 by done. cbn. by apply To16_v4.
Qed.
