(* ===== verification/NetIP6.v ===== *)
(** Printing and parsing of IPv6 literals: the text [IP.String] gives for an
    address parses back to it. *)
From S2P Require Import Prelude GoText NetIP.

Definition group_ok (v : Z) : Prop := is_uint 16 v.

(** The bytes of a list of 16-bit groups. *)
Definition group_bytes (g : list Z) : bytes := mjoin ((λ v, [v / 256; v mod 256]) <$> g).

Lemma group_bytes_cons v g : group_bytes (v :: g) = v / 256 :: v mod 256 :: group_bytes g.
Proof. done. Qed.

Lemma group_bytes_app g h : group_bytes (g ++ h) = group_bytes g ++ group_bytes h.
Proof. unfold group_bytes. by rewrite fmap_app, join_app. Qed.

Lemma group_bytes_length g : length (group_bytes g) = (2 * length g)%nat.
Proof. induction g as [|v g IH]; [done|]. rewrite group_bytes_cons. cbn [length]. lia. Qed.

Lemma group_bytes_zeros n : group_bytes (replicate n 0) = replicate (2 * n) 0.
Proof.
  induction n as [|n IH]; [done|]. cbn [replicate]. rewrite group_bytes_cons, IH.
  replace (2 * S n)%nat with (S (S (2 * n))) by lia. done.
Qed.

Lemma v6_groups_spec n ip :
  length ip = (2 * n)%nat → wf_bytes ip →
  group_bytes (v6_groups ip) = ip ∧ length (v6_groups ip) = n ∧ Forall group_ok (v6_groups ip).
Proof.
  revert ip. induction n as [|n IH]; intros ip Hl Hw; [by destruct ip|].
  destruct ip as [|a [|b ip]]; try (cbn in Hl; lia).
  apply Forall_cons in Hw as [Ha Hw]. apply Forall_cons in Hw as [Hb Hw].
  destruct (IH ip) as (H1 & H2 & H3); [cbn in Hl; lia|done|]. unfold is_byte in Ha, Hb.
  cbn [v6_groups]. rewrite group_bytes_cons, H1. cbn [length]. rewrite H2. split_all.
  - f_equal; [|f_equal].
    + rewrite Z.div_add_l, (Z.div_small b) by lia. lia.
    + rewrite Z.add_comm, Z.mod_add, Z.mod_small by lia. done.
  - done.
  - constructor; [|done]. unfold group_ok, is_uint. lia.
Qed.

(** ** One group *)

Lemma hex_digit_hex_char d : 0 ≤ d < 16 → hex_digit (hex_char d) = Some d.
Proof.
  intros. unfold hex_digit, hex_char. repeat case_decide; try lia; f_equal; lia.
Qed.

Lemma parse_hex_char d s off acc :
  0 ≤ d < 16 → (off ≤ 3)%nat → acc * 16 + d ≤ 0xffff →
  parse_hex16 (hex_char d :: s) off acc = parse_hex16 s (S off) (acc * 16 + d).
Proof.
  intros. cbn [parse_hex16]. rewrite hex_digit_hex_char by done. cbv zeta.
  by rewrite !decide_False by lia.
Qed.

(** The hexadecimal digits of a 16-bit group. *)
Lemma group_digits v : group_ok v →
  0 ≤ v mod 16 < 16 ∧ 0 ≤ (v / 16) mod 16 < 16 ∧ 0 ≤ (v / 256) mod 16 < 16 ∧
  0 ≤ v / 4096 < 16 ∧ v / 16 = (v / 256) * 16 + (v / 16) mod 16 ∧
  v / 256 = (v / 4096) * 16 + (v / 256) mod 16 ∧ v = (v / 16) * 16 + v mod 16.
Proof.
  unfold group_ok, is_uint. intros Hv.
  replace (v / 256) with (v / 16 / 16) by by rewrite Z.div_div.
  replace (v / 4096) with (v / 16 / 16 / 16) by by rewrite !Z.div_div.
  pose proof (Z.div_mod v 16). pose proof (Z.div_mod (v / 16) 16).
  pose proof (Z.div_mod (v / 16 / 16) 16). pose proof (Z.mod_pos_bound v 16).
  pose proof (Z.mod_pos_bound (v / 16) 16). pose proof (Z.mod_pos_bound (v / 16 / 16) 16).
  lia.
Qed.

Lemma hex16_parse v k :
  group_ok v → (match k with [] => True | c :: _ => hex_digit c = None end) →
  ∃ off, parse_hex16 (hex16 v ++ k) 0 0 = Some (v, S off, k).
Proof.
  intros Hv Hk. pose proof (group_digits v Hv) as Hd. unfold group_ok, is_uint in Hv. unfold hex16.
  assert (∀ acc off, parse_hex16 k off acc = Some (acc, off, k)) as Hstop.
  { intros. destruct k as [|c k]; cbn [parse_hex16]; [done|by rewrite Hk]. }
  repeat case_decide; eexists; cbn [app]; rewrite !parse_hex_char by lia;
    rewrite Hstop; do 3 f_equal; lia.
Qed.

Definition hex_or_colon (c : Z) : Prop := 48 ≤ c ≤ 58 ∨ 97 ≤ c ≤ 102.

Lemma hex_char_ok d : 0 ≤ d < 16 → hex_or_colon (hex_char d) ∧ hex_char d ≠ 58.
Proof. unfold hex_or_colon, hex_char. case_decide; lia. Qed.

Lemma hex16_chars v : group_ok v → Forall (λ c, hex_or_colon c ∧ c ≠ 58) (hex16 v).
Proof.
  intros Hv. pose proof (group_digits v Hv) as Hd. unfold group_ok, is_uint in Hv. unfold hex16.
  repeat case_decide; repeat (constructor; [apply hex_char_ok; lia|]); constructor.
Qed.

Lemma hex16_ne v : ∃ c r, hex16 v = c :: r.
Proof. unfold hex16. repeat case_decide; eauto. Qed.

Lemma colon_groups_cons v g : g ≠ [] → colon_groups (v :: g) = hex16 v ++ 58 :: colon_groups g.
Proof. intros Hg. unfold colon_groups. destruct g as [|w g]; [done|]. done. Qed.

Lemma colon_groups_chars g : Forall group_ok g → Forall hex_or_colon (colon_groups g).
Proof.
  induction 1 as [|v g Hv Hg IH]; [by constructor|].
  assert (Forall hex_or_colon (hex16 v)) as Hh.
  { eapply Forall_impl; [by apply hex16_chars|]. by intros c [? _]. }
  destruct g as [|w g]; [done|]. rewrite colon_groups_cons by done.
  apply Forall_app. split; [done|]. constructor; [unfold hex_or_colon; lia|done].
Qed.

Lemma colon_groups_head g : Forall group_ok g → g ≠ [] →
  ∃ c r, colon_groups g = c :: r ∧ c ≠ 58.
Proof.
  intros Hg Hne. destruct g as [|v g]; [done|]. apply Forall_cons in Hg as [Hv _].
  pose proof (hex16_chars v Hv) as Hc. destruct (hex16_ne v) as (c & r & E). rewrite E in Hc.
  apply Forall_cons in Hc as [[_ Hc] _]. destruct g as [|w g].
  - exists c, r. by split.
  - rewrite colon_groups_cons by done. rewrite E. cbn [app]. eauto.
Qed.

(** ** The loop *)

Lemma loop_step n v k out e : group_ok v → (match k with [] => True | c :: _ => c = 58 end) →
  parseIPv6_loop (S n) (hex16 v ++ k) out e =
  let out := out ++ [v / 256; v mod 256] in
  match k with
  | [] => Some ([], out, e)
  | _ :: [] => None
  | _ :: c1 :: s2 =>
    if decide (c1 = 58) then
      if decide (e ≠ None) then None
      else match s2 with
           | [] => Some ([], out, Some (length out))
           | _ => parseIPv6_loop n s2 out (Some (length out))
           end
    else parseIPv6_loop n (c1 :: s2) out e
  end.
Proof.
  intros Hv Hk. destruct (hex16_parse v k Hv) as [off Hp].
  { destruct k as [|c k]; [done|]. by subst. }
  cbn [parseIPv6_loop]. rewrite Hp. rewrite decide_False by done.
  destruct k as [|c k]; [done|]. subst c. cbn [head]. rewrite decide_False by done.
  cbv zeta. rewrite decide_False by (intros Hc; by apply Hc). by destruct k.
Qed.

Lemma loop_groups g n out e :
  Forall group_ok g → g ≠ [] → (length g ≤ n)%nat →
  parseIPv6_loop n (colon_groups g) out e = Some ([], out ++ group_bytes g, e).
Proof.
  intros Hg. revert n out. induction Hg as [|v g Hv Hg IH]; intros n out Hne Hn; [done|].
  destruct n as [|n]; [cbn in Hn; lia|]. cbn [length] in Hn.
  destruct g as [|w g].
  - change (colon_groups [v]) with (hex16 v). rewrite <- (app_nil_r (hex16 v)).
    by rewrite loop_step.
  - rewrite colon_groups_cons by done. rewrite loop_step by done. cbv zeta.
    destruct (colon_groups_head (w :: g) Hg ltac:(done)) as (c & r & E & Hc).
    rewrite E, decide_False by done. rewrite <- E, IH by (done || lia).
    rewrite (group_bytes_cons v), <- app_assoc. done.
Qed.

Lemma loop_groups_ellipsis g n k out :
  Forall group_ok g → g ≠ [] →
  parseIPv6_loop (length g + n) (colon_groups g ++ 58 :: 58 :: k) out None =
  let out := out ++ group_bytes g in
  match k with
  | [] => Some ([], out, Some (length out))
  | _ => parseIPv6_loop n k out (Some (length out))
  end.
Proof.
  intros Hg. revert out. induction Hg as [|v g Hv Hg IH]; intros out Hne; [done|].
  cbn [length Nat.add]. destruct g as [|w g].
  - change (colon_groups [v]) with (hex16 v). by rewrite loop_step.
  - rewrite colon_groups_cons by done. rewrite <- app_assoc. cbn [app].
    rewrite loop_step by done. cbv zeta.
    destruct (colon_groups_head (w :: g) Hg ltac:(done)) as (c & r & E & Hc).
    rewrite E at 1. cbn [app]. rewrite decide_False by done.
    change (c :: r ++ 58 :: 58 :: k) with ((c :: r) ++ 58 :: 58 :: k).
    rewrite <- E, IH by done. cbv zeta. rewrite (group_bytes_cons v), <- app_assoc. done.
Qed.

(** ** The run of zeros *)

Definition zero_range (g : list Z) (s e : nat) : Prop :=
  (s + 2 ≤ e ≤ length g)%nat ∧ take (e - s) (drop s g) = replicate (e - s) 0.

Lemma zero_run_spec g : (zero_run g ≤ length g)%nat ∧ take (zero_run g) g = replicate (zero_run g) 0.
Proof.
  induction g as [|v g [IH1 IH2]]; [done|]. cbn [zero_run]. destruct v; cbn; split; try done; try lia.
  by f_equal.
Qed.

Lemma longest_zeros_spec g0 g i best s e :
  g = drop i g0 → (i ≤ length g0)%nat → (∀ s e, best = Some (s, e) → zero_range g0 s e) →
  longest_zeros g i best = Some (s, e) → zero_range g0 s e.
Proof.
  revert i best. induction g as [|v g IH]; intros i best Hg Hi Hb; cbn [longest_zeros]; [apply Hb|].
  apply IH.
  - assert (drop 1 (drop i g0) = g) as <- by by rewrite <- Hg.
    rewrite drop_drop. f_equal. lia.
  - apply (f_equal length) in Hg. cbn in Hg. rewrite length_drop in Hg. lia.
  - intros s' e'. pose proof (zero_run_spec (v :: g)) as [Hl Ht].
    remember (zero_run (v :: g)) as z. case_decide as Hd; [|apply Hb]. intros [= <- <-].
    unfold zero_range. rewrite <- Hg. replace (i + z - i)%nat with z by lia.
    split; [|done]. apply (f_equal length) in Hg. rewrite length_drop in Hg.
    destruct Hd. lia.
Qed.

Lemma zero_range_split g s e :
  zero_range g s e → g = take s g ++ replicate (e - s) 0 ++ drop e g.
Proof.
  intros [Hl Hz]. rewrite <- Hz. rewrite <- (take_drop s g) at 1. f_equal.
  rewrite <- (take_drop (e - s) (drop s g)) at 1. f_equal. rewrite drop_drop. f_equal. lia.
Qed.

(** ** Round trip *)

Lemma expand_zero_range g s e : length g = 8%nat → zero_range g s e →
  expand_ellipsis (group_bytes (take s g) ++ group_bytes (drop e g)) (length (group_bytes (take s g)))
  = group_bytes g.
Proof.
  intros Hg Hz. pose proof (zero_range_split g s e Hz) as Hs. destruct Hz as [Hr _].
  apply (f_equal group_bytes) in Hs. rewrite !group_bytes_app, group_bytes_zeros in Hs.
  rewrite Hs. unfold expand_ellipsis. rewrite take_app_length, drop_app_length. do 2 f_equal.
  rewrite length_app, !group_bytes_length, length_take, length_drop. f_equal. lia.
Qed.

Lemma HasPrefix_cons_ne c r k : c ≠ 58 → HasPrefix (c :: r) (58 :: k) = false.
Proof.
  intros. unfold HasPrefix. apply bool_decide_eq_false. intros Hp. by apply prefix_cons_inv_1 in Hp.
Qed.

Lemma parseIPv6_groups g : length g = 8%nat → Forall group_ok g →
  parseIPv6 (colon_groups g) = Some (group_bytes g).
Proof.
  intros Hl Hg. destruct (colon_groups_head g Hg) as (c & r & E & Hc); [by intros ->|].
  unfold parseIPv6. rewrite E, HasPrefix_cons_ne, <- E by done. cbv zeta.
  rewrite decide_False by (by intros [? _]). rewrite loop_groups by (done || lia || by intros ->).
  cbn [app]. rewrite decide_False by (intros Hc2; by apply Hc2). rewrite decide_False; [done|].
  rewrite group_bytes_length. lia.
Qed.

Lemma parseIPv6_ellipsis g s e : length g = 8%nat → Forall group_ok g → zero_range g s e →
  parseIPv6 (colon_groups (take s g) ++ [58; 58] ++ colon_groups (drop e g)) = Some (group_bytes g).
Proof.
  intros Hl Hg Hz. pose proof (expand_zero_range g s e Hl Hz) as Hx.
  pose proof (Forall_take _ s _ Hg) as Hg1. pose proof (Forall_drop _ e _ Hg) as Hg2.
  assert (length (take s g) = s ∧ length (drop e g) = 8 - e)%nat as [Hl1 Hl2].
  { destruct Hz. rewrite length_take, length_drop. lia. }
  assert ((s + 2 ≤ e ≤ 8)%nat) as Hse by (destruct Hz; lia).
  assert (drop e g ≠ [] → ∀ n, (8 - e ≤ n)%nat → ∀ out el,
    parseIPv6_loop n (colon_groups (drop e g)) out el =
    Some ([], out ++ group_bytes (drop e g), el)) as Hloop2.
  { intros. apply loop_groups; [done|done|lia]. }
  remember (take s g) as g1. remember (drop e g) as g2.
  assert (length (group_bytes g1 ++ group_bytes g2) < 16)%nat as Hlt.
  { rewrite length_app, !group_bytes_length. lia. }
  unfold parseIPv6. destruct g1 as [|v1 g1'].
  - change (colon_groups [] ++ [58; 58] ++ colon_groups g2) with (58 :: 58 :: colon_groups g2).
    assert (HasPrefix (58 :: 58 :: colon_groups g2) [58; 58] = true) as ->.
    { apply bool_decide_eq_true. by exists (colon_groups g2). }
    cbv zeta. cbn [drop].
    destruct g2 as [|v2 g2'].
    + rewrite decide_True by done. rewrite <- Hx. done.
    + destruct (colon_groups_head (v2 :: g2') Hg2 ltac:(done)) as (c & r & E & Hc).
      rewrite decide_False by (rewrite E; by intros [_ ?]). rewrite Hloop2 by (done || lia).
      rewrite decide_False by (intros Hc2; by apply Hc2). rewrite decide_True by done.
      by rewrite <- Hx.
  - destruct (colon_groups_head (v1 :: g1') Hg1 ltac:(done)) as (c & r & E & Hc).
    assert (∀ k, HasPrefix (colon_groups (v1 :: g1') ++ k) [58; 58] = false) as ->.
    { intros k. rewrite E. by apply HasPrefix_cons_ne. }
    cbv zeta. rewrite decide_False by (by intros [? _]). cbn [app].
    pose proof (loop_groups_ellipsis (v1 :: g1') (8 - s) (colon_groups g2) [] Hg1 ltac:(done)) as HL.
    replace (length (v1 :: g1') + (8 - s))%nat with 8%nat in HL by lia.
    rewrite HL. cbv zeta. cbn [app].
    destruct g2 as [|v2 g2'].
    + cbn [colon_groups fmap list_fmap Join].
      rewrite decide_False by (intros Hc2; by apply Hc2).
      rewrite app_nil_r in Hx, Hlt. rewrite decide_True by done. by rewrite <- Hx.
    + destruct (colon_groups_head (v2 :: g2') Hg2 ltac:(done)) as (c2 & r2 & E2 & Hc2).
      destruct (colon_groups (v2 :: g2')) as [|c2' r2'] eqn:E3; [done|].
      rewrite Hloop2 by (done || lia).
      rewrite decide_False by (intros Hc3; by apply Hc3). rewrite decide_True by done.
      by rewrite <- Hx.
Qed.

Lemma parse_family_v6 s : Forall hex_or_colon s → 58 ∈ s → parse_family s = Some false.
Proof.
  induction 1 as [|c s Hc _ IH]; intros Hin; [by apply elem_of_nil in Hin|].
  cbn [parse_family]. unfold hex_or_colon in Hc. rewrite decide_False by lia.
  case_decide; [done|]. rewrite decide_False by lia. apply IH.
  by apply elem_of_cons in Hin as [?|?].
Qed.

Lemma string6_chars ip : length ip = 16%nat → wf_bytes ip →
  Forall hex_or_colon (string6 ip) ∧ 58 ∈ string6 ip.
Proof.
  intros Hl Hw. destruct (v6_groups_spec 8 ip Hl Hw) as (_ & Hn & Hg). unfold string6.
  destruct (longest_zeros _ _ _) as [[s e]|]; split.
  - repeat (apply Forall_app; split); try (apply colon_groups_chars;
      by first [apply Forall_take|apply Forall_drop]).
    repeat constructor; unfold hex_or_colon; lia.
  - set_solver.
  - by apply colon_groups_chars.
  - destruct (v6_groups ip) as [|a [|b g]]; try done. rewrite colon_groups_cons by done. set_solver.
Qed.

Lemma ParseAddr_string6 ip : length ip = 16%nat → wf_bytes ip → ParseAddr (string6 ip) = Some ip.
Proof.
  intros Hl Hw. destruct (string6_chars ip Hl Hw) as [Hc Hin]. unfold ParseAddr.
  rewrite parse_family_v6 by done. rewrite decide_False.
  2:{ intros H37. rewrite Forall_forall in Hc. apply Hc in H37. unfold hex_or_colon in H37. lia. }
  destruct (v6_groups_spec 8 ip Hl Hw) as (Hb & Hn & Hg). unfold string6.
  destruct (longest_zeros _ _ _) as [[s e]|] eqn:E.
  - rewrite parseIPv6_ellipsis; [by rewrite Hb|done|done|].
    apply (longest_zeros_spec (v6_groups ip) _ 0 None s e) in E; [done|done|lia|done].
  - rewrite parseIPv6_groups by done. by rewrite Hb.
Qed.

(** Printing an address of either family and parsing the text gives it back,
    in the 16-byte form. *)
Lemma ParseIP_IP_String ip : wf_bytes ip → length ip = 4%nat ∨ length ip = 16%nat →
  ParseIP (IP_String ip) = To16 ip.
Proof.
  intros Hw Hl. destruct (To4 ip) as [ip4|] eqn:H4.
  - destruct (To4_cases ip ip4 H4) as [Hl4 [-> | ->]].
    + rewrite (ParseIP_IP_String_v4 ip4 ip4) by done. by rewrite To16_v4.
    + apply Forall_app in Hw as [_ Hw]. rewrite (ParseIP_IP_String_v4 _ ip4) by done.
      unfold To16. rewrite decide_False, decide_True; [done|..]; rewrite length_app, Hl4; done.
  - assert (length ip ≠ 4%nat) as Hn4 by (intros E; unfold To4 in H4; by rewrite decide_True in H4).
    destruct Hl as [|Hl]; [done|]. unfold IP_String, ParseIP. rewrite H4, ParseAddr_string6 by done.
    done.
Qed.

(** ** What the parser accepts *)

(** The characters of an address literal. *)
Definition ip_char (c : Z) : Prop :=
  48 ≤ c ≤ 58 ∨ 97 ≤ c ≤ 102 ∨ 65 ≤ c ≤ 70 ∨ c = 46.

Lemma is_digit_ip_char c : is_digit c = true → ip_char c ∧ 0 ≤ c - 48.
Proof. unfold is_digit, ip_char. intros ?%bool_decide_eq_true. lia. Qed.

Lemma hex_digit_ip_char c d : hex_digit c = Some d → ip_char c ∧ 0 ≤ d.
Proof. unfold hex_digit, ip_char. repeat case_decide; intros; simplify_eq; lia. Qed.

Lemma parseIPv4Fields_sound s first prev val dl fields r :
  wf_bytes fields → is_byte val → (length fields ≤ 3)%nat →
  parseIPv4Fields s first prev val dl fields = Some r →
  Forall ip_char s ∧ wf_bytes r ∧ length r = 4%nat.
Proof.
  revert first prev val dl fields. induction s as [|c s IH]; intros first prev val dl fields Hf Hv Hl.
  - cbn [parseIPv4Fields]. case_decide as Hd; [done|]. intros Hr. injection Hr as <-. split_all.
    + constructor.
    + apply Forall_app. by rewrite Forall_singleton.
    + rewrite length_app. cbn. lia.
  - cbn [parseIPv4Fields]. destruct (is_digit c) eqn:Ec.
    + apply is_digit_ip_char in Ec as [Ec1 Ec2]. case_decide; [done|]. cbv zeta.
      case_decide; [done|]. intros Hr. apply IH in Hr as (? & ? & ?); [split_all; [by constructor|done..]|done| |done].
      unfold is_byte in *. lia.
    + case_decide; [|done]. case_decide; [done|]. case_decide; [done|]. intros Hr.
      apply IH in Hr as (? & ? & ?); [|by apply Forall_app; rewrite Forall_singleton|done|
        rewrite length_app; cbn; lia].
      split_all; [constructor; [unfold ip_char; lia|done]|done|done].
Qed.

Lemma parse_hex16_sound s off acc acc' off' rest :
  0 ≤ acc ≤ 0xffff → parse_hex16 s off acc = Some (acc', off', rest) →
  0 ≤ acc' ≤ 0xffff ∧ ∃ p, s = p ++ rest ∧ Forall ip_char p.
Proof.
  revert off acc. induction s as [|c s IH]; intros off acc Ha; cbn [parse_hex16].
  - intros Hr. injection Hr as <- <- <-. split; [done|]. by exists [].
  - destruct (hex_digit c) as [d|] eqn:E.
    + cbv zeta. case_decide; [done|]. case_decide; [done|]. intros Hr.
      apply hex_digit_ip_char in E as [Ec Ed].
      apply IH in Hr as (? & p & -> & Hp); [|lia]. split; [done|]. exists (c :: p).
      by split; [|constructor].
    + intros Hr. injection Hr as <- <- <-. split; [done|]. by exists [].
Qed.

Lemma parse_hex16_wf acc out : 0 ≤ acc ≤ 0xffff → wf_bytes out → wf_bytes (out ++ [acc / 256; acc mod 256]).
Proof.
  intros. apply Forall_app. split; [done|].
  repeat constructor; unfold is_byte; Z.div_mod_to_equations; lia.
Qed.

Definition ellipsis_ok (e : option nat) (out : bytes) : Prop :=
  ∀ i, e = Some i → (i ≤ length out)%nat.

Lemma ellipsis_ok_app e out k : ellipsis_ok e out → ellipsis_ok e (out ++ k).
Proof. intros He i Hi. rewrite length_app. specialize (He i Hi). lia. Qed.

Lemma parseIPv6_loop_sound n s out e out' e' :
  wf_bytes out → ellipsis_ok e out → (length out + 2 * n ≤ 16)%nat →
  parseIPv6_loop n s out e = Some ([], out', e') →
  Forall ip_char s ∧ wf_bytes out' ∧ ellipsis_ok e' out' ∧ (length out' ≤ 16)%nat.
Proof.
  revert s out e. induction n as [|n IH]; intros s out e Hw He Hl; cbn [parseIPv6_loop].
  { intros Hr. injection Hr as -> <- <-. split_all; [constructor|done|done|lia]. }
  destruct (parse_hex16 s 0 0) as [[[acc off] rest]|] eqn:Eh; [|done].
  apply parse_hex16_sound in Eh as (Ha & p & -> & Hp); [|lia]. case_decide; [done|].
  pose proof (parse_hex16_wf acc out Ha Hw) as Hw'.
  assert (length (out ++ [acc / 256; acc mod 256]) = (length out + 2)%nat) as Hl' by by rewrite length_app.
  case_decide as Hdot.
  { case_decide; [done|]. case_decide; [done|]. destruct (parseIPv4 _) as [f|] eqn:E4; [|done].
    apply parseIPv4Fields_sound in E4 as (Hc & Hf & Hf4); [|constructor|done|cbn; lia].
    intros Hr. injection Hr as <- <-. split_all; [done|by apply Forall_app|by apply ellipsis_ok_app|].
    rewrite length_app. lia. }
  cbv zeta. remember (out ++ [acc / 256; acc mod 256]) as out1 eqn:Eo.
  assert (ellipsis_ok e out1) as He1 by (subst out1; by apply ellipsis_ok_app).
  assert (ellipsis_ok (Some (length out1)) out1) as Hes by (intros i [= <-]; done).
  destruct rest as [|c s1].
  { intros Hr. injection Hr as <- <-. rewrite app_nil_r. split_all; [done|done|done|lia]. }
  case_decide as Hcc; [done|]. assert (c = 58) as -> by (destruct (decide (c = 58)); [done|by destruct Hcc]).
  destruct s1 as [|c1 s2]; [done|].
  assert (∀ k, Forall ip_char k → Forall ip_char (p ++ 58 :: k)) as Hk.
  { intros k Hk. apply Forall_app. split; [done|]. constructor; [unfold ip_char; lia|done]. }
  case_decide as Hc1.
  - subst c1. case_decide; [done|]. destruct s2 as [|c2 s3].
    + intros Hr. injection Hr as <- <-. split_all; [|done|done|lia]. apply Hk.
      constructor; [unfold ip_char; lia|constructor].
    + intros Hr. apply IH in Hr as (? & ? & ? & ?); [|done|done|lia]. split_all; [|done..].
      apply Hk. constructor; [unfold ip_char; lia|done].
  - intros Hr. apply IH in Hr as (? & ? & ? & ?); [|done|done|lia]. split_all; [by apply Hk|done..].
Qed.

Lemma parseIPv6_sound s ip : parseIPv6 s = Some ip →
  Forall ip_char s ∧ wf_bytes ip ∧ length ip = 16%nat.
Proof.
  unfold parseIPv6. cbv zeta. destruct (HasPrefix s [58; 58]) eqn:Ep.
  - apply bool_decide_eq_true in Ep as [k ->].
    change (drop 2 ([58; 58] ++ k)) with k. change ([58; 58] ++ k) with (58 :: 58 :: k).
    assert (∀ k, Forall ip_char k → Forall ip_char (58 :: 58 :: k)) as Hk.
    { intros. repeat (constructor; [unfold ip_char; lia|]). done. }
    case_decide as Hd.
    { destruct Hd as [_ ->]. intros Hr. injection Hr as <-. split_all; [by apply Hk|by repeat constructor|done]. }
    destruct (parseIPv6_loop _ _ _ _) as [[[rest out] e]|] eqn:E; [|done]. case_decide as Hr; [done|].
    assert (rest = []) as -> by (destruct rest; [done|by destruct Hr]).
    apply parseIPv6_loop_sound in E as (Hc & Hw & He & Hl);
      [|constructor|intros i [= <-]; cbn; lia|cbn; lia].
    case_decide; destruct e as [i|]; try done; intros Hx; injection Hx as <-.
    + unfold expand_ellipsis. specialize (He i eq_refl). split_all; [by apply Hk| |].
      * repeat (apply Forall_app; split); [by apply Forall_take|by apply Forall_replicate|by apply Forall_drop].
      * rewrite !length_app, length_take, length_replicate, length_drop. lia.
    + split_all; [by apply Hk|done|lia].
  - rewrite decide_False by (by intros [? _]).
    destruct (parseIPv6_loop _ _ _ _) as [[[rest out] e]|] eqn:E; [|done]. case_decide as Hr; [done|].
    assert (rest = []) as -> by (destruct rest; [done|by destruct Hr]).
    apply parseIPv6_loop_sound in E as (Hc & Hw & He & Hl); [|constructor|done|cbn; lia].
    case_decide; destruct e as [i|]; try done; intros Hx; injection Hx as <-.
    + unfold expand_ellipsis. specialize (He i eq_refl). split_all; [done| |].
      * repeat (apply Forall_app; split); [by apply Forall_take|by apply Forall_replicate|by apply Forall_drop].
      * rewrite !length_app, length_take, length_replicate, length_drop. lia.
    + split_all; [done|done|lia].
Qed.

Lemma ParseIP_sound s ip : ParseIP s = Some ip →
  s ≠ [] ∧ Forall ip_char s ∧ wf_bytes ip ∧ length ip = 16%nat.
Proof.
  unfold ParseIP, ParseAddr. intros H. assert (s ≠ []) as Hne by (by intros ->). split; [done|].
  destruct (parse_family s) as [[]|]; cbn [mbind option_bind] in H; [| |done].
  - destruct (parseIPv4 s) as [f|] eqn:E; [|done].
    apply parseIPv4Fields_sound in E as (Hc & Hf & Hl); [|constructor|done|cbn; lia].
    cbn [mbind option_bind] in H. rewrite To16_v4 in H by done. apply (inj Some) in H as <-. split_all; [done| |].
    + apply Forall_app. split; [|done]. by apply (bool_decide_unpack _).
    + by rewrite length_app, Hl.
  - case_decide; [done|]. destruct (parseIPv6 s) as [f|] eqn:E; [|done].
    apply parseIPv6_sound in E as (Hc & Hw & Hl). cbn [mbind option_bind] in H.
    unfold To16 in H. rewrite decide_False, decide_True in H by (rewrite Hl; done). by injection H as <-.
Qed.

(** ** Length of the text *)

Lemma length_Join_le k (parts : list bytes) (c : Z) :
  Forall (λ p : bytes, length p ≤ k)%nat parts → (length (Join parts [c]) ≤ S k * length parts)%nat.
Proof.
  induction 1 as [|p parts Hp _ IH]; [cbn; lia|]. destruct parts as [|q parts].
  - cbn [Join length]. lia.
  - rewrite Join_cons by done. rewrite !length_app. cbn [length] in *. lia.
Qed.

Lemma colon_groups_length g : (length (colon_groups g) ≤ 5 * length g)%nat.
Proof.
  unfold colon_groups. rewrite <- (length_fmap hex16 g). apply length_Join_le.
  apply Forall_fmap, Forall_true. intros v. unfold compose, hex16. repeat case_decide; cbn; lia.
Qed.

Lemma IP_String_length ip : wf_bytes ip → length ip = 4%nat ∨ length ip = 16%nat →
  (length (IP_String ip) ≤ 82)%nat.
Proof.
  intros Hw Hl. unfold IP_String. destruct (To4 ip) as [ip4|] eqn:E.
  - destruct (To4_cases ip ip4 E) as [Hl4 _]. unfold string4.
    etransitivity; [apply (length_Join_le 3)|by rewrite length_fmap, Hl4; cbn; lia].
    apply Forall_fmap, Forall_true. intros v. unfold compose, dec_byte. repeat case_decide; cbn; lia.
  - assert (length ip = 16%nat) as H16.
    { destruct Hl as [Hl|]; [|done]. unfold To4 in E. by rewrite decide_True in E. }
    destruct (v6_groups_spec 8 ip H16 Hw) as (_ & Hn & _). unfold string6.
    destruct (longest_zeros _ _ _) as [[s e]|].
    + rewrite !length_app. pose proof (colon_groups_length (take s (v6_groups ip))) as H1.
      pose proof (colon_groups_length (drop e (v6_groups ip))) as H2.
      rewrite length_take, length_drop, Hn in *. cbn [length]. lia.
    + pose proof (colon_groups_length (v6_groups ip)). lia.
Qed.
