(* ===== verification/GoConv.v ===== *)
(** Text encodings of Go's standard library that the configuration code uses:
    strconv (decimal numbers), encoding/hex and encoding/base64. *)
From S2P Require Import Prelude GoText NetIP NetIP6.

(** ** strconv *)

(** [strconv.Itoa] on a non-negative [int]: 2^63 has 19 decimal digits, so 20
    rounds are enough. *)
Fixpoint dec_loop (fuel : nat) (n : Z) : bytes :=
  match fuel with
  | O => []
  | S f => if decide (n < 10) then [48 + n] else dec_loop f (n / 10) ++ [48 + n mod 10]
  end.

Definition Itoa (n : Z) : bytes := dec_loop 20 n.

(** [strconv.ParseUint s 10 bitSize], [max] being 2^bitSize - 1: the syntax and
    the range error are not told apart. *)
Fixpoint parse_dec (max : Z) (s : bytes) (n : Z) : option Z :=
  match s with
  | [] => Some n
  | c :: s' =>
    if is_digit c then
      let n := n * 10 + (c - 48) in if decide (max < n) then None else parse_dec max s' n
    else None
  end.

Definition ParseUint (s : bytes) (bitSize : Z) : option Z :=
  if decide (s = []) then None else parse_dec (2 ^ bitSize - 1) s 0.

(** [strconv.Atoi]. *)
Definition Atoi (s : bytes) : option Z :=
  let '(neg, digits) := match s with 45 :: r => (true, r) | 43 :: r => (false, r) | _ => (false, s) end in
  match digits with
  | [] => None
  | _ :: _ =>
    v ← parse_dec (2 ^ 64 - 1) digits 0;
    if neg : bool then if decide (v ≤ 2 ^ 63) then Some (- v) else None
    else if decide (v < 2 ^ 63) then Some v else None
  end.

(** ** encoding/hex *)

Definition hex_EncodeToString (b : bytes) : bytes :=
  mjoin ((λ x, [hex_char (x / 16); hex_char (x mod 16)]) <$> b).

(** [hex.Decode]: pairs of digits; an odd length is an error. *)
Fixpoint hex_Decode (s : bytes) : option bytes :=
  match s with
  | [] => Some []
  | [_] => None
  | p :: q :: s' =>
    match hex_digit p, hex_digit q with
    | Some a, Some b => (λ r, a * 16 + b :: r) <$> hex_Decode s'
    | _, _ => None
    end
  end.

(** ** encoding/base64 *)

(** An encoding: the URL or the standard alphabet, with or without padding.
    None of the predefined encodings is strict. *)
Record b64 := { url : bool; padded : bool }.

Definition RawURLEncoding : b64 := {| url := true; padded := false |}.
Definition URLEncoding : b64 := {| url := true; padded := true |}.
Definition RawStdEncoding : b64 := {| url := false; padded := false |}.
Definition StdEncoding : b64 := {| url := false; padded := true |}.

Definition b64_alnum (c : Z) : option Z :=
  if decide (65 ≤ c ≤ 90) then Some (c - 65)
  else if decide (97 ≤ c ≤ 122) then Some (c - 97 + 26)
  else if decide (48 ≤ c ≤ 57) then Some (c - 48 + 52)
  else None.

Definition decodeMap (e : b64) (c : Z) : option Z :=
  match b64_alnum c with
  | Some v => Some v
  | None =>
    if decide (c = if url e then 45 else 43) then Some 62
    else if decide (c = if url e then 95 else 47) then Some 63
    else None
  end.

(** The bytes of the sextets collected in [dbuf]. *)
Definition quantum (dbuf : list Z) : bytes :=
  match dbuf with
  | [a; b; c; d] =>
    let v := Z.lor (Z.shiftl a 18) (Z.lor (Z.shiftl b 12) (Z.lor (Z.shiftl c 6) d)) in
    [u8 (Z.shiftr v 16); u8 (Z.shiftr v 8); u8 v]
  | [a; b; c] =>
    let v := Z.lor (Z.shiftl a 18) (Z.lor (Z.shiftl b 12) (Z.shiftl c 6)) in
    [u8 (Z.shiftr v 16); u8 (Z.shiftr v 8)]
  | [a; b] => let v := Z.lor (Z.shiftl a 18) (Z.shiftl b 12) in [u8 (Z.shiftr v 16)]
  | _ => []
  end.

Definition is_newline (c : Z) : bool := bool_decide (c = 10 ∨ c = 13).

Fixpoint skip_newlines (s : bytes) : bytes :=
  match s with
  | c :: s' => if is_newline c then skip_newlines s' else s
  | [] => []
  end.

Definition padChar : Z := 61.

(** The rest of the input after the first padding character, met when [dbuf]
    holds [j] sextets. *)
Definition padding_ok (j : nat) (s : bytes) : bool :=
  match j with
  | 2%nat => match skip_newlines s with
             | c :: s' => bool_decide (c = padChar ∧ skip_newlines s' = [])
             | [] => false
             end
  | 3%nat => bool_decide (skip_newlines s = [])
  | _ => false
  end.

(** [Encoding.Decode], one character per round. *)
Fixpoint b64_loop (e : b64) (s : bytes) (dbuf : list Z) (acc : bytes) : option bytes :=
  match s with
  | [] =>
    match dbuf with
    | [] => Some acc
    | [_] => None
    | _ => if padded e then None else Some (acc ++ quantum dbuf)
    end
  | c :: s' =>
    match decodeMap e c with
    | Some v =>
      let dbuf := dbuf ++ [v] in
      if decide (length dbuf = 4%nat) then b64_loop e s' [] (acc ++ quantum dbuf)
      else b64_loop e s' dbuf acc
    | None =>
      if is_newline c then b64_loop e s' dbuf acc
      else if negb (padded e && bool_decide (c = padChar)) then None
      else if padding_ok (length dbuf) s' then Some (acc ++ quantum dbuf) else None
    end
  end.

Definition b64_DecodeString (e : b64) (s : bytes) : option bytes := b64_loop e s [] [].

(** [Encoding.EncodeToString]. *)
Definition b64_char (e : b64) (v : Z) : Z :=
  if decide (v < 26) then 65 + v
  else if decide (v < 52) then 97 + (v - 26)
  else if decide (v < 62) then 48 + (v - 52)
  else if decide (v = 62) then (if url e then 45 else 43)
  else (if url e then 95 else 47).

Fixpoint b64_EncodeToString (e : b64) (b : bytes) : bytes :=
  match b with
  | [] => []
  | [x] => [b64_char e (x / 4); b64_char e ((x mod 4) * 16)] ++ (if padded e then [61; 61] else [])
  | [x; y] => [b64_char e (x / 4); b64_char e ((x mod 4) * 16 + y / 16);
               b64_char e ((y mod 16) * 4)] ++ (if padded e then [61] else [])
  | x :: y :: z :: b' =>
    [b64_char e (x / 4); b64_char e ((x mod 4) * 16 + y / 16);
     b64_char e ((y mod 16) * 4 + z / 64); b64_char e (z mod 64)] ++ b64_EncodeToString e b'
  end.

(** ** Facts *)

Lemma dec_loop_digits f n : 0 ≤ n < 10 ^ Z.of_nat f → Forall (λ c, is_digit c = true) (dec_loop f n).
Proof.
  revert n. induction f as [|f IH]; intros n Hn; [constructor|]. cbn [dec_loop].
  pose proof (Z.mod_pos_bound n 10). case_decide.
  - constructor; [|constructor]. apply bool_decide_eq_true. lia.
  - apply Forall_app. split; [|constructor; [apply bool_decide_eq_true; lia|constructor]].
    apply IH. rewrite Nat2Z.inj_succ, Z.pow_succ_r in Hn by lia.
    split; [apply Z.div_pos; lia|]. apply Z.div_lt_upper_bound; lia.
Qed.

Lemma parse_dec_app max s k n v :
  parse_dec max s n = Some v → parse_dec max (s ++ k) n = parse_dec max k v.
Proof.
  revert n. induction s as [|c s IH]; intros n; cbn [parse_dec app]; [by intros [= ->]|].
  destruct (is_digit c); [|done]. cbv zeta. case_decide; [done|]. apply IH.
Qed.

Lemma parse_dec_dec_loop max f n :
  0 ≤ n ≤ max → n < 10 ^ Z.of_nat f → parse_dec max (dec_loop f n) 0 = Some n.
Proof.
  revert n. induction f as [|f IH]; intros n Hn Hf; [cbn in Hf; f_equal; lia|].
  rewrite Nat2Z.inj_succ, Z.pow_succ_r in Hf by lia. cbn [dec_loop].
  pose proof (Z.mod_pos_bound n 10). pose proof (Z.div_mod n 10).
  assert (∀ m d, 0 ≤ d < 10 → m * 10 + d ≤ max → parse_dec max [48 + d] m = Some (m * 10 + d)) as Hd.
  { intros m d Hr Hm. cbn [parse_dec]. unfold is_digit. rewrite bool_decide_eq_true_2 by lia.
    cbv zeta. rewrite decide_False by lia. f_equal. lia. }
  case_decide; [rewrite Hd by lia; f_equal; lia|].
  rewrite (parse_dec_app _ _ _ _ (n / 10)).
  - rewrite Hd by lia. f_equal. lia.
  - apply IH; [|apply Z.div_lt_upper_bound; lia]. split; [apply Z.div_pos; lia|lia].
Qed.

Lemma Itoa_ne n : Itoa n ≠ [].
Proof.
  unfold Itoa. change (dec_loop 20 n) with
    (if decide (n < 10) then [48 + n] else dec_loop 19 (n / 10) ++ [48 + n mod 10]).
  case_decide; [done|]. by intros [_ ?]%app_nil.
Qed.

Lemma ParseUint_Itoa n w : 0 ≤ n < 2 ^ w → n < 10 ^ 20 → ParseUint (Itoa n) w = Some n.
Proof.
  intros Hn H20. unfold ParseUint. rewrite decide_False by apply Itoa_ne.
  apply parse_dec_dec_loop; [lia|done].
Qed.

Lemma Itoa_digits n : 0 ≤ n < 10 ^ 20 → Forall (λ c, is_digit c = true) (Itoa n).
Proof. apply (dec_loop_digits 20). Qed.

Lemma hex_Decode_EncodeToString b : wf_bytes b → hex_Decode (hex_EncodeToString b) = Some b.
Proof.
  induction 1 as [|x b Hx _ IH]; [done|]. unfold is_byte in Hx.
  change (hex_EncodeToString (x :: b)) with
    (hex_char (x / 16) :: hex_char (x mod 16) :: hex_EncodeToString b).
  cbn [hex_Decode]. rewrite !hex_digit_hex_char by (Z.div_mod_to_equations; lia).
  rewrite IH. cbn. do 2 f_equal. Z.div_mod_to_equations; lia.
Qed.

(** ** Base64 round trips *)

Lemma lor_shiftl_small a b n : 0 ≤ n → 0 ≤ b < 2 ^ n → Z.lor (Z.shiftl a n) b = a * 2 ^ n + b.
Proof.
  intros Hn Hb. rewrite <- (Z.shiftl_mul_pow2 a n) by done. rewrite <- Z.add_lor_land.
  replace (Z.land (Z.shiftl a n) b) with 0; [lia|]. symmetry. apply Z.bits_inj'. intros i Hi.
  rewrite Z.land_spec, Z.bits_0. destruct (decide (i < n)).
  - by rewrite Z.shiftl_spec_low.
  - assert (Z.testbit b i = false) as ->; [|apply andb_false_r].
    apply Z.testbit_false; [done|]. rewrite Z.div_small; [done|]. split; [lia|].
    eapply Z.lt_le_trans; [apply Hb|]. apply Z.pow_le_mono_r; lia.
Qed.

Lemma u8_shiftr v k : 0 ≤ k → u8 (Z.shiftr v k) = (v / 2 ^ k) mod 256.
Proof. intros. unfold wrap. by rewrite Z.shiftr_div_pow2. Qed.

Lemma decodeMap_b64_char e v : 0 ≤ v < 64 → decodeMap e (b64_char e v) = Some v.
Proof.
  intros Hv. unfold decodeMap, b64_alnum, b64_char.
  destruct (url e); repeat case_decide; try lia; f_equal; lia.
Qed.

(** The three bytes of four sextets. *)
Lemma quantum_4 x y z : is_byte x → is_byte y → is_byte z →
  quantum [x / 4; (x mod 4) * 16 + y / 16; (y mod 16) * 4 + z / 64; z mod 64] = [x; y; z].
Proof.
  unfold is_byte. intros Hx Hy Hz. unfold quantum. cbv zeta.
  assert (0 ≤ x mod 4 < 4 ∧ 0 ≤ x / 4 < 64 ∧ x = 4 * (x / 4) + x mod 4 ∧
          0 ≤ y mod 16 < 16 ∧ 0 ≤ y / 16 < 16 ∧ y = 16 * (y / 16) + y mod 16 ∧
          0 ≤ z mod 64 < 64 ∧ 0 ≤ z / 64 < 4 ∧ z = 64 * (z / 64) + z mod 64) as H
    by (Z.div_mod_to_equations; lia).
  rewrite (lor_shiftl_small _ (z mod 64)), (lor_shiftl_small _ _ 12), (lor_shiftl_small _ _ 18) by lia.
  rewrite !u8_shiftr by lia. unfold wrap.
  replace ((x / 4) * 2 ^ 18 + (((x mod 4) * 16 + y / 16) * 2 ^ 12 +
    (((y mod 16) * 4 + z / 64) * 2 ^ 6 + z mod 64))) with (x * 65536 + y * 256 + z) by lia.
  repeat f_equal; Z.div_mod_to_equations; lia.
Qed.

Lemma quantum_3 x y : is_byte x → is_byte y →
  quantum [x / 4; (x mod 4) * 16 + y / 16; (y mod 16) * 4] = [x; y].
Proof.
  intros Hx Hy. pose proof (quantum_4 x y 0 Hx Hy ltac:(done)) as H.
  change (0 / 64) with 0 in H. change (0 mod 64) with 0 in H. rewrite Z.add_0_r in H.
  unfold quantum in *. cbv zeta in *. rewrite Z.lor_0_r in H. by injection H as -> ->.
Qed.

Lemma quantum_2 x : is_byte x → quantum [x / 4; (x mod 4) * 16] = [x].
Proof.
  intros Hx. pose proof (quantum_3 x 0 Hx ltac:(done)) as H.
  change (0 / 16) with 0 in H. change ((0 mod 16) * 4) with 0 in H. rewrite Z.add_0_r in H.
  unfold quantum in *. cbv zeta in *. change (Z.shiftl 0 6) with 0 in H.
  rewrite Z.lor_0_r in H. by injection H as ->.
Qed.

Lemma sextets x y z : is_byte x → is_byte y → is_byte z →
  0 ≤ x / 4 < 64 ∧ 0 ≤ (x mod 4) * 16 + y / 16 < 64 ∧ 0 ≤ (y mod 16) * 4 + z / 64 < 64 ∧
  0 ≤ z mod 64 < 64 ∧ 0 ≤ (x mod 4) * 16 < 64 ∧ 0 ≤ (y mod 16) * 4 < 64.
Proof. unfold is_byte. intros. Z.div_mod_to_equations. lia. Qed.

Lemma b64_loop_char e v s dbuf acc : 0 ≤ v < 64 → (length dbuf < 3)%nat →
  b64_loop e (b64_char e v :: s) dbuf acc = b64_loop e s (dbuf ++ [v]) acc.
Proof.
  intros Hv Hd. cbn [b64_loop]. rewrite decodeMap_b64_char by done. cbv zeta.
  rewrite decide_False; [done|]. rewrite length_app. cbn. lia.
Qed.

Lemma b64_loop_4th e v s a b c acc : 0 ≤ v < 64 →
  b64_loop e (b64_char e v :: s) [a; b; c] acc = b64_loop e s [] (acc ++ quantum [a; b; c; v]).
Proof. intros Hv. cbn [b64_loop]. by rewrite decodeMap_b64_char. Qed.

Lemma decodeMap_pad e : decodeMap e 61 = None.
Proof. by destruct e as [[] p]. Qed.

Lemma b64_loop_pad2 u a b acc :
  b64_loop {| url := u; padded := true |} [61; 61] [a; b] acc = Some (acc ++ quantum [a; b]).
Proof. cbn [b64_loop]. by rewrite decodeMap_pad. Qed.

Lemma b64_loop_pad1 u a b c acc :
  b64_loop {| url := u; padded := true |} [61] [a; b; c] acc = Some (acc ++ quantum [a; b; c]).
Proof. cbn [b64_loop]. by rewrite decodeMap_pad. Qed.

Lemma b64_loop_Encode e b acc : wf_bytes b →
  b64_loop e (b64_EncodeToString e b) [] acc = Some (acc ++ b).
Proof.
  remember (length b) as n eqn:Hn. revert b acc Hn.
  induction n as [n IH] using lt_wf_ind. intros b acc -> Hb.
  destruct b as [|x [|y [|z b]]]; cbn [b64_EncodeToString].
  - cbn. by rewrite app_nil_r.
  - apply Forall_cons in Hb as [Hx _]. pose proof (sextets x 0 0 Hx) as Hs.
    cbn [app]. rewrite !b64_loop_char by (cbn; lia || (unfold is_byte in *; lia)).
    destruct e as [u []]; cbn [padded app].
    + by rewrite b64_loop_pad2, quantum_2.
    + cbn [b64_loop padded app]. by rewrite quantum_2.
  - apply Forall_cons in Hb as [Hx Hb]. apply Forall_cons in Hb as [Hy _].
    pose proof (sextets x y 0 Hx Hy) as Hs. 
    cbn [app]. rewrite !b64_loop_char by (cbn; lia || (unfold is_byte in *; lia)).
    destruct e as [u []]; cbn [padded app].
    + by rewrite b64_loop_pad1, quantum_3.
    + cbn [b64_loop padded app]. by rewrite quantum_3.
  - apply Forall_cons in Hb as [Hx Hb]. apply Forall_cons in Hb as [Hy Hb].
    apply Forall_cons in Hb as [Hz Hb]. pose proof (sextets x y z Hx Hy Hz) as Hs. cbn [app].
    rewrite !b64_loop_char by (cbn; lia). cbn [app]. rewrite b64_loop_4th by lia.
    rewrite quantum_4 by done. rewrite (IH (length b)); [|cbn; lia|done|done].
    by rewrite <- app_assoc.
Qed.

(** A decoder that accepts either alphabet, with or without padding: every
    text one of the encodings decodes, it decodes to the same bytes. *)
Definition any_map (c : Z) : option Z :=
  match decodeMap StdEncoding c with Some v => Some v | None => decodeMap URLEncoding c end.

Fixpoint any_loop (s : bytes) (dbuf : list Z) (acc : bytes) : option bytes :=
  match s with
  | [] => if decide (length dbuf = 1%nat) then None else Some (acc ++ quantum dbuf)
  | c :: s' =>
    match any_map c with
    | Some v =>
      if decide (length (dbuf ++ [v]) = 4%nat) then any_loop s' [] (acc ++ quantum (dbuf ++ [v]))
      else any_loop s' (dbuf ++ [v]) acc
    | None =>
      if is_newline c then any_loop s' dbuf acc
      else if decide (c = padChar ∧ padding_ok (length dbuf) s' = true)
           then Some (acc ++ quantum dbuf) else None
    end
  end.

Lemma decodeMap_any e c v : decodeMap e c = Some v → any_map c = Some v.
Proof.
  unfold any_map, decodeMap. destruct (b64_alnum c) as [w|] eqn:E; [done|]. cbn.
  destruct (url e); repeat case_decide; subst; try done; try lia.
Qed.

Lemma decodeMap_newline c : is_newline c = true → any_map c = None.
Proof. unfold is_newline. intros [-> | ->]%bool_decide_eq_true; done. Qed.

Lemma b64_loop_any e s dbuf acc r :
  b64_loop e s dbuf acc = Some r → any_loop s dbuf acc = Some r.
Proof.
  revert dbuf acc. induction s as [|c s IH]; intros dbuf acc; cbn [b64_loop any_loop].
  - destruct dbuf as [|a [|b dbuf]].
    + rewrite decide_False by done. cbn. by rewrite app_nil_r.
    + done.
    + destruct (padded e); [done|]. by rewrite decide_False.
  - destruct (decodeMap e c) as [v|] eqn:E.
    + rewrite (decodeMap_any e c v E). cbv zeta. case_decide; apply IH.
    + destruct (is_newline c) eqn:En; [by rewrite (decodeMap_newline c En); apply IH|].
      destruct (padded e && bool_decide (c = padChar)) eqn:Ep; cbn [negb]; [|done].
      apply andb_true_iff in Ep as [_ Hc%bool_decide_eq_true]. subst c.
      destruct (padding_ok (length dbuf) s) eqn:Eok; [|done].
      change (any_map padChar) with (@None Z). intros. by rewrite decide_True.
Qed.

Lemma b64_agree e e' s r r' :
  b64_DecodeString e s = Some r → b64_DecodeString e' s = Some r' → r = r'.
Proof. unfold b64_DecodeString. intros H%b64_loop_any H'%b64_loop_any. congruence. Qed.

Lemma b64_Decode_Encode e b : wf_bytes b → b64_DecodeString e (b64_EncodeToString e b) = Some b.
Proof. apply (b64_loop_Encode e b []). Qed.
