(* ===== verification/Address.v ===== *)
(** Network addresses, ports and destinations
    (src/upstream/xray-core/common/net: address.go, port.go, destination.go,
    network.go). *)
From S2P Require Import Prelude GoText NetIP NetIP6 GoConv.

(** ** Addresses *)

Inductive AddressFamily := AddressFamilyIPv4 | AddressFamilyIPv6 | AddressFamilyDomain.

#[global] Instance AddressFamily_eq_dec : EqDecision AddressFamily.
Proof. solve_decision. Defined.

Definition IsIPv4 (af : AddressFamily) : bool := bool_decide (af = AddressFamilyIPv4).
Definition IsIPv6 (af : AddressFamily) : bool := bool_decide (af = AddressFamilyIPv6).
Definition IsIP (af : AddressFamily) : bool :=
  bool_decide (af = AddressFamilyIPv4 ∨ af = AddressFamilyIPv6).
Definition IsDomain (af : AddressFamily) : bool := bool_decide (af = AddressFamilyDomain).

(** The three implementations of the interface [Address]; a nil interface is
    [None] of [option Address]. *)
Inductive Address := ipv4Address (a : bytes) | ipv6Address (a : bytes) | domainAddress (a : bytes).

#[global] Instance Address_eq_dec : EqDecision Address.
Proof. solve_decision. Defined.

Definition Family (a : Address) : AddressFamily :=
  match a with
  | ipv4Address _ => AddressFamilyIPv4
  | ipv6Address _ => AddressFamilyIPv6
  | domainAddress _ => AddressFamilyDomain
  end.

(** [None]: the call panics. *)
Definition Address_IP (a : Address) : option bytes :=
  match a with ipv4Address b | ipv6Address b => Some b | domainAddress _ => None end.

Definition Domain (a : Address) : option bytes :=
  match a with domainAddress d => Some d | _ => None end.

Definition Address_String (a : Address) : bytes :=
  match a with
  | ipv4Address b => IP_String b
  | ipv6Address b => [91] ++ IP_String b ++ [93]
  | domainAddress d => d
  end.

Definition isAlphaNum (c : Z) : bool :=
  bool_decide (48 ≤ c ≤ 57 ∨ 97 ≤ c ≤ 122 ∨ 65 ≤ c ≤ 90).

Definition bytes0 : bytes := replicate 10 0.

Definition IPAddress (ip : bytes) : option Address :=
  if decide (length ip = 4%nat) then Some (ipv4Address ip)
  else if decide (length ip = 16%nat) then
    if decide (take 10 ip = bytes0 ∧ at_ ip 10 = 0xff ∧ at_ ip 11 = 0xff)
    then Some (ipv4Address (drop 12 ip))
    else Some (ipv6Address ip)
  else None.

Definition DomainAddress (domain : bytes) : Address := domainAddress domain.

Definition LocalHostIP : Address := ipv4Address [127; 0; 0; 1].
Definition AnyIP : Address := ipv4Address [0; 0; 0; 0].
Definition LocalHostDomain : Address := DomainAddress (lit "localhost").
Definition LocalHostIPv6 : Address := ipv6Address (replicate 15 0 ++ [1]).
Definition AnyIPv6 : Address := ipv6Address (replicate 16 0).

(** The brackets of an IPv6 literal. *)
Definition strip_brackets (addr : bytes) : bytes :=
  if decide (head addr = Some 91 ∧ last addr = Some 93)
  then take (length addr - 2) (drop 1 addr) else addr.

Definition trim_address (addr : bytes) : bytes :=
  match head addr, last addr with
  | Some a, Some z => if negb (isAlphaNum a) || negb (isAlphaNum z) then TrimSpace addr else addr
  | _, _ => addr
  end.

Definition ParseAddress (addr : bytes) : option Address :=
  let addr := trim_address (strip_brackets addr) in
  match ParseIP addr with
  | Some ip => IPAddress ip
  | None => Some (DomainAddress addr)
  end.

(** The protobuf message [IPOrDomain]; [None] for its oneof stands for an
    unset field. *)
Inductive IPOrDomain := IPOrDomain_Ip (ip : bytes) | IPOrDomain_Domain (d : bytes).

(** [None] is a panic, [Some None] a nil address. *)
Definition AsAddress (d : option (option IPOrDomain)) : option (option Address) :=
  match d with
  | None => Some None
  | Some (Some (IPOrDomain_Ip ip)) => Some (IPAddress ip)
  | Some (Some (IPOrDomain_Domain d)) => Some (Some (DomainAddress d))
  | Some None => None
  end.

Definition NewIPOrDomain (a : Address) : IPOrDomain :=
  match a with
  | domainAddress d => IPOrDomain_Domain d
  | ipv4Address b | ipv6Address b => IPOrDomain_Ip b
  end.

(** ** Ports (uint16) *)

(** @unsafe: the caller guarantees two bytes. *)
Definition PortFromBytes (port : bytes) : option Z :=
  match port with a :: b :: _ => Some (a * 256 + b) | _ => None end.

Definition PortFromInt (val : Z) : option Z := if decide (val > 65535) then None else Some (u16 val).

Definition PortFromString (s : bytes) : option Z :=
  match ParseUint s 32 with
  | None => None
  | Some val => PortFromInt (u32 val)
  end.

Definition Port_String (p : Z) : bytes := Itoa p.

(** [PortRange] of the configuration has 32-bit bounds, [MemoryPortRange] 16-bit ones. *)
Definition PortRange : Type := Z * Z.

Definition PortRange_Contains (r : PortRange) (port : Z) : bool :=
  bool_decide (u16 r.1 ≤ port ∧ port ≤ u16 r.2).

Definition SinglePortRange (p : Z) : PortRange := (p, p).

Definition MemoryPortRange_Contains (r : Z * Z) (port : Z) : bool :=
  bool_decide (r.1 ≤ port ∧ port ≤ r.2).

Definition PortListFromProto (l : list PortRange) : list (Z * Z) := (λ r, (u16 r.1, u16 r.2)) <$> l.

Fixpoint MemoryPortList_Contains (mpl : list (Z * Z)) (port : Z) : bool :=
  match mpl with
  | [] => false
  | pr :: mpl => if MemoryPortRange_Contains pr port then true else MemoryPortList_Contains mpl port
  end.

(** ** Destinations *)

Inductive Network := Network_Unknown | Network_RawTCP | Network_TCP | Network_UDP | Network_UNIX.

#[global] Instance Network_eq_dec : EqDecision Network.
Proof. solve_decision. Defined.

Definition SystemString (n : Network) : bytes :=
  match n with
  | Network_TCP => lit "tcp"
  | Network_UDP => lit "udp"
  | Network_UNIX => lit "unix"
  | _ => lit "unknown"
  end.

Fixpoint HasNetwork (l : list Network) (network : Network) : bool :=
  match l with
  | [] => false
  | value :: l => if decide (value = network) then true else HasNetwork l network
  end.

Record Destination := { dest_Address : option Address; dest_Port : Z; dest_Network : Network }.

#[global] Instance Destination_eq_dec : EqDecision Destination.
Proof. solve_decision. Defined.

Definition TCPDestination (a : option Address) (p : Z) : Destination :=
  {| dest_Address := a; dest_Port := p; dest_Network := Network_TCP |}.

Definition UDPDestination (a : option Address) (p : Z) : Destination :=
  {| dest_Address := a; dest_Port := p; dest_Network := Network_UDP |}.

Definition UnixDestination (a : option Address) : Destination :=
  {| dest_Address := a; dest_Port := 0; dest_Network := Network_UNIX |}.

(** [net.SplitHostPort] of the standard library. *)
Fixpoint last_index (s : bytes) (c : Z) : option nat :=
  match s with
  | [] => None
  | b :: s' => match last_index s' c with
               | Some i => Some (S i)
               | None => if decide (b = c) then Some 0%nat else None
               end
  end.

Definition SplitHostPort (hostport : bytes) : option (bytes * bytes) :=
  match last_index hostport 58 with
  | None => None
  | Some i =>
    let port := drop (S i) hostport in
    if decide (head hostport = Some 91) then
      match Index hostport [93] with
      | None => None
      | Some e =>
        if decide (S e ≠ i) then None
        else if decide (91 ∈ drop 1 hostport ∨ 93 ∈ drop (S e) hostport) then None
        else Some (take (e - 1) (drop 1 hostport), port)
      end
    else
      let host := take i hostport in
      if decide (58 ∈ host) then None
      else if decide (91 ∈ hostport ∨ 93 ∈ hostport) then None
      else Some (host, port)
  end.

Definition ParseDestination (dest : bytes) : option Destination :=
  let '(network, rest) :=
    if HasPrefix dest (lit "tcp:") then (Network_TCP, drop 4 dest)
    else if HasPrefix dest (lit "udp:") then (Network_UDP, drop 4 dest)
    else (Network_Unknown, dest) in
  if decide (network = Network_Unknown ∧ HasPrefix dest (lit "unix:") = true)
  then Some (UnixDestination (Some (DomainAddress (drop 5 dest))))
  else
    match SplitHostPort rest with
    | None => None
    | Some (hstr, pstr) =>
      let a := if decide (0 < length hstr)%nat then ParseAddress hstr else Some AnyIP in
      if decide (0 < length pstr)%nat then
        match PortFromString pstr with
        | None => None
        | Some port => Some {| dest_Address := a; dest_Port := port; dest_Network := network |}
        end
      else Some {| dest_Address := a; dest_Port := 0; dest_Network := network |}
    end.

(** [None]: a nil address is dereferenced. *)
Definition NetAddr (d : Destination) : option bytes :=
  match dest_Network d with
  | Network_TCP | Network_UDP =>
    a ← dest_Address d; Some (Address_String a ++ [58] ++ Port_String (dest_Port d))
  | Network_UNIX => Address_String <$> dest_Address d
  | _ => Some []
  end.

Definition Destination_String (d : Destination) : option bytes :=
  let prefix := match dest_Network d with
                | Network_TCP => lit "tcp:"
                | Network_UDP => lit "udp:"
                | Network_UNIX => lit "unix:"
                | _ => lit "unknown:"
                end in
  app prefix <$> NetAddr d.

Definition IsValid (d : Destination) : bool := bool_decide (dest_Network d ≠ Network_Unknown).

(** ** Facts *)

Lemma IsSpace_plain c : 0x20 < c < 0x80 → unicode_IsSpace c = false.
Proof.
  intros Hc. unfold unicode_IsSpace. apply orb_false_iff. split; apply bool_decide_eq_false; [|lia].
  rewrite !elem_of_cons, elem_of_nil. lia.
Qed.

(** Text that begins and ends with visible ASCII characters is not trimmed. *)
Lemma TrimSpace_plain s c c' :
  head s = Some c → last s = Some c' → 0x20 < c < 0x80 → 0x20 < c' < 0x80 → TrimSpace s = s.
Proof.
  intros Hh Hl Hc Hc'. unfold TrimSpace. destruct s as [|b s]; [done|]. injection Hh as ->.
  assert (trim_left_fuel (length (c :: s)) (c :: s) = c :: s) as ->.
  { cbn [length trim_left_fuel]. rewrite Utf8.DecodeRune_ascii by lia. by rewrite IsSpace_plain. }
  cbv zeta. cbn [length trim_right_fuel]. unfold Utf8.DecodeLastRune. rewrite Hl.
  rewrite decide_True by lia. by rewrite IsSpace_plain.
Qed.

Lemma IPAddress_spec ip : wf_bytes ip → length ip = 16%nat →
  ∃ a, IPAddress ip = Some a ∧
       (a = ipv4Address (drop 12 ip) ∧ To4 ip = Some (drop 12 ip) ∨
        a = ipv6Address ip ∧ To4 ip = None).
Proof.
  intros Hw Hl. unfold IPAddress, To4. rewrite decide_False by (rewrite Hl; done).
  rewrite (decide_False (P := length ip = 4%nat)) by (rewrite Hl; done).
  rewrite decide_True by done.
  assert ((take 10 ip = bytes0 ∧ at_ ip 10 = 0xff ∧ at_ ip 11 = 0xff) ↔
          (length ip = 16%nat ∧ take 12 ip = v4in6Prefix)) as Hiff.
  { do 16 (destruct ip as [|? ip]; [done|]). destruct ip; [|done]. unfold at_. cbn.
    unfold bytes0, v4in6Prefix. cbn. split.
    - intros (Hb & Hx & Hy). injection Hb as ??????????. subst. done.
    - intros [_ Hb]. injection Hb as ????????????. subst. done. }
  case_decide as H1; case_decide as H2; try tauto; eexists; (split; [done|]); tauto.
Qed.

Lemma isAlphaNum_spec c : isAlphaNum c = true → 0x20 < c < 0x80 ∧ c ≠ 58 ∧ c ≠ 91 ∧ c ≠ 93.
Proof. unfold isAlphaNum. intros ?%bool_decide_eq_true. lia. Qed.

(** An unbracketed text without padding is parsed as it stands. *)
Lemma ParseAddress_plain s c c' :
  head s = Some c → last s = Some c' → 0x20 < c < 0x80 → 0x20 < c' < 0x80 → c ≠ 91 →
  ParseAddress s = match ParseIP s with Some ip => IPAddress ip | None => Some (DomainAddress s) end.
Proof.
  intros Hh Hl Hc Hc' Hb. unfold ParseAddress, strip_brackets.
  rewrite decide_False by (intros [? _]; simplify_eq). unfold trim_address. rewrite Hh, Hl.
  assert (TrimSpace s = s) as E by by eapply TrimSpace_plain. rewrite E. by destruct (_ || _).
Qed.

Lemma ParseAddress_brackets s c c' :
  head s = Some c → last s = Some c' → 0x20 < c < 0x80 → 0x20 < c' < 0x80 →
  ParseAddress ([91] ++ s ++ [93]) =
  match ParseIP s with Some ip => IPAddress ip | None => Some (DomainAddress s) end.
Proof.
  intros Hh Hl Hc Hc'. unfold ParseAddress, strip_brackets. rewrite decide_True.
  2:{ split; [done|]. rewrite app_assoc. apply last_snoc. }
  assert (take (length ([91] ++ s ++ [93]) - 2) (drop 1 ([91] ++ s ++ [93])) = s) as ->.
  { cbn [app drop]. apply take_app_length'. cbn [length]. rewrite length_app. cbn. lia. }
  unfold trim_address. rewrite Hh, Hl.
  assert (TrimSpace s = s) as E by by eapply TrimSpace_plain. rewrite E. by destruct (_ || _).
Qed.

Lemma ends_ok (P : Z → Prop) (s : bytes) : s ≠ [] → Forall P s →
  ∃ c c', head s = Some c ∧ last s = Some c' ∧ P c ∧ P c'.
Proof.
  intros Hne Hs. destruct s as [|c s]; [done|].
  assert (is_Some (last (c :: s))) as [c' Hc'] by (by rewrite last_is_Some).
  exists c, c'. rewrite Forall_forall in Hs. split_all; [done|done| |].
  - apply Hs. by left.
  - apply Hs. rewrite last_lookup in Hc'. by eapply list_elem_of_lookup_2.
Qed.

(** ** Host and port *)

Lemma last_index_snoc_none s c k : c ∉ k → last_index (s ++ [c] ++ k) c = Some (length s).
Proof.
  intros Hk. assert (last_index k c = None) as Hn.
  { induction k as [|b k IH]; [done|]. apply not_elem_of_cons in Hk as [Hb Hk]. cbn [last_index].
    rewrite IH by done. by rewrite decide_False. }
  induction s as [|b s IH]; cbn [app last_index length].
  - rewrite Hn. by rewrite decide_True.
  - cbn [app] in IH. by rewrite IH.
Qed.

Lemma SplitHostPort_plain host port :
  head host ≠ Some 91 → host ≠ [] → 58 ∉ host → 91 ∉ host → 93 ∉ host →
  58 ∉ port → 91 ∉ port → 93 ∉ port → SplitHostPort (host ++ [58] ++ port) = Some (host, port).
Proof.
  intros Hh Hne H1 H2 H3 H4 H5 H6. unfold SplitHostPort.
  rewrite last_index_snoc_none by done. cbv zeta.
  assert (head (host ++ [58] ++ port) = head host) as -> by by destruct host.
  rewrite decide_False by done. rewrite take_app_length. rewrite decide_False by done.
  rewrite decide_False by (cbn [app]; set_solver).
  do 2 f_equal. rewrite app_assoc. apply drop_app_length'.
  rewrite length_app. cbn. lia.
Qed.

Lemma SplitHostPort_brackets host port :
  91 ∉ host → 93 ∉ host → 58 ∉ port → 91 ∉ port → 93 ∉ port →
  SplitHostPort (([91] ++ host ++ [93]) ++ [58] ++ port) = Some (host, port).
Proof.
  intros H1 H2 H3 H4 H5. unfold SplitHostPort. rewrite last_index_snoc_none by done. cbv zeta.
  rewrite decide_True by done.
  assert (Index (([91] ++ host ++ [93]) ++ [58] ++ port) [93] = Some (S (length host))) as ->.
  { change (([91] ++ host ++ [93]) ++ [58] ++ port) with ([91] ++ (host ++ [93]) ++ [58] ++ port).
    rewrite <- (app_assoc host). change ([91] ++ host ++ [93] ++ [58] ++ port) with
      ((91 :: host) ++ [93] ++ ([58] ++ port)). rewrite Index_app_sep; [done|]. set_solver. }
  assert (length ([91] ++ host ++ [93]) = S (S (length host))) as El by (cbn; rewrite length_app; cbn; lia).
  assert (drop (S (S (length host))) (([91] ++ host ++ [93]) ++ [58] ++ port) = [58] ++ port) as Ed.
  { apply drop_app_length'. done. }
  rewrite El, decide_False by (intros Hx; by apply Hx). rewrite Ed. rewrite decide_False.
  2:{ cbn [app drop]. set_solver. }
  do 2 f_equal.
  - cbn [app drop]. replace (S (length host) - 1)%nat with (length host) by lia.
    rewrite <- app_assoc. apply take_app_length.
  - rewrite (app_assoc _ [58] port). apply drop_app_length'. rewrite length_app, El. cbn. lia.
Qed.
