(* ===== verification/Transport.v ===== *)
(** The dialing boundary of the Apple ABI
    (src/upstream/xray-core/main/folotun/transport.go): validation of endpoint
    addresses and the destinations handed to the dispatcher. *)
From S2P Require Import Prelude GoText NetIP NetIP6 GoConv Address.

Definition MaxEndpointAddressLength : nat := 253.

Inductive endpoint_error :=
| EmptyPaddedOrTooLong | ForbiddenCharacter | InvalidDNSName | InvalidASCIIName
| ZeroPort | NilInstance.

#[global] Instance endpoint_error_eq_dec : EqDecision endpoint_error.
Proof. solve_decision. Defined.

Definition forbidden_rune (r : Z) : bool := bool_decide (r < 0x20 ∨ r = 0x7f ∨ r = 47 ∨ r = 92).

Definition label_rune (r : Z) : bool :=
  bool_decide (r = 45 ∨ 97 ≤ r ≤ 122 ∨ 65 ≤ r ≤ 90 ∨ 48 ≤ r ≤ 57).

(** The loop over the labels. *)
Fixpoint check_labels (labels : list bytes) : result endpoint_error unit :=
  match labels with
  | [] => Ok tt
  | label :: labels =>
    if decide (label = [] ∨ (63 < length label)%nat ∨ head label = Some 45 ∨ last label = Some 45)
    then Err InvalidDNSName
    else if forallb (λ rw, label_rune rw.1) (Utf8.runes label) then check_labels labels
    else Err InvalidASCIIName
  end.

Definition ValidateEndpointAddress (address : bytes) : result endpoint_error unit :=
  if decide (address = [] ∨ (MaxEndpointAddressLength < length address)%nat ∨ TrimSpace address ≠ address)
  then Err EmptyPaddedOrTooLong
  else if existsb (λ rw, forbidden_rune rw.1) (Utf8.runes address) then Err ForbiddenCharacter
  else match ParseIP address with
       | Some _ => Ok tt
       | None => check_labels (Split address [46])
       end.

Definition destination (address : bytes) (port : Z) (network : Network)
    : result endpoint_error Destination :=
  guard! port ≠ 0 or ZeroPort in
  let! _ := ValidateEndpointAddress address in
  Ok {| dest_Address := ParseAddress address; dest_Port := port; dest_Network := network |}.

(** Dialing through a running instance; [core_Dial] and [core_DialUDP] are the
    instance's dispatcher. *)
Section dial.
Context {I C : Type}.
Variable core_Dial : I → Destination → result endpoint_error C.
Variable core_DialUDP : I → result endpoint_error C.

Definition DialTCP (instance : option I) (address : bytes) (port : Z) : result endpoint_error C :=
  match instance with
  | None => Err NilInstance
  | Some i => let! dest := destination address port Network_TCP in core_Dial i dest
  end.

Definition DialUDP (instance : option I) : result endpoint_error C :=
  match instance with
  | None => Err NilInstance
  | Some i => core_DialUDP i
  end.
End dial.

(** ** Specification *)

(** A label of letters, digits and inner hyphens. *)
Definition dns_label (l : bytes) : Prop :=
  l ≠ [] ∧ (length l ≤ 63)%nat ∧ Forall (λ c, label_rune c = true) l ∧
  head l ≠ Some 45 ∧ last l ≠ Some 45.

Definition dns_name (a : bytes) : Prop :=
  ∃ labels, labels ≠ [] ∧ Forall dns_label labels ∧ a = Join labels [46].

Definition endpoint_ok (a : bytes) : Prop :=
  (length a ≤ MaxEndpointAddressLength)%nat ∧ (is_Some (ParseIP a) ∨ dns_name a).

Lemma label_rune_plain c : label_rune c = true → 0x20 < c < 0x80 ∧ c ∉ [47; 92; 58; 91; 93; 46; 0x7f].
Proof. unfold label_rune. intros ?%bool_decide_eq_true. rewrite !not_elem_of_cons. split_all; try lia. apply not_elem_of_nil. Qed.

Lemma ip_char_plain c : ip_char c → 0x20 < c < 0x80 ∧ c ∉ [47; 92; 91; 93; 0x7f].
Proof. unfold ip_char. intros ?. rewrite !not_elem_of_cons. split_all; try lia. apply not_elem_of_nil. Qed.

Lemma shiftl_mod_nonneg a n k : 0 ≤ n → 0 ≤ Z.shiftl (Z.land a (Z.ones n)) k.
Proof.
  intros. apply Z.shiftl_nonneg. rewrite Z.land_ones by done. apply Z.mod_pos_bound. lia.
Qed.

(** A multi-byte or invalid sequence does not decode to an ASCII rune. *)
Lemma DecodeRune_high b0 q : 0x80 ≤ b0 → 0x80 ≤ (Utf8.DecodeRune (b0 :: q)).1.
Proof.
  intros Hb. unfold Utf8.DecodeRune, Utf8.is_cont. rewrite decide_False by lia.
  assert (∀ b, 0 ≤ Z.land b 0x3F) as H6.
  { intros b. change 0x3F with (Z.ones 6). rewrite Z.land_ones by lia. apply Z.mod_pos_bound. lia. }
  assert (∀ b k, 0 ≤ Z.shiftl (Z.land b 0x3F) k) as Hs by (intros; apply (shiftl_mod_nonneg b 6); lia).
  assert (∀ a b, 0x80 ≤ a → 0 ≤ b → 0x80 ≤ Z.lor b a) as Hr
    by (intros; rewrite Z.lor_comm; by apply lor_ge_0x80).
  case_decide; [destruct q as [|b1 q]; [done|]|].
  { destruct (bool_decide _); [|done]. cbn [fst]. apply lor_ge_0x80; [|done].
    change 0x1F with (Z.ones 5). rewrite Z.land_ones, Z.shiftl_mul_pow2 by lia.
    assert (b0 mod 2 ^ 5 = b0 - 192) as -> by (symmetry; apply (Z.mod_unique_pos _ _ 6); lia). lia. }
  case_decide; [cbv zeta; destruct q as [|b1 [|b2 q]]; [done..|]|].
  { destruct (_ && _) eqn:E; [|done]. apply andb_true_iff in E as [E%bool_decide_eq_true _].
    cbn [fst]. apply lor_ge_0x80; [|done]. case_decide.
    - apply Hr; [|apply (shiftl_mod_nonneg b0 4); lia].
      change 0x3F with (Z.ones 6). rewrite Z.land_ones, Z.shiftl_mul_pow2 by lia.
      assert (b1 mod 2 ^ 6 = b1 - 128) as ->; [|lia]. repeat case_decide; symmetry;
        apply (Z.mod_unique_pos _ _ 2); lia.
    - apply lor_ge_0x80; [|done]. change 0x0F with (Z.ones 4).
      rewrite Z.land_ones, Z.shiftl_mul_pow2 by lia.
      assert (b0 mod 2 ^ 4 = b0 - 224) as -> by (symmetry; apply (Z.mod_unique_pos _ _ 14); lia). lia. }
  case_decide; [cbv zeta; destruct q as [|b1 [|b2 [|b3 q]]]; [done..|]|done].
  destruct (_ && _) eqn:E; [|done]. apply andb_true_iff in E as [[E%bool_decide_eq_true _]%andb_true_iff _].
  cbn [fst]. apply lor_ge_0x80; [|apply Z.lor_nonneg; by split]. case_decide.
  - apply Hr; [|apply (shiftl_mod_nonneg b0 3); lia].
    change 0x3F with (Z.ones 6). rewrite Z.land_ones, Z.shiftl_mul_pow2 by lia.
    assert (b1 mod 2 ^ 6 = b1 - 128) as ->; [|lia]. repeat case_decide; symmetry;
      apply (Z.mod_unique_pos _ _ 2); lia.
  - apply lor_ge_0x80; [|done]. change 0x07 with (Z.ones 3).
    rewrite Z.land_ones, Z.shiftl_mul_pow2 by lia.
    assert (b0 mod 2 ^ 3 = b0 - 240) as -> by (symmetry; apply (Z.mod_unique_pos _ _ 30); lia). lia.
Qed.

(** A loop over the runes of a string that admits only ASCII runes sees its bytes. *)
Lemma runes_all_ascii (p : Z → bool) s :
  (∀ r, 0x80 ≤ r → p r = false) →
  forallb (λ rw, p rw.1) (Utf8.runes s) = true ↔ Forall (λ c, p c = true) s.
Proof.
  intros Hp. unfold Utf8.runes. induction s as [|b s IH]; [done|].
  cbn [length Utf8.runes_fuel]. rewrite Forall_cons. destruct (decide (b < 0x80)).
  - rewrite Utf8.DecodeRune_ascii by done. cbn [forallb fst drop]. rewrite drop_0.
    rewrite andb_true_iff, IH. done.
  - rewrite (Hp b) by lia. pose proof (DecodeRune_high b s ltac:(lia)) as Hh.
    destruct (Utf8.DecodeRune (b :: s)) as [r w]. cbn [fst] in Hh. cbn [forallb fst].
    rewrite (Hp r) by done. naive_solver.
Qed.

Lemma existsb_forallb {A} (p : A → bool) l : existsb p l = negb (forallb (λ x, negb (p x)) l).
Proof. induction l as [|x l IH]; [done|]. cbn. rewrite IH. by destruct (p x). Qed.

Lemma label_rune_high r : 0x80 ≤ r → label_rune r = false.
Proof. intros. unfold label_rune. apply bool_decide_eq_false. lia. Qed.

Lemma check_labels_spec ls : check_labels ls = Ok tt ↔ Forall dns_label ls.
Proof.
  induction ls as [|l ls IH]; [done|]. cbn [check_labels]. rewrite Forall_cons. unfold dns_label.
  pose proof (runes_all_ascii label_rune l label_rune_high) as Hr.
  case_decide as Hd; [split; [done|]; intros [(? & ? & ? & ? & ?) _]; destruct_or!; done || lia|].
  destruct (forallb _ _).
  - rewrite IH. split; [|tauto]. intros ?. split; [|done]. split_all; try tauto; try lia.
  - split; [done|]. intros [(_ & _ & Hl & _) _]. by apply Hr in Hl.
Qed.

(** The characters of a name. *)
Definition name_char (c : Z) : Prop := label_rune c = true ∨ c = 46.

Lemma dns_name_chars a : dns_name a → a ≠ [] ∧ Forall name_char a.
Proof.
  intros (ls & Hne & Hls & ->). induction Hls as [|l ls (Hl & _ & Hc & _) Hls IH]; [done|].
  assert (Forall name_char l) as Hc' by (eapply Forall_impl; [exact Hc|]; by left).
  destruct ls as [|l' ls]; [done|]. rewrite Join_cons by done. split.
  - by intros [? _]%app_nil.
  - repeat (apply Forall_app; split); [done|by constructor; [right|constructor]|]. by apply IH.
Qed.

Lemma name_char_plain c : name_char c → 0x20 < c < 0x80 ∧ c ∉ [47; 92; 58; 91; 93; 0x7f].
Proof.
  intros [H%label_rune_plain| ->]; [|rewrite !not_elem_of_cons; split_all; try lia; apply not_elem_of_nil].
  rewrite !not_elem_of_cons in *. destruct_and!. split_all; try done; lia.
Qed.

(** The characters an accepted endpoint is made of. *)
Definition endpoint_char (c : Z) : Prop := 0x20 < c < 0x80 ∧ c ∉ [47; 92; 91; 93; 0x7f].

Lemma endpoint_ok_chars a : endpoint_ok a → a ≠ [] ∧ Forall endpoint_char a.
Proof.
  intros [_ [[ip Hip]|Hd]].
  - apply ParseIP_sound in Hip as (Hne & Hc & _). split; [done|].
    eapply Forall_impl; [exact Hc|]. apply ip_char_plain.
  - apply dns_name_chars in Hd as [Hne Hc]. split; [done|]. eapply Forall_impl; [exact Hc|].
    intros c [Hr Hn]%name_char_plain. split; [done|]. set_solver.
Qed.

Lemma no_forbidden a : Forall endpoint_char a →
  existsb (λ rw, forbidden_rune rw.1) (Utf8.runes a) = false.
Proof.
  intros Ha. rewrite Utf8.runes_ascii by (eapply Forall_impl; [exact Ha|]; intros c [? _]; lia).
  induction Ha as [|c a [Hc Hn] _ IH]; [done|]. cbn [fmap list_fmap existsb fst].
  unfold forbidden_rune at 1. rewrite !not_elem_of_cons in Hn. rewrite bool_decide_eq_false_2 by lia.
  exact IH.
Qed.

Lemma endpoint_trim a : a ≠ [] → Forall endpoint_char a → TrimSpace a = a.
Proof.
  intros Hne Ha. destruct (ends_ok _ a Hne Ha) as (c & c' & Hh & Hl & [? _] & [? _]).
  by eapply TrimSpace_plain.
Qed.

Lemma Validate_sound a : ValidateEndpointAddress a = Ok tt → endpoint_ok a.
Proof.
  unfold ValidateEndpointAddress. case_decide as Hd; [done|]. destruct (existsb _ _); [done|].
  intros H. split; [lia|]. destruct (ParseIP a) as [ip|]; [by left; eexists|right].
  exists (Split a [46]). split_all; [apply Split_ne|by apply check_labels_spec|by rewrite Join_Split].
Qed.

Lemma Validate_complete a : endpoint_ok a → ValidateEndpointAddress a = Ok tt.
Proof.
  intros Hok. destruct (endpoint_ok_chars a Hok) as [Hne Hc]. destruct Hok as [Hl Hor].
  unfold ValidateEndpointAddress.
  rewrite decide_False by (rewrite endpoint_trim by done; intros [? | [? | ?]]; done || lia).
  rewrite no_forbidden by done. destruct (ParseIP a) as [ip|] eqn:E; [done|].
  destruct Hor as [[? ?]|(ls & Hls & Hf & ->)]; [done|].
  rewrite Split_Join; [by apply check_labels_spec|done|].
  eapply Forall_impl; [exact Hf|]. intros l (_ & _ & Hr & _) Hin.
  rewrite Forall_forall in Hr. by apply Hr in Hin.
Qed.

(** [ValidateEndpointAddress] accepts exactly the address literals of
    [net.ParseIP] and the ASCII DNS names: at most 253 bytes, labels of 1 to 63
    letters, digits and inner hyphens. *)
Theorem ValidateEndpointAddress_spec (a : bytes) :
  ValidateEndpointAddress a = Ok tt ↔ endpoint_ok a.
Proof.
  split; [apply Validate_sound|apply Validate_complete].
Qed.

(** ** Destinations print and parse back *)

(** Addresses as [ParseAddress] produces them. *)
Definition address_ok (a : Address) : Prop :=
  match a with
  | ipv4Address b => wf_bytes b ∧ length b = 4%nat
  | ipv6Address b => wf_bytes b ∧ length b = 16%nat ∧ To4 b = None
  | domainAddress d => dns_name d ∧ ParseIP d = None
  end.

(** The host part of the printed address: the address without the brackets. *)
Definition host_text (a : Address) : bytes :=
  match a with ipv4Address b | ipv6Address b => IP_String b | domainAddress d => d end.

Lemma IPAddress_16 ip : wf_bytes ip → length ip = 16%nat →
  ∃ a, IPAddress ip = Some a ∧ address_ok a.
Proof.
  intros Hw Hl. destruct (IPAddress_spec ip Hw Hl) as (a & Ha & [[-> H4] | [-> H4]]).
  - exists (ipv4Address (drop 12 ip)). split; [done|]. split; [by apply Forall_drop|].
    rewrite length_drop. lia.
  - by exists (ipv6Address ip).
Qed.

Lemma host_text_spec a : address_ok a →
  host_text a ≠ [] ∧ Forall endpoint_char (host_text a) ∧
  match ParseIP (host_text a) with
  | Some ip => IPAddress ip
  | None => Some (DomainAddress (host_text a))
  end = Some a.
Proof.
  destruct a as [b|b|d]; cbn [address_ok host_text].
  - intros [Hw Hl]. pose proof (ParseIP_IP_String b Hw (or_introl Hl)) as Hp.
    rewrite To16_v4 in Hp by done. pose proof (ParseIP_sound _ _ Hp) as (Hne & Hc & Hw' & Hl').
    split_all; [done|by eapply Forall_impl; [exact Hc|]; apply ip_char_plain|]. rewrite Hp.
    destruct (IPAddress_spec _ Hw' Hl') as (a & -> & [[-> _]|[_ H4]]); [done|].
    unfold To4 in H4. rewrite decide_False, decide_True in H4; [done|done|by rewrite Hl'].
  - intros (Hw & Hl & H4). pose proof (ParseIP_IP_String b Hw (or_intror Hl)) as Hp.
    unfold To16 in Hp. rewrite decide_False, decide_True in Hp by (rewrite Hl; done).
    pose proof (ParseIP_sound _ _ Hp) as (Hne & Hc & _).
    split_all; [done|by eapply Forall_impl; [exact Hc|]; apply ip_char_plain|]. rewrite Hp.
    destruct (IPAddress_spec b Hw Hl) as (a & -> & [[_ H4']|[-> _]]); [congruence|done].
  - intros [Hd Hp]. rewrite Hp. apply dns_name_chars in Hd as [Hne Hc]. split_all; [done| |done].
    eapply Forall_impl; [exact Hc|]. intros c [Hr Hn]%name_char_plain. split; [done|]. set_solver.
Qed.

Lemma host_text_bare a : address_ok a → ParseAddress (host_text a) = Some a.
Proof.
  intros Ha. destruct (host_text_spec a Ha) as (Hne & Hc & Hp).
  destruct (ends_ok _ _ Hne Hc) as (c & c' & Hh & Hl & [? Hn] & [? _]).
  erewrite ParseAddress_plain; [exact Hp|done|done|done|done|set_solver].
Qed.

(** Every address, of either family or a name, prints to a text that
    [ParseAddress] maps back to it; for an IPv6 address also through its
    brackets. *)
Theorem ParseAddress_String (a : Address) :
  address_ok a → ParseAddress (Address_String a) = Some a.
Proof.
  intros Ha. pose proof (host_text_bare a Ha) as Hb. destruct a as [b|b|d]; try exact Hb.
  destruct (host_text_spec _ Ha) as (Hne & Hc & Hp). cbn [Address_String].
  destruct (ends_ok _ _ Hne Hc) as (c & c' & Hh & Hl & [? _] & [? _]).
  by erewrite ParseAddress_brackets.
Qed.

Lemma string4_no_colon b : wf_bytes b → 58 ∉ string4 b.
Proof.
  unfold string4. induction 1 as [|x b Hx Hb IH]; [apply not_elem_of_nil|].
  assert (58 ∉ dec_byte x) as Hd.
  { intros Hin. pose proof (dec_byte_plain x Hx) as Hp. rewrite Forall_forall in Hp.
    by apply Hp in Hin as (_ & ? & _). }
  destruct b as [|y b]; [done|]. cbn [fmap list_fmap]. rewrite Join_cons by done. set_solver.
Qed.

Lemma host_text_no_colon a : address_ok a → (∀ b, a ≠ ipv6Address b) → 58 ∉ host_text a.
Proof.
  destruct a as [b|b|d]; cbn [address_ok host_text]; intros Ha Hn; [|by destruct (Hn b)|].
  - destruct Ha as [Hw Hl]. unfold IP_String, To4. rewrite decide_True by done. by apply string4_no_colon.
  - destruct Ha as [Hd _]. apply dns_name_chars in Hd as [_ Hc]. intros Hin.
    rewrite Forall_forall in Hc. apply Hc, name_char_plain in Hin as [_ Hin]. set_solver.
Qed.

Lemma Itoa_no c n : 0 ≤ n < 10 ^ 20 → is_digit c = false → c ∉ Itoa n.
Proof.
  intros Hn Hc Hin. pose proof (Itoa_digits n Hn) as Hd. rewrite Forall_forall in Hd.
  apply Hd in Hin. congruence.
Qed.

Lemma SplitHostPort_String a port : address_ok a → is_uint 16 port →
  SplitHostPort (Address_String a ++ [58] ++ Port_String port) = Some (host_text a, Port_String port).
Proof.
  intros Ha Hp. destruct (host_text_spec a Ha) as (Hne & Hc & _). unfold is_uint in Hp.
  assert (∀ c, is_digit c = false → c ∉ Port_String port) as Hport by (intros; apply Itoa_no; [lia|done]).
  assert (91 ∉ host_text a ∧ 93 ∉ host_text a) as [H91 H93].
  { rewrite Forall_forall in Hc. split; intros [_ Hin]%Hc; set_solver. }
  destruct a as [b|b|d]; try (apply SplitHostPort_brackets; by auto);
    apply SplitHostPort_plain; auto; try (by apply host_text_no_colon);
    intros Hx; apply H91; cbn [host_text]; by apply head_Some_elem_of.
Qed.

Lemma PortFromString_String port : is_uint 16 port → PortFromString (Port_String port) = Some port.
Proof.
  unfold is_uint. intros Hp. unfold PortFromString, Port_String. rewrite ParseUint_Itoa by lia.
  unfold PortFromInt. rewrite (wrap_small 32) by (unfold is_uint; lia).
  rewrite decide_False by lia. by rewrite wrap_small.
Qed.

Lemma ParseDestination_String a port network t :
  address_ok a → is_uint 16 port → network = Network_TCP ∨ network = Network_UDP →
  Destination_String {| dest_Address := Some a; dest_Port := port; dest_Network := network |} = Some t →
  ParseDestination t = Some {| dest_Address := Some a; dest_Port := port; dest_Network := network |}.
Proof.
  intros Ha Hp Hn. unfold Destination_String, NetAddr. cbn [dest_Network dest_Address dest_Port].
  assert (∀ p, HasPrefix (lit "tcp:" ++ p) (lit "tcp:") = true) as Ht
    by (intros; apply bool_decide_eq_true; by eexists).
  assert (∀ p, HasPrefix (lit "udp:" ++ p) (lit "udp:") = true) as Hu
    by (intros; apply bool_decide_eq_true; by eexists).
  assert (∀ p, HasPrefix (lit "udp:" ++ p) (lit "tcp:") = false) as Htu
    by (intros; apply bool_decide_eq_false; intros [k Hk]; done).
  destruct (host_text_spec a Ha) as (Hne & _ & _).
  assert (0 < length (host_text a))%nat by (destruct (host_text a); [done|cbn; lia]).
  assert (0 < length (Port_String port))%nat
    by (pose proof (Itoa_ne port); unfold Port_String; destruct (Itoa port); [done|cbn; lia]).
  assert (∀ pre (q : bytes), length pre = 4%nat → drop 4 (pre ++ q) = q) as Hd
    by (intros; by apply drop_app_length').
  unfold ParseDestination.
  destruct Hn as [-> | ->]; cbn [mbind option_bind fmap option_fmap option_map];
    intros Heq; apply (inj Some) in Heq as <-; rewrite ?Htu, ?Ht, ?Hu, Hd by done; cbv iota zeta beta;
    rewrite decide_False by (by intros [? _]); rewrite SplitHostPort_String by done;
    rewrite !decide_True by done; by rewrite PortFromString_String, host_text_bare.
Qed.

Lemma destination_inv address port network d :
  destination address port network = Ok d →
  port ≠ 0 ∧ endpoint_ok address ∧ ∃ a, ParseAddress address = Some a ∧ address_ok a ∧
  d = {| dest_Address := Some a; dest_Port := port; dest_Network := network |}.
Proof.
  unfold destination. case_decide; [|done].
  destruct (ValidateEndpointAddress address) as [[]|] eqn:E; [|done]. cbn [result_bind].
  intros Hd. injection Hd as <-. apply Validate_sound in E. split_all; [done|done|].
  destruct (endpoint_ok_chars _ E) as [Hne Hc].
  destruct (ends_ok _ _ Hne Hc) as (c & c' & Hh & Hl & [? Hn] & [? _]).
  erewrite ParseAddress_plain; [|done|done|done|done|set_solver].
  destruct (ParseIP address) as [ip|] eqn:Ep.
  - pose proof (ParseIP_sound _ _ Ep) as (_ & _ & Hw & Hl16).
    destruct (IPAddress_16 ip Hw Hl16) as (a & -> & Ha). by exists a.
  - destruct E as [_ [[? ?]|Hdns]]; [congruence|]. by exists (domainAddress address).
Qed.

(** What [DialTCP] hands to the dispatcher for an accepted endpoint has a
    non-nil address, and its text form parses back to the same destination. *)
Theorem destination_roundtrip (address : bytes) (port : Z) (network : Network) (d : Destination) :
  is_uint 16 port → network = Network_TCP ∨ network = Network_UDP →
  destination address port network = Ok d →
  ∃ t, Destination_String d = Some t ∧ ParseDestination t = Some d.
Proof.
  intros Hp Hn Hd. apply destination_inv in Hd as (_ & _ & a & _ & Ha & ->).
  assert (is_Some (Destination_String {| dest_Address := Some a; dest_Port := port; dest_Network := network |}))
    as [t Ht] by (destruct Hn as [-> | ->]; by eexists).
  exists t. split; [done|]. by eapply ParseDestination_String.
Qed.

Lemma ParseAddress_String_witness :
  ParseAddress (Address_String (ipv6Address [0x20;1;0xd;0xb8;0;0;0;0;0;1;0;0;0;0;0;0x35])) =
  Some (ipv6Address [0x20;1;0xd;0xb8;0;0;0;0;0;1;0;0;0;0;0;0x35]).
Proof. apply ParseAddress_String. apply (bool_decide_unpack _). vm_compute. exact I. Defined.

Lemma destination_roundtrip_witness :
  ∃ t, Destination_String (TCPDestination (Some (DomainAddress (lit "www.example.com"))) 443) = Some t ∧
       ParseDestination t = Some (TCPDestination (Some (DomainAddress (lit "www.example.com"))) 443).
Proof.
  apply (destination_roundtrip (lit "www.example.com") 443 Network_TCP);
    [by apply (bool_decide_unpack _)|by left|vm_compute; reflexivity].
Defined.
