(* ===== verification/ChinaIPData.v ===== *)
(** The generated tables of src/apple-wrapper/router/china_ip_data.go, entry by
    entry: the inclusive [start, end] ranges of the IPv4 table, and of the IPv6
    table with each address as the pair of its two 64-bit halves. *)
From S2P Require Import Prelude.

(** [chinaIPv4Ranges]: 5661 ranges. *)
Definition chinaIPv4Ranges : list (Z * Z) :=
 [
  (0x01000100, 0x010001ff); (0x01000200, 0x010003ff); (0x01000800, 0x01000fff);
  (0x01002000, 0x01003fff); (0x01010000, 0x010100ff); (0x01010200, 0x010103ff);
  (0x01010400, 0x010107ff); (0x01010800, 0x01010fff); (0x01011000, 0x01011fff);
  (0x01012000, 0x01013fff); (0x01020000, 0x010201ff); (0x01020200, 0x010202ff);
  (0x01020400, 0x010207ff); (0x01020800, 0x01020fff); (0x01021000, 0x01021fff);
  (0x01022000, 0x01023fff); (0x01024000, 0x01027fff); (0x01030000, 0x0103ffff);
  (0x01040100, 0x010401ff); (0x01040200, 0x010403ff); (0x01040400, 0x010407ff);
  (0x01040800, 0x01040fff); (0x01041000, 0x01041fff); (0x01042000, 0x01043fff);
  (0x01044000, 0x01047fff); (0x01080000, 0x0108ffff); (0x010a0000, 0x010a07ff);
  (0x010a0800, 0x010a09ff); (0x010a0b00, 0x010a0bff); (0x010a0c00, 0x010a0fff);
  (0x010a1000, 0x010a1fff); (0x010a2000, 0x010a3fff); (0x010a4000, 0x010a7fff);
  (0x010c0000, 0x010fffff); (0x01128000, 0x011280ff); (0x01180000, 0x011fffff);
  (0x012d0000, 0x012dffff); (0x01300000, 0x0133ffff); (0x01380000, 0x013fffff);
  (0x01440000, 0x0147ffff); (0x01500000, 0x015fffff); (0x01740000, 0x0177ffff);
  (0x01b40000, 0x01b7ffff); (0x01b80000, 0x01b9ffff); (0x01bc0000, 0x01bfffff);
  (0x01c00000, 0x01c7ffff); (0x01ca0000, 0x01cbffff); (0x01cc0000, 0x01cfffff);
  (0x0238ff00, 0x0238ffff); (0x023af200, 0x023af2ff); (0x023b9700, 0x023b97ff);
  (0x05b5db00, 0x05b5dbff); (0x08800400, 0x088007ff); (0x08802000, 0x08803fff);
  (0x08804000, 0x08805fff); (0x08806000, 0x08806fff); (0x08810000, 0x0881ffff);
  (0x08820000, 0x0883ffff); (0x08840000, 0x0887ffff); (0x08880000, 0x088fffff);
  (0x08900000, 0x0893ffff); (0x08940000, 0x08941fff); (0x08942400, 0x089427ff);
  (0x08942900, 0x089429ff); (0x08942b00, 0x08942bff); (0x08944000, 0x08947fff);
  (0x08948000, 0x0894ffff); (0x08950000, 0x0895ffff); (0x08960000, 0x08961fff);
  (0x08962000, 0x089627ff); (0x08964000, 0x089641ff); (0x08980000, 0x089fffff);
  (0x08a00000, 0x08a1ffff); (0x08a20000, 0x08a27fff); (0x08a30000, 0x08a3ffff);
  (0x08a40000, 0x08a7ffff); (0x08a80000, 0x08a9ffff); (0x08b00000, 0x08b07fff);
  (0x08b08000, 0x08b09fff); (0x0e000000, 0x0e0007ff); (0x0e000c00, 0x0e000fff);
  (0x0e010000, 0x0e0103ff); (0x0e011800, 0x0e011bff); (0x0e016000, 0x0e0163ff);
  (0x0e016c00, 0x0e016fff); (0x0e100000, 0x0e1fffff); (0x0e668000, 0x0e6683ff);
  (0x0e669c00, 0x0e669fff); (0x0e66b400, 0x0e66b7ff); (0x0e670000, 0x0e67ffff);
  (0x0e680000, 0x0e6fffff); (0x0e700000, 0x0e7fffff); (0x0e820000, 0x0e83ffff);
  (0x0e860000, 0x0e87ffff); (0x0e900000, 0x0e9fffff); (0x0ec03c00, 0x0ec03fff);
  (0x0ec04c00, 0x0ec04fff); (0x0ec40000, 0x0ec5ffff); (0x0ecc0000, 0x0ecdffff);
  (0x0ed00000, 0x0edfffff); (0x0eff1000, 0x0eff10ff); (0x0effee00, 0x0effeeff);
  (0x0efffe00, 0x0efffeff); (0x10028e00, 0x10028fff); (0x17f78000, 0x17f780ff);
  (0x17f78200, 0x17f782ff); (0x1b008000, 0x1b0087ff); (0x1b00a000, 0x1b00a7ff);
  (0x1b00bc00, 0x1b00bfff); (0x1b00cc00, 0x1b00cfff); (0x1b00d000, 0x1b00d7ff);
  (0x1b080000, 0x1b0fffff); (0x1b100000, 0x1b1fffff); (0x1b22e800, 0x1b22efff);
  (0x1b240000, 0x1b27ffff); (0x1b280000, 0x1b2fffff); (0x1b322800, 0x1b322fff);
  (0x1b328000, 0x1b32ffff); (0x1b364800, 0x1b364fff); (0x1b369800, 0x1b369fff);
  (0x1b36c000, 0x1b36ffff); (0x1b62d000, 0x1b62dfff); (0x1b62e000, 0x1b62ffff);
  (0x1b638000, 0x1b63ffff); (0x1b670000, 0x1b67ffff); (0x1b6a8000, 0x1b6abfff);
  (0x1b6acc00, 0x1b6acfff); (0x1b6d2000, 0x1b6d3fff); (0x1b6d7c00, 0x1b6d7fff);
  (0x1b700000, 0x1b703fff); (0x1b705000, 0x1b705fff); (0x1b707000, 0x1b7077ff);
  (0x1b718000, 0x1b71bfff); (0x1b730000, 0x1b737fff); (0x1b742c00, 0x1b742fff);
  (0x1b794800, 0x1b794fff); (0x1b797800, 0x1b797fff); (0x1b800000, 0x1b81ffff);
  (0x1b83dc00, 0x1b83dfff); (0x1b900000, 0x1b90ffff); (0x1b940000, 0x1b97ffff);
  (0x1b980000, 0x1b9fffff); (0x1bb80000, 0x1bbfffff); (0x1bc00000, 0x1bdfffff);
  (0x1be00000, 0x1be3ffff); (0x1f28d600, 0x1f28d6ff); (0x24000000, 0x240003ff);
  (0x24000800, 0x24000fff); (0x24001000, 0x24001fff); (0x24002000, 0x24003fff);
  (0x24004000, 0x24007fff); (0x24008000, 0x2400ffff); (0x24010000, 0x2401ffff);
  (0x24040000, 0x2407ffff); (0x24100000, 0x241fffff); (0x24200000, 0x2423ffff);
  (0x24240000, 0x2424ffff); (0x24250000, 0x24251fff); (0x24252400, 0x242525ff);
  (0x24252700, 0x242527ff); (0x24252800, 0x24252fff); (0x24253000, 0x24253fff);
  (0x24280000, 0x242fffff); (0x24300000, 0x2431ffff); (0x2432e200, 0x2432e3ff);
  (0x2432fe00, 0x2432ffff); (0x24330000, 0x2433ffff); (0x24380000, 0x243fffff);
  (0x24600000, 0x247fffff); (0x24800000, 0x24bfffff); (0x24c00000, 0x24dfffff);
  (0x24f80000, 0x24fbffff); (0x24fe0000, 0x24feffff); (0x24ff7400, 0x24ff77ff);
  (0x24ff8000, 0x24ff83ff); (0x24ffa400, 0x24ffa7ff); (0x24ffac00, 0x24ffafff);
  (0x24ffb000, 0x24ffb3ff); (0x27000000, 0x270000ff); (0x27000200, 0x270003ff);
  (0x27000400, 0x270007ff); (0x27000800, 0x27000fff); (0x27001000, 0x27001fff);
  (0x27002000, 0x27003fff); (0x27004000, 0x27007fff); (0x27008000, 0x2700ffff);
  (0x27400000, 0x275fffff); (0x27600000, 0x2767ffff); (0x27680000, 0x276bffff);
  (0x276c0000, 0x276cffff); (0x27800000, 0x27bfffff); (0x2800b000, 0x2800bfff);
  (0x2800f800, 0x2800ffff); (0x28480000, 0x2849ffff); (0x287d8000, 0x287dffff);
  (0x287e4000, 0x287e7fff); (0x28a20000, 0x28a2ffff); (0x28c60a00, 0x28c60aff);
  (0x28c61000, 0x28c617ff); (0x28c61800, 0x28c619ff); (0x28fbe100, 0x28fbe1ff);
  (0x28fbe300, 0x28fbe3ff); (0x28fbe400, 0x28fbe4ff); (0x2a000000, 0x2a0003ff);
  (0x2a000800, 0x2a000fff); (0x2a001000, 0x2a0017ff); (0x2a001800, 0x2a001bff);
  (0x2a002000, 0x2a003fff); (0x2a008000, 0x2a00ffff); (0x2a010000, 0x2a011fff);
  (0x2a012000, 0x2a012fff); (0x2a013000, 0x2a0137ff); (0x2a013800, 0x2a013bff);
  (0x2a018000, 0x2a01ffff); (0x2a040000, 0x2a07ffff); (0x2a300000, 0x2a37ffff);
  (0x2a380000, 0x2a3bffff); (0x2a3e0000, 0x2a3e7fff); (0x2a3e8000, 0x2a3e9fff);
  (0x2a3ea000, 0x2a3eafff); (0x2a3eb400, 0x2a3eb7ff); (0x2a3eb800, 0x2a3ebfff);
  (0x2a3f0000, 0x2a3fffff); (0x2a500000, 0x2a51ffff); (0x2a534000, 0x2a534fff);
  (0x2a535000, 0x2a5353ff); (0x2a535800, 0x2a535fff); (0x2a536000, 0x2a537fff);
  (0x2a538000, 0x2a53ffff); (0x2a540000, 0x2a57ffff); (0x2a580000, 0x2a5fffff);
  (0x2a604000, 0x2a605fff); (0x2a606000, 0x2a6067ff); (0x2a606c00, 0x2a606fff);
  (0x2a607000, 0x2a607fff); (0x2a608000, 0x2a60ffff); (0x2a610000, 0x2a61ffff);
  (0x2a630000, 0x2a633fff); (0x2a634000, 0x2a635fff); (0x2a636000, 0x2a636fff);
  (0x2a637000, 0x2a6373ff); (0x2a637800, 0x2a637fff); (0x2a640000, 0x2a67ffff);
  (0x2a780000, 0x2a79ffff); (0x2a7a0000, 0x2a7affff); (0x2a7b0000, 0x2a7b1fff);
  (0x2a7b2400, 0x2a7b27ff); (0x2a7b2800, 0x2a7b2fff); (0x2a7b3000, 0x2a7b3fff);
  (0x2a7b4000, 0x2a7b7fff); (0x2a7b8000, 0x2a7bffff); (0x2a800000, 0x2a8fffff);
  (0x2a9c0000, 0x2a9c1fff); (0x2a9c2400, 0x2a9c27ff); (0x2a9c2800, 0x2a9c2fff);
  (0x2a9c3000, 0x2a9c3fff); (0x2a9c4000, 0x2a9c7fff); (0x2a9c8000, 0x2a9cffff);
  (0x2a9d0000, 0x2a9dffff); (0x2a9e0000, 0x2a9fffff); (0x2aa00000, 0x2aafffff);
  (0x2ab00000, 0x2ab7ffff); (0x2ab80000, 0x2ab9ffff); (0x2aba0000, 0x2abaffff);
  (0x2abb0000, 0x2abb3fff); (0x2abb4000, 0x2abb5fff); (0x2abb6000, 0x2abb6fff);
  (0x2abb7000, 0x2abb77ff); (0x2abb7800, 0x2abb7bff); (0x2abb8000, 0x2abbffff);
  (0x2ac00000, 0x2ac7ffff); (0x2ac90000, 0x2ac97fff); (0x2aca0000, 0x2acbffff);
  (0x2acc0000, 0x2acfffff); (0x2ad00000, 0x2adfffff); (0x2ae00000, 0x2aefffff);
  (0x2af00000, 0x2af0ffff); (0x2af20000, 0x2af3ffff); (0x2af40000, 0x2af7ffff);
  (0x2af80000, 0x2affffff); (0x2b880000, 0x2b8fffff); (0x2b900000, 0x2b91ffff);
  (0x2b940000, 0x2b97ffff); (0x2bb00000, 0x2bbfffff); (0x2bc00000, 0x2bc3ffff);
  (0x2bc40000, 0x2bc5ffff); (0x2be00c00, 0x2be00fff); (0x2be01800, 0x2be01bff);
  (0x2be02c00, 0x2be02fff); (0x2be03400, 0x2be037ff); (0x2be03800, 0x2be03bff);
  (0x2be04400, 0x2be047ff); (0x2be04800, 0x2be04bff); (0x2be05000, 0x2be053ff);
  (0x2be06400, 0x2be067ff); (0x2be09000, 0x2be093ff); (0x2be0a000, 0x2be0a3ff);
  (0x2be0b000, 0x2be0b3ff); (0x2be0b800, 0x2be0bbff); (0x2be0c800, 0x2be0cfff);
  (0x2be0d000, 0x2be0d7ff); (0x2be0d800, 0x2be0dbff); (0x2be0f000, 0x2be0f3ff);
  (0x2be14c00, 0x2be14fff); (0x2be15400, 0x2be157ff); (0x2be17800, 0x2be17bff);
  (0x2be1ac00, 0x2be1afff); (0x2be1b400, 0x2be1b7ff); (0x2be1d000, 0x2be1d3ff);
  (0x2be1d800, 0x2be1dfff); (0x2be1e000, 0x2be1efff); (0x2be1f000, 0x2be1f7ff);
  (0x2be1fc00, 0x2be1ffff); (0x2be22000, 0x2be23fff); (0x2be24000, 0x2be25fff);
  (0x2be26000, 0x2be26fff); (0x2be27000, 0x2be277ff); (0x2be27800, 0x2be27bff);
  (0x2be28000, 0x2be2bfff); (0x2be2c000, 0x2be2cfff); (0x2be2d000, 0x2be2d7ff);
  (0x2be2ec00, 0x2be2efff); (0x2be2f000, 0x2be2ffff); (0x2be30000, 0x2be307ff);
  (0x2be30800, 0x2be30bff); (0x2be32000, 0x2be33fff); (0x2be34000, 0x2be35fff);
  (0x2be36000, 0x2be367ff); (0x2be36800, 0x2be36bff); (0x2be38800, 0x2be38fff);
  (0x2be39000, 0x2be393ff); (0x2be39800, 0x2be39fff); (0x2be3a000, 0x2be3afff);
  (0x2be3b000, 0x2be3b7ff); (0x2be3bc00, 0x2be3bfff); (0x2be3c000, 0x2be3dfff);
  (0x2be3e800, 0x2be3ebff); (0x2be3f800, 0x2be3ffff); (0x2be40000, 0x2be43fff);
  (0x2be44000, 0x2be447ff); (0x2be44c00, 0x2be44fff); (0x2be46400, 0x2be467ff);
  (0x2be47400, 0x2be477ff); (0x2be47800, 0x2be47bff); (0x2be48400, 0x2be487ff);
  (0x2be48800, 0x2be48bff); (0x2be49400, 0x2be497ff); (0x2be49800, 0x2be49bff);
  (0x2be4bc00, 0x2be4bfff); (0x2be4cc00, 0x2be4cfff); (0x2be4f000, 0x2be4f3ff);
  (0x2be52800, 0x2be52bff); (0x2be53000, 0x2be533ff); (0x2be53800, 0x2be53bff);
  (0x2be56000, 0x2be563ff); (0x2be58800, 0x2be58fff); (0x2be59000, 0x2be593ff);
  (0x2be5a800, 0x2be5afff); (0x2be5b000, 0x2be5bfff); (0x2be5c000, 0x2be5c7ff);
  (0x2be5d800, 0x2be5dfff); (0x2be5e800, 0x2be5efff); (0x2be61400, 0x2be617ff);
  (0x2be62000, 0x2be623ff); (0x2be64400, 0x2be647ff); (0x2be64800, 0x2be64bff);
  (0x2be67c00, 0x2be67fff); (0x2be68800, 0x2be68bff); (0x2be6dc00, 0x2be6dfff);
  (0x2be6e000, 0x2be6ffff); (0x2be72000, 0x2be72fff); (0x2be75000, 0x2be75fff);
  (0x2be76000, 0x2be76fff); (0x2be78800, 0x2be78fff); (0x2be79000, 0x2be79fff);
  (0x2be7a000, 0x2be7afff); (0x2be7b000, 0x2be7b7ff); (0x2bec0000, 0x2becffff);
  (0x2bed0000, 0x2bed7fff); (0x2bed8000, 0x2bedbfff); (0x2bedc000, 0x2bedc3ff);
  (0x2bedc800, 0x2bedcfff); (0x2bedd000, 0x2beddfff); (0x2bede000, 0x2bedffff);
  (0x2bee0000, 0x2beeffff); (0x2bef0000, 0x2bef1fff); (0x2bef2000, 0x2bef2fff);
  (0x2bef3000, 0x2bef33ff); (0x2bef7400, 0x2bef77ff); (0x2bef7800, 0x2bef7bff);
  (0x2befac00, 0x2befafff); (0x2befb000, 0x2befb3ff); (0x2bf00000, 0x2bf003ff);
  (0x2bf03800, 0x2bf03fff); (0x2bf04400, 0x2bf047ff); (0x2bf04800, 0x2bf04fff);
  (0x2bf05400, 0x2bf057ff); (0x2bf07c00, 0x2bf07fff); (0x2bf08000, 0x2bf087ff);
  (0x2bf08800, 0x2bf08bff); (0x2bf09000, 0x2bf093ff); (0x2bf09c00, 0x2bf09fff);
  (0x2bf0a000, 0x2bf0bfff); (0x2bf0c000, 0x2bf0dfff); (0x2bf0f000, 0x2bf0ffff);
  (0x2bf10000, 0x2bf10fff); (0x2bf11000, 0x2bf117ff); (0x2bf13000, 0x2bf133ff);
  (0x2bf14c00, 0x2bf14fff); (0x2bf15000, 0x2bf15fff); (0x2bf17000, 0x2bf173ff);
  (0x2bf1a800, 0x2bf1afff); (0x2bf1b000, 0x2bf1b7ff); (0x2bf1b800, 0x2bf1bbff);
  (0x2bf1d000, 0x2bf1dfff); (0x2bf1e000, 0x2bf1efff); (0x2bf1f000, 0x2bf1f3ff);
  (0x2bf1f800, 0x2bf1ffff); (0x2bf20800, 0x2bf20fff); (0x2bf21000, 0x2bf21fff);
  (0x2bf23000, 0x2bf23fff); (0x2bf24000, 0x2bf243ff); (0x2bf24800, 0x2bf24fff);
  (0x2bf25000, 0x2bf25fff); (0x2bf26000, 0x2bf263ff); (0x2bf29000, 0x2bf29fff);
  (0x2bf2a000, 0x2bf2a7ff); (0x2bf2a800, 0x2bf2abff); (0x2bf2b400, 0x2bf2b7ff);
  (0x2bf2bc00, 0x2bf2bfff); (0x2bf2c000, 0x2bf2c7ff); (0x2bf2cc00, 0x2bf2cfff);
  (0x2bf2d800, 0x2bf2dfff); (0x2bf2fc00, 0x2bf2ffff); (0x2bf30400, 0x2bf307ff);
  (0x2bf30800, 0x2bf30fff); (0x2bf31000, 0x2bf313ff); (0x2bf35800, 0x2bf35bff);
  (0x2bf38000, 0x2bf383ff); (0x2bf38800, 0x2bf38bff); (0x2bf39000, 0x2bf397ff);
  (0x2bf39c00, 0x2bf39fff); (0x2bf3b400, 0x2bf3b7ff); (0x2bf3e400, 0x2bf3e7ff);
  (0x2bf3e800, 0x2bf3ebff); (0x2bf3f400, 0x2bf3f7ff); (0x2bf60000, 0x2bf63fff);
  (0x2bf64000, 0x2bf65fff); (0x2bf66000, 0x2bf663ff); (0x2bf67000, 0x2bf673ff);
  (0x2bf6e400, 0x2bf6e7ff); (0x2bf70400, 0x2bf707ff); (0x2bf70800, 0x2bf70bff);
  (0x2bf72c00, 0x2bf72fff); (0x2bf73000, 0x2bf733ff); (0x2bf74400, 0x2bf747ff);
  (0x2bf74c00, 0x2bf74fff); (0x2bf75400, 0x2bf757ff); (0x2bf75800, 0x2bf75fff);
  (0x2bf76000, 0x2bf767ff); (0x2bf76c00, 0x2bf76fff); (0x2bf77000, 0x2bf773ff);
  (0x2bf79400, 0x2bf797ff); (0x2bf79800, 0x2bf79bff); (0x2bf7b000, 0x2bf7bfff);
  (0x2bf7c400, 0x2bf7c7ff); (0x2bf7c800, 0x2bf7cfff); (0x2bf7d000, 0x2bf7dfff);
  (0x2bf7e000, 0x2bf7ffff); (0x2bf80000, 0x2bf807ff); (0x2bf81400, 0x2bf817ff);
  (0x2bf81c00, 0x2bf81fff); (0x2bf83000, 0x2bf833ff); (0x2bf84c00, 0x2bf84fff);
  (0x2bf85000, 0x2bf85fff); (0x2bf86000, 0x2bf87fff); (0x2bf88000, 0x2bf88fff);
  (0x2bf89000, 0x2bf897ff); (0x2bf8b000, 0x2bf8bfff); (0x2bf8c000, 0x2bf8cfff);
  (0x2bf8d000, 0x2bf8d3ff); (0x2bf8e400, 0x2bf8e7ff); (0x2bf8e800, 0x2bf8ebff);
  (0x2bf8f400, 0x2bf8f7ff); (0x2bf90000, 0x2bf901ff); (0x2bf90200, 0x2bf902ff);
  (0x2bf90400, 0x2bf907ff); (0x2bf97800, 0x2bf97bff); (0x2bf98400, 0x2bf987ff);
  (0x2bf98800, 0x2bf98bff); (0x2bf99000, 0x2bf99fff); (0x2bf9a000, 0x2bf9a7ff);
  (0x2bf9a800, 0x2bf9abff); (0x2bf9c000, 0x2bf9c3ff); (0x2bf9ec00, 0x2bf9efff);
  (0x2bfa0400, 0x2bfa07ff); (0x2bfa0c00, 0x2bfa0fff); (0x2bfa1000, 0x2bfa17ff);
  (0x2bfa1c00, 0x2bfa1fff); (0x2bfa2000, 0x2bfa27ff); (0x2bfa4800, 0x2bfa4bff);
  (0x2bfa6000, 0x2bfa6fff); (0x2bfa7000, 0x2bfa77ff); (0x2bfa8000, 0x2bfa83ff);
  (0x2bfa9000, 0x2bfa97ff); (0x2bfaa000, 0x2bfaa3ff); (0x2bfaa800, 0x2bfaafff);
  (0x2bfab000, 0x2bfab3ff); (0x2bfab400, 0x2bfab5ff); (0x2bfac800, 0x2bfacbff);
  (0x2bfad400, 0x2bfad7ff); (0x2bfad800, 0x2bfadfff); (0x2bfaec00, 0x2bfaefff);
  (0x2bfaf400, 0x2bfaf7ff); (0x2bfb0400, 0x2bfb07ff); (0x2bfb0800, 0x2bfb0bff);
  (0x2bfb2400, 0x2bfb27ff); (0x2bfb7400, 0x2bfb77ff); (0x2bfbc000, 0x2bfbc3ff);
  (0x2bfbe800, 0x2bfbefff); (0x2bfbf400, 0x2bfbf7ff); (0x2bfc3000, 0x2bfc33ff);
  (0x2bfc3800, 0x2bfc3bff); (0x2bfe0000, 0x2bfe07ff); (0x2bfe0800, 0x2bfe0bff);
  (0x2bfe1800, 0x2bfe1bff); (0x2bfe2400, 0x2bfe27ff); (0x2bfe2c00, 0x2bfe2fff);
  (0x2bfe3400, 0x2bfe37ff); (0x2bfe4000, 0x2bfe43ff); (0x2bfe4800, 0x2bfe4bff);
  (0x2bfe5400, 0x2bfe57ff); (0x2bfe5800, 0x2bfe5fff); (0x2bfe6400, 0x2bfe67ff);
  (0x2bfe6800, 0x2bfe6bff); (0x2bfe7000, 0x2bfe77ff); (0x2bfe8000, 0x2bfe83ff);
  (0x2bfe8800, 0x2bfe8fff); (0x2bfe9000, 0x2bfe9fff); (0x2bfea800, 0x2bfeafff);
  (0x2bfeb400, 0x2bfeb7ff); (0x2bfeb800, 0x2bfebfff); (0x2bfec000, 0x2bfec7ff);
  (0x2bfec800, 0x2bfecbff); (0x2bfed000, 0x2bfed3ff); (0x2bfedc00, 0x2bfedfff);
  (0x2bfee000, 0x2bfeefff); (0x2bfef000, 0x2bfef3ff); (0x2bfef800, 0x2bfeffff);
  (0x2bff0000, 0x2bff07ff); (0x2bff0800, 0x2bff0bff); (0x2bff1000, 0x2bff13ff);
  (0x2bff3000, 0x2bff33ff); (0x2bff4000, 0x2bff4fff); (0x2bff5400, 0x2bff57ff);
  (0x2bff6000, 0x2bff63ff); (0x2bff9000, 0x2bff93ff); (0x2bffb000, 0x2bffb3ff);
  (0x2bffb800, 0x2bffbbff); (0x2bffc000, 0x2bffc3ff); (0x2bffc800, 0x2bffcfff);
  (0x2bffd000, 0x2bffd7ff); (0x2bffe000, 0x2bffe7ff); (0x2bffe800, 0x2bffebff);
  (0x2bfff400, 0x2bfff7ff); (0x2d0c5800, 0x2d0c58ff); (0x2d0c5a00, 0x2d0c5aff);
  (0x2d28c000, 0x2d28ffff); (0x2d3dc800, 0x2d3dc9ff); (0x2d3de200, 0x2d3de2ff);
  (0x2d411000, 0x2d411fff); (0x2d43df00, 0x2d43dfff); (0x2d512200, 0x2d5122ff);
  (0x2d5b8b00, 0x2d5b8bff); (0x2d708400, 0x2d7087ff); (0x2d70bc00, 0x2d70bfff);
  (0x2d70d000, 0x2d70dfff); (0x2d70e400, 0x2d70e7ff); (0x2d70e800, 0x2d70efff);
  (0x2d710c00, 0x2d710fff); (0x2d711000, 0x2d711fff); (0x2d712800, 0x2d712bff);
  (0x2d713400, 0x2d7137ff); (0x2d713800, 0x2d713bff); (0x2d714800, 0x2d714bff);
  (0x2d719000, 0x2d7197ff); (0x2d71a800, 0x2d71abff); (0x2d71b000, 0x2d71b3ff);
  (0x2d71b800, 0x2d71bbff); (0x2d71c800, 0x2d71cfff); (0x2d71d000, 0x2d71dfff);
  (0x2d71f000, 0x2d71f3ff); (0x2d71fc00, 0x2d71ffff); (0x2d720000, 0x2d7203ff);
  (0x2d722000, 0x2d7223ff); (0x2d722800, 0x2d722bff); (0x2d723400, 0x2d7237ff);
  (0x2d726000, 0x2d7263ff); (0x2d727c00, 0x2d727fff); (0x2d728800, 0x2d728bff);
  (0x2d72c400, 0x2d72c7ff); (0x2d72c800, 0x2d72cbff); (0x2d72e400, 0x2d72e7ff);
  (0x2d72fc00, 0x2d72ffff); (0x2d731200, 0x2d7313ff); (0x2d732c00, 0x2d732fff);
  (0x2d736400, 0x2d7367ff); (0x2d737800, 0x2d737bff); (0x2d738400, 0x2d7387ff);
  (0x2d739000, 0x2d7393ff); (0x2d739c00, 0x2d739fff); (0x2d73a400, 0x2d73a7ff);
  (0x2d73c800, 0x2d73cbff); (0x2d73d400, 0x2d73d7ff); (0x2d73e400, 0x2d73e7ff);
  (0x2d73ec00, 0x2d73efff); (0x2d73f400, 0x2d73f7ff); (0x2d73f800, 0x2d73fbff);
  (0x2d741000, 0x2d7413ff); (0x2d741800, 0x2d741bff); (0x2d742000, 0x2d7427ff);
  (0x2d743400, 0x2d7437ff); (0x2d746000, 0x2d7467ff); (0x2d748c00, 0x2d748fff);
  (0x2d749800, 0x2d749bff); (0x2d74d000, 0x2d74d3ff); (0x2d750800, 0x2d750bff);
  (0x2d751400, 0x2d7517ff); (0x2d754400, 0x2d7547ff); (0x2d757c00, 0x2d757fff);
  (0x2d75fc00, 0x2d75ffff); (0x2d773400, 0x2d7737ff); (0x2d773c00, 0x2d773fff);
  (0x2d774000, 0x2d7747ff); (0x2d774800, 0x2d774bff); (0x2d776800, 0x2d776bff);
  (0x2d777400, 0x2d7777ff); (0x2d77e800, 0x2d77ebff); (0x2d786400, 0x2d7867ff);
  (0x2d788c00, 0x2d788fff); (0x2d78a400, 0x2d78a7ff); (0x2d78f000, 0x2d78f3ff);
  (0x2d793400, 0x2d7937ff); (0x2d794000, 0x2d7947ff); (0x2d794800, 0x2d794bff);
  (0x2d795c00, 0x2d795fff); (0x2d796000, 0x2d7963ff); (0x2d79ac00, 0x2d79afff);
  (0x2d79b000, 0x2d79b3ff); (0x2d79d400, 0x2d79d7ff); (0x2d79f000, 0x2d79ffff);
  (0x2d7a0000, 0x2d7a1fff); (0x2d7a2000, 0x2d7a27ff); (0x2d7a2800, 0x2d7a2bff);
  (0x2d7a3c00, 0x2d7a3fff); (0x2d7a4000, 0x2d7a5fff); (0x2d7a6000, 0x2d7a6fff);
  (0x2d7a7000, 0x2d7a77ff); (0x2d7aa000, 0x2d7abfff); (0x2d7ac000, 0x2d7acfff);
  (0x2d7ad000, 0x2d7ad7ff); (0x2d7ad800, 0x2d7adbff); (0x2d7b1c00, 0x2d7b1fff);
  (0x2d7b2000, 0x2d7b27ff); (0x2d7b2c00, 0x2d7b2fff); (0x2d7b3000, 0x2d7b3fff);
  (0x2d7b4000, 0x2d7b4fff); (0x2d7b5000, 0x2d7b57ff); (0x2d7b5800, 0x2d7b5bff);
  (0x2d7b7500, 0x2d7b75ff); (0x2d7b7800, 0x2d7b7bff); (0x2d7b8000, 0x2d7b87ff);
  (0x2d7b8800, 0x2d7b8bff); (0x2d7b9400, 0x2d7b97ff); (0x2d7b9800, 0x2d7b9fff);
  (0x2d7ba400, 0x2d7ba7ff); (0x2d7ba800, 0x2d7bafff); (0x2d7bb000, 0x2d7bb7ff);
  (0x2d7bb800, 0x2d7bbbff); (0x2d7bcc00, 0x2d7bcfff); (0x2d7bd400, 0x2d7bd7ff);
  (0x2d7be000, 0x2d7bffff); (0x2d7c0000, 0x2d7c03ff); (0x2d7c1400, 0x2d7c17ff);
  (0x2d7c1c00, 0x2d7c1fff); (0x2d7c2000, 0x2d7c27ff); (0x2d7c2c00, 0x2d7c2fff);
  (0x2d7c4400, 0x2d7c47ff); (0x2d7c4c00, 0x2d7c4fff); (0x2d7c5000, 0x2d7c53ff);
  (0x2d7c6400, 0x2d7c67ff); (0x2d7c7c00, 0x2d7c7fff); (0x2d7cac00, 0x2d7cafff);
  (0x2d7cb000, 0x2d7cb3ff); (0x2d7cd000, 0x2d7cd3ff); (0x2d7cf800, 0x2d7cfbff);
  (0x2d7d1000, 0x2d7d13ff); (0x2d7d1800, 0x2d7d1bff); (0x2d7d2c00, 0x2d7d2fff);
  (0x2d7d3400, 0x2d7d37ff); (0x2d7d3800, 0x2d7d3bff); (0x2d7d4c00, 0x2d7d4fff);
  (0x2d7d5000, 0x2d7d5fff); (0x2d7d6000, 0x2d7d67ff); (0x2d7d8800, 0x2d7d8bff);
  (0x2d7e3000, 0x2d7e37ff); (0x2d7e6400, 0x2d7e67ff); (0x2d7e6c00, 0x2d7e6fff);
  (0x2d7e7000, 0x2d7e77ff); (0x2d7e7800, 0x2d7e7bff); (0x2d7ed400, 0x2d7ed7ff);
  (0x2d7edc00, 0x2d7edfff); (0x2d7f0800, 0x2d7f0fff); (0x2d7f8000, 0x2d7f83ff);
  (0x2d7f9000, 0x2d7f97ff); (0x2d7f9c00, 0x2d7f9fff); (0x2d7fd800, 0x2d7fdbff);
  (0x2d96ec00, 0x2d96edff); (0x2df80800, 0x2df80bff); (0x2df85000, 0x2df857ff);
  (0x2df85800, 0x2df85bff); (0x2df86000, 0x2df86fff); (0x2df88000, 0x2df887ff);
  (0x2df8cc00, 0x2df8cfff); (0x2df8d000, 0x2df8dfff); (0x2df8e000, 0x2df8ffff);
  (0x2df90000, 0x2df907ff); (0x2df90c00, 0x2df90fff); (0x2df91000, 0x2df91fff);
  (0x2df92000, 0x2df927ff); (0x2df97000, 0x2df973ff); (0x2df9bc00, 0x2df9bfff);
  (0x2df9c000, 0x2df9cfff); (0x2df9d000, 0x2df9d7ff); (0x2dfa0c00, 0x2dfa0fff);
  (0x2dfa1000, 0x2dfa13ff); (0x2dfa1c00, 0x2dfa1fff); (0x2dfa2000, 0x2dfa27ff);
  (0x2dfa2800, 0x2dfa2bff); (0x2dfa4c00, 0x2dfa4fff); (0x2dfa5000, 0x2dfa5fff);
  (0x2dfa6000, 0x2dfa63ff); (0x2dfa6800, 0x2dfa6fff); (0x2dfa7000, 0x2dfa7fff);
  (0x2dfa8000, 0x2dfa8fff); (0x2dfa9000, 0x2dfa97ff); (0x2dfa9800, 0x2dfa9bff);
  (0x2dfaa400, 0x2dfaa7ff); (0x2dfab400, 0x2dfab7ff); (0x2dfab800, 0x2dfabfff);
  (0x2dfac000, 0x2dfac3ff); (0x2dfb0000, 0x2dfb03ff); (0x2dfb0800, 0x2dfb0bff);
  (0x2dfb1000, 0x2dfb17ff); (0x2dfb3400, 0x2dfb37ff); (0x2dfb5400, 0x2dfb57ff);
  (0x2dfb5800, 0x2dfb5fff); (0x2dfb6000, 0x2dfb67ff); (0x2dfb7800, 0x2dfb7fff);
  (0x2dfb8800, 0x2dfb8fff); (0x2dfb9000, 0x2dfb9fff); (0x2dfba000, 0x2dfbbfff);
  (0x2dfbc000, 0x2dfbdfff); (0x2dfbe000, 0x2dfbe3ff); (0x2dfbf000, 0x2dfbf3ff);
  (0x2dfc0000, 0x2dfc1fff); (0x2dfc2000, 0x2dfc2fff); (0x2dfc3000, 0x2dfc33ff);
  (0x2dfc5400, 0x2dfc57ff); (0x2dfc5800, 0x2dfc5fff); (0x2dfc6000, 0x2dfc7fff);
  (0x2dfc8000, 0x2dfc9fff); (0x2dfca000, 0x2dfcafff); (0x2dfcb000, 0x2dfcb3ff);
  (0x2dfcc000, 0x2dfcdfff); (0x2dfce000, 0x2dfce7ff); (0x2dfce800, 0x2dfcebff);
  (0x2dfd0000, 0x2dfd3fff); (0x2dfd4000, 0x2dfd4fff); (0x2dfd5000, 0x2dfd57ff);
  (0x2dfd5c00, 0x2dfd5fff); (0x2dfd6000, 0x2dfd6fff); (0x2dfd7000, 0x2dfd77ff);
  (0x2dfd7800, 0x2dfd7bff); (0x2dfd8400, 0x2dfd87ff); (0x2dfd8800, 0x2dfd8fff);
  (0x2dfd9000, 0x2dfd9fff); (0x2dfda000, 0x2dfdbfff); (0x2dfdc000, 0x2dfddfff);
  (0x2dfde000, 0x2dfdefff); (0x2dfdf000, 0x2dfdf3ff); (0x2dfdf600, 0x2dfdf7ff);
  (0x2dfe0000, 0x2dfe1fff); (0x2dfe2800, 0x2dfe2bff); (0x2dfe3000, 0x2dfe3fff);
  (0x2dfe4000, 0x2dfe7fff); (0x2dfe8000, 0x2dfebfff); (0x2dfec000, 0x2dfedfff);
  (0x2dfee000, 0x2dfee7ff); (0x2dfeec00, 0x2dfeefff); (0x2dfef000, 0x2dfef3ff);
  (0x2dfef800, 0x2dfefbff); (0x2dff0000, 0x2dff3fff); (0x2dff4000, 0x2dff5fff);
  (0x2dff6000, 0x2dff6fff); (0x2dff7000, 0x2dff77ff); (0x2dff7800, 0x2dff7bff);
  (0x2dff8800, 0x2dff8fff); (0x2dff9000, 0x2dff9fff); (0x2dffa000, 0x2dffbfff);
  (0x2dffc000, 0x2dffdfff); (0x2dffe000, 0x2dffefff); (0x2dfff000, 0x2dfff7ff);
  (0x2dfff800, 0x2dfffbff); (0x2f5c0000, 0x2f5fffff); (0x2f600000, 0x2f7fffff);
  (0x31040000, 0x3107ffff); (0x31330000, 0x3133ffff); (0x31340000, 0x3137ffff);
  (0x31400000, 0x315fffff); (0x31700000, 0x3177ffff); (0x31780000, 0x317bffff);
  (0x31800000, 0x318000ff); (0x31800200, 0x318003ff); (0x31800400, 0x318007ff);
  (0x318c0000, 0x318dffff); (0x31980000, 0x319bffff); (0x31d00000, 0x31d3ffff);
  (0x31d53c00, 0x31d53fff); (0x31dc0000, 0x31dfffff); (0x31e80000, 0x31ebffff);
  (0x31ef0000, 0x31ef3fff); (0x31efc000, 0x31efffff); (0x31f6e000, 0x31f6ffff);
  (0x3272bb00, 0x3272bbff); (0x34500000, 0x3453ffff); (0x34820000, 0x3483ffff);
  (0x36de0000, 0x36dfffff); (0x39b00000, 0x39b1ffff); (0x3a0e0000, 0x3a0fffff);
  (0x3a100000, 0x3a17ffff); (0x3a180000, 0x3a19ffff); (0x3a1e0000, 0x3a1fffff);
  (0x3a200000, 0x3a3fffff); (0x3a41e800, 0x3a41efff); (0x3a420000, 0x3a43ffff);
  (0x3a448000, 0x3a44ffff); (0x3a520000, 0x3a527fff); (0x3a530000, 0x3a53ffff);
  (0x3a574000, 0x3a577fff); (0x3a638000, 0x3a63ffff); (0x3a640000, 0x3a65ffff);
  (0x3a740000, 0x3a77ffff); (0x3a800000, 0x3a87ffff); (0x3a900000, 0x3a90ffff);
  (0x3a9a0000, 0x3a9bffff); (0x3ac00000, 0x3adfffff); (0x3af00000, 0x3affffff);
  (0x3b200000, 0x3b3fffff); (0x3b400000, 0x3b4fffff); (0x3b500000, 0x3b53ffff);
  (0x3b6b0000, 0x3b6bffff); (0x3b6c0000, 0x3b6fffff); (0x3b970000, 0x3b977fff);
  (0x3b981000, 0x3b981fff); (0x3b982000, 0x3b9827ff); (0x3b984000, 0x3b984fff);
  (0x3b987000, 0x3b9877ff); (0x3b990400, 0x3b9907ff); (0x3b992000, 0x3b9923ff);
  (0x3b993c00, 0x3b993fff); (0x3b994000, 0x3b9947ff); (0x3b994800, 0x3b994bff);
  (0x3b995c00, 0x3b995fff); (0x3b997400, 0x3b9977ff); (0x3b998800, 0x3b998bff);
  (0x3b999800, 0x3b999bff); (0x3b99a400, 0x3b99a7ff); (0x3b99a800, 0x3b99afff);
  (0x3b99b000, 0x3b99bfff); (0x3b99c000, 0x3b99c3ff); (0x3b9b0000, 0x3b9bffff);
  (0x3bac0000, 0x3bafffff); (0x3bbf0000, 0x3bbf7fff); (0x3bc00000, 0x3bffffff);
  (0x3c000000, 0x3c1fffff); (0x3c370000, 0x3c37ffff); (0x3c3f0000, 0x3c3fffff);
  (0x3ca00000, 0x3cbfffff); (0x3cc20000, 0x3cc3ffff); (0x3cc80000, 0x3ccfffff);
  (0x3cd00000, 0x3cdfffff); (0x3ce80000, 0x3ce9ffff); (0x3ceb0000, 0x3cebffff);
  (0x3cf58000, 0x3cf5ffff); (0x3cf70000, 0x3cf7ffff); (0x3cfc0000, 0x3cfcffff);
  (0x3cfd8000, 0x3cfdffff); (0x3cff0000, 0x3cffffff); (0x3d045000, 0x3d045fff);
  (0x3d04b000, 0x3d04bfff); (0x3d08a000, 0x3d08afff); (0x3d0ed400, 0x3d0ed7ff);
  (0x3d0ed800, 0x3d0edfff); (0x3d0ef000, 0x3d0ef7ff); (0x3d1c0000, 0x3d1c7fff);
  (0x3d1d8000, 0x3d1dbfff); (0x3d1dc000, 0x3d1ddfff); (0x3d1de000, 0x3d1defff);
  (0x3d1df000, 0x3d1df3ff); (0x3d1df800, 0x3d1dfbff); (0x3d2d8000, 0x3d2dbfff);
  (0x3d2de000, 0x3d2defff); (0x3d2f8000, 0x3d2fbfff); (0x3d300000, 0x3d37ffff);
  (0x3d57c000, 0x3d57ffff); (0x3d725000, 0x3d725fff); (0x3d800000, 0x3dbfffff);
  (0x3de80000, 0x3debffff); (0x3dec0000, 0x3dedffff); (0x3df00000, 0x3df3ffff);
  (0x3eea0000, 0x3eeaffff); (0x3f8c0000, 0x3f8c00ff); (0x40bc2600, 0x40bc27ff);
  (0x40bc2800, 0x40bc2bff); (0x40bc2c00, 0x40bc2cff); (0x444f0000, 0x444f3fff);
  (0x45e6c000, 0x45e6ffff); (0x45e78000, 0x45e7bfff); (0x45eac000, 0x45eaffff);
  (0x45eb8000, 0x45ebbfff); (0x4783c000, 0x4783ffff); (0x47840000, 0x47843fff);
  (0x47884000, 0x47887fff); (0x47890000, 0x47893fff); (0x48a3f000, 0x48a3f1ff);
  (0x48a3f800, 0x48a3fbff); (0x4a723300, 0x4a7233ff); (0x4ad6a100, 0x4ad6a1ff);
  (0x4d490800, 0x4d4908ff); (0x5117d000, 0x5117dfff); (0x51440000, 0x5147ffff);
  (0x51ad1200, 0x51ad13ff); (0x51ad1400, 0x51ad17ff); (0x529c0000, 0x529dffff);
  (0x57e87300, 0x57e873ff); (0x57fecf00, 0x57fecfff); (0x5db70e00, 0x5db70eff);
  (0x5db71200, 0x5db712ff); (0x5ebf0000, 0x5ebf7fff); (0x65000000, 0x650003ff);
  (0x65010000, 0x650103ff); (0x6502ac00, 0x6502afff); (0x65040000, 0x6507ffff);
  (0x65100000, 0x651fffff); (0x65218000, 0x6521ffff); (0x65220000, 0x6523ffff);
  (0x65240000, 0x65243fff); (0x65244000, 0x65245fff); (0x65248000, 0x6524ffff);
  (0x65250000, 0x6525ffff); (0x65260000, 0x6527ffff); (0x65280000, 0x652bffff);
  (0x65300000, 0x6531ffff); (0x65320800, 0x65320fff); (0x65323800, 0x65323bff);
  (0x65340000, 0x6534ffff); (0x65356400, 0x653567ff); (0x65360000, 0x6536ffff);
  (0x6537e000, 0x6537e7ff); (0x65400000, 0x6547ffff); (0x65480000, 0x654bffff);
  (0x654c0000, 0x654dffff); (0x654e0000, 0x654e03ff); (0x654e2000, 0x654e3fff);
  (0x65500000, 0x655fffff); (0x65600000, 0x656007ff); (0x65600800, 0x65600bff);
  (0x65601000, 0x65601fff); (0x65608000, 0x6560ffff); (0x65636000, 0x65637fff);
  (0x65654000, 0x65655fff); (0x65656400, 0x656564ff); (0x65656600, 0x656567ff);
  (0x65656800, 0x65656fff); (0x65657000, 0x65657fff); (0x65664000, 0x65665fff);
  (0x65666400, 0x656665ff); (0x65666600, 0x656666ff); (0x65666800, 0x65666fff);
  (0x65667000, 0x65667fff); (0x65680000, 0x656bffff); (0x656e4000, 0x656e5fff);
  (0x656e6000, 0x656e6fff); (0x656e7400, 0x656e77ff); (0x656e7800, 0x656e7fff);
  (0x65780000, 0x657bffff); (0x657c0000, 0x657dffff); (0x657e0000, 0x657effff);
  (0x65800000, 0x658003ff); (0x65800800, 0x65800fff); (0x65801000, 0x65801fff);
  (0x65802000, 0x65803fff); (0x65810000, 0x6581ffff); (0x65820000, 0x6583ffff);
  (0x65840000, 0x6587ffff); (0x65900000, 0x659fffff); (0x65c00000, 0x65c7ffff);
  (0x65c80000, 0x65c9ffff); (0x65cb8000, 0x65cb9fff); (0x65cba000, 0x65cba7ff);
  (0x65cbac00, 0x65cbafff); (0x65cbb000, 0x65cbbfff); (0x65cc0000, 0x65cfffff);
  (0x65e00000, 0x65e7ffff); (0x65e80000, 0x65e9ffff); (0x65ea4000, 0x65ea47ff);
  (0x65ea4c00, 0x65ea4fff); (0x65ea5000, 0x65ea5fff); (0x65ea6000, 0x65ea7fff);
  (0x65ec0000, 0x65efffff); (0x65f00000, 0x65f7ffff); (0x65f80000, 0x65f9ffff);
  (0x65fb0000, 0x65fb03ff); (0x65fb0800, 0x65fb0fff); (0x65fb1000, 0x65fb1fff);
  (0x65fb2000, 0x65fb3fff); (0x65fb4000, 0x65fb7fff); (0x65fb8000, 0x65fbffff);
  (0x65fc0000, 0x65fdffff); (0x65fe0000, 0x65feffff); (0x668dc800, 0x668dc8ff);
  (0x66dc5a00, 0x66dc5aff); (0x67010800, 0x67010bff); (0x67011400, 0x670117ff);
  (0x67011800, 0x67011bff); (0x67014800, 0x67014bff); (0x67015800, 0x67015bff);
  (0x6701a800, 0x6701abff); (0x67026c00, 0x67026fff); (0x67029c00, 0x67029fff);
  (0x6702a400, 0x6702a7ff); (0x6702bc00, 0x6702bdff); (0x6702c800, 0x6702cfff);
  (0x6702d000, 0x6702d7ff); (0x67035400, 0x670357ff); (0x67035800, 0x67035fff);
  (0x67036000, 0x67037fff); (0x67038000, 0x67038fff); (0x67039400, 0x670397ff);
  (0x67039800, 0x67039fff); (0x67043800, 0x67043bff); (0x6704a800, 0x6704abff);
  (0x6704b800, 0x6704bbff); (0x6704e000, 0x6704e3ff); (0x67052400, 0x670527ff);
  (0x67053400, 0x670537ff); (0x67053800, 0x67053bff); (0x67059800, 0x67059bff);
  (0x6705a800, 0x6705abff); (0x6705c000, 0x6705c3ff); (0x6705fc00, 0x6705ffff);
  (0x67064c00, 0x67064fff); (0x67066c00, 0x67066fff); (0x6706dc00, 0x6706dfff);
  (0x6706e400, 0x6706e7ff); (0x67071c00, 0x67071fff); (0x67078c00, 0x67078fff);
  (0x6707d400, 0x6707d7ff); (0x6707d800, 0x6707dfff); (0x67080000, 0x670807ff);
  (0x67080800, 0x67080bff); (0x67082000, 0x670823ff); (0x67083400, 0x670837ff);
  (0x67084400, 0x670847ff); (0x67086c00, 0x67086fff); (0x67089c00, 0x67089fff);
  (0x6708c800, 0x6708cfff); (0x6708dc00, 0x6708dfff); (0x67090800, 0x67090bff);
  (0x67091800, 0x67091bff); (0x67096c00, 0x67096fff); (0x67099800, 0x67099bff);
  (0x6709f800, 0x6709ffff); (0x670a0000, 0x670a03ff); (0x670a1000, 0x670a13ff);
  (0x670a5400, 0x670a57ff); (0x670a8c00, 0x670a8fff); (0x670b1000, 0x670b13ff);
  (0x670ba800, 0x670babff); (0x670bb400, 0x670bb7ff); (0x670c2000, 0x670c23ff);
  (0x670c5c00, 0x670c5fff); (0x670c6200, 0x670c63ff); (0x670c8800, 0x670c8bff);
  (0x670cb800, 0x670cbbff); (0x670ce800, 0x670cebff); (0x670d0c00, 0x670d0fff);
  (0x670d7c00, 0x670d7fff); (0x670dc400, 0x670dc7ff); (0x670df400, 0x670df7ff);
  (0x670e5400, 0x670e57ff); (0x670e8400, 0x670e87ff); (0x670e8800, 0x670e8bff);
  (0x670e9c00, 0x670e9fff); (0x670ef000, 0x670ef3ff); (0x670f0400, 0x670f07ff);
  (0x670f0800, 0x670f0bff); (0x670f1000, 0x670f13ff); (0x670f6000, 0x670f63ff);
  (0x670fc800, 0x670fcbff); (0x67103400, 0x671037ff); (0x67105000, 0x671057ff);
  (0x67105800, 0x67105bff); (0x67106c00, 0x67106fff); (0x67107c00, 0x67107fff);
  (0x67112800, 0x67112bff); (0x67114000, 0x671143ff); (0x67117800, 0x67117bff);
  (0x67118800, 0x67118bff); (0x6711a000, 0x6711a3ff); (0x6711cc00, 0x6711cfff);
  (0x6711e400, 0x6711e7ff); (0x6712ba00, 0x6712bbff); (0x6712c000, 0x6712c3ff);
  (0x6712ce00, 0x6712cfff); (0x6712d000, 0x6712d7ff); (0x6712e000, 0x6712e3ff);
  (0x67130c00, 0x67130fff); (0x67132800, 0x67132fff); (0x67133200, 0x671333ff);
  (0x67134000, 0x671347ff); (0x67134800, 0x67134bff); (0x6713e800, 0x6713ebff);
  (0x67140c00, 0x67140fff); (0x67142000, 0x671423ff); (0x67142c00, 0x67142fff);
  (0x67144400, 0x671447ff); (0x67147000, 0x671473ff); (0x67148000, 0x671483ff);
  (0x6714a000, 0x6714a3ff); (0x6714f800, 0x6714fbff); (0x67156200, 0x671563ff);
  (0x67156600, 0x671567ff); (0x67157000, 0x671577ff); (0x67158800, 0x67158fff);
  (0x6715b000, 0x6715b3ff); (0x6715d000, 0x6715d3ff); (0x6715f000, 0x6715f3ff);
  (0x67160000, 0x67163fff); (0x67164000, 0x67165fff); (0x67166400, 0x671667ff);
  (0x67166800, 0x67166fff); (0x67167000, 0x67167fff); (0x6716bc00, 0x6716bfff);
  (0x6716e400, 0x6716e7ff); (0x6716fc00, 0x6716ffff); (0x67170800, 0x67170bff);
  (0x67173800, 0x67173bff); (0x6717a000, 0x6717a7ff); (0x6717b000, 0x6717b3ff);
  (0x6717e400, 0x6717e7ff); (0x67181800, 0x67181bff); (0x67187400, 0x671877ff);
  (0x67188000, 0x671883ff); (0x67189000, 0x671893ff); (0x6718b000, 0x6718b3ff);
  (0x6718b800, 0x6718bbff); (0x6718dc00, 0x6718dfff); (0x6718e400, 0x6718e7ff);
  (0x6718f800, 0x6718ffff); (0x67190800, 0x671909ff); (0x67191400, 0x671917ff);
  (0x67191800, 0x67191fff); (0x67192000, 0x671927ff); (0x67192800, 0x67192bff);
  (0x67193000, 0x671933ff); (0x67194000, 0x671947ff); (0x67199400, 0x671997ff);
  (0x67199c00, 0x67199fff); (0x6719d800, 0x6719dbff); (0x671a0000, 0x671a03ff);
  (0x671a4000, 0x671a43ff); (0x671a4c00, 0x671a4fff); (0x671a8400, 0x671a87ff);
  (0x671a9c00, 0x671a9fff); (0x671aa000, 0x671aa3ff); (0x671ae400, 0x671ae7ff);
  (0x671af000, 0x671af3ff); (0x671b0400, 0x671b07ff); (0x671b0c00, 0x671b0fff);
  (0x671b1800, 0x671b1bff); (0x671b3800, 0x671b3bff); (0x671b6000, 0x671b63ff);
  (0x671bb800, 0x671bbbff); (0x671bd400, 0x671bd7ff); (0x671bf000, 0x671bf3ff);
  (0x671c0400, 0x671c07ff); (0x671c0800, 0x671c0bff); (0x671c9300, 0x671c93ff);
  (0x671cb800, 0x671cbbff); (0x671ccc00, 0x671ccfff); (0x671cd400, 0x671cd7ff);
  (0x671d1000, 0x671d13ff); (0x671d1800, 0x671d19ff); (0x671d1d00, 0x671d1dff);
  (0x671d8000, 0x671d87ff); (0x671d8800, 0x671d8bff); (0x671dec00, 0x671dedff);
  (0x671e1400, 0x671e17ff); (0x671e3300, 0x671e33ff); (0x671e6000, 0x671e63ff);
  (0x671e6800, 0x671e6bff); (0x671e9400, 0x671e97ff); (0x671ec800, 0x671ecbff);
  (0x671ee400, 0x671ee7ff); (0x671eec00, 0x671eefff); (0x671f0000, 0x671f03ff);
  (0x671f3000, 0x671f3fff); (0x671f4000, 0x671f47ff); (0x671f9400, 0x671f97ff);
  (0x671fa000, 0x671fa3ff); (0x671fa800, 0x671fabff); (0x671fc800, 0x671fcbff);
  (0x671fec00, 0x671fefff); (0x671ff200, 0x671ff3ff); (0x67200000, 0x6721ffff);
  (0x67220000, 0x6722ffff); (0x67230000, 0x67231fff); (0x67232000, 0x67232fff);
  (0x67233000, 0x672333ff); (0x67236800, 0x67236bff); (0x67237400, 0x672377ff);
  (0x6723b400, 0x6723b7ff); (0x6723dc00, 0x6723dfff); (0x6723fe00, 0x6723feff);
  (0x67241c00, 0x67241fff); (0x67242400, 0x672427ff); (0x67243800, 0x67243fff);
  (0x67244000, 0x672443ff); (0x67244800, 0x67244bff); (0x67246000, 0x672463ff);
  (0x67248400, 0x672487ff); (0x67248800, 0x67248bff); (0x6724a000, 0x6724bfff);
  (0x6724c000, 0x6724dfff); (0x6724e000, 0x6724efff); (0x6724f000, 0x6724f7ff);
  (0x67250400, 0x672504ff); (0x67250c00, 0x67250fff); (0x67251000, 0x672513ff);
  (0x67251800, 0x67251bff); (0x67252c00, 0x67252fff); (0x67253400, 0x672537ff);
  (0x67253800, 0x67253bff); (0x67254800, 0x67254bff); (0x67256400, 0x672567ff);
  (0x67256800, 0x67256bff); (0x67258800, 0x67258fff); (0x67259000, 0x67259fff);
  (0x6725a000, 0x6725a7ff); (0x6725ac00, 0x6725afff); (0x6725b000, 0x6725b3ff);
  (0x6725bc00, 0x6725bfff); (0x6725d000, 0x6725dfff); (0x6725fc00, 0x6725ffff);
  (0x67260000, 0x672603ff); (0x67262000, 0x672623ff); (0x67262800, 0x67262fff);
  (0x67263800, 0x67263bff); (0x67264c00, 0x67264fff); (0x67265400, 0x672657ff);
  (0x67265c00, 0x67265fff); (0x67266000, 0x672663ff); (0x67267400, 0x672677ff);
  (0x67268400, 0x672687ff); (0x67268c00, 0x67268fff); (0x6726e000, 0x6726e7ff);
  (0x6726e800, 0x6726ebff); (0x6726fc00, 0x6726fdff); (0x67274000, 0x672743ff);
  (0x67275800, 0x67275bff); (0x67276400, 0x672767ff); (0x67276800, 0x67276bff);
  (0x6727a000, 0x6727bfff); (0x6727c800, 0x6727cfff); (0x6727d000, 0x6727dfff);
  (0x6727e000, 0x6727e7ff); (0x6727e800, 0x6727ebff); (0x67280c00, 0x67280fff);
  (0x67281000, 0x67281fff); (0x67282000, 0x67282fff); (0x67285800, 0x67285bff);
  (0x67289e00, 0x67289fff); (0x6728ae00, 0x6728afff); (0x6728c000, 0x6728c3ff);
  (0x6728d400, 0x6728d7ff); (0x6728dc00, 0x6728dfff); (0x6728e400, 0x6728e7ff);
  (0x6728e800, 0x6728efff); (0x6728f000, 0x6728ffff); (0x67290000, 0x672903ff);
  (0x67291000, 0x672913ff); (0x67293400, 0x672937ff); (0x67297400, 0x672977ff);
  (0x67298c00, 0x67298fff); (0x67299400, 0x672997ff); (0x67299800, 0x67299bff);
  (0x6729a000, 0x6729a7ff); (0x6729dc00, 0x6729dfff); (0x6729e000, 0x6729e7ff);
  (0x6729e800, 0x6729ebff); (0x672a0800, 0x672a0bff); (0x672a1800, 0x672a1fff);
  (0x672a2000, 0x672a23ff); (0x672a4000, 0x672a47ff); (0x672a4c00, 0x672a4fff);
  (0x672a6800, 0x672a6bff); (0x672ab400, 0x672ab7ff); (0x672ae800, 0x672aebff);
  (0x672b1000, 0x672b13ff); (0x672b6000, 0x672b67ff); (0x672b6800, 0x672b6bff);
  (0x672b7c00, 0x672b7fff); (0x672b8400, 0x672b87ff); (0x672bb800, 0x672bbfff);
  (0x672bc000, 0x672bc7ff); (0x672bd000, 0x672bd3ff); (0x672bdc00, 0x672bdfff);
  (0x672be000, 0x672be3ff); (0x672bf000, 0x672bf3ff); (0x672c3800, 0x672c3bff);
  (0x672c5000, 0x672c53ff); (0x672c7800, 0x672c7fff); (0x672c8400, 0x672c87ff);
  (0x672c9000, 0x672c93ff); (0x672ca800, 0x672cabff); (0x672cb000, 0x672cbfff);
  (0x672cc000, 0x672ccfff); (0x672ce000, 0x672ce3ff); (0x672cec00, 0x672cefff);
  (0x672cf000, 0x672cffff); (0x672d0000, 0x672d3fff); (0x672d4800, 0x672d4fff);
  (0x672d5000, 0x672d5fff); (0x672d6000, 0x672d7fff); (0x672d8000, 0x672dbfff);
  (0x672dc000, 0x672ddfff); (0x672de000, 0x672de3ff); (0x672df800, 0x672dfbff);
  (0x672e0000, 0x672e03ff); (0x672e0c00, 0x672e0fff); (0x672e1000, 0x672e1fff);
  (0x672e2000, 0x672e3fff); (0x672e4000, 0x672e7fff); (0x672e8000, 0x672e87ff);
  (0x672e8800, 0x672e8bff); (0x672e9800, 0x672e9fff); (0x672ea000, 0x672eafff);
  (0x672eb000, 0x672eb7ff); (0x672ef400, 0x672ef7ff); (0x672ef800, 0x672efbff);
  (0x672f0400, 0x672f07ff); (0x672f1400, 0x672f17ff); (0x672f2400, 0x672f27ff);
  (0x672f2800, 0x672f2bff); (0x672f3000, 0x672f33ff); (0x672f5000, 0x672f53ff);
  (0x672f6000, 0x672f63ff); (0x672f6c00, 0x672f6fff); (0x672f7400, 0x672f77ff);
  (0x672f7800, 0x672f7bff); (0x672f8800, 0x672f8fff); (0x672fd400, 0x672fd7ff);
  (0x67303400, 0x673037ff); (0x67305c00, 0x67305fff); (0x67309400, 0x673097ff);
  (0x67309800, 0x67309fff); (0x6730ca00, 0x6730cbff); (0x6730d800, 0x6730dfff);
  (0x6730e000, 0x6730efff); (0x6730f000, 0x6730f7ff); (0x67310c00, 0x67310fff);
  (0x67311400, 0x673117ff); (0x67314800, 0x67314fff); (0x67316000, 0x673163ff);
  (0x67316c00, 0x67316fff); (0x6731b000, 0x6731b7ff); (0x6731c400, 0x6731c7ff);
  (0x67322400, 0x673227ff); (0x67322c00, 0x67322fff); (0x67323000, 0x67323fff);
  (0x67324000, 0x673247ff); (0x67324800, 0x67324bff); (0x67325b00, 0x67325bff);
  (0x67326c00, 0x67326fff); (0x67327000, 0x67327fff); (0x67328400, 0x673287ff);
  (0x67328800, 0x67328fff); (0x6732ac00, 0x6732afff); (0x6732b000, 0x6732bfff);
  (0x6732c000, 0x6732c7ff); (0x6732c800, 0x6732cbff); (0x6732dc00, 0x6732dfff);
  (0x6732e000, 0x6732efff); (0x6732f000, 0x6732f7ff); (0x6732f800, 0x6732fbff);
  (0x67342800, 0x67342bff); (0x67344800, 0x67344fff); (0x67345000, 0x673457ff);
  (0x67346000, 0x673467ff); (0x67346800, 0x67346bff); (0x6734a000, 0x6734a7ff);
  (0x6734ac00, 0x6734afff); (0x6734b000, 0x6734b3ff); (0x6734b800, 0x6734bbff);
  (0x6734c400, 0x6734c7ff); (0x67354000, 0x673547ff); (0x67355c00, 0x67355fff);
  (0x67356400, 0x673567ff); (0x67357c00, 0x67357fff); (0x67358000, 0x67358fff);
  (0x67359000, 0x673593ff); (0x6735b400, 0x6735b7ff); (0x6735cc00, 0x6735cfff);
  (0x6735d000, 0x6735d7ff); (0x6735ec00, 0x6735efff); (0x6735f800, 0x6735fbff);
  (0x67360800, 0x67360bff); (0x67363000, 0x673633ff); (0x6736a000, 0x6736a7ff);
  (0x6736d400, 0x6736d7ff); (0x6736f000, 0x6736f3ff); (0x67375000, 0x673753ff);
  (0x67377800, 0x67377bff); (0x67379800, 0x67379bff); (0x6737ac00, 0x6737afff);
  (0x6737cc00, 0x6737cfff); (0x6737d000, 0x6737d3ff); (0x6737e400, 0x6737e7ff);
  (0x6737ec00, 0x6737efff); (0x67380800, 0x67380bff); (0x67381000, 0x673817ff);
  (0x67382000, 0x673823ff); (0x67383800, 0x67383fff); (0x67384800, 0x67384fff);
  (0x67385e00, 0x67385fff); (0x67386400, 0x673867ff); (0x67386800, 0x67386bff);
  (0x67388c00, 0x67388fff); (0x67389800, 0x67389bff); (0x6738b800, 0x6738bbff);
  (0x6738c800, 0x6738cbff); (0x67390c00, 0x67390fff); (0x67393400, 0x673937ff);
  (0x67393800, 0x67393bff); (0x67394c00, 0x67394fff); (0x67398800, 0x67398bff);
  (0x6739c400, 0x6739c7ff); (0x6739cb00, 0x6739cbff); (0x673a1800, 0x673a1bff);
  (0x673b4c00, 0x673b4fff); (0x673b6400, 0x673b67ff); (0x673b7000, 0x673b7fff);
  (0x673b8000, 0x673b83ff); (0x673b9400, 0x673b97ff); (0x673ba400, 0x673ba7ff);
  (0x673ba800, 0x673ba9ff); (0x673c2000, 0x673c23ff); (0x673c2c00, 0x673c2fff);
  (0x673ca400, 0x673ca7ff); (0x673ce400, 0x673ce7ff); (0x673cec00, 0x673cefff);
  (0x673d3c00, 0x673d3fff); (0x673d6800, 0x673d6bff); (0x673d8c00, 0x673d8fff);
  (0x673d9800, 0x673d9fff); (0x673da000, 0x673da3ff); (0x673dac00, 0x673dafff);
  (0x673db000, 0x673db3ff); (0x673dbc00, 0x673dbfff); (0x673e1800, 0x673e1bff);
  (0x673e3400, 0x673e37ff); (0x673e4800, 0x673e4fff); (0x673e5000, 0x673e57ff);
  (0x673e5800, 0x673e5bff); (0x673e6000, 0x673e7fff); (0x673e8000, 0x673e87ff);
  (0x673e9c00, 0x673e9fff); (0x673ea000, 0x673ebfff); (0x673ec000, 0x673ec3ff);
  (0x673ecc00, 0x673ecfff); (0x673ed000, 0x673edfff); (0x673ee000, 0x673ee3ff);
  (0x673f2000, 0x673f3fff); (0x673f4000, 0x673f4fff); (0x673f5000, 0x673f57ff);
  (0x673f5800, 0x673f5bff); (0x673f8c00, 0x673f8fff); (0x673f9000, 0x673f93ff);
  (0x673f9800, 0x673f9bff); (0x673fa000, 0x673fafff); (0x673fb000, 0x673fb7ff);
  (0x673fb800, 0x673fbbff); (0x673fc000, 0x673fcfff); (0x673fd000, 0x673fd3ff);
  (0x673ff000, 0x673fffff); (0x67400000, 0x674007ff); (0x67401800, 0x67401fff);
  (0x67402000, 0x67403fff); (0x67404000, 0x67407fff); (0x67408c00, 0x67408fff);
  (0x67409000, 0x674093ff); (0x67409800, 0x67409fff); (0x6740a000, 0x6740bfff);
  (0x6740c000, 0x6740ffff); (0x67410000, 0x67410fff); (0x67411000, 0x674113ff);
  (0x67413000, 0x67413fff); (0x67414000, 0x67415fff); (0x67416400, 0x674167ff);
  (0x67416800, 0x67416fff); (0x67417000, 0x674173ff); (0x67419000, 0x67419fff);
  (0x6741a000, 0x6741afff); (0x6741cc00, 0x6741cfff); (0x6741e000, 0x6741e1ff);
  (0x67422000, 0x674223ff); (0x67422800, 0x67422bff); (0x67425c00, 0x67425fff);
  (0x67426c00, 0x67426fff); (0x6742c800, 0x6742cbff); (0x6742f000, 0x6742ffff);
  (0x67430000, 0x674307ff); (0x67430800, 0x67430bff); (0x67433400, 0x674335ff);
  (0x67436400, 0x674367ff); (0x67436800, 0x67436fff); (0x67437000, 0x67437fff);
  (0x67438000, 0x67438fff); (0x67439000, 0x674397ff); (0x6743ac00, 0x6743afff);
  (0x6743c000, 0x6743c3ff); (0x6743d400, 0x6743d7ff); (0x6743fc00, 0x6743ffff);
  (0x67444000, 0x674443ff); (0x67445800, 0x67445bff); (0x67446400, 0x674467ff);
  (0x67448000, 0x674483ff); (0x6744c000, 0x6744c3ff); (0x67451000, 0x674513ff);
  (0x67453e00, 0x67453fff); (0x67457400, 0x674577ff); (0x67460800, 0x67460bff);
  (0x67460e00, 0x67460fff); (0x67469400, 0x674697ff); (0x6746dc00, 0x6746dfff);
  (0x6746e000, 0x6746e3ff); (0x6746ec00, 0x6746efff); (0x6746fc00, 0x6746ffff);
  (0x67470000, 0x674703ff); (0x67473000, 0x674733ff); (0x67474400, 0x674747ff);
  (0x67474800, 0x67474bff); (0x67475000, 0x674757ff); (0x67475800, 0x67475bff);
  (0x67477800, 0x67477fff); (0x67478000, 0x674783ff); (0x67479000, 0x674793ff);
  (0x6747c400, 0x6747c7ff); (0x6747c800, 0x6747cbff); (0x6747e800, 0x6747ebff);
  (0x67480c00, 0x67480fff); (0x67481000, 0x67481fff); (0x67482000, 0x67482fff);
  (0x67483000, 0x674837ff); (0x67487000, 0x67487fff); (0x67488000, 0x674887ff);
  (0x67489400, 0x674897ff); (0x6748ac00, 0x6748afff); (0x6748b400, 0x6748b7ff);
  (0x6748e000, 0x6748ffff); (0x67490000, 0x67491fff); (0x67493000, 0x674933ff);
  (0x67497400, 0x674977ff); (0x67497800, 0x67497bff); (0x67498000, 0x67498fff);
  (0x67499000, 0x674993ff); (0x6749a800, 0x6749abff); (0x6749b000, 0x6749b3ff);
  (0x6749cc00, 0x6749cfff); (0x6749d000, 0x6749d3ff); (0x6749f000, 0x6749f7ff);
  (0x6749f800, 0x6749fbff); (0x674a1800, 0x674a1fff); (0x674a2000, 0x674a2fff);
  (0x674a3000, 0x674a33ff); (0x674a3800, 0x674a3fff); (0x674a5000, 0x674a53ff);
  (0x674a7c00, 0x674a7fff); (0x674a9400, 0x674a97ff); (0x674a9800, 0x674a9fff);
  (0x674acc00, 0x674acfff); (0x674ae800, 0x674aebff); (0x674b5200, 0x674b53ff);
  (0x674b5800, 0x674b5fff); (0x674b6800, 0x674b6fff); (0x674b7000, 0x674b73ff);
  (0x674b7800, 0x674b7bff); (0x674b8000, 0x674b83ff); (0x674b9000, 0x674b93ff);
  (0x674b9800, 0x674b9bff); (0x674bec00, 0x674becff); (0x674c3c00, 0x674c3fff);
  (0x674c4000, 0x674c47ff); (0x674c4800, 0x674c4bff); (0x674c5c00, 0x674c5fff);
  (0x674cd800, 0x674cdfff); (0x674ce000, 0x674ce3ff); (0x674d1c00, 0x674d1fff);
  (0x674d3400, 0x674d37ff); (0x674d3800, 0x674d3bff); (0x674d4800, 0x674d4bff);
  (0x674d5800, 0x674d5fff); (0x674d8400, 0x674d87ff); (0x674d9400, 0x674d97ff);
  (0x674ddc00, 0x674ddfff); (0x674e3800, 0x674e3fff); (0x674e4000, 0x674e47ff);
  (0x674e7c00, 0x674e7fff); (0x674eac00, 0x674eafff); (0x674eb000, 0x674eb3ff);
  (0x674ec400, 0x674ec7ff); (0x674ee400, 0x674ee7ff); (0x674f1800, 0x674f1fff);
  (0x674f2400, 0x674f27ff); (0x674f2800, 0x674f2fff); (0x674f3800, 0x674f3fff);
  (0x674f4000, 0x674f47ff); (0x674f5000, 0x674f57ff); (0x674f8800, 0x674f8bff);
  (0x674fbc00, 0x674fbfff); (0x674fc000, 0x674fcfff); (0x674fd000, 0x674fd7ff);
  (0x674fe400, 0x674fe5ff); (0x67501c00, 0x67501fff); (0x67502c00, 0x67502fff);
  (0x67504800, 0x67504bff); (0x6750b000, 0x6750b7ff); (0x6750b800, 0x6750bbff);
  (0x6750c000, 0x6750c3ff); (0x6750c800, 0x6750cbff); (0x6750e800, 0x6750ebff);
  (0x67510400, 0x675107ff); (0x67510800, 0x67510bff); (0x67511000, 0x675117ff);
  (0x67512c00, 0x67512fff); (0x67513000, 0x675133ff); (0x67514800, 0x67514bff);
  (0x67516000, 0x675163ff); (0x67517800, 0x67517bff); (0x67519400, 0x675197ff);
  (0x6751a400, 0x6751a7ff); (0x6751a800, 0x6751abff); (0x6751b700, 0x6751b7ff);
  (0x6751b800, 0x6751bbff); (0x6751c800, 0x6751cbff); (0x6751e800, 0x6751ebff);
  (0x67523c00, 0x67523fff); (0x67524400, 0x675247ff); (0x67525400, 0x675257ff);
  (0x67526800, 0x67526bff); (0x6752e000, 0x6752e3ff); (0x6752ec00, 0x6752efff);
  (0x67532c00, 0x67532fff); (0x67533400, 0x675337ff); (0x67533c00, 0x67533fff);
  (0x67534000, 0x675343ff); (0x67534800, 0x67534bff); (0x67537000, 0x675373ff);
  (0x67537800, 0x67537bff); (0x6753b400, 0x6753b7ff); (0x67540000, 0x675403ff);
  (0x67540c00, 0x67540fff); (0x67541000, 0x67541fff); (0x67543000, 0x675433ff);
  (0x67544000, 0x675443ff); (0x67544800, 0x67544bff); (0x67548800, 0x67548bff);
  (0x6754aa00, 0x6754abff); (0x67551400, 0x675517ff); (0x67551800, 0x67551bff);
  (0x67552c00, 0x67552fff); (0x67553000, 0x675533ff); (0x67555400, 0x675557ff);
  (0x67558800, 0x67558bff); (0x67559000, 0x675593ff); (0x6755a400, 0x6755a7ff);
  (0x6755a800, 0x6755afff); (0x6755b000, 0x6755b3ff); (0x6755ba00, 0x6755bbff);
  (0x6755e000, 0x6755e3ff); (0x67561c00, 0x67561fff); (0x67562000, 0x675623ff);
  (0x67563c00, 0x67563fff); (0x67565400, 0x675657ff); (0x6756cc00, 0x6756cfff);
  (0x6756d000, 0x6756dfff); (0x6756e000, 0x6756ffff); (0x67570000, 0x675707ff);
  (0x67571400, 0x675717ff); (0x67572000, 0x675723ff); (0x67576000, 0x675763ff);
  (0x67578400, 0x675787ff); (0x6757b400, 0x6757b7ff); (0x6757e000, 0x6757e3ff);
  (0x67580400, 0x675807ff); (0x67580800, 0x67580fff); (0x67581000, 0x675817ff);
  (0x67582000, 0x675827ff); (0x67583c00, 0x67583fff); (0x67584000, 0x675843ff);
  (0x67584800, 0x67584bff); (0x67586000, 0x675863ff); (0x6758a400, 0x6758a7ff);
  (0x6758d400, 0x6758d7ff); (0x67591c00, 0x67591fff); (0x67596000, 0x67596fff);
  (0x67597000, 0x675977ff); (0x67599400, 0x675997ff); (0x6759ac00, 0x6759afff);
  (0x6759b800, 0x6759bfff); (0x6759c000, 0x6759dfff); (0x6759e000, 0x6759e7ff);
  (0x675a3300, 0x675a33ff); (0x675a3400, 0x675a37ff); (0x675a3800, 0x675a39ff);
  (0x675a5c00, 0x675a5fff); (0x675a6400, 0x675a67ff); (0x675a6800, 0x675a6fff);
  (0x675a7000, 0x675a7fff); (0x675a8000, 0x675a87ff); (0x675a9800, 0x675a9bff);
  (0x675aa800, 0x675aabff); (0x675ab000, 0x675ab3ff); (0x675abc00, 0x675abfff);
  (0x675ac000, 0x675ac3ff); (0x675b2400, 0x675b27ff); (0x675b2800, 0x675b2bff);
  (0x675b6c00, 0x675b6fff); (0x675b7000, 0x675b71ff); (0x675b8a00, 0x675b8bff);
  (0x675b9800, 0x675b9bff); (0x675bb000, 0x675bb3ff); (0x675bc800, 0x675bcbff);
  (0x675bd000, 0x675bd7ff); (0x675bec00, 0x675befff); (0x675bfc00, 0x675bffff);
  (0x675c0000, 0x675c0fff); (0x675c3000, 0x675c3fff); (0x675c4000, 0x675c4fff);
  (0x675c5000, 0x675c53ff); (0x675c5600, 0x675c56ff); (0x675c5800, 0x675c5bff);
  (0x675c6c00, 0x675c6fff); (0x675c7c00, 0x675c7fff); (0x675c8400, 0x675c87ff);
  (0x675c9c00, 0x675c9fff); (0x675ca400, 0x675ca7ff); (0x675ca800, 0x675cafff);
  (0x675cb000, 0x675cbfff); (0x675cc000, 0x675cc3ff); (0x675cec00, 0x675cefff);
  (0x675cf000, 0x675cffff); (0x675d0000, 0x675d07ff); (0x675d1c00, 0x675d1fff);
  (0x675d5400, 0x675d57ff); (0x675d8e00, 0x675d8fff); (0x675d9800, 0x675d9bff);
  (0x675db400, 0x675db7ff); (0x675dcc00, 0x675dcfff); (0x675e0c00, 0x675e0fff);
  (0x675e1400, 0x675e17ff); (0x675e1c00, 0x675e1fff); (0x675e2000, 0x675e2fff);
  (0x675e4800, 0x675e4bff); (0x675e5800, 0x675e5bff); (0x675e7400, 0x675e77ff);
  (0x675ea000, 0x675ea3ff); (0x675ec800, 0x675ecbff); (0x675f3400, 0x675f37ff);
  (0x675f4400, 0x675f47ff); (0x675f5800, 0x675f5fff); (0x675f8000, 0x675f83ff);
  (0x675f8800, 0x675f8fff); (0x675f9000, 0x675f93ff); (0x675f9800, 0x675f9bff);
  (0x675fd800, 0x675fdfff); (0x675fe000, 0x675fe3ff); (0x675fec00, 0x675fefff);
  (0x675ff000, 0x675fffff); (0x67600800, 0x67600bff); (0x67607c00, 0x67607fff);
  (0x67608800, 0x67608bff); (0x67608c00, 0x67608cff); (0x67609400, 0x676097ff);
  (0x67609800, 0x67609fff); (0x6760a000, 0x6760bfff); (0x6760c000, 0x6760cfff);
  (0x6760d000, 0x6760d7ff); (0x6760d800, 0x6760dbff); (0x6760e000, 0x6760e1ff);
  (0x67610800, 0x67610fff); (0x67611000, 0x67611fff); (0x67612000, 0x676127ff);
  (0x67612800, 0x67612bff); (0x67613800, 0x67613fff); (0x67614000, 0x676147ff);
  (0x67614800, 0x67614bff); (0x67617000, 0x676177ff); (0x67618000, 0x676183ff);
  (0x67619000, 0x676197ff); (0x6761bc00, 0x6761bfff); (0x6761c000, 0x6761c3ff);
  (0x6761e400, 0x6761e5ff); (0x67620000, 0x676201ff); (0x67621c00, 0x67621dff);
  (0x67622800, 0x67622fff); (0x67623000, 0x676233ff); (0x67623800, 0x67623bff);
  (0x67625000, 0x676253ff); (0x67625800, 0x67625fff); (0x67626000, 0x676267ff);
  (0x67627c00, 0x67627fff); (0x67628800, 0x67628fff); (0x67629000, 0x676293ff);
  (0x6762a400, 0x6762a7ff); (0x6762a800, 0x6762abff); (0x6762b400, 0x6762b7ff);
  (0x6762c400, 0x6762c7ff); (0x6762d800, 0x6762dfff); (0x6762e000, 0x6762e7ff);
  (0x6762e800, 0x6762ebff); (0x6762f000, 0x6762ffff); (0x67632800, 0x676329ff);
  (0x67633400, 0x676337ff); (0x67633800, 0x67633fff); (0x67634c00, 0x67634fff);
  (0x67636800, 0x67636bff); (0x67637400, 0x676377ff); (0x67637800, 0x67637bff);
  (0x67639800, 0x67639bff); (0x6763b200, 0x6763b2ff); (0x6763dc00, 0x6763dfff);
  (0x6763e800, 0x6763efff); (0x67640000, 0x676403ff); (0x67642000, 0x676423ff);
  (0x67642800, 0x67642bff); (0x67643000, 0x67643fff); (0x67644000, 0x676447ff);
  (0x67645800, 0x67645bff); (0x67647400, 0x676477ff); (0x67649000, 0x676493ff);
  (0x6764ec00, 0x6764efff); (0x6764f000, 0x6764f3ff); (0x6764f800, 0x6764ffff);
  (0x67650800, 0x67650fff); (0x67653c00, 0x67653fff); (0x67657800, 0x67657fff);
  (0x67659000, 0x676597ff); (0x6765b400, 0x6765b7ff); (0x6765b800, 0x6765bbff);
  (0x67664c00, 0x67664fff); (0x67665000, 0x676653ff); (0x6766a800, 0x6766afff);
  (0x6766b400, 0x6766b7ff); (0x6766b800, 0x6766bfff); (0x6766c000, 0x6766c7ff);
  (0x6766c800, 0x6766cbff); (0x6766d000, 0x6766d7ff); (0x67670c00, 0x67670fff);
  (0x67671000, 0x676713ff); (0x67672400, 0x676727ff); (0x67674800, 0x67674bff);
  (0x6767bc00, 0x6767bfff); (0x6767c800, 0x6767cfff); (0x6767dc00, 0x6767dfff);
  (0x6767e000, 0x6767e7ff); (0x6767e800, 0x6767ebff); (0x6767f800, 0x6767ffff);
  (0x67680000, 0x676807ff); (0x67682400, 0x676827ff); (0x67682800, 0x67682bff);
  (0x67684000, 0x676843ff); (0x67686800, 0x67686bff); (0x67689800, 0x67689bff);
  (0x6768bc00, 0x6768bfff); (0x6768c600, 0x6768c7ff); (0x6768fc00, 0x6768ffff);
  (0x67690000, 0x676907ff); (0x67690c00, 0x67690fff); (0x67691000, 0x676913ff);
  (0x67691700, 0x676917ff); (0x67693c00, 0x67693fff); (0x67697400, 0x676977ff);
  (0x67698400, 0x676987ff); (0x6769b400, 0x6769b7ff); (0x6769b800, 0x6769bbff);
  (0x6769c800, 0x6769cfff); (0x6769dc00, 0x6769dfff); (0x676a2400, 0x676a27ff);
  (0x676a2800, 0x676a2fff); (0x676a3c00, 0x676a3fff); (0x676a4400, 0x676a47ff);
  (0x676a6000, 0x676a63ff); (0x676a7800, 0x676a7bff); (0x676a8000, 0x676a87ff);
  (0x676aa000, 0x676aa3ff); (0x676ac400, 0x676ac7ff); (0x676aca00, 0x676acbff);
  (0x676ad400, 0x676ad7ff); (0x676afc00, 0x676affff); (0x676b0000, 0x676b03ff);
  (0x676b1c00, 0x676b1fff); (0x676b2000, 0x676b23ff); (0x676b2c00, 0x676b2fff);
  (0x676b4800, 0x676b4bff); (0x676b6c00, 0x676b6fff); (0x676ba400, 0x676ba7ff);
  (0x676ba800, 0x676babff); (0x676bbc00, 0x676bbfff); (0x676bc000, 0x676bc3ff);
  (0x676bd000, 0x676bdfff); (0x676c3400, 0x676c37ff); (0x676ca000, 0x676ca7ff);
  (0x676cc000, 0x676cc7ff); (0x676cd000, 0x676cd7ff); (0x676ce000, 0x676ce3ff);
  (0x676cf400, 0x676cf7ff); (0x676d1400, 0x676d17ff); (0x676d3000, 0x676d33ff);
  (0x676d5800, 0x676d5bff); (0x676d6a00, 0x676d6bff); (0x676df800, 0x676dfbff);
  (0x676e5c00, 0x676e5fff); (0x676e7400, 0x676e77ff); (0x676e8400, 0x676e87ff);
  (0x676e8800, 0x676e8bff); (0x676e9800, 0x676e9fff); (0x676ebc00, 0x676ebfff);
  (0x676ecc00, 0x676ecfff); (0x676f4000, 0x676f43ff); (0x676fac00, 0x676fafff);
  (0x676ffc00, 0x676fffff); (0x67704400, 0x677047ff); (0x67704800, 0x67704bff);
  (0x67705800, 0x67705fff); (0x67706c00, 0x67706fff); (0x67707000, 0x677077ff);
  (0x67708c00, 0x67708fff); (0x6770ac00, 0x6770afff); (0x6770b800, 0x6770bbff);
  (0x67710400, 0x677107ff); (0x67715c00, 0x67715fff); (0x67719000, 0x677193ff);
  (0x6771dc00, 0x6771dfff); (0x6771e800, 0x6771efff); (0x67720400, 0x677207ff);
  (0x67721c00, 0x67721fff); (0x67724400, 0x677247ff); (0x67724800, 0x67724bff);
  (0x67726400, 0x677267ff); (0x67729400, 0x677297ff); (0x67729c00, 0x67729fff);
  (0x6772b000, 0x6772b3ff); (0x6772d400, 0x6772d7ff); (0x6772ec00, 0x6772efff);
  (0x6772f000, 0x6772f3ff); (0x67731000, 0x677313ff); (0x67732800, 0x67732fff);
  (0x67733000, 0x67733fff); (0x67734000, 0x677347ff); (0x67735c00, 0x67735fff);
  (0x67737800, 0x67737bff); (0x67739400, 0x677397ff); (0x6773f800, 0x6773fbff);
  (0x67742800, 0x67742bff); (0x67744000, 0x677443ff); (0x67744c00, 0x67744fff);
  (0x67745c00, 0x67745fff); (0x67747800, 0x67747bff); (0x67748000, 0x677483ff);
  (0x67748a00, 0x67748bff); (0x67749400, 0x677497ff); (0x6774b800, 0x6774bbff);
  (0x6774ce00, 0x6774cfff); (0x6774dc00, 0x6774dfff); (0x6774e000, 0x6774e7ff);
  (0x67751000, 0x677513ff); (0x67754800, 0x67754bff); (0x67755800, 0x67755bff);
  (0x6775bc00, 0x6775bfff); (0x6775dc00, 0x6775dfff); (0x67763400, 0x677637ff);
  (0x67763800, 0x67763fff); (0x67764000, 0x677647ff); (0x67764800, 0x67764bff);
  (0x67765800, 0x67765bff); (0x6776ad00, 0x6776adff); (0x6776c000, 0x6776dfff);
  (0x6776f000, 0x6776ffff); (0x67770000, 0x677703ff); (0x67770c00, 0x67770fff);
  (0x67771000, 0x677713ff); (0x67771c00, 0x67771fff); (0x67776800, 0x67776bff);
  (0x67777300, 0x677773ff); (0x67779c00, 0x67779fff); (0x6777b400, 0x6777b7ff);
  (0x6777c800, 0x6777cbff); (0x6777e000, 0x6777e3ff); (0x67783400, 0x677837ff);
  (0x67784800, 0x67784bff); (0x67785800, 0x67785bff); (0x67786000, 0x677867ff);
  (0x67788c00, 0x67788fff); (0x6778c400, 0x6778c7ff); (0x6778e000, 0x6778e3ff);
  (0x67793400, 0x677937ff); (0x6779a000, 0x6779a7ff); (0x6779fa00, 0x6779faff);
  (0x6779fc00, 0x6779ffff); (0x677a3000, 0x677a33ff); (0x677ab000, 0x677ab3ff);
  (0x677ac000, 0x677ac3ff); (0x677af000, 0x677af3ff); (0x677b0400, 0x677b07ff);
  (0x677b3800, 0x677b3bff); (0x677b5800, 0x677b5fff); (0x677b7400, 0x677b77ff);
  (0x677bb000, 0x677bb3ff); (0x677bc800, 0x677bcfff); (0x677bd000, 0x677bd7ff);
  (0x677c1800, 0x677c1bff); (0x677c3000, 0x677c33ff); (0x677c4000, 0x677c43ff);
  (0x677cd400, 0x677cd7ff); (0x677cd800, 0x677cdbff); (0x677d1400, 0x677d17ff);
  (0x677d2c00, 0x677d2fff); (0x677d8400, 0x677d87ff); (0x677da400, 0x677da7ff);
  (0x677dc400, 0x677dc7ff); (0x677dec00, 0x677defff); (0x677df800, 0x677dfbff);
  (0x677e0000, 0x677e03ff); (0x677e1000, 0x677e13ff); (0x677e2c00, 0x677e2fff);
  (0x677e6400, 0x677e67ff); (0x677e7c00, 0x677e7fff); (0x677e8000, 0x677e87ff);
  (0x677ed000, 0x677ed3ff); (0x67828400, 0x678287ff); (0x6782a000, 0x6782a3ff);
  (0x6782e400, 0x6782e7ff); (0x67831400, 0x678317ff); (0x67832400, 0x678327ff);
  (0x67838a00, 0x67838bff); (0x67839800, 0x67839bff); (0x6783a800, 0x6783abff);
  (0x6783b000, 0x6783b3ff); (0x6783e000, 0x6783e7ff); (0x6783f000, 0x6783f3ff);
  (0x67841600, 0x678417ff); (0x67843000, 0x678433ff); (0x67843c00, 0x67843fff);
  (0x67844000, 0x67844fff); (0x67845000, 0x678453ff); (0x67846800, 0x67846fff);
  (0x67847000, 0x678477ff); (0x67847800, 0x67847bff); (0x6784a000, 0x6784a7ff);
  (0x6784bc00, 0x6784bfff); (0x6784d000, 0x6784d7ff); (0x6784ea00, 0x6784ebff);
  (0x67850c00, 0x67850fff); (0x67852800, 0x67852bff); (0x67858000, 0x678583ff);
  (0x6785b000, 0x6785b3ff); (0x6785e800, 0x6785ebff); (0x6786c400, 0x6786c7ff);
  (0x6786e800, 0x6786e9ff); (0x67875000, 0x678753ff); (0x67877c00, 0x67877fff);
  (0x67879400, 0x678797ff); (0x67879c00, 0x67879fff); (0x6787a000, 0x6787a7ff);
  (0x6787b000, 0x6787b3ff); (0x6787b800, 0x6787bbff); (0x6787c000, 0x6787c7ff);
  (0x6787ec00, 0x6787efff); (0x67888000, 0x678883ff); (0x6788e800, 0x6788ebff);
  (0x67893a00, 0x67893bff); (0x67893c00, 0x67893cff); (0x67894c00, 0x67894fff);
  (0x67898800, 0x678989ff); (0x6789b400, 0x6789b7ff); (0x6789ec00, 0x6789efff);
  (0x678a0200, 0x678a03ff); (0x678a0c00, 0x678a0dff); (0x678a5000, 0x678a53ff);
  (0x678a8600, 0x678a87ff); (0x678a9c00, 0x678a9dff); (0x678ad000, 0x678ad1ff);
  (0x678adc00, 0x678addff); (0x678af800, 0x678af9ff); (0x678b0000, 0x678b03ff);
  (0x678b1600, 0x678b17ff); (0x678b5c00, 0x678b5dff); (0x678b8600, 0x678b87ff);
  (0x678b8800, 0x678b89ff); (0x678bac00, 0x678badff); (0x678bcc00, 0x678bcdff);
  (0x678bd400, 0x678bd5ff); (0x678c0800, 0x678c09ff); (0x678c0e00, 0x678c0fff);
  (0x678c7e00, 0x678c7fff); (0x678c8c00, 0x678c8dff); (0x678c9000, 0x678c91ff);
  (0x678c9800, 0x678c99ff); (0x678cc000, 0x678cc1ff); (0x678ce400, 0x678ce5ff);
  (0x678d0a00, 0x678d0bff); (0x678d3a00, 0x678d3bff); (0x678d8000, 0x678d81ff);
  (0x678dba00, 0x678dbbff); (0x678df200, 0x678df3ff); (0x678e1c00, 0x678e1dff);
  (0x678e3a00, 0x678e3bff); (0x678e5200, 0x678e53ff); (0x678e6000, 0x678e61ff);
  (0x678e6600, 0x678e67ff); (0x678e7a00, 0x678e7bff); (0x678e8000, 0x678e81ff);
  (0x678e8c00, 0x678e8dff); (0x678e9a00, 0x678e9bff); (0x678e9c00, 0x678e9dff);
  (0x678eac00, 0x678eadff); (0x678eb400, 0x678eb5ff); (0x678eba00, 0x678ebbff);
  (0x678edc00, 0x678eddff); (0x678eea00, 0x678eebff); (0x678eee00, 0x678eefff);
  (0x678ef800, 0x678ef9ff); (0x678f1000, 0x678f13ff); (0x678f4a00, 0x678f4bff);
  (0x678f5c00, 0x678f5dff); (0x678f7800, 0x678f79ff); (0x678f7c00, 0x678f7dff);
  (0x678f8400, 0x678f87ff); (0x678fae00, 0x678fafff); (0x678fe400, 0x678fe5ff);
  (0x678fe600, 0x678fe6ff); (0x67902800, 0x679029ff); (0x67903400, 0x679035ff);
  (0x67904200, 0x679043ff); (0x67904600, 0x679047ff); (0x67904800, 0x679049ff);
  (0x67908800, 0x679089ff); (0x67909e00, 0x67909fff); (0x6790f000, 0x6790f1ff);
  (0x6790f400, 0x6790f5ff); (0x67912600, 0x679127ff); (0x67912a00, 0x67912bff);
  (0x67915c00, 0x67915fff); (0x67916200, 0x679163ff); (0x6791bc00, 0x6791bfff);
  (0x67924800, 0x679249ff); (0x67925a00, 0x67925bff); (0x67927c00, 0x67927fff);
  (0x67928a00, 0x67928bff); (0x6792ec00, 0x6792edff); (0x67930c00, 0x67930dff);
  (0x67937c00, 0x67937dff); (0x6793c600, 0x6793c7ff); (0x6793ce00, 0x6793cfff);
  (0x6794ae00, 0x6794afff); (0x67950600, 0x679507ff); (0x67951100, 0x679511ff);
  (0x67952c00, 0x67952dff); (0x67958400, 0x679585ff); (0x67959000, 0x679591ff);
  (0x6795b500, 0x6795b5ff); (0x6795d200, 0x6795d3ff); (0x6795d600, 0x6795d7ff);
  (0x6795dc00, 0x6795ddff); (0x6795f200, 0x6795f3ff); (0x6795f400, 0x6795f7ff);
  (0x67960a00, 0x67960bff); (0x67961800, 0x679619ff); (0x67962400, 0x679625ff);
  (0x67964200, 0x679643ff); (0x67964800, 0x679649ff); (0x67967a00, 0x67967bff);
  (0x67967e00, 0x67967fff); (0x67968000, 0x679683ff); (0x67969200, 0x679693ff);
  (0x6796a400, 0x6796a5ff); (0x6796ac00, 0x6796adff); (0x6796b400, 0x6796b5ff);
  (0x6796c800, 0x6796c9ff); (0x6796d200, 0x6796d3ff); (0x6796d600, 0x6796d7ff);
  (0x6796d800, 0x6796d9ff); (0x6796f400, 0x6796f5ff); (0x67970400, 0x679705ff);
  (0x67972c00, 0x67972dff); (0x67978e00, 0x67978fff); (0x67979400, 0x679797ff);
  (0x67979e00, 0x67979fff); (0x6797d800, 0x6797d9ff); (0x6797e400, 0x6797e5ff);
  (0x67981c00, 0x67981fff); (0x67983800, 0x679839ff); (0x67984c00, 0x67984dff);
  (0x67987000, 0x679871ff); (0x67987800, 0x67987bff); (0x67989600, 0x679897ff);
  (0x67989800, 0x679899ff); (0x6798a800, 0x6798abff); (0x6798ba00, 0x6798bbff);
  (0x6798c000, 0x6798c1ff); (0x6798c800, 0x6798c9ff); (0x6798d000, 0x6798d1ff);
  (0x6798e000, 0x6798e1ff); (0x6798f600, 0x6798f7ff); (0x6798fa00, 0x6798fbff);
  (0x67990400, 0x679905ff); (0x67992400, 0x679925ff); (0x67996400, 0x679965ff);
  (0x67997200, 0x679973ff); (0x67997a00, 0x67997bff); (0x67998400, 0x679985ff);
  (0x67998a00, 0x67998bff); (0x67999200, 0x679993ff); (0x6799a000, 0x6799a1ff);
  (0x679a1200, 0x679a13ff); (0x679a1e00, 0x679a1fff); (0x679a2000, 0x679a21ff);
  (0x679a2800, 0x679a29ff); (0x679a4200, 0x679a43ff); (0x679aa200, 0x679aa3ff);
  (0x679aa400, 0x679aa5ff); (0x679aa800, 0x679aa9ff); (0x679b0e00, 0x679b0fff);
  (0x679b2200, 0x679b23ff); (0x679b3000, 0x679b31ff); (0x679b4c00, 0x679b4dff);
  (0x679b6400, 0x679b65ff); (0x679b6e00, 0x679b6fff); (0x679bd600, 0x679bd7ff);
  (0x679bf800, 0x679bf9ff); (0x679c1c00, 0x679c1dff); (0x679c4400, 0x679c45ff);
  (0x679c4e00, 0x679c4fff); (0x679c6800, 0x679c69ff); (0x679c9e00, 0x679c9fff);
  (0x679cae00, 0x679cafff); (0x679cba00, 0x679cbbff); (0x679ce400, 0x679ce5ff);
  (0x679d1e00, 0x679d1fff); (0x679dae00, 0x679dafff); (0x679dd400, 0x679dd5ff);
  (0x679dea00, 0x679debff); (0x679dfe00, 0x679dffff); (0x679e0000, 0x679e01ff);
  (0x679e0800, 0x679e09ff); (0x679e1000, 0x679e11ff); (0x679e4a00, 0x679e4bff);
  (0x679ebe00, 0x679ebfff); (0x679ec800, 0x679ec9ff); (0x679ee000, 0x679ee1ff);
  (0x679f7a00, 0x679f7bff); (0x679f7c00, 0x679f7dff); (0x679f8600, 0x679f87ff);
  (0x679f8e00, 0x679f8fff); (0x67a02000, 0x67a023ff); (0x67a07000, 0x67a073ff);
  (0x67a0f400, 0x67a0f5ff); (0x67a0fe00, 0x67a0ffff); (0x67a10e00, 0x67a10fff);
  (0x67a16600, 0x67a167ff); (0x67a1d000, 0x67a1d1ff); (0x67a1dc00, 0x67a1ddff);
  (0x67a1fe00, 0x67a1ffff); (0x67a20a00, 0x67a20bff); (0x67a22000, 0x67a221ff);
  (0x67a27400, 0x67a275ff); (0x67a31c00, 0x67a31dff); (0x67a32000, 0x67a321ff);
  (0x67a32e00, 0x67a32fff); (0x67a34a00, 0x67a34bff); (0x67a3b400, 0x67a3b5ff);
  (0x67a40400, 0x67a405ff); (0x67a42000, 0x67a421ff); (0x67a42800, 0x67a42bff);
  (0x67a44000, 0x67a441ff); (0x67a44c00, 0x67a44dff); (0x67a4b200, 0x67a4b3ff);
  (0x67a52c00, 0x67a52dff); (0x67a53400, 0x67a535ff); (0x67a55200, 0x67a553ff);
  (0x67a56e00, 0x67a56fff); (0x67a61400, 0x67a615ff); (0x67a63200, 0x67a633ff);
  (0x67a63400, 0x67a637ff); (0x67a65400, 0x67a655ff); (0x67a68a00, 0x67a68bff);
  (0x67a70000, 0x67a701ff); (0x67a72400, 0x67a725ff); (0x67a76400, 0x67a765ff);
  (0x67a86200, 0x67a863ff); (0x67a8aa00, 0x67a8abff); (0x67a93200, 0x67a933ff);
  (0x67a93e00, 0x67a93fff); (0x67a96c00, 0x67a96dff); (0x67a9a200, 0x67a9a3ff);
  (0x67a9ca00, 0x67a9cbff); (0x67a9d800, 0x67a9d9ff); (0x67aa0400, 0x67aa05ff);
  (0x67aa4800, 0x67aa49ff); (0x67aa8600, 0x67aa87ff); (0x67aad200, 0x67aad3ff);
  (0x67aad400, 0x67aad5ff); (0x67ab2000, 0x67ab21ff); (0x67aba600, 0x67aba7ff);
  (0x67abd600, 0x67abd7ff); (0x67ac2000, 0x67ac21ff); (0x67aca000, 0x67aca1ff);
  (0x67acbf00, 0x67acbfff); (0x67ad6600, 0x67ad67ff); (0x67adb600, 0x67adb7ff);
  (0x67adb800, 0x67adb9ff); (0x67ae5e00, 0x67ae5fff); (0x67af0e00, 0x67af0fff);
  (0x67af6200, 0x67af63ff); (0x67af7200, 0x67af73ff); (0x67af7600, 0x67af77ff);
  (0x67b03400, 0x67b035ff); (0x67b0de00, 0x67b0dfff); (0x67b0f400, 0x67b0f5ff);
  (0x67b11c00, 0x67b11dff); (0x67b12c00, 0x67b12dff); (0x67b14600, 0x67b147ff);
  (0x67b18800, 0x67b189ff); (0x67b1a200, 0x67b1a3ff); (0x67b23800, 0x67b239ff);
  (0x67b2f000, 0x67b2f1ff); (0x67b34c00, 0x67b34fff); (0x67b46c00, 0x67b46dff);
  (0x67b4e200, 0x67b4e3ff); (0x67b5a400, 0x67b5a5ff); (0x67b5ea00, 0x67b5ebff);
  (0x67b71a00, 0x67b71bff); (0x67b74200, 0x67b743ff); (0x67b77a00, 0x67b77bff);
  (0x67b77c00, 0x67b77dff); (0x67b82e00, 0x67b82fff); (0x67b83c00, 0x67b83dff);
  (0x67b94e00, 0x67b94fff); (0x67b95000, 0x67b951ff); (0x67b9e400, 0x67b9e5ff);
  (0x67ba0400, 0x67ba05ff); (0x67ba6c00, 0x67ba6dff); (0x67ba7000, 0x67ba71ff);
  (0x67ba8800, 0x67ba89ff); (0x67baa200, 0x67baa3ff); (0x67bae400, 0x67bae5ff);
  (0x67bd5c00, 0x67bd5dff); (0x67bd8c00, 0x67bd8dff); (0x67bd9800, 0x67bd9bff);
  (0x67be1400, 0x67be15ff); (0x67be4700, 0x67be47ff); (0x67be6800, 0x67be69ff);
  (0x67be7400, 0x67be77ff); (0x67be7a00, 0x67be7bff); (0x67bf6600, 0x67bf67ff);
  (0x67bff200, 0x67bff3ff); (0x67c00000, 0x67c01fff); (0x67c03000, 0x67c037ff);
  (0x67c03800, 0x67c03bff); (0x67c05400, 0x67c057ff); (0x67c05800, 0x67c05fff);
  (0x67c06000, 0x67c06fff); (0x67c07000, 0x67c073ff); (0x67c08000, 0x67c08fff);
  (0x67c09000, 0x67c093ff); (0x67c0a400, 0x67c0a7ff); (0x67c0bc00, 0x67c0bfff);
  (0x67c0d000, 0x67c0d7ff); (0x67c0d800, 0x67c0dbff); (0x67c0fc00, 0x67c0ffff);
  (0x67c12800, 0x67c12fff); (0x67c17800, 0x67c17bff); (0x67c18c00, 0x67c18fff);
  (0x67c1a000, 0x67c1a3ff); (0x67c1bc00, 0x67c1bfff); (0x67c1c000, 0x67c1c3ff);
  (0x67c1d400, 0x67c1d7ff); (0x67c1d800, 0x67c1dfff); (0x67c1e000, 0x67c1efff);
  (0x67c21000, 0x67c213ff); (0x67c36800, 0x67c36bff); (0x67c37000, 0x67c373ff);
  (0x67c39400, 0x67c397ff); (0x67c39800, 0x67c39bff); (0x67c3a000, 0x67c3a3ff);
  (0x67c44000, 0x67c443ff); (0x67c44800, 0x67c44bff); (0x67c45800, 0x67c45fff);
  (0x67c46000, 0x67c463ff); (0x67c4a800, 0x67c4abff); (0x67c4cc00, 0x67c4cfff);
  (0x67c50000, 0x67c503ff); (0x67c5b400, 0x67c5b7ff); (0x67c5e400, 0x67c5e7ff);
  (0x67c61400, 0x67c617ff); (0x67c63c00, 0x67c63fff); (0x67c64000, 0x67c643ff);
  (0x67c64800, 0x67c64bff); (0x67c67c00, 0x67c67fff); (0x67c69c00, 0x67c69fff);
  (0x67c6b400, 0x67c6b7ff); (0x67c6c400, 0x67c6c7ff); (0x67c6d800, 0x67c6dfff);
  (0x67c6e000, 0x67c6efff); (0x67c6f000, 0x67c6f7ff); (0x67c7a400, 0x67c7a7ff);
  (0x67c7c400, 0x67c7c7ff); (0x67c7e400, 0x67c7e7ff); (0x67c7f800, 0x67c7ffff);
  (0x67c83400, 0x67c837ff); (0x67c84000, 0x67c847ff); (0x67c88800, 0x67c88fff);
  (0x67c89000, 0x67c89fff); (0x67c8a000, 0x67c8bfff); (0x67c8c000, 0x67c8c3ff);
  (0x67c8dc00, 0x67c8dfff); (0x67c8e000, 0x67c8ffff); (0x67c90000, 0x67c90fff);
  (0x67c91000, 0x67c917ff); (0x67c91c00, 0x67c91fff); (0x67c92000, 0x67c93fff);
  (0x67c94000, 0x67c943ff); (0x67c94c00, 0x67c94fff); (0x67c95000, 0x67c95fff);
  (0x67c96000, 0x67c96fff); (0x67c97000, 0x67c977ff); (0x67c97800, 0x67c97bff);
  (0x67c99800, 0x67c99fff); (0x67c9a000, 0x67c9bfff); (0x67c9c000, 0x67c9ffff);
  (0x67ca0000, 0x67ca1fff); (0x67ca2000, 0x67ca2fff); (0x67ca3800, 0x67ca3fff);
  (0x67ca4000, 0x67ca7fff); (0x67ca8000, 0x67ca8fff); (0x67ca9000, 0x67ca93ff);
  (0x67ca9800, 0x67ca9fff); (0x67caa000, 0x67cabfff); (0x67cac000, 0x67cacfff);
  (0x67cad400, 0x67cad7ff); (0x67cae400, 0x67cae7ff); (0x67caec00, 0x67caefff);
  (0x67caf000, 0x67caffff); (0x67cb0000, 0x67cb1fff); (0x67cb2000, 0x67cb23ff);
  (0x67cb3800, 0x67cb3bff); (0x67cb6000, 0x67cb7fff); (0x67cb8000, 0x67cb83ff);
  (0x67cb8c00, 0x67cb8fff); (0x67cba400, 0x67cba7ff); (0x67cba800, 0x67cbabff);
  (0x67cbc000, 0x67cbc3ff); (0x67cbc800, 0x67cbcbff); (0x67cbd400, 0x67cbd7ff);
  (0x67cbd800, 0x67cbdbff); (0x67cc1800, 0x67cc1bff); (0x67cc4800, 0x67cc4bff);
  (0x67cc5800, 0x67cc5bff); (0x67cc7000, 0x67cc73ff); (0x67cc8800, 0x67cc8fff);
  (0x67cc9000, 0x67cc97ff); (0x67cc9800, 0x67cc9bff); (0x67ccc400, 0x67ccc7ff);
  (0x67ccd800, 0x67ccd9ff); (0x67cce800, 0x67ccefff); (0x67cd0400, 0x67cd07ff);
  (0x67cd0800, 0x67cd0bff); (0x67cd2800, 0x67cd2fff); (0x67cd3400, 0x67cd37ff);
  (0x67cd6c00, 0x67cd6fff); (0x67cd7400, 0x67cd77ff); (0x67cd7800, 0x67cd7bff);
  (0x67cd8800, 0x67cd8bff); (0x67cda200, 0x67cda2ff); (0x67cdbc00, 0x67cdbfff);
  (0x67cdc000, 0x67cdc7ff); (0x67cdc800, 0x67cdcbff); (0x67cdec00, 0x67cdefff);
  (0x67cdf800, 0x67cdffff); (0x67ce0000, 0x67ce03ff); (0x67ce2c00, 0x67ce2fff);
  (0x67ce9400, 0x67ce97ff); (0x67cf3000, 0x67cf33ff); (0x67cf6800, 0x67cf6bff);
  (0x67cfb800, 0x67cfbfff); (0x67cfc000, 0x67cfcfff); (0x67cfd000, 0x67cfd7ff);
  (0x67cfdc00, 0x67cfdfff); (0x67cfe400, 0x67cfe7ff); (0x67cfe800, 0x67cfebff);
  (0x67d00c00, 0x67d00fff); (0x67d01000, 0x67d013ff); (0x67d01c00, 0x67d01fff);
  (0x67d02800, 0x67d02fff); (0x67d03000, 0x67d033ff); (0x67d17000, 0x67d173ff);
  (0x67d18800, 0x67d18bff); (0x67d1c800, 0x67d1cbff); (0x67d1d000, 0x67d1d3ff);
  (0x67d1d800, 0x67d1dbff); (0x67d26000, 0x67d263ff); (0x67d29c00, 0x67d29fff);
  (0x67d2a000, 0x67d2bfff); (0x67d2d800, 0x67d2dbff); (0x67d32c00, 0x67d32fff);
  (0x67d36000, 0x67d363ff); (0x67d39c00, 0x67d39fff); (0x67d3a400, 0x67d3a7ff);
  (0x67d3c200, 0x67d3c3ff); (0x67d3dc00, 0x67d3dfff); (0x67d3e000, 0x67d3e3ff);
  (0x67d3f800, 0x67d3fbff); (0x67d40000, 0x67d40fff); (0x67d42c00, 0x67d42fff);
  (0x67d43000, 0x67d433ff); (0x67d45400, 0x67d457ff); (0x67d46400, 0x67d467ff);
  (0x67d46c00, 0x67d46fff); (0x67d49400, 0x67d497ff); (0x67d4a400, 0x67d4a7ff);
  (0x67d4c400, 0x67d4c7ff); (0x67d4c800, 0x67d4cbff); (0x67d4e400, 0x67d4e7ff);
  (0x67d4fc00, 0x67d4ffff); (0x67d52800, 0x67d52fff); (0x67d53000, 0x67d53fff);
  (0x67d54000, 0x67d55fff); (0x67d56000, 0x67d563ff); (0x67d58400, 0x67d587ff);
  (0x67d58800, 0x67d58fff); (0x67d59000, 0x67d59fff); (0x67d5a000, 0x67d5bfff);
  (0x67d5c400, 0x67d5c7ff); (0x67d5e200, 0x67d5e3ff); (0x67d5e800, 0x67d5e9ff);
  (0x67d63000, 0x67d633ff); (0x67d65400, 0x67d657ff); (0x67d6d400, 0x67d6d7ff);
  (0x67d6f000, 0x67d6f7ff); (0x67d71c00, 0x67d71fff); (0x67d72000, 0x67d727ff);
  (0x67d72c00, 0x67d72fff); (0x67d73000, 0x67d733ff); (0x67d76400, 0x67d767ff);
  (0x67d76c00, 0x67d76fff); (0x67d77400, 0x67d777ff); (0x67d77800, 0x67d77bff);
  (0x67d78c00, 0x67d78fff); (0x67d80400, 0x67d807ff); (0x67d80800, 0x67d80fff);
  (0x67d81000, 0x67d81fff); (0x67d82000, 0x67d82fff); (0x67d84000, 0x67d843ff);
  (0x67d86c00, 0x67d86fff); (0x67d88800, 0x67d88bff); (0x67d89800, 0x67d89bff);
  (0x67d89c00, 0x67d89dff); (0x67d8e000, 0x67d8e7ff); (0x67d8f000, 0x67d8ffff);
  (0x67d90000, 0x67d93fff); (0x67d9a800, 0x67d9abff); (0x67d9b400, 0x67d9b7ff);
  (0x67d9b800, 0x67d9bfff); (0x67d9c000, 0x67d9cfff); (0x67da0800, 0x67da0fff);
  (0x67da1000, 0x67da17ff); (0x67da1c00, 0x67da1fff); (0x67da2000, 0x67da3fff);
  (0x67da4000, 0x67da5fff); (0x67dab200, 0x67dab3ff); (0x67dac000, 0x67dacfff);
  (0x67dad000, 0x67dad7ff); (0x67dad800, 0x67dadbff); (0x67db1800, 0x67db1fff);
  (0x67db2000, 0x67db27ff); (0x67db4000, 0x67db43ff); (0x67db5400, 0x67db57ff);
  (0x67db5800, 0x67db5fff); (0x67db6000, 0x67db67ff); (0x67dbb000, 0x67dbb3ff);
  (0x67dbb800, 0x67dbbbff); (0x67dc3000, 0x67dc3fff); (0x67dc4000, 0x67dc43ff);
  (0x67dc5c00, 0x67dc5fff); (0x67dc6000, 0x67dc6fff); (0x67dc7400, 0x67dc77ff);
  (0x67dc7800, 0x67dc7fff); (0x67dc8000, 0x67dcbfff); (0x67dcc000, 0x67dcc7ff);
  (0x67dcc800, 0x67dccbff); (0x67dcf000, 0x67dcffff); (0x67dd0000, 0x67dd1fff);
  (0x67dd2000, 0x67dd2fff); (0x67dd3000, 0x67dd33ff); (0x67dd5800, 0x67dd5fff);
  (0x67dd6000, 0x67dd7fff); (0x67dd8000, 0x67ddbfff); (0x67ddc000, 0x67ddcfff);
  (0x67de0000, 0x67de0fff); (0x67de1000, 0x67de13ff); (0x67de1800, 0x67de1fff);
  (0x67de2000, 0x67de3fff); (0x67de4000, 0x67de7fff); (0x67de8000, 0x67debfff);
  (0x67dec000, 0x67dedfff); (0x67dee000, 0x67dee7ff); (0x67dee800, 0x67deebff);
  (0x67def000, 0x67def7ff); (0x67df1000, 0x67df1fff); (0x67df2000, 0x67df3fff);
  (0x67df4000, 0x67df7fff); (0x67df8000, 0x67df87ff); (0x67df8c00, 0x67df8fff);
  (0x67df9000, 0x67df9fff); (0x67dfa000, 0x67dfafff); (0x67dfb000, 0x67dfb7ff);
  (0x67dfbc00, 0x67dfbfff); (0x67dfc000, 0x67dfffff); (0x67e00000, 0x67e003ff);
  (0x67e02800, 0x67e02fff); (0x67e03c00, 0x67e03fff); (0x67e05000, 0x67e053ff);
  (0x67e0dc00, 0x67e0dfff); (0x67e0e000, 0x67e0e7ff); (0x67e0e800, 0x67e0ebff);
  (0x67e11200, 0x67e112ff); (0x67e15400, 0x67e157ff); (0x67e21000, 0x67e213ff);
  (0x67e22800, 0x67e22bff); (0x67e23800, 0x67e23fff); (0x67e25000, 0x67e253ff);
  (0x67e27400, 0x67e275ff); (0x67e28400, 0x67e287ff); (0x67e29c00, 0x67e29fff);
  (0x67e2b400, 0x67e2b7ff); (0x67e2c400, 0x67e2c7ff); (0x67e33000, 0x67e333ff);
  (0x67e34800, 0x67e34fff); (0x67e35000, 0x67e353ff); (0x67e36400, 0x67e367ff);
  (0x67e37800, 0x67e37bff); (0x67e38400, 0x67e387ff); (0x67e38800, 0x67e38bff);
  (0x67e3c400, 0x67e3c7ff); (0x67e3cc00, 0x67e3cfff); (0x67e3d400, 0x67e3d7ff);
  (0x67e3e400, 0x67e3e7ff); (0x67e40c00, 0x67e40fff); (0x67e45800, 0x67e45bff);
  (0x67e48800, 0x67e48bff); (0x67e4a000, 0x67e4a3ff); (0x67e4b000, 0x67e4b3ff);
  (0x67e4cc00, 0x67e4cfff); (0x67e4d000, 0x67e4d3ff); (0x67e4e400, 0x67e4e7ff);
  (0x67e4e800, 0x67e4ebff); (0x67e51400, 0x67e517ff); (0x67e53c00, 0x67e53fff);
  (0x67e58800, 0x67e58bff); (0x67e59400, 0x67e597ff); (0x67e5ac00, 0x67e5afff);
  (0x67e5d400, 0x67e5d7ff); (0x67e5d800, 0x67e5dfff); (0x67e5e400, 0x67e5e7ff);
  (0x67e5ec00, 0x67e5efff); (0x67e5f000, 0x67e5f3ff); (0x67e60000, 0x67e603ff);
  (0x67e61c00, 0x67e61fff); (0x67e62c00, 0x67e62fff); (0x67e66000, 0x67e663ff);
  (0x67e66e00, 0x67e66fff); (0x67e6c400, 0x67e6c7ff); (0x67e6c800, 0x67e6cfff);
  (0x67e6d400, 0x67e6d7ff); (0x67e6ec00, 0x67e6efff); (0x67e71000, 0x67e717ff);
  (0x67e74000, 0x67e747ff); (0x67e7b400, 0x67e7b7ff); (0x67e7b800, 0x67e7bbff);
  (0x67e7f400, 0x67e7f7ff); (0x67e80400, 0x67e807ff); (0x67e89000, 0x67e893ff);
  (0x67e8a600, 0x67e8a7ff); (0x67e8bc00, 0x67e8bfff); (0x67e8d400, 0x67e8d7ff);
  (0x67e90400, 0x67e907ff); (0x67e92c00, 0x67e92fff); (0x67e93400, 0x67e937ff);
  (0x67e96800, 0x67e96bff); (0x67e98000, 0x67e983ff); (0x67e98800, 0x67e98bff);
  (0x67e9a200, 0x67e9a3ff); (0x67e9b200, 0x67e9b3ff); (0x67e9e400, 0x67e9e7ff);
  (0x67ea0000, 0x67ea03ff); (0x67ea1400, 0x67ea17ff); (0x67ea3800, 0x67ea3bff);
  (0x67ea8000, 0x67ea83ff); (0x67eaac00, 0x67eaafff); (0x67eab400, 0x67eab7ff);
  (0x67eaf400, 0x67eaf7ff); (0x67eb3000, 0x67eb33ff); (0x67eb3800, 0x67eb3fff);
  (0x67eb5000, 0x67eb57ff); (0x67eb6400, 0x67eb67ff); (0x67eb8000, 0x67eb8fff);
  (0x67eb9000, 0x67eb97ff); (0x67ebb800, 0x67ebbbff); (0x67ebc000, 0x67ebc3ff);
  (0x67ebc800, 0x67ebcbff); (0x67ebdc00, 0x67ebdfff); (0x67ebe000, 0x67ebffff);
  (0x67ec0000, 0x67ec3fff); (0x67ec4000, 0x67ec5fff); (0x67ec6000, 0x67ec63ff);
  (0x67ec7400, 0x67ec75ff); (0x67ec7800, 0x67ec7bff); (0x67ecb800, 0x67ecbbff);
  (0x67ecdc00, 0x67ecdfff); (0x67ece800, 0x67ecebff); (0x67ecf000, 0x67ecffff);
  (0x67ed0000, 0x67ed0fff); (0x67ed1800, 0x67ed1fff); (0x67ed4400, 0x67ed47ff);
  (0x67ed5800, 0x67ed5bff); (0x67ed5c00, 0x67ed5dff); (0x67ed9800, 0x67ed9bff);
  (0x67edb000, 0x67edbfff); (0x67edc000, 0x67edffff); (0x67ee0000, 0x67ee07ff);
  (0x67ee1000, 0x67ee1fff); (0x67ee2000, 0x67ee2fff); (0x67ee3000, 0x67ee37ff);
  (0x67ee3800, 0x67ee3bff); (0x67ee5800, 0x67ee5fff); (0x67ee6000, 0x67ee63ff);
  (0x67ee8400, 0x67ee87ff); (0x67ee8c00, 0x67ee8fff); (0x67ee9000, 0x67ee93ff);
  (0x67ee9800, 0x67ee99ff); (0x67eea000, 0x67eebfff); (0x67eec400, 0x67eec7ff);
  (0x67eecc00, 0x67eecfff); (0x67eefc00, 0x67eeffff); (0x67ef0000, 0x67ef03ff);
  (0x67ef2c00, 0x67ef2fff); (0x67ef4400, 0x67ef47ff); (0x67ef9800, 0x67ef9fff);
  (0x67efb400, 0x67efb7ff); (0x67efb800, 0x67efbbff); (0x67efc000, 0x67efc7ff);
  (0x67efcc00, 0x67efcfff); (0x67efd000, 0x67efd3ff); (0x67efe000, 0x67efe3ff);
  (0x67eff400, 0x67eff7ff); (0x67f01000, 0x67f013ff); (0x67f02400, 0x67f027ff);
  (0x67f02a00, 0x67f02bff); (0x67f04800, 0x67f04bff); (0x67f05400, 0x67f057ff);
  (0x67f07c00, 0x67f07fff); (0x67f0ac00, 0x67f0afff); (0x67f0bc00, 0x67f0bfff);
  (0x67f0c800, 0x67f0cbff); (0x67f0f400, 0x67f0f7ff); (0x67f10c00, 0x67f10fff);
  (0x67f15c00, 0x67f15fff); (0x67f16000, 0x67f163ff); (0x67f1a000, 0x67f1a3ff);
  (0x67f1ac00, 0x67f1adff); (0x67f1b800, 0x67f1bfff); (0x67f1dc00, 0x67f1dfff);
  (0x67f24000, 0x67f243ff); (0x67f28000, 0x67f287ff); (0x67f2a000, 0x67f2a3ff);
  (0x67f2a800, 0x67f2afff); (0x67f2b000, 0x67f2b3ff); (0x67f2c800, 0x67f2cbff);
  (0x67f2d400, 0x67f2d7ff); (0x67f2dc00, 0x67f2dfff); (0x67f2f000, 0x67f2f3ff);
  (0x67f38800, 0x67f38bff); (0x67f3fc00, 0x67f3ffff); (0x67f41000, 0x67f413ff);
  (0x67f41a00, 0x67f41bff); (0x67f43a00, 0x67f43bff); (0x67f43c00, 0x67f43fff);
  (0x67f44000, 0x67f44fff); (0x67f45000, 0x67f457ff); (0x67f47400, 0x67f477ff);
  (0x67f4a400, 0x67f4a7ff); (0x67f4e800, 0x67f4ebff); (0x67f4fc00, 0x67f4ffff);
  (0x67f51700, 0x67f517ff); (0x67f51800, 0x67f519ff); (0x67f53400, 0x67f537ff);
  (0x67f53c00, 0x67f53fff); (0x67f55000, 0x67f553ff); (0x67f57c00, 0x67f57fff);
  (0x67f58000, 0x67f583ff); (0x67f60800, 0x67f60fff); (0x67f67800, 0x67f67fff);
  (0x67f68400, 0x67f687ff); (0x67f69800, 0x67f69fff); (0x67f7a800, 0x67f7afff);
  (0x67f7b000, 0x67f7b3ff); (0x67f7bf00, 0x67f7bfff); (0x67f7c800, 0x67f7cbff);
  (0x67f7d400, 0x67f7d7ff); (0x67f80000, 0x67f801ff); (0x67f84000, 0x67f843ff);
  (0x67f86400, 0x67f867ff); (0x67f87c00, 0x67f87fff); (0x67f89800, 0x67f89bff);
  (0x67f8a800, 0x67f8abff); (0x67f8c000, 0x67f8c3ff); (0x67f8d400, 0x67f8d7ff);
  (0x67f8e000, 0x67f8e3ff); (0x67f90800, 0x67f90fff); (0x67f93400, 0x67f937ff);
  (0x67f96800, 0x67f96bff); (0x67f98000, 0x67f983ff); (0x67f98800, 0x67f98bff);
  (0x67f99000, 0x67f993ff); (0x67f9a400, 0x67f9a7ff); (0x67f9a800, 0x67f9afff);
  (0x67f9b000, 0x67f9b3ff); (0x67f9bc00, 0x67f9bfff); (0x67f9c000, 0x67f9c3ff);
  (0x67f9f400, 0x67f9f7ff); (0x67f9fc00, 0x67f9ffff); (0x67fa2000, 0x67fa23ff);
  (0x67fa6800, 0x67fa6bff); (0x67fa7c00, 0x67fa7fff); (0x67fab400, 0x67fab7ff);
  (0x67fac000, 0x67fac3ff); (0x67fad800, 0x67fadbff); (0x67fae000, 0x67fae3ff);
  (0x67faec00, 0x67faefff); (0x67faf800, 0x67faffff); (0x67fb2000, 0x67fb23ff);
  (0x67fb5400, 0x67fb57ff); (0x67fb6000, 0x67fb63ff); (0x67fb7c00, 0x67fb7fff);
  (0x67fb8000, 0x67fb83ff); (0x67fba000, 0x67fba3ff); (0x67fbc000, 0x67fbc3ff);
  (0x67fbcc00, 0x67fbcfff); (0x67fbf000, 0x67fbf3ff); (0x67fc1c00, 0x67fc1fff);
  (0x67fc2400, 0x67fc27ff); (0x67fc4000, 0x67fc43ff); (0x67fc6000, 0x67fc63ff);
  (0x67fc6800, 0x67fc6bff); (0x67fcac00, 0x67fcafff); (0x67fccc00, 0x67fccfff);
  (0x67fcd000, 0x67fcd3ff); (0x67fce800, 0x67fcebff); (0x67fcf800, 0x67fcfbff);
  (0x67fd0400, 0x67fd07ff); (0x67fd3c00, 0x67fd3fff); (0x67fdcc00, 0x67fdcfff);
  (0x67fddc00, 0x67fddfff); (0x67fde000, 0x67fde3ff); (0x67fde800, 0x67fdebff);
  (0x67fe0800, 0x67fe0bff); (0x67fe1400, 0x67fe17ff); (0x67fe4000, 0x67fe4fff);
  (0x67fe7000, 0x67fe73ff); (0x67feb000, 0x67feb3ff); (0x67febc00, 0x67febfff);
  (0x67fec400, 0x67fec4ff); (0x67fedc00, 0x67fedfff); (0x67ff4400, 0x67ff47ff);
  (0x67ff5800, 0x67ff5fff); (0x67ff8800, 0x67ff8fff); (0x67ffb800, 0x67ffbbff);
  (0x67ffc800, 0x67ffcbff); (0x67ffd000, 0x67ffd1ff); (0x67ffd400, 0x67ffd7ff);
  (0x67ffe400, 0x67ffe7ff); (0x68fbb000, 0x68fbb3ff); (0x6a000000, 0x6a0000ff);
  (0x6a000200, 0x6a0003ff); (0x6a000400, 0x6a0007ff); (0x6a000800, 0x6a000fff);
  (0x6a001000, 0x6a001fff); (0x6a002c00, 0x6a002fff); (0x6a004000, 0x6a007fff);
  (0x6a020000, 0x6a03ffff); (0x6a040000, 0x6a07ffff); (0x6a080000, 0x6a09ffff);
  (0x6a0b0000, 0x6a0bffff); (0x6a0c0000, 0x6a0fffff); (0x6a100000, 0x6a1fffff);
  (0x6a200000, 0x6a2fffff); (0x6a300000, 0x6a31ffff); (0x6a320000, 0x6a32ffff);
  (0x6a340000, 0x6a37ffff); (0x6a380000, 0x6a3fffff); (0x6a4a0000, 0x6a4bffff);
  (0x6a500000, 0x6a5fffff); (0x6a6c0000, 0x6a6fffff); (0x6a700000, 0x6a7fffff);
  (0x6ae00000, 0x6aefffff); (0x6b940600, 0x6b9406ff); (0x6b97d400, 0x6b97d4ff);
  (0x6bbee500, 0x6bbee5ff); (0x6cba4800, 0x6cba48ff); (0x6df40000, 0x6df4ffff);
  (0x6e060000, 0x6e07ffff); (0x6e100000, 0x6e13ffff); (0x6e222800, 0x6e222fff);
  (0x6e280000, 0x6e2bffff); (0x6e2c0c00, 0x6e2c0fff); (0x6e2c9000, 0x6e2c9fff);
  (0x6e300000, 0x6e30ffff); (0x6e330000, 0x6e33ffff); (0x6e340000, 0x6e35ffff);
  (0x6e380000, 0x6e3fffff); (0x6e400000, 0x6e41ffff); (0x6e480000, 0x6e49ffff);
  (0x6e4b0000, 0x6e4bffff); (0x6e4c0000, 0x6e4c3fff); (0x6e4c8400, 0x6e4c87ff);
  (0x6e4c9c00, 0x6e4c9fff); (0x6e4cb800, 0x6e4cbbff); (0x6e4cc000, 0x6e4cffff);
  (0x6e4d0000, 0x6e4d7fff); (0x6e4f4e00, 0x6e4f4eff); (0x6e500000, 0x6e57ffff);
  (0x6e580000, 0x6e5bffff); (0x6e5c4400, 0x6e5c47ff); (0x6e5d2000, 0x6e5d3fff);
  (0x6e5e0000, 0x6e5fffff); (0x6e600000, 0x6e7fffff); (0x6e980000, 0x6e9bffff);
  (0x6e9c0000, 0x6e9dffff); (0x6ea52000, 0x6ea53fff); (0x6ea60000, 0x6ea7ffff);
  (0x6eacc000, 0x6eacffff); (0x6ead0000, 0x6ead1fff); (0x6ead2000, 0x6ead2fff);
  (0x6ead4000, 0x6ead7fff); (0x6eadc000, 0x6eaddfff); (0x6eb00000, 0x6ebfffff);
  (0x6ec00000, 0x6edfffff); (0x6ee40000, 0x6ee7ffff); (0x6ee82000, 0x6ee83fff);
  (0x6eec0000, 0x6eedffff); (0x6ef00000, 0x6effffff); (0x6f000000, 0x6f3fffff);
  (0x6f420000, 0x6f42ffff); (0x6f43c000, 0x6f43cfff); (0x6f444000, 0x6f445fff);
  (0x6f480000, 0x6f4fffff); (0x6f550000, 0x6f55ffff); (0x6f5cf800, 0x6f5cffff);
  (0x6f700000, 0x6f73ffff); (0x6f740000, 0x6f75ffff); (0x6f76c800, 0x6f76cfff);
  (0x6f774000, 0x6f777fff); (0x6f778000, 0x6f779fff); (0x6f780000, 0x6f7bffff);
  (0x6f7c0000, 0x6f7cffff); (0x6f7e0000, 0x6f7fffff); (0x6f800000, 0x6f9fffff);
  (0x6fa00000, 0x6fa7ffff); (0x6faa0000, 0x6faaffff); (0x6fac0000, 0x6fafffff);
  (0x6fb00000, 0x6fb7ffff); (0x6fba0000, 0x6fbbffff); (0x6fc00000, 0x6fcfffff);
  (0x6fd00000, 0x6fd7ffff); (0x6fdd1c00, 0x6fdd1cff); (0x6fdd8000, 0x6fddffff);
  (0x6fde0000, 0x6fdeffff); (0x6fdf0400, 0x6fdf07ff); (0x6fdf0800, 0x6fdf0fff);
  (0x6fdf1000, 0x6fdf13ff); (0x6fdff000, 0x6fdff3ff); (0x6fdff800, 0x6fdffbff);
  (0x6fe00000, 0x6fe7ffff); (0x6feb6000, 0x6feb7fff); (0x6feb9c00, 0x6feb9fff);
  (0x6feba000, 0x6febbfff); (0x70000000, 0x703fffff); (0x70400000, 0x7043ffff);
  (0x70490000, 0x7049ffff); (0x704a0000, 0x704bffff); (0x70500000, 0x705fffff);
  (0x70600000, 0x7067ffff); (0x706d8000, 0x706dffff); (0x706f0000, 0x706fffff);
  (0x70700000, 0x7073ffff); (0x70740000, 0x7075ffff); (0x707a0000, 0x707bffff);
  (0x707c0000, 0x707fffff); (0x70800000, 0x7083ffff); (0x70840000, 0x7084ffff);
  (0x70893000, 0x708937ff); (0x70c00000, 0x70c3ffff); (0x70e00000, 0x70ffffff);
  (0x71000000, 0x7107ffff); (0x71080000, 0x7109ffff); (0x710bc000, 0x710bdfff);
  (0x710c0000, 0x710fffff); (0x71100000, 0x7111ffff); (0x71120000, 0x7112ffff);
  (0x7115e800, 0x7115efff); (0x71180000, 0x711bffff); (0x711f0000, 0x711fffff);
  (0x712c0000, 0x712fffff); (0x71300000, 0x7133ffff); (0x7134a000, 0x7134bfff);
  (0x7134e400, 0x7134e7ff); (0x71360000, 0x7137ffff); (0x71380000, 0x7139ffff);
  (0x713a0000, 0x713affff); (0x713b0000, 0x713b7fff); (0x713be000, 0x713be3ff);
  (0x713e0000, 0x713fffff); (0x71400000, 0x717fffff); (0x71800000, 0x7181ffff);
  (0x71826000, 0x71826fff); (0x71827000, 0x718277ff); (0x71840000, 0x7187ffff);
  (0x71880000, 0x718fffff); (0x71c02800, 0x71c029ff); (0x71c20000, 0x71c3ffff);
  (0x71c56400, 0x71c567ff); (0x71c80000, 0x71c9ffff); (0x71ca0000, 0x71caffff);
  (0x71cc0000, 0x71cfffff); (0x71d06000, 0x71d07fff); (0x71d08000, 0x71d0ffff);
  (0x71d10000, 0x71d1ffff); (0x71d40000, 0x71d43fff); (0x71d46400, 0x71d467ff);
  (0x71d4b800, 0x71d4bfff); (0x71d50000, 0x71d57fff); (0x71d60000, 0x71d7ffff);
  (0x71da0000, 0x71dbffff); (0x71dc0000, 0x71dfffff); (0x71e00000, 0x71efffff);
  (0x71f00000, 0x71f7ffff); (0x71f80000, 0x71fbffff); (0x721c0000, 0x721cffff);
  (0x721f4000, 0x721f47ff); (0x72360000, 0x7237ffff); (0x723c0000, 0x723fffff);
  (0x72400000, 0x7243ffff); (0x72440000, 0x7244ffff); (0x724f4000, 0x724f7fff);
  (0x72500000, 0x725fffff); (0x72600000, 0x7267ffff); (0x72680000, 0x726bffff);
  (0x726e0000, 0x726e0fff); (0x726e4000, 0x726e7fff); (0x726f0000, 0x726f1fff);
  (0x726fa000, 0x726fbfff); (0x72700000, 0x7273ffff); (0x72740000, 0x7275ffff);
  (0x72760000, 0x7276ffff); (0x72770000, 0x72777fff); (0x7277c000, 0x7277ffff);
  (0x72840000, 0x7284ffff); (0x72870000, 0x7287ffff); (0x728a0000, 0x728bffff);
  (0x728d4000, 0x728d47ff); (0x728d5000, 0x728d57ff); (0x728d8000, 0x728dbfff);
  (0x728e8800, 0x728e8fff); (0x72c40000, 0x72c5ffff); (0x72c6f800, 0x72c6ffff);
  (0x72d00000, 0x72dfffff); (0x72e00000, 0x72ffffff); (0x73180000, 0x731bffff);
  (0x731c0000, 0x731dffff); (0x731f4000, 0x731f4fff); (0x73200000, 0x7323ffff);
  (0x732a3800, 0x732a3bff); (0x732c0000, 0x732fffff); (0x73300000, 0x733fffff);
  (0x73454000, 0x73454fff); (0x73540000, 0x73543fff); (0x7355c000, 0x7355ffff);
  (0x73640000, 0x7367ffff); (0x73680000, 0x736bffff); (0x73780000, 0x737bffff);
  (0x737c1000, 0x737c1fff); (0x73940000, 0x7397ffff); (0x73980000, 0x739fffff);
  (0x73a64000, 0x73a65fff); (0x73a80000, 0x73afffff); (0x73b40000, 0x73b7ffff);
  (0x73bb0000, 0x73bb0fff); (0x73be0000, 0x73bfffff); (0x73c00000, 0x73dfffff);
  (0x73e00000, 0x73efffff); (0x74000800, 0x74000fff); (0x74001800, 0x74001fff);
  (0x74010000, 0x7401ffff); (0x74020000, 0x7403ffff); (0x74040000, 0x7407ffff);
  (0x74080000, 0x740bffff); (0x740d0000, 0x740dffff); (0x74100000, 0x741fffff);
  (0x74320000, 0x74320fff); (0x74340000, 0x7437ffff); (0x74380000, 0x7439ffff);
  (0x743a8000, 0x743a8fff); (0x743ad000, 0x743adfff); (0x743c0000, 0x743fffff);
  (0x74420000, 0x74427fff); (0x74448800, 0x74448fff); (0x7444b000, 0x7444b7ff);
  (0x74450000, 0x7445ffff); (0x74460000, 0x74467fff); (0x744c0000, 0x744fffff);
  (0x74550000, 0x7455ffff); (0x74599000, 0x74599fff); (0x7459f000, 0x7459f3ff);
  (0x745a5000, 0x745a5fff); (0x745ab800, 0x745abfff); (0x745ac000, 0x745acfff);
  (0x745f0000, 0x745fffff); (0x74700000, 0x7473ffff); (0x74740000, 0x7475ffff);
  (0x74800000, 0x74bfffff); (0x74c00000, 0x74c0ffff); (0x74c11000, 0x74c11fff);
  (0x74c12000, 0x74c13fff); (0x74c1b000, 0x74c1b7ff); (0x74c20000, 0x74c3ffff);
  (0x74c40000, 0x74c4ffff); (0x74c5a000, 0x74c5a7ff); (0x74c60000, 0x74c6ffff);
  (0x74c70000, 0x74c77fff); (0x74c78000, 0x74c79fff); (0x74cc0000, 0x74cc7fff);
  (0x74cc8400, 0x74cc87ff); (0x74cd0000, 0x74cdffff); (0x74cf0000, 0x74cfffff);
  (0x74d00000, 0x74d3ffff); (0x74d4a000, 0x74d4afff); (0x74d52c00, 0x74d52fff);
  (0x74d54000, 0x74d57fff); (0x74d58000, 0x74d5ffff); (0x74d62000, 0x74d63fff);
  (0x74d64000, 0x74d64fff); (0x74d68000, 0x74d6ffff); (0x74d70000, 0x74d7ffff);
  (0x74d80000, 0x74dbffff); (0x74e00000, 0x74efffff); (0x74f20000, 0x74f3ffff);
  (0x74f40000, 0x74f7ffff); (0x74f80000, 0x74f9ffff); (0x74fb4000, 0x74fb7fff);
  (0x74fc0000, 0x74fdffff); (0x74fe6800, 0x74fe6fff); (0x74fe8000, 0x74feffff);
  (0x74ff8000, 0x74ffffff); (0x75080000, 0x750fffff); (0x75150000, 0x7515ffff);
  (0x75160000, 0x7517ffff); (0x75180000, 0x751fffff); (0x75200000, 0x7527ffff);
  (0x75280000, 0x752bffff); (0x752c0000, 0x752dffff); (0x75300000, 0x7533ffff);
  (0x75353000, 0x75353fff); (0x7535b000, 0x7535bfff); (0x75390000, 0x7539ffff);
  (0x753a0000, 0x753a7fff); (0x753b0000, 0x753bffff); (0x753c0000, 0x753fffff);
  (0x75400000, 0x7547ffff); (0x75480000, 0x7549ffff); (0x754a4000, 0x754a5fff);
  (0x754a8000, 0x754affff); (0x754b0000, 0x754bffff); (0x754c0000, 0x754fffff);
  (0x75500000, 0x755fffff); (0x75640000, 0x7565ffff); (0x75671000, 0x75671fff);
  (0x75672800, 0x75672fff); (0x75674800, 0x75674fff); (0x75678000, 0x75678fff);
  (0x7568a800, 0x7568afff); (0x756a0000, 0x756bffff); (0x75700000, 0x7577ffff);
  (0x75784000, 0x75787fff); (0x75788000, 0x7578ffff); (0x75790000, 0x75797fff);
  (0x75798000, 0x7579bfff); (0x7579c000, 0x7579c7ff); (0x757a8000, 0x757affff);
  (0x757c0000, 0x757fffff); (0x75800000, 0x75bfffff); (0x76180000, 0x7619ffff);
  (0x761a0000, 0x761a1fff); (0x761a2000, 0x761a23ff); (0x761a2800, 0x761a2fff);
  (0x761a3000, 0x761a3fff); (0x761a4000, 0x761a5fff); (0x761a6000, 0x761a67ff);
  (0x761a7000, 0x761a7fff); (0x761a8000, 0x761a83ff); (0x761a8500, 0x761a85ff);
  (0x761a8600, 0x761a87ff); (0x761a8800, 0x761a8fff); (0x761aa000, 0x761aafff);
  (0x761abc00, 0x761abfff); (0x761ac000, 0x761affff); (0x761c0000, 0x761fffff);
  (0x76400000, 0x7641ffff); (0x76420000, 0x7642ffff); (0x76437000, 0x76437fff);
  (0x76480000, 0x764fffff); (0x76500000, 0x7651ffff); (0x76540000, 0x7655ffff);
  (0x76582000, 0x76583fff); (0x76584000, 0x76587fff); (0x76588000, 0x7658ffff);
  (0x76590000, 0x7659ffff); (0x765bf000, 0x765bffff); (0x76661000, 0x76661fff);
  (0x76662000, 0x766627ff); (0x7667a400, 0x7667a7ff); (0x7667a800, 0x7667afff);
  (0x7667b000, 0x7667b3ff); (0x76700000, 0x7677ffff); (0x76780000, 0x767bffff);
  (0x767c0000, 0x767dffff); (0x767e0000, 0x767effff); (0x767f8000, 0x767f9fff);
  (0x76840000, 0x7687ffff); (0x76900000, 0x7693ffff); (0x76b20000, 0x76b2ffff);
  (0x76b40000, 0x76b7ffff); (0x76b80000, 0x76b8ffff); (0x76ba0000, 0x76bbffff);
  (0x76bc0000, 0x76bcffff); (0x76be0000, 0x76bfffff); (0x76c00000, 0x76c0ffff);
  (0x76c10000, 0x76c10fff); (0x76c13000, 0x76c137ff); (0x76c16000, 0x76c17fff);
  (0x76c18000, 0x76c1ffff); (0x76c20000, 0x76c27fff); (0x76c28000, 0x76c2bfff);
  (0x76c2c000, 0x76c2dfff); (0x76c2e000, 0x76c2e3ff); (0x76c2f000, 0x76c2f7ff);
  (0x76c30000, 0x76c3ffff); (0x76c40000, 0x76c7ffff); (0x76ca0000, 0x76cbffff);
  (0x76cc0000, 0x76cfffff); (0x76d40000, 0x76d5ffff); (0x76d7c000, 0x76d7ffff);
  (0x76e00000, 0x76e3ffff); (0x76e40000, 0x76e5ffff); (0x76e60000, 0x76e6ffff);
  (0x76ef0000, 0x76efffff); (0x76f20000, 0x76f2ffff); (0x76f40000, 0x76f7ffff);
  (0x76f80000, 0x76ffffff); (0x77000000, 0x7701ffff); (0x77020000, 0x77021fff);
  (0x77028000, 0x7702ffff); (0x77030000, 0x7703ffff); (0x77040000, 0x7707ffff);
  (0x770a0000, 0x770a7fff); (0x770f8800, 0x770f8fff); (0x77100000, 0x7710ffff);
  (0x7712c000, 0x7712cfff); (0x7712d000, 0x7712d7ff); (0x7712e000, 0x7712ffff);
  (0x77130000, 0x7713ffff); (0x77140000, 0x7717ffff); (0x771b4000, 0x771b7fff);
  (0x771b8000, 0x771bffff); (0x771c0000, 0x771dffff); (0x771e3000, 0x771e3fff);
  (0x771fc000, 0x771fdfff); (0x77200000, 0x7727ffff); (0x77280000, 0x77283fff);
  (0x77284000, 0x77284fff); (0x77288000, 0x7728ffff); (0x77290000, 0x7729ffff);
  (0x772a0000, 0x772a1fff); (0x772a8000, 0x772a8fff); (0x772ae000, 0x772affff);
  (0x772c0000, 0x772dffff); (0x77300000, 0x7737ffff); (0x77390000, 0x7739ffff);
  (0x773a0000, 0x773affff); (0x773b8000, 0x773bffff); (0x773c0000, 0x773dffff);
  (0x773e0000, 0x773effff); (0x773f2000, 0x773f3fff); (0x774bd000, 0x774bdfff);
  (0x774e0000, 0x774fffff); (0x77500000, 0x7750ffff); (0x7752d000, 0x7752dfff);
  (0x77540000, 0x7757ffff); (0x77580000, 0x775bffff); (0x77600000, 0x7767ffff);
  (0x776c0000, 0x776dffff); (0x77700000, 0x777fffff); (0x77800000, 0x778fffff);
  (0x77900000, 0x7793ffff); (0x7794a000, 0x7794bfff); (0x7797c000, 0x7797ffff);
  (0x77a0c800, 0x77a0cfff); (0x77a17800, 0x77a17fff); (0x77a18000, 0x77a1ffff);
  (0x77a20000, 0x77a3ffff); (0x77a40000, 0x77a7ffff); (0x77b00000, 0x77bfffff);
  (0x77e80000, 0x77e9ffff); (0x77eb8000, 0x77ebbfff); (0x77f80000, 0x77fbffff);
  (0x77fc6000, 0x77fc67ff); (0x77fcf000, 0x77fcffff); (0x77fd0000, 0x77fdffff);
  (0x77fe0000, 0x77ffffff); (0x78000000, 0x780fffff); (0x78180000, 0x781bffff);
  (0x781e0000, 0x781fffff); (0x78200000, 0x782fffff); (0x78300000, 0x7831ffff);
  (0x78340000, 0x7837ffff); (0x78400000, 0x7847ffff); (0x78482000, 0x78483fff);
  (0x78488000, 0x7848ffff); (0x784c0000, 0x784fffff); (0x78500000, 0x7857ffff);
  (0x78580800, 0x78580fff); (0x785a0000, 0x785bffff); (0x785c0000, 0x785cffff);
  (0x785e0000, 0x785fffff); (0x78800000, 0x7887ffff); (0x78881000, 0x788817ff);
  (0x78888000, 0x7888bfff); (0x78890000, 0x78897fff); (0x788f8000, 0x788f9fff);
  (0x78c00000, 0x78ffffff); (0x79000800, 0x79000fff); (0x79001000, 0x79001fff);
  (0x79040000, 0x7905ffff); (0x79080000, 0x790fffff); (0x79100000, 0x791fffff);
  (0x79200000, 0x7927ffff); (0x79280000, 0x792bffff); (0x792e0000, 0x792e3fff);
  (0x792e4c00, 0x792e4fff); (0x792e8000, 0x792effff); (0x792f0000, 0x792fffff);
  (0x79300000, 0x7931ffff); (0x79320800, 0x79320fff); (0x79330000, 0x7933ffff);
  (0x7934a000, 0x7934bfff); (0x7934d000, 0x7934dfff); (0x7934e000, 0x7934ffff);
  (0x7936b000, 0x7936b7ff); (0x7936bc00, 0x7936bfff); (0x79370000, 0x79373fff);
  (0x79380000, 0x7939ffff); (0x793a0000, 0x793a7fff); (0x793a8800, 0x793a8fff);
  (0x793a9000, 0x793a9fff); (0x793aa000, 0x793aa7ff); (0x793b0000, 0x793bffff);
  (0x793c0000, 0x793fffff); (0x79440000, 0x7947ffff); (0x794c0000, 0x794dffff);
  (0x794f8000, 0x794fbfff); (0x79590000, 0x7959ffff); (0x795b6800, 0x795b6fff);
  (0x79648000, 0x7964ffff); (0x79650000, 0x79653fff); (0x7965d000, 0x7965dfff);
  (0x79c00000, 0x79c7ffff); (0x79c8c000, 0x79c8c7ff); (0x79c90000, 0x79c9ffff);
  (0x79cc0000, 0x79cfffff); (0x79e00000, 0x79efffff); (0x79f80000, 0x79fbffff);
  (0x79ff0000, 0x79ffffff); (0x7a004000, 0x7a007fff); (0x7a008000, 0x7a00ffff);
  (0x7a040000, 0x7a07ffff); (0x7a080000, 0x7a087fff); (0x7a08c000, 0x7a08ffff);
  (0x7a090000, 0x7a09ffff); (0x7a0a8000, 0x7a0a83ff); (0x7a0a8400, 0x7a0a85ff);
  (0x7a0a8800, 0x7a0a89ff); (0x7a0aa400, 0x7a0aa7ff); (0x7a0aa800, 0x7a0aafff);
  (0x7a0ab000, 0x7a0abfff); (0x7a0ac000, 0x7a0ac3ff); (0x7a0ac800, 0x7a0acfff);
  (0x7a0ad000, 0x7a0ad7ff); (0x7a0ad800, 0x7a0adbff); (0x7a0ae400, 0x7a0ae7ff);
  (0x7a0ae800, 0x7a0aefff); (0x7a0af000, 0x7a0af3ff); (0x7a0b0000, 0x7a0b7fff);
  (0x7a0c0000, 0x7a0dffff); (0x7a0e0000, 0x7a0effff); (0x7a300000, 0x7a30ffff);
  (0x7a310000, 0x7a313fff); (0x7a330000, 0x7a33ffff); (0x7a400000, 0x7a5fffff);
  (0x7a600000, 0x7a61ffff); (0x7a660000, 0x7a660fff); (0x7a664000, 0x7a665fff);
  (0x7a700000, 0x7a73ffff); (0x7a770000, 0x7a77ffff); (0x7a806400, 0x7a8067ff);
  (0x7a807800, 0x7a807fff); (0x7a880000, 0x7a8fffff); (0x7a908000, 0x7a90ffff);
  (0x7a98c000, 0x7a98ffff); (0x7a9c0000, 0x7a9fffff); (0x7abc0000, 0x7abfffff);
  (0x7ac00000, 0x7ac3ffff); (0x7ac60000, 0x7ac6ffff); (0x7ac82800, 0x7ac82fff);
  (0x7ac84000, 0x7ac87fff); (0x7ac93000, 0x7ac93fff); (0x7acc0000, 0x7acfffff);
  (0x7ae00000, 0x7aefffff); (0x7af00000, 0x7af7ffff); (0x7af81800, 0x7af81fff);
  (0x7af83000, 0x7af83fff); (0x7aff4000, 0x7aff47ff); (0x7b008000, 0x7b00bfff);
  (0x7b040000, 0x7b07ffff); (0x7b080000, 0x7b0fffff); (0x7b318000, 0x7b31ffff);
  (0x7b32a000, 0x7b32bfff); (0x7b340000, 0x7b37ffff); (0x7b380000, 0x7b39ffff);
  (0x7b3a0000, 0x7b3a7fff); (0x7b3a8000, 0x7b3abfff); (0x7b3ae000, 0x7b3affff);
  (0x7b3b0000, 0x7b3bffff); (0x7b3c0000, 0x7b3dffff); (0x7b3e0000, 0x7b3effff);
  (0x7b400000, 0x7b5fffff); (0x7b600000, 0x7b61ffff); (0x7b620000, 0x7b627fff);
  (0x7b638000, 0x7b63ffff); (0x7b640000, 0x7b641fff); (0x7b650000, 0x7b65ffff);
  (0x7b670000, 0x7b677fff); (0x7b6c5800, 0x7b6c59ff); (0x7b6c8000, 0x7b6c8fff);
  (0x7b6cd000, 0x7b6cdfff); (0x7b700000, 0x7b7fffff); (0x7b800000, 0x7b87ffff);
  (0x7b885000, 0x7b885fff); (0x7b890000, 0x7b89ffff); (0x7b8a0000, 0x7b8bffff);
  (0x7b900000, 0x7b9fffff); (0x7ba00000, 0x7bafffff); (0x7bb03c00, 0x7bb03fff);
  (0x7bb05000, 0x7bb05fff); (0x7bb10000, 0x7bb1ffff); (0x7bb20000, 0x7bb3ffff);
  (0x7bb40000, 0x7bb7ffff); (0x7bb80000, 0x7bbfffff); (0x7bc40000, 0x7bc5ffff);
  (0x7bc78000, 0x7bc7ffff); (0x7bce0000, 0x7bcfffff); (0x7be80000, 0x7bebffff);
  (0x7bf20000, 0x7bf27fff); (0x7bf2c000, 0x7bf2c7ff); (0x7bf40000, 0x7bf7ffff);
  (0x7bf90000, 0x7bf9ffff); (0x7bfd3400, 0x7bfd35ff); (0x7bfe6000, 0x7bfe67ff);
  (0x7c064000, 0x7c067fff); (0x7c0e0000, 0x7c0fffff); (0x7c100000, 0x7c11ffff);
  (0x7c140000, 0x7c17ffff); (0x7c1cc000, 0x7c1cffff); (0x7c1d0000, 0x7c1d7fff);
  (0x7c1f0000, 0x7c1fffff); (0x7c287000, 0x7c287fff); (0x7c288000, 0x7c28bfff);
  (0x7c28c000, 0x7c28dfff); (0x7c28f000, 0x7c28f3ff); (0x7c2a0000, 0x7c2affff);
  (0x7c2f0000, 0x7c2f3fff); (0x7c400000, 0x7c41ffff); (0x7c420000, 0x7c427fff);
  (0x7c430000, 0x7c43ffff); (0x7c440000, 0x7c47ffff); (0x7c480000, 0x7c4fffff);
  (0x7c580000, 0x7c5fffff); (0x7c6c0800, 0x7c6c0fff); (0x7c6c2800, 0x7c6c2fff);
  (0x7c6d6000, 0x7c6d67ff); (0x7c700000, 0x7c77ffff); (0x7c7e0000, 0x7c7fffff);
  (0x7c800000, 0x7c87ffff); (0x7c938000, 0x7c93ffff); (0x7c968900, 0x7c9689ff);
  (0x7c970000, 0x7c97ffff); (0x7c980000, 0x7c98ffff); (0x7ca00000, 0x7ca7ffff);
  (0x7cac0000, 0x7cafffff); (0x7cc00000, 0x7cc1ffff); (0x7cc40000, 0x7cc4ffff);
  (0x7cc53800, 0x7cc53fff); (0x7cc80000, 0x7ccfffff); (0x7cdc0000, 0x7cdfffff);
  (0x7ce00000, 0x7cefffff); (0x7cf00000, 0x7cf07fff); (0x7cf08000, 0x7cf0bfff);
  (0x7cf20000, 0x7cf2ffff); (0x7cf3c000, 0x7cf3ffff); (0x7cf80000, 0x7cf87fff);
  (0x7cf90000, 0x7cf9ffff); (0x7cfa0000, 0x7cfbffff); (0x7cfe0000, 0x7cfe3fff);
  (0x7d1fc000, 0x7d1fffff); (0x7d200000, 0x7d2fffff); (0x7d3a8000, 0x7d3affff);
  (0x7d3d8000, 0x7d3dffff); (0x7d3e0000, 0x7d3e3fff); (0x7d400000, 0x7d5fffff);
  (0x7d600000, 0x7d61ffff); (0x7d620000, 0x7d62ffff); (0x7d680000, 0x7d6fffff);
  (0x7d700000, 0x7d7fffff); (0x7da90000, 0x7da9ffff); (0x7dab0000, 0x7dabffff);
  (0x7dd00000, 0x7dd03fff); (0x7dd20000, 0x7dd3ffff); (0x7dd50000, 0x7dd57fff);
  (0x7dd66000, 0x7dd67fff); (0x7dd70000, 0x7dd73fff); (0x7dd80000, 0x7ddfffff);
  (0x7dfe8000, 0x7dfeffff); (0x806b1800, 0x806b19ff); (0x806c0000, 0x806cffff);
  (0x811c0000, 0x811cffff); (0x81cc0000, 0x81ccffff); (0x81d30000, 0x81d3ffff);
  (0x82249200, 0x822493ff); (0x83e46000, 0x83e461ff); (0x84e80000, 0x84e8ffff);
  (0x84ed8600, 0x84ed86ff); (0x85e22000, 0x85e22fff); (0x86af0000, 0x86afffff);
  (0x88002200, 0x880022ff); (0x893b3b00, 0x893b3bff); (0x893b5800, 0x893b5bff);
  (0x8afc4800, 0x8afc49ff); (0x8afc4e00, 0x8afc4fff); (0x8afc6000, 0x8afc61ff);
  (0x8afc7600, 0x8afc77ff); (0x8afca200, 0x8afca3ff); (0x8b053800, 0x8b053fff);
  (0x8b055000, 0x8b0553ff); (0x8b055c00, 0x8b055fff); (0x8b056c00, 0x8b056fff);
  (0x8b058000, 0x8b0583ff); (0x8b05a000, 0x8b05a3ff); (0x8b05c000, 0x8b05c3ff);
  (0x8b05cc00, 0x8b05cfff); (0x8b05d400, 0x8b05d7ff); (0x8b05f400, 0x8b05f7ff);
  (0x8b090000, 0x8b09ffff); (0x8b810000, 0x8b81ffff); (0x8b940000, 0x8b94ffff);
  (0x8b9b0000, 0x8b9bffff); (0x8b9f0000, 0x8b9fffff); (0x8baa0000, 0x8baaffff);
  (0x8bb00000, 0x8bb0ffff); (0x8bb70000, 0x8bb7ffff); (0x8bba0000, 0x8bbaffff);
  (0x8bbd0000, 0x8bbdffff); (0x8bc40000, 0x8bc7ffff); (0x8bc80000, 0x8bcfffff);
  (0x8bd00000, 0x8bd7ffff); (0x8bd90000, 0x8bd9ffff); (0x8bdb0000, 0x8bdbffff);
  (0x8bdc0000, 0x8bddffff); (0x8be00000, 0x8be0ffff); (0x8be20000, 0x8be3ffff);
  (0x8c4b0000, 0x8c4bffff); (0x8c8f0000, 0x8c8fffff); (0x8cb30000, 0x8cb3ffff);
  (0x8ccd0000, 0x8ccdffff); (0x8cce0000, 0x8ccfffff); (0x8cd20000, 0x8cd2ffff);
  (0x8ce00000, 0x8ce0ffff); (0x8ced0000, 0x8cedffff); (0x8cf00000, 0x8cf0ffff);
  (0x8cf30000, 0x8cf3ffff); (0x8cf60000, 0x8cf6ffff); (0x8cf90000, 0x8cf9ffff);
  (0x8cfa0000, 0x8cfaffff); (0x8cff0000, 0x8cffffff); (0x8e560000, 0x8e56ffff);
  (0x8f400000, 0x8f40ffff); (0x90000000, 0x9000ffff); (0x90070000, 0x9007ffff);
  (0x900c0000, 0x900cffff); (0x90304000, 0x903043ff); (0x90305800, 0x90305bff);
  (0x90309c00, 0x90309fff); (0x9030b400, 0x9030b7ff); (0x9030b800, 0x9030bbff);
  (0x9030cc00, 0x9030cfff); (0x9030d000, 0x9030d7ff); (0x9030dc00, 0x9030dfff);
  (0x9030fc00, 0x9030ffff); (0x90340000, 0x9034ffff); (0x904f0400, 0x904f05ff);
  (0x904f0a00, 0x904f0bff); (0x904f1c00, 0x904f1dff); (0x904f2a00, 0x904f2bff);
  (0x904f3600, 0x904f37ff); (0x904f4600, 0x904f47ff); (0x904f5400, 0x904f55ff);
  (0x904f7600, 0x904f77ff); (0x904f9400, 0x904f95ff); (0x907b0000, 0x907bffff);
  (0x90e16d00, 0x90e16dff); (0x90e19700, 0x90e197ff); (0x90ff0000, 0x90ffffff);
  (0x9238c000, 0x9238ffff); (0x92c43800, 0x92c43bff); (0x92c44400, 0x92c447ff);
  (0x92c44800, 0x92c44bff); (0x92c45c00, 0x92c45fff); (0x92c47000, 0x92c477ff);
  (0x92c47c00, 0x92c47fff); (0x92de4f00, 0x92de4fff); (0x92de5100, 0x92de51ff);
  (0x92de5e00, 0x92de5eff); (0x94460000, 0x9446ffff); (0x95290000, 0x9529ffff);
  (0x96000000, 0x9600ffff); (0x96730000, 0x9673ffff); (0x96790000, 0x9679ffff);
  (0x967a0000, 0x967affff); (0x96818800, 0x96818bff); (0x9681c000, 0x9681c3ff);
  (0x9681fc00, 0x9681ffff); (0x968a0000, 0x968bffff); (0x969e0000, 0x969effff);
  (0x96df0000, 0x96dfffff); (0x96f20000, 0x96f207ff); (0x96f20800, 0x96f20bff);
  (0x96f21c00, 0x96f21fff); (0x96f22c00, 0x96f22fff); (0x96f23000, 0x96f237ff);
  (0x96f23800, 0x96f23bff); (0x96f24c00, 0x96f24fff); (0x96f25000, 0x96f253ff);
  (0x96f25c00, 0x96f25fff); (0x96f26000, 0x96f263ff); (0x96f27000, 0x96f277ff);
  (0x96f27800, 0x96f27bff); (0x96f29800, 0x96f29fff); (0x96f2a000, 0x96f2a7ff);
  (0x96f2a800, 0x96f2abff); (0x96f2b800, 0x96f2bfff); (0x96f2c000, 0x96f2c3ff);
  (0x96f2d400, 0x96f2d7ff); (0x96f2e000, 0x96f2e3ff); (0x96f2e800, 0x96f2efff);
  (0x96f2f000, 0x96f2f7ff); (0x96f2f800, 0x96f2fbff); (0x96f80000, 0x96f8ffff);
  (0x96ff0000, 0x96ffffff); (0x979e0e00, 0x979e0fff); (0x979e4800, 0x979e49ff);
  (0x979e4e00, 0x979e4fff); (0x979e5000, 0x979e51ff); (0x979e7a00, 0x979e7bff);
  (0x97f3bd00, 0x97f3bdff); (0x98688000, 0x9868ffff); (0x98880000, 0x9888ffff);
  (0x99000000, 0x9900ffff); (0x99030000, 0x9903ffff); (0x99220000, 0x9923ffff);
  (0x99240000, 0x9925ffff); (0x99630000, 0x9963ffff); (0x99650000, 0x9965ffff);
  (0x99760000, 0x9977ffff); (0x9a083000, 0x9a083fff); (0x9a088000, 0x9a08ffff);
  (0x9a592000, 0x9a592fff); (0x9ac58000, 0x9ac5ffff); (0x9b7eb000, 0x9b7eb1ff);
  (0x9c6ba000, 0x9c6ba1ff); (0x9c6baa00, 0x9c6baaff); (0x9c6bb300, 0x9c6bb3ff);
  (0x9c6bb500, 0x9c6bb5ff); (0x9ce08000, 0x9ce0ffff); (0x9ce3ef00, 0x9ce3efff);
  (0x9ce80900, 0x9ce809ff); (0x9ce80b00, 0x9ce80bff); (0x9d000000, 0x9d00ffff);
  (0x9d0a2200, 0x9d0a23ff); (0x9d0a2400, 0x9d0a25ff); (0x9d0a7000, 0x9d0a71ff);
  (0x9d0a7600, 0x9d0a77ff); (0x9d0a8200, 0x9d0a83ff); (0x9d0ada00, 0x9d0adbff);
  (0x9d0adc00, 0x9d0addff); (0x9d0af600, 0x9d0af7ff); (0x9d0f4a00, 0x9d0f4bff);
  (0x9d0f5e00, 0x9d0f5fff); (0x9d0f6400, 0x9d0f67ff); (0x9d0f6800, 0x9d0f69ff);
  (0x9d0fc800, 0x9d0fc9ff); (0x9d120000, 0x9d12ffff); (0x9d148800, 0x9d1489ff);
  (0x9d14c200, 0x9d14c3ff); (0x9d14f600, 0x9d14f7ff); (0x9d3d0000, 0x9d3dffff);
  (0x9d422a00, 0x9d422bff); (0x9d424600, 0x9d4247ff); (0x9d425800, 0x9d425fff);
  (0x9d42a400, 0x9d42a5ff); (0x9d42f400, 0x9d42f5ff); (0x9d770800, 0x9d770fff);
  (0x9d771000, 0x9d7713ff); (0x9d771c00, 0x9d771fff); (0x9d778400, 0x9d7787ff);
  (0x9d778800, 0x9d778fff); (0x9d779000, 0x9d779fff); (0x9d77a000, 0x9d77a7ff);
  (0x9d77ac00, 0x9d77afff); (0x9d77c000, 0x9d77c7ff); (0x9d77f000, 0x9d77f3ff);
  (0x9d77fc00, 0x9d77ffff); (0x9d7a0000, 0x9d7affff); (0x9d940000, 0x9d94ffff);
  (0x9d9c0000, 0x9d9cffff); (0x9dff0000, 0x9dffffff); (0x9e1ac000, 0x9e1ac0ff);
  (0x9e1ac200, 0x9e1ac2ff); (0x9e3c0000, 0x9e3cffff); (0x9e4f0000, 0x9e4fffff);
  (0x9e8cfc00, 0x9e8cffff); (0x9f1b0000, 0x9f1bffff); (0x9f4b0000, 0x9f4bffff);
  (0x9fe20000, 0x9fe2ffff); (0xa0134c00, 0xa0134dff); (0xa0135200, 0xa01353ff);
  (0xa013d000, 0xa013d7ff); (0xa013d800, 0xa013dbff); (0xa0141000, 0xa01413ff);
  (0xa0143000, 0xa01433ff); (0xa0148200, 0xa01483ff); (0xa0163a00, 0xa0163bff);
  (0xa0165200, 0xa01653ff); (0xa0169400, 0xa01695ff); (0xa016bc00, 0xa016bdff);
  (0xa016e000, 0xa016e1ff); (0xa016e600, 0xa016e7ff); (0xa016f400, 0xa016f7ff);
  (0xa0190a00, 0xa0190bff); (0xa0190c00, 0xa0190dff); (0xa0191400, 0xa01915ff);
  (0xa019c200, 0xa019c3ff); (0xa01e2800, 0xa01e29ff); (0xa01e9400, 0xa01e97ff);
  (0xa01ec200, 0xa01ec3ff); (0xa01ec400, 0xa01ec7ff); (0xa01ee600, 0xa01ee7ff);
  (0xa0536e00, 0xa0536eff); (0xa0bb8000, 0xa0bb81ff); (0xa0bbdf00, 0xa0bbdfff);
  (0xa0bbfc00, 0xa0bbffff); (0xa0bf0000, 0xa0bf01ff); (0xa0bf6800, 0xa0bf69ff);
  (0xa0bf6e00, 0xa0bf6fff); (0xa0bfc300, 0xa0bfc3ff); (0xa0ca3c00, 0xa0ca3fff);
  (0xa0ca9400, 0xa0ca97ff); (0xa0ca9800, 0xa0ca9bff); (0xa0caa800, 0xa0caabff);
  (0xa0cad400, 0xa0cad7ff); (0xa0cad800, 0xa0cadfff); (0xa0cae000, 0xa0caffff);
  (0xa0ec4e00, 0xa0ec4fff); (0xa0ec9400, 0xa0ec95ff); (0xa0eca200, 0xa0eca3ff);
  (0xa0ecea00, 0xa0ecebff); (0xa0ecfa00, 0xa0ecfbff); (0xa0fa0e00, 0xa0fa0fff);
  (0xa0fa1000, 0xa0fa13ff); (0xa0fa1800, 0xa0fa19ff); (0xa0fa5400, 0xa0fa55ff);
  (0xa0fa5a00, 0xa0fa5bff); (0xa0fa6600, 0xa0fa67ff); (0xa0fa6800, 0xa0fa69ff);
  (0xa0faa000, 0xa0faa1ff); (0xa0faaa00, 0xa0faabff); (0xa0fad600, 0xa0fad7ff);
  (0xa0fafc00, 0xa0fafdff); (0xa1780000, 0xa178ffff); (0xa1a30000, 0xa1a307ff);
  (0xa1a31c00, 0xa1a31dff); (0xa1bd0000, 0xa1bdffff); (0xa1cf0000, 0xa1cfffff);
  (0xa1f81400, 0xa1f815ff); (0xa1f82a00, 0xa1f82bff); (0xa1f85400, 0xa1f855ff);
  (0xa1f85c00, 0xa1f85dff); (0xa1f86c00, 0xa1f86fff); (0xa1f87000, 0xa1f871ff);
  (0xa1f88800, 0xa1f889ff); (0xa2043600, 0xa20437ff); (0xa2048800, 0xa20489ff);
  (0xa204a800, 0xa204a9ff); (0xa204c600, 0xa204c7ff); (0xa204ca00, 0xa204cbff);
  (0xa204e600, 0xa204e7ff); (0xa20e0000, 0xa20effff); (0xa2690000, 0xa269ffff);
  (0xa3000000, 0xa300ffff); (0xa32f0400, 0xa32f07ff); (0xa3341c00, 0xa3341dff);
  (0xa3350000, 0xa3350fff); (0xa3352400, 0xa33527ff); (0xa3352800, 0xa3352fff);
  (0xa3353000, 0xa3353fff); (0xa3354000, 0xa33543ff); (0xa3355800, 0xa3355fff);
  (0xa3356000, 0xa3357fff); (0xa3358000, 0xa33587ff); (0xa3358800, 0xa3358bff);
  (0xa335a000, 0xa335afff); (0xa335bc00, 0xa335bfff); (0xa335f000, 0xa335f3ff);
  (0xa33d3e00, 0xa33d3fff); (0xa33d7100, 0xa33d71ff); (0xa33db200, 0xa33db3ff);
  (0xa33dca00, 0xa33dcbff); (0xa33dd600, 0xa33dd7ff); (0xa37d0000, 0xa37dffff);
  (0xa3801e00, 0xa3801fff); (0xa3809800, 0xa38099ff); (0xa380ec00, 0xa380edff);
  (0xa380fe00, 0xa380ffff); (0xa38e0000, 0xa38effff); (0xa3b10000, 0xa3b1ffff);
  (0xa3b30000, 0xa3b3ffff); (0xa3cc0000, 0xa3ccffff); (0xa3df1c00, 0xa3df1dff);
  (0xa3df2000, 0xa3df21ff); (0xa3df4800, 0xa3df49ff); (0xa3df7c00, 0xa3df7dff);
  (0xa3dfad00, 0xa3dfadff); (0xa3dfb200, 0xa3dfb3ff); (0xa3dfd800, 0xa3dfd9ff);
  (0xa3dfde00, 0xa3dfdfff); (0xa3e32200, 0xa3e323ff); (0xa3e32800, 0xa3e329ff);
  (0xa3e34a00, 0xa3e34bff); (0xa3e34c00, 0xa3e34fff); (0xa3e35000, 0xa3e351ff);
  (0xa3e40000, 0xa3e4ffff); (0xa3f4f600, 0xa3f4f6ff); (0xa4340000, 0xa4347fff);
  (0xa5630400, 0xa56304ff); (0xa5632a00, 0xa5632bff); (0xa5650400, 0xa56505ff);
  (0xa5654200, 0xa56543ff); (0xa5654600, 0xa56547ff); (0xa5657a00, 0xa5657bff);
  (0xa5659000, 0xa56591ff); (0xa565aa00, 0xa565abff); (0xa565d000, 0xa565d1ff);
  (0xa565f400, 0xa565f5ff); (0xa6006100, 0xa60061ff); (0xa6006400, 0xa60065ff);
  (0xa6018b00, 0xa6018bff); (0xa601da00, 0xa601daff); (0xa601f600, 0xa601f7ff);
  (0xa66f0000, 0xa66fffff); (0xa78b0000, 0xa78bffff); (0xa7bd0000, 0xa7bdffff);
  (0xa7dcf400, 0xa7dcf7ff); (0xa8a00000, 0xa8a0ffff); (0xaab30000, 0xaab3ffff);
  (0xab080000, 0xab0fffff); (0xab220000, 0xab23ffff); (0xab240000, 0xab27ffff);
  (0xab280000, 0xab2fffff); (0xab500000, 0xab5fffff); (0xab680000, 0xab6fffff);
  (0xab700000, 0xab7fffff); (0xabd00000, 0xabdfffff); (0xac51c000, 0xac51ffff);
  (0xad27c800, 0xad27c9ff); (0xaf000000, 0xaf0fffff); (0xaf100000, 0xaf17ffff);
  (0xaf180000, 0xaf1bffff); (0xaf1e0000, 0xaf1fffff); (0xaf2a0000, 0xaf2bffff);
  (0xaf2c0000, 0xaf2cffff); (0xaf2e0000, 0xaf2fffff); (0xaf300000, 0xaf3fffff);
  (0xaf400000, 0xaf5fffff); (0xaf660000, 0xaf66ffff); (0xaf6a8000, 0xaf6affff);
  (0xaf6f9000, 0xaf6f9fff); (0xaf6fa000, 0xaf6fafff); (0xaf6fb800, 0xaf6fbbff);
  (0xaf920000, 0xaf93ffff); (0xaf940000, 0xaf97ffff); (0xaf980000, 0xaf9bffff);
  (0xaf9e6000, 0xaf9e63ff); (0xaf9e7000, 0xaf9e7fff); (0xafa00000, 0xafafffff);
  (0xafb09c00, 0xafb09fff); (0xafb0b000, 0xafb0b3ff); (0xafb0bc00, 0xafb0bfff);
  (0xafb20000, 0xafb2ffff); (0xafb88000, 0xafb8bfff); (0xafb90000, 0xafb9ffff);
  (0xafba0000, 0xafbbffff); (0xafbc0000, 0xafbfffff); (0xb2fdfc00, 0xb2fdfcff);
  (0xb44c0000, 0xb44fffff); (0xb4540000, 0xb455ffff); (0xb4560000, 0xb456ffff);
  (0xb4580000, 0xb45bffff); (0xb45cb000, 0xb45cb0ff); (0xb45e3800, 0xb45e3fff);
  (0xb45e6000, 0xb45e6fff); (0xb45e7800, 0xb45e7fff); (0xb45f8000, 0xb45fffff);
  (0xb4600000, 0xb47fffff); (0xb4818000, 0xb481ffff); (0xb4820000, 0xb482ffff);
  (0xb4880000, 0xb48fffff); (0xb4941000, 0xb49417ff); (0xb4949800, 0xb4949fff);
  (0xb494d800, 0xb494dfff); (0xb494e000, 0xb494ffff); (0xb4958000, 0xb4959fff);
  (0xb496a000, 0xb496bfff); (0xb4980000, 0xb49fffff); (0xb4a00000, 0xb4afffff);
  (0xb4b27000, 0xb4b277ff); (0xb4b2c000, 0xb4b2ffff); (0xb4b80000, 0xb4bbffff);
  (0xb4bc0000, 0xb4bc7fff); (0xb4bd9400, 0xb4bd97ff); (0xb4c8fc00, 0xb4c8ffff);
  (0xb4c90000, 0xb4c9ffff); (0xb4ca0000, 0xb4cbffff); (0xb4d00000, 0xb4d1ffff);
  (0xb4d2d400, 0xb4d2d7ff); (0xb4d2e000, 0xb4d2ffff); (0xb4d40000, 0xb4d5ffff);
  (0xb4dee000, 0xb4deffff); (0xb4df0000, 0xb4dfffff); (0xb4e90000, 0xb4e93fff);
  (0xb4e94000, 0xb4e95fff); (0xb4e99000, 0xb4e993ff); (0xb4eb4000, 0xb4eb5fff);
  (0xb4eb7000, 0xb4eb73ff); (0xb6109000, 0xb61097ff); (0xb610c000, 0xb610dfff);
  (0xb6120000, 0xb6127fff); (0xb617b800, 0xb617bfff); (0xb617c800, 0xb617cfff);
  (0xb6200000, 0xb62fffff); (0xb6306000, 0xb6307fff); (0xb6310000, 0xb631ffff);
  (0xb6320000, 0xb6320fff); (0xb6327000, 0xb6327fff); (0xb6330000, 0xb633ffff);
  (0xb6360000, 0xb6367fff); (0xb636f400, 0xb636f7ff); (0xb63d0000, 0xb63dffff);
  (0xb6500000, 0xb657ffff); (0xb6580000, 0xb65bffff); (0xb65c0000, 0xb65cffff);
  (0xb6600000, 0xb67fffff); (0xb6800000, 0xb68fffff); (0xb6900000, 0xb697ffff);
  (0xb69d0000, 0xb69dffff); (0xb6a04000, 0xb6a05fff); (0xb6ae0000, 0xb6afffff);
  (0xb6c80000, 0xb6cfffff); (0xb6ec8000, 0xb6ecffff); (0xb6ed1800, 0xb6ed1fff);
  (0xb6ee0000, 0xb6eeffff); (0xb6ef0000, 0xb6ef1fff); (0xb6f00000, 0xb6f7ffff);
  (0xb6fe0000, 0xb6feffff); (0xb6ff3c00, 0xb6ff3fff); (0xb7000000, 0xb73fffff);
  (0xb7400000, 0xb747ffff); (0xb74ea000, 0xb74ea7ff); (0xb74eb400, 0xb74eb7ff);
  (0xb751ac00, 0xb751afff); (0xb751b400, 0xb751b7ff); (0xb7540000, 0xb755ffff);
  (0xb75b2500, 0xb75b25ff); (0xb75b2700, 0xb75b27ff); (0xb75b2800, 0xb75b2fff);
  (0xb75b8000, 0xb75b83ff); (0xb75b8800, 0xb75b8fff); (0xb75b9000, 0xb75b9fff);
  (0xb75c0000, 0xb75fffff); (0xb7800000, 0xb79fffff); (0xb7a00000, 0xb7a7ffff);
  (0xb7a80000, 0xb7a9ffff); (0xb7aa0000, 0xb7aaffff); (0xb7ac0000, 0xb7afffff);
  (0xb7b60000, 0xb7b61fff); (0xb7b80000, 0xb7bfffff); (0xb7c00000, 0xb7ffffff);
  (0xb950c800, 0xb950cbff); (0xb9b75400, 0xb9b754ff); (0xb9c29400, 0xb9c294ff);
  (0xb9c9e200, 0xb9c9e3ff); (0xbc838000, 0xbc83ffff); (0xc006a100, 0xc006a1ff);
  (0xc006f300, 0xc006f3ff); (0xc033ac00, 0xc033adff); (0xc033bc00, 0xc033bcff);
  (0xc0372e00, 0xc0372fff); (0xc0374400, 0xc03747ff); (0xc066cc00, 0xc066cfff);
  (0xc07c9a00, 0xc07c9aff); (0xc08c8000, 0xc08c87ff); (0xc08c8800, 0xc08c8bff);
  (0xc08c9c00, 0xc08c9fff); (0xc08ca000, 0xc08cbfff); (0xc08cc000, 0xc08ccfff);
  (0xc08cd000, 0xc08cd7ff); (0xc0908000, 0xc090ffff); (0xc0a30b00, 0xc0a30bff);
  (0xc0c57100, 0xc0c571ff); (0xc0e82200, 0xc0e823ff); (0xc0e82c00, 0xc0e82fff);
  (0xc0e86100, 0xc0e861ff); (0xc1092c00, 0xc1092cff); (0xc1092e00, 0xc1092eff);
  (0xc1700000, 0xc170ffff); (0xc1770000, 0xc1771fff); (0xc28aca00, 0xc28acbff);
  (0xc28af500, 0xc28af5ff); (0xc6af6400, 0xc6af67ff); (0xc6d01100, 0xc6d011ff);
  (0xc6d01300, 0xc6d013ff); (0xc6d01e00, 0xc6d01eff); (0xc6d03d00, 0xc6d03dff);
  (0xc6d03f00, 0xc6d03fff); (0xc6d04300, 0xc6d043ff); (0xc6d07000, 0xc6d071ff);
  (0xc7d43900, 0xc7d439ff); (0xc7f49000, 0xc7f490ff); (0xca006400, 0xca0065ff);
  (0xca007a00, 0xca007bff); (0xca00b000, 0xca00b3ff); (0xca015600, 0xca0157ff);
  (0xca015a00, 0xca015bff); (0xca016e00, 0xca016fff); (0xca017000, 0xca0171ff);
  (0xca038000, 0xca0381ff); (0xca048000, 0xca049fff); (0xca04fc00, 0xca04ffff);
  (0xca05d000, 0xca05d7ff); (0xca05d800, 0xca05dbff); (0xca060600, 0xca0607ff);
  (0xca064200, 0xca0643ff); (0xca064800, 0xca0649ff); (0xca065700, 0xca0657ff);
  (0xca065800, 0xca0659ff); (0xca065c00, 0xca065dff); (0xca066700, 0xca0667ff);
  (0xca066c00, 0xca066cff); (0xca066e00, 0xca066fff); (0xca067200, 0xca0672ff);
  (0xca06b000, 0xca06bfff); (0xca06ca00, 0xca06cbff); (0xca080000, 0xca0800ff);
  (0xca080200, 0xca0803ff); (0xca080400, 0xca0805ff); (0xca080c00, 0xca080cff);
  (0xca081800, 0xca0818ff); (0xca084d00, 0xca084dff); (0xca088000, 0xca089fff);
  (0xca08c000, 0xca08cfff); (0xca092000, 0xca0920ff); (0xca092200, 0xca0923ff);
  (0xca093000, 0xca0931ff); (0xca093300, 0xca0933ff); (0xca093400, 0xca0935ff);
  (0xca093600, 0xca0936ff); (0xca093900, 0xca0939ff); (0xca093a00, 0xca093bff);
  (0xca0a4000, 0xca0a4fff); (0xca0a7000, 0xca0a7fff); (0xca0c0100, 0xca0c01ff);
  (0xca0c0200, 0xca0c02ff); (0xca0c1100, 0xca0c11ff); (0xca0c1200, 0xca0c12ff);
  (0xca0c4800, 0xca0c48ff); (0xca0c5400, 0xca0c55ff); (0xca0c6000, 0xca0c60ff);
  (0xca0c6200, 0xca0c63ff); (0xca0c6a00, 0xca0c6aff); (0xca0c6f00, 0xca0c6fff);
  (0xca0c7400, 0xca0c74ff); (0xca0e4000, 0xca0e41ff); (0xca0e4500, 0xca0e45ff);
  (0xca0e4900, 0xca0e49ff); (0xca0e4a00, 0xca0e4bff); (0xca0e4c00, 0xca0e4cff);
  (0xca0e4e00, 0xca0e4fff); (0xca0e5800, 0xca0e58ff); (0xca0e6100, 0xca0e61ff);
  (0xca0e6800, 0xca0e69ff); (0xca0e6c00, 0xca0e6dff); (0xca0e6f00, 0xca0e6fff);
  (0xca0e7200, 0xca0e73ff); (0xca0e7600, 0xca0e77ff); (0xca0e7c00, 0xca0e7dff);
  (0xca0e7f00, 0xca0e7fff); (0xca0e8100, 0xca0e81ff); (0xca0e8700, 0xca0e87ff);
  (0xca0e8800, 0xca0e88ff); (0xca0e9500, 0xca0e95ff); (0xca0e9700, 0xca0e97ff);
  (0xca0e9d00, 0xca0e9dff); (0xca0e9e00, 0xca0e9fff); (0xca0ea900, 0xca0ea9ff);
  (0xca0eaa00, 0xca0eabff); (0xca0eac00, 0xca0eafff); (0xca0eb000, 0xca0eb0ff);
  (0xca0eb800, 0xca0eb9ff); (0xca0ed000, 0xca0ed1ff); (0xca0ed500, 0xca0ed5ff);
  (0xca0edb00, 0xca0edbff); (0xca0edc00, 0xca0edcff); (0xca0ede00, 0xca0edfff);
  (0xca0ee100, 0xca0ee1ff); (0xca0ee200, 0xca0ee3ff); (0xca0ee700, 0xca0ee7ff);
  (0xca0eeb00, 0xca0eebff); (0xca0eec00, 0xca0eefff); (0xca0ef600, 0xca0ef6ff);
  (0xca0efb00, 0xca0efbff); (0xca144200, 0xca1442ff); (0xca144f00, 0xca144fff);
  (0xca145700, 0xca1457ff); (0xca145800, 0xca1459ff); (0xca145a00, 0xca145aff);
  (0xca145e00, 0xca145fff); (0xca147200, 0xca1472ff); (0xca147500, 0xca1475ff);
  (0xca147800, 0xca1478ff); (0xca147d00, 0xca147dff); (0xca147e00, 0xca147fff);
  (0xca153000, 0xca153fff); (0xca158300, 0xca1583ff); (0xca158400, 0xca1584ff);
  (0xca158d00, 0xca158dff); (0xca158e00, 0xca158eff); (0xca159300, 0xca1593ff);
  (0xca159400, 0xca1594ff); (0xca159600, 0xca1597ff); (0xca159800, 0xca1599ff);
  (0xca159a00, 0xca159aff); (0xca159c00, 0xca159cff); (0xca16f800, 0xca16ffff);
  (0xca1b0c00, 0xca1b0cff); (0xca1b0e00, 0xca1b0eff); (0xca1b8800, 0xca1b89ff);
  (0xca1e7c00, 0xca1e7cff); (0xca24e200, 0xca24e2ff); (0xca260000, 0xca2603ff);
  (0xca260800, 0xca260fff); (0xca263000, 0xca263fff); (0xca264000, 0xca267fff);
  (0xca268000, 0xca2687ff); (0xca268800, 0xca2689ff); (0xca268c00, 0xca268fff);
  (0xca269200, 0xca2693ff); (0xca269500, 0xca2695ff); (0xca269600, 0xca2697ff);
  (0xca269800, 0xca269bff); (0xca269c00, 0xca269cff); (0xca269e00, 0xca269fff);
  (0xca26a400, 0xca26a7ff); (0xca26a800, 0xca26a9ff); (0xca26aa00, 0xca26aaff);
  (0xca26b000, 0xca26b1ff); (0xca26b800, 0xca26bfff); (0xca26c000, 0xca26ffff);
  (0xca280400, 0xca2805ff); (0xca280700, 0xca2807ff); (0xca280f00, 0xca280fff);
  (0xca288700, 0xca2887ff); (0xca288800, 0xca2888ff); (0xca288c00, 0xca288cff);
  (0xca288f00, 0xca288fff); (0xca289000, 0xca2891ff); (0xca289600, 0xca2896ff);
  (0xca289b00, 0xca289bff); (0xca289c00, 0xca289cff); (0xca289e00, 0xca289fff);
  (0xca28a200, 0xca28a2ff); (0xca290800, 0xca2909ff); (0xca290b00, 0xca290bff);
  (0xca290c00, 0xca290dff); (0xca298000, 0xca2980ff); (0xca298200, 0xca2983ff);
  (0xca299800, 0xca299fff); (0xca29c000, 0xca29c0ff); (0xca29c400, 0xca29c7ff);
  (0xca29c800, 0xca29cbff); (0xca29f000, 0xca29ffff); (0xca2b4c00, 0xca2b4fff);
  (0xca2b9000, 0xca2b9fff); (0xca2c1000, 0xca2c1fff); (0xca2c3000, 0xca2c33ff);
  (0xca2c4300, 0xca2c43ff); (0xca2c4a00, 0xca2c4aff); (0xca2c6100, 0xca2c61ff);
  (0xca2c8100, 0xca2c81ff); (0xca2c8400, 0xca2c85ff); (0xca2c9200, 0xca2c93ff);
  (0xca2d0000, 0xca2d01ff); (0xca2d0200, 0xca2d02ff); (0xca2d0f00, 0xca2d0fff);
  (0xca2d1000, 0xca2d1fff); (0xca2e1000, 0xca2e11ff); (0xca2e1200, 0xca2e12ff);
  (0xca2e1400, 0xca2e15ff); (0xca2e2000, 0xca2e3fff); (0xca2e8000, 0xca2e80ff);
  (0xca2ee000, 0xca2eefff); (0xca2f5200, 0xca2f53ff); (0xca2f6000, 0xca2f6fff);
  (0xca2f7e00, 0xca2f7eff); (0xca2f8000, 0xca2f80ff); (0xca2f8200, 0xca2f83ff);
  (0xca332000, 0xca332fff); (0xca342100, 0xca3421ff); (0xca342200, 0xca3422ff);
  (0xca342f00, 0xca342fff); (0xca348f00, 0xca348fff); (0xca358c00, 0xca358cff);
  (0xca358f00, 0xca358fff); (0xca39c000, 0xca39cfff); (0xca39d400, 0xca39d7ff);
  (0xca39d800, 0xca39dbff); (0xca39f000, 0xca39ffff); (0xca3a0000, 0xca3a00ff);
  (0xca3a6800, 0xca3a6bff); (0xca3a7000, 0xca3a73ff); (0xca3a7a00, 0xca3a7bff);
  (0xca3b0000, 0xca3b01ff); (0xca3bd400, 0xca3bd7ff); (0xca3bec00, 0xca3becff);
  (0xca3bf000, 0xca3bf0ff); (0xca3c3000, 0xca3c37ff); (0xca3c6000, 0xca3c67ff);
  (0xca3c7000, 0xca3c7fff); (0xca3c8400, 0xca3c87ff); (0xca3c8800, 0xca3c8fff);
  (0xca3c9000, 0xca3c9fff); (0xca3d4400, 0xca3d47ff); (0xca3d4c00, 0xca3d4fff);
  (0xca3d5800, 0xca3d5bff); (0xca3d7b00, 0xca3d7bff); (0xca3d7f00, 0xca3d7fff);
  (0xca3e7000, 0xca3e73ff); (0xca3ef800, 0xca3efbff); (0xca3efc00, 0xca3efcff);
  (0xca3eff00, 0xca3effff); (0xca3f5000, 0xca3f5fff); (0xca3fa000, 0xca3fbfff);
  (0xca3ff800, 0xca3ffbff); (0xca3ffd00, 0xca3ffdff); (0xca410000, 0xca4107ff);
  (0xca410800, 0xca4109ff); (0xca416000, 0xca416fff); (0xca42a800, 0xca42abff);
  (0xca430000, 0xca4303ff); (0xca450400, 0xca4507ff); (0xca451000, 0xca451fff);
  (0xca460000, 0xca461fff); (0xca466000, 0xca466fff); (0xca46c000, 0xca46cfff);
  (0xca472000, 0xca472fff); (0xca482800, 0xca482fff); (0xca485000, 0xca485fff);
  (0xca487000, 0xca487fff); (0xca498000, 0xca4983ff); (0xca49d000, 0xca49dfff);
  (0xca49f000, 0xca49ffff); (0xca4a0800, 0xca4a0fff); (0xca4a2400, 0xca4a24ff);
  (0xca4a2a00, 0xca4a2aff); (0xca4a3400, 0xca4a34ff); (0xca4a5000, 0xca4a5fff);
  (0xca4afe00, 0xca4affff); (0xca4bd000, 0xca4bdfff); (0xca4bf800, 0xca4bffff);
  (0xca4cfc00, 0xca4cffff); (0xca4d5000, 0xca4d57ff); (0xca4d5c00, 0xca4d5fff);
  (0xca4e0800, 0xca4e0fff); (0xca4fe000, 0xca4fe7ff); (0xca4ff800, 0xca4ffbff);
  (0xca50c000, 0xca50cfff); (0xca510000, 0xca5103ff); (0xca51b000, 0xca51bfff);
  (0xca53fc00, 0xca53ffff); (0xca540000, 0xca540fff); (0xca541000, 0xca5411ff);
  (0xca541600, 0xca5416ff); (0xca541800, 0xca541fff); (0xca55d000, 0xca55dfff);
  (0xca56f900, 0xca56f9ff); (0xca56fc00, 0xca56ffff); (0xca575000, 0xca575fff);
  (0xca582000, 0xca5823ff); (0xca590800, 0xca590fff); (0xca596000, 0xca5963ff);
  (0xca596c00, 0xca596fff); (0xca597700, 0xca5977ff); (0xca59e800, 0xca59efff);
  (0xca5a1000, 0xca5a1fff); (0xca5a2500, 0xca5a25ff); (0xca5a6000, 0xca5a7fff);
  (0xca5ac100, 0xca5ac1ff); (0xca5ac400, 0xca5ac4ff); (0xca5acd00, 0xca5acdff);
  (0xca5ae000, 0xca5aefff); (0xca5b0000, 0xca5b03ff); (0xca5b6000, 0xca5b6fff);
  (0xca5bb000, 0xca5bbfff); (0xca5be000, 0xca5bffff); (0xca5c0800, 0xca5c0fff);
  (0xca5c3000, 0xca5c3fff); (0xca5cfc00, 0xca5cffff); (0xca5dfc00, 0xca5dffff);
  (0xca5e4a00, 0xca5e4aff); (0xca5e5100, 0xca5e51ff); (0xca5e5c00, 0xca5e5fff);
  (0xca5f0000, 0xca5f1fff); (0xca5ff000, 0xca5ff7ff); (0xca600000, 0xca6fffff);
  (0xca700000, 0xca77ffff); (0xca780000, 0xca79ffff); (0xca7a0000, 0xca7a07ff);
  (0xca7a2000, 0xca7a27ff); (0xca7a4000, 0xca7a5fff); (0xca7a7000, 0xca7a7fff);
  (0xca7a8400, 0xca7a84ff); (0xca7b6000, 0xca7b6fff); (0xca7b7400, 0xca7b77ff);
  (0xca7b7800, 0xca7b7bff); (0xca7c1000, 0xca7c17ff); (0xca7c1800, 0xca7c1bff);
  (0xca7d6b00, 0xca7d6bff); (0xca7d6d00, 0xca7d6dff); (0xca7d7000, 0xca7d7fff);
  (0xca7db000, 0xca7dbfff); (0xca7f0000, 0xca7f07ff); (0xca7f0c00, 0xca7f0fff);
  (0xca7f1000, 0xca7f1fff); (0xca7f2800, 0xca7f2fff); (0xca7f3000, 0xca7f3fff);
  (0xca7f7000, 0xca7f7fff); (0xca7f8000, 0xca7f9fff); (0xca7fc000, 0xca7fcfff);
  (0xca7fd400, 0xca7fd7ff); (0xca7fd800, 0xca7fdfff); (0xca7fe000, 0xca7fffff);
  (0xca81d000, 0xca81d0ff); (0xca820000, 0xca821fff); (0xca822700, 0xca8227ff);
  (0xca82e000, 0xca82ffff); (0xca831000, 0xca8317ff); (0xca833000, 0xca833fff);
  (0xca83d000, 0xca83dfff); (0xca852000, 0xca852fff); (0xca863a00, 0xca863aff);
  (0xca868000, 0xca868fff); (0xca86d000, 0xca86dfff); (0xca883000, 0xca883fff);
  (0xca884800, 0xca8849ff); (0xca885000, 0xca8851ff); (0xca88d000, 0xca88dfff);
  (0xca88e000, 0xca88efff); (0xca88f800, 0xca88fbff); (0xca88ff00, 0xca88ffff);
  (0xca89e700, 0xca89e7ff); (0xca8c8c00, 0xca8c8fff); (0xca8c9000, 0xca8c9fff);
  (0xca8da000, 0xca8dbfff); (0xca8e1000, 0xca8e1fff); (0xca8f0400, 0xca8f07ff);
  (0xca8f1000, 0xca8f1fff); (0xca8f2000, 0xca8f2fff); (0xca8f3800, 0xca8f3fff);
  (0xca8f6400, 0xca8f67ff); (0xca8f6800, 0xca8f6bff); (0xca90c400, 0xca90c7ff);
  (0xca92a000, 0xca92afff); (0xca92b800, 0xca92b9ff); (0xca92ba00, 0xca92baff);
  (0xca92bc00, 0xca92bfff); (0xca92c400, 0xca92c7ff); (0xca92c800, 0xca92cfff);
  (0xca939000, 0xca939fff); (0xca942000, 0xca942fff); (0xca944000, 0xca947fff);
  (0xca952000, 0xca953fff); (0xca95a000, 0xca95bfff); (0xca95e000, 0xca95ffff);
  (0xca961000, 0xca961fff); (0xca962000, 0xca962fff); (0xca963800, 0xca963bff);
  (0xca96c000, 0xca96cfff); (0xca96e000, 0xca96ffff); (0xca970000, 0xca9703ff);
  (0xca972100, 0xca9721ff); (0xca978000, 0xca979fff); (0xca98b000, 0xca98bfff);
  (0xca990000, 0xca9903ff); (0xca990700, 0xca9907ff); (0xca993000, 0xca993fff);
  (0xca9dc000, 0xca9ddfff); (0xca9ea000, 0xca9ebfff); (0xca9ef200, 0xca9ef2ff);
  (0xcaa08c00, 0xcaa08fff); (0xcaa09c00, 0xcaa09fff); (0xcaa0b000, 0xcaa0bfff);
  (0xcaa24300, 0xcaa243ff); (0xcaa24b00, 0xcaa24bff); (0xcaa40000, 0xcaa40fff);
  (0xcaa46000, 0xcaa47fff); (0xcaa5b000, 0xcaa5bfff); (0xcaa5d000, 0xcaa5dfff);
  (0xcaa5ef00, 0xcaa5efff); (0xcaa5f000, 0xcaa5f1ff); (0xcaa5f300, 0xcaa5f3ff);
  (0xcaa5f500, 0xcaa5f5ff); (0xcaa5fb00, 0xcaa5fbff); (0xcaa5fc00, 0xcaa5ffff);
  (0xcaa6e000, 0xcaa6ffff); (0xcaa85000, 0xcaa853ff); (0xcaa88000, 0xcaa88fff);
  (0xcaa8a000, 0xcaa8bfff); (0xcaaa8000, 0xcaaa9fff); (0xcaaad800, 0xcaaadfff);
  (0xcaaae000, 0xcaaaffff); (0xcaabd800, 0xcaabdfff); (0xcaabe800, 0xcaabe8ff);
  (0xcaabeb00, 0xcaabebff); (0xcaac0000, 0xcaac03ff); (0xcaac0700, 0xcaac07ff);
  (0xcaad0000, 0xcaad03ff); (0xcaad0600, 0xcaad06ff); (0xcaad0800, 0xcaad0fff);
  (0xcaad7000, 0xcaad73ff); (0xcaade000, 0xcaadffff); (0xcaae4000, 0xcaae4fff);
  (0xcaae7c00, 0xcaae7fff); (0xcab0e000, 0xcab0ffff); (0xcab3a000, 0xcab3afff);
  (0xcab3f000, 0xcab3ffff); (0xcab48000, 0xcab49fff); (0xcab4d000, 0xcab4d7ff);
  (0xcab50800, 0xcab50bff); (0xcab51c00, 0xcab51fff); (0xcab57000, 0xcab57fff);
  (0xcab62000, 0xcab62fff); (0xcab6c000, 0xcab6dfff); (0xcabd0000, 0xcabd3fff);
  (0xcabd5000, 0xcabd5fff); (0xcabdb800, 0xcabdbfff); (0xcabf0000, 0xcabf00ff);
  (0xcabf4400, 0xcabf47ff); (0xcabf4800, 0xcabf4fff); (0xcabf5000, 0xcabf5fff);
  (0xcac00000, 0xcacfffff); (0xcb000400, 0xcb0007ff); (0xcb000a00, 0xcb000bff);
  (0xcb001200, 0xcb0012ff); (0xcb001800, 0xcb0018ff); (0xcb002a00, 0xcb002bff);
  (0xcb002d00, 0xcb002dff); (0xcb002e00, 0xcb002fff); (0xcb005100, 0xcb0051ff);
  (0xcb005200, 0xcb0053ff); (0xcb005a00, 0xcb005bff); (0xcb006000, 0xcb0061ff);
  (0xcb006800, 0xcb006fff); (0xcb007200, 0xcb0073ff); (0xcb007a00, 0xcb007aff);
  (0xcb008000, 0xcb0080ff); (0xcb008200, 0xcb0083ff); (0xcb008400, 0xcb0087ff);
  (0xcb008900, 0xcb0089ff); (0xcb008e00, 0xcb008eff); (0xcb009000, 0xcb0090ff);
  (0xcb009200, 0xcb0092ff); (0xcb009400, 0xcb0094ff); (0xcb009600, 0xcb0097ff);
  (0xcb009800, 0xcb0098ff); (0xcb00b100, 0xcb00b1ff); (0xcb00e000, 0xcb00e0ff);
  (0xcb00fa00, 0xcb00fbff); (0xcb010400, 0xcb0107ff); (0xcb011200, 0xcb0112ff);
  (0xcb011a00, 0xcb011bff); (0xcb014100, 0xcb0141ff); (0xcb014200, 0xcb0143ff);
  (0xcb014600, 0xcb0147ff); (0xcb014c00, 0xcb014dff); (0xcb015a00, 0xcb015aff);
  (0xcb016100, 0xcb0161ff); (0xcb016200, 0xcb0163ff); (0xcb016400, 0xcb0167ff);
  (0xcb016c00, 0xcb016cff); (0xcb01fd00, 0xcb01fdff); (0xcb01fe00, 0xcb01feff);
  (0xcb024000, 0xcb0247ff); (0xcb024900, 0xcb0249ff); (0xcb027000, 0xcb0277ff);
  (0xcb027e00, 0xcb027fff); (0xcb028c00, 0xcb028cff); (0xcb029600, 0xcb0296ff);
  (0xcb029800, 0xcb029bff); (0xcb029c00, 0xcb029dff); (0xcb02a000, 0xcb02a7ff);
  (0xcb02b400, 0xcb02b5ff); (0xcb02c400, 0xcb02c5ff); (0xcb02d100, 0xcb02d1ff);
  (0xcb02d600, 0xcb02d7ff); (0xcb02e200, 0xcb02e3ff); (0xcb02e500, 0xcb02e5ff);
  (0xcb02ec00, 0xcb02edff); (0xcb034400, 0xcb0344ff); (0xcb034800, 0xcb0349ff);
  (0xcb034b00, 0xcb034bff); (0xcb035000, 0xcb0357ff); (0xcb036000, 0xcb0363ff);
  (0xcb036900, 0xcb0369ff); (0xcb037000, 0xcb0377ff); (0xcb037800, 0xcb0378ff);
  (0xcb037b00, 0xcb037bff); (0xcb038700, 0xcb0387ff); (0xcb038b00, 0xcb038bff);
  (0xcb038f00, 0xcb038fff); (0xcb048400, 0xcb0485ff); (0xcb048600, 0xcb0486ff);
  (0xcb049700, 0xcb0497ff); (0xcb049800, 0xcb049bff); (0xcb04ae00, 0xcb04afff);
  (0xcb04b400, 0xcb04b4ff); (0xcb04ba00, 0xcb04baff); (0xcb04cd00, 0xcb04cdff);
  (0xcb04d000, 0xcb04d3ff); (0xcb04e300, 0xcb04e3ff); (0xcb04e600, 0xcb04e7ff);
  (0xcb050400, 0xcb0505ff); (0xcb050700, 0xcb0507ff); (0xcb050800, 0xcb0509ff);
  (0xcb050b00, 0xcb050bff); (0xcb051500, 0xcb0515ff); (0xcb051600, 0xcb0516ff);
  (0xcb052c00, 0xcb052cff); (0xcb052e00, 0xcb052fff); (0xcb053400, 0xcb0537ff);
  (0xcb053800, 0xcb0539ff); (0xcb053c00, 0xcb053dff); (0xcb057200, 0xcb0573ff);
  (0xcb057600, 0xcb0576ff); (0xcb057800, 0xcb0578ff); (0xcb05ac00, 0xcb05acff);
  (0xcb05b400, 0xcb05b5ff); (0xcb05b600, 0xcb05b6ff); (0xcb05b900, 0xcb05b9ff);
  (0xcb05ba00, 0xcb05baff); (0xcb05bc00, 0xcb05bdff); (0xcb05be00, 0xcb05beff);
  (0xcb05c300, 0xcb05c3ff); (0xcb05d600, 0xcb05d7ff); (0xcb05da00, 0xcb05dbff);
  (0xcb068300, 0xcb0683ff); (0xcb068800, 0xcb0688ff); (0xcb068a00, 0xcb068bff);
  (0xcb068e00, 0xcb068eff); (0xcb069600, 0xcb0697ff); (0xcb069d00, 0xcb069dff);
  (0xcb069f00, 0xcb069fff); (0xcb06e000, 0xcb06efff); (0xcb06f800, 0xcb06f9ff);
  (0xcb078100, 0xcb0781ff); (0xcb078a00, 0xcb078bff); (0xcb079300, 0xcb0793ff);
  (0xcb079600, 0xcb0797ff); (0xcb079e00, 0xcb079eff); (0xcb07c000, 0xcb07c1ff);
  (0xcb07c800, 0xcb07c8ff); (0xcb080000, 0xcb0800ff); (0xcb080800, 0xcb0808ff);
  (0xcb081700, 0xcb0817ff); (0xcb084600, 0xcb0846ff); (0xcb085200, 0xcb0852ff);
  (0xcb085600, 0xcb0857ff); (0xcb085b00, 0xcb085bff); (0xcb086e00, 0xcb086fff);
  (0xcb087300, 0xcb0873ff); (0xcb08a600, 0xcb08a7ff); (0xcb08a900, 0xcb08a9ff);
  (0xcb08ad00, 0xcb08adff); (0xcb08b800, 0xcb08b8ff); (0xcb08ba00, 0xcb08bbff);
  (0xcb08be00, 0xcb08bfff); (0xcb08c000, 0xcb08c0ff); (0xcb08c500, 0xcb08c5ff);
  (0xcb08c600, 0xcb08c7ff); (0xcb08cb00, 0xcb08cbff); (0xcb08d100, 0xcb08d1ff);
  (0xcb08d200, 0xcb08d3ff); (0xcb08d400, 0xcb08d7ff); (0xcb08d900, 0xcb08d9ff);
  (0xcb08dc00, 0xcb08dcff); (0xcb092000, 0xcb0920ff); (0xcb092400, 0xcb0925ff);
  (0xcb093900, 0xcb0939ff); (0xcb093f00, 0xcb093fff); (0xcb094100, 0xcb0941ff);
  (0xcb094600, 0xcb0947ff); (0xcb094800, 0xcb0948ff); (0xcb094b00, 0xcb094bff);
  (0xcb094c00, 0xcb094dff); (0xcb096000, 0xcb0963ff); (0xcb096400, 0xcb0965ff);
  (0xcb096c00, 0xcb096cff); (0xcb099e00, 0xcb099eff); (0xcb0a2200, 0xcb0a22ff);
  (0xcb0a3800, 0xcb0a38ff); (0xcb0a4a00, 0xcb0a4bff); (0xcb0a5400, 0xcb0a57ff);
  (0xcb0a5800, 0xcb0a58ff); (0xcb0a5f00, 0xcb0a5fff); (0xcb0a7d00, 0xcb0a7dff);
  (0xcb0b4600, 0xcb0b46ff); (0xcb0b4c00, 0xcb0b4fff); (0xcb0b5200, 0xcb0b52ff);
  (0xcb0b5400, 0xcb0b57ff); (0xcb0b6400, 0xcb0b67ff); (0xcb0b6d00, 0xcb0b6dff);
  (0xcb0b7500, 0xcb0b75ff); (0xcb0b7a00, 0xcb0b7aff); (0xcb0b7e00, 0xcb0b7eff);
  (0xcb0b8800, 0xcb0b8bff); (0xcb0b8d00, 0xcb0b8dff); (0xcb0b8e00, 0xcb0b8fff);
  (0xcb0bb400, 0xcb0bb7ff); (0xcb0bd000, 0xcb0bd3ff); (0xcb0c1000, 0xcb0c10ff);
  (0xcb0c1300, 0xcb0c13ff); (0xcb0c1800, 0xcb0c18ff); (0xcb0c3900, 0xcb0c39ff);
  (0xcb0c4100, 0xcb0c41ff); (0xcb0c4200, 0xcb0c42ff); (0xcb0c4600, 0xcb0c47ff);
  (0xcb0c5700, 0xcb0c57ff); (0xcb0c6400, 0xcb0c65ff); (0xcb0c6700, 0xcb0c67ff);
  (0xcb0c7200, 0xcb0c72ff); (0xcb0c7600, 0xcb0c76ff); (0xcb0c8200, 0xcb0c82ff);
  (0xcb0c8900, 0xcb0c89ff); (0xcb0cc400, 0xcb0cc7ff); (0xcb0cd300, 0xcb0cd3ff);
  (0xcb0cdb00, 0xcb0cdbff); (0xcb0ce200, 0xcb0ce2ff); (0xcb0cf000, 0xcb0cf3ff);
  (0xcb0d1200, 0xcb0d12ff); (0xcb0d1800, 0xcb0d18ff); (0xcb0d2c00, 0xcb0d2dff);
  (0xcb0d5800, 0xcb0d59ff); (0xcb0d5c00, 0xcb0d5fff); (0xcb0dad00, 0xcb0dadff);
  (0xcb0de000, 0xcb0de1ff); (0xcb0de300, 0xcb0de3ff); (0xcb0de900, 0xcb0de9ff);
  (0xcb0e1800, 0xcb0e1bff); (0xcb0e2100, 0xcb0e21ff); (0xcb0e3800, 0xcb0e38ff);
  (0xcb0e3d00, 0xcb0e3dff); (0xcb0e3e00, 0xcb0e3eff); (0xcb0e6800, 0xcb0e68ff);
  (0xcb0e7200, 0xcb0e73ff); (0xcb0e7600, 0xcb0e76ff); (0xcb0ea200, 0xcb0ea2ff);
  (0xcb0ec000, 0xcb0ec0ff); (0xcb0ec200, 0xcb0ec3ff); (0xcb0ed600, 0xcb0ed6ff);
  (0xcb0ee700, 0xcb0ee7ff); (0xcb0ef600, 0xcb0ef6ff); (0xcb0f0000, 0xcb0f0fff);
  (0xcb0f1400, 0xcb0f15ff); (0xcb0f1600, 0xcb0f16ff); (0xcb0f5700, 0xcb0f57ff);
  (0xcb0f5800, 0xcb0f59ff); (0xcb0f6900, 0xcb0f69ff); (0xcb0f7000, 0xcb0f77ff);
  (0xcb0f8200, 0xcb0f83ff); (0xcb0f9500, 0xcb0f95ff); (0xcb0f9700, 0xcb0f97ff);
  (0xcb0f9c00, 0xcb0f9fff); (0xcb0fae00, 0xcb0faeff); (0xcb0fe300, 0xcb0fe3ff);
  (0xcb0fe800, 0xcb0fefff); (0xcb0ff000, 0xcb0ff1ff); (0xcb0ff600, 0xcb0ff6ff);
  (0xcb100a00, 0xcb100aff); (0xcb100c00, 0xcb100dff); (0xcb101000, 0xcb1017ff);
  (0xcb101b00, 0xcb101bff); (0xcb102600, 0xcb1026ff); (0xcb103100, 0xcb1031ff);
  (0xcb103200, 0xcb1033ff); (0xcb103a00, 0xcb103aff); (0xcb103f00, 0xcb103fff);
  (0xcb108500, 0xcb1085ff); (0xcb10a100, 0xcb10a1ff); (0xcb10a200, 0xcb10a2ff);
  (0xcb10ba00, 0xcb10bbff); (0xcb10e400, 0xcb10e4ff); (0xcb10ee00, 0xcb10eeff);
  (0xcb10f000, 0xcb10f0ff); (0xcb10f500, 0xcb10f5ff); (0xcb110200, 0xcb1102ff);
  (0xcb111200, 0xcb1112ff); (0xcb111c00, 0xcb111cff); (0xcb112700, 0xcb1127ff);
  (0xcb113800, 0xcb1138ff); (0xcb114a00, 0xcb114bff); (0xcb115800, 0xcb1159ff);
  (0xcb118800, 0xcb1188ff); (0xcb11a400, 0xcb11a4ff); (0xcb11bb00, 0xcb11bbff);
  (0xcb11be00, 0xcb11bfff); (0xcb11e700, 0xcb11e7ff); (0xcb11e900, 0xcb11e9ff);
  (0xcb11f800, 0xcb11f9ff); (0xcb11ff00, 0xcb11ffff); (0xcb120200, 0xcb1203ff);
  (0xcb120400, 0xcb1204ff); (0xcb120700, 0xcb1207ff); (0xcb121f00, 0xcb121fff);
  (0xcb122500, 0xcb1225ff); (0xcb123000, 0xcb1231ff); (0xcb123400, 0xcb1234ff);
  (0xcb124800, 0xcb124bff); (0xcb125000, 0xcb1251ff); (0xcb125700, 0xcb1257ff);
  (0xcb126400, 0xcb1265ff); (0xcb126900, 0xcb1269ff); (0xcb126b00, 0xcb126bff);
  (0xcb126e00, 0xcb126eff); (0xcb128100, 0xcb1281ff); (0xcb128300, 0xcb1283ff);
  (0xcb128400, 0xcb1285ff); (0xcb129000, 0xcb1290ff); (0xcb129900, 0xcb1299ff);
  (0xcb12c700, 0xcb12c7ff); (0xcb12d000, 0xcb12d0ff); (0xcb12d300, 0xcb12d3ff);
  (0xcb12d700, 0xcb12d7ff); (0xcb130100, 0xcb1301ff); (0xcb131200, 0xcb1312ff);
  (0xcb131800, 0xcb1318ff); (0xcb131e00, 0xcb131eff); (0xcb132000, 0xcb1327ff);
  (0xcb132900, 0xcb1329ff); (0xcb132c00, 0xcb132dff); (0xcb132e00, 0xcb132eff);
  (0xcb133a00, 0xcb133aff); (0xcb133c00, 0xcb133dff); (0xcb134000, 0xcb1340ff);
  (0xcb134400, 0xcb1344ff); (0xcb134800, 0xcb1348ff); (0xcb136500, 0xcb1365ff);
  (0xcb136f00, 0xcb136fff); (0xcb138300, 0xcb1383ff); (0xcb138500, 0xcb1385ff);
  (0xcb139000, 0xcb1390ff); (0xcb139300, 0xcb1393ff); (0xcb139500, 0xcb1395ff);
  (0xcb139c00, 0xcb139cff); (0xcb13b000, 0xcb13b0ff); (0xcb13b200, 0xcb13b3ff);
  (0xcb13d000, 0xcb13d0ff); (0xcb13e400, 0xcb13e7ff); (0xcb13e900, 0xcb13e9ff);
  (0xcb13f200, 0xcb13f2ff); (0xcb13f800, 0xcb13f9ff); (0xcb13ff00, 0xcb13ffff);
  (0xcb141100, 0xcb1411ff); (0xcb142800, 0xcb1429ff); (0xcb142c00, 0xcb142cff);
  (0xcb143000, 0xcb1430ff); (0xcb143d00, 0xcb143dff); (0xcb144100, 0xcb1441ff);
  (0xcb145400, 0xcb1455ff); (0xcb145900, 0xcb1459ff); (0xcb146a00, 0xcb146bff);
  (0xcb147300, 0xcb1473ff); (0xcb147500, 0xcb1475ff); (0xcb147600, 0xcb1477ff);
  (0xcb147a00, 0xcb147aff); (0xcb147e00, 0xcb147fff); (0xcb148700, 0xcb1487ff);
  (0xcb148800, 0xcb148fff); (0xcb149600, 0xcb1496ff); (0xcb14e600, 0xcb14e6ff);
  (0xcb14e800, 0xcb14e8ff); (0xcb14ec00, 0xcb14ecff); (0xcb150000, 0xcb1501ff);
  (0xcb150200, 0xcb1502ff); (0xcb150800, 0xcb1508ff); (0xcb150a00, 0xcb150aff);
  (0xcb151200, 0xcb1512ff); (0xcb152100, 0xcb1521ff); (0xcb152200, 0xcb1522ff);
  (0xcb152900, 0xcb1529ff); (0xcb152c00, 0xcb152cff); (0xcb154400, 0xcb1544ff);
  (0xcb155200, 0xcb1552ff); (0xcb156000, 0xcb1563ff); (0xcb157c00, 0xcb157cff);
  (0xcb158800, 0xcb1589ff); (0xcb159100, 0xcb1591ff); (0xcb15ce00, 0xcb15ceff);
  (0xcb161800, 0xcb1618ff); (0xcb161c00, 0xcb161dff); (0xcb161f00, 0xcb161fff);
  (0xcb164400, 0xcb1644ff); (0xcb164c00, 0xcb164cff); (0xcb164e00, 0xcb164eff);
  (0xcb165400, 0xcb1654ff); (0xcb165700, 0xcb1657ff); (0xcb165c00, 0xcb165fff);
  (0xcb166300, 0xcb1663ff); (0xcb166a00, 0xcb166aff); (0xcb167a00, 0xcb167bff);
  (0xcb168300, 0xcb1683ff); (0xcb16a300, 0xcb16a3ff); (0xcb16a600, 0xcb16a6ff);
  (0xcb16aa00, 0xcb16aaff); (0xcb16b000, 0xcb16b7ff); (0xcb16c200, 0xcb16c2ff);
  (0xcb16f200, 0xcb16f3ff); (0xcb16f500, 0xcb16f5ff); (0xcb16f600, 0xcb16f6ff);
  (0xcb16fc00, 0xcb16fdff); (0xcb170000, 0xcb1700ff); (0xcb172f00, 0xcb172fff);
  (0xcb173d00, 0xcb173dff); (0xcb173e00, 0xcb173fff); (0xcb174900, 0xcb1749ff);
  (0xcb175500, 0xcb1755ff); (0xcb175c00, 0xcb175fff); (0xcb176200, 0xcb1762ff);
  (0xcb176b00, 0xcb176bff); (0xcb177000, 0xcb1770ff); (0xcb178200, 0xcb1782ff);
  (0xcb178c00, 0xcb178dff); (0xcb17ac00, 0xcb17acff); (0xcb17b600, 0xcb17b6ff);
  (0xcb17ba00, 0xcb17bbff); (0xcb17c000, 0xcb17c0ff); (0xcb17c500, 0xcb17c5ff);
  (0xcb17c600, 0xcb17c6ff); (0xcb17cc00, 0xcb17cfff); (0xcb17e000, 0xcb17e0ff);
  (0xcb17e200, 0xcb17e3ff); (0xcb17e400, 0xcb17e7ff); (0xcb17f900, 0xcb17f9ff);
  (0xcb17fb00, 0xcb17fbff); (0xcb180d00, 0xcb180dff); (0xcb181200, 0xcb1812ff);
  (0xcb181b00, 0xcb181bff); (0xcb182b00, 0xcb182bff); (0xcb183800, 0xcb1838ff);
  (0xcb183a00, 0xcb183aff); (0xcb184300, 0xcb1843ff); (0xcb184a00, 0xcb184aff);
  (0xcb184f00, 0xcb184fff); (0xcb185000, 0xcb1851ff); (0xcb185400, 0xcb1855ff);
  (0xcb185600, 0xcb1856ff); (0xcb185a00, 0xcb185aff); (0xcb186f00, 0xcb186fff);
  (0xcb187000, 0xcb1870ff); (0xcb187400, 0xcb1874ff); (0xcb187a00, 0xcb187bff);
  (0xcb189100, 0xcb1891ff); (0xcb189800, 0xcb1899ff); (0xcb189d00, 0xcb189dff);
  (0xcb18a100, 0xcb18a1ff); (0xcb18a700, 0xcb18a7ff); (0xcb18ba00, 0xcb18bbff);
  (0xcb18c700, 0xcb18c7ff); (0xcb18ca00, 0xcb18caff); (0xcb18d400, 0xcb18d5ff);
  (0xcb18d900, 0xcb18d9ff); (0xcb18db00, 0xcb18dbff); (0xcb18f400, 0xcb18f4ff);
  (0xcb191300, 0xcb1913ff); (0xcb191400, 0xcb1915ff); (0xcb192e00, 0xcb192eff);
  (0xcb193000, 0xcb1937ff); (0xcb194000, 0xcb1941ff); (0xcb195b00, 0xcb195bff);
  (0xcb196300, 0xcb1963ff); (0xcb196400, 0xcb1964ff); (0xcb196a00, 0xcb196aff);
  (0xcb198300, 0xcb1983ff); (0xcb198700, 0xcb1987ff); (0xcb198a00, 0xcb198aff);
  (0xcb199300, 0xcb1993ff); (0xcb199900, 0xcb1999ff); (0xcb199a00, 0xcb199bff);
  (0xcb19a400, 0xcb19a4ff); (0xcb19a600, 0xcb19a6ff); (0xcb19ae00, 0xcb19afff);
  (0xcb19b400, 0xcb19b4ff); (0xcb19b600, 0xcb19b6ff); (0xcb19bf00, 0xcb19bfff);
  (0xcb19c700, 0xcb19c7ff); (0xcb19c800, 0xcb19c8ff); (0xcb19ca00, 0xcb19cbff);
  (0xcb19d000, 0xcb19dfff); (0xcb19e500, 0xcb19e5ff); (0xcb19eb00, 0xcb19ebff);
  (0xcb19ec00, 0xcb19ecff); (0xcb19f200, 0xcb19f2ff); (0xcb1a0c00, 0xcb1a0cff);
  (0xcb1a2200, 0xcb1a22ff); (0xcb1a3100, 0xcb1a31ff); (0xcb1a3200, 0xcb1a32ff);
  (0xcb1a3700, 0xcb1a37ff); (0xcb1a3800, 0xcb1a39ff); (0xcb1a3c00, 0xcb1a3cff);
  (0xcb1a4100, 0xcb1a41ff); (0xcb1a4400, 0xcb1a44ff); (0xcb1a4c00, 0xcb1a4cff);
  (0xcb1a5000, 0xcb1a50ff); (0xcb1a5400, 0xcb1a54ff); (0xcb1a6100, 0xcb1a61ff);
  (0xcb1a6600, 0xcb1a67ff); (0xcb1a7300, 0xcb1a73ff); (0xcb1a7400, 0xcb1a74ff);
  (0xcb1a8100, 0xcb1a81ff); (0xcb1a8f00, 0xcb1a8fff); (0xcb1a9000, 0xcb1a90ff);
  (0xcb1a9400, 0xcb1a95ff); (0xcb1a9a00, 0xcb1a9aff); (0xcb1a9e00, 0xcb1a9fff);
  (0xcb1aaa00, 0xcb1aaaff); (0xcb1aad00, 0xcb1aadff); (0xcb1ab000, 0xcb1ab0ff);
  (0xcb1ab900, 0xcb1ab9ff); (0xcb1aca00, 0xcb1acbff); (0xcb1ad200, 0xcb1ad2ff);
  (0xcb1ad600, 0xcb1ad6ff); (0xcb1ade00, 0xcb1adeff); (0xcb1ae000, 0xcb1ae0ff);
  (0xcb1ae400, 0xcb1ae4ff); (0xcb1ae800, 0xcb1ae8ff); (0xcb1b0000, 0xcb1b00ff);
  (0xcb1b0a00, 0xcb1b0aff); (0xcb1b0f00, 0xcb1b0fff); (0xcb1b1000, 0xcb1b10ff);
  (0xcb1b1400, 0xcb1b14ff); (0xcb1b1600, 0xcb1b17ff); (0xcb1b2800, 0xcb1b28ff);
  (0xcb1b2d00, 0xcb1b2dff); (0xcb1b3500, 0xcb1b35ff); (0xcb1b4100, 0xcb1b41ff);
  (0xcb1b4200, 0xcb1b42ff); (0xcb1b5100, 0xcb1b51ff); (0xcb1b5800, 0xcb1b58ff);
  (0xcb1b6600, 0xcb1b66ff); (0xcb1b6d00, 0xcb1b6dff); (0xcb1b7500, 0xcb1b75ff);
  (0xcb1b7900, 0xcb1b79ff); (0xcb1b7a00, 0xcb1b7bff); (0xcb1b7d00, 0xcb1b7dff);
  (0xcb1bc800, 0xcb1bc8ff); (0xcb1bca00, 0xcb1bcaff); (0xcb1be900, 0xcb1be9ff);
  (0xcb1bf100, 0xcb1bf1ff); (0xcb1bfa00, 0xcb1bfaff); (0xcb1c0a00, 0xcb1c0aff);
  (0xcb1c0c00, 0xcb1c0cff); (0xcb1c2100, 0xcb1c21ff); (0xcb1c2200, 0xcb1c23ff);
  (0xcb1c2b00, 0xcb1c2bff); (0xcb1c2c00, 0xcb1c2cff); (0xcb1c3600, 0xcb1c36ff);
  (0xcb1c3800, 0xcb1c38ff); (0xcb1c4900, 0xcb1c49ff); (0xcb1c4a00, 0xcb1c4aff);
  (0xcb1c4c00, 0xcb1c4cff); (0xcb1c5600, 0xcb1c56ff); (0xcb1c5800, 0xcb1c58ff);
  (0xcb1c7000, 0xcb1c70ff); (0xcb1c8300, 0xcb1c83ff); (0xcb1c8800, 0xcb1c88ff);
  (0xcb1c8c00, 0xcb1c8cff); (0xcb1c9100, 0xcb1c91ff); (0xcb1ca500, 0xcb1ca5ff);
  (0xcb1ca900, 0xcb1ca9ff); (0xcb1caa00, 0xcb1caaff); (0xcb1cb200, 0xcb1cb3ff);
  (0xcb1cb900, 0xcb1cb9ff); (0xcb1cbb00, 0xcb1cbbff); (0xcb1cc400, 0xcb1cc4ff);
  (0xcb1ce200, 0xcb1ce3ff); (0xcb1cef00, 0xcb1cefff); (0xcb1d0200, 0xcb1d02ff);
  (0xcb1d0800, 0xcb1d09ff); (0xcb1d0d00, 0xcb1d0dff); (0xcb1d0e00, 0xcb1d0eff);
  (0xcb1d1c00, 0xcb1d1cff); (0xcb1d2e00, 0xcb1d2eff); (0xcb1d3900, 0xcb1d39ff);
  (0xcb1d3d00, 0xcb1d3dff); (0xcb1d3f00, 0xcb1d3fff); (0xcb1d4500, 0xcb1d45ff);
  (0xcb1d4900, 0xcb1d49ff); (0xcb1d5100, 0xcb1d51ff); (0xcb1d5a00, 0xcb1d5aff);
  (0xcb1d5f00, 0xcb1d5fff); (0xcb1d6400, 0xcb1d64ff); (0xcb1d6700, 0xcb1d67ff);
  (0xcb1d7000, 0xcb1d70ff); (0xcb1d7800, 0xcb1d7bff); (0xcb1db600, 0xcb1db7ff);
  (0xcb1dbb00, 0xcb1dbbff); (0xcb1dbd00, 0xcb1dbdff); (0xcb1dbe00, 0xcb1dbeff);
  (0xcb1dcd00, 0xcb1dcdff); (0xcb1dd200, 0xcb1dd2ff); (0xcb1dd900, 0xcb1dd9ff);
  (0xcb1de300, 0xcb1de3ff); (0xcb1de700, 0xcb1de7ff); (0xcb1de900, 0xcb1de9ff);
  (0xcb1dea00, 0xcb1deaff); (0xcb1df800, 0xcb1df8ff); (0xcb1dfe00, 0xcb1dffff);
  (0xcb1e1000, 0xcb1e11ff); (0xcb1e1900, 0xcb1e19ff); (0xcb1e1b00, 0xcb1e1bff);
  (0xcb1e1d00, 0xcb1e1dff); (0xcb1e4200, 0xcb1e42ff); (0xcb1e5100, 0xcb1e51ff);
  (0xcb1e5700, 0xcb1e57ff); (0xcb1e6f00, 0xcb1e6fff); (0xcb1e7900, 0xcb1e79ff);
  (0xcb1e7b00, 0xcb1e7bff); (0xcb1e9800, 0xcb1e98ff); (0xcb1e9c00, 0xcb1e9cff);
  (0xcb1ea200, 0xcb1ea2ff); (0xcb1ead00, 0xcb1eadff); (0xcb1eaf00, 0xcb1eafff);
  (0xcb1ebb00, 0xcb1ebbff); (0xcb1ec200, 0xcb1ec2ff); (0xcb1ed900, 0xcb1ed9ff);
  (0xcb1edc00, 0xcb1edcff); (0xcb1ede00, 0xcb1edeff); (0xcb1ee800, 0xcb1ee9ff);
  (0xcb1eeb00, 0xcb1eebff); (0xcb1ef000, 0xcb1ef1ff); (0xcb1ef600, 0xcb1ef6ff);
  (0xcb1efa00, 0xcb1efbff); (0xcb1f2d00, 0xcb1f2dff); (0xcb1f2e00, 0xcb1f2eff);
  (0xcb1f3100, 0xcb1f31ff); (0xcb1f3300, 0xcb1f33ff); (0xcb1f3600, 0xcb1f37ff);
  (0xcb1f4500, 0xcb1f45ff); (0xcb1f4800, 0xcb1f48ff); (0xcb1f5000, 0xcb1f50ff);
  (0xcb1f5500, 0xcb1f55ff); (0xcb1f6100, 0xcb1f61ff); (0xcb1f6900, 0xcb1f69ff);
  (0xcb1f6a00, 0xcb1f6aff); (0xcb1f6c00, 0xcb1f6dff); (0xcb1f7c00, 0xcb1f7cff);
  (0xcb1fa200, 0xcb1fa2ff); (0xcb1fae00, 0xcb1faeff); (0xcb1fb100, 0xcb1fb1ff);
  (0xcb1fb500, 0xcb1fb5ff); (0xcb1fbb00, 0xcb1fbbff); (0xcb1fbd00, 0xcb1fbdff);
  (0xcb1fcc00, 0xcb1fccff); (0xcb1fdc00, 0xcb1fdcff); (0xcb1fde00, 0xcb1fdfff);
  (0xcb1fe100, 0xcb1fe1ff); (0xcb1fe500, 0xcb1fe5ff); (0xcb1ff800, 0xcb1ff9ff);
  (0xcb1ffd00, 0xcb1ffdff); (0xcb201400, 0xcb2014ff); (0xcb203000, 0xcb2031ff);
  (0xcb203800, 0xcb2038ff); (0xcb203c00, 0xcb203cff); (0xcb203e00, 0xcb203eff);
  (0xcb204400, 0xcb2045ff); (0xcb204c00, 0xcb204cff); (0xcb205100, 0xcb2051ff);
  (0xcb205400, 0xcb2055ff); (0xcb205f00, 0xcb205fff); (0xcb206600, 0xcb2066ff);
  (0xcb206900, 0xcb2069ff); (0xcb208200, 0xcb2082ff); (0xcb208500, 0xcb2085ff);
  (0xcb208c00, 0xcb208cff); (0xcb209800, 0xcb2098ff); (0xcb20ba00, 0xcb20bbff);
  (0xcb20c000, 0xcb20c0ff); (0xcb20c400, 0xcb20c4ff); (0xcb20cb00, 0xcb20cbff);
  (0xcb20cc00, 0xcb20cdff); (0xcb20d400, 0xcb20d4ff); (0xcb210400, 0xcb2104ff);
  (0xcb210700, 0xcb2107ff); (0xcb210800, 0xcb210fff); (0xcb211500, 0xcb2115ff);
  (0xcb211a00, 0xcb211aff); (0xcb212000, 0xcb2120ff); (0xcb213f00, 0xcb213fff);
  (0xcb214000, 0xcb2140ff); (0xcb214300, 0xcb2143ff); (0xcb214400, 0xcb2144ff);
  (0xcb214900, 0xcb2149ff); (0xcb214f00, 0xcb214fff); (0xcb216400, 0xcb2164ff);
  (0xcb217a00, 0xcb217aff); (0xcb218100, 0xcb2181ff); (0xcb218300, 0xcb2183ff);
  (0xcb219100, 0xcb2191ff); (0xcb219c00, 0xcb219cff); (0xcb219e00, 0xcb219fff);
  (0xcb21ae00, 0xcb21aeff); (0xcb21b900, 0xcb21b9ff); (0xcb21c800, 0xcb21c8ff);
  (0xcb21ca00, 0xcb21cbff); (0xcb21cc00, 0xcb21ccff); (0xcb21ce00, 0xcb21cfff);
  (0xcb21d600, 0xcb21d7ff); (0xcb21e000, 0xcb21e1ff); (0xcb21e200, 0xcb21e2ff);
  (0xcb21e900, 0xcb21e9ff); (0xcb21f300, 0xcb21f3ff); (0xcb21fa00, 0xcb21faff);
  (0xcb220400, 0xcb2204ff); (0xcb221500, 0xcb2215ff); (0xcb221b00, 0xcb221bff);
  (0xcb222700, 0xcb2227ff); (0xcb223000, 0xcb2231ff); (0xcb223600, 0xcb2236ff);
  (0xcb223800, 0xcb2239ff); (0xcb224300, 0xcb2243ff); (0xcb224500, 0xcb2245ff);
  (0xcb224c00, 0xcb224cff); (0xcb225c00, 0xcb225cff); (0xcb226a00, 0xcb226aff);
  (0xcb227100, 0xcb2271ff); (0xcb229300, 0xcb2293ff); (0xcb229600, 0xcb2296ff);
  (0xcb229800, 0xcb2299ff); (0xcb22a100, 0xcb22a1ff); (0xcb22a200, 0xcb22a2ff);
  (0xcb22bb00, 0xcb22bbff); (0xcb22c000, 0xcb22c7ff); (0xcb22cc00, 0xcb22cfff);
  (0xcb22e800, 0xcb22e8ff); (0xcb22f000, 0xcb22f0ff); (0xcb22f200, 0xcb22f2ff);
  (0xcb22f500, 0xcb22f5ff); (0xcb22fb00, 0xcb22fbff); (0xcb370200, 0xcb3703ff);
  (0xcb370400, 0xcb3704ff); (0xcb370a00, 0xcb370aff); (0xcb370d00, 0xcb370dff);
  (0xcb371600, 0xcb3716ff); (0xcb371e00, 0xcb371eff); (0xcb375d00, 0xcb375dff);
  (0xcb376500, 0xcb3765ff); (0xcb376d00, 0xcb376dff); (0xcb376e00, 0xcb376eff);
  (0xcb377400, 0xcb3775ff); (0xcb377700, 0xcb3777ff); (0xcb378000, 0xcb3781ff);
  (0xcb379200, 0xcb3793ff); (0xcb37c000, 0xcb37c0ff); (0xcb37c400, 0xcb37c4ff);
  (0xcb37da00, 0xcb37dbff); (0xcb37dd00, 0xcb37ddff); (0xcb37e000, 0xcb37e0ff);
  (0xcb380100, 0xcb3801ff); (0xcb380400, 0xcb3804ff); (0xcb380c00, 0xcb380cff);
  (0xcb381800, 0xcb3818ff); (0xcb382600, 0xcb3826ff); (0xcb382800, 0xcb3828ff);
  (0xcb382e00, 0xcb382eff); (0xcb383000, 0xcb3837ff); (0xcb384400, 0xcb3845ff);
  (0xcb385200, 0xcb3853ff); (0xcb385400, 0xcb3855ff); (0xcb385f00, 0xcb385fff);
  (0xcb386e00, 0xcb386eff); (0xcb387900, 0xcb3879ff); (0xcb38a100, 0xcb38a1ff);
  (0xcb38a900, 0xcb38a9ff); (0xcb38ac00, 0xcb38adff); (0xcb38af00, 0xcb38afff);
  (0xcb38b700, 0xcb38b7ff); (0xcb38b900, 0xcb38b9ff); (0xcb38bb00, 0xcb38bbff);
  (0xcb38c000, 0xcb38c0ff); (0xcb38c600, 0xcb38c6ff); (0xcb38c900, 0xcb38c9ff);
  (0xcb38d000, 0xcb38d1ff); (0xcb38d200, 0xcb38d2ff); (0xcb38d600, 0xcb38d6ff);
  (0xcb38d800, 0xcb38d8ff); (0xcb38e300, 0xcb38e3ff); (0xcb38e400, 0xcb38e4ff);
  (0xcb38e700, 0xcb38e7ff); (0xcb38e800, 0xcb38e8ff); (0xcb38f000, 0xcb38f0ff);
  (0xcb38fc00, 0xcb38fcff); (0xcb38fe00, 0xcb38feff); (0xcb390500, 0xcb3905ff);
  (0xcb390600, 0xcb3906ff); (0xcb390c00, 0xcb390dff); (0xcb391c00, 0xcb391cff);
  (0xcb392700, 0xcb3927ff); (0xcb392e00, 0xcb392eff); (0xcb393a00, 0xcb393aff);
  (0xcb393d00, 0xcb393dff); (0xcb394200, 0xcb3942ff); (0xcb394500, 0xcb3945ff);
  (0xcb394600, 0xcb3947ff); (0xcb394900, 0xcb3949ff); (0xcb395a00, 0xcb395aff);
  (0xcb396500, 0xcb3965ff); (0xcb396d00, 0xcb396dff); (0xcb397b00, 0xcb397bff);
  (0xcb399d00, 0xcb399dff); (0xcb39c800, 0xcb39c8ff); (0xcb39ca00, 0xcb39caff);
  (0xcb39ce00, 0xcb39ceff); (0xcb39de00, 0xcb39deff); (0xcb39e000, 0xcb39efff);
  (0xcb39f600, 0xcb39f7ff); (0xcb39f900, 0xcb39f9ff); (0xcb39fd00, 0xcb39fdff);
  (0xcb39fe00, 0xcb39ffff); (0xcb3e0200, 0xcb3e02ff); (0xcb3e8300, 0xcb3e83ff);
  (0xcb3e8b00, 0xcb3e8bff); (0xcb3ea100, 0xcb3ea1ff); (0xcb3ec500, 0xcb3ec5ff);
  (0xcb3ee400, 0xcb3ee7ff); (0xcb3eea00, 0xcb3eeaff); (0xcb3ef600, 0xcb3ef6ff);
  (0xcb41f000, 0xcb41f3ff); (0xcb4ca000, 0xcb4ca3ff); (0xcb4ca800, 0xcb4cabff);
  (0xcb4cd000, 0xcb4cd7ff); (0xcb4cd800, 0xcb4cdbff); (0xcb4cf000, 0xcb4cf7ff);
  (0xcb4db400, 0xcb4db7ff); (0xcb4e3000, 0xcb4e3fff); (0xcb4e9c00, 0xcb4e9fff);
  (0xcb4f0000, 0xcb4f0fff); (0xcb4f2000, 0xcb4f2fff); (0xcb500400, 0xcb5005ff);
  (0xcb502000, 0xcb502fff); (0xcb503900, 0xcb5039ff); (0xcb508100, 0xcb5081ff);
  (0xcb508400, 0xcb5087ff); (0xcb508800, 0xcb508fff); (0xcb509000, 0xcb509fff);
  (0xcb510000, 0xcb5107ff); (0xcb511000, 0xcb511fff); (0xcb51f400, 0xcb51f7ff);
  (0xcb520000, 0xcb5201ff); (0xcb521000, 0xcb5217ff); (0xcb527000, 0xcb527fff);
  (0xcb52e000, 0xcb52efff); (0xcb530000, 0xcb5303ff); (0xcb530800, 0xcb530fff);
  (0xcb533800, 0xcb533fff); (0xcb53e000, 0xcb53efff); (0xcb560000, 0xcb567fff);
  (0xcb56fa00, 0xcb56faff); (0xcb56fe00, 0xcb56ffff); (0xcb582000, 0xcb583fff);
  (0xcb58c000, 0xcb58dfff); (0xcb590800, 0xcb590fff); (0xcb596400, 0xcb5967ff);
  (0xcb598500, 0xcb5985ff); (0xcb598800, 0xcb598bff); (0xcb599000, 0xcb5990ff);
  (0xcb5a0800, 0xcb5a0fff); (0xcb5a8000, 0xcb5abfff); (0xcb5ac000, 0xcb5adfff);
  (0xcb5b2000, 0xcb5b3fff); (0xcb5b6000, 0xcb5b6fff); (0xcb5b7800, 0xcb5b7fff);
  (0xcb5c0000, 0xcb5c03ff); (0xcb5c0600, 0xcb5c06ff); (0xcb5ca000, 0xcb5cbfff);
  (0xcb5d0000, 0xcb5dffff); (0xcb5e0000, 0xcb5e1fff); (0xcb5f0000, 0xcb5f07ff);
  (0xcb5f6000, 0xcb5f7fff); (0xcb5f8000, 0xcb5fbfff); (0xcb5fc800, 0xcb5fcfff);
  (0xcb5fd000, 0xcb5fd3ff); (0xcb5fe000, 0xcb5fffff); (0xcb630800, 0xcb630fff);
  (0xcb631000, 0xcb631fff); (0xcb635000, 0xcb635fff); (0xcb642000, 0xcb642fff);
  (0xcb643000, 0xcb6437ff); (0xcb643a00, 0xcb643aff); (0xcb643c00, 0xcb643cff);
  (0xcb643f00, 0xcb643fff); (0xcb645000, 0xcb645fff); (0xcb646000, 0xcb647fff);
  (0xcb64c000, 0xcb64cfff); (0xcb682000, 0xcb682fff); (0xcb696000, 0xcb697fff);
  (0xcb698000, 0xcb699fff); (0xcb6b0000, 0xcb6b7fff); (0xcb6ea000, 0xcb6ebfff);
  (0xcb6ed000, 0xcb6edfff); (0xcb6ee800, 0xcb6ee9ff); (0xcb6eea00, 0xcb6eeaff);
  (0xcb725000, 0xcb725fff); (0xcb72f400, 0xcb72f7ff); (0xcb76c000, 0xcb76dfff);
  (0xcb76f100, 0xcb76f1ff); (0xcb76f800, 0xcb76fbff); (0xcb771800, 0xcb771fff);
  (0xcb772000, 0xcb7723ff); (0xcb775000, 0xcb7753ff); (0xcb775500, 0xcb7755ff);
  (0xcb777100, 0xcb7771ff); (0xcb777200, 0xcb7773ff); (0xcb777400, 0xcb7777ff);
  (0xcb777800, 0xcb777fff); (0xcb778000, 0xcb77ffff); (0xcb7b3a00, 0xcb7b3aff);
  (0xcb802000, 0xcb803fff); (0xcb806000, 0xcb807fff); (0xcb80e000, 0xcb80e7ff);
  (0xcb810800, 0xcb810fff); (0xcb822000, 0xcb823fff); (0xcb842000, 0xcb843fff);
  (0xcb85f000, 0xcb85f7ff); (0xcb86f000, 0xcb86f7ff); (0xcb876000, 0xcb877fff);
  (0xcb87a000, 0xcb87afff); (0xcb8edb00, 0xcb8edbff); (0xcb8ee000, 0xcb8effff);
  (0xcb906000, 0xcb907fff); (0xcb910000, 0xcb911fff); (0xcb940000, 0xcb943fff);
  (0xcb944000, 0xcb944fff); (0xcb945000, 0xcb9453ff); (0xcb945600, 0xcb9457ff);
  (0xcb955c00, 0xcb955fff); (0xcb984000, 0xcb985fff); (0xcb988000, 0xcb989fff);
  (0xcb990000, 0xcb9903ff); (0xcb9cc000, 0xcb9cffff); (0xcb9e1000, 0xcb9e17ff);
  (0xcba03400, 0xcba037ff); (0xcba06800, 0xcba06fff); (0xcba08100, 0xcba081ff);
  (0xcba0c000, 0xcba0dfff); (0xcba10000, 0xcba103ff); (0xcba1b700, 0xcba1b7ff);
  (0xcba1c000, 0xcba1dfff); (0xcba6a000, 0xcba6bfff); (0xcba71c00, 0xcba71fff);
  (0xcba80000, 0xcba81fff); (0xcbaa3a00, 0xcbaa3bff); (0xcbab0000, 0xcbab03ff);
  (0xcbabd000, 0xcbabd0ff); (0xcbabe000, 0xcbabefff); (0xcbae0400, 0xcbae04ff);
  (0xcbae0600, 0xcbae07ff); (0xcbae6000, 0xcbae7fff); (0xcbaf8000, 0xcbaf9fff);
  (0xcbafc000, 0xcbafffff); (0xcbb00000, 0xcbb03fff); (0xcbb04000, 0xcbb05fff);
  (0xcbb0a800, 0xcbb0afff); (0xcbb85000, 0xcbb85fff); (0xcbb9bd00, 0xcbb9bdff);
  (0xcbbba000, 0xcbbbbfff); (0xcbbd0000, 0xcbbd01ff); (0xcbbd0600, 0xcbbd07ff);
  (0xcbbd7000, 0xcbbd73ff); (0xcbbdc000, 0xcbbddfff); (0xcbbdf000, 0xcbbdf3ff);
  (0xcbbe6000, 0xcbbe6fff); (0xcbbef900, 0xcbbef9ff); (0xcbbf0000, 0xcbbf01ff);
  (0xcbbf0200, 0xcbbf02ff); (0xcbbf0500, 0xcbbf05ff); (0xcbbf0700, 0xcbbf07ff);
  (0xcbbf1000, 0xcbbf1fff); (0xcbbf4000, 0xcbbf7fff); (0xcbbf8500, 0xcbbf85ff);
  (0xcbbf9000, 0xcbbf9fff); (0xcbc00000, 0xcbc01fff); (0xcbc1e000, 0xcbc1ffff);
  (0xcbc27800, 0xcbc27fff); (0xcbc34000, 0xcbc35fff); (0xcbc37000, 0xcbc377ff);
  (0xcbc38000, 0xcbc3ffff); (0xcbc40000, 0xcbc40fff); (0xcbc41c00, 0xcbc41fff);
  (0xcbc9b500, 0xcbc9b5ff); (0xcbc9b600, 0xcbc9b6ff); (0xcbcaec00, 0xcbcaefff);
  (0xcbcd4000, 0xcbcd5fff); (0xcbcd8000, 0xcbcdffff); (0xcbcf4000, 0xcbcf7fff);
  (0xcbcf8000, 0xcbcfffff); (0xcbd02000, 0xcbd03fff); (0xcbd1e000, 0xcbd1ffff);
  (0xcbd40000, 0xcbd40fff); (0xcbd45000, 0xcbd45fff); (0xcbd7e800, 0xcbd7efff);
  (0xcbd9a400, 0xcbd9a7ff); (0xcbdf1000, 0xcbdf17ff); (0xcc34bf00, 0xcc34bfff);
  (0xcc4d8200, 0xcc4d82ff); (0xcdc61300, 0xcdc613ff); (0xd2020000, 0xd2021fff);
  (0xd2050000, 0xd2051fff); (0xd2053800, 0xd2053fff); (0xd2058000, 0xd2059fff);
  (0xd2073800, 0xd2073fff); (0xd20c0000, 0xd20dffff); (0xd20e4000, 0xd20e5fff);
  (0xd20e7000, 0xd20e7fff); (0xd20e8000, 0xd20effff); (0xd20f0000, 0xd20f7fff);
  (0xd20f8000, 0xd20fbfff); (0xd2106800, 0xd2106bff); (0xd2108000, 0xd210bfff);
  (0xd2150000, 0xd215ffff); (0xd2160000, 0xd216ffff); (0xd2172000, 0xd2173fff);
  (0xd2190000, 0xd219ffff); (0xd21a0000, 0xd21bffff); (0xd21c0000, 0xd21fffff);
  (0xd2200000, 0xd22fffff); (0xd2330000, 0xd233ffff); (0xd2340000, 0xd235ffff);
  (0xd238c000, 0xd238dfff); (0xd2480000, 0xd24bffff); (0xd24c0000, 0xd24dffff);
  (0xd24e0000, 0xd24effff); (0xd24f4000, 0xd24f7fff); (0xd24fe000, 0xd24fffff);
  (0xd2520000, 0xd253ffff); (0xd2574800, 0xd25749ff); (0xd2577200, 0xd25773ff);
  (0xd2578000, 0xd257bfff); (0xd2b9c000, 0xd2b9ffff); (0xd2c06000, 0xd2c07fff);
  (0xd3400000, 0xd347ffff); (0xd3500000, 0xd35fffff); (0xd3600000, 0xd367ffff);
  (0xd3880000, 0xd38fffff); (0xd3900000, 0xd39fffff); (0xd3a00000, 0xd3a7ffff);
  (0xd4400000, 0xd4407fff); (0xd4673e00, 0xd4673eff); (0xd4818000, 0xd481ffff);
  (0xda000000, 0xda1fffff); (0xda380000, 0xda3fffff); (0xda400000, 0xda5fffff);
  (0xda600000, 0xda63ffff); (0xda645800, 0xda645fff); (0xda646000, 0xda647fff);
  (0xda648000, 0xda64ffff); (0xda680000, 0xda6bffff); (0xda6c0000, 0xda6dffff);
  (0xdab9c000, 0xdab9dfff); (0xdab9f000, 0xdab9f7ff); (0xdac00000, 0xdacfffff);
  (0xdad55500, 0xdad555ff); (0xdaf00000, 0xdaf7ffff); (0xdaf90000, 0xdaf9ffff);
  (0xdb480000, 0xdb48ffff); (0xdb520000, 0xdb52ffff); (0xdb538000, 0xdb53ffff);
  (0xdb5a4400, 0xdb5a47ff); (0xdb5a4800, 0xdb5a4fff); (0xdb649400, 0xdb6497ff);
  (0xdb751000, 0xdb751fff); (0xdb800000, 0xdb9fffff); (0xdbd80000, 0xdbdfffff);
  (0xdbe00000, 0xdbefffff); (0xdbf20000, 0xdbf3ffff); (0xdbf40000, 0xdbf7ffff);
  (0xdc65c000, 0xdc65ffff); (0xdc700000, 0xdc73ffff); (0xdc988000, 0xdc98ffff);
  (0xdc9a0000, 0xdc9bffff); (0xdc9ef000, 0xdc9ef3ff); (0xdca00000, 0xdcbfffff);
  (0xdcc00000, 0xdccfffff); (0xdce70000, 0xdce73fff); (0xdce78000, 0xdce7ffff);
  (0xdce84000, 0xdce87fff); (0xdcea0000, 0xdceaffff); (0xdcf20000, 0xdcf3ffff);
  (0xdcf78800, 0xdcf78fff); (0xdcf80000, 0xdcfbffff); (0xdcfc0000, 0xdcfcffff);
  (0xdd000000, 0xdd07ffff); (0xdd080000, 0xdd0bffff); (0xdd0c0000, 0xdd0c7fff);
  (0xdd0c8000, 0xdd0cbfff); (0xdd0d0000, 0xdd0dffff); (0xdd0e0000, 0xdd0fffff);
  (0xdd7a0000, 0xdd7bffff); (0xdd808000, 0xdd80ffff); (0xdd810000, 0xdd81ffff);
  (0xdd820000, 0xdd83ffff); (0xdd85e000, 0xdd85ffff); (0xdd880000, 0xdd89ffff);
  (0xddac0000, 0xddafffff); (0xddb00000, 0xddb7ffff); (0xddc00000, 0xddc3ffff);
  (0xddc40000, 0xddc5ffff); (0xddc60000, 0xddc6ffff); (0xddc70000, 0xddc77fff);
  (0xddc78000, 0xddc7bfff); (0xddc7c000, 0xddc7cfff); (0xddc7e000, 0xddc7ffff);
  (0xddc80000, 0xddcfffff); (0xddd00000, 0xdddfffff); (0xdde00000, 0xddefffff);
  (0xde100000, 0xde1fffff); (0xde200000, 0xde3fffff); (0xde400000, 0xde5fffff);
  (0xde7d0000, 0xde7dffff); (0xde7e8000, 0xde7effff); (0xde800000, 0xde8fffff);
  (0xdea00000, 0xdea3ffff); (0xdea7a000, 0xdea7a1ff); (0xdea80000, 0xdeafffff);
  (0xdeb00000, 0xdebfffff); (0xdec00000, 0xdedfffff); (0xdef00000, 0xdef7ffff);
  (0xdef80000, 0xdef9ffff); (0xdf000000, 0xdf0fffff); (0xdf140000, 0xdf15ffff);
  (0xdf1a0000, 0xdf1a00ff); (0xdf1bb800, 0xdf1bbbff); (0xdf1dd000, 0xdf1dd3ff);
  (0xdf1dfc00, 0xdf1dffff); (0xdf400000, 0xdf7fffff); (0xdf800000, 0xdf81ffff);
  (0xdf900000, 0xdf9fffff); (0xdfa00000, 0xdfa3ffff); (0xdfa50a00, 0xdfa50aff);
  (0xdfa50c00, 0xdfa50cff); (0xdfa55000, 0xdfa55fff); (0xdfa60000, 0xdfa7ffff);
  (0xdfc00000, 0xdfc1ffff); (0xdfc60000, 0xdfc7ffff); (0xdfc90000, 0xdfc9ffff);
  (0xdfca0000, 0xdfcbffff); (0xdfd00000, 0xdfd7ffff); (0xdfdc0000, 0xdfddffff);
  (0xdfdfb000, 0xdfdfbfff); (0xdfdfc000, 0xdfdfcfff); (0xdff00000, 0xdff7ffff);
  (0xdff80000, 0xdffbffff); (0xdffc8000, 0xdffcffff); (0xdffe0000, 0xdffeffff);
  (0xdfff0000, 0xdfff7fff); (0xdfffec00, 0xdfffefff); (0xdffffc00, 0xdffffdff) ].

(** [chinaIPv6Ranges]. *)
Definition chinaIPv6Ranges : list ((Z * Z) * (Z * Z)) :=
 [
  ((0x2001025000000000, 0x0000000000000000), (0x20010253ffffffff, 0xffffffffffffffff));
  ((0x2001025400000000, 0x0000000000000000), (0x20010255ffffffff, 0xffffffffffffffff));
  ((0x2001025600000000, 0x0000000000000000), (0x20010256ffffffff, 0xffffffffffffffff));
  ((0x200107fa00050000, 0x0000000000000000), (0x200107fa0005ffff, 0xffffffffffffffff));
  ((0x200107fa00100000, 0x0000000000000000), (0x200107fa0010ffff, 0xffffffffffffffff));
  ((0x20010c6800000000, 0x0000000000000000), (0x20010c68ffffffff, 0xffffffffffffffff));
  ((0x20010cc000000000, 0x0000000000000000), (0x20010cc0ffffffff, 0xffffffffffffffff));
  ((0x20010da800000000, 0x0000000000000000), (0x20010da9ffffffff, 0xffffffffffffffff));
  ((0x20010daa00000000, 0x0000000000000000), (0x20010daaffffffff, 0xffffffffffffffff));
  ((0x20010dc700000000, 0x0000000000000000), (0x20010dc7ffffffff, 0xffffffffffffffff));
  ((0x20010dd800010000, 0x0000000000000000), (0x20010dd80001ffff, 0xffffffffffffffff));
  ((0x20010dd800050000, 0x0000000000000000), (0x20010dd80005ffff, 0xffffffffffffffff));
  ((0x20010dd8001a0000, 0x0000000000000000), (0x20010dd8001affff, 0xffffffffffffffff));
  ((0x20010dd900000000, 0x0000000000000000), (0x20010dd90000ffff, 0xffffffffffffffff));
  ((0x20010df004230000, 0x0000000000000000), (0x20010df00423ffff, 0xffffffffffffffff));
  ((0x20010df009c00000, 0x0000000000000000), (0x20010df009c0ffff, 0xffffffffffffffff));
  ((0x20010df01bc00000, 0x0000000000000000), (0x20010df01bc0ffff, 0xffffffffffffffff));
  ((0x20010df025c00000, 0x0000000000000000), (0x20010df025c0ffff, 0xffffffffffffffff));
  ((0x20010df02e000000, 0x0000000000000000), (0x20010df02e00ffff, 0xffffffffffffffff));
  ((0x20010df02e800000, 0x0000000000000000), (0x20010df02e80ffff, 0xffffffffffffffff));
  ((0x20010df059c00000, 0x0000000000000000), (0x20010df059c0ffff, 0xffffffffffffffff));
  ((0x20010df085c00000, 0x0000000000000000), (0x20010df085c0ffff, 0xffffffffffffffff));
  ((0x20010df09d400000, 0x0000000000000000), (0x20010df09d40ffff, 0xffffffffffffffff));
  ((0x20010df0ac400000, 0x0000000000000000), (0x20010df0ac40ffff, 0xffffffffffffffff));
  ((0x20010df0bf800000, 0x0000000000000000), (0x20010df0bf80ffff, 0xffffffffffffffff));
  ((0x20010df0d8800000, 0x0000000000000000), (0x20010df0d880ffff, 0xffffffffffffffff));
  ((0x20010df0f8c00000, 0x0000000000000000), (0x20010df0f8c0ffff, 0xffffffffffffffff));
  ((0x20010df10c800000, 0x0000000000000000), (0x20010df10c80ffff, 0xffffffffffffffff));
  ((0x20010df12b400000, 0x0000000000000000), (0x20010df12b40ffff, 0xffffffffffffffff));
  ((0x20010df145800000, 0x0000000000000000), (0x20010df14580ffff, 0xffffffffffffffff));
  ((0x20010df152800000, 0x0000000000000000), (0x20010df15280ffff, 0xffffffffffffffff));
  ((0x20010df15b800000, 0x0000000000000000), (0x20010df15b80ffff, 0xffffffffffffffff));
  ((0x20010df15fc00000, 0x0000000000000000), (0x20010df15fc0ffff, 0xffffffffffffffff));
  ((0x20010df161800000, 0x0000000000000000), (0x20010df16180ffff, 0xffffffffffffffff));
  ((0x20010df161c00000, 0x0000000000000000), (0x20010df161c0ffff, 0xffffffffffffffff));
  ((0x20010df1a1000000, 0x0000000000000000), (0x20010df1a100ffff, 0xffffffffffffffff));
  ((0x20010df1d1800000, 0x0000000000000000), (0x20010df1d180ffff, 0xffffffffffffffff));
  ((0x20010df1da000000, 0x0000000000000000), (0x20010df1da00ffff, 0xffffffffffffffff));
  ((0x20010df1f4800000, 0x0000000000000000), (0x20010df1f480ffff, 0xffffffffffffffff));
  ((0x20010df257800000, 0x0000000000000000), (0x20010df25780ffff, 0xffffffffffffffff));
  ((0x20010df28bc00000, 0x0000000000000000), (0x20010df28bc0ffff, 0xffffffffffffffff));
  ((0x20010df2a5800000, 0x0000000000000000), (0x20010df2a580ffff, 0xffffffffffffffff));
  ((0x20010df2c2400000, 0x0000000000000000), (0x20010df2c240ffff, 0xffffffffffffffff));
  ((0x20010df2d4c00000, 0x0000000000000000), (0x20010df2d4c0ffff, 0xffffffffffffffff));
  ((0x20010df315c00000, 0x0000000000000000), (0x20010df315c0ffff, 0xffffffffffffffff));
  ((0x20010df33a800000, 0x0000000000000000), (0x20010df33a80ffff, 0xffffffffffffffff));
  ((0x20010df374400000, 0x0000000000000000), (0x20010df37440ffff, 0xffffffffffffffff));
  ((0x20010df39a400000, 0x0000000000000000), (0x20010df39a40ffff, 0xffffffffffffffff));
  ((0x20010df3a6800000, 0x0000000000000000), (0x20010df3a680ffff, 0xffffffffffffffff));
  ((0x20010df3c6800000, 0x0000000000000000), (0x20010df3c680ffff, 0xffffffffffffffff));
  ((0x20010df3d0c00000, 0x0000000000000000), (0x20010df3d0c0ffff, 0xffffffffffffffff));
  ((0x20010df3ef800000, 0x0000000000000000), (0x20010df3ef80ffff, 0xffffffffffffffff));
  ((0x20010df40d800000, 0x0000000000000000), (0x20010df40d80ffff, 0xffffffffffffffff));
  ((0x20010df418800000, 0x0000000000000000), (0x20010df41880ffff, 0xffffffffffffffff));
  ((0x20010df427800000, 0x0000000000000000), (0x20010df42780ffff, 0xffffffffffffffff));
  ((0x20010df42e800000, 0x0000000000000000), (0x20010df42e80ffff, 0xffffffffffffffff));
  ((0x20010df43d800000, 0x0000000000000000), (0x20010df43d80ffff, 0xffffffffffffffff));
  ((0x20010df44b800000, 0x0000000000000000), (0x20010df44b80ffff, 0xffffffffffffffff));
  ((0x20010df44d800000, 0x0000000000000000), (0x20010df44d80ffff, 0xffffffffffffffff));
  ((0x20010df4a1c00000, 0x0000000000000000), (0x20010df4a1c0ffff, 0xffffffffffffffff));
  ((0x20010df4c1800000, 0x0000000000000000), (0x20010df4c180ffff, 0xffffffffffffffff));
  ((0x20010df4c5800000, 0x0000000000000000), (0x20010df4c580ffff, 0xffffffffffffffff));
  ((0x20010df4e1400000, 0x0000000000000000), (0x20010df4e143ffff, 0xffffffffffffffff));
  ((0x20010df514400000, 0x0000000000000000), (0x20010df51440ffff, 0xffffffffffffffff));
  ((0x20010df52fc00000, 0x0000000000000000), (0x20010df52fc0ffff, 0xffffffffffffffff));
  ((0x20010df547400000, 0x0000000000000000), (0x20010df54740ffff, 0xffffffffffffffff));
  ((0x20010df54cc00000, 0x0000000000000000), (0x20010df54cc0ffff, 0xffffffffffffffff));
  ((0x20010df55f800000, 0x0000000000000000), (0x20010df55f80ffff, 0xffffffffffffffff));
  ((0x20010df578000000, 0x0000000000000000), (0x20010df57800ffff, 0xffffffffffffffff));
  ((0x20010df600400000, 0x0000000000000000), (0x20010df60040ffff, 0xffffffffffffffff));
  ((0x20010df601000000, 0x0000000000000000), (0x20010df60100ffff, 0xffffffffffffffff));
  ((0x20010df65d000000, 0x0000000000000000), (0x20010df65d00ffff, 0xffffffffffffffff));
  ((0x20010df668000000, 0x0000000000000000), (0x20010df66800ffff, 0xffffffffffffffff));
  ((0x20010df6f4000000, 0x0000000000000000), (0x20010df6f400ffff, 0xffffffffffffffff));
  ((0x20010df714800000, 0x0000000000000000), (0x20010df71480ffff, 0xffffffffffffffff));
  ((0x20010df72b800000, 0x0000000000000000), (0x20010df72b80ffff, 0xffffffffffffffff));
  ((0x20010df766000000, 0x0000000000000000), (0x20010df76600ffff, 0xffffffffffffffff));
  ((0x20010df7e5800000, 0x0000000000000000), (0x20010df7e580ffff, 0xffffffffffffffff));
  ((0x20010e0800000000, 0x0000000000000000), (0x20010e08ffffffff, 0xffffffffffffffff));
  ((0x20010e1800000000, 0x0000000000000000), (0x20010e18ffffffff, 0xffffffffffffffff));
  ((0x20010e8000000000, 0x0000000000000000), (0x20010e80ffffffff, 0xffffffffffffffff));
  ((0x20010e8800000000, 0x0000000000000000), (0x20010e88ffffffff, 0xffffffffffffffff));
  ((0x20010f3800000000, 0x0000000000000000), (0x20010f38ffffffff, 0xffffffffffffffff));
  ((0x20010f8800000000, 0x0000000000000000), (0x20010f88ffffffff, 0xffffffffffffffff));
  ((0x2001443800000000, 0x0000000000000000), (0x20014438ffffffff, 0xffffffffffffffff));
  ((0x2001451000000000, 0x0000000000000000), (0x20014517ffffffff, 0xffffffffffffffff));
  ((0x2400104000000000, 0x0000000000000000), (0x24001040ffffffff, 0xffffffffffffffff));
  ((0x2400116000000000, 0x0000000000000000), (0x24001160ffffffff, 0xffffffffffffffff));
  ((0x240012c000000000, 0x0000000000000000), (0x240012c0ffffffff, 0xffffffffffffffff));
  ((0x2400134000000000, 0x0000000000000000), (0x24001340ffffffff, 0xffffffffffffffff));
  ((0x2400138000000000, 0x0000000000000000), (0x24001380ffffffff, 0xffffffffffffffff));
  ((0x240015c000000000, 0x0000000000000000), (0x240015c0ffffffff, 0xffffffffffffffff));
  ((0x2400164000000000, 0x0000000000000000), (0x24001640ffffffff, 0xffffffffffffffff));
  ((0x240016c000000000, 0x0000000000000000), (0x240016c0ffffffff, 0xffffffffffffffff));
  ((0x2400174000000000, 0x0000000000000000), (0x24001740ffffffff, 0xffffffffffffffff));
  ((0x240017c000000000, 0x0000000000000000), (0x240017c0ffffffff, 0xffffffffffffffff));
  ((0x2400184000000000, 0x0000000000000000), (0x24001840ffffffff, 0xffffffffffffffff));
  ((0x240018c000000000, 0x0000000000000000), (0x240018c0ffffffff, 0xffffffffffffffff));
  ((0x2400194000000000, 0x0000000000000000), (0x24001940ffffffff, 0xffffffffffffffff));
  ((0x240019a000000000, 0x0000000000000000), (0x240019a0ffffffff, 0xffffffffffffffff));
  ((0x240019c000000000, 0x0000000000000000), (0x240019c0ffffffff, 0xffffffffffffffff));
  ((0x24001a4000000000, 0x0000000000000000), (0x24001a40ffffffff, 0xffffffffffffffff));
  ((0x24001ac000000000, 0x0000000000000000), (0x24001ac0ffffffff, 0xffffffffffffffff));
  ((0x24001b4000000000, 0x0000000000000000), (0x24001b40ffffffff, 0xffffffffffffffff));
  ((0x24001cc000000000, 0x0000000000000000), (0x24001cc0ffffffff, 0xffffffffffffffff));
  ((0x24001d4000000000, 0x0000000000000000), (0x24001d40ffffffff, 0xffffffffffffffff));
  ((0x24001dc000000000, 0x0000000000000000), (0x24001dc0ffffffff, 0xffffffffffffffff));
  ((0x24001e4000000000, 0x0000000000000000), (0x24001e40ffffffff, 0xffffffffffffffff));
  ((0x24001ec000000000, 0x0000000000000000), (0x24001ec0ffffffff, 0xffffffffffffffff));
  ((0x24001f4000000000, 0x0000000000000000), (0x24001f40ffffffff, 0xffffffffffffffff));
  ((0x24001fc000000000, 0x0000000000000000), (0x24001fc0ffffffff, 0xffffffffffffffff));
  ((0x2400304000000000, 0x0000000000000000), (0x24003040ffffffff, 0xffffffffffffffff));
  ((0x2400314000000000, 0x0000000000000000), (0x24003140ffffffff, 0xffffffffffffffff));
  ((0x2400316000000000, 0x0000000000000000), (0x24003160ffffffff, 0xffffffffffffffff));
  ((0x240031c000000000, 0x0000000000000000), (0x240031c0ffffffff, 0xffffffffffffffff));
  ((0x2400320000000000, 0x0000000000000000), (0x24003200ffffffff, 0xffffffffffffffff));
  ((0x2400328000000000, 0x0000000000000000), (0x24003280ffffffff, 0xffffffffffffffff));
  ((0x240032c000000000, 0x0000000000000000), (0x240032c0ffffffff, 0xffffffffffffffff));
  ((0x2400334000000000, 0x0000000000000000), (0x24003340ffffffff, 0xffffffffffffffff));
  ((0x240033c000000000, 0x0000000000000000), (0x240033c0ffffffff, 0xffffffffffffffff));
  ((0x2400344000000000, 0x0000000000000000), (0x24003440ffffffff, 0xffffffffffffffff));
  ((0x240034c000000000, 0x0000000000000000), (0x240034c0ffffffff, 0xffffffffffffffff));
  ((0x2400354000000000, 0x0000000000000000), (0x24003540ffffffff, 0xffffffffffffffff));
  ((0x240035c000000000, 0x0000000000000000), (0x240035c0ffffffff, 0xffffffffffffffff));
  ((0x2400360000000000, 0x0000000000000000), (0x24003600ffffffff, 0xffffffffffffffff));
  ((0x2400364000000000, 0x0000000000000000), (0x24003640ffffffff, 0xffffffffffffffff));
  ((0x2400366000000000, 0x0000000000000000), (0x24003660ffffffff, 0xffffffffffffffff));
  ((0x240036c000000000, 0x0000000000000000), (0x240036c0ffffffff, 0xffffffffffffffff));
  ((0x240038c000000000, 0x0000000000000000), (0x240038c0ffffffff, 0xffffffffffffffff));
  ((0x240039c000000000, 0x0000000000000000), (0x240039c0ffffffff, 0xffffffffffffffff));
  ((0x24003a0000000000, 0x0000000000000000), (0x24003a00ffffffff, 0xffffffffffffffff));
  ((0x24003a4000000000, 0x0000000000000000), (0x24003a40ffffffff, 0xffffffffffffffff));
  ((0x24003b4000000000, 0x0000000000000000), (0x24003b40ffffffff, 0xffffffffffffffff));
  ((0x24003c4000000000, 0x0000000000000000), (0x24003c40ffffffff, 0xffffffffffffffff));
  ((0x24003cc000000000, 0x0000000000000000), (0x24003cc0ffffffff, 0xffffffffffffffff));
  ((0x24003e0000000000, 0x0000000000000000), (0x24003e00ffffffff, 0xffffffffffffffff));
  ((0x24003f4000000000, 0x0000000000000000), (0x24003f40ffffffff, 0xffffffffffffffff));
  ((0x24003f6000000000, 0x0000000000000000), (0x24003f60ffffffff, 0xffffffffffffffff));
  ((0x24003fc000000000, 0x0000000000000000), (0x24003fc0ffffffff, 0xffffffffffffffff));
  ((0x2400444000000000, 0x0000000000000000), (0x24004440ffffffff, 0xffffffffffffffff));
  ((0x240044c000000000, 0x0000000000000000), (0x240044c0ffffffff, 0xffffffffffffffff));
  ((0x2400454000000000, 0x0000000000000000), (0x24004540ffffffff, 0xffffffffffffffff));
  ((0x2400460000000000, 0x0000000000000000), (0x24004600ffffffff, 0xffffffffffffffff));
  ((0x2400464000000000, 0x0000000000000000), (0x24004640ffffffff, 0xffffffffffffffff));
  ((0x240046c000000000, 0x0000000000000000), (0x240046c0ffffffff, 0xffffffffffffffff));
  ((0x2400492000000000, 0x0000000000000000), (0x24004920ffffffff, 0xffffffffffffffff));
  ((0x24004bc000000000, 0x0000000000000000), (0x24004bc0ffffffff, 0xffffffffffffffff));
  ((0x24004e0000000000, 0x0000000000000000), (0x24004e00ffffffff, 0xffffffffffffffff));
  ((0x24004e4000000000, 0x0000000000000000), (0x24004e40ffffffff, 0xffffffffffffffff));
  ((0x2400508000000000, 0x0000000000000000), (0x24005080ffffffff, 0xffffffffffffffff));
  ((0x2400528000000000, 0x0000000000000000), (0x24005280ffffffff, 0xffffffffffffffff));
  ((0x2400540000000000, 0x0000000000000000), (0x24005400ffffffff, 0xffffffffffffffff));
  ((0x2400558000000000, 0x0000000000000000), (0x24005580ffffffff, 0xffffffffffffffff));
  ((0x240055c000000000, 0x0000000000000000), (0x240055c0ffffffff, 0xffffffffffffffff));
  ((0x240055e000000000, 0x0000000000000000), (0x240055e0ffffffff, 0xffffffffffffffff));
  ((0x2400560000000000, 0x0000000000000000), (0x24005600ffffffff, 0xffffffffffffffff));
  ((0x2400564000000000, 0x0000000000000000), (0x24005640ffffffff, 0xffffffffffffffff));
  ((0x240056c000000000, 0x0000000000000000), (0x240056c0ffffffff, 0xffffffffffffffff));
  ((0x240057c000000000, 0x0000000000000000), (0x240057c0ffffffff, 0xffffffffffffffff));
  ((0x2400584000000000, 0x0000000000000000), (0x24005840ffffffff, 0xffffffffffffffff));
  ((0x24005a0000000000, 0x0000000000000000), (0x24005a00ffffffff, 0xffffffffffffffff));
  ((0x24005a4000000000, 0x0000000000000000), (0x24005a40ffffffff, 0xffffffffffffffff));
  ((0x24005a6000000000, 0x0000000000000000), (0x24005a60ffffffff, 0xffffffffffffffff));
  ((0x24005ac000000000, 0x0000000000000000), (0x24005ac0ffffffff, 0xffffffffffffffff));
  ((0x24005b4000000000, 0x0000000000000000), (0x24005b40ffffffff, 0xffffffffffffffff));
  ((0x24005bc000000000, 0x0000000000000000), (0x24005bc0ffffffff, 0xffffffffffffffff));
  ((0x24005c4000000000, 0x0000000000000000), (0x24005c40ffffffff, 0xffffffffffffffff));
  ((0x24005c8000000000, 0x0000000000000000), (0x24005c80ffffffff, 0xffffffffffffffff));
  ((0x24005cc000000000, 0x0000000000000000), (0x24005cc0ffffffff, 0xffffffffffffffff));
  ((0x24005e2000000000, 0x0000000000000000), (0x24005e20ffffffff, 0xffffffffffffffff));
  ((0x24005e8000000000, 0x0000000000000000), (0x24005e80ffffffff, 0xffffffffffffffff));
  ((0x24005ee000000000, 0x0000000000000000), (0x24005ee0ffffffff, 0xffffffffffffffff));
  ((0x24005f6000000000, 0x0000000000000000), (0x24005f60ffffffff, 0xffffffffffffffff));
  ((0x24005fc000000000, 0x0000000000000000), (0x24005fc0ffffffff, 0xffffffffffffffff));
  ((0x2400600000000000, 0x0000000000000000), (0x24006000ffffffff, 0xffffffffffffffff));
  ((0x2400604000000000, 0x0000000000000000), (0x24006040ffffffff, 0xffffffffffffffff));
  ((0x240060c000000000, 0x0000000000000000), (0x240060c0ffffffff, 0xffffffffffffffff));
  ((0x240061c000000000, 0x0000000000000000), (0x240061c0ffffffff, 0xffffffffffffffff));
  ((0x2400620000000000, 0x0000000000000000), (0x24006200ffffffff, 0xffffffffffffffff));
  ((0x2400660000000000, 0x0000000000000000), (0x24006600ffffffff, 0xffffffffffffffff));
  ((0x2400664000000000, 0x0000000000000000), (0x24006640ffffffff, 0xffffffffffffffff));
  ((0x240066a000000000, 0x0000000000000000), (0x240066a0ffffffff, 0xffffffffffffffff));
  ((0x240066c000000000, 0x0000000000000000), (0x240066c0ffffffff, 0xffffffffffffffff));
  ((0x240066e000000000, 0x0000000000000000), (0x240066e0ffffffff, 0xffffffffffffffff));
  ((0x2400674000000000, 0x0000000000000000), (0x24006740ffffffff, 0xffffffffffffffff));
  ((0x240067a000000000, 0x0000000000000000), (0x240067a0ffffffff, 0xffffffffffffffff));
  ((0x240067c000000000, 0x0000000000000000), (0x240067c0ffffffff, 0xffffffffffffffff));
  ((0x2400684000000000, 0x0000000000000000), (0x24006840ffffffff, 0xffffffffffffffff));
  ((0x240068c000000000, 0x0000000000000000), (0x240068c0ffffffff, 0xffffffffffffffff));
  ((0x2400694000000000, 0x0000000000000000), (0x24006940ffffffff, 0xffffffffffffffff));
  ((0x240069c000000000, 0x0000000000000000), (0x240069c0ffffffff, 0xffffffffffffffff));
  ((0x24006a0000000000, 0x0000000000000000), (0x24006a00ffffffff, 0xffffffffffffffff));
  ((0x24006a4000000000, 0x0000000000000000), (0x24006a40ffffffff, 0xffffffffffffffff));
  ((0x24006ac000000000, 0x0000000000000000), (0x24006ac0ffffffff, 0xffffffffffffffff));
  ((0x24006b4000000000, 0x0000000000000000), (0x24006b40ffffffff, 0xffffffffffffffff));
  ((0x24006bc000000000, 0x0000000000000000), (0x24006bc0ffffffff, 0xffffffffffffffff));
  ((0x24006c4000000000, 0x0000000000000000), (0x24006c40ffffffff, 0xffffffffffffffff));
  ((0x24006cc000000000, 0x0000000000000000), (0x24006cc0ffffffff, 0xffffffffffffffff));
  ((0x24006d4000000000, 0x0000000000000000), (0x24006d40ffffffff, 0xffffffffffffffff));
  ((0x24006da000000000, 0x0000000000000000), (0x24006da0ffffffff, 0xffffffffffffffff));
  ((0x24006dc000000000, 0x0000000000000000), (0x24006dc0ffffffff, 0xffffffffffffffff));
  ((0x24006e0000000000, 0x0000000000000000), (0x24006e00ffffffff, 0xffffffffffffffff));
  ((0x24006e4000000000, 0x0000000000000000), (0x24006e40ffffffff, 0xffffffffffffffff));
  ((0x24006e6000000000, 0x0000000000000000), (0x24006e60ffffffff, 0xffffffffffffffff));
  ((0x24006ec000000000, 0x0000000000000000), (0x24006ec0ffffffff, 0xffffffffffffffff));
  ((0x24006f4000000000, 0x0000000000000000), (0x24006f40ffffffff, 0xffffffffffffffff));
  ((0x24006f8000000000, 0x0000000000000000), (0x24006f80ffffffff, 0xffffffffffffffff));
  ((0x24006fc000000000, 0x0000000000000000), (0x24006fc0ffffffff, 0xffffffffffffffff));
  ((0x2400704000000000, 0x0000000000000000), (0x24007040ffffffff, 0xffffffffffffffff));
  ((0x240070a000000000, 0x0000000000000000), (0x240070a0ffffffff, 0xffffffffffffffff));
  ((0x2400710000000000, 0x0000000000000000), (0x24007100ffffffff, 0xffffffffffffffff));
  ((0x2400714000000000, 0x0000000000000000), (0x24007140ffffffff, 0xffffffffffffffff));
  ((0x240071c000000000, 0x0000000000000000), (0x240071c0ffffffff, 0xffffffffffffffff));
  ((0x2400720000000000, 0x0000000000000000), (0x24007200ffffffff, 0xffffffffffffffff));
  ((0x2400724000000000, 0x0000000000000000), (0x24007240ffffffff, 0xffffffffffffffff));
  ((0x240072c000000000, 0x0000000000000000), (0x240072c0ffffffff, 0xffffffffffffffff));
  ((0x2400734000000000, 0x0000000000000000), (0x24007340ffffffff, 0xffffffffffffffff));
  ((0x240073c000000000, 0x0000000000000000), (0x240073c0ffffffff, 0xffffffffffffffff));
  ((0x240073e000000000, 0x0000000000000000), (0x240073e0ffffffff, 0xffffffffffffffff));
  ((0x2400744000000000, 0x0000000000000000), (0x24007440ffffffff, 0xffffffffffffffff));
  ((0x240074c000000000, 0x0000000000000000), (0x240074c0ffffffff, 0xffffffffffffffff));
  ((0x2400754000000000, 0x0000000000000000), (0x24007540ffffffff, 0xffffffffffffffff));
  ((0x240075a000000000, 0x0000000000000000), (0x240075afffffffff, 0xffffffffffffffff));
  ((0x240075c000000000, 0x0000000000000000), (0x240075c0ffffffff, 0xffffffffffffffff));
  ((0x2400764000000000, 0x0000000000000000), (0x24007640ffffffff, 0xffffffffffffffff));
  ((0x2400768000000000, 0x0000000000000000), (0x24007680ffffffff, 0xffffffffffffffff));
  ((0x240076c000000000, 0x0000000000000000), (0x240076c0ffffffff, 0xffffffffffffffff));
  ((0x2400774000000000, 0x0000000000000000), (0x24007740ffffffff, 0xffffffffffffffff));
  ((0x240077c000000000, 0x0000000000000000), (0x240077c0ffffffff, 0xffffffffffffffff));
  ((0x240079c000000000, 0x0000000000000000), (0x240079c0ffffffff, 0xffffffffffffffff));
  ((0x24007ac000000000, 0x0000000000000000), (0x24007ac0ffffffff, 0xffffffffffffffff));
  ((0x24007ae000000000, 0x0000000000000000), (0x24007ae0ffffffff, 0xffffffffffffffff));
  ((0x24007bc000000000, 0x0000000000000000), (0x24007bc0ffffffff, 0xffffffffffffffff));
  ((0x24007f8000000000, 0x0000000000000000), (0x24007f80ffffffff, 0xffffffffffffffff));
  ((0x24007fc000000000, 0x0000000000000000), (0x24007fc0ffffffff, 0xffffffffffffffff));
  ((0x2400808000000000, 0x0000000000000000), (0x24008080ffffffff, 0xffffffffffffffff));
  ((0x2400820000000000, 0x0000000000000000), (0x24008201ffffffff, 0xffffffffffffffff));
  ((0x240082c000000000, 0x0000000000000000), (0x240082c0ffffffff, 0xffffffffffffffff));
  ((0x2400858000000000, 0x0000000000000000), (0x24008580ffffffff, 0xffffffffffffffff));
  ((0x2400860000000000, 0x0000000000000000), (0x24008600ffffffff, 0xffffffffffffffff));
  ((0x240086a000000000, 0x0000000000000000), (0x240086a0ffffffff, 0xffffffffffffffff));
  ((0x240086e000000000, 0x0000000000000000), (0x240086e0ffffffff, 0xffffffffffffffff));
  ((0x2400878000000000, 0x0000000000000000), (0x24008780ffffffff, 0xffffffffffffffff));
  ((0x240087c000000000, 0x0000000000000000), (0x240087c0ffffffff, 0xffffffffffffffff));
  ((0x2400884000000000, 0x0000000000000000), (0x24008840ffffffff, 0xffffffffffffffff));
  ((0x2400892000000000, 0x0000000000000000), (0x24008920ffffffff, 0xffffffffffffffff));
  ((0x2400898000000000, 0x0000000000000000), (0x24008980ffffffff, 0xffffffffffffffff));
  ((0x240089c000000000, 0x0000000000000000), (0x240089c0ffffffff, 0xffffffffffffffff));
  ((0x24008be000000000, 0x0000000000000000), (0x24008be0ffffffff, 0xffffffffffffffff));
  ((0x24008ce000000000, 0x0000000000000000), (0x24008ce0ffffffff, 0xffffffffffffffff));
  ((0x24008e0000000000, 0x0000000000000000), (0x24008e00ffffffff, 0xffffffffffffffff));
  ((0x24008e6000000000, 0x0000000000000000), (0x24008e60ffffffff, 0xffffffffffffffff));
  ((0x24008f0000000000, 0x0000000000000000), (0x24008f00ffffffff, 0xffffffffffffffff));
  ((0x24008f6000000000, 0x0000000000000000), (0x24008f60ffffffff, 0xffffffffffffffff));
  ((0x24008fc000000000, 0x0000000000000000), (0x24008fc0ffffffff, 0xffffffffffffffff));
  ((0x2400902000000000, 0x0000000000000000), (0x24009020ffffffff, 0xffffffffffffffff));
  ((0x2400904000000000, 0x0000000000000000), (0x24009040ffffffff, 0xffffffffffffffff));
  ((0x2400934000000000, 0x0000000000000000), (0x24009340ffffffff, 0xffffffffffffffff));
  ((0x240093e000000000, 0x0000000000000000), (0x240093e0ffffffff, 0xffffffffffffffff));
  ((0x2400952000000000, 0x0000000000000000), (0x24009520ffffffff, 0xffffffffffffffff));
  ((0x2400958000000000, 0x0000000000000000), (0x24009580ffffffff, 0xffffffffffffffff));
  ((0x240095c000000000, 0x0000000000000000), (0x240095c0ffffffff, 0xffffffffffffffff));
  ((0x240095e000000000, 0x0000000000000000), (0x240095e0ffffffff, 0xffffffffffffffff));
  ((0x2400960000000000, 0x0000000000000000), (0x24009600ffffffff, 0xffffffffffffffff));
  ((0x2400962000000000, 0x0000000000000000), (0x24009620ffffffff, 0xffffffffffffffff));
  ((0x240098c000000000, 0x0000000000000000), (0x240098c0ffffffff, 0xffffffffffffffff));
  ((0x2400996000000000, 0x0000000000000000), (0x24009960ffffffff, 0xffffffffffffffff));
  ((0x240099e000000000, 0x0000000000000000), (0x240099e0ffffffff, 0xffffffffffffffff));
  ((0x24009a0000000000, 0x0000000000000000), (0x24009a00ffffffff, 0xffffffffffffffff));
  ((0x24009ca000000000, 0x0000000000000000), (0x24009ca0ffffffff, 0xffffffffffffffff));
  ((0x24009e0000000000, 0x0000000000000000), (0x24009e00ffffffff, 0xffffffffffffffff));
  ((0x2400a04000000000, 0x0000000000000000), (0x2400a040ffffffff, 0xffffffffffffffff));
  ((0x2400a32000000000, 0x0000000000000000), (0x2400a320ffffffff, 0xffffffffffffffff));
  ((0x2400a38000000000, 0x0000000000000000), (0x2400a380ffffffff, 0xffffffffffffffff));
  ((0x2400a42000000000, 0x0000000000000000), (0x2400a420ffffffff, 0xffffffffffffffff));
  ((0x2400a48000000000, 0x0000000000000000), (0x2400a480ffffffff, 0xffffffffffffffff));
  ((0x2400a5a000000000, 0x0000000000000000), (0x2400a5a0ffffffff, 0xffffffffffffffff));
  ((0x2400a6a000000000, 0x0000000000000000), (0x2400a6a0ffffffff, 0xffffffffffffffff));
  ((0x2400a78000000000, 0x0000000000000000), (0x2400a780ffffffff, 0xffffffffffffffff));
  ((0x2400a86000000000, 0x0000000000000000), (0x2400a860ffffffff, 0xffffffffffffffff));
  ((0x2400a8a000000000, 0x0000000000000000), (0x2400a8a0ffffffff, 0xffffffffffffffff));
  ((0x2400a8c000000000, 0x0000000000000000), (0x2400a8c0ffffffff, 0xffffffffffffffff));
  ((0x2400a90000000000, 0x0000000000000000), (0x2400a900ffffffff, 0xffffffffffffffff));
  ((0x2400a98000000000, 0x0000000000000000), (0x2400a987ffffffff, 0xffffffffffffffff));
  ((0x2400a9a000000000, 0x0000000000000000), (0x2400a9a0ffffffff, 0xffffffffffffffff));
  ((0x2400abc000000000, 0x0000000000000000), (0x2400abc0ffffffff, 0xffffffffffffffff));
  ((0x2400ae0000000000, 0x0000000000000000), (0x2400ae00ffffffff, 0xffffffffffffffff));
  ((0x2400b20000000000, 0x0000000000000000), (0x2400b200ffffffff, 0xffffffffffffffff));
  ((0x2400b50000000000, 0x0000000000000000), (0x2400b500ffffffff, 0xffffffffffffffff));
  ((0x2400b60000000000, 0x0000000000000000), (0x2400b600ffffffff, 0xffffffffffffffff));
  ((0x2400b62000000000, 0x0000000000000000), (0x2400b620ffffffff, 0xffffffffffffffff));
  ((0x2400b6c000000000, 0x0000000000000000), (0x2400b6c0ffffffff, 0xffffffffffffffff));
  ((0x2400b70000000000, 0x0000000000000000), (0x2400b700ffffffff, 0xffffffffffffffff));
  ((0x2400b9a000000000, 0x0000000000000000), (0x2400b9a0ffffffff, 0xffffffffffffffff));
  ((0x2400b9c000000000, 0x0000000000000000), (0x2400b9c0ffffffff, 0xffffffffffffffff));
  ((0x2400ba0000000000, 0x0000000000000000), (0x2400ba00ffffffff, 0xffffffffffffffff));
  ((0x2400bac000000000, 0x0000000000000000), (0x2400bac0ffffffff, 0xffffffffffffffff));
  ((0x2400be0000000000, 0x0000000000000000), (0x2400be00ffffffff, 0xffffffffffffffff));
  ((0x2400bf0000000000, 0x0000000000000000), (0x2400bf00ffffffff, 0xffffffffffffffff));
  ((0x2400c20000000000, 0x0000000000000000), (0x2400c200ffffffff, 0xffffffffffffffff));
  ((0x2400c38000000000, 0x0000000000000000), (0x2400c380ffffffff, 0xffffffffffffffff));
  ((0x2400c84000000000, 0x0000000000000000), (0x2400c840ffffffff, 0xffffffffffffffff));
  ((0x2400c8c000000000, 0x0000000000000000), (0x2400c8c0ffffffff, 0xffffffffffffffff));
  ((0x2400c94000000000, 0x0000000000000000), (0x2400c940ffffffff, 0xffffffffffffffff));
  ((0x2400c9c000000000, 0x0000000000000000), (0x2400c9c0ffffffff, 0xffffffffffffffff));
  ((0x2400ca4000000000, 0x0000000000000000), (0x2400ca40ffffffff, 0xffffffffffffffff));
  ((0x2400cac000000000, 0x0000000000000000), (0x2400cac0ffffffff, 0xffffffffffffffff));
  ((0x2400cb4000000000, 0x0000000000000000), (0x2400cb40ffffffff, 0xffffffffffffffff));
  ((0x2400cb8000000000, 0x0000000000000000), (0x2400cb80ffffffff, 0xffffffffffffffff));
  ((0x2400cbc000000000, 0x0000000000000000), (0x2400cbc0ffffffff, 0xffffffffffffffff));
  ((0x2400cc4000000000, 0x0000000000000000), (0x2400cc40ffffffff, 0xffffffffffffffff));
  ((0x2400cc8000000000, 0x0000000000000000), (0x2400cc80ffffffff, 0xffffffffffffffff));
  ((0x2400ccc000000000, 0x0000000000000000), (0x2400ccc0ffffffff, 0xffffffffffffffff));
  ((0x2400cd4000000000, 0x0000000000000000), (0x2400cd40ffffffff, 0xffffffffffffffff));
  ((0x2400cda000000000, 0x0000000000000000), (0x2400cda0ffffffff, 0xffffffffffffffff));
  ((0x2400cdc000000000, 0x0000000000000000), (0x2400cdc0ffffffff, 0xffffffffffffffff));
  ((0x2400ce0000000000, 0x0000000000000000), (0x2400ce00ffffffff, 0xffffffffffffffff));
  ((0x2400ce4000000000, 0x0000000000000000), (0x2400ce40ffffffff, 0xffffffffffffffff));
  ((0x2400cf4000000000, 0x0000000000000000), (0x2400cf40ffffffff, 0xffffffffffffffff));
  ((0x2400cfc000000000, 0x0000000000000000), (0x2400cfc0ffffffff, 0xffffffffffffffff));
  ((0x2400d0a000000000, 0x0000000000000000), (0x2400d0a0ffffffff, 0xffffffffffffffff));
  ((0x2400d0c000000000, 0x0000000000000000), (0x2400d0c0ffffffff, 0xffffffffffffffff));
  ((0x2400d10000000000, 0x0000000000000000), (0x2400d100ffffffff, 0xffffffffffffffff));
  ((0x2400d16000000000, 0x0000000000000000), (0x2400d160ffffffff, 0xffffffffffffffff));
  ((0x2400d1c000000000, 0x0000000000000000), (0x2400d1c0ffffffff, 0xffffffffffffffff));
  ((0x2400d20000000000, 0x0000000000000000), (0x2400d200ffffffff, 0xffffffffffffffff));
  ((0x2400d30000000000, 0x0000000000000000), (0x2400d300ffffffff, 0xffffffffffffffff));
  ((0x2400d44000000000, 0x0000000000000000), (0x2400d440ffffffff, 0xffffffffffffffff));
  ((0x2400d60000000000, 0x0000000000000000), (0x2400d600ffffffff, 0xffffffffffffffff));
  ((0x2400d6a000000000, 0x0000000000000000), (0x2400d6a0ffffffff, 0xffffffffffffffff));
  ((0x2400d6c000000000, 0x0000000000000000), (0x2400d6c0ffffffff, 0xffffffffffffffff));
  ((0x2400d72000000000, 0x0000000000000000), (0x2400d720ffffffff, 0xffffffffffffffff));
  ((0x2400d78000000000, 0x0000000000000000), (0x2400d780ffffffff, 0xffffffffffffffff));
  ((0x2400d7a000000000, 0x0000000000000000), (0x2400d7a0ffffffff, 0xffffffffffffffff));
  ((0x2400da0000000000, 0x0000000000000000), (0x2400da00ffffffff, 0xffffffffffffffff));
  ((0x2400da6000000000, 0x0000000000000000), (0x2400da60ffffffff, 0xffffffffffffffff));
  ((0x2400dd0000000000, 0x0000000000000000), (0x2400dd0fffffffff, 0xffffffffffffffff));
  ((0x2400dd4000000000, 0x0000000000000000), (0x2400dd40ffffffff, 0xffffffffffffffff));
  ((0x2400dda000000000, 0x0000000000000000), (0x2400dda0ffffffff, 0xffffffffffffffff));
  ((0x2400de0000000000, 0x0000000000000000), (0x2400de00ffffffff, 0xffffffffffffffff));
  ((0x2400de8000000000, 0x0000000000000000), (0x2400de80ffffffff, 0xffffffffffffffff));
  ((0x2400dee000000000, 0x0000000000000000), (0x2400dee0ffffffff, 0xffffffffffffffff));
  ((0x2400e0c000000000, 0x0000000000000000), (0x2400e0c0ffffffff, 0xffffffffffffffff));
  ((0x2400e68000000000, 0x0000000000000000), (0x2400e680ffffffff, 0xffffffffffffffff));
  ((0x2400e7e000000000, 0x0000000000000000), (0x2400e7e0ffffffff, 0xffffffffffffffff));
  ((0x2400e88000000000, 0x0000000000000000), (0x2400e880ffffffff, 0xffffffffffffffff));
  ((0x2400ebc000000000, 0x0000000000000000), (0x2400ebc0ffffffff, 0xffffffffffffffff));
  ((0x2400ed6000000000, 0x0000000000000000), (0x2400ed60ffffffff, 0xffffffffffffffff));
  ((0x2400eda000000000, 0x0000000000000000), (0x2400eda0ffffffff, 0xffffffffffffffff));
  ((0x2400edc000000000, 0x0000000000000000), (0x2400edc0ffffffff, 0xffffffffffffffff));
  ((0x2400ee0000000000, 0x0000000000000000), (0x2400ee00ffffffff, 0xffffffffffffffff));
  ((0x2400eec000000000, 0x0000000000000000), (0x2400eec0ffffffff, 0xffffffffffffffff));
  ((0x2400ef4000000000, 0x0000000000000000), (0x2400ef40ffffffff, 0xffffffffffffffff));
  ((0x2400f48000000000, 0x0000000000000000), (0x2400f480ffffffff, 0xffffffffffffffff));
  ((0x2400f5c000000000, 0x0000000000000000), (0x2400f5c0ffffffff, 0xffffffffffffffff));
  ((0x2400f6e000000000, 0x0000000000000000), (0x2400f6e0ffffffff, 0xffffffffffffffff));
  ((0x2400f72000000000, 0x0000000000000000), (0x2400f720ffffffff, 0xffffffffffffffff));
  ((0x2400f7c000000000, 0x0000000000000000), (0x2400f7c0ffffffff, 0xffffffffffffffff));
  ((0x2400f84000000000, 0x0000000000000000), (0x2400f840ffffffff, 0xffffffffffffffff));
  ((0x2400f86000000000, 0x0000000000000000), (0x2400f860ffffffff, 0xffffffffffffffff));
  ((0x2400f98000000000, 0x0000000000000000), (0x2400f980ffffffff, 0xffffffffffffffff));
  ((0x2400fac000000000, 0x0000000000000000), (0x2400fac0ffffffff, 0xffffffffffffffff));
  ((0x2400fb4000000000, 0x0000000000000000), (0x2400fb40ffffffff, 0xffffffffffffffff));
  ((0x2400fb6000000000, 0x0000000000000000), (0x2400fb60ffffffff, 0xffffffffffffffff));
  ((0x2400fbc000000000, 0x0000000000000000), (0x2400fbc0ffffffff, 0xffffffffffffffff));
  ((0x2400fc4000000000, 0x0000000000000000), (0x2400fc40ffffffff, 0xffffffffffffffff));
  ((0x2400fcc000000000, 0x0000000000000000), (0x2400fcc0ffffffff, 0xffffffffffffffff));
  ((0x2400fe0000000000, 0x0000000000000000), (0x2400fe00ffffffff, 0xffffffffffffffff));
  ((0x2401002000000000, 0x0000000000000000), (0x24010020ffffffff, 0xffffffffffffffff));
  ((0x2401006000000000, 0x0000000000000000), (0x24010060ffffffff, 0xffffffffffffffff));
  ((0x2401008000000000, 0x0000000000000000), (0x24010080ffffffff, 0xffffffffffffffff));
  ((0x2401014000000000, 0x0000000000000000), (0x24010140ffffffff, 0xffffffffffffffff));
  ((0x240101c000000000, 0x0000000000000000), (0x240101c0ffffffff, 0xffffffffffffffff));
  ((0x2401054000000000, 0x0000000000000000), (0x24010540ffffffff, 0xffffffffffffffff));
  ((0x2401062000000000, 0x0000000000000000), (0x24010620ffffffff, 0xffffffffffffffff));
  ((0x240107c000000000, 0x0000000000000000), (0x240107c0ffffffff, 0xffffffffffffffff));
  ((0x2401080000000000, 0x0000000000000000), (0x24010800ffffffff, 0xffffffffffffffff));
  ((0x240109c000000000, 0x0000000000000000), (0x240109c0ffffffff, 0xffffffffffffffff));
  ((0x24010a0000000000, 0x0000000000000000), (0x24010a00ffffffff, 0xffffffffffffffff));
  ((0x24010a4000000000, 0x0000000000000000), (0x24010a40ffffffff, 0xffffffffffffffff));
  ((0x24010ac000000000, 0x0000000000000000), (0x24010ac0ffffffff, 0xffffffffffffffff));
  ((0x24010b4000000000, 0x0000000000000000), (0x24010b40ffffffff, 0xffffffffffffffff));
  ((0x24010ba000000000, 0x0000000000000000), (0x24010ba0ffffffff, 0xffffffffffffffff));
  ((0x24010bc000000000, 0x0000000000000000), (0x24010bc0ffffffff, 0xffffffffffffffff));
  ((0x24010c4000000000, 0x0000000000000000), (0x24010c40ffffffff, 0xffffffffffffffff));
  ((0x24010cc000000000, 0x0000000000000000), (0x24010cc0ffffffff, 0xffffffffffffffff));
  ((0x24010d4000000000, 0x0000000000000000), (0x24010d40ffffffff, 0xffffffffffffffff));
  ((0x24010e0000000000, 0x0000000000000000), (0x24010e00ffffffff, 0xffffffffffffffff));
  ((0x2401100000000000, 0x0000000000000000), (0x24011000ffffffff, 0xffffffffffffffff));
  ((0x2401116000000000, 0x0000000000000000), (0x24011160ffffffff, 0xffffffffffffffff));
  ((0x240111c000000000, 0x0000000000000000), (0x240111c0ffffffff, 0xffffffffffffffff));
  ((0x2401120000000000, 0x0000000000000000), (0x24011200ffffffff, 0xffffffffffffffff));
  ((0x240112c000000000, 0x0000000000000000), (0x240112c0ffffffff, 0xffffffffffffffff));
  ((0x2401132000000000, 0x0000000000000000), (0x24011320ffffffff, 0xffffffffffffffff));
  ((0x240115c000000000, 0x0000000000000000), (0x240115c0ffffffff, 0xffffffffffffffff));
  ((0x240118c000000000, 0x0000000000000000), (0x240118c0ffffffff, 0xffffffffffffffff));
  ((0x240118e000000000, 0x0000000000000000), (0x240118efffffffff, 0xffffffffffffffff));
  ((0x2401194000000000, 0x0000000000000000), (0x24011940ffffffff, 0xffffffffffffffff));
  ((0x240119c000000000, 0x0000000000000000), (0x240119c0ffffffff, 0xffffffffffffffff));
  ((0x24011a4000000000, 0x0000000000000000), (0x24011a40ffffffff, 0xffffffffffffffff));
  ((0x24011ac000000000, 0x0000000000000000), (0x24011ac0ffffffff, 0xffffffffffffffff));
  ((0x24011c6000000000, 0x0000000000000000), (0x24011c60ffffffff, 0xffffffffffffffff));
  ((0x24011ce000000000, 0x0000000000000000), (0x24011ce0ffffffff, 0xffffffffffffffff));
  ((0x24011d4000000000, 0x0000000000000000), (0x24011d40ffffffff, 0xffffffffffffffff));
  ((0x24011da000000000, 0x0000000000000000), (0x24011da0ffffffff, 0xffffffffffffffff));
  ((0x24011dc000000000, 0x0000000000000000), (0x24011dc0ffffffff, 0xffffffffffffffff));
  ((0x24011de000000000, 0x0000000000000000), (0x24011de0ffffffff, 0xffffffffffffffff));
  ((0x24011e0000000000, 0x0000000000000000), (0x24011e00ffffffff, 0xffffffffffffffff));
  ((0x24011ec000000000, 0x0000000000000000), (0x24011ec0ffffffff, 0xffffffffffffffff));
  ((0x24011f4000000000, 0x0000000000000000), (0x24011f40ffffffff, 0xffffffffffffffff));
  ((0x2401204000000000, 0x0000000000000000), (0x24012040ffffffff, 0xffffffffffffffff));
  ((0x2401208000000000, 0x0000000000000000), (0x24012080ffffffff, 0xffffffffffffffff));
  ((0x240123c000000000, 0x0000000000000000), (0x240123c0ffffffff, 0xffffffffffffffff));
  ((0x2401260000000000, 0x0000000000000000), (0x24012600ffffffff, 0xffffffffffffffff));
  ((0x2401278000000000, 0x0000000000000000), (0x24012780ffffffff, 0xffffffffffffffff));
  ((0x2401298000000000, 0x0000000000000000), (0x24012980ffffffff, 0xffffffffffffffff));
  ((0x24012a0000000000, 0x0000000000000000), (0x24012a00ffffffff, 0xffffffffffffffff));
  ((0x24012b4000000000, 0x0000000000000000), (0x24012b40ffffffff, 0xffffffffffffffff));
  ((0x24012e0000000000, 0x0000000000000000), (0x24012e00ffffffff, 0xffffffffffffffff));
  ((0x24012e2000000000, 0x0000000000000000), (0x24012e20ffffffff, 0xffffffffffffffff));
  ((0x2401310000000000, 0x0000000000000000), (0x24013100ffffffff, 0xffffffffffffffff));
  ((0x2401338000000000, 0x0000000000000000), (0x24013380ffffffff, 0xffffffffffffffff));
  ((0x240133c000000000, 0x0000000000000000), (0x240133c0ffffffff, 0xffffffffffffffff));
  ((0x2401344000000000, 0x0000000000000000), (0x24013440ffffffff, 0xffffffffffffffff));
  ((0x2401348000000000, 0x0000000000000000), (0x24013480ffffffff, 0xffffffffffffffff));
  ((0x240134a000000000, 0x0000000000000000), (0x240134a1ffffffff, 0xffffffffffffffff));
  ((0x240134c000000000, 0x0000000000000000), (0x240134c0ffffffff, 0xffffffffffffffff));
  ((0x2401364000000000, 0x0000000000000000), (0x24013640ffffffff, 0xffffffffffffffff));
  ((0x2401378000000000, 0x0000000000000000), (0x24013780ffffffff, 0xffffffffffffffff));
  ((0x2401380000000000, 0x0000000000000000), (0x24013800ffffffff, 0xffffffffffffffff));
  ((0x2401388000000000, 0x0000000000000000), (0x24013880ffffffff, 0xffffffffffffffff));
  ((0x2401398000000000, 0x0000000000000000), (0x24013980ffffffff, 0xffffffffffffffff));
  ((0x24013a0000000000, 0x0000000000000000), (0x24013a00ffffffff, 0xffffffffffffffff));
  ((0x24013a8000000000, 0x0000000000000000), (0x24013a80ffffffff, 0xffffffffffffffff));
  ((0x24013b8000000000, 0x0000000000000000), (0x24013b80ffffffff, 0xffffffffffffffff));
  ((0x24013c2000000000, 0x0000000000000000), (0x24013c20ffffffff, 0xffffffffffffffff));
  ((0x24013c8000000000, 0x0000000000000000), (0x24013c80ffffffff, 0xffffffffffffffff));
  ((0x24013d8000000000, 0x0000000000000000), (0x24013d80ffffffff, 0xffffffffffffffff));
  ((0x24013e8000000000, 0x0000000000000000), (0x24013e80ffffffff, 0xffffffffffffffff));
  ((0x24013f8000000000, 0x0000000000000000), (0x24013f80ffffffff, 0xffffffffffffffff));
  ((0x2401408000000000, 0x0000000000000000), (0x24014080ffffffff, 0xffffffffffffffff));
  ((0x2401418000000000, 0x0000000000000000), (0x24014180ffffffff, 0xffffffffffffffff));
  ((0x2401428000000000, 0x0000000000000000), (0x24014280ffffffff, 0xffffffffffffffff));
  ((0x2401438000000000, 0x0000000000000000), (0x24014380ffffffff, 0xffffffffffffffff));
  ((0x2401448000000000, 0x0000000000000000), (0x24014480ffffffff, 0xffffffffffffffff));
  ((0x2401458000000000, 0x0000000000000000), (0x24014580ffffffff, 0xffffffffffffffff));
  ((0x2401468000000000, 0x0000000000000000), (0x24014680ffffffff, 0xffffffffffffffff));
  ((0x2401478000000000, 0x0000000000000000), (0x24014780ffffffff, 0xffffffffffffffff));
  ((0x2401488000000000, 0x0000000000000000), (0x24014880ffffffff, 0xffffffffffffffff));
  ((0x24014a8000000000, 0x0000000000000000), (0x24014a80ffffffff, 0xffffffffffffffff));
  ((0x24014b0000000000, 0x0000000000000000), (0x24014b00ffffffff, 0xffffffffffffffff));
  ((0x24014f8000000000, 0x0000000000000000), (0x24014f80ffffffff, 0xffffffffffffffff));
  ((0x2401518000000000, 0x0000000000000000), (0x24015180ffffffff, 0xffffffffffffffff));
  ((0x2401568000000000, 0x0000000000000000), (0x24015680ffffffff, 0xffffffffffffffff));
  ((0x240158a000000000, 0x0000000000000000), (0x240158a0ffffffff, 0xffffffffffffffff));
  ((0x240159c000000000, 0x0000000000000000), (0x240159c0ffffffff, 0xffffffffffffffff));
  ((0x24015b4000000000, 0x0000000000000000), (0x24015b40ffffffff, 0xffffffffffffffff));
  ((0x24015c2000000000, 0x0000000000000000), (0x24015c20ffffffff, 0xffffffffffffffff));
  ((0x24015c6000000000, 0x0000000000000000), (0x24015c60ffffffff, 0xffffffffffffffff));
  ((0x24015c8000000000, 0x0000000000000000), (0x24015c80ffffffff, 0xffffffffffffffff));
  ((0x24015fa000000000, 0x0000000000000000), (0x24015fa0ffffffff, 0xffffffffffffffff));
  ((0x240170e000000000, 0x0000000000000000), (0x240170e0ffffffff, 0xffffffffffffffff));
  ((0x2401718000000000, 0x0000000000000000), (0x24017180ffffffff, 0xffffffffffffffff));
  ((0x240171c000000000, 0x0000000000000000), (0x240171c0ffffffff, 0xffffffffffffffff));
  ((0x2401724000000000, 0x0000000000000000), (0x24017240ffffffff, 0xffffffffffffffff));
  ((0x2401732000000000, 0x0000000000000000), (0x24017320ffffffff, 0xffffffffffffffff));
  ((0x2401736000000000, 0x0000000000000000), (0x24017360ffffffff, 0xffffffffffffffff));
  ((0x240173a000000000, 0x0000000000000000), (0x240173a0ffffffff, 0xffffffffffffffff));
  ((0x2401758000000000, 0x0000000000000000), (0x24017580ffffffff, 0xffffffffffffffff));
  ((0x2401766000000000, 0x0000000000000000), (0x24017660ffffffff, 0xffffffffffffffff));
  ((0x2401768000000000, 0x0000000000000000), (0x24017680ffffffff, 0xffffffffffffffff));
  ((0x2401770000000000, 0x0000000000000000), (0x24017700ffffffff, 0xffffffffffffffff));
  ((0x2401778000000000, 0x0000000000000000), (0x24017780ffffffff, 0xffffffffffffffff));
  ((0x240177e000000000, 0x0000000000000000), (0x240177e0ffffffff, 0xffffffffffffffff));
  ((0x2401782000000000, 0x0000000000000000), (0x24017820ffffffff, 0xffffffffffffffff));
  ((0x2401788000000000, 0x0000000000000000), (0x24017880ffffffff, 0xffffffffffffffff));
  ((0x240178e000000000, 0x0000000000000000), (0x240178e0ffffffff, 0xffffffffffffffff));
  ((0x2401798000000000, 0x0000000000000000), (0x24017980ffffffff, 0xffffffffffffffff));
  ((0x24017a0000000000, 0x0000000000000000), (0x24017a00ffffffff, 0xffffffffffffffff));
  ((0x24017a8000000000, 0x0000000000000000), (0x24017a80ffffffff, 0xffffffffffffffff));
  ((0x24017b8000000000, 0x0000000000000000), (0x24017b80ffffffff, 0xffffffffffffffff));
  ((0x24017bc000000000, 0x0000000000000000), (0x24017bc0ffffffff, 0xffffffffffffffff));
  ((0x24017c8000000000, 0x0000000000000000), (0x24017c80ffffffff, 0xffffffffffffffff));
  ((0x24017cc000000000, 0x0000000000000000), (0x24017cc0ffffffff, 0xffffffffffffffff));
  ((0x24017ce000000000, 0x0000000000000000), (0x24017ce0ffffffff, 0xffffffffffffffff));
  ((0x24017d4000000000, 0x0000000000000000), (0x24017d40ffffffff, 0xffffffffffffffff));
  ((0x24017d8000000000, 0x0000000000000000), (0x24017d80ffffffff, 0xffffffffffffffff));
  ((0x24017e0000000000, 0x0000000000000000), (0x24017e00ffffffff, 0xffffffffffffffff));
  ((0x24017f8000000000, 0x0000000000000000), (0x24017f80ffffffff, 0xffffffffffffffff));
  ((0x2401820000000000, 0x0000000000000000), (0x24018200ffffffff, 0xffffffffffffffff));
  ((0x240182c000000000, 0x0000000000000000), (0x240182c0ffffffff, 0xffffffffffffffff));
  ((0x2401838000000000, 0x0000000000000000), (0x24018380ffffffff, 0xffffffffffffffff));
  ((0x2401854000000000, 0x0000000000000000), (0x24018540ffffffff, 0xffffffffffffffff));
  ((0x2401860000000000, 0x0000000000000000), (0x24018600ffffffff, 0xffffffffffffffff));
  ((0x2401868000000000, 0x0000000000000000), (0x24018680ffffffff, 0xffffffffffffffff));
  ((0x2401872000000000, 0x0000000000000000), (0x24018720ffffffff, 0xffffffffffffffff));
  ((0x240187e000000000, 0x0000000000000000), (0x240187e0ffffffff, 0xffffffffffffffff));
  ((0x2401882000000000, 0x0000000000000000), (0x24018821ffffffff, 0xffffffffffffffff));
  ((0x2401884000000000, 0x0000000000000000), (0x24018840ffffffff, 0xffffffffffffffff));
  ((0x24018be000000000, 0x0000000000000000), (0x24018be0ffffffff, 0xffffffffffffffff));
  ((0x24018d0000000000, 0x0000000000000000), (0x24018d00ffffffff, 0xffffffffffffffff));
  ((0x24018da000000000, 0x0000000000000000), (0x24018da0ffffffff, 0xffffffffffffffff));
  ((0x24018f4000000000, 0x0000000000000000), (0x24018f40ffffffff, 0xffffffffffffffff));
  ((0x24018fc000000000, 0x0000000000000000), (0x24018fc0ffffffff, 0xffffffffffffffff));
  ((0x240190a000000000, 0x0000000000000000), (0x240190a0ffffffff, 0xffffffffffffffff));
  ((0x2401926000000000, 0x0000000000000000), (0x24019260ffffffff, 0xffffffffffffffff));
  ((0x240192a000000000, 0x0000000000000000), (0x240192a0ffffffff, 0xffffffffffffffff));
  ((0x240192e000000000, 0x0000000000000000), (0x240192e0ffffffff, 0xffffffffffffffff));
  ((0x2401934000000000, 0x0000000000000000), (0x24019340ffffffff, 0xffffffffffffffff));
  ((0x240195e000000000, 0x0000000000000000), (0x240195e0ffffffff, 0xffffffffffffffff));
  ((0x2401960000000000, 0x0000000000000000), (0x24019600ffffffff, 0xffffffffffffffff));
  ((0x240196c000000000, 0x0000000000000000), (0x240196c0ffffffff, 0xffffffffffffffff));
  ((0x240196e000000000, 0x0000000000000000), (0x240196e0ffffffff, 0xffffffffffffffff));
  ((0x2401972000000000, 0x0000000000000000), (0x24019720ffffffff, 0xffffffffffffffff));
  ((0x2401974000000000, 0x0000000000000000), (0x24019740ffffffff, 0xffffffffffffffff));
  ((0x240197a000000000, 0x0000000000000000), (0x240197a0ffffffff, 0xffffffffffffffff));
  ((0x240198c000000000, 0x0000000000000000), (0x240198c0ffffffff, 0xffffffffffffffff));
  ((0x24019a0000000000, 0x0000000000000000), (0x24019a00ffffffff, 0xffffffffffffffff));
  ((0x24019ac000000000, 0x0000000000000000), (0x24019ac0ffffffff, 0xffffffffffffffff));
  ((0x24019b2000000000, 0x0000000000000000), (0x24019b21ffffffff, 0xffffffffffffffff));
  ((0x24019b4000000000, 0x0000000000000000), (0x24019b40ffffffff, 0xffffffffffffffff));
  ((0x24019b6000000000, 0x0000000000000000), (0x24019b60ffffffff, 0xffffffffffffffff));
  ((0x24019bc000000000, 0x0000000000000000), (0x24019bc0ffffffff, 0xffffffffffffffff));
  ((0x24019ca000000000, 0x0000000000000000), (0x24019ca0ffffffff, 0xffffffffffffffff));
  ((0x24019d2000000000, 0x0000000000000000), (0x24019d20ffffffff, 0xffffffffffffffff));
  ((0x24019dc000000000, 0x0000000000000000), (0x24019dc0ffffffff, 0xffffffffffffffff));
  ((0x24019e2000000000, 0x0000000000000000), (0x24019e20ffffffff, 0xffffffffffffffff));
  ((0x24019e4000000000, 0x0000000000000000), (0x24019e40ffffffff, 0xffffffffffffffff));
  ((0x24019f8000000000, 0x0000000000000000), (0x24019f80ffffffff, 0xffffffffffffffff));
  ((0x24019fa000000000, 0x0000000000000000), (0x24019fa0ffffffff, 0xffffffffffffffff));
  ((0x2401a14000000000, 0x0000000000000000), (0x2401a140ffffffff, 0xffffffffffffffff));
  ((0x2401a18000000000, 0x0000000000000000), (0x2401a180ffffffff, 0xffffffffffffffff));
  ((0x2401a2e000000000, 0x0000000000000000), (0x2401a2e0ffffffff, 0xffffffffffffffff));
  ((0x2401a34000000000, 0x0000000000000000), (0x2401a340ffffffff, 0xffffffffffffffff));
  ((0x2401a3a000000000, 0x0000000000000000), (0x2401a3a0ffffffff, 0xffffffffffffffff));
  ((0x2401a3c000000000, 0x0000000000000000), (0x2401a3c0ffffffff, 0xffffffffffffffff));
  ((0x2401a4c000000000, 0x0000000000000000), (0x2401a4c0ffffffff, 0xffffffffffffffff));
  ((0x2401a4e000000000, 0x0000000000000000), (0x2401a4e0ffffffff, 0xffffffffffffffff));
  ((0x2401a54000000000, 0x0000000000000000), (0x2401a540ffffffff, 0xffffffffffffffff));
  ((0x2401a5c000000000, 0x0000000000000000), (0x2401a5c0ffffffff, 0xffffffffffffffff));
  ((0x2401a62000000000, 0x0000000000000000), (0x2401a620ffffffff, 0xffffffffffffffff));
  ((0x2401a64000000000, 0x0000000000000000), (0x2401a640ffffffff, 0xffffffffffffffff));
  ((0x2401a6e000000000, 0x0000000000000000), (0x2401a6e0ffffffff, 0xffffffffffffffff));
  ((0x2401a72000000000, 0x0000000000000000), (0x2401a720ffffffff, 0xffffffffffffffff));
  ((0x2401a94000000000, 0x0000000000000000), (0x2401a940ffffffff, 0xffffffffffffffff));
  ((0x2401a98000000000, 0x0000000000000000), (0x2401a980ffffffff, 0xffffffffffffffff));
  ((0x2401a9a000000000, 0x0000000000000000), (0x2401a9a0ffffffff, 0xffffffffffffffff));
  ((0x2401aa0000000000, 0x0000000000000000), (0x2401aa00ffffffff, 0xffffffffffffffff));
  ((0x2401aa2000000000, 0x0000000000000000), (0x2401aa20ffffffff, 0xffffffffffffffff));
  ((0x2401aa4000000000, 0x0000000000000000), (0x2401aa40ffffffff, 0xffffffffffffffff));
  ((0x2401ab6000000000, 0x0000000000000000), (0x2401ab60ffffffff, 0xffffffffffffffff));
  ((0x2401aba000000000, 0x0000000000000000), (0x2401aba0ffffffff, 0xffffffffffffffff));
  ((0x2401acc000000000, 0x0000000000000000), (0x2401acc0ffffffff, 0xffffffffffffffff));
  ((0x2401ad4000000000, 0x0000000000000000), (0x2401ad40ffffffff, 0xffffffffffffffff));
  ((0x2401adc000000000, 0x0000000000000000), (0x2401adc0ffffffff, 0xffffffffffffffff));
  ((0x2401afa000000000, 0x0000000000000000), (0x2401afa0ffffffff, 0xffffffffffffffff));
  ((0x2401b04000000000, 0x0000000000000000), (0x2401b040ffffffff, 0xffffffffffffffff));
  ((0x2401b18000000000, 0x0000000000000000), (0x2401b180ffffffff, 0xffffffffffffffff));
  ((0x2401b22000000000, 0x0000000000000000), (0x2401b220ffffffff, 0xffffffffffffffff));
  ((0x2401b34000000000, 0x0000000000000000), (0x2401b340ffffffff, 0xffffffffffffffff));
  ((0x2401b36000000000, 0x0000000000000000), (0x2401b360ffffffff, 0xffffffffffffffff));
  ((0x2401b40000000000, 0x0000000000000000), (0x2401b400ffffffff, 0xffffffffffffffff));
  ((0x2401b48000000000, 0x0000000000000000), (0x2401b480ffffffff, 0xffffffffffffffff));
  ((0x2401b4c000000000, 0x0000000000000000), (0x2401b4c0ffffffff, 0xffffffffffffffff));
  ((0x2401b4e000000000, 0x0000000000000000), (0x2401b4e0ffffffff, 0xffffffffffffffff));
  ((0x2401b54000000000, 0x0000000000000000), (0x2401b540ffffffff, 0xffffffffffffffff));
  ((0x2401b58000000000, 0x0000000000000000), (0x2401b580ffffffff, 0xffffffffffffffff));
  ((0x2401b5a000000000, 0x0000000000000000), (0x2401b5a0ffffffff, 0xffffffffffffffff));
  ((0x2401b60000000000, 0x0000000000000000), (0x2401b600ffffffff, 0xffffffffffffffff));
  ((0x2401b68000000000, 0x0000000000000000), (0x2401b680ffffffff, 0xffffffffffffffff));
  ((0x2401b6c000000000, 0x0000000000000000), (0x2401b6c0ffffffff, 0xffffffffffffffff));
  ((0x2401b6e000000000, 0x0000000000000000), (0x2401b6e0ffffffff, 0xffffffffffffffff));
  ((0x2401b7c000000000, 0x0000000000000000), (0x2401b7c0ffffffff, 0xffffffffffffffff));
  ((0x2401b94000000000, 0x0000000000000000), (0x2401b940ffffffff, 0xffffffffffffffff));
  ((0x2401ba0000000000, 0x0000000000000000), (0x2401ba00ffffffff, 0xffffffffffffffff));
  ((0x2401ba4000000000, 0x0000000000000000), (0x2401ba40ffffffff, 0xffffffffffffffff));
  ((0x2401bb2000000000, 0x0000000000000000), (0x2401bb20ffffffff, 0xffffffffffffffff));
  ((0x2401bb8000000000, 0x0000000000000000), (0x2401bb80ffffffff, 0xffffffffffffffff));
  ((0x2401bc6000000000, 0x0000000000000000), (0x2401bc61ffffffff, 0xffffffffffffffff));
  ((0x2401bd6000000000, 0x0000000000000000), (0x2401bd60ffffffff, 0xffffffffffffffff));
  ((0x2401bda000000000, 0x0000000000000000), (0x2401bda0ffffffff, 0xffffffffffffffff));
  ((0x2401be0000000000, 0x0000000000000000), (0x2401be00ffffffff, 0xffffffffffffffff));
  ((0x2401bf2000000000, 0x0000000000000000), (0x2401bf20ffffffff, 0xffffffffffffffff));
  ((0x2401c02000000000, 0x0000000000000000), (0x2401c020ffffffff, 0xffffffffffffffff));
  ((0x2401c20000000000, 0x0000000000000000), (0x2401c200ffffffff, 0xffffffffffffffff));
  ((0x2401c54000000000, 0x0000000000000000), (0x2401c540ffffffff, 0xffffffffffffffff));
  ((0x2401c60000000000, 0x0000000000000000), (0x2401c600ffffffff, 0xffffffffffffffff));
  ((0x2401c64000000000, 0x0000000000000000), (0x2401c640ffffffff, 0xffffffffffffffff));
  ((0x2401c6c000000000, 0x0000000000000000), (0x2401c6c0ffffffff, 0xffffffffffffffff));
  ((0x2401c84000000000, 0x0000000000000000), (0x2401c840ffffffff, 0xffffffffffffffff));
  ((0x2401c8c000000000, 0x0000000000000000), (0x2401c8c0ffffffff, 0xffffffffffffffff));
  ((0x2401ca0000000000, 0x0000000000000000), (0x2401ca00ffffffff, 0xffffffffffffffff));
  ((0x2401ca2000000000, 0x0000000000000000), (0x2401ca20ffffffff, 0xffffffffffffffff));
  ((0x2401cb8000000000, 0x0000000000000000), (0x2401cb80ffffffff, 0xffffffffffffffff));
  ((0x2401cbe000000000, 0x0000000000000000), (0x2401cbe0ffffffff, 0xffffffffffffffff));
  ((0x2401cc0000000000, 0x0000000000000000), (0x2401cc00ffffffff, 0xffffffffffffffff));
  ((0x2401cc6000000000, 0x0000000000000000), (0x2401cc60ffffffff, 0xffffffffffffffff));
  ((0x2401ce0000000000, 0x0000000000000000), (0x2401ce00ffffffff, 0xffffffffffffffff));
  ((0x2401cf4000000000, 0x0000000000000000), (0x2401cf40ffffffff, 0xffffffffffffffff));
  ((0x2401cfc000000000, 0x0000000000000000), (0x2401cfc0ffffffff, 0xffffffffffffffff));
  ((0x2401cfe000000000, 0x0000000000000000), (0x2401cfe0ffffffff, 0xffffffffffffffff));
  ((0x2401d06000000000, 0x0000000000000000), (0x2401d060ffffffff, 0xffffffffffffffff));
  ((0x2401d0c000000000, 0x0000000000000000), (0x2401d0c0ffffffff, 0xffffffffffffffff));
  ((0x2401d0e000000000, 0x0000000000000000), (0x2401d0e0ffffffff, 0xffffffffffffffff));
  ((0x2401d14000000000, 0x0000000000000000), (0x2401d140ffffffff, 0xffffffffffffffff));
  ((0x2401d18000000000, 0x0000000000000000), (0x2401d180ffffffff, 0xffffffffffffffff));
  ((0x2401d2c000000000, 0x0000000000000000), (0x2401d2c0ffffffff, 0xffffffffffffffff));
  ((0x2401d34000000000, 0x0000000000000000), (0x2401d340ffffffff, 0xffffffffffffffff));
  ((0x2401d42000000000, 0x0000000000000000), (0x2401d420ffffffff, 0xffffffffffffffff));
  ((0x2401d78000000000, 0x0000000000000000), (0x2401d780ffffffff, 0xffffffffffffffff));
  ((0x2401d7e000000000, 0x0000000000000000), (0x2401d7e0ffffffff, 0xffffffffffffffff));
  ((0x2401d8e000000000, 0x0000000000000000), (0x2401d8e0ffffffff, 0xffffffffffffffff));
  ((0x2401d92000000000, 0x0000000000000000), (0x2401d92fffffffff, 0xffffffffffffffff));
  ((0x2401da0000000000, 0x0000000000000000), (0x2401da00ffffffff, 0xffffffffffffffff));
  ((0x2401dbe000000000, 0x0000000000000000), (0x2401dbe0ffffffff, 0xffffffffffffffff));
  ((0x2401dd2000000000, 0x0000000000000000), (0x2401dd20ffffffff, 0xffffffffffffffff));
  ((0x2401dd6000000000, 0x0000000000000000), (0x2401dd60ffffffff, 0xffffffffffffffff));
  ((0x2401de0000000000, 0x0000000000000000), (0x2401de00ffffffff, 0xffffffffffffffff));
  ((0x2401dfe000000000, 0x0000000000000000), (0x2401dfe0ffffffff, 0xffffffffffffffff));
  ((0x2401e02000000000, 0x0000000000000000), (0x2401e020ffffffff, 0xffffffffffffffff));
  ((0x2401e08000000000, 0x0000000000000000), (0x2401e080ffffffff, 0xffffffffffffffff));
  ((0x2401e0c000000000, 0x0000000000000000), (0x2401e0c0ffffffff, 0xffffffffffffffff));
  ((0x2401e14000000000, 0x0000000000000000), (0x2401e140ffffffff, 0xffffffffffffffff));
  ((0x2401e24000000000, 0x0000000000000000), (0x2401e240ffffffff, 0xffffffffffffffff));
  ((0x2401e2c000000000, 0x0000000000000000), (0x2401e2c0ffffffff, 0xffffffffffffffff));
  ((0x2401e34000000000, 0x0000000000000000), (0x2401e340ffffffff, 0xffffffffffffffff));
  ((0x2401e36000000000, 0x0000000000000000), (0x2401e360ffffffff, 0xffffffffffffffff));
  ((0x2401e62000000000, 0x0000000000000000), (0x2401e620ffffffff, 0xffffffffffffffff));
  ((0x2401e84000000000, 0x0000000000000000), (0x2401e840ffffffff, 0xffffffffffffffff));
  ((0x2401e8c000000000, 0x0000000000000000), (0x2401e8c0ffffffff, 0xffffffffffffffff));
  ((0x2401e94000000000, 0x0000000000000000), (0x2401e940ffffffff, 0xffffffffffffffff));
  ((0x2401e9c000000000, 0x0000000000000000), (0x2401e9c0ffffffff, 0xffffffffffffffff));
  ((0x2401ec0000000000, 0x0000000000000000), (0x2401ec00ffffffff, 0xffffffffffffffff));
  ((0x2401ec4000000000, 0x0000000000000000), (0x2401ec40ffffffff, 0xffffffffffffffff));
  ((0x2401f0a000000000, 0x0000000000000000), (0x2401f0a0ffffffff, 0xffffffffffffffff));
  ((0x2401f0e000000000, 0x0000000000000000), (0x2401f0e0ffffffff, 0xffffffffffffffff));
  ((0x2401f22000000000, 0x0000000000000000), (0x2401f220ffffffff, 0xffffffffffffffff));
  ((0x2401f30000000000, 0x0000000000000000), (0x2401f300ffffffff, 0xffffffffffffffff));
  ((0x2401f32000000000, 0x0000000000000000), (0x2401f320ffffffff, 0xffffffffffffffff));
  ((0x2401f3e000000000, 0x0000000000000000), (0x2401f3e0ffffffff, 0xffffffffffffffff));
  ((0x2401f7c000000000, 0x0000000000000000), (0x2401f7c0ffffffff, 0xffffffffffffffff));
  ((0x2401f86000000000, 0x0000000000000000), (0x2401f860ffffffff, 0xffffffffffffffff));
  ((0x2401fa8000000000, 0x0000000000000000), (0x2401fa80ffffffff, 0xffffffffffffffff));
  ((0x2401fb8000000000, 0x0000000000000000), (0x2401fb80ffffffff, 0xffffffffffffffff));
  ((0x2401fc6000000000, 0x0000000000000000), (0x2401fc60ffffffff, 0xffffffffffffffff));
  ((0x2401fc8000000000, 0x0000000000000000), (0x2401fc80ffffffff, 0xffffffffffffffff));
  ((0x2401ffc000000000, 0x0000000000000000), (0x2401ffc0ffffffff, 0xffffffffffffffff));
  ((0x2402044000000000, 0x0000000000000000), (0x24020440ffffffff, 0xffffffffffffffff));
  ((0x240205c000000000, 0x0000000000000000), (0x240205c0ffffffff, 0xffffffffffffffff));
  ((0x2402084000000000, 0x0000000000000000), (0x24020840ffffffff, 0xffffffffffffffff));
  ((0x24020a6000000000, 0x0000000000000000), (0x24020a60ffffffff, 0xffffffffffffffff));
  ((0x24020c2000000000, 0x0000000000000000), (0x24020c20ffffffff, 0xffffffffffffffff));
  ((0x24020c6000000000, 0x0000000000000000), (0x24020c60ffffffff, 0xffffffffffffffff));
  ((0x24020e0000000000, 0x0000000000000000), (0x24020e00ffffffff, 0xffffffffffffffff));
  ((0x24020fc000000000, 0x0000000000000000), (0x24020fc0ffffffff, 0xffffffffffffffff));
  ((0x2402100000000000, 0x0000000000000000), (0x24021000ffffffff, 0xffffffffffffffff));
  ((0x2402116000000000, 0x0000000000000000), (0x24021160ffffffff, 0xffffffffffffffff));
  ((0x2402144000000000, 0x0000000000000000), (0x24021440ffffffff, 0xffffffffffffffff));
  ((0x2402146000000000, 0x0000000000000000), (0x24021460ffffffff, 0xffffffffffffffff));
  ((0x240214c000000000, 0x0000000000000000), (0x240214c0ffffffff, 0xffffffffffffffff));
  ((0x2402152000000000, 0x0000000000000000), (0x24021520ffffffff, 0xffffffffffffffff));
  ((0x2402160000000000, 0x0000000000000000), (0x24021600ffffffff, 0xffffffffffffffff));
  ((0x240216e000000000, 0x0000000000000000), (0x240216e0ffffffff, 0xffffffffffffffff));
  ((0x2402174000000000, 0x0000000000000000), (0x24021740ffffffff, 0xffffffffffffffff));
  ((0x240218a000000000, 0x0000000000000000), (0x240218a0ffffffff, 0xffffffffffffffff));
  ((0x240219c000000000, 0x0000000000000000), (0x240219c0ffffffff, 0xffffffffffffffff));
  ((0x24021be000000000, 0x0000000000000000), (0x24021be0ffffffff, 0xffffffffffffffff));
  ((0x24021c2000000000, 0x0000000000000000), (0x24021c20ffffffff, 0xffffffffffffffff));
  ((0x24021f8000000000, 0x0000000000000000), (0x24021f80ffffffff, 0xffffffffffffffff));
  ((0x2402200000000000, 0x0000000000000000), (0x24022000ffffffff, 0xffffffffffffffff));
  ((0x240220e000000000, 0x0000000000000000), (0x240220e0ffffffff, 0xffffffffffffffff));
  ((0x2402228000000000, 0x0000000000000000), (0x24022280ffffffff, 0xffffffffffffffff));
  ((0x2402244000000000, 0x0000000000000000), (0x24022440ffffffff, 0xffffffffffffffff));
  ((0x240224c000000000, 0x0000000000000000), (0x240224c0ffffffff, 0xffffffffffffffff));
  ((0x2402254000000000, 0x0000000000000000), (0x24022540ffffffff, 0xffffffffffffffff));
  ((0x2402262000000000, 0x0000000000000000), (0x24022620ffffffff, 0xffffffffffffffff));
  ((0x2402264000000000, 0x0000000000000000), (0x24022640ffffffff, 0xffffffffffffffff));
  ((0x2402276000000000, 0x0000000000000000), (0x24022760ffffffff, 0xffffffffffffffff));
  ((0x24022a0000000000, 0x0000000000000000), (0x24022a00ffffffff, 0xffffffffffffffff));
  ((0x24022b8000000000, 0x0000000000000000), (0x24022b80ffffffff, 0xffffffffffffffff));
  ((0x24022bc000000000, 0x0000000000000000), (0x24022bc0ffffffff, 0xffffffffffffffff));
  ((0x24022ca000000000, 0x0000000000000000), (0x24022ca0ffffffff, 0xffffffffffffffff));
  ((0x24022d0000000000, 0x0000000000000000), (0x24022d00ffffffff, 0xffffffffffffffff));
  ((0x24022d8000000000, 0x0000000000000000), (0x24022d80ffffffff, 0xffffffffffffffff));
  ((0x24022e6000000000, 0x0000000000000000), (0x24022e60ffffffff, 0xffffffffffffffff));
  ((0x24022e8000000000, 0x0000000000000000), (0x24022e80ffffffff, 0xffffffffffffffff));
  ((0x24022f4000000000, 0x0000000000000000), (0x24022f40ffffffff, 0xffffffffffffffff));
  ((0x2402304000000000, 0x0000000000000000), (0x24023040ffffffff, 0xffffffffffffffff));
  ((0x2402314000000000, 0x0000000000000000), (0x24023140ffffffff, 0xffffffffffffffff));
  ((0x2402318000000000, 0x0000000000000000), (0x24023180ffffffff, 0xffffffffffffffff));
  ((0x240231c000000000, 0x0000000000000000), (0x240231c0ffffffff, 0xffffffffffffffff));
  ((0x2402324000000000, 0x0000000000000000), (0x24023240ffffffff, 0xffffffffffffffff));
  ((0x240232e000000000, 0x0000000000000000), (0x240232e0ffffffff, 0xffffffffffffffff));
  ((0x2402332000000000, 0x0000000000000000), (0x24023320ffffffff, 0xffffffffffffffff));
  ((0x240233a000000000, 0x0000000000000000), (0x240233a0ffffffff, 0xffffffffffffffff));
  ((0x240233c000000000, 0x0000000000000000), (0x240233c0ffffffff, 0xffffffffffffffff));
  ((0x240233e000000000, 0x0000000000000000), (0x240233e0ffffffff, 0xffffffffffffffff));
  ((0x240234e000000000, 0x0000000000000000), (0x240234e0ffffffff, 0xffffffffffffffff));
  ((0x240236e000000000, 0x0000000000000000), (0x240236e0ffffffff, 0xffffffffffffffff));
  ((0x240239c000000000, 0x0000000000000000), (0x240239c0ffffffff, 0xffffffffffffffff));
  ((0x24023a4000000000, 0x0000000000000000), (0x24023a40ffffffff, 0xffffffffffffffff));
  ((0x24023ac000000000, 0x0000000000000000), (0x24023ac0ffffffff, 0xffffffffffffffff));
  ((0x24023ba000000000, 0x0000000000000000), (0x24023ba0ffffffff, 0xffffffffffffffff));
  ((0x24023c0000000000, 0x0000000000000000), (0x24023c00ffffffff, 0xffffffffffffffff));
  ((0x24023d2000000000, 0x0000000000000000), (0x24023d20ffffffff, 0xffffffffffffffff));
  ((0x24023de000000000, 0x0000000000000000), (0x24023de0ffffffff, 0xffffffffffffffff));
  ((0x24023e0000000000, 0x0000000000000000), (0x24023e00ffffffff, 0xffffffffffffffff));
  ((0x24023ec000000000, 0x0000000000000000), (0x24023ec0ffffffff, 0xffffffffffffffff));
  ((0x24023f8000000000, 0x0000000000000000), (0x24023f80ffffffff, 0xffffffffffffffff));
  ((0x2402406000000000, 0x0000000000000000), (0x24024060ffffffff, 0xffffffffffffffff));
  ((0x2402414000000000, 0x0000000000000000), (0x24024140ffffffff, 0xffffffffffffffff));
  ((0x240242c000000000, 0x0000000000000000), (0x240242c0ffffffff, 0xffffffffffffffff));
  ((0x2402434000000000, 0x0000000000000000), (0x24024340ffffffff, 0xffffffffffffffff));
  ((0x240243c000000000, 0x0000000000000000), (0x240243c0ffffffff, 0xffffffffffffffff));
  ((0x2402444000000000, 0x0000000000000000), (0x24024440ffffffff, 0xffffffffffffffff));
  ((0x2402450000000000, 0x0000000000000000), (0x24024500ffffffff, 0xffffffffffffffff));
  ((0x2402454000000000, 0x0000000000000000), (0x24024540ffffffff, 0xffffffffffffffff));
  ((0x2402482000000000, 0x0000000000000000), (0x24024820ffffffff, 0xffffffffffffffff));
  ((0x24024a0000000000, 0x0000000000000000), (0x24024a00ffffffff, 0xffffffffffffffff));
  ((0x24024a4000000000, 0x0000000000000000), (0x24024a40ffffffff, 0xffffffffffffffff));
  ((0x24024a8000000000, 0x0000000000000000), (0x24024a80ffffffff, 0xffffffffffffffff));
  ((0x24024ac000000000, 0x0000000000000000), (0x24024ac0ffffffff, 0xffffffffffffffff));
  ((0x24024b8000000000, 0x0000000000000000), (0x24024b80ffffffff, 0xffffffffffffffff));
  ((0x24024bc000000000, 0x0000000000000000), (0x24024bc0ffffffff, 0xffffffffffffffff));
  ((0x24024be000000000, 0x0000000000000000), (0x24024be0ffffffff, 0xffffffffffffffff));
  ((0x24024c4000000000, 0x0000000000000000), (0x24024c40ffffffff, 0xffffffffffffffff));
  ((0x24024d6000000000, 0x0000000000000000), (0x24024d60ffffffff, 0xffffffffffffffff));
  ((0x24024d8000000000, 0x0000000000000000), (0x24024d80ffffffff, 0xffffffffffffffff));
  ((0x24024e0000000000, 0x0000000000000000), (0x24024e00ffffffff, 0xffffffffffffffff));
  ((0x24024ec000000000, 0x0000000000000000), (0x24024ec0ffffffff, 0xffffffffffffffff));
  ((0x24024f8000000000, 0x0000000000000000), (0x24024f80ffffffff, 0xffffffffffffffff));
  ((0x240250a000000000, 0x0000000000000000), (0x240250a0ffffffff, 0xffffffffffffffff));
  ((0x2402518000000000, 0x0000000000000000), (0x24025180ffffffff, 0xffffffffffffffff));
  ((0x240251a000000000, 0x0000000000000000), (0x240251a0ffffffff, 0xffffffffffffffff));
  ((0x2402534000000000, 0x0000000000000000), (0x24025340ffffffff, 0xffffffffffffffff));
  ((0x2402582000000000, 0x0000000000000000), (0x24025820ffffffff, 0xffffffffffffffff));
  ((0x2402588000000000, 0x0000000000000000), (0x24025880ffffffff, 0xffffffffffffffff));
  ((0x2402592000000000, 0x0000000000000000), (0x24025920ffffffff, 0xffffffffffffffff));
  ((0x2402594000000000, 0x0000000000000000), (0x24025940ffffffff, 0xffffffffffffffff));
  ((0x240259c000000000, 0x0000000000000000), (0x240259c0ffffffff, 0xffffffffffffffff));
  ((0x24025a4000000000, 0x0000000000000000), (0x24025a40ffffffff, 0xffffffffffffffff));
  ((0x24025b4000000000, 0x0000000000000000), (0x24025b40ffffffff, 0xffffffffffffffff));
  ((0x24025bc000000000, 0x0000000000000000), (0x24025bc0ffffffff, 0xffffffffffffffff));
  ((0x24025d0000000000, 0x0000000000000000), (0x24025d00ffffffff, 0xffffffffffffffff));
  ((0x24025e0000000000, 0x0000000000000000), (0x24025e00ffffffff, 0xffffffffffffffff));
  ((0x24025e4000000000, 0x0000000000000000), (0x24025e40ffffffff, 0xffffffffffffffff));
  ((0x24025ec000000000, 0x0000000000000000), (0x24025ec0ffffffff, 0xffffffffffffffff));
  ((0x24025f2000000000, 0x0000000000000000), (0x24025f20ffffffff, 0xffffffffffffffff));
  ((0x24025f4000000000, 0x0000000000000000), (0x24025f40ffffffff, 0xffffffffffffffff));
  ((0x2402606000000000, 0x0000000000000000), (0x24026060ffffffff, 0xffffffffffffffff));
  ((0x2402628000000000, 0x0000000000000000), (0x24026280ffffffff, 0xffffffffffffffff));
  ((0x240262c000000000, 0x0000000000000000), (0x240262c0ffffffff, 0xffffffffffffffff));
  ((0x2402632000000000, 0x0000000000000000), (0x24026320ffffffff, 0xffffffffffffffff));
  ((0x240264c000000000, 0x0000000000000000), (0x240264c0ffffffff, 0xffffffffffffffff));
  ((0x240266c000000000, 0x0000000000000000), (0x240266c0ffffffff, 0xffffffffffffffff));
  ((0x2402674000000000, 0x0000000000000000), (0x24026740ffffffff, 0xffffffffffffffff));
  ((0x240267c000000000, 0x0000000000000000), (0x240267c0ffffffff, 0xffffffffffffffff));
  ((0x2402696000000000, 0x0000000000000000), (0x24026960ffffffff, 0xffffffffffffffff));
  ((0x24026a0000000000, 0x0000000000000000), (0x24026a00ffffffff, 0xffffffffffffffff));
  ((0x24026b4000000000, 0x0000000000000000), (0x24026b40ffffffff, 0xffffffffffffffff));
  ((0x24026bc000000000, 0x0000000000000000), (0x24026bc0ffffffff, 0xffffffffffffffff));
  ((0x24026e0000000000, 0x0000000000000000), (0x24026e00ffffffff, 0xffffffffffffffff));
  ((0x24026e8000000000, 0x0000000000000000), (0x24026e80ffffffff, 0xffffffffffffffff));
  ((0x24026f4000000000, 0x0000000000000000), (0x24026f40ffffffff, 0xffffffffffffffff));
  ((0x24026fc000000000, 0x0000000000000000), (0x24026fc0ffffffff, 0xffffffffffffffff));
  ((0x2402704000000000, 0x0000000000000000), (0x24027040ffffffff, 0xffffffffffffffff));
  ((0x2402706000000000, 0x0000000000000000), (0x24027060ffffffff, 0xffffffffffffffff));
  ((0x2402708000000000, 0x0000000000000000), (0x24027080ffffffff, 0xffffffffffffffff));
  ((0x240270a000000000, 0x0000000000000000), (0x240270a7ffffffff, 0xffffffffffffffff));
  ((0x240270c000000000, 0x0000000000000000), (0x240270c0ffffffff, 0xffffffffffffffff));
  ((0x2402714000000000, 0x0000000000000000), (0x24027140ffffffff, 0xffffffffffffffff));
  ((0x240271c000000000, 0x0000000000000000), (0x240271c0ffffffff, 0xffffffffffffffff));
  ((0x2402724000000000, 0x0000000000000000), (0x24027240ffffffff, 0xffffffffffffffff));
  ((0x240272c000000000, 0x0000000000000000), (0x240272c0ffffffff, 0xffffffffffffffff));
  ((0x2402754000000000, 0x0000000000000000), (0x24027540ffffffff, 0xffffffffffffffff));
  ((0x240275c000000000, 0x0000000000000000), (0x240275c0ffffffff, 0xffffffffffffffff));
  ((0x2402774000000000, 0x0000000000000000), (0x24027740ffffffff, 0xffffffffffffffff));
  ((0x24027d0000000000, 0x0000000000000000), (0x24027d00ffffffff, 0xffffffffffffffff));
  ((0x24027d8000000000, 0x0000000000000000), (0x24027d80ffffffff, 0xffffffffffffffff));
  ((0x2402818000000000, 0x0000000000000000), (0x24028180ffffffff, 0xffffffffffffffff));
  ((0x2402830000000000, 0x0000000000000000), (0x24028300ffffffff, 0xffffffffffffffff));
  ((0x2402838000000000, 0x0000000000000000), (0x24028380ffffffff, 0xffffffffffffffff));
  ((0x240285c000000000, 0x0000000000000000), (0x240285c0ffffffff, 0xffffffffffffffff));
  ((0x2402880000000000, 0x0000000000000000), (0x24028800ffffffff, 0xffffffffffffffff));
  ((0x2402884000000000, 0x0000000000000000), (0x24028840ffffffff, 0xffffffffffffffff));
  ((0x2402890000000000, 0x0000000000000000), (0x24028900ffffffff, 0xffffffffffffffff));
  ((0x2402894000000000, 0x0000000000000000), (0x24028940ffffffff, 0xffffffffffffffff));
  ((0x240289c000000000, 0x0000000000000000), (0x240289c0ffffffff, 0xffffffffffffffff));
  ((0x24028b4000000000, 0x0000000000000000), (0x24028b40ffffffff, 0xffffffffffffffff));
  ((0x24028bc000000000, 0x0000000000000000), (0x24028bc0ffffffff, 0xffffffffffffffff));
  ((0x24028cc000000000, 0x0000000000000000), (0x24028cc0ffffffff, 0xffffffffffffffff));
  ((0x24028d4000000000, 0x0000000000000000), (0x24028d40ffffffff, 0xffffffffffffffff));
  ((0x24028f4000000000, 0x0000000000000000), (0x24028f40ffffffff, 0xffffffffffffffff));
  ((0x24028f8000000000, 0x0000000000000000), (0x24028f80ffffffff, 0xffffffffffffffff));
  ((0x2402924000000000, 0x0000000000000000), (0x24029240ffffffff, 0xffffffffffffffff));
  ((0x240292c000000000, 0x0000000000000000), (0x240292c0ffffffff, 0xffffffffffffffff));
  ((0x240293c000000000, 0x0000000000000000), (0x240293c0ffffffff, 0xffffffffffffffff));
  ((0x2402944000000000, 0x0000000000000000), (0x24029440ffffffff, 0xffffffffffffffff));
  ((0x2402948000000000, 0x0000000000000000), (0x24029480ffffffff, 0xffffffffffffffff));
  ((0x240294c000000000, 0x0000000000000000), (0x240294c0ffffffff, 0xffffffffffffffff));
  ((0x2402958000000000, 0x0000000000000000), (0x24029580ffffffff, 0xffffffffffffffff));
  ((0x240295c000000000, 0x0000000000000000), (0x240295c0ffffffff, 0xffffffffffffffff));
  ((0x2402968000000000, 0x0000000000000000), (0x24029680ffffffff, 0xffffffffffffffff));
  ((0x240296c000000000, 0x0000000000000000), (0x240296c0ffffffff, 0xffffffffffffffff));
  ((0x2402984000000000, 0x0000000000000000), (0x24029840ffffffff, 0xffffffffffffffff));
  ((0x240298c000000000, 0x0000000000000000), (0x240298c0ffffffff, 0xffffffffffffffff));
  ((0x2402994000000000, 0x0000000000000000), (0x24029940ffffffff, 0xffffffffffffffff));
  ((0x24029a8000000000, 0x0000000000000000), (0x24029a80ffffffff, 0xffffffffffffffff));
  ((0x24029b8000000000, 0x0000000000000000), (0x24029b80ffffffff, 0xffffffffffffffff));
  ((0x24029f8000000000, 0x0000000000000000), (0x24029f80ffffffff, 0xffffffffffffffff));
  ((0x24029fc000000000, 0x0000000000000000), (0x24029fc0ffffffff, 0xffffffffffffffff));
  ((0x2402a08000000000, 0x0000000000000000), (0x2402a080ffffffff, 0xffffffffffffffff));
  ((0x2402a18000000000, 0x0000000000000000), (0x2402a180ffffffff, 0xffffffffffffffff));
  ((0x2402a20000000000, 0x0000000000000000), (0x2402a200ffffffff, 0xffffffffffffffff));
  ((0x2402a24000000000, 0x0000000000000000), (0x2402a240ffffffff, 0xffffffffffffffff));
  ((0x2402a28000000000, 0x0000000000000000), (0x2402a280ffffffff, 0xffffffffffffffff));
  ((0x2402a38000000000, 0x0000000000000000), (0x2402a380ffffffff, 0xffffffffffffffff));
  ((0x2402a64000000000, 0x0000000000000000), (0x2402a640ffffffff, 0xffffffffffffffff));
  ((0x2402a68000000000, 0x0000000000000000), (0x2402a680ffffffff, 0xffffffffffffffff));
  ((0x2402a6c000000000, 0x0000000000000000), (0x2402a6c0ffffffff, 0xffffffffffffffff));
  ((0x2402a84000000000, 0x0000000000000000), (0x2402a840ffffffff, 0xffffffffffffffff));
  ((0x2402a88000000000, 0x0000000000000000), (0x2402a880ffffffff, 0xffffffffffffffff));
  ((0x2402aa8000000000, 0x0000000000000000), (0x2402aa80ffffffff, 0xffffffffffffffff));
  ((0x2402ab8000000000, 0x0000000000000000), (0x2402ab80ffffffff, 0xffffffffffffffff));
  ((0x2402ae0000000000, 0x0000000000000000), (0x2402ae00ffffffff, 0xffffffffffffffff));
  ((0x2402ae4000000000, 0x0000000000000000), (0x2402ae40ffffffff, 0xffffffffffffffff));
  ((0x2402aec000000000, 0x0000000000000000), (0x2402aec0ffffffff, 0xffffffffffffffff));
  ((0x2402af8000000000, 0x0000000000000000), (0x2402af80ffffffff, 0xffffffffffffffff));
  ((0x2402afc000000000, 0x0000000000000000), (0x2402afc0ffffffff, 0xffffffffffffffff));
  ((0x2402b08000000000, 0x0000000000000000), (0x2402b080ffffffff, 0xffffffffffffffff));
  ((0x2402b20000000000, 0x0000000000000000), (0x2402b200ffffffff, 0xffffffffffffffff));
  ((0x2402b44000000000, 0x0000000000000000), (0x2402b440ffffffff, 0xffffffffffffffff));
  ((0x2402b6c000000000, 0x0000000000000000), (0x2402b6c0ffffffff, 0xffffffffffffffff));
  ((0x2402b88000000000, 0x0000000000000000), (0x2402b880ffffffff, 0xffffffffffffffff));
  ((0x2402b8c000000000, 0x0000000000000000), (0x2402b8c0ffffffff, 0xffffffffffffffff));
  ((0x2402b94000000000, 0x0000000000000000), (0x2402b940ffffffff, 0xffffffffffffffff));
  ((0x2402b98000000000, 0x0000000000000000), (0x2402b980ffffffff, 0xffffffffffffffff));
  ((0x2402ba8000000000, 0x0000000000000000), (0x2402ba80ffffffff, 0xffffffffffffffff));
  ((0x2402bac000000000, 0x0000000000000000), (0x2402bac0ffffffff, 0xffffffffffffffff));
  ((0x2402bbc000000000, 0x0000000000000000), (0x2402bbc0ffffffff, 0xffffffffffffffff));
  ((0x2402bf8000000000, 0x0000000000000000), (0x2402bf80ffffffff, 0xffffffffffffffff));
  ((0x2402c28000000000, 0x0000000000000000), (0x2402c280ffffffff, 0xffffffffffffffff));
  ((0x2402c3c000000000, 0x0000000000000000), (0x2402c3c0ffffffff, 0xffffffffffffffff));
  ((0x2402c5c000000000, 0x0000000000000000), (0x2402c5c0ffffffff, 0xffffffffffffffff));
  ((0x2402c9c000000000, 0x0000000000000000), (0x2402c9c0ffffffff, 0xffffffffffffffff));
  ((0x2402cc4000000000, 0x0000000000000000), (0x2402cc40ffffffff, 0xffffffffffffffff));
  ((0x2402cf0000000000, 0x0000000000000000), (0x2402cf00ffffffff, 0xffffffffffffffff));
  ((0x2402cf4000000000, 0x0000000000000000), (0x2402cf40ffffffff, 0xffffffffffffffff));
  ((0x2402d04000000000, 0x0000000000000000), (0x2402d040ffffffff, 0xffffffffffffffff));
  ((0x2402d14000000000, 0x0000000000000000), (0x2402d140ffffffff, 0xffffffffffffffff));
  ((0x2402d2c000000000, 0x0000000000000000), (0x2402d2c0ffffffff, 0xffffffffffffffff));
  ((0x2402d30000000000, 0x0000000000000000), (0x2402d300ffffffff, 0xffffffffffffffff));
  ((0x2402d34000000000, 0x0000000000000000), (0x2402d340ffffffff, 0xffffffffffffffff));
  ((0x2402d38000000000, 0x0000000000000000), (0x2402d380ffffffff, 0xffffffffffffffff));
  ((0x2402d5c000000000, 0x0000000000000000), (0x2402d5c0ffffffff, 0xffffffffffffffff));
  ((0x2402d6c000000000, 0x0000000000000000), (0x2402d6c0ffffffff, 0xffffffffffffffff));
  ((0x2402d74000000000, 0x0000000000000000), (0x2402d740ffffffff, 0xffffffffffffffff));
  ((0x2402d78000000000, 0x0000000000000000), (0x2402d780ffffffff, 0xffffffffffffffff));
  ((0x2402d88000000000, 0x0000000000000000), (0x2402d880ffffffff, 0xffffffffffffffff));
  ((0x2402d98000000000, 0x0000000000000000), (0x2402d980ffffffff, 0xffffffffffffffff));
  ((0x2402da4000000000, 0x0000000000000000), (0x2402da40ffffffff, 0xffffffffffffffff));
  ((0x2402db4000000000, 0x0000000000000000), (0x2402db40ffffffff, 0xffffffffffffffff));
  ((0x2402dcc000000000, 0x0000000000000000), (0x2402dcc0ffffffff, 0xffffffffffffffff));
  ((0x2402de4000000000, 0x0000000000000000), (0x2402de40ffffffff, 0xffffffffffffffff));
  ((0x2402dec000000000, 0x0000000000000000), (0x2402dec0ffffffff, 0xffffffffffffffff));
  ((0x2402df4000000000, 0x0000000000000000), (0x2402df40ffffffff, 0xffffffffffffffff));
  ((0x2402dfc000000000, 0x0000000000000000), (0x2402dfc0ffffffff, 0xffffffffffffffff));
  ((0x2402e04000000000, 0x0000000000000000), (0x2402e040ffffffff, 0xffffffffffffffff));
  ((0x2402e0c000000000, 0x0000000000000000), (0x2402e0c0ffffffff, 0xffffffffffffffff));
  ((0x2402e14000000000, 0x0000000000000000), (0x2402e140ffffffff, 0xffffffffffffffff));
  ((0x2402e2c000000000, 0x0000000000000000), (0x2402e2c0ffffffff, 0xffffffffffffffff));
  ((0x2402e3c000000000, 0x0000000000000000), (0x2402e3c0ffffffff, 0xffffffffffffffff));
  ((0x2402e48000000000, 0x0000000000000000), (0x2402e480ffffffff, 0xffffffffffffffff));
  ((0x2402e54000000000, 0x0000000000000000), (0x2402e540ffffffff, 0xffffffffffffffff));
  ((0x2402e68000000000, 0x0000000000000000), (0x2402e680ffffffff, 0xffffffffffffffff));
  ((0x2402e74000000000, 0x0000000000000000), (0x2402e740ffffffff, 0xffffffffffffffff));
  ((0x2402e78000000000, 0x0000000000000000), (0x2402e780ffffffff, 0xffffffffffffffff));
  ((0x2402e7c000000000, 0x0000000000000000), (0x2402e7c0ffffffff, 0xffffffffffffffff));
  ((0x2402e88000000000, 0x0000000000000000), (0x2402e880ffffffff, 0xffffffffffffffff));
  ((0x2402e98000000000, 0x0000000000000000), (0x2402e980ffffffff, 0xffffffffffffffff));
  ((0x2402eb8000000000, 0x0000000000000000), (0x2402eb80ffffffff, 0xffffffffffffffff));
  ((0x2402ec8000000000, 0x0000000000000000), (0x2402ec80ffffffff, 0xffffffffffffffff));
  ((0x2402ed8000000000, 0x0000000000000000), (0x2402ed80ffffffff, 0xffffffffffffffff));
  ((0x2402ef4000000000, 0x0000000000000000), (0x2402ef40ffffffff, 0xffffffffffffffff));
  ((0x2402ef8000000000, 0x0000000000000000), (0x2402ef80ffffffff, 0xffffffffffffffff));
  ((0x2402f00000000000, 0x0000000000000000), (0x2402f000ffffffff, 0xffffffffffffffff));
  ((0x2402f14000000000, 0x0000000000000000), (0x2402f140ffffffff, 0xffffffffffffffff));
  ((0x2402f48000000000, 0x0000000000000000), (0x2402f480ffffffff, 0xffffffffffffffff));
  ((0x2402f54000000000, 0x0000000000000000), (0x2402f540ffffffff, 0xffffffffffffffff));
  ((0x2402f58000000000, 0x0000000000000000), (0x2402f580ffffffff, 0xffffffffffffffff));
  ((0x2402f78000000000, 0x0000000000000000), (0x2402f780ffffffff, 0xffffffffffffffff));
  ((0x2402f8c000000000, 0x0000000000000000), (0x2402f8c0ffffffff, 0xffffffffffffffff));
  ((0x2402f98000000000, 0x0000000000000000), (0x2402f980ffffffff, 0xffffffffffffffff));
  ((0x2402f9c000000000, 0x0000000000000000), (0x2402f9c0ffffffff, 0xffffffffffffffff));
  ((0x2402fac000000000, 0x0000000000000000), (0x2402fac0ffffffff, 0xffffffffffffffff));
  ((0x2402fcc000000000, 0x0000000000000000), (0x2402fcc0ffffffff, 0xffffffffffffffff));
  ((0x2402ff4000000000, 0x0000000000000000), (0x2402ff40ffffffff, 0xffffffffffffffff));
  ((0x2402ffc000000000, 0x0000000000000000), (0x2402ffc0ffffffff, 0xffffffffffffffff));
  ((0x2403060000000000, 0x0000000000000000), (0x24030600ffffffff, 0xffffffffffffffff));
  ((0x2403070000000000, 0x0000000000000000), (0x24030700ffffffff, 0xffffffffffffffff));
  ((0x240307c000000000, 0x0000000000000000), (0x240307c0ffffffff, 0xffffffffffffffff));
  ((0x2403080000000000, 0x0000000000000000), (0x24030801ffffffff, 0xffffffffffffffff));
  ((0x2403098000000000, 0x0000000000000000), (0x24030980ffffffff, 0xffffffffffffffff));
  ((0x24030a8000000000, 0x0000000000000000), (0x24030a80ffffffff, 0xffffffffffffffff));
  ((0x24030b8000000000, 0x0000000000000000), (0x24030b80ffffffff, 0xffffffffffffffff));
  ((0x24030c8000000000, 0x0000000000000000), (0x24030c80ffffffff, 0xffffffffffffffff));
  ((0x24030d4000000000, 0x0000000000000000), (0x24030d40ffffffff, 0xffffffffffffffff));
  ((0x24030d8000000000, 0x0000000000000000), (0x24030d80ffffffff, 0xffffffffffffffff));
  ((0x24030e8000000000, 0x0000000000000000), (0x24030e80ffffffff, 0xffffffffffffffff));
  ((0x24030f0000000000, 0x0000000000000000), (0x24030f00ffffffff, 0xffffffffffffffff));
  ((0x24030f8000000000, 0x0000000000000000), (0x24030f80ffffffff, 0xffffffffffffffff));
  ((0x24030fc000000000, 0x0000000000000000), (0x24030fc0ffffffff, 0xffffffffffffffff));
  ((0x2403118000000000, 0x0000000000000000), (0x24031180ffffffff, 0xffffffffffffffff));
  ((0x2403134000000000, 0x0000000000000000), (0x24031340ffffffff, 0xffffffffffffffff));
  ((0x2403144000000000, 0x0000000000000000), (0x24031440ffffffff, 0xffffffffffffffff));
  ((0x2403158000000000, 0x0000000000000000), (0x24031580ffffffff, 0xffffffffffffffff));
  ((0x240316c000000000, 0x0000000000000000), (0x240316c0ffffffff, 0xffffffffffffffff));
  ((0x240317c000000000, 0x0000000000000000), (0x240317c0ffffffff, 0xffffffffffffffff));
  ((0x2403198000000000, 0x0000000000000000), (0x24031980ffffffff, 0xffffffffffffffff));
  ((0x24031b8000000000, 0x0000000000000000), (0x24031b80ffffffff, 0xffffffffffffffff));
  ((0x24031c8000000000, 0x0000000000000000), (0x24031c80ffffffff, 0xffffffffffffffff));
  ((0x24031d8000000000, 0x0000000000000000), (0x24031d80ffffffff, 0xffffffffffffffff));
  ((0x24031dc000000000, 0x0000000000000000), (0x24031dc0ffffffff, 0xffffffffffffffff));
  ((0x24031e8000000000, 0x0000000000000000), (0x24031e80ffffffff, 0xffffffffffffffff));
  ((0x24031ec000000000, 0x0000000000000000), (0x24031ec0ffffffff, 0xffffffffffffffff));
  ((0x24031f8000000000, 0x0000000000000000), (0x24031f80ffffffff, 0xffffffffffffffff));
  ((0x2403204000000000, 0x0000000000000000), (0x24032040ffffffff, 0xffffffffffffffff));
  ((0x2403208000000000, 0x0000000000000000), (0x24032080ffffffff, 0xffffffffffffffff));
  ((0x2403218000000000, 0x0000000000000000), (0x24032180ffffffff, 0xffffffffffffffff));
  ((0x2403224000000000, 0x0000000000000000), (0x24032240ffffffff, 0xffffffffffffffff));
  ((0x2403228000000000, 0x0000000000000000), (0x24032280ffffffff, 0xffffffffffffffff));
  ((0x2403238000000000, 0x0000000000000000), (0x24032380ffffffff, 0xffffffffffffffff));
  ((0x2403244000000000, 0x0000000000000000), (0x24032440ffffffff, 0xffffffffffffffff));
  ((0x240324c000000000, 0x0000000000000000), (0x240324c0ffffffff, 0xffffffffffffffff));
  ((0x2403258000000000, 0x0000000000000000), (0x24032580ffffffff, 0xffffffffffffffff));
  ((0x240325c000000000, 0x0000000000000000), (0x240325c0ffffffff, 0xffffffffffffffff));
  ((0x2403268000000000, 0x0000000000000000), (0x24032680ffffffff, 0xffffffffffffffff));
  ((0x2403274000000000, 0x0000000000000000), (0x24032740ffffffff, 0xffffffffffffffff));
  ((0x2403278000000000, 0x0000000000000000), (0x24032780ffffffff, 0xffffffffffffffff));
  ((0x240328c000000000, 0x0000000000000000), (0x240328c0ffffffff, 0xffffffffffffffff));
  ((0x2403294000000000, 0x0000000000000000), (0x24032940ffffffff, 0xffffffffffffffff));
  ((0x24032a0000000000, 0x0000000000000000), (0x24032a00ffffffff, 0xffffffffffffffff));
  ((0x24032a4000000000, 0x0000000000000000), (0x24032a40ffffffff, 0xffffffffffffffff));
  ((0x24032ac000000000, 0x0000000000000000), (0x24032ac0ffffffff, 0xffffffffffffffff));
  ((0x24032b4000000000, 0x0000000000000000), (0x24032b40ffffffff, 0xffffffffffffffff));
  ((0x24032bc000000000, 0x0000000000000000), (0x24032bc0ffffffff, 0xffffffffffffffff));
  ((0x24032cc000000000, 0x0000000000000000), (0x24032cc0ffffffff, 0xffffffffffffffff));
  ((0x24032f4000000000, 0x0000000000000000), (0x24032f40ffffffff, 0xffffffffffffffff));
  ((0x24032fc000000000, 0x0000000000000000), (0x24032fc0ffffffff, 0xffffffffffffffff));
  ((0x2403304000000000, 0x0000000000000000), (0x24033040ffffffff, 0xffffffffffffffff));
  ((0x240330c000000000, 0x0000000000000000), (0x240330c0ffffffff, 0xffffffffffffffff));
  ((0x2403314000000000, 0x0000000000000000), (0x24033140ffffffff, 0xffffffffffffffff));
  ((0x2403328000000000, 0x0000000000000000), (0x24033280ffffffff, 0xffffffffffffffff));
  ((0x240332c000000000, 0x0000000000000000), (0x240332c0ffffffff, 0xffffffffffffffff));
  ((0x2403338000000000, 0x0000000000000000), (0x24033380ffffffff, 0xffffffffffffffff));
  ((0x2403348000000000, 0x0000000000000000), (0x24033480ffffffff, 0xffffffffffffffff));
  ((0x2403358000000000, 0x0000000000000000), (0x24033580ffffffff, 0xffffffffffffffff));
  ((0x2403364000000000, 0x0000000000000000), (0x24033640ffffffff, 0xffffffffffffffff));
  ((0x2403368000000000, 0x0000000000000000), (0x24033680ffffffff, 0xffffffffffffffff));
  ((0x240336c000000000, 0x0000000000000000), (0x240336c0ffffffff, 0xffffffffffffffff));
  ((0x2403374000000000, 0x0000000000000000), (0x24033740ffffffff, 0xffffffffffffffff));
  ((0x2403378000000000, 0x0000000000000000), (0x24033780ffffffff, 0xffffffffffffffff));
  ((0x240337c000000000, 0x0000000000000000), (0x240337c0ffffffff, 0xffffffffffffffff));
  ((0x2403384000000000, 0x0000000000000000), (0x24033840ffffffff, 0xffffffffffffffff));
  ((0x2403388000000000, 0x0000000000000000), (0x24033880ffffffff, 0xffffffffffffffff));
  ((0x240338c000000000, 0x0000000000000000), (0x240338c0ffffffff, 0xffffffffffffffff));
  ((0x2403394000000000, 0x0000000000000000), (0x24033940ffffffff, 0xffffffffffffffff));
  ((0x2403398000000000, 0x0000000000000000), (0x24033980ffffffff, 0xffffffffffffffff));
  ((0x240339c000000000, 0x0000000000000000), (0x240339c0ffffffff, 0xffffffffffffffff));
  ((0x24033a4000000000, 0x0000000000000000), (0x24033a40ffffffff, 0xffffffffffffffff));
  ((0x24033b4000000000, 0x0000000000000000), (0x24033b40ffffffff, 0xffffffffffffffff));
  ((0x24033b8000000000, 0x0000000000000000), (0x24033b80ffffffff, 0xffffffffffffffff));
  ((0x24033bc000000000, 0x0000000000000000), (0x24033bc0ffffffff, 0xffffffffffffffff));
  ((0x24033c4000000000, 0x0000000000000000), (0x24033c40ffffffff, 0xffffffffffffffff));
  ((0x24033c8000000000, 0x0000000000000000), (0x24033c80ffffffff, 0xffffffffffffffff));
  ((0x24033cc000000000, 0x0000000000000000), (0x24033cc0ffffffff, 0xffffffffffffffff));
  ((0x24033d4000000000, 0x0000000000000000), (0x24033d40ffffffff, 0xffffffffffffffff));
  ((0x24033d8000000000, 0x0000000000000000), (0x24033d80ffffffff, 0xffffffffffffffff));
  ((0x24033dc000000000, 0x0000000000000000), (0x24033dc0ffffffff, 0xffffffffffffffff));
  ((0x24033e8000000000, 0x0000000000000000), (0x24033e80ffffffff, 0xffffffffffffffff));
  ((0x24033ec000000000, 0x0000000000000000), (0x24033ec0ffffffff, 0xffffffffffffffff));
  ((0x24033f8000000000, 0x0000000000000000), (0x24033f80ffffffff, 0xffffffffffffffff));
  ((0x2403408000000000, 0x0000000000000000), (0x24034080ffffffff, 0xffffffffffffffff));
  ((0x2403418000000000, 0x0000000000000000), (0x24034180ffffffff, 0xffffffffffffffff));
  ((0x2403424000000000, 0x0000000000000000), (0x24034240ffffffff, 0xffffffffffffffff));
  ((0x2403428000000000, 0x0000000000000000), (0x24034280ffffffff, 0xffffffffffffffff));
  ((0x2403430000000000, 0x0000000000000000), (0x24034300ffffffff, 0xffffffffffffffff));
  ((0x2403438000000000, 0x0000000000000000), (0x24034380ffffffff, 0xffffffffffffffff));
  ((0x2403458000000000, 0x0000000000000000), (0x24034580ffffffff, 0xffffffffffffffff));
  ((0x2403468000000000, 0x0000000000000000), (0x24034680ffffffff, 0xffffffffffffffff));
  ((0x2403478000000000, 0x0000000000000000), (0x24034780ffffffff, 0xffffffffffffffff));
  ((0x2403484000000000, 0x0000000000000000), (0x24034840ffffffff, 0xffffffffffffffff));
  ((0x2403488000000000, 0x0000000000000000), (0x24034880ffffffff, 0xffffffffffffffff));
  ((0x2403498000000000, 0x0000000000000000), (0x24034980ffffffff, 0xffffffffffffffff));
  ((0x24034a4000000000, 0x0000000000000000), (0x24034a40ffffffff, 0xffffffffffffffff));
  ((0x24034a8000000000, 0x0000000000000000), (0x24034a80ffffffff, 0xffffffffffffffff));
  ((0x24034b4000000000, 0x0000000000000000), (0x24034b40ffffffff, 0xffffffffffffffff));
  ((0x24034b8000000000, 0x0000000000000000), (0x24034b80ffffffff, 0xffffffffffffffff));
  ((0x24034c8000000000, 0x0000000000000000), (0x24034c80ffffffff, 0xffffffffffffffff));
  ((0x24034cc000000000, 0x0000000000000000), (0x24034cc0ffffffff, 0xffffffffffffffff));
  ((0x24034d8000000000, 0x0000000000000000), (0x24034d80ffffffff, 0xffffffffffffffff));
  ((0x24034ec000000000, 0x0000000000000000), (0x24034ec0ffffffff, 0xffffffffffffffff));
  ((0x2403504000000000, 0x0000000000000000), (0x24035040ffffffff, 0xffffffffffffffff));
  ((0x2403508000000000, 0x0000000000000000), (0x24035080ffffffff, 0xffffffffffffffff));
  ((0x2403528000000000, 0x0000000000000000), (0x24035280ffffffff, 0xffffffffffffffff));
  ((0x2403538000000000, 0x0000000000000000), (0x24035380ffffffff, 0xffffffffffffffff));
  ((0x240354c000000000, 0x0000000000000000), (0x240354c0ffffffff, 0xffffffffffffffff));
  ((0x2403554000000000, 0x0000000000000000), (0x24035540ffffffff, 0xffffffffffffffff));
  ((0x2403558000000000, 0x0000000000000000), (0x24035580ffffffff, 0xffffffffffffffff));
  ((0x2403564000000000, 0x0000000000000000), (0x24035640ffffffff, 0xffffffffffffffff));
  ((0x2403578000000000, 0x0000000000000000), (0x24035780ffffffff, 0xffffffffffffffff));
  ((0x240358c000000000, 0x0000000000000000), (0x240358c0ffffffff, 0xffffffffffffffff));
  ((0x2403598000000000, 0x0000000000000000), (0x24035980ffffffff, 0xffffffffffffffff));
  ((0x24035a8000000000, 0x0000000000000000), (0x24035a80ffffffff, 0xffffffffffffffff));
  ((0x24035b4000000000, 0x0000000000000000), (0x24035b40ffffffff, 0xffffffffffffffff));
  ((0x24035b8000000000, 0x0000000000000000), (0x24035b80ffffffff, 0xffffffffffffffff));
  ((0x24035c8000000000, 0x0000000000000000), (0x24035c80ffffffff, 0xffffffffffffffff));
  ((0x24035d8000000000, 0x0000000000000000), (0x24035d80ffffffff, 0xffffffffffffffff));
  ((0x24035e4000000000, 0x0000000000000000), (0x24035e40ffffffff, 0xffffffffffffffff));
  ((0x24035e8000000000, 0x0000000000000000), (0x24035e80ffffffff, 0xffffffffffffffff));
  ((0x24035ec000000000, 0x0000000000000000), (0x24035ec0ffffffff, 0xffffffffffffffff));
  ((0x24035f8000000000, 0x0000000000000000), (0x24035f80ffffffff, 0xffffffffffffffff));
  ((0x24035fc000000000, 0x0000000000000000), (0x24035fc0ffffffff, 0xffffffffffffffff));
  ((0x2403608000000000, 0x0000000000000000), (0x24036080ffffffff, 0xffffffffffffffff));
  ((0x2403618000000000, 0x0000000000000000), (0x24036180ffffffff, 0xffffffffffffffff));
  ((0x2403628000000000, 0x0000000000000000), (0x24036280ffffffff, 0xffffffffffffffff));
  ((0x240362c000000000, 0x0000000000000000), (0x240362c0ffffffff, 0xffffffffffffffff));
  ((0x2403638000000000, 0x0000000000000000), (0x24036380ffffffff, 0xffffffffffffffff));
  ((0x2403658000000000, 0x0000000000000000), (0x24036580ffffffff, 0xffffffffffffffff));
  ((0x2403668000000000, 0x0000000000000000), (0x24036680ffffffff, 0xffffffffffffffff));
  ((0x2403674000000000, 0x0000000000000000), (0x24036740ffffffff, 0xffffffffffffffff));
  ((0x2403678000000000, 0x0000000000000000), (0x24036780ffffffff, 0xffffffffffffffff));
  ((0x2403688000000000, 0x0000000000000000), (0x24036880ffffffff, 0xffffffffffffffff));
  ((0x2403698000000000, 0x0000000000000000), (0x24036980ffffffff, 0xffffffffffffffff));
  ((0x24036a0000000000, 0x0000000000000000), (0x24036a00ffffffff, 0xffffffffffffffff));
  ((0x24036c8000000000, 0x0000000000000000), (0x24036c80ffffffff, 0xffffffffffffffff));
  ((0x24036d4000000000, 0x0000000000000000), (0x24036d40ffffffff, 0xffffffffffffffff));
  ((0x24036d8000000000, 0x0000000000000000), (0x24036d80ffffffff, 0xffffffffffffffff));
  ((0x24036e8000000000, 0x0000000000000000), (0x24036e80ffffffff, 0xffffffffffffffff));
  ((0x24036f4000000000, 0x0000000000000000), (0x24036f40ffffffff, 0xffffffffffffffff));
  ((0x24036fc000000000, 0x0000000000000000), (0x24036fc0ffffffff, 0xffffffffffffffff));
  ((0x2403704000000000, 0x0000000000000000), (0x24037040ffffffff, 0xffffffffffffffff));
  ((0x2403708000000000, 0x0000000000000000), (0x24037080ffffffff, 0xffffffffffffffff));
  ((0x2403718000000000, 0x0000000000000000), (0x24037180ffffffff, 0xffffffffffffffff));
  ((0x2403728000000000, 0x0000000000000000), (0x24037280ffffffff, 0xffffffffffffffff));
  ((0x2403738000000000, 0x0000000000000000), (0x24037380ffffffff, 0xffffffffffffffff));
  ((0x2403748000000000, 0x0000000000000000), (0x24037480ffffffff, 0xffffffffffffffff));
  ((0x2403754000000000, 0x0000000000000000), (0x24037540ffffffff, 0xffffffffffffffff));
  ((0x2403758000000000, 0x0000000000000000), (0x24037580ffffffff, 0xffffffffffffffff));
  ((0x240376c000000000, 0x0000000000000000), (0x240376c0ffffffff, 0xffffffffffffffff));
  ((0x2403770000000000, 0x0000000000000000), (0x24037700ffffffff, 0xffffffffffffffff));
  ((0x240378c000000000, 0x0000000000000000), (0x240378c0ffffffff, 0xffffffffffffffff));
  ((0x24037a8000000000, 0x0000000000000000), (0x24037a80ffffffff, 0xffffffffffffffff));
  ((0x24037b0000000000, 0x0000000000000000), (0x24037b00ffffffff, 0xffffffffffffffff));
  ((0x24037d8000000000, 0x0000000000000000), (0x24037d80ffffffff, 0xffffffffffffffff));
  ((0x24037e8000000000, 0x0000000000000000), (0x24037e80ffffffff, 0xffffffffffffffff));
  ((0x24037f8000000000, 0x0000000000000000), (0x24037f80ffffffff, 0xffffffffffffffff));
  ((0x2403808000000000, 0x0000000000000000), (0x24038080ffffffff, 0xffffffffffffffff));
  ((0x2403818000000000, 0x0000000000000000), (0x24038180ffffffff, 0xffffffffffffffff));
  ((0x2403828000000000, 0x0000000000000000), (0x24038280ffffffff, 0xffffffffffffffff));
  ((0x2403838000000000, 0x0000000000000000), (0x24038380ffffffff, 0xffffffffffffffff));
  ((0x240383c000000000, 0x0000000000000000), (0x240383c0ffffffff, 0xffffffffffffffff));
  ((0x2403848000000000, 0x0000000000000000), (0x24038480ffffffff, 0xffffffffffffffff));
  ((0x2403858000000000, 0x0000000000000000), (0x24038580ffffffff, 0xffffffffffffffff));
  ((0x2403888000000000, 0x0000000000000000), (0x24038880ffffffff, 0xffffffffffffffff));
  ((0x2403890000000000, 0x0000000000000000), (0x24038900ffffffff, 0xffffffffffffffff));
  ((0x2403898000000000, 0x0000000000000000), (0x24038980ffffffff, 0xffffffffffffffff));
  ((0x24038a4000000000, 0x0000000000000000), (0x24038a40ffffffff, 0xffffffffffffffff));
  ((0x24038a8000000000, 0x0000000000000000), (0x24038a80ffffffff, 0xffffffffffffffff));
  ((0x24038b0000000000, 0x0000000000000000), (0x24038b00ffffffff, 0xffffffffffffffff));
  ((0x24038b8000000000, 0x0000000000000000), (0x24038b80ffffffff, 0xffffffffffffffff));
  ((0x24038c0000000000, 0x0000000000000000), (0x24038c00ffffffff, 0xffffffffffffffff));
  ((0x24038c8000000000, 0x0000000000000000), (0x24038c80ffffffff, 0xffffffffffffffff));
  ((0x24038d0000000000, 0x0000000000000000), (0x24038d00ffffffff, 0xffffffffffffffff));
  ((0x24038d8000000000, 0x0000000000000000), (0x24038d80ffffffff, 0xffffffffffffffff));
  ((0x2403908000000000, 0x0000000000000000), (0x24039080ffffffff, 0xffffffffffffffff));
  ((0x2403918000000000, 0x0000000000000000), (0x24039180ffffffff, 0xffffffffffffffff));
  ((0x2403928000000000, 0x0000000000000000), (0x24039280ffffffff, 0xffffffffffffffff));
  ((0x2403938000000000, 0x0000000000000000), (0x24039380ffffffff, 0xffffffffffffffff));
  ((0x2403948000000000, 0x0000000000000000), (0x24039480ffffffff, 0xffffffffffffffff));
  ((0x2403958000000000, 0x0000000000000000), (0x24039580ffffffff, 0xffffffffffffffff));
  ((0x2403968000000000, 0x0000000000000000), (0x24039680ffffffff, 0xffffffffffffffff));
  ((0x2403978000000000, 0x0000000000000000), (0x24039780ffffffff, 0xffffffffffffffff));
  ((0x2403988000000000, 0x0000000000000000), (0x24039880ffffffff, 0xffffffffffffffff));
  ((0x24039a8000000000, 0x0000000000000000), (0x24039a80ffffffff, 0xffffffffffffffff));
  ((0x24039ac000000000, 0x0000000000000000), (0x24039ac0ffffffff, 0xffffffffffffffff));
  ((0x24039b0000000000, 0x0000000000000000), (0x24039b00ffffffff, 0xffffffffffffffff));
  ((0x24039b4000000000, 0x0000000000000000), (0x24039b40ffffffff, 0xffffffffffffffff));
  ((0x24039b8000000000, 0x0000000000000000), (0x24039b80ffffffff, 0xffffffffffffffff));
  ((0x24039c8000000000, 0x0000000000000000), (0x24039c80ffffffff, 0xffffffffffffffff));
  ((0x24039d0000000000, 0x0000000000000000), (0x24039d00ffffffff, 0xffffffffffffffff));
  ((0x24039d8000000000, 0x0000000000000000), (0x24039d80ffffffff, 0xffffffffffffffff));
  ((0x24039e4000000000, 0x0000000000000000), (0x24039e40ffffffff, 0xffffffffffffffff));
  ((0x24039e8000000000, 0x0000000000000000), (0x24039e80ffffffff, 0xffffffffffffffff));
  ((0x24039ec000000000, 0x0000000000000000), (0x24039ec0ffffffff, 0xffffffffffffffff));
  ((0x24039f8000000000, 0x0000000000000000), (0x24039f80ffffffff, 0xffffffffffffffff));
  ((0x2403a10000000000, 0x0000000000000000), (0x2403a100ffffffff, 0xffffffffffffffff));
  ((0x2403a14000000000, 0x0000000000000000), (0x2403a140ffffffff, 0xffffffffffffffff));
  ((0x2403a20000000000, 0x0000000000000000), (0x2403a200ffffffff, 0xffffffffffffffff));
  ((0x2403a30000000000, 0x0000000000000000), (0x2403a300ffffffff, 0xffffffffffffffff));
  ((0x2403a48000000000, 0x0000000000000000), (0x2403a480ffffffff, 0xffffffffffffffff));
  ((0x2403a58000000000, 0x0000000000000000), (0x2403a580ffffffff, 0xffffffffffffffff));
  ((0x2403a68000000000, 0x0000000000000000), (0x2403a680ffffffff, 0xffffffffffffffff));
  ((0x2403a6c000000000, 0x0000000000000000), (0x2403a6c0ffffffff, 0xffffffffffffffff));
  ((0x2403a78000000000, 0x0000000000000000), (0x2403a780ffffffff, 0xffffffffffffffff));
  ((0x2403a88000000000, 0x0000000000000000), (0x2403a880ffffffff, 0xffffffffffffffff));
  ((0x2403a94000000000, 0x0000000000000000), (0x2403a940ffffffff, 0xffffffffffffffff));
  ((0x2403a98000000000, 0x0000000000000000), (0x2403a980ffffffff, 0xffffffffffffffff));
  ((0x2403a9c000000000, 0x0000000000000000), (0x2403a9c0ffffffff, 0xffffffffffffffff));
  ((0x2403aa4000000000, 0x0000000000000000), (0x2403aa40ffffffff, 0xffffffffffffffff));
  ((0x2403aa8000000000, 0x0000000000000000), (0x2403aa80ffffffff, 0xffffffffffffffff));
  ((0x2403ab8000000000, 0x0000000000000000), (0x2403ab80ffffffff, 0xffffffffffffffff));
  ((0x2403ac0000000000, 0x0000000000000000), (0x2403ac00ffffffff, 0xffffffffffffffff));
  ((0x2403af8000000000, 0x0000000000000000), (0x2403af80ffffffff, 0xffffffffffffffff));
  ((0x2403b08000000000, 0x0000000000000000), (0x2403b080ffffffff, 0xffffffffffffffff));
  ((0x2403b18000000000, 0x0000000000000000), (0x2403b180ffffffff, 0xffffffffffffffff));
  ((0x2403b28000000000, 0x0000000000000000), (0x2403b280ffffffff, 0xffffffffffffffff));
  ((0x2403b38000000000, 0x0000000000000000), (0x2403b380ffffffff, 0xffffffffffffffff));
  ((0x2403b40000000000, 0x0000000000000000), (0x2403b400ffffffff, 0xffffffffffffffff));
  ((0x2403b48000000000, 0x0000000000000000), (0x2403b480ffffffff, 0xffffffffffffffff));
  ((0x2403b58000000000, 0x0000000000000000), (0x2403b580ffffffff, 0xffffffffffffffff));
  ((0x2403b68000000000, 0x0000000000000000), (0x2403b680ffffffff, 0xffffffffffffffff));
  ((0x2403b78000000000, 0x0000000000000000), (0x2403b780ffffffff, 0xffffffffffffffff));
  ((0x2403b88000000000, 0x0000000000000000), (0x2403b880ffffffff, 0xffffffffffffffff));
  ((0x2403b98000000000, 0x0000000000000000), (0x2403b980ffffffff, 0xffffffffffffffff));
  ((0x2403ba4000000000, 0x0000000000000000), (0x2403ba40ffffffff, 0xffffffffffffffff));
  ((0x2403c04000000000, 0x0000000000000000), (0x2403c040ffffffff, 0xffffffffffffffff));
  ((0x2403c08000000000, 0x0000000000000000), (0x2403c080ffffffff, 0xffffffffffffffff));
  ((0x2403c10000000000, 0x0000000000000000), (0x2403c100ffffffff, 0xffffffffffffffff));
  ((0x2403c14000000000, 0x0000000000000000), (0x2403c140ffffffff, 0xffffffffffffffff));
  ((0x2403c18000000000, 0x0000000000000000), (0x2403c180ffffffff, 0xffffffffffffffff));
  ((0x2403c3c000000000, 0x0000000000000000), (0x2403c3c0ffffffff, 0xffffffffffffffff));
  ((0x2403c44000000000, 0x0000000000000000), (0x2403c440ffffffff, 0xffffffffffffffff));
  ((0x2403c48000000000, 0x0000000000000000), (0x2403c480ffffffff, 0xffffffffffffffff));
  ((0x2403c4c000000000, 0x0000000000000000), (0x2403c4c0ffffffff, 0xffffffffffffffff));
  ((0x2403c98000000000, 0x0000000000000000), (0x2403c980ffffffff, 0xffffffffffffffff));
  ((0x2403cdc000000000, 0x0000000000000000), (0x2403cdc0ffffffff, 0xffffffffffffffff));
  ((0x2403cec000000000, 0x0000000000000000), (0x2403cec0ffffffff, 0xffffffffffffffff));
  ((0x2403cf8000000000, 0x0000000000000000), (0x2403cf80ffffffff, 0xffffffffffffffff));
  ((0x2403d08000000000, 0x0000000000000000), (0x2403d080ffffffff, 0xffffffffffffffff));
  ((0x2403d18000000000, 0x0000000000000000), (0x2403d180ffffffff, 0xffffffffffffffff));
  ((0x2403d28000000000, 0x0000000000000000), (0x2403d280ffffffff, 0xffffffffffffffff));
  ((0x2403d2c000000000, 0x0000000000000000), (0x2403d2c0ffffffff, 0xffffffffffffffff));
  ((0x2403d38000000000, 0x0000000000000000), (0x2403d380ffffffff, 0xffffffffffffffff));
  ((0x2403d40000000000, 0x0000000000000000), (0x2403d400ffffffff, 0xffffffffffffffff));
  ((0x2403d44000000000, 0x0000000000000000), (0x2403d440ffffffff, 0xffffffffffffffff));
  ((0x2403d48000000000, 0x0000000000000000), (0x2403d480ffffffff, 0xffffffffffffffff));
  ((0x2403d58000000000, 0x0000000000000000), (0x2403d580ffffffff, 0xffffffffffffffff));
  ((0x2403d68000000000, 0x0000000000000000), (0x2403d680ffffffff, 0xffffffffffffffff));
  ((0x2403d78000000000, 0x0000000000000000), (0x2403d780ffffffff, 0xffffffffffffffff));
  ((0x2403d7c000000000, 0x0000000000000000), (0x2403d7c0ffffffff, 0xffffffffffffffff));
  ((0x2403d88000000000, 0x0000000000000000), (0x2403d880ffffffff, 0xffffffffffffffff));
  ((0x2403d98000000000, 0x0000000000000000), (0x2403d980ffffffff, 0xffffffffffffffff));
  ((0x2403d9c000000000, 0x0000000000000000), (0x2403d9c0ffffffff, 0xffffffffffffffff));
  ((0x2403da8000000000, 0x0000000000000000), (0x2403da80ffffffff, 0xffffffffffffffff));
  ((0x2403dac000000000, 0x0000000000000000), (0x2403dac0ffffffff, 0xffffffffffffffff));
  ((0x2403db0000000000, 0x0000000000000000), (0x2403db00ffffffff, 0xffffffffffffffff));
  ((0x2403db8000000000, 0x0000000000000000), (0x2403db80ffffffff, 0xffffffffffffffff));
  ((0x2403dc8000000000, 0x0000000000000000), (0x2403dc80ffffffff, 0xffffffffffffffff));
  ((0x2403dd8000000000, 0x0000000000000000), (0x2403dd80ffffffff, 0xffffffffffffffff));
  ((0x2403de8000000000, 0x0000000000000000), (0x2403de80ffffffff, 0xffffffffffffffff));
  ((0x2403df8000000000, 0x0000000000000000), (0x2403df80ffffffff, 0xffffffffffffffff));
  ((0x2403e08000000000, 0x0000000000000000), (0x2403e080ffffffff, 0xffffffffffffffff));
  ((0x2403e18000000000, 0x0000000000000000), (0x2403e180ffffffff, 0xffffffffffffffff));
  ((0x2403e28000000000, 0x0000000000000000), (0x2403e280ffffffff, 0xffffffffffffffff));
  ((0x2403e30000000000, 0x0000000000000000), (0x2403e300ffffffff, 0xffffffffffffffff));
  ((0x2403e48000000000, 0x0000000000000000), (0x2403e480ffffffff, 0xffffffffffffffff));
  ((0x2403e50000000000, 0x0000000000000000), (0x2403e500ffffffff, 0xffffffffffffffff));
  ((0x2403e58000000000, 0x0000000000000000), (0x2403e580ffffffff, 0xffffffffffffffff));
  ((0x2403e64000000000, 0x0000000000000000), (0x2403e640ffffffff, 0xffffffffffffffff));
  ((0x2403e68000000000, 0x0000000000000000), (0x2403e680ffffffff, 0xffffffffffffffff));
  ((0x2403e70000000000, 0x0000000000000000), (0x2403e700ffffffff, 0xffffffffffffffff));
  ((0x2403e78000000000, 0x0000000000000000), (0x2403e780ffffffff, 0xffffffffffffffff));
  ((0x2403e7c000000000, 0x0000000000000000), (0x2403e7c0ffffffff, 0xffffffffffffffff));
  ((0x2403e88000000000, 0x0000000000000000), (0x2403e880ffffffff, 0xffffffffffffffff));
  ((0x2403e98000000000, 0x0000000000000000), (0x2403e980ffffffff, 0xffffffffffffffff));
  ((0x2403ea8000000000, 0x0000000000000000), (0x2403ea80ffffffff, 0xffffffffffffffff));
  ((0x2403eac000000000, 0x0000000000000000), (0x2403eac0ffffffff, 0xffffffffffffffff));
  ((0x2403eb8000000000, 0x0000000000000000), (0x2403eb80ffffffff, 0xffffffffffffffff));
  ((0x2403ec8000000000, 0x0000000000000000), (0x2403ec80ffffffff, 0xffffffffffffffff));
  ((0x2403ed0000000000, 0x0000000000000000), (0x2403ed00ffffffff, 0xffffffffffffffff));
  ((0x2403ed4000000000, 0x0000000000000000), (0x2403ed40ffffffff, 0xffffffffffffffff));
  ((0x2403ed8000000000, 0x0000000000000000), (0x2403ed80ffffffff, 0xffffffffffffffff));
  ((0x2403ee8000000000, 0x0000000000000000), (0x2403ee80ffffffff, 0xffffffffffffffff));
  ((0x2403ef8000000000, 0x0000000000000000), (0x2403ef80ffffffff, 0xffffffffffffffff));
  ((0x2403f08000000000, 0x0000000000000000), (0x2403f080ffffffff, 0xffffffffffffffff));
  ((0x2403f10000000000, 0x0000000000000000), (0x2403f100ffffffff, 0xffffffffffffffff));
  ((0x2403f18000000000, 0x0000000000000000), (0x2403f180ffffffff, 0xffffffffffffffff));
  ((0x2403f24000000000, 0x0000000000000000), (0x2403f240ffffffff, 0xffffffffffffffff));
  ((0x2403f28000000000, 0x0000000000000000), (0x2403f280ffffffff, 0xffffffffffffffff));
  ((0x2403f30000000000, 0x0000000000000000), (0x2403f300ffffffff, 0xffffffffffffffff));
  ((0x2403f38000000000, 0x0000000000000000), (0x2403f380ffffffff, 0xffffffffffffffff));
  ((0x2403f4c000000000, 0x0000000000000000), (0x2403f4c0ffffffff, 0xffffffffffffffff));
  ((0x2403f58000000000, 0x0000000000000000), (0x2403f580ffffffff, 0xffffffffffffffff));
  ((0x2403f74000000000, 0x0000000000000000), (0x2403f740ffffffff, 0xffffffffffffffff));
  ((0x2403f8c000000000, 0x0000000000000000), (0x2403f8c0ffffffff, 0xffffffffffffffff));
  ((0x2403f98000000000, 0x0000000000000000), (0x2403f980ffffffff, 0xffffffffffffffff));
  ((0x2403fb0000000000, 0x0000000000000000), (0x2403fb00ffffffff, 0xffffffffffffffff));
  ((0x2403fb8000000000, 0x0000000000000000), (0x2403fb80ffffffff, 0xffffffffffffffff));
  ((0x2403fc4000000000, 0x0000000000000000), (0x2403fc40ffffffff, 0xffffffffffffffff));
  ((0x2403fe4000000000, 0x0000000000000000), (0x2403fe40ffffffff, 0xffffffffffffffff));
  ((0x2403fe8000000000, 0x0000000000000000), (0x2403fe80ffffffff, 0xffffffffffffffff));
  ((0x2403fec000000000, 0x0000000000000000), (0x2403fec0ffffffff, 0xffffffffffffffff));
  ((0x2403ff8000000000, 0x0000000000000000), (0x2403ff80ffffffff, 0xffffffffffffffff));
  ((0x2403ffc000000000, 0x0000000000000000), (0x2403ffc1ffffffff, 0xffffffffffffffff));
  ((0x2404010000000000, 0x0000000000000000), (0x24040100ffffffff, 0xffffffffffffffff));
  ((0x2404015800000000, 0x0000000000000000), (0x24040158ffffffff, 0xffffffffffffffff));
  ((0x2404024000000000, 0x0000000000000000), (0x24040240ffffffff, 0xffffffffffffffff));
  ((0x2404028000000000, 0x0000000000000000), (0x24040280ffffffff, 0xffffffffffffffff));
  ((0x2404044000000000, 0x0000000000000000), (0x24040440ffffffff, 0xffffffffffffffff));
  ((0x2404048000000000, 0x0000000000000000), (0x24040480ffffffff, 0xffffffffffffffff));
  ((0x2404068000000000, 0x0000000000000000), (0x24040680ffffffff, 0xffffffffffffffff));
  ((0x24040a8000000000, 0x0000000000000000), (0x24040a80ffffffff, 0xffffffffffffffff));
  ((0x24040b8000000000, 0x0000000000000000), (0x24040b80ffffffff, 0xffffffffffffffff));
  ((0x24040bc000000000, 0x0000000000000000), (0x24040bc0ffffffff, 0xffffffffffffffff));
  ((0x24040c4000000000, 0x0000000000000000), (0x24040c40ffffffff, 0xffffffffffffffff));
  ((0x24040d8000000000, 0x0000000000000000), (0x24040d80ffffffff, 0xffffffffffffffff));
  ((0x24040f0000000000, 0x0000000000000000), (0x24040f00ffffffff, 0xffffffffffffffff));
  ((0x24040f8000000000, 0x0000000000000000), (0x24040f80ffffffff, 0xffffffffffffffff));
  ((0x2404108000000000, 0x0000000000000000), (0x24041080ffffffff, 0xffffffffffffffff));
  ((0x240410c000000000, 0x0000000000000000), (0x240410c0ffffffff, 0xffffffffffffffff));
  ((0x2404118000000000, 0x0000000000000000), (0x24041180ffffffff, 0xffffffffffffffff));
  ((0x240414c000000000, 0x0000000000000000), (0x240414c0ffffffff, 0xffffffffffffffff));
  ((0x2404188000000000, 0x0000000000000000), (0x24041880ffffffff, 0xffffffffffffffff));
  ((0x24041c8000000000, 0x0000000000000000), (0x24041c80ffffffff, 0xffffffffffffffff));
  ((0x24041cc000000000, 0x0000000000000000), (0x24041cc0ffffffff, 0xffffffffffffffff));
  ((0x24041d8000000000, 0x0000000000000000), (0x24041d80ffffffff, 0xffffffffffffffff));
  ((0x24041e8000000000, 0x0000000000000000), (0x24041e80ffffffff, 0xffffffffffffffff));
  ((0x24041f4000000000, 0x0000000000000000), (0x24041f40ffffffff, 0xffffffffffffffff));
  ((0x240421c000000000, 0x0000000000000000), (0x240421c0ffffffff, 0xffffffffffffffff));
  ((0x240430c000000000, 0x0000000000000000), (0x240430c0ffffffff, 0xffffffffffffffff));
  ((0x2404314000000000, 0x0000000000000000), (0x24043140ffffffff, 0xffffffffffffffff));
  ((0x240431c000000000, 0x0000000000000000), (0x240431c0ffffffff, 0xffffffffffffffff));
  ((0x2404324000000000, 0x0000000000000000), (0x24043240ffffffff, 0xffffffffffffffff));
  ((0x240432c000000000, 0x0000000000000000), (0x240432c0ffffffff, 0xffffffffffffffff));
  ((0x2404330000000000, 0x0000000000000000), (0x24043300ffffffff, 0xffffffffffffffff));
  ((0x2404334000000000, 0x0000000000000000), (0x24043340ffffffff, 0xffffffffffffffff));
  ((0x2404348000000000, 0x0000000000000000), (0x24043480ffffffff, 0xffffffffffffffff));
  ((0x240435c000000000, 0x0000000000000000), (0x240435c0ffffffff, 0xffffffffffffffff));
  ((0x2404364000000000, 0x0000000000000000), (0x24043640ffffffff, 0xffffffffffffffff));
  ((0x240436c000000000, 0x0000000000000000), (0x240436c0ffffffff, 0xffffffffffffffff));
  ((0x2404370000000000, 0x0000000000000000), (0x24043700ffffffff, 0xffffffffffffffff));
  ((0x2404374000000000, 0x0000000000000000), (0x24043740ffffffff, 0xffffffffffffffff));
  ((0x240437c000000000, 0x0000000000000000), (0x240437c0ffffffff, 0xffffffffffffffff));
  ((0x2404384000000000, 0x0000000000000000), (0x24043840ffffffff, 0xffffffffffffffff));
  ((0x2404394000000000, 0x0000000000000000), (0x24043940ffffffff, 0xffffffffffffffff));
  ((0x24043bc000000000, 0x0000000000000000), (0x24043bc0ffffffff, 0xffffffffffffffff));
  ((0x24043c4000000000, 0x0000000000000000), (0x24043c40ffffffff, 0xffffffffffffffff));
  ((0x24043f4000000000, 0x0000000000000000), (0x24043f40ffffffff, 0xffffffffffffffff));
  ((0x240441c000000000, 0x0000000000000000), (0x240441c0ffffffff, 0xffffffffffffffff));
  ((0x2404454000000000, 0x0000000000000000), (0x24044540ffffffff, 0xffffffffffffffff));
  ((0x2404474000000000, 0x0000000000000000), (0x24044740ffffffff, 0xffffffffffffffff));
  ((0x24044d0000000000, 0x0000000000000000), (0x24044d00ffffffff, 0xffffffffffffffff));
  ((0x24044dc000000000, 0x0000000000000000), (0x24044dc0ffffffff, 0xffffffffffffffff));
  ((0x240451c000000000, 0x0000000000000000), (0x240451c0ffffffff, 0xffffffffffffffff));
  ((0x2404564000000000, 0x0000000000000000), (0x24045640ffffffff, 0xffffffffffffffff));
  ((0x24045a8000000000, 0x0000000000000000), (0x24045a80ffffffff, 0xffffffffffffffff));
  ((0x24045b0000000000, 0x0000000000000000), (0x24045b00ffffffff, 0xffffffffffffffff));
  ((0x24045d0000000000, 0x0000000000000000), (0x24045d00ffffffff, 0xffffffffffffffff));
  ((0x2404600000000000, 0x0000000000000000), (0x24046000ffffffff, 0xffffffffffffffff));
  ((0x2404610000000000, 0x0000000000000000), (0x24046100ffffffff, 0xffffffffffffffff));
  ((0x2404638000000000, 0x0000000000000000), (0x24046380ffffffff, 0xffffffffffffffff));
  ((0x2404650000000000, 0x0000000000000000), (0x24046500ffffffff, 0xffffffffffffffff));
  ((0x240465c000000000, 0x0000000000000000), (0x240465c0ffffffff, 0xffffffffffffffff));
  ((0x24046a4000000000, 0x0000000000000000), (0x24046a40ffffffff, 0xffffffffffffffff));
  ((0x24046f8000000000, 0x0000000000000000), (0x24046f80ffffffff, 0xffffffffffffffff));
  ((0x2404710000000000, 0x0000000000000000), (0x24047100ffffffff, 0xffffffffffffffff));
  ((0x2404718000000000, 0x0000000000000000), (0x24047180ffffffff, 0xffffffffffffffff));
  ((0x240471c000000000, 0x0000000000000000), (0x240471c0ffffffff, 0xffffffffffffffff));
  ((0x2404724000000000, 0x0000000000000000), (0x24047240ffffffff, 0xffffffffffffffff));
  ((0x240474c000000000, 0x0000000000000000), (0x240474c0ffffffff, 0xffffffffffffffff));
  ((0x2404760000000000, 0x0000000000000000), (0x24047600ffffffff, 0xffffffffffffffff));
  ((0x2404774000000000, 0x0000000000000000), (0x24047740ffffffff, 0xffffffffffffffff));
  ((0x2404794000000000, 0x0000000000000000), (0x24047940ffffffff, 0xffffffffffffffff));
  ((0x24047d0000000000, 0x0000000000000000), (0x24047d00ffffffff, 0xffffffffffffffff));
  ((0x2404804000000000, 0x0000000000000000), (0x24048040ffffffff, 0xffffffffffffffff));
  ((0x240480c000000000, 0x0000000000000000), (0x240480c0ffffffff, 0xffffffffffffffff));
  ((0x2404814000000000, 0x0000000000000000), (0x24048140ffffffff, 0xffffffffffffffff));
  ((0x240481c000000000, 0x0000000000000000), (0x240481c0ffffffff, 0xffffffffffffffff));
  ((0x2404848000000000, 0x0000000000000000), (0x24048480ffffffff, 0xffffffffffffffff));
  ((0x2404858000000000, 0x0000000000000000), (0x24048580ffffffff, 0xffffffffffffffff));
  ((0x2404870000000000, 0x0000000000000000), (0x24048700ffffffff, 0xffffffffffffffff));
  ((0x2404888000000000, 0x0000000000000000), (0x24048880ffffffff, 0xffffffffffffffff));
  ((0x24048a8000000000, 0x0000000000000000), (0x24048a80ffffffff, 0xffffffffffffffff));
  ((0x24048dc000000000, 0x0000000000000000), (0x24048dc0ffffffff, 0xffffffffffffffff));
  ((0x2404934000000000, 0x0000000000000000), (0x24049340ffffffff, 0xffffffffffffffff));
  ((0x24049b8000000000, 0x0000000000000000), (0x24049b80ffffffff, 0xffffffffffffffff));
  ((0x24049c8000000000, 0x0000000000000000), (0x24049c80ffffffff, 0xffffffffffffffff));
  ((0x2404a00000000000, 0x0000000000000000), (0x2404a000ffffffff, 0xffffffffffffffff));
  ((0x2404a08000000000, 0x0000000000000000), (0x2404a080ffffffff, 0xffffffffffffffff));
  ((0x2404a0c000000000, 0x0000000000000000), (0x2404a0c0ffffffff, 0xffffffffffffffff));
  ((0x2404a18000000000, 0x0000000000000000), (0x2404a180ffffffff, 0xffffffffffffffff));
  ((0x2404a24000000000, 0x0000000000000000), (0x2404a240ffffffff, 0xffffffffffffffff));
  ((0x2404a74000000000, 0x0000000000000000), (0x2404a740ffffffff, 0xffffffffffffffff));
  ((0x2404b10000000000, 0x0000000000000000), (0x2404b100ffffffff, 0xffffffffffffffff));
  ((0x2404b34000000000, 0x0000000000000000), (0x2404b340ffffffff, 0xffffffffffffffff));
  ((0x2404b3c000000000, 0x0000000000000000), (0x2404b3c0ffffffff, 0xffffffffffffffff));
  ((0x2404b44000000000, 0x0000000000000000), (0x2404b440ffffffff, 0xffffffffffffffff));
  ((0x2404b4c000000000, 0x0000000000000000), (0x2404b4c0ffffffff, 0xffffffffffffffff));
  ((0x2404b90000000000, 0x0000000000000000), (0x2404b900ffffffff, 0xffffffffffffffff));
  ((0x2404bbc000000000, 0x0000000000000000), (0x2404bbc0ffffffff, 0xffffffffffffffff));
  ((0x2404bc4000000000, 0x0000000000000000), (0x2404bc40ffffffff, 0xffffffffffffffff));
  ((0x2404c1c000000000, 0x0000000000000000), (0x2404c1c0ffffffff, 0xffffffffffffffff));
  ((0x2404c24000000000, 0x0000000000000000), (0x2404c240ffffffff, 0xffffffffffffffff));
  ((0x2404c2c000000000, 0x0000000000000000), (0x2404c2c0ffffffff, 0xffffffffffffffff));
  ((0x2404c30000000000, 0x0000000000000000), (0x2404c300ffffffff, 0xffffffffffffffff));
  ((0x2404c3c000000000, 0x0000000000000000), (0x2404c3c0ffffffff, 0xffffffffffffffff));
  ((0x2404c44000000000, 0x0000000000000000), (0x2404c440ffffffff, 0xffffffffffffffff));
  ((0x2404c4c000000000, 0x0000000000000000), (0x2404c4c0ffffffff, 0xffffffffffffffff));
  ((0x2404c54000000000, 0x0000000000000000), (0x2404c540ffffffff, 0xffffffffffffffff));
  ((0x2404c5c000000000, 0x0000000000000000), (0x2404c5c0ffffffff, 0xffffffffffffffff));
  ((0x2404c64000000000, 0x0000000000000000), (0x2404c640ffffffff, 0xffffffffffffffff));
  ((0x2404c94000000000, 0x0000000000000000), (0x2404c940ffffffff, 0xffffffffffffffff));
  ((0x2404c9c000000000, 0x0000000000000000), (0x2404c9c0ffffffff, 0xffffffffffffffff));
  ((0x2404cd0000000000, 0x0000000000000000), (0x2404cd00ffffffff, 0xffffffffffffffff));
  ((0x2404d04000000000, 0x0000000000000000), (0x2404d040ffffffff, 0xffffffffffffffff));
  ((0x2404d08000000000, 0x0000000000000000), (0x2404d080ffffffff, 0xffffffffffffffff));
  ((0x2404d14000000000, 0x0000000000000000), (0x2404d140ffffffff, 0xffffffffffffffff));
  ((0x2404d28000000000, 0x0000000000000000), (0x2404d280ffffffff, 0xffffffffffffffff));
  ((0x2404d3c000000000, 0x0000000000000000), (0x2404d3c0ffffffff, 0xffffffffffffffff));
  ((0x2404d64000000000, 0x0000000000000000), (0x2404d640ffffffff, 0xffffffffffffffff));
  ((0x2404d6c000000000, 0x0000000000000000), (0x2404d6c0ffffffff, 0xffffffffffffffff));
  ((0x2404d7c000000000, 0x0000000000000000), (0x2404d7c0ffffffff, 0xffffffffffffffff));
  ((0x2404d84000000000, 0x0000000000000000), (0x2404d840ffffffff, 0xffffffffffffffff));
  ((0x2404dd8000000000, 0x0000000000000000), (0x2404dd80ffffffff, 0xffffffffffffffff));
  ((0x2404df0000000000, 0x0000000000000000), (0x2404df00ffffffff, 0xffffffffffffffff));
  ((0x2404e28000000000, 0x0000000000000000), (0x2404e280ffffffff, 0xffffffffffffffff));
  ((0x2404e54000000000, 0x0000000000000000), (0x2404e540ffffffff, 0xffffffffffffffff));
  ((0x2404e5c000000000, 0x0000000000000000), (0x2404e5c0ffffffff, 0xffffffffffffffff));
  ((0x2404e78000000000, 0x0000000000000000), (0x2404e780ffffffff, 0xffffffffffffffff));
  ((0x2404e88000000000, 0x0000000000000000), (0x2404e880ffffffff, 0xffffffffffffffff));
  ((0x2404e8c000000000, 0x0000000000000000), (0x2404e8c0ffffffff, 0xffffffffffffffff));
  ((0x2404eb8000000000, 0x0000000000000000), (0x2404eb80ffffffff, 0xffffffffffffffff));
  ((0x2404ec4000000000, 0x0000000000000000), (0x2404ec40ffffffff, 0xffffffffffffffff));
  ((0x2404ecc000000000, 0x0000000000000000), (0x2404ecc0ffffffff, 0xffffffffffffffff));
  ((0x2404edc000000000, 0x0000000000000000), (0x2404edc0ffffffff, 0xffffffffffffffff));
  ((0x2404f04000000000, 0x0000000000000000), (0x2404f040ffffffff, 0xffffffffffffffff));
  ((0x2404f4c000000000, 0x0000000000000000), (0x2404f4c0ffffffff, 0xffffffffffffffff));
  ((0x2404f7c000000000, 0x0000000000000000), (0x2404f7c0ffffffff, 0xffffffffffffffff));
  ((0x2405008000000000, 0x0000000000000000), (0x24050080ffffffff, 0xffffffffffffffff));
  ((0x2405048000000000, 0x0000000000000000), (0x24050480ffffffff, 0xffffffffffffffff));
  ((0x2405058000000000, 0x0000000000000000), (0x24050580ffffffff, 0xffffffffffffffff));
  ((0x2405068000000000, 0x0000000000000000), (0x24050680ffffffff, 0xffffffffffffffff));
  ((0x240506c000000000, 0x0000000000000000), (0x240506c0ffffffff, 0xffffffffffffffff));
  ((0x2405078000000000, 0x0000000000000000), (0x24050780ffffffff, 0xffffffffffffffff));
  ((0x2405088000000000, 0x0000000000000000), (0x24050880ffffffff, 0xffffffffffffffff));
  ((0x2405094000000000, 0x0000000000000000), (0x24050940ffffffff, 0xffffffffffffffff));
  ((0x2405098000000000, 0x0000000000000000), (0x24050980ffffffff, 0xffffffffffffffff));
  ((0x240509c000000000, 0x0000000000000000), (0x240509c0ffffffff, 0xffffffffffffffff));
  ((0x24050a8000000000, 0x0000000000000000), (0x24050a80ffffffff, 0xffffffffffffffff));
  ((0x24050b8000000000, 0x0000000000000000), (0x24050b80ffffffff, 0xffffffffffffffff));
  ((0x24050c8000000000, 0x0000000000000000), (0x24050c80ffffffff, 0xffffffffffffffff));
  ((0x24050d8000000000, 0x0000000000000000), (0x24050d80ffffffff, 0xffffffffffffffff));
  ((0x24050e8000000000, 0x0000000000000000), (0x24050e80ffffffff, 0xffffffffffffffff));
  ((0x24050f8000000000, 0x0000000000000000), (0x24050f80ffffffff, 0xffffffffffffffff));
  ((0x2405108000000000, 0x0000000000000000), (0x24051080ffffffff, 0xffffffffffffffff));
  ((0x2405118000000000, 0x0000000000000000), (0x24051180ffffffff, 0xffffffffffffffff));
  ((0x2405128000000000, 0x0000000000000000), (0x24051280ffffffff, 0xffffffffffffffff));
  ((0x2405138000000000, 0x0000000000000000), (0x24051380ffffffff, 0xffffffffffffffff));
  ((0x2405148000000000, 0x0000000000000000), (0x24051480ffffffff, 0xffffffffffffffff));
  ((0x2405158000000000, 0x0000000000000000), (0x24051580ffffffff, 0xffffffffffffffff));
  ((0x2405168000000000, 0x0000000000000000), (0x24051680ffffffff, 0xffffffffffffffff));
  ((0x240518c000000000, 0x0000000000000000), (0x240518c0ffffffff, 0xffffffffffffffff));
  ((0x24051c8000000000, 0x0000000000000000), (0x24051c80ffffffff, 0xffffffffffffffff));
  ((0x24051d8000000000, 0x0000000000000000), (0x24051d80ffffffff, 0xffffffffffffffff));
  ((0x24051e8000000000, 0x0000000000000000), (0x24051e80ffffffff, 0xffffffffffffffff));
  ((0x24051f8000000000, 0x0000000000000000), (0x24051f80ffffffff, 0xffffffffffffffff));
  ((0x24051fc000000000, 0x0000000000000000), (0x24051fc0ffffffff, 0xffffffffffffffff));
  ((0x2405208000000000, 0x0000000000000000), (0x24052080ffffffff, 0xffffffffffffffff));
  ((0x2405218000000000, 0x0000000000000000), (0x24052180ffffffff, 0xffffffffffffffff));
  ((0x2405228000000000, 0x0000000000000000), (0x24052280ffffffff, 0xffffffffffffffff));
  ((0x2405234000000000, 0x0000000000000000), (0x24052340ffffffff, 0xffffffffffffffff));
  ((0x2405238000000000, 0x0000000000000000), (0x24052380ffffffff, 0xffffffffffffffff));
  ((0x2405248000000000, 0x0000000000000000), (0x24052480ffffffff, 0xffffffffffffffff));
  ((0x240524c000000000, 0x0000000000000000), (0x240524c0ffffffff, 0xffffffffffffffff));
  ((0x2405258000000000, 0x0000000000000000), (0x24052580ffffffff, 0xffffffffffffffff));
  ((0x2405268000000000, 0x0000000000000000), (0x24052680ffffffff, 0xffffffffffffffff));
  ((0x2405278000000000, 0x0000000000000000), (0x24052780ffffffff, 0xffffffffffffffff));
  ((0x2405288000000000, 0x0000000000000000), (0x24052880ffffffff, 0xffffffffffffffff));
  ((0x2405298000000000, 0x0000000000000000), (0x24052980ffffffff, 0xffffffffffffffff));
  ((0x24052a8000000000, 0x0000000000000000), (0x24052a80ffffffff, 0xffffffffffffffff));
  ((0x24052b8000000000, 0x0000000000000000), (0x24052b80ffffffff, 0xffffffffffffffff));
  ((0x24052bc000000000, 0x0000000000000000), (0x24052bc0ffffffff, 0xffffffffffffffff));
  ((0x24052c8000000000, 0x0000000000000000), (0x24052c80ffffffff, 0xffffffffffffffff));
  ((0x24052d8000000000, 0x0000000000000000), (0x24052d80ffffffff, 0xffffffffffffffff));
  ((0x24052e8000000000, 0x0000000000000000), (0x24052e80ffffffff, 0xffffffffffffffff));
  ((0x24052ec000000000, 0x0000000000000000), (0x24052ec0ffffffff, 0xffffffffffffffff));
  ((0x24052f4000000000, 0x0000000000000000), (0x24052f40ffffffff, 0xffffffffffffffff));
  ((0x24052f8000000000, 0x0000000000000000), (0x24052f80ffffffff, 0xffffffffffffffff));
  ((0x2405314000000000, 0x0000000000000000), (0x24053140ffffffff, 0xffffffffffffffff));
  ((0x240531c000000000, 0x0000000000000000), (0x240531c0ffffffff, 0xffffffffffffffff));
  ((0x240537c000000000, 0x0000000000000000), (0x240537c0ffffffff, 0xffffffffffffffff));
  ((0x2405388000000000, 0x0000000000000000), (0x24053880ffffffff, 0xffffffffffffffff));
  ((0x2405398000000000, 0x0000000000000000), (0x24053980ffffffff, 0xffffffffffffffff));
  ((0x240539c000000000, 0x0000000000000000), (0x240539c0ffffffff, 0xffffffffffffffff));
  ((0x24053a8000000000, 0x0000000000000000), (0x24053a80ffffffff, 0xffffffffffffffff));
  ((0x24053ac000000000, 0x0000000000000000), (0x24053ac0ffffffff, 0xffffffffffffffff));
  ((0x24053b0000000000, 0x0000000000000000), (0x24053b00ffffffff, 0xffffffffffffffff));
  ((0x24053b8000000000, 0x0000000000000000), (0x24053b80ffffffff, 0xffffffffffffffff));
  ((0x24053bc000000000, 0x0000000000000000), (0x24053bc0ffffffff, 0xffffffffffffffff));
  ((0x24053c4000000000, 0x0000000000000000), (0x24053c40ffffffff, 0xffffffffffffffff));
  ((0x24053c8000000000, 0x0000000000000000), (0x24053c80ffffffff, 0xffffffffffffffff));
  ((0x24053d8000000000, 0x0000000000000000), (0x24053d80ffffffff, 0xffffffffffffffff));
  ((0x24053e8000000000, 0x0000000000000000), (0x24053e80ffffffff, 0xffffffffffffffff));
  ((0x24053f4000000000, 0x0000000000000000), (0x24053f40ffffffff, 0xffffffffffffffff));
  ((0x24053f8000000000, 0x0000000000000000), (0x24053f80ffffffff, 0xffffffffffffffff));
  ((0x2405408000000000, 0x0000000000000000), (0x24054080ffffffff, 0xffffffffffffffff));
  ((0x2405414000000000, 0x0000000000000000), (0x24054140ffffffff, 0xffffffffffffffff));
  ((0x2405418000000000, 0x0000000000000000), (0x24054180ffffffff, 0xffffffffffffffff));
  ((0x240541c000000000, 0x0000000000000000), (0x240541c0ffffffff, 0xffffffffffffffff));
  ((0x2405428000000000, 0x0000000000000000), (0x24054280ffffffff, 0xffffffffffffffff));
  ((0x2405438000000000, 0x0000000000000000), (0x24054380ffffffff, 0xffffffffffffffff));
  ((0x2405448000000000, 0x0000000000000000), (0x24054480ffffffff, 0xffffffffffffffff));
  ((0x240544c000000000, 0x0000000000000000), (0x240544c0ffffffff, 0xffffffffffffffff));
  ((0x2405454000000000, 0x0000000000000000), (0x24054540ffffffff, 0xffffffffffffffff));
  ((0x2405458000000000, 0x0000000000000000), (0x24054580ffffffff, 0xffffffffffffffff));
  ((0x2405468000000000, 0x0000000000000000), (0x24054680ffffffff, 0xffffffffffffffff));
  ((0x2405478000000000, 0x0000000000000000), (0x24054780ffffffff, 0xffffffffffffffff));
  ((0x2405488000000000, 0x0000000000000000), (0x24054880ffffffff, 0xffffffffffffffff));
  ((0x2405498000000000, 0x0000000000000000), (0x24054980ffffffff, 0xffffffffffffffff));
  ((0x24054a8000000000, 0x0000000000000000), (0x24054a80ffffffff, 0xffffffffffffffff));
  ((0x24054b8000000000, 0x0000000000000000), (0x24054b80ffffffff, 0xffffffffffffffff));
  ((0x24054d4000000000, 0x0000000000000000), (0x24054d40ffffffff, 0xffffffffffffffff));
  ((0x24054e8000000000, 0x0000000000000000), (0x24054e80ffffffff, 0xffffffffffffffff));
  ((0x24054f8000000000, 0x0000000000000000), (0x24054f80ffffffff, 0xffffffffffffffff));
  ((0x2405508000000000, 0x0000000000000000), (0x24055080ffffffff, 0xffffffffffffffff));
  ((0x2405518000000000, 0x0000000000000000), (0x24055180ffffffff, 0xffffffffffffffff));
  ((0x2405524000000000, 0x0000000000000000), (0x24055240ffffffff, 0xffffffffffffffff));
  ((0x2405528000000000, 0x0000000000000000), (0x24055280ffffffff, 0xffffffffffffffff));
  ((0x240552c000000000, 0x0000000000000000), (0x240552c0ffffffff, 0xffffffffffffffff));
  ((0x2405538000000000, 0x0000000000000000), (0x24055380ffffffff, 0xffffffffffffffff));
  ((0x2405548000000000, 0x0000000000000000), (0x24055480ffffffff, 0xffffffffffffffff));
  ((0x2405558000000000, 0x0000000000000000), (0x24055580ffffffff, 0xffffffffffffffff));
  ((0x2405568000000000, 0x0000000000000000), (0x24055680ffffffff, 0xffffffffffffffff));
  ((0x2405578000000000, 0x0000000000000000), (0x24055780ffffffff, 0xffffffffffffffff));
  ((0x240557c000000000, 0x0000000000000000), (0x240557c0ffffffff, 0xffffffffffffffff));
  ((0x2405588000000000, 0x0000000000000000), (0x24055880ffffffff, 0xffffffffffffffff));
  ((0x2405598000000000, 0x0000000000000000), (0x24055980ffffffff, 0xffffffffffffffff));
  ((0x24055a8000000000, 0x0000000000000000), (0x24055a80ffffffff, 0xffffffffffffffff));
  ((0x24055b8000000000, 0x0000000000000000), (0x24055b80ffffffff, 0xffffffffffffffff));
  ((0x24055c8000000000, 0x0000000000000000), (0x24055c80ffffffff, 0xffffffffffffffff));
  ((0x24055cc000000000, 0x0000000000000000), (0x24055cc0ffffffff, 0xffffffffffffffff));
  ((0x24055d4000000000, 0x0000000000000000), (0x24055d40ffffffff, 0xffffffffffffffff));
  ((0x24055d8000000000, 0x0000000000000000), (0x24055d80ffffffff, 0xffffffffffffffff));
  ((0x24055dc000000000, 0x0000000000000000), (0x24055dc0ffffffff, 0xffffffffffffffff));
  ((0x24055e8000000000, 0x0000000000000000), (0x24055e80ffffffff, 0xffffffffffffffff));
  ((0x24055f8000000000, 0x0000000000000000), (0x24055f80ffffffff, 0xffffffffffffffff));
  ((0x2405608000000000, 0x0000000000000000), (0x24056080ffffffff, 0xffffffffffffffff));
  ((0x2405618000000000, 0x0000000000000000), (0x24056180ffffffff, 0xffffffffffffffff));
  ((0x2405620000000000, 0x0000000000000000), (0x24056200ffffffff, 0xffffffffffffffff));
  ((0x240566c000000000, 0x0000000000000000), (0x240566c0ffffffff, 0xffffffffffffffff));
  ((0x2405688000000000, 0x0000000000000000), (0x24056880ffffffff, 0xffffffffffffffff));
  ((0x240568c000000000, 0x0000000000000000), (0x240568c0ffffffff, 0xffffffffffffffff));
  ((0x2405694000000000, 0x0000000000000000), (0x24056940ffffffff, 0xffffffffffffffff));
  ((0x240569c000000000, 0x0000000000000000), (0x240569c0ffffffff, 0xffffffffffffffff));
  ((0x24056a8000000000, 0x0000000000000000), (0x24056a80ffffffff, 0xffffffffffffffff));
  ((0x24056b8000000000, 0x0000000000000000), (0x24056b80ffffffff, 0xffffffffffffffff));
  ((0x24056c8000000000, 0x0000000000000000), (0x24056c80ffffffff, 0xffffffffffffffff));
  ((0x24056d8000000000, 0x0000000000000000), (0x24056d80ffffffff, 0xffffffffffffffff));
  ((0x24056e8000000000, 0x0000000000000000), (0x24056e80ffffffff, 0xffffffffffffffff));
  ((0x24056f0000000000, 0x0000000000000000), (0x24056f00ffffffff, 0xffffffffffffffff));
  ((0x24056f8000000000, 0x0000000000000000), (0x24056f80ffffffff, 0xffffffffffffffff));
  ((0x2405704000000000, 0x0000000000000000), (0x24057040ffffffff, 0xffffffffffffffff));
  ((0x2405708000000000, 0x0000000000000000), (0x24057080ffffffff, 0xffffffffffffffff));
  ((0x2405718000000000, 0x0000000000000000), (0x24057180ffffffff, 0xffffffffffffffff));
  ((0x2405724000000000, 0x0000000000000000), (0x24057240ffffffff, 0xffffffffffffffff));
  ((0x2405728000000000, 0x0000000000000000), (0x24057280ffffffff, 0xffffffffffffffff));
  ((0x2405738000000000, 0x0000000000000000), (0x24057380ffffffff, 0xffffffffffffffff));
  ((0x2405748000000000, 0x0000000000000000), (0x24057480ffffffff, 0xffffffffffffffff));
  ((0x2405758000000000, 0x0000000000000000), (0x24057580ffffffff, 0xffffffffffffffff));
  ((0x2405768000000000, 0x0000000000000000), (0x24057680ffffffff, 0xffffffffffffffff));
  ((0x2405778000000000, 0x0000000000000000), (0x24057780ffffffff, 0xffffffffffffffff));
  ((0x2405788000000000, 0x0000000000000000), (0x24057880ffffffff, 0xffffffffffffffff));
  ((0x240578c000000000, 0x0000000000000000), (0x240578c0ffffffff, 0xffffffffffffffff));
  ((0x2405798000000000, 0x0000000000000000), (0x24057980ffffffff, 0xffffffffffffffff));
  ((0x240579c000000000, 0x0000000000000000), (0x240579c0ffffffff, 0xffffffffffffffff));
  ((0x24057a8000000000, 0x0000000000000000), (0x24057a80ffffffff, 0xffffffffffffffff));
  ((0x24057b8000000000, 0x0000000000000000), (0x24057b80ffffffff, 0xffffffffffffffff));
  ((0x24057c8000000000, 0x0000000000000000), (0x24057c80ffffffff, 0xffffffffffffffff));
  ((0x24057d4000000000, 0x0000000000000000), (0x24057d40ffffffff, 0xffffffffffffffff));
  ((0x24057f4000000000, 0x0000000000000000), (0x24057f40ffffffff, 0xffffffffffffffff));
  ((0x24057fc000000000, 0x0000000000000000), (0x24057fc0ffffffff, 0xffffffffffffffff));
  ((0x2405828000000000, 0x0000000000000000), (0x24058280ffffffff, 0xffffffffffffffff));
  ((0x2405848000000000, 0x0000000000000000), (0x24058480ffffffff, 0xffffffffffffffff));
  ((0x240584c000000000, 0x0000000000000000), (0x240584c0ffffffff, 0xffffffffffffffff));
  ((0x2405858000000000, 0x0000000000000000), (0x24058580ffffffff, 0xffffffffffffffff));
  ((0x2405868000000000, 0x0000000000000000), (0x24058680ffffffff, 0xffffffffffffffff));
  ((0x2405878000000000, 0x0000000000000000), (0x24058780ffffffff, 0xffffffffffffffff));
  ((0x2405888000000000, 0x0000000000000000), (0x24058880ffffffff, 0xffffffffffffffff));
  ((0x2405898000000000, 0x0000000000000000), (0x24058980ffffffff, 0xffffffffffffffff));
  ((0x24058a4000000000, 0x0000000000000000), (0x24058a40ffffffff, 0xffffffffffffffff));
  ((0x24058a8000000000, 0x0000000000000000), (0x24058a80ffffffff, 0xffffffffffffffff));
  ((0x24058ac000000000, 0x0000000000000000), (0x24058ac0ffffffff, 0xffffffffffffffff));
  ((0x24058b8000000000, 0x0000000000000000), (0x24058b80ffffffff, 0xffffffffffffffff));
  ((0x24058c8000000000, 0x0000000000000000), (0x24058c80ffffffff, 0xffffffffffffffff));
  ((0x24058d8000000000, 0x0000000000000000), (0x24058d80ffffffff, 0xffffffffffffffff));
  ((0x24058e8000000000, 0x0000000000000000), (0x24058e80ffffffff, 0xffffffffffffffff));
  ((0x24058f8000000000, 0x0000000000000000), (0x24058f80ffffffff, 0xffffffffffffffff));
  ((0x2405908000000000, 0x0000000000000000), (0x24059080ffffffff, 0xffffffffffffffff));
  ((0x2405918000000000, 0x0000000000000000), (0x24059180ffffffff, 0xffffffffffffffff));
  ((0x2405928000000000, 0x0000000000000000), (0x24059280ffffffff, 0xffffffffffffffff));
  ((0x2405930000000000, 0x0000000000000000), (0x24059300ffffffff, 0xffffffffffffffff));
  ((0x2405934000000000, 0x0000000000000000), (0x24059340ffffffff, 0xffffffffffffffff));
  ((0x2405938000000000, 0x0000000000000000), (0x24059380ffffffff, 0xffffffffffffffff));
  ((0x240593c000000000, 0x0000000000000000), (0x240593c0ffffffff, 0xffffffffffffffff));
  ((0x2405948000000000, 0x0000000000000000), (0x24059480ffffffff, 0xffffffffffffffff));
  ((0x240594c000000000, 0x0000000000000000), (0x240594c0ffffffff, 0xffffffffffffffff));
  ((0x2405958000000000, 0x0000000000000000), (0x24059580ffffffff, 0xffffffffffffffff));
  ((0x2405968000000000, 0x0000000000000000), (0x24059680ffffffff, 0xffffffffffffffff));
  ((0x2405970000000000, 0x0000000000000000), (0x24059700ffffffff, 0xffffffffffffffff));
  ((0x2405978000000000, 0x0000000000000000), (0x24059780ffffffff, 0xffffffffffffffff));
  ((0x240597c000000000, 0x0000000000000000), (0x240597c0ffffffff, 0xffffffffffffffff));
  ((0x2405988000000000, 0x0000000000000000), (0x24059880ffffffff, 0xffffffffffffffff));
  ((0x2405990000000000, 0x0000000000000000), (0x24059900ffffffff, 0xffffffffffffffff));
  ((0x2405998000000000, 0x0000000000000000), (0x24059980ffffffff, 0xffffffffffffffff));
  ((0x240599c000000000, 0x0000000000000000), (0x240599c0ffffffff, 0xffffffffffffffff));
  ((0x24059a8000000000, 0x0000000000000000), (0x24059a80ffffffff, 0xffffffffffffffff));
  ((0x24059b0000000000, 0x0000000000000000), (0x24059b00ffffffff, 0xffffffffffffffff));
  ((0x24059b8000000000, 0x0000000000000000), (0x24059b80ffffffff, 0xffffffffffffffff));
  ((0x24059bc000000000, 0x0000000000000000), (0x24059bc0ffffffff, 0xffffffffffffffff));
  ((0x24059e0000000000, 0x0000000000000000), (0x24059e00ffffffff, 0xffffffffffffffff));
  ((0x2405a24000000000, 0x0000000000000000), (0x2405a240ffffffff, 0xffffffffffffffff));
  ((0x2405a50000000000, 0x0000000000000000), (0x2405a500ffffffff, 0xffffffffffffffff));
  ((0x2405a68000000000, 0x0000000000000000), (0x2405a680ffffffff, 0xffffffffffffffff));
  ((0x2405a90000000000, 0x0000000000000000), (0x2405a900ffffffff, 0xffffffffffffffff));
  ((0x2405a98000000000, 0x0000000000000000), (0x2405a980ffffffff, 0xffffffffffffffff));
  ((0x2405aa8000000000, 0x0000000000000000), (0x2405aa80ffffffff, 0xffffffffffffffff));
  ((0x2405ab0000000000, 0x0000000000000000), (0x2405ab00ffffffff, 0xffffffffffffffff));
  ((0x2405ad0000000000, 0x0000000000000000), (0x2405ad00ffffffff, 0xffffffffffffffff));
  ((0x2405af0000000000, 0x0000000000000000), (0x2405af00ffffffff, 0xffffffffffffffff));
  ((0x2405b10000000000, 0x0000000000000000), (0x2405b100ffffffff, 0xffffffffffffffff));
  ((0x2405b30000000000, 0x0000000000000000), (0x2405b300ffffffff, 0xffffffffffffffff));
  ((0x2405b7c000000000, 0x0000000000000000), (0x2405b7c0ffffffff, 0xffffffffffffffff));
  ((0x2405b88000000000, 0x0000000000000000), (0x2405b880ffffffff, 0xffffffffffffffff));
  ((0x2405b98000000000, 0x0000000000000000), (0x2405b980ffffffff, 0xffffffffffffffff));
  ((0x2405bb0000000000, 0x0000000000000000), (0x2405bb00ffffffff, 0xffffffffffffffff));
  ((0x2405bd0000000000, 0x0000000000000000), (0x2405bd00ffffffff, 0xffffffffffffffff));
  ((0x2405bd8000000000, 0x0000000000000000), (0x2405bd80ffffffff, 0xffffffffffffffff));
  ((0x2405bdc000000000, 0x0000000000000000), (0x2405bdc0ffffffff, 0xffffffffffffffff));
  ((0x2405be8000000000, 0x0000000000000000), (0x2405be80ffffffff, 0xffffffffffffffff));
  ((0x2405bf0000000000, 0x0000000000000000), (0x2405bf00ffffffff, 0xffffffffffffffff));
  ((0x2405c04000000000, 0x0000000000000000), (0x2405c040ffffffff, 0xffffffffffffffff));
  ((0x2405c28000000000, 0x0000000000000000), (0x2405c280ffffffff, 0xffffffffffffffff));
  ((0x2405c38000000000, 0x0000000000000000), (0x2405c380ffffffff, 0xffffffffffffffff));
  ((0x2405c48000000000, 0x0000000000000000), (0x2405c480ffffffff, 0xffffffffffffffff));
  ((0x2405c50000000000, 0x0000000000000000), (0x2405c500ffffffff, 0xffffffffffffffff));
  ((0x2405c58000000000, 0x0000000000000000), (0x2405c580ffffffff, 0xffffffffffffffff));
  ((0x2405c68000000000, 0x0000000000000000), (0x2405c680ffffffff, 0xffffffffffffffff));
  ((0x2405c78000000000, 0x0000000000000000), (0x2405c780ffffffff, 0xffffffffffffffff));
  ((0x2405c88000000000, 0x0000000000000000), (0x2405c880ffffffff, 0xffffffffffffffff));
  ((0x2405c98000000000, 0x0000000000000000), (0x2405c980ffffffff, 0xffffffffffffffff));
  ((0x2405ca8000000000, 0x0000000000000000), (0x2405ca80ffffffff, 0xffffffffffffffff));
  ((0x2405cb8000000000, 0x0000000000000000), (0x2405cb80ffffffff, 0xffffffffffffffff));
  ((0x2405cc8000000000, 0x0000000000000000), (0x2405cc80ffffffff, 0xffffffffffffffff));
  ((0x2405cd8000000000, 0x0000000000000000), (0x2405cd80ffffffff, 0xffffffffffffffff));
  ((0x2405ce8000000000, 0x0000000000000000), (0x2405ce80ffffffff, 0xffffffffffffffff));
  ((0x2405d28000000000, 0x0000000000000000), (0x2405d280ffffffff, 0xffffffffffffffff));
  ((0x2405d4c000000000, 0x0000000000000000), (0x2405d4c0ffffffff, 0xffffffffffffffff));
  ((0x2405d70000000000, 0x0000000000000000), (0x2405d700ffffffff, 0xffffffffffffffff));
  ((0x2405d90000000000, 0x0000000000000000), (0x2405d900ffffffff, 0xffffffffffffffff));
  ((0x2405df4000000000, 0x0000000000000000), (0x2405df40ffffffff, 0xffffffffffffffff));
  ((0x2405e00000000000, 0x0000000000000000), (0x2405e000ffffffff, 0xffffffffffffffff));
  ((0x2405e04000000000, 0x0000000000000000), (0x2405e040ffffffff, 0xffffffffffffffff));
  ((0x2405e1c000000000, 0x0000000000000000), (0x2405e1c0ffffffff, 0xffffffffffffffff));
  ((0x2405e60000000000, 0x0000000000000000), (0x2405e600ffffffff, 0xffffffffffffffff));
  ((0x2405ef4000000000, 0x0000000000000000), (0x2405ef43ffffffff, 0xffffffffffffffff));
  ((0x2405f34000000000, 0x0000000000000000), (0x2405f340ffffffff, 0xffffffffffffffff));
  ((0x2405f58000000000, 0x0000000000000000), (0x2405f580ffffffff, 0xffffffffffffffff));
  ((0x2405f6c000000000, 0x0000000000000000), (0x2405f6c0ffffffff, 0xffffffffffffffff));
  ((0x2405f94000000000, 0x0000000000000000), (0x2405f940ffffffff, 0xffffffffffffffff));
  ((0x2405fdc000000000, 0x0000000000000000), (0x2405fdc0ffffffff, 0xffffffffffffffff));
  ((0x2406004000000000, 0x0000000000000000), (0x24060040ffffffff, 0xffffffffffffffff));
  ((0x2406008000000000, 0x0000000000000000), (0x24060080ffffffff, 0xffffffffffffffff));
  ((0x240600c000000000, 0x0000000000000000), (0x240600c0ffffffff, 0xffffffffffffffff));
  ((0x2406014000000000, 0x0000000000000000), (0x24060140ffffffff, 0xffffffffffffffff));
  ((0x2406028000000000, 0x0000000000000000), (0x24060280ffffffff, 0xffffffffffffffff));
  ((0x2406044000000000, 0x0000000000000000), (0x24060440ffffffff, 0xffffffffffffffff));
  ((0x240604c000000000, 0x0000000000000000), (0x240604c0ffffffff, 0xffffffffffffffff));
  ((0x240607c000000000, 0x0000000000000000), (0x240607c0ffffffff, 0xffffffffffffffff));
  ((0x2406084000000000, 0x0000000000000000), (0x24060840ffffffff, 0xffffffffffffffff));
  ((0x2406088000000000, 0x0000000000000000), (0x24060880ffffffff, 0xffffffffffffffff));
  ((0x240608c000000000, 0x0000000000000000), (0x240608c0ffffffff, 0xffffffffffffffff));
  ((0x24060d8000000000, 0x0000000000000000), (0x24060d80ffffffff, 0xffffffffffffffff));
  ((0x24060e8000000000, 0x0000000000000000), (0x24060e80ffffffff, 0xffffffffffffffff));
  ((0x24060f8000000000, 0x0000000000000000), (0x24060f80ffffffff, 0xffffffffffffffff));
  ((0x2406108000000000, 0x0000000000000000), (0x24061080ffffffff, 0xffffffffffffffff));
  ((0x2406110000000000, 0x0000000000000000), (0x24061100ffffffff, 0xffffffffffffffff));
  ((0x2406118000000000, 0x0000000000000000), (0x24061180ffffffff, 0xffffffffffffffff));
  ((0x2406128000000000, 0x0000000000000000), (0x24061280ffffffff, 0xffffffffffffffff));
  ((0x2406138000000000, 0x0000000000000000), (0x24061380ffffffff, 0xffffffffffffffff));
  ((0x2406148000000000, 0x0000000000000000), (0x24061480ffffffff, 0xffffffffffffffff));
  ((0x2406158000000000, 0x0000000000000000), (0x24061580ffffffff, 0xffffffffffffffff));
  ((0x240615c000000000, 0x0000000000000000), (0x240615c0ffffffff, 0xffffffffffffffff));
  ((0x2406168000000000, 0x0000000000000000), (0x24061680ffffffff, 0xffffffffffffffff));
  ((0x2406178000000000, 0x0000000000000000), (0x24061780ffffffff, 0xffffffffffffffff));
  ((0x2406188000000000, 0x0000000000000000), (0x24061880ffffffff, 0xffffffffffffffff));
  ((0x2406198000000000, 0x0000000000000000), (0x24061980ffffffff, 0xffffffffffffffff));
  ((0x24061a8000000000, 0x0000000000000000), (0x24061a80ffffffff, 0xffffffffffffffff));
  ((0x24061b8000000000, 0x0000000000000000), (0x24061b80ffffffff, 0xffffffffffffffff));
  ((0x24061c8000000000, 0x0000000000000000), (0x24061c80ffffffff, 0xffffffffffffffff));
  ((0x24061d8000000000, 0x0000000000000000), (0x24061d80ffffffff, 0xffffffffffffffff));
  ((0x24061e4000000000, 0x0000000000000000), (0x24061e40ffffffff, 0xffffffffffffffff));
  ((0x24061e8000000000, 0x0000000000000000), (0x24061e80ffffffff, 0xffffffffffffffff));
  ((0x24061f8000000000, 0x0000000000000000), (0x24061f80ffffffff, 0xffffffffffffffff));
  ((0x2406208000000000, 0x0000000000000000), (0x24062080ffffffff, 0xffffffffffffffff));
  ((0x2406264000000000, 0x0000000000000000), (0x24062640ffffffff, 0xffffffffffffffff));
  ((0x2406270000000000, 0x0000000000000000), (0x24062700ffffffff, 0xffffffffffffffff));
  ((0x2406278000000000, 0x0000000000000000), (0x24062780ffffffff, 0xffffffffffffffff));
  ((0x2406288000000000, 0x0000000000000000), (0x24062880ffffffff, 0xffffffffffffffff));
  ((0x2406298000000000, 0x0000000000000000), (0x24062980ffffffff, 0xffffffffffffffff));
  ((0x24062a8000000000, 0x0000000000000000), (0x24062a80ffffffff, 0xffffffffffffffff));
  ((0x24062b8000000000, 0x0000000000000000), (0x24062b80ffffffff, 0xffffffffffffffff));
  ((0x24062c4000000000, 0x0000000000000000), (0x24062c40ffffffff, 0xffffffffffffffff));
  ((0x24062c8000000000, 0x0000000000000000), (0x24062c80ffffffff, 0xffffffffffffffff));
  ((0x24062d8000000000, 0x0000000000000000), (0x24062d80ffffffff, 0xffffffffffffffff));
  ((0x24062e8000000000, 0x0000000000000000), (0x24062e80ffffffff, 0xffffffffffffffff));
  ((0x24062f8000000000, 0x0000000000000000), (0x24062f80ffffffff, 0xffffffffffffffff));
  ((0x2406308000000000, 0x0000000000000000), (0x24063080ffffffff, 0xffffffffffffffff));
  ((0x2406318000000000, 0x0000000000000000), (0x24063180ffffffff, 0xffffffffffffffff));
  ((0x240631c000000000, 0x0000000000000000), (0x240631c0ffffffff, 0xffffffffffffffff));
  ((0x2406328000000000, 0x0000000000000000), (0x24063280ffffffff, 0xffffffffffffffff));
  ((0x2406330000000000, 0x0000000000000000), (0x24063300ffffffff, 0xffffffffffffffff));
  ((0x2406334000000000, 0x0000000000000000), (0x24063340ffffffff, 0xffffffffffffffff));
  ((0x2406338000000000, 0x0000000000000000), (0x24063380ffffffff, 0xffffffffffffffff));
  ((0x2406348000000000, 0x0000000000000000), (0x24063480ffffffff, 0xffffffffffffffff));
  ((0x240634c000000000, 0x0000000000000000), (0x240634c0ffffffff, 0xffffffffffffffff));
  ((0x2406358000000000, 0x0000000000000000), (0x24063580ffffffff, 0xffffffffffffffff));
  ((0x2406364000000000, 0x0000000000000000), (0x24063640ffffffff, 0xffffffffffffffff));
  ((0x2406368000000000, 0x0000000000000000), (0x24063680ffffffff, 0xffffffffffffffff));
  ((0x2406370000000000, 0x0000000000000000), (0x24063700ffffffff, 0xffffffffffffffff));
  ((0x2406378000000000, 0x0000000000000000), (0x24063780ffffffff, 0xffffffffffffffff));
  ((0x2406388000000000, 0x0000000000000000), (0x24063880ffffffff, 0xffffffffffffffff));
  ((0x2406398000000000, 0x0000000000000000), (0x24063980ffffffff, 0xffffffffffffffff));
  ((0x240639c000000000, 0x0000000000000000), (0x240639c0ffffffff, 0xffffffffffffffff));
  ((0x24063ac000000000, 0x0000000000000000), (0x24063ac0ffffffff, 0xffffffffffffffff));
  ((0x24063d8000000000, 0x0000000000000000), (0x24063d80ffffffff, 0xffffffffffffffff));
  ((0x24063e8000000000, 0x0000000000000000), (0x24063e80ffffffff, 0xffffffffffffffff));
  ((0x24063f8000000000, 0x0000000000000000), (0x24063f80ffffffff, 0xffffffffffffffff));
  ((0x2406408000000000, 0x0000000000000000), (0x24064080ffffffff, 0xffffffffffffffff));
  ((0x240640c000000000, 0x0000000000000000), (0x240640c0ffffffff, 0xffffffffffffffff));
  ((0x2406418000000000, 0x0000000000000000), (0x24064180ffffffff, 0xffffffffffffffff));
  ((0x2406428000000000, 0x0000000000000000), (0x24064280ffffffff, 0xffffffffffffffff));
  ((0x240642c000000000, 0x0000000000000000), (0x240642c0ffffffff, 0xffffffffffffffff));
  ((0x2406434000000000, 0x0000000000000000), (0x24064340ffffffff, 0xffffffffffffffff));
  ((0x2406438000000000, 0x0000000000000000), (0x24064380ffffffff, 0xffffffffffffffff));
  ((0x240643c000000000, 0x0000000000000000), (0x240643c0ffffffff, 0xffffffffffffffff));
  ((0x2406448000000000, 0x0000000000000000), (0x24064480ffffffff, 0xffffffffffffffff));
  ((0x2406450000000000, 0x0000000000000000), (0x24064500ffffffff, 0xffffffffffffffff));
  ((0x2406468000000000, 0x0000000000000000), (0x24064680ffffffff, 0xffffffffffffffff));
  ((0x24064b8000000000, 0x0000000000000000), (0x24064b80ffffffff, 0xffffffffffffffff));
  ((0x24064c8000000000, 0x0000000000000000), (0x24064c80ffffffff, 0xffffffffffffffff));
  ((0x24064d0000000000, 0x0000000000000000), (0x24064d00ffffffff, 0xffffffffffffffff));
  ((0x24064d8000000000, 0x0000000000000000), (0x24064d80ffffffff, 0xffffffffffffffff));
  ((0x24064e8000000000, 0x0000000000000000), (0x24064e80ffffffff, 0xffffffffffffffff));
  ((0x24064f0000000000, 0x0000000000000000), (0x24064f00ffffffff, 0xffffffffffffffff));
  ((0x24064f8000000000, 0x0000000000000000), (0x24064f80ffffffff, 0xffffffffffffffff));
  ((0x2406508000000000, 0x0000000000000000), (0x24065080ffffffff, 0xffffffffffffffff));
  ((0x240650c000000000, 0x0000000000000000), (0x240650c0ffffffff, 0xffffffffffffffff));
  ((0x2406518000000000, 0x0000000000000000), (0x24065180ffffffff, 0xffffffffffffffff));
  ((0x2406528000000000, 0x0000000000000000), (0x24065280ffffffff, 0xffffffffffffffff));
  ((0x240652c000000000, 0x0000000000000000), (0x240652c0ffffffff, 0xffffffffffffffff));
  ((0x2406534000000000, 0x0000000000000000), (0x24065340ffffffff, 0xffffffffffffffff));
  ((0x2406538000000000, 0x0000000000000000), (0x24065380ffffffff, 0xffffffffffffffff));
  ((0x2406548000000000, 0x0000000000000000), (0x24065480ffffffff, 0xffffffffffffffff));
  ((0x2406558000000000, 0x0000000000000000), (0x24065580ffffffff, 0xffffffffffffffff));
  ((0x2406568000000000, 0x0000000000000000), (0x24065680ffffffff, 0xffffffffffffffff));
  ((0x2406578000000000, 0x0000000000000000), (0x24065780ffffffff, 0xffffffffffffffff));
  ((0x2406584000000000, 0x0000000000000000), (0x24065841ffffffff, 0xffffffffffffffff));
  ((0x2406588000000000, 0x0000000000000000), (0x24065880ffffffff, 0xffffffffffffffff));
  ((0x2406594000000000, 0x0000000000000000), (0x24065940ffffffff, 0xffffffffffffffff));
  ((0x2406598000000000, 0x0000000000000000), (0x24065980ffffffff, 0xffffffffffffffff));
  ((0x24065a4000000000, 0x0000000000000000), (0x24065a40ffffffff, 0xffffffffffffffff));
  ((0x24065ac000000000, 0x0000000000000000), (0x24065ac0ffffffff, 0xffffffffffffffff));
  ((0x24065b4000000000, 0x0000000000000000), (0x24065b40ffffffff, 0xffffffffffffffff));
  ((0x24065d8000000000, 0x0000000000000000), (0x24065d80ffffffff, 0xffffffffffffffff));
  ((0x24065e8000000000, 0x0000000000000000), (0x24065e80ffffffff, 0xffffffffffffffff));
  ((0x24065f8000000000, 0x0000000000000000), (0x24065f80ffffffff, 0xffffffffffffffff));
  ((0x2406608000000000, 0x0000000000000000), (0x24066080ffffffff, 0xffffffffffffffff));
  ((0x2406610000000000, 0x0000000000000000), (0x24066100ffffffff, 0xffffffffffffffff));
  ((0x2406618000000000, 0x0000000000000000), (0x24066180ffffffff, 0xffffffffffffffff));
  ((0x240661c000000000, 0x0000000000000000), (0x240661c7ffffffff, 0xffffffffffffffff));
  ((0x2406628000000000, 0x0000000000000000), (0x24066280ffffffff, 0xffffffffffffffff));
  ((0x2406630000000000, 0x0000000000000000), (0x24066300ffffffff, 0xffffffffffffffff));
  ((0x2406634000000000, 0x0000000000000000), (0x24066340ffffffff, 0xffffffffffffffff));
  ((0x2406638000000000, 0x0000000000000000), (0x24066380ffffffff, 0xffffffffffffffff));
  ((0x2406648000000000, 0x0000000000000000), (0x24066480ffffffff, 0xffffffffffffffff));
  ((0x2406650000000000, 0x0000000000000000), (0x24066500ffffffff, 0xffffffffffffffff));
  ((0x2406658000000000, 0x0000000000000000), (0x24066580ffffffff, 0xffffffffffffffff));
  ((0x240665c000000000, 0x0000000000000000), (0x240665c0ffffffff, 0xffffffffffffffff));
  ((0x2406664000000000, 0x0000000000000000), (0x24066640ffffffff, 0xffffffffffffffff));
  ((0x2406668000000000, 0x0000000000000000), (0x24066680ffffffff, 0xffffffffffffffff));
  ((0x2406678000000000, 0x0000000000000000), (0x24066780ffffffff, 0xffffffffffffffff));
  ((0x2406688000000000, 0x0000000000000000), (0x24066880ffffffff, 0xffffffffffffffff));
  ((0x2406698000000000, 0x0000000000000000), (0x24066980ffffffff, 0xffffffffffffffff));
  ((0x24066a8000000000, 0x0000000000000000), (0x24066a80ffffffff, 0xffffffffffffffff));
  ((0x24066b8000000000, 0x0000000000000000), (0x24066b80ffffffff, 0xffffffffffffffff));
  ((0x24066bc000000000, 0x0000000000000000), (0x24066bc0ffffffff, 0xffffffffffffffff));
  ((0x24066c8000000000, 0x0000000000000000), (0x24066c80ffffffff, 0xffffffffffffffff));
  ((0x24066d8000000000, 0x0000000000000000), (0x24066d80ffffffff, 0xffffffffffffffff));
  ((0x24066e8000000000, 0x0000000000000000), (0x24066e80ffffffff, 0xffffffffffffffff));
  ((0x24066f8000000000, 0x0000000000000000), (0x24066f80ffffffff, 0xffffffffffffffff));
  ((0x2406708000000000, 0x0000000000000000), (0x24067080ffffffff, 0xffffffffffffffff));
  ((0x2406728000000000, 0x0000000000000000), (0x24067280ffffffff, 0xffffffffffffffff));
  ((0x2406738000000000, 0x0000000000000000), (0x24067380ffffffff, 0xffffffffffffffff));
  ((0x2406748000000000, 0x0000000000000000), (0x24067480ffffffff, 0xffffffffffffffff));
  ((0x2406758000000000, 0x0000000000000000), (0x24067580ffffffff, 0xffffffffffffffff));
  ((0x2406768000000000, 0x0000000000000000), (0x24067680ffffffff, 0xffffffffffffffff));
  ((0x2406778000000000, 0x0000000000000000), (0x24067780ffffffff, 0xffffffffffffffff));
  ((0x2406788000000000, 0x0000000000000000), (0x24067880ffffffff, 0xffffffffffffffff));
  ((0x2406798000000000, 0x0000000000000000), (0x24067980ffffffff, 0xffffffffffffffff));
  ((0x24067a8000000000, 0x0000000000000000), (0x24067a80ffffffff, 0xffffffffffffffff));
  ((0x24067b8000000000, 0x0000000000000000), (0x24067b80ffffffff, 0xffffffffffffffff));
  ((0x24067c8000000000, 0x0000000000000000), (0x24067c80ffffffff, 0xffffffffffffffff));
  ((0x24067d0000000000, 0x0000000000000000), (0x24067d00ffffffff, 0xffffffffffffffff));
  ((0x24067d8000000000, 0x0000000000000000), (0x24067d80ffffffff, 0xffffffffffffffff));
  ((0x24067e8000000000, 0x0000000000000000), (0x24067e80ffffffff, 0xffffffffffffffff));
  ((0x24067f8000000000, 0x0000000000000000), (0x24067f80ffffffff, 0xffffffffffffffff));
  ((0x24067fc000000000, 0x0000000000000000), (0x24067fc0ffffffff, 0xffffffffffffffff));
  ((0x2406808000000000, 0x0000000000000000), (0x24068080ffffffff, 0xffffffffffffffff));
  ((0x2406818000000000, 0x0000000000000000), (0x24068180ffffffff, 0xffffffffffffffff));
  ((0x2406828000000000, 0x0000000000000000), (0x24068280ffffffff, 0xffffffffffffffff));
  ((0x2406838000000000, 0x0000000000000000), (0x24068380ffffffff, 0xffffffffffffffff));
  ((0x2406848000000000, 0x0000000000000000), (0x24068480ffffffff, 0xffffffffffffffff));
  ((0x2406850000000000, 0x0000000000000000), (0x24068500ffffffff, 0xffffffffffffffff));
  ((0x2406858000000000, 0x0000000000000000), (0x24068580ffffffff, 0xffffffffffffffff));
  ((0x2406878000000000, 0x0000000000000000), (0x24068780ffffffff, 0xffffffffffffffff));
  ((0x2406888000000000, 0x0000000000000000), (0x24068880ffffffff, 0xffffffffffffffff));
  ((0x2406898000000000, 0x0000000000000000), (0x24068980ffffffff, 0xffffffffffffffff));
  ((0x24068a8000000000, 0x0000000000000000), (0x24068a80ffffffff, 0xffffffffffffffff));
  ((0x24068b8000000000, 0x0000000000000000), (0x24068b80ffffffff, 0xffffffffffffffff));
  ((0x24068c8000000000, 0x0000000000000000), (0x24068c80ffffffff, 0xffffffffffffffff));
  ((0x24068d8000000000, 0x0000000000000000), (0x24068d80ffffffff, 0xffffffffffffffff));
  ((0x24068e8000000000, 0x0000000000000000), (0x24068e80ffffffff, 0xffffffffffffffff));
  ((0x24068f4000000000, 0x0000000000000000), (0x24068f40ffffffff, 0xffffffffffffffff));
  ((0x24068f8000000000, 0x0000000000000000), (0x24068f80ffffffff, 0xffffffffffffffff));
  ((0x2406920000000000, 0x0000000000000000), (0x24069200ffffffff, 0xffffffffffffffff));
  ((0x2406938000000000, 0x0000000000000000), (0x24069380ffffffff, 0xffffffffffffffff));
  ((0x2406948000000000, 0x0000000000000000), (0x24069480ffffffff, 0xffffffffffffffff));
  ((0x240694c000000000, 0x0000000000000000), (0x240694c0ffffffff, 0xffffffffffffffff));
  ((0x2406978000000000, 0x0000000000000000), (0x24069780ffffffff, 0xffffffffffffffff));
  ((0x24069d8000000000, 0x0000000000000000), (0x24069d80ffffffff, 0xffffffffffffffff));
  ((0x24069e8000000000, 0x0000000000000000), (0x24069e80ffffffff, 0xffffffffffffffff));
  ((0x24069f8000000000, 0x0000000000000000), (0x24069f80ffffffff, 0xffffffffffffffff));
  ((0x2406a08000000000, 0x0000000000000000), (0x2406a080ffffffff, 0xffffffffffffffff));
  ((0x2406a18000000000, 0x0000000000000000), (0x2406a180ffffffff, 0xffffffffffffffff));
  ((0x2406a28000000000, 0x0000000000000000), (0x2406a280ffffffff, 0xffffffffffffffff));
  ((0x2406a38000000000, 0x0000000000000000), (0x2406a380ffffffff, 0xffffffffffffffff));
  ((0x2406a48000000000, 0x0000000000000000), (0x2406a480ffffffff, 0xffffffffffffffff));
  ((0x2406a58000000000, 0x0000000000000000), (0x2406a580ffffffff, 0xffffffffffffffff));
  ((0x2406a68000000000, 0x0000000000000000), (0x2406a680ffffffff, 0xffffffffffffffff));
  ((0x2406a78000000000, 0x0000000000000000), (0x2406a780ffffffff, 0xffffffffffffffff));
  ((0x2406a7c000000000, 0x0000000000000000), (0x2406a7c0ffffffff, 0xffffffffffffffff));
  ((0x2406a88000000000, 0x0000000000000000), (0x2406a880ffffffff, 0xffffffffffffffff));
  ((0x2406a8c000000000, 0x0000000000000000), (0x2406a8c0ffffffff, 0xffffffffffffffff));
  ((0x2406a98000000000, 0x0000000000000000), (0x2406a980ffffffff, 0xffffffffffffffff));
  ((0x2406aa8000000000, 0x0000000000000000), (0x2406aa80ffffffff, 0xffffffffffffffff));
  ((0x2406aac000000000, 0x0000000000000000), (0x2406aac0ffffffff, 0xffffffffffffffff));
  ((0x2406ab8000000000, 0x0000000000000000), (0x2406ab80ffffffff, 0xffffffffffffffff));
  ((0x2406ac8000000000, 0x0000000000000000), (0x2406ac80ffffffff, 0xffffffffffffffff));
  ((0x2406acc000000000, 0x0000000000000000), (0x2406acc0ffffffff, 0xffffffffffffffff));
  ((0x2406ad4000000000, 0x0000000000000000), (0x2406ad40ffffffff, 0xffffffffffffffff));
  ((0x2406ad8000000000, 0x0000000000000000), (0x2406ad80ffffffff, 0xffffffffffffffff));
  ((0x2406ae8000000000, 0x0000000000000000), (0x2406ae80ffffffff, 0xffffffffffffffff));
  ((0x2406af8000000000, 0x0000000000000000), (0x2406af80ffffffff, 0xffffffffffffffff));
  ((0x2406b08000000000, 0x0000000000000000), (0x2406b080ffffffff, 0xffffffffffffffff));
  ((0x2406b64000000000, 0x0000000000000000), (0x2406b640ffffffff, 0xffffffffffffffff));
  ((0x2406b88000000000, 0x0000000000000000), (0x2406b880ffffffff, 0xffffffffffffffff));
  ((0x2406b98000000000, 0x0000000000000000), (0x2406b980ffffffff, 0xffffffffffffffff));
  ((0x2406ba8000000000, 0x0000000000000000), (0x2406ba80ffffffff, 0xffffffffffffffff));
  ((0x2406bb8000000000, 0x0000000000000000), (0x2406bb80ffffffff, 0xffffffffffffffff));
  ((0x2406bc8000000000, 0x0000000000000000), (0x2406bc80ffffffff, 0xffffffffffffffff));
  ((0x2406bd4000000000, 0x0000000000000000), (0x2406bd40ffffffff, 0xffffffffffffffff));
  ((0x2406bd8000000000, 0x0000000000000000), (0x2406bd80ffffffff, 0xffffffffffffffff));
  ((0x2406bdc000000000, 0x0000000000000000), (0x2406bdc0ffffffff, 0xffffffffffffffff));
  ((0x2406be8000000000, 0x0000000000000000), (0x2406be80ffffffff, 0xffffffffffffffff));
  ((0x2406bf8000000000, 0x0000000000000000), (0x2406bf80ffffffff, 0xffffffffffffffff));
  ((0x2406c08000000000, 0x0000000000000000), (0x2406c080ffffffff, 0xffffffffffffffff));
  ((0x2406c18000000000, 0x0000000000000000), (0x2406c180ffffffff, 0xffffffffffffffff));
  ((0x2406c28000000000, 0x0000000000000000), (0x2406c280ffffffff, 0xffffffffffffffff));
  ((0x2406c34000000000, 0x0000000000000000), (0x2406c340ffffffff, 0xffffffffffffffff));
  ((0x2406c48000000000, 0x0000000000000000), (0x2406c480ffffffff, 0xffffffffffffffff));
  ((0x2406c58000000000, 0x0000000000000000), (0x2406c580ffffffff, 0xffffffffffffffff));
  ((0x2406c68000000000, 0x0000000000000000), (0x2406c680ffffffff, 0xffffffffffffffff));
  ((0x2406c78000000000, 0x0000000000000000), (0x2406c780ffffffff, 0xffffffffffffffff));
  ((0x2406c88000000000, 0x0000000000000000), (0x2406c880ffffffff, 0xffffffffffffffff));
  ((0x2406c90000000000, 0x0000000000000000), (0x2406c900ffffffff, 0xffffffffffffffff));
  ((0x2406c98000000000, 0x0000000000000000), (0x2406c980ffffffff, 0xffffffffffffffff));
  ((0x2406ca8000000000, 0x0000000000000000), (0x2406ca80ffffffff, 0xffffffffffffffff));
  ((0x2406cac000000000, 0x0000000000000000), (0x2406cac0ffffffff, 0xffffffffffffffff));
  ((0x2406cb8000000000, 0x0000000000000000), (0x2406cb80ffffffff, 0xffffffffffffffff));
  ((0x2406cc8000000000, 0x0000000000000000), (0x2406cc80ffffffff, 0xffffffffffffffff));
  ((0x2406cd8000000000, 0x0000000000000000), (0x2406cd80ffffffff, 0xffffffffffffffff));
  ((0x2406ce8000000000, 0x0000000000000000), (0x2406ce80ffffffff, 0xffffffffffffffff));
  ((0x2406cf0000000000, 0x0000000000000000), (0x2406cf03ffffffff, 0xffffffffffffffff));
  ((0x2406cf8000000000, 0x0000000000000000), (0x2406cf80ffffffff, 0xffffffffffffffff));
  ((0x2406d08000000000, 0x0000000000000000), (0x2406d080ffffffff, 0xffffffffffffffff));
  ((0x2406d14000000000, 0x0000000000000000), (0x2406d140ffffffff, 0xffffffffffffffff));
  ((0x2406d18000000000, 0x0000000000000000), (0x2406d180ffffffff, 0xffffffffffffffff));
  ((0x2406d28000000000, 0x0000000000000000), (0x2406d280ffffffff, 0xffffffffffffffff));
  ((0x2406d2c000000000, 0x0000000000000000), (0x2406d2c0ffffffff, 0xffffffffffffffff));
  ((0x2406d38000000000, 0x0000000000000000), (0x2406d380ffffffff, 0xffffffffffffffff));
  ((0x2406d44000000000, 0x0000000000000000), (0x2406d440ffffffff, 0xffffffffffffffff));
  ((0x2406d48000000000, 0x0000000000000000), (0x2406d480ffffffff, 0xffffffffffffffff));
  ((0x2406d58000000000, 0x0000000000000000), (0x2406d580ffffffff, 0xffffffffffffffff));
  ((0x2406d68000000000, 0x0000000000000000), (0x2406d680ffffffff, 0xffffffffffffffff));
  ((0x2406d78000000000, 0x0000000000000000), (0x2406d780ffffffff, 0xffffffffffffffff));
  ((0x2406d88000000000, 0x0000000000000000), (0x2406d880ffffffff, 0xffffffffffffffff));
  ((0x2406d98000000000, 0x0000000000000000), (0x2406d980ffffffff, 0xffffffffffffffff));
  ((0x2406db8000000000, 0x0000000000000000), (0x2406db80ffffffff, 0xffffffffffffffff));
  ((0x2406dc8000000000, 0x0000000000000000), (0x2406dc80ffffffff, 0xffffffffffffffff));
  ((0x2406dd0000000000, 0x0000000000000000), (0x2406dd00ffffffff, 0xffffffffffffffff));
  ((0x2406dd8000000000, 0x0000000000000000), (0x2406dd80ffffffff, 0xffffffffffffffff));
  ((0x2406de8000000000, 0x0000000000000000), (0x2406de80ffffffff, 0xffffffffffffffff));
  ((0x2406df8000000000, 0x0000000000000000), (0x2406df80ffffffff, 0xffffffffffffffff));
  ((0x2406e08000000000, 0x0000000000000000), (0x2406e080ffffffff, 0xffffffffffffffff));
  ((0x2406e18000000000, 0x0000000000000000), (0x2406e180ffffffff, 0xffffffffffffffff));
  ((0x2406e2c000000000, 0x0000000000000000), (0x2406e2c0ffffffff, 0xffffffffffffffff));
  ((0x2406e38000000000, 0x0000000000000000), (0x2406e380ffffffff, 0xffffffffffffffff));
  ((0x2406e3c000000000, 0x0000000000000000), (0x2406e3c0ffffffff, 0xffffffffffffffff));
  ((0x2406e50000000000, 0x0000000000000000), (0x2406e500ffffffff, 0xffffffffffffffff));
  ((0x2406e58000000000, 0x0000000000000000), (0x2406e580ffffffff, 0xffffffffffffffff));
  ((0x2406e68000000000, 0x0000000000000000), (0x2406e680ffffffff, 0xffffffffffffffff));
  ((0x2406e78000000000, 0x0000000000000000), (0x2406e780ffffffff, 0xffffffffffffffff));
  ((0x2406e8c000000000, 0x0000000000000000), (0x2406e8c0ffffffff, 0xffffffffffffffff));
  ((0x2406ea4000000000, 0x0000000000000000), (0x2406ea4fffffffff, 0xffffffffffffffff));
  ((0x2406f28000000000, 0x0000000000000000), (0x2406f280ffffffff, 0xffffffffffffffff));
  ((0x2406f30000000000, 0x0000000000000000), (0x2406f300ffffffff, 0xffffffffffffffff));
  ((0x2406f4c000000000, 0x0000000000000000), (0x2406f4c0ffffffff, 0xffffffffffffffff));
  ((0x2406f7c000000000, 0x0000000000000000), (0x2406f7c0ffffffff, 0xffffffffffffffff));
  ((0x2406f98000000000, 0x0000000000000000), (0x2406f980ffffffff, 0xffffffffffffffff));
  ((0x2406fc8000000000, 0x0000000000000000), (0x2406fc80ffffffff, 0xffffffffffffffff));
  ((0x2406fd8000000000, 0x0000000000000000), (0x2406fd80ffffffff, 0xffffffffffffffff));
  ((0x2406fe8000000000, 0x0000000000000000), (0x2406fe80ffffffff, 0xffffffffffffffff));
  ((0x2406ff0000000000, 0x0000000000000000), (0x2406ff00ffffffff, 0xffffffffffffffff));
  ((0x2407048000000000, 0x0000000000000000), (0x24070480ffffffff, 0xffffffffffffffff));
  ((0x2407058000000000, 0x0000000000000000), (0x24070580ffffffff, 0xffffffffffffffff));
  ((0x24070cc000000000, 0x0000000000000000), (0x24070cc0ffffffff, 0xffffffffffffffff));
  ((0x24070f4000000000, 0x0000000000000000), (0x24070f40ffffffff, 0xffffffffffffffff));
  ((0x240717c000000000, 0x0000000000000000), (0x240717c0ffffffff, 0xffffffffffffffff));
  ((0x2407190000000000, 0x0000000000000000), (0x24071900ffffffff, 0xffffffffffffffff));
  ((0x24071d0000000000, 0x0000000000000000), (0x24071d00ffffffff, 0xffffffffffffffff));
  ((0x2407228000000000, 0x0000000000000000), (0x24072280ffffffff, 0xffffffffffffffff));
  ((0x2407238000000000, 0x0000000000000000), (0x24072380ffffffff, 0xffffffffffffffff));
  ((0x240723c000000000, 0x0000000000000000), (0x240723c0ffffffff, 0xffffffffffffffff));
  ((0x2407278000000000, 0x0000000000000000), (0x24072780ffffffff, 0xffffffffffffffff));
  ((0x2407284000000000, 0x0000000000000000), (0x24072840ffffffff, 0xffffffffffffffff));
  ((0x24072ac000000000, 0x0000000000000000), (0x24072ac0ffffffff, 0xffffffffffffffff));
  ((0x240731c000000000, 0x0000000000000000), (0x240731c0ffffffff, 0xffffffffffffffff));
  ((0x2407334000000000, 0x0000000000000000), (0x24073340ffffffff, 0xffffffffffffffff));
  ((0x2407354000000000, 0x0000000000000000), (0x24073540ffffffff, 0xffffffffffffffff));
  ((0x2407370000000000, 0x0000000000000000), (0x24073700ffffffff, 0xffffffffffffffff));
  ((0x2407374000000000, 0x0000000000000000), (0x24073740ffffffff, 0xffffffffffffffff));
  ((0x240737c000000000, 0x0000000000000000), (0x240737c0ffffffff, 0xffffffffffffffff));
  ((0x2407390000000000, 0x0000000000000000), (0x24073900ffffffff, 0xffffffffffffffff));
  ((0x24073f4000000000, 0x0000000000000000), (0x24073f40ffffffff, 0xffffffffffffffff));
  ((0x240743c000000000, 0x0000000000000000), (0x240743c0ffffffff, 0xffffffffffffffff));
  ((0x2407444000000000, 0x0000000000000000), (0x24074440ffffffff, 0xffffffffffffffff));
  ((0x2407458000000000, 0x0000000000000000), (0x24074580ffffffff, 0xffffffffffffffff));
  ((0x2407468000000000, 0x0000000000000000), (0x24074680ffffffff, 0xffffffffffffffff));
  ((0x2407474000000000, 0x0000000000000000), (0x24074740ffffffff, 0xffffffffffffffff));
  ((0x2407488000000000, 0x0000000000000000), (0x24074880ffffffff, 0xffffffffffffffff));
  ((0x2407498000000000, 0x0000000000000000), (0x24074980ffffffff, 0xffffffffffffffff));
  ((0x24074a8000000000, 0x0000000000000000), (0x24074a80ffffffff, 0xffffffffffffffff));
  ((0x24074c8000000000, 0x0000000000000000), (0x24074c80ffffffff, 0xffffffffffffffff));
  ((0x24074d8000000000, 0x0000000000000000), (0x24074d80ffffffff, 0xffffffffffffffff));
  ((0x24074e8000000000, 0x0000000000000000), (0x24074e80ffffffff, 0xffffffffffffffff));
  ((0x24074f0000000000, 0x0000000000000000), (0x24074f00ffffffff, 0xffffffffffffffff));
  ((0x2407538000000000, 0x0000000000000000), (0x24075380ffffffff, 0xffffffffffffffff));
  ((0x240753c000000000, 0x0000000000000000), (0x240753c0ffffffff, 0xffffffffffffffff));
  ((0x2407550000000000, 0x0000000000000000), (0x24075500ffffffff, 0xffffffffffffffff));
  ((0x2407578000000000, 0x0000000000000000), (0x24075780ffffffff, 0xffffffffffffffff));
  ((0x2407584000000000, 0x0000000000000000), (0x24075840ffffffff, 0xffffffffffffffff));
  ((0x2407604000000000, 0x0000000000000000), (0x24076040ffffffff, 0xffffffffffffffff));
  ((0x2407658000000000, 0x0000000000000000), (0x24076580ffffffff, 0xffffffffffffffff));
  ((0x24076c4000000000, 0x0000000000000000), (0x24076c40ffffffff, 0xffffffffffffffff));
  ((0x2407768000000000, 0x0000000000000000), (0x24077680ffffffff, 0xffffffffffffffff));
  ((0x2407778000000000, 0x0000000000000000), (0x24077780ffffffff, 0xffffffffffffffff));
  ((0x2407788000000000, 0x0000000000000000), (0x24077880ffffffff, 0xffffffffffffffff));
  ((0x2407798000000000, 0x0000000000000000), (0x24077980ffffffff, 0xffffffffffffffff));
  ((0x24077c8000000000, 0x0000000000000000), (0x24077c80ffffffff, 0xffffffffffffffff));
  ((0x24077d0000000000, 0x0000000000000000), (0x24077d00ffffffff, 0xffffffffffffffff));
  ((0x24077d8000000000, 0x0000000000000000), (0x24077d80ffffffff, 0xffffffffffffffff));
  ((0x24077e8000000000, 0x0000000000000000), (0x24077e80ffffffff, 0xffffffffffffffff));
  ((0x2407888000000000, 0x0000000000000000), (0x24078880ffffffff, 0xffffffffffffffff));
  ((0x24078b8000000000, 0x0000000000000000), (0x24078b80ffffffff, 0xffffffffffffffff));
  ((0x24078f4000000000, 0x0000000000000000), (0x24078f40ffffffff, 0xffffffffffffffff));
  ((0x2407908000000000, 0x0000000000000000), (0x24079080ffffffff, 0xffffffffffffffff));
  ((0x2407918000000000, 0x0000000000000000), (0x24079180ffffffff, 0xffffffffffffffff));
  ((0x240794c000000000, 0x0000000000000000), (0x240794c0ffffffff, 0xffffffffffffffff));
  ((0x2407968000000000, 0x0000000000000000), (0x24079680ffffffff, 0xffffffffffffffff));
  ((0x2407998000000000, 0x0000000000000000), (0x24079980ffffffff, 0xffffffffffffffff));
  ((0x24079b4000000000, 0x0000000000000000), (0x24079b40ffffffff, 0xffffffffffffffff));
  ((0x24079bc000000000, 0x0000000000000000), (0x24079bc0ffffffff, 0xffffffffffffffff));
  ((0x24079f0000000000, 0x0000000000000000), (0x24079f00ffffffff, 0xffffffffffffffff));
  ((0x24079f8000000000, 0x0000000000000000), (0x24079f80ffffffff, 0xffffffffffffffff));
  ((0x2407a04000000000, 0x0000000000000000), (0x2407a040ffffffff, 0xffffffffffffffff));
  ((0x2407a64000000000, 0x0000000000000000), (0x2407a640ffffffff, 0xffffffffffffffff));
  ((0x2407a7c000000000, 0x0000000000000000), (0x2407a7c0ffffffff, 0xffffffffffffffff));
  ((0x2407a88000000000, 0x0000000000000000), (0x2407a880ffffffff, 0xffffffffffffffff));
  ((0x2407a94000000000, 0x0000000000000000), (0x2407a940ffffffff, 0xffffffffffffffff));
  ((0x2407ad8000000000, 0x0000000000000000), (0x2407ad80ffffffff, 0xffffffffffffffff));
  ((0x2407ae8000000000, 0x0000000000000000), (0x2407ae80ffffffff, 0xffffffffffffffff));
  ((0x2407af8000000000, 0x0000000000000000), (0x2407af80ffffffff, 0xffffffffffffffff));
  ((0x2407b08000000000, 0x0000000000000000), (0x2407b080ffffffff, 0xffffffffffffffff));
  ((0x2407b18000000000, 0x0000000000000000), (0x2407b180ffffffff, 0xffffffffffffffff));
  ((0x2407b28000000000, 0x0000000000000000), (0x2407b280ffffffff, 0xffffffffffffffff));
  ((0x2407b38000000000, 0x0000000000000000), (0x2407b380ffffffff, 0xffffffffffffffff));
  ((0x2407b58000000000, 0x0000000000000000), (0x2407b580ffffffff, 0xffffffffffffffff));
  ((0x2407b68000000000, 0x0000000000000000), (0x2407b680ffffffff, 0xffffffffffffffff));
  ((0x2407b78000000000, 0x0000000000000000), (0x2407b780ffffffff, 0xffffffffffffffff));
  ((0x2407b88000000000, 0x0000000000000000), (0x2407b880ffffffff, 0xffffffffffffffff));
  ((0x2407b98000000000, 0x0000000000000000), (0x2407b980ffffffff, 0xffffffffffffffff));
  ((0x2407ba0000000000, 0x0000000000000000), (0x2407ba00ffffffff, 0xffffffffffffffff));
  ((0x2407ba8000000000, 0x0000000000000000), (0x2407ba80ffffffff, 0xffffffffffffffff));
  ((0x2407bb8000000000, 0x0000000000000000), (0x2407bb80ffffffff, 0xffffffffffffffff));
  ((0x2407bc0000000000, 0x0000000000000000), (0x2407bc00ffffffff, 0xffffffffffffffff));
  ((0x2407bc8000000000, 0x0000000000000000), (0x2407bc80ffffffff, 0xffffffffffffffff));
  ((0x2407bd8000000000, 0x0000000000000000), (0x2407bd80ffffffff, 0xffffffffffffffff));
  ((0x2407bdc000000000, 0x0000000000000000), (0x2407bdc0ffffffff, 0xffffffffffffffff));
  ((0x2407be8000000000, 0x0000000000000000), (0x2407be80ffffffff, 0xffffffffffffffff));
  ((0x2407bf8000000000, 0x0000000000000000), (0x2407bf80ffffffff, 0xffffffffffffffff));
  ((0x2407c08000000000, 0x0000000000000000), (0x2407c080ffffffff, 0xffffffffffffffff));
  ((0x2407c38000000000, 0x0000000000000000), (0x2407c380ffffffff, 0xffffffffffffffff));
  ((0x2407c40000000000, 0x0000000000000000), (0x2407c400ffffffff, 0xffffffffffffffff));
  ((0x2407c48000000000, 0x0000000000000000), (0x2407c480ffffffff, 0xffffffffffffffff));
  ((0x2407c58000000000, 0x0000000000000000), (0x2407c580ffffffff, 0xffffffffffffffff));
  ((0x2407c68000000000, 0x0000000000000000), (0x2407c680ffffffff, 0xffffffffffffffff));
  ((0x2407c78000000000, 0x0000000000000000), (0x2407c780ffffffff, 0xffffffffffffffff));
  ((0x2407c88000000000, 0x0000000000000000), (0x2407c880ffffffff, 0xffffffffffffffff));
  ((0x2407c90000000000, 0x0000000000000000), (0x2407c900ffffffff, 0xffffffffffffffff));
  ((0x2407c98000000000, 0x0000000000000000), (0x2407c980ffffffff, 0xffffffffffffffff));
  ((0x2407cb8000000000, 0x0000000000000000), (0x2407cb80ffffffff, 0xffffffffffffffff));
  ((0x2407cc8000000000, 0x0000000000000000), (0x2407cc80ffffffff, 0xffffffffffffffff));
  ((0x2407cd8000000000, 0x0000000000000000), (0x2407cd80ffffffff, 0xffffffffffffffff));
  ((0x2407ce8000000000, 0x0000000000000000), (0x2407ce80ffffffff, 0xffffffffffffffff));
  ((0x2407cf8000000000, 0x0000000000000000), (0x2407cf80ffffffff, 0xffffffffffffffff));
  ((0x2407d48000000000, 0x0000000000000000), (0x2407d480ffffffff, 0xffffffffffffffff));
  ((0x2407d58000000000, 0x0000000000000000), (0x2407d580ffffffff, 0xffffffffffffffff));
  ((0x2407d68000000000, 0x0000000000000000), (0x2407d680ffffffff, 0xffffffffffffffff));
  ((0x2407d78000000000, 0x0000000000000000), (0x2407d780ffffffff, 0xffffffffffffffff));
  ((0x2407d7c000000000, 0x0000000000000000), (0x2407d7c0ffffffff, 0xffffffffffffffff));
  ((0x2407d88000000000, 0x0000000000000000), (0x2407d880ffffffff, 0xffffffffffffffff));
  ((0x2407d8c000000000, 0x0000000000000000), (0x2407d8c0ffffffff, 0xffffffffffffffff));
  ((0x2407d98000000000, 0x0000000000000000), (0x2407d980ffffffff, 0xffffffffffffffff));
  ((0x2407d9c000000000, 0x0000000000000000), (0x2407d9c0ffffffff, 0xffffffffffffffff));
  ((0x2407da8000000000, 0x0000000000000000), (0x2407da80ffffffff, 0xffffffffffffffff));
  ((0x2407db8000000000, 0x0000000000000000), (0x2407db80ffffffff, 0xffffffffffffffff));
  ((0x2407dc8000000000, 0x0000000000000000), (0x2407dc80ffffffff, 0xffffffffffffffff));
  ((0x2407dd8000000000, 0x0000000000000000), (0x2407dd80ffffffff, 0xffffffffffffffff));
  ((0x2407de8000000000, 0x0000000000000000), (0x2407de80ffffffff, 0xffffffffffffffff));
  ((0x2407df8000000000, 0x0000000000000000), (0x2407df80ffffffff, 0xffffffffffffffff));
  ((0x2407dfc000000000, 0x0000000000000000), (0x2407dfc0ffffffff, 0xffffffffffffffff));
  ((0x2407e08000000000, 0x0000000000000000), (0x2407e080ffffffff, 0xffffffffffffffff));
  ((0x2407e18000000000, 0x0000000000000000), (0x2407e180ffffffff, 0xffffffffffffffff));
  ((0x2407e28000000000, 0x0000000000000000), (0x2407e280ffffffff, 0xffffffffffffffff));
  ((0x2407e38000000000, 0x0000000000000000), (0x2407e380ffffffff, 0xffffffffffffffff));
  ((0x2407e48000000000, 0x0000000000000000), (0x2407e480ffffffff, 0xffffffffffffffff));
  ((0x2407e58000000000, 0x0000000000000000), (0x2407e580ffffffff, 0xffffffffffffffff));
  ((0x2407e68000000000, 0x0000000000000000), (0x2407e680ffffffff, 0xffffffffffffffff));
  ((0x2407e78000000000, 0x0000000000000000), (0x2407e780ffffffff, 0xffffffffffffffff));
  ((0x2407e80000000000, 0x0000000000000000), (0x2407e800ffffffff, 0xffffffffffffffff));
  ((0x2407ea8000000000, 0x0000000000000000), (0x2407ea80ffffffff, 0xffffffffffffffff));
  ((0x2407eb8000000000, 0x0000000000000000), (0x2407eb80ffffffff, 0xffffffffffffffff));
  ((0x2407ec4000000000, 0x0000000000000000), (0x2407ec40ffffffff, 0xffffffffffffffff));
  ((0x2407ec8000000000, 0x0000000000000000), (0x2407ec80ffffffff, 0xffffffffffffffff));
  ((0x2407ecc000000000, 0x0000000000000000), (0x2407ecc0ffffffff, 0xffffffffffffffff));
  ((0x2407ed8000000000, 0x0000000000000000), (0x2407ed80ffffffff, 0xffffffffffffffff));
  ((0x2407ee8000000000, 0x0000000000000000), (0x2407ee80ffffffff, 0xffffffffffffffff));
  ((0x2407ef8000000000, 0x0000000000000000), (0x2407ef80ffffffff, 0xffffffffffffffff));
  ((0x2407f08000000000, 0x0000000000000000), (0x2407f080ffffffff, 0xffffffffffffffff));
  ((0x2407f18000000000, 0x0000000000000000), (0x2407f180ffffffff, 0xffffffffffffffff));
  ((0x2407f28000000000, 0x0000000000000000), (0x2407f280ffffffff, 0xffffffffffffffff));
  ((0x2407f38000000000, 0x0000000000000000), (0x2407f380ffffffff, 0xffffffffffffffff));
  ((0x2407f48000000000, 0x0000000000000000), (0x2407f480ffffffff, 0xffffffffffffffff));
  ((0x2407f58000000000, 0x0000000000000000), (0x2407f580ffffffff, 0xffffffffffffffff));
  ((0x2407f68000000000, 0x0000000000000000), (0x2407f680ffffffff, 0xffffffffffffffff));
  ((0x2407f78000000000, 0x0000000000000000), (0x2407f780ffffffff, 0xffffffffffffffff));
  ((0x2407f88000000000, 0x0000000000000000), (0x2407f880ffffffff, 0xffffffffffffffff));
  ((0x2407f98000000000, 0x0000000000000000), (0x2407f980ffffffff, 0xffffffffffffffff));
  ((0x2407fa8000000000, 0x0000000000000000), (0x2407fa80ffffffff, 0xffffffffffffffff));
  ((0x2407fb8000000000, 0x0000000000000000), (0x2407fb80ffffffff, 0xffffffffffffffff));
  ((0x2407fc8000000000, 0x0000000000000000), (0x2407fc80ffffffff, 0xffffffffffffffff));
  ((0x2407fd8000000000, 0x0000000000000000), (0x2407fd80ffffffff, 0xffffffffffffffff));
  ((0x2408400000000000, 0x0000000000000000), (0x240843ffffffffff, 0xffffffffffffffff));
  ((0x2408600000000000, 0x0000000000000000), (0x240860ffffffffff, 0xffffffffffffffff));
  ((0x2408800000000000, 0x0000000000000000), (0x24088fffffffffff, 0xffffffffffffffff));
  ((0x2409100000000000, 0x0000000000000000), (0x24091fffffffffff, 0xffffffffffffffff));
  ((0x2409200000000000, 0x0000000000000000), (0x240927ffffffffff, 0xffffffffffffffff));
  ((0x2409600000000000, 0x0000000000000000), (0x24096fffffffffff, 0xffffffffffffffff));
  ((0x2409800000000000, 0x0000000000000000), (0x24098fffffffffff, 0xffffffffffffffff));
  ((0x240a200000000000, 0x0000000000000000), (0x240a20ffffffffff, 0xffffffffffffffff));
  ((0x240a400000000000, 0x0000000000000000), (0x240a47ffffffffff, 0xffffffffffffffff));
  ((0x240a600000000000, 0x0000000000000000), (0x240a60ffffffffff, 0xffffffffffffffff));
  ((0x240a800000000000, 0x0000000000000000), (0x240a87ffffffffff, 0xffffffffffffffff));
  ((0x240aa00000000000, 0x0000000000000000), (0x240aafffffffffff, 0xffffffffffffffff));
  ((0x240ac00000000000, 0x0000000000000000), (0x240acfffffffffff, 0xffffffffffffffff));
  ((0x240b200000000000, 0x0000000000000000), (0x240b23ffffffffff, 0xffffffffffffffff));
  ((0x240b600000000000, 0x0000000000000000), (0x240b6fffffffffff, 0xffffffffffffffff));
  ((0x240b800000000000, 0x0000000000000000), (0x240b87ffffffffff, 0xffffffffffffffff));
  ((0x240ba00000000000, 0x0000000000000000), (0x240ba07fffffffff, 0xffffffffffffffff));
  ((0x240be00000000000, 0x0000000000000000), (0x240be03fffffffff, 0xffffffffffffffff));
  ((0x240c000000000000, 0x0000000000000000), (0x240c0000ffffffff, 0xffffffffffffffff));
  ((0x240c000600000000, 0x0000000000000000), (0x240c0006ffffffff, 0xffffffffffffffff));
  ((0x240c000f00000000, 0x0000000000000000), (0x240c000fffffffff, 0xffffffffffffffff));
  ((0x240c400000000000, 0x0000000000000000), (0x240c43ffffffffff, 0xffffffffffffffff));
  ((0x240c800000000000, 0x0000000000000000), (0x240c87ffffffffff, 0xffffffffffffffff));
  ((0x240cc00000000000, 0x0000000000000000), (0x240ccfffffffffff, 0xffffffffffffffff));
  ((0x240d400000000000, 0x0000000000000000), (0x240d47ffffffffff, 0xffffffffffffffff));
  ((0x240d800000000000, 0x0000000000000000), (0x240d80ffffffffff, 0xffffffffffffffff));
  ((0x240e000000000000, 0x0000000000000000), (0x240e3fffffffffff, 0xffffffffffffffff));
  ((0x240f400000000000, 0x0000000000000000), (0x240f40ffffffffff, 0xffffffffffffffff));
  ((0x240f800000000000, 0x0000000000000000), (0x240f80ffffffffff, 0xffffffffffffffff));
  ((0x240fc00000000000, 0x0000000000000000), (0x240fc0ffffffffff, 0xffffffffffffffff)) ].
