(* ===== verification/ChinaIP.v ===== *)
(** Membership in the China IP tables (src/apple-wrapper/router/china_ip.go):
    [sort.Search] over sorted ranges, and its equivalence with a linear scan of
    the tables the repository ships. *)
From S2P Require Import Prelude NetIP ChinaIPData.

(** ** sort.Search *)

(** The loop of [sort.Search] on the half-open interval [i, j); the fuel [j - i]
    is enough since the interval shrinks in every round. *)
Fixpoint Search_loop (fuel : nat) (f : nat → bool) (i j : nat) : nat :=
  match fuel with
  | O => i
  | S fuel =>
    if decide (i < j)%nat then
      let h := ((i + j) / 2)%nat in
      if f h then Search_loop fuel f i h else Search_loop fuel f (S h) j
    else i
  end.

Definition Search (n : nat) (f : nat → bool) : nat := Search_loop n f 0 n.

Lemma half_bounds i j : (i < j)%nat → (i ≤ (i + j) / 2 < j)%nat.
Proof.
  intros. split; [apply Nat.div_le_lower_bound; lia|].
  apply Nat.Div0.div_lt_upper_bound. lia.
Qed.

(** For a predicate that is monotone below [n] the result is the boundary. *)
Lemma Search_loop_spec fuel f n i j :
  (j - i ≤ fuel)%nat → (i ≤ j ≤ n)%nat →
  (∀ a b, (a ≤ b < n)%nat → f a = true → f b = true) →
  let r := Search_loop fuel f i j in
  (i ≤ r ≤ j)%nat ∧ (∀ a, (i ≤ a < r)%nat → f a = false) ∧ (∀ a, (r ≤ a < j)%nat → f a = true).
Proof.
  intros Hf Hij Hmono. revert i j Hf Hij. induction fuel as [|fuel IH]; intros i j Hf Hij.
  { cbn. split_all; intros; lia. }
  cbn [Search_loop]. case_decide as Hlt; [|split_all; intros; lia].
  pose proof (half_bounds i j Hlt). set (h := ((i + j) / 2)%nat) in *. destruct (f h) eqn:E.
  - destruct (IH i h) as (H1 & H2 & H3); [lia..|]. split_all; [lia|lia|done|].
    intros a Ha. destruct (decide (a < h)%nat); [apply H3; lia|]. apply (Hmono h); [lia|done].
  - destruct (IH (S h) j) as (H1 & H2 & H3); [lia..|]. split_all; [lia|lia| |].
    + intros a Ha. destruct (decide (S h ≤ a)%nat); [apply H2; lia|].
      destruct (f a) eqn:Ea; [|done]. rewrite (Hmono a h) in E by (lia || done). done.
    + intros a Ha. apply H3. lia.
Qed.

Lemma Search_spec n f :
  (∀ a b, (a ≤ b < n)%nat → f a = true → f b = true) →
  (Search n f ≤ n)%nat ∧ (∀ a, (a < Search n f)%nat → f a = false) ∧
  (∀ a, (Search n f ≤ a < n)%nat → f a = true).
Proof.
  intros Hmono. destruct (Search_loop_spec n f n 0 n) as (H1 & H2 & H3); [lia..|done|].
  fold (Search n f) in *. split_all; [lia| |done]. intros. apply H2. lia.
Qed.

(** ** Sorted ranges *)

(** Ranges over a type of addresses embedded in [Z] by [key]: each range is
    non-empty and ends before the next one starts. *)
Section ranges.
Context {K : Type} (key : K → Z) (d : K).

Fixpoint ranges_sorted (lo : Z) (l : list (K * K)) : bool :=
  match l with
  | [] => true
  | (s, e) :: l' => bool_decide (lo < key s) && bool_decide (key s ≤ key e)
                    && ranges_sorted (key e) l'
  end.

Definition in_range (x : Z) (r : K * K) : bool :=
  bool_decide (key r.1 ≤ x) && bool_decide (x ≤ key r.2).

Lemma ranges_sorted_lower lo l i s e :
  ranges_sorted lo l = true → l !! i = Some (s, e) → lo < key s ≤ key e.
Proof.
  revert lo i. induction l as [|[s' e'] l IH]; intros lo i Hs Hi; [done|].
  cbn in Hs. rewrite !andb_true_iff, !bool_decide_eq_true in Hs. destruct Hs as [[? ?] Hs].
  destruct i as [|i]; cbn in Hi; [inv Hi; lia|]. specialize (IH _ _ Hs Hi). lia.
Qed.

Lemma ranges_sorted_lt lo l i j s e s' e' :
  ranges_sorted lo l = true → (i < j)%nat →
  l !! i = Some (s, e) → l !! j = Some (s', e') → key e < key s'.
Proof.
  revert lo i j. induction l as [|[s0 e0] l IH]; intros lo i j Hs Hij Hi Hj; [done|].
  cbn in Hs. rewrite !andb_true_iff, !bool_decide_eq_true in Hs. destruct Hs as [[? ?] Hs].
  destruct j as [|j]; [lia|]. cbn in Hj. destruct i as [|i]; cbn in Hi.
  - inv Hi. eapply ranges_sorted_lower in Hj; [|done]. lia.
  - eapply IH; [done| |done..]. lia.
Qed.

(** Sorted ranges make "does not end before [x]" monotone in the index. *)
Lemma ranges_end_mono lo l x a b s e s' e' :
  ranges_sorted lo l = true → (a ≤ b)%nat →
  l !! a = Some (s, e) → l !! b = Some (s', e') → x ≤ key e → x ≤ key e'.
Proof.
  intros Hs Hab Ea Eb Hx. destruct (decide (a = b)) as [->|]; [naive_solver|].
  pose proof (ranges_sorted_lt _ _ a b _ _ _ _ Hs ltac:(lia) Ea Eb).
  pose proof (ranges_sorted_lower _ _ _ _ _ Hs Eb). lia.
Qed.

(** The result [r] of a search for the first range that does not end before
    [x]: the range starts at or before [x] exactly when some range holds [x]. *)
Lemma first_range_linear lo l x (r : nat) f :
  ranges_sorted lo l = true →
  (∀ i s e, l !! i = Some (s, e) → f i = bool_decide (x ≤ key e)) →
  r = Search (length l) f →
  (∃ s e, l !! r = Some (s, e) ∧ key s ≤ x) ↔ Exists (λ p, in_range x p = true) l.
Proof.
  intros Hs Hf ->. unfold in_range.
  destruct (Search_spec (length l) f) as (H1 & H2 & H3).
  { intros a b Hab Ha. destruct (lookup_total_lt l a) as [[sa ea] Ea]; [lia|].
    destruct (lookup_total_lt l b) as [[sb eb] Eb]; [lia|].
    rewrite (Hf _ _ _ Ea), bool_decide_eq_true in Ha.
    rewrite (Hf _ _ _ Eb), bool_decide_eq_true. apply (ranges_end_mono lo l x a b sa ea sb eb); auto; lia. }
  set (r := Search (length l) f) in *. rewrite Exists_exists. split.
  - intros (s & e & E & Hx). exists (s, e). split; [apply list_elem_of_lookup; eauto|].
    pose proof (lookup_lt_Some _ _ _ E) as Hr. assert (f r = true) as Hfr by (apply H3; lia).
    rewrite (Hf _ _ _ E), bool_decide_eq_true in Hfr. cbn.
    by rewrite andb_true_iff, !bool_decide_eq_true.
  - intros ([s e] & [k Hk]%list_elem_of_lookup & Hr). cbn in Hr.
    rewrite andb_true_iff, !bool_decide_eq_true in Hr.
    pose proof (lookup_lt_Some _ _ _ Hk) as Hkl.
    assert (f k = true) as Hfk by (rewrite (Hf _ _ _ Hk), bool_decide_eq_true; lia).
    assert (r ≤ k)%nat as Hrk.
    { destruct (decide (r ≤ k)%nat); [done|]. rewrite H2 in Hfk by lia. done. }
    destruct (lookup_total_lt l r) as [[s' e'] E]; [lia|]. exists s', e'. split; [done|].
    destruct (decide (r = k)) as [Heq|]; [rewrite Heq in E; naive_solver lia|].
    pose proof (ranges_sorted_lt _ _ r k _ _ _ _ Hs ltac:(lia) E Hk).
    pose proof (ranges_sorted_lower _ _ _ _ _ Hs E). lia.
Qed.
End ranges.

(** ** The lookups of china_ip.go *)

(** The predicate [IsChinaIPv4] gives to [sort.Search]. *)
Definition china4_after (ip : Z) (i : nat) : bool :=
  match chinaIPv4Ranges !! i with
  | Some (_, e) => bool_decide (ip ≤ e)
  | None => false
  end.

Definition IsChinaIPv4 (ip : Z) : bool :=
  let n := length chinaIPv4Ranges in
  let idx := Search n (china4_after ip) in
  match chinaIPv4Ranges !! idx with
  | Some (s, _) => bool_decide (s ≤ ip)
  | None => false
  end.

(** The predicate [IsChinaIPv6] gives to [sort.Search]. *)
Definition china6_after (hi lo : Z) (i : nat) : bool :=
  match chinaIPv6Ranges !! i with
  | Some (_, (endHi, endLo)) =>
    if decide (endHi > hi) then true
    else if decide (endHi = hi) then bool_decide (lo ≤ endLo)
    else false
  | None => false
  end.

Definition IsChinaIPv6 (ip : bytes) : bool :=
  if decide (length ip ≠ 16%nat) then false
  else
    let hi := be_val (take 8 ip) in
    let lo := be_val (drop 8 ip) in
    let n := length chinaIPv6Ranges in
    let idx := Search n (china6_after hi lo) in
    match chinaIPv6Ranges !! idx with
    | Some ((startHi, startLo), _) =>
      bool_decide (startHi < hi ∨ startHi = hi ∧ startLo ≤ lo)
    | None => false
    end.

(** [IsChinaIP]; [None] is the nil address. *)
Definition IsChinaIP (ip : IP) : bool :=
  match ip with
  | None => false
  | Some ip =>
    match To4 ip with
    | Some ip4 => IsChinaIPv4 (be_val ip4)
    | None => if decide (length ip = 16%nat) then IsChinaIPv6 ip else false
    end
  end.

(** ** Equivalence with the linear scan *)

(** The 128-bit number of a pair of 64-bit halves. *)
Definition key6 (p : Z * Z) : Z := p.1 * 2 ^ 64 + p.2.

Definition halves_ok (r : (Z * Z) * (Z * Z)) : bool :=
  bool_decide (is_uint 64 r.1.1) && bool_decide (is_uint 64 r.1.2)
  && bool_decide (is_uint 64 r.2.1) && bool_decide (is_uint 64 r.2.2).

(** The shipped tables are sorted, disjoint and of the declared widths. *)
Lemma china4_sorted : ranges_sorted id (-1) chinaIPv4Ranges = true.
Proof. vm_compute. reflexivity. Qed.

Lemma china6_sorted : ranges_sorted key6 (-1) chinaIPv6Ranges = true.
Proof. vm_compute. reflexivity. Qed.

Lemma china6_halves : forallb halves_ok chinaIPv6Ranges = true.
Proof. vm_compute. reflexivity. Qed.

(** The tables are only looked into by the three checks above. *)
#[local] Opaque chinaIPv4Ranges chinaIPv6Ranges.

Lemma key6_lt hi lo hi' lo' :
  is_uint 64 lo → is_uint 64 lo' → key6 (hi, lo) ≤ key6 (hi', lo') ↔ hi < hi' ∨ hi = hi' ∧ lo ≤ lo'.
Proof. unfold key6, is_uint. cbn [fst snd]. nia. Qed.

Lemma be_val_halves ip : length ip = 16%nat →
  be_val ip = key6 (be_val (take 8 ip), be_val (drop 8 ip)).
Proof.
  intros H. rewrite <- (take_drop 8 ip) at 1. rewrite be_val_app, length_drop, H. done.
Qed.

(** The property of an IPv4 address the table is meant to decide. *)
Definition in_china4 (ip : Z) : Prop := Exists (λ r, r.1 ≤ ip ≤ r.2) chinaIPv4Ranges.
Definition in_china6 (ip : Z) : Prop :=
  Exists (λ r, key6 r.1 ≤ ip ≤ key6 r.2) chinaIPv6Ranges.

Lemma Exists_in_range {K} (key : K → Z) x l :
  Exists (λ p, in_range key x p = true) l ↔ Exists (λ p, key p.1 ≤ x ≤ key p.2) l.
Proof.
  unfold in_range. rewrite !Exists_exists.
  by setoid_rewrite andb_true_iff; setoid_rewrite bool_decide_eq_true.
Qed.

(** The binary search of [IsChinaIPv4] decides membership in the shipped
    table: it answers true exactly for the addresses that lie in one of the
    5661 ranges. *)
Theorem IsChinaIPv4_correct (ip : Z) : IsChinaIPv4 ip = true ↔ in_china4 ip.
Proof.
  unfold in_china4. rewrite <- (Exists_in_range id).
  rewrite <- (first_range_linear id (-1) chinaIPv4Ranges ip
    (Search (length chinaIPv4Ranges) (china4_after ip)) (china4_after ip) china4_sorted);
    [|by unfold china4_after; intros i s e ->|reflexivity].
  unfold IsChinaIPv4. destruct (chinaIPv4Ranges !! _) as [[s e]|]; [|naive_solver].
  rewrite bool_decide_eq_true. naive_solver.
Qed.

Lemma china6_lookup_halves i s e :
  chinaIPv6Ranges !! i = Some (s, e) → is_uint 64 s.2 ∧ is_uint 64 e.2.
Proof.
  intros E. pose proof china6_halves as H. rewrite forallb_forall in H.
  specialize (H (s, e)). unfold halves_ok in H.
  rewrite !andb_true_iff, !bool_decide_eq_true in H. apply list_elem_of_lookup_2 in E.
  apply list_elem_of_In in E. cbn in H. destruct (H E) as [[[? ?] ?] ?]. done.
Qed.

(** The binary search of [IsChinaIPv6] on the two 64-bit halves decides
    membership of the 128-bit address in the shipped table. *)
Theorem IsChinaIPv6_correct (ip : bytes) :
  wf_bytes ip → length ip = 16%nat → IsChinaIPv6 ip = true ↔ in_china6 (be_val ip).
Proof.
  intros Hw Hl. unfold in_china6. rewrite <- (Exists_in_range key6), be_val_halves by done.
  assert (is_uint 64 (be_val (drop 8 ip))) as Hlo.
  { unfold is_uint. pose proof (be_val_bound (drop 8 ip) ltac:(by apply Forall_drop)) as H.
    by rewrite length_drop, Hl in H. }
  set (hi := be_val (take 8 ip)). set (lo := be_val (drop 8 ip)) in *.
  rewrite <- (first_range_linear key6 (-1) chinaIPv6Ranges (key6 (hi, lo))
    (Search (length chinaIPv6Ranges) (china6_after hi lo)) (china6_after hi lo) china6_sorted);
    [|intros i s [eh el] E|reflexivity].
  - unfold IsChinaIPv6. rewrite decide_False by lia. cbn zeta. fold hi lo.
    generalize (Search (length chinaIPv6Ranges) (china6_after hi lo)) as idx. intros idx.
    destruct (chinaIPv6Ranges !! idx) as [[[sh sl] e]|] eqn:E; [|naive_solver].
    rewrite bool_decide_eq_true. apply china6_lookup_halves in E as [? _].
    rewrite <- key6_lt by done. naive_solver.
  - apply china6_lookup_halves in E as ?. unfold china6_after. rewrite E.
    apply eq_true_iff_eq. rewrite bool_decide_eq_true, key6_lt by naive_solver.
    repeat case_decide; rewrite ?bool_decide_eq_true; naive_solver lia.
Qed.

Lemma IsChinaIPv6_correct_witness :
  let ip := [0x24;0x0e;0;1;0;0;0;0;0;0;0;0;0;0;0;1] in
  IsChinaIPv6 ip = true ∧ in_china6 (be_val ip).
Proof.
  assert (IsChinaIPv6 [0x24;0x0e;0;1;0;0;0;0;0;0;0;0;0;0;0;1] = true) as H by (vm_compute; reflexivity).
  split; [exact H|]. apply (IsChinaIPv6_correct [0x24;0x0e;0;1;0;0;0;0;0;0;0;0;0;0;0;1]);
    [apply (bool_decide_unpack _); vm_compute; exact I|reflexivity|exact H].
Defined.
