(* ===== verification/Router.v ===== *)
(** The routing decision of the Apple wrapper (src/apple-wrapper/router): the
    domain matcher, the IP matcher, the built-in rules and [Router.Route]. *)
From S2P Require Import Prelude GoText NetIP ChinaIP.

(** ** Data (router.go) *)

Inductive RouteAction := ActionProxy | ActionDirect | ActionBlock.

#[global] Instance RouteAction_eq_dec : EqDecision RouteAction.
Proof. solve_decision. Defined.

Definition RouteAction_String (a : RouteAction) : bytes :=
  match a with
  | ActionDirect => lit "direct"
  | ActionBlock => lit "block"
  | ActionProxy => lit "proxy"
  end.

(** [RouteMode] is a string type: a configuration may hold any string. *)
Abbreviation RouteMode := bytes.
Definition ModeRule : RouteMode := lit "rule".
Definition ModeGlobal : RouteMode := lit "global".
Definition ModeDirect : RouteMode := lit "direct".

Record Config := {
  Mode : RouteMode;
  CustomDirectDomains : list bytes;
  CustomProxyDomains : list bytes;
  CustomBlockDomains : list bytes;
  CustomDirectIPs : list bytes;
  CustomProxyIPs : list bytes;
  CustomBlockIPs : list bytes
}.

(** ** Built-in rules (builtin_rules.go) *)

Definition BuiltinDirectSuffixes : list bytes := lit <$>
  ([
    "cn"; "xn--fiqs8s"; "xn--55qx5d"; "xn--io0a7i"; "apple.com"; "icloud.com";
    "icloud-content.com"; "cdn-apple.com"; "mzstatic.com"; "aaplimg.com";
    "apple-cloudkit.com"; "apple-livephotoskit.com"; "qq.com"; "weixin.com"; "qpic.cn";
    "qlogo.cn"; "tenpay.com"; "tencent.com"; "tencent-cloud.net"; "gtimg.cn"; "gtimg.com";
    "wechat.com"; "taobao.com"; "tmall.com"; "alipay.com"; "alipayobjects.com";
    "alibaba.com"; "alicdn.com"; "aliyun.com"; "aliyuncs.com"; "tbcdn.cn"; "1688.com";
    "baidu.com"; "bdimg.com"; "bdstatic.com"; "baidupcs.com"; "hao123.com";
    "bilibili.com"; "hdslb.com"; "bilivideo.com"; "biliapi.net"; "douyin.com";
    "bytedance.com"; "byteimg.com"; "douyincdn.com"; "zjurl.cn"; "toutiao.com";
    "feishu.cn"; "jd.com"; "360buyimg.com"; "jdpay.com"; "163.com"; "126.net"; "yeah.net";
    "netease.com"; "127.net"; "meituan.com"; "dianping.com"; "dpfile.com"; "meituan.net";
    "zhihu.com"; "zhimg.com"; "weibo.com"; "weibo.cn"; "sinaimg.cn"; "sina.com.cn";
    "xiaohongshu.com"; "xhscdn.com"; "xiaomi.com"; "mi.com"; "mi-img.com"; "huawei.com";
    "dbankcdn.com"; "honor.cn"; "honor.com"; "oppo.com"; "vivo.com"; "amap.com";
    "autonavi.com"; "gaode.com"; "unionpay.com"; "95516.com"; "icbc.com.cn"; "ccb.com";
    "boc.cn"; "abchina.com"; "cmbchina.com"; "bankofchina.com"; "kuaishou.com";
    "kuaishoupay.com"; "youku.com"; "iqiyi.com"; "qiyi.cn"; "mgtv.com"; "ximalaya.com";
    "kugou.com"; "kuwo.cn"])%string.

Definition BuiltinBlockSuffixes : list bytes := lit <$>
  ([
    "googleads.g.doubleclick.net"; "pagead2.googlesyndication.com";
    "adservice.google.com"; "adcolony.com"; "unityads.unity3d.com"; "applovin.com";
    "vungle.com"; "ironsrc.com"])%string.

(** ** Domain matcher (compact_trie.go) *)

Record DomainMatcher := {
  exact : gmap bytes RouteAction;
  suffixes : gmap bytes RouteAction;
  keywords : list (bytes * RouteAction)
}.

Definition NewDomainMatcher : DomainMatcher :=
  {| exact := ∅; suffixes := ∅; keywords := [] |}.

Section matcher.
Context {U : UnicodeTables}.

(** [strings.TrimSpace(strings.ToLower(domain))]. *)
Definition normalize (domain : bytes) : bytes := TrimSpace (ToLower domain).

Definition AddExact (m : DomainMatcher) (domain : bytes) (a : RouteAction) : DomainMatcher :=
  let domain := normalize domain in
  if decide (domain = []) then m
  else {| exact := <[domain := a]> (exact m); suffixes := suffixes m; keywords := keywords m |}.

Definition AddSuffix (m : DomainMatcher) (suffix : bytes) (a : RouteAction) : DomainMatcher :=
  let suffix := TrimPrefix (normalize suffix) [46] in
  if decide (suffix = []) then m
  else {| exact := exact m; suffixes := <[suffix := a]> (suffixes m); keywords := keywords m |}.

Definition AddKeyword (m : DomainMatcher) (keyword : bytes) (a : RouteAction) : DomainMatcher :=
  let keyword := normalize keyword in
  if decide (keyword = []) then m
  else {| exact := exact m; suffixes := suffixes m; keywords := keywords m ++ [(keyword, a)] |}.

(** The loop over the positions of ['.']: [rest] is [domain[i:]]. *)
Fixpoint suffix_loop (t : gmap bytes RouteAction) (rest : bytes) : option RouteAction :=
  match rest with
  | [] => None
  | c :: sub =>
    if decide (c = 46 ∧ sub ≠ []) then
      match t !! sub with
      | Some a => Some a
      | None => suffix_loop t sub
      end
    else suffix_loop t sub
  end.

Fixpoint keyword_loop (ks : list (bytes * RouteAction)) (domain : bytes) : option RouteAction :=
  match ks with
  | [] => None
  | (k, a) :: ks => if Contains domain k then Some a else keyword_loop ks domain
  end.

(** [DomainMatcher.Match]; the result is Go's pair [(action, ok)]. *)
Definition DomainMatcher_Match (m : DomainMatcher) (domain : bytes) : RouteAction * bool :=
  let domain := normalize domain in
  if decide (domain = []) then (ActionProxy, false)
  else match exact m !! domain with
  | Some a => (a, true)
  | None =>
    match suffixes m !! domain with
    | Some a => (a, true)
    | None =>
      match suffix_loop (suffixes m) domain with
      | Some a => (a, true)
      | None =>
        match keyword_loop (keywords m) domain with
        | Some a => (a, true)
        | None => (ActionProxy, false)
        end
      end
    end
  end.
End matcher.

(** ** IP matcher (compact_cidr.go) *)

Abbreviation IPMatcher := (list (IPNet * RouteAction)).

Definition NewIPMatcher : IPMatcher := [].

(** The network a rule string denotes: a CIDR or a single address. *)
Definition rule_net (cidrStr : bytes) : option IPNet :=
  match ParseCIDR cidrStr with
  | Some n => Some n
  | None =>
    match ParseIP cidrStr with
    | None => None
    | Some ip =>
      match To4 ip with
      | Some ip4 => Some {| net_IP := ip4; net_Mask := CIDRMask 32 32 |}
      | None => Some {| net_IP := ip; net_Mask := CIDRMask 128 128 |}
      end
    end
  end.

(** [AddCIDR] leaves the rules as they are when it returns an error. *)
Definition AddCIDR (m : IPMatcher) (cidrStr : bytes) (a : RouteAction) : IPMatcher * bool :=
  match rule_net cidrStr with
  | Some n => (m ++ [(n, a)], true)
  | None => (m, false)
  end.

Fixpoint IPMatcher_loop (rules : IPMatcher) (ip : bytes) : RouteAction * bool :=
  match rules with
  | [] => (ActionProxy, false)
  | (n, a) :: rules => if IPNet_Contains n ip then (a, true) else IPMatcher_loop rules ip
  end.

Definition IPMatcher_Match (m : IPMatcher) (ip : IP) : RouteAction * bool :=
  match ip with
  | None => (ActionProxy, false)
  | Some ip => IPMatcher_loop m ip
  end.

Definition IsPrivateIP (ip : IP) : bool :=
  match ip with
  | None => false
  | Some ip =>
    if IsLoopback ip || IsLinkLocalUnicast ip || IsLinkLocalMulticast ip || IsPrivate ip
       || IsUnspecified ip then true
    else match To4 ip with
         | Some ip4 =>
           if decide (at_ ip4 0 = 100 ∧ Z.land (at_ ip4 1) 0xC0 = 64) then true
           else bool_decide (at_ ip4 0 = 255 ∧ at_ ip4 1 = 255 ∧ at_ ip4 2 = 255 ∧ at_ ip4 3 = 255)
         | None => false
         end
  end.

(** ** Router (router.go) *)

Record Router := {
  mode : RouteMode;
  domainMatcher : DomainMatcher;
  ipMatcher : IPMatcher
}.

Section router.
Context {U : UnicodeTables}.

Definition add_suffixes (m : DomainMatcher) (ds : list bytes) (a : RouteAction) : DomainMatcher :=
  foldl (λ m d, AddSuffix m d a) m ds.

Definition add_cidrs (m : IPMatcher) (cs : list bytes) (a : RouteAction) : IPMatcher :=
  foldl (λ m c, (AddCIDR m c a).1) m cs.

Definition NewRouter (cfg : Config) : Router :=
  let mode := if decide (Mode cfg = []) then ModeRule else Mode cfg in
  let dm := NewDomainMatcher in
  let im := NewIPMatcher in
  let dm := add_suffixes dm (CustomBlockDomains cfg) ActionBlock in
  let dm := add_suffixes dm (CustomDirectDomains cfg) ActionDirect in
  let dm := add_suffixes dm (CustomProxyDomains cfg) ActionProxy in
  let im := add_cidrs im (CustomBlockIPs cfg) ActionBlock in
  let im := add_cidrs im (CustomDirectIPs cfg) ActionDirect in
  let im := add_cidrs im (CustomProxyIPs cfg) ActionProxy in
  let dm := if decide (mode = ModeRule) then
              let dm := add_suffixes dm BuiltinBlockSuffixes ActionBlock in
              add_suffixes dm BuiltinDirectSuffixes ActionDirect
            else dm in
  {| mode := mode; domainMatcher := dm; ipMatcher := im |}.

(** The IP part of [Route]: custom rules, then the China table, then proxy. *)
Definition route_ip (r : Router) (ip : IP) : RouteAction :=
  match ip with
  | None => ActionProxy
  | Some _ =>
    let '(a, ok) := IPMatcher_Match (ipMatcher r) ip in
    if ok then a
    else if decide (mode r = ModeRule) then
      if IsChinaIP ip then ActionDirect else ActionProxy
    else ActionProxy
  end.

(** [Router.Route]; the port does not take part in the decision. *)
Definition Route (r : Router) (domain : bytes) (ip : IP) (port : Z) : RouteAction :=
  if IsPrivateIP ip then ActionDirect
  else if decide (mode r = ModeGlobal) then ActionProxy
  else if decide (mode r = ModeDirect) then ActionDirect
  else
    let cleanDomain := TrimSpace domain in
    if decide (cleanDomain ≠ []) then
      let '(a, ok) := DomainMatcher_Match (domainMatcher r) cleanDomain in
      if ok then a else route_ip r ip
    else route_ip r ip.
End router.
