(* ===== verification/RouterSpec.v ===== *)
(** The routing decision, specified declaratively and refined by
    [Router.Route]; and the theorems about matchers, private addresses and the
    precedence of custom and built-in rules. *)
From S2P Require Import Prelude GoText NetIP ChinaIP Router.

(** ** Suffix matching *)

(** [s] is [d] or follows a ['.'] in [d]. *)
Definition dot_suffix (s d : bytes) : Prop :=
  s = d ∨ s ≠ [] ∧ ∃ p, d = p ++ 46 :: s.

(** [s] is the longest key of [t] that is a dot suffix of [d], with value [a]. *)
Definition longest_match (t : gmap bytes RouteAction) (d s : bytes) (a : RouteAction) : Prop :=
  dot_suffix s d ∧ t !! s = Some a ∧
  ∀ s', dot_suffix s' d → is_Some (t !! s') → (length s' ≤ length s)%nat.

Definition no_match (t : gmap bytes RouteAction) (d : bytes) : Prop :=
  ∀ s, dot_suffix s d → t !! s = None.

Lemma dot_suffix_length s d : dot_suffix s d → (length s ≤ length d)%nat.
Proof. intros [->|(_ & p & ->)]; [lia|]. rewrite length_app. simpl. lia. Qed.

Lemma dot_suffix_unique s s' d :
  dot_suffix s d → dot_suffix s' d → length s = length s' → s = s'.
Proof.
  intros [->|(_ & p & ->)] [->|(_ & p' & Hd)] Hl; [done|..].
  - rewrite Hd, length_app in Hl. simpl in Hl. lia.
  - rewrite length_app in Hl. simpl in Hl. lia.
  - apply app_inj_2 in Hd as [_ Hd]; [by injection Hd|]. simpl. lia.
Qed.

Lemma dot_suffix_cons s c d :
  dot_suffix s (c :: d) ↔ s = c :: d ∨ c = 46 ∧ d ≠ [] ∧ s = d ∨ s ≠ [] ∧ ∃ p, d = p ++ 46 :: s.
Proof.
  unfold dot_suffix. split.
  - intros [->|(Hs & [|c' p] & Hd)]; [by left|..]; injection Hd as -> ->; naive_solver.
  - intros [->|[(-> & Hd & ->)|(Hs & p & ->)]]; [by left|..].
    + right. split; [done|]. by exists [].
    + right. split; [done|]. by exists (c :: p).
Qed.

(** What the loop over the dots finds: the longest proper dot suffix. *)
Lemma suffix_loop_spec t d :
  match suffix_loop t d with
  | Some a => ∃ s, (s ≠ [] ∧ ∃ p, d = p ++ 46 :: s) ∧ t !! s = Some a ∧
                   ∀ s', (s' ≠ [] ∧ ∃ p, d = p ++ 46 :: s') → is_Some (t !! s') →
                         (length s' ≤ length s)%nat
  | None => ∀ s, (s ≠ [] ∧ ∃ p, d = p ++ 46 :: s) → t !! s = None
  end.
Proof.
  induction d as [|c d IH]; cbn [suffix_loop]; [by intros s [_ [[] ?]]|].
  assert (∀ s, (s ≠ [] ∧ ∃ p, c :: d = p ++ 46 :: s) ↔
               c = 46 ∧ d ≠ [] ∧ s = d ∨ (s ≠ [] ∧ ∃ p, d = p ++ 46 :: s)) as Hsp.
  { intros s. split; [intros (? & [|? p] & E); injection E as -> ->; naive_solver|].
    intros [(-> & ? & ->)|(? & p & ->)]; split; try done; [by exists []|by exists (c :: p)]. }
  case_decide as Hc.
  - destruct (t !! d) as [a|] eqn:Ed.
    + exists d. split; [naive_solver|]. split; [done|]. intros s' [(_ & _ & ->)|(_ & p & ->)]%Hsp ?;
        [done|rewrite length_app; simpl; lia].
    + destruct (suffix_loop t d) as [a|].
      * destruct IH as (s & ? & ? & Hmax). exists s. split; [apply Hsp; by right|]. split; [done|].
        intros s' [(_ & _ & ->)|?]%Hsp [? Hs']; [congruence|]. apply Hmax; [done|by eexists].
      * intros s [(_ & _ & ->)|?]%Hsp; [done|by apply IH].
  - destruct (suffix_loop t d) as [a|].
    + destruct IH as (s & ? & ? & Hmax). exists s. split; [apply Hsp; by right|]. split; [done|].
      intros s' [?|?]%Hsp; naive_solver.
    + intros s [?|?]%Hsp; naive_solver.
Qed.

(** The suffix step of [Match]: the whole domain, then the dots from the left. *)
Definition suffix_step (t : gmap bytes RouteAction) (d : bytes) : option RouteAction :=
  match t !! d with Some a => Some a | None => suffix_loop t d end.

Lemma suffix_step_Some t d a :
  suffix_step t d = Some a ↔ ∃ s, longest_match t d s a.
Proof.
  unfold suffix_step, longest_match, dot_suffix. destruct (t !! d) as [a'|] eqn:Ed.
  - split.
    + intros [= <-]. exists d. split; [by left|]. split; [done|].
      intros s' Hs' _. by apply dot_suffix_length.
    + intros (s & [->|(? & p & ->)] & Hs & Hmax); [congruence|].
      exfalso. specialize (Hmax (p ++ 46 :: s) (or_introl eq_refl) ltac:(by eexists)).
      rewrite length_app in Hmax. simpl in Hmax. lia.
  - pose proof (suffix_loop_spec t d) as H. destruct (suffix_loop t d) as [b|].
    + destruct H as (s & Hs & Hb & Hmax). split.
      * intros [= <-]. exists s. split; [by right|]. split; [done|].
        intros s' [->|?] [? Hs']; [congruence|]. apply Hmax; [done|by eexists].
      * intros (s' & [->|Hs'] & Ha & Hmax'); [congruence|].
        assert (s' = s) as ->; [|congruence].
        eapply dot_suffix_unique; [by right|by right|].
        apply Nat.le_antisymm; [apply Hmax|apply Hmax']; eauto.
    + split; [done|]. intros (s & [->|Hs] & Ha & _); [congruence|]. rewrite H in Ha; done.
Qed.

Lemma suffix_step_None t d : suffix_step t d = None ↔ no_match t d.
Proof.
  unfold suffix_step, no_match, dot_suffix. destruct (t !! d) as [a|] eqn:Ed.
  - split; [done|]. intros H. rewrite H in Ed; [done|by left].
  - pose proof (suffix_loop_spec t d) as H. destruct (suffix_loop t d) as [b|].
    + destruct H as (s & Hs & Hb & _). split; [done|]. intros H. rewrite H in Hb; [done|by right].
    + split; [|done]. intros _ s [->|Hs]; [done|by apply H].
Qed.

(** ** The domain matcher *)

(** The first keyword rule whose keyword occurs in [d]. *)
Definition first_keyword (ks : list (bytes * RouteAction)) (d : bytes) (a : RouteAction) : Prop :=
  ∃ l1 k l2, ks = l1 ++ (k, a) :: l2 ∧ (∃ p q, d = p ++ k ++ q) ∧
    Forall (λ r, ¬ ∃ p q, d = p ++ r.1 ++ q) l1.

Lemma keyword_loop_Some ks d a : keyword_loop ks d = Some a ↔ first_keyword ks d a.
Proof.
  unfold first_keyword. induction ks as [|[k b] ks IH]; cbn [keyword_loop].
  { split; [done|]. intros ([|? ?] & ? & ? & ? & _); done. }
  destruct (Contains d k) eqn:E.
  - apply Contains_spec in E. split.
    + intros [= <-]. by exists [], k, ks.
    + intros ([|r l1] & k' & l2 & Hks & _ & Hall); injection Hks as Hr Hks; [by inv Hr|].
      subst r. by inv Hall.
  - assert (¬ ∃ p q, d = p ++ k ++ q) as Hn by (rewrite <- Contains_spec; congruence).
    rewrite IH. split.
    + intros (l1 & k' & l2 & -> & ? & ?). exists ((k, b) :: l1), k', l2. split; [done|].
      split; [done|]. by constructor.
    + intros ([|r l1] & k' & l2 & Hks & Hk & Hall); injection Hks as Hr Hks; [by inv Hr|].
      inv Hall. by exists l1, k', l2.
Qed.

Lemma keyword_loop_None ks d :
  keyword_loop ks d = None ↔ Forall (λ r : bytes * RouteAction, ¬ ∃ p q, d = p ++ r.1 ++ q) ks.
Proof.
  induction ks as [|[k b] ks IH]; cbn [keyword_loop]; [by split|].
  rewrite Forall_cons, <- IH, <- Contains_spec. cbn. destruct (Contains d k); naive_solver.
Qed.

Section spec.
Context {U : UnicodeTables}.

(** The order of precedence a domain matcher promises: an exact rule, then the
    longest suffix rule, then the first keyword rule. *)
Inductive domain_decides (m : DomainMatcher) (d : bytes) : RouteAction → Prop :=
| by_exact a : exact m !! d = Some a → domain_decides m d a
| by_suffix s a : exact m !! d = None → longest_match (suffixes m) d s a → domain_decides m d a
| by_keyword a : exact m !! d = None → no_match (suffixes m) d →
                 first_keyword (keywords m) d a → domain_decides m d a.

(** The decision on a normalised domain as one function. *)
Definition domain_step (m : DomainMatcher) (d : bytes) : option RouteAction :=
  match exact m !! d with
  | Some a => Some a
  | None => match suffix_step (suffixes m) d with
            | Some a => Some a
            | None => keyword_loop (keywords m) d
            end
  end.

Lemma domain_step_Some m d a : domain_step m d = Some a ↔ domain_decides m d a.
Proof.
  unfold domain_step. split.
  - destruct (exact m !! d) eqn:Ee; [intros [= <-]; by constructor|].
    destruct (suffix_step _ _) eqn:Es.
    + intros [= <-]. apply suffix_step_Some in Es as [s Hs]. by eapply by_suffix.
    + intros Hk. apply by_keyword; [done|by apply suffix_step_None|by apply keyword_loop_Some].
  - intros [b ->|s b -> Hs|b -> Hn Hk]; [done|..].
    + assert (suffix_step (suffixes m) d = Some b) as -> by (apply suffix_step_Some; eauto). done.
    + apply suffix_step_None in Hn as ->. by apply keyword_loop_Some.
Qed.

Lemma DomainMatcher_Match_step m d :
  DomainMatcher_Match m d =
  if decide (normalize d = []) then (ActionProxy, false)
  else match domain_step m (normalize d) with
       | Some a => (a, true)
       | None => (ActionProxy, false)
       end.
Proof.
  unfold DomainMatcher_Match, domain_step, suffix_step. cbn zeta. case_decide; [done|].
  destruct (exact m !! _); [done|]. destruct (suffixes m !! _); [done|]. by destruct (suffix_loop _ _).
Qed.

(** C1. The domain matcher returns an action exactly when one of its rules
    applies to the normalised domain: an exact rule first, otherwise the suffix
    rule with the longest matching suffix (aligned to a dot), otherwise the
    first keyword rule whose keyword occurs in the domain. *)
Theorem DomainMatcher_Match_correct (m : DomainMatcher) (d : bytes) (a : RouteAction) :
  DomainMatcher_Match m d = (a, true) ↔
  normalize d ≠ [] ∧ domain_decides m (normalize d) a.
Proof.
  rewrite DomainMatcher_Match_step, <- domain_step_Some. case_decide; [naive_solver|].
  destruct (domain_step _ _); naive_solver.
Qed.

(** ** The tables of [NewRouter] *)

(** The key a suffix rule is stored under. *)
Definition norm_suffix (d : bytes) : bytes := TrimPrefix (normalize d) [46].

Definition eff_mode (cfg : Config) : RouteMode :=
  if decide (Mode cfg = []) then ModeRule else Mode cfg.

(** All suffix rules in the order the code installs them. *)
Definition suffix_rules (cfg : Config) : list (bytes * RouteAction) :=
  ((., ActionBlock) <$> CustomBlockDomains cfg) ++
  ((., ActionDirect) <$> CustomDirectDomains cfg) ++
  ((., ActionProxy) <$> CustomProxyDomains cfg) ++
  (if decide (eff_mode cfg = ModeRule) then
     ((., ActionBlock) <$> BuiltinBlockSuffixes) ++ ((., ActionDirect) <$> BuiltinDirectSuffixes)
   else []).

(** All IP rules in the order the code tries them; a string that denotes no
    network is skipped. *)
Definition ip_rules (cfg : Config) : IPMatcher :=
  let nets a cs := omap (λ c, (., a) <$> rule_net c) cs in
  nets ActionBlock (CustomBlockIPs cfg) ++ nets ActionDirect (CustomDirectIPs cfg) ++
  nets ActionProxy (CustomProxyIPs cfg).

(** [a] is the action of the last rule for the key [k]. *)
Definition last_rule (rules : list (bytes * RouteAction)) (k : bytes) (a : RouteAction) : Prop :=
  ∃ l1 d l2, rules = l1 ++ (d, a) :: l2 ∧ norm_suffix d = k ∧ Forall (λ r, norm_suffix r.1 ≠ k) l2.

Definition install (m : DomainMatcher) (rules : list (bytes * RouteAction)) : DomainMatcher :=
  foldl (λ m r, AddSuffix m r.1 r.2) m rules.

Lemma add_suffixes_install m ds a : add_suffixes m ds a = install m ((., a) <$> ds).
Proof.
  unfold add_suffixes, install. revert m. induction ds as [|d ds IH]; intros m; [done|]. cbn. apply IH.
Qed.

Lemma NewRouter_suffix_install cfg :
  domainMatcher (NewRouter cfg) = install NewDomainMatcher (suffix_rules cfg).
Proof.
  unfold NewRouter, suffix_rules, eff_mode. cbn [domainMatcher].
  rewrite !add_suffixes_install. unfold install. rewrite !foldl_app. by case_match.
Qed.

Lemma install_fields m rules :
  exact (install m rules) = exact m ∧ keywords (install m rules) = keywords m.
Proof.
  unfold install. revert m. induction rules as [|[d a] rules IH]; intros m; [done|]. cbn.
  destruct (IH (AddSuffix m d a)) as [-> ->]. unfold AddSuffix. by case_decide.
Qed.

Lemma AddSuffix_lookup m d a k : k ≠ [] →
  suffixes (AddSuffix m d a) !! k = if decide (norm_suffix d = k) then Some a else suffixes m !! k.
Proof.
  intros Hk. unfold AddSuffix. fold (norm_suffix d). cbn zeta. case_decide as He.
  - rewrite decide_False by congruence. done.
  - cbn [suffixes]. by rewrite lookup_insert.
Qed.

Lemma last_rule_snoc rules d b k a :
  last_rule (rules ++ [(d, b)]) k a ↔
  (norm_suffix d = k ∧ a = b) ∨ (norm_suffix d ≠ k ∧ last_rule rules k a).
Proof.
  unfold last_rule. split.
  - intros (l1 & d' & l2 & Heq & Hk & Hall). destruct l2 as [|r l2 _] using rev_ind.
    + apply app_inj_tail in Heq as [_ Heq]. inv Heq. by left.
    + rewrite app_comm_cons, app_assoc in Heq. apply app_inj_tail in Heq as [-> <-].
      apply Forall_app in Hall as [Hall Hr]. inv Hr. right. naive_solver.
  - intros [[Hk ->]|(Hn & l1 & d' & l2 & -> & Hk & Hall)].
    + exists rules, d, []. done.
    + exists l1, d', (l2 ++ [(d, b)]). split; [by rewrite <- app_assoc|]. split; [done|].
      apply Forall_app. split; [done|]. by constructor.
Qed.

Lemma install_lookup rules k a : k ≠ [] →
  suffixes (install NewDomainMatcher rules) !! k = Some a ↔ last_rule rules k a.
Proof.
  intros Hk. revert a. induction rules as [|[d b] rules IH] using rev_ind; intros a.
  { cbn. split; [done|]. intros ([|? ?] & ? & ? & ? & _); done. }
  rewrite last_rule_snoc. unfold install. rewrite foldl_app. cbn [foldl fst snd].
  rewrite AddSuffix_lookup by done. fold (install NewDomainMatcher rules).
  case_decide; [naive_solver|]. rewrite IH. naive_solver.
Qed.

Lemma install_nil rules : suffixes (install NewDomainMatcher rules) !! ([] : bytes) = None.
Proof.
  induction rules as [|[d b] rules IH] using rev_ind; [done|].
  unfold install in *. rewrite foldl_app. cbn [foldl fst snd]. unfold AddSuffix at 1.
  cbn zeta. case_decide; [done|]. cbn [suffixes]. by rewrite lookup_insert_ne.
Qed.

(** The suffix table [NewRouter] builds: the rule for a key is the one
    installed last, in the order custom block, custom direct, custom proxy and,
    in rule mode, built-in block and built-in direct. *)
Theorem NewRouter_suffix_table (cfg : Config) (k : bytes) (a : RouteAction) :
  suffixes (domainMatcher (NewRouter cfg)) !! k = Some a ↔
  k ≠ [] ∧ last_rule (suffix_rules cfg) k a.
Proof.
  rewrite NewRouter_suffix_install. destruct (decide (k = [])) as [->|Hk].
  - rewrite install_nil. naive_solver.
  - rewrite install_lookup by done. naive_solver.
Qed.

Lemma add_cidrs_app m cs a :
  add_cidrs m cs a = m ++ omap (λ c, (., a) <$> rule_net c) cs.
Proof.
  revert m. induction cs as [|c cs IH]; intros m; cbn; [by rewrite app_nil_r|].
  unfold add_cidrs in IH. rewrite IH. unfold AddCIDR. destruct (rule_net c); cbn; [|done].
  by rewrite <- app_assoc.
Qed.

Lemma NewRouter_ip_rules cfg : ipMatcher (NewRouter cfg) = ip_rules cfg.
Proof.
  unfold NewRouter, ip_rules. cbn [ipMatcher]. rewrite !add_cidrs_app. by rewrite app_assoc.
Qed.

(** ** The routing decision *)

(** The rule that decides for a domain: the longest suffix of the normalised
    domain that has a rule, and for that suffix the rule installed last. *)
Definition domain_rule (cfg : Config) (domain : bytes) (a : RouteAction) : Prop :=
  let d := normalize (TrimSpace domain) in
  TrimSpace domain ≠ [] ∧ d ≠ [] ∧
  ∃ s, dot_suffix s d ∧ s ≠ [] ∧ last_rule (suffix_rules cfg) s a ∧
       ∀ s' a', dot_suffix s' d → s' ≠ [] → last_rule (suffix_rules cfg) s' a' →
                (length s' ≤ length s)%nat.

(** The first IP rule whose network contains the address. *)
Definition first_ip_rule (rules : IPMatcher) (ip : bytes) (a : RouteAction) : Prop :=
  ∃ l1 n l2, rules = l1 ++ (n, a) :: l2 ∧ IPNet_Contains n ip = true ∧
    Forall (λ r, IPNet_Contains r.1 ip = false) l1.

(** The decision procedure as a specification: each rule states when it
    applies, independently of how the code computes it. *)
Inductive decides (cfg : Config) (domain : bytes) (ip : IP) : RouteAction → Prop :=
| decides_private :
    IsPrivateIP ip = true → decides cfg domain ip ActionDirect
| decides_global :
    IsPrivateIP ip = false → eff_mode cfg = ModeGlobal → decides cfg domain ip ActionProxy
| decides_direct :
    IsPrivateIP ip = false → eff_mode cfg = ModeDirect → decides cfg domain ip ActionDirect
| decides_domain a :
    IsPrivateIP ip = false → eff_mode cfg ≠ ModeGlobal → eff_mode cfg ≠ ModeDirect →
    domain_rule cfg domain a → decides cfg domain ip a
| decides_ip b a :
    IsPrivateIP ip = false → eff_mode cfg ≠ ModeGlobal → eff_mode cfg ≠ ModeDirect →
    (∀ a', ¬ domain_rule cfg domain a') →
    ip = Some b → first_ip_rule (ip_rules cfg) b a → decides cfg domain ip a
| decides_china :
    IsPrivateIP ip = false → eff_mode cfg = ModeRule →
    (∀ a', ¬ domain_rule cfg domain a') →
    (∀ b a', ip = Some b → ¬ first_ip_rule (ip_rules cfg) b a') →
    IsChinaIP ip = true → decides cfg domain ip ActionDirect
| decides_default :
    IsPrivateIP ip = false → eff_mode cfg ≠ ModeGlobal → eff_mode cfg ≠ ModeDirect →
    (∀ a', ¬ domain_rule cfg domain a') →
    (∀ b a', ip = Some b → ¬ first_ip_rule (ip_rules cfg) b a') →
    (eff_mode cfg = ModeRule → IsChinaIP ip = false) →
    decides cfg domain ip ActionProxy.

Lemma IPMatcher_loop_spec rules ip a :
  IPMatcher_loop rules ip = (a, true) ↔ first_ip_rule rules ip a.
Proof.
  unfold first_ip_rule. induction rules as [|[n b] rules IH]; cbn [IPMatcher_loop].
  { split; [done|]. intros ([|? ?] & ? & ? & ? & _); done. }
  destruct (IPNet_Contains n ip) eqn:E.
  - split; [intros [= <-]; by exists [], n, rules|].
    intros ([|r l1] & k' & l2 & Hks & _ & Hall); injection Hks as Hr Hks; [by inv Hr|].
    subst r. inv Hall. cbn in *. congruence.
  - rewrite IH. split.
    + intros (l1 & k' & l2 & -> & ? & ?). exists ((n, b) :: l1), k', l2. split; [done|].
      split; [done|]. by constructor.
    + intros ([|r l1] & k' & l2 & Hks & Hk & Hall); injection Hks as Hr Hks; [inv Hr; congruence|].
      inv Hall. by exists l1, k', l2.
Qed.

(** The domain part of the code computes [domain_rule]. *)
Lemma domain_rule_Match cfg domain a :
  TrimSpace domain ≠ [] →
  DomainMatcher_Match (domainMatcher (NewRouter cfg)) (TrimSpace domain) = (a, true) ↔
  domain_rule cfg domain a.
Proof.
  intros Hd. rewrite DomainMatcher_Match_step. unfold domain_rule. cbn zeta.
  set (d := normalize (TrimSpace domain)). case_decide as Hn; [naive_solver|].
  transitivity (domain_step (domainMatcher (NewRouter cfg)) d = Some a).
  { destruct (domain_step _ _); naive_solver. }
  unfold domain_step. rewrite NewRouter_suffix_install.
  destruct (install_fields NewDomainMatcher (suffix_rules cfg)) as [-> ->].
  rewrite <- NewRouter_suffix_install. cbn [exact keywords NewDomainMatcher].
  rewrite lookup_empty. cbn [keyword_loop].
  transitivity (suffix_step (suffixes (domainMatcher (NewRouter cfg))) d = Some a).
  { by destruct (suffix_step _ _). }
  rewrite suffix_step_Some. unfold longest_match. setoid_rewrite NewRouter_suffix_table.
  split.
  - intros (s & Hs & [Hne Hl] & Hmax). split_all; [done|done|]. exists s. split_all; try done.
    intros s' a' Hs' Hne' Hl'. apply Hmax; [done|]. exists a'. by apply NewRouter_suffix_table.
  - intros (_ & _ & s & Hs & Hne & Hl & Hmax). exists s. split_all; try done.
    intros s' Hs' [a' [Hne' Hl']%NewRouter_suffix_table]. by eapply Hmax.
Qed.

Lemma domain_rule_none cfg domain :
  (TrimSpace domain ≠ [] →
   (DomainMatcher_Match (domainMatcher (NewRouter cfg)) (TrimSpace domain)).2 = false) ↔
  ∀ a, ¬ domain_rule cfg domain a.
Proof.
  split.
  - intros H a Ha. assert (TrimSpace domain ≠ []) as Hd by (by destruct Ha).
    apply domain_rule_Match in Ha; [|done]. specialize (H Hd). by rewrite Ha in H.
  - intros H Hd. destruct (DomainMatcher_Match _ _) as [a []] eqn:E; [|done].
    apply domain_rule_Match in E; [|done]. by apply H in E.
Qed.

Lemma NewRouter_mode cfg : mode (NewRouter cfg) = eff_mode cfg.
Proof. done. Qed.

Lemma route_ip_decides cfg domain ip :
  IsPrivateIP ip = false → eff_mode cfg ≠ ModeGlobal → eff_mode cfg ≠ ModeDirect →
  (∀ a', ¬ domain_rule cfg domain a') →
  decides cfg domain ip (route_ip (NewRouter cfg) ip).
Proof.
  intros Hp Hg Hd Hn. unfold route_ip, IPMatcher_Match.
  destruct ip as [b|]; [|by apply decides_default].
  rewrite NewRouter_ip_rules, NewRouter_mode.
  destruct (IPMatcher_loop _ b) as [a []] eqn:E.
  - apply IPMatcher_loop_spec in E. by eapply decides_ip.
  - assert (∀ b' a', Some b = Some b' → ¬ first_ip_rule (ip_rules cfg) b' a') as Hni.
    { intros b' a' [= <-] Hr. apply IPMatcher_loop_spec in Hr. congruence. }
    case_decide; [|by apply decides_default].
    destruct (IsChinaIP (Some b)) eqn:Ec; [by apply decides_china|by apply decides_default].
Qed.

Lemma Route_decides cfg domain ip port :
  decides cfg domain ip (Route (NewRouter cfg) domain ip port).
Proof.
  unfold Route. rewrite NewRouter_mode. destruct (IsPrivateIP ip) eqn:Hp; [by constructor|].
  case_decide as Hg; [by apply decides_global|]. case_decide as Hd; [by apply decides_direct|].
  cbn zeta. case_decide as Ht.
  - destruct (DomainMatcher_Match _ _) as [a []] eqn:E.
    + apply domain_rule_Match in E; [|done]. by apply decides_domain.
    + apply route_ip_decides; try done. apply domain_rule_none. intros _. by rewrite E.
  - apply route_ip_decides; try done. apply domain_rule_none. done.
Qed.

Lemma domain_rule_functional cfg domain a b :
  domain_rule cfg domain a → domain_rule cfg domain b → a = b.
Proof.
  intros Ha Hb. assert (TrimSpace domain ≠ []) as Hd by (by destruct Ha).
  apply domain_rule_Match in Ha, Hb; congruence.
Qed.

Lemma first_ip_rule_functional rules ip a b :
  first_ip_rule rules ip a → first_ip_rule rules ip b → a = b.
Proof. rewrite <- !IPMatcher_loop_spec. congruence. Qed.

Lemma decides_functional cfg domain ip a b :
  decides cfg domain ip a → decides cfg domain ip b → a = b.
Proof.
  assert (ModeRule ≠ ModeGlobal ∧ ModeRule ≠ ModeDirect ∧ ModeGlobal ≠ ModeDirect)
    as (? & ? & ?) by done.
  intros Ha Hb. destruct Ha, Hb; try congruence; unfold not in *;
    try (exfalso; by eauto); try (eapply domain_rule_functional; by eauto);
    try (simplify_eq; eapply first_ip_rule_functional; by eauto);
    exfalso; intuition congruence.
Qed.

(** C2. [Router.Route] on a router built by [NewRouter] computes the decision
    of the specification, for every configuration, domain, address and port:
    it is total, and it answers [a] exactly when the rules of [decides] give
    [a]. *)
Theorem Route_refines_decides (cfg : Config) (domain : bytes) (ip : IP) (port : Z) (a : RouteAction) :
  Route (NewRouter cfg) domain ip port = a ↔ decides cfg domain ip a.
Proof.
  split; [intros <-; apply Route_decides|].
  intros H. eapply decides_functional; [apply Route_decides|done].
Qed.
(** ** Built-in rules against custom rules *)

Lemma last_rule_app_const rules ds a d k :
  d ∈ ds → norm_suffix d = k → last_rule (rules ++ ((., a) <$> ds)) k a.
Proof.
  intros Hd Hk. induction ds as [|d' ds IH] using rev_ind; [by apply elem_of_nil in Hd|].
  rewrite fmap_app, app_assoc. apply last_rule_snoc.
  destruct (decide (norm_suffix d' = k)); [by left|right]. split; [done|].
  apply elem_of_app in Hd as [Hd|Hd]; [by apply IH|]. apply list_elem_of_singleton in Hd. congruence.
Qed.

Lemma builtin_direct_normal :
  forallb (λ d, bool_decide (norm_suffix d = d) && bool_decide (TrimSpace d = d)
                && bool_decide (normalize d = d) && bool_decide (d ≠ [])) BuiltinDirectSuffixes = true.
Proof. vm_compute. reflexivity. Qed.

(** In rule mode the built-in direct rules win over every custom rule for
    the same domain: whatever the custom lists hold (a block or a proxy rule
    for that very domain included), a built-in direct domain is routed
    directly, for every address and port. *)
Theorem builtin_direct_overrides_custom (cfg : Config) (d : bytes) (ip : IP) (port : Z) :
  eff_mode cfg = ModeRule → d ∈ BuiltinDirectSuffixes →
  Route (NewRouter cfg) d ip port = ActionDirect.
Proof.
  intros Hm Hd. eapply decides_functional; [apply Route_decides|].
  destruct (IsPrivateIP ip) eqn:Hp; [by constructor|].
  pose proof builtin_direct_normal as Hall. rewrite forallb_forall in Hall.
  specialize (Hall d (proj1 (list_elem_of_In _ _) Hd)).
  rewrite !andb_true_iff, !bool_decide_eq_true in Hall. destruct Hall as [[[Hs Ht] Hn] Hne].
  apply decides_domain; [done|by rewrite Hm|by rewrite Hm|]. unfold domain_rule.
  cbn zeta. rewrite Ht, Hn. split_all; [done|done|]. exists d.
  split_all; [by left|done| |intros; by apply dot_suffix_length].
  unfold suffix_rules. rewrite decide_True by done. rewrite !app_assoc.
  by eapply last_rule_app_const.
Qed.
End spec.

Lemma builtin_direct_overrides_custom_witness :
  let cfg := {| Mode := []; CustomDirectDomains := []; CustomProxyDomains := [lit "apple.com"];
                CustomBlockDomains := [lit "apple.com"]; CustomDirectIPs := [];
                CustomProxyIPs := []; CustomBlockIPs := [] |} in
  @Route ascii_tables (@NewRouter ascii_tables cfg) (lit "apple.com") None 443 = ActionDirect.
Proof.
  intros cfg. apply (@builtin_direct_overrides_custom ascii_tables cfg);
    [reflexivity|apply (bool_decide_unpack _); vm_compute; exact I].
Defined.

(** ** Private addresses *)

(** The IPv4 ranges that are always routed directly: 10/8, 127/8, 172.16/12,
    192.168/16, link-local 169.254/16 and 224.0.0/24, carrier-grade NAT
    100.64/10, the unspecified and the broadcast address. *)
Definition private4 (x : Z) : Prop :=
  0x0A000000 ≤ x ≤ 0x0AFFFFFF ∨ 0x7F000000 ≤ x ≤ 0x7FFFFFFF ∨
  0xAC100000 ≤ x ≤ 0xAC1FFFFF ∨ 0xC0A80000 ≤ x ≤ 0xC0A8FFFF ∨
  0xA9FE0000 ≤ x ≤ 0xA9FEFFFF ∨ 0xE0000000 ≤ x ≤ 0xE00000FF ∨
  0x64400000 ≤ x ≤ 0x647FFFFF ∨ x = 0 ∨ x = 0xFFFFFFFF.

Lemma land_0xf0 b : is_byte b → Z.land b 0xf0 = 16 ↔ 16 ≤ b < 32.
Proof.
  intros. change 0xf0 with (0xff - Z.shiftr 0xff 4). rewrite partial_mask by (done || lia).
  change (2 ^ (8 - 4)) with 16. Z.div_mod_to_equations. lia.
Qed.

Lemma land_0xc0 b : is_byte b → Z.land b 0xC0 = 64 ↔ 64 ≤ b < 128.
Proof.
  intros. change 0xC0 with (0xff - Z.shiftr 0xff 2). rewrite partial_mask by (done || lia).
  change (2 ^ (8 - 2)) with 64. Z.div_mod_to_equations. lia.
Qed.

Lemma IsUnspecified_v4 ip ip4 :
  To4 ip = Some ip4 → IsUnspecified ip = bool_decide (ip4 = [0; 0; 0; 0]).
Proof.
  intros H4. apply To4_cases in H4 as (Hl & [-> | ->]);
    destruct ip4 as [|a [|b [|c [|d [|? ?] ] ] ] ]; try done; unfold IsUnspecified, IP_Equal; cbn.
  - rewrite orb_false_r. apply bool_decide_ext. naive_solver.
  - rewrite orb_false_r. apply bool_decide_ext. unfold IPv4zero, v4in6Prefix. cbn. naive_solver.
Qed.

Lemma or_iff (P Q P' Q' : Prop) : (P ↔ P') → (Q ↔ Q') → (P ∨ Q ↔ P' ∨ Q').
Proof. tauto. Qed.

Lemma if_true_orb (b c : bool) : (if b then true else c) = b || c.
Proof. by destruct b. Qed.

Lemma decide_bool_decide {A} P `{Decision P} (x y : A) :
  (if decide P then x else y) = if bool_decide P then x else y.
Proof. by repeat case_decide || case_bool_decide. Qed.

(** The ranges of [private4] in terms of the four bytes. *)
Lemma private4_bytes a b c d : wf_bytes [a; b; c; d] →
  private4 (be_val [a; b; c; d]) ↔
  a = 10 ∨ a = 127 ∨ (a = 172 ∧ 16 ≤ b < 32) ∨ (a = 192 ∧ b = 168) ∨ (a = 169 ∧ b = 254) ∨
  (a = 224 ∧ b = 0 ∧ c = 0) ∨ (a = 100 ∧ 64 ≤ b < 128) ∨
  (a = 0 ∧ b = 0 ∧ c = 0 ∧ d = 0) ∨ (a = 255 ∧ b = 255 ∧ c = 255 ∧ d = 255).
Proof.
  intros Hw. repeat (apply Forall_cons in Hw as [? Hw]). unfold private4, be_val, is_byte in *.
  cbn [foldl]. clear Hw. set (x := (((0 * 256 + a) * 256 + b) * 256 + c) * 256 + d).
  apply or_iff; [lia|]. do 7 (apply or_iff; [lia|]). lia.
Qed.

(** [IsPrivateIP] on an IPv4 address (4-byte or mapped into 16 bytes) is
    membership in the listed ranges of addresses, and a router built from any
    configuration sends such an address directly. *)
Theorem IsPrivateIP_v4 `{UnicodeTables} (ip ip4 : bytes) :
  To4 ip = Some ip4 → wf_bytes ip4 →
  (IsPrivateIP (Some ip) = true ↔ private4 (be_val ip4)) ∧
  (private4 (be_val ip4) → ∀ cfg domain port,
     Route (NewRouter cfg) domain (Some ip) port = ActionDirect).
Proof.
  intros H4 Hw. assert (IsPrivateIP (Some ip) = true ↔ private4 (be_val ip4)) as Hiff.
  { pose proof (To4_cases _ _ H4) as [Hl _].
    unfold IsPrivateIP, IsLoopback, IsLinkLocalUnicast, IsLinkLocalMulticast, IsPrivate.
    rewrite (IsUnspecified_v4 _ _ H4), H4.
    destruct ip4 as [|a [|b [|c [|d [|? ?] ] ] ] ]; try done. rewrite private4_bytes by done.
    repeat (apply Forall_cons in Hw as [? Hw]).
    unfold at_. cbn [lookup list_lookup default from_option]. unfold id.
    assert ([a; b; c; d] = [0; 0; 0; 0] ↔ a = 0 ∧ b = 0 ∧ c = 0 ∧ d = 0) as Hz by naive_solver.
    rewrite (bool_decide_ext _ _ Hz), !if_true_orb, !decide_bool_decide, !if_true_orb.
    rewrite !orb_true_iff, !bool_decide_eq_true, land_0xf0, land_0xc0 by done. tauto. }
  split; [done|]. intros Hp cfg domain port. unfold Route. by rewrite (proj2 Hiff Hp).
Qed.

Lemma IsPrivateIP_v4_witness :
  let ip := [100; 127; 255; 255] in
  IsPrivateIP (Some ip) = true ∧
  @Route ascii_tables (@NewRouter ascii_tables
    {| Mode := lit "global"; CustomDirectDomains := []; CustomProxyDomains := [];
       CustomBlockDomains := []; CustomDirectIPs := []; CustomProxyIPs := [];
       CustomBlockIPs := [lit "100.64.0.0/10"] |}) [] (Some ip) 53 = ActionDirect.
Proof.
  destruct (@IsPrivateIP_v4 ascii_tables [100; 127; 255; 255] [100; 127; 255; 255]) as [H1 H2];
    [reflexivity|apply (bool_decide_unpack _); vm_compute; exact I|].
  assert (private4 (be_val [100; 127; 255; 255])) as Hp by (unfold private4, be_val; simpl; lia).
  split; [apply H1, Hp|apply H2, Hp].
Defined.
