(* ===== verification/Sniffer.v ===== *)
(** Domain sniffing of the first bytes of a TCP stream
    (src/apple-wrapper/sniffer.go).  Every index and slice expression is
    checked: [None] is a run-time panic, or a loop that did not end within its
    fuel, so [Some] means that the code returns. *)
From S2P Require Import Prelude GoText.

Section sniffer.
Context {U : UnicodeTables}.

(** [int(binary.BigEndian.Uint16(data[i:i+2]))]. *)
Definition uint16_at (data : bytes) (i : nat) : option nat :=
  s ← slice data i (i + 2); Some (Z.to_nat (be_val s)).

(** The loop over the entries of a server_name list. *)
Fixpoint sni_loop (fuel : nat) (data : bytes) (sniPos sniEnd : nat) : option bytes :=
  match fuel with
  | O => None
  | S fuel =>
    if decide (sniPos + 3 ≤ sniEnd)%nat then
      nameType ← data !! sniPos;
      nameLen ← uint16_at data (sniPos + 1);
      let sniPos := (sniPos + 3)%nat in
      if decide (nameType = 0%Z ∧ sniPos + nameLen ≤ sniEnd)%nat then
        host ← slice data sniPos (sniPos + nameLen); Some (ToLower host)
      else sni_loop fuel data (sniPos + nameLen) sniEnd
    else Some []
  end.

(** The loop over the extensions. *)
Fixpoint ext_loop (fuel : nat) (data : bytes) (pos end_ : nat) : option bytes :=
  match fuel with
  | O => None
  | S fuel =>
    if decide (pos + 4 ≤ end_)%nat then
      extType ← uint16_at data pos;
      extLen ← uint16_at data (pos + 2);
      let pos := (pos + 4)%nat in
      if decide (extType = 0%nat) then
        if decide (pos + 2 ≤ end_)%nat then
          listLen ← uint16_at data pos;
          let sniPos := (pos + 2)%nat in
          let sniEnd := (sniPos + listLen)%nat in
          let sniEnd := if decide (end_ < sniEnd)%nat then end_ else sniEnd in
          sni_loop (S (length data)) data sniPos sniEnd
        else Some []
      else ext_loop fuel data (pos + extLen) end_
    else Some []
  end.

Definition sniffTLS (data : bytes) : option bytes :=
  if decide (length data < 44)%nat then Some []
  else
    d0 ← data !! 0%nat; d1 ← data !! 1%nat;
    if decide (d0 ≠ 0x16 ∨ d1 ≠ 0x03) then Some []
    else
      d5 ← data !! 5%nat;
      if decide (d5 ≠ 0x01) then Some []
      else
        let pos := 43%nat in
        if decide (length data ≤ pos)%nat then Some []
        else
          sessionIDLen ← data !! pos;
          let pos := (pos + (1 + Z.to_nat sessionIDLen))%nat in
          if decide (length data < pos + 2)%nat then Some []
          else
            cipherSuitesLen ← uint16_at data pos;
            let pos := (pos + (2 + cipherSuitesLen))%nat in
            if decide (length data < pos + 1)%nat then Some []
            else
              compressionMethodsLen ← data !! pos;
              let pos := (pos + (1 + Z.to_nat compressionMethodsLen))%nat in
              if decide (length data < pos + 2)%nat then Some []
              else
                extensionsLen ← uint16_at data pos;
                let pos := (pos + 2)%nat in
                let end_ := (pos + extensionsLen)%nat in
                let end_ := if decide (length data < end_)%nat then length data else end_ in
                ext_loop (S (length data)) data pos end_.

Definition crlf : bytes := [13; 10].

Definition http_methods : list bytes :=
  lit <$> ["GET "; "POST "; "HEAD "; "PUT "; "DELETE "; "CONNECT "; "OPTIONS "]%string.

(** [host[:strings.Index(host, ":")]], or all of [host] without a colon. *)
Definition cut_port (host : bytes) : bytes :=
  match Index host [58] with
  | Some idx => take idx host
  | None => host
  end.

(** The loop over the lines of the request. *)
Fixpoint host_loop (lines : list bytes) : option bytes :=
  match lines with
  | [] => Some []
  | line :: lines =>
    if HasPrefix (ToLower line) (lit "host:") then
      rest ← slice line 5 (length line);
      Some (ToLower (TrimSpace (cut_port (TrimSpace rest))))
    else host_loop lines
  end.

Definition sniffHTTP (data : bytes) : option bytes :=
  if decide (Forall (λ m, HasPrefix data m = false) http_methods) then Some []
  else host_loop (Split data crlf).

Definition SniffDomain (data : bytes) : option bytes :=
  if decide (length data = 0%nat) then Some []
  else
    domain ← sniffTLS data;
    if decide (domain ≠ []) then Some domain
    else
      domain ← sniffHTTP data;
      if decide (domain ≠ []) then Some domain else Some [].

(** ** No panic, and termination *)

Lemma uint16_at_Some data i : (i + 2 ≤ length data)%nat → ∃ v, uint16_at data i = Some v.
Proof. intros. unfold uint16_at. rewrite slice_Some by lia. by eexists. Qed.

Lemma sni_loop_returns fuel data pos e :
  (e ≤ length data)%nat → (0 < fuel)%nat → (length data < fuel + pos)%nat →
  ∃ h, sni_loop fuel data pos e = Some h.
Proof.
  revert pos. induction fuel as [|fuel IH]; intros pos He H0 Hf; cbn [sni_loop]; [lia|].
  case_decide; [|by eexists].
  destruct (lookup_total_lt data pos) as [ty ->]; [lia|].
  destruct (uint16_at_Some data (pos + 1)) as [nl ->]; [lia|]. cbn.
  case_decide; [rewrite slice_Some by lia; by eexists|]. apply IH; lia.
Qed.

Lemma ext_loop_returns fuel data pos e :
  (e ≤ length data)%nat → (0 < fuel)%nat → (length data < fuel + pos)%nat →
  ∃ h, ext_loop fuel data pos e = Some h.
Proof.
  revert pos. induction fuel as [|fuel IH]; intros pos He H0 Hf; cbn [ext_loop]; [lia|].
  case_decide; [|by eexists].
  destruct (uint16_at_Some data pos) as [ty ->]; [lia|].
  destruct (uint16_at_Some data (pos + 2)) as [el ->]; [lia|]. cbn -[sni_loop].
  case_decide; [|apply IH; lia]. case_decide; [|by eexists].
  destruct (uint16_at_Some data (pos + 4)) as [ll ->]; [lia|]. cbn -[sni_loop].
  apply sni_loop_returns; [case_decide; lia|lia..].
Qed.

Lemma sniffTLS_returns data : ∃ h, sniffTLS data = Some h.
Proof.
  unfold sniffTLS. case_decide; [by eexists|].
  destruct (lookup_total_lt data 0) as [d0 ->]; [lia|].
  destruct (lookup_total_lt data 1) as [d1 ->]; [lia|]. cbn [mbind option_bind].
  case_decide; [by eexists|]. destruct (lookup_total_lt data 5) as [d5 ->]; [lia|].
  cbn [mbind option_bind]. case_decide; [by eexists|]. case_decide; [by eexists|].
  destruct (lookup_total_lt data 43) as [sl ->]; [lia|]. cbn [mbind option_bind].
  case_decide; [by eexists|]. destruct (uint16_at_Some data (43 + (1 + Z.to_nat sl))) as [cl ->]; [lia|].
  cbn [mbind option_bind]. case_decide; [by eexists|].
  destruct (lookup_total_lt data (43 + (1 + Z.to_nat sl) + (2 + cl))) as [ml ->]; [lia|].
  cbn [mbind option_bind]. case_decide; [by eexists|].
  destruct (uint16_at_Some data (43 + (1 + Z.to_nat sl) + (2 + cl) + (1 + Z.to_nat ml)))
    as [el ->]; [lia|].
  cbn [mbind option_bind]. apply ext_loop_returns; [case_decide; lia|lia..].
Qed.

Lemma host_loop_returns lines : ∃ h, host_loop lines = Some h.
Proof.
  induction lines as [|line lines [h IH]]; [by eexists|]. cbn [host_loop].
  destruct (HasPrefix _ _) eqn:E; [|by eexists].
  unfold HasPrefix in E. apply bool_decide_eq_true, ToLower_prefix_length in E;
    [|apply (bool_decide_unpack _); vm_compute; exact I].
  change (length (lit "host:")) with 5%nat in E. rewrite slice_Some by lia. by eexists.
Qed.

(** [SniffDomain] returns for every input: no index or slice expression is
    out of range, whatever the length fields of the bytes claim, and the loops
    over extensions and names end. *)
Theorem SniffDomain_total (data : bytes) : ∃ domain, SniffDomain data = Some domain.
Proof.
  unfold SniffDomain. case_decide; [by eexists|].
  destruct (sniffTLS_returns data) as [t ->]. cbn. case_decide; [by eexists|].
  unfold sniffHTTP. case_decide; [by eexists|].
  destruct (host_loop_returns (Split data crlf)) as [h ->]. cbn. case_decide; by eexists.
Qed.
(** ** ClientHello *)

(** The TLS vectors: a length of one or two bytes, then the data. *)
Definition vec8 (s : bytes) : bytes := Z.of_nat (length s) :: s.
Definition vec16 (s : bytes) : bytes := be_bytes 2 (Z.of_nat (length s)) ++ s.
Definition extension (e : Z * bytes) : bytes := be_bytes 2 e.1 ++ vec16 e.2.
Definition sni_extension (host : bytes) : bytes := extension (0, vec16 (0 :: vec16 host)).

(** The fields of a ClientHello: the extensions before and after server_name. *)
Record hello := {
  h_random : bytes; h_sid : bytes; h_ciphers : bytes; h_comps : bytes;
  h_before : list (Z * bytes); h_host : bytes; h_after : bytes
}.

Definition hello_exts (h : hello) : bytes :=
  mjoin (extension <$> h_before h) ++ sni_extension (h_host h) ++ h_after h.

Definition hello_body (h : hello) : bytes :=
  [3; 3] ++ h_random h ++ vec8 (h_sid h) ++ vec16 (h_ciphers h) ++ vec8 (h_comps h) ++
  vec16 (hello_exts h).

(** The TLS record of the handshake message. *)
Definition client_hello (h : hello) : bytes :=
  [0x16; 3; 1] ++ be_bytes 2 (Z.of_nat (length (hello_body h)) + 4) ++
  [1] ++ be_bytes 3 (Z.of_nat (length (hello_body h))) ++ hello_body h.

Definition hello_ok (h : hello) : Prop :=
  length (h_random h) = 32%nat ∧ Z.of_nat (length (h_sid h)) < 256 ∧
  Z.of_nat (length (h_ciphers h)) < 65536 ∧ Z.of_nat (length (h_comps h)) < 256 ∧
  Forall (λ e, 0 < e.1 < 65536) (h_before h) ∧ Z.of_nat (length (hello_exts h)) < 65536.

(** Reading at a position whose remaining input is known. *)
Lemma drop_next {A} (data x k : list A) i n :
  drop i data = x ++ k → n = length x → drop (i + n) data = k.
Proof. intros Hd ->. by rewrite <- drop_drop, Hd, drop_app_length. Qed.

Lemma uint16_at_drop data i v k :
  drop i data = be_bytes 2 v ++ k → 0 ≤ v < 65536 → uint16_at data i = Some (Z.to_nat v).
Proof.
  intros Hd Hv. assert (length (drop i data) = (2 + length k)%nat) as Hl
    by by rewrite Hd, length_app, be_bytes_length.
  rewrite length_drop in Hl. unfold uint16_at. rewrite slice_Some by lia.
  rewrite Hd, take_app_length' by (rewrite be_bytes_length; lia).
  cbn [mbind option_bind]. by rewrite be_val_be_bytes.
Qed.

Lemma lookup_at_drop {A} (data : list A) i x k : drop i data = x :: k → data !! i = Some x.
Proof. intros Hd. rewrite <- (Nat.add_0_r i), <- lookup_drop, Hd. done. Qed.

Lemma slice_at_drop data i x k n :
  drop i data = x ++ k → n = length x → x ≠ [] → slice data i (i + n) = Some x.
Proof.
  intros Hd -> Hx. assert (length (drop i data) = (length x + length k)%nat) as Hl
    by by rewrite Hd, length_app.
  rewrite length_drop in Hl. assert (length x ≠ 0%nat) by by destruct x.
  rewrite slice_Some by lia. rewrite Hd. by rewrite take_app_length' by lia.
Qed.

Lemma vec16_length s : length (vec16 s) = (2 + length s)%nat.
Proof. unfold vec16. by rewrite length_app, be_bytes_length. Qed.

Lemma vec8_length s : length (vec8 s) = S (length s).
Proof. done. Qed.

Lemma extension_length x : length (extension x) = (4 + length x.2)%nat.
Proof. unfold extension. rewrite length_app, be_bytes_length, vec16_length. lia. Qed.

Lemma sni_extension_length host : length (sni_extension host) = (9 + length host)%nat.
Proof.
  unfold sni_extension. rewrite extension_length. cbn [snd]. rewrite vec16_length.
  cbn [length]. rewrite vec16_length. lia.
Qed.

(** At a server_name entry of type host_name the inner loop returns the name. *)
Lemma sni_loop_host fuel data pos host post e :
  drop pos data = [0] ++ vec16 host ++ post → host ≠ [] → Z.of_nat (length host) < 65536 →
  (pos + 3 + length host ≤ e)%nat → (0 < fuel)%nat →
  sni_loop fuel data pos e = Some (ToLower host).
Proof.
  intros Hd Hne Hh He Hf. destruct fuel as [|fuel]; [lia|]. cbn [sni_loop].
  rewrite decide_True by lia. rewrite (lookup_at_drop _ _ _ _ Hd). cbn [mbind option_bind].
  apply (drop_next _ _ _ _ 1) in Hd as Hd1; [|done]. unfold vec16 in Hd1. rewrite <- app_assoc in Hd1.
  rewrite (uint16_at_drop _ _ _ _ Hd1) by lia. cbn [mbind option_bind]. rewrite Nat2Z.id.
  rewrite decide_True by lia.
  apply (drop_next _ _ _ _ 2) in Hd1 as Hd2; [|by rewrite be_bytes_length].
  replace (pos + 1 + 2)%nat with (pos + 3)%nat in Hd2 by lia.
  by rewrite (slice_at_drop _ _ _ _ _ Hd2).
Qed.

(** At a server_name extension the loop returns its host name. *)
Lemma ext_loop_sni fuel data pos host post e :
  drop pos data = sni_extension host ++ post → host ≠ [] →
  Z.of_nat (length host) + 9 < 65536 →
  (pos + length (sni_extension host) ≤ e)%nat →
  (0 < fuel)%nat → ext_loop fuel data pos e = Some (ToLower host).
Proof.
  intros Hd Hne Hh He Hf. rewrite sni_extension_length in He.
  destruct fuel as [|fuel]; [lia|]. cbn [ext_loop]. rewrite decide_True by lia.
  unfold sni_extension, extension in Hd. cbn [fst snd] in Hd. unfold vec16 at 1 in Hd.
  rewrite <- !app_assoc in Hd. rewrite (uint16_at_drop _ _ _ _ Hd) by lia. cbn [mbind option_bind].
  apply (drop_next _ _ _ _ 2) in Hd as Hd1; [|by rewrite be_bytes_length].
  rewrite (uint16_at_drop _ _ _ _ Hd1) by (rewrite vec16_length; cbn [length]; rewrite vec16_length; lia).
  cbn [mbind option_bind]. rewrite decide_True by done. rewrite decide_True by lia.
  apply (drop_next _ _ _ _ 2) in Hd1 as Hd2; [|by rewrite be_bytes_length].
  replace (pos + 2 + 2)%nat with (pos + 4)%nat in Hd2 by lia.
  unfold vec16 at 1 in Hd2. rewrite <- app_assoc in Hd2.
  rewrite (uint16_at_drop _ _ _ _ Hd2) by (cbn [length]; rewrite vec16_length; lia).
  cbn [mbind option_bind].
  apply (drop_next _ _ _ _ 2) in Hd2 as Hd3; [|by rewrite be_bytes_length].
  cbn [length]. rewrite vec16_length, Nat2Z.id.
  eapply sni_loop_host; [exact Hd3|done|lia|case_decide; lia|lia].
Qed.

(** An extension of another type is skipped. *)
Lemma ext_loop_skip fuel data pos x post e :
  drop pos data = extension x ++ post →
  0 < x.1 < 65536 → Z.of_nat (length x.2) < 65536 → (pos + length (extension x) ≤ e)%nat →
  ext_loop (S fuel) data pos e = ext_loop fuel data (pos + length (extension x)) e.
Proof.
  intros Hd Ht Hx He. rewrite extension_length in *. cbn [ext_loop]. rewrite decide_True by lia.
  unfold extension, vec16 in Hd. rewrite <- !app_assoc in Hd.
  rewrite (uint16_at_drop _ _ _ _ Hd) by lia. cbn [mbind option_bind].
  apply (drop_next _ _ _ _ 2) in Hd as Hd1; [|by rewrite be_bytes_length].
  rewrite (uint16_at_drop _ _ _ _ Hd1) by lia. cbn [mbind option_bind].
  rewrite decide_False by lia. f_equal. lia.
Qed.

Lemma ext_loop_hello before fuel data pos host post e :
  let exts := mjoin (extension <$> before) in
  drop pos data = exts ++ sni_extension host ++ post →
  Forall (λ x, 0 < x.1 < 65536) before → host ≠ [] →
  Z.of_nat (length (exts ++ sni_extension host)) < 65536 →
  (pos + length (exts ++ sni_extension host) ≤ e)%nat →
  (length before < fuel)%nat →
  ext_loop fuel data pos e = Some (ToLower host).
Proof.
  revert fuel pos. induction before as [|x before IH]; intros fuel pos exts Hd Hall Hne Hlen He Hf.
  - cbn [exts fmap list_fmap mjoin list_join app] in *. rewrite sni_extension_length in Hlen.
    eapply ext_loop_sni; eauto; lia.
  - inv Hall. destruct fuel as [|fuel]; [simpl in Hf; lia|].
    assert (exts = extension x ++ mjoin (extension <$> before)) as Hexts by done.
    rewrite Hexts, <- !app_assoc in *. rewrite length_app, extension_length in Hlen, He.
    rewrite (ext_loop_skip _ _ _ _ _ _ Hd) by (done || rewrite ?extension_length; lia).
    apply (drop_next _ _ _ _ (length (extension x))) in Hd as Hd1; [|done].
    apply IH; [done|done|done|lia|rewrite extension_length; lia|simpl in Hf; lia].
Qed.
Lemma length_mjoin_extension before :
  (length before ≤ length (mjoin (extension <$> before)))%nat.
Proof.
  induction before as [|x before IH]; [done|].
  change (mjoin (extension <$> x :: before)) with (extension x ++ mjoin (extension <$> before)).
  rewrite length_app, extension_length. cbn [length]. lia.
Qed.

Lemma client_hello_drop43 h more : length (h_random h) = 32%nat →
  drop 43 (client_hello h ++ more) =
  vec8 (h_sid h) ++ vec16 (h_ciphers h) ++ vec8 (h_comps h) ++ vec16 (hello_exts h) ++ more.
Proof.
  intros Hr. set (l := Z.of_nat (length (hello_body h))).
  set (P := [0x16; 3; 1] ++ be_bytes 2 (l + 4) ++ [1] ++ be_bytes 3 l ++ [3; 3] ++ h_random h).
  transitivity (drop 43 (P ++ vec8 (h_sid h) ++ vec16 (h_ciphers h) ++ vec8 (h_comps h) ++
                         vec16 (hello_exts h) ++ more)).
  { f_equal. unfold client_hello, P. fold l. unfold hello_body. by rewrite <- !app_assoc. }
  apply drop_app_length'. unfold P. rewrite !length_app, !be_bytes_length, Hr. done.
Qed.

(** [sniffTLS] recovers the server name of every well-formed ClientHello:
    whatever the session id, the cipher suites, the compression methods, the
    extensions before and after server_name, and whatever follows the record
    in the buffer, the result is the lower-cased host name. *)
Theorem sniffTLS_client_hello (h : hello) (more : bytes) :
  hello_ok h → h_host h ≠ [] → sniffTLS (client_hello h ++ more) = Some (ToLower (h_host h)).
Proof.
  intros (Hr & Hs & Hc & Hm & Hall & He) Hne.
  pose proof (client_hello_drop43 h more Hr) as Hd. set (data := client_hello h ++ more) in *.
  assert (length (drop 43 data) = (1 + length (h_sid h) + (2 + length (h_ciphers h)) +
    (1 + length (h_comps h)) + (2 + length (hello_exts h)) + length more)%nat) as Hl.
  { rewrite Hd, !length_app, !vec16_length, !vec8_length. lia. }
  rewrite length_drop in Hl. unfold sniffTLS. rewrite decide_False by lia.
  assert (data !! 0%nat = Some 0x16 ∧ data !! 1%nat = Some 3 ∧ data !! 5%nat = Some 1)
    as (-> & -> & ->) by done.
  cbn [mbind option_bind]. rewrite !decide_False by lia.
  rewrite (lookup_at_drop _ _ _ _ Hd). cbn [mbind option_bind]. rewrite Nat2Z.id.
  rewrite decide_False by lia.
  apply (drop_next _ _ _ _ (1 + length (h_sid h))) in Hd as Hd1; [|done].
  unfold vec16 at 1 in Hd1. rewrite <- app_assoc in Hd1.
  rewrite (uint16_at_drop _ _ _ _ Hd1) by lia. cbn [mbind option_bind]. rewrite Nat2Z.id.
  rewrite decide_False by lia. rewrite app_assoc in Hd1.
  apply (drop_next _ _ _ _ (2 + length (h_ciphers h))) in Hd1 as Hd2;
    [|by rewrite length_app, be_bytes_length].
  rewrite (lookup_at_drop _ _ _ _ Hd2). cbn [mbind option_bind]. rewrite Nat2Z.id.
  rewrite decide_False by lia.
  apply (drop_next _ _ _ _ (1 + length (h_comps h))) in Hd2 as Hd3; [|done].
  unfold vec16 in Hd3. rewrite <- app_assoc in Hd3.
  rewrite (uint16_at_drop _ _ _ _ Hd3) by lia. cbn [mbind option_bind]. rewrite Nat2Z.id.
  rewrite decide_False by lia.
  apply (drop_next _ _ _ _ 2) in Hd3 as Hd4; [|by rewrite be_bytes_length].
  unfold hello_exts in *. rewrite <- !app_assoc in Hd4.
  pose proof (length_mjoin_extension (h_before h)).
  rewrite (app_assoc (mjoin _)), (length_app (_ ++ sni_extension _)) in Hl, He |- *.
  rewrite (length_app (mjoin _) (sni_extension _)) in *.
  eapply ext_loop_hello; [exact Hd4|done|done|rewrite ?length_app; lia| |lia].
  rewrite ?length_app. lia.
Qed.
(** ** HTTP requests *)

Definition is_host_line (line : bytes) : bool := HasPrefix (ToLower line) (lit "host:").

Lemma host_loop_first ls line rest :
  Forall (λ l, is_host_line l = false) ls → is_host_line line = true →
  host_loop (ls ++ line :: rest) =
  Some (ToLower (TrimSpace (cut_port (TrimSpace (drop 5 line))))).
Proof.
  intros Hls Hline. induction Hls as [|l ls Hl _ IH]; cbn [app host_loop].
  - fold (is_host_line line). rewrite Hline. unfold is_host_line, HasPrefix in Hline.
    apply bool_decide_eq_true, ToLower_prefix_length in Hline;
      [|apply (bool_decide_unpack _); vm_compute; exact I].
    change (length (lit "host:")) with 5%nat in Hline. rewrite slice_Some by lia.
    cbn [mbind option_bind]. rewrite take_ge; [done|]. rewrite length_drop. lia.
  - fold (is_host_line l). by rewrite Hl.
Qed.

Lemma http_method_not_tls data :
  Exists (λ m, HasPrefix data m = true) http_methods → sniffTLS data = Some [].
Proof.
  intros Hm. unfold sniffTLS. case_decide; [done|].
  assert (data !! 0%nat ≠ Some 0x16) as H0.
  { intros H0. apply Exists_exists in Hm as (m & Hin & Hm). unfold HasPrefix in Hm.
    apply bool_decide_eq_true in Hm as [k ->].
    repeat (apply elem_of_cons in Hin as [->|Hin]; [done|]). by apply elem_of_nil in Hin. }
  destruct (lookup_total_lt data 0) as [d0 E0]; [lia|].
  destruct (lookup_total_lt data 1) as [d1 E1]; [lia|].
  rewrite E0, E1. cbn [mbind option_bind]. rewrite decide_True; [done|]. left. congruence.
Qed.

(** For an HTTP request (a method the code knows, lines separated by CRLF)
    [SniffDomain] returns the value of the first Host header, without the port,
    trimmed and lower-cased, whatever the other lines hold. *)
Theorem SniffDomain_http (line0 : bytes) (ls : list bytes) (line : bytes) (rest : list bytes) :
  Exists (λ m, HasPrefix (Join ((line0 :: ls) ++ line :: rest) crlf) m = true) http_methods →
  Forall (λ l, 13 ∉ l) ((line0 :: ls) ++ line :: rest) →
  Forall (λ l, is_host_line l = false) (line0 :: ls) → is_host_line line = true →
  SniffDomain (Join ((line0 :: ls) ++ line :: rest) crlf) =
  Some (ToLower (TrimSpace (cut_port (TrimSpace (drop 5 line))))).
Proof.
  intros Hm Hcr Hls Hline. set (data := Join _ crlf) in *. unfold SniffDomain.
  rewrite decide_False.
  2:{ intros Hz%nil_length_inv. rewrite Hz in Hm. by vm_compute in Hm; inv Hm; repeat
        match goal with H : Exists _ _ |- _ => inv H end. }
  rewrite http_method_not_tls by done. cbn [mbind option_bind]. rewrite decide_False by naive_solver.
  unfold sniffHTTP. rewrite decide_False.
  2:{ intros Hall. apply Exists_exists in Hm as (m & Hin & Hm).
      rewrite Forall_forall in Hall. apply Hall in Hin. congruence. }
  unfold data, crlf. rewrite Split_Join by done. rewrite host_loop_first by done.
  cbn [mbind option_bind]. generalize (ToLower (TrimSpace (cut_port (TrimSpace (drop 5 line))))).
  intros [|b host]; by case_decide.
Qed.
End sniffer.

Lemma SniffDomain_http_witness :
  @SniffDomain ascii_tables
    (Join [lit "GET / HTTP/1.1"; lit "Accept: */*"; lit "HOST:  www.Baidu.com:443 "; []; []] crlf) =
  Some (lit "www.baidu.com").
Proof.
  transitivity (Some (@ToLower ascii_tables (TrimSpace (cut_port (TrimSpace
    (drop 5 (lit "HOST:  www.Baidu.com:443 "))))))); [|reflexivity].
  apply (@SniffDomain_http ascii_tables (lit "GET / HTTP/1.1") [lit "Accept: */*"]
    (lit "HOST:  www.Baidu.com:443 ") [[]; []]).
  - apply (bool_decide_unpack _). vm_compute. exact I.
  - apply (bool_decide_unpack _). vm_compute. exact I.
  - apply (bool_decide_unpack _). vm_compute. exact I.
  - reflexivity.
Defined.

Lemma sniffTLS_client_hello_witness :
  let h := {| h_random := replicate 32 7; h_sid := [1; 2]; h_ciphers := [0x13; 1];
              h_comps := [0]; h_before := [(10, [0; 1])]; h_host := lit "Bilibili.com";
              h_after := [0; 23; 0; 0] |} in
  @sniffTLS ascii_tables (client_hello h ++ [0; 0]) = Some (lit "bilibili.com").
Proof.
  intros h. rewrite (@sniffTLS_client_hello ascii_tables h [0; 0]).
  - reflexivity.
  - unfold hello_ok. split_all; try (vm_compute; reflexivity).
    repeat constructor; vm_compute; reflexivity.
  - discriminate.
Defined.
