(* ===== verification/Frame.v ===== *)
(** PacketFlow framing (src/upstream/xray-core/main/folotun/frame.go): packets
    of IPv4/IPv6 carried over a stream socket.  Readers are streams delivered
    in arbitrary chunks; writers are an interface that may write partially. *)
From S2P Require Import Prelude.

(** ** Constants and data *)

Definition Magic0 : Z := 0x46.
Definition Magic1 : Z := 0x50.
Definition Version : Z := 1.
Definition HeaderSize : nat := 12.
Definition MaxPacketSize : Z := 65535.
Definition IPv4Family : Z := 4.
Definition IPv6Family : Z := 6.

Record Packet := { Family : Z; Protocol : Z; Payload : bytes }.

(** The errors of the package, one constructor per error value. *)
Inductive frame_error :=
| ErrLengthRange | ErrShortIPv4 | ErrIPv4Header | ErrIPv4Length | ErrShortIPv6 | ErrIPv6Length
| ErrIPVersion | ErrMagic | ErrVersion | ErrReserved | ErrFrameLength | ErrMetadata
| ErrWriteCount | ErrShortWrite | ErrIO (e : Z) | ErrEOF | ErrUnexpectedEOF.

#[global] Instance frame_error_eq_dec : EqDecision frame_error.
Proof. solve_decision. Defined.

(** ** InspectPacket *)

(** [payload[i]] at an index below the checked length. *)
Definition byte_at (p : bytes) (i : nat) : Z := default 0 (p !! i).

Definition be16_at (p : bytes) (i : nat) : Z := be_val (take 2 (drop i p)).

Definition InspectPacket (payload : bytes) : result frame_error Packet :=
  let len := Z.of_nat (length payload) in
  guard! 1 ≤ len ≤ MaxPacketSize or ErrLengthRange in
  let version := Z.shiftr (byte_at payload 0) 4 in
  if decide (version = IPv4Family) then
    guard! 20 ≤ len or ErrShortIPv4 in
    let headerSize := Z.land (byte_at payload 0) 0x0f * 4 in
    guard! 20 ≤ headerSize ≤ len or ErrIPv4Header in
    let totalSize := be16_at payload 2 in
    guard! totalSize = len or ErrIPv4Length in
    Ok {| Family := IPv4Family; Protocol := byte_at payload 9; Payload := payload |}
  else if decide (version = IPv6Family) then
    guard! 40 ≤ len or ErrShortIPv6 in
    let payloadSize := be16_at payload 4 in
    guard! payloadSize + 40 = len or ErrIPv6Length in
    Ok {| Family := IPv6Family; Protocol := byte_at payload 6; Payload := payload |}
  else Err ErrIPVersion.

(** ** EncodeFrame *)

(** The twelve header bytes: magic, version, family, protocol, zero flags, the
    32-bit length and two reserved zero bytes. *)
Definition frame_header (p : Packet) : bytes :=
  [Magic0; Magic1; Version; Family p; Protocol p; 0] ++
  be_bytes 4 (Z.of_nat (length (Payload p))) ++ [0; 0].

Definition EncodeFrame (payload : bytes) : result frame_error bytes :=
  let! packet := InspectPacket payload in
  Ok (frame_header packet ++ Payload packet).

(** ** Streams *)

(** A stream reader: the chunks that successive reads deliver, then an error
    ([ErrEOF] for an orderly close). *)
Record stream := { chunks : list bytes; final : frame_error }.

(** All the bytes the stream still delivers. *)
Definition contents (s : stream) : bytes := mjoin (chunks s).

(** [io.ReadFull] on such a reader: read chunk after chunk until [need] bytes
    are there; the unread part of the last chunk stays in the stream. *)
Fixpoint read_full_loop (cs : list bytes) (e : frame_error) (need : nat) (acc : bytes)
    : result frame_error (bytes * list bytes) :=
  match cs with
  | [] => if decide (need = 0%nat) then Ok (acc, [])
          else Err (if decide (acc ≠ [] ∧ e = ErrEOF) then ErrUnexpectedEOF else e)
  | c :: cs' =>
    if decide (need = 0%nat) then Ok (acc, cs)
    else if decide (length c ≤ need)%nat then read_full_loop cs' e (need - length c) (acc ++ c)
    else Ok (acc ++ take need c, drop need c :: cs')
  end.

Definition ReadFull (s : stream) (n : nat) : result frame_error (bytes * stream) :=
  let! (b, cs) := read_full_loop (chunks s) (final s) n [] in
  Ok (b, {| chunks := cs; final := final s |}).

(** ** ReadFrame *)

Definition ReadFrame (reader : stream) : result frame_error (Packet * stream) :=
  let! (header, reader) := ReadFull reader HeaderSize in
  guard! byte_at header 0 = Magic0 ∧ byte_at header 1 = Magic1 or ErrMagic in
  guard! byte_at header 2 = Version or ErrVersion in
  guard! byte_at header 5 = 0 ∧ byte_at header 10 = 0 ∧ byte_at header 11 = 0 or ErrReserved in
  let length := be_val (take 4 (drop 6 header)) in
  guard! length ≠ 0 ∧ length ≤ MaxPacketSize or ErrFrameLength in
  let! (payload, reader) := ReadFull reader (Z.to_nat length) in
  let! packet := InspectPacket payload in
  guard! Family packet = byte_at header 3 ∧ Protocol packet = byte_at header 4 or ErrMetadata in
  Ok (packet, reader).

(** ** Writers *)

(** An [io.Writer]: a call returns the new state, the reported count and an
    error.  Nothing is promised about the count. *)
Class Writer (W : Type) := w_write : W → bytes → W * (Z * option frame_error).

(** The loop of [writeAll].  Every round that does not return consumes at least
    one byte, so the length of the payload is enough fuel; [None] is a loop that
    ran out of it. *)
Fixpoint writeAll_loop {W} `{Writer W} (fuel : nat) (w : W) (payload : bytes)
    : option (W * result frame_error unit) :=
  match payload with
  | [] => Some (w, Ok tt)
  | _ =>
    match fuel with
    | O => None
    | S fuel =>
      let '(w, (written, err)) := w_write w payload in
      if decide (written < 0 ∨ Z.of_nat (length payload) < written)
      then Some (w, Err ErrWriteCount)
      else match err with
           | Some e => Some (w, Err e)
           | None =>
             if decide (written = 0) then Some (w, Err ErrShortWrite)
             else writeAll_loop fuel w (drop (Z.to_nat written) payload)
           end
    end
  end.

Definition writeAll {W} `{Writer W} (w : W) (payload : bytes)
    : option (W * result frame_error unit) :=
  writeAll_loop (length payload) w payload.

Definition WriteFrame {W} `{Writer W} (w : W) (payload : bytes)
    : option (W * result frame_error unit) :=
  match EncodeFrame payload with
  | Err e => Some (w, Err e)
  | Ok frame => writeAll w frame
  end.

(** What a writer over a byte sink promises: the bytes it reports as written
    are appended to the sink. *)
Class WriterLaws (W : Type) `{Writer W} (sink : W → bytes) : Prop :=
  write_appends : ∀ w p w' n e, w_write w p = (w', (n, e)) → 0 ≤ n ≤ Z.of_nat (length p) →
    sink w' = sink w ++ take (Z.to_nat n) p.

(** A writer that accepts whatever it is given. *)
Class FullWriter {W} `{Writer W} (sink : W → bytes) : Prop :=
  full_write : ∀ w p, ∃ w', w_write w p = (w', (Z.of_nat (length p), None)) ∧ sink w' = sink w ++ p.

Definition memory_writer : Writer bytes := λ w p, (w ++ p, (Z.of_nat (length p), None)).

Lemma memory_full : FullWriter (H := memory_writer) id.
Proof. intros w p. by exists (w ++ p). Qed.

(** ** Facts about reading *)

Lemma read_full_loop_Ok cs e need acc b cs' :
  read_full_loop cs e need acc = Ok (b, cs') →
  ∃ got, b = acc ++ got ∧ length got = need ∧ mjoin cs = got ++ mjoin cs'.
Proof.
  revert need acc. induction cs as [|c cs IH]; intros need acc; cbn [read_full_loop].
  - case_decide; intros Hx; inv Hx. exists []. by rewrite app_nil_r.
  - case_decide; [intros Hx; inv Hx; exists []; by rewrite app_nil_r|]. case_decide.
    + intros Hx. apply IH in Hx as (got & -> & Hl & Hc). exists (c ++ got).
      rewrite app_assoc, length_app. split_all; [done|lia|].
      change (mjoin (c :: cs)) with (c ++ mjoin cs). by rewrite Hc, app_assoc.
    + intros Hx. inv Hx. exists (take need c). split_all; [done|rewrite length_take; lia|].
      change (mjoin (c :: cs)) with (c ++ mjoin cs).
      change (mjoin (drop need c :: cs)) with (drop need c ++ mjoin cs).
      by rewrite app_assoc, take_drop.
Qed.

Lemma read_full_loop_enough cs e need acc :
  (need ≤ length (mjoin cs))%nat → ∃ r, read_full_loop cs e need acc = Ok r.
Proof.
  revert need acc. induction cs as [|c cs IH]; intros need acc; cbn [read_full_loop].
  - cbn. intros. rewrite decide_True by lia. by eexists.
  - change (mjoin (c :: cs)) with (c ++ mjoin cs). rewrite length_app. intros Hn.
    case_decide; [by eexists|]. case_decide; [|by eexists]. apply IH. lia.
Qed.

Lemma ReadFull_Ok s n b s' :
  ReadFull s n = Ok (b, s') → length b = n ∧ contents s = b ++ contents s' ∧ final s' = final s.
Proof.
  unfold ReadFull. destruct (read_full_loop _ _ _ _) as [[b' cs]|] eqn:E; cbn; intros Hx; inv Hx.
  apply read_full_loop_Ok in E as (got & -> & ? & ?). done.
Qed.

(** When enough bytes are to come, [ReadFull] returns the first [n] of them,
    however they are cut into chunks. *)
Lemma ReadFull_enough s x rest n :
  contents s = x ++ rest → n = length x →
  ∃ s', ReadFull s n = Ok (x, s') ∧ contents s' = rest ∧ final s' = final s.
Proof.
  intros Hc Hn.
  destruct (read_full_loop_enough (chunks s) (final s) n []) as [[b cs] E].
  { fold (contents s). rewrite Hc, length_app. lia. }
  assert (ReadFull s n = Ok (b, {| chunks := cs; final := final s |})) as Hr
    by (unfold ReadFull; by rewrite E).
  apply ReadFull_Ok in Hr as Hr'. destruct Hr' as (Hl & Hb & _). rewrite Hc in Hb.
  apply app_inj_1 in Hb as [-> ->]; [|lia]. by eexists.
Qed.

(** ** Facts about packets *)

Lemma InspectPacket_Ok payload p :
  InspectPacket payload = Ok p →
  Payload p = payload ∧ 1 ≤ Z.of_nat (length payload) ≤ MaxPacketSize.
Proof.
  unfold InspectPacket. cbn zeta. case_decide; [|done].
  repeat case_decide; intros Hp; inv Hp; done.
Qed.

Lemma frame_header_length p : length (frame_header p) = HeaderSize.
Proof. done. Qed.

Lemma EncodeFrame_Ok payload f :
  EncodeFrame payload = Ok f →
  ∃ p, InspectPacket payload = Ok p ∧ f = frame_header p ++ payload.
Proof.
  unfold EncodeFrame. destruct (InspectPacket payload) as [p|] eqn:E; [|done].
  cbn [result_bind]. intros Hf. exists p. apply InspectPacket_Ok in E as [HE _].
  split; [done|]. rewrite <- HE. congruence.
Qed.

(** Reading a frame header and the payload that follows it. *)
Lemma ReadFrame_header p s rest :
  InspectPacket (Payload p) = Ok p → contents s = frame_header p ++ Payload p ++ rest →
  ∃ s', ReadFrame s = Ok (p, s') ∧ contents s' = rest ∧ final s' = final s.
Proof.
  intros Hp Hc. apply InspectPacket_Ok in Hp as Hb. destruct Hb as [_ Hb].
  destruct (ReadFull_enough s _ _ HeaderSize Hc) as (s1 & E1 & Hc1 & Hf1); [done|].
  destruct (ReadFull_enough s1 _ _ (length (Payload p)) Hc1) as (s2 & E2 & Hc2 & Hf2); [done|].
  exists s2. split; [|by rewrite Hf2]. unfold ReadFrame. rewrite E1. cbn [result_bind].
  assert (take 4 (drop 6 (frame_header p)) = be_bytes 4 (Z.of_nat (length (Payload p)))) as Hlen by done.
  rewrite Hlen, be_val_be_bytes by (unfold MaxPacketSize in Hb; simpl; lia).
  rewrite !decide_True by (done || lia). rewrite Nat2Z.id, E2. cbn [result_bind].
  rewrite Hp. cbn [result_bind]. by rewrite decide_True.
Qed.

(** Read [n] frames in a row. *)
Fixpoint ReadFrames (n : nat) (s : stream) : result frame_error (list Packet * stream) :=
  match n with
  | O => Ok ([], s)
  | S n => let! (p, s) := ReadFrame s in
           let! (ps, s) := ReadFrames n s in
           Ok (p :: ps, s)
  end.

(** C31. Framing never splits or merges packets: when the frames of some
    payloads are written one after the other and delivered in arbitrary chunks,
    reading that many frames gives exactly the payloads, in order, and leaves
    exactly the bytes that follow them. *)
Theorem ReadFrames_EncodeFrame (payloads frames : list bytes) (s : stream) (rest : bytes) :
  Forall2 (λ p f, EncodeFrame p = Ok f) payloads frames →
  contents s = mjoin frames ++ rest →
  ∃ ps s', ReadFrames (length payloads) s = Ok (ps, s') ∧ Payload <$> ps = payloads ∧
           contents s' = rest ∧ final s' = final s.
Proof.
  intros Hall. revert s. induction Hall as [|p f payloads frames Hp _ IH]; intros s Hc.
  { by exists [], s. }
  apply EncodeFrame_Ok in Hp as (pk & Hi & ->). apply InspectPacket_Ok in Hi as Hb.
  destruct Hb as [Hpk _]. subst p.
  change (mjoin ((frame_header pk ++ Payload pk) :: frames))
    with ((frame_header pk ++ Payload pk) ++ mjoin frames) in Hc. rewrite <- !app_assoc in Hc.
  destruct (ReadFrame_header pk s _ Hi Hc) as (s1 & E1 & Hc1 & Hf1).
  destruct (IH s1 Hc1) as (ps & s2 & E2 & Hps & Hc2 & Hf2).
  exists (pk :: ps), s2. cbn [ReadFrames length]. rewrite E1. cbn [result_bind].
  rewrite E2. cbn. split_all; [done|by f_equal|done|congruence].
Qed.

(** [ReadFrame] accepts nothing but frames: a packet it returns was
    consumed from the stream as precisely the frame [EncodeFrame] produces for
    the packet's payload. *)
Theorem ReadFrame_sound (s s' : stream) (p : Packet) :
  wf_bytes (contents s) → ReadFrame s = Ok (p, s') →
  ∃ f, EncodeFrame (Payload p) = Ok f ∧ contents s = f ++ contents s' ∧ final s' = final s.
Proof.
  intros Hw. unfold ReadFrame. destruct (ReadFull s HeaderSize) as [[hd s1]|] eqn:E1; [|done].
  cbn [result_bind]. apply ReadFull_Ok in E1 as (Hl & Hc1 & Hf1).
  case_decide as Hm; [|done]. case_decide as Hv; [|done]. case_decide as Hr; [|done].
  case_decide as Hn; [|done].
  destruct (ReadFull s1 _) as [[pl s2]|] eqn:E2; [|done]. cbn [result_bind].
  apply ReadFull_Ok in E2 as (Hl2 & Hc2 & Hf2).
  destruct (InspectPacket pl) as [pk|] eqn:Ei; [|done]. cbn [result_bind].
  case_decide as Hmeta; [|done]. intros Hx. inv Hx.
  apply InspectPacket_Ok in Ei as Hb. destruct Hb as [Hpl Hb]. subst pl.
  exists (frame_header p ++ Payload p). split; [unfold EncodeFrame; by rewrite Ei|].
  split; [|congruence]. rewrite Hc1, Hc2, <- app_assoc. f_equal.
  rewrite Hc1 in Hw. apply Forall_app in Hw as [Hw _].
  repeat (destruct hd as [|? hd]; [done|]). destruct hd; [|done].
  unfold byte_at in *. cbn in Hm, Hv, Hr, Hmeta, Hl2, Hn. unfold frame_header. cbn [app].
  destruct Hm as [-> ->], Hr as (-> & -> & ->), Hmeta as [-> ->]. subst.
  rewrite Hl2. do 6 f_equal. rewrite Z2Nat.id by lia.
  match goal with |- ?a :: ?b :: ?c :: ?d :: _ = _ =>
    change (a :: b :: c :: d :: [0; 0]) with ([a; b; c; d] ++ [0; 0]);
    f_equal; symmetry; apply (be_bytes_be_val [a; b; c; d]) end.
  do 12 (apply Forall_cons in Hw as [? Hw]). repeat (apply Forall_cons_2; [done|]).
  apply Forall_nil_2.
Qed.

(** ** Writing *)

Section writing.
Context {W : Type} `{Writer W}.

Lemma writeAll_loop_returns fuel w payload :
  (length payload ≤ fuel)%nat → ∃ r, writeAll_loop fuel w payload = Some r.
Proof.
  revert w payload. induction fuel as [|fuel IH]; intros w [|b payload] Hl; cbn [writeAll_loop];
    try by eexists. { simpl in Hl. lia. }
  destruct (w_write w (b :: payload)) as [w' [n err]]. case_decide; [by eexists|].
  destruct err; [by eexists|]. case_decide; [by eexists|]. apply IH.
  rewrite length_drop. simpl in *. lia.
Qed.

Context (sink : W → bytes) `{!WriterLaws W sink}.

Lemma writeAll_loop_sink fuel w payload w' r :
  writeAll_loop fuel w payload = Some (w', r) → r ≠ Err ErrWriteCount →
  ∃ k, sink w' = sink w ++ take k payload ∧ (r = Ok tt → (length payload ≤ k)%nat).
Proof.
  revert w payload. induction fuel as [|fuel IH]; intros w [|b payload]; cbn [writeAll_loop].
  - intros [= <- <-] _. exists 0%nat. rewrite app_nil_r. simpl; auto.
  - done.
  - intros [= <- <-] _. exists 0%nat. rewrite app_nil_r. simpl; auto.
  - destruct (w_write w (b :: payload)) as [w1 [n err]] eqn:E.
    case_decide as Hn; [by intros [= <- <-]|].
    apply write_appends in E as Hs; [|lia].
    destruct err as [e|]; [intros [= <- <-] _; by exists (Z.to_nat n)|].
    case_decide as Hz; [intros [= <- <-] _; by exists (Z.to_nat n)|].
    intros Hr Hne. apply IH in Hr as (k & Hk & Hok); [|done]. exists (Z.to_nat n + k)%nat.
    rewrite Hk, Hs, <- app_assoc, take_take_drop. split; [done|].
    intros Hr. specialize (Hok Hr). rewrite length_drop in Hok. lia.
Qed.
End writing.

(** [WriteFrame] has full-write semantics for every writer: it returns
    whatever counts and errors the writer reports, and over a writer that
    appends what it reports, a successful call has appended exactly the frame
    of the payload, a failed one a prefix of it. *)
Theorem WriteFrame_full {W : Type} `{Writer W} (sink : W → bytes) `{!WriterLaws W sink}
    (w : W) (payload : bytes) :
  ∃ w' r, WriteFrame w payload = Some (w', r) ∧
    match r with
    | Ok _ => ∃ f, EncodeFrame payload = Ok f ∧ sink w' = sink w ++ f
    | Err ErrWriteCount => True
    | Err _ => ∃ k, sink w' = sink w ++ take k (default [] (match EncodeFrame payload with
                                                             | Ok f => Some f
                                                             | Err _ => None
                                                             end))
    end.
Proof.
  unfold WriteFrame. destruct (EncodeFrame payload) as [f|e] eqn:E; cbn [default].
  - unfold writeAll. destruct (writeAll_loop_returns (length f) w f) as [[w' r] Hr]; [done|].
    exists w', r. split; [done|].
    destruct (decide (r = Err ErrWriteCount)) as [->|Hne]; [done|].
    apply (writeAll_loop_sink sink) in Hr as (k & Hk & Hok); [|done].
    destruct r as [[]|e].
    + exists f. split; [done|]. rewrite Hk, take_ge; [done|by apply Hok].
    + destruct e; try done; by exists k.
  - exists w, (Err e). split; [done|]. destruct e; try done; exists 0%nat; by rewrite app_nil_r.
Qed.

(** ** Witnesses *)

(** A writer that takes at most three bytes per call. *)
Definition chunk_writer : Writer bytes :=
  λ w p, (w ++ take 3 p, (Z.of_nat (length (take 3 p)), None)).

Lemma chunk_writer_laws : @WriterLaws bytes chunk_writer id.
Proof.
  intros w p w' n e Hw _. unfold w_write, chunk_writer in Hw. injection Hw as <- <- <-.
  unfold id. f_equal. rewrite Nat2Z.id, length_take. destruct (decide (3 ≤ length p)%nat).
  - by rewrite Nat.min_l.
  - rewrite Nat.min_r by lia. by rewrite !take_ge by lia.
Qed.

(** The smallest IPv4 packet (no payload, protocol 6). *)
Definition sample4 : bytes := [0x45; 0; 0; 20; 0; 0; 0; 0; 64; 6; 0; 0; 192; 0; 2; 1; 198; 51; 100; 2].
Definition sample_frame : bytes := [0x46; 0x50; 1; 4; 6; 0; 0; 0; 0; 20; 0; 0] ++ sample4.

Lemma WriteFrame_full_witness :
  ∃ w' r, @WriteFrame bytes chunk_writer [] sample4 = Some (w', r) ∧ w' = sample_frame ∧ r = Ok tt.
Proof.
  destruct (@WriteFrame_full bytes chunk_writer id chunk_writer_laws [] sample4) as (w' & r & Hr & _).
  exists w', r. split; [exact Hr|].
  assert (@WriteFrame bytes chunk_writer [] sample4 = Some (sample_frame, Ok tt)) as E by reflexivity.
  rewrite E in Hr. injection Hr as <- <-. split; reflexivity.
Defined.

Lemma ReadFrames_EncodeFrame_witness :
  let s := {| chunks := [take 5 sample_frame; drop 5 sample_frame ++ take 20 sample_frame;
                         drop 20 sample_frame ++ [0x46]]; final := ErrEOF |} in
  ∃ ps s', ReadFrames 2 s = Ok (ps, s') ∧ Payload <$> ps = [sample4; sample4] ∧
           contents s' = [0x46] ∧ final s' = ErrEOF.
Proof.
  apply (ReadFrames_EncodeFrame [sample4; sample4] [sample_frame; sample_frame]).
  - repeat constructor.
  - reflexivity.
Defined.

Lemma ReadFrame_sound_witness :
  let s := {| chunks := [sample_frame]; final := ErrEOF |} in
  ∃ f, EncodeFrame sample4 = Ok f ∧ sample_frame = f ++ [].
Proof.
  destruct (ReadFrame_sound {| chunks := [sample_frame]; final := ErrEOF |}
              {| chunks := []; final := ErrEOF |}
              {| Family := 4; Protocol := 6; Payload := sample4 |}) as (f & Hf & Hc & _).
  - apply (bool_decide_unpack _). vm_compute. exact I.
  - reflexivity.
  - exists f. split; [exact Hf|exact Hc].
Defined.
