(* ===== verification/PacketBridge.v ===== *)
(** The packet bridge of the Apple ABI: the packet socket
    (src/upstream/xray-core/main/folotun/socket.go), the echo pump, and the
    global [packetBridge] object of src/apple-wrapper/folo_apple.go with its
    start and stop calls and pump goroutines, as an interleaving of their
    critical sections. *)
From S2P Require Import Prelude Frame.

(** ** Status codes (folo_apple.go) *)

Definition statusOK : Z := 0.
Definition statusInvalidArgument : Z := 1.
Definition statusInvalidConfiguration : Z := 2.
Definition statusInvalidState : Z := 3.
Definition statusStartFailed : Z := 4.
Definition statusStopFailed : Z := 5.
Definition statusInternalError : Z := 6.
Definition statusIOError : Z := 7.
Definition statusEOF : Z := 8.
Definition statusResourceLimit : Z := 9.
Definition statusWouldBlock : Z := 10.
Definition stateIdle : Z := 0.
Definition stateRunning : Z := 1.

(** ** The packet socket *)

(** The operating system's answers while a descriptor is adopted. *)
Record fd_env := {
  newfile_ok : bool;     (** [os.NewFile] returned a file *)
  fileconn_ok : bool;    (** [net.FileConn] succeeded: a stream socket *)
  close_ok : bool        (** closing the file succeeded *)
}.

(** The resources the call creates and closes, in order. *)
Inductive fd_event := FileClosed | ConnOpened | ConnClosed.

Inductive fd_error :=
| FdInvalid | FdNotWrapped | FdNotStream | FdNotStreamCloseFailed | FdCloseFailed.

Definition NewPacketSocketFromFD (fd : Z) (env : fd_env) : result fd_error unit * list fd_event :=
  if decide (fd < 0) then (Err FdInvalid, [])
  else if newfile_ok env then
    let opened := if fileconn_ok env then [ConnOpened] else [] in
    let ev := opened ++ [FileClosed] in
    if fileconn_ok env then
      if close_ok env then (Ok tt, ev) else (Err FdCloseFailed, ev ++ [ConnClosed])
    else (Err (if close_ok env then FdNotStream else FdNotStreamCloseFailed), ev)
  else (Err FdNotWrapped, []).

(** ** The bridge object *)

Record bridge := {
  socket : option nat;      (** the socket, identified by the start that adopted it *)
  generation : Z;           (** uint64 *)
  b_state : Z;
  lastCode : Z;
  lastError : string;
  framesIn : Z; framesOut : Z; bytesIn : Z; bytesOut : Z   (** uint64 *)
}.

(** [socket], [cancel] and [done] are always set and cleared together, so one
    field stands for the three. *)
Definition initial_bridge : bridge :=
  {| socket := None; generation := 0; b_state := stateIdle; lastCode := statusOK;
     lastError := "ok"; framesIn := 0; framesOut := 0; bytesIn := 0; bytesOut := 0 |}.

Definition setPacketBridgeErrorLocked (code : Z) (message : string) (b : bridge) : bridge :=
  {| socket := socket b; generation := generation b; b_state := b_state b; lastCode := code;
     lastError := message; framesIn := framesIn b; framesOut := framesOut b;
     bytesIn := bytesIn b; bytesOut := bytesOut b |}.

Definition clearPacketBridgeErrorLocked (b : bridge) : bridge :=
  setPacketBridgeErrorLocked statusOK "ok" b.

Definition with_socket (s : option nat) (st : Z) (b : bridge) : bridge :=
  {| socket := s; generation := generation b; b_state := st; lastCode := lastCode b;
     lastError := lastError b; framesIn := framesIn b; framesOut := framesOut b;
     bytesIn := bytesIn b; bytesOut := bytesOut b |}.

(** The critical section of a start that adopts socket [sid]: [None] when the
    bridge is busy. *)
Definition start_section (sid : nat) (b : bridge) : option bridge :=
  match socket b with
  | Some _ => None
  | None =>
    if decide (b_state b = stateRunning) then None
    else Some (clearPacketBridgeErrorLocked
      {| socket := Some sid; generation := u64 (generation b + 1); b_state := stateRunning;
         lastCode := lastCode b; lastError := lastError b;
         framesIn := 0; framesOut := 0; bytesIn := 0; bytesOut := 0 |})
  end.

(** The callback's critical sections before and after the frame is written. *)
Definition count_in (n : nat) (b : bridge) : bridge :=
  {| socket := socket b; generation := generation b; b_state := b_state b; lastCode := lastCode b;
     lastError := lastError b; framesIn := u64 (framesIn b + 1); framesOut := framesOut b;
     bytesIn := u64 (bytesIn b + Z.of_nat n); bytesOut := bytesOut b |}.

Definition count_out (n : nat) (b : bridge) : bridge :=
  {| socket := socket b; generation := generation b; b_state := b_state b; lastCode := lastCode b;
     lastError := lastError b; framesIn := framesIn b; framesOut := u64 (framesOut b + 1);
     bytesIn := bytesIn b; bytesOut := u64 (bytesOut b + Z.of_nat n) |}.

(** The last critical section of a pump of generation [gen] whose echo loop
    ended with [err]; [cancelled] is [ctx.Err() != nil]. *)
Definition finish_section (gen : Z) (err cancelled : bool) (b : bridge) : bridge :=
  if decide (generation b ≠ gen) then b
  else
    let b := with_socket None stateIdle b in
    if err && negb cancelled
    then setPacketBridgeErrorLocked statusInternalError "packet bridge terminated" b
    else b.

(** The first and the last critical section of a stop. *)
Definition stop_idle_section (b : bridge) : bridge :=
  clearPacketBridgeErrorLocked (with_socket (socket b) stateIdle b).

Definition stop_final_section (b : bridge) : bridge :=
  clearPacketBridgeErrorLocked (with_socket None stateIdle b).

(** ** Interleavings *)

(** Where a pump goroutine is: in the echo loop, writing a packet back, past
    the loop with its result, past [done <- err], or returned. *)
Inductive pump_pc := Reading | Writing (n : nat) | Ended (err : bool) | Sent (err : bool) | Exited.

Record pump := {
  p_pc : pump_pc;
  p_gen : Z;
  p_cancelled : bool;   (** the context of the pump is cancelled *)
  p_done : bool         (** its channel [done] holds a value *)
}.

Record world := {
  w_bridge : bridge;
  w_pumps : list pump;          (** by socket number *)
  w_stops : gmap nat (nat * bool)
    (** stop calls that have passed their first section: the socket they took,
        and whether they have received from [done] *)
}.

Definition initial_world : world :=
  {| w_bridge := initial_bridge; w_pumps := []; w_stops := ∅ |}.

Definition set_pump (s : nat) (p : pump) (w : world) : world :=
  {| w_bridge := w_bridge w; w_pumps := <[s := p]> (w_pumps w); w_stops := w_stops w |}.

Definition set_bridge (b : bridge) (w : world) : world :=
  {| w_bridge := b; w_pumps := w_pumps w; w_stops := w_stops w |}.

Definition with_pc (pc : pump_pc) (p : pump) : pump :=
  {| p_pc := pc; p_gen := p_gen p; p_cancelled := p_cancelled p; p_done := p_done p |}.

Inductive step : world → world → Prop :=
| step_start_rejected w :
    step w (set_bridge (setPacketBridgeErrorLocked statusInvalidArgument
              "packet socket rejected" (w_bridge w)) w)
| step_start w b :
    start_section (length (w_pumps w)) (w_bridge w) = Some b →
    step w {| w_bridge := b;
              w_pumps := w_pumps w ++ [{| p_pc := Reading; p_gen := generation b;
                                          p_cancelled := false; p_done := false |}];
              w_stops := w_stops w |}
| step_packet w s p n :
    w_pumps w !! s = Some p → p_pc p = Reading →
    step w (set_pump s (with_pc (Writing n) p) (set_bridge (count_in n (w_bridge w)) w))
| step_written w s p n :
    w_pumps w !! s = Some p → p_pc p = Writing n →
    step w (set_pump s (with_pc Reading p) (set_bridge (count_out n (w_bridge w)) w))
| step_echo_returns w s p :
    (** the read fails, the context is done, or the write fails *)
    w_pumps w !! s = Some p → (p_pc p = Reading ∨ ∃ n, p_pc p = Writing n) →
    step w (set_pump s (with_pc (Ended true) p) w)
| step_send w s p err :
    w_pumps w !! s = Some p → p_pc p = Ended err →
    step w (set_pump s {| p_pc := Sent err; p_gen := p_gen p; p_cancelled := p_cancelled p;
                          p_done := true |} w)
| step_finish w s p err :
    w_pumps w !! s = Some p → p_pc p = Sent err →
    step w (set_pump s (with_pc Exited p)
              (set_bridge (finish_section (p_gen p) err (p_cancelled p) (w_bridge w)) w))
| step_stop_idle w :
    socket (w_bridge w) = None →
    step w (set_bridge (stop_idle_section (w_bridge w)) w)
| step_stop_begin w c s p :
    socket (w_bridge w) = Some s → w_pumps w !! s = Some p → w_stops w !! c = None →
    step w {| w_bridge := w_bridge w;
              w_pumps := <[s := {| p_pc := p_pc p; p_gen := p_gen p; p_cancelled := true;
                                   p_done := p_done p |}]> (w_pumps w);
              w_stops := <[c := (s, false)]> (w_stops w) |}
| step_stop_receive w c s p :
    w_stops w !! c = Some (s, false) → w_pumps w !! s = Some p → p_done p = true →
    step w {| w_bridge := w_bridge w;
              w_pumps := <[s := {| p_pc := p_pc p; p_gen := p_gen p;
                                   p_cancelled := p_cancelled p; p_done := false |}]> (w_pumps w);
              w_stops := <[c := (s, true)]> (w_stops w) |}
| step_stop_end w c s :
    w_stops w !! c = Some (s, true) →
    step w {| w_bridge := stop_final_section (w_bridge w); w_pumps := w_pumps w;
              w_stops := delete c (w_stops w) |}.

(** A pump that may still read or write packets. *)
Definition echoing (p : pump) : Prop := p_pc p = Reading ∨ ∃ n, p_pc p = Writing n.

(** ** Invariant of all interleavings *)

Definition bridge_inv (w : world) : Prop :=
  let b := w_bridge w in
  generation b = u64 (Z.of_nat (length (w_pumps w))) ∧
  (∀ s p, w_pumps w !! s = Some p → p_gen p = u64 (Z.of_nat (S s))) ∧
  match socket b with
  | None => b_state b = stateIdle
  | Some s => b_state b = stateRunning ∧ S s = length (w_pumps w) ∧
              ∃ p, w_pumps w !! s = Some p ∧ p_pc p ≠ Exited
  end ∧
  (lastCode b = statusOK ↔ lastError b = "ok"%string) ∧
  is_uint 64 (framesIn b) ∧ is_uint 64 (framesOut b) ∧
  is_uint 64 (bytesIn b) ∧ is_uint 64 (bytesOut b).

Lemma bridge_inv_initial : bridge_inv initial_world.
Proof. split_all; try done. Qed.

(** Changing one pump without letting it exit keeps the invariant, whatever
    happens to the pending stops. *)
Lemma bridge_inv_set_pump w s p p' :
  bridge_inv w → w_pumps w !! s = Some p → p_gen p' = p_gen p →
  (p_pc p' = Exited → p_pc p = Exited) → bridge_inv (set_pump s p' w).
Proof.
  intros (Hg & Hp & Hs & Hrest) Hl Hgen Hpc. unfold set_pump, bridge_inv. cbn.
  rewrite length_insert. split_all; try apply Hrest; [done| |].
  - intros s' q [(<- & <- & _)|[_ Hq]]%list_lookup_insert_Some; [|by apply Hp].
    rewrite Hgen. by apply Hp.
  - destruct (socket (w_bridge w)) as [s0|]; [|done]. destruct Hs as (? & ? & q & Hq & Hqe).
    split_all; [done|done|]. destruct (decide (s = s0)) as [->|Hne].
    + exists p'. split; [apply list_lookup_insert_eq; by apply lookup_lt_Some in Hl|].
      intros ?%Hpc. naive_solver.
    + exists q. split; [|done]. by rewrite list_lookup_insert_ne.
Qed.

(** A critical section that keeps the socket, the state and the generation. *)
Lemma bridge_inv_set_bridge w b :
  bridge_inv w → generation b = generation (w_bridge w) → socket b = socket (w_bridge w) →
  b_state b = b_state (w_bridge w) → (lastCode b = statusOK ↔ lastError b = "ok"%string) →
  is_uint 64 (framesIn b) → is_uint 64 (framesOut b) → is_uint 64 (bytesIn b) →
  is_uint 64 (bytesOut b) → bridge_inv (set_bridge b w).
Proof.
  intros (Hg & Hp & Hs & _) Hb1 Hb2 Hb3 ?????. unfold set_bridge, bridge_inv. cbn.
  rewrite Hb1, Hb2, Hb3. split_all; done.
Qed.

Lemma u64_bound x : is_uint 64 (u64 x).
Proof. by apply wrap_bound. Qed.

Lemma bridge_inv_start w b :
  bridge_inv w → start_section (length (w_pumps w)) (w_bridge w) = Some b →
  ∀ stops, bridge_inv
    {| w_bridge := b;
       w_pumps := w_pumps w ++ [{| p_pc := Reading; p_gen := generation b;
                                   p_cancelled := false; p_done := false |}];
       w_stops := stops |}.
Proof.
  intros (Hg & Hp & Hs & _) Hb stops. unfold start_section in Hb.
  destruct (socket (w_bridge w)); [done|]. case_decide; [done|]. injection Hb as <-.
  assert (u64 (u64 (Z.of_nat (length (w_pumps w))) + 1) =
          u64 (Z.of_nat (S (length (w_pumps w))))) as Hnext.
  { unfold wrap. rewrite Zplus_mod_idemp_l. f_equal. lia. }
  unfold bridge_inv. cbn. rewrite length_app, Hg, Hnext. cbn [length].
  split_all; try (done || apply u64_bound); [f_equal; lia| |lia|].
  - intros s p Hl. apply lookup_app_Some in Hl as [Hl|[Hge Hl]]; [by apply Hp|].
    apply list_lookup_singleton_Some in Hl as [Hz <-]. cbn. do 3 f_equal. lia.
  - eexists. split; [by apply list_lookup_middle|]. done.
Qed.

Lemma bridge_inv_finish w s p err :
  bridge_inv w → w_pumps w !! s = Some p →
  bridge_inv (set_pump s (with_pc Exited p)
    (set_bridge (finish_section (p_gen p) err (p_cancelled p) (w_bridge w)) w)).
Proof.
  intros (Hg & Hp & Hs & Hc) Hl. unfold finish_section.
  assert (∀ s' q, <[s:=with_pc Exited p]> (w_pumps w) !! s' = Some q →
                  p_gen q = u64 (Z.of_nat (S s'))) as Hgens.
  { intros s' q [(<- & <- & _)|[_ Hq]]%list_lookup_insert_Some; [by apply (Hp s p)|by apply Hp]. }
  unfold set_pump, set_bridge, bridge_inv. cbn. rewrite length_insert. case_decide as Hgen.
  - split_all; try apply Hc; [done|done|]. destruct (socket (w_bridge w)) as [s0|]; [|done].
    destruct Hs as (? & Hlen & q & Hq & Hqe). split_all; [done|done|]. exists q.
    rewrite list_lookup_insert_ne; [done|]. intros ->. apply Hgen.
    by rewrite Hg, (Hp _ _ Hl), Hlen.
  - destruct (err && _); cbn; by split_all; try (done || apply Hc).
Qed.

Lemma bridge_inv_step w w' : step w w' → bridge_inv w → bridge_inv w'.
Proof.
  intros Hstep Hi. destruct Hi as (Hg & Hp & Hs & Hc & Hu) eqn:Hinv. clear Hinv.
  assert (bridge_inv w) as Hinv by (unfold bridge_inv; done).
  destruct Hstep as [w|w b Hb|w s p n Hl Hpc|w s p n Hl Hpc|w s p Hl Hpc|w s p err Hl Hpc
    |w s p err Hl Hpc|w Hn|w c s p Hsk Hl Hc0|w c s p Hst Hl Hd|w c s Hst].
  - apply bridge_inv_set_bridge; try (done || apply Hu).
  - by apply bridge_inv_start.
  - eapply bridge_inv_set_pump; [|done..]. apply bridge_inv_set_bridge; try (done || apply Hu || apply u64_bound).
  - eapply bridge_inv_set_pump; [|done..]. apply bridge_inv_set_bridge; try (done || apply Hu || apply u64_bound).
  - by eapply bridge_inv_set_pump.
  - by eapply bridge_inv_set_pump.
  - by apply bridge_inv_finish.
  - rewrite Hn in Hs. apply bridge_inv_set_bridge; try (done || apply Hu).
  - by apply (bridge_inv_set_pump w s p).
  - by apply (bridge_inv_set_pump w s p).
  - unfold bridge_inv. cbn. split_all; try (done || apply Hu).
Qed.

(** C18. In every interleaving of start, stop and pump goroutines the bridge
    object is consistent: it is running exactly while it holds a socket, that
    socket is the newest one and its pump has not returned; the error text is
    "ok" exactly when the code is 0; and the counters stay in range. *)
Theorem packet_bridge_invariant (w : world) : rtc step initial_world w → bridge_inv w.
Proof.
  intros Hr. eapply rtc_invariant; [apply bridge_inv_step|done|apply bridge_inv_initial].
Qed.

(** ** Serialised callers *)

(** A client that does not start or stop the bridge while one of its stop calls
    is pending (and that starts it fewer than 2^64 times). *)
Definition serial_step (w w' : world) : Prop :=
  step w w' ∧ Z.of_nat (length (w_pumps w')) < 2 ^ 64 ∧
  (w_stops w = ∅ ∨
   length (w_pumps w') = length (w_pumps w) ∧ dom (w_stops w') ⊆ dom (w_stops w)).

Definition past_loop (p : pump) : Prop := (∃ e, p_pc p = Sent e) ∨ p_pc p = Exited.

(** What a stop call that took the pump's socket can count on: before it has
    received, the channel is full or the pump has still to send; afterwards the
    pump is past its loop. *)
Definition stop_ok (p : pump) (received : bool) : Prop :=
  if received then past_loop p
  else p_done p = true ∨ echoing p ∨ ∃ e, p_pc p = Ended e.

Record serial_inv (w : world) : Prop := {
  si_bridge : bridge_inv w;
  si_small : Z.of_nat (length (w_pumps w)) < 2 ^ 64;
  si_echo : ∀ s p, w_pumps w !! s = Some p → echoing p → socket (w_bridge w) = Some s;
  si_done : ∀ s p, w_pumps w !! s = Some p → p_done p = true → past_loop p;
  si_one : ∀ c c' x y, w_stops w !! c = Some x → w_stops w !! c' = Some y → c = c';
  si_stop : ∀ c s r, w_stops w !! c = Some (s, r) →
    S s = length (w_pumps w) ∧ ∃ p, w_pumps w !! s = Some p ∧ stop_ok p r;
  si_sent : ∀ s p e, w_pumps w !! s = Some p → socket (w_bridge w) = Some s → p_pc p = Sent e →
    p_done p = true ∨ ∃ c, w_stops w !! c = Some (s, true)
}.

Lemma serial_inv_initial : serial_inv initial_world.
Proof. by split. Qed.

Lemma serial_inv_set_pump w s p p' :
  serial_inv w → w_pumps w !! s = Some p → p_gen p' = p_gen p →
  (p_pc p' = Exited → p_pc p = Exited) → (echoing p' → echoing p) →
  (p_done p' = true → past_loop p') → (∀ r, stop_ok p r → stop_ok p' r) →
  (∀ e, p_pc p' = Sent e → p_done p' = true) → serial_inv (set_pump s p' w).
Proof.
  intros [] Hl Hgen Hex He Hd Hst Hse. pose proof (lookup_lt_Some _ _ _ Hl) as Hlt.
  split; cbn; rewrite ?length_insert; try done.
  - by eapply bridge_inv_set_pump.
  - intros s' q [(<- & <- & _)|[_ Hq]]%list_lookup_insert_Some; eauto.
  - intros s' q [(<- & <- & _)|[_ Hq]]%list_lookup_insert_Some; eauto.
  - intros c s' r (Hlen & q & Hq & Hok)%si_stop0. split; [done|].
    destruct (decide (s = s')) as [<-|Hne].
    + exists p'. rewrite list_lookup_insert_eq by done. split; [done|].
      assert (q = p) as -> by congruence. by apply Hst.
    + exists q. by rewrite list_lookup_insert_ne.
  - intros s' q e [(<- & <- & _)|[_ Hq]]%list_lookup_insert_Some; eauto.
Qed.

Lemma serial_inv_set_bridge w b :
  serial_inv w → bridge_inv (set_bridge b w) → socket b = socket (w_bridge w) →
  serial_inv (set_bridge b w).
Proof. intros [] ? Hs. split; cbn; try done; rewrite Hs; eauto. Qed.

Lemma echoing_reading p n : p_pc p = Reading ∨ p_pc p = Writing n → echoing p.
Proof. unfold echoing. naive_solver. Qed.

Lemma stop_ok_echoing p r : echoing p → stop_ok p r → r = false.
Proof. intros [?|[??]]; destruct r; try done; intros [[??]|?]; congruence. Qed.

Lemma serial_inv_finish w s p err :
  serial_inv w → w_pumps w !! s = Some p → p_pc p = Sent err →
  serial_inv (set_pump s (with_pc Exited p)
    (set_bridge (finish_section (p_gen p) err (p_cancelled p) (w_bridge w)) w)).
Proof.
  intros Hi Hl Hpc. pose proof (bridge_inv_finish w s p err (si_bridge _ Hi) Hl) as Hb.
  destruct Hi as [(Hg & Hp & Hs & _) Hsm He Hd Ho Hst Hse].
  pose proof (lookup_lt_Some _ _ _ Hl) as Hlt.
  assert (socket (finish_section (p_gen p) err (p_cancelled p) (w_bridge w)) = None ∧
          generation (w_bridge w) = p_gen p ∨
          socket (finish_section (p_gen p) err (p_cancelled p) (w_bridge w)) = socket (w_bridge w))
    as Hsock.
  { unfold finish_section. case_decide as Hc; [by right|left].
    by destruct (_ && _). }
  split; cbn; rewrite ?length_insert; try done.
  - intros s' q [(<- & <- & _)|[Hne Hq]]%list_lookup_insert_Some Hec; [by destruct Hec as [|[]]|].
    pose proof (He _ _ Hq Hec) as Hss. destruct Hsock as [[_ Hgen]|Hsock]; [|by rewrite Hsock].
    (* the pump that finishes would be the one of the current socket *)
    exfalso. rewrite Hss in Hs. destruct Hs as (_ & Hlen & _). apply Hne.
    rewrite Hg, (Hp _ _ Hl) in Hgen. rewrite !wrap_small in Hgen by (unfold is_uint; lia). lia.
  - intros s' q [(<- & <- & _)|[_ Hq]]%list_lookup_insert_Some; [by right|eauto].
  - intros c s' r (Hlen & q & Hq & Hok)%Hst. split; [done|].
    destruct (decide (s = s')) as [<-|Hne].
    + exists (with_pc Exited p). rewrite list_lookup_insert_eq by done. split; [done|].
      assert (q = p) as -> by congruence. destruct r; [by right|left].
      destruct Hok as [?|[[?|[]]|[]]]; [done|congruence..].
    + exists q. by rewrite list_lookup_insert_ne.
  - intros s' q e [(<- & <- & _)|[_ Hq]]%list_lookup_insert_Some; [done|].
    destruct Hsock as [[-> _] | ->]; [done|eauto].
Qed.

Lemma serial_inv_start w b :
  serial_inv w → start_section (length (w_pumps w)) (w_bridge w) = Some b →
  Z.of_nat (S (length (w_pumps w))) < 2 ^ 64 → w_stops w = ∅ →
  serial_inv {| w_bridge := b;
                w_pumps := w_pumps w ++ [{| p_pc := Reading; p_gen := generation b;
                                            p_cancelled := false; p_done := false |}];
                w_stops := w_stops w |}.
Proof.
  intros Hi Hb Hsm Hst0. pose proof (bridge_inv_start w b (si_bridge _ Hi) Hb (w_stops w)) as Hbi.
  destruct Hi as [_ _ He Hd _ _ _]. unfold start_section in Hb.
  destruct (socket (w_bridge w)) as [|] eqn:Hs; [done|]. case_decide; [done|]. injection Hb as <-.
  split; cbn; rewrite ?Hst0; try done.
  - rewrite length_app. cbn [length]. lia.
  - intros s p [Hl|[Hge Hl]]%lookup_app_Some Hec; [by specialize (He _ _ Hl Hec)|].
    apply list_lookup_singleton_Some in Hl as [Hz _]. f_equal. lia.
  - intros s p [Hl|[Hge Hl]]%lookup_app_Some Hdn; [eauto|].
    by apply list_lookup_singleton_Some in Hl as [_ <-].
  - intros s p e [Hl|[Hge Hl]]%lookup_app_Some [= <-] Hpc; [apply lookup_lt_Some in Hl; lia|].
    by apply list_lookup_singleton_Some in Hl as [_ <-].
Qed.

Lemma serial_inv_stop_begin w c s p :
  serial_inv w → socket (w_bridge w) = Some s → w_pumps w !! s = Some p → w_stops w = ∅ →
  serial_inv {| w_bridge := w_bridge w;
                w_pumps := <[s := {| p_pc := p_pc p; p_gen := p_gen p; p_cancelled := true;
                                     p_done := p_done p |}]> (w_pumps w);
                w_stops := <[c := (s, false)]> (w_stops w) |}.
Proof.
  intros Hi Hs Hl Hst0. pose proof (lookup_lt_Some _ _ _ Hl) as Hlt.
  destruct Hi as [Hb Hsm He Hd Ho Hst Hse]. rewrite Hst0 in *. split; cbn; rewrite ?length_insert; try done.
  - by eapply (bridge_inv_set_pump w s p).
  - intros s' q [(<- & <- & _)|[_ Hq]]%list_lookup_insert_Some ?; eauto.
  - intros s' q [(<- & <- & _)|[_ Hq]]%list_lookup_insert_Some ?; [by apply (Hd s p)|eauto].
  - intros c1 c2 x y [(<- & _)|[_ ?]]%lookup_insert_Some [(<- & _)|[_ ?]]%lookup_insert_Some; done.
  - intros c1 s' r [(<- & [= <- <-])|[_ ?]]%lookup_insert_Some; [|done].
    destruct Hb as (_ & _ & Hb & _). rewrite Hs in Hb. destruct Hb as (_ & Hlen & q & Hq & Hne).
    assert (q = p) as -> by congruence. split; [done|].
    eexists. rewrite list_lookup_insert_eq by done. split; [done|]. unfold stop_ok, echoing. cbn.
    destruct (p_pc p) as [| |e|e|] eqn:Hpc; eauto.
    destruct (Hse s p e Hl Hs Hpc) as [?|[c' ?]]; [by left|done].
  - intros s' q e [(<- & <- & _)|[_ Hq]]%list_lookup_insert_Some Hs' Hpc.
    + destruct (Hse s p e Hl Hs Hpc) as [?|[c' ?]]; [by left|done].
    + destruct (Hse s' q e Hq Hs' Hpc) as [?|[c' ?]]; [by left|done].
Qed.

Lemma serial_inv_receive w c s p :
  serial_inv w → w_stops w !! c = Some (s, false) → w_pumps w !! s = Some p → p_done p = true →
  serial_inv {| w_bridge := w_bridge w;
                w_pumps := <[s := {| p_pc := p_pc p; p_gen := p_gen p;
                                     p_cancelled := p_cancelled p; p_done := false |}]> (w_pumps w);
                w_stops := <[c := (s, true)]> (w_stops w) |}.
Proof.
  intros Hi Hc Hl Hdn. pose proof (lookup_lt_Some _ _ _ Hl) as Hlt.
  destruct Hi as [Hb Hsm He Hd Ho Hst Hse]. split; cbn; rewrite ?length_insert; try done.
  - by eapply (bridge_inv_set_pump w s p).
  - intros s' q [(<- & <- & _)|[_ Hq]]%list_lookup_insert_Some ?; [by apply (He s p)|eauto].
  - intros s' q [(<- & <- & _)|[_ Hq]]%list_lookup_insert_Some ?; [done|eauto].
  - intros c1 c2 x y [(<- & _)|[? ?]]%lookup_insert_Some [(<- & _)|[? ?]]%lookup_insert_Some; eauto.
  - intros c1 s' r [(<- & [= <- <-])|[Hne H1]]%lookup_insert_Some.
    + split; [by apply (Hst c s false)|]. eexists. rewrite list_lookup_insert_eq by done.
      split; [done|]. by apply (Hd s p).
    + destruct Hne. by eapply Ho.
  - intros s' q e [(<- & <- & _)|[Hne Hq]]%list_lookup_insert_Some Hs Hpc.
    + right. exists c. by apply lookup_insert_eq.
    + destruct (Hse s' q e Hq Hs Hpc) as [?|[c' Hc']]; [by left|right]. exists c'.
      rewrite lookup_insert_ne; [done|]. intros <-. congruence.
Qed.

Lemma serial_inv_end w c s :
  serial_inv w → w_stops w !! c = Some (s, true) →
  serial_inv {| w_bridge := stop_final_section (w_bridge w); w_pumps := w_pumps w;
                w_stops := delete c (w_stops w) |}.
Proof.
  intros Hi Hc. assert (bridge_inv {| w_bridge := stop_final_section (w_bridge w);
    w_pumps := w_pumps w; w_stops := delete c (w_stops w) |}) as Hb'.
  { apply (bridge_inv_step w); [by eapply step_stop_end|apply Hi]. }
  destruct Hi as [Hb Hsm He Hd Ho Hst Hse]. split; cbn; try done.
  - intros s' q Hq Hec. exfalso. pose proof (He _ _ Hq Hec) as Hs.
    destruct Hb as (_ & _ & Hb & _). rewrite Hs in Hb. destruct Hb as (_ & Hlen & _).
    destruct (Hst _ _ _ Hc) as (Hlen' & p & Hp & Hok). assert (s' = s) as -> by lia.
    assert (q = p) as -> by congruence. by apply (stop_ok_echoing p true) in Hec.
  - intros c1 c2 x y [_ ?]%lookup_delete_Some [_ ?]%lookup_delete_Some. eauto.
  - intros c1 s' r [Hne H1]%lookup_delete_Some. destruct Hne. by eapply Ho.
Qed.

(** A pump that stays in its loop. *)
Lemma serial_inv_echo w b s p pc :
  serial_inv w → w_pumps w !! s = Some p → echoing p → echoing (with_pc pc p) →
  serial_inv (set_bridge b w) → serial_inv (set_pump s (with_pc pc p) (set_bridge b w)).
Proof.
  intros Hi Hl Hec Hec' Hi'. eapply serial_inv_set_pump; [done|done|done| |done| | |].
  - cbn. intros ->. by destruct Hec' as [|[]].
  - intros Hdn. destruct (si_done _ Hi _ _ Hl Hdn) as [[]|]; destruct Hec as [|[]]; congruence.
  - intros r Hok. apply stop_ok_echoing in Hok as ->; [|done]. by right; left.
  - cbn. intros e ->. by destruct Hec' as [|[]].
Qed.

Lemma serial_inv_step w w' : serial_step w w' → serial_inv w → serial_inv w'.
Proof.
  intros (Hstep & Hsm & Hser) Hi. pose proof (bridge_inv_step _ _ Hstep (si_bridge _ Hi)) as Hb.
  destruct Hstep as [w|w b Hb'|w s p n Hl Hpc|w s p n Hl Hpc|w s p Hl Hpc|w s p err Hl Hpc
    |w s p err Hl Hpc|w Hn|w c s p Hsk Hl Hc0|w c s p Hst Hl Hd|w c s Hst].
  - by apply serial_inv_set_bridge.
  - apply serial_inv_start; [done..| |].
    + cbn in Hsm. rewrite length_app in Hsm. cbn [length] in Hsm. lia.
    + destruct Hser as [|[Hlen _]]; [done|]. cbn in Hlen. rewrite length_app in Hlen. cbn in Hlen. lia.
  - apply serial_inv_echo; [done|done|by left|by right; exists n|].
    apply serial_inv_set_bridge; [done| |done].
    apply bridge_inv_set_bridge; try (apply Hi || apply u64_bound || done).
  - apply serial_inv_echo; [done|done|by right; exists n|by left|].
    apply serial_inv_set_bridge; [done| |done].
    apply bridge_inv_set_bridge; try (apply Hi || apply u64_bound || done).
  - eapply serial_inv_set_pump; [done|done|done|done| | | |done].
    + by intros [|[]].
    + intros Hdn. destruct (si_done _ Hi _ _ Hl Hdn) as [[]|]; destruct Hpc as [|[]]; congruence.
    + intros r Hok. apply stop_ok_echoing in Hok as ->; [|done]. right; right. by eexists.
  - eapply serial_inv_set_pump; [done|done|done|done| | | |done].
    + by intros [|[]].
    + intros _. left. by eexists.
    + intros [] Hok; [|by left]. destruct Hok as [[]|]; congruence.
  - by apply serial_inv_finish.
  - by apply serial_inv_set_bridge.
  - apply serial_inv_stop_begin; [done..|]. destruct Hser as [|[_ Hdom]]; [done|]. exfalso.
    cbn in Hdom. rewrite dom_insert_L in Hdom.
    assert (c ∈ dom (w_stops w)) as [? Hx]%elem_of_dom by set_solver. congruence.
  - by apply serial_inv_receive.
  - by eapply serial_inv_end.
Qed.

(** Steps of pumps and stops are serial. *)
Lemma serial_of_step w w' :
  serial_inv w → step w w' → length (w_pumps w') = length (w_pumps w) →
  dom (w_stops w') ⊆ dom (w_stops w) → serial_step w w'.
Proof. intros Hi Hs Hl Hd. split; [done|]. rewrite Hl. split; [apply Hi|by right]. Qed.

Lemma dom_insert_same {A} (m : gmap nat A) c x y :
  m !! c = Some x → dom (<[c := y]> m) ⊆ dom m.
Proof. intros Hc. rewrite dom_insert_L. apply elem_of_dom_2 in Hc. set_solver. Qed.

Lemma stop_completes_received w c s :
  serial_inv w → w_stops w !! c = Some (s, true) →
  ∃ w', rtc serial_step w w' ∧ w_stops w' !! c = None ∧
        socket (w_bridge w') = None ∧ b_state (w_bridge w') = stateIdle.
Proof.
  intros Hi Hc. exists {| w_bridge := stop_final_section (w_bridge w); w_pumps := w_pumps w;
                          w_stops := delete c (w_stops w) |}.
  split; [|split; [by apply lookup_delete_eq|done]]. apply rtc_once. apply serial_of_step; [done|by eapply step_stop_end|done|].
  cbn. rewrite dom_delete_L. set_solver.
Qed.

Lemma stop_completes_full w c s p :
  serial_inv w → w_stops w !! c = Some (s, false) → w_pumps w !! s = Some p → p_done p = true →
  ∃ w', rtc serial_step w w' ∧ w_stops w' !! c = None ∧
        socket (w_bridge w') = None ∧ b_state (w_bridge w') = stateIdle.
Proof.
  intros Hi Hc Hp Hd. pose proof (step_stop_receive w c s p Hc Hp Hd) as Hst.
  pose proof (serial_of_step _ _ Hi Hst (length_insert _ _ _) (dom_insert_same _ _ _ _ Hc)) as Hs.
  destruct (stop_completes_received _ c s (serial_inv_step _ _ Hs Hi)) as (w' & Hr & Hrest).
  { apply lookup_insert_eq. }
  exists w'. split; [|done]. by eapply rtc_l.
Qed.

Lemma stop_completes_ended w c s p e :
  serial_inv w → w_stops w !! c = Some (s, false) → w_pumps w !! s = Some p → p_pc p = Ended e →
  ∃ w', rtc serial_step w w' ∧ w_stops w' !! c = None ∧
        socket (w_bridge w') = None ∧ b_state (w_bridge w') = stateIdle.
Proof.
  intros Hi Hc Hp He. pose proof (step_send w s p e Hp He) as Hst.
  pose proof (serial_of_step _ _ Hi Hst (length_insert _ _ _) ltac:(done)) as Hs.
  destruct (stop_completes_full _ c s _ (serial_inv_step _ _ Hs Hi) Hc
    (list_lookup_insert_eq _ _ _ (lookup_lt_Some _ _ _ Hp)) eq_refl) as (w' & Hr & Hrest).
  exists w'. split; [by eapply rtc_l|done].
Qed.

(** For a client that does not overlap its calls: only the pump of the
    current socket ever moves packets, so after a stop none does; and a stop
    call cannot hang: whatever has happened before, it can be completed by the
    pump and the call itself, and then the bridge is idle. *)
Theorem serial_stop_completes (w : world) :
  rtc serial_step initial_world w →
  (∀ s p, w_pumps w !! s = Some p → echoing p →
          socket (w_bridge w) = Some s ∧ b_state (w_bridge w) = stateRunning) ∧
  (∀ c s r, w_stops w !! c = Some (s, r) →
     ∃ w', rtc serial_step w w' ∧ w_stops w' !! c = None ∧
           socket (w_bridge w') = None ∧ b_state (w_bridge w') = stateIdle).
Proof.
  intros Hr. assert (serial_inv w) as Hi.
  { eapply rtc_invariant; [apply serial_inv_step|done|apply serial_inv_initial]. }
  split.
  - intros s p Hp He. pose proof (si_echo _ Hi _ _ Hp He) as Hs. split; [done|].
    destruct (si_bridge _ Hi) as (_ & _ & Hb & _). rewrite Hs in Hb. apply Hb.
  - intros c s [] Hc; [by eapply stop_completes_received|].
    destruct (si_stop _ Hi _ _ _ Hc) as (_ & p & Hp & [Hd|[He|[e He]]]).
    + by eapply stop_completes_full.
    + pose proof (step_echo_returns w s p Hp He) as Hst.
      pose proof (serial_of_step _ _ Hi Hst (length_insert _ _ _) ltac:(done)) as Hs.
      destruct (stop_completes_ended _ c s _ true (serial_inv_step _ _ Hs Hi) Hc
        (list_lookup_insert_eq _ _ _ (lookup_lt_Some _ _ _ Hp)) eq_refl) as (w' & Hr' & Hrest).
      exists w'. split; [by eapply rtc_l|done].
    + by eapply stop_completes_ended.
Qed.

(** ** Overlapping callers *)

(** A stop call waits on a channel nobody will send to. *)
Definition waits_forever (w : world) (c s : nat) : Prop :=
  w_stops w !! c = Some (s, false) ∧
  ∃ p, w_pumps w !! s = Some p ∧ p_pc p = Exited ∧ p_done p = false.

Lemma waits_forever_step w w' c s : step w w' → waits_forever w c s → waits_forever w' c s.
Proof.
  intros Hstep (Hc & q & Hq & Hpc & Hdn).
  assert (∀ s' p p', w_pumps w !! s' = Some p → p_pc p ≠ Exited →
    ∃ p0, <[s' := p']> (w_pumps w) !! s = Some p0 ∧ p_pc p0 = Exited ∧ p_done p0 = false) as Hother.
  { intros s' p p' Hp Hne. exists q. rewrite list_lookup_insert_ne; [done|]. intros ->. congruence. }
  destruct Hstep as [w|w b Hb|w s' p n Hl Hpc'|w s' p n Hl Hpc'|w s' p Hl Hpc'|w s' p err Hl Hpc'
    |w s' p err Hl Hpc'|w Hn|w c' s' p Hsk Hl Hc0|w c' s' p Hst Hl Hd|w c' s' Hst]; split; cbn; try done.
  all: try (eapply Hother; [done|]; first [congruence|by destruct Hpc' as [|[]]; congruence]).
  all: try by eauto.
  - exists q. by rewrite lookup_app_l by (by apply lookup_lt_Some in Hq).
  - rewrite lookup_insert_ne; [done|]. congruence.
  - destruct (decide (s' = s)) as [->|Hne]; [|exists q; by rewrite list_lookup_insert_ne].
    eexists. rewrite list_lookup_insert_eq by (by apply lookup_lt_Some in Hl). split; [done|].
    cbn. split; congruence.
  - rewrite lookup_insert_ne; [done|]. intros ->. rewrite Hc in Hst. injection Hst as <-. congruence.
  - destruct (decide (s' = s)) as [->|Hne]; [congruence|]. exists q. by rewrite list_lookup_insert_ne.
  - rewrite lookup_delete_ne; [done|]. congruence.
Qed.

Lemma waits_forever_rtc w w' c s : rtc step w w' → waits_forever w c s → waits_forever w' c s.
Proof. intros. eapply (rtc_invariant step (λ w, waits_forever w c s)); eauto using waits_forever_step. Qed.

(** A started bridge, and its state after the pump has ended its loop, sent its
    result, a stop has received it, and the pump has returned. *)
Ltac run_step c := eapply rtc_l; [c; reflexivity|cbn].

(** Two overlapping stop calls can leave one of them waiting for ever: both
    wait on the channel of the same pump, which sends a single value. *)
Theorem overlapping_stops_can_hang :
  ∃ w c, rtc step initial_world w ∧
    ∀ w', rtc step w w' → w_stops w' !! c = Some (0%nat, false).
Proof.
  assert (∃ w, rtc step initial_world w ∧ waits_forever w 1 0) as (w & Hr & Hw).
  { eexists. split.
    - run_step ltac:(eapply step_start). run_step ltac:(eapply (step_stop_begin _ 0)).
      run_step ltac:(eapply (step_stop_begin _ 1)).
      eapply rtc_l; [eapply (step_echo_returns _ 0); [reflexivity|by left]|cbn].
      run_step ltac:(eapply (step_send _ 0)). run_step ltac:(eapply (step_stop_receive _ 0)).
      run_step ltac:(eapply (step_finish _ 0)). apply rtc_refl.
    - split; [reflexivity|]. eexists. split_all; reflexivity. }
  exists w, 1%nat. split; [done|]. intros w' Hw'. by destruct (waits_forever_rtc _ _ _ _ Hw' Hw).
Qed.

(** A stop call that overlaps a new start can orphan it: the stop's last
    section clears the bridge without comparing generations, so the bridge
    reports idle, and a further stop returns at once, while the new pump still
    echoes packets. *)
Theorem stop_can_orphan_new_start :
  ∃ w p, rtc step initial_world w ∧ w_stops w = ∅ ∧
    socket (w_bridge w) = None ∧ b_state (w_bridge w) = stateIdle ∧
    w_pumps w !! 1%nat = Some p ∧ echoing p.
Proof.
  eexists _, _. split.
  - run_step ltac:(eapply step_start). run_step ltac:(eapply (step_stop_begin _ 0)).
    eapply rtc_l; [eapply (step_echo_returns _ 0); [reflexivity|by left]|cbn].
    run_step ltac:(eapply (step_send _ 0)). run_step ltac:(eapply (step_stop_receive _ 0)).
    run_step ltac:(eapply (step_finish _ 0)). run_step ltac:(eapply step_start).
    run_step ltac:(eapply (step_stop_end _ 0)). apply rtc_refl.
  - split_all; try reflexivity. by left.
Qed.

Lemma packet_bridge_invariant_witness : bridge_inv
  {| w_bridge := setPacketBridgeErrorLocked statusInvalidArgument "packet socket rejected" initial_bridge;
     w_pumps := []; w_stops := ∅ |}.
Proof.
  apply packet_bridge_invariant. apply rtc_once. exact (step_start_rejected initial_world).
Defined.

Lemma serial_stop_completes_witness :
  ∃ w, rtc serial_step initial_world w ∧
  ∃ w', rtc serial_step w w' ∧ w_stops w' !! 0%nat = None ∧
        socket (w_bridge w') = None ∧ b_state (w_bridge w') = stateIdle.
Proof.
  assert (∃ w, rtc serial_step initial_world w ∧ w_stops w !! 0%nat = Some (0%nat, false)) as (w & Hr & Hc).
  { eexists. split.
    - eapply rtc_l; [split; [eapply step_start; reflexivity|split; [reflexivity|left; reflexivity]]|cbn].
      eapply rtc_l; [split; [eapply (step_stop_begin _ 0); reflexivity|split; [reflexivity|left; reflexivity]]|cbn].
      apply rtc_refl.
    - reflexivity. }
  exists w. split; [exact Hr|]. destruct (serial_stop_completes w Hr) as [_ H]. exact (H _ _ _ Hc).
Defined.
