(* ===== verification/Netstack.v ===== *)
(** The packet path of the user-space network stack
    (src/apple-wrapper/netstack.go, and the packet calls of
    src/apple-wrapper/folo_apple.go): injection of outgoing IP packets and
    draining of incoming ones through the C ABI. *)
From S2P Require Import Prelude Frame PacketBridge.

Definition netstackMTU : Z := 1500.
Definition netstackPacketQueueDepth : Z := 64.
Definition netstackMaxPacketSize : Z := 64 * 1024.
Definition netstackMaxConcurrentTCP : nat := 48.
Definition netstackMaxConcurrentUDP : nat := 48.
Definition netstackCopyBufferSize : nat := 4096.

(** gVisor's header sizes and ethertypes. *)
Definition IPv4MinimumSize : nat := 20.
Definition IPv6MinimumSize : nat := 40.
Definition ipv4_ProtocolNumber : Z := 0x0800.
Definition ipv6_ProtocolNumber : Z := 0x86dd.

Inductive netstack_error :=
| errNetstackPacketTooLarge | errNetstackMalformed | errNetstackStopped | errNetstackWouldBlock
| errReadBufferEmpty.

#[global] Instance netstack_error_eq_dec : EqDecision netstack_error.
Proof. solve_decision. Defined.

(** The channel endpoint of gVisor: outgoing packets, as lists of slices, are
    read from a queue; incoming ones are injected with their protocol. *)
Class Link (L : Type) := {
  link_Read : L → option (list bytes) * L;
  link_InjectInbound : L → Z → bytes → L
}.

(** What the endpoint promises: reading takes the first packet of a queue. *)
Class LinkLaws (L : Type) `{Link L} (queue : L → list (list bytes)) : Prop :=
  link_Read_queue : ∀ l, (link_Read l).1 = head (queue l) ∧ queue (link_Read l).2 = tail (queue l).

(** ** The runtime's packet state *)

Record netstackRuntime (L : Type) := {
  link : L;
  closed : bool;
  pending : option (list bytes)
}.
Arguments link {L}.
Arguments closed {L}.
Arguments pending {L}.

Section packets.
Context {L : Type} `{Link L}.
Implicit Types n : netstackRuntime L.

Definition with_link n (l : L) : netstackRuntime L :=
  {| link := l; closed := closed n; pending := pending n |}.

Definition with_pending n (p : option (list bytes)) : netstackRuntime L :=
  {| link := link n; closed := closed n; pending := p |}.

Definition injectPacket n (packet : bytes) : netstackRuntime L * result netstack_error unit :=
  match packet with
  | [] => (n, Err errNetstackPacketTooLarge)
  | b0 :: _ =>
    if decide (netstackMaxPacketSize < Z.of_nat (length packet)) then (n, Err errNetstackPacketTooLarge)
    else if closed n then (n, Err errNetstackStopped)
    else if decide (Z.shiftr b0 4 = 4) then
      if decide (length packet < IPv4MinimumSize)%nat then (n, Err errNetstackMalformed)
      else (with_link n (link_InjectInbound (link n) ipv4_ProtocolNumber packet), Ok tt)
    else if decide (Z.shiftr b0 4 = 6) then
      if decide (length packet < IPv6MinimumSize)%nat then (n, Err errNetstackMalformed)
      else (with_link n (link_InjectInbound (link n) ipv6_ProtocolNumber packet), Ok tt)
    else (n, Err errNetstackMalformed)
  end.

(** [copy(dst[offset:], part)] *)
Definition copy_at (dst : bytes) (offset : nat) (part : bytes) : bytes * nat :=
  let k := Nat.min (length dst - offset) (length part) in
  (take offset dst ++ take k part ++ drop (offset + k) dst, k).

Fixpoint copy_parts (dst : bytes) (offset : nat) (slices : list bytes) : bytes * nat :=
  match slices with
  | [] => (dst, offset)
  | part :: slices =>
    let '(dst, k) := copy_at dst offset part in copy_parts dst (offset + k) slices
  end.

(** [readPacket]: the new runtime and the new contents of the caller's buffer,
    the returned length and error. *)
Definition readPacket n (dst : bytes)
    : (netstackRuntime L * bytes) * (nat * option netstack_error) :=
  if decide (length dst = 0%nat) then ((n, dst), (0%nat, Some errReadBufferEmpty))
  else if closed n then ((n, dst), (0%nat, Some errNetstackStopped))
  else
    let '(pkt, n) := match pending n with
                     | Some p => (Some p, n)
                     | None => let '(p, l) := link_Read (link n) in (p, with_link n l)
                     end in
    match pkt with
    | None => ((n, dst), (0%nat, Some errNetstackWouldBlock))
    | Some slices =>
      let length_ := sum_list_with length slices in
      if decide (length dst < length_)%nat
      then ((with_pending n (Some slices), dst), (length_, Some errNetstackPacketTooLarge))
      else
        let '(dst, offset) := copy_parts dst 0 slices in
        ((with_pending n None, dst), (offset, None))
    end.

(** ** The global runtime and the C calls *)

Definition writeNetstackPacket (g : option (netstackRuntime L)) (packet : bytes)
    : option (netstackRuntime L) * Z :=
  match g with
  | None => (g, statusInvalidState)
  | Some n =>
    match injectPacket n packet with
    | (n, Err errNetstackPacketTooLarge) => (Some n, statusResourceLimit)
    | (n, Err errNetstackStopped) => (Some n, statusInvalidState)
    | (n, Err _) => (Some n, statusInvalidArgument)
    | (n, Ok _) => (Some n, statusOK)
    end
  end.

Definition readNetstackPacket (g : option (netstackRuntime L)) (buffer : bytes)
    : (option (netstackRuntime L) * bytes) * (nat * Z) :=
  match g with
  | None => ((g, buffer), (0%nat, statusInvalidState))
  | Some n =>
    let '((n, buffer), (len, err)) := readPacket n buffer in
    ((Some n, buffer),
     match err with
     | None => (len, statusOK)
     | Some errNetstackWouldBlock => (0%nat, statusWouldBlock)
     | Some errNetstackPacketTooLarge => (len, statusResourceLimit)
     | Some errNetstackStopped => (0%nat, statusInvalidState)
     | Some _ => (0%nat, statusInvalidArgument)
     end)
  end.

(** A C pointer to [length] bytes: [None] is the null pointer. *)
Definition FoloXrayNetstackWritePacket (g : option (netstackRuntime L)) (packet : option bytes)
    (length : Z) : option (netstackRuntime L) * Z :=
  match packet with
  | None => (g, statusInvalidArgument)
  | Some mem =>
    if decide (length = 0 ∨ netstackMaxPacketSize < length) then (g, statusInvalidArgument)
    else writeNetstackPacket g (take (Z.to_nat length) mem)
  end.

(** The caller's memory, the value stored through [readLength] (nothing when
    the arguments are refused) and the status. *)
Definition FoloXrayNetstackReadPacket (g : option (netstackRuntime L)) (buffer : option bytes)
    (capacity : Z) (readLength : bool) : (option (netstackRuntime L) * option bytes) * (option nat * Z) :=
  match buffer, readLength with
  | Some mem, true =>
    if decide (capacity = 0 ∨ netstackMaxPacketSize < capacity)
    then ((g, buffer), (None, statusInvalidArgument))
    else
      let '((g, bytes), (len, code)) := readNetstackPacket g (take (Z.to_nat capacity) mem) in
      ((g, Some (bytes ++ drop (Z.to_nat capacity) mem)), (Some len, code))
  | _, _ => ((g, buffer), (None, statusInvalidArgument))
  end.

(** ** Injection *)

(** The protocol a packet is injected with: by its version nibble, and only
    when it can hold the fixed header. *)
Definition packet_protocol (packet : bytes) : option Z :=
  match packet with
  | [] => None
  | b0 :: _ =>
    if decide (b0 / 16 = 4 ∧ (20 ≤ length packet)%nat) then Some ipv4_ProtocolNumber
    else if decide (b0 / 16 = 6 ∧ (40 ≤ length packet)%nat) then Some ipv6_ProtocolNumber
    else None
  end.

(** The write call injects a packet exactly when a runtime is there and
    not stopped, the length is between 1 and 65536 and the packet has the fixed
    header of its version; it then injects exactly the given bytes, once, with
    the protocol of the version.  Otherwise the link is untouched and the
    status tells why. *)
Theorem FoloXrayNetstackWritePacket_spec (g : option (netstackRuntime L)) (packet : option bytes)
    (length : Z) :
  0 ≤ length →
  (∀ mem, packet = Some mem → length ≤ Z.of_nat (base.length mem)) →
  FoloXrayNetstackWritePacket g packet length =
  match packet, g with
  | Some mem, Some n =>
    let data := take (Z.to_nat length) mem in
    if decide (1 ≤ length ≤ netstackMaxPacketSize) then
      if closed n then (g, statusInvalidState)
      else match packet_protocol data with
           | Some proto => (Some (with_link n (link_InjectInbound (link n) proto data)), statusOK)
           | None => (g, statusInvalidArgument)
           end
    else (g, statusInvalidArgument)
  | Some _, None =>
    (g, if decide (1 ≤ length ≤ netstackMaxPacketSize) then statusInvalidState else statusInvalidArgument)
  | None, _ => (g, statusInvalidArgument)
  end.
Proof.
  intros H0 Hmem. destruct packet as [mem|]; [|done]. specialize (Hmem mem eq_refl).
  unfold FoloXrayNetstackWritePacket, writeNetstackPacket. destruct g as [n|].
  2:{ repeat case_decide; try done; lia. }
  cbv zeta. case_decide as Hd; [by rewrite decide_False by lia|]. rewrite decide_True by lia.
  remember (take (Z.to_nat length) mem) as data eqn:Ed.
  assert (Z.of_nat (base.length data) = length) as Hl by (subst data; rewrite length_take; lia).
  unfold injectPacket. destruct data as [|b0 q]; [cbn in Hl; lia|].
  rewrite decide_False by lia. destruct (closed n); [done|]. unfold packet_protocol.
  rewrite !Z.shiftr_div_pow2 by lia. change (2 ^ 4) with 16. unfold IPv4MinimumSize, IPv6MinimumSize.
  repeat case_decide; try done; lia.
Qed.

(** ** Reading *)

Section reading.
Context (queue : L → list (list bytes)) `{!LinkLaws L queue}.

(** The packets the stack still has for the reader, in order. *)
Definition packets n : list bytes :=
  map (mjoin (M := list)) (match pending n with Some p => p :: queue (link n) | None => queue (link n) end).

Lemma copy_parts_spec dst offset slices :
  (offset + length (mjoin slices) ≤ length dst)%nat →
  copy_parts dst offset slices =
  (take offset dst ++ mjoin slices ++ drop (offset + length (mjoin slices)) dst,
   (offset + length (mjoin slices))%nat).
Proof.
  revert dst offset. induction slices as [|part slices IH]; intros dst offset Hl.
  - cbn. rewrite Nat.add_0_r. by rewrite take_drop.
  - change (mjoin (part :: slices)) with (part ++ mjoin slices) in *. rewrite length_app in *.
    cbn [copy_parts]. unfold copy_at. rewrite Nat.min_r by lia.
    rewrite (take_ge part) by lia.
    assert (length (take offset dst) = offset) as Ht by (rewrite length_take; lia).
    rewrite IH by (rewrite !length_app, length_drop; lia).
    assert (length (take offset dst ++ part) = (offset + length part)%nat) as Hp
      by (rewrite length_app; lia).
    rewrite (app_assoc (take offset dst) part), (take_app_length' _ _ _ (eq_sym Hp)).
    rewrite <- (drop_drop _ _ (offset + length part)), (drop_app_length' _ _ _ (eq_sym Hp)), drop_drop.
    rewrite <- !app_assoc, Nat.add_assoc. done.
Qed.

Lemma sum_length_mjoin (slices : list bytes) : sum_list_with length slices = length (mjoin slices).
Proof.
  induction slices as [|s l IH]; [done|]. change (mjoin (s :: l)) with (s ++ mjoin l).
  rewrite length_app, <- IH. done.
Qed.

(** One read, in terms of the packets that are waiting. *)
Lemma readPacket_spec n dst :
  dst ≠ [] → closed n = false →
  ∃ n', closed n' = false ∧
  match packets n with
  | [] => readPacket n dst = ((n', dst), (0%nat, Some errNetstackWouldBlock)) ∧ packets n' = []
  | p :: ps =>
    if decide (length dst < length p)%nat
    then readPacket n dst = ((n', dst), (length p, Some errNetstackPacketTooLarge)) ∧ packets n' = p :: ps
    else readPacket n dst = ((n', p ++ drop (length p) dst), (length p, None)) ∧ packets n' = ps
  end.
Proof.
  intros Hd Hc. unfold readPacket. rewrite decide_False by (by destruct dst). rewrite Hc.
  destruct (link_Read_queue (link n)) as [Hr Hq].
  assert (∀ slices, (length (mjoin slices) ≤ length dst)%nat →
    copy_parts dst 0 slices = (mjoin slices ++ drop (length (mjoin slices)) dst, length (mjoin slices)))
    as Hcopy by (intros; by rewrite copy_parts_spec).
  unfold packets. destruct (pending n) as [slices|] eqn:Ep; cbn [map].
  - cbv beta iota zeta. rewrite sum_length_mjoin. case_decide.
    + eexists. split; [|split; [reflexivity|done]]. done.
    + rewrite Hcopy by lia. eexists. split; [|split; [reflexivity|done]]. done.
  - destruct (link_Read (link n)) as [pkt l]. cbn [fst snd] in Hr, Hq. subst pkt.
    destruct (queue (link n)) as [|slices q]; cbn [head tail map] in *.
    + eexists. split; [|split; [reflexivity|]]; [done|]. cbn. by rewrite Ep, Hq.
    + rewrite sum_length_mjoin. case_decide.
      * eexists. split; [|split; [reflexivity|]]; [done|]. cbn. by rewrite Hq.
      * rewrite Hcopy by lia. eexists. split; [|split; [reflexivity|]]; [done|]. cbn. by rewrite Hq.
Qed.

(** A client that reads with buffers [bufs]: the packets it gets. *)
Fixpoint reads n (bufs : list bytes) : netstackRuntime L * list bytes :=
  match bufs with
  | [] => (n, [])
  | dst :: bufs =>
    let '((n, dst), (len, err)) := readPacket n dst in
    let '(n, got) := reads n bufs in
    (n, match err with None => take len dst :: got | Some _ => got end)
  end.

Lemma reads_prefix n bufs :
  closed n = false → Forall (λ b, b ≠ []) bufs →
  (reads n bufs).2 ++ packets (reads n bufs).1 = packets n ∧ closed (reads n bufs).1 = false.
Proof.
  intros Hc Hb. revert n Hc. induction Hb as [|dst bufs Hd Hb IH]; intros n Hc; [done|].
  cbn [reads]. destruct (readPacket_spec n dst Hd Hc) as (n' & Hc' & H').
  specialize (IH n' Hc'). destruct (packets n) as [|p ps]; [|case_decide];
    destruct H' as [-> Hp]; destruct (reads n' bufs) as [n2 got]; cbn [fst snd] in *.
  - by rewrite Hp in IH.
  - by rewrite Hp in IH.
  - rewrite Hp in IH. rewrite take_app_length. destruct IH as [<- ?]. done.
Qed.

(** Whatever buffers a client reads with, too small ones included, the
    packets it gets followed by the ones still waiting are the packets that
    were waiting: none is lost, repeated or reordered; and a client that offers
    enough large buffers gets them all. *)
Theorem reads_deliver_in_order n (bufs : list bytes) :
  closed n = false → Forall (λ b, b ≠ []) bufs →
  (reads n bufs).2 ++ packets (reads n bufs).1 = packets n ∧
  (Forall (λ p, Forall (λ b : bytes, length p ≤ length b)%nat bufs) (packets n) →
   (length (packets n) ≤ length bufs)%nat → packets (reads n bufs).1 = []).
Proof.
  intros Hc Hb. split; [by apply reads_prefix|]. revert n Hc.
  induction Hb as [|dst bufs Hd Hb IH]; intros n Hc Hf Hl.
  - cbn [reads fst]. destruct (packets n); [done|cbn in Hl; lia].
  - cbn [reads]. destruct (readPacket_spec n dst Hd Hc) as (n' & Hc' & H').
    destruct (packets n) as [|p ps] eqn:Epk.
    + destruct H' as [-> Hp]. specialize (IH n' Hc'). rewrite Hp in IH.
      destruct (reads n' bufs) as [n2 got]. apply IH; [constructor|cbn; lia].
    + apply Forall_cons in Hf as [Hf1 Hf]. apply Forall_cons in Hf1 as [Hf1 _].
      rewrite decide_False in H' by lia. destruct H' as [-> Hp]. specialize (IH n' Hc').
      rewrite Hp in IH. destruct (reads n' bufs) as [n2 got]. apply IH; [|cbn in Hl; lia].
      eapply Forall_impl; [exact Hf|]. intros q Hq. by apply Forall_cons in Hq as [_ Hq].
Qed.
End reading.
End packets.

(** ** A concrete link *)

(** A queue of outgoing packets and a log of injected ones. *)
Record test_link := { out_queue : list (list bytes); injected : list (Z * bytes) }.

#[global] Instance test_Link : Link test_link := {|
  link_Read l := (head (out_queue l), {| out_queue := tail (out_queue l); injected := injected l |});
  link_InjectInbound l proto pkt :=
    {| out_queue := out_queue l; injected := injected l ++ [(proto, pkt)] |}
|}.

#[global] Instance test_LinkLaws : LinkLaws test_link out_queue.
Proof. by intros l. Qed.

Definition test_runtime : netstackRuntime test_link :=
  {| link := {| out_queue := [[[1; 2]; [3]]; [[4]]]; injected := [] |}; closed := false; pending := None |}.

Lemma FoloXrayNetstackWritePacket_spec_witness :
  FoloXrayNetstackWritePacket (Some test_runtime) (Some sample4) 20 =
  (Some (with_link test_runtime (link_InjectInbound (link test_runtime) 0x0800 sample4)), statusOK).
Proof.
  rewrite FoloXrayNetstackWritePacket_spec; [reflexivity|lia|].
  intros mem Hmem. injection Hmem as <-. cbn. lia.
Defined.

Lemma reads_deliver_in_order_witness :
  (reads test_runtime [[0]; [0; 0; 0; 0]; [0; 0; 0]]).2 ++
  packets out_queue (reads test_runtime [[0]; [0; 0; 0; 0]; [0; 0; 0]]).1 = [[1; 2; 3]; [4]].
Proof. apply (reads_deliver_in_order out_queue test_runtime); [reflexivity|by repeat constructor]. Defined.
