(* ===== verification/NetstackProxy.v ===== *)
(** What the user-space stack does with one accepted TCP connection or UDP flow
    (src/apple-wrapper/netstack.go: proxyTCP, handleUDP, proxyUDP and the
    address conversions; src/apple-wrapper/router/direct.go): sniffing, the
    routing decision, dialing and the forwarding of the data. *)
From S2P Require Import Prelude GoText NetIP NetIP6 GoConv Address Transport Router Sniffer Frame.
From S2P Require Import Netstack.

(** ** Addresses *)

Definition netstackAddress (address : bytes) : option bytes :=
  if decide (length address ≠ 4%nat ∧ length address ≠ 16%nat) then None
  else Some (IP_String address).

Definition netstackUDPAddress (address : bytes) (port : Z) : option (IP * Z) :=
  match netstackAddress address with
  | None => None
  | Some value => if decide (port = 0) then None else Some (ParseIP value, port)
  end.

(** ** Copying *)

(** One [Read] into a buffer of [k] bytes.  An empty chunk is a read that
    delivered nothing, such as one whose deadline passed. *)
Definition conn_Read (k : nat) (s : stream) : bytes * stream :=
  match chunks s with
  | [] => ([], s)
  | c :: cs =>
    if decide (length c ≤ k)%nat then (c, {| chunks := cs; final := final s |})
    else (take k c, {| chunks := drop k c :: cs; final := final s |})
  end.

Section copying.
Context {W : Type} `{Writer W}.

(** [io.CopyBuffer]: read and write until the source ends or a write fails or
    is short.  A round consumes a byte or a chunk, which bounds the rounds. *)
Fixpoint copy_loop (fuel : nat) (src : stream) (dst : W) : option W :=
  match fuel with
  | O => None
  | S fuel =>
    match chunks src with
    | [] => Some dst
    | _ =>
      let '(p, src) := conn_Read netstackCopyBufferSize src in
      if decide (p = []) then copy_loop fuel src dst
      else
        let '(dst, (nw, ew)) := w_write dst p in
        if decide (nw < 0 ∨ Z.of_nat (length p) < nw) then Some dst
        else match ew with
             | Some _ => Some dst
             | None => if decide (nw = Z.of_nat (length p)) then copy_loop fuel src dst else Some dst
             end
    end
  end.

Definition CopyBuffer (dst : W) (src : stream) : option W :=
  copy_loop (S (length (contents src) + length (chunks src))) src dst.

Lemma conn_Read_spec k s p s' : (0 < k)%nat → conn_Read k s = (p, s') →
  contents s = p ++ contents s' ∧ final s' = final s ∧
  (chunks s ≠ [] → (length (contents s') + length (chunks s') < length (contents s) + length (chunks s))%nat).
Proof.
  intros Hk. unfold conn_Read, contents. destruct (chunks s) as [|c cs] eqn:E.
  { intros Hx. injection Hx as <- <-. by rewrite E. }
  change (mjoin (c :: cs)) with (c ++ mjoin cs).
  case_decide; intros Hx; injection Hx as <- <-; cbn [chunks final].
  - split_all; [done|done|]. intros _. rewrite length_app. cbn. lia.
  - change (mjoin (drop k c :: cs)) with (drop k c ++ mjoin cs). rewrite app_assoc, take_drop.
    split_all; [done|done|]. intros _. rewrite !length_app, length_drop. cbn. lia.
Qed.

Lemma copy_loop_full (sink : W → bytes) `{!FullWriter sink} fuel src dst :
  (length (contents src) + length (chunks src) < fuel)%nat →
  ∃ w, copy_loop fuel src dst = Some w ∧ sink w = sink dst ++ contents src.
Proof.
  revert src dst. induction fuel as [|fuel IH]; intros src dst Hf; [lia|]. cbn [copy_loop].
  destruct (chunks src) as [|c cs] eqn:E.
  { exists dst. unfold contents. rewrite E. cbn. by rewrite app_nil_r. }
  destruct (conn_Read _ _) as [p src'] eqn:Er.
  apply conn_Read_spec in Er as (Hc & _ & Hm); [|unfold netstackCopyBufferSize; lia].
  rewrite E in Hm. specialize (Hm ltac:(done)). rewrite Hc. cbn [length] in *.
  case_decide as Hp.
  { subst p. apply IH. lia. }
  destruct (full_write dst p) as (w' & Hw & Hs). rewrite Hw. rewrite decide_False by lia.
  rewrite decide_True by done. destruct (IH src' w') as (w & Hl & Hw'); [lia|].
  exists w. split; [done|]. by rewrite Hw', Hs, <- app_assoc.
Qed.

Lemma CopyBuffer_full (sink : W → bytes) `{!FullWriter sink} dst src :
  ∃ w, CopyBuffer dst src = Some w ∧ sink w = sink dst ++ contents src.
Proof. apply (copy_loop_full sink). lia. Qed.
End copying.

(** ** TCP *)

Inductive tcp_end (W V : Type) :=
| TcpBlocked | TcpDialFailed | TcpPeekFailed
| TcpCopied (outbound : W) (inbound : V).
Arguments TcpBlocked {W V}.
Arguments TcpDialFailed {W V}.
Arguments TcpPeekFailed {W V}.
Arguments TcpCopied {W V}.

Section tcp.
Context {U : UnicodeTables} {I W V : Type} `{Writer W} `{Writer V}.
Variable instance : option I.
(** A dialed connection: its writing side and the bytes the peer will send. *)
Variable direct_DialTCP : bytes → Z → option (W * stream).
Variable core_Dial : I → Destination → result endpoint_error (W * stream).

(** The dialing half of [proxyTCP] for a decided action. *)
Definition tcp_outbound (action : RouteAction) (sniffedDomain destination : bytes) (port : Z)
    : option (W * stream) :=
  if decide (action = ActionDirect) then direct_DialTCP destination port
  else
    let target := if decide (sniffedDomain ≠ []) then sniffedDomain else destination in
    match DialTCP core_Dial instance target port with
    | Ok c => Some c
    | Err _ => None
    end.

(** [proxyTCP] on the client's stream [inbound], whose writing side is [reply_to].
    The two copy directions are independent; the call returns when both have
    ended.  [None] would be a panic or a loop out of fuel. *)
Definition proxyTCP (r : Router) (inbound : stream) (reply_to : V) (destination : bytes) (port : Z)
    : option (tcp_end W V) :=
  let '(peek, inbound) := conn_Read 2048 inbound in
  sniffedDomain ← (if decide (0 < length peek)%nat then SniffDomain peek else Some []);
  let parsedIP := ParseIP destination in
  let action := Route r sniffedDomain parsedIP port in
  if decide (action = ActionBlock) then Some TcpBlocked
  else
    match tcp_outbound action sniffedDomain destination port with
    | None => Some TcpDialFailed
    | Some (outbound, reply) =>
      let '(outbound, err) :=
        if decide (0 < length peek)%nat
        then let '(w, (_, e)) := w_write outbound peek in (w, e)
        else (outbound, None) in
      match err with
      | Some _ => Some TcpPeekFailed
      | None =>
        outbound ← CopyBuffer outbound inbound;
        reply_to ← CopyBuffer reply_to reply;
        Some (TcpCopied outbound reply_to)
      end
    end.

(** The name sniffed from the first bytes a client sends. *)
Definition first_domain (inbound : stream) : option bytes :=
  let peek := (conn_Read 2048 inbound).1 in
  if decide (0 < length peek)%nat then SniffDomain peek else Some [].

End tcp.

(** The address literal the stack dials is accepted and denotes the address
    the packet carried. *)
Lemma netstackAddress_endpoint address text :
  wf_bytes address → netstackAddress address = Some text →
  ∃ ip, ParseIP text = Some ip ∧ To16 address = Some ip ∧ ValidateEndpointAddress text = Ok tt.
Proof.
  unfold netstackAddress. case_decide as Hl; [done|]. intros Hw Ht. injection Ht as <-.
  assert (length address = 4%nat ∨ length address = 16%nat) as Hl' by lia.
  pose proof (ParseIP_IP_String address Hw Hl') as Hp.
  assert (is_Some (To16 address)) as [ip Hip] by (unfold To16; repeat case_decide; eauto; lia).
  rewrite Hip in Hp. exists ip. split_all; [done|done|]. apply Validate_complete. split; [|by left; eexists].
  pose proof (IP_String_length address Hw Hl'). unfold MaxEndpointAddressLength. lia.
Qed.

(** Without a sniffed name, a connection to a 4- or 16-byte address is
    dialed through the instance with exactly that address, in its canonical
    family, and the connection's port. *)
Theorem proxied_destination_is_packet_destination (address text : bytes) (port : Z) :
  wf_bytes address → netstackAddress address = Some text → port ≠ 0 →
  destination text port Network_TCP =
  Ok {| dest_Address := IPAddress address; dest_Port := port; dest_Network := Network_TCP |} ∧
  is_Some (IPAddress address).
Proof.
  intros Hw Ht Hport. destruct (netstackAddress_endpoint address text Hw Ht) as (ip & Hp & H16 & Hv).
  unfold destination. rewrite decide_True by done. rewrite Hv. cbn [result_bind].
  destruct (ParseIP_sound _ _ Hp) as (Hne & Hc & Hwip & Hlip).
  assert (Forall endpoint_char text) as Hec by (eapply Forall_impl; [exact Hc|]; apply ip_char_plain).
  destruct (ends_ok _ _ Hne Hec) as (c & c' & Hh & Hl & [? Hn] & [? _]).
  erewrite ParseAddress_plain by (done || set_solver). rewrite Hp.
  assert (IPAddress ip = IPAddress address) as Hip.
  { unfold To16 in H16. case_decide as Hl4; [|case_decide; [by injection H16 as ->|done]].
    apply (inj Some) in H16 as <-. destruct (IPAddress_spec _ Hwip Hlip) as (a & Ha & [[-> _]|[_ H4]]).
    - rewrite Ha. unfold IPAddress. by rewrite decide_True.
    - unfold To4 in H4. rewrite decide_False, decide_True in H4; [done|done|by rewrite Hlip]. }
  rewrite Hip. split; [done|]. rewrite <- Hip.
  destruct (IPAddress_spec ip Hwip Hlip) as (a & -> & _). by eexists.
Qed.

Lemma proxied_destination_is_packet_destination_witness :
  destination (lit "2001:db8::1") 443 Network_TCP =
  Ok {| dest_Address := IPAddress [0x20;1;0xd;0xb8;0;0;0;0;0;0;0;0;0;0;0;1]; dest_Port := 443;
        dest_Network := Network_TCP |}.
Proof.
  apply (proxied_destination_is_packet_destination [0x20;1;0xd;0xb8;0;0;0;0;0;0;0;0;0;0;0;1]);
    [apply (bool_decide_unpack _); vm_compute; exact I|vm_compute; reflexivity|lia].
Defined.

(** ** Concrete runs *)

Definition mode_config (m : RouteMode) : Config :=
  {| Mode := m; CustomDirectDomains := []; CustomProxyDomains := []; CustomBlockDomains := [];
     CustomDirectIPs := []; CustomProxyIPs := []; CustomBlockIPs := [] |}.

(** A dispatcher that accepts everything and answers "ok". *)
Definition answer_ok : stream := {| chunks := [lit "ok"]; final := ErrEOF |}.
Definition open_core (i : unit) (d : Destination) : result endpoint_error (bytes * stream) :=
  Ok ([], answer_ok).
Definition open_direct (host : bytes) (port : Z) : option (bytes * stream) := Some ([], answer_ok).

Definition sample_request (host : bytes) : bytes :=
  lit "GET / HTTP/1.1" ++ crlf ++ lit "Host: " ++ host ++ crlf ++ crlf.

Definition sample_inbound : stream :=
  {| chunks := [sample_request (lit "example.org"); lit "more"]; final := ErrEOF |}.


(** A request whose Host header is an IPv6 literal is not forwarded in
    proxy mode: the sniffed name is cut at the first colon inside the brackets,
    the dialer refuses the rest as an endpoint, and the connection is dropped,
    although its own destination address would be accepted. *)
Theorem ipv6_host_header_drops_connection (instance : option unit)
    (dial : unit → Destination → result endpoint_error (bytes * stream)) :
  SniffDomain (U := ascii_tables) (sample_request (lit "[2001:db8::1]:8080")) = Some (lit "[2001") ∧
  proxyTCP (U := ascii_tables) (H := memory_writer) (H0 := memory_writer)
    instance open_direct dial (NewRouter (U := ascii_tables) (mode_config ModeGlobal))
    {| chunks := [sample_request (lit "[2001:db8::1]:8080")]; final := ErrEOF |} []
    (lit "2001:db8::1") 8080 = Some TcpDialFailed ∧
  is_Ok (destination (lit "2001:db8::1") 8080 Network_TCP) = true.
Proof. split_all; [vm_compute; reflexivity|destruct instance as [[]|]; vm_compute; reflexivity|vm_compute; reflexivity]. Qed.

(** ** UDP *)

(** A [net.PacketConn].  [WriteTo] on a UDP socket that was connected by
    dialing is refused (net.ErrWriteToConnected); on any other it sends. *)
Record packet_conn := { pc_connected : bool; pc_sent : list (bytes * (IP * Z)) }.

Definition WriteTo (c : packet_conn) (b : bytes) (addr : IP * Z) : packet_conn * bool :=
  if pc_connected c then (c, false)
  else ({| pc_connected := false; pc_sent := pc_sent c ++ [(b, addr)] |}, true).

Definition udpBufferSize : nat := 4096.

(** The forwarding direction of [proxyUDP]: each datagram of the client is read
    into the buffer (what does not fit is cut off by the socket) and sent on; a
    failing send ends the loop. *)
Fixpoint proxyUDP_out (outbound : packet_conn) (datagrams : list bytes) (destination : IP * Z)
    : packet_conn :=
  match datagrams with
  | [] => outbound
  | d :: datagrams =>
    let '(outbound, ok) := WriteTo outbound (take udpBufferSize d) destination in
    if ok then proxyUDP_out outbound datagrams destination else outbound
  end.

(** What a dialed UDP connection is: Go's [net.Dialer] gives a connected
    [*net.UDPConn], which is a [net.PacketConn]; the other branch of the type
    assertion is kept. *)
Inductive direct_udp := DirectPacketConn (c : packet_conn) | DirectOther.

Inductive udp_end :=
| UdpNoToken | UdpBadAddress | UdpBlocked | UdpNoEndpoint | UdpDialFailed | UdpStopped
| UdpForwarded (c : packet_conn).

Section udp.
Context {U : UnicodeTables} {I : Type}.
Variable instance : option I.
Variable direct_DialUDP : bytes → Z → option direct_udp.
Variable ListenPacket : option packet_conn.
Variable core_DialUDP : I → result endpoint_error packet_conn.
(** gVisor's text form of an address. *)
Variable address_String : bytes → bytes.

Definition udp_outbound (action : RouteAction) (destination : IP) (port : Z) : option packet_conn :=
  if decide (action = ActionDirect) then
    match direct_DialUDP (IP_String (default [] destination)) port with
    | None => None
    | Some (DirectPacketConn c) => Some c
    | Some DirectOther => ListenPacket
    end
  else match DialUDP core_DialUDP instance with Ok c => Some c | Err _ => None end.

(** [handleUDP] of one request: [token] tells whether a token was free,
    [created] whether the endpoint could be created, [stopped] whether the
    runtime was closed when the work was to start.  The result is the value the
    handler returns and how the flow ended. *)
Definition handleUDP (r : Router) (token created stopped : bool) (address : bytes) (port : Z)
    (datagrams : list bytes) : bool * udp_end :=
  if negb token then (false, UdpNoToken)
  else
    match netstackUDPAddress address port with
    | None => (false, UdpBadAddress)
    | Some (ip, port') =>
      let action := Route r [] (ParseIP (address_String address)) port in
      if decide (action = ActionBlock) then (true, UdpBlocked)
      else if negb created then (false, UdpNoEndpoint)
      else
        match udp_outbound action ip port with
        | None => (true, UdpDialFailed)
        | Some outbound =>
          if stopped then (true, UdpStopped)
          else (true, UdpForwarded (proxyUDP_out outbound datagrams (ip, port')))
        end
    end.

Lemma proxyUDP_out_connected c ds d : pc_connected c = true → proxyUDP_out c ds d = c.
Proof. intros Hc. destruct ds; [done|]. cbn [proxyUDP_out]. unfold WriteTo. by rewrite Hc. Qed.

Lemma proxyUDP_out_all c ds d :
  pc_connected c = false → Forall (λ b, length b ≤ udpBufferSize)%nat ds →
  pc_sent (proxyUDP_out c ds d) = pc_sent c ++ ((λ b, (b, d)) <$> ds).
Proof.
  intros Hc Hds. revert c Hc. induction Hds as [|b ds Hb _ IH]; intros c Hc.
  - by rewrite app_nil_r.
  - cbn [proxyUDP_out]. unfold WriteTo. rewrite Hc, take_ge by done. rewrite IH by done.
    cbn [pc_sent]. by rewrite <- app_assoc.
Qed.

(** A UDP flow the router sends direct forwards nothing: the outbound
    socket is the connected one the direct dialer returns, and the pump sends
    with [WriteTo], which such a socket refuses. *)
Theorem direct_udp_forwards_nothing (r : Router) (created : bool) (address : bytes) (port : Z)
    (datagrams : list bytes) (handled : bool) (c : packet_conn) :
  (∀ host p d, direct_DialUDP host p = Some d →
     d = DirectPacketConn {| pc_connected := true; pc_sent := [] |}) →
  Route r [] (ParseIP (address_String address)) port = ActionDirect →
  handleUDP r true created false address port datagrams = (handled, UdpForwarded c) →
  pc_sent c = [].
Proof.
  intros Hdial Hr. unfold handleUDP. cbn [negb].
  destruct (netstackUDPAddress address port) as [[ip port']|]; [|done]. cbv zeta. rewrite Hr.
  rewrite decide_False by done. destruct created; [|done]. cbn [negb].
  unfold udp_outbound. rewrite decide_True by done.
  destruct (direct_DialUDP _ _) as [d|] eqn:Ed; [|done]. apply Hdial in Ed as ->.
  rewrite proxyUDP_out_connected by done. intros Hx. by injection Hx as <- <-.
Qed.

(** A UDP flow the router sends through the proxy forwards every datagram
    of at most 4096 bytes, in order, to the address and port the client sent it
    to. *)
Theorem proxied_udp_forwards_all (r : Router) (address : bytes) (port : Z) (datagrams : list bytes)
    (c0 : packet_conn) (i : I) :
  instance = Some i → core_DialUDP i = Ok c0 → pc_connected c0 = false → pc_sent c0 = [] →
  wf_bytes address → length address = 4%nat ∨ length address = 16%nat → port ≠ 0 →
  Route r [] (ParseIP (address_String address)) port = ActionProxy →
  Forall (λ b, length b ≤ udpBufferSize)%nat datagrams →
  ∃ c, handleUDP r true true false address port datagrams = (true, UdpForwarded c) ∧
       pc_sent c = (λ b, (b, (To16 address, port))) <$> datagrams.
Proof.
  intros Hi Hc0 Hcon Hsent Hw Hl Hport Hr Hds. unfold handleUDP. cbn [negb].
  assert (netstackUDPAddress address port = Some (To16 address, port)) as ->.
  { unfold netstackUDPAddress, netstackAddress. rewrite decide_False by lia.
    rewrite decide_False by done. by rewrite ParseIP_IP_String. }
  cbv zeta. rewrite Hr. rewrite decide_False by done.
  unfold udp_outbound, DialUDP. rewrite decide_False by done. rewrite Hi, Hc0.
  eexists. split; [reflexivity|]. by rewrite proxyUDP_out_all, Hsent.
Qed.
End udp.

Definition dialed : direct_udp := DirectPacketConn {| pc_connected := true; pc_sent := [] |}.

Lemma direct_udp_forwards_nothing_witness :
  ∃ c, handleUDP (U := ascii_tables) (I := unit) (Some tt) (λ _ _, Some dialed) None
         (λ _, Ok {| pc_connected := false; pc_sent := [] |}) IP_String
         (NewRouter (U := ascii_tables) (mode_config ModeRule)) true true false [10; 0; 0; 53] 53
         [lit "query"] = (true, UdpForwarded c) ∧ pc_sent c = [].
Proof.
  eexists. split; [vm_compute; reflexivity|].
  apply (direct_udp_forwards_nothing (U := ascii_tables) (I := unit) (Some tt) (λ _ _, Some dialed) None
    (λ _, Ok {| pc_connected := false; pc_sent := [] |}) IP_String
    (NewRouter (U := ascii_tables) (mode_config ModeRule)) true [10; 0; 0; 53] 53 [lit "query"] true);
    [by intros ? ? ? [= <-]|vm_compute; reflexivity|vm_compute; reflexivity].
Defined.

Lemma proxied_udp_forwards_all_witness :
  ∃ c, handleUDP (U := ascii_tables) (I := unit) (Some tt) (λ _ _, Some dialed) None
         (λ _, Ok {| pc_connected := false; pc_sent := [] |}) IP_String
         (NewRouter (U := ascii_tables) (mode_config ModeGlobal)) true true false [8; 8; 8; 8] 53
         [lit "query"; lit "again"] = (true, UdpForwarded c) ∧
       pc_sent c = (λ b, (b, (To16 [8; 8; 8; 8], 53))) <$> [lit "query"; lit "again"].
Proof.
  apply (proxied_udp_forwards_all (U := ascii_tables) (I := unit) (Some tt) _ None
    (λ _, Ok {| pc_connected := false; pc_sent := [] |}) IP_String
    (NewRouter (U := ascii_tables) (mode_config ModeGlobal)) [8; 8; 8; 8] 53
    [lit "query"; lit "again"] {| pc_connected := false; pc_sent := [] |} tt);
    [done|done|done|done|apply (bool_decide_unpack _); vm_compute; exact I|by left|lia
    |vm_compute; reflexivity|repeat constructor; apply (bool_decide_unpack _); vm_compute; exact I].
Defined.
