(* ===== verification/Echo.v ===== *)
(** The echo pump of the packet bridge
    (src/upstream/xray-core/main/folotun/socket.go: ReadPacket, WritePacket,
    Echo; the callback in src/apple-wrapper/folo_apple.go:
    FoloXrayPacketBridgeStart): one uncancelled run over a byte stream. *)
From S2P Require Import Prelude Frame PacketBridge.
From S2P Require Import Netstack NetstackProxy.

Section echo.
Context {W : Type} `{Writer W}.

(** The callback: count the packet, write it back, count it again. *)
Definition echo_callback (packet : Packet) (w : W) (b : bridge)
    : option ((W * bridge) * result frame_error unit) :=
  let n := length (Payload packet) in
  let b := count_in n b in
  match WriteFrame w (Payload packet) with
  | None => None
  | Some (w, Err e) => Some ((w, b), Err e)
  | Some (w, Ok _) => Some ((w, count_out n b), Ok tt)
  end.

(** [Echo] while the context is not cancelled: it returns the error that ended
    the loop.  Every round consumes a frame of more than twelve bytes, so the
    number of bytes to come bounds the rounds; [None] is a loop out of fuel. *)
Fixpoint echo_loop (fuel : nat) (s : stream) (w : W) (b : bridge)
    : option ((W * bridge) * frame_error) :=
  match fuel with
  | O => None
  | S fuel =>
    match ReadFrame s with
    | Err e => Some ((w, b), e)
    | Ok (packet, s) =>
      match echo_callback packet w b with
      | None => None
      | Some ((w, b), Err e) => Some ((w, b), e)
      | Some ((w, b), Ok _) => echo_loop fuel s w b
      end
    end
  end.

Definition Echo (s : stream) (w : W) (b : bridge) : option ((W * bridge) * frame_error) :=
  echo_loop (S (length (contents s))) s w b.

(** ** What a run does *)

(** [n] packets with [bytes] payload bytes in total. *)
Definition counted (n bytes : Z) (b : bridge) : bridge :=
  {| socket := socket b; generation := generation b; b_state := b_state b; lastCode := lastCode b;
     lastError := lastError b;
     framesIn := u64 (framesIn b + n); framesOut := u64 (framesOut b + n);
     bytesIn := u64 (bytesIn b + bytes); bytesOut := u64 (bytesOut b + bytes) |}.

Lemma u64_add_add x y z : u64 (u64 (x + y) + z) = u64 (x + (y + z)).
Proof. unfold wrap. rewrite Zplus_mod_idemp_l. f_equal. lia. Qed.

Lemma counted_counted n m n' m' b : counted n m (counted n' m' b) = counted (n' + n) (m' + m) b.
Proof. unfold counted. cbn. by rewrite !u64_add_add. Qed.

Lemma counted_once k b : count_out k (count_in k b) = counted 1 (Z.of_nat k) b.
Proof. done. Qed.

Context (sink : W → bytes) `{!FullWriter sink}.

Lemma writeAll_whole w p : ∃ w', writeAll w p = Some (w', Ok tt) ∧ sink w' = sink w ++ p.
Proof.
  unfold writeAll. destruct p as [|b p]; [exists w; by rewrite app_nil_r|].
  destruct (full_write (sink := sink) w (b :: p)) as (w' & Hw & Hs). exists w'. cbn [length writeAll_loop].
  rewrite Hw. rewrite decide_False by (cbn [length]; lia). rewrite decide_False by (cbn [length]; lia).
  rewrite Nat2Z.id, drop_ge by done. split; [|done]. by destruct (length p).
Qed.

Lemma echo_frame p f s rest w b fuel :
  EncodeFrame p = Ok f → contents s = f ++ rest →
  ∃ s' w', contents s' = rest ∧ final s' = final s ∧ sink w' = sink w ++ f ∧
    echo_loop (S fuel) s w b = echo_loop fuel s' w' (counted 1 (Z.of_nat (length p)) b).
Proof.
  intros Hp Hc. pose proof Hp as Hp'. apply EncodeFrame_Ok in Hp' as (pk & Hi & ->).
  apply InspectPacket_Ok in Hi as Hb. destruct Hb as [Hpk _]. subst p. rewrite <- app_assoc in Hc.
  destruct (ReadFrame_header pk s rest Hi Hc) as (s' & Hr & Hcs & Hf).
  destruct (writeAll_whole w (frame_header pk ++ Payload pk)) as (w' & Hw & Hs).
  exists s', w'. split_all; [done|done|done|]. cbn [echo_loop]. rewrite Hr.
  unfold echo_callback, WriteFrame. rewrite Hp. cbv zeta. by rewrite Hw, counted_once.
Qed.

Lemma read_full_loop_empty cs e n : mjoin cs = [] → n ≠ 0%nat → read_full_loop cs e n [] = Err e.
Proof.
  intros Hc Hn. induction cs as [|c cs IH]; cbn [read_full_loop].
  - rewrite decide_False by done. by rewrite decide_False by (by intros [? _]).
  - change (mjoin (c :: cs)) with (c ++ mjoin cs) in Hc. apply app_nil in Hc as [-> Hc].
    rewrite decide_False by done. rewrite decide_True by (cbn; lia). cbn [length app].
    rewrite Nat.sub_0_r. by apply IH.
Qed.

Lemma ReadFrame_end s : contents s = [] → ReadFrame s = Err (final s).
Proof. intros Hc. unfold ReadFrame, ReadFull. by rewrite read_full_loop_empty. Qed.

Lemma echo_loop_frames (payloads frames : list bytes) s w b fuel :
  Forall2 (λ p f, EncodeFrame p = Ok f) payloads frames → contents s = mjoin frames →
  (length payloads < fuel)%nat →
  ∃ w', echo_loop fuel s w b =
    Some ((w', foldl (λ b p, counted 1 (Z.of_nat (length p)) b) b payloads), final s) ∧
    sink w' = sink w ++ mjoin frames.
Proof.
  intros Hall. revert s w b fuel.
  induction Hall as [|p f ps fs Hp _ IH]; intros s w b fuel Hc Hf; (destruct fuel as [|fuel]; [lia|]).
  - exists w. cbn [echo_loop]. rewrite ReadFrame_end by done. by rewrite app_nil_r.
  - change (mjoin (f :: fs)) with (f ++ mjoin fs) in *. cbn [length] in Hf.
    destruct (echo_frame p f s (mjoin fs) w b fuel Hp Hc) as (s' & w1 & Hc' & Hfin & Hs & ->).
    destruct (IH s' w1 (counted 1 (Z.of_nat (length p)) b) fuel) as (w' & Hl & Hs'); [done|lia|].
    exists w'. rewrite Hl, Hfin. split; [done|]. by rewrite Hs', Hs, app_assoc.
Qed.

Lemma foldl_counted (payloads : list bytes) n m b :
  foldl (λ b p, counted 1 (Z.of_nat (length p)) b) (counted n m b) payloads =
  counted (n + Z.of_nat (length payloads)) (m + Z.of_nat (length (mjoin payloads))) b.
Proof.
  revert n m. induction payloads as [|p ps IH]; intros n m; cbn [foldl length].
  - cbn. by rewrite !Z.add_0_r.
  - rewrite counted_counted, IH. change (mjoin (p :: ps)) with (p ++ mjoin ps). rewrite length_app.
    f_equal; lia.
Qed.

Lemma counted_0 b : is_uint 64 (framesIn b) → is_uint 64 (framesOut b) →
  is_uint 64 (bytesIn b) → is_uint 64 (bytesOut b) → counted 0 0 b = b.
Proof. destruct b. intros. unfold counted. cbn in *. by rewrite !Z.add_0_r, !wrap_small. Qed.

(** Over a connection that takes what is written, the pump echoes the
    frames of any packets, however they are cut into chunks, byte for byte, and
    then ends with the error that ended the stream; the counters grow by the
    number of packets and of payload bytes, modulo 2^64. *)
Theorem Echo_echoes (payloads frames : list bytes) (s : stream) (w : W) (b : bridge) :
  Forall2 (λ p f, EncodeFrame p = Ok f) payloads frames →
  contents s = mjoin frames → is_uint 64 (framesIn b) → is_uint 64 (framesOut b) →
  is_uint 64 (bytesIn b) → is_uint 64 (bytesOut b) →
  ∃ w', Echo s w b =
    Some ((w', counted (Z.of_nat (length payloads)) (Z.of_nat (length (mjoin payloads))) b), final s) ∧
    sink w' = sink w ++ mjoin frames.
Proof.
  intros Hall Hc H1 H2 H3 H4. unfold Echo.
  destruct (echo_loop_frames payloads frames s w b (S (length (contents s))) Hall Hc) as (w' & He & Hs).
  { rewrite Hc. clear Hc. induction Hall as [|p f ps fs Hp _ IH]; [cbn; lia|].
    change (mjoin (f :: fs)) with (f ++ mjoin fs). apply EncodeFrame_Ok in Hp as (pk & _ & ->).
    rewrite !length_app, frame_header_length. unfold HeaderSize. cbn [length]. lia. }
  exists w'. split; [|done]. rewrite He. rewrite <- (counted_0 b) at 1 by done. by rewrite foldl_counted.
Qed.
End echo.

Lemma Echo_echoes_witness :
  ∃ w', Echo (H := memory_writer)
          {| chunks := [take 5 sample_frame; drop 5 sample_frame]; final := ErrEOF |} [] initial_bridge =
        Some ((w', counted (Z.of_nat (length [sample4])) (Z.of_nat (length (mjoin [sample4]))) initial_bridge),
              ErrEOF) ∧ id w' = id [] ++ mjoin [sample_frame].
Proof.
  apply (Echo_echoes (H := memory_writer) id (FullWriter0 := memory_full) [sample4] [sample_frame]
    {| chunks := [take 5 sample_frame; drop 5 sample_frame]; final := ErrEOF |} [] initial_bridge).
  - constructor; [vm_compute; reflexivity|constructor].
  - reflexivity.
  - apply (bool_decide_unpack _). vm_compute. exact I.
  - apply (bool_decide_unpack _). vm_compute. exact I.
  - apply (bool_decide_unpack _). vm_compute. exact I.
  - apply (bool_decide_unpack _). vm_compute. exact I.
Defined.
