(* ===== verification/NetstackFlows.v ===== *)
(** Lifetimes in the user-space stack (src/apple-wrapper/netstack.go:
    handleTCP, handleUDP, startWork, the worker goroutines and close): token
    semaphores, the wait group and the connections of every flow, as an
    interleaving of the handlers' and workers' steps. *)
From S2P Require Import Prelude Netstack.

Inductive kind := TCP | UDP.

#[global] Instance kind_eq_dec : EqDecision kind.
Proof. solve_decision. Defined.

(** Where a flow is. *)
Inductive flow_pc :=
| Acquired                    (** the handler holds a token *)
| Endpoint                    (** the endpoint is created, the client side open *)
| Connected                   (** the outbound side is open as well *)
| Working                     (** TCP: the worker runs, not yet dialed *)
| Copying (up down : bool)    (** both pumps started; which of them have ended *)
| ConnsClosed                 (** the worker's connections are closed *)
| Released                    (** the worker gave its token back *)
| Finished                    (** the worker left the wait group *)
| Dropped.                    (** the handler returned without starting a worker *)

#[global] Instance flow_pc_eq_dec : EqDecision flow_pc.
Proof. solve_decision. Defined.

Record flow := {
  f_kind : kind;
  f_pc : flow_pc;
  f_token : bool;             (** a token of this flow is in the channel *)
  f_inbound : bool;           (** the client side is open *)
  f_outbound : bool;          (** the outbound side is open *)
  f_completed : list bool     (** the calls of [request.Complete] *)
}.

Record shared := {
  s_closed : bool;
  s_tcp : nat;                (** length of the channel [tcpTokens] *)
  s_udp : nat;                (** length of the channel [udpTokens] *)
  s_work : nat                (** counter of the wait group *)
}.

Definition tokens (k : kind) (s : shared) : nat := match k with TCP => s_tcp s | UDP => s_udp s end.

Definition max_tokens (k : kind) : nat :=
  match k with TCP => netstackMaxConcurrentTCP | UDP => netstackMaxConcurrentUDP end.

Definition set_tokens (k : kind) (n : nat) (s : shared) : shared :=
  match k with
  | TCP => {| s_closed := s_closed s; s_tcp := n; s_udp := s_udp s; s_work := s_work s |}
  | UDP => {| s_closed := s_closed s; s_tcp := s_tcp s; s_udp := n; s_work := s_work s |}
  end.

Definition set_work (n : nat) (s : shared) : shared :=
  {| s_closed := s_closed s; s_tcp := s_tcp s; s_udp := s_udp s; s_work := n |}.

(** [<-n.tcpTokens] and [<-n.udpTokens]: [None] when the receive blocks. *)
Definition release (k : kind) (s : shared) : option shared :=
  match tokens k s with O => None | S n => Some (set_tokens k n s) end.

(** [n.work.Done()]: [None] when the counter would become negative. *)
Definition work_done (s : shared) : option shared :=
  match s_work s with O => None | S n => Some (set_work n s) end.

Definition upd (f : flow) (pc : flow_pc) (token inbound outbound : bool) : flow :=
  {| f_kind := f_kind f; f_pc := pc; f_token := token; f_inbound := inbound;
     f_outbound := outbound; f_completed := f_completed f |}.

Definition complete (b : bool) (f : flow) : flow :=
  {| f_kind := f_kind f; f_pc := f_pc f; f_token := f_token f; f_inbound := f_inbound f;
     f_outbound := f_outbound f; f_completed := f_completed f ++ [b] |}.

(** What decides the next step of a flow. *)
Inductive event :=
| EvCreateFail | EvCreateOk | EvBadAddress | EvBlocked | EvDialFail | EvDialOk | EvStartWork
| EvPeekFail | EvPeekOk | EvUpEnds | EvDownEnds | EvCloseConns | EvReturn | EvRelease | EvDone.

(** Give the token back and leave the handler. *)
Definition drop_flow (s : shared) (f : flow) : option (shared * flow) :=
  s ← release (f_kind f) s; Some (s, upd f Dropped false false false).

(** [startWork]: refused once the runtime is closed. *)
Definition startWork (s : shared) (f : flow) (pc : flow_pc) : option (shared * flow) :=
  if s_closed s then drop_flow s f
  else Some (set_work (S (s_work s)) s, upd f pc (f_token f) (f_inbound f) (f_outbound f)).

(** [handleTCP] and its worker [proxyTCP]. *)
Definition act_tcp (e : event) (s : shared) (f : flow) : option (shared * flow) :=
  match f_pc f, e with
  | Acquired, EvCreateFail => drop_flow s (complete true f)
  | Acquired, EvCreateOk => Some (s, upd (complete false f) Endpoint (f_token f) true false)
  | Endpoint, EvBadAddress => drop_flow s f
  | Endpoint, EvStartWork => startWork s f Working
  | Working, (EvBlocked | EvDialFail) => Some (s, upd f ConnsClosed (f_token f) false false)
  | Working, EvDialOk => Some (s, upd f Connected (f_token f) (f_inbound f) true)
  | Connected, EvPeekFail => Some (s, upd f ConnsClosed (f_token f) false false)
  | Connected, EvPeekOk => Some (s, upd f (Copying false false) (f_token f) (f_inbound f) (f_outbound f))
  | Copying true true, EvReturn => Some (s, upd f ConnsClosed (f_token f) false false)
  | _, _ => None
  end.

(** [handleUDP] and its worker [proxyUDP], which closes both sides after the
    first pump has ended. *)
Definition act_udp (e : event) (s : shared) (f : flow) : option (shared * flow) :=
  match f_pc f, e with
  | Acquired, (EvBadAddress | EvBlocked | EvCreateFail) => drop_flow s f
  | Acquired, EvCreateOk => Some (s, upd f Endpoint (f_token f) true false)
  | Endpoint, EvDialFail => drop_flow s f
  | Endpoint, EvDialOk => Some (s, upd f Connected (f_token f) (f_inbound f) true)
  | Connected, EvStartWork => startWork s f (Copying false false)
  | Copying up down, EvCloseConns =>
    if up || down then Some (s, upd f (Copying up down) (f_token f) false false) else None
  | Copying true true, EvReturn => Some (s, upd f ConnsClosed (f_token f) false false)
  | _, _ => None
  end.

(** The ends of the pumps and of the worker are common to both. *)
Definition flow_act (e : event) (s : shared) (f : flow) : option (shared * flow) :=
  match f_pc f, e with
  | Copying false down, EvUpEnds =>
    Some (s, upd f (Copying true down) (f_token f) (f_inbound f) (f_outbound f))
  | Copying up false, EvDownEnds =>
    Some (s, upd f (Copying up true) (f_token f) (f_inbound f) (f_outbound f))
  | ConnsClosed, EvRelease =>
    s ← release (f_kind f) s; Some (s, upd f Released false (f_inbound f) (f_outbound f))
  | Released, EvDone =>
    s ← work_done s; Some (s, upd f Finished (f_token f) (f_inbound f) (f_outbound f))
  | _, _ => match f_kind f with TCP => act_tcp e s f | UDP => act_udp e s f end
  end.

Inductive close_pc := NotClosing | Closing | CloseReturned.

Record state := { st_shared : shared; st_flows : list flow; st_close : close_pc }.

Definition initial_state : state :=
  {| st_shared := {| s_closed := false; s_tcp := 0; s_udp := 0; s_work := 0 |};
     st_flows := []; st_close := NotClosing |}.

(** A request that finds a token, and one that does not (a refused TCP request
    is completed with a reset). *)
Definition accepted (k : kind) : flow :=
  {| f_kind := k; f_pc := Acquired; f_token := true; f_inbound := false; f_outbound := false;
     f_completed := [] |}.

Definition refused (k : kind) : flow :=
  {| f_kind := k; f_pc := Dropped; f_token := false; f_inbound := false; f_outbound := false;
     f_completed := match k with TCP => [true] | UDP => [] end |}.

Definition close_shared (s : shared) : shared :=
  {| s_closed := true; s_tcp := s_tcp s; s_udp := s_udp s; s_work := s_work s |}.

Inductive step : state → state → Prop :=
| step_accept k w :
    (tokens k (st_shared w) < max_tokens k)%nat →
    step w {| st_shared := set_tokens k (S (tokens k (st_shared w))) (st_shared w);
              st_flows := st_flows w ++ [accepted k]; st_close := st_close w |}
| step_refuse k w :
    tokens k (st_shared w) = max_tokens k →
    step w {| st_shared := st_shared w; st_flows := st_flows w ++ [refused k];
              st_close := st_close w |}
| step_flow i e f f' s' w :
    st_flows w !! i = Some f → flow_act e (st_shared w) f = Some (s', f') →
    step w {| st_shared := s'; st_flows := <[i := f']> (st_flows w); st_close := st_close w |}
| step_close_begin w :
    st_close w = NotClosing →
    step w {| st_shared := close_shared (st_shared w); st_flows := st_flows w; st_close := Closing |}
| step_close_end w :
    st_close w = Closing → s_work (st_shared w) = 0%nat →
    step w {| st_shared := st_shared w; st_flows := st_flows w; st_close := CloseReturned |}.

(** ** Invariant *)

Definition holds_token (k : kind) (f : flow) : bool := bool_decide (f_kind f = k) && f_token f.

(** The worker of the flow is in the wait group. *)
Definition at_work (f : flow) : bool :=
  match f_kind f, f_pc f with
  | _, (Working | Copying _ _ | ConnsClosed | Released) => true
  | TCP, Connected => true
  | _, _ => false
  end.

Definition over (f : flow) : Prop := f_pc f = Finished ∨ f_pc f = Dropped.

(** What a flow owns at each point. *)
Definition flow_ok (f : flow) : Prop :=
  (f_token f = true ↔ f_pc f ≠ Released ∧ ¬ over f) ∧
  (f_inbound f = true → f_pc f ≠ Acquired ∧ f_pc f ≠ ConnsClosed ∧ f_pc f ≠ Released ∧ ¬ over f) ∧
  (f_outbound f = true → f_pc f = Connected ∨ ∃ u d, f_pc f = Copying u d) ∧
  (f_kind f = UDP → f_pc f ≠ Working) ∧
  match f_kind f with
  | TCP => if decide (f_pc f = Acquired) then f_completed f = [] else length (f_completed f) = 1%nat
  | UDP => f_completed f = []
  end.

Definition count (p : flow → bool) (l : list flow) : nat :=
  sum_list_with (λ f, if p f then 1%nat else 0%nat) l.

Definition flows_inv (w : state) : Prop :=
  (∀ k, tokens k (st_shared w) = count (holds_token k) (st_flows w) ∧
        (tokens k (st_shared w) ≤ max_tokens k)%nat) ∧
  s_work (st_shared w) = count at_work (st_flows w) ∧
  Forall flow_ok (st_flows w) ∧
  (s_closed (st_shared w) = true ↔ st_close w ≠ NotClosing) ∧
  (st_close w = CloseReturned → s_work (st_shared w) = 0%nat).

Lemma count_app p l k : count p (l ++ k) = (count p l + count p k)%nat.
Proof. apply sum_list_with_app. Qed.

Lemma count_snoc p l f : count p (l ++ [f]) = (count p l + (if p f then 1 else 0))%nat.
Proof. rewrite count_app. unfold count. cbn. lia. Qed.

Lemma count_insert p l i f f' : l !! i = Some f →
  (count p (<[i := f']> l) + (if p f then 1 else 0) = count p l + (if p f' then 1 else 0))%nat.
Proof.
  intros Hi. rewrite <- (take_drop_middle l i f Hi) at 2.
  rewrite insert_take_drop by (by eapply lookup_lt_Some). rewrite !count_app.
  unfold count. cbn [sum_list_with]. lia.
Qed.

Lemma count_pos p l i f : l !! i = Some f → p f = true → (0 < count p l)%nat.
Proof.
  intros Hi Hp. rewrite <- (take_drop_middle l i f Hi), count_app.
  unfold count. cbn [sum_list_with]. rewrite Hp. lia.
Qed.

Lemma count_zero p l i f : count p l = 0%nat → l !! i = Some f → p f = false.
Proof. intros Hc Hi. destruct (p f) eqn:E; [|done]. pose proof (count_pos p l i f Hi E). lia. Qed.

Lemma tokens_set k k' n s : tokens k (set_tokens k' n s) = if decide (k = k') then n else tokens k s.
Proof. by destruct k, k'. Qed.

Lemma tokens_set_work k n s : tokens k (set_work n s) = tokens k s.
Proof. by destruct k. Qed.

Lemma release_spec k s s' : release k s = Some s' →
  tokens k s = S (tokens k s') ∧ (∀ k', k' ≠ k → tokens k' s' = tokens k' s) ∧
  s_work s' = s_work s ∧ s_closed s' = s_closed s.
Proof.
  unfold release. destruct (tokens k s) as [|n] eqn:E; [done|]. intros Hx. injection Hx as <-.
  rewrite tokens_set, decide_True by done. split_all; [done| |by destruct k|by destruct k].
  intros k' Hk. by rewrite tokens_set, decide_False.
Qed.

(** ** One step of a flow *)

(** How a step changes the shared counters, measured by the flow. *)
Record act_ok (s s' : shared) (f f' : flow) : Prop := {
  act_flow : flow_ok f';
  act_closed : s_closed s' = s_closed s;
  act_tokens : ∀ k, (tokens k s' + (if holds_token k f then 1 else 0) =
                     tokens k s + (if holds_token k f' then 1 else 0))%nat;
  act_tokens_le : ∀ k, (tokens k s' ≤ tokens k s)%nat;
  act_work : (s_work s' + (if at_work f then 1 else 0) = s_work s + (if at_work f' then 1 else 0))%nat;
  act_no_new_work : s_closed s = true → at_work f' = true → at_work f = true
}.

Lemma holds_token_same k f f' : f_kind f' = f_kind f → f_token f' = f_token f →
  holds_token k f' = holds_token k f.
Proof. unfold holds_token. by intros -> ->. Qed.

(** Steps that touch no counter. *)
Lemma act_ok_local s f f' :
  f_kind f' = f_kind f → f_token f' = f_token f → at_work f' = at_work f → flow_ok f' →
  act_ok s s f f'.
Proof.
  intros Hk Ht Hw Hf. split; [done|done| |done|by rewrite Hw|by rewrite Hw].
  intros k. by rewrite (holds_token_same k f f').
Qed.

Lemma act_ok_release s s' f f' :
  release (f_kind f) s = Some s' → f_kind f' = f_kind f → f_token f = true → f_token f' = false →
  at_work f' = at_work f → flow_ok f' → act_ok s s' f f'.
Proof.
  intros Hr Hk Ht Ht' Hw Hf. apply release_spec in Hr as (Hr1 & Hr2 & Hr3 & Hr4).
  split; [done|done| | |by rewrite Hw, Hr3|by rewrite Hw].
  2:{ intros k. destruct (decide (k = f_kind f)) as [-> |Hne]; [lia|by rewrite Hr2]. }
  intros k. unfold holds_token. rewrite Hk, Ht, Ht', andb_false_r, andb_true_r.
  case_bool_decide as Hb; [subst k; lia|]. by rewrite Hr2.
Qed.

Ltac flow_cases :=
  repeat (match goal with
          | H : Some _ = Some _ |- _ => injection H as <- <-
          | H : (_ ≫= _) = Some _ |- _ =>
            let E := fresh "E" in apply bind_Some in H as (? & E & H)
          | H : None = Some _ |- _ => done
          end).

(** [flow_ok] of an updated flow whose position is known. *)
Ltac flow_ok_tac :=
  unfold flow_ok, over; cbn;
  repeat match goal with H : f_kind _ = _ |- _ => rewrite H end;
  repeat match goal with H : f_completed _ = _ |- _ => rewrite H end;
  rewrite ?decide_False by done;
  split_all; first [done|eauto; fail|intuition (congruence || (eauto; fail))|naive_solver].

Lemma drop_flow_ok s s' f f' :
  flow_ok f → f_token f = true → at_work f = false → f_pc f ≠ Acquired ∨ f_kind f = UDP →
  drop_flow s f = Some (s', f') → act_ok s s' f f'.
Proof.
  intros Hf Ht Hw Hc H. unfold drop_flow in H. flow_cases.
  eapply act_ok_release; [done|done|done|done| |].
  - rewrite Hw. unfold at_work. cbn. by destruct (f_kind f).
  - destruct Hf as (_ & _ & _ & _ & Hcomp). unfold flow_ok, over. cbn.
    split_all; try (intuition congruence). destruct (f_kind f); [|done].
    rewrite decide_False by done. rewrite decide_False in Hcomp; [done|intuition congruence].
Qed.

Lemma startWork_ok s s' f f' pc :
  flow_ok f → f_token f = true → at_work f = false → f_pc f ≠ Acquired →
  at_work (upd f pc (f_token f) (f_inbound f) (f_outbound f)) = true →
  flow_ok (upd f pc (f_token f) (f_inbound f) (f_outbound f)) →
  startWork s f pc = Some (s', f') → act_ok s s' f f'.
Proof.
  intros Hf Ht Hw Hc Hw' Hf'. unfold startWork. destruct (s_closed s) eqn:Ec.
  - apply drop_flow_ok; auto.
  - intros Hx. injection Hx as <- <-. split; [done|done| | | |congruence].
    + intros k. rewrite tokens_set_work. f_equal.
    + intros k. by rewrite tokens_set_work.
    + rewrite Hw, Hw'. cbn. lia.
Qed.

Lemma flow_ok_token f : flow_ok f → f_pc f ≠ Released → ¬ over f → f_token f = true.
Proof. intros [Ht _] ? ?. by apply Ht. Qed.

Lemma act_tcp_ok e s s' f f' :
  f_kind f = TCP → flow_ok f → act_tcp e s f = Some (s', f') → act_ok s s' f f'.
Proof.
  intros Hk Hf. pose proof (flow_ok_token f Hf) as Ht. pose proof Hf as (_ & Hin & Hout & _ & Hc).
  rewrite Hk in Hc. unfold act_tcp.
  destruct (f_pc f) as [| | | |up down| | | |] eqn:Epc; try done;
    (rewrite decide_True in Hc by done) || (rewrite decide_False in Hc by done);
    specialize (Ht ltac:(done) ltac:(unfold over; rewrite Epc; intuition congruence));
    assert (∀ pc, at_work (upd f pc true (f_inbound f) (f_outbound f)) =
                  match pc with Working | Connected | Copying _ _ | ConnsClosed | Released => true
                           | _ => false end) as Hwork by (intros; unfold at_work; cbn; by rewrite Hk).
  - destruct e; try done.
    + intros H. unfold drop_flow in H. flow_cases.
      eapply act_ok_release; [exact E|done|done|done|unfold at_work; cbn; by rewrite Hk, Epc|flow_ok_tac].
    + intros H. flow_cases. apply act_ok_local; [done|done|unfold at_work; cbn; by rewrite Hk, Epc|flow_ok_tac].
  - destruct e; try done.
    + apply drop_flow_ok; [done|done|unfold at_work; by rewrite Hk, Epc|left; congruence].
    + apply startWork_ok; [done|done|unfold at_work; by rewrite Hk, Epc|congruence|rewrite Ht; apply Hwork|].
      flow_ok_tac.
  - destruct e; try done; intros H; flow_cases;
      (apply act_ok_local; [done|done|unfold at_work; cbn; by rewrite Hk, Epc|flow_ok_tac]).
  - destruct e; try done; intros H; flow_cases;
      (apply act_ok_local; [done|done|unfold at_work; cbn; by rewrite Hk, Epc|flow_ok_tac]).
  - destruct up, down, e; try done; intros H; flow_cases;
      (apply act_ok_local; [done|done|unfold at_work; cbn; by rewrite Hk, Epc|flow_ok_tac]).
Qed.

Lemma act_udp_ok e s s' f f' :
  f_kind f = UDP → flow_ok f → act_udp e s f = Some (s', f') → act_ok s s' f f'.
Proof.
  intros Hk Hf. pose proof (flow_ok_token f Hf) as Ht. pose proof Hf as (_ & Hin & Hout & _ & Hc).
  rewrite Hk in Hc. unfold act_udp.
  destruct (f_pc f) as [| | | |up down| | | |] eqn:Epc; try done;
    specialize (Ht ltac:(done) ltac:(unfold over; rewrite Epc; intuition congruence)).
  - destruct e; try done;
      try (apply drop_flow_ok; [done|done|unfold at_work; by rewrite Hk, Epc|by right]).
    intros H. flow_cases. apply act_ok_local; [done|done|unfold at_work; cbn; by rewrite Hk, Epc|flow_ok_tac].
  - destruct e; try done;
      try (apply drop_flow_ok; [done|done|unfold at_work; by rewrite Hk, Epc|by right]).
    intros H. flow_cases. apply act_ok_local; [done|done|unfold at_work; cbn; by rewrite Hk, Epc|flow_ok_tac].
  - destruct e; try done.
    apply startWork_ok; [done|done|unfold at_work; by rewrite Hk, Epc|congruence|unfold at_work; cbn; by rewrite Hk|].
    flow_ok_tac.
  - destruct up, down, e; try done; intros H; cbn [orb] in H; flow_cases;
      (apply act_ok_local; [done|done|unfold at_work; cbn; by rewrite Hk, Epc|flow_ok_tac]).
Qed.

Lemma flow_act_ok e s s' f f' :
  flow_ok f → flow_act e s f = Some (s', f') → act_ok s s' f f'.
Proof.
  intros Hf H.
  assert (match f_kind f with TCP => act_tcp e s f | UDP => act_udp e s f end = Some (s', f') →
          act_ok s s' f f') as Hkind.
  { destruct (f_kind f) eqn:Hk; [by apply act_tcp_ok|by apply act_udp_ok]. }
  pose proof (flow_ok_token f Hf) as Ht. pose proof Hf as (_ & Hin & Hout & Hu & Hc).
  unfold flow_act in H. destruct (f_pc f) as [| | | |up down| | | |] eqn:Epc; try (by apply Hkind).
  - assert (∀ u d, act_ok s s f (upd f (Copying u d) (f_token f) (f_inbound f) (f_outbound f))) as Hcopy.
    { intros u d. rewrite decide_False in Hc by done.
      specialize (Ht ltac:(done) ltac:(unfold over; rewrite Epc; intuition congruence)).
      apply act_ok_local; [done|done|unfold at_work; cbn; by rewrite Epc; destruct (f_kind f)|].
      unfold flow_ok, over; cbn. rewrite ?decide_False by done. split_all; try naive_solver. }
    destruct up, down, e; try (by apply Hkind); flow_cases; apply Hcopy.
  - destruct e; try (by apply Hkind). flow_cases. rewrite decide_False in Hc by done.
    specialize (Ht ltac:(done) ltac:(unfold over; rewrite Epc; intuition congruence)).
    eapply act_ok_release; [exact E|done|done|done|unfold at_work; cbn; by rewrite Epc; destruct (f_kind f)|].
    unfold flow_ok, over; cbn. rewrite ?decide_False by done. split_all; try naive_solver.
  - destruct e; try (by apply Hkind). rewrite decide_False in Hc by done. unfold work_done in H.
    destruct (s_work s) as [|n] eqn:Ew; [done|]. cbn [mbind option_bind] in H. flow_cases.
    split; [|done| | | |intros _; unfold at_work; cbn; rewrite Epc; by destruct (f_kind f)].
    + pose proof Hf as (Ht' & _). unfold flow_ok, over in *; cbn. rewrite Epc in Ht'.
      rewrite ?decide_False by done. split_all; try naive_solver.
    + intros k. rewrite tokens_set_work. done.
    + intros k. by rewrite tokens_set_work.
    + unfold at_work. cbn. rewrite Epc, Ew. destruct (f_kind f); lia.
Qed.

Lemma Forall_insert_flow l i f' : Forall flow_ok l → flow_ok f' → Forall flow_ok (<[i := f']> l).
Proof. intros. by apply Forall_insert. Qed.

Lemma flow_ok_accepted k : flow_ok (accepted k).
Proof. unfold flow_ok, over. cbn. destruct k; split_all; try naive_solver. Qed.

Lemma flow_ok_refused k : flow_ok (refused k).
Proof. unfold flow_ok, over. cbn. destruct k; split_all; try naive_solver. Qed.

Lemma flows_inv_step w w' : step w w' → flows_inv w → flows_inv w'.
Proof.
  intros Hstep (Ht & Hw & Hf & Hc & Hr).
  destruct Hstep as [k w Hlt|k w Hfull|i e f f' s' w Hi Ha|w Hn|w Hcl H0]; unfold flows_inv;
    cbn [st_shared st_flows st_close].
  - split_all; [| | |by destruct k|by destruct k].
    + intros k'. rewrite tokens_set, count_snoc. destruct (Ht k') as [Ht1 Ht2].
      unfold holds_token at 2. cbn [f_kind f_token accepted].
      case_decide as Hk; [subst k'; rewrite bool_decide_eq_true_2 by done|
        rewrite bool_decide_eq_false_2 by congruence]; cbn [andb]; lia.
    + rewrite count_snoc. replace (s_work _) with (s_work (st_shared w)) by by destruct k.
      replace (at_work (accepted k)) with false by by destruct k. lia.
    + apply Forall_app. split; [done|]. constructor; [apply flow_ok_accepted|constructor].
  - split_all; [| | |done|done].
    + intros k'. rewrite count_snoc. destruct (Ht k') as [Ht1 Ht2].
      unfold holds_token at 2. cbn [f_kind f_token refused]. rewrite andb_false_r. lia.
    + rewrite count_snoc. replace (at_work (refused k)) with false by by destruct k. lia.
    + apply Forall_app. split; [done|]. constructor; [apply flow_ok_refused|constructor].
  - assert (flow_ok f) as Hfi by (rewrite Forall_lookup in Hf; by eapply Hf).
    destruct (flow_act_ok e _ _ f f' Hfi Ha) as [Ha1 Ha2 Ha3 Hle Ha4 Ha5].
    pose proof (count_insert at_work _ i f f' Hi) as Hcw. split_all.
    + intros k. pose proof (count_insert (holds_token k) _ i f f' Hi) as Hck.
      specialize (Ha3 k). destruct (Ht k) as [Ht1 Ht2]. specialize (Hle k). lia.
    + lia.
    + by apply Forall_insert_flow.
    + by rewrite Ha2.
    + intros Hret. specialize (Hr Hret). assert (s_closed (st_shared w) = true) as Hcl
        by (apply Hc; by rewrite Hret).
      specialize (Ha5 Hcl). destruct (at_work f), (at_work f'); try lia.
  - split_all; [apply Ht|done|done|done|done].
  - split_all; [apply Ht|done|done| |done]. rewrite Hc, Hcl. done.
Qed.

Lemma flows_inv_initial : flows_inv initial_state.
Proof.
  unfold flows_inv. split_all; try done.
  intros []; cbn; unfold netstackMaxConcurrentTCP, netstackMaxConcurrentUDP; lia.
Qed.

Lemma flows_inv_reachable w : rtc step initial_state w → flows_inv w.
Proof. intros Hr. eapply rtc_invariant; [apply flows_inv_step|done|apply flows_inv_initial]. Qed.

(** C16. In every interleaving of requests, workers and close: at most 48 TCP
    and 48 UDP flows hold a token, the channels hold exactly the tokens of
    these flows, the wait group counts the running workers, every TCP request
    is completed exactly once, and a flow that is over holds no token and has
    both of its connections closed. *)
Theorem netstack_flow_invariant (w : state) :
  rtc step initial_state w →
  (∀ k, tokens k (st_shared w) = count (holds_token k) (st_flows w) ∧
        (tokens k (st_shared w) ≤ max_tokens k)%nat) ∧
  s_work (st_shared w) = count at_work (st_flows w) ∧
  (∀ i f, st_flows w !! i = Some f → f_kind f = TCP → f_pc f ≠ Acquired → length (f_completed f) = 1%nat) ∧
  (∀ i f, st_flows w !! i = Some f → over f →
     f_token f = false ∧ f_inbound f = false ∧ f_outbound f = false).
Proof.
  intros Hr. destruct (flows_inv_reachable w Hr) as (Ht & Hw & Hf & _ & _). rewrite Forall_lookup in Hf.
  split_all; [done|done| |].
  - intros i f Hi Hk Hpc. destruct (Hf i f Hi) as (_ & _ & _ & _ & Hc). rewrite Hk in Hc.
    by rewrite decide_False in Hc.
  - intros i f Hi Ho. destruct (Hf i f Hi) as (H1 & H2 & H3 & _ & _). split_all.
    + destruct (f_token f); [|done]. by destruct H1 as [H1 _]; destruct (H1 eq_refl).
    + destruct (f_inbound f); [|done]. by destruct (H2 eq_refl) as (_ & _ & _ & ?).
    + destruct (f_outbound f); [|done]. destruct Ho as [Ho|Ho]; rewrite Ho in H3;
        destruct (H3 eq_refl) as [|(? & ? & ?)]; done.
Qed.

Lemma release_enabled w i f : flows_inv w → st_flows w !! i = Some f → f_token f = true →
  is_Some (release (f_kind f) (st_shared w)).
Proof.
  intros (Ht & _) Hi Htok. destruct (Ht (f_kind f)) as [Heq _].
  pose proof (count_pos (holds_token (f_kind f)) _ i f Hi) as Hp. unfold release.
  destruct (tokens (f_kind f) (st_shared w)); [|by eexists].
  assert (0 < count (holds_token (f_kind f)) (st_flows w))%nat; [|lia]. apply Hp.
  unfold holds_token. by rewrite bool_decide_eq_true_2, Htok.
Qed.

Lemma drop_flow_enabled w i f b : flows_inv w → st_flows w !! i = Some f → f_token f = true →
  is_Some (drop_flow (st_shared w) f) ∧ is_Some (drop_flow (st_shared w) (complete b f)).
Proof.
  intros Hinv Hi Ht. destruct (release_enabled w i f Hinv Hi Ht) as [s' Hs].
  unfold drop_flow. cbn [f_kind complete]. rewrite Hs. split; by eexists.
Qed.


Lemma close_returned_step w w' : step w w' → st_close w = CloseReturned → st_close w' = CloseReturned.
Proof. intros Hs Hc. destruct Hs; cbn in *; congruence. Qed.

(** Once close has returned, no worker runs, now or later: requests that
    still arrive are dropped. *)
Theorem close_is_final (w w' : state) (i : nat) (f : flow) :
  rtc step initial_state w → st_close w = CloseReturned → rtc step w w' →
  st_flows w' !! i = Some f → at_work f = false.
Proof.
  intros Hr Hc Hr' Hi.
  assert (st_close w' = CloseReturned) as Hc'
    by (apply (rtc_invariant step (λ w, st_close w = CloseReturned) w w');
        [apply close_returned_step|done|done]).
  destruct (flows_inv_reachable w') as (_ & Hw & _ & _ & Hz); [by etrans|].
  eapply count_zero; [|exact Hi]. rewrite <- Hw. by apply Hz.
Qed.

(** ** Concrete runs *)

Lemma step_by_flow i e w s' f' :
  (f ← st_flows w !! i; flow_act e (st_shared w) f) = Some (s', f') →
  step w {| st_shared := s'; st_flows := <[i := f']> (st_flows w); st_close := st_close w |}.
Proof. intros H. apply bind_Some in H as (f & Hf & Ha). by eapply step_flow. Qed.

(** A TCP request whose worker dials, copies and ends, then close. *)
Definition sample_run : list event :=
  [EvCreateOk; EvStartWork; EvDialOk; EvPeekOk; EvUpEnds; EvDownEnds; EvReturn; EvRelease; EvDone].

Fixpoint run_flow (es : list event) (w : state) : option state :=
  match es with
  | [] => Some w
  | e :: es =>
    f ← st_flows w !! 0%nat;
    '(s', f') ← flow_act e (st_shared w) f;
    run_flow es {| st_shared := s'; st_flows := <[0%nat := f']> (st_flows w); st_close := st_close w |}
  end.

Lemma run_flow_reachable es w w' : run_flow es w = Some w' → rtc step w w'.
Proof.
  revert w. induction es as [|e es IH]; intros w H; cbn [run_flow] in H; [by injection H as ->|].
  apply bind_Some in H as (f & Hf & H). apply bind_Some in H as ([s' f'] & Ha & H).
  eapply rtc_l; [|by apply IH]. by eapply step_flow.
Qed.

Definition one_request : state :=
  {| st_shared := {| s_closed := false; s_tcp := 1; s_udp := 0; s_work := 0 |};
     st_flows := [accepted TCP]; st_close := NotClosing |}.

Lemma one_request_reachable : rtc step initial_state one_request.
Proof.
  apply rtc_once. apply (step_accept TCP). cbn. unfold netstackMaxConcurrentTCP. lia.
Qed.

Definition after_run : state :=
  {| st_shared := {| s_closed := false; s_tcp := 0; s_udp := 0; s_work := 0 |};
     st_flows := [{| f_kind := TCP; f_pc := Finished; f_token := false; f_inbound := false;
                     f_outbound := false; f_completed := [false] |}]; st_close := NotClosing |}.

Lemma after_run_reachable : rtc step initial_state after_run.
Proof.
  etrans; [apply one_request_reachable|]. apply (run_flow_reachable sample_run). reflexivity.
Qed.

Definition after_close : state :=
  {| st_shared := close_shared (st_shared after_run); st_flows := st_flows after_run;
     st_close := CloseReturned |}.

Lemma after_close_reachable : rtc step initial_state after_close.
Proof.
  etrans; [apply after_run_reachable|].
  eapply rtc_l; [by apply step_close_begin|]. apply rtc_once. by apply step_close_end.
Qed.

Lemma netstack_flow_invariant_witness :
  tokens TCP (st_shared after_run) = count (holds_token TCP) (st_flows after_run).
Proof.
  destruct (netstack_flow_invariant after_run after_run_reachable) as [Ht _]. apply (Ht TCP).
Defined.


Lemma close_is_final_witness :
  at_work {| f_kind := TCP; f_pc := Finished; f_token := false; f_inbound := false;
             f_outbound := false; f_completed := [false] |} = false.
Proof.
  apply (close_is_final after_close after_close 0);
    [apply after_close_reachable|reflexivity|apply rtc_refl|reflexivity].
Defined.
