(* ===== verification/Engine.v ===== *)
(** The engine lifecycle of the Apple ABI (src/apple-wrapper/folo_apple.go): the
    global [engine] object, configuration checking, starting and stopping the
    managed Xray instance, and the netstack runtime attached to it
    (src/apple-wrapper/netstack.go: startNetstack, stopNetstack).  Every call
    holds the engine mutex, so a call is one transition. *)
From S2P Require Import Prelude GoText Router PacketBridge.

Definition maxConfigBytes : Z := 4 * 1024 * 1024.

(** Instances are numbered in the order [core.New] made them. *)
Record engine := {
  e_instance : option nat;
  e_routerConfig : Config;
  e_state : Z;
  e_lastCode : Z;
  e_lastError : string;
  e_startedAt : option Z      (** [None] is the zero time *)
}.

Definition default_routing : Config :=
  {| Mode := ModeRule; CustomDirectDomains := []; CustomProxyDomains := []; CustomBlockDomains := [];
     CustomDirectIPs := []; CustomProxyIPs := []; CustomBlockIPs := [] |}.

Definition initial_engine : engine :=
  {| e_instance := None; e_routerConfig := default_routing; e_state := stateIdle;
     e_lastCode := statusOK; e_lastError := "ok"; e_startedAt := None |}.

(** The process: the engine, the instances created so far and not yet closed,
    and the netstack runtime with the instance and the router it was given. *)
Record process := {
  p_engine : engine;
  p_created : nat;
  p_open : gset nat;
  p_netstack : option (nat * Router)
}.

Definition initial_process : process :=
  {| p_engine := initial_engine; p_created := 0; p_open := ∅; p_netstack := None |}.

Definition with_engine (e : engine) (p : process) : process :=
  {| p_engine := e; p_created := p_created p; p_open := p_open p; p_netstack := p_netstack p |}.

Definition setError (code : Z) (message : string) (e : engine) : engine :=
  {| e_instance := e_instance e; e_routerConfig := e_routerConfig e; e_state := e_state e;
     e_lastCode := code; e_lastError := message; e_startedAt := e_startedAt e |}.

(** The call also returns the code it stores. *)
Definition setErrorLocked (code : Z) (message : string) (p : process) : process * Z :=
  (with_engine (setError code message (p_engine p)) p, code).

Definition clearErrorLocked (p : process) : process :=
  with_engine (setError statusOK "ok" (p_engine p)) p.

(** [copyConfig]: [None] is the null pointer; the copy or the status. *)
Definition copyConfig (configBytes : option bytes) (configLength : Z) : result Z bytes :=
  match configBytes with
  | None => Err statusInvalidArgument
  | Some mem =>
    if decide (configLength = 0 ∨ maxConfigBytes < configLength) then Err statusInvalidArgument
    else Ok (take (Z.to_nat configLength) mem)
  end.

(** What the core answers during a call. *)
Record core_answers := {
  load_ok : bytes → bool;             (** [core.LoadConfig] *)
  new_ok : bool;                      (** [core.New] *)
  start_ok : bool;                    (** [instance.Start] *)
  routing_of : bytes → option Config; (** the [routing] member of the configuration *)
  now : Z
}.

Section engine.
Context {U : UnicodeTables}.

Definition FoloXrayValidateConfigJSON (env : core_answers) (configBytes : option bytes) (configLength : Z)
    (p : process) : process * Z :=
  match copyConfig configBytes configLength with
  | Err code => setErrorLocked code "configuration bytes are empty or too large" p
  | Ok config =>
    if load_ok env config then (clearErrorLocked p, statusOK)
    else setErrorLocked statusInvalidConfiguration "configuration rejected" p
  end.

Definition create_instance (p : process) : process * nat :=
  ({| p_engine := p_engine p; p_created := S (p_created p);
      p_open := {[p_created p]} ∪ p_open p; p_netstack := p_netstack p |}, p_created p).

Definition close_instance (i : nat) (p : process) : process :=
  {| p_engine := p_engine p; p_created := p_created p; p_open := p_open p ∖ {[i]};
     p_netstack := p_netstack p |}.

Definition FoloXrayStartJSON (env : core_answers) (configBytes : option bytes) (configLength : Z)
    (p : process) : process * Z :=
  if decide (e_instance (p_engine p) ≠ None ∨ e_state (p_engine p) = stateRunning)
  then setErrorLocked statusInvalidState "engine is already running" p
  else
    match copyConfig configBytes configLength with
    | Err code => setErrorLocked code "configuration bytes are empty or too large" p
    | Ok config =>
      if negb (load_ok env config)
      then setErrorLocked statusInvalidConfiguration "configuration rejected" p
      else if negb (new_ok env)
      then setErrorLocked statusStartFailed "engine creation failed" p
      else
        let '(p, i) := create_instance p in
        if negb (start_ok env)
        then setErrorLocked statusStartFailed "engine start failed" (close_instance i p)
        else
          let routing := match routing_of env config with
                         | Some r => r
                         | None => default_routing
                         end in
          (clearErrorLocked
             (with_engine {| e_instance := Some i; e_routerConfig := routing; e_state := stateRunning;
                             e_lastCode := e_lastCode (p_engine p); e_lastError := e_lastError (p_engine p);
                             e_startedAt := Some (now env) |} p), statusOK)
    end.

(** [stopNetstack]: the runtime leaves the global variable and is closed. *)
Definition stopNetstack (p : process) : process :=
  {| p_engine := p_engine p; p_created := p_created p; p_open := p_open p; p_netstack := None |}.

(** [startNetstack]; [runtime_ok] is the success of [newNetstackRuntime]. *)
Definition startNetstack (runtime_ok : bool) (i : nat) (r : Router) (p : process) : option process :=
  match p_netstack p with
  | Some _ => None
  | None =>
    if runtime_ok
    then Some {| p_engine := p_engine p; p_created := p_created p; p_open := p_open p;
                 p_netstack := Some (i, r) |}
    else None
  end.

Definition idle_engine (started : option Z) (e : engine) : engine :=
  {| e_instance := None; e_routerConfig := e_routerConfig e; e_state := stateIdle;
     e_lastCode := e_lastCode e; e_lastError := e_lastError e; e_startedAt := started |}.

(** [close_ok] is the success of the instance's [Close]. *)
Definition FoloXrayStop (close_ok : bool) (p : process) : process * Z :=
  match e_instance (p_engine p) with
  | None =>
    let e := p_engine p in
    (clearErrorLocked
       (with_engine {| e_instance := None; e_routerConfig := e_routerConfig e; e_state := stateIdle;
                       e_lastCode := e_lastCode e; e_lastError := e_lastError e;
                       e_startedAt := e_startedAt e |} p), statusOK)
  | Some i =>
    let p := close_instance i (stopNetstack p) in
    if negb close_ok then
      setErrorLocked statusStopFailed "engine stop failed"
        (with_engine (idle_engine (e_startedAt (p_engine p)) (p_engine p)) p)
    else (clearErrorLocked (with_engine (idle_engine None (p_engine p)) p), statusOK)
  end.

Definition FoloXrayNetstackStart (runtime_ok : bool) (p : process) : process * Z :=
  match e_instance (p_engine p) with
  | None => setErrorLocked statusInvalidState "engine is not running" p
  | Some i =>
    if decide (e_state (p_engine p) ≠ stateRunning)
    then setErrorLocked statusInvalidState "engine is not running" p
    else
      let r := NewRouter (e_routerConfig (p_engine p)) in
      match startNetstack runtime_ok i r p with
      | None => setErrorLocked statusStartFailed "netstack start failed" p
      | Some p => (clearErrorLocked p, statusOK)
      end
  end.

Definition FoloXrayNetstackStop (p : process) : process * Z :=
  (clearErrorLocked (stopNetstack p), statusOK).

Definition FoloXrayState (p : process) : Z := e_state (p_engine p).
Definition FoloXrayLastErrorCode (p : process) : Z := e_lastCode (p_engine p).
Definition FoloXrayCopyLastError (p : process) : string := e_lastError (p_engine p).

(** The statistics: [counters] are the values of the two traffic counters the
    core knows, [time] the current time in seconds. *)
Record statsSnapshot := { ss_State : Z; ss_UptimeSeconds : Z; ss_Counters : gmap bytes Z }.

Definition counter_names : list bytes :=
  lit <$> ["inbound>>>folo-tun>>>traffic>>>uplink"; "inbound>>>folo-tun>>>traffic>>>downlink"]%string.

Definition FoloXrayCopyStatsJSON (time : Z) (manager : option (bytes → option Z)) (p : process) : statsSnapshot :=
  let e := p_engine p in
  {| ss_State := e_state e;
     ss_UptimeSeconds :=
       match e_startedAt e with
       | Some t => if decide (e_state e = stateRunning) then time - t else 0
       | None => 0
       end;
     ss_Counters :=
       match e_instance e, manager with
       | Some _, Some get =>
         foldl (λ m name, match get name with Some v => <[name := v]> m | None => m end) ∅ counter_names
       | _, _ => ∅
       end |}.

(** ** The calls as a transition system *)

Inductive call :=
| CallValidate (env : core_answers) (configBytes : option bytes) (configLength : Z)
| CallStart (env : core_answers) (configBytes : option bytes) (configLength : Z)
| CallStop (close_ok : bool)
| CallNetstackStart (runtime_ok : bool)
| CallNetstackStop.

Definition perform (c : call) (p : process) : process * Z :=
  match c with
  | CallValidate env b n => FoloXrayValidateConfigJSON env b n p
  | CallStart env b n => FoloXrayStartJSON env b n p
  | CallStop ok => FoloXrayStop ok p
  | CallNetstackStart ok => FoloXrayNetstackStart ok p
  | CallNetstackStop => FoloXrayNetstackStop p
  end.

(** A client's calls in order, with the statuses it gets. *)
Fixpoint performs (cs : list call) (p : process) : process * list Z :=
  match cs with
  | [] => (p, [])
  | c :: cs =>
    let '(p, code) := perform c p in
    let '(p, codes) := performs cs p in (p, code :: codes)
  end.

(** ** Invariant *)

Definition engine_inv (p : process) : Prop :=
  let e := p_engine p in
  match e_instance e with
  | None => e_state e = stateIdle ∧ p_open p = ∅ ∧ p_netstack p = None
  | Some i => e_state e = stateRunning ∧ p_open p = {[i]} ∧ is_Some (e_startedAt e) ∧
              (i < p_created p)%nat ∧
              ∀ j r, p_netstack p = Some (j, r) → j = i ∧ r = NewRouter (e_routerConfig e)
  end ∧
  (e_lastCode e = statusOK ↔ e_lastError e = "ok"%string).

Lemma engine_inv_error p code message :
  engine_inv p → code ≠ statusOK → message ≠ "ok"%string →
  engine_inv (setErrorLocked code message p).1.
Proof.
  intros [Hi _] Hc Hm. unfold engine_inv, setErrorLocked, with_engine, setError. cbn.
  split; [exact Hi|]. by split; intros ?.
Qed.

Lemma engine_inv_clear p : engine_inv p → engine_inv (clearErrorLocked p).
Proof. intros [Hi _]. split; [exact Hi|done]. Qed.

Lemma engine_inv_stopNetstack p : engine_inv p → engine_inv (stopNetstack p).
Proof.
  unfold engine_inv. cbn. destruct (e_instance _); [|intuition].
  intros [(? & ? & ? & ? & _) ?]. split_all; try done; apply H3.
Qed.

Lemma copyConfig_error b n code : copyConfig b n = Err code → code = statusInvalidArgument.
Proof. unfold copyConfig. destruct b; [case_decide|]; intros Hx; by inv Hx. Qed.

Lemma engine_inv_start env b n p : engine_inv p → engine_inv (FoloXrayStartJSON env b n p).1.
Proof.
  intros Hp. unfold FoloXrayStartJSON. case_decide as Hrun; [by apply engine_inv_error|].
  destruct (copyConfig b n) as [config|code] eqn:Ec.
  2:{ apply copyConfig_error in Ec as ->. by apply engine_inv_error. }
  destruct (load_ok env config); cbn [negb]; [|by apply engine_inv_error].
  destruct (new_ok env); cbn [negb]; [|by apply engine_inv_error].
  unfold create_instance.
  pose proof Hp as [Hi He]. destruct (e_instance (p_engine p)) as [i|] eqn:Ei; [by destruct Hrun; left|].
  destruct Hi as (Hs & Ho & Hn). destruct (start_ok env); cbn [negb].
  - unfold engine_inv. cbn. split; [|done]. split_all; [done|rewrite Ho; set_solver|by eexists|lia|].
    by rewrite Hn.
  - apply engine_inv_error; [|done|done]. unfold engine_inv. cbn. rewrite Ei.
    split_all; [done|rewrite Ho; set_solver|done|exact He].
Qed.

Lemma engine_inv_stop ok p : engine_inv p → engine_inv (FoloXrayStop ok p).1.
Proof.
  intros Hp. unfold FoloXrayStop. pose proof Hp as [Hi He].
  destruct (e_instance (p_engine p)) as [i|] eqn:Ei.
  - destruct Hi as (_ & Ho & _). destruct ok; cbn [negb]; unfold engine_inv; cbn;
      rewrite Ho; (split; [split_all; [done|set_solver|done]|]); done.
  - destruct Hi as (_ & Ho & Hn). unfold engine_inv. cbn. by split_all.
Qed.

Lemma engine_inv_netstack ok p : engine_inv p → engine_inv (FoloXrayNetstackStart ok p).1.
Proof.
  intros Hp. unfold FoloXrayNetstackStart, startNetstack. pose proof Hp as [Hi He].
  destruct (e_instance (p_engine p)) as [i|] eqn:Ei; [|by apply engine_inv_error].
  case_decide; [by apply engine_inv_error|].
  destruct (p_netstack p) as [[j r]|] eqn:En; [by apply engine_inv_error|].
  destruct ok; [|by apply engine_inv_error]. destruct Hi as (Hs & Ho & Ht & Hl & _).
  unfold engine_inv. cbn. rewrite Ei. split; [|done]. split_all; try done.
  intros j r Hx. by injection Hx as <- <-.
Qed.

Lemma engine_inv_perform c p : engine_inv p → engine_inv (perform c p).1.
Proof.
  intros Hp. destruct c as [env b n|env b n|ok|ok|]; cbn [perform].
  - unfold FoloXrayValidateConfigJSON. destruct (copyConfig b n) as [config|code] eqn:Ec.
    + destruct (load_ok env config); [by apply engine_inv_clear|by apply engine_inv_error].
    + apply copyConfig_error in Ec as ->. by apply engine_inv_error.
  - by apply engine_inv_start.
  - by apply engine_inv_stop.
  - by apply engine_inv_netstack.
  - by apply engine_inv_clear, engine_inv_stopNetstack.
Qed.

Lemma engine_inv_performs cs p : engine_inv p → engine_inv (performs cs p).1.
Proof.
  revert p. induction cs as [|c cs IH]; intros p Hp; [done|]. cbn [performs].
  pose proof (engine_inv_perform c p Hp) as H1. destruct (perform c p) as [p1 code].
  specialize (IH p1 H1). by destruct (performs cs p1).
Qed.

Lemma engine_inv_initial : engine_inv initial_process.
Proof. done. Qed.

(** C17. After any sequence of calls, whatever the core answers: the engine is
    running exactly while it holds an instance, exactly that instance is open
    (no instance is ever leaked, also when starting or closing fails), a
    netstack runtime exists only for it and routes by the loaded configuration,
    and the error text is "ok" exactly when the code is 0. *)
Theorem engine_invariant (cs : list call) : engine_inv (performs cs initial_process).1.
Proof. apply engine_inv_performs, engine_inv_initial. Qed.


(** Stop always leaves the engine idle, with no open instance and no
    netstack runtime; it fails only when a running instance fails to close, and
    stopping again succeeds and clears the error. *)
Theorem FoloXrayStop_spec (ok ok' : bool) (p : process) :
  engine_inv p →
  let '(p1, c1) := FoloXrayStop ok p in
  let '(p2, c2) := FoloXrayStop ok' p1 in
  FoloXrayState p1 = stateIdle ∧ p_open p1 = ∅ ∧ p_netstack p1 = None ∧
  c1 = (if decide (FoloXrayState p = stateRunning ∧ ok = false) then statusStopFailed else statusOK) ∧
  FoloXrayLastErrorCode p1 = c1 ∧ c2 = statusOK ∧
  p2 = clearErrorLocked p1.
Proof.
  intros [Hi _]. unfold FoloXrayStop, FoloXrayState. destruct (e_instance (p_engine p)) as [i|] eqn:Ei.
  - destruct Hi as (Hs & Ho & _). destruct ok; cbn [negb].
    + rewrite decide_False by (by intros [_ ?]). cbn. rewrite Ho. split_all; try done. set_solver.
    + rewrite decide_True by done. cbn. rewrite Ho. split_all; try done. set_solver.
  - destruct Hi as (Hs & Ho & Hn). rewrite decide_False by (rewrite Hs; by intros [? _]). cbn.
    by split_all.
Qed.
End engine.

(** ** Concrete runs *)

Definition good_core : core_answers :=
  {| load_ok _ := true; new_ok := true; start_ok := true; routing_of _ := None; now := 100 |}.

Definition bad_start : core_answers :=
  {| load_ok _ := true; new_ok := true; start_ok := false; routing_of _ := None; now := 100 |}.

Definition running_process : process :=
  (FoloXrayStartJSON good_core (Some (lit "{}")) 2 initial_process).1.


Lemma FoloXrayStop_spec_witness :
  p_open (FoloXrayStop false running_process).1 = ∅ ∧ (FoloXrayStop false running_process).2 = statusStopFailed.
Proof.
  destruct (FoloXrayStop_spec (U := ascii_tables) false true running_process) as (_ & H1 & _ & H2 & _).
  - apply engine_inv_start, engine_inv_initial.
  - split; [exact H1|]. etransitivity; [exact H2|vm_compute; reflexivity].
Defined.

