(* ===== verification/Uuid.v ===== *)
(** UUIDs (src/upstream/xray-core/common/uuid/uuid.go), with the SHA-1 digest
    that name-based identifiers use. *)
From S2P Require Import Prelude GoText NetIP NetIP6 GoConv.

(** ** crypto/sha1 *)

Module Sha1.
Definition rotl (k x : Z) : Z := u32 (Z.lor (Z.shiftl x k) (Z.shiftr x (32 - k))).

Definition not32 (x : Z) : Z := Z.lxor x 0xffffffff.

(** The message schedule, newest word first. *)
Fixpoint schedule (n : nat) (w : list Z) : list Z :=
  match n with
  | O => w
  | S n =>
    let g i := default 0 (w !! i) in
    schedule n (rotl 1 (Z.lxor (Z.lxor (g 2%nat) (g 7%nat)) (Z.lxor (g 13%nat) (g 15%nat))) :: w)
  end.

Definition round (t : nat) (w : Z) (h : Z * Z * Z * Z * Z) : Z * Z * Z * Z * Z :=
  let '(a, b, c, d, e) := h in
  let '(f, k) :=
    if decide (t < 20)%nat then (Z.lor (Z.land b c) (Z.land (not32 b) d), 0x5A827999)
    else if decide (t < 40)%nat then (Z.lxor (Z.lxor b c) d, 0x6ED9EBA1)
    else if decide (t < 60)%nat then
      (Z.lor (Z.lor (Z.land b c) (Z.land b d)) (Z.land c d), 0x8F1BBCDC)
    else (Z.lxor (Z.lxor b c) d, 0xCA62C1D6) in
  (u32 (rotl 5 a + f + e + w + k), a, rotl 30 b, c, d).

Fixpoint rounds (t : nat) (ws : list Z) (h : Z * Z * Z * Z * Z) : Z * Z * Z * Z * Z :=
  match ws with [] => h | w :: ws => rounds (S t) ws (round t w h) end.

Definition words (n : nat) (b : bytes) : list Z := (λ i, be_val (take 4 (drop (4 * i) b))) <$> seq 0 n.

Definition block (h : Z * Z * Z * Z * Z) (b : bytes) : Z * Z * Z * Z * Z :=
  let ws := reverse (schedule 64 (reverse (words 16 b))) in
  let '(a', b', c', d', e') := rounds 0 ws h in
  let '(a, b, c, d, e) := h in
  (u32 (a + a'), u32 (b + b'), u32 (c + c'), u32 (d + d'), u32 (e + e')).

Definition padding (n : nat) : bytes :=
  0x80 :: replicate ((119 - n mod 64) mod 64) 0 ++ be_bytes 8 (8 * Z.of_nat n).

Fixpoint blocks (k : nat) (b : bytes) (h : Z * Z * Z * Z * Z) : Z * Z * Z * Z * Z :=
  match k with O => h | S k => blocks k (drop 64 b) (block h (take 64 b)) end.

Definition Sum (msg : bytes) : bytes :=
  let m := msg ++ padding (length msg) in
  let '(a, b, c, d, e) := blocks (length m / 64) m
    (0x67452301, 0xEFCDAB89, 0x98BADCFE, 0x10325476, 0xC3D2E1F0) in
  be_bytes 4 a ++ be_bytes 4 b ++ be_bytes 4 c ++ be_bytes 4 d ++ be_bytes 4 e.

(** The test vectors of FIPS 180. *)
Example sum_abc : hex_EncodeToString (Sum (lit "abc")) = lit "a9993e364706816aba3e25717850c26c9cd0d89d".
Proof. vm_compute. reflexivity. Qed.

Example sum_long :
  hex_EncodeToString (Sum (lit "abcdbcdecdefdefgefghfghighijhijkijkljklmklmnlmnomnopnopq")) =
  lit "84983e441c3bd26ebaae4aa1f95129e5e54670f1".
Proof. vm_compute. reflexivity. Qed.

Lemma length_Sum msg : length (Sum msg) = 20%nat.
Proof.
  unfold Sum. cbv zeta. destruct (blocks _ _ _) as [[[[a b] c] d] e].
  by rewrite !length_app, !be_bytes_length.
Qed.
End Sha1.

(** ** UUID *)

Definition byteGroups : list nat := [8; 4; 4; 4; 12]%nat.

(** [UUID.String]: the loop over the remaining groups. *)
Fixpoint string_groups (groups : list nat) (b : bytes) : bytes :=
  match groups with
  | [] => []
  | g :: groups =>
    let nBytes := (g / 2)%nat in
    [45] ++ hex_EncodeToString (take nBytes b) ++ string_groups groups (drop nBytes b)
  end.

Definition UUID_String (u : bytes) : bytes :=
  hex_EncodeToString (take 4 u) ++ string_groups [4; 4; 4; 12]%nat (drop 4 u).

Definition UUID_Equals (u another : option bytes) : bool :=
  match u, another with
  | None, None => true
  | Some u, Some v => bool_decide (u = v)
  | _, _ => false
  end.

(** The version and variant bits of a random ([4]) or name-based ([5]) UUID. *)
Definition set_version (v : Z) (u : bytes) : bytes :=
  let u6 := default 0 (u !! 6%nat) in
  let u8' := default 0 (u !! 8%nat) in
  <[8%nat := Z.lor (Z.land u8' (Z.shiftr 0xff 2)) (Z.shiftl 2 6)]>
    (<[6%nat := Z.lor (Z.land u6 0x0f) (Z.shiftl v 4)]> u).

(** [New], from the 16 random bytes. *)
Definition New (random : bytes) : bytes := set_version 4 random.

Definition ParseBytes (b : bytes) : outcome bytes :=
  if decide (length b ≠ 16%nat) then Fail else Ret b.

(** The loop of [ParseString].  [text] is the rest of the backing array of the
    slice, [len] the length of the slice: slicing up to the capacity is allowed
    and gives zero bytes, slicing beyond it panics. *)
Fixpoint parse_groups (groups : list nat) (text : bytes) (len : nat) (acc : bytes) : outcome bytes :=
  match groups with
  | [] => Ret acc
  | g :: groups =>
    if decide (len = 0%nat) then Panic
    else
      let '(text, len) := if decide (head text = Some 45) then (drop 1 text, (len - 1)%nat)
                          else (text, len) in
      if decide (length text < g)%nat then Panic
      else
        match hex_Decode (take g text) with
        | None => Fail
        | Some b =>
          if decide (len < g)%nat then Panic
          else parse_groups groups (drop g text) (len - g) (acc ++ b)
        end
  end.

Section parse.
(** The capacity of the byte slice the runtime makes for a string of the given
    length. *)
Variable cap : nat → nat.

Definition ParseString (str : bytes) : outcome bytes :=
  let l := length str in
  if decide (l < 32 ∨ 36 < l)%nat then
    if decide (l = 0 ∨ 30 < l)%nat then Fail
    else Ret (set_version 5 (take 16 (Sha1.Sum (replicate 16 0 ++ str))))
  else parse_groups byteGroups (str ++ replicate (cap l - l) 0) l [].

Lemma hex_length b : length (hex_EncodeToString b) = (2 * length b)%nat.
Proof.
  induction b as [|x b IH]; [done|].
  change (hex_EncodeToString (x :: b)) with (hex_char (x / 16) :: hex_char (x mod 16) :: hex_EncodeToString b).
  cbn [length]. lia.
Qed.

Lemma hex_no_dash b k : wf_bytes b → b ≠ [] → head (hex_EncodeToString b ++ k) ≠ Some 45.
Proof.
  intros Hw Hne. destruct b as [|x b]; [done|]. apply Forall_cons in Hw as [Hx _]. unfold is_byte in Hx.
  change (hex_EncodeToString (x :: b)) with (hex_char (x / 16) :: hex_char (x mod 16) :: hex_EncodeToString b).
  cbn. unfold hex_char. case_decide; intros [= ?]; Z.div_mod_to_equations; lia.
Qed.

(** One group, with or without its separator. *)
Lemma parse_group g groups b (dash : bool) rest len acc :
  (0 < g)%nat → length b = g → wf_bytes b → (2 * g + (if dash then 1 else 0) ≤ len)%nat →
  parse_groups ((2 * g)%nat :: groups)
    ((if dash then [45] else []) ++ hex_EncodeToString b ++ rest) len acc =
  parse_groups groups rest (len - (if dash then 1 else 0) - 2 * g) (acc ++ b).
Proof.
  intros Hg Hl Hw Hlen. cbn [parse_groups]. rewrite decide_False by lia.
  assert (b ≠ []) as Hne by (intros ->; cbn in Hl; lia).
  assert (length (hex_EncodeToString b) = (2 * g)%nat) as Hh by (rewrite hex_length; lia).
  assert (∀ len', (2 * g ≤ len')%nat →
    (if decide (length (hex_EncodeToString b ++ rest) < 2 * g)%nat then Panic
     else match hex_Decode (take (2 * g) (hex_EncodeToString b ++ rest)) with
          | None => Fail
          | Some b0 => if decide (len' < 2 * g)%nat then Panic
                       else parse_groups groups (drop (2 * g) (hex_EncodeToString b ++ rest)) (len' - 2 * g) (acc ++ b0)
          end) = parse_groups groups rest (len' - 2 * g) (acc ++ b)) as Hbody.
  { intros len' Hl'. rewrite decide_False by (rewrite length_app; lia).
    rewrite take_app_length', hex_Decode_EncodeToString by done. rewrite decide_False by lia.
    by rewrite drop_app_length'. }
  destruct dash.
  - rewrite decide_True by done. cbn [app drop]. rewrite drop_0. apply Hbody. lia.
  - rewrite decide_False by (cbn [app]; by apply hex_no_dash). cbn [app].
    rewrite Hbody by lia. f_equal. lia.
Qed.

Lemma UUID_String_app a b c d e :
  length a = 4%nat → length b = 2%nat → length c = 2%nat → length d = 2%nat → length e = 6%nat →
  UUID_String (a ++ b ++ c ++ d ++ e) =
  hex_EncodeToString a ++ [45] ++ hex_EncodeToString b ++ [45] ++ hex_EncodeToString c ++
  [45] ++ hex_EncodeToString d ++ [45] ++ hex_EncodeToString e.
Proof.
  intros Ha Hb Hc Hd He. unfold UUID_String, string_groups.
  change (4 / 2)%nat with 2%nat. change (12 / 2)%nat with 6%nat. cbv zeta.
  rewrite (take_app_length' a), (drop_app_length' a) by done.
  rewrite (take_app_length' b), (drop_app_length' b) by done.
  rewrite (take_app_length' c), (drop_app_length' c) by done.
  rewrite (take_app_length' d), (drop_app_length' d) by done.
  rewrite (take_ge e) by lia. by rewrite app_nil_r.
Qed.

(** Parse the next group, [g] bytes [b]. *)
Ltac parse_next g b dash :=
  etransitivity; [apply (parse_group g _ b dash); first [done|lia]|].

(** The text of five groups, each separator present or not, is parsed. *)
Lemma parse_five (d1 d2 d3 d4 : bool) a b c d e rest len :
  let sep (x : bool) : bytes := if x then [45] else [] in
  let n (x : bool) := (if x then 1 else 0)%nat in
  length a = 4%nat → length b = 2%nat → length c = 2%nat → length d = 2%nat → length e = 6%nat →
  wf_bytes a → wf_bytes b → wf_bytes c → wf_bytes d → wf_bytes e →
  (32 + n d1 + n d2 + n d3 + n d4 ≤ len)%nat →
  parse_groups byteGroups
    (hex_EncodeToString a ++ sep d1 ++ hex_EncodeToString b ++ sep d2 ++ hex_EncodeToString c ++
     sep d3 ++ hex_EncodeToString d ++ sep d4 ++ hex_EncodeToString e ++ rest) len [] =
  Ret (a ++ b ++ c ++ d ++ e).
Proof.
  intros sep n Ha Hb Hc Hd He Wa Wb Wc Wd We Hlen. unfold byteGroups, sep.
  assert (n d1 ≤ 1 ∧ n d2 ≤ 1 ∧ n d3 ≤ 1 ∧ n d4 ≤ 1)%nat as Hn by (subst n; destruct d1, d2, d3, d4; cbn; lia).
  subst n. cbv beta in *.
  parse_next 4%nat a false. parse_next 2%nat b d1. parse_next 2%nat c d2. parse_next 2%nat d d3.
  parse_next 6%nat e d4.
  cbn [parse_groups app]. by rewrite <- !app_assoc.
Qed.

Lemma split_uuid (u : bytes) : length u = 16%nat → wf_bytes u → ∃ a b c d e,
  u = a ++ b ++ c ++ d ++ e ∧
  (length a = 4 ∧ length b = 2 ∧ length c = 2 ∧ length d = 2 ∧ length e = 6)%nat ∧
  wf_bytes a ∧ wf_bytes b ∧ wf_bytes c ∧ wf_bytes d ∧ wf_bytes e.
Proof.
  intros Hl Hw. exists (take 4 u), (take 2 (drop 4 u)), (take 2 (drop 6 u)), (take 2 (drop 8 u)), (drop 10 u).
  split_all; rewrite ?length_take, ?length_drop; try lia;
    try (by apply Forall_take_drop); try (by apply Forall_take); try (by apply Forall_drop).
  do 16 (destruct u as [|? u]; [done|]). by destruct u.
Qed.

Lemma ParseString_text (u : bytes) :
  length u = 16%nat → wf_bytes u → ParseString (UUID_String u) = Ret u.
Proof.
  intros Hl Hw. destruct (split_uuid u Hl Hw) as (a & b & c & d & e & -> & (? & ? & ? & ? & ?) & ? & ? & ? & ? & ?).
  rewrite UUID_String_app by done. unfold ParseString. rewrite !length_app, !hex_length. cbn [length].
  rewrite decide_False by lia. rewrite <- !app_assoc.
  apply (parse_five true true true true); try done; cbn; lia.
Qed.

(** Printing a UUID and parsing the text gives the UUID back. *)
Theorem ParseString_String (u : bytes) :
  length u = 16%nat → wf_bytes u → ParseString (UUID_String u) = Ret u.
Proof. apply ParseString_text. Qed.

(** What follows the last group is ignored: 32 digits and up to four arbitrary
    characters parse to the UUID of the digits. *)
Lemma ParseString_ignores_rest (u junk : bytes) :
  length u = 16%nat → wf_bytes u → (length junk ≤ 4)%nat →
  ParseString (hex_EncodeToString u ++ junk) = Ret u.
Proof.
  intros Hl Hw Hj. destruct (split_uuid u Hl Hw) as (a & b & c & d & e & -> & (? & ? & ? & ? & ?) & ? & ? & ? & ? & ?).
  unfold ParseString. rewrite length_app, hex_length, Hl. rewrite decide_False by lia.
  assert (∀ x y, hex_EncodeToString (x ++ y) = hex_EncodeToString x ++ hex_EncodeToString y) as Happ
    by (intros; unfold hex_EncodeToString; by rewrite fmap_app, join_app).
  rewrite !Happ, <- !app_assoc. apply (parse_five false false false false); try done; cbn; lia.
Qed.

(** A 32-character text with a hyphen at the start of a group makes
    [ParseString] panic instead of failing: the runtime gives the 32 bytes no
    spare capacity, so slicing the last group is out of range. *)
Theorem ParseString_panics (a b c d e : bytes) (last : Z) :
  cap 32 = 32%nat →
  length a = 4%nat → length b = 2%nat → length c = 2%nat → length d = 2%nat → length e = 5%nat →
  wf_bytes (a ++ b ++ c ++ d ++ e) → 0 ≤ last < 16 →
  ParseString (hex_EncodeToString a ++ [45] ++ hex_EncodeToString b ++ hex_EncodeToString c ++
    hex_EncodeToString d ++ hex_EncodeToString e ++ [hex_char last]) = Panic.
Proof.
  intros Hcap Ha Hb Hc Hd He Hw Hlast. rewrite !Forall_app in Hw. destruct Hw as (Wa & Wb & Wc & Wd & We).
  unfold ParseString. rewrite !length_app, !hex_length. cbn [length].
  rewrite decide_False by lia.
  replace (2 * length a + (1 + (2 * length b + (2 * length c + (2 * length d + (2 * length e + 1))))))%nat
    with 32%nat by lia.
  rewrite Hcap. cbn [Nat.sub replicate]. rewrite app_nil_r. unfold byteGroups.
  parse_next 4%nat a false. parse_next 2%nat b true. parse_next 2%nat c false.
  parse_next 2%nat d false.
  cbn [parse_groups]. rewrite decide_False by lia.
  rewrite decide_False by (apply hex_no_dash; [done|by intros ->]).
  rewrite decide_True; [done|]. rewrite length_app, hex_length. cbn. lia.
Qed.
End parse.

(** The size classes of the Go allocator for these lengths. *)
Definition go_cap (n : nat) : nat := if decide (n ≤ 32)%nat then 32 else 48.

Lemma ParseString_String_witness :
  ParseString go_cap (lit "5783a3e7-e373-51cd-8642-c83782b807c5") =
  Ret [0x57;0x83;0xa3;0xe7;0xe3;0x73;0x51;0xcd;0x86;0x42;0xc8;0x37;0x82;0xb8;0x07;0xc5].
Proof.
  apply (ParseString_String go_cap
    [0x57;0x83;0xa3;0xe7;0xe3;0x73;0x51;0xcd;0x86;0x42;0xc8;0x37;0x82;0xb8;0x07;0xc5]);
    [reflexivity|apply (bool_decide_unpack _); vm_compute; exact I].
Defined.

Lemma ParseString_panics_witness :
  ParseString go_cap (lit "00000000-00000000000000000000000") = Panic.
Proof.
  apply (ParseString_panics go_cap [0;0;0;0] [0;0] [0;0] [0;0] [0;0;0;0;0] 0);
    first [reflexivity|lia|apply (bool_decide_unpack _); vm_compute; exact I].
Defined.
