(* ===== verification/FoloJson.v ===== *)
(** The configuration boundary of the Apple distribution
    (src/upstream/xray-core/main/folojson/folojson.go): validation of a decoded
    profile and the core configuration built from it. *)
From S2P Require Import Prelude GoText NetIP NetIP6 GoConv Address Transport Uuid.

Definition firstReleaseVer : Z := 1.
Definition trojanProfileVer : Z := 2.
Definition vmessProfileVer : Z := 3.
Definition realityKeyLength : nat := 32.
Definition shortIDLength : nat := 8.

(** ** The profile *)

Record Reality := {
  r_ServerName : bytes; r_Fingerprint : bytes; r_PublicKey : bytes; r_ShortID : bytes;
  r_SpiderX : bytes
}.

Record Outbound := {
  o_Protocol : bytes; o_Address : bytes; o_Port : Z; o_UUID : bytes; o_Password : bytes;
  o_Flow : bytes; o_Encryption : bytes; o_Transport : bytes; o_Security : bytes;
  o_ServerName : bytes; o_Reality : option Reality
}.

(** Only the mode of the routing section takes part in validation. *)
Record Profile := {
  c_Version : Z; c_Mode : bytes; c_Outbound : Outbound; c_RoutingMode : option bytes
}.

(** ** The core configuration *)

Record RealityConfig := {
  rc_ServerName : bytes; rc_Fingerprint : bytes; rc_PublicKey : bytes; rc_ShortId : bytes;
  rc_SpiderX : bytes
}.

Inductive SecuritySettings :=
| SecurityReality (c : RealityConfig)
| SecurityTLS (ServerName MinVersion MaxVersion : bytes).

Inductive SecurityType := SecurityType_AUTO | SecurityType_AES128_GCM | SecurityType_CHACHA20_POLY1305.

Inductive ProxyAccount :=
| VlessAccount (Id Flow Encryption : bytes)
| TrojanAccount (Password : bytes)
| VMessAccount (Id : bytes) (Security : SecurityType).

Record OutboundHandlerConfig := {
  oh_Tag : bytes;
  oh_Protocol : bytes;            (** of the stream settings and their transport *)
  oh_Security : SecuritySettings;
  oh_Address : IPOrDomain;
  oh_Port : Z;
  oh_Account : ProxyAccount
}.

(** The application features, in order; there is no inbound handler. *)
Inductive AppConfig := DispatcherConfig | InboundManagerConfig | OutboundManagerConfig | StatsConfig.

Record CoreConfig := { cc_App : list AppConfig; cc_Inbound : list unit; cc_Outbound : list OutboundHandlerConfig }.

(** ** Building *)

(** [vless.XRV]. *)
Definition XRV : bytes := lit "xtls-rprx-vision".

Fixpoint decode_first (decoders : list b64) (value : bytes) : option bytes :=
  match decoders with
  | [] => None
  | d :: decoders =>
    match b64_DecodeString d value with
    | Some decoded => Some decoded
    | None => decode_first decoders value
    end
  end.

Definition decodeURLBase64 (value : bytes) : option bytes :=
  decode_first [RawURLEncoding; URLEncoding; RawStdEncoding; StdEncoding] value.

Definition Reality_Build (r : Reality) : outcome RealityConfig :=
  if decide (TrimSpace (r_ServerName r) = [] ∨ (253 < length (r_ServerName r))%nat) then Fail
  else if decide (TrimSpace (r_Fingerprint r) = []) then Fail
  else
    match decodeURLBase64 (r_PublicKey r) with
    | None => Fail
    | Some publicKey =>
      if decide (length publicKey ≠ realityKeyLength) then Fail
      else
        match hex_Decode (r_ShortID r) with
        | None => Fail
        | Some shortID =>
          if decide (length shortID ≠ shortIDLength) then Fail
          else Ret {| rc_ServerName := r_ServerName r; rc_Fingerprint := r_Fingerprint r;
                      rc_PublicKey := publicKey; rc_ShortId := shortID; rc_SpiderX := r_SpiderX r |}
        end
    end.

Definition parseVMessSecurity (value : bytes) : option SecurityType :=
  if decide (value = lit "auto") then Some SecurityType_AUTO
  else if decide (value = lit "aes-128-gcm") then Some SecurityType_AES128_GCM
  else if decide (value = lit "chacha20-poly1305") then Some SecurityType_CHACHA20_POLY1305
  else None.

(** The label loop of [validServerName]. *)
Fixpoint valid_labels (labels : list bytes) : bool :=
  match labels with
  | [] => true
  | label :: labels =>
    if decide (label = [] ∨ (63 < length label)%nat ∨ head label = Some 45 ∨ last label = Some 45)
    then false
    else forallb (λ rw, label_rune rw.1) (Utf8.runes label) && valid_labels labels
  end.

Definition validServerName (value : bytes) : bool :=
  let value := TrimSpace value in
  if decide (value = [] ∨ (253 < length value)%nat ∨ 47 ∈ value ∨ 32 ∈ value) then false
  else match ParseAddress value with
       | Some _ => true
       | None => valid_labels (Split value [46])
       end.

(** The endpoint's address message; [None] is the nil address, on which
    [NewIPOrDomain] would panic. *)
Definition address_message (address : bytes) : option IPOrDomain := NewIPOrDomain <$> ParseAddress address.

(** The checks the three builders share: address present and at most 253
    bytes, port not zero, address parsed. *)
Definition endpoint_checks (o : Outbound) : bool :=
  bool_decide (TrimSpace (o_Address o) ≠ [] ∧ (length (o_Address o) ≤ 253)%nat) &&
  bool_decide (o_Port o ≠ 0) &&
  bool_decide (is_Some (ParseAddress (o_Address o))).

Definition handler (o : Outbound) (sec : SecuritySettings) (acc : ProxyAccount) : outcome OutboundHandlerConfig :=
  match address_message (o_Address o) with
  | None => Panic
  | Some a => Ret {| oh_Tag := lit "proxy"; oh_Protocol := lit "tcp"; oh_Security := sec;
                     oh_Address := a; oh_Port := o_Port o; oh_Account := acc |}
  end.

Definition tls_settings (o : Outbound) : SecuritySettings :=
  SecurityTLS (o_ServerName o) (lit "1.2") (lit "1.3").

Definition routing_mode_ok (m : option bytes) : bool :=
  match m with
  | Some m => bool_decide (m ∈ [[]; lit "rule"; lit "global"; lit "direct"])
  | None => true
  end.

Section build.
Variable cap : nat → nat.

Definition buildVless (o : Outbound) : outcome OutboundHandlerConfig :=
  if negb (endpoint_checks o) then Fail
  else
    match ParseString cap (o_UUID o) with
    | Fail => Fail
    | Panic => Panic
    | Ret parsedUUID =>
      if decide (o_Flow o ≠ XRV) then Fail
      else if decide (o_Encryption o ≠ lit "none") then Fail
      else if decide (o_Transport o ≠ lit "tcp" ∨ o_Security o ≠ lit "reality") then Fail
      else
        match o_Reality o with
        | None => Fail
        | Some r =>
          match Reality_Build r with
          | Ret settings =>
            handler o (SecurityReality settings)
              (VlessAccount (UUID_String parsedUUID) (o_Flow o) (o_Encryption o))
          | Fail => Fail
          | Panic => Panic
          end
        end
    end.

Definition buildTrojan (o : Outbound) : outcome OutboundHandlerConfig :=
  if negb (endpoint_checks o) then Fail
  else if decide (TrimSpace (o_Password o) = [] ∨ (256 < length (o_Password o))%nat) then Fail
  else if negb (validServerName (o_ServerName o)) then Fail
  else if decide (o_Transport o ≠ lit "tcp" ∨ o_Security o ≠ lit "tls") then Fail
  else if decide (o_UUID o ≠ [] ∨ o_Flow o ≠ [] ∨ o_Encryption o ≠ [] ∨ is_Some (o_Reality o)) then Fail
  else handler o (tls_settings o) (TrojanAccount (o_Password o)).

Definition buildVMess (o : Outbound) : outcome OutboundHandlerConfig :=
  if negb (endpoint_checks o) then Fail
  else
    match ParseString cap (o_UUID o) with
    | Fail => Fail
    | Panic => Panic
    | Ret parsedUUID =>
      match parseVMessSecurity (o_Encryption o) with
      | None => Fail
      | Some securityType =>
        if decide (o_Transport o ≠ lit "tcp" ∨ o_Security o ≠ lit "tls") then Fail
        else if negb (validServerName (o_ServerName o)) then Fail
        else if decide (o_Password o ≠ [] ∨ o_Flow o ≠ [] ∨ is_Some (o_Reality o)) then Fail
        else handler o (tls_settings o) (VMessAccount (UUID_String parsedUUID) securityType)
      end
    end.

Definition Outbound_Build (o : Outbound) : outcome OutboundHandlerConfig :=
  if decide (o_Protocol o = lit "trojan") then buildTrojan o
  else if decide (o_Protocol o = lit "vmess") then buildVMess o
  else buildVless o.

Definition Config_Build (c : Profile) : outcome CoreConfig :=
  if decide (c_Version c ≠ firstReleaseVer ∧ c_Version c ≠ trojanProfileVer ∧ c_Version c ≠ vmessProfileVer)
  then Fail
  else if decide (c_Mode c ≠ lit "tun") then Fail
  else if decide (c_Version c = firstReleaseVer ∧ o_Protocol (c_Outbound c) ≠ []) then Fail
  else if decide (c_Version c = trojanProfileVer ∧ o_Protocol (c_Outbound c) ≠ lit "trojan") then Fail
  else if decide (c_Version c = vmessProfileVer ∧ o_Protocol (c_Outbound c) ≠ lit "vmess") then Fail
  else if negb (routing_mode_ok (c_RoutingMode c)) then Fail
  else
    match Outbound_Build (c_Outbound c) with
    | Ret outbound =>
      Ret {| cc_App := [DispatcherConfig; InboundManagerConfig; OutboundManagerConfig; StatsConfig];
             cc_Inbound := []; cc_Outbound := [outbound] |}
    | Fail => Fail
    | Panic => Panic
    end.
End build.

(** ** What is accepted *)

Lemma hex_Decode_length s b : hex_Decode s = Some b → length s = (2 * length b)%nat.
Proof.
  remember (length s) as n eqn:Hn. revert s b Hn. induction n as [n IH] using lt_wf_ind.
  intros s b -> H. destruct s as [|p [|q s]]; cbn [hex_Decode] in H; [by injection H as <-|done|].
  destruct (hex_digit p), (hex_digit q); try done.
  destruct (hex_Decode s) as [r|] eqn:E; [|done]. injection H as <-.
  cbn [length]. rewrite (IH (length s) ltac:(cbn; lia) s r eq_refl E). lia.
Qed.

Lemma parse_groups_length groups text len acc u :
  parse_groups groups text len acc = Ret u →
  (2 * length u = 2 * length acc + sum_list groups)%nat.
Proof.
  revert text len acc. induction groups as [|g groups IH]; intros text len acc; cbn [parse_groups].
  - intros Hx. injection Hx as ->. cbn. lia.
  - case_decide; [done|]. destruct (if decide (head text = Some 45) then _ else _) as [t l].
    case_decide as Hg; [done|]. destruct (hex_Decode (take g t)) as [b|] eqn:E; [|done].
    case_decide; [done|]. intros Hx. apply IH in Hx. apply hex_Decode_length in E.
    rewrite length_take in E. rewrite length_app in Hx. cbn [sum_list sum_list_with] in *. cbn. lia.
Qed.

Lemma ParseString_length cap str u : ParseString cap str = Ret u → length u = 16%nat.
Proof.
  unfold ParseString. repeat case_decide; try done.
  - intros Hx. injection Hx as <-. unfold set_version. rewrite !length_insert, length_take.
    by rewrite Sha1.length_Sum.
  - intros Hx%parse_groups_length. cbn in Hx. lia.
Qed.

Lemma ParseAddress_some s : is_Some (ParseAddress s).
Proof.
  unfold ParseAddress. destruct (ParseIP _) as [ip|] eqn:E; [|by eexists].
  apply ParseIP_sound in E as (_ & _ & Hw & Hl).
  destruct (IPAddress_spec ip Hw Hl) as (a & -> & _). by eexists.
Qed.

(** [validServerName] accepts every text that is not blank, has at most
    253 bytes after trimming, and contains no slash and no inner space: the
    label rules it spells out never run, because every text parses as an
    address. *)
Theorem validServerName_accepts_any (value : bytes) :
  validServerName value = true ↔
  TrimSpace value ≠ [] ∧ (length (TrimSpace value) ≤ 253)%nat ∧
  47 ∉ TrimSpace value ∧ 32 ∉ TrimSpace value.
Proof.
  unfold validServerName. cbv zeta. destruct (ParseAddress_some (TrimSpace value)) as [a ->].
  case_decide as Hd; [split; [done|]|split; [intros _|done]].
  - intros (H1 & H2 & H3 & H4). destruct Hd as [?|[?|[?|?]]]; done || lia.
  - split_all; [tauto|lia|tauto|tauto].
Qed.

(** ** Security of accepted profiles *)

(** The transport security a profile of each version must end up with. *)
Definition secure (version : Z) (o : Outbound) (h : OutboundHandlerConfig) : Prop :=
  if decide (version = firstReleaseVer) then
    ∃ u rc, length u = 16%nat ∧ oh_Account h = VlessAccount (UUID_String u) XRV (lit "none") ∧
            oh_Security h = SecurityReality rc ∧ length (rc_PublicKey rc) = realityKeyLength ∧
            length (rc_ShortId rc) = shortIDLength ∧ TrimSpace (rc_ServerName rc) ≠ []
  else
    oh_Security h = SecurityTLS (o_ServerName o) (lit "1.2") (lit "1.3") ∧
    TrimSpace (o_ServerName o) ≠ [] ∧
    if decide (version = trojanProfileVer) then
      oh_Account h = TrojanAccount (o_Password o) ∧ TrimSpace (o_Password o) ≠ []
    else ∃ u t, length u = 16%nat ∧ oh_Account h = VMessAccount (UUID_String u) t.

Lemma validServerName_nonblank v : validServerName v = true → TrimSpace v ≠ [].
Proof. unfold validServerName. cbv zeta. case_decide as Hd; [done|]. intros _ ?. apply Hd. by left. Qed.

Lemma Reality_Build_spec r rc : Reality_Build r = Ret rc →
  length (rc_PublicKey rc) = realityKeyLength ∧ length (rc_ShortId rc) = shortIDLength ∧
  TrimSpace (rc_ServerName rc) ≠ [].
Proof.
  unfold Reality_Build. case_decide as Hn; [done|]. case_decide; [done|].
  destruct (decodeURLBase64 _) as [k|]; [|done]. case_decide as Hk; [done|].
  destruct (hex_Decode _) as [i|]; [|done]. case_decide as Hi; [done|]. intros Hx. injection Hx as <-.
  cbn. split_all; [done|done|]. intros ?. apply Hn. by left.
Qed.

Lemma handler_spec o sec acc h : handler o sec acc = Ret h →
  oh_Security h = sec ∧ oh_Account h = acc ∧ oh_Port h = o_Port o ∧
  address_message (o_Address o) = Some (oh_Address h) ∧ oh_Tag h = lit "proxy".
Proof.
  unfold handler. destruct (address_message _) as [a|]; [|done]. intros Hx. by injection Hx as <-.
Qed.

Lemma endpoint_checks_port o : endpoint_checks o = true → o_Port o ≠ 0.
Proof. unfold endpoint_checks. intros [[_ H%bool_decide_eq_true]%andb_true_iff _]%andb_true_iff. done. Qed.

Section secure.
Context (cap : nat → nat).

Lemma buildVless_secure o h : buildVless cap o = Ret h →
  secure firstReleaseVer o h ∧ o_Port o ≠ 0 ∧ oh_Port h = o_Port o ∧
  address_message (o_Address o) = Some (oh_Address h).
Proof.
  unfold buildVless. destruct (endpoint_checks o) eqn:Ee; [|done]. apply endpoint_checks_port in Ee.
  cbn [negb]. destruct (ParseString cap (o_UUID o)) as [u| |] eqn:Eu; try done.
  apply ParseString_length in Eu. case_decide as Hf; [done|]. case_decide as He; [done|].
  case_decide; [done|]. destruct (o_Reality o) as [r|]; [|done].
  destruct (Reality_Build r) as [rc| |] eqn:Er; try done.
  apply Reality_Build_spec in Er as (Hk & Hi & Hn).
  intros (Hs & Ha & Hp & Hm & _)%handler_spec. split_all; [|done|done|done].
  unfold secure. rewrite decide_True by done. exists u, rc. split_all; try done. by rewrite Ha, Hf, He.
Qed.

Lemma buildTrojan_secure o h : buildTrojan o = Ret h →
  secure trojanProfileVer o h ∧ o_Port o ≠ 0 ∧ oh_Port h = o_Port o ∧
  address_message (o_Address o) = Some (oh_Address h).
Proof.
  unfold buildTrojan. destruct (endpoint_checks o) eqn:Ee; [|done]. apply endpoint_checks_port in Ee.
  cbn [negb]. case_decide as Hpw; [done|]. destruct (validServerName _) eqn:Ev; [|done].
  apply validServerName_nonblank in Ev. cbn [negb]. case_decide; [done|]. case_decide; [done|].
  intros (Hs & Ha & Hp & Hm & _)%handler_spec. split_all; [|done|done|done].
  unfold secure. rewrite decide_False, decide_True by done. split_all; try done. tauto.
Qed.

Lemma buildVMess_secure o h : buildVMess cap o = Ret h →
  secure vmessProfileVer o h ∧ o_Port o ≠ 0 ∧ oh_Port h = o_Port o ∧
  address_message (o_Address o) = Some (oh_Address h).
Proof.
  unfold buildVMess. destruct (endpoint_checks o) eqn:Ee; [|done]. apply endpoint_checks_port in Ee.
  cbn [negb]. destruct (ParseString cap (o_UUID o)) as [u| |] eqn:Eu; try done.
  apply ParseString_length in Eu. destruct (parseVMessSecurity _) as [t|]; [|done].
  case_decide; [done|]. destruct (validServerName _) eqn:Ev; [|done].
  apply validServerName_nonblank in Ev. cbn [negb]. case_decide; [done|].
  intros (Hs & Ha & Hp & Hm & _)%handler_spec. split_all; [|done|done|done].
  unfold secure. rewrite !decide_False by done. split_all; [done|done|]. by exists u, t.
Qed.

(** C32. Whatever profile is accepted, the built configuration has exactly one
    outbound and no listener, and the outbound is protected as its version
    demands: VLESS with vision flow inside Reality with a 32-byte key and an
    8-byte short id, or Trojan or VMess with an approved cipher inside TLS 1.2
    to 1.3 for a named server; it goes to the profile's address and non-zero
    port. *)
Theorem Config_Build_secure (c : Profile) (cfg : CoreConfig) :
  Config_Build cap c = Ret cfg →
  cc_Inbound cfg = [] ∧ ∃ h, cc_Outbound cfg = [h] ∧ secure (c_Version c) (c_Outbound c) h ∧
    oh_Port h = o_Port (c_Outbound c) ∧ oh_Port h ≠ 0 ∧
    address_message (o_Address (c_Outbound c)) = Some (oh_Address h).
Proof.
  unfold Config_Build. case_decide as Hv; [done|]. case_decide; [done|].
  case_decide as H1; [done|]. case_decide as H2; [done|]. case_decide as H3; [done|].
  destruct (negb _); [done|]. destruct (Outbound_Build cap (c_Outbound c)) as [h| |] eqn:Eo; try done.
  intros Hx. injection Hx as <-. split; [done|]. exists h. split; [done|]. unfold Outbound_Build in Eo.
  assert (secure (c_Version c) (c_Outbound c) h ∧ o_Port (c_Outbound c) ≠ 0 ∧
    oh_Port h = o_Port (c_Outbound c) ∧ address_message (o_Address (c_Outbound c)) = Some (oh_Address h))
    as (? & ? & Hport & ?).
  { destruct (decide (c_Version c = firstReleaseVer)) as [E1|N1].
    - assert (o_Protocol (c_Outbound c) = []) as Hp by (apply dec_stable; tauto).
      rewrite Hp in Eo. rewrite !decide_False in Eo by done. rewrite E1. by apply buildVless_secure.
    - destruct (decide (c_Version c = trojanProfileVer)) as [E2|N2].
      + assert (o_Protocol (c_Outbound c) = lit "trojan") as Hp by (apply dec_stable; tauto).
        rewrite decide_True in Eo by done. rewrite E2. by apply buildTrojan_secure.
      + assert (c_Version c = vmessProfileVer) as E3 by (apply dec_stable; tauto).
        assert (o_Protocol (c_Outbound c) = lit "vmess") as Hp by (apply dec_stable; tauto).
        rewrite Hp in Eo. rewrite decide_False, decide_True in Eo by done. rewrite E3.
        by apply buildVMess_secure. }
  split_all; try done. by rewrite Hport.
Qed.
End secure.

(** ** Acceptance *)

Lemma decode_first_In ds d value b :
  d ∈ ds → b64_DecodeString d value = Some b → decode_first ds value = Some b.
Proof.
  induction ds as [|d0 ds IH]; intros Hin Hd; [by apply elem_of_nil in Hin|]. cbn [decode_first].
  destruct (b64_DecodeString d0 value) as [b0|] eqn:E0; [f_equal; by eapply b64_agree|].
  apply elem_of_cons in Hin as [-> |Hin]; [congruence|by apply IH].
Qed.

Lemma decode_key e key : wf_bytes key → decodeURLBase64 (b64_EncodeToString e key) = Some key.
Proof.
  intros Hw. apply (decode_first_In _ e); [|by apply b64_Decode_Encode].
  destruct e as [[] []]; unfold RawURLEncoding, URLEncoding, RawStdEncoding, StdEncoding; set_solver.
Qed.

(** A key in any of the four base64 notations is decoded to its bytes,
    although the notations are tried in turn and the first that fits is taken. *)
Theorem decodeURLBase64_any (e : b64) (key : bytes) :
  wf_bytes key → decodeURLBase64 (b64_EncodeToString e key) = Some key.
Proof. apply decode_key. Qed.

(** The version-1 profile of a VLESS server. *)
Definition vless_profile (e : b64) (address : bytes) (port : Z) (u key id server fp spider : bytes)
    (routing : option bytes) : Profile :=
  {| c_Version := 1; c_Mode := lit "tun";
     c_Outbound :=
       {| o_Protocol := []; o_Address := address; o_Port := port; o_UUID := UUID_String u;
          o_Password := []; o_Flow := XRV; o_Encryption := lit "none"; o_Transport := lit "tcp";
          o_Security := lit "reality"; o_ServerName := [];
          o_Reality := Some {| r_ServerName := server; r_Fingerprint := fp;
                               r_PublicKey := b64_EncodeToString e key;
                               r_ShortID := hex_EncodeToString id; r_SpiderX := spider |} |};
     c_RoutingMode := routing |}.

Section accept.
Context (cap : nat → nat).

(** A version-1 profile for an accepted endpoint, with a UUID in its
    canonical text, a 32-byte key in any base64 notation, an 8-byte short id
    and a non-blank server name and fingerprint, is built into exactly the
    configuration it describes. *)
Theorem vless_profile_accepted (e : b64) (address : bytes) (port : Z)
    (u key id server fp spider : bytes) (routing : option bytes) :
  endpoint_ok address → port ≠ 0 → length u = 16%nat → wf_bytes u →
  length key = 32%nat → wf_bytes key → length id = 8%nat → wf_bytes id →
  TrimSpace server ≠ [] → (length server ≤ 253)%nat → TrimSpace fp ≠ [] →
  routing_mode_ok routing = true →
  ∃ a, address_message address = Some a ∧
  Config_Build cap (vless_profile e address port u key id server fp spider routing) =
  Ret {| cc_App := [DispatcherConfig; InboundManagerConfig; OutboundManagerConfig; StatsConfig];
         cc_Inbound := [];
         cc_Outbound :=
           [{| oh_Tag := lit "proxy"; oh_Protocol := lit "tcp";
               oh_Security := SecurityReality
                 {| rc_ServerName := server; rc_Fingerprint := fp; rc_PublicKey := key;
                    rc_ShortId := id; rc_SpiderX := spider |};
               oh_Address := a; oh_Port := port;
               oh_Account := VlessAccount (UUID_String u) XRV (lit "none") |}] |}.
Proof.
  intros Hep Hport Hu Wu Hk Wk Hid Wid Hs Hs' Hfp Hr.
  destruct (ParseAddress_some address) as [a Ha]. exists (NewIPOrDomain a).
  assert (address_message address = Some (NewIPOrDomain a)) as Hm by (unfold address_message; by rewrite Ha).
  split; [done|]. destruct (endpoint_ok_chars address Hep) as [Hne Hc].
  unfold Config_Build. cbn [c_Version c_Mode c_Outbound c_RoutingMode vless_profile].
  rewrite Hr. rewrite decide_False by (intros [Hx _]; by apply Hx).
  rewrite decide_False by (intros Hx; by apply Hx).
  rewrite decide_False by (intros [_ Hx]; by apply Hx). rewrite !decide_False by (by intros [? _]).
  cbn [negb]. unfold Outbound_Build. cbn [o_Protocol]. rewrite !decide_False by done.
  unfold buildVless, endpoint_checks. cbn [o_Address o_Port o_UUID o_Flow o_Encryption o_Transport o_Security o_Reality].
  rewrite endpoint_trim by done. destruct Hep as [Hlen _]. unfold MaxEndpointAddressLength in Hlen.
  rewrite !bool_decide_eq_true_2 by (done || (by rewrite Ha; eexists) || (split; [done|lia])).
  cbn [andb negb]. rewrite ParseString_text by done.
  rewrite decide_False by (intros Hx; by apply Hx). rewrite decide_False by (intros Hx; by apply Hx).
  rewrite decide_False by (intros [Hx|Hx]; by apply Hx).
  unfold Reality_Build. cbn [r_ServerName r_Fingerprint r_PublicKey r_ShortID r_SpiderX].
  rewrite decide_False by (intros [?|?]; [done|lia]). rewrite decide_False by done.
  rewrite decode_key by done. rewrite decide_False by (intros Hx; by apply Hx).
  rewrite hex_Decode_EncodeToString by done. rewrite decide_False by (intros Hx; by apply Hx).
  unfold handler. cbn [o_Address o_Port]. by rewrite Hm.
Qed.
End accept.

(** ** Concrete profiles *)

Definition sample_key : bytes := replicate 31 7 ++ [200].
Definition sample_uuid : bytes :=
  [0x57;0x83;0xa3;0xe7;0xe3;0x73;0x51;0xcd;0x86;0x42;0xc8;0x37;0x82;0xb8;0x07;0xc5].
Definition sample_profile : Profile :=
  vless_profile StdEncoding (lit "proxy.example.net") 443 sample_uuid sample_key (replicate 8 1)
    (lit "www.example.com") (lit "chrome") [] (Some (lit "rule")).

Lemma endpoint_ok_sample : endpoint_ok (lit "proxy.example.net").
Proof. apply Validate_sound. vm_compute. reflexivity. Qed.

Lemma vless_profile_accepted_witness : ∃ cfg, Config_Build go_cap sample_profile = Ret cfg.
Proof.
  destruct (vless_profile_accepted go_cap StdEncoding (lit "proxy.example.net") 443 sample_uuid sample_key
    (replicate 8 1) (lit "www.example.com") (lit "chrome") [] (Some (lit "rule"))) as (a & _ & H);
    [apply endpoint_ok_sample|lia|reflexivity
    |apply (bool_decide_unpack _); vm_compute; exact I|reflexivity
    |apply (bool_decide_unpack _); vm_compute; exact I|reflexivity
    |apply (bool_decide_unpack _); vm_compute; exact I|vm_compute; discriminate
    |apply (bool_decide_unpack _); vm_compute; exact I|vm_compute; discriminate|vm_compute; reflexivity|].
  eexists. exact H.
Defined.

Lemma decodeURLBase64_any_witness :
  decodeURLBase64 (b64_EncodeToString StdEncoding sample_key) = Some sample_key.
Proof. apply decodeURLBase64_any. apply (bool_decide_unpack _). vm_compute. exact I. Defined.

Lemma Config_Build_secure_witness :
  ∃ cfg, Config_Build go_cap sample_profile = Ret cfg ∧ cc_Inbound cfg = [].
Proof.
  eexists. split; [vm_compute; reflexivity|].
  eapply (Config_Build_secure go_cap sample_profile). vm_compute. reflexivity.
Defined.
