(* ===== verification/Buf.v ===== *)
(** The byte buffer of the core (src/upstream/xray-core/common/buf/buffer.go):
    a window into an array, with Go's bounds checks, and its refinement to a
    bounded byte queue.  The recycling pool is not represented. *)
From S2P Require Import Prelude Frame Address.

(** Two's complement of 32 bits. *)
Definition i32 (x : Z) : Z := (x + 2 ^ 31) mod 2 ^ 32 - 2 ^ 31.

Definition Size : nat := 8192.

Inductive buf_error := BufOutOfBound | BufReadError (e : frame_error).

Record Buffer := {
  v : bytes;
  start : Z;
  end_ : Z;
  unmanaged : bool;
  UDP : option Destination
}.

Definition with_window (b : Buffer) (s e : Z) : Buffer :=
  {| v := v b; start := s; end_ := e; unmanaged := unmanaged b; UDP := UDP b |}.

Definition with_array (b : Buffer) (a : bytes) (e : Z) : Buffer :=
  {| v := a; start := start b; end_ := e; unmanaged := unmanaged b; UDP := UDP b |}.

(** [New] on an array from the pool, whose contents are arbitrary. *)
Definition Buffer_New (array : bytes) : Buffer :=
  {| v := array; start := 0; end_ := 0; unmanaged := false; UDP := None |}.

(** [NewExisted] of a slice of the given array. *)
Definition NewExisted (array : bytes) (len : Z) : option Buffer :=
  if decide (length array < Size)%nat then None
  else Some {| v := if decide (len < Z.of_nat Size) then take Size array else take (Z.to_nat len) array;
               start := 0; end_ := len; unmanaged := false; UDP := None |}.

Definition FromBytes (b : bytes) : Buffer :=
  {| v := b; start := 0; end_ := i32 (Z.of_nat (length b)); unmanaged := true; UDP := None |}.

Definition Clear (b : Buffer) : Buffer := with_window b 0 0.

Definition Len (b : Buffer) : Z := i32 (end_ b - start b).

Definition IsEmpty (b : Buffer) : bool := bool_decide (Len b = 0).

Definition IsFull (b : Buffer) : bool := bool_decide (end_ b = Z.of_nat (length (v b))).

(** [b.v[i:j]] and [b.v[i]], with their run-time checks. *)
Definition array_slice (b : Buffer) (i j : Z) : option bytes :=
  if decide (0 ≤ i ∧ 0 ≤ j) then slice (v b) (Z.to_nat i) (Z.to_nat j) else None.

Definition array_at (b : Buffer) (i : Z) : option Z :=
  if decide (0 ≤ i) then v b !! Z.to_nat i else None.

Definition Byte (b : Buffer) (index : Z) : option Z := array_at b (i32 (start b + index)).

Definition SetByte (b : Buffer) (index value : Z) : option Buffer :=
  match Byte b index with
  | None => None
  | Some _ => Some (with_array b (<[Z.to_nat (i32 (start b + index)) := value]> (v b)) (end_ b))
  end.

Definition Bytes (b : Buffer) : option bytes := array_slice b (start b) (end_ b).

(** [Extend]: the new buffer and the extended part, which the caller fills. *)
Definition Extend (b : Buffer) (n : Z) : option (Buffer * bytes) :=
  let e := i32 (end_ b + n) in
  if decide (Z.of_nat (length (v b)) < e) then None
  else ext ← array_slice b (end_ b) e; Some (with_window b (start b) e, ext).

Definition from_end (b : Buffer) (i : Z) : Z := if decide (i < 0) then i32 (i + Len b) else i.

Definition BytesRange (b : Buffer) (from to : Z) : option bytes :=
  array_slice b (i32 (start b + from_end b from)) (i32 (start b + from_end b to)).

Definition BytesFrom (b : Buffer) (from : Z) : option bytes :=
  array_slice b (i32 (start b + from_end b from)) (end_ b).

Definition BytesTo (b : Buffer) (to : Z) : option bytes :=
  let to := from_end b to in
  let to := if decide (to < 0) then 0 else to in
  array_slice b (start b) (i32 (start b + to)).

Definition Check (b : Buffer) : Buffer :=
  let s := if decide (start b < 0) then 0 else start b in
  let e := if decide (end_ b < 0) then 0 else end_ b in
  let s := if decide (e < s) then e else s in
  with_window b s e.

Definition Resize (b : Buffer) (from to : Z) : option Buffer :=
  let from := from_end b from in
  let to := from_end b to in
  if decide (to < from) then None
  else Some (Check (with_window b (i32 (start b + from)) (i32 (start b + to)))).

Definition Advance (b : Buffer) (from : Z) : Buffer :=
  Check (with_window b (i32 (start b + from_end b from)) (end_ b)).

(** [copy] into the array at [i], for [i] within it. *)
Definition overwrite (a : bytes) (i : nat) (d : bytes) : bytes :=
  let d := take (length a - i) d in take i a ++ d ++ drop (i + length d) a.

(** [Write]: copies what fits and reports that count without an error. *)
Definition Write (b : Buffer) (data : bytes) : option (Buffer * nat) :=
  if decide (0 ≤ end_ b ≤ Z.of_nat (length (v b))) then
    let n := Nat.min (length (v b) - Z.to_nat (end_ b)) (length data) in
    Some (with_array b (overwrite (v b) (Z.to_nat (end_ b)) data) (i32 (end_ b + Z.of_nat n)), n)
  else None.

Definition WriteByte (b : Buffer) (c : Z) : option (Buffer * bool) :=
  if IsFull b then Some (b, false)
  else
    match array_at b (end_ b) with
    | None => None
    | Some _ => Some (with_array b (<[Z.to_nat (end_ b) := c]> (v b)) (i32 (end_ b + 1)), true)
    end.

Definition ReadByte (b : Buffer) : option (Buffer * option Z) :=
  if decide (start b = end_ b) then Some (b, None)
  else nb ← array_at b (start b); Some (with_window b (i32 (start b + 1)) (end_ b), Some nb).

Definition ReadBytes (b : Buffer) (length : Z) : option (Buffer * option bytes) :=
  if decide (i32 (end_ b - start b) < length) then Some (b, None)
  else nb ← array_slice b (start b) (i32 (start b + length));
       Some (with_window b (i32 (start b + length)) (end_ b), Some nb).

(** [Read] into a slice of [n] bytes: what was copied, or end of file. *)
Definition Read (b : Buffer) (n : nat) : option (Buffer * option bytes) :=
  if decide (Len b = 0) then Some (b, None)
  else
    content ← array_slice b (start b) (end_ b);
    let got := take n content in
    Some (if decide (i32 (Z.of_nat (length got)) = Len b) then Clear b
          else with_window b (i32 (start b + i32 (Z.of_nat (length got)))) (end_ b), Some got).

(** [ReadFullFrom]: an error leaves the connection unusable, so only the
    successful state is kept. *)
Definition ReadFullFrom (b : Buffer) (reader : stream) (size : Z)
    : option (result buf_error (Buffer * stream)) :=
  let e := i32 (end_ b + size) in
  if decide (Z.of_nat (length (v b)) < e) then Some (Err BufOutOfBound)
  else
    room ← array_slice b (end_ b) e;
    match ReadFull reader (length room) with
    | Err err => Some (Err (BufReadError err))
    | Ok (data, reader) =>
      Some (Ok (with_array b (overwrite (v b) (Z.to_nat (end_ b)) data) (i32 (end_ b + Z.of_nat (length data))),
                reader))
    end.

(** ** The buffer as a bounded queue of bytes *)

Record wf (b : Buffer) : Prop := {
  wf_window : 0 ≤ start b ≤ end_ b;
  wf_array : end_ b ≤ Z.of_nat (length (v b));
  wf_size : Z.of_nat (length (v b)) < 2 ^ 30
}.

Definition content (b : Buffer) : bytes :=
  take (Z.to_nat (end_ b - start b)) (drop (Z.to_nat (start b)) (v b)).

(** Free space behind the content. *)
Definition room (b : Buffer) : nat := length (v b) - Z.to_nat (end_ b).

Lemma i32_small x : - 2 ^ 31 ≤ x < 2 ^ 31 → i32 x = x.
Proof. intros. unfold i32. rewrite Z.mod_small; lia. Qed.

Lemma length_content b : wf b → Z.of_nat (length (content b)) = end_ b - start b.
Proof. intros [H1 H2 H3]. unfold content. rewrite length_take, length_drop. lia. Qed.

Lemma Len_content b : wf b → Len b = Z.of_nat (length (content b)).
Proof.
  intros Hb. pose proof (length_content b Hb). destruct Hb as [H1 H2 H3]. unfold Len.
  rewrite i32_small by lia. lia.
Qed.

Lemma array_slice_wf b i j : wf b → 0 ≤ i ≤ j → j ≤ Z.of_nat (length (v b)) →
  array_slice b i j = Some (take (Z.to_nat (j - i)) (drop (Z.to_nat i) (v b))).
Proof.
  intros Hb Hi Hj. unfold array_slice. rewrite decide_True by lia. rewrite slice_Some by lia.
  do 2 f_equal. lia.
Qed.

Lemma Bytes_content b : wf b → Bytes b = Some (content b).
Proof. intros Hb. pose proof Hb as [H1 H2 H3]. unfold Bytes. by rewrite array_slice_wf by (done || lia). Qed.

Lemma wf_sub b s : wf b → start b ≤ s ≤ end_ b → wf (with_window b s (end_ b)).
Proof. intros [H1 H2 H3] Hs. split; cbn; lia. Qed.

Lemma content_sub b s : wf b → start b ≤ s ≤ end_ b →
  content (with_window b s (end_ b)) = drop (Z.to_nat (s - start b)) (content b).
Proof.
  intros [H1 H2 H3] Hs. unfold content. cbn. rewrite skipn_firstn_comm, drop_drop. f_equal; [lia|].
  f_equal. lia.
Qed.

(** Appending in the array. *)
Lemma length_overwrite a i d : (i ≤ length a)%nat → length (overwrite a i d) = length a.
Proof.
  intros Hi. unfold overwrite. rewrite !length_app, length_drop, !length_take. lia.
Qed.

Lemma append_spec b d : wf b → (length d ≤ room b)%nat →
  let b' := with_array b (overwrite (v b) (Z.to_nat (end_ b)) d) (end_ b + Z.of_nat (length d)) in
  wf b' ∧ content b' = content b ++ d ∧ room b' = (room b - length d)%nat.
Proof.
  intros [H1 H2 H3] Hd. unfold room in *. cbv zeta.
  assert (length (overwrite (v b) (Z.to_nat (end_ b)) d) = length (v b)) as Hl
    by (apply length_overwrite; lia).
  split_all.
  - split; cbn; rewrite ?Hl; lia.
  - unfold content. cbn. unfold overwrite. cbv zeta. rewrite (take_ge d) by lia.
    set (s := Z.to_nat (start b)). set (e := Z.to_nat (end_ b)).
    replace (Z.to_nat (end_ b + Z.of_nat (length d) - start b)) with (e - s + length d)%nat by lia.
    replace (Z.to_nat (end_ b - start b)) with (e - s)%nat by lia.
    rewrite (app_assoc _ d). rewrite drop_app_le by (rewrite length_app, length_take; lia).
    rewrite take_app_le by (rewrite length_drop, length_app, length_take; lia).
    rewrite drop_app_le by (rewrite length_take; lia).
    rewrite take_ge by (rewrite length_app, length_drop, length_take; lia).
    by rewrite skipn_firstn_comm.
  - cbn. rewrite Hl. lia.
Qed.

(** ** Refinement *)

(** The mutating operations, with what they return: a count, a byte, bytes, or
    a success flag ([RNone] is end of file). *)
Inductive op :=
| OpWrite (d : bytes) | OpWriteByte (c : Z) | OpReadByte | OpReadBytes (n : nat) | OpRead (n : nat)
| OpAdvance (k : nat) | OpResize (from to : nat) | OpClear.

Inductive reply := RUnit | RCount (n : nat) | RByte (c : Z) | RBytes (d : bytes) | ROk (b : bool) | REof.

Definition run_op (o : op) (b : Buffer) : option (Buffer * reply) :=
  match o with
  | OpWrite d => '(b, n) ← Write b d; Some (b, RCount n)
  | OpWriteByte c => '(b, ok) ← WriteByte b c; Some (b, ROk ok)
  | OpReadByte => '(b, r) ← ReadByte b; Some (b, match r with Some c => RByte c | None => REof end)
  | OpReadBytes n => '(b, r) ← ReadBytes b (Z.of_nat n);
                     Some (b, match r with Some d => RBytes d | None => REof end)
  | OpRead n => '(b, r) ← Read b n; Some (b, match r with Some d => RBytes d | None => REof end)
  | OpAdvance k => Some (Advance b (Z.of_nat k), RUnit)
  | OpResize f t => b ← Resize b (Z.of_nat f) (Z.of_nat t); Some (b, RUnit)
  | OpClear => Some (Clear b, RUnit)
  end.

(** The same operations on a queue of bytes with free space [r] behind it. *)
Definition queue_op (o : op) (r : nat) (q : bytes) : bytes * reply :=
  match o with
  | OpWrite d => (q ++ take r d, RCount (Nat.min r (length d)))
  | OpWriteByte c => if decide (r = 0%nat) then (q, ROk false) else (q ++ [c], ROk true)
  | OpReadByte => match q with [] => (q, REof) | c :: q' => (q', RByte c) end
  | OpReadBytes n => if decide (length q < n)%nat then (q, REof) else (drop n q, RBytes (take n q))
  | OpRead n => match q with [] => (q, REof) | _ => (drop n q, RBytes (take n q)) end
  | OpAdvance k => (drop k q, RUnit)
  | OpResize f t => (take (t - f) (drop f q), RUnit)
  | OpClear => ([], RUnit)
  end.

(** Arguments within the range of a 32-bit length; cutting stays within the
    content. *)
Definition op_ok (o : op) (b : Buffer) : Prop :=
  match o with
  | OpReadBytes n | OpAdvance n => Z.of_nat n < 2 ^ 30
  | OpResize f t => (f ≤ t)%nat ∧ (t ≤ length (content b))%nat
  | _ => True
  end.

Lemma run_Write b d : wf b → ∃ b', Write b d = Some (b', Nat.min (room b) (length d)) ∧
  wf b' ∧ content b' = content b ++ take (room b) d.
Proof.
  intros Hb. pose proof Hb as [H1 H2 H3]. unfold Write. rewrite decide_True by lia. cbv zeta.
  fold (room b).
  destruct (append_spec b (take (room b) d) Hb) as (Hw & Hc & _); [rewrite length_take; lia|].
  assert (overwrite (v b) (Z.to_nat (end_ b)) d = overwrite (v b) (Z.to_nat (end_ b)) (take (room b) d)) as Ho.
  { unfold overwrite. cbv zeta. fold (room b). by rewrite take_take, Nat.min_id. }
  rewrite length_take in Hw, Hc. eexists. split; [reflexivity|]. rewrite Ho.
  rewrite i32_small by (unfold room; lia). done.
Qed.

Lemma run_WriteByte b c : wf b →
  WriteByte b c = Some (b, false) ∧ room b = 0%nat ∨
  ∃ b', WriteByte b c = Some (b', true) ∧ room b ≠ 0%nat ∧ wf b' ∧ content b' = content b ++ [c].
Proof.
  intros Hb. pose proof Hb as [H1 H2 H3]. unfold WriteByte, IsFull. case_bool_decide as Hf.
  - left. split; [done|]. unfold room. lia.
  - right. unfold array_at. rewrite decide_True by lia.
    assert (Z.to_nat (end_ b) < length (v b))%nat as Hlt by lia.
    destruct (lookup_total_lt (v b) _ Hlt) as [x Hx]. rewrite Hx.
    destruct (append_spec b [c] Hb) as (Hw & Hc & _); [unfold room; cbn; lia|].
    assert (<[Z.to_nat (end_ b) := c]> (v b) = overwrite (v b) (Z.to_nat (end_ b)) [c]) as Ho.
    { unfold overwrite. cbv zeta. rewrite (take_ge [c]) by (cbn; lia).
      rewrite insert_take_drop by done. cbn [app length]. do 3 f_equal. lia. }
    rewrite Ho, i32_small by lia. eexists. split; [reflexivity|]. split; [unfold room; lia|done].
Qed.

Lemma content_nil b : wf b → content b = [] ↔ start b = end_ b.
Proof.
  intros Hb. pose proof (length_content b Hb). split.
  - intros E. rewrite E in H. cbn in H. lia.
  - intros E. apply nil_length_inv. lia.
Qed.

Lemma run_ReadByte b : wf b →
  match content b with
  | [] => ReadByte b = Some (b, None)
  | c :: q => ∃ b', ReadByte b = Some (b', Some c) ∧ wf b' ∧ content b' = q
  end.
Proof.
  intros Hb. pose proof Hb as [H1 H2 H3]. pose proof (content_nil b Hb) as Hn. unfold ReadByte.
  destruct (content b) as [|c q] eqn:E.
  - by rewrite decide_True by (by apply Hn).
  - rewrite decide_False by (intros ?%Hn; done).
    assert (array_at b (start b) = Some c) as ->.
    { unfold array_at. rewrite decide_True by lia. unfold content in E.
      assert ((drop (Z.to_nat (start b)) (v b)) !! 0%nat = Some c) as Hc.
      { destruct (drop _ _) as [|x l]; [by rewrite take_nil in E|].
        destruct (Z.to_nat (end_ b - start b)); [done|]. by injection E as -> _. }
      rewrite lookup_drop, Nat.add_0_r in Hc. done. }
    cbn [mbind option_bind]. pose proof (length_content b Hb) as Hl. rewrite E in Hl. cbn in Hl.
    rewrite i32_small by lia. eexists. split; [reflexivity|]. split; [apply wf_sub; [done|lia]|].
    rewrite content_sub by (done || lia). rewrite E. by replace (Z.to_nat (start b + 1 - start b)) with 1%nat by lia.
Qed.

Lemma run_take b n : wf b → (n ≤ length (content b))%nat →
  array_slice b (start b) (start b + Z.of_nat n) = Some (take n (content b)) ∧
  wf (with_window b (start b + Z.of_nat n) (end_ b)) ∧
  content (with_window b (start b + Z.of_nat n) (end_ b)) = drop n (content b).
Proof.
  intros Hb Hn. pose proof (length_content b Hb) as Hl. pose proof Hb as [H1 H2 H3]. split_all.
  - rewrite array_slice_wf by (done || lia). f_equal. unfold content. rewrite take_take. f_equal. lia.
  - apply wf_sub; [done|lia].
  - rewrite content_sub by (done || lia). f_equal. lia.
Qed.

Lemma run_ReadBytes b n : wf b → Z.of_nat n < 2 ^ 30 →
  if decide (length (content b) < n)%nat then ReadBytes b (Z.of_nat n) = Some (b, None)
  else ∃ b', ReadBytes b (Z.of_nat n) = Some (b', Some (take n (content b))) ∧ wf b' ∧
             content b' = drop n (content b).
Proof.
  intros Hb Hn. pose proof (length_content b Hb) as Hl. pose proof Hb as [H1 H2 H3].
  unfold ReadBytes. rewrite (i32_small (end_ b - start b)) by lia. case_decide as Hd.
  - by rewrite decide_True by lia.
  - rewrite decide_False by lia. rewrite i32_small by lia.
    destruct (run_take b n Hb) as (-> & Hw & Hc); [lia|]. cbn [mbind option_bind]. eauto.
Qed.

Lemma Clear_spec b : wf b → wf (Clear b) ∧ content (Clear b) = [].
Proof. intros [H1 H2 H3]. split; [split; cbn; lia|done]. Qed.

Lemma run_Read b n : wf b →
  match content b with
  | [] => Read b n = Some (b, None)
  | _ => ∃ b', Read b n = Some (b', Some (take n (content b))) ∧ wf b' ∧ content b' = drop n (content b)
  end.
Proof.
  intros Hb. pose proof (length_content b Hb) as Hl. pose proof (Len_content b Hb) as HL.
  pose proof Hb as [H1 H2 H3]. unfold Read.
  assert (array_slice b (start b) (end_ b) = Some (content b)) as Hs by (by apply Bytes_content).
  destruct (decide (content b = [])) as [E|E].
  - rewrite E in HL |- *. by rewrite decide_True.
  - destruct (content b) as [|c0 q0] eqn:Eq; [done|]. rewrite <- Eq in *. clear Eq c0 q0.
    assert (0 < length (content b))%nat by (destruct (content b); [done|cbn; lia]).
    rewrite decide_False by lia. rewrite Hs. cbn [mbind option_bind]. cbv zeta.
    assert (length (take n (content b)) ≤ length (content b))%nat by (rewrite length_take; lia).
    rewrite i32_small by lia. eexists. split; [reflexivity|].
    case_decide as Hd.
    + destruct (Clear_spec b Hb) as [Hw Hc]. split; [done|]. rewrite Hc. symmetry. apply drop_ge.
      rewrite length_take in Hd. lia.
    + rewrite i32_small by lia. destruct (run_take b (length (take n (content b))) Hb) as (_ & Hw & Hc); [lia|].
      split; [done|]. rewrite Hc, length_take. f_equal. rewrite length_take in Hd. lia.
Qed.

Lemma Check_spec b s e : 0 ≤ s → 0 ≤ e →
  Check (with_window b s e) = with_window b (Z.min s e) e.
Proof.
  intros Hs He. unfold Check. cbn. rewrite (decide_False (P := s < 0)) by lia.
  rewrite (decide_False (P := e < 0)) by lia. unfold with_window. cbn. f_equal. case_decide; lia.
Qed.

Lemma run_Advance b k : wf b → Z.of_nat k < 2 ^ 30 →
  wf (Advance b (Z.of_nat k)) ∧ content (Advance b (Z.of_nat k)) = drop k (content b).
Proof.
  intros Hb Hk. pose proof (length_content b Hb) as Hl. pose proof Hb as [H1 H2 H3].
  unfold Advance, from_end. rewrite decide_False by lia. rewrite i32_small by lia.
  rewrite Check_spec by lia. split; [apply wf_sub; [done|lia]|].
  rewrite content_sub by (done || lia). destruct (decide (Z.of_nat k ≤ end_ b - start b)).
  - f_equal. lia.
  - rewrite !drop_ge by lia. done.
Qed.

Lemma run_Resize b f t : wf b → (f ≤ t)%nat → (t ≤ length (content b))%nat →
  ∃ b', Resize b (Z.of_nat f) (Z.of_nat t) = Some b' ∧ wf b' ∧ content b' = take (t - f) (drop f (content b)).
Proof.
  intros Hb Hft Ht. pose proof (length_content b Hb) as Hl. pose proof Hb as [H1 H2 H3].
  unfold Resize, from_end. rewrite !(decide_False (P := Z.of_nat _ < 0)) by lia. cbv zeta.
  rewrite decide_False by lia. rewrite !i32_small by lia. rewrite Check_spec by lia.
  eexists. split; [reflexivity|]. rewrite Z.min_l by lia. split; [split; cbn; lia|].
  unfold content. cbn. rewrite skipn_firstn_comm, drop_drop, take_take. f_equal; [lia|]. f_equal. lia.
Qed.

(** Every operation of a well-formed buffer returns without a run-time
    panic, keeps it well-formed, and acts on its content as on a queue of bytes
    with bounded space: in particular a write keeps only what fits and reports
    that count. *)
Theorem buffer_refines_queue (o : op) (b : Buffer) :
  wf b → op_ok o b →
  ∃ b' r, run_op o b = Some (b', r) ∧ wf b' ∧ queue_op o (room b) (content b) = (content b', r).
Proof.
  intros Hb Ho. destruct o as [d|c| |n|n|k|f t|]; cbn [run_op queue_op op_ok] in *.
  - destruct (run_Write b d Hb) as (b' & -> & Hw & Hc). do 2 eexists; split; [reflexivity|]; by rewrite Hc.
  - destruct (run_WriteByte b c Hb) as [[-> Hr]|(b' & -> & Hr & Hw & Hc)]; cbn.
    + rewrite decide_True by done. by do 2 eexists.
    + rewrite decide_False by done. do 2 eexists; split; [reflexivity|]; by rewrite Hc.
  - pose proof (run_ReadByte b Hb) as H. destruct (content b) as [|c q] eqn:E.
    + rewrite H. cbn. exists b, REof. by rewrite E.
    + destruct H as (b' & -> & Hw & Hc). cbn. exists b', (RByte c). by rewrite Hc.
  - pose proof (run_ReadBytes b n Hb Ho) as H. case_decide.
    + rewrite H. by do 2 eexists.
    + destruct H as (b' & -> & Hw & Hc). do 2 eexists; split; [reflexivity|]; by rewrite Hc.
  - pose proof (run_Read b n Hb) as H. destruct (content b) as [|c q] eqn:E.
    + rewrite H. cbn. exists b, REof. by rewrite E.
    + destruct H as (b' & -> & Hw & Hc). do 2 eexists; split; [reflexivity|]; by rewrite Hc.
  - destruct (run_Advance b k Hb Ho) as [Hw Hc]. rewrite <- Hc. by do 2 eexists.
  - destruct (run_Resize b f t Hb) as (b' & -> & Hw & Hc); [lia|lia|]. do 2 eexists; split; [reflexivity|]; by rewrite Hc.
  - destruct (Clear_spec b Hb) as [Hw Hc]. rewrite <- Hc. by do 2 eexists.
Qed.

(** ** Reading into a buffer *)

Lemma ReadFullFrom_spec b s x rest size :
  wf b → contents s = x ++ rest → size = Z.of_nat (length x) → (length x ≤ room b)%nat →
  ∃ b' s', ReadFullFrom b s size = Some (Ok (b', s')) ∧ contents s' = rest ∧ final s' = final s ∧
           wf b' ∧ content b' = content b ++ x ∧ room b' = (room b - length x)%nat.
Proof.
  intros Hb Hs -> Hx. pose proof Hb as [H1 H2 H3]. unfold room in Hx. unfold ReadFullFrom.
  rewrite i32_small by lia. rewrite decide_False by lia. rewrite array_slice_wf by (done || lia).
  cbn [mbind option_bind]. rewrite length_take, length_drop.
  replace (Nat.min _ _) with (length x) by lia.
  destruct (ReadFull_enough s x rest (length x) Hs eq_refl) as (s' & -> & Hc' & Hf').
  rewrite i32_small by lia. destruct (append_spec b x Hb) as (Hw & Hc & Hr); [unfold room; lia|].
  do 2 eexists. split; [reflexivity|]. split_all; try done.
Qed.

Lemma BytesFrom_tail b x y : wf b → content b = x ++ y → y ≠ [] →
  BytesFrom b (- Z.of_nat (length y)) = Some y.
Proof.
  intros Hb Hc Hy. pose proof (length_content b Hb) as Hl. pose proof Hb as [H1 H2 H3].
  pose proof (Len_content b Hb) as HL. rewrite Hc, length_app in HL, Hl.
  assert (0 < length y)%nat by (destruct y; [done|cbn; lia]).
  unfold BytesFrom, from_end. rewrite decide_True by lia. rewrite HL.
  rewrite (i32_small (- _ + _)) by lia. rewrite i32_small by lia. rewrite array_slice_wf by (done || lia).
  f_equal. pose proof (f_equal (drop (length x)) Hc) as Hd. rewrite drop_app_length in Hd.
  rewrite <- Hd. unfold content. rewrite skipn_firstn_comm, drop_drop. f_equal; [lia|]. f_equal. lia.
Qed.

Lemma Byte_last b x c : wf b → content b = x ++ [c] → Byte b (Len b - 1) = Some c.
Proof.
  intros Hb Hc. pose proof (length_content b Hb) as Hl. pose proof Hb as [H1 H2 H3].
  rewrite Len_content by done. rewrite Hc, length_app in *. cbn [length] in *.
  unfold Byte. rewrite i32_small by lia. unfold array_at. rewrite decide_True by lia.
  assert (content b !! length x = Some c) as Hx by (rewrite Hc; by apply list_lookup_middle).
  unfold content in Hx. rewrite lookup_take_lt in Hx by lia. rewrite lookup_drop in Hx.
  rewrite <- Hx. f_equal. lia.
Qed.

Lemma wf_New array : length array = Size → wf (Buffer_New array) ∧
  content (Buffer_New array) = [] ∧ room (Buffer_New array) = Size.
Proof.
  intros Hl. assert (Z.of_nat (length array) = 8192) as Hz by (rewrite Hl; reflexivity).
  split_all; [split; cbn [start end_ v Buffer_New]; lia|done|].
  unfold room. cbn [v end_ Buffer_New]. rewrite Hl. apply Nat.sub_0_r.
Qed.

Definition fresh : Buffer := Buffer_New (replicate Size 0).

Lemma fresh_wf : wf fresh.
Proof. apply wf_New, length_replicate. Qed.

Lemma buffer_refines_queue_witness :
  ∃ b' r, run_op (OpWrite (lit "abc")) fresh = Some (b', r) ∧ wf b' ∧
          queue_op (OpWrite (lit "abc")) (room fresh) (content fresh) = (content b', r).
Proof. apply (buffer_refines_queue (OpWrite (lit "abc")) fresh); [apply fresh_wf|exact I]. Defined.
