(* ===== verification/AddressParser.v ===== *)
(** The wire form of addresses and ports
    (src/upstream/xray-core/common/protocol/address.go), which the VLESS,
    Trojan and mux headers share. *)
From S2P Require Import Prelude GoText NetIP NetIP6 GoConv Address Transport Frame Uuid Buf.

(** ** Options *)

Inductive AddressOption :=
| PortThenAddress
| AddressFamilyByte (b : Z) (f : AddressFamily)
| WithAddressTypeParser (atp : Z → Z).

Definition afInvalid : Z := 255.

(** The two 16-entry tables; an entry without a family is invalid. *)
Record addressParser := {
  addrTypeMap : list (option AddressFamily);
  addrByteMap : list Z;
  portFirst : bool;
  typeParser : option (Z → Z)
}.

(** The index of a family in [addrByteMap]. *)
Definition family_index (f : AddressFamily) : nat :=
  match f with AddressFamilyIPv4 => 0 | AddressFamilyIPv6 => 1 | AddressFamilyDomain => 2 end.

(** One option; a family byte of 16 or more panics. *)
Definition apply_option (o : AddressOption) (p : addressParser) : option addressParser :=
  match o with
  | PortThenAddress =>
    Some {| addrTypeMap := addrTypeMap p; addrByteMap := addrByteMap p; portFirst := true;
            typeParser := typeParser p |}
  | AddressFamilyByte b f =>
    if decide (16 ≤ b) then None
    else Some {| addrTypeMap := <[Z.to_nat b := Some f]> (addrTypeMap p);
                 addrByteMap := <[family_index f := b]> (addrByteMap p);
                 portFirst := portFirst p; typeParser := typeParser p |}
  | WithAddressTypeParser atp =>
    Some {| addrTypeMap := addrTypeMap p; addrByteMap := addrByteMap p; portFirst := portFirst p;
            typeParser := Some atp |}
  end.

Fixpoint apply_options (os : list AddressOption) (p : addressParser) : option addressParser :=
  match os with
  | [] => Some p
  | o :: os => p ← apply_option o p; apply_options os p
  end.

Definition NewAddressParser (options : list AddressOption) : option addressParser :=
  apply_options options
    {| addrTypeMap := replicate 16 None; addrByteMap := replicate 16 afInvalid; portFirst := false;
       typeParser := None |}.

(** ** Writing *)

Definition isDomainTooLong (domain : bytes) : bool := bool_decide (256 < length domain)%nat.

Definition writePort (port : Z) : bytes := be_bytes 2 port.

(** [writeAddress]: the bytes given to the writer. *)
Definition writeAddress (p : addressParser) (a : Address) : outcome bytes :=
  match addrByteMap p !! family_index (Address.Family a) with
  | None => Panic
  | Some tb =>
    if decide (tb = afInvalid) then Fail
    else
      match a with
      | ipv4Address b | ipv6Address b => Ret ([tb] ++ b)
      | domainAddress domain =>
        if isDomainTooLong domain then Fail
        else Ret ([tb; u8 (Z.of_nat (length domain))] ++ domain)
      end
  end.

Definition WriteAddressPort (p : addressParser) (a : Address) (port : Z) : outcome bytes :=
  match writeAddress p a with
  | Ret b => Ret (if portFirst p then writePort port ++ b else b ++ writePort port)
  | Fail => Fail
  | Panic => Panic
  end.

(** ** Reading *)

Definition maybeIPPrefix (b : Z) : bool := bool_decide (b = 91 ∨ 48 ≤ b ≤ 57).

Definition domain_rune (c : Z) : bool :=
  bool_decide (48 ≤ c ≤ 57 ∨ 97 ≤ c ≤ 122 ∨ 65 ≤ c ≤ 90 ∨ c = 45 ∨ c = 46 ∨ c = 95).

Definition isValidDomain (d : bytes) : bool := forallb (λ rw, domain_rune rw.1) (Utf8.runes d).

(** Fallible reading: a read error is [Fail], a run-time panic [Panic]. *)
Definition read_full (b : Buffer) (s : stream) (size : Z) : outcome (Buffer * stream) :=
  match ReadFullFrom b s size with
  | None => Panic
  | Some (Err _) => Fail
  | Some (Ok r) => Ret r
  end.

Definition readPort (b : Buffer) (s : stream) : outcome (Z * (Buffer * stream)) :=
  outcome_bind (read_full b s 2) (λ '(b, s),
  ret_or_panic (BytesFrom b (-2)) (λ bs,
  ret_or_panic (PortFromBytes bs) (λ port, Ret (port, (b, s))))).

(** The domain branch of [readAddress]; the first index panics on an empty
    text. *)
Definition read_domain (domain : bytes) : outcome (option Address) :=
  match domain with
  | [] => Panic
  | c :: _ =>
    let plain := if isValidDomain domain then Ret (Some (DomainAddress domain)) else Fail in
    if maybeIPPrefix c then
      match ParseAddress domain with
      | None => Panic
      | Some a => if IsIP (Address.Family a) then Ret (Some a) else plain
      end
    else plain
  end.

Definition readAddress (p : addressParser) (b : Buffer) (s : stream)
    : outcome (option Address * (Buffer * stream)) :=
  outcome_bind (read_full b s 1) (λ '(b, s),
  ret_or_panic (Byte b (Len b - 1)) (λ addrType,
  let addrType := match typeParser p with Some f => f addrType | None => addrType end in
  if decide (16 ≤ addrType) then Fail
  else
    ret_or_panic (addrTypeMap p !! Z.to_nat addrType) (λ family,
    match family with
    | None => Fail
    | Some AddressFamilyIPv4 =>
      outcome_bind (read_full b s 4) (λ '(b, s),
      ret_or_panic (BytesFrom b (-4)) (λ ip, Ret (IPAddress ip, (b, s))))
    | Some AddressFamilyIPv6 =>
      outcome_bind (read_full b s 16) (λ '(b, s),
      ret_or_panic (BytesFrom b (-16)) (λ ip, Ret (IPAddress ip, (b, s))))
    | Some AddressFamilyDomain =>
      outcome_bind (read_full b s 1) (λ '(b, s),
      ret_or_panic (Byte b (Len b - 1)) (λ domainLength,
      outcome_bind (read_full b s domainLength) (λ '(b, s),
      ret_or_panic (BytesFrom b (- domainLength)) (λ domain,
      outcome_bind (read_domain domain) (λ a, Ret (a, (b, s)))))))
    end))).

Definition ReadAddressPort (p : addressParser) (b : Buffer) (s : stream)
    : outcome (option Address * Z * stream) :=
  if portFirst p then
    outcome_bind (readPort b s) (λ '(port, (b, s)),
    outcome_bind (readAddress p b s) (λ '(a, (b, s)), Ret (a, port, s)))
  else
    outcome_bind (readAddress p b s) (λ '(a, (b, s)),
    outcome_bind (readPort b s) (λ '(port, (b, s)), Ret (a, port, s))).

(** ** Round trip *)

(** Each family has a type byte that the type table maps back to it. *)
Definition parser_ok (p : addressParser) : Prop :=
  typeParser p = None ∧
  ∀ f, ∃ tb, addrByteMap p !! family_index f = Some tb ∧ 0 ≤ tb < 16 ∧
             addrTypeMap p !! Z.to_nat tb = Some (Some f).

(** The addresses the wire form can carry. *)
Definition wire_ok (a : Address) : Prop :=
  match a with
  | ipv4Address b => wf_bytes b ∧ length b = 4%nat
  | ipv6Address b => wf_bytes b ∧ length b = 16%nat ∧ To4 b = None
  | domainAddress d => d ≠ [] ∧ (length d ≤ 255)%nat ∧ Forall (λ c, domain_rune c = true) d ∧
                       ParseIP d = None
  end.

Lemma read_full_spec b s x rest size :
  wf b → contents s = x ++ rest → size = Z.of_nat (length x) → (length x ≤ room b)%nat →
  ∃ b' s', read_full b s size = Ret (b', s') ∧ contents s' = rest ∧ final s' = final s ∧
           wf b' ∧ content b' = content b ++ x ∧ room b' = (room b - length x)%nat.
Proof.
  intros Hb Hs Hz Hr. destruct (ReadFullFrom_spec b s x rest size Hb Hs Hz Hr) as (b' & s' & E & H).
  exists b', s'. unfold read_full. by rewrite E.
Qed.

Lemma readPort_spec b s port rest :
  wf b → is_uint 16 port → contents s = writePort port ++ rest → (2 ≤ room b)%nat →
  ∃ b' s', readPort b s = Ret (port, (b', s')) ∧ contents s' = rest ∧ final s' = final s ∧
           wf b' ∧ room b' = (room b - 2)%nat.
Proof.
  intros Hb Hp Hs Hr. unfold is_uint in Hp.
  destruct (read_full_spec b s (writePort port) rest 2 Hb Hs) as (b' & s' & E & Hc & Hf & Hw & Hcon & Hroom);
    [done|done|].
  exists b', s'. unfold readPort. rewrite E. cbn [outcome_bind].
  pose proof (BytesFrom_tail b' (content b) (writePort port) Hw Hcon ltac:(done)) as Hb'.
  change (- Z.of_nat (length (writePort port))) with (-2) in Hb'. rewrite Hb'. cbn [ret_or_panic].
  assert (PortFromBytes (writePort port) = Some port) as ->; [|done].
  unfold writePort, PortFromBytes. cbn [be_bytes]. f_equal.
  pose proof (be_val_be_bytes 2 port ltac:(cbn; lia)) as Hv. cbn in Hv. exact Hv.
Qed.

Lemma domain_rune_high r : 0x80 ≤ r → domain_rune r = false.
Proof. intros. unfold domain_rune. apply bool_decide_eq_false. lia. Qed.

Lemma read_domain_plain d : wire_ok (domainAddress d) → read_domain d = Ret (Some (domainAddress d)).
Proof.
  intros (Hne & Hl & Hc & Hip).
  assert (isValidDomain d = true) as Hv
    by (unfold isValidDomain; by apply (runes_all_ascii domain_rune d domain_rune_high)).
  unfold read_domain. destruct d as [|c q] eqn:E; [done|]. rewrite <- E in *. rewrite Hv. cbv zeta.
  destruct (maybeIPPrefix c); [|done].
  destruct (ends_ok _ d Hne Hc) as (x & y & Hh & Hla & Hx & Hy).
  unfold domain_rune in Hx, Hy. apply bool_decide_eq_true in Hx, Hy.
  rewrite (ParseAddress_plain d x y Hh Hla) by lia. by rewrite Hip.
Qed.

Lemma readAddress_spec p a w b s rest :
  parser_ok p → wire_ok a → writeAddress p a = Ret w → wf b → contents s = w ++ rest →
  (257 ≤ room b)%nat →
  ∃ b' s', readAddress p b s = Ret (Some a, (b', s')) ∧ contents s' = rest ∧ final s' = final s ∧
           wf b' ∧ (room b - 257 ≤ room b')%nat.
Proof.
  intros [Htp Hfam] Ha Hw Hb Hs Hr. unfold writeAddress in Hw.
  destruct (Hfam (Address.Family a)) as (tb & Hmap & Htb & Htype). rewrite Hmap in Hw.
  rewrite decide_False in Hw by (unfold afInvalid; lia).
  assert (∃ x, w = [tb] ++ x) as [x ->].
  { destruct a as [i|i|d]; [| |destruct (isDomainTooLong d)]; try done; injection Hw as <-; by eexists. }
  rewrite <- app_assoc in Hs.
  destruct (read_full_spec b s [tb] (x ++ rest) 1 Hb Hs) as (b1 & s1 & E1 & Hc1 & Hf1 & Hw1 & Hcon1 & Hr1);
    [done|cbn; lia|]. cbn [length] in Hr1.
  unfold readAddress. rewrite E1. cbn [outcome_bind]. rewrite (Byte_last b1 _ tb Hw1 Hcon1).
  cbn [ret_or_panic]. rewrite Htp. cbv zeta. rewrite decide_False by lia. rewrite Htype. cbn [ret_or_panic].
  destruct a as [i|i|d]; cbn [Address.Family].
  - injection Hw as <-. destruct Ha as [Hwf Hlen].
    destruct (read_full_spec b1 s1 i rest 4 Hw1 Hc1) as (b2 & s2 & E2 & Hc2 & Hf2 & Hw2 & Hcon2 & Hr2);
      [by rewrite Hlen|lia|]. rewrite E2. cbn [outcome_bind].
    pose proof (BytesFrom_tail b2 _ i Hw2 Hcon2 ltac:(by intros ->)) as Hb2. rewrite Hlen in Hb2.
    change (- Z.of_nat 4) with (-4) in Hb2. rewrite Hb2. cbn [ret_or_panic].
    exists b2, s2. split_all; [|done|congruence|done|lia].
    unfold IPAddress. by rewrite decide_True.
  - injection Hw as <-. destruct Ha as (Hwf & Hlen & H4).
    destruct (read_full_spec b1 s1 i rest 16 Hw1 Hc1) as (b2 & s2 & E2 & Hc2 & Hf2 & Hw2 & Hcon2 & Hr2);
      [by rewrite Hlen|lia|]. rewrite E2. cbn [outcome_bind].
    pose proof (BytesFrom_tail b2 _ i Hw2 Hcon2 ltac:(by intros ->)) as Hb2. rewrite Hlen in Hb2.
    change (- Z.of_nat 16) with (-16) in Hb2. rewrite Hb2. cbn [ret_or_panic].
    exists b2, s2. split_all; [|done|congruence|done|lia].
    destruct (IPAddress_spec i Hwf Hlen) as (a & -> & [[_ H4']|[-> _]]); [congruence|done].
  - destruct (isDomainTooLong d) eqn:Elong; [done|]. injection Hw as <-. pose proof Ha as (Hne & Hlen & _ & _).
    rewrite wrap_small in Hc1 by (unfold is_uint; lia).
    change (contents s1 = [Z.of_nat (length d)] ++ (d ++ rest)) in Hc1.
    destruct (read_full_spec b1 s1 [Z.of_nat (length d)] (d ++ rest) 1 Hw1 Hc1)
      as (b2 & s2 & E2 & Hc2 & Hf2 & Hw2 & Hcon2 & Hr2); [done|cbn; lia|]. cbn [length] in Hr2.
    rewrite E2. cbn [outcome_bind]. rewrite (Byte_last b2 _ _ Hw2 Hcon2). cbn [ret_or_panic].
    destruct (read_full_spec b2 s2 d rest (Z.of_nat (length d)) Hw2 Hc2)
      as (b3 & s3 & E3 & Hc3 & Hf3 & Hw3 & Hcon3 & Hr3); [done|lia|].
    rewrite E3. cbn [outcome_bind]. rewrite (BytesFrom_tail b3 _ d Hw3 Hcon3 Hne). cbn [ret_or_panic].
    rewrite read_domain_plain by done. cbn [outcome_bind].
    exists b3, s3. split_all; [done|done|congruence|done|lia].
Qed.

Lemma AddressPort_roundtrip p a port w b s rest :
  parser_ok p → wire_ok a → is_uint 16 port → WriteAddressPort p a port = Ret w →
  wf b → (259 ≤ room b)%nat → contents s = w ++ rest →
  ∃ s', ReadAddressPort p b s = Ret (Some a, port, s') ∧ contents s' = rest ∧ final s' = final s.
Proof.
  intros Hp Ha Hport Hw Hb Hr Hs. unfold WriteAddressPort in Hw.
  destruct (writeAddress p a) as [wa| |] eqn:Ea; try done. apply Ret_inj in Hw as <-.
  unfold ReadAddressPort. destruct (portFirst p); cbv iota in Hs.
  - rewrite <- app_assoc in Hs.
    destruct (readPort_spec b s port _ Hb Hport Hs) as (b1 & s1 & -> & Hc1 & Hf1 & Hw1 & Hr1); [lia|].
    cbn [outcome_bind].
    destruct (readAddress_spec p a wa b1 s1 rest) as (b2 & s2 & -> & Hc2 & Hf2 & _); try done; [lia|].
    cbn [outcome_bind]. exists s2. split_all; [done|done|congruence].
  - rewrite <- app_assoc in Hs.
    destruct (readAddress_spec p a wa b s _ Hp Ha Ea Hb Hs) as (b1 & s1 & -> & Hc1 & Hf1 & Hw1 & Hr1); [lia|].
    cbn [outcome_bind].
    destruct (readPort_spec b1 s1 port rest Hw1 Hport Hc1) as (b2 & s2 & -> & Hc2 & Hf2 & _); [lia|].
    cbn [outcome_bind]. exists s2. split_all; [done|done|congruence].
Qed.

(** For a parser whose type bytes are consistent, what [WriteAddressPort]
    writes for an address and a port, [ReadAddressPort] reads back from any
    chunking of the stream, consuming exactly these bytes, in both orders of
    port and address. *)
Theorem ReadAddressPort_WriteAddressPort (p : addressParser) (a : Address) (port : Z) (w : bytes)
    (b : Buffer) (s : stream) (rest : bytes) :
  parser_ok p → wire_ok a → is_uint 16 port → WriteAddressPort p a port = Ret w →
  wf b → (259 ≤ room b)%nat → contents s = w ++ rest →
  ∃ s', ReadAddressPort p b s = Ret (Some a, port, s') ∧ contents s' = rest ∧ final s' = final s.
Proof. apply AddressPort_roundtrip. Qed.

(** ** The parsers of the protocols *)

(** VLESS and mux: port first, types 1, 2, 3. *)
Definition vless_options : list AddressOption :=
  [AddressFamilyByte 1 AddressFamilyIPv4; AddressFamilyByte 2 AddressFamilyDomain;
   AddressFamilyByte 3 AddressFamilyIPv6; PortThenAddress].

(** Trojan: address first, types 1, 4, 3. *)
Definition trojan_options : list AddressOption :=
  [AddressFamilyByte 1 AddressFamilyIPv4; AddressFamilyByte 4 AddressFamilyIPv6;
   AddressFamilyByte 3 AddressFamilyDomain].

Definition parser_of (os : list AddressOption) : addressParser :=
  default {| addrTypeMap := []; addrByteMap := []; portFirst := false; typeParser := None |}
    (NewAddressParser os).

Lemma vless_parser_ok : parser_ok (parser_of vless_options).
Proof. split; [done|]. intros []; cbn; eexists; (split_all; [reflexivity|lia..|reflexivity]). Qed.

Lemma trojan_parser_ok : parser_ok (parser_of trojan_options).
Proof. split; [done|]. intros []; cbn; eexists; (split_all; [reflexivity|lia..|reflexivity]). Qed.

Lemma ReadAddressPort_WriteAddressPort_witness :
  ∃ s', ReadAddressPort (parser_of trojan_options) fresh
          {| chunks := [[3; 5]; lit "a.org"; [1; 187; 9]]; final := ErrEOF |} =
        Ret (Some (DomainAddress (lit "a.org")), 443, s') ∧ contents s' = [9] ∧ final s' = ErrEOF.
Proof.
  apply (ReadAddressPort_WriteAddressPort (parser_of trojan_options) (DomainAddress (lit "a.org")) 443
    ([3; 5] ++ lit "a.org" ++ [1; 187]) fresh
    {| chunks := [[3; 5]; lit "a.org"; [1; 187; 9]]; final := ErrEOF |} [9]).
  - apply trojan_parser_ok.
  - split; [done|]. split; [cbn; lia|].
    split; [apply (bool_decide_unpack _); vm_compute; exact I|vm_compute; reflexivity].
  - apply (bool_decide_unpack _). vm_compute. exact I.
  - vm_compute. reflexivity.
  - apply fresh_wf.
  - apply (bool_decide_unpack _). vm_compute. exact I.
  - vm_compute. reflexivity.
Defined.

(** A name of 256 bytes passes the length check, but its length byte is 0. *)
Definition name256 : bytes := replicate 256 97.

Example long_domain_is_misencoded :
  writeAddress (parser_of vless_options) (DomainAddress name256) = Ret ([2; 0] ++ name256) ∧
  readAddress (parser_of vless_options) fresh
    {| chunks := [[2; 0] ++ name256]; final := ErrEOF |} = Fail.
Proof. split; vm_compute; reflexivity. Qed.
