(* ===== verification/BufAppend.v ===== *)
(** Writing encoded values into a buffer: the calls the encoders make on
    [buf.Buffer] (src/upstream/xray-core/common/buf/buffer.go) and on the address
    parser, and what they append. *)
From S2P Require Import Prelude GoText NetIP Address Transport Frame Uuid Buf AddressParser.

(** Fill a part of the array that [Extend] returned. *)
Definition patch (b : Buffer) (i : Z) (d : bytes) : Buffer :=
  with_array b (overwrite (v b) (Z.to_nat i) d) (end_ b).

(** [common.Must(b.WriteByte(c))] *)
Definition must_byte (b : Buffer) (c : Z) : outcome Buffer :=
  match WriteByte b c with Some (b, true) => Ret b | _ => Panic end.

(** [b.WriteByte(c)] with its error passed on. *)
Definition try_byte (b : Buffer) (c : Z) : outcome Buffer :=
  match WriteByte b c with Some (b, true) => Ret b | Some (_, false) => Fail | None => Panic end.

(** [b.Write(d)], its count ignored. *)
Definition write_all (b : Buffer) (d : bytes) : outcome Buffer :=
  ret_or_panic (Write b d) (λ '(b, _), Ret b).

(** [addrParser.WriteAddressPort(b, addr, port)]; a nil address panics. *)
Definition write_address (p : addressParser) (b : Buffer) (a : option Address) (port : Z) : outcome Buffer :=
  ret_or_panic a (λ a, outcome_bind (WriteAddressPort p a port) (write_all b)).

(** ** Writing *)

Lemma array_split b : wf b →
  v b = take (Z.to_nat (start b)) (v b) ++ content b ++ drop (Z.to_nat (end_ b)) (v b).
Proof.
  intros [H1 H2 H3]. unfold content. rewrite <- (take_drop (Z.to_nat (start b)) (v b)) at 1. f_equal.
  rewrite <- (take_drop (Z.to_nat (end_ b - start b)) (drop (Z.to_nat (start b)) (v b))) at 1. f_equal.
  rewrite drop_drop. f_equal. lia.
Qed.

Lemma patch_spec b x old d y :
  wf b → content b = x ++ old ++ y → length d = length old →
  wf (patch b (start b + Z.of_nat (length x)) d) ∧
  content (patch b (start b + Z.of_nat (length x)) d) = x ++ d ++ y ∧
  room (patch b (start b + Z.of_nat (length x)) d) = room b ∧
  UDP (patch b (start b + Z.of_nat (length x)) d) = UDP b.
Proof.
  intros Hb Hc Hd. pose proof (array_split b Hb) as Hv. pose proof (length_content b Hb) as Hlc.
  pose proof Hb as [H1 H2 H3]. set (pre := take (Z.to_nat (start b)) (v b)) in *.
  set (post := drop (Z.to_nat (end_ b)) (v b)) in *.
  assert (length pre = Z.to_nat (start b)) as Hpre by (unfold pre; rewrite length_take; lia).
  assert (length (v b) = (length pre + length (content b) + length post)%nat) as Hlv
    by (rewrite Hv at 1; rewrite !length_app; lia).
  rewrite Hc, !length_app in Hlc, Hlv.
  assert (overwrite (v b) (Z.to_nat (start b + Z.of_nat (length x))) d = pre ++ (x ++ d ++ y) ++ post) as Ho.
  { unfold overwrite. cbv zeta. rewrite (take_ge d) by lia.
    replace (Z.to_nat (start b + Z.of_nat (length x))) with (length (pre ++ x)) by (rewrite length_app; lia).
    rewrite Hv, Hc. rewrite <- !app_assoc. rewrite (app_assoc pre x).
    rewrite take_app_length. rewrite <- !app_assoc. do 3 f_equal.
    rewrite (app_assoc pre x), (app_assoc (pre ++ x) old). apply drop_app_length'.
    rewrite !length_app. lia. }
  unfold patch. rewrite Ho. split_all.
  - split; cbn; rewrite ?length_app; rewrite ?length_app; lia.
  - unfold content. cbn [v start end_ with_array]. rewrite drop_app_length' by lia.
    apply take_app_length'. rewrite !length_app. lia.
  - unfold room. cbn. rewrite !length_app. lia.
  - done.
Qed.

(** [b'] is [b] with [d] appended. *)
Record appended (b : Buffer) (d : bytes) (b' : Buffer) : Prop := {
  app_wf : wf b';
  app_content : content b' = content b ++ d;
  app_room : room b' = (room b - length d)%nat;
  app_UDP : UDP b' = UDP b;
  app_start : start b' = start b
}.

Lemma appended_trans b1 d1 b2 d2 b3 :
  appended b1 d1 b2 → appended b2 d2 b3 → appended b1 (d1 ++ d2) b3.
Proof.
  intros [W1 C1 R1 U1 S1] [W2 C2 R2 U2 S2]. split; [done| | |congruence|congruence].
  - by rewrite C2, C1, app_assoc.
  - rewrite length_app. lia.
Qed.

Lemma array_append b d : wf b → (length d ≤ room b)%nat →
  appended b d (with_array b (overwrite (v b) (Z.to_nat (end_ b)) d) (end_ b + Z.of_nat (length d))).
Proof. intros Hb Hd. destruct (append_spec b d Hb Hd) as (Hw & Hc & Hr). by split. Qed.

Lemma Extend_spec b n : wf b → (n ≤ room b)%nat →
  ∃ b' ext, Extend b (Z.of_nat n) = Some (b', ext) ∧ length ext = n ∧ appended b ext b' ∧
    end_ b' = end_ b + Z.of_nat n.
Proof.
  intros Hb Hn. pose proof Hb as [H1 H2 H3]. unfold room in Hn. unfold Extend.
  rewrite i32_small by lia. cbv zeta. rewrite decide_False by lia. rewrite array_slice_wf by (done || lia).
  replace (Z.to_nat (end_ b + Z.of_nat n - end_ b)) with n by lia.
  cbn [mbind option_bind]. assert (length (take n (drop (Z.to_nat (end_ b)) (v b))) = n) as Hl
    by (rewrite length_take, length_drop; lia).
  do 2 eexists. split; [reflexivity|]. split; [done|]. split; [|done].
  split; [| |rewrite Hl|done|done].
  - split; cbn; lia.
  - unfold content. cbn [v start end_ with_window].
    replace (Z.to_nat (end_ b + Z.of_nat n - start b)) with (Z.to_nat (end_ b - start b) + n)%nat by lia.
    rewrite <- (take_take_drop (drop (Z.to_nat (start b)) (v b))). f_equal.
    rewrite drop_drop. do 2 f_equal. lia.
  - unfold room. cbn. lia.
Qed.

Lemma write_all_spec b d : wf b → (length d ≤ room b)%nat →
  ∃ b', write_all b d = Ret b' ∧ appended b d b'.
Proof.
  intros Hb Hd. pose proof Hb as [H1 H2 H3]. unfold write_all, Write. rewrite decide_True by lia.
  cbv zeta. fold (room b). rewrite Nat.min_r by lia. cbn [ret_or_panic].
  eexists. split; [reflexivity|]. rewrite i32_small by (unfold room in Hd; lia). by apply array_append.
Qed.

Lemma WriteByte_spec b c : wf b → (1 ≤ room b)%nat →
  ∃ b', WriteByte b c = Some (b', true) ∧ appended b [c] b'.
Proof.
  intros Hb Hr. pose proof Hb as [H1 H2 H3]. unfold room in Hr. unfold WriteByte, IsFull, array_at.
  rewrite bool_decide_eq_false_2 by lia. rewrite decide_True by lia.
  assert (Z.to_nat (end_ b) < length (v b))%nat as Hlt by lia.
  destruct (lookup_total_lt (v b) _ Hlt) as [x Hx]. rewrite Hx.
  eexists. split; [reflexivity|]. rewrite i32_small by lia.
  assert (<[Z.to_nat (end_ b) := c]> (v b) = overwrite (v b) (Z.to_nat (end_ b)) [c]) as ->.
  { unfold overwrite. cbv zeta. rewrite (take_ge [c]) by (cbn; lia).
    rewrite insert_take_drop by done. cbn [app length]. do 3 f_equal. lia. }
  apply (array_append b [c]); [done|]. unfold room. cbn. lia.
Qed.

Lemma must_byte_spec b c : wf b → (1 ≤ room b)%nat →
  ∃ b', must_byte b c = Ret b' ∧ appended b [c] b'.
Proof.
  intros Hb Hr. destruct (WriteByte_spec b c Hb Hr) as (b' & E & H). exists b'.
  unfold must_byte. by rewrite E.
Qed.

Lemma try_byte_spec b c : wf b → (1 ≤ room b)%nat →
  ∃ b', try_byte b c = Ret b' ∧ appended b [c] b'.
Proof.
  intros Hb Hr. destruct (WriteByte_spec b c Hb Hr) as (b' & E & H). exists b'.
  unfold try_byte. by rewrite E.
Qed.

Lemma patch_appended b old y b' d :
  wf b → appended b (old ++ y) b' → length d = length old →
  appended b (d ++ y) (patch b' (end_ b) d).
Proof.
  intros Hb [W C R U S] Hd. pose proof (length_content b Hb) as Hl.
  destruct (patch_spec b' (content b) old d y W C Hd) as (W' & C' & R' & U').
  replace (start b' + Z.of_nat (length (content b))) with (end_ b) in * by lia.
  split; [done|done| |congruence|done]. rewrite R', R, !length_app. lia.
Qed.

(** ** Destinations on the wire *)

(** A destination that the wire form can carry. *)
Definition endpoint_wire (d : Destination) : Prop :=
  ∃ a, dest_Address d = Some a ∧ wire_ok a ∧ is_uint 16 (dest_Port d).

Definition address_bytes (p : addressParser) (d : Destination) : bytes :=
  match dest_Address d with
  | Some a => match WriteAddressPort p a (dest_Port d) with Ret w => w | _ => [] end
  | None => []
  end.

Section Endpoints.
Context (p : addressParser) (Hp : parser_ok p).

Lemma address_bytes_spec d : endpoint_wire d →
  ∃ a, dest_Address d = Some a ∧ wire_ok a ∧
    WriteAddressPort p a (dest_Port d) = Ret (address_bytes p d) ∧
    (5 ≤ length (address_bytes p d) ≤ 259)%nat.
Proof using Hp.
  intros (a & Ha & Hw & Hport). exists a. split; [done|]. split; [done|].
  unfold address_bytes. rewrite Ha.
  assert (∃ w, writeAddress p a = Ret w ∧ (3 ≤ length w ≤ 257)%nat) as (w & Ew & Hl).
  { destruct Hp as [_ Hf]. destruct (Hf (Address.Family a)) as (tb & Htb & Hr & _).
    unfold writeAddress. rewrite Htb. rewrite decide_False by (unfold afInvalid; lia).
    destruct a as [i|i|d'].
    - destruct Hw as [_ Hl]. eexists. split; [reflexivity|]. cbn. lia.
    - destruct Hw as (_ & Hl & _). eexists. split; [reflexivity|]. cbn. lia.
    - destruct Hw as (Hne & Hl & _). unfold isDomainTooLong. rewrite bool_decide_eq_false_2 by lia.
      eexists. split; [reflexivity|]. cbn. destruct d'; [done|]. cbn in *. lia. }
  unfold WriteAddressPort. rewrite Ew. split; [done|].
  unfold writePort. destruct (portFirst p); rewrite length_app, be_bytes_length; lia.
Qed.

Lemma write_address_spec b d : endpoint_wire d → wf b → (length (address_bytes p d) ≤ room b)%nat →
  ∃ b', write_address p b (dest_Address d) (dest_Port d) = Ret b' ∧ appended b (address_bytes p d) b'.
Proof using Hp.
  intros Hd Hb Hr. destruct (address_bytes_spec d Hd) as (a & Ha & _ & Hw & Hl).
  unfold write_address. rewrite Ha. cbn [ret_or_panic]. rewrite Hw. cbn [outcome_bind].
  apply write_all_spec; [done|lia].
Qed.

Lemma read_endpoint b d s rest : endpoint_wire d → wf b → (259 ≤ room b)%nat →
  contents s = address_bytes p d ++ rest →
  ∃ s', ReadAddressPort p b s = Ret (dest_Address d, dest_Port d, s') ∧ contents s' = rest ∧
        final s' = final s.
Proof using Hp.
  intros Hd Hb Hr Hs. pose proof Hd as (a0 & Ha0 & _ & Hport).
  destruct (address_bytes_spec d Hd) as (a & Ha & Hw & E & _). rewrite Ha.
  by apply (AddressPort_roundtrip p a (dest_Port d) (address_bytes p d) b s rest).
Qed.

End Endpoints.

Lemma fresh_room n : Z.of_nat n ≤ 8192 → (n ≤ room fresh)%nat.
Proof.
  intros. assert (Z.of_nat (room fresh) = 8192) by (vm_compute; reflexivity). lia.
Qed.

(** The contents of a sequence of buffers. *)
Definition contents_of (mb : list Buffer) : bytes := mjoin (content <$> mb).

Lemma contents_of_app mb mb' : contents_of (mb ++ mb') = contents_of mb ++ contents_of mb'.
Proof. unfold contents_of. by rewrite fmap_app, join_app. Qed.

Lemma contents_of_one b : contents_of [b] = content b.
Proof. unfold contents_of. cbn. by rewrite app_nil_r. Qed.

(** ** Concrete buffers *)

(** An array of the pool. *)
Definition pool_array : bytes := replicate Size 0.

Lemma pool_array_length : length pool_array = Size.
Proof. apply length_replicate. Qed.

Lemma FromBytes_wf d : Z.of_nat (length d) < 2 ^ 30 → wf (FromBytes d).
Proof. intros Hd. split; cbn [start end_ v FromBytes]; rewrite ?i32_small; lia. Qed.

(** ** Reading into a buffer that is cleared first *)

Lemma read_cleared b s x rest size :
  wf b → contents s = x ++ rest → size = Z.of_nat (length x) → (length x ≤ room b)%nat →
  ∃ b' s', read_full (Clear b) s size = Ret (b', s') ∧ contents s' = rest ∧ final s' = final s ∧
           wf b' ∧ content b' = x ∧ (room b - length x ≤ room b')%nat.
Proof.
  intros Hb Hs Hz Hr. pose proof (Clear_spec b Hb) as [Hw Hc].
  assert (room b ≤ room (Clear b))%nat as Hrc by (unfold room; cbn; lia).
  destruct (read_full_spec (Clear b) s x rest size Hw Hs Hz) as (b' & s' & E & H1 & H2 & H3 & H4 & H5); [lia|].
  exists b', s'. rewrite H4, Hc. split_all; (done || lia).
Qed.

(** ** Looking into a buffer *)

Lemma Byte_content b i c : wf b → content b !! i = Some c → Byte b (Z.of_nat i) = Some c.
Proof.
  intros Hb Hc. pose proof (length_content b Hb) as Hl. pose proof Hb as [H1 H2 H3].
  pose proof (lookup_lt_Some _ _ _ Hc) as Hi. unfold Byte. rewrite i32_small by lia. unfold array_at. rewrite decide_True by lia.
  unfold content in Hc. rewrite lookup_take_lt in Hc by lia. rewrite lookup_drop in Hc.
  rewrite <- Hc. f_equal. lia.
Qed.

Lemma Byte_first b c q : wf b → content b = c :: q → Byte b 0 = Some c.
Proof. intros Hb Hc. apply (Byte_content b 0); [done|by rewrite Hc]. Qed.

Lemma BytesRange_content b i j : wf b → (i ≤ j)%nat → (j ≤ length (content b))%nat →
  BytesRange b (Z.of_nat i) (Z.of_nat j) = Some (take (j - i) (drop i (content b))).
Proof.
  intros Hb Hij Hj. pose proof (length_content b Hb) as Hl. pose proof Hb as [H1 H2 H3].
  unfold BytesRange, from_end. rewrite !(decide_False (P := Z.of_nat _ < 0)) by lia.
  rewrite !i32_small by lia. rewrite array_slice_wf by (done || lia). f_equal.
  unfold content. rewrite skipn_firstn_comm, drop_drop, take_take. f_equal; [lia|]. f_equal. lia.
Qed.
