(* ===== verification/Mux.v ===== *)
(** Frames of the mux protocol (src/upstream/xray-core/common/mux/frame.go, with
    src/upstream/xray-core/common/bitmask/byte.go): writing the metadata of a
    frame into a buffer and reading it from a stream. *)
From S2P Require Import Prelude GoText NetIP Address Transport Frame Uuid Buf AddressParser BufAppend.

(** ** bitmask.Byte *)

Definition Has (b bb : Z) : bool := bool_decide (Z.land b bb ≠ 0).
Definition bitmask_Set (b bb : Z) : Z := Z.lor b bb.
Definition bitmask_Clear (b bb : Z) : Z := Z.land b (Z.lxor bb 0xff).
Definition Toggle (b bb : Z) : Z := Z.lxor b bb.

(** ** Metadata *)

Definition SessionStatusNew : Z := 0x01.
Definition SessionStatusKeep : Z := 0x02.
Definition SessionStatusEnd : Z := 0x03.
Definition SessionStatusKeepAlive : Z := 0x04.
Definition OptionData : Z := 0x01.
Definition OptionError : Z := 0x02.
Definition TargetNetworkTCP : Z := 0x01.
Definition TargetNetworkUDP : Z := 0x02.

Definition mux_parser : addressParser := parser_of vless_options.

Record FrameMetadata := {
  Target : Destination;
  SessionID : Z;
  Option_ : Z;
  SessionStatus : Z;
  GlobalID : bytes
}.

(** The part of [WriteTo] between the fixed fields and the length.  The error
    of the second [WriteAddressPort] is ignored, the port being written by
    then. *)
Definition write_target (f : FrameMetadata) (b : Buffer) : outcome Buffer :=
  if decide (SessionStatus f = SessionStatusNew) then
    let network := match dest_Network (Target f) with
                   | Network_TCP => Some TargetNetworkTCP
                   | Network_UDP => Some TargetNetworkUDP
                   | _ => None
                   end in
    outcome_bind (match network with Some n => must_byte b n | None => Ret b end) (λ b,
    outcome_bind (write_address mux_parser b (dest_Address (Target f)) (dest_Port (Target f))) (λ b,
    match UDP b with
    | Some _ => write_all b (GlobalID f)
    | None => Ret b
    end))
  else
    match UDP b with
    | None => Ret b
    | Some u =>
      ret_or_panic (WriteByte b TargetNetworkUDP) (λ '(b, _),
      match write_address mux_parser b (dest_Address u) (dest_Port u) with
      | Ret b => Ret b
      | Fail => write_all b (writePort (dest_Port u))
      | Panic => Panic
      end)
    end.

Definition WriteTo (f : FrameMetadata) (b : Buffer) : outcome Buffer :=
  ret_or_panic (Extend b 2) (λ '(b, _),
  let lenBytes := end_ b - 2 in
  let len0 := Len b in
  ret_or_panic (Extend b 2) (λ '(b, _),
  let b := patch b (end_ b - 2) (be_bytes 2 (SessionID f)) in
  outcome_bind (must_byte b (SessionStatus f)) (λ b,
  outcome_bind (must_byte b (Option_ f)) (λ b,
  outcome_bind (write_target f b) (λ b,
  let len1 := Len b in
  Ret (patch b lenBytes (be_bytes 2 (u16 (i32 (len1 - len0)))))))))).

(** [UnmarshalFromBuffer] on the content of the buffer, which the address
    parser then reads from. *)
Definition UnmarshalFromBuffer (f : FrameMetadata) (c : bytes) : outcome FrameMetadata :=
  if decide (length c < 4)%nat then Fail
  else
    let at_ i := default 0 (c !! i) in
    let sid := be_val (take 2 c) in
    let status := at_ 2%nat in
    let opt := at_ 3%nat in
    let parsed : outcome (Destination * bytes) :=
      if decide (status = SessionStatusNew ∨
                 status = SessionStatusKeep ∧ (4 < length c)%nat ∧ at_ 4%nat = TargetNetworkUDP) then
        if decide (length c < 8)%nat then Fail
        else
          let network := at_ 4%nat in
          outcome_bind (ReadAddressPort mux_parser fresh {| chunks := [drop 5 c]; final := ErrEOF |})
            (λ '(a, port, s),
             if decide (network = TargetNetworkTCP) then Ret (TCPDestination a port, contents s)
             else if decide (network = TargetNetworkUDP) then Ret (UDPDestination a port, contents s)
             else Fail)
      else Ret ({| dest_Address := dest_Address (Target f); dest_Port := dest_Port (Target f);
                   dest_Network := Network_Unknown |}, c) in
    outcome_bind parsed (λ '(target, rest),
    Ret {| Target := target; SessionID := sid; Option_ := opt; SessionStatus := status;
           GlobalID := if decide (status = SessionStatusNew ∧ Has opt OptionData = true ∧
                                  dest_Network target = Network_UDP ∧ (8 ≤ length rest)%nat)
                       then take 8 rest else GlobalID f |}).

Definition Unmarshal (f : FrameMetadata) (reader : stream) : outcome (FrameMetadata * stream) :=
  match ReadFull reader 2 with
  | Err _ => Fail
  | Ok (b, reader) =>
    let metaLen := be_val b in
    if decide (512 < metaLen) then Fail
    else
      outcome_bind (read_full fresh reader metaLen) (λ '(b, reader),
      ret_or_panic (Bytes b) (λ c,
      outcome_bind (UnmarshalFromBuffer f c) (λ f, Ret (f, reader))))
  end.

(** ** What a frame holds *)

Definition network_byte (n : Network) : bytes :=
  match n with Network_TCP => [TargetNetworkTCP] | Network_UDP => [TargetNetworkUDP] | _ => [] end.

Definition tail_bytes (f : FrameMetadata) (udp : option Destination) : bytes :=
  if decide (SessionStatus f = SessionStatusNew) then
    network_byte (dest_Network (Target f)) ++ address_bytes mux_parser (Target f) ++
    match udp with Some _ => GlobalID f | None => [] end
  else
    match udp with Some u => [TargetNetworkUDP] ++ address_bytes mux_parser u | None => [] end.

Definition meta_bytes (f : FrameMetadata) (udp : option Destination) : bytes :=
  be_bytes 2 (SessionID f) ++ [SessionStatus f; Option_ f] ++ tail_bytes f udp.

(** The frames of the protocol: a new session has a target, and data that
    belongs to a packet has a source. *)
Record frame_ok (f : FrameMetadata) (udp : option Destination) : Prop := {
  ok_id : is_uint 16 (SessionID f);
  ok_global : length (GlobalID f) = 8%nat;
  ok_new : SessionStatus f = SessionStatusNew →
    endpoint_wire (Target f) ∧
    (dest_Network (Target f) = Network_TCP ∨ dest_Network (Target f) = Network_UDP);
  ok_udp : ∀ u, udp = Some u → endpoint_wire u
}.

Lemma length_tail_bytes f udp : frame_ok f udp → (length (tail_bytes f udp) ≤ 268)%nat.
Proof.
  intros [_ Hg Hn Hu]. unfold tail_bytes. case_decide as Hs.
  - destruct (Hn Hs) as [Hd Hnet]. destruct (address_bytes_spec mux_parser vless_parser_ok _ Hd) as (_ & _ & _ & _ & Hl).
    rewrite !length_app. assert (length (network_byte (dest_Network (Target f))) ≤ 1)%nat
      by (destruct Hnet as [-> | ->]; done).
    destruct udp; cbn [length]; lia.
  - destruct udp as [u|]; [|cbn; lia]. destruct (address_bytes_spec mux_parser vless_parser_ok _ (Hu u eq_refl)) as (_ & _ & _ & _ & Hl).
    rewrite length_app. cbn [length]. lia.
Qed.

Lemma length_meta_bytes f udp : frame_ok f udp → (4 ≤ length (meta_bytes f udp) ≤ 272)%nat.
Proof.
  intros H%length_tail_bytes. unfold meta_bytes. rewrite !length_app, be_bytes_length. cbn [length]. lia.
Qed.

Lemma write_target_spec f b : frame_ok f (UDP b) → wf b → (268 ≤ room b)%nat →
  ∃ b', write_target f b = Ret b' ∧ appended b (tail_bytes f (UDP b)) b'.
Proof.
  intros [_ Hg Hn Hu] Hb Hr. unfold write_target, tail_bytes. case_decide as Hs.
  - destruct (Hn Hs) as [Hd Hnet]. cbv zeta.
    destruct (address_bytes_spec mux_parser vless_parser_ok _ Hd) as (_ & _ & _ & _ & Hl).
    assert (∃ c, network_byte (dest_Network (Target f)) = [c] ∧
      match dest_Network (Target f) with
      | Network_TCP => Some TargetNetworkTCP | Network_UDP => Some TargetNetworkUDP | _ => None
      end = Some c) as (c & -> & ->) by (destruct Hnet as [-> | ->]; by eexists).
    destruct (must_byte_spec b c Hb) as (b1 & -> & A1); [lia|]. cbn [outcome_bind].
    pose proof (app_room _ _ _ A1) as R1. cbn [length] in R1.
    destruct (write_address_spec mux_parser vless_parser_ok b1 _ Hd (app_wf _ _ _ A1)) as (b2 & -> & A2); [lia|]. cbn [outcome_bind].
    pose proof (app_room _ _ _ A2) as R2.
    pose proof (appended_trans _ _ _ _ _ A1 A2) as A12. rewrite (app_UDP _ _ _ A12), app_assoc.
    destruct (UDP b).
    + destruct (write_all_spec b2 (GlobalID f) (app_wf _ _ _ A2)) as (b3 & -> & A3); [lia|].
      eexists. split; [done|]. by apply (appended_trans _ _ b2).
    + rewrite app_nil_r. by eexists.
  - destruct (UDP b) as [u|] eqn:EU.
    + destruct (address_bytes_spec mux_parser vless_parser_ok _ (Hu u eq_refl)) as (_ & _ & _ & _ & Hl).
      destruct (WriteByte_spec b TargetNetworkUDP Hb) as (b1 & -> & A1); [lia|]. cbn [ret_or_panic].
      pose proof (app_room _ _ _ A1) as R1. cbn [length] in R1.
      destruct (write_address_spec mux_parser vless_parser_ok b1 _ (Hu u eq_refl) (app_wf _ _ _ A1)) as (b2 & -> & A2); [lia|].
      eexists. split; [done|]. by apply (appended_trans _ _ b1).
    + eexists. split; [done|]. split; [done|by rewrite app_nil_r|cbn; lia|done|done].
Qed.

Lemma WriteTo_spec f b : frame_ok f (UDP b) → wf b → (274 ≤ room b)%nat →
  ∃ b', WriteTo f b = Ret b' ∧
    appended b (be_bytes 2 (Z.of_nat (length (meta_bytes f (UDP b)))) ++ meta_bytes f (UDP b)) b'.
Proof.
  intros Hf Hb Hr. pose proof (length_meta_bytes _ _ Hf) as Hlm. unfold WriteTo.
  destruct (Extend_spec b 2 Hb) as (b1 & e1 & E1 & L1 & A1 & N1); [lia|]. change (Z.of_nat 2) with 2 in *.
  rewrite E1. cbn [ret_or_panic]. pose proof A1 as [W1 C1 R1 U1 S1]. rewrite L1 in R1.
  destruct (Extend_spec b1 2 W1) as (b2 & e2 & E2 & L2 & A2 & N2); [lia|]. change (Z.of_nat 2) with 2 in *.
  rewrite E2. cbn [ret_or_panic]. cbv zeta.
  replace (end_ b2 - 2) with (end_ b1) by lia. replace (end_ b1 - 2) with (end_ b) by lia.
  assert (appended b1 (be_bytes 2 (SessionID f)) (patch b2 (end_ b1) (be_bytes 2 (SessionID f)))) as A3.
  { pose proof (patch_appended b1 e2 [] b2 (be_bytes 2 (SessionID f)) W1) as H. rewrite !app_nil_r in H.
    apply H; [done|]. by rewrite be_bytes_length. }
  set (b3 := patch b2 (end_ b1) (be_bytes 2 (SessionID f))) in *. pose proof A3 as [W3 _ R3 U3 _].
  rewrite be_bytes_length in R3.
  destruct (must_byte_spec b3 (SessionStatus f) W3) as (b4 & -> & A4); [lia|]. cbn [outcome_bind].
  pose proof A4 as [W4 _ R4 U4 _]. cbn [length] in R4.
  destruct (must_byte_spec b4 (Option_ f) W4) as (b5 & -> & A5); [lia|]. cbn [outcome_bind].
  pose proof A5 as [W5 _ R5 U5 _]. cbn [length] in R5.
  assert (UDP b5 = UDP b) as U by congruence.
  destruct (write_target_spec f b5) as (b6 & -> & A6); [by rewrite U|done|lia|]. cbn [outcome_bind].
  rewrite U in A6.
  assert (appended b1 (meta_bytes f (UDP b)) b6) as AM.
  { unfold meta_bytes. change ([SessionStatus f; Option_ f] ++ tail_bytes f (UDP b))
      with ([SessionStatus f] ++ [Option_ f] ++ tail_bytes f (UDP b)).
    apply (appended_trans _ _ b3); [done|]. apply (appended_trans _ _ b4); [done|].
    by apply (appended_trans _ _ b5). }
  eexists. split; [reflexivity|].
  assert (u16 (i32 (Len b6 - Len b1)) = Z.of_nat (length (meta_bytes f (UDP b)))) as ->.
  { rewrite !Len_content by (done || apply (app_wf _ _ _ AM)). rewrite (app_content _ _ _ AM), length_app.
    rewrite i32_small by lia. rewrite wrap_small by (unfold is_uint; lia). lia. }
  apply (patch_appended b e1 _ b6); [done|by apply (appended_trans _ _ b1)|]. by rewrite be_bytes_length.
Qed.

(** ** Reading *)

(** What the reader of a frame learns, from its earlier state [f0]. *)
Definition received (f : FrameMetadata) (udp : option Destination) (f0 : FrameMetadata) : FrameMetadata :=
  {| Target :=
       if decide (SessionStatus f = SessionStatusNew) then Target f
       else match udp with
            | Some u => if decide (SessionStatus f = SessionStatusKeep)
                        then UDPDestination (dest_Address u) (dest_Port u)
                        else {| dest_Address := dest_Address (Target f0); dest_Port := dest_Port (Target f0);
                                dest_Network := Network_Unknown |}
            | None => {| dest_Address := dest_Address (Target f0); dest_Port := dest_Port (Target f0);
                         dest_Network := Network_Unknown |}
            end;
     SessionID := SessionID f;
     Option_ := Option_ f;
     SessionStatus := SessionStatus f;
     GlobalID := if decide (SessionStatus f = SessionStatusNew ∧ Has (Option_ f) OptionData = true ∧
                            dest_Network (Target f) = Network_UDP ∧ is_Some udp)
                 then GlobalID f else GlobalID f0 |}.

(** The head of a frame: four bytes, then the rest. *)
Lemma Unmarshal_head f0 f t : is_uint 16 (SessionID f) →
  UnmarshalFromBuffer f0 (be_bytes 2 (SessionID f) ++ [SessionStatus f; Option_ f] ++ t) =
  outcome_bind
    (if decide (SessionStatus f = SessionStatusNew ∨
                SessionStatus f = SessionStatusKeep ∧ head t = Some TargetNetworkUDP)
     then match t with
          | n :: t' =>
            if decide (length t < 4)%nat then Fail
            else outcome_bind (ReadAddressPort mux_parser fresh {| chunks := [t']; final := ErrEOF |})
              (λ '(a, port, s),
               if decide (n = TargetNetworkTCP) then Ret (TCPDestination a port, contents s)
               else if decide (n = TargetNetworkUDP) then Ret (UDPDestination a port, contents s)
               else Fail)
          | [] => Fail
          end
     else Ret ({| dest_Address := dest_Address (Target f0); dest_Port := dest_Port (Target f0);
                  dest_Network := Network_Unknown |},
               be_bytes 2 (SessionID f) ++ [SessionStatus f; Option_ f] ++ t))
    (λ '(target, rest),
     Ret {| Target := target; SessionID := SessionID f; Option_ := Option_ f;
            SessionStatus := SessionStatus f;
            GlobalID := if decide (SessionStatus f = SessionStatusNew ∧ Has (Option_ f) OptionData = true ∧
                                   dest_Network target = Network_UDP ∧ (8 ≤ length rest)%nat)
                        then take 8 rest else GlobalID f0 |}).
Proof.
  intros Hid. pose proof (be_bytes_length 2 (SessionID f)) as Hl.
  assert (be_val (take 2 (be_bytes 2 (SessionID f) ++ [SessionStatus f; Option_ f] ++ t)) = SessionID f) as Hv.
  { rewrite take_app_length' by done. apply be_val_be_bytes. unfold is_uint in Hid. cbn. lia. }
  unfold UnmarshalFromBuffer. rewrite Hv. clear Hv.
  destruct (be_bytes 2 (SessionID f)) as [|x [|y []]]; try done. cbn [app length].
  rewrite (decide_False (P := (_ < 4)%nat)) by lia. cbn [lookup list_lookup default from_option id drop].
  f_equal. destruct t as [|n t]; cbn [head list_lookup length].
  - destruct (decide (SessionStatus f = SessionStatusNew)) as [Hn|Hn].
    + rewrite !(decide_True (P := _ ∨ _)) by (by left). by rewrite decide_True by lia.
    + rewrite !(decide_False (P := _ ∨ _)); [done|intros [?|[_ [=]]]; done|intros [?|(_ & ? & _)]; (done || lia)].
  - destruct (decide (SessionStatus f = SessionStatusNew ∨ SessionStatus f = SessionStatusKeep ∧ n = TargetNetworkUDP))
      as [Hn|Hn].
    + rewrite !(decide_True (P := _ ∨ _)) by (destruct Hn as [?|[? ->]]; [by left|right; split_all; (done || lia)]).
      destruct (decide (S (length t) < 4)%nat); [rewrite decide_True by lia|rewrite decide_False by lia]; done.
    + rewrite !(decide_False (P := _ ∨ _)); [done|intros [?|[? [= ?]]]; naive_solver|
        intros [?|(? & _ & ?)]; naive_solver].
Qed.

Lemma Unmarshal_new f udp f0 : frame_ok f udp → SessionStatus f = SessionStatusNew →
  UnmarshalFromBuffer f0 (meta_bytes f udp) = Ret (received f udp f0).
Proof.
  intros [Hid Hg Hn Hu] Hs. unfold meta_bytes. rewrite Unmarshal_head by done.
  rewrite decide_True by (by left). destruct (Hn Hs) as [Hd Hnet].
  unfold tail_bytes, received. rewrite !(decide_True (P := SessionStatus f = SessionStatusNew)) by done.
  destruct (address_bytes_spec mux_parser vless_parser_ok _ Hd) as (_ & _ & _ & _ & Hl).
  set (g := match udp with Some _ => GlobalID f | None => [] end).
  destruct (read_endpoint mux_parser vless_parser_ok fresh (Target f) {| chunks := [address_bytes mux_parser (Target f) ++ g]; final := ErrEOF |} g Hd fresh_wf (fresh_room 259 ltac:(lia)))
    as (s' & Er & Hc & _); [by unfold contents; cbn; rewrite app_nil_r|].
  destruct (Target f) as [ta tp tn]. cbn [dest_Network dest_Address dest_Port] in *.
  destruct Hnet as [-> | ->]; cbn [network_byte app length]; rewrite decide_False by (rewrite length_app; lia);
    rewrite Er; cbn [outcome_bind].
  - rewrite decide_True by done. cbn [outcome_bind]. do 2 f_equal.
    rewrite !decide_False by (intros (_ & _ & ? & _); done). done.
  - rewrite (decide_False (P := TargetNetworkUDP = TargetNetworkTCP)) by done.
    rewrite (decide_True (P := TargetNetworkUDP = TargetNetworkUDP)) by done. cbn [outcome_bind].
    do 2 f_equal. cbn [dest_Network UDPDestination]. rewrite Hc. unfold g. clear -Hg. destruct udp.
    + rewrite Hg. destruct (Has (Option_ f) OptionData) eqn:E.
      * repeat case_decide; try naive_solver. by rewrite take_ge by lia.
      * rewrite !decide_False by (intros (_ & ? & _); done). done.
    + rewrite !decide_False; [done|intros (_ & _ & _ & []%is_Some_None)|].
      intros (_ & _ & _ & ?). cbn in *. lia.
Qed.

Lemma Unmarshal_other f udp f0 : frame_ok f udp → SessionStatus f ≠ SessionStatusNew →
  UnmarshalFromBuffer f0 (meta_bytes f udp) = Ret (received f udp f0).
Proof.
  intros [Hid Hg Hn Hu] Hs. unfold meta_bytes. rewrite Unmarshal_head by done.
  unfold tail_bytes, received. rewrite !(decide_False (P := SessionStatus f = SessionStatusNew)) by done.
  rewrite (decide_False (P := SessionStatus f = SessionStatusNew ∧ _)) by (by intros [? _]).
  destruct udp as [u|].
  - destruct (address_bytes_spec mux_parser vless_parser_ok _ (Hu u eq_refl)) as (_ & _ & _ & _ & Hl). cbn [app head length].
    destruct (decide (SessionStatus f = SessionStatusKeep)) as [Hk|Hk].
    + rewrite decide_True by (by right). rewrite decide_False by lia.
      destruct (read_endpoint mux_parser vless_parser_ok fresh u {| chunks := [address_bytes mux_parser u]; final := ErrEOF |} [] (Hu u eq_refl)
          fresh_wf (fresh_room 259 ltac:(lia)))
        as (s' & -> & Hc & _); [done|]. cbn [outcome_bind].
      rewrite (decide_False (P := TargetNetworkUDP = TargetNetworkTCP)) by done.
      rewrite (decide_True (P := TargetNetworkUDP = TargetNetworkUDP)) by done. cbn [outcome_bind].
      by rewrite decide_False by (by intros [? _]).
    + rewrite decide_False by (by intros [?|[? _]]). cbn [outcome_bind].
      by rewrite decide_False by (by intros [? _]).
  - rewrite decide_False by (by intros [?|[_ [=]]]). cbn [outcome_bind].
    by rewrite decide_False by (by intros [? _]).
Qed.

(** For every frame of the protocol and every buffer with space for it,
    [WriteTo] succeeds and appends the frame to the content of the buffer; from
    any chunking of a stream that starts with the appended bytes [Unmarshal]
    reads the session, status, option, target and global id back, as far as the
    status carries them, and leaves the rest of the stream unread. *)
Theorem Unmarshal_WriteTo (f f0 : FrameMetadata) (b : Buffer) :
  wf b → (274 ≤ room b)%nat → frame_ok f (UDP b) →
  ∃ b' w, WriteTo f b = Ret b' ∧ wf b' ∧ content b' = content b ++ w ∧
    ∀ s rest, contents s = w ++ rest →
      ∃ s', Unmarshal f0 s = Ret (received f (UDP b) f0, s') ∧ contents s' = rest.
Proof.
  intros Hb Hr Hf. destruct (WriteTo_spec f b Hf Hb Hr) as (b' & E & [W C _ _ _]).
  pose proof (length_meta_bytes _ _ Hf) as Hl. set (m := meta_bytes f (UDP b)) in *.
  do 2 eexists. split; [done|]. split; [done|]. split; [done|]. intros s rest Hs. rewrite <- app_assoc in Hs.
  unfold Unmarshal.
  destruct (ReadFull_enough s _ _ 2 Hs) as (s1 & -> & Hc1 & _); [by rewrite be_bytes_length|].
  cbv zeta. rewrite be_val_be_bytes by (change (256 ^ Z.of_nat 2) with 65536; lia).
  rewrite decide_False by lia.
  destruct (read_full_spec fresh s1 m rest (Z.of_nat (length m)) fresh_wf Hc1 eq_refl)
    as (b2 & s2 & -> & Hc2 & _ & Hw2 & Hcon & _).
  { apply fresh_room. lia. }
  cbn [outcome_bind]. rewrite Bytes_content by done. cbn [ret_or_panic]. rewrite Hcon.
  change (content fresh ++ m) with m. exists s2.
  destruct (decide (SessionStatus f = SessionStatusNew)) as [Hs'|Hs'];
    [unfold m; rewrite Unmarshal_new by done|unfold m; rewrite Unmarshal_other by done]; done.
Qed.

(** The first frame of a packet session to a name. *)
Definition sample_source : Destination := UDPDestination (Some (ipv4Address [10; 0; 0; 2])) 5353.

Definition sample_frame : FrameMetadata :=
  {| Target := UDPDestination (Some (DomainAddress (lit "a.org"))) 53; SessionID := 7;
     Option_ := OptionData; SessionStatus := SessionStatusNew; GlobalID := [1; 2; 3; 4; 5; 6; 7; 8] |}.

Definition sample_buffer : Buffer :=
  {| v := replicate 512 0; start := 0; end_ := 0; unmanaged := false; UDP := Some sample_source |}.

Definition no_frame : FrameMetadata :=
  {| Target := UDPDestination None 0; SessionID := 0; Option_ := 0; SessionStatus := 0;
     GlobalID := replicate 8 0 |}.

Lemma sample_frame_ok : frame_ok sample_frame (Some sample_source).
Proof.
  split; [by apply (bool_decide_unpack _)|done|intros _; split; [|by right]|intros u [= <-]].
  - exists (DomainAddress (lit "a.org")). split; [done|].
    split; [|by apply (bool_decide_unpack _)].
    split; [done|]. split; [cbn; lia|]. split; [by apply (bool_decide_unpack _)|by vm_compute].
  - exists (ipv4Address [10; 0; 0; 2]). split; [done|].
    split; [split; [by apply (bool_decide_unpack _)|done]|by apply (bool_decide_unpack _)].
Qed.

Lemma Unmarshal_WriteTo_witness :
  ∃ b' w, WriteTo sample_frame sample_buffer = Ret b' ∧ wf b' ∧
    content b' = content sample_buffer ++ w ∧
    ∀ s rest, contents s = w ++ rest →
      ∃ s', Unmarshal no_frame s = Ret (received sample_frame (UDP sample_buffer) no_frame, s') ∧
            contents s' = rest.
Proof.
  apply (Unmarshal_WriteTo sample_frame no_frame sample_buffer).
  - split; cbn; lia.
  - apply (bool_decide_unpack _). vm_compute. exact I.
  - apply sample_frame_ok.
Defined.

(** The frame on the wire, and read back: the target and the global id
    included. *)
Example sample_frame_on_the_wire :
  match WriteTo sample_frame sample_buffer with
  | Ret b => content b = [0; 22; 0; 7; 1; 1; 2; 0; 53; 2; 5] ++ lit "a.org" ++ [1; 2; 3; 4; 5; 6; 7; 8]
  | _ => False
  end ∧
  received sample_frame (Some sample_source) no_frame = sample_frame.
Proof. split; vm_compute; reflexivity. Qed.
