(* ===== verification/MultiBuffer.v ===== *)
(** Lists of buffers (src/upstream/xray-core/common/buf/multi_buffer.go): cutting,
    merging and compacting them, and the container that reads and writes through
    them, as operations on the bytes they hold.  A slot that the code sets to nil
    leaves the list. *)
From S2P Require Import Prelude GoText NetIP Address Transport Frame Uuid Buf AddressParser BufAppend.

Definition mb_Len (mb : list Buffer) : Z := foldl (λ size b, i32 (size + Len b)) 0 mb.

Definition mb_IsEmpty (mb : list Buffer) : bool := forallb IsEmpty mb.

Definition MergeMulti (dest src : list Buffer) : list Buffer * list Buffer := (dest ++ src, []).

Definition SplitFirst (mb : list Buffer) : list Buffer * option Buffer :=
  match mb with [] => ([], None) | b :: mb => (mb, Some b) end.

(** [SplitMulti] at an index; one out of range leaves everything in front. *)
Definition SplitMulti (mb : list Buffer) (i : Z) : list Buffer * list Buffer :=
  if decide (i < Z.of_nat (length mb) ∧ 0 ≤ i) then (take (Z.to_nat i) mb, drop (Z.to_nat i) mb)
  else (mb, []).

(** [Copy] into a slice of [n] bytes: what is copied. *)
Fixpoint mb_Copy (mb : list Buffer) (n : nat) : outcome bytes :=
  match mb with
  | [] => Ret []
  | b :: mb =>
    ret_or_panic (Bytes b) (λ d,
    let got := take n d in
    if decide (Z.of_nat (length got) < Len b) then Ret got
    else outcome_bind (mb_Copy mb (n - length got)) (λ more, Ret (got ++ more)))
  end.

(** [SplitBytes] into a slice of [n] bytes: what is left, and what was read. *)
Fixpoint SplitBytes (mb : list Buffer) (n : nat) : outcome (list Buffer * bytes) :=
  match mb with
  | [] => Ret ([], [])
  | b :: mb =>
    ret_or_panic (Read b n) (λ '(b, r),
    let got := default [] r in
    if IsEmpty b then outcome_bind (SplitBytes mb (n - length got)) (λ '(mb, more), Ret (mb, got ++ more))
    else Ret (b :: mb, got))
  end.

Definition SplitFirstBytes (mb : list Buffer) (n : nat) : outcome (list Buffer * bytes) :=
  match SplitFirst mb with
  | (mb, None) => Ret (mb, [])
  | (mb, Some b) => ret_or_panic (Bytes b) (λ d, Ret (mb, take n d))
  end.

Section MultiBuffer.
Context (array : bytes).

(** The loop of [MergeBytes]; a new buffer takes at least one byte. *)
Fixpoint merge_loop (fuel : nat) (dest : list Buffer) (src : bytes) : outcome (list Buffer) :=
  match src with
  | [] => Ret dest
  | _ =>
    match fuel with
    | O => Panic
    | S fuel =>
      ret_or_panic (Write (Buffer_New array) src) (λ '(b, n), merge_loop fuel (dest ++ [b]) (drop n src))
    end
  end.

Definition MergeBytes (dest : list Buffer) (src : bytes) : outcome (list Buffer) :=
  match last dest with
  | None => merge_loop (length src) dest src
  | Some b =>
    if IsFull b then merge_loop (length src) dest src
    else
      ret_or_panic (Write b src) (λ '(b, n),
      merge_loop (length src) (removelast dest ++ [b]) (drop n src))
  end.

(** [last.ReadFrom(curr)]: the reader is read once into the free space. *)
Definition Buffer_ReadFrom (last curr : Buffer) : outcome (Buffer * bool) :=
  if decide (0 ≤ end_ last ≤ Z.of_nat (length (v last))) then
    ret_or_panic (Read curr (length (v last) - Z.to_nat (end_ last))) (λ '(_, r),
    match r with
    | None => Ret (last, false)
    | Some d => Ret (with_array last (overwrite (v last) (Z.to_nat (end_ last)) d)
                       (i32 (end_ last + Z.of_nat (length d))), true)
    end)
  else Panic.

(** The loop of [Compact]; [common.Must2] panics on the error of reading from an
    empty buffer. *)
Fixpoint compact_loop (mb2 : list Buffer) (last : Buffer) (mb : list Buffer) : outcome (list Buffer) :=
  match mb with
  | [] => Ret (mb2 ++ [last])
  | curr :: mb =>
    if decide (Z.of_nat Size < i32 (Len last + Len curr)) then compact_loop (mb2 ++ [last]) curr mb
    else
      match Buffer_ReadFrom last curr with
      | Ret (last, true) => compact_loop mb2 last mb
      | _ => Panic
      end
  end.

Definition Compact (mb : list Buffer) : outcome (list Buffer) :=
  match mb with [] => Ret [] | last :: mb => compact_loop [] last mb end.

(** The loop of [SplitSize] over whole buffers. *)
Fixpoint split_whole (total size : Z) (mb : list Buffer) : list Buffer * list Buffer :=
  match mb with
  | [] => ([], [])
  | b :: mb' =>
    if decide (size < i32 (total + Len b)) then (mb, [])
    else let '(rest, r) := split_whole (i32 (total + Len b)) size mb' in (rest, b :: r)
  end.

Definition SplitSize (mb : list Buffer) (size : Z) : outcome (list Buffer * list Buffer) :=
  match mb with
  | [] => Ret ([], [])
  | b :: mb' =>
    if decide (size < Len b) then
      ret_or_panic (Extend (Buffer_New array) size) (λ '(nb, ext),
      ret_or_panic (BytesTo b size) (λ d,
      let nb := patch nb (end_ nb - Z.of_nat (length ext)) (take (length ext) d) in
      Ret (Advance b size :: mb', [nb])))
    else Ret (split_whole 0 size mb)
  end.

(** [ReadFrom]: reads until the reader ends, with the flag of an error other
    than its end.  A round that does not end reads a whole buffer. *)
Fixpoint read_all (fuel : nat) (mb : list Buffer) (s : stream) : outcome (list Buffer * bool) :=
  match fuel with
  | O => Panic
  | S fuel =>
    match ReadFull s Size with
    | Ok (d, s) => outcome_bind (write_all (Buffer_New array) d) (λ b, read_all fuel (mb ++ [b]) s)
    | Err e =>
      outcome_bind (write_all (Buffer_New array) (contents s)) (λ b,
      Ret (if IsEmpty b then mb else mb ++ [b],
           negb (bool_decide (e = ErrEOF ∨ e = ErrUnexpectedEOF))))
    end
  end.

Definition ReadFrom (s : stream) : outcome (list Buffer * bool) := read_all (S (length (contents s))) [] s.

Definition ReadAllToBytes (s : stream) : outcome bytes :=
  outcome_bind (ReadFrom s) (λ '(mb, err),
  if err : bool then Fail
  else if decide (mb_Len mb = 0) then Ret []
  else outcome_bind (SplitBytes mb (Z.to_nat (mb_Len mb))) (λ '(_, d), Ret d)).

End MultiBuffer.

(** [WriteMultiBuffer]: the writer and the leftover of an error. *)
Fixpoint WriteMultiBuffer {W} `{Writer W} (w : W) (mb : list Buffer) : outcome (W * option (list Buffer)) :=
  match mb with
  | [] => Ret (w, None)
  | b :: mb =>
    ret_or_panic (Bytes b) (λ d,
    let '(w, (_, err)) := w_write w d in
    match err with Some _ => Ret (w, Some mb) | None => WriteMultiBuffer w mb end)
  end.

(** ** Contents *)

Lemma contents_of_cons b mb : contents_of (b :: mb) = content b ++ contents_of mb.
Proof. done. Qed.

Lemma mb_Len_spec mb : Forall wf mb → Z.of_nat (length (contents_of mb)) < 2 ^ 30 →
  mb_Len mb = Z.of_nat (length (contents_of mb)).
Proof.
  intros Hmb. unfold mb_Len.
  enough (∀ n, 0 ≤ n → n + Z.of_nat (length (contents_of mb)) < 2 ^ 30 →
    foldl (λ size b, i32 (size + Len b)) n mb = n + Z.of_nat (length (contents_of mb))) as Hn
    by (intros; rewrite Hn; lia).
  induction Hmb as [|b mb Hb _ IH]; intros n Hn Hl; [cbn; lia|].
  change (contents_of (b :: mb)) with (content b ++ contents_of mb) in *. rewrite length_app in *.
  cbn [foldl]. rewrite Len_content by done. rewrite i32_small by lia. rewrite IH by lia. lia.
Qed.

Lemma IsEmpty_spec b : wf b → IsEmpty b = bool_decide (content b = []).
Proof.
  intros Hb. unfold IsEmpty. rewrite Len_content by done. apply bool_decide_ext.
  destruct (content b); cbn; split; (done || lia).
Qed.

Lemma mb_IsEmpty_spec mb : Forall wf mb → mb_IsEmpty mb = bool_decide (contents_of mb = []).
Proof.
  induction 1 as [|b mb Hb _ IH]; [done|]. cbn [mb_IsEmpty forallb]. unfold mb_IsEmpty in IH. rewrite IH.
  rewrite IsEmpty_spec by done. rewrite contents_of_cons. rewrite <- bool_decide_and. apply bool_decide_ext.
  split; [by intros [-> ->]|apply app_eq_nil].
Qed.

Lemma mb_Copy_spec mb n : Forall wf mb → mb_Copy mb n = Ret (take n (contents_of mb)).
Proof.
  intros Hmb. revert n. induction Hmb as [|b mb Hb _ IH]; intros n; cbn [mb_Copy].
  - change (contents_of []) with (@nil Z). by rewrite take_nil.
  - rewrite Bytes_content by done. cbn [ret_or_panic]. cbv zeta. rewrite Len_content by done.
    rewrite contents_of_cons, length_take. case_decide as E.
    + f_equal. rewrite take_app_le by lia. done.
    + rewrite IH. cbn [outcome_bind]. f_equal. rewrite take_app. rewrite (take_ge (content b)) by lia.
      do 2 f_equal. lia.
Qed.

(** Reading cuts the front off. *)
Lemma SplitBytes_spec mb n : Forall wf mb →
  ∃ mb', SplitBytes mb n = Ret (mb', take n (contents_of mb)) ∧ Forall wf mb' ∧
         contents_of mb' = drop n (contents_of mb).
Proof.
  intros Hmb. revert n. induction Hmb as [|b mb Hb Hmb IH]; intros n; cbn [SplitBytes].
  - exists []. change (contents_of []) with (@nil Z). rewrite take_nil, drop_nil. split; [done|]. split; [apply Forall_nil_2|done].
  - assert (∃ b', Read b n = Some (b', if decide (content b = []) then None else Some (take n (content b))) ∧
                  wf b' ∧ content b' = drop n (content b)) as (b' & -> & Hb' & Hc).
    { pose proof (run_Read b n Hb) as Hr. destruct (content b) as [|c q] eqn:E.
      - exists b. rewrite E, drop_nil. by rewrite decide_True.
      - by rewrite decide_False. }
    cbn [ret_or_panic]. cbv zeta. rewrite contents_of_cons.
    assert (default [] (if decide (content b = []) then None else Some (take n (content b))) = take n (content b)) as ->
      by (case_decide as E; [by rewrite E, take_nil|done]).
    rewrite IsEmpty_spec by done. case_bool_decide as E.
    + assert (length (content b) ≤ n)%nat as Hn
        by (rewrite Hc in E; apply (f_equal length) in E; rewrite length_drop in E; cbn in E; lia).
      destruct (IH (n - length (take n (content b)))%nat) as (mb' & -> & Hw & Hcm). cbn [outcome_bind].
      rewrite (take_ge (content b)) in * by done. exists mb'. rewrite take_app, drop_app.
      rewrite (take_ge (content b)), (drop_ge (content b)) by done. by split_all.
    + exists (b' :: mb). assert (n < length (content b))%nat as Hn.
      { destruct (decide (n < length (content b))%nat); [done|]. rewrite drop_ge in Hc by lia. done. }
      rewrite take_app_le, drop_app_le by lia. split; [done|]. split; [by apply Forall_cons_2|].
      by rewrite contents_of_cons, Hc.
Qed.

Section Specs.
Context (array : bytes) (Harray : length array = Size).

Lemma new_buffer : wf (Buffer_New array) ∧ content (Buffer_New array) = [] ∧ Z.of_nat (room (Buffer_New array)) = 8192.
Proof using Harray.
  destruct (wf_New array Harray) as (H1 & H2 & H3). split; [done|]. split; [done|]. by rewrite H3.
Qed.

Lemma Forall_snoc (mb : list Buffer) b : Forall wf mb → wf b → Forall wf (mb ++ [b]).
Proof. intros. apply Forall_app. split; [done|]. apply Forall_cons_2; [done|apply Forall_nil_2]. Qed.

Lemma merge_loop_spec fuel dest src : (length src ≤ fuel)%nat → Forall wf dest →
  ∃ mb, merge_loop array fuel dest src = Ret mb ∧ Forall wf mb ∧ contents_of mb = contents_of dest ++ src.
Proof using Harray.
  destruct new_buffer as (W0 & C0 & R0).
  revert dest src. induction fuel as [|fuel IH]; intros dest src Hf Hd.
  - destruct src; [|cbn in Hf; lia]. exists dest. by rewrite app_nil_r.
  - destruct src as [|x src]; [exists dest; by rewrite app_nil_r|]. cbn [merge_loop].
    destruct (run_Write (Buffer_New array) (x :: src) W0) as (b & -> & Wb & Cb). cbn [ret_or_panic].
    rewrite C0 in Cb. cbn [app] in Cb.
    set (n := Nat.min (room (Buffer_New array)) (length (x :: src))) in *.
    assert (take (room (Buffer_New array)) (x :: src) = take n (x :: src)) as Ht.
    { unfold n. destruct (decide (room (Buffer_New array) ≤ length (x :: src))%nat);
        [by rewrite Nat.min_l by lia|rewrite Nat.min_r by lia; by rewrite !take_ge by lia]. }
    destruct (IH (dest ++ [b]) (drop n (x :: src))) as (mb & -> & Hw & Hc).
    + rewrite length_drop. unfold n. cbn [length] in *. lia.
    + by apply Forall_snoc.
    + exists mb. split; [done|]. split; [done|].
      by rewrite Hc, contents_of_app, contents_of_one, Cb, Ht, <- app_assoc, take_drop.
Qed.

Lemma last_split (mb : list Buffer) b : last mb = Some b → mb = removelast mb ++ [b].
Proof.
  intros [mb' ->]%last_Some. by rewrite removelast_last.
Qed.

(** Nothing of the merged bytes is lost. *)
Lemma MergeBytes_spec dest src : Forall wf dest →
  ∃ mb, MergeBytes array dest src = Ret mb ∧ Forall wf mb ∧ contents_of mb = contents_of dest ++ src.
Proof using Harray.
  intros Hd. unfold MergeBytes. destruct (last dest) as [b|] eqn:El; [|by apply merge_loop_spec].
  destruct (IsFull b) eqn:Ef; [by apply merge_loop_spec|].
  apply last_split in El. rewrite El in Hd. apply Forall_app in Hd as [Hd Hb]. apply Forall_cons in Hb as [Hb _].
  destruct (run_Write b src Hb) as (b' & -> & Wb & Cb). cbn [ret_or_panic].
  set (n := Nat.min (room b) (length src)) in *.
  assert (take (room b) src = take n src) as Ht.
  { unfold n. destruct (decide (room b ≤ length src)%nat);
      [by rewrite Nat.min_l by lia|rewrite Nat.min_r by lia; by rewrite !take_ge by lia]. }
  destruct (merge_loop_spec (length src) (removelast dest ++ [b']) (drop n src)) as (mb & -> & Hw & Hc).
  - rewrite length_drop. lia.
  - by apply Forall_snoc.
  - exists mb. split; [done|]. split; [done|]. rewrite Hc.
    assert (contents_of dest = contents_of (removelast dest) ++ content b) as ->
      by (rewrite El at 1; by rewrite contents_of_app, contents_of_one).
    by rewrite contents_of_app, contents_of_one, Cb, Ht, <- !app_assoc, take_drop.
Qed.

End Specs.

(** ** Compacting *)

(** A buffer of the pool that nothing was cut off from. *)
Definition whole (b : Buffer) : Prop := wf b ∧ start b = 0 ∧ length (v b) = Size.

Lemma ReadFrom_whole last curr : whole last → wf curr → content curr ≠ [] →
  Z.of_nat (length (content last)) + Z.of_nat (length (content curr)) ≤ 8192 →
  ∃ b, Buffer_ReadFrom last curr = Ret (b, true) ∧ whole b ∧ content b = content last ++ content curr.
Proof.
  intros (Hw & Hs & Hv) Hc Hne Hle. pose proof Hw as [H1 H2 H3]. pose proof (length_content last Hw) as Hl.
  assert (Z.of_nat Size = 8192) as HS by reflexivity. unfold Buffer_ReadFrom. rewrite decide_True by lia.
  fold (room last). assert (length (content curr) ≤ room last)%nat as Hr by (unfold room; lia).
  pose proof (run_Read curr (room last) Hc) as Hrd. destruct (content curr) as [|c q] eqn:E; [done|].
  rewrite <- E in *. destruct Hrd as (b' & -> & _ & _). cbn [ret_or_panic]. rewrite take_ge by done.
  destruct (append_spec last (content curr) Hw Hr) as (Hwa & Hca & _).
  rewrite i32_small by (unfold room in Hr; lia). eexists. split; [reflexivity|]. split; [|done].
  split; [done|]. split; [done|]. cbn. rewrite length_overwrite by lia. done.
Qed.

Lemma compact_loop_spec mb mb2 last : Forall whole mb2 → whole last →
  Forall (λ b, whole b ∧ content b ≠ []) mb →
  ∃ mb', compact_loop mb2 last mb = Ret mb' ∧ Forall whole mb' ∧
    contents_of mb' = contents_of mb2 ++ content last ++ contents_of mb ∧
    (length mb' ≤ length mb2 + 1 + length mb)%nat.
Proof.
  intros Hm2 Hl Hmb. revert mb2 last Hm2 Hl. induction Hmb as [|curr mb [Hc Hne] _ IH]; intros mb2 last Hm2 Hl; cbn [compact_loop].
  - exists (mb2 ++ [last]). split; [done|]. split; [apply Forall_app; by split; [|constructor]|].
    rewrite contents_of_app, contents_of_one. change (contents_of []) with (@nil Z). rewrite app_nil_r.
    split; [done|]. rewrite length_app. cbn. lia.
  - pose proof Hl as (Hwl & _ & _). pose proof Hc as (Hwc & _ & _).
    assert (Z.of_nat Size = 8192) as HS by reflexivity.
    pose proof (length_content last Hwl). pose proof (length_content curr Hwc).
    pose proof Hwl as [? ? ?]. pose proof Hwc as [? ? ?].
    rewrite !Len_content by done. rewrite HS, i32_small by lia. rewrite contents_of_cons. case_decide as E.
    + destruct (IH (mb2 ++ [last]) curr) as (mb' & -> & Hw & Hcon & Hlen); [apply Forall_app; by split; [|constructor]|done|].
      exists mb'. split; [done|]. split; [done|]. rewrite Hcon, contents_of_app, contents_of_one, <- !app_assoc.
      split; [done|]. rewrite length_app in Hlen. cbn [length] in *. lia.
    + destruct (ReadFrom_whole last curr Hl Hwc Hne) as (b & -> & Hwb & Hcb); [lia|].
      destruct (IH mb2 b Hm2 Hwb) as (mb' & -> & Hw & Hcon & Hlen). exists mb'. split; [done|]. split; [done|].
      rewrite Hcon, Hcb, <- !app_assoc. split; [done|]. cbn [length]. lia.
Qed.

(** Compacting buffers of the pool that nothing was cut off from and that
    are not empty keeps their bytes in order, in well-formed buffers, and never
    needs more of them. *)
Theorem Compact_keeps_contents (mb : list Buffer) :
  Forall (λ b, whole b ∧ content b ≠ []) mb →
  ∃ mb', Compact mb = Ret mb' ∧ Forall whole mb' ∧ contents_of mb' = contents_of mb ∧
         (length mb' ≤ length mb)%nat.
Proof.
  intros Hmb. destruct Hmb as [|b mb [Hb _] Hmb]; [by exists []|]. cbn [Compact].
  destruct (compact_loop_spec mb [] b) as (mb' & -> & Hw & Hc & Hl); [constructor|done|done|].
  exists mb'. split_all; [done|done|by rewrite Hc|cbn in *; lia].
Qed.

(** Compacting loses bytes when the first buffer was cut at its front: if
    its content ends at the end of its array, the bytes of the next buffer are
    dropped although their lengths together fit a buffer. *)
Theorem Compact_drops_bytes (last curr : Buffer) :
  wf last → wf curr → room last = 0%nat → content curr ≠ [] →
  Z.of_nat (length (content last)) + Z.of_nat (length (content curr)) ≤ 8192 →
  ∃ mb', Compact [last; curr] = Ret mb' ∧ contents_of mb' = content last.
Proof.
  intros Hl Hc Hr Hne Hle. pose proof Hl as [H1 H2 H3]. pose proof Hc as [? ? ?].
  pose proof (length_content last Hl). pose proof (length_content curr Hc).
  assert (Z.of_nat Size = 8192) as HS by reflexivity. cbn [Compact compact_loop].
  rewrite !Len_content by done. rewrite HS, i32_small by lia. rewrite decide_False by lia.
  unfold Buffer_ReadFrom. rewrite decide_True by lia. fold (room last). rewrite Hr.
  pose proof (run_Read curr 0 Hc) as Hrd. destruct (content curr) as [|c q] eqn:E; [done|].
  destruct Hrd as (b' & -> & _ & _). cbn [ret_or_panic take]. eexists. split; [reflexivity|].
  cbn [app]. rewrite contents_of_one. destruct (append_spec last [] Hl) as (_ & Hcon & _); [cbn; lia|].
  rewrite i32_small by (cbn; lia). by rewrite Hcon, app_nil_r.
Qed.

Section Streams.
Context (array : bytes) (Harray : length array = Size).

(** ** Splitting by size *)

Lemma split_whole_spec mb total size : Forall wf mb → 0 ≤ total ≤ size →
  total + Z.of_nat (length (contents_of mb)) < 2 ^ 30 →
  ∃ rest r, split_whole total size mb = (rest, r) ∧ mb = r ++ rest ∧
    total + Z.of_nat (length (contents_of r)) ≤ size.
Proof.
  intros Hmb. revert total. induction Hmb as [|b mb Hb _ IH]; intros total Ht Hl; cbn [split_whole].
  - exists [], []. split_all; [done|done|cbn; lia].
  - rewrite contents_of_cons, length_app in Hl. rewrite Len_content by done. rewrite i32_small by lia.
    case_decide as E.
    + exists (b :: mb), []. split_all; [done|done|cbn; lia].
    + destruct (IH (total + Z.of_nat (length (content b)))) as (rest & r & -> & -> & Hle); [lia|lia|].
      exists rest, (b :: r). split_all; [done|done|]. rewrite contents_of_cons, length_app. lia.
Qed.

Lemma BytesTo_content b n : wf b → (n ≤ length (content b))%nat → BytesTo b (Z.of_nat n) = Some (take n (content b)).
Proof.
  intros Hb Hn. pose proof (length_content b Hb) as Hl. pose proof Hb as [H1 H2 H3].
  unfold BytesTo, from_end. cbv zeta. rewrite !(decide_False (P := Z.of_nat n < 0)) by lia.
  rewrite i32_small by lia. by apply (run_take b n Hb Hn).
Qed.

(** The buffers and the bytes of a multi-buffer: what a loop over cuts uses up. *)
Definition pieces (mb : list Buffer) : nat := length mb + length (contents_of mb).

Definition small_buffers (mb : list Buffer) : Prop := Forall (λ b, Z.of_nat (length (content b)) ≤ 8192) mb.

Lemma SplitSize_spec (mb : list Buffer) (size : Z) :
  Forall wf mb → 0 ≤ size → (∀ b, head mb = Some b → size < Z.of_nat (length (content b)) → size ≤ 8192) →
  Z.of_nat (length (contents_of mb)) < 2 ^ 30 →
  ∃ rest r, SplitSize array mb size = Ret (rest, r) ∧ Forall wf rest ∧ Forall wf r ∧
    contents_of r ++ contents_of rest = contents_of mb ∧ Z.of_nat (length (contents_of r)) ≤ size ∧
    (0 < size → mb ≠ [] → (pieces rest < pieces mb)%nat) ∧
    (small_buffers mb → small_buffers rest ∧ small_buffers r).
Proof using Harray.
  intros Hmb Hs Hhead Hl. destruct (new_buffer array Harray) as (W0 & C0 & R0). destruct Hmb as [|b mb Hb Hmb].
  { exists [], []. split_all; try done; try apply Forall_nil_2. }
  specialize (Hhead b eq_refl). cbn [SplitSize]. rewrite Len_content by done. case_decide as E.
  - specialize (Hhead E).
    destruct (Extend_spec (Buffer_New array) (Z.to_nat size) W0) as (nb & ext & Ee & Le & Ae & Ne); [lia|].
    rewrite Z2Nat.id in Ee, Ne by lia. rewrite Ee. cbn [ret_or_panic].
    pose proof (BytesTo_content b (Z.to_nat size) Hb ltac:(lia)) as Hbt. rewrite Z2Nat.id in Hbt by lia.
    rewrite Hbt. cbn [ret_or_panic]. cbv zeta. rewrite Le, take_take, Nat.min_id.
    replace (end_ nb - Z.of_nat (Z.to_nat size)) with (end_ (Buffer_New array)) by lia.
    assert (length (take (Z.to_nat size) (content b)) = Z.to_nat size) as Hlt by (rewrite length_take; lia).
    pose proof (patch_appended (Buffer_New array) ext [] nb (take (Z.to_nat size) (content b)) W0) as HA.
    rewrite !app_nil_r in HA. specialize (HA Ae ltac:(lia)).
    pose proof (run_Advance b (Z.to_nat size) Hb) as HAd. rewrite Z2Nat.id in HAd by lia. destruct HAd as [Wa Ca]; [lia|].
    eexists _, _. split; [reflexivity|]. split; [by apply Forall_cons_2|].
    split; [apply Forall_cons_2; [apply HA|apply Forall_nil_2]|].
    unfold pieces, small_buffers. rewrite contents_of_one, (app_content _ _ _ HA), C0, !contents_of_cons, Ca. cbn [app].
    split; [by rewrite app_assoc, take_drop|]. split; [lia|]. split.
    + intros Hp _. rewrite !length_app, length_drop. cbn [length]. lia.
    + intros Hsm. rewrite !Forall_cons, Forall_nil in *. rewrite (app_content _ _ _ HA), C0, Ca, length_drop.
      destruct Hsm. cbn [app]. split_all; (done || lia).
  - destruct (split_whole_spec (b :: mb) 0 size) as (rest & r & Er & Heq & Hle); [by apply Forall_cons_2|lia|lia|].
    rewrite Er. exists rest, r. split; [done|]. pose proof (Forall_cons_2 _ _ _ Hb Hmb) as Hall. unfold small_buffers.
    rewrite Heq in Hall |- *. apply Forall_app in Hall as [? ?]. rewrite Forall_app.
    do 2 (split; [done|]). split; [by rewrite contents_of_app|]. split; [lia|]. split; [|intros [??]; done].
    intros Hp _. unfold pieces. rewrite contents_of_app, !length_app. destruct r; cbn [length]; [|lia].
    exfalso. cbn [split_whole] in Er. rewrite Len_content, i32_small in Er by (done || rewrite contents_of_cons, length_app in Hl; lia).
    rewrite decide_False in Er by lia. by destruct (split_whole _ _ mb).
Qed.

(** [SplitSize] cuts a multi-buffer at a buffer boundary or inside its first
    buffer: the part it returns has at most [size] bytes, and together with the
    rest it holds exactly the bytes there were, in order. *)
Theorem SplitSize_splits (mb : list Buffer) (size : Z) :
  Forall wf mb → 0 ≤ size ≤ 8192 → Z.of_nat (length (contents_of mb)) < 2 ^ 30 →
  ∃ rest r, SplitSize array mb size = Ret (rest, r) ∧ Forall wf rest ∧ Forall wf r ∧
    contents_of r ++ contents_of rest = contents_of mb ∧ Z.of_nat (length (contents_of r)) ≤ size.
Proof using Harray.
  intros Hmb Hs Hl. destruct (SplitSize_spec mb size Hmb) as (rest & r & H1 & H2 & H3 & H4 & H5 & _); [lia|intros; lia|done|].
  by exists rest, r.
Qed.

(** ** Reading a stream to its end *)

Lemma ReadFull_short s n : (length (contents s) < n)%nat →
  ReadFull s n = Err (if decide (contents s ≠ [] ∧ final s = ErrEOF) then ErrUnexpectedEOF else final s).
Proof.
  intros Hl. unfold ReadFull.
  assert (∀ cs e need acc, (length (mjoin cs) < need)%nat →
    read_full_loop cs e need acc = Err (if decide (acc ++ mjoin cs ≠ [] ∧ e = ErrEOF) then ErrUnexpectedEOF else e)) as Hshort.
  { induction cs as [|c cs IH]; intros e need acc Hn; cbn [read_full_loop].
    - rewrite decide_False by (cbn in Hn; lia). change (mjoin []) with (@nil Z). by rewrite app_nil_r.
    - change (mjoin (c :: cs)) with (c ++ mjoin cs) in *. rewrite length_app in Hn.
      rewrite decide_False by lia. rewrite decide_True by lia. rewrite IH by lia. by rewrite app_assoc. }
  rewrite Hshort by done. done.
Qed.

Lemma read_all_spec fuel mb s : (length (contents s) < fuel)%nat → Forall wf mb →
  ∃ mb' err, read_all array fuel mb s = Ret (mb', err) ∧ Forall wf mb' ∧
    contents_of mb' = contents_of mb ++ contents s ∧
    (err = false ↔ final s = ErrEOF ∨ final s = ErrUnexpectedEOF).
Proof using Harray.
  destruct (new_buffer array Harray) as (W0 & C0 & R0). assert (Z.of_nat Size = 8192) as HS by reflexivity.
  revert mb s. induction fuel as [|fuel IH]; intros mb s Hf Hmb; [lia|]. cbn [read_all].
  destruct (decide (length (contents s) < Size)%nat) as [Hlt|Hge].
  - rewrite ReadFull_short by done.
    destruct (write_all_spec (Buffer_New array) (contents s) W0) as (b & -> & [Wb Cb _ _ _]); [lia|].
    cbn [outcome_bind]. rewrite C0 in Cb. cbn [app] in Cb. do 2 eexists. split; [reflexivity|].
    rewrite IsEmpty_spec by done. rewrite Cb. split; [|split].
    + case_bool_decide; [done|by apply Forall_snoc].
    + case_bool_decide as E; [by rewrite E, app_nil_r|]. by rewrite contents_of_app, contents_of_one, Cb.
    + rewrite negb_false_iff, bool_decide_eq_true. case_decide; naive_solver.
  - destruct (ReadFull_enough s (take Size (contents s)) (drop Size (contents s)) Size) as (s' & -> & Cs & Fs).
    { by rewrite take_drop. }
    { rewrite length_take. lia. }
    destruct (write_all_spec (Buffer_New array) (take Size (contents s)) W0) as (b & -> & [Wb Cb _ _ _]);
      [rewrite length_take; lia|].
    cbn [outcome_bind]. rewrite C0 in Cb. cbn [app] in Cb.
    destruct (IH (mb ++ [b]) s') as (mb' & err & -> & Hw & Hc & Herr).
    + rewrite Cs, length_drop. lia.
    + by apply Forall_snoc.
    + exists mb', err. split; [done|]. split; [done|]. rewrite Fs in Herr. split; [|done].
      by rewrite Hc, contents_of_app, contents_of_one, Cb, Cs, <- app_assoc, take_drop.
Qed.

Lemma ReadFrom_spec s : ∃ mb err, ReadFrom array s = Ret (mb, err) ∧ Forall wf mb ∧
  contents_of mb = contents s ∧ (err = false ↔ final s = ErrEOF ∨ final s = ErrUnexpectedEOF).
Proof using Harray. apply (read_all_spec _ [] s); [lia|apply Forall_nil_2]. Qed.

(** [ReadAllToBytes] returns everything a reader delivers before its orderly
    end, whatever the chunks, and an error when the reader ends with one. *)
Theorem ReadAllToBytes_spec (s : stream) :
  Z.of_nat (length (contents s)) < 2 ^ 30 →
  ReadAllToBytes array s =
    if decide (final s = ErrEOF ∨ final s = ErrUnexpectedEOF) then Ret (contents s) else Fail.
Proof using Harray.
  intros Hl. destruct (ReadFrom_spec s) as (mb & err & E & Hw & Hc & Herr). unfold ReadAllToBytes.
  rewrite E. cbn [outcome_bind]. destruct err.
  - rewrite decide_False; [done|]. intros H. by apply Herr in H.
  - rewrite (decide_True (P := final s = ErrEOF ∨ _)) by (by apply Herr). rewrite mb_Len_spec by (done || by rewrite Hc). rewrite Hc.
    case_decide as E0.
    + f_equal. symmetry. apply nil_length_inv. lia.
    + destruct (SplitBytes_spec mb (Z.to_nat (Z.of_nat (length (contents s)))) Hw) as (mb' & -> & _ & _).
      cbn [outcome_bind]. rewrite Nat2Z.id, Hc. by rewrite take_ge.
Qed.

(** ** The container *)

(** [MultiBufferContainer]: its state is the multi-buffer. *)
Definition container_Read (mb : list Buffer) (n : nat) : outcome (list Buffer * option bytes) :=
  if mb_IsEmpty mb then Ret (mb, None)
  else outcome_bind (SplitBytes mb n) (λ '(mb, d), Ret (mb, Some d)).

Definition container_ReadMultiBuffer (mb : list Buffer) : list Buffer * list Buffer := ([], mb).

Definition container_Write (mb : list Buffer) (d : bytes) : outcome (list Buffer * nat) :=
  outcome_bind (MergeBytes array mb d) (λ mb, Ret (mb, length d)).

Definition container_WriteMultiBuffer (mb b : list Buffer) : list Buffer := (MergeMulti mb b).1.

Definition container_Close (mb : list Buffer) : list Buffer := [].

Inductive container_op :=
| CRead (n : nat) | CReadMultiBuffer | CWrite (d : bytes) | CWriteMultiBuffer (mb : list Buffer) | CClose.

Inductive container_reply := CUnit | CCount (n : nat) | CBytes (d : bytes) | CEof.

Definition run_container (o : container_op) (mb : list Buffer) : outcome (list Buffer * container_reply) :=
  match o with
  | CRead n => outcome_bind (container_Read mb n) (λ '(mb, r),
                 Ret (mb, match r with Some d => CBytes d | None => CEof end))
  | CReadMultiBuffer => let '(mb, r) := container_ReadMultiBuffer mb in Ret (mb, CBytes (contents_of r))
  | CWrite d => outcome_bind (container_Write mb d) (λ '(mb, n), Ret (mb, CCount n))
  | CWriteMultiBuffer b => Ret (container_WriteMultiBuffer mb b, CUnit)
  | CClose => Ret (container_Close mb, CUnit)
  end.

(** The same operations on an unbounded queue of bytes. *)
Definition queue_container (o : container_op) (q : bytes) : bytes * container_reply :=
  match o with
  | CRead n => match q with [] => ([], CEof) | _ => (drop n q, CBytes (take n q)) end
  | CReadMultiBuffer => ([], CBytes q)
  | CWrite d => (q ++ d, CCount (length d))
  | CWriteMultiBuffer mb => (q ++ contents_of mb, CUnit)
  | CClose => ([], CUnit)
  end.

Definition container_op_ok (o : container_op) : Prop :=
  match o with CWriteMultiBuffer mb => Forall wf mb | _ => True end.

(** A run of operations with their replies. *)
Fixpoint run_container_ops (os : list container_op) (mb : list Buffer)
    : outcome (list Buffer * list container_reply) :=
  match os with
  | [] => Ret (mb, [])
  | o :: os =>
    outcome_bind (run_container o mb) (λ '(mb, r),
    outcome_bind (run_container_ops os mb) (λ '(mb, rs), Ret (mb, r :: rs)))
  end.

Fixpoint queue_container_ops (os : list container_op) (q : bytes) : bytes * list container_reply :=
  match os with
  | [] => (q, [])
  | o :: os => let '(q, r) := queue_container o q in let '(q, rs) := queue_container_ops os q in (q, r :: rs)
  end.

Lemma run_container_spec o mb : Forall wf mb → container_op_ok o →
  ∃ mb' r, run_container o mb = Ret (mb', r) ∧ Forall wf mb' ∧
    queue_container o (contents_of mb) = (contents_of mb', r).
Proof using Harray.
  intros Hmb Ho. destruct o as [n| |d|b|]; cbn [run_container queue_container container_op_ok] in *.
  - unfold container_Read. rewrite mb_IsEmpty_spec by done. case_bool_decide as E.
    + rewrite E. exists mb, CEof. by rewrite E.
    + destruct (SplitBytes_spec mb n Hmb) as (mb' & -> & Hw & Hc). cbn [outcome_bind].
      exists mb', (CBytes (take n (contents_of mb))). split; [done|]. split; [done|].
      rewrite Hc. by destruct (contents_of mb).
  - do 2 eexists. split; [reflexivity|]. split; [apply Forall_nil_2|done].
  - destruct (MergeBytes_spec array Harray mb d Hmb) as (mb' & E & Hw & Hc). unfold container_Write. rewrite E. cbn [outcome_bind].
    do 2 eexists. split; [reflexivity|]. split; [done|]. by rewrite Hc.
  - do 2 eexists. split; [reflexivity|]. unfold container_WriteMultiBuffer, MergeMulti. cbn [fst].
    split; [by apply Forall_app|]. by rewrite contents_of_app.
  - do 2 eexists. split; [reflexivity|]. split; [apply Forall_nil_2|done].
Qed.

(** A multi-buffer container is an unbounded queue of bytes: any sequence of
    reads and writes, by bytes or by whole multi-buffers, gives the replies of
    the queue, the end of file included, and never panics. *)
Theorem container_refines_queue (os : list container_op) (mb : list Buffer) :
  Forall wf mb → Forall container_op_ok os →
  ∃ mb' rs, run_container_ops os mb = Ret (mb', rs) ∧ Forall wf mb' ∧
    queue_container_ops os (contents_of mb) = (contents_of mb', rs).
Proof using Harray.
  intros Hmb Hos. revert mb Hmb. induction Hos as [|o os Ho _ IH]; intros mb Hmb.
  - by exists mb, [].
  - cbn [run_container_ops queue_container_ops].
    destruct (run_container_spec o mb Hmb Ho) as (mb1 & r & -> & Hw & ->). cbn [outcome_bind].
    destruct (IH mb1 Hw) as (mb2 & rs & -> & Hw2 & ->). cbn [outcome_bind]. by exists mb2, (r :: rs).
Qed.

End Streams.

(** ** Concrete multi-buffers *)

(** A buffer of the pool with some content. *)
Definition pool_buffer (d : bytes) : Buffer :=
  with_array (Buffer_New pool_array) (overwrite pool_array 0 d) (Z.of_nat (length d)).

Lemma pool_buffer_whole d : Z.of_nat (length d) ≤ 8192 → whole (pool_buffer d) ∧ content (pool_buffer d) = d.
Proof.
  intros Hd. destruct (wf_New pool_array pool_array_length) as (Hw & Hc & Hr).
  assert (Z.of_nat (room (Buffer_New pool_array)) = 8192) as HR by (by rewrite Hr).
  destruct (append_spec (Buffer_New pool_array) d Hw) as (Hw' & Hc' & _); [lia|].
  change (with_array (Buffer_New pool_array) (overwrite (v (Buffer_New pool_array)) (Z.to_nat (end_ (Buffer_New pool_array))) d)
    (end_ (Buffer_New pool_array) + Z.of_nat (length d))) with (pool_buffer d) in *.
  split; [|by rewrite Hc', Hc]. split; [done|]. split; [done|]. cbn [v pool_buffer with_array].
  rewrite length_overwrite by lia. apply pool_array_length.
Qed.

Definition sample_mb : list Buffer := [pool_buffer (lit "ab"); pool_buffer (lit "c")].

Lemma sample_mb_whole : Forall (λ b, whole b ∧ content b ≠ []) sample_mb.
Proof.
  apply Forall_cons_2; [|apply Forall_cons_2; [|apply Forall_nil_2]].
  - destruct (pool_buffer_whole (lit "ab")) as [Hw ->]; done.
  - destruct (pool_buffer_whole (lit "c")) as [Hw ->]; done.
Qed.

Lemma sample_mb_wf : Forall wf sample_mb.
Proof. eapply Forall_impl; [apply sample_mb_whole|]. by intros b [[? _] _]. Qed.

Lemma Compact_keeps_contents_witness :
  ∃ mb', Compact sample_mb = Ret mb' ∧ Forall whole mb' ∧ contents_of mb' = contents_of sample_mb ∧
         (length mb' ≤ length sample_mb)%nat.
Proof. apply (Compact_keeps_contents sample_mb). apply sample_mb_whole. Defined.

(** The last bytes of a full buffer, the others having been read. *)
Definition read_tail : Buffer := Advance (FromBytes (lit "abcdef")) 4.

Lemma Compact_drops_bytes_witness :
  ∃ mb', Compact [read_tail; FromBytes (lit "gh")] = Ret mb' ∧ contents_of mb' = content read_tail.
Proof.
  apply (Compact_drops_bytes read_tail (FromBytes (lit "gh"))).
  - apply (run_Advance (FromBytes (lit "abcdef")) 4); [apply FromBytes_wf; cbn; lia|lia].
  - apply FromBytes_wf. cbn. lia.
  - vm_compute. reflexivity.
  - vm_compute. discriminate.
  - vm_compute. discriminate.
Defined.

Lemma SplitSize_splits_witness :
  ∃ rest r, SplitSize pool_array sample_mb 2 = Ret (rest, r) ∧ Forall wf rest ∧ Forall wf r ∧
    contents_of r ++ contents_of rest = contents_of sample_mb ∧ Z.of_nat (length (contents_of r)) ≤ 2.
Proof.
  apply (SplitSize_splits pool_array pool_array_length sample_mb 2).
  - apply sample_mb_wf.
  - lia.
  - vm_compute. reflexivity.
Defined.

Definition sample_reader : stream := {| chunks := [lit "ab"; lit "c"]; final := ErrEOF |}.

Lemma ReadAllToBytes_spec_witness :
  ReadAllToBytes pool_array sample_reader =
    if decide (final sample_reader = ErrEOF ∨ final sample_reader = ErrUnexpectedEOF)
    then Ret (contents sample_reader) else Fail.
Proof. apply (ReadAllToBytes_spec pool_array pool_array_length sample_reader). vm_compute. reflexivity. Defined.

Definition sample_ops : list container_op :=
  [CWrite (lit "xy"); CRead 1; CWriteMultiBuffer sample_mb; CRead 10; CRead 1].

Lemma container_refines_queue_witness :
  ∃ mb' rs, run_container_ops pool_array sample_ops [] = Ret (mb', rs) ∧ Forall wf mb' ∧
    queue_container_ops sample_ops (contents_of []) = (contents_of mb', rs).
Proof.
  apply (container_refines_queue pool_array pool_array_length sample_ops []).
  - apply Forall_nil_2.
  - repeat (apply Forall_cons_2; [first [exact I|apply sample_mb_wf]|]). apply Forall_nil_2.
Defined.
