(* ===== verification/BufIO.v ===== *)
(** Readers and writers of multi-buffers (src/upstream/xray-core/common/buf:
    reader.go, writer.go, copy.go and io.go): the two interfaces, the reader with
    a buffer of its own, the writer with one, and the copy loop between them.
    Counters and activity timers that only observe a copy are left out, and a
    pooled array is filled with zeros, since nothing reads outside the window of
    a buffer. *)
From S2P Require Import Prelude Frame Buf AddressParser BufAppend MultiBuffer.

(** ** The interfaces *)

(** [buf.Reader]: data, an error or both, and the reader afterwards. *)
Class BufReader (R : Type) := read_mb : R → outcome (list Buffer * option frame_error * R).

(** [buf.Writer]. *)
Class BufWriter (W : Type) := write_mb : W → list Buffer → W * option frame_error.

(** A reader that delivers multi-buffers one after the other, then an error. *)
Record source := { parts : list (list Buffer); src_final : frame_error }.

#[global] Instance source_reader : BufReader source := λ s,
  match parts s with
  | [] => Ret ([], Some (src_final s), s)
  | mb :: l => Ret (mb, None, {| parts := l; src_final := src_final s |})
  end.

(** A writer that keeps what it is given. *)
Definition memory_mb : BufWriter (list (list Buffer)) := λ w mb, (w ++ [mb], None).

(** [buf.Discard]. *)
Definition Discard : BufWriter unit := λ w _, (w, None).

(** ** Copy *)

Inductive copy_error := ReadError (e : frame_error) | WriteError (e : frame_error).

Definition cause (e : copy_error) : frame_error := match e with ReadError e | WriteError e => e end.

Definition IsWriteError (e : option copy_error) : bool :=
  match e with Some (WriteError _) => true | _ => false end.

Definition IsReadError (e : option copy_error) : bool :=
  match e with Some (ReadError _) => true | _ => false end.

Section Copy.
Context {R W : Type} `{BufReader R, BufWriter W}.

(** The loop of [copyInternal]; out of fuel it is [Panic]. *)
Fixpoint copyInternal (fuel : nat) (r : R) (w : W) : outcome (R * W * copy_error) :=
  match fuel with
  | O => Panic
  | S fuel =>
    let? (buffer, err, r) := read_mb r in
    let '(w, werr) := if mb_IsEmpty buffer then (w, None) else write_mb w buffer in
    match werr, err with
    | Some e, _ => Ret (r, w, WriteError e)
    | None, Some e => Ret (r, w, ReadError e)
    | None, None => copyInternal fuel r w
    end
  end.

(** [Copy] returns no error at the end of the reader. *)
Definition Copy (fuel : nat) (r : R) (w : W) : outcome (R * W * option copy_error) :=
  let? (r, w, err) := copyInternal fuel r w in
  Ret (r, w, if decide (cause err = ErrEOF) then None else Some err).
End Copy.

(** ** BufferedReader *)

Record BufferedReader (R : Type) := {
  Reader : R;
  br_Buffer : list Buffer;
  Splitter : option (list Buffer → nat → outcome (list Buffer * bytes))
}.
Arguments Reader {R}.
Arguments br_Buffer {R}.
Arguments Splitter {R}.
Arguments Build_BufferedReader {R}.

Definition empty_as_nil (mb : list Buffer) : list Buffer := if mb_IsEmpty mb then [] else mb.

Section BufferedReader.
Context {R : Type} `{BufReader R}.
Implicit Types r : BufferedReader R.

Definition with_buffer (src : R) (mb : list Buffer) (r : BufferedReader R) : BufferedReader R :=
  {| Reader := src; br_Buffer := mb; Splitter := Splitter r |}.

Definition BufferedBytes (r : BufferedReader R) : Z := mb_Len (br_Buffer r).

(** [Read] into a slice of [n] bytes. *)
Definition br_Read (n : nat) (r : BufferedReader R) : outcome (result frame_error bytes * BufferedReader R) :=
  let spliter := default SplitBytes (Splitter r) in
  if negb (mb_IsEmpty (br_Buffer r)) then
    let? (buffer, d) := spliter (br_Buffer r) n in
    Ret (Ok d, with_buffer (Reader r) (empty_as_nil buffer) r)
  else
    let? (mb, err, src) := read_mb (Reader r) in
    match err with
    | Some e => Ret (Err e, with_buffer src (br_Buffer r) r)
    | None =>
      let? (mb, d) := spliter mb n in
      Ret (Ok d, with_buffer src (if mb_IsEmpty mb then br_Buffer r else mb) r)
    end.

Definition br_ReadByte (r : BufferedReader R) : outcome (result frame_error bytes * BufferedReader R) := br_Read 1 r.

Definition br_ReadMultiBuffer (r : BufferedReader R)
    : outcome (list Buffer * option frame_error * BufferedReader R) :=
  if negb (mb_IsEmpty (br_Buffer r)) then Ret (br_Buffer r, None, with_buffer (Reader r) [] r)
  else let? (mb, err, src) := read_mb (Reader r) in Ret (mb, err, with_buffer src (br_Buffer r) r).

#[global] Instance buffered_reader : BufReader (BufferedReader R) := br_ReadMultiBuffer.

(** The first half of [ReadAtMost]: the buffer is filled when it is empty. *)
Definition br_fill (r : BufferedReader R) : outcome (BufferedReader R * option frame_error) :=
  if mb_IsEmpty (br_Buffer r) then
    let? (mb, err, src) := read_mb (Reader r) in
    match err with
    | Some e => if mb_IsEmpty mb then Ret (with_buffer src (br_Buffer r) r, Some e)
                else Ret (with_buffer src mb r, None)
    | None => Ret (with_buffer src mb r, None)
    end
  else Ret (r, None).

Definition ReadAtMost (size : Z) (r : BufferedReader R)
    : outcome (list Buffer * option frame_error * BufferedReader R) :=
  let? (r, err) := br_fill r in
  match err with
  | Some e => Ret ([], Some e, r)
  | None =>
    let? (rb, mb) := SplitSize pool_array (br_Buffer r) size in
    Ret (mb, None, with_buffer (Reader r) (empty_as_nil rb) r)
  end.

(** [io.ReadFull] on such a reader; out of fuel it is [Panic]. *)
Fixpoint br_read_loop (fuel need : nat) (acc : bytes) (r : BufferedReader R)
    : outcome (result frame_error bytes * BufferedReader R) :=
  if decide (need = 0%nat) then Ret (Ok acc, r)
  else
    match fuel with
    | O => Panic
    | S fuel =>
      let? (d, r) := br_Read need r in
      match d with
      | Ok d => br_read_loop fuel (need - length d) (acc ++ d) r
      | Err e => Ret (Err (if decide (acc ≠ [] ∧ e = ErrEOF) then ErrUnexpectedEOF else e), r)
      end
    end.
End BufferedReader.

(** ** The buffered reader as a stream *)

Definition mb_ok (mb : list Buffer) : Prop :=
  Forall wf mb ∧ small_buffers mb ∧ Z.of_nat (length (contents_of mb)) < 2 ^ 30.

Record br_ok (r : BufferedReader source) : Prop := {
  ok_buffer : mb_ok (br_Buffer r);
  ok_parts : Forall mb_ok (parts (Reader r));
  ok_splitter : Splitter r = None
}.

(** The chunks that the reader delivers: its buffer, when there is something in
    it, and then one chunk for every multi-buffer of its source. *)
Definition as_stream (r : BufferedReader source) : stream :=
  {| chunks := (if mb_IsEmpty (br_Buffer r) then [] else [contents_of (br_Buffer r)]) ++
               (contents_of <$> parts (Reader r));
     final := src_final (Reader r) |}.

Definition br_ReadFull (n : nat) (r : BufferedReader source)
    : outcome (result frame_error bytes * BufferedReader source) :=
  br_read_loop (2 + length (parts (Reader r))) n [] r.

(** The chunk that is left, if anything is. *)
Definition push_chunk (c : bytes) (cs : list bytes) : list bytes := if decide (c = []) then cs else c :: cs.

Lemma mb_ok_nil : mb_ok [].
Proof. split; [apply Forall_nil_2|]. split; [apply Forall_nil_2|]. change (length (contents_of [])) with 0%nat. lia. Qed.

Lemma mb_ok_empty mb : mb_ok mb → mb_IsEmpty mb = bool_decide (contents_of mb = []).
Proof. intros (Hw & _). by apply mb_IsEmpty_spec. Qed.

Lemma empty_as_nil_ok mb : mb_ok mb → mb_ok (empty_as_nil mb).
Proof. unfold empty_as_nil. case_match; auto using mb_ok_nil. Qed.

Lemma contents_empty_as_nil mb : mb_ok mb → contents_of (empty_as_nil mb) = contents_of mb.
Proof.
  intros H. unfold empty_as_nil. rewrite mb_ok_empty by done. by case_bool_decide as E; [rewrite E|].
Qed.

Lemma Read_small b n b' r : wf b → Read b n = Some (b', r) → (length (content b') ≤ length (content b))%nat.
Proof.
  intros Hb E. pose proof (run_Read b n Hb) as Hr. destruct (content b) as [|c q] eqn:Ec.
  - rewrite Hr in E. injection E as <- _. by rewrite Ec.
  - destruct Hr as (b2 & Hr & _ & Hc). rewrite Hr in E. injection E as <- _. rewrite Hc, length_drop. lia.
Qed.

Lemma SplitBytes_small mb n mb' d : Forall wf mb → SplitBytes mb n = Ret (mb', d) → small_buffers mb → small_buffers mb'.
Proof.
  intros Hw. revert n mb' d. induction Hw as [|b mb Hb Hw IH]; intros n mb' d; cbn [SplitBytes].
  { by intros [= <- <-]. }
  destruct (Read b n) as [[b' r]|] eqn:E; [|done]. apply Read_small in E; [|done]. cbn [ret_or_panic]. cbv zeta.
  intros Hr [Hsb Hsm]%Forall_cons_1. destruct (IsEmpty b').
  - destruct (SplitBytes mb _) as [[mb2 more]| |] eqn:E2; try done. injection Hr as <- <-. by eapply IH.
  - injection Hr as <- <-. apply Forall_cons_2; [lia|done].
Qed.

Lemma SplitBytes_ok mb n : mb_ok mb → ∃ mb', SplitBytes mb n = Ret (mb', take n (contents_of mb)) ∧ mb_ok mb' ∧
  contents_of mb' = drop n (contents_of mb).
Proof.
  intros (Hw & Hs & Hl). destruct (SplitBytes_spec mb n Hw) as (mb' & E & Hw' & Hc). exists mb'. split; [done|].
  split; [|done]. split; [done|]. split; [exact (SplitBytes_small _ _ _ _ Hw E Hs)|rewrite Hc, length_drop; lia].
Qed.

(** One [Read]: a piece of the first chunk, or the final error. *)
Lemma br_Read_stream r n : br_ok r → (0 < n)%nat →
  match chunks (as_stream r) with
  | [] => br_Read n r = Ret (Err (final (as_stream r)), r)
  | c :: cs => ∃ r', br_Read n r = Ret (Ok (take n c), r') ∧ br_ok r' ∧
      as_stream r' = {| chunks := push_chunk (drop n c) cs; final := final (as_stream r) |} ∧
      (length (chunks (as_stream r')) + (if decide (drop n c = []) then 1 else 0) = length (chunks (as_stream r)))%nat
  end.
Proof.
  intros [Hb Hp Hsp] Hn. destruct r as [[ps e] mb sp]. cbn [Reader br_Buffer Splitter parts src_final] in *. subst sp.
  unfold br_Read, as_stream. cbn [Reader br_Buffer Splitter parts src_final default from_option id].
  destruct (mb_IsEmpty mb) eqn:Em; cbn [negb app chunks final].
  - destruct ps as [|mb1 ps]; [done|]. cbn [fmap list_fmap]. apply Forall_cons in Hp as [H1 Hp].
    unfold read_mb, source_reader. cbn [parts src_final outcome_bind].
    destruct (SplitBytes_ok mb1 n H1) as (mb' & -> & Hok & Hc). cbn [outcome_bind]. eexists. split; [reflexivity|].
    assert (mb_IsEmpty mb' = bool_decide (drop n (contents_of mb1) = [])) as E by (by rewrite mb_ok_empty, Hc).
    unfold with_buffer, push_chunk. cbn [Reader br_Buffer Splitter parts src_final]. rewrite E, <- Hc.
    rewrite <- Hc in E. case_bool_decide as E'; cbn [Reader br_Buffer Splitter parts src_final].
    + rewrite Em, !decide_True by done. split; [by split|]. split; [done|cbn [app length]; lia].
    + rewrite E, !decide_False by done. split; [by split|]. split; [done|cbn [app length]; lia].
  - destruct (SplitBytes_ok mb n Hb) as (mb' & -> & Hok & Hc). cbn [outcome_bind]. eexists. split; [reflexivity|].
    unfold with_buffer, push_chunk, empty_as_nil. cbn [Reader br_Buffer Splitter parts src_final].
    pose proof (mb_ok_empty mb' Hok) as E. rewrite E, <- Hc. case_bool_decide as E'; cbn [Reader br_Buffer Splitter].
    + rewrite !decide_True by done. split; [split; try done; apply mb_ok_nil|]. split; [done|]. change (mb_IsEmpty []) with true. cbn [app length]. lia.
    + rewrite E, !decide_False by done. split; [by split|]. split; [done|cbn [app length]; lia].
Qed.

(** [io.ReadFull] on a buffered reader reads what it reads from the stream of
    its chunks. *)
Lemma br_read_loop_stream fuel need acc r : br_ok r → (length (chunks (as_stream r)) < fuel)%nat →
  ∃ r', br_ok r' ∧
    match read_full_loop (chunks (as_stream r)) (final (as_stream r)) need acc with
    | Ok (d, cs) => br_read_loop fuel need acc r = Ret (Ok d, r') ∧
                    as_stream r' = {| chunks := cs; final := final (as_stream r) |}
    | Err e => br_read_loop fuel need acc r = Ret (Err e, r') ∧ chunks (as_stream r') = []
    end.
Proof.
  revert need acc r. induction fuel as [|fuel IH]; intros need acc r Hr Hf; [lia|]. cbn [br_read_loop].
  destruct (decide (need = 0%nat)) as [->|Hneed].
  { exists r. split; [done|]. destruct (chunks (as_stream r)) eqn:E; cbn [read_full_loop];
      rewrite decide_True by done; by rewrite <- E; destruct (as_stream r). }
  pose proof (br_Read_stream r need Hr ltac:(lia)) as Hread. destruct (chunks (as_stream r)) as [|c cs] eqn:E.
  - rewrite Hread. cbn [outcome_bind read_full_loop]. rewrite decide_False by done. by exists r.
  - destruct Hread as (r1 & -> & Hr1 & Hs1 & Hlen). cbn [outcome_bind read_full_loop].
    rewrite decide_False by done. rewrite length_take. destruct (decide (length c ≤ need)%nat) as [Hle|Hgt].
    + rewrite Nat.min_r, take_ge by lia. pose proof (drop_ge c need Hle) as Hd. unfold push_chunk in Hs1.
      rewrite decide_True in Hs1 by done. rewrite decide_True in Hlen by done. destruct (IH (need - length c)%nat (acc ++ c) r1 Hr1 ltac:(cbn [length] in *; lia))
        as (r' & Hr' & Hx). exists r'. split; [done|]. by rewrite Hs1 in Hx.
    + rewrite Nat.min_l by lia. rewrite Nat.sub_diag. exists r1. split; [done|].
      assert (drop need c ≠ []) as Hd by (intros Hx; apply (f_equal length) in Hx; rewrite length_drop in Hx; cbn in Hx; lia).
      split; [destruct fuel; by rewrite ?decide_True|]. rewrite Hs1. unfold push_chunk. by rewrite decide_False.
Qed.

Lemma length_chunks r : (length (chunks (as_stream r)) ≤ 1 + length (parts (Reader r)))%nat.
Proof. unfold as_stream. cbn [chunks]. rewrite length_app, length_fmap. case_match; cbn; lia. Qed.

Lemma br_ReadFull_stream n r : br_ok r →
  ∃ r', br_ok r' ∧
    match ReadFull (as_stream r) n with
    | Ok (d, s) => br_ReadFull n r = Ret (Ok d, r') ∧ as_stream r' = s
    | Err e => br_ReadFull n r = Ret (Err e, r') ∧ chunks (as_stream r') = []
    end.
Proof.
  intros Hr. pose proof (length_chunks r) as Hl.
  destruct (br_read_loop_stream (2 + length (parts (Reader r))) n [] r Hr ltac:(lia)) as (r' & Hr' & E).
  exists r'. split; [done|]. unfold ReadFull. by destruct (read_full_loop _ _ _ _) as [[d cs]|e].
Qed.

(** [Buffer.ReadFullFrom] on a buffered reader. *)
Definition br_ReadFullFrom (b : Buffer) (size : Z) (r : BufferedReader source)
    : outcome (result buf_error Buffer * BufferedReader source) :=
  let e := i32 (end_ b + size) in
  if decide (Z.of_nat (length (v b)) < e) then Ret (Err BufOutOfBound, r)
  else
    ret_or_panic (array_slice b (end_ b) e) (λ space,
    let? (d, r) := br_ReadFull (length space) r in
    match d with
    | Err err => Ret (Err (BufReadError err), r)
    | Ok data =>
      Ret (Ok (with_array b (overwrite (v b) (Z.to_nat (end_ b)) data) (i32 (end_ b + Z.of_nat (length data)))), r)
    end).

(** What every call of [ReadAtMost] uses up: buffers, bytes and parts. *)
Definition weight (r : BufferedReader source) : nat :=
  pieces (br_Buffer r) + sum_list ((λ mb, S (pieces mb)) <$> parts (Reader r)).

Lemma contents_as_stream r : br_ok r →
  contents (as_stream r) = contents_of (br_Buffer r) ++ mjoin (contents_of <$> parts (Reader r)).
Proof.
  intros [Hb _ _]. unfold contents, as_stream. cbn [chunks]. rewrite mb_ok_empty by done.
  case_bool_decide as E; [by rewrite E|]. cbn [app]. done.
Qed.

Lemma SplitSize_ok mb size : mb_ok mb → 0 < size →
  ∃ rest r, SplitSize pool_array mb size = Ret (rest, r) ∧ mb_ok rest ∧ mb_ok r ∧
    contents_of r ++ contents_of rest = contents_of mb ∧ Z.of_nat (length (contents_of r)) ≤ size ∧
    (mb ≠ [] → (pieces rest < pieces mb)%nat).
Proof.
  intros (Hw & Hs & Hl) Hsize.
  destruct (SplitSize_spec pool_array pool_array_length mb size Hw) as (rest & r & E & Hw1 & Hw2 & Hc & Hle & Hp & Hsm);
    [lia| |done|].
  { intros b Hb Hlt. destruct mb as [|b' mb]; [done|]. injection Hb as <-. apply Forall_cons in Hs as [? _]. lia. }
  destruct (Hsm Hs). assert (length (contents_of mb) = length (contents_of r) + length (contents_of rest))%nat
    by (by rewrite <- Hc, length_app).
  exists rest, r. split; [done|]. split; [split; [done|split; [done|lia]]|]. split; [split; [done|split; [done|lia]]|].
  split; [done|]. split; [done|]. by apply Hp.
Qed.

Lemma pieces_empty_as_nil mb : (pieces (empty_as_nil mb) ≤ pieces mb)%nat.
Proof. unfold empty_as_nil. case_match; [cbn; lia|done]. Qed.

Lemma SplitBytes_pieces mb n mb' d : Forall wf mb → SplitBytes mb n = Ret (mb', d) → (pieces mb' ≤ pieces mb)%nat.
Proof.
  intros Hw E. destruct (SplitBytes_spec mb n Hw) as (mb2 & E2 & _ & Hc). rewrite E in E2. injection E2 as <- _.
  unfold pieces. rewrite Hc, length_drop. enough (length mb' ≤ length mb)%nat by lia. clear Hc Hw.
  revert n mb' d E. induction mb as [|b mb IH]; intros n mb' d; cbn [SplitBytes]; [by intros [= <- <-]|].
  destruct (Read b n) as [[b' r]|]; [|done]. cbn [ret_or_panic]. cbv zeta. destruct (IsEmpty b').
  - destruct (SplitBytes mb _) as [[mb2 more]| |] eqn:E; try done. intros [= <- <-]. apply IH in E. cbn. lia.
  - intros [= <- <-]. done.
Qed.

Lemma br_Read_weight r n d r' : br_ok r → br_Read n r = Ret (d, r') → (weight r' ≤ weight r)%nat.
Proof.
  intros [(Hw & _) Hp Hsp]. destruct r as [[ps e] mb sp]. cbn [Reader br_Buffer Splitter parts] in *. subst sp.
  unfold br_Read, weight. cbn [Reader br_Buffer Splitter parts default from_option id].
  destruct (mb_IsEmpty mb) eqn:Em; cbn [negb].
  - destruct ps as [|mb1 ps]; unfold read_mb, source_reader; cbn [parts src_final outcome_bind]; [by intros [= <- <-]|].
    apply Forall_cons in Hp as [(Hw1 & _) _]. destruct (SplitBytes mb1 n) as [[mb2 x]| |] eqn:E; try done.
    apply SplitBytes_pieces in E; [|done]. intros [= <- <-]. cbn [with_buffer Reader br_Buffer parts fmap list_fmap].
    cbn. case_match; lia.
  - destruct (SplitBytes mb n) as [[mb2 x]| |] eqn:E; try done. apply SplitBytes_pieces in E; [|done].
    intros [= <- <-]. cbn [with_buffer Reader br_Buffer parts]. pose proof (pieces_empty_as_nil mb2). lia.
Qed.

Lemma br_read_loop_weight fuel need acc r d r' : br_ok r → (0 < need)%nat →
  br_read_loop fuel need acc r = Ret (d, r') → (weight r' ≤ weight r)%nat.
Proof.
  revert need acc r. induction fuel as [|fuel IH]; intros need acc r Hr Hn; cbn [br_read_loop];
    rewrite decide_False by lia; [done|].
  destruct (br_Read need r) as [[[x|e] r1]| |] eqn:E; try done; cbn [outcome_bind].
  - pose proof (br_Read_weight _ _ _ _ Hr E). pose proof (br_Read_stream r need Hr Hn) as Hs. rewrite E in Hs.
    destruct (chunks (as_stream r)) as [|c cs]; [done|]. destruct Hs as (r2 & [= -> <-] & Hr1 & _).
    destruct (decide (need - length (take need c) = 0)%nat) as [E0|E0].
    + rewrite E0. destruct fuel; cbn [br_read_loop]; rewrite decide_True by done; intros [= <- <-]; done.
    + intros H1. apply IH in H1; [lia|done|lia].
  - pose proof (br_Read_weight _ _ _ _ Hr E). by intros [= <- <-].
Qed.

(** A full read of bytes that are there. *)
Lemma br_ReadFull_enough r x rest n : br_ok r → contents (as_stream r) = x ++ rest → n = length x →
  ∃ r', br_ReadFull n r = Ret (Ok x, r') ∧ br_ok r' ∧ contents (as_stream r') = rest ∧
    final (as_stream r') = final (as_stream r) ∧ (weight r' ≤ weight r)%nat.
Proof.
  intros Hr Hc Hn. destruct (br_ReadFull_stream n r Hr) as (r' & Hr' & Hs).
  destruct (ReadFull_enough _ _ _ _ Hc Hn) as (s & E & Hs1 & Hs2). rewrite E in Hs. destruct Hs as [Hs <-].
  exists r'. split_all; try done. unfold br_ReadFull in Hs. destruct n as [|n].
  - cbn [br_read_loop Nat.add] in Hs. rewrite decide_True in Hs by done. by injection Hs as _ ->.
  - eapply br_read_loop_weight; [done| |done]. lia.
Qed.

Lemma br_ReadFullFrom_spec b r x rest size : wf b → br_ok r → contents (as_stream r) = x ++ rest →
  size = Z.of_nat (length x) → (length x ≤ room b)%nat →
  ∃ b' r', br_ReadFullFrom b size r = Ret (Ok b', r') ∧ appended b x b' ∧ br_ok r' ∧ contents (as_stream r') = rest ∧
    final (as_stream r') = final (as_stream r) ∧ (weight r' ≤ weight r)%nat.
Proof.
  intros Hb Hr Hc -> Hroom. pose proof Hb as [H1 H2 H3]. unfold br_ReadFullFrom. cbv zeta.
  unfold room in Hroom. rewrite i32_small by lia. rewrite decide_False by lia.
  rewrite array_slice_wf by (done || lia). cbn [ret_or_panic].
  assert (length (take (Z.to_nat (end_ b + Z.of_nat (length x) - end_ b)) (drop (Z.to_nat (end_ b)) (v b))) = length x) as ->
    by (rewrite length_take, length_drop; lia).
  destruct (br_ReadFull_enough r x rest (length x) Hr Hc eq_refl) as (r' & -> & Hr' & Hc' & Hf & Hw). cbn [outcome_bind].
  do 2 eexists. split; [reflexivity|]. split; [|done]. rewrite i32_small by lia. by apply array_append.
Qed.

(** A reader with the same bytes to come and the same end. *)
Record same_stream (r r' : BufferedReader source) : Prop := {
  same_ok : br_ok r';
  same_contents : contents (as_stream r') = contents (as_stream r);
  same_final : final (as_stream r') = final (as_stream r)
}.

Lemma br_fill_stream r : br_ok r →
  match chunks (as_stream r) with
  | [] => br_fill r = Ret (r, Some (final (as_stream r)))
  | _ :: _ => ∃ r', br_fill r = Ret (r', None) ∧ same_stream r r' ∧ (weight r' ≤ weight r)%nat ∧
                    (br_Buffer r' = [] → (weight r' < weight r)%nat)
  end.
Proof.
  intros Hr. pose proof (contents_as_stream r Hr) as Hc. destruct Hr as [Hb Hp Hsp]. destruct r as [[ps e] mb sp].
  cbn [Reader br_Buffer Splitter parts src_final] in *. subst sp.
  unfold br_fill. cbn [Reader br_Buffer]. destruct (mb_IsEmpty mb) eqn:Em.
  - unfold as_stream at 1. cbn [chunks Reader br_Buffer parts]. rewrite Em. cbn [app].
    destruct ps as [|mb1 ps]; [done|]. apply Forall_cons in Hp as [H1 Hp]. cbn [fmap list_fmap].
    unfold read_mb, source_reader. cbn [parts src_final outcome_bind]. eexists. split; [reflexivity|].
    assert (contents_of mb = []) as E by (rewrite mb_ok_empty in Em by done; by apply bool_decide_eq_true in Em).
    assert (br_ok (with_buffer {| parts := ps; src_final := e |} mb1
      {| Reader := {| parts := mb1 :: ps; src_final := e |}; br_Buffer := mb; Splitter := None |})) as Hok by (by split).
    unfold weight. cbn [with_buffer Reader br_Buffer parts fmap list_fmap sum_list sum_list_with]. split; [|unfold id; by split; lia].
    split; [done| |done]. rewrite Hc, contents_as_stream by done. cbn [with_buffer Reader br_Buffer parts]. by rewrite E.
  - unfold as_stream at 1. cbn [chunks Reader br_Buffer parts]. rewrite Em. cbn [app]. eexists. split; [reflexivity|].
    split; [split; [by split|done|done]|]. split; [done|]. cbn [br_Buffer]. by intros ->.
Qed.

(** [ReadAtMost]: some of the bytes that come next, in multi-buffers. *)
Lemma ReadAtMost_stream r size : br_ok r → 0 < size →
  match chunks (as_stream r) with
  | [] => ReadAtMost size r = Ret ([], Some (final (as_stream r)), r)
  | _ :: _ => ∃ mb r', ReadAtMost size r = Ret (mb, None, r') ∧ br_ok r' ∧ mb_ok mb ∧
      contents_of mb ++ contents (as_stream r') = contents (as_stream r) ∧
      Z.of_nat (length (contents_of mb)) ≤ size ∧ final (as_stream r') = final (as_stream r) ∧
      (weight r' < weight r)%nat
  end.
Proof.
  intros Hr Hs. pose proof (br_fill_stream r Hr) as Hfill. unfold ReadAtMost.
  destruct (chunks (as_stream r)); [by rewrite Hfill|].
  destruct Hfill as (r1 & -> & [Hok1 Hc1 Hf1] & Hle & Hlt). cbn [outcome_bind].
  destruct (SplitSize_ok (br_Buffer r1) size (ok_buffer _ Hok1) Hs) as (rest & mb & -> & Hrest & Hmb & Hcut & Hsz & Hdec).
  cbn [outcome_bind]. exists mb. eexists. split; [reflexivity|].
  assert (br_ok (with_buffer (Reader r1) (empty_as_nil rest) r1)) as Hok
    by (split; [by apply empty_as_nil_ok|apply Hok1|apply Hok1]).
  split; [done|]. split; [done|]. split; [|split; [done|split; [done|]]].
  - rewrite <- Hc1, !contents_as_stream by done. cbn [with_buffer Reader br_Buffer].
    by rewrite contents_empty_as_nil, app_assoc, Hcut.
  - pose proof (pieces_empty_as_nil rest). unfold weight in *. cbn [with_buffer Reader br_Buffer].
    destruct (br_Buffer r1) as [|b mb1]; [|specialize (Hdec ltac:(done)); lia].
    specialize (Hlt eq_refl). apply (f_equal length) in Hcut. rewrite length_app in Hcut.
    enough (pieces (empty_as_nil rest) = 0%nat) by lia. unfold empty_as_nil.
    rewrite mb_ok_empty by done. rewrite bool_decide_true; [done|]. apply length_zero_iff_nil. cbn in Hcut. lia.
Qed.

(** ** What a copy moves *)

(** The reader delivers the multi-buffers [l], then the error [e]. *)
Inductive drains {R : Type} `{BufReader R} : R → list (list Buffer) → frame_error → R → Prop :=
| drains_end r e r' : read_mb r = Ret ([], Some e, r') → drains r [] e r'
| drains_step r mb r1 l e r' : read_mb r = Ret (mb, None, r1) → drains r1 l e r' → drains r (mb :: l) e r'.

(** The reader delivers the multi-buffers [l] and can be read on. *)
Inductive reads {R : Type} `{BufReader R} : R → list (list Buffer) → R → Prop :=
| reads_nil r : reads r [] r
| reads_cons r mb r1 l r' : read_mb r = Ret (mb, None, r1) → reads r1 l r' → reads r (mb :: l) r'.

Lemma reads_app {R} `{BufReader R} (r1 r2 r3 : R) l1 l2 : reads r1 l1 r2 → reads r2 l2 r3 → reads r1 (l1 ++ l2) r3.
Proof. induction 1; [done|]. intros. econstructor; eauto. Qed.

Lemma reads_drains {R} `{BufReader R} (r1 r2 r3 : R) l1 l2 e : reads r1 l1 r2 → drains r2 l2 e r3 → drains r1 (l1 ++ l2) e r3.
Proof. induction 1; [done|]. intros. econstructor; eauto. Qed.

(** A writer that takes everything as long as it is live, and what it has
    taken. *)
Class LiveWriter {W : Type} `{BufWriter W} (live : W → Prop) (sink : W → list (list Buffer)) : Prop :=
  live_write : ∀ w mb, live w → ∃ w', write_mb w mb = (w', None) ∧ live w' ∧ sink w' = sink w ++ [mb].

#[global] Instance memory_live : LiveWriter (H := memory_mb) (λ _, True) id.
Proof. intros w mb _. by exists (w ++ [mb]). Qed.

Definition nonempty_parts (l : list (list Buffer)) : list (list Buffer) := List.filter (λ mb, negb (mb_IsEmpty mb)) l.

Section copies.
Context {R W : Type} `{BufReader R, BufWriter W} (live : W → Prop) (sink : W → list (list Buffer)) `{!LiveWriter live sink}.

Lemma copyInternal_drains (r r' : R) (l : list (list Buffer)) (e : frame_error) (w : W) (fuel : nat) :
  drains r l e r' → (length l < fuel)%nat → live w →
  ∃ w', copyInternal fuel r w = Ret (r', w', ReadError e) ∧ live w' ∧ sink w' = sink w ++ nonempty_parts l.
Proof using Type*.
  intros Hd. revert w fuel. induction Hd as [r e r' E|r mb r1 l e r' E Hd IH]; intros w fuel Hf Hw;
    (destruct fuel as [|fuel]; [cbn in Hf; lia|]); cbn [copyInternal]; rewrite E; cbn [outcome_bind nonempty_parts List.filter].
  - exists w. cbn [mb_IsEmpty forallb]. by rewrite app_nil_r.
  - cbn [length] in Hf. destruct (mb_IsEmpty mb); cbn [negb].
    + apply (IH w); [lia|done].
    + destruct (live_write w mb Hw) as (w1 & -> & Hw1 & Hs). destruct (IH w1 fuel ltac:(lia) Hw1) as (w' & -> & Hw' & Hs').
      exists w'. split; [done|]. split; [done|]. by rewrite Hs', Hs, <- app_assoc.
Qed.

Lemma Copy_drains (r r' : R) (l : list (list Buffer)) (e : frame_error) (w : W) (fuel : nat) :
  drains r l e r' → (length l < fuel)%nat → live w →
  ∃ w', Copy fuel r w = Ret (r', w', if decide (e = ErrEOF) then None else Some (ReadError e)) ∧ live w' ∧
        sink w' = sink w ++ nonempty_parts l.
Proof using Type*.
  intros Hd Hf Hw. destruct (copyInternal_drains r r' l e w fuel Hd Hf Hw) as (w' & E & Hw' & Hs).
  exists w'. unfold Copy. by rewrite E.
Qed.
End copies.

Lemma Copy_discard {R : Type} `{BufReader R} (r r' : R) (l : list (list Buffer)) (e : frame_error) (fuel : nat) :
  drains r l e r' → (length l < fuel)%nat →
  Copy (H0 := Discard) fuel r tt = Ret (r', tt, if decide (e = ErrEOF) then None else Some (ReadError e)).
Proof.
  intros Hd Hf. unfold Copy. enough (copyInternal (H0 := Discard) fuel r tt = Ret (r', tt, ReadError e)) as -> by done.
  revert fuel Hf. induction Hd as [r e r' E|r mb r1 l e r' E Hd IH]; intros fuel Hf;
    (destruct fuel as [|fuel]; [cbn in Hf; lia|]); cbn [copyInternal]; rewrite E; cbn [outcome_bind].
  - done.
  - cbn [length] in Hf. destruct (mb_IsEmpty mb); apply IH; lia.
Qed.

Lemma contents_nonempty_parts l : Forall (Forall wf) l →
  mjoin (contents_of <$> nonempty_parts l) = mjoin (contents_of <$> l).
Proof.
  induction 1 as [|mb l Hw Hl IH]; [done|]. cbn [nonempty_parts List.filter]. rewrite mb_IsEmpty_spec by done.
  case_bool_decide as E; cbn [negb fmap list_fmap]; [rewrite E; exact IH|].
  change (contents_of mb ++ mjoin (contents_of <$> nonempty_parts l) = contents_of mb ++ mjoin (contents_of <$> l)).
  by rewrite IH.
Qed.

(** ** BufferedWriter *)

Record BufferedWriter (W : Type) := {
  bw_writer : W;
  bw_buffer : option Buffer;
  buffered : bool
}.
Arguments bw_writer {W}.
Arguments bw_buffer {W}.
Arguments buffered {W}.
Arguments Build_BufferedWriter {W}.

Section BufferedWriter.
Context {W : Type} `{BufWriter W}.

(** The writer may be an [io.Writer] as well. *)
Context (io : option (Frame.Writer W)).
Implicit Types w : BufferedWriter W.

Definition NewBufferedWriter (writer : W) : BufferedWriter W :=
  {| bw_writer := writer; bw_buffer := Some (Buffer_New pool_array); buffered := true |}.

(** [WriteAllBytes]; every round of a proper writer moves a byte. *)
Fixpoint WriteAllBytes (wr : Frame.Writer W) (fuel : nat) (writer : W) (payload : bytes) : outcome (W * option frame_error) :=
  match payload with
  | [] => Ret (writer, None)
  | _ =>
    match fuel with
    | O => Panic
    | S fuel =>
      let '(writer, (n, err)) := @w_write W wr writer payload in
      match err with
      | Some e => Ret (writer, Some e)
      | None =>
        if decide (n < 0 ∨ Z.of_nat (length payload) < n) then Panic
        else WriteAllBytes wr fuel writer (drop (Z.to_nat n) payload)
      end
    end
  end.

Definition flushInternal (w : BufferedWriter W) : outcome (BufferedWriter W * option frame_error) :=
  match bw_buffer w with
  | None => Ret (w, None)
  | Some b =>
    if IsEmpty b then Ret (w, None)
    else
      let? (writer, err) :=
        match io with
        | Some wr => ret_or_panic (Bytes b) (λ d, WriteAllBytes wr (length d) (bw_writer w) d)
        | None => Ret (write_mb (bw_writer w) [b])
        end in
      Ret ({| bw_writer := writer; bw_buffer := None; buffered := buffered w |}, err)
  end.

Definition current_buffer (w : BufferedWriter W) : Buffer := default (Buffer_New pool_array) (bw_buffer w).

Definition with_current (b : Buffer) (w : BufferedWriter W) : BufferedWriter W :=
  {| bw_writer := bw_writer w; bw_buffer := Some b; buffered := buffered w |}.

(** The loop of [Write]. *)
Fixpoint write_loop (fuel : nat) (b : bytes) (total : nat) (w : BufferedWriter W)
    : outcome (BufferedWriter W * nat * option frame_error) :=
  match b with
  | [] => Ret (w, total, None)
  | _ =>
    match fuel with
    | O => Panic
    | S fuel =>
      ret_or_panic (Write (current_buffer w) b) (λ '(cur, n),
      let w := with_current cur w in
      let? (w, err) := (if negb (buffered w) || IsFull cur then flushInternal w else Ret (w, None)) in
      match err with
      | Some e => Ret (w, (total + n)%nat, Some e)
      | None => write_loop fuel (drop n b) (total + n) w
      end)
    end
  end.

Definition bw_Write (b : bytes) (w : BufferedWriter W) : outcome (BufferedWriter W * nat * option frame_error) :=
  if decide (b = []) then Ret (w, 0%nat, None)
  else
    match buffered w, io with
    | false, Some wr =>
      let '(writer, (n, err)) := @w_write W wr (bw_writer w) b in
      Ret ({| bw_writer := writer; bw_buffer := bw_buffer w; buffered := buffered w |}, Z.to_nat n, err)
    | _, _ => write_loop (length b) b 0 w
    end.

(** The loop of [WriteMultiBuffer]: the buffer is filled from the container, at
    most up to its end, and flushed when it is full. *)
Fixpoint fill_loop (fuel : nat) (mb : list Buffer) (w : BufferedWriter W)
    : outcome (BufferedWriter W * option frame_error) :=
  if mb_IsEmpty mb then Ret (w, None)
  else
    match fuel with
    | O => Panic
    | S fuel =>
      let cur := current_buffer w in
      let? (mb, d) := SplitBytes mb (room cur) in
      let? cur := write_all cur d in
      let w := with_current cur w in
      let? (w, err) := (if IsFull cur then flushInternal w else Ret (w, None)) in
      match err with Some e => Ret (w, Some e) | None => fill_loop fuel mb w end
    end.

Definition bw_WriteMultiBuffer (b : list Buffer) (w : BufferedWriter W)
    : outcome (BufferedWriter W * option frame_error) :=
  if mb_IsEmpty b then Ret (w, None)
  else if buffered w then fill_loop (length (contents_of b)) b w
  else
    let '(writer, err) := write_mb (bw_writer w) b in
    Ret ({| bw_writer := writer; bw_buffer := bw_buffer w; buffered := buffered w |}, err).

Definition bw_Flush (w : BufferedWriter W) : outcome (BufferedWriter W * option frame_error) := flushInternal w.

Definition SetBuffered (f : bool) (w : BufferedWriter W) : outcome (BufferedWriter W * option frame_error) :=
  let w := {| bw_writer := bw_writer w; bw_buffer := bw_buffer w; buffered := f |} in
  if f then Ret (w, None) else flushInternal w.
End BufferedWriter.

(** ** The buffered writer keeps the order *)

Lemma whole_room b : whole b → (room b + length (content b) = Size)%nat.
Proof.
  intros (Hb & Hs & Hl). pose proof (length_content b Hb). destruct Hb as [? ? ?]. unfold room. rewrite Hl in *. lia.
Qed.

Lemma appended_whole b d b' : whole b → (length d ≤ room b)%nat → appended b d b' → whole b'.
Proof.
  intros Hw Hd [W C R _ S]. pose proof (whole_room b Hw) as Hr. destruct Hw as (Hb & Hs & Hl).
  split; [done|]. split; [congruence|]. pose proof (length_content b' W) as Hc. rewrite C, length_app in Hc.
  destruct W. unfold room in R, Hr. unfold room in Hd. lia.
Qed.

Lemma Write_appended b d : wf b →
  ∃ b', Write b d = Some (b', Nat.min (room b) (length d)) ∧ appended b (take (room b) d) b'.
Proof.
  intros Hb. destruct (write_all_spec b (take (room b) d) Hb) as (b' & E & HA); [rewrite length_take; lia|].
  exists b'. split; [|done]. unfold write_all, Write in *. pose proof Hb as [H1 H2 H3].
  rewrite decide_True in * by lia. cbv zeta in *. fold (room b) in *.
  assert (overwrite (v b) (Z.to_nat (end_ b)) d = overwrite (v b) (Z.to_nat (end_ b)) (take (room b) d)) as ->.
  { unfold overwrite. cbv zeta. fold (room b). by rewrite take_take, Nat.min_id. }
  cbn [ret_or_panic] in E. rewrite length_take in E. injection E as <-. do 3 f_equal.
  by rewrite Nat.min_assoc, Nat.min_id.
Qed.

Lemma new_whole : whole (Buffer_New pool_array) ∧ content (Buffer_New pool_array) = [].
Proof. destruct (wf_New pool_array pool_array_length) as [H1 H2]. by split. Qed.

Lemma IsFull_room b : whole b → IsFull b = bool_decide (room b = 0%nat).
Proof.
  intros (Hb & _ & Hl). destruct Hb. unfold IsFull, room. apply bool_decide_ext. lia.
Qed.

Section order.
Context {W : Type} `{BufWriter W} (io : option (Frame.Writer W)) (taken : W → bytes).

(** Both ways to write append to the same sequence of bytes. *)
Class InOrder : Prop := {
  mb_in_order : ∀ w mb, ∃ w', write_mb w mb = (w', None) ∧ taken w' = taken w ++ contents_of mb;
  io_in_order : ∀ wr, io = Some wr → @FullWriter W wr taken
}.
Context `{!InOrder}.
Implicit Types w : BufferedWriter W.

Definition pending (w : BufferedWriter W) : bytes := from_option content [] (bw_buffer w).

Record bw_inv (w : BufferedWriter W) : Prop := {
  inv_whole : ∀ b, bw_buffer w = Some b → whole b ∧ room b ≠ 0%nat;
  inv_unbuffered : buffered w = false → pending w = []
}.

(** The writer after [d] was written. *)
Record bw_after (w : BufferedWriter W) (d : bytes) (w' : BufferedWriter W) : Prop := {
  after_bytes : taken (bw_writer w') ++ pending w' = taken (bw_writer w) ++ pending w ++ d;
  after_inv : bw_inv w';
  after_buffered : buffered w' = buffered w
}.

Lemma WriteAllBytes_full (wr : Frame.Writer W) `{!@FullWriter W wr taken} x d :
  ∃ x', WriteAllBytes wr (length d) x d = Ret (x', None) ∧ taken x' = taken x ++ d.
Proof.
  destruct d as [|c d]; [exists x; by rewrite app_nil_r|]. cbn [WriteAllBytes length].
  destruct (full_write (sink := taken) x (c :: d)) as (x' & -> & Hx).
  rewrite decide_False by (cbn [length]; lia). rewrite Nat2Z.id, drop_ge by done. exists x'. by destruct (length d).
Qed.

(** A flush, possibly of a buffer that is full. *)
Lemma flush_spec w : (∀ b, bw_buffer w = Some b → whole b) →
  ∃ w', flushInternal io w = Ret (w', None) ∧ taken (bw_writer w') = taken (bw_writer w) ++ pending w ∧
        pending w' = [] ∧ bw_inv w' ∧ buffered w' = buffered w.
Proof.
  intros Hw. unfold flushInternal, pending. destruct w as [x [b|] f]; cbn [bw_buffer bw_writer buffered from_option] in *.
  2: { exists (Build_BufferedWriter x None f). split; [done|]. rewrite app_nil_r. split_all; [done..|by split|done]. }
  specialize (Hw b eq_refl). pose proof (whole_room b Hw) as Hr. pose proof Hw as (Hb & _ & _).
  rewrite IsEmpty_spec by done. case_bool_decide as E.
  { exists (Build_BufferedWriter x (Some b) f). split; [done|]. cbn [bw_buffer bw_writer buffered from_option].
    rewrite E, app_nil_r. split_all; [done..| |done]. split; [|done]. intros b' [= <-]. split; [done|].
    rewrite E in Hr. intros Hz. rewrite Hz in Hr. done. }
  assert (∃ x', match io with
                | Some wr => ret_or_panic (Bytes b) (λ d, WriteAllBytes wr (length d) x d)
                | None => Ret (write_mb x [b])
                end = Ret (x', None) ∧ taken x' = taken x ++ content b) as (x' & -> & Hx).
  { destruct io as [wr|] eqn:Ew.
    - rewrite Bytes_content by done. cbn [ret_or_panic]. apply WriteAllBytes_full. by apply io_in_order.
    - destruct (mb_in_order x [b]) as (x' & -> & Hx). rewrite contents_of_one in Hx. by exists x'. }
  cbn [outcome_bind]. eexists. split; [reflexivity|]. split_all; [done..|by split|done].
Qed.
Lemma current_whole w : bw_inv w →
  whole (current_buffer w) ∧ content (current_buffer w) = pending w ∧ room (current_buffer w) ≠ 0%nat.
Proof.
  intros [Hw _]. unfold current_buffer, pending. destruct (bw_buffer w) as [b|]; cbn [default from_option id].
  - by destruct (Hw b eq_refl).
  - destruct new_whole as [Hn Hc]. split_all; [done..|]. intros Hz. pose proof (whole_room _ Hn) as Hr.
    rewrite Hz, Hc in Hr. done.
Qed.

(** Storing in the buffer, with a flush when it is due. *)
Lemma store_spec w x cur (flush : bool) : bw_inv w → appended (current_buffer w) x cur →
  (length x ≤ room (current_buffer w))%nat → (flush = false → room cur ≠ 0%nat ∧ buffered w = true) →
  ∃ w', (if flush then flushInternal io (with_current cur w) else Ret (with_current cur w, None)) = Ret (w', None) ∧
        bw_after w x w'.
Proof.
  intros Hw HA Hx Hf. destruct (current_whole w Hw) as (Hcw & Hcc & _).
  pose proof (appended_whole _ _ _ Hcw Hx HA) as Hcur. destruct flush.
  - destruct (flush_spec (with_current cur w)) as (w' & -> & Ht & Hp & Hi & Hb); [by intros b [= <-]|].
    exists w'. split; [done|]. split; [|done|done]. rewrite Ht, Hp, app_nil_r. unfold pending at 1.
    cbn [with_current bw_writer bw_buffer from_option]. by rewrite (app_content _ _ _ HA), Hcc.
  - destruct (Hf eq_refl) as [Hr Hb]. eexists. split; [reflexivity|]. split; [|split; [|cbn; congruence]|done].
    + unfold pending at 1. cbn [with_current bw_writer bw_buffer from_option]. by rewrite (app_content _ _ _ HA), Hcc.
    + by intros b [= <-].
Qed.

Lemma bw_after_trans w1 d1 w2 d2 w3 : bw_after w1 d1 w2 → bw_after w2 d2 w3 → bw_after w1 (d1 ++ d2) w3.
Proof.
  intros [H1 _ B1] [H2 I2 B2]. split; [|done|congruence]. by rewrite H2, app_assoc, H1, !app_assoc.
Qed.

Lemma write_loop_spec fuel d total w : bw_inv w → (length d ≤ fuel)%nat →
  ∃ w', write_loop io fuel d total w = Ret (w', (total + length d)%nat, None) ∧ bw_after w d w'.
Proof.
  revert d total w. induction fuel as [|fuel IH]; intros d total w Hw Hd; destruct d as [|c d]; cbn [length] in Hd; try lia.
  - exists w. cbn. rewrite Nat.add_0_r. split; [done|]. split; [by rewrite app_nil_r|done|done].
  - exists w. cbn. rewrite Nat.add_0_r. split; [done|]. split; [by rewrite app_nil_r|done|done].
  - cbn [write_loop]. destruct (current_whole w Hw) as (Hcw & _ & Hroom).
    destruct (Write_appended (current_buffer w) (c :: d)) as (cur & -> & HA); [apply Hcw|]. cbn [ret_or_panic].
    set (n := room (current_buffer w)) in *.
    assert (length (take n (c :: d)) ≤ n)%nat as Hx by (rewrite length_take; lia).
    pose proof (appended_whole _ _ _ Hcw Hx HA) as Hcur.
    destruct (store_spec w _ cur (negb (buffered w) || IsFull cur) Hw HA Hx) as (w1 & E & Ha).
    { intros [Hb Hfull]%orb_false_elim. rewrite IsFull_room in Hfull by done. apply bool_decide_eq_false in Hfull.
      by destruct (buffered w). }
    cbn [with_current buffered]. rewrite E. cbn [outcome_bind].
    assert (drop (Nat.min n (length (c :: d))) (c :: d) = drop n (c :: d)) as ->.
    { destruct (decide (n ≤ length (c :: d))%nat); [by rewrite Nat.min_l|]. rewrite Nat.min_r, !drop_ge by lia. done. }
    destruct (IH (drop n (c :: d)) (total + Nat.min n (length (c :: d)))%nat w1 (after_inv _ _ _ Ha)) as (w' & -> & Ha').
    { rewrite length_drop. cbn [length]. lia. }
    exists w'. split; [do 3 f_equal; rewrite length_drop; lia|].
    rewrite <- (take_drop n (c :: d)). by apply (bw_after_trans _ _ w1).
Qed.

Lemma fill_loop_spec fuel mb w : bw_inv w → buffered w = true → Forall wf mb → (length (contents_of mb) ≤ fuel)%nat →
  ∃ w', fill_loop io fuel mb w = Ret (w', None) ∧ bw_after w (contents_of mb) w'.
Proof.
  revert mb w. induction fuel as [|fuel IH]; intros mb w Hw Hb Hmb Hl; cbn [fill_loop]; rewrite mb_IsEmpty_spec by done;
    case_bool_decide as E.
  1, 3: exists w; split; [done|]; rewrite E; split; [by rewrite app_nil_r|done|done].
  { destruct E. apply nil_length_inv. lia. }
  destruct (current_whole w Hw) as (Hcw & _ & Hroom). set (n := room (current_buffer w)) in *.
  destruct (SplitBytes_spec mb n Hmb) as (mb' & -> & Hmb' & Hc). cbn [outcome_bind].
  assert (length (take n (contents_of mb)) ≤ n)%nat as Hx by (rewrite length_take; lia).
  destruct (write_all_spec (current_buffer w) (take n (contents_of mb))) as (cur & -> & HA); [apply Hcw|done|].
  cbn [outcome_bind]. pose proof (appended_whole _ _ _ Hcw Hx HA) as Hcur.
  destruct (store_spec w _ cur (IsFull cur) Hw HA Hx) as (w1 & E1 & Ha).
  { intros Hfull. rewrite IsFull_room in Hfull by done. by apply bool_decide_eq_false in Hfull. }
  rewrite E1. cbn [outcome_bind]. destruct (IH mb' w1 (after_inv _ _ _ Ha) ltac:(by rewrite (after_buffered _ _ _ Ha)) Hmb') as (w' & -> & Ha').
  { rewrite Hc, length_drop. destruct (contents_of mb); [done|]. cbn [length] in *. lia. }
  exists w'. split; [done|]. rewrite <- (take_drop n (contents_of mb)), <- Hc. by apply (bw_after_trans _ _ w1).
Qed.

(** Calls on a buffered writer, and the bytes each one writes. *)
Inductive bw_op := BWrite (d : bytes) | BWriteMulti (mb : list Buffer) | BFlush | BSetBuffered (f : bool).

Definition bw_run (o : bw_op) (w : BufferedWriter W) : outcome (BufferedWriter W * option frame_error) :=
  match o with
  | BWrite d => let? (w, _, err) := bw_Write io d w in Ret (w, err)
  | BWriteMulti mb => bw_WriteMultiBuffer io mb w
  | BFlush => bw_Flush io w
  | BSetBuffered f => SetBuffered io f w
  end.

Definition op_bytes (o : bw_op) : bytes :=
  match o with BWrite d => d | BWriteMulti mb => contents_of mb | _ => [] end.

Fixpoint bw_runs (os : list bw_op) (w : BufferedWriter W) : outcome (BufferedWriter W * option frame_error) :=
  match os with
  | [] => Ret (w, None)
  | o :: os => let? (w, err) := bw_run o w in match err with Some e => Ret (w, Some e) | None => bw_runs os w end
  end.

Definition bw_op_ok (o : bw_op) : Prop := match o with BWriteMulti mb => Forall wf mb | _ => True end.

Lemma bw_run_spec o w : bw_inv w → bw_op_ok o →
  ∃ w', bw_run o w = Ret (w', None) ∧ bw_inv w' ∧
        taken (bw_writer w') ++ pending w' = taken (bw_writer w) ++ pending w ++ op_bytes o ∧
        (o = BFlush → pending w' = []).
Proof.
  intros Hw Ho. assert (∀ b, bw_buffer w = Some b → whole b) as Hwhole by (intros b Hb; by apply (inv_whole _ Hw)).
  destruct o as [d|mb| |f]; cbn [bw_run op_bytes].
  - unfold bw_Write. case_decide as E; [exists w; cbn [outcome_bind]; subst d; rewrite app_nil_r; by split_all|].
    assert (∃ w', write_loop io (length d) d 0 w = Ret (w', length d, None) ∧ bw_after w d w') as (w1 & E1 & [H1 H2 _])
      by (destruct (write_loop_spec (length d) d 0 w Hw ltac:(done)) as (w1 & ? & ?); by exists w1).
    destruct (buffered w) eqn:Eb; [|destruct io as [wr|] eqn:Ew].
    1, 3: rewrite E1; cbn [outcome_bind]; by exists w1.
    destruct (@full_write W wr taken (io_in_order wr Ew) (bw_writer w) d) as (x & -> & Hx). cbn [outcome_bind].
    eexists. split; [reflexivity|]. pose proof (inv_unbuffered _ Hw Eb) as Hp. unfold pending in *.
    cbn [bw_writer bw_buffer]. rewrite Hp, Hx, app_nil_r. split; [|done]. split; [apply Hw|done].
  - unfold bw_WriteMultiBuffer. rewrite mb_IsEmpty_spec by done. case_bool_decide as E.
    { exists w. by rewrite E, app_nil_r. }
    destruct (buffered w) eqn:Eb.
    + destruct (fill_loop_spec (length (contents_of mb)) mb w Hw Eb Ho ltac:(done)) as (w' & -> & [H1 H2 _]). by exists w'.
    + destruct (mb_in_order (bw_writer w) mb) as (x & -> & Hx). eexists. split; [reflexivity|].
      pose proof (inv_unbuffered _ Hw Eb) as Hp. unfold pending in *. cbn [bw_writer bw_buffer].
      rewrite Hp, Hx, app_nil_r. split; [|done]. split; [apply Hw|done].
  - unfold bw_Flush. destruct (flush_spec w Hwhole) as (w' & -> & Ht & Hp & Hi & _). exists w'. rewrite Ht, Hp, !app_nil_r.
    by split_all.
  - unfold SetBuffered. destruct f.
    + eexists. split; [reflexivity|]. rewrite app_nil_r. split; [|done]. split; [apply Hw|done].
    + destruct (flush_spec (Build_BufferedWriter (bw_writer w) (bw_buffer w) false)) as (w' & -> & Ht & Hp & Hi & _); [done|].
      exists w'. rewrite Ht, Hp, !app_nil_r. by split_all.
Qed.

(** Whatever is written to a buffered writer, in buffers or as bytes, with the
    buffer switched on and off in between, reaches the writer below in order:
    the bytes below and those still buffered are those that were there and those
    written since; after a final [Flush] nothing is left in the buffer. *)
Theorem buffered_writer_in_order (os : list bw_op) (w : BufferedWriter W) :
  bw_inv w → Forall bw_op_ok os →
  ∃ w', bw_runs (os ++ [BFlush]) w = Ret (w', None) ∧ bw_inv w' ∧ pending w' = [] ∧
        taken (bw_writer w') = taken (bw_writer w) ++ pending w ++ mjoin (op_bytes <$> os).
Proof using Type*.
  intros Hw Hos. revert w Hw. induction Hos as [|o os Ho Hos IH]; intros w Hw; cbn [app bw_runs].
  - destruct (bw_run_spec BFlush w Hw I) as (w' & -> & Hi & Ht & Hp). cbn [outcome_bind]. exists w'.
    rewrite (Hp eq_refl), !app_nil_r in Ht. cbn. rewrite app_nil_r. by rewrite (Hp eq_refl).
  - destruct (bw_run_spec o w Hw Ho) as (w1 & -> & Hi & Ht & _). cbn [outcome_bind].
    destruct (IH w1 Hi) as (w' & -> & Hi' & Hp' & Ht'). exists w'. split; [done|]. split; [done|]. split; [done|].
    rewrite Ht', app_assoc, Ht, <- !app_assoc. done.
Qed.
End order.
