(* ===== verification/ChunkStream.v ===== *)
(** Streams of sized chunks (src/upstream/xray-core/common/crypto/chunk.go), with
    the size parsers and the authenticators they use (chunk.go and auth.go of
    common/crypto, and proxy/vmess/encoding/auth.go and client.go).  The ciphers
    of the standard library are any record [Cipher] with the laws of
    [CipherLaws]; the output of SHAKE-128 is a sequence of 16-bit words. *)
From S2P Require Import Prelude Frame Buf AddressParser BufAppend MultiBuffer BufIO.

(** ** Authenticators *)

(** [cipher.AEAD]; a nonce of the wrong size is refused before it is used. *)
Record Cipher := {
  c_NonceSize : nat;
  c_Overhead : nat;
  c_Seal : bytes → bytes → bytes → bytes;
  c_Open : bytes → bytes → bytes → option bytes
}.

Class CipherLaws (c : Cipher) : Prop := {
  c_seal_length nonce p ad : length (c_Seal c nonce p ad) = (length p + c_Overhead c)%nat;
  c_open_seal nonce p ad : length nonce = c_NonceSize c → c_Open c nonce (c_Seal c nonce p ad) ad = Some p;
  c_open_length nonce x ad p : c_Open c nonce x ad = Some p → length x = (length p + c_Overhead c)%nat
}.

(** [NoOpAuthenticator]. *)
Definition NoOpAuthenticator : Cipher :=
  {| c_NonceSize := 0; c_Overhead := 0; c_Seal _ p _ := p; c_Open _ x _ := Some x |}.

#[global] Instance NoOpAuthenticator_laws : CipherLaws NoOpAuthenticator.
Proof. split; cbn; [intros; lia|done|intros ? ? ? ? [= ->]; lia]. Qed.

(** The generators of nonces and additional data. *)
Inductive BytesGenerator :=
| GenerateEmptyBytes
| GenerateStaticBytes (content : bytes)
| GenerateIncreasingNonce (c : bytes)
| GenerateChunkNonce (c : bytes) (count : Z) (size : nat).

(** Adding one to a little-endian number of bytes. *)
Fixpoint increase (c : bytes) : bytes :=
  match c with
  | [] => []
  | x :: c => if decide (u8 (x + 1) = 0) then 0 :: increase c else u8 (x + 1) :: c
  end.

Definition GenerateAEADNonceWithSize (nonceSize : nat) : BytesGenerator :=
  GenerateIncreasingNonce (replicate nonceSize 0xFF).

Definition generate (g : BytesGenerator) : bytes * BytesGenerator :=
  match g with
  | GenerateEmptyBytes => ([], g)
  | GenerateStaticBytes content => (content, g)
  | GenerateIncreasingNonce c => (increase c, GenerateIncreasingNonce (increase c))
  | GenerateChunkNonce c count size =>
    let c := overwrite c 0 (be_bytes 2 count) in (take size c, GenerateChunkNonce c (u16 (count + 1)) size)
  end.

Record AEADAuthenticator := {
  AEAD : Cipher;
  NonceGenerator : BytesGenerator;
  AdditionalDataGenerator : option BytesGenerator
}.

(** What both [Open] and [Seal] draw: the nonce, when it fits, and the
    additional data. *)
Definition auth_draw (v : AEADAuthenticator) : option (bytes * bytes) * AEADAuthenticator :=
  let '(iv, g) := generate (NonceGenerator v) in
  if decide (length iv ≠ c_NonceSize (AEAD v)) then
    (None, {| AEAD := AEAD v; NonceGenerator := g; AdditionalDataGenerator := AdditionalDataGenerator v |})
  else
    match AdditionalDataGenerator v with
    | None => (Some (iv, []), {| AEAD := AEAD v; NonceGenerator := g; AdditionalDataGenerator := None |})
    | Some ag =>
      let '(ad, ag) := generate ag in
      (Some (iv, ad), {| AEAD := AEAD v; NonceGenerator := g; AdditionalDataGenerator := Some ag |})
    end.

Definition auth_Open (cipherText : bytes) (v : AEADAuthenticator) : option bytes * AEADAuthenticator :=
  match auth_draw v with
  | (None, v') => (None, v')
  | (Some (iv, ad), v') => (c_Open (AEAD v) iv cipherText ad, v')
  end.

Definition auth_Seal (plainText : bytes) (v : AEADAuthenticator) : option bytes * AEADAuthenticator :=
  match auth_draw v with
  | (None, v') => (None, v')
  | (Some (iv, ad), v') => (Some (c_Seal (AEAD v) iv plainText ad), v')
  end.

Definition auth_Overhead (v : AEADAuthenticator) : nat := c_Overhead (AEAD v).

(** ** Sizes and padding *)

Inductive ChunkSizeParser := PlainChunkSizeParser | AEADChunkSizeParser (auth : AEADAuthenticator) | ShakeSizeParser.

(** A size parser with the generator of paddings, which may be one object with
    the parser: the words drawn so far are kept once for both. *)
Record sizing := { sz_parser : ChunkSizeParser; sz_drawn : nat; sz_padding : bool }.

Section sizes.

(** The words of [sha3.ShakeHash] after the nonce. *)
Variable shake : nat → Z.

(** [ShakeSizeParser.next]. *)
Definition shake_next (z : sizing) : Z * sizing :=
  (shake (sz_drawn z), {| sz_parser := sz_parser z; sz_drawn := S (sz_drawn z); sz_padding := sz_padding z |}).

Definition with_auth (a : AEADAuthenticator) (z : sizing) : sizing :=
  {| sz_parser := AEADChunkSizeParser a; sz_drawn := sz_drawn z; sz_padding := sz_padding z |}.

Definition SizeBytes (z : sizing) : nat :=
  match sz_parser z with AEADChunkSizeParser a => 2 + auth_Overhead a | _ => 2 end.

Definition Encode (size : Z) (z : sizing) : outcome (bytes * sizing) :=
  match sz_parser z with
  | PlainChunkSizeParser => Ret (be_bytes 2 size, z)
  | AEADChunkSizeParser a =>
    match auth_Seal (be_bytes 2 (u16 (size - u16 (Z.of_nat (auth_Overhead a))))) a with
    | (Some b, a) => Ret (b, with_auth a z)
    | (None, _) => Panic
    end
  | ShakeSizeParser => let '(mask, z) := shake_next z in Ret (be_bytes 2 (Z.lxor mask size), z)
  end.

(** [Decode] of [SizeBytes] bytes. *)
Definition Decode (b : bytes) (z : sizing) : outcome (Z * sizing) :=
  match sz_parser z with
  | PlainChunkSizeParser => let? (size, _) := read_be 2 b in Ret (size, z)
  | AEADChunkSizeParser a =>
    match auth_Open b a with
    | (None, _) => Fail
    | (Some p, a) => let? (size, _) := read_be 2 p in Ret (u16 (size + u16 (Z.of_nat (auth_Overhead a))), with_auth a z)
    end
  | ShakeSizeParser =>
    let '(mask, z) := shake_next z in let? (size, _) := read_be 2 b in Ret (Z.lxor mask size, z)
  end.

(** [NextPaddingLen], when there is a generator, and [MaxPaddingLen]. *)
Definition NextPaddingLen (z : sizing) : Z * sizing :=
  if sz_padding z then let '(x, z) := shake_next z in (x mod 64, z) else (0, z).

Definition MaxPaddingLen (z : sizing) : Z := if sz_padding z then 64 else 0.

(** ** ChunkStreamReader *)

Record ChunkStreamReader := {
  sizeDecoder : sizing;
  cs_reader : BufferedReader source;
  leftOverSize : Z;
  maxNumChunk : Z;
  numChunk : Z
}.

Definition NewChunkStreamReaderWithChunkCount (z : sizing) (r : BufferedReader source) (max : Z) : ChunkStreamReader :=
  {| sizeDecoder := z; cs_reader := r; leftOverSize := 0; maxNumChunk := max; numChunk := 0 |}.

(** The error of a cipher that refuses its input. *)
Definition errDecode : frame_error := ErrIO 1.

Definition with_sizes (z : sizing) (r : BufferedReader source) (left : Z) (c : ChunkStreamReader) : ChunkStreamReader :=
  {| sizeDecoder := z; cs_reader := r; leftOverSize := left; maxNumChunk := maxNumChunk c; numChunk := numChunk c |}.

Definition counted (c : ChunkStreamReader) : ChunkStreamReader :=
  {| sizeDecoder := sizeDecoder c; cs_reader := cs_reader c; leftOverSize := leftOverSize c;
     maxNumChunk := maxNumChunk c; numChunk := u32 (numChunk c + 1) |}.

Definition readSize (c : ChunkStreamReader) : outcome (result frame_error Z * ChunkStreamReader) :=
  let? (d, r) := br_ReadFull (SizeBytes (sizeDecoder c)) (cs_reader c) in
  match d with
  | Err e => Ret (Err e, with_sizes (sizeDecoder c) r (leftOverSize c) c)
  | Ok b =>
    match Decode b (sizeDecoder c) with
    | Panic => Panic
    | Fail => Ret (Err errDecode, with_sizes (sizeDecoder c) r (leftOverSize c) c)
    | Ret (size, z) => Ret (Ok size, with_sizes z r (leftOverSize c) c)
    end
  end.

(** The rest of the current chunk, at most. *)
Definition read_left (size : Z) (c : ChunkStreamReader)
    : outcome (list Buffer * option frame_error * ChunkStreamReader) :=
  let? (mb, err, r) := ReadAtMost size (cs_reader c) in
  let left := if mb_IsEmpty mb then size else i32 (size - mb_Len mb) in
  Ret (if mb_IsEmpty mb then [] else mb, if mb_IsEmpty mb then err else None, with_sizes (sizeDecoder c) r left c).

Definition cs_ReadMultiBuffer (c : ChunkStreamReader)
    : outcome (list Buffer * option frame_error * ChunkStreamReader) :=
  if decide (leftOverSize c = 0) then
    let c := counted c in
    if decide (0 < maxNumChunk c ∧ maxNumChunk c < numChunk c) then Ret ([], Some ErrEOF, c)
    else
      let? (next, c) := readSize c in
      match next with
      | Err e => Ret ([], Some e, c)
      | Ok nextSize => if decide (nextSize = 0) then Ret ([], Some ErrEOF, c) else read_left nextSize c
      end
  else read_left (leftOverSize c) c.

#[global] Instance chunk_reader : BufReader ChunkStreamReader := cs_ReadMultiBuffer.

(** ** ChunkStreamWriter *)

(** The loop of [WriteMultiBuffer]: at least one chunk, each behind its size;
    every round but the last uses up a buffer or a byte. *)
Fixpoint chunk_loop (fuel : nat) (mb : list Buffer) (z : sizing) (out : list Buffer) : outcome (list Buffer * sizing) :=
  match fuel with
  | O => Panic
  | S fuel =>
    let? (mb, slice) := SplitSize pool_array mb 8192 in
    let? (size, z) := Encode (u16 (mb_Len slice)) z in
    ret_or_panic (Extend (Buffer_New pool_array) (Z.of_nat (SizeBytes z))) (λ '(b, _),
    let out := out ++ [patch b (end_ b - Z.of_nat (SizeBytes z)) size] ++ slice in
    if mb_IsEmpty mb then Ret (out, z) else chunk_loop fuel mb z out)
  end.

Definition ChunkStreamWriter_Write (mb : list Buffer) (z : sizing) : outcome (list Buffer * sizing) :=
  chunk_loop (S (pieces mb)) mb z [].

(** ** Sizes are read back *)

Lemma lxor_uint w x y : 0 ≤ w → is_uint w x → is_uint w y → is_uint w (Z.lxor x y).
Proof.
  unfold is_uint. intros Hw Hx Hy. assert (0 ≤ Z.lxor x y) as Hn by (apply Z.lxor_nonneg; lia).
  split; [done|]. destruct (decide (Z.lxor x y = 0)) as [->|Hz]; [lia|].
  apply Z.log2_lt_pow2; [lia|]. pose proof (Z.log2_lxor x y ltac:(lia) ltac:(lia)).
  destruct (decide (x = 0)) as [->|Hx0]; [rewrite Z.lxor_0_l in *; apply Z.log2_lt_pow2; lia|].
  destruct (decide (y = 0)) as [->|Hy0]; [rewrite Z.lxor_0_r in *; apply Z.log2_lt_pow2; lia|].
  assert (Z.log2 x < w) by (apply Z.log2_lt_pow2; lia). assert (Z.log2 y < w) by (apply Z.log2_lt_pow2; lia). lia.
Qed.

(** The length of what a generator returns. *)
Definition gen_length (g : BytesGenerator) : nat :=
  match g with
  | GenerateEmptyBytes => 0
  | GenerateStaticBytes c | GenerateIncreasingNonce c => length c
  | GenerateChunkNonce c _ size => Nat.min size (length c)
  end.

Definition gen_ok (g : BytesGenerator) : Prop :=
  match g with GenerateChunkNonce c _ _ => (2 ≤ length c)%nat | _ => True end.

Lemma length_increase c : length (increase c) = length c.
Proof. induction c as [|x c IH]; [done|]. cbn [increase]. case_decide; cbn [length]; congruence. Qed.

Lemma generate_length g : gen_ok g →
  length (generate g).1 = gen_length g ∧ gen_length (generate g).2 = gen_length g ∧ gen_ok (generate g).2.
Proof.
  destruct g; cbn [gen_ok gen_length generate fst snd]; intros Hg; [done|done|by rewrite length_increase|].
  rewrite length_take, length_overwrite by lia. done.
Qed.

(** An authenticator whose nonces fit its cipher. *)
Record auth_ok (v : AEADAuthenticator) : Prop := {
  auth_laws : CipherLaws (AEAD v);
  auth_gen : gen_ok (NonceGenerator v);
  auth_nonce : gen_length (NonceGenerator v) = c_NonceSize (AEAD v);
  auth_overhead : Z.of_nat (auth_Overhead v) ≤ 1024
}.

Lemma auth_Seal_spec v p : auth_ok v →
  ∃ b v', auth_Seal p v = (Some b, v') ∧ auth_Open b v = (Some p, v') ∧ length b = (length p + auth_Overhead v)%nat ∧
    AEAD v' = AEAD v ∧ auth_ok v'.
Proof.
  intros [HL Hg Hn Ho]. unfold auth_Seal, auth_Open, auth_draw, auth_Overhead in *.
  destruct (generate_length _ Hg) as (H1 & H2 & H3). destruct (generate (NonceGenerator v)) as [iv g]. cbn [fst snd] in *.
  rewrite decide_False by (rewrite H1, Hn; by intros []).
  destruct (AdditionalDataGenerator v) as [ag|]; [destruct (generate ag)|]; do 2 eexists; (split; [reflexivity|]);
    rewrite c_open_seal by congruence; rewrite c_seal_length; (split_all; [done..|]); split; cbn; (done || congruence).
Qed.

Class ShakeWords : Prop := shake_word i : is_uint 16 (shake i).
Context `{!ShakeWords}.

Definition sizing_ok (z : sizing) : Prop :=
  match sz_parser z with AEADChunkSizeParser a => auth_ok a | _ => True end.

Lemma Encode_spec size z : sizing_ok z → is_uint 16 size →
  ∃ b z', Encode size z = Ret (b, z') ∧ Decode b z = Ret (size, z') ∧ length b = SizeBytes z ∧
    SizeBytes z' = SizeBytes z ∧ sizing_ok z' ∧ sz_padding z' = sz_padding z.
Proof.
  intros Hz Hs. unfold Encode, Decode, SizeBytes, sizing_ok, shake_next in *. pose proof Hs as Hs'. unfold is_uint in Hs'.
  destruct z as [[|a|] i pad] eqn:Ez; cbn [sz_parser sz_drawn sz_padding] in *.
  - exists (be_bytes 2 size). eexists. split; [reflexivity|]. rewrite read_be_long by (by rewrite be_bytes_length).
    cbn [outcome_bind sz_parser sz_padding].
    rewrite take_ge, be_val_be_bytes by (rewrite ?be_bytes_length; cbn; lia). by rewrite be_bytes_length.
  - destruct (auth_Seal_spec a (be_bytes 2 (u16 (size - u16 (Z.of_nat (auth_Overhead a))))) Hz)
      as (b & a' & -> & Ho & Hlen & Ha & Hok). rewrite be_bytes_length in Hlen.
    exists b. eexists. split; [reflexivity|]. rewrite Ho. rewrite read_be_long by (by rewrite be_bytes_length).
    cbn [outcome_bind]. rewrite take_ge, be_val_be_bytes by (rewrite ?be_bytes_length; try done; apply wrap_bound; lia).
    unfold auth_Overhead, with_auth in *. cbn [sz_parser sz_padding]. rewrite Ha. split_all; try done; try apply Hok. do 2 f_equal.
    unfold wrap. rewrite Zplus_mod_idemp_l, Z.sub_add. by apply Z.mod_small.
  - pose proof (shake_word i) as Hm. pose proof (lxor_uint 16 (shake i) size ltac:(lia) Hm Hs) as Hx. unfold is_uint in Hx.
    exists (be_bytes 2 (Z.lxor (shake i) size)). eexists. split; [reflexivity|].
    rewrite read_be_long by (by rewrite be_bytes_length). cbn [outcome_bind sz_parser sz_padding].
    rewrite take_ge, be_val_be_bytes by (rewrite ?be_bytes_length; cbn; lia). rewrite be_bytes_length.
    by rewrite <- Z.lxor_assoc, Z.lxor_nilpotent, Z.lxor_0_l.
Qed.

(** ** Reading a chunk *)

(** What is to come, and the number of reads it may take. *)
Definition cs_stream (c : ChunkStreamReader) : stream := as_stream (cs_reader c).
Definition cs_weight (c : ChunkStreamReader) : nat := weight (cs_reader c).

(** [c'] is [c] after some reads inside a chunk. *)
Record inside (c c' : ChunkStreamReader) : Prop := {
  in_ok : br_ok (cs_reader c');
  in_sizes : sizeDecoder c' = sizeDecoder c;
  in_max : maxNumChunk c' = maxNumChunk c;
  in_num : numChunk c' = numChunk c;
  in_final : final (cs_stream c') = final (cs_stream c)
}.

Lemma inside_trans c1 c2 c3 : inside c1 c2 → inside c2 c3 → inside c1 c3.
Proof. intros [] []. split; congruence. Qed.

Lemma contents_nonempty_chunks s x rest : contents s = x ++ rest → x ≠ [] → chunks s ≠ [].
Proof. unfold contents. intros Hs Hx E. rewrite E in Hs. by destruct x. Qed.

Lemma read_left_step c d rest : br_ok (cs_reader c) → d ≠ [] → Z.of_nat (length d) < 65536 →
  contents (cs_stream c) = d ++ rest →
  ∃ mb c' d', read_left (Z.of_nat (length d)) c = Ret (mb, None, c') ∧ Forall wf mb ∧ contents_of mb ++ d' = d ∧
    contents (cs_stream c') = d' ++ rest ∧ leftOverSize c' = Z.of_nat (length d') ∧ inside c c' ∧
    (cs_weight c' < cs_weight c)%nat.
Proof.
  intros Hr Hd Hl Hc. assert (0 < Z.of_nat (length d)) as Hpos by (destruct d; [done|cbn; lia]).
  pose proof (ReadAtMost_stream (cs_reader c) _ Hr Hpos) as Hrd. unfold read_left, cs_stream, cs_weight in *.
  pose proof (contents_nonempty_chunks _ _ _ Hc Hd) as Hne. destruct (chunks (as_stream (cs_reader c))); [done|].
  destruct Hrd as (mb & r' & -> & Hr' & Hmb & Hcut & Hsz & Hf & Hw). cbn [outcome_bind]. pose proof Hmb as (Hwf & _ & Hlt).
  rewrite Hc in Hcut. rewrite (mb_ok_empty mb Hmb). case_bool_decide as E.
  - exists [], (with_sizes (sizeDecoder c) r' (Z.of_nat (length d)) c), d. rewrite E in Hcut. split_all; done.
  - rewrite mb_Len_spec, i32_small by (done || lia).
    destruct (app_split_le _ _ _ _ Hcut ltac:(lia)) as (d' & -> & Hrest). rewrite length_app in *.
    eexists mb, _, d'. split; [reflexivity|]. split_all; try done. cbn; lia.
Qed.

Lemma reads_left c d rest : br_ok (cs_reader c) → Z.of_nat (length d) < 65536 →
  contents (cs_stream c) = d ++ rest → leftOverSize c = Z.of_nat (length d) →
  ∃ l c', reads c l c' ∧ Forall (Forall wf) l ∧ mjoin (contents_of <$> l) = d ∧ contents (cs_stream c') = rest ∧
    leftOverSize c' = 0 ∧ inside c c' ∧ (length l + cs_weight c' ≤ cs_weight c)%nat.
Proof.
  remember (cs_weight c) as k eqn:Hk. revert c d Hk. induction k as [k IH] using lt_wf_ind. intros c d -> Hr Hl Hc Hleft.
  destruct (decide (d = [])) as [->|Hd].
  { exists [], c. split_all; try done; constructor. }
  destruct (read_left_step c d rest Hr Hd Hl Hc) as (mb & c1 & d' & E & Hwf & <- & Hc1 & Hl1 & Hin & Hw).
  rewrite length_app in *. destruct (IH (cs_weight c1) Hw c1 d' eq_refl (in_ok _ _ Hin) ltac:(lia) Hc1 Hl1)
    as (l & c' & Hrd & Hwl & Hj & Hc' & Hl' & Hin' & Hw').
  exists (mb :: l), c'. split.
  { econstructor; [|done]. unfold read_mb, chunk_reader, cs_ReadMultiBuffer. rewrite decide_False, Hleft; [done|].
    destruct (contents_of mb ++ d') eqn:Ed; [done|]. rewrite Hleft, <- length_app, Ed. cbn. lia. }
  split; [by constructor|]. split; [cbn; by rewrite <- Hj|]. split; [done|]. split; [done|].
  split; [by apply (inside_trans _ c1)|]. cbn [length]. lia.
Qed.

(** A reader between two chunks that may read another one. *)
Record ready (c : ChunkStreamReader) : Prop := {
  ready_ok : br_ok (cs_reader c);
  ready_left : leftOverSize c = 0;
  ready_sizes : sizing_ok (sizeDecoder c);
  ready_more : maxNumChunk c = 0 ∨ u32 (numChunk c + 1) ≤ maxNumChunk c
}.

Lemma ready_size c size h z' rest : ready c → is_uint 16 size → Encode size (sizeDecoder c) = Ret (h, z') →
  contents (cs_stream c) = h ++ rest →
  ∃ c', readSize (counted c) = Ret (Ok size, c') ∧ br_ok (cs_reader c') ∧ contents (cs_stream c') = rest ∧
    sizeDecoder c' = z' ∧ leftOverSize c' = 0 ∧ maxNumChunk c' = maxNumChunk c ∧ numChunk c' = u32 (numChunk c + 1) ∧
    final (cs_stream c') = final (cs_stream c) ∧ (cs_weight c' ≤ cs_weight c)%nat.
Proof.
  intros [Hr Hl Hz _] Hs He Hc. destruct (Encode_spec size _ Hz Hs) as (h2 & z2 & E2 & Hd & Hlen & _).
  rewrite He in E2. apply Ret_pair_inj in E2 as [<- <-]. unfold readSize, cs_stream, cs_weight in *. cbn [counted sizeDecoder cs_reader].
  destruct (br_ReadFull_enough _ _ _ _ Hr Hc (eq_sym Hlen)) as (r' & -> & Hr' & Hc' & Hf & Hw).
  cbn [outcome_bind]. rewrite Hd. eexists. split; [reflexivity|]. by split_all.
Qed.

(** A chunk behind its size is read back, in one read or more. *)
Lemma reads_chunk c d h z' rest : ready c → d ≠ [] → Z.of_nat (length d) < 65536 →
  Encode (Z.of_nat (length d)) (sizeDecoder c) = Ret (h, z') → contents (cs_stream c) = h ++ d ++ rest →
  ∃ l c', reads c l c' ∧ Forall (Forall wf) l ∧ mjoin (contents_of <$> l) = d ∧ contents (cs_stream c') = rest ∧
    br_ok (cs_reader c') ∧ leftOverSize c' = 0 ∧ sizeDecoder c' = z' ∧ maxNumChunk c' = maxNumChunk c ∧
    numChunk c' = u32 (numChunk c + 1) ∧ final (cs_stream c') = final (cs_stream c) ∧
    (length l + cs_weight c' ≤ cs_weight c)%nat.
Proof.
  intros Hready Hd Hl He Hc. pose proof Hready as [_ Hleft _ Hmore].
  destruct (ready_size c (Z.of_nat (length d)) h z' (d ++ rest) Hready) as (c1 & E1 & Hr1 & Hc1 & Hz1 & Hl1 & Hm1 & Hn1 & Hf1 & Hw1);
    [unfold is_uint; lia|done|done|].
  destruct (read_left_step c1 d rest Hr1 Hd Hl Hc1) as (mb & c2 & d' & E2 & Hwf & Hd' & Hc2 & Hl2 & Hin2 & Hw2).
  destruct (reads_left c2 d' rest (in_ok _ _ Hin2) ltac:(rewrite <- Hd', length_app in Hl; lia) Hc2 Hl2)
    as (l & c3 & Hrd & Hwl & Hj & Hc3 & Hl3 & Hin3 & Hw3).
  pose proof (inside_trans _ _ _ Hin2 Hin3) as [I1 I2 I3 I4 I5]. exists (mb :: l), c3. split.
  { econstructor; [|done]. unfold read_mb, chunk_reader, cs_ReadMultiBuffer. rewrite decide_True by done.
    cbn [counted maxNumChunk numChunk]. rewrite decide_False by lia. rewrite E1. cbn [outcome_bind].
    rewrite decide_False by (destruct d; [done|cbn; lia]). done. }
  split; [by constructor|]. split; [cbn; by rewrite <- Hd', <- Hj|]. cbn [length]. split_all; try congruence; try done; lia.
Qed.

(** A chunk of size zero ends the stream. *)
Lemma drains_marker c h z' rest : ready c → Encode 0 (sizeDecoder c) = Ret (h, z') → contents (cs_stream c) = h ++ rest →
  ∃ c', drains c [] ErrEOF c' ∧ contents (cs_stream c') = rest ∧ sizeDecoder c' = z' ∧ br_ok (cs_reader c') ∧
    (cs_weight c' ≤ cs_weight c)%nat ∧ final (cs_stream c') = final (cs_stream c).
Proof.
  intros Hready He Hc. pose proof Hready as [_ Hleft _ Hmore].
  destruct (ready_size c 0 h z' rest Hready) as (c1 & E1 & Hr1 & Hc1 & Hz1 & Hl1 & _ & _ & Hf & Hw); [by split|done|done|].
  exists c1. split; [|done]. constructor. unfold read_mb, chunk_reader, cs_ReadMultiBuffer.
  rewrite decide_True by done. cbn [counted maxNumChunk numChunk]. rewrite decide_False by lia. rewrite E1. done.
Qed.

(** A reader that has had all its chunks reads nothing more. *)
Lemma drains_limit c : leftOverSize c = 0 → 0 < maxNumChunk c < u32 (numChunk c + 1) →
  drains c [] ErrEOF (counted c).
Proof.
  intros Hl Hm. constructor. unfold read_mb, chunk_reader, cs_ReadMultiBuffer. rewrite decide_True by done.
  cbn [counted maxNumChunk numChunk]. by rewrite decide_True.
Qed.

(** ** The writer *)

(** The chunks [ds] on the wire, each behind its size. *)
Fixpoint chunk_bytes (ds : list bytes) (z : sizing) : outcome (bytes * sizing) :=
  match ds with
  | [] => Ret ([], z)
  | d :: ds =>
    let? (h, z) := Encode (Z.of_nat (length d)) z in
    let? (b, z) := chunk_bytes ds z in Ret (h ++ d ++ b, z)
  end.

Definition chunk_ok (d : bytes) : Prop := d ≠ [] ∧ Z.of_nat (length d) ≤ 8192.

Lemma chunk_bytes_app ds1 ds2 z b1 z1 b2 z2 : chunk_bytes ds1 z = Ret (b1, z1) → chunk_bytes ds2 z1 = Ret (b2, z2) →
  chunk_bytes (ds1 ++ ds2) z = Ret (b1 ++ b2, z2).
Proof.
  revert z b1. induction ds1 as [|d ds1 IH]; intros z b1; cbn [chunk_bytes app]; [by intros [<- <-]%Ret_pair_inj|].
  destruct (Encode _ z) as [[h z']| |]; try done. cbn [outcome_bind].
  destruct (chunk_bytes ds1 z') as [[b z'']| |] eqn:E; try done. cbn [outcome_bind]. intros [<- <-]%Ret_pair_inj H2.
  rewrite (IH _ _ E H2). cbn [outcome_bind]. by rewrite <- !app_assoc.
Qed.

(** A buffer with the bytes of a size. *)
Lemma size_buffer h n : length h = n → Z.of_nat n ≤ 8192 →
  ∃ b x, Extend (Buffer_New pool_array) (Z.of_nat n) = Some (b, x) ∧
    wf (patch b (end_ b - Z.of_nat n) h) ∧ content (patch b (end_ b - Z.of_nat n) h) = h.
Proof.
  intros Hh Hn. destruct (new_buffer pool_array pool_array_length) as (W0 & C0 & R0).
  destruct (Extend_spec (Buffer_New pool_array) n W0) as (b & x & E & Lx & Ax & Nx); [lia|].
  exists b, x. split; [done|]. pose proof (patch_appended (Buffer_New pool_array) x [] b h W0) as HA.
  rewrite !app_nil_r in HA. specialize (HA Ax ltac:(lia)).
  replace (end_ b - Z.of_nat n) with (end_ (Buffer_New pool_array)) by lia.
  split; [apply HA|]. by rewrite (app_content _ _ _ HA), C0.
Qed.

Lemma SizeBytes_small z : sizing_ok z → Z.of_nat (SizeBytes z) ≤ 1026.
Proof. unfold sizing_ok, SizeBytes. destruct (sz_parser z) as [|a|]; intros Hz; [lia|destruct Hz; lia|lia]. Qed.

(** Whole buffers of at most 8192 bytes: a cut of a multi-buffer with something
    in it is not empty. *)
Lemma split_whole_nonempty mb rest r : Forall wf mb → small_buffers mb → split_whole 0 8192 mb = (rest, r) →
  contents_of mb ≠ [] → contents_of r ≠ [].
Proof.
  intros Hw Hs. revert rest r Hs. induction Hw as [|b mb Hb Hw IH]; intros rest r Hs; [done|].
  apply Forall_cons in Hs as [Hb8 Hs]. cbn [split_whole]. rewrite Len_content, i32_small by (done || lia).
  rewrite decide_False by lia. destruct (split_whole (0 + _) 8192 mb) as [rest' r'] eqn:E. intros [= <- <-].
  rewrite !contents_of_cons. destruct (content b) as [|x q] eqn:Eb; [|done]. cbn [app]. by apply (IH rest' r' Hs).
Qed.

Lemma split_nonempty mb rest r : mb_ok mb → contents_of mb ≠ [] → SplitSize pool_array mb 8192 = Ret (rest, r) →
  contents_of r ≠ [].
Proof.
  intros (Hw & Hs & Hl) Hne. destruct mb as [|b mb]; [done|]. cbn [SplitSize].
  apply Forall_cons in Hs as Hs'. apply Forall_cons in Hw as Hw'. rewrite Len_content by apply Hw'.
  rewrite decide_False by (destruct Hs'; lia). intros [= E]. by apply (split_whole_nonempty (b :: mb) rest).
Qed.

Lemma chunk_loop_spec fuel mb z out : mb_ok mb → sizing_ok z → contents_of mb ≠ [] → (pieces mb < fuel)%nat →
  ∃ ds out' z', chunk_loop fuel mb z out = Ret (out ++ out', z') ∧ Forall chunk_ok ds ∧ mjoin ds = contents_of mb ∧
    chunk_bytes ds z = Ret (contents_of out', z') ∧ Forall wf out' ∧ sizing_ok z'.
Proof.
  revert mb z out. induction fuel as [|fuel IH]; intros mb z out Hmb Hz Hne Hf; [lia|]. cbn [chunk_loop].
  destruct (SplitSize_ok mb 8192 Hmb ltac:(lia)) as (rest & r & E & Hrest & Hr & Hc & Hsz & Hdec). rewrite E. cbn [outcome_bind].
  pose proof (split_nonempty mb rest r Hmb Hne E) as Hrne. pose proof Hr as (Hrw & _ & Hrl).
  rewrite mb_Len_spec, wrap_small by (done || unfold is_uint; lia).
  destruct (Encode_spec (Z.of_nat (length (contents_of r))) z Hz) as (h & z1 & Eh & _ & Hlh & Hsb & Hz1 & _); [unfold is_uint; lia|].
  rewrite Eh. cbn [outcome_bind]. rewrite Hsb. pose proof (SizeBytes_small z Hz).
  destruct (size_buffer h (SizeBytes z) Hlh ltac:(lia)) as (b & x & -> & Hbw & Hbc). cbn [ret_or_panic]. cbv zeta.
  set (hb := patch b (end_ b - Z.of_nat (SizeBytes z)) h) in *.
  rewrite (mb_ok_empty rest Hrest). case_bool_decide as Er.
  - exists [contents_of r], (hb :: r), z1. rewrite Er, app_nil_r in Hc. split; [done|]. cbn [chunk_bytes]. rewrite Eh.
    cbn [outcome_bind]. rewrite contents_of_cons, Hbc, app_nil_r. split; [by repeat constructor|].
    split; [cbn; by rewrite app_nil_r|]. split; [done|]. split; [by constructor|done].
  - destruct (IH rest z1 (out ++ [hb] ++ r) Hrest Hz1 Er) as (ds & out' & z' & -> & Hds & Hj & Hb' & Hw' & Hz').
    { enough (pieces rest < pieces mb)%nat by lia. apply Hdec. by intros ->. }
    exists (contents_of r :: ds), (hb :: r ++ out'), z'. split; [do 2 f_equal; by rewrite <- app_assoc|].
    cbn [chunk_bytes]. rewrite Eh. cbn [outcome_bind]. rewrite Hb'. cbn [outcome_bind].
    rewrite contents_of_cons, contents_of_app, Hbc. split; [by repeat constructor|].
    split; [cbn; by rewrite <- Hc, <- Hj|]. split; [done|]. split; [|done]. constructor; [done|]. by apply Forall_app.
Qed.

(** Writes of multi-buffers, one after the other. *)
Fixpoint write_all_mbs (mbs : list (list Buffer)) (z : sizing) : outcome (list Buffer * sizing) :=
  match mbs with
  | [] => Ret ([], z)
  | mb :: mbs =>
    let? (out, z) := ChunkStreamWriter_Write mb z in
    let? (more, z) := write_all_mbs mbs z in Ret (out ++ more, z)
  end.

Lemma write_all_mbs_spec mbs z : Forall (λ mb, mb_ok mb ∧ contents_of mb ≠ []) mbs → sizing_ok z →
  ∃ ds out z', write_all_mbs mbs z = Ret (out, z') ∧ Forall chunk_ok ds ∧ mjoin ds = mjoin (contents_of <$> mbs) ∧
    chunk_bytes ds z = Ret (contents_of out, z') ∧ sizing_ok z'.
Proof.
  intros Hmbs. revert z. induction Hmbs as [|mb mbs [Hmb Hne] Hmbs IH]; intros z Hz; cbn [write_all_mbs].
  { by exists [], [], z. }
  unfold ChunkStreamWriter_Write.
  destruct (chunk_loop_spec (S (pieces mb)) mb z [] Hmb Hz Hne ltac:(lia)) as (ds1 & out1 & z1 & -> & H1 & J1 & B1 & _ & Z1).
  cbn [outcome_bind]. destruct (IH z1 Z1) as (ds2 & out2 & z2 & -> & H2 & J2 & B2 & Z2). cbn [outcome_bind app].
  exists (ds1 ++ ds2), (out1 ++ out2), z2. split; [done|]. split; [by apply Forall_app|].
  rewrite join_app, J1, J2, contents_of_app. split; [done|]. split; [by eapply chunk_bytes_app|done].
Qed.

(** The end marker: a write of nothing. *)
Lemma write_nothing z : sizing_ok z →
  ∃ b z', ChunkStreamWriter_Write [] z = Ret ([b], z') ∧ Encode 0 z = Ret (content b, z').
Proof.
  intros Hz. unfold ChunkStreamWriter_Write. cbn [chunk_loop SplitSize outcome_bind].
  destruct (Encode_spec 0 z Hz) as (h & z1 & Eh & _ & Hlh & Hsb & _); [by split|]. change (u16 (mb_Len [])) with 0.
  rewrite Eh. cbn [outcome_bind]. rewrite Hsb. pose proof (SizeBytes_small z Hz).
  destruct (size_buffer h (SizeBytes z) Hlh ltac:(lia)) as (b & x & -> & Hbw & Hbc). cbn [ret_or_panic mb_IsEmpty forallb].
  eexists _, z1. split; [reflexivity|]. by rewrite Hbc.
Qed.

Lemma reads_chunks ds c b z' rest : ready c → maxNumChunk c = 0 → Forall chunk_ok ds →
  chunk_bytes ds (sizeDecoder c) = Ret (b, z') → contents (cs_stream c) = b ++ rest →
  ∃ l c', reads c l c' ∧ Forall (Forall wf) l ∧ mjoin (contents_of <$> l) = mjoin ds ∧ contents (cs_stream c') = rest ∧
    ready c' ∧ maxNumChunk c' = 0 ∧ sizeDecoder c' = z' ∧ final (cs_stream c') = final (cs_stream c) ∧
    (length l + cs_weight c' ≤ cs_weight c)%nat.
Proof.
  intros Hc Hm Hds. revert c b Hc Hm. induction Hds as [|d ds [Hd Hl] Hds IH]; intros c b Hc Hm; cbn [chunk_bytes].
  { intros [<- <-]%Ret_pair_inj Hs. exists [], c. split; [constructor|]. by split_all. }
  pose proof Hc as [_ _ Hz _].
  destruct (Encode_spec (Z.of_nat (length d)) _ Hz) as (h & z1 & Eh & _ & _ & _ & Hz1 & _); [unfold is_uint; lia|].
  rewrite Eh. cbn [outcome_bind]. destruct (chunk_bytes ds z1) as [[b2 z2]| |] eqn:E2; try done. cbn [outcome_bind].
  intros [<- <-]%Ret_pair_inj Hs. rewrite <- !app_assoc in Hs.
  destruct (reads_chunk c d h z1 (b2 ++ rest) Hc Hd ltac:(lia) Eh Hs)
    as (l1 & c1 & R1 & W1 & J1 & C1 & B1 & L1 & S1 & M1 & N1 & F1 & T1).
  destruct (IH c1 b2) as (l2 & c2 & R2 & W2 & J2 & C2 & K2 & M2 & S2 & F2 & T2); [|congruence|congruence|done|].
  { split; [done|done|congruence|left; congruence]. }
  exists (l1 ++ l2), c2. split; [by eapply reads_app|]. split; [by apply Forall_app|].
  rewrite fmap_app, join_app, J1, J2, length_app. split; [done|]. split_all; try done; try congruence; try apply K2; lia.
Qed.

(** What is written in chunks, whatever parser codes the sizes and however the
    bytes are cut up on their way, is read back in order; the marker ends the
    stream, and the reader leaves what comes behind it unread. *)
Theorem chunk_stream_roundtrip (mbs : list (list Buffer)) (z : sizing) (r : BufferedReader source) (rest : bytes) :
  sizing_ok z → Forall (λ mb, mb_ok mb ∧ contents_of mb ≠ []) mbs → br_ok r →
  ∃ out z' m z'', write_all_mbs mbs z = Ret (out, z') ∧ ChunkStreamWriter_Write [] z' = Ret (m, z'') ∧
    (contents (as_stream r) = contents_of out ++ contents_of m ++ rest →
     ∃ l c', drains (NewChunkStreamReaderWithChunkCount z r 0) l ErrEOF c' ∧
       mjoin (contents_of <$> l) = mjoin (contents_of <$> mbs) ∧ contents (cs_stream c') = rest).
Proof.
  intros Hz Hmbs Hr. destruct (write_all_mbs_spec mbs z Hmbs Hz) as (ds & out & z' & -> & Hds & Hj & Hb & Hz').
  destruct (write_nothing z' Hz') as (b & z'' & Ew & He). exists out, z', [b], z''. split; [done|]. split; [done|].
  rewrite contents_of_one. intros Hc.
  assert (ready (NewChunkStreamReaderWithChunkCount z r 0)) as Hready by (split; [done|done|done|by left]).
  destruct (reads_chunks ds _ _ _ _ Hready eq_refl Hds Hb Hc) as (l & c1 & Hrd & Hwl & Hjl & Hc1 & Hr1 & _ & Hs1 & _).
  rewrite <- Hs1 in He. destruct (drains_marker c1 _ _ _ Hr1 He Hc1) as (c2 & Hdr & Hc2 & _).
  exists (l ++ []), c2. split; [by eapply reads_drains|]. rewrite app_nil_r. split; [by rewrite Hjl, Hj|done].
Qed.
End sizes.
