(* ===== verification/AuthStream.v ===== *)
(** Encrypted chunks (src/upstream/xray-core/common/crypto/auth.go): the reader
    and the writer that carry the body of a VMess or Shadowsocks connection.
    The cipher is any [Cipher] with its laws; the padding bytes, from a
    cryptographic random source, are arbitrary. *)
From S2P Require Import Prelude Frame Buf AddressParser BufAppend MultiBuffer BufIO ChunkStream.

Section auth.

(** The words of the hash that masks sizes, and the padding drawn at a time. *)
Variable shake : nat → Z.
Variable noise : nat → nat → bytes.

(** ** Reading *)

Record AuthenticationReader := {
  ar_auth : AEADAuthenticator;
  ar_reader : BufferedReader source;
  ar_sizes : sizing;
  ar_size : Z;
  ar_paddingLen : Z;
  hasSize : bool;
  ar_done : bool
}.

Definition NewAuthenticationReader (a : AEADAuthenticator) (z : sizing) (r : BufferedReader source) : AuthenticationReader :=
  {| ar_auth := a; ar_reader := r; ar_sizes := z; ar_size := 0; ar_paddingLen := 0; hasSize := false; ar_done := false |}.

Definition with_input (b : BufferedReader source) (z : sizing) (has : bool) (r : AuthenticationReader) : AuthenticationReader :=
  {| ar_auth := ar_auth r; ar_reader := b; ar_sizes := z; ar_size := ar_size r; ar_paddingLen := ar_paddingLen r;
     hasSize := has; ar_done := ar_done r |}.

(** [readSize]: the size and the padding of the next chunk. *)
Definition ar_readSize (r : AuthenticationReader) : outcome (result frame_error (Z * Z) * AuthenticationReader) :=
  if hasSize r then Ret (Ok (ar_size r, ar_paddingLen r), with_input (ar_reader r) (ar_sizes r) false r)
  else
    let? (d, b) := br_ReadFull (SizeBytes (ar_sizes r)) (ar_reader r) in
    match d with
    | Err e => Ret (Err e, with_input b (ar_sizes r) false r)
    | Ok sizeBytes =>
      let '(padding, z) := NextPaddingLen shake (ar_sizes r) in
      match Decode shake sizeBytes z with
      | Panic => Panic
      | Fail => Ret (Err errDecode, with_input b z false r)
      | Ret (size, z) => Ret (Ok (size, padding), with_input b z false r)
      end
    end.

Definition with_opened (a : AEADAuthenticator) (b : BufferedReader source) (r : AuthenticationReader) : AuthenticationReader :=
  {| ar_auth := a; ar_reader := b; ar_sizes := ar_sizes r; ar_size := ar_size r; ar_paddingLen := ar_paddingLen r;
     hasSize := hasSize r; ar_done := ar_done r |}.

Definition read_error (e : buf_error) : frame_error := match e with BufOutOfBound => ErrIO 2 | BufReadError e => e end.

(** [readBuffer]: the text is opened in place, at the front of the buffer. *)
Definition readBuffer (size padding : Z) (r : AuthenticationReader)
    : outcome (result frame_error Buffer * AuthenticationReader) :=
  let? (got, br) := br_ReadFullFrom (Buffer_New pool_array) size (ar_reader r) in
  match got with
  | Err e => Ret (Err (read_error e), with_opened (ar_auth r) br r)
  | Ok b =>
    let size := i32 (size - padding) in
    ret_or_panic (BytesTo b size) (λ cipherText,
    match auth_Open cipherText (ar_auth r) with
    | (None, a) => Ret (Err errDecode, with_opened a br r)
    | (Some rb, a) =>
      ret_or_panic (Resize (patch b (start b) rb) 0 (Z.of_nat (length rb))) (λ b, Ret (Ok b, with_opened a br r))
    end)
  end.

(** [errSoft], or an error of the stream. *)
Inductive soft_error := Soft | Hard (e : frame_error).

Definition mark_done (r : AuthenticationReader) : AuthenticationReader :=
  {| ar_auth := ar_auth r; ar_reader := ar_reader r; ar_sizes := ar_sizes r; ar_size := ar_size r;
     ar_paddingLen := ar_paddingLen r; hasSize := hasSize r; ar_done := true |}.

Definition keep_size (size padding : Z) (r : AuthenticationReader) : AuthenticationReader :=
  {| ar_auth := ar_auth r; ar_reader := ar_reader r; ar_sizes := ar_sizes r; ar_size := size;
     ar_paddingLen := padding; hasSize := true; ar_done := ar_done r |}.

(** The last part of [readInternal], for a chunk that does not fit a buffer. *)
Definition read_large (size padding : Z) (mb : list Buffer) (r : AuthenticationReader)
    : outcome (option soft_error * list Buffer * AuthenticationReader) :=
  let? (d, br) := br_ReadFull (Z.to_nat size) (ar_reader r) in
  match d with
  | Err e => Ret (Some (Hard e), mb, with_opened (ar_auth r) br r)
  | Ok payload =>
    let size := u16 (size - padding) in
    if decide (Z.of_nat (length payload) < size) then Panic
    else
      match auth_Open (take (Z.to_nat size) payload) (ar_auth r) with
      | (None, a) => Ret (Some (Hard errDecode), mb, with_opened a br r)
      | (Some rb, a) => let? mb := MergeBytes pool_array mb rb in Ret (None, mb, with_opened a br r)
      end
  end.

Definition readInternal (soft : bool) (mb : list Buffer) (r : AuthenticationReader)
    : outcome (option soft_error * list Buffer * AuthenticationReader) :=
  if soft && bool_decide (BufferedBytes (ar_reader r) < Z.of_nat (SizeBytes (ar_sizes r))) then Ret (Some Soft, mb, r)
  else if ar_done r then Ret (Some (Hard ErrEOF), mb, r)
  else
    let? (sz, r) := ar_readSize r in
    match sz with
    | Err e => Ret (Some (Hard e), mb, r)
    | Ok (size, padding) =>
      if decide (size = u16 (u16 (Z.of_nat (auth_Overhead (ar_auth r))) + padding)) then
        Ret (Some (Hard ErrEOF), mb, mark_done r)
      else if soft && bool_decide (BufferedBytes (ar_reader r) < size) then Ret (Some Soft, mb, keep_size size padding r)
      else if decide (size ≤ 8192) then
        let? (got, r) := readBuffer size padding r in
        match got with Err e => Ret (Some (Hard e), mb, r) | Ok b => Ret (None, mb ++ [b], r) end
      else read_large size padding mb r
    end.

(** The loop of [ReadMultiBuffer] over what is already there. *)
Fixpoint soft_loop (n : nat) (mb : list Buffer) (r : AuthenticationReader)
    : outcome (list Buffer * option frame_error * AuthenticationReader) :=
  match n with
  | O => Ret (mb, None, r)
  | S n =>
    let? (err, mb, r) := readInternal true mb r in
    match err with
    | None => soft_loop n mb r
    | Some Soft | Some (Hard ErrEOF) => Ret (mb, None, r)
    | Some (Hard e) => Ret ([], Some e, r)
    end
  end.

Definition ar_ReadMultiBuffer (r : AuthenticationReader)
    : outcome (list Buffer * option frame_error * AuthenticationReader) :=
  let? (err, mb, r) := readInternal false [] r in
  match err with
  | Some (Hard e) => Ret ([], Some e, r)
  | Some Soft => Ret ([], Some (ErrIO 3), r)
  | None => soft_loop 15 mb r
  end.

#[global] Instance auth_reader : BufReader AuthenticationReader := ar_ReadMultiBuffer.

(** ** Writing *)

Record AuthenticationWriter := { aw_auth : AEADAuthenticator; aw_sizes : sizing }.

(** [n] bytes behind the content, filled with [d]. *)
Definition extend_with (n : Z) (d : bytes) (b : Buffer) : outcome Buffer :=
  ret_or_panic (Extend b n) (λ '(b, _), Ret (patch b (end_ b - n) d)).

(** [seal]: the padding is drawn first, also for text that turns out too large. *)
Definition seal (d : bytes) (w : AuthenticationWriter) : outcome (option Buffer * AuthenticationWriter) :=
  let encryptedSize := i32 (Z.of_nat (length d + auth_Overhead (aw_auth w))) in
  let '(paddingSize, z) := NextPaddingLen shake (aw_sizes w) in
  let sizeBytes := Z.of_nat (SizeBytes z) in
  let totalSize := i32 (sizeBytes + encryptedSize + paddingSize) in
  if decide (8192 < totalSize) then Ret (None, {| aw_auth := aw_auth w; aw_sizes := z |})
  else
    let? (h, z') := Encode shake (u16 (encryptedSize + paddingSize)) z in
    let? eb := extend_with sizeBytes h (Buffer_New pool_array) in
    match auth_Seal d (aw_auth w) with
    | (None, a) => Ret (None, {| aw_auth := a; aw_sizes := z' |})
    | (Some e, a) =>
      let? eb := extend_with encryptedSize e eb in
      let? eb := if decide (0 < paddingSize) then extend_with paddingSize (noise (sz_drawn z) (Z.to_nat paddingSize)) eb
                 else Ret eb in
      Ret (Some eb, {| aw_auth := a; aw_sizes := z' |})
    end.

(** The loop of [writeStream]; every round but the last takes a byte. *)
Fixpoint seal_loop (fuel : nat) (payloadSize : nat) (mb out : list Buffer) (w : AuthenticationWriter)
    : outcome (option (list Buffer) * AuthenticationWriter) :=
  match fuel with
  | O => Panic
  | S fuel =>
    let? (mb, d) := SplitBytes mb payloadSize in
    let? (eb, w) := seal d w in
    match eb with
    | None => Ret (None, w)
    | Some eb => if mb_IsEmpty mb then Ret (Some (out ++ [eb]), w) else seal_loop fuel payloadSize mb (out ++ [eb]) w
    end
  end.

Definition writeStream (mb : list Buffer) (w : AuthenticationWriter) : outcome (option (list Buffer) * AuthenticationWriter) :=
  let z := aw_sizes w in
  let payloadSize := 8192 - Z.of_nat (auth_Overhead (aw_auth w)) - Z.of_nat (SizeBytes z) - MaxPaddingLen z in
  ret_or_panic (Extend (Buffer_New pool_array) payloadSize) (λ _,
  seal_loop (S (length (contents_of mb))) (Z.to_nat payloadSize) mb [] w).

(** The loop of [writePacket]: empty packets and those that do not fit are left
    out. *)
Fixpoint seal_packets (mb out : list Buffer) (w : AuthenticationWriter) : outcome (list Buffer * AuthenticationWriter) :=
  match mb with
  | [] => Ret (out, w)
  | b :: mb =>
    if IsEmpty b then seal_packets mb out w
    else
      ret_or_panic (Bytes b) (λ d,
      let? (eb, w) := seal d w in
      match eb with None => seal_packets mb out w | Some eb => seal_packets mb (out ++ [eb]) w end)
  end.

(** [WriteMultiBuffer] with what it passes on: [None] inside is nothing, [Fail]
    an error. *)
Definition aw_WriteMultiBuffer (stream_type : bool) (mb : list Buffer) (w : AuthenticationWriter)
    : outcome (option (list Buffer) * AuthenticationWriter) :=
  if mb_IsEmpty mb then
    let? (eb, w) := seal [] w in
    match eb with Some eb => Ret (Some [eb], w) | None => Panic end
  else if stream_type then
    let? (out, w) := writeStream mb w in
    match out with Some out => Ret (Some out, w) | None => Fail end
  else
    let? (out, w) := seal_packets mb [] w in
    Ret (if mb_IsEmpty out then None else Some out, w).

(** ** A sealed chunk *)

Context `{!ShakeWords shake} (noise_length : ∀ i n, length (noise i n) = n).

Record writer_ok (w : AuthenticationWriter) : Prop := {
  w_auth_ok : auth_ok (aw_auth w);
  w_sizing_ok : sizing_ok (aw_sizes w)
}.

(** The parts of the chunk for [d]: size, text and padding, with the states of
    the size parser in between. *)
Record sealed (w : AuthenticationWriter) (d h e p : bytes) (w' : AuthenticationWriter) : Prop := {
  se_sizes : ∃ z, NextPaddingLen shake (aw_sizes w) = (Z.of_nat (length p), z) ∧
    Decode shake h z = Ret (Z.of_nat (length e + length p), aw_sizes w');
  se_header : length h = SizeBytes (aw_sizes w);
  se_open : auth_Open e (aw_auth w) = (Some d, aw_auth w');
  se_length : length e = (length d + auth_Overhead (aw_auth w))%nat;
  se_fits : Z.of_nat (length h + length e + length p) ≤ 8192;
  se_ok : writer_ok w';
  se_overhead : auth_Overhead (aw_auth w') = auth_Overhead (aw_auth w)
}.

Lemma NextPaddingLen_spec z : sizing_ok z →
  ∃ p z', NextPaddingLen shake z = (p, z') ∧ 0 ≤ p ≤ MaxPaddingLen z ∧ sizing_ok z' ∧ SizeBytes z' = SizeBytes z.
Proof.
  intros Hz. unfold NextPaddingLen, MaxPaddingLen, shake_next. destruct (sz_padding z) eqn:E.
  - do 2 eexists. split; [reflexivity|]. split; [|done]. pose proof (Z.mod_pos_bound (shake (sz_drawn z)) 64). lia.
  - do 2 eexists. split; [reflexivity|]. by split.
Qed.

Lemma extend_with_spec n d b : wf b → n = Z.of_nat (length d) → (length d ≤ room b)%nat →
  ∃ b', extend_with n d b = Ret b' ∧ appended b d b'.
Proof.
  intros Hb -> Hr. unfold extend_with. destruct (Extend_spec b (length d) Hb Hr) as (b1 & x & -> & Lx & Ax & Nx).
  cbn [ret_or_panic]. eexists. split; [reflexivity|]. replace (end_ b1 - Z.of_nat (length d)) with (end_ b) by lia.
  pose proof (patch_appended b x [] b1 d Hb) as HA. rewrite !app_nil_r in HA. apply HA; [done|lia].
Qed.

(** The room a chunk needs besides its text. *)
Definition chunk_overhead (w : AuthenticationWriter) : Z :=
  Z.of_nat (auth_Overhead (aw_auth w)) + Z.of_nat (SizeBytes (aw_sizes w)) + MaxPaddingLen (aw_sizes w).

Lemma seal_spec d w : writer_ok w → Z.of_nat (length d) + chunk_overhead w ≤ 8192 →
  ∃ eb w' h e p, seal d w = Ret (Some eb, w') ∧ wf eb ∧ content eb = h ++ e ++ p ∧ sealed w d h e p w' ∧
    chunk_overhead w' = chunk_overhead w.
Proof.
  intros [Ha Hz] Hl. unfold seal, chunk_overhead in *. cbv zeta.
  destruct (NextPaddingLen_spec _ Hz) as (p & z1 & Ep & Hp & Hz1 & Hs1). rewrite Ep.
  assert (sz_padding z1 = sz_padding (aw_sizes w)) as Hpad1.
  { unfold NextPaddingLen, shake_next in Ep. destruct (sz_padding (aw_sizes w)) eqn:E; injection Ep as _ <-; done. }
  destruct (auth_Seal_spec _ d Ha) as (e & a' & Es & Eo & Hle & HA & Ha').
  rewrite Hs1. rewrite (i32_small (Z.of_nat (length d + auth_Overhead (aw_auth w)))) by lia.
  rewrite i32_small by lia. rewrite decide_False by lia.
  rewrite wrap_small by (unfold is_uint; lia).
  destruct (Encode_spec shake (Z.of_nat (length d + auth_Overhead (aw_auth w)) + p) z1 Hz1) as (h & z2 & Eh & Ed & Hlh & Hs2 & Hz2 & Hpad2);
    [unfold is_uint; lia|]. rewrite Eh. cbn [outcome_bind].
  destruct (new_buffer pool_array pool_array_length) as (W0 & C0 & R0).
  destruct (extend_with_spec (Z.of_nat (SizeBytes (aw_sizes w))) h _ W0) as (b1 & -> & A1); [lia|lia|]. cbn [outcome_bind].
  rewrite Es. pose proof A1 as [W1 _ R1 _ _].
  destruct (extend_with_spec (Z.of_nat (length d + auth_Overhead (aw_auth w))) e b1 W1) as (b2 & -> & A2); [lia|lia|].
  cbn [outcome_bind]. pose proof A2 as [W2 _ R2 _ _]. set (pad := noise (sz_drawn z1) (Z.to_nat p)).
  assert (length pad = Z.to_nat p) as Hpl by apply noise_length.
  assert (∃ b3, (if decide (0 < p) then extend_with p pad b2 else Ret b2) = Ret b3 ∧ appended b2 pad b3) as (b3 & -> & A3).
  { case_decide; [apply extend_with_spec; [done|lia|lia]|]. assert (pad = []) as -> by (apply nil_length_inv; lia).
    exists b2. split; [done|]. split; [done|by rewrite app_nil_r|cbn; lia|done|done]. }
  cbn [outcome_bind]. pose proof (appended_trans _ _ _ _ _ (appended_trans _ _ _ _ _ A1 A2) A3) as [W3 C3 _ _ _].
  exists b3. eexists. exists h, e, pad. split; [reflexivity|]. split; [done|].
  split; [by rewrite C3, C0, <- app_assoc|]. cbn [aw_auth aw_sizes]. unfold auth_Overhead, MaxPaddingLen in *. split.
  - split; cbn [aw_auth aw_sizes]; [|congruence|done|done|lia|by split|unfold auth_Overhead; by rewrite HA].
    exists z1. rewrite Ep. split; [by rewrite Hpl, Z2Nat.id by lia|]. rewrite Ed. do 2 f_equal. lia.
  - rewrite HA, Hs2, Hs1, Hpad2, Hpad1. done.
Qed.

(** The chunks for the texts [ds] one after the other. *)
Inductive wire : AuthenticationWriter → list bytes → bytes → AuthenticationWriter → Prop :=
| wire_nil w : wire w [] [] w
| wire_cons w d h e p w1 ds x w' : sealed w d h e p w1 → wire w1 ds x w' → wire w (d :: ds) (h ++ e ++ p ++ x) w'.

Lemma wire_app w1 ds1 x1 w2 ds2 x2 w3 : wire w1 ds1 x1 w2 → wire w2 ds2 x2 w3 → wire w1 (ds1 ++ ds2) (x1 ++ x2) w3.
Proof.
  induction 1; [done|]. intros. cbn [app]. rewrite <- !app_assoc. econstructor; eauto.
Qed.

(** A reader in step with the writer [w], which has the texts [ds] behind it
    already sealed, in front of [rest]: the size of the next chunk may have been
    read. *)
Inductive in_step (r : AuthenticationReader) (w : AuthenticationWriter) (rest : bytes) : list bytes → Prop :=
| step_boundary ds x w' :
    hasSize r = false → wire w ds x w' → contents (as_stream (ar_reader r)) = x ++ rest →
    ar_sizes r = aw_sizes w → in_step r w rest ds
| step_sized d ds h e p w1 x w' :
    hasSize r = true → sealed w d h e p w1 → wire w1 ds x w' → contents (as_stream (ar_reader r)) = e ++ p ++ x ++ rest →
    ar_sizes r = aw_sizes w1 → ar_size r = Z.of_nat (length e + length p) → ar_paddingLen r = Z.of_nat (length p) →
    in_step r w rest (d :: ds).

Record reading (r : AuthenticationReader) (w : AuthenticationWriter) (rest : bytes) (ds : list bytes) : Prop := {
  rd_ok : br_ok (ar_reader r);
  rd_auth : ar_auth r = aw_auth w;
  rd_done : ar_done r = false;
  rd_step : in_step r w rest ds
}.

(** After [readSize] the text and the padding of the next chunk are at the front. *)
Lemma ar_readSize_spec r w rest d ds : reading r w rest (d :: ds) →
  ∃ r' h e p w1 x w', ar_readSize r = Ret (Ok (Z.of_nat (length e + length p), Z.of_nat (length p)), r') ∧
    sealed w d h e p w1 ∧ wire w1 ds x w' ∧ contents (as_stream (ar_reader r')) = e ++ p ++ x ++ rest ∧
    br_ok (ar_reader r') ∧ ar_auth r' = aw_auth w ∧ ar_done r' = false ∧ hasSize r' = false ∧ ar_sizes r' = aw_sizes w1.
Proof.
  intros [Hr Ha Hd Hs]. unfold ar_readSize. inversion Hs as [? x w' Hh Hw Hc Hz|? ? h e p w1 x w' Hh Hse Hw Hc Hz Hsz Hpl]; subst.
  - rewrite Hh. inversion Hw as [|? ? h e p w1 ? x' ? Hse Hw1]; subst. pose proof Hse as [(z & Ep & Ed) Hlh _ _ _ _ _].
    rewrite Hz, <- !app_assoc in *. destruct (br_ReadFull_enough _ _ _ _ Hr Hc (eq_sym Hlh)) as (b & -> & Hb & Hcb & _).
    cbn [outcome_bind]. rewrite Ep, Ed. eexists _, h, e, p, w1, x', w'. split; [reflexivity|]. by split_all.
  - rewrite Hh. eexists _, h, e, p, w1, x, w'. rewrite Hsz, Hpl. split; [reflexivity|]. by split_all.
Qed.

(** [readBuffer] opens the text in place. *)
Lemma readBuffer_spec r w d h e p w1 x :
  sealed w d h e p w1 → br_ok (ar_reader r) → ar_auth r = aw_auth w → contents (as_stream (ar_reader r)) = e ++ p ++ x →
  ∃ b r', readBuffer (Z.of_nat (length e + length p)) (Z.of_nat (length p)) r = Ret (Ok b, r') ∧ wf b ∧ content b = d ∧
    br_ok (ar_reader r') ∧ contents (as_stream (ar_reader r')) = x ∧ ar_auth r' = aw_auth w1 ∧
    ar_sizes r' = ar_sizes r ∧ ar_done r' = ar_done r ∧ hasSize r' = hasSize r.
Proof.
  intros [_ _ Ho Hle Hfit _ _] Hr Ha Hc. unfold readBuffer. destruct (new_buffer pool_array pool_array_length) as (W0 & C0 & R0).
  rewrite app_assoc in Hc.
  destruct (br_ReadFullFrom_spec _ _ _ _ (Z.of_nat (length e + length p)) W0 Hr Hc) as (b & br & -> & [Wb Cb _ _ Sb] & Hbr & Hcb & _);
    [by rewrite length_app|rewrite length_app; lia|]. cbn [outcome_bind]. rewrite C0 in Cb. cbn [app] in Cb.
  rewrite i32_small by lia. replace (Z.of_nat (length e + length p) - Z.of_nat (length p)) with (Z.of_nat (length e)) by lia.
  rewrite (BytesTo_content pool_array) by (done || rewrite Cb, length_app; lia). cbn [ret_or_panic].
  rewrite Cb, take_app_length, Ha, Ho.
  destruct (patch_spec b [] (take (length d) (e ++ p)) d (drop (length d) (e ++ p)) Wb) as (Wp & Cp & _ & _);
    [by rewrite Cb, take_drop|rewrite length_take, length_app; lia|].
  cbn [length] in Wp, Cp. rewrite Z.add_0_r in Wp, Cp.
  destruct (run_Resize (patch b (start b) d) 0 (length d) Wp) as (b' & Er & Wr & Cr); [lia|rewrite Cp; cbn; rewrite !length_app; lia|].
  change (Z.of_nat 0) with 0 in Er. rewrite Er. cbn [ret_or_panic]. do 2 eexists. split; [reflexivity|]. split; [done|].
  split; [|by split_all]. rewrite Cr, Cp, Nat.sub_0_r, drop_0. cbn [app]. by rewrite take_app_length.
Qed.

(** One chunk: it is read, or, in a soft read, left for later. *)
Lemma readInternal_chunk soft mb r w rest d ds : reading r w rest (d :: ds) → d ≠ [] →
  (soft = true ∧ ∃ r', readInternal soft mb r = Ret (Some Soft, mb, r') ∧ reading r' w rest (d :: ds)) ∨
  (∃ b r' w1, readInternal soft mb r = Ret (None, mb ++ [b], r') ∧ wf b ∧ content b = d ∧ reading r' w1 rest ds).
Proof.
  intros Hrd Hd. pose proof Hrd as [Hr Ha Hdone _]. unfold readInternal.
  destruct (soft && _) eqn:E1; [left; apply andb_true_iff in E1 as [-> _]; split; [done|by exists r]|].
  rewrite Hdone. destruct (ar_readSize_spec r w rest d ds Hrd) as (r1 & h & e & p & w1 & x & w' & -> & Hse & Hw & Hc & Hr1 & Ha1 & Hd1 & Hh1 & Hz1).
  cbn [outcome_bind]. pose proof Hse as [_ _ _ Hle Hfit Hok Hoh]. destruct Hok as [[_ _ _ Hov] _].
  assert (0 < length d)%nat by (destruct d; [done|cbn; lia]). rewrite Hoh in Hov.
  rewrite Ha1, !wrap_small by (unfold is_uint; rewrite ?wrap_small; unfold is_uint; lia). rewrite decide_False by lia.
  destruct (soft && bool_decide (BufferedBytes (ar_reader r1) < _)) eqn:E2.
  - left. apply andb_true_iff in E2 as [-> _]. split; [done|]. eexists. split; [reflexivity|]. split; [done|done|done|].
    by eapply (step_sized _ _ _ d ds h e p w1 x w').
  - right. rewrite decide_True by lia.
    destruct (readBuffer_spec r1 w d h e p w1 (x ++ rest) Hse Hr1 Ha1 Hc) as (b & r2 & -> & Hb & Hcb & Hr2 & Hc2 & Ha2 & Hz2 & Hd2 & Hh2).
    cbn [outcome_bind]. exists b, r2, w1. split; [done|]. split; [done|]. split; [done|]. split; [done|done|congruence|].
    eapply step_boundary; [congruence|done|done|congruence].
Qed.

(** The marker: the end of the stream, or left for later. *)
Lemma readInternal_marker soft mb r w rest : reading r w rest [[]] →
  (soft = true ∧ ∃ r', readInternal soft mb r = Ret (Some Soft, mb, r') ∧ reading r' w rest [[]]) ∨
  (∃ r', readInternal soft mb r = Ret (Some (Hard ErrEOF), mb, r') ∧ ar_done r' = true).
Proof.
  intros Hrd. pose proof Hrd as [Hr Ha Hdone _]. unfold readInternal.
  destruct (soft && _) eqn:E1; [left; apply andb_true_iff in E1 as [-> _]; split; [done|by exists r]|].
  rewrite Hdone. destruct (ar_readSize_spec r w rest [] [] Hrd) as (r1 & h & e & p & w1 & x & w' & -> & Hse & _ & _ & _ & Ha1 & _).
  cbn [outcome_bind]. destruct Hse as [_ _ _ Hle Hfit [[_ _ _ Hov] _] Hoh]. rewrite Hoh in Hov. cbn [length Nat.add] in Hle.
  rewrite Ha1, !wrap_small by (unfold is_uint; rewrite ?wrap_small; unfold is_uint; lia). rewrite decide_True by lia.
  right. by eexists.
Qed.

(** What is left of a stream of texts: more of them and the marker, or nothing. *)
Definition remains (r : AuthenticationReader) (ds : list bytes) : Prop :=
  (∃ w rest, reading r w rest (ds ++ [[]])) ∨ (ar_done r = true ∧ ds = []).

Lemma soft_loop_spec n mb r w rest ds : reading r w rest (ds ++ [[]]) → Forall (λ d, d ≠ []) ds →
  ∃ mb' ds1 ds2 r', soft_loop n mb r = Ret (mb ++ mb', None, r') ∧ ds = ds1 ++ ds2 ∧ Forall wf mb' ∧ content <$> mb' = ds1 ∧
    remains r' ds2.
Proof.
  revert mb r w ds. induction n as [|n IH]; intros mb r w ds Hr Hds; cbn [soft_loop].
  { exists [], [], ds, r. rewrite app_nil_r. split_all; try done. left. by eauto. }
  assert (∀ r', reading r' w rest (ds ++ [[]]) → ∃ mb' ds1 ds2 r2, @Ret (list Buffer * option frame_error * _) (mb, None, r') =
    Ret (mb ++ mb', None, r2) ∧ ds = ds1 ++ ds2 ∧ Forall wf mb' ∧ content <$> mb' = ds1 ∧ remains r2 ds2) as Hstop.
  { intros r' Hr'. exists [], [], ds, r'. rewrite app_nil_r. split_all; try done. left. by eauto. }
  destruct ds as [|d ds].
  - destruct (readInternal_marker true mb r w rest Hr) as [(_ & r' & -> & Hr')|(r' & -> & Hd)]; cbn [outcome_bind]; [by apply Hstop|].
    exists [], [], [], r'. rewrite app_nil_r. split_all; try done. by right.
  - apply Forall_cons in Hds as [Hd Hds].
    destruct (readInternal_chunk true mb r w rest d (ds ++ [[]]) Hr Hd) as [(_ & r' & -> & Hr')|(b & r' & w1 & -> & Hb & Hcb & Hr')];
      cbn [outcome_bind]; [by apply Hstop|].
    destruct (IH (mb ++ [b]) r' w1 ds Hr' Hds) as (mb' & ds1 & ds2 & r2 & -> & -> & Hw & Hc & Hrem).
    exists (b :: mb'), (d :: ds1), ds2, r2. rewrite <- app_assoc. split_all; try done; [by constructor|].
    cbn. by rewrite Hcb, <- Hc.
Qed.

Lemma auth_drains ds r : remains r ds → Forall (λ d, d ≠ []) ds →
  ∃ l r', drains (H := auth_reader) r l ErrEOF r' ∧ Forall (Forall wf) l ∧ content <$> mjoin l = ds ∧ ar_done r' = true.
Proof.
  remember (length ds) as k eqn:Hk. revert ds r Hk. induction k as [k IH] using lt_wf_ind. intros ds r -> Hrem Hds.
  destruct Hrem as [(w & rest & Hr)|[Hdone ->]].
  2: { exists [], r. split_all; try done. constructor. unfold read_mb, auth_reader, ar_ReadMultiBuffer, readInternal.
       cbn [andb]. by rewrite Hdone. }
  destruct ds as [|d ds].
  - destruct (readInternal_marker false [] r w rest Hr) as [[[=] _]|(r' & E & Hd)].
    exists [], r'. split_all; try done. constructor. unfold read_mb, auth_reader, ar_ReadMultiBuffer. by rewrite E.
  - apply Forall_cons in Hds as [Hd Hds].
    destruct (readInternal_chunk false [] r w rest d (ds ++ [[]]) Hr Hd) as [[[=] _]|(b & r' & w1 & E & Hb & Hcb & Hr')].
    destruct (soft_loop_spec 15 [b] r' w1 rest ds Hr' Hds) as (mb' & ds1 & ds2 & r2 & E2 & -> & Hw & Hc & Hrem).
    apply Forall_app in Hds as [_ Hds2].
    destruct (IH (length ds2)) with (ds := ds2) (r := r2) as (l & r3 & Hdr & Hwl & Hcl & Hd3); [cbn; rewrite length_app; lia|done..|].
    exists (([b] ++ mb') :: l), r3. split.
    { econstructor; [|done]. unfold read_mb, auth_reader, ar_ReadMultiBuffer. rewrite E. cbn [outcome_bind app]. done. }
    split; [constructor; [by constructor|done]|]. split; [|done]. change (mjoin (([b] ++ mb') :: l)) with (([b] ++ mb') ++ mjoin l).
    rewrite !fmap_app, Hc, Hcl. cbn. by rewrite Hcb.
Qed.

(** ** What the writer seals *)

Lemma seal_loop_spec fuel n mb out w : writer_ok w → Forall wf mb → contents_of mb ≠ [] → (length (contents_of mb) < fuel)%nat →
  (0 < n)%nat → Z.of_nat n + chunk_overhead w ≤ 8192 →
  ∃ out' ds x w', seal_loop fuel n mb out w = Ret (Some (out ++ out'), w') ∧ Forall wf out' ∧ contents_of out' = x ∧
    wire w ds x w' ∧ Forall (λ d, d ≠ []) ds ∧ mjoin ds = contents_of mb ∧ writer_ok w' ∧ chunk_overhead w' = chunk_overhead w.
Proof.
  revert mb out w. induction fuel as [|fuel IH]; intros mb out w Hw Hmb Hne Hf Hn Hov; [lia|]. cbn [seal_loop].
  destruct (SplitBytes_spec mb n Hmb) as (mb' & -> & Hmb' & Hc). cbn [outcome_bind].
  set (d := take n (contents_of mb)) in *. assert (d ≠ []) as Hd.
  { intros E. apply Hne. apply nil_length_inv. apply (f_equal length) in E. subst d. rewrite length_take in E. cbn in E. lia. }
  destruct (seal_spec d w Hw) as (eb & w1 & h & e & p & -> & Hwe & Hce & Hse & Hov1); [subst d; rewrite length_take; lia|].
  cbn [outcome_bind]. rewrite mb_IsEmpty_spec by done. pose proof (se_ok _ _ _ _ _ _ Hse) as Hw1. case_bool_decide as E.
  - exists [eb], [d], (h ++ e ++ p ++ []), w1. split; [done|]. split; [by apply Forall_singleton|].
    rewrite contents_of_one, Hce, app_nil_r. split; [done|]. split.
    { rewrite <- (app_nil_r p). econstructor; [done|constructor]. }
    split; [by apply Forall_singleton|]. split; [|done]. cbn. rewrite app_nil_r. rewrite <- (take_drop n (contents_of mb)), <- Hc, E.
    by rewrite app_nil_r.
  - destruct (IH mb' (out ++ [eb]) w1 Hw1 Hmb' E) as (out' & ds & x & w' & -> & Ho & Hx & Hwi & Hds & Hj & Hok & Hov2); [|done|lia|].
    { rewrite Hc, length_drop. subst d. destruct (contents_of mb); [done|]. cbn [length] in *. lia. }
    exists (eb :: out'), (d :: ds), (h ++ e ++ p ++ x), w'. rewrite <- app_assoc. split; [done|]. split; [by constructor|].
    rewrite contents_of_cons, Hce, Hx, <- !app_assoc. split; [done|]. split; [by econstructor|]. split; [by constructor|].
    split; [change (d ++ mjoin ds = contents_of mb); rewrite Hj, Hc; subst d; by rewrite take_drop|]. split; [done|congruence].
Qed.

Definition sealable (w : AuthenticationWriter) (d : bytes) : Prop := Z.of_nat (length d) + chunk_overhead w ≤ 8192.

Lemma seal_packets_spec mb out w : writer_ok w → Forall wf mb → Forall (λ b, sealable w (content b)) mb →
  ∃ out' x w', seal_packets mb out w = Ret (out ++ out', w') ∧ Forall wf out' ∧ contents_of out' = x ∧
    wire w (List.filter (λ d, bool_decide (d ≠ [])) (content <$> mb)) x w' ∧ writer_ok w' ∧ chunk_overhead w' = chunk_overhead w.
Proof.
  intros Hw Hmb. revert out w Hw. induction Hmb as [|b mb Hb Hmb IH]; intros out w Hw Hs; cbn [seal_packets].
  { exists [], [], w. rewrite app_nil_r. split_all; try done; try constructor; apply Hw. }
  apply Forall_cons in Hs as [Hsb Hs]. rewrite IsEmpty_spec by done. cbn [fmap list_fmap List.filter]. case_bool_decide as E.
  - rewrite (bool_decide_false (content b ≠ [])) by (by intros []). by apply IH.
  - rewrite (bool_decide_true (content b ≠ [])) by done. rewrite Bytes_content by done. cbn [ret_or_panic].
    destruct (seal_spec (content b) w Hw Hsb) as (eb & w1 & h & e & p & -> & Hwe & Hce & Hse & Hov1). cbn [outcome_bind].
    destruct (IH (out ++ [eb]) w1 (se_ok _ _ _ _ _ _ Hse)) as (out' & x & w' & -> & Ho & Hx & Hwi & Hok & Hov2).
    { unfold sealable. by rewrite Hov1. }
    exists (eb :: out'), (h ++ e ++ p ++ x), w'. rewrite <- app_assoc. split; [done|]. split; [by constructor|].
    rewrite contents_of_cons, Hce, Hx, <- !app_assoc. split; [done|]. split; [by econstructor|]. split; [done|congruence].
Qed.

(** Writes of multi-buffers, and of the marker at the end. *)
Fixpoint aw_writes (stream_type : bool) (mbs : list (list Buffer)) (w : AuthenticationWriter)
    : outcome (list Buffer * AuthenticationWriter) :=
  match mbs with
  | [] => Ret ([], w)
  | mb :: mbs =>
    let? (out, w) := aw_WriteMultiBuffer stream_type mb w in
    let? (more, w) := aw_writes stream_type mbs w in Ret (default [] out ++ more, w)
  end.

Lemma aw_writes_app st mbs1 mbs2 w out1 w1 out2 w2 : aw_writes st mbs1 w = Ret (out1, w1) → aw_writes st mbs2 w1 = Ret (out2, w2) →
  aw_writes st (mbs1 ++ mbs2) w = Ret (out1 ++ out2, w2).
Proof.
  revert w out1. induction mbs1 as [|mb mbs1 IH]; intros w out1; cbn [aw_writes app]; [by intros [= <- <-]|].
  destruct (aw_WriteMultiBuffer st mb w) as [[o w']| |]; try done. cbn [outcome_bind].
  destruct (aw_writes st mbs1 w') as [[o2 w'']| |] eqn:E; try done. cbn [outcome_bind]. intros [= <- <-] H2.
  rewrite (IH _ _ E H2). cbn [outcome_bind]. by rewrite app_assoc.
Qed.

Lemma write_marker st w : writer_ok w → chunk_overhead w ≤ 8192 →
  ∃ eb w' x, aw_WriteMultiBuffer st [] w = Ret (Some [eb], w') ∧ content eb = x ∧ wire w [[]] x w'.
Proof.
  intros Hw Hov. unfold aw_WriteMultiBuffer. cbn [mb_IsEmpty forallb].
  destruct (seal_spec [] w Hw) as (eb & w1 & h & e & p & -> & Hwe & Hce & Hse & _); [cbn; lia|]. cbn [outcome_bind].
  exists eb, w1, (h ++ e ++ p ++ []). split; [done|]. rewrite Hce, app_nil_r. split; [done|].
  rewrite <- (app_nil_r p). econstructor; [done|constructor].
Qed.

(** The texts that the chunks of a write carry. *)
Definition texts_of (stream_type : bool) (mbs : list (list Buffer)) (ds : list bytes) : Prop :=
  Forall (λ d, d ≠ []) ds ∧
  if stream_type then mjoin ds = mjoin (contents_of <$> mbs)
  else ds = List.filter (λ d, bool_decide (d ≠ [])) (content <$> mjoin mbs).

Definition write_ok (stream_type : bool) (w : AuthenticationWriter) (mb : list Buffer) : Prop :=
  Forall wf mb ∧ contents_of mb ≠ [] ∧ if stream_type then True else Forall (λ b, sealable w (content b)) mb.

Lemma Extend_new n : 0 ≤ n ≤ 8192 → is_Some (Extend (Buffer_New pool_array) n).
Proof.
  intros Hn. destruct (new_buffer pool_array pool_array_length) as (W0 & _ & R0).
  destruct (Extend_spec (Buffer_New pool_array) (Z.to_nat n) W0) as (b & x & E & _); [lia|].
  rewrite Z2Nat.id in E by lia. by eexists.
Qed.

Lemma aw_write_spec st mb w : writer_ok w → chunk_overhead w < 8192 → write_ok st w mb →
  ∃ out w' ds x, aw_WriteMultiBuffer st mb w = Ret (Some out, w') ∧ contents_of out = x ∧ wire w ds x w' ∧
    texts_of st [mb] ds ∧ writer_ok w' ∧ chunk_overhead w' = chunk_overhead w.
Proof.
  intros Hw Hov (Hmb & Hne & Hs). unfold aw_WriteMultiBuffer, texts_of. rewrite mb_IsEmpty_spec, bool_decide_false by done.
  destruct st.
  - unfold writeStream. cbv zeta. destruct (Extend_new (8192 - Z.of_nat (auth_Overhead (aw_auth w)) -
      Z.of_nat (SizeBytes (aw_sizes w)) - MaxPaddingLen (aw_sizes w))) as [[b x] ->].
    { unfold chunk_overhead, MaxPaddingLen in *. destruct (sz_padding _); lia. }
    cbn [ret_or_panic]. edestruct (seal_loop_spec (S (length (contents_of mb)))) as
      (out' & ds & y & w' & -> & Ho & Hx & Hwi & Hds & Hj & Hok & Hov2);
      [exact Hw|exact Hmb|exact Hne|lia| | |].
    3: { cbn [outcome_bind app]. exists out', w', ds, y. split_all; try done; try apply Hok. cbn. by rewrite app_nil_r. }
    all: unfold chunk_overhead in *; lia.
  - destruct (seal_packets_spec mb [] w Hw Hmb Hs) as (out' & x & w' & -> & Ho & Hx & Hwi & Hok & Hov2). cbn [outcome_bind app].
    rewrite mb_IsEmpty_spec by done. assert (contents_of out' ≠ []) as Hn.
    { intros E. rewrite <- Hx, E in Hwi. remember (List.filter _ _) as ds eqn:Eds. destruct ds as [|d ds].
      - apply Hne. clear -Eds. induction mb as [|b mb IH]; [done|]. cbn [fmap list_fmap List.filter] in Eds.
        case_bool_decide as Eb; [done|]. rewrite contents_of_cons. rewrite IH by done.
        by rewrite Eb.
      - inversion Hwi as [|? ? h e p w1 ? y ? Hse]; subst. destruct Hse as [_ Hh _ _ _ _ _]. destruct h; [|done]. unfold SizeBytes in Hh. destruct (sz_parser _); done. }
    rewrite bool_decide_false by done. eexists out', w', _, x. split; [done|]. split; [done|]. split; [done|].
    split; [|done]. split; [|cbn; by rewrite app_nil_r].
    apply List.Forall_forall. intros d [_ Hd]%List.filter_In. by apply bool_decide_eq_true in Hd.
Qed.

Lemma texts_cons st mb mbs ds1 ds2 : texts_of st [mb] ds1 → texts_of st mbs ds2 → texts_of st (mb :: mbs) (ds1 ++ ds2).
Proof.
  intros [H1 E1] [H2 E2]. split; [by apply Forall_app|]. destruct st.
  - rewrite join_app, E1, E2. cbn. by rewrite app_nil_r.
  - rewrite E1, E2, <- List.filter_app, <- fmap_app. cbn. by rewrite app_nil_r.
Qed.

End auth.

(** ** Examples *)

(** A connection without encryption whose sizes are masked and padded. *)
Definition plain_auth : AEADAuthenticator :=
  {| AEAD := NoOpAuthenticator; NonceGenerator := GenerateEmptyBytes; AdditionalDataGenerator := Some GenerateEmptyBytes |}.

Definition masked : sizing := {| sz_parser := ShakeSizeParser; sz_drawn := 0; sz_padding := true |}.
Definition masked_writer : AuthenticationWriter := {| aw_auth := plain_auth; aw_sizes := masked |}.
Definition zero_noise (_ n : nat) : bytes := replicate n 0.
Definition tens (i : nat) : Z := (10 * (Z.of_nat i + 1)) mod 65536.

Definition from_bytes (d : bytes) : BufferedReader source :=
  {| Reader := {| parts := [[FromBytes d]]; src_final := ErrEOF |}; br_Buffer := []; Splitter := None |}.

#[local] Instance tens_words : ShakeWords tens.
Proof. intros i. unfold is_uint, tens. apply Z.mod_pos_bound. lia. Qed.

Lemma plain_auth_ok : auth_ok plain_auth.
Proof. split; [apply _|done|done|cbn; lia]. Qed.

Definition sample_packets : list (list Buffer) := [[FromBytes (lit "ab"); FromBytes (lit "c")]].


(** A packet too large to be sealed is dropped after its padding has been drawn:
    the reader is no longer in step, and the next packet arrives with four bytes
    of padding in it. *)
Lemma dropped_packet_desyncs :
  match aw_WriteMultiBuffer tens zero_noise false [FromBytes (replicate 8192 0); FromBytes (lit "hello")] masked_writer with
  | Ret (Some out, _) =>
    match ar_ReadMultiBuffer tens (NewAuthenticationReader plain_auth masked (from_bytes (contents_of out))) with
    | Ret (mb, _, _) => content <$> mb = [lit "hello" ++ [0; 0; 0; 0]]
    | _ => False
    end
  | _ => False
  end.
Proof. by vm_compute. Qed.
