(* ===== verification/MuxStream.v ===== *)
(** The two ends of a mux session (src/upstream/xray-core/common/mux: writer.go,
    reader.go and the reading side of frame.go): the writer that puts the data of
    a session into frames, and the readers that take the data of one frame from
    the connection.  The connection is shared by the writers of all sessions, so
    it is passed to every call. *)
From S2P Require Import Prelude GoText NetIP Address Transport Frame Uuid Buf AddressParser BufAppend Mux MultiBuffer BufIO ChunkStream.

(** [protocol.TransferType]. *)
Inductive TransferType := TransferTypeStream | TransferTypePacket.

#[global] Instance TransferType_eq_dec : EqDecision TransferType.
Proof. solve_decision. Defined.

(** The errors of this package that are not those of a reader or a writer. *)
Definition errFrame : frame_error := ErrIO 2.

(** ** The writer *)

(** [Writer], without the connection it writes to. *)
Record MuxWriter := {
  mw_dest : Destination;
  mw_id : Z;
  followup : bool;
  hasError : bool;
  mw_type : TransferType;
  globalID : bytes
}.

Definition no_destination : Destination := {| dest_Address := None; dest_Port := 0; dest_Network := Network_Unknown |}.

Definition NewWriter (id : Z) (dest : Destination) (ty : TransferType) (gid : bytes) : MuxWriter :=
  {| mw_dest := dest; mw_id := id; followup := false; hasError := false; mw_type := ty; globalID := gid |}.

Definition NewResponseWriter (id : Z) (ty : TransferType) : MuxWriter :=
  {| mw_dest := no_destination; mw_id := id; followup := true; hasError := false; mw_type := ty;
     globalID := replicate 8 0 |}.

Definition set_hasError (w : MuxWriter) : MuxWriter :=
  {| mw_dest := mw_dest w; mw_id := mw_id w; followup := followup w; hasError := true; mw_type := mw_type w;
     globalID := globalID w |}.

Definition getNextFrameMeta (w : MuxWriter) : FrameMetadata * MuxWriter :=
  ({| Target := mw_dest w; SessionID := mw_id w; Option_ := 0;
      SessionStatus := if followup w then SessionStatusKeep else SessionStatusNew; GlobalID := globalID w |},
   {| mw_dest := mw_dest w; mw_id := mw_id w; followup := true; hasError := hasError w; mw_type := mw_type w;
      globalID := globalID w |}).

Definition set_option (o : Z) (f : FrameMetadata) : FrameMetadata :=
  {| Target := Target f; SessionID := SessionID f; Option_ := bitmask_Set (Option_ f) o;
     SessionStatus := SessionStatus f; GlobalID := GlobalID f |}.

Definition with_UDP (u : option Destination) (b : Buffer) : Buffer :=
  {| v := v b; start := start b; end_ := end_ b; unmanaged := unmanaged b; UDP := u |}.

(** The source of the packet, when the data is one buffer. *)
Definition data_UDP (data : list Buffer) : option Destination :=
  match data with [b] => UDP b | _ => None end.

Section Writer.
Context {W : Type} `{BufWriter W}.

Definition writeMetaOnly (w : MuxWriter) (out : W) : outcome (MuxWriter * W * option frame_error) :=
  let '(meta, w) := getNextFrameMeta w in
  match WriteTo meta (Buffer_New pool_array) with
  | Panic => Panic
  | Fail => Ret (w, out, Some errFrame)
  | Ret b => let '(out, err) := write_mb out [b] in Ret (w, out, err)
  end.

Definition writeMetaWithFrame (meta : FrameMetadata) (data : list Buffer) (out : W) : outcome (W * option frame_error) :=
  match WriteTo meta (with_UDP (data_UDP data) (Buffer_New pool_array)) with
  | Panic => Panic
  | Fail => Ret (out, Some errFrame)
  | Ret frame =>
    let? frame := write_all frame (be_bytes 2 (u16 (mb_Len data))) in
    Ret (write_mb out (frame :: data))
  end.

Definition writeData (mb : list Buffer) (w : MuxWriter) (out : W) : outcome (MuxWriter * W * option frame_error) :=
  let '(meta, w) := getNextFrameMeta w in
  let? (out, err) := writeMetaWithFrame (set_option OptionData meta) mb out in Ret (w, out, err).

(** The chunk that goes into the next frame, and the rest. *)
Definition next_chunk (ty : TransferType) (mb : list Buffer) : outcome (list Buffer * list Buffer) :=
  match ty with
  | TransferTypeStream => SplitSize pool_array mb 8192
  | TransferTypePacket => match SplitFirst mb with (mb, Some b) => Ret (mb, [b]) | (_, None) => Panic end
  end.

(** The loop of [WriteMultiBuffer]; every round uses up a buffer or a byte. *)
Fixpoint frame_loop (fuel : nat) (mb : list Buffer) (w : MuxWriter) (out : W)
    : outcome (MuxWriter * W * option frame_error) :=
  if mb_IsEmpty mb then Ret (w, out, None)
  else
    match fuel with
    | O => Panic
    | S fuel =>
      let? (mb, chunk) := next_chunk (mw_type w) mb in
      let? (w, out, err) := writeData chunk w out in
      match err with Some e => Ret (w, out, Some e) | None => frame_loop fuel mb w out end
    end.

Definition mux_WriteMultiBuffer (mb : list Buffer) (w : MuxWriter) (out : W)
    : outcome (MuxWriter * W * option frame_error) :=
  if mb_IsEmpty mb then writeMetaOnly w out else frame_loop (pieces mb) mb w out.

(** [Writer.Close]; a write that fails is not reported. *)
Definition mux_Close (w : MuxWriter) (out : W) : outcome W :=
  let meta := {| Target := no_destination; SessionID := mw_id w; Option_ := 0; SessionStatus := SessionStatusEnd;
                 GlobalID := replicate 8 0 |} in
  let meta := if hasError w then set_option OptionError meta else meta in
  match WriteTo meta (Buffer_New pool_array) with
  | Ret frame => Ret (write_mb out [frame]).1
  | _ => Panic
  end.
End Writer.

(** ** The readers *)

(** [FrameMetadata.Unmarshal] on a buffered reader. *)
Definition br_Unmarshal (f : FrameMetadata) (r : BufferedReader source)
    : outcome (result frame_error FrameMetadata * BufferedReader source) :=
  let? (d, r) := br_ReadFull 2 r in
  match d with
  | Err e => Ret (Err e, r)
  | Ok b =>
    let metaLen := be_val b in
    if decide (512 < metaLen) then Ret (Err errFrame, r)
    else
      let? (b, r) := br_ReadFullFrom (Buffer_New pool_array) metaLen r in
      match b with
      | Err (BufReadError e) => Ret (Err e, r)
      | Err BufOutOfBound => Ret (Err errFrame, r)
      | Ok b =>
        ret_or_panic (Bytes b) (λ c,
        match UnmarshalFromBuffer f c with
        | Ret f => Ret (Ok f, r)
        | Fail => Ret (Err errFrame, r)
        | Panic => Panic
        end)
      end
  end.

Record PacketReader := {
  pr_reader : BufferedReader source;
  eof : bool;
  pr_dest : option Destination
}.

Definition NewPacketReader (r : BufferedReader source) (dest : option Destination) : PacketReader :=
  {| pr_reader := r; eof := false; pr_dest := dest |}.

Definition with_pr (r : BufferedReader source) (e : bool) (p : PacketReader) : PacketReader :=
  {| pr_reader := r; eof := e; pr_dest := pr_dest p |}.

Definition pr_ReadMultiBuffer (p : PacketReader) : outcome (list Buffer * option frame_error * PacketReader) :=
  if eof p then Ret ([], Some ErrEOF, p)
  else
    let? (d, r) := br_ReadFull 2 (pr_reader p) in
    match d with
    | Err e => Ret ([], Some e, with_pr r false p)
    | Ok b =>
      let size := be_val b in
      if decide (8192 < size) then Ret ([], Some errFrame, with_pr r false p)
      else
        let? (b, r) := br_ReadFullFrom (Buffer_New pool_array) size r in
        match b with
        | Err (BufReadError e) => Ret ([], Some e, with_pr r false p)
        | Err BufOutOfBound => Ret ([], Some errFrame, with_pr r false p)
        | Ok b =>
          let u := match pr_dest p with
                   | Some d => if decide (dest_Network d = Network_UDP) then Some d else UDP b
                   | None => UDP b
                   end in
          Ret ([with_UDP u b], None, with_pr r true p)
        end
    end.

#[global] Instance packet_reader : BufReader PacketReader := pr_ReadMultiBuffer.

(** The sizes of mux frames are neither masked nor padded. *)
Definition plain_sizes : sizing := {| sz_parser := PlainChunkSizeParser; sz_drawn := 0; sz_padding := false |}.
Definition no_shake (_ : nat) : Z := 0.

Definition NewStreamReader (r : BufferedReader source) : ChunkStreamReader :=
  NewChunkStreamReaderWithChunkCount plain_sizes r 1.

#[global] Instance stream_reader : BufReader ChunkStreamReader := cs_ReadMultiBuffer no_shake.

(** The rounds that suffice for a copy from what the reader holds. *)
Definition copy_fuel (r : BufferedReader source) : nat := S (S (weight r)).

(** ** What a frame is on the wire *)

(** The data of a frame that carries some, behind its size. *)
Definition data_bytes (data : option bytes) : bytes :=
  match data with Some d => be_bytes 2 (Z.of_nat (length d)) ++ d | None => [] end.

Definition frame_bytes (f : FrameMetadata) (udp : option Destination) (data : option bytes) : bytes :=
  be_bytes 2 (Z.of_nat (length (meta_bytes f udp))) ++ meta_bytes f udp ++ data_bytes data.

(** A writer whose next frame can be written. *)
Record writer_ok (w : MuxWriter) : Prop := {
  wr_id : is_uint 16 (mw_id w);
  wr_global : length (globalID w) = 8%nat;
  wr_dest : followup w = false →
    endpoint_wire (mw_dest w) ∧ (dest_Network (mw_dest w) = Network_TCP ∨ dest_Network (mw_dest w) = Network_UDP)
}.

(** The source of every packet can be written as well. *)
Definition sourced (mb : list Buffer) : Prop := Forall (λ b, ∀ u, UDP b = Some u → endpoint_wire u) mb.

Lemma new_frame_ok w o udp : writer_ok w → (∀ u, udp = Some u → endpoint_wire u) →
  frame_ok (set_option o (getNextFrameMeta w).1) udp.
Proof.
  intros [Hid Hg Hd] Hu. split; cbn; [done|done| |done]. destruct (followup w); [done|]. intros _. by apply Hd.
Qed.

Lemma writer_ok_next w : writer_ok w → writer_ok (getNextFrameMeta w).2.
Proof. intros [Hid Hg Hd]. by split. Qed.

Lemma response_writer_ok id ty : is_uint 16 id → writer_ok (NewResponseWriter id ty).
Proof. by split. Qed.

Lemma with_UDP_new u : wf (with_UDP u (Buffer_New pool_array)) ∧ content (with_UDP u (Buffer_New pool_array)) = [] ∧
  Z.of_nat (room (with_UDP u (Buffer_New pool_array))) = 8192.
Proof. destruct (new_buffer pool_array pool_array_length) as ([? ? ?] & ? & ?). by repeat split. Qed.

Lemma WriteTo_wire f udp : frame_ok f udp →
  ∃ b, WriteTo f (with_UDP udp (Buffer_New pool_array)) = Ret b ∧ wf b ∧ content b = frame_bytes f udp None ∧
    (2 ≤ room b)%nat.
Proof.
  intros Hf. destruct (with_UDP_new udp) as (W0 & C0 & R0). pose proof (length_meta_bytes _ _ Hf) as Hl.
  destruct (WriteTo_spec f (with_UDP udp (Buffer_New pool_array))) as (b & E & HA); [done|done|lia|].
  cbn [with_UDP UDP] in HA. exists b. split; [done|]. destruct HA as [W C R _ _]. rewrite C0 in C.
  split; [done|]. unfold frame_bytes, data_bytes. rewrite app_nil_r. split; [done|].
  rewrite length_app, be_bytes_length in R. lia.
Qed.

Section writes.
Context {W : Type} `{BufWriter W} (live : W → Prop) (sink : W → list (list Buffer)) `{!LiveWriter live sink}.

(** The bytes [x] have been put on the wire. *)
Record emitted (out : W) (x : bytes) (out' : W) : Prop := {
  em_live : live out';
  em_sink : ∃ mbs, sink out' = sink out ++ mbs ∧ Forall (Forall wf) mbs ∧ mjoin (contents_of <$> mbs) = x
}.

Lemma emitted_nil out : live out → emitted out [] out.
Proof. intros Ho. split; [done|]. exists []. by rewrite app_nil_r. Qed.

Lemma emitted_trans o1 x1 o2 x2 o3 : emitted o1 x1 o2 → emitted o2 x2 o3 → emitted o1 (x1 ++ x2) o3.
Proof.
  intros [L1 (m1 & S1 & F1 & J1)] [L2 (m2 & S2 & F2 & J2)]. split; [done|]. exists (m1 ++ m2).
  rewrite S2, S1, <- app_assoc, fmap_app, join_app, J1, J2, Forall_app. done.
Qed.

Lemma emit_one out mb : live out → Forall wf mb →
  ∃ out', write_mb out mb = (out', None) ∧ emitted out (contents_of mb) out'.
Proof using Type*.
  intros Ho Hw. destruct (live_write out mb Ho) as (out' & E & Hl & Hs). exists out'. split; [done|]. split; [done|].
  exists [mb]. split; [done|]. split; [by constructor|]. cbn. by rewrite app_nil_r.
Qed.

Lemma writeMetaOnly_spec w out : writer_ok w → live out →
  ∃ out', writeMetaOnly w out = Ret ((getNextFrameMeta w).2, out', None) ∧
    emitted out (frame_bytes (getNextFrameMeta w).1 None None) out'.
Proof using Type*.
  intros Hw Ho. unfold writeMetaOnly. pose proof (new_frame_ok w 0 None Hw ltac:(done)) as Hf.
  replace (set_option 0 (getNextFrameMeta w).1) with (getNextFrameMeta w).1 in Hf
    by (unfold set_option, bitmask_Set; by destruct (followup w)).
  destruct (WriteTo_wire _ _ Hf) as (b & E & Hb & Hc & _). destruct (getNextFrameMeta w) as [meta w'] eqn:Em. cbn [fst snd] in *.
  change (with_UDP None (Buffer_New pool_array)) with (Buffer_New pool_array) in E. rewrite E.
  destruct (emit_one out [b] Ho) as (out' & -> & He); [by constructor|]. exists out'. split; [done|].
  by rewrite contents_of_one, Hc in He.
Qed.

Definition data_meta (w : MuxWriter) : FrameMetadata := set_option OptionData (getNextFrameMeta w).1.

Lemma data_UDP_sourced data u : sourced data → data_UDP data = Some u → endpoint_wire u.
Proof. unfold sourced. destruct data as [|b [|]]; cbn [data_UDP]; try done. rewrite Forall_singleton. auto. Qed.

Lemma writeData_spec data w out : writer_ok w → live out → Forall wf data → sourced data →
  Z.of_nat (length (contents_of data)) ≤ 8192 →
  ∃ out', writeData data w out = Ret ((getNextFrameMeta w).2, out', None) ∧
    emitted out (frame_bytes (data_meta w) (data_UDP data) (Some (contents_of data))) out'.
Proof using Type*.
  intros Hw Ho Hd Hu Hl. unfold writeData, writeMetaWithFrame, data_meta.
  pose proof (new_frame_ok w OptionData (data_UDP data) Hw (λ u, data_UDP_sourced data u Hu)) as Hf.
  destruct (getNextFrameMeta w) as [meta w'] eqn:Em. cbn [fst snd] in *.
  destruct (WriteTo_wire _ _ Hf) as (b & -> & Hb & Hc & Hr). rewrite mb_Len_spec by (done || lia).
  rewrite wrap_small by (unfold is_uint; lia).
  destruct (write_all_spec b (be_bytes 2 (Z.of_nat (length (contents_of data)))) Hb) as (b' & -> & HA);
    [rewrite be_bytes_length; lia|]. cbn [outcome_bind].
  destruct (emit_one out (b' :: data) Ho) as (out' & -> & He); [by constructor; [apply HA|]|]. cbn [outcome_bind].
  exists out'. split; [done|]. rewrite contents_of_cons, (app_content _ _ _ HA), Hc in He.
  unfold frame_bytes, data_bytes in *. rewrite app_nil_r, <- !app_assoc in He. done.
Qed.

(** *** A multi-buffer in frames *)

(** A frame with the source of its packet and its data. *)
Record mux_frame := { fr_meta : FrameMetadata; fr_udp : option Destination; fr_data : option bytes }.

Definition fr_bytes (f : mux_frame) : bytes := frame_bytes (fr_meta f) (fr_udp f) (fr_data f).

Definition wire (fs : list mux_frame) : bytes := mjoin (fr_bytes <$> fs).

Definition after_frame (w : MuxWriter) : MuxWriter := (getNextFrameMeta w).2.

Definition chunk_frame (w : MuxWriter) (c : list Buffer) : mux_frame :=
  {| fr_meta := data_meta w; fr_udp := data_UDP c; fr_data := Some (contents_of c) |}.

Fixpoint chunk_frames (w : MuxWriter) (cs : list (list Buffer)) : list mux_frame :=
  match cs with [] => [] | c :: cs => chunk_frame w c :: chunk_frames (after_frame w) cs end.

(** How a transfer type cuts a multi-buffer up: into whole buffers one by one,
    or into runs of buffers of at most 8192 bytes that are not all empty;
    nothing but empty buffers is left out. *)
Record cut (ty : TransferType) (mb : list Buffer) (cs : list (list Buffer)) : Prop := {
  cut_all : ∃ dropped, mb = mjoin cs ++ dropped ∧ contents_of dropped = [];
  cut_size : Forall (λ c, Z.of_nat (length (contents_of c)) ≤ 8192) cs;
  cut_packet : ty = TransferTypePacket → Forall (λ c, length c = 1%nat) cs;
  cut_stream : ty = TransferTypeStream → Forall (λ c, contents_of c ≠ []) cs
}.

Lemma split_whole_app mb total size rest r : split_whole total size mb = (rest, r) → mb = r ++ rest.
Proof.
  revert total rest r. induction mb as [|b mb IH]; intros total rest r; cbn [split_whole]; [by intros [= <- <-]|].
  case_decide; [by intros [= <- <-]|]. destruct (split_whole _ size mb) as [rest' r'] eqn:E. intros [= <- <-].
  cbn [app]. f_equal. by eapply IH.
Qed.

Lemma SplitSize_app mb rest r : mb_ok mb → SplitSize pool_array mb 8192 = Ret (rest, r) → mb = r ++ rest.
Proof.
  intros (Hw & Hs & _). destruct mb as [|b mb]; cbn [SplitSize]; [by intros [= <- <-]|].
  apply Forall_cons in Hs as [Hb _]. apply Forall_cons in Hw as [Hwb _]. rewrite Len_content by done.
  rewrite decide_False by lia. intros [= E]. by eapply split_whole_app.
Qed.

Lemma mb_ok_app mb1 mb2 : mb_ok (mb1 ++ mb2) → mb_ok mb1 ∧ mb_ok mb2.
Proof.
  intros (Hw & Hs & Hl). unfold mb_ok, small_buffers in *. rewrite Forall_app in Hw, Hs.
  rewrite contents_of_app, length_app in Hl. destruct Hw, Hs. split; (split; [done|]; split; [done|lia]).
Qed.

Lemma next_chunk_spec ty mb : mb_ok mb → contents_of mb ≠ [] →
  ∃ rest c, next_chunk ty mb = Ret (rest, c) ∧ mb = c ++ rest ∧ c ≠ [] ∧ Z.of_nat (length (contents_of c)) ≤ 8192 ∧
    (ty = TransferTypePacket → length c = 1%nat) ∧ (ty = TransferTypeStream → contents_of c ≠ []).
Proof.
  intros Hmb Hne. destruct ty; cbn [next_chunk].
  - destruct (SplitSize_ok mb 8192 Hmb ltac:(lia)) as (rest & c & E & _ & _ & _ & Hsz & _). exists rest, c.
    split; [done|]. pose proof (split_nonempty mb rest c Hmb Hne E) as Hc.
    split; [by apply SplitSize_app|]. split; [by intros ->|]. by split.
  - destruct mb as [|b mb]; [done|]. cbn [SplitFirst]. exists mb, [b]. destruct Hmb as (_ & [Hb _]%Forall_cons_1 & _).
    rewrite contents_of_one. by split.
Qed.

Lemma frame_loop_spec fuel mb w : mb_ok mb → sourced mb → writer_ok w → (length mb ≤ fuel)%nat →
  ∃ cs, cut (mw_type w) mb cs ∧ ∀ out, live out →
    ∃ out', frame_loop fuel mb w out = Ret (foldl (λ w _, after_frame w) w cs, out', None) ∧
      emitted out (wire (chunk_frames w cs)) out'.
Proof using Type*.
  revert mb w. induction fuel as [|fuel IH]; intros mb w Hmb Hu Hw Hf; cbn [frame_loop];
    rewrite (mb_ok_empty mb Hmb); case_bool_decide as E.
  1, 3: exists []; (split; [split; [by exists mb|constructor..]|]); intros out Ho; exists out; (split; [done|by apply emitted_nil]).
  { destruct mb; [done|cbn in Hf; lia]. }
  destruct (next_chunk_spec (mw_type w) mb Hmb E) as (rest & c & -> & -> & Hne & Hsz & Hp & Hs). cbn [outcome_bind].
  apply mb_ok_app in Hmb as [Hc Hrest]. apply Forall_app in Hu as [Huc Hur].
  destruct (IH rest (after_frame w) Hrest Hur (writer_ok_next w Hw)) as (cs & [(dr & -> & Hdr) Ha2 Ha3 Ha4] & He').
  { rewrite length_app in Hf. destruct c; [done|cbn in Hf; lia]. }
  exists (c :: cs). split; [split|].
  - exists dr. split; [|done]. cbn. by rewrite <- app_assoc.
  - by constructor.
  - intros Ht. constructor; [by apply Hp|by apply Ha3].
  - intros Ht. constructor; [by apply Hs|by apply Ha4].
  - intros out Ho. destruct (writeData_spec c w out Hw Ho ltac:(apply Hc) Huc Hsz) as (out1 & -> & He). cbn [outcome_bind].
    fold (after_frame w). destruct (He' out1 (em_live _ _ _ He)) as (out' & -> & He2). exists out'. split; [done|].
    by apply (emitted_trans out _ out1).
Qed.

(** The frame of a writer that has nothing to write. *)
Definition meta_frame (w : MuxWriter) : mux_frame :=
  {| fr_meta := (getNextFrameMeta w).1; fr_udp := None; fr_data := None |}.

(** What a session writes is one frame without data, when there is nothing to
    write, or the data cut into frames. *)
Lemma mux_WriteMultiBuffer_spec mb w : mb_ok mb → sourced mb → writer_ok w →
  ∃ cs, cut (mw_type w) mb cs ∧ ∀ out, live out →
    ∃ out', mux_WriteMultiBuffer mb w out =
        Ret (if mb_IsEmpty mb then after_frame w else foldl (λ w _, after_frame w) w cs, out', None) ∧
      emitted out (wire (if mb_IsEmpty mb then [meta_frame w] else chunk_frames w cs)) out'.
Proof using Type*.
  intros Hmb Hu Hw. unfold mux_WriteMultiBuffer. destruct (mb_IsEmpty mb) eqn:E.
  - exists []. split.
    + rewrite mb_ok_empty in E by done. apply bool_decide_eq_true in E. split; [by exists mb|constructor..].
    + intros out Ho. destruct (writeMetaOnly_spec w out Hw Ho) as (out' & -> & He). exists out'. split; [done|].
      by unfold wire, fr_bytes; cbn; rewrite app_nil_r.
  - destruct (frame_loop_spec (pieces mb) mb w Hmb Hu Hw) as (cs & Hcut & He); [unfold pieces; lia|]. by exists cs.
Qed.

Definition end_frame (w : MuxWriter) : mux_frame :=
  {| fr_meta := {| Target := no_destination; SessionID := mw_id w; Option_ := if hasError w then OptionError else 0;
                   SessionStatus := SessionStatusEnd; GlobalID := replicate 8 0 |};
     fr_udp := None; fr_data := None |}.

Lemma mux_Close_spec w out : writer_ok w → live out →
  ∃ out', mux_Close w out = Ret out' ∧ emitted out (fr_bytes (end_frame w)) out'.
Proof using Type*.
  intros [Hid _ _] Ho. unfold mux_Close. cbv zeta.
  assert (frame_ok (fr_meta (end_frame w)) None) as Hf by (by split).
  destruct (WriteTo_wire _ _ Hf) as (b & E & Hb & Hc & _). cbn [fr_meta end_frame] in *.
  change (with_UDP None (Buffer_New pool_array)) with (Buffer_New pool_array) in E.
  unfold set_option, bitmask_Set. cbn [Target SessionID Option_ SessionStatus GlobalID].
  change (Z.lor 0 OptionError) with OptionError.
  destruct (emit_one out [b] Ho) as (out' & Eo & He); [by constructor|]. exists out'.
  rewrite contents_of_one, Hc in He. unfold fr_bytes, end_frame. cbn [fr_meta fr_udp fr_data].
  destruct (hasError w); rewrite E, Eo; done.
Qed.
End writes.

(** ** Reading a frame *)

(** What comes next on a connection. *)
Record holds (r : BufferedReader source) (x : bytes) : Prop := {
  h_ok : br_ok r;
  h_contents : contents (as_stream r) = x
}.

(** [r'] is [r] with some bytes less. *)
Record advanced (r r' : BufferedReader source) : Prop := {
  adv_final : final (as_stream r') = final (as_stream r);
  adv_weight : (weight r' ≤ weight r)%nat
}.

Lemma advanced_trans r1 r2 r3 : advanced r1 r2 → advanced r2 r3 → advanced r1 r3.
Proof. intros [] []. split; [congruence|lia]. Qed.

Lemma ReadUint16_spec r x rest : holds r (be_bytes 2 x ++ rest) → is_uint 16 x →
  ∃ b r', br_ReadFull 2 r = Ret (Ok b, r') ∧ be_val b = x ∧ holds r' rest ∧ advanced r r'.
Proof.
  intros [Hr Hc] Hx. destruct (br_ReadFull_enough r _ _ 2 Hr Hc) as (r' & -> & Hr' & Hc' & Hf & Hw); [done|].
  exists (be_bytes 2 x), r'. split; [done|]. unfold is_uint in Hx. by rewrite be_val_be_bytes.
Qed.

Lemma br_Unmarshal_spec f udp f0 r rest : frame_ok f udp → holds r (frame_bytes f udp None ++ rest) →
  ∃ r', br_Unmarshal f0 r = Ret (Ok (received f udp f0), r') ∧ holds r' rest ∧ advanced r r'.
Proof.
  intros Hf Hr. pose proof (length_meta_bytes _ _ Hf) as Hl. set (m := meta_bytes f udp) in *.
  unfold frame_bytes, data_bytes in Hr. rewrite app_nil_r, <- app_assoc in Hr. fold m in Hr.
  unfold br_Unmarshal. destruct (ReadUint16_spec _ _ _ Hr) as (b & r1 & -> & Hv & [Hr1 Hc1] & [Hf1 Hw1]);
    [unfold is_uint; lia|]. cbn [outcome_bind]. cbv zeta. rewrite Hv, decide_False by lia.
  destruct (new_buffer pool_array pool_array_length) as (W0 & C0 & R0).
  destruct (br_ReadFullFrom_spec _ r1 m rest (Z.of_nat (length m)) W0 Hr1 Hc1 eq_refl ltac:(lia))
    as (b2 & r2 & -> & HA & Hr2 & Hc2 & Hf2 & Hw2). cbn [outcome_bind].
  rewrite Bytes_content by apply HA. cbn [ret_or_panic]. rewrite (app_content _ _ _ HA), C0. cbn [app].
  exists r2. split; [|split; [done|split; [congruence|lia]]].
  destruct (decide (SessionStatus f = SessionStatusNew)); unfold m;
    [by rewrite Unmarshal_new|by rewrite Unmarshal_other].
Qed.

(** The source that a packet reader notes on a packet. *)
Definition packet_source (dest : option Destination) : option Destination :=
  u ← dest; if decide (dest_Network u = Network_UDP) then Some u else None.

Lemma packet_read r d dest rest : holds r (data_bytes (Some d) ++ rest) → Z.of_nat (length d) ≤ 8192 →
  ∃ b r', read_mb (NewPacketReader r dest) = Ret ([b], None, with_pr r' true (NewPacketReader r dest)) ∧ wf b ∧ content b = d ∧
    UDP b = packet_source dest ∧
    holds r' rest ∧ advanced r r'.
Proof.
  intros Hr Hl. unfold data_bytes in Hr. rewrite <- app_assoc in Hr.
  destruct (ReadUint16_spec _ _ _ Hr) as (x & r1 & E1 & Hv & [Hr1 Hc1] & [Hf1 Hw1]); [unfold is_uint; lia|].
  destruct (new_buffer pool_array pool_array_length) as (W0 & C0 & R0).
  destruct (br_ReadFullFrom_spec _ r1 d rest (Z.of_nat (length d)) W0 Hr1 Hc1 eq_refl ltac:(lia))
    as (b & r2 & E2 & HA & Hr2 & Hc2 & Hf2 & Hw2). pose proof HA as [[? ? ?] Hcb _ HU _].
  exists (with_UDP (packet_source dest) b), r2. split; [|split; [by split|split; [|split; [done|]]]].
  - unfold read_mb, packet_reader, pr_ReadMultiBuffer. cbn [NewPacketReader eof pr_reader pr_dest].
    rewrite E1. cbn [outcome_bind]. cbv zeta. rewrite Hv, decide_False, E2 by lia. cbn [outcome_bind].
    rewrite HU. cbn [Buffer_New UDP]. unfold packet_source. destruct dest as [u|]; [|done]. cbn [mbind option_bind].
    by case_decide.
  - change (content b = d). by rewrite Hcb, C0.
  - split; [done|]. split; [congruence|lia].
Qed.

Lemma packet_reads r d dest rest : holds r (data_bytes (Some d) ++ rest) → Z.of_nat (length d) ≤ 8192 →
  ∃ b r', drains (NewPacketReader r dest) [[b]] ErrEOF (with_pr r' true (NewPacketReader r dest)) ∧ wf b ∧ content b = d ∧
    UDP b = packet_source dest ∧ holds r' rest ∧ advanced r r'.
Proof.
  intros Hr Hl. destruct (packet_read r d dest rest Hr Hl) as (b & r' & E & Hrest). exists b, r'. split; [|done].
  apply (drains_step _ _ (with_pr r' true (NewPacketReader r dest))); [done|by constructor].
Qed.

Lemma stream_reads r d rest : holds r (data_bytes (Some d) ++ rest) → Z.of_nat (length d) < 65536 →
  ∃ l c, drains (NewStreamReader r) l ErrEOF c ∧ Forall (Forall wf) l ∧ mjoin (contents_of <$> l) = d ∧
    holds (cs_reader c) rest ∧ advanced r (cs_reader c) ∧ (length l ≤ weight r)%nat.
Proof.
  intros [Hr Hc] Hl. unfold data_bytes in Hc. rewrite <- app_assoc in Hc.
  assert (ShakeWords no_shake) as Hsw by (intros i; split; unfold no_shake; lia).
  assert (ready (NewStreamReader r)) as Hready by (split; [done|done|exact I|right; vm_compute; discriminate]).
  assert (Encode no_shake (Z.of_nat (length d)) (sizeDecoder (NewStreamReader r)) =
    Ret (be_bytes 2 (Z.of_nat (length d)), plain_sizes)) as He by done.
  destruct (decide (d = [])) as [->|Hd].
  - destruct (drains_marker no_shake (NewStreamReader r) _ _ rest Hready He Hc) as (c & Hdr & Hcc & _ & Hok & Hw & Hf).
    exists [], c. split; [exact Hdr|]. split; [constructor|]. split; [done|]. split; [done|]. split; [done|]. cbn. lia.
  - destruct (reads_chunk no_shake (NewStreamReader r) d _ _ rest Hready Hd Hl He Hc)
      as (l & c & Hrd & Hwf & Hj & Hcc & Hok & Hleft & _ & Hmax & Hnum & Hf & Hw).
    exists l, (counted c). split.
    { rewrite <- (app_nil_r l). eapply reads_drains; [exact Hrd|]. apply (drains_limit no_shake); [done|].
      rewrite Hmax, Hnum. vm_compute. by split. }
    split; [done|]. split; [done|]. split; [done|]. split; [split; [done|]|]; unfold cs_weight in Hw; cbn in Hw |- *; lia.
Qed.
