(* ===== verification/MuxSession.v ===== *)
(** Sessions of the mux protocol (src/upstream/xray-core/common/mux/session.go):
    the table of a connection, the sessions themselves, and the table of UDP
    sessions that outlive the connection they came in on.  Sessions, links and
    UDP entries are shared objects and live in a store of their own each; a
    pointer is an index. *)
From stdpp Require Import gmap.
From S2P Require Import Prelude GoText NetIP Address Transport Frame Uuid Buf AddressParser BufAppend Mux MultiBuffer BufIO ChunkStream MuxStream.

(** ** Data *)

Record SessionManager := {
  sm_sessions : gmap Z nat;
  count : Z;
  sm_closed : bool
}.

(** [input] and [output] are always the two ends of one link; a session that is
    being set up has none yet. *)
Record Session := {
  s_link : option nat;
  s_parent : nat;
  s_ID : Z;
  s_type : TransferType;
  s_closed : bool;
  s_XUDP : option nat
}.

Inductive xudp_status := Initializing | Active | Expiring.

#[global] Instance xudp_status_eq_dec : EqDecision xudp_status.
Proof. solve_decision. Defined.

Record XUDP := {
  x_GlobalID : bytes;
  x_Status : xudp_status;
  x_Expire : Z;
  x_Mux : option nat
}.

(** [transport.Link] as a session uses it: its writer, its reader, and what
    closing the one and interrupting the other does.  [link_detach] is
    [ReturnAnError(io.EOF)] and [Recover] on a reader that is a pipe. *)
Class Link (L : Type) := {
  link_writer :: BufWriter L;
  link_reader :: BufReader L;
  link_close : L → L;
  link_interrupt : L → L;
  link_detach : L → L
}.

(** ** SessionManager *)

Definition NewSessionManager : SessionManager := {| sm_sessions := ∅; count := 0; sm_closed := false |}.

Definition sm_Size (m : SessionManager) : Z := Z.of_nat (size (sm_sessions m)).

(** [Allocate]: the session with the next number, at the address [p]. *)
Definition Allocate (p : nat) (m : SessionManager) : option Z * SessionManager :=
  if sm_closed m then (None, m)
  else
    let c := u16 (count m + 1) in
    (Some c, {| sm_sessions := <[c := p]> (sm_sessions m); count := c; sm_closed := false |}).

Definition Add (id : Z) (p : nat) (m : SessionManager) : bool * SessionManager :=
  if sm_closed m then (false, m)
  else (true, {| sm_sessions := <[id := p]> (sm_sessions m); count := u16 (count m + 1); sm_closed := false |}).

Definition Remove (id : Z) (m : SessionManager) : SessionManager :=
  if sm_closed m then m
  else {| sm_sessions := delete id (sm_sessions m); count := count m; sm_closed := false |}.

Definition Get (id : Z) (m : SessionManager) : option nat :=
  if sm_closed m then None else sm_sessions m !! id.

Definition CloseIfNoSession (m : SessionManager) : bool * SessionManager :=
  if sm_closed m then (true, m)
  else if decide (size (sm_sessions m) = 0%nat) then
    (true, {| sm_sessions := sm_sessions m; count := count m; sm_closed := true |})
  else (false, m).

(** ** The store *)

Section store.
Context {L : Type} `{Link L}.

(** The tables of all connections, by the number of the connection. *)
Record store := {
  st_sessions : list Session;
  st_managers : list SessionManager;
  st_links : list L;
  st_xudps : list XUDP;
  st_map : gmap bytes nat;
  st_now : Z
}.

Definition on_sessions (f : list Session → list Session) (w : store) : store :=
  {| st_sessions := f (st_sessions w); st_managers := st_managers w; st_links := st_links w; st_xudps := st_xudps w;
     st_map := st_map w; st_now := st_now w |}.

Definition on_manager (k : nat) (f : SessionManager → SessionManager) (w : store) : store :=
  {| st_sessions := st_sessions w; st_managers := alter f k (st_managers w); st_links := st_links w;
     st_xudps := st_xudps w; st_map := st_map w; st_now := st_now w |}.

Definition on_links (f : list L → list L) (w : store) : store :=
  {| st_sessions := st_sessions w; st_managers := st_managers w; st_links := f (st_links w); st_xudps := st_xudps w;
     st_map := st_map w; st_now := st_now w |}.

Definition on_xudps (f : list XUDP → list XUDP) (w : store) : store :=
  {| st_sessions := st_sessions w; st_managers := st_managers w; st_links := st_links w; st_xudps := f (st_xudps w);
     st_map := st_map w; st_now := st_now w |}.

Definition on_map (f : gmap bytes nat → gmap bytes nat) (w : store) : store :=
  {| st_sessions := st_sessions w; st_managers := st_managers w; st_links := st_links w; st_xudps := st_xudps w;
     st_map := f (st_map w); st_now := st_now w |}.

Definition on_link (l : option nat) (f : L → L) (w : store) : store :=
  match l with Some l => on_links (alter f l) w | None => w end.

Definition close_session (s : Session) : Session :=
  {| s_link := s_link s; s_parent := s_parent s; s_ID := s_ID s; s_type := s_type s; s_closed := true; s_XUDP := s_XUDP s |}.

(** The end of an entry that was in use: it may be taken up again for a minute. *)
Definition put_xudp (now : Z) (x : XUDP) : XUDP :=
  if decide (x_Status x = Active) then
    {| x_GlobalID := x_GlobalID x; x_Status := Expiring; x_Expire := now + 60; x_Mux := x_Mux x |}
  else x.

(** [Session.Close], under the lock of the parent. *)
Definition session_Close (p : nat) (w : store) : store :=
  match st_sessions w !! p with
  | None => w
  | Some s =>
    if s_closed s then w
    else
      let w := on_sessions (alter close_session p) w in
      let w := match s_XUDP s with
               | None => on_link (s_link s) (λ l, link_close (link_interrupt l)) w
               | Some x => on_xudps (alter (put_xudp (st_now w)) x) (on_link (s_link s) link_detach w)
               end in
      on_manager (s_parent s) (Remove (s_ID s)) w
  end.

(** [SessionManager.Close]: the table is closed first, so that no session
    removes itself while they are all gone through. *)
Definition manager_Close (k : nat) (w : store) : store :=
  match st_managers w !! k with
  | None => w
  | Some m =>
    if sm_closed m then w
    else
      let w := on_manager k (λ m, {| sm_sessions := sm_sessions m; count := count m; sm_closed := true |}) w in
      let w := foldr session_Close w (map_to_list (sm_sessions m)).*2 in
      on_manager k (λ m, {| sm_sessions := ∅; count := count m; sm_closed := sm_closed m |}) w
  end.

(** [XUDP.Interrupt]. *)
Definition xudp_Interrupt (x : XUDP) (w : store) : store :=
  match x_Mux x ≫= λ p, st_sessions w !! p with
  | Some s => on_link (s_link s) (λ l, link_close (link_interrupt l)) w
  | None => w
  end.

(** The entry [x] is due at the time of the store. *)
Definition expired (w : store) (x : XUDP) : bool := bool_decide (x_Status x = Expiring ∧ x_Expire x < st_now w).

(** One round of the cleaner, for one entry and for the table. *)
Definition sweep_entry (e : bytes * nat) (w : store) : store :=
  match st_xudps w !! e.2 with
  | Some x => if expired w x then on_map (delete e.1) (xudp_Interrupt x w) else w
  | None => w
  end.

Definition sweep (now : Z) (w : store) : store :=
  let w := {| st_sessions := st_sessions w; st_managers := st_managers w; st_links := st_links w;
              st_xudps := st_xudps w; st_map := st_map w; st_now := now |} in
  foldr sweep_entry w (map_to_list (st_map w)).
End store.
Arguments store : clear implicits.

(** ** Reading the data of a session *)

(** What [Session.NewReader] returns. *)
Inductive session_reader := OfStream (c : ChunkStreamReader) | OfPackets (p : PacketReader).

Definition NewReader (ty : TransferType) (r : BufferedReader source) (dest : Destination) : session_reader :=
  match ty with
  | TransferTypeStream => OfStream (NewStreamReader r)
  | TransferTypePacket => OfPackets (NewPacketReader r (Some dest))
  end.

#[global] Instance session_reader_read : BufReader session_reader := λ rr,
  match rr with
  | OfStream c => let? (mb, err, c) := read_mb c in Ret (mb, err, OfStream c)
  | OfPackets p => let? (mb, err, p) := read_mb p in Ret (mb, err, OfPackets p)
  end.

(** The connection below. *)
Definition rr_reader (rr : session_reader) : BufferedReader source :=
  match rr with OfStream c => cs_reader c | OfPackets p => pr_reader p end.
