(* ===== verification/MuxServer.v ===== *)
(** The server of the mux protocol (src/upstream/xray-core/common/mux/server.go):
    the handlers of its frames, the loop of a connection, the copies of the
    responses, and all of them side by side.  A frame is handled in one step, and
    so is a round of a copy.  The dispatcher behind the server, the links it
    returns and the writer of the connection are arguments. *)
From stdpp Require Import gmap.
From S2P Require Import Prelude GoText NetIP Address Transport Frame Uuid Buf AddressParser BufAppend Mux MultiBuffer BufIO ChunkStream MuxStream MuxSession.

(** The metadata that [handleFrame] starts from. *)
Definition zero_meta : FrameMetadata :=
  {| Target := no_destination; SessionID := 0; Option_ := 0; SessionStatus := 0; GlobalID := replicate 8 0 |}.

(** A running [handle]: the session it reads from, the connection and the writer
    it answers through. *)
Record handler := { h_session : nat; h_worker : nat; h_writer : MuxWriter; h_live : bool }.

Section server.
Context {L D W : Type} `{Link L, BufWriter W}.
Context (dispatch : D → Destination → D * result frame_error L).

(** What a frame of one connection is handled with. *)
Record conn := {
  c_store : store L;
  c_disp : D;
  c_down : W;
  c_handles : list handler;
  c_reader : BufferedReader source
}.

Definition on_store (f : store L → store L) (c : conn) : conn :=
  {| c_store := f (c_store c); c_disp := c_disp c; c_down := c_down c; c_handles := c_handles c; c_reader := c_reader c |}.

Definition with_reader (r : BufferedReader source) (c : conn) : conn :=
  {| c_store := c_store c; c_disp := c_disp c; c_down := c_down c; c_handles := c_handles c; c_reader := r |}.

Definition with_disp (d : D) (c : conn) : conn :=
  {| c_store := c_store c; c_disp := d; c_down := c_down c; c_handles := c_handles c; c_reader := c_reader c |}.

Definition with_down (d : W) (c : conn) : conn :=
  {| c_store := c_store c; c_disp := c_disp c; c_down := d; c_handles := c_handles c; c_reader := c_reader c |}.

Definition spawn (h : handler) (c : conn) : conn :=
  {| c_store := c_store c; c_disp := c_disp c; c_down := c_down c; c_handles := c_handles c ++ [h]; c_reader := c_reader c |}.

Implicit Types c : conn.

(** [buf.Copy(rr, buf.Discard)]. *)
Definition copy_discard (rr : session_reader) (c : conn) : outcome (conn * option frame_error) :=
  let? (rr, _, err) := Copy (W := unit) (H0 := Discard) (copy_fuel (rr_reader rr)) rr tt in
  Ret (with_reader (rr_reader rr) c, cause <$> err).

(** [buf.Copy(NewStreamReader(reader), buf.Discard)], for a frame with data. *)
Definition discard_data (meta : FrameMetadata) (c : conn) : outcome (conn * option frame_error) :=
  if Has (Option_ meta) OptionData then copy_discard (OfStream (NewStreamReader (c_reader c))) c else Ret (c, None).

Definition handleStatusKeepAlive (meta : FrameMetadata) (c : conn) : outcome (conn * option frame_error) :=
  discard_data meta c.

(** [buf.Copy(rr, s.output)]: writing without a link panics. *)
Definition copy_to (link : option nat) (rr : session_reader) (c : conn)
    : outcome (conn * session_reader * option copy_error) :=
  match link with
  | None => Panic
  | Some l =>
    ret_or_panic (st_links (c_store c) !! l) (λ out,
    let? (rr, out, err) := Copy (copy_fuel (rr_reader rr)) rr out in
    Ret (with_reader (rr_reader rr) (on_store (on_link (Some l) (λ _, out)) c), rr, err))
  end.

(** A session of the connection [k], its place in the store, and its [handle]. *)
Definition new_session (k : nat) (id : Z) (ty : TransferType) (x : option nat) (l : option nat) : Session :=
  {| s_link := l; s_parent := k; s_ID := id; s_type := ty; s_closed := false; s_XUDP := x |}.

Definition next_session (c : conn) : nat := length (st_sessions (c_store c)).
Definition next_link (c : conn) : nat := length (st_links (c_store c)).

Definition add_session (s : Session) (c : conn) : conn := on_store (on_sessions (λ l, l ++ [s])) c.
Definition add_link (l : L) (c : conn) : conn := on_store (on_links (λ ls, ls ++ [l])) c.

(** The answers of the session at [p] on the connection [k]. *)
Definition start_handle (k p : nat) (id : Z) (ty : TransferType) (c : conn) : conn :=
  spawn {| h_session := p; h_worker := k; h_writer := NewResponseWriter id ty; h_live := true |} c.

(** [w.sessionManager.Add(s)], with the result. *)
Definition add_to (k : nat) (id : Z) (p : nat) (c : conn) : bool * conn :=
  (match st_managers (c_store c) !! k with Some m => (Add id p m).1 | None => false end,
   on_store (on_manager k (λ m, (Add id p m).2)) c).

(** *** UDP sessions with a global id *)

Definition new_xudp (gid : bytes) : XUDP := {| x_GlobalID := gid; x_Status := Initializing; x_Expire := 0; x_Mux := None |}.

Definition set_status (st : xudp_status) (x : XUDP) : XUDP :=
  {| x_GlobalID := x_GlobalID x; x_Status := st; x_Expire := x_Expire x; x_Mux := x_Mux x |}.

Definition set_mux (p : nat) (x : XUDP) : XUDP :=
  {| x_GlobalID := x_GlobalID x; x_Status := x_Status x; x_Expire := x_Expire x; x_Mux := Some p |}.

(** The entry of the table that is taken up again: its session is detached from
    the connection it was on, and the packet written to its link; when that fails
    the packet is left for a new link. *)
Definition xudp_hit (x : nat) (e : XUDP) (mb : list Buffer) (c : conn) : outcome (option (list Buffer) * option nat * conn) :=
  let c := on_store (on_xudps (alter (set_status Initializing) x)) c in
  ret_or_panic (x_Mux e) (λ p,
  let c := on_store (session_Close p) c in
  ret_or_panic (st_sessions (c_store c) !! p) (λ s,
  ret_or_panic (mb !! 0%nat) (λ b0,
  ret_or_panic (Bytes b0) (λ d,
  let? b := write_all (Buffer_New pool_array) d in
  let b := with_UDP (UDP b0) b in
  ret_or_panic (s_link s) (λ l,
  ret_or_panic (st_links (c_store c) !! l) (λ out,
  let '(out, err) := write_mb out mb in
  let c := on_store (on_link (Some l) (λ _, out)) c in
  match err with
  | Some _ => Ret (Some [b], Some l, on_store (xudp_Interrupt (set_status Initializing e)) c)
  | None => Ret (None, Some l, c)
  end)))))).

(** A link of its own for the packet [mb]. *)
Definition xudp_dispatch (x : nat) (gid : bytes) (target : Destination) (mb : list Buffer) (c : conn)
    : result frame_error nat * conn :=
  let '(d, link) := dispatch (c_disp c) target in
  let c := with_disp d c in
  match link with
  | Err e => (Err e, on_store (on_map (delete gid)) c)
  | Ok l => (Ok (next_link c), add_link (write_mb l mb).1 c)
  end.

(** The session that the entry gets on this connection. *)
Definition xudp_attach (k x : nat) (id : Z) (l : option nat) (c : conn) : conn :=
  let p := next_session c in
  let c := add_session (new_session k id TransferTypePacket (Some x) l) c in
  let c := on_store (on_xudps (alter (set_mux p) x)) c in
  let c := start_handle k p id TransferTypePacket c in
  let c := on_store (on_xudps (alter (set_status Active) x)) c in
  let '(ok, c) := add_to k id p c in
  if ok then c else on_store (session_Close p) c.

(** The entry of the id: a new one, with the packet left to be sent; or the one of
    the table, unless it is being set up. *)
Definition xudp_lookup (gid : bytes) (mb : list Buffer) (c : conn)
    : outcome (option (nat * option (list Buffer) * option nat) * conn) :=
  match st_map (c_store c) !! gid with
  | None =>
    let x := length (st_xudps (c_store c)) in
    Ret (Some (x, Some mb, None),
         on_store (λ w, on_map <[gid := x]> (on_xudps (λ l, l ++ [new_xudp gid]) w)) c)
  | Some x =>
    ret_or_panic (st_xudps (c_store c) !! x) (λ e,
    if decide (x_Status e = Initializing) then Ret (None, c)
    else let? (mb, l, c) := xudp_hit x e mb c in Ret (Some (x, mb, l), c))
  end.

Definition handle_xudp (k : nat) (meta : FrameMetadata) (c : conn) : outcome (conn * option frame_error) :=
  let? (mb, err, pr) := read_mb (NewPacketReader (c_reader c) (Some (Target meta))) in
  let c := with_reader (pr_reader pr) c in
  match err with
  | Some e => Ret (c, Some e)
  | None =>
    let? (entry, c) := xudp_lookup (GlobalID meta) mb c in
    match entry with
    | None => Ret (c, None)
    | Some (x, None, l) => Ret (xudp_attach k x (SessionID meta) l c, None)
    | Some (x, Some mb, _) =>
      match xudp_dispatch x (GlobalID meta) (Target meta) mb c with
      | (Err e, c) => Ret (c, Some e)
      | (Ok l, c) => Ret (xudp_attach k x (SessionID meta) (Some l) c, None)
      end
    end
  end.

(** *** New sessions *)

Definition handle_new (k : nat) (meta : FrameMetadata) (c : conn) : outcome (conn * option frame_error) :=
  let '(d, link) := dispatch (c_disp c) (Target meta) in
  let c := with_disp d c in
  match link with
  | Err e => let? (c, _) := discard_data meta c in Ret (c, Some e)
  | Ok l =>
    let ty := if decide (dest_Network (Target meta) = Network_UDP) then TransferTypePacket else TransferTypeStream in
    let li := next_link c in
    let c := add_link l c in
    let p := next_session c in
    let c := add_session (new_session k (SessionID meta) ty None (Some li)) c in
    let '(_, c) := add_to k (SessionID meta) p c in
    let c := start_handle k p (SessionID meta) ty c in
    if negb (Has (Option_ meta) OptionData) then Ret (c, None)
    else
      let? (c, rr, err) := copy_to (Some li) (NewReader ty (c_reader c) (Target meta)) c in
      match err with
      | Some _ => let? (c, _) := copy_discard rr c in Ret (on_store (session_Close p) c, None)
      | None => Ret (c, None)
      end
  end.

Definition handleStatusNew (k : nat) (allowed : Network) (meta : FrameMetadata) (c : conn)
    : outcome (conn * option frame_error) :=
  if decide (allowed ≠ Network_Unknown ∧ dest_Network (Target meta) ≠ allowed) then Ret (c, Some errFrame)
  else if decide (GlobalID meta ≠ replicate 8 0) then handle_xudp k meta c
  else handle_new k meta c.

(** *** The other frames *)

(** The end of a session that is not known here is told to the peer. *)
Definition notify_end (id : Z) (c : conn) : outcome conn :=
  let? down := mux_Close (NewResponseWriter id TransferTypeStream) (c_down c) in Ret (with_down down c).

Definition get_session (k : nat) (id : Z) (c : conn) : option nat := st_managers (c_store c) !! k ≫= Get id.

Definition handleStatusKeep (k : nat) (meta : FrameMetadata) (c : conn) : outcome (conn * option frame_error) :=
  if negb (Has (Option_ meta) OptionData) then Ret (c, None)
  else
    match get_session k (SessionID meta) c with
    | None => let? c := notify_end (SessionID meta) c in discard_data meta c
    | Some p =>
      ret_or_panic (st_sessions (c_store c) !! p) (λ s,
      let? (c, rr, err) := copy_to (s_link s) (NewReader (s_type s) (c_reader c) (Target meta)) c in
      if IsWriteError err then copy_discard rr (on_store (session_Close p) c)
      else Ret (c, cause <$> err))
    end.

Definition handleStatusEnd (k : nat) (meta : FrameMetadata) (c : conn) : outcome (conn * option frame_error) :=
  let c := match get_session k (SessionID meta) c with Some p => on_store (session_Close p) c | None => c end in
  discard_data meta c.

Definition handleFrame (k : nat) (allowed : Network) (c : conn) : outcome (conn * option frame_error) :=
  let? (meta, r) := br_Unmarshal zero_meta (c_reader c) in
  let c := with_reader r c in
  match meta with
  | Err e => Ret (c, Some e)
  | Ok meta =>
    if decide (SessionStatus meta = SessionStatusKeepAlive) then handleStatusKeepAlive meta c
    else if decide (SessionStatus meta = SessionStatusEnd) then handleStatusEnd k meta c
    else if decide (SessionStatus meta = SessionStatusNew) then handleStatusNew k allowed meta c
    else if decide (SessionStatus meta = SessionStatusKeep) then handleStatusKeep k meta c
    else Ret (c, Some errFrame)
  end.

(** ** All connections *)

Record worker := {
  wk_reader : BufferedReader source;
  wk_down : W;
  wk_allowed : Network;
  wk_running : bool;
  wk_interrupted : bool
}.

Record server := {
  sv_store : store L;
  sv_disp : D;
  sv_workers : list worker;
  sv_handles : list handler
}.

Definition sv_on_store (f : store L → store L) (v : server) : server :=
  {| sv_store := f (sv_store v); sv_disp := sv_disp v; sv_workers := sv_workers v; sv_handles := sv_handles v |}.

Definition sv_on_worker (k : nat) (f : worker → worker) (v : server) : server :=
  {| sv_store := sv_store v; sv_disp := sv_disp v; sv_workers := alter f k (sv_workers v); sv_handles := sv_handles v |}.

Definition set_down (d : W) (x : worker) : worker :=
  {| wk_reader := wk_reader x; wk_down := d; wk_allowed := wk_allowed x; wk_running := wk_running x;
     wk_interrupted := wk_interrupted x |}.

(** The loop of [run] ends: the deferred call closes the table. *)
Definition stop_worker (interrupt : bool) (x : worker) : worker :=
  {| wk_reader := wk_reader x; wk_down := wk_down x; wk_allowed := wk_allowed x; wk_running := false;
     wk_interrupted := wk_interrupted x || interrupt |}.

Definition conn_of (v : server) (x : worker) : conn :=
  {| c_store := sv_store v; c_disp := sv_disp v; c_down := wk_down x; c_handles := sv_handles v;
     c_reader := wk_reader x |}.

Definition after_conn (k : nat) (c : conn) (v : server) : server :=
  {| sv_store := c_store c; sv_disp := c_disp c;
     sv_workers := alter (λ x, {| wk_reader := c_reader c; wk_down := c_down c; wk_allowed := wk_allowed x;
                                  wk_running := wk_running x; wk_interrupted := wk_interrupted x |}) k (sv_workers v);
     sv_handles := c_handles c |}.

(** One round of the loop of [run]. *)
Definition run_round (k : nat) (v : server) : outcome server :=
  match sv_workers v !! k with
  | None => Ret v
  | Some x =>
    if negb (wk_running x) then Ret v
    else
      let? (c, err) := handleFrame k (wk_allowed x) (conn_of v x) in
      let v := after_conn k c v in
      Ret match err with
          | None => v
          | Some e => sv_on_store (manager_Close k) (sv_on_worker k (stop_worker (bool_decide (e ≠ ErrEOF))) v)
          end
  end.

(** [ctx.Done()]. *)
Definition run_cancelled (k : nat) (v : server) : server :=
  match sv_workers v !! k with
  | Some x => if wk_running x then sv_on_store (manager_Close k) (sv_on_worker k (stop_worker false) v) else v
  | None => v
  end.

(** *** The answers *)

Definition set_handle (i : nat) (w : MuxWriter) (live : bool) (v : server) : server :=
  {| sv_store := sv_store v; sv_disp := sv_disp v; sv_workers := sv_workers v;
     sv_handles := alter (λ h, {| h_session := h_session h; h_worker := h_worker h; h_writer := w; h_live := live |}) i
                     (sv_handles v) |}.

(** The end of [handle]. *)
Definition handle_end (i : nat) (h : handler) (w : MuxWriter) (err : copy_error) (down : W) (v : server) : outcome server :=
  let w := if decide (cause err = ErrEOF) then w else set_hasError w in
  let? down := mux_Close w down in
  Ret (sv_on_store (session_Close (h_session h))
         (set_handle i w false (sv_on_worker (h_worker h) (set_down down) v))).

(** One round of the copy in [handle]. *)
Definition handle_round (i : nat) (v : server) : outcome server :=
  match sv_handles v !! i with
  | None => Ret v
  | Some h =>
    if negb (h_live h) then Ret v
    else
      ret_or_panic (sv_workers v !! h_worker h) (λ x,
      ret_or_panic (st_sessions (sv_store v) !! h_session h ≫= s_link) (λ li,
      ret_or_panic (st_links (sv_store v) !! li) (λ l,
      let? (mb, err, l) := read_mb l in
      let v := sv_on_store (on_link (Some li) (λ _, l)) v in
      let? (w, down, werr) := (if mb_IsEmpty mb then Ret (h_writer h, wk_down x, None)
                               else mux_WriteMultiBuffer mb (h_writer h) (wk_down x)) in
      match werr, err with
      | Some e, _ => handle_end i h w (WriteError e) down v
      | None, Some e => handle_end i h w (ReadError e) down v
      | None, None => Ret (set_handle i w true (sv_on_worker (h_worker h) (set_down down) v))
      end)))
  end.

(** *** New connections *)

(** [NewServerWorker] on a link. *)
Definition NewServerWorker (r : BufferedReader source) (down : W) (allowed : Network) (v : server) : server :=
  {| sv_store := {| st_sessions := st_sessions (sv_store v); st_managers := st_managers (sv_store v) ++ [NewSessionManager];
                    st_links := st_links (sv_store v); st_xudps := st_xudps (sv_store v);
                    st_map := st_map (sv_store v); st_now := st_now (sv_store v) |};
     sv_disp := sv_disp v;
     sv_workers := sv_workers v ++
       [{| wk_reader := r; wk_down := down; wk_allowed := allowed; wk_running := true; wk_interrupted := false |}];
     sv_handles := sv_handles v |}.

(** The steps of a server: a connection comes in, one of them is read or given up,
    an answer is copied, the cleaner runs. *)
Inductive server_event :=
| Connect (r : BufferedReader source) (down : W) (allowed : Network)
| Frame (k : nat)
| Cancel (k : nat)
| Answer (i : nat)
| Sweep (now : Z).

Definition server_step (e : server_event) (v : server) : outcome server :=
  match e with
  | Connect r down allowed => Ret (NewServerWorker r down allowed v)
  | Frame k => run_round k v
  | Cancel k => Ret (run_cancelled k v)
  | Answer i => handle_round i v
  | Sweep now => Ret (sv_on_store (sweep now) v)
  end.
End server.
