(* ===== verification/MuxRefine.v ===== *)
(** What the mux server promises (src/upstream/xray-core/common/mux/server.go), and
    that its handlers keep it: the data of every session reaches the link of its
    target, in order and unmixed, however the sessions are interleaved on the
    connection and however the connection cuts up the bytes. *)
From stdpp Require Import gmap.
From S2P Require Import Prelude GoText NetIP Address Transport Frame Uuid Buf AddressParser BufAppend Mux MultiBuffer BufIO ChunkStream MuxStream MuxSession MuxServer.

(** ** What the server promises *)

(** The flows that one connection asks for: where each goes to, and the data of
    its frames with the sources of their packets; the flow of every open session;
    the sessions whose end the peer was told. *)
Record flow := { f_target : Destination; f_data : list (bytes * option Destination) }.

Record flows := { fl_ids : gmap Z nat; fl_all : list flow; fl_unknown : list Z }.

Definition no_flows : flows := {| fl_ids := ∅; fl_all := []; fl_unknown := [] |}.

Definition push_data (l : list (bytes * option Destination)) (f : flow) : flow :=
  {| f_target := f_target f; f_data := f_data f ++ l |}.

(** The source that a frame gives its data. *)
Definition frame_source (f : mux_frame) : option Destination :=
  if decide (SessionStatus (fr_meta f) = SessionStatusNew) then packet_source (Some (Target (fr_meta f)))
  else u ← fr_udp f; Some (UDPDestination (dest_Address u) (dest_Port u)).

Definition frame_items (f : mux_frame) : list (bytes * option Destination) :=
  match fr_data f with Some d => [(d, frame_source f)] | None => [] end.

(** What a frame means. *)
Definition serve_frame (f : mux_frame) (a : flows) : flows :=
  let id := SessionID (fr_meta f) in
  let st := SessionStatus (fr_meta f) in
  if decide (st = SessionStatusNew) then
    {| fl_ids := <[id := length (fl_all a)]> (fl_ids a);
       fl_all := fl_all a ++ [{| f_target := Target (fr_meta f); f_data := frame_items f |}];
       fl_unknown := fl_unknown a |}
  else if decide (st = SessionStatusKeep ∧ is_Some (fr_data f)) then
    match fl_ids a !! id with
    | Some i => {| fl_ids := fl_ids a;
                   fl_all := alter (push_data (frame_items f)) i (fl_all a);
                   fl_unknown := fl_unknown a |}
    | None => {| fl_ids := fl_ids a; fl_all := fl_all a; fl_unknown := fl_unknown a ++ [id] |}
    end
  else if decide (st = SessionStatusEnd) then
    {| fl_ids := delete id (fl_ids a); fl_all := fl_all a; fl_unknown := fl_unknown a |}
  else a.

Definition serve_frames (fs : list mux_frame) (a : flows) : flows := foldl (λ a f, serve_frame f a) a fs.

(** The frames of the protocol that are not about a UDP session with a global id. *)
Record frame_wf (f : mux_frame) : Prop := {
  fw_ok : frame_ok (fr_meta f) (fr_udp f);
  fw_data : Has (Option_ (fr_meta f)) OptionData = bool_decide (is_Some (fr_data f));
  fw_size : ∀ d, fr_data f = Some d → Z.of_nat (length d) ≤ 8192;
  fw_status : SessionStatus (fr_meta f) ∈ [SessionStatusNew; SessionStatusKeep; SessionStatusEnd; SessionStatusKeepAlive];
  fw_global : SessionStatus (fr_meta f) = SessionStatusNew → dest_Network (Target (fr_meta f)) = Network_UDP →
    is_Some (fr_udp f) → GlobalID (fr_meta f) = replicate 8 0
}.

(** The data that a link of a type has been given. *)
Definition packets_of (s : list (list Buffer)) : list (bytes * option Destination) := (λ b, (content b, UDP b)) <$> mjoin s.

Definition carries (ty : TransferType) (s : list (list Buffer)) (data : list (bytes * option Destination)) : Prop :=
  match ty with
  | TransferTypeStream => mjoin (contents_of <$> s) = mjoin data.*1
  | TransferTypePacket => packets_of s = List.filter (λ x, bool_decide (x.1 ≠ [])) data
  end.

Definition flow_type (f : flow) : TransferType :=
  if decide (dest_Network (f_target f) = Network_UDP) then TransferTypePacket else TransferTypeStream.

(** ** Copying the data of a frame *)

Lemma carries_app ty s1 d1 s2 d2 : carries ty s1 d1 → carries ty s2 d2 → carries ty (s1 ++ s2) (d1 ++ d2).
Proof.
  destruct ty; cbn [carries]; intros H1 H2.
  - by rewrite !fmap_app, !join_app, H1, H2.
  - unfold packets_of in *. by rewrite join_app, fmap_app, List.filter_app, H1, H2.
Qed.

Lemma drains_of_stream (c c' : ChunkStreamReader) l e : drains c l e c' → drains (OfStream c) l e (OfStream c').
Proof.
  induction 1 as [c e c' E|c mb c1 l e c' E _ IH]; [constructor|econstructor; [|exact IH]];
    unfold read_mb, session_reader_read; by rewrite E.
Qed.

Lemma drains_of_packets (c c' : PacketReader) l e : drains c l e c' → drains (OfPackets c) l e (OfPackets c').
Proof.
  induction 1 as [c e c' E|c mb c1 l e c' E _ IH]; [constructor|econstructor; [|exact IH]];
    unfold read_mb, session_reader_read; by rewrite E.
Qed.

(** The data of a frame, read for a session of either type. *)
Lemma session_reads ty r d dest rest : holds r (data_bytes (Some d) ++ rest) → Z.of_nat (length d) ≤ 8192 →
  ∃ l rr, drains (NewReader ty r dest) l ErrEOF rr ∧ carries ty (nonempty_parts l) [(d, packet_source (Some dest))] ∧
    holds (rr_reader rr) rest ∧ advanced r (rr_reader rr) ∧ (length l < copy_fuel r)%nat.
Proof.
  intros Hr Hl. destruct ty; cbn [NewReader carries].
  - destruct (stream_reads r d rest Hr ltac:(lia)) as (l & c & Hd & Hw & Hj & Hh & Ha & Hlen).
    exists l, (OfStream c). split; [by apply drains_of_stream|]. split; [|split; [done|split; [done|unfold copy_fuel; lia]]].
    rewrite contents_nonempty_parts, Hj by done. cbn. by rewrite app_nil_r.
  - destruct (packet_reads r d (Some dest) rest Hr Hl) as (b & r' & Hd & Hw & Hc & Hu & Hh & Ha).
    exists [[b]], (OfPackets (with_pr r' true (NewPacketReader r (Some dest)))). split; [by apply drains_of_packets|].
    split; [|split; [done|split; [done|unfold copy_fuel; cbn; lia]]].
    cbn [nonempty_parts List.filter]. rewrite mb_IsEmpty_spec by (by constructor). rewrite contents_of_one, Hc.
    case_bool_decide as E; cbn [negb fst]; [by rewrite bool_decide_false by naive_solver|].
    rewrite bool_decide_true by done. unfold packets_of. cbn. by rewrite Hc, Hu.
Qed.

(** ** The refinement *)

(** Links that take what they are given until they are closed, and keep it. *)
Class ServingLinks {L : Type} `{Link L} (live : L → Prop) (sink : L → list (list Buffer)) : Prop := {
  links_live :: LiveWriter live sink;
  sink_closed l : sink (link_close (link_interrupt l)) = sink l;
  sink_detached l : sink (link_detach l) = sink l
}.

(** A dispatcher that finds a link for every target, and notes the target. *)
Class ServingDispatcher {L D : Type} (dispatch : D → Destination → D * result frame_error L)
    (live : L → Prop) (sink : L → list (list Buffer)) (dialed : D → list Destination) : Prop :=
  serves : ∀ d t, ∃ d' l, dispatch d t = (d', Ok l) ∧ live l ∧ sink l = [] ∧ dialed d' = dialed d ++ [t].

Section refinement.
Context {L D W : Type} `{Link L, BufWriter W}.
Context (dispatch : D → Destination → D * result frame_error L).
Context (live : L → Prop) (sink : L → list (list Buffer)) (dialed : D → list Destination).
Context (wlive : W → Prop) (wsink : W → list (list Buffer)).
Context `{!ServingLinks live sink, Hserve : !ServingDispatcher dispatch live sink dialed, !LiveWriter wlive wsink}.
Implicit Types c : @conn L D W.

Definition end_notice (id : Z) : bytes := fr_bytes (end_frame (NewResponseWriter id TransferTypeStream)).

(** The connection [k] is in the state [a]: what is in its table, and what has
    come out since the dispatcher was in the state [d0], there were the links
    [pre] and the writer was [down0]. *)
Record abs (k : nat) (d0 : D) (pre : list L) (down0 : W) (c : conn) (a : flows) : Prop := {
  abs_open : ∃ m, st_managers (c_store c) !! k = Some m ∧ sm_closed m = false ∧
    (∀ id, fl_ids a !! id = None → sm_sessions m !! id = None) ∧
    (∀ id i, fl_ids a !! id = Some i → ∃ p f, sm_sessions m !! id = Some p ∧ fl_all a !! i = Some f ∧
       st_sessions (c_store c) !! p = Some (new_session k id (flow_type f) None (Some (length pre + i))%nat));
  abs_inj : ∀ id1 id2 i, fl_ids a !! id1 = Some i → fl_ids a !! id2 = Some i → id1 = id2;
  abs_links : ∃ ls, st_links (c_store c) = pre ++ ls ∧
    Forall2 (λ f l, carries (flow_type f) (sink l) (f_data f)) (fl_all a) ls;
  abs_live : ∀ id i l, fl_ids a !! id = Some i → st_links (c_store c) !! (length pre + i)%nat = Some l → live l;
  abs_dialed : dialed (c_disp c) = dialed d0 ++ (f_target <$> fl_all a);
  abs_down : emitted wlive wsink down0 (mjoin (end_notice <$> fl_unknown a)) (c_down c)
}.

(** [abs] does not depend on the reader and the running copies. *)
Lemma abs_proper k d0 pre down0 c c' a : abs k d0 pre down0 c a →
  c_store c' = c_store c → c_disp c' = c_disp c → c_down c' = c_down c → abs k d0 pre down0 c' a.
Proof. intros [] Es Ed Ew. split; rewrite ?Es, ?Ed, ?Ew; done. Qed.

Lemma copy_fuel_NewReader ty r dest : copy_fuel (rr_reader (NewReader ty r dest)) = copy_fuel r.
Proof. by destruct ty. Qed.

(** Data that nobody wants is read over. *)
Lemma discard_spec meta c d rest : Has (Option_ meta) OptionData = bool_decide (is_Some d) →
  (∀ x, d = Some x → Z.of_nat (length x) ≤ 8192) → holds (c_reader c) (data_bytes d ++ rest) →
  ∃ r', discard_data meta c = Ret (with_reader r' c, None) ∧ holds r' rest ∧ advanced (c_reader c) r'.
Proof.
  intros Ho Hd Hh. unfold discard_data. rewrite Ho. destruct d as [d|]; cbn [is_Some].
  - rewrite bool_decide_true by done. specialize (Hd d eq_refl).
    destruct (session_reads TransferTypeStream _ d no_destination rest Hh Hd) as (l & rr & Hdr & _ & Hh' & Ha & Hlen).
    cbn [NewReader] in Hdr. unfold copy_discard.
    rewrite (Copy_discard _ _ _ _ _ Hdr) by (by cbn [rr_reader NewStreamReader NewChunkStreamReaderWithChunkCount cs_reader]).
    exists (rr_reader rr). by split.
  - rewrite bool_decide_false by (by intros [? [=]]). exists (c_reader c). split; [by destruct c|]. split; [done|]. by split.
Qed.

(** Data for a session goes to the end of its link. *)
Lemma copy_to_spec ty dest c l out d rest : Z.of_nat (length d) ≤ 8192 → holds (c_reader c) (data_bytes (Some d) ++ rest) →
  st_links (c_store c) !! l = Some out → live out →
  ∃ out' rr, copy_to (Some l) (NewReader ty (c_reader c) dest) c =
      Ret (with_reader (rr_reader rr) (on_store (on_link (Some l) (λ _, out')) c), rr, None) ∧
    live out' ∧ (∃ s, sink out' = sink out ++ s ∧ carries ty s [(d, packet_source (Some dest))]) ∧
    holds (rr_reader rr) rest ∧ advanced (c_reader c) (rr_reader rr).
Proof using Type* - (dispatch Hserve).
  intros Hd Hh Hl Ho. unfold copy_to. rewrite Hl. cbn [ret_or_panic].
  destruct (session_reads ty _ d dest rest Hh Hd) as (l' & rr & Hdr & Hc & Hh' & Ha & Hlen).
  rewrite copy_fuel_NewReader. destruct (Copy_drains live sink _ _ _ _ out _ Hdr Hlen Ho) as (out' & -> & Ho' & Hs).
  cbn [outcome_bind]. exists out', rr. split; [done|]. split; [done|]. split; [by exists (nonempty_parts l')|done].
Qed.

(** *** A new session *)

Lemma source_received f f0 :
  SessionStatus (fr_meta f) = SessionStatusNew ∨ SessionStatus (fr_meta f) = SessionStatusKeep →
  packet_source (Some (Target (received (fr_meta f) (fr_udp f) f0))) = frame_source f.
Proof.
  intros Hs. unfold frame_source, received. cbn [Target]. case_decide as E; [done|]. destruct Hs as [?|Hs]; [done|].
  destruct (fr_udp f) as [u|]; [|done]. by rewrite decide_True.
Qed.

Lemma global_received f : frame_wf f → GlobalID (received (fr_meta f) (fr_udp f) zero_meta) = replicate 8 0.
Proof.
  intros Hf. unfold received. cbn [GlobalID]. case_decide as E; [|done]. destruct E as (E1 & _ & E2 & E3).
  by apply (fw_global _ Hf).
Qed.

(** The store with one more session on one more link. *)
Record opened (k : nat) (id : Z) (ty : TransferType) (l : L) (w w' : store L) : Prop := {
  op_sessions : st_sessions w' = st_sessions w ++ [new_session k id ty None (Some (length (st_links w)))];
  op_managers : st_managers w' = alter (λ m, (Add id (length (st_sessions w)) m).2) k (st_managers w);
  op_links : st_links w' = st_links w ++ [l]
}.

Lemma alter_snoc {A} (f : A → A) (l : list A) x : alter f (length l) (l ++ [x]) = l ++ [f x].
Proof. induction l as [|y l IH]; [done|]. cbn. by f_equal. Qed.

Lemma handle_new_spec k meta c data rest : Has (Option_ meta) OptionData = bool_decide (is_Some data) →
  (∀ x, data = Some x → Z.of_nat (length x) ≤ 8192) → holds (c_reader c) (data_bytes data ++ rest) →
  let ty := if decide (dest_Network (Target meta) = Network_UDP) then TransferTypePacket else TransferTypeStream in
  ∃ c' l, handle_new dispatch k meta c = Ret (c', None) ∧ opened k (SessionID meta) ty l (c_store c) (c_store c') ∧
    live l ∧ carries ty (sink l) ((λ d, (d, packet_source (Some (Target meta)))) <$> option_list data) ∧
    dialed (c_disp c') = dialed (c_disp c) ++ [Target meta] ∧ c_down c' = c_down c ∧
    holds (c_reader c') rest ∧ advanced (c_reader c) (c_reader c').
Proof using Type*.
  intros Ho Hd Hh ty. unfold handle_new. destruct (serves (c_disp c) (Target meta)) as (d' & l & -> & Hl & Hsl & Hdial).
  cbv zeta. fold ty. set (li := next_link _). unfold add_to. rewrite Ho. destruct data as [d|]; cbn [option_list fmap list_fmap].
  - rewrite bool_decide_true by done. cbn [negb].
    match goal with |- context [copy_to _ _ ?x] => set (c1 := x) end.
    assert (st_links (c_store c1) = st_links (c_store c) ++ [l]) as El by done.
    destruct (copy_to_spec ty (Target meta) c1 li l d rest (Hd d eq_refl) Hh) as (out' & rr & E & Ho' & (s & Hs & Hc) & Hh' & Ha).
    { rewrite El. unfold li, next_link. cbn. by rewrite lookup_app_r, Nat.sub_diag by done. }
    { done. }
    rewrite E. cbn [outcome_bind].
    eexists _, out'. split; [reflexivity|]. split.
    { split; cbn; [done|done|]. apply (alter_snoc (λ _, out')). }
    split; [done|]. split; [by rewrite Hs, Hsl|]. by split_all.
  - rewrite bool_decide_false by (by intros [? [=]]). cbn [negb].
    eexists _, l. split; [reflexivity|]. split; [done|]. split; [done|]. rewrite Hsl. split; [by destruct ty|].
    cbn. split; [done|]. split; [done|]. split; [done|]. by split.
Qed.

Lemma abs_opened k d0 pre down0 c c' a f l :
  abs k d0 pre down0 c a → SessionStatus (fr_meta f) = SessionStatusNew →
  let g := {| f_target := Target (fr_meta f); f_data := frame_items f |} in
  opened k (SessionID (fr_meta f)) (flow_type g) l (c_store c) (c_store c') → live l →
  carries (flow_type g) (sink l) (f_data g) →
  dialed (c_disp c') = dialed (c_disp c) ++ [f_target g] → c_down c' = c_down c →
  abs k d0 pre down0 c' (serve_frame f a).
Proof using Type* - (dispatch Hserve).
  intros [(m & Hm & Hcl & Hnone & Hids) Hinj (ls & Els & Hls) Hlive Hdial Hdown] Hs g [Os Om Ol] Hl Hc Hd Hw.
  unfold serve_frame. rewrite decide_True by done. fold g.
  assert (length (st_links (c_store c)) = length pre + length (fl_all a))%nat as Elen
    by (rewrite Els, length_app; by rewrite (Forall2_length _ _ _ Hls)).
  assert (∀ i id, fl_ids a !! id = Some i → (i < length (fl_all a))%nat) as Hlt
    by (intros i id Hi; destruct (Hids _ _ Hi) as (? & ? & _ & Hf & _); by apply lookup_lt_Some in Hf).
  split; cbn [fl_ids fl_all fl_unknown].
  - exists (Add (SessionID (fr_meta f)) (length (st_sessions (c_store c))) m).2. rewrite Om, list_lookup_alter_eq, Hm.
    split; [done|]. unfold Add. rewrite Hcl. cbn [snd sm_closed sm_sessions]. split; [done|]. split.
    + intros id. rewrite !lookup_insert_None. naive_solver.
    + intros id i. destruct (decide (id = SessionID (fr_meta f))) as [->|Hne].
      * rewrite !lookup_insert_eq. intros [= <-]. exists (length (st_sessions (c_store c))), g. split; [done|].
        rewrite lookup_app_r, Nat.sub_diag by done. split; [done|]. rewrite Os, lookup_app_r, Nat.sub_diag, <- Elen by done. done.
      * rewrite !lookup_insert_ne by done. intros Hi. destruct (Hids _ _ Hi) as (p & h & Hp & Hh & Hsess).
        exists p, h. split; [done|]. rewrite Os, !lookup_app_l by (by eapply lookup_lt_Some). done.
  - intros id1 id2 i. rewrite !lookup_insert_Some. intros [[<- <-]|[? Hi1]] [[<- ?]|[? Hi2]]; try done.
    + apply Hlt in Hi2. lia.
    + subst. apply Hlt in Hi1. lia.
    + by eapply Hinj.
  - exists (ls ++ [l]). rewrite Ol, Els, <- app_assoc. split; [done|]. apply Forall2_app; [done|]. by constructor.
  - intros id i l'. rewrite Ol, lookup_insert_Some. intros [[<- <-]|[? Hi]].
    + rewrite <- Elen, lookup_app_r, Nat.sub_diag by done. by intros [= <-].
    + rewrite lookup_app_l by (rewrite Elen; apply Hlt in Hi; lia). by eapply Hlive.
  - rewrite Hd, Hdial, fmap_app, <- app_assoc. done.
  - by rewrite Hw.
Qed.

(** *** Data and the end of a session *)

Lemma abs_pushed k d0 pre down0 c c' a f i l l' g id :
  abs k d0 pre down0 c a → SessionStatus (fr_meta f) = SessionStatusKeep → SessionID (fr_meta f) = id → is_Some (fr_data f) →
  fl_ids a !! id = Some i → fl_all a !! i = Some g → st_links (c_store c) !! (length pre + i)%nat = Some l →
  c_store c' = on_link (Some (length pre + i)%nat) (λ _, l') (c_store c) → live l' →
  (∃ s, sink l' = sink l ++ s ∧ carries (flow_type g) s (frame_items f)) →
  c_disp c' = c_disp c → c_down c' = c_down c →
  abs k d0 pre down0 c' (serve_frame f a).
Proof using Type* - (dispatch Hserve).
  intros [(m & Hm & Hcl & Hnone & Hids) Hinj (ls & Els & Hls) Hlive Hdial Hdown] Hs Hid Hd Hi Hg Hl Ec Hl' (s & Es & Hc) Ed Ew.
  unfold serve_frame. rewrite decide_False by (by rewrite Hs). rewrite decide_True by done. rewrite Hid, Hi.
  assert (ls !! i = Some l) as Hli by (rewrite Els, lookup_app_r in Hl by lia; by replace (_ + i - _)%nat with i in Hl by lia).
  assert (∀ h j, fl_all a !! j = Some h → ∃ h', alter (push_data (frame_items f)) i (fl_all a) !! j = Some h' ∧
    flow_type h' = flow_type h) as Hft.
  { intros h j Hj. rewrite list_lookup_alter. case_decide as E; [rewrite E|]; rewrite Hj; eexists; (split; [reflexivity|done]). }
  split; cbn [fl_ids fl_all fl_unknown]; rewrite ?Ec, ?Ed, ?Ew.
  - exists m. split; [done|]. split; [done|]. split; [done|]. intros id' j Hj. destruct (Hids _ _ Hj) as (p & h & Hp & Hh & Hsess).
    destruct (Hft _ _ Hh) as (h' & Hh' & Et). exists p, h'. rewrite Et. by split_all.
  - done.
  - exists (alter (λ _, l') i ls). cbn. rewrite Els, alter_app_r. split; [done|].
    apply Forall2_same_length_lookup. split; [rewrite !length_alter; by eapply Forall2_length|].
    intros j x y. rewrite !list_lookup_alter. destruct (decide (i = j)) as [<-|Hne].
    + rewrite Hg, Hli. cbn. intros [= <-] [= <-]. rewrite Es. apply carries_app; [|done].
      exact (Forall2_lookup_lr _ _ _ _ _ _ Hls Hg Hli).
    + intros Hx Hy. exact (Forall2_lookup_lr _ _ _ _ _ _ Hls Hx Hy).
  - intros id' j y Hj. cbn. rewrite list_lookup_alter. case_decide as E; [|by eapply Hlive].
    intros Hy. rewrite Hl in Hy. by injection Hy as <-.
  - rewrite Hdial. f_equal. apply list_eq. intros j. rewrite !list_lookup_fmap, list_lookup_alter.
    case_decide as E; [rewrite E|done]. by destruct (fl_all a !! j).
  - done.
Qed.

(** Closing the session of a flow takes it out of the table. *)
Lemma abs_closed k d0 pre down0 c a id i p s : abs k d0 pre down0 c a →
  fl_ids a !! id = Some i → get_session k id c = Some p → st_sessions (c_store c) !! p = Some s →
  s = new_session k id (s_type s) None (Some (length pre + i)%nat) →
  abs k d0 pre down0 (on_store (session_Close p) c)
    {| fl_ids := delete id (fl_ids a); fl_all := fl_all a; fl_unknown := fl_unknown a |}.
Proof using Type* - (dispatch Hserve).
  intros [(m & Hm & Hcl & Hnone & Hids) Hinj (ls & Els & Hls) Hlive Hdial Hdown] Hi Hp Hs Es.
  unfold get_session in Hp. rewrite Hm in Hp. cbn in Hp. unfold Get in Hp. rewrite Hcl in Hp.
  unfold on_store, session_Close. rewrite Hs, Es. cbn [new_session s_closed s_XUDP s_link s_parent s_ID].
  split; cbn [fl_ids fl_all fl_unknown c_store c_disp c_down on_manager on_link on_links on_sessions st_managers st_links st_sessions].
  - exists (Remove id m). rewrite list_lookup_alter_eq, Hm. split; [done|]. unfold Remove. rewrite Hcl.
    cbn [sm_closed sm_sessions]. split; [done|]. split.
    + intros id'. rewrite !lookup_delete_None. intros [->|?]; [by left|right; by apply Hnone].
    + intros id' j. rewrite lookup_delete_Some. intros [Hne Hj]. destruct (Hids _ _ Hj) as (q & h & Hq & Hh & Hsess).
      exists q, h. rewrite lookup_delete_ne by done. split; [done|]. split; [done|].
      rewrite list_lookup_alter_ne; [done|]. intros <-. rewrite Hs, Es in Hsess. apply (f_equal (fmap s_ID)) in Hsess.
      cbn in Hsess. congruence.
  - intros id1 id2 j. rewrite !lookup_delete_Some. intros [_ ?] [_ ?]. by eapply Hinj.
  - exists (alter (λ l, link_close (link_interrupt l)) i ls). rewrite Els, alter_app_r. split; [done|].
    apply Forall2_same_length_lookup. split; [rewrite length_alter; by eapply Forall2_length|].
    intros j x y Hx. rewrite list_lookup_alter. case_decide as Ej; [rewrite Ej|].
    + destruct (ls !! j) as [z|] eqn:Hz; [|done]. cbn. intros [= <-]. rewrite sink_closed.
      exact (Forall2_lookup_lr _ _ _ _ _ _ Hls Hx Hz).
    + intros Hy. exact (Forall2_lookup_lr _ _ _ _ _ _ Hls Hx Hy).
  - intros id' j y. rewrite lookup_delete_Some. intros [Hne Hj]. rewrite list_lookup_alter_ne; [by eapply Hlive|].
    intros Ej. apply Hne. apply (Hinj _ _ i); [done|]. by replace i with j by lia.
  - done.
  - done.
Qed.

(** *** Every frame *)

(** [c'] is [c] after a frame that means what takes [a] to [a']. *)
Record refined (k : nat) (d0 : D) (pre : list L) (down0 : W) (c c' : @conn L D W) (a' : flows) (rest : bytes) : Prop := {
  rf_abs : abs k d0 pre down0 c' a';
  rf_holds : holds (c_reader c') rest;
  rf_advanced : advanced (c_reader c) (c_reader c')
}.

Section frames.
Context (k : nat) (d0 : D) (pre : list L) (down0 : W) (f : mux_frame) (rest : bytes) (Hf : frame_wf f).
Context (f0 : FrameMetadata).
Notation meta := (received (fr_meta f) (fr_udp f) f0).
Notation body := (data_bytes (fr_data f) ++ rest).

Lemma refine_new c a : f0 = zero_meta → abs k d0 pre down0 c a → holds (c_reader c) body → SessionStatus (fr_meta f) = SessionStatusNew →
  ∃ c', handleStatusNew dispatch k Network_Unknown meta c = Ret (c', None) ∧ refined k d0 pre down0 c c' (serve_frame f a) rest.
Proof using Type*.
  intros E0 Ha Hh Hs. unfold handleStatusNew. rewrite decide_False by (by intros []). rewrite E0, global_received, <- E0 by done.
  rewrite decide_False by naive_solver.
  destruct (handle_new_spec k meta c (fr_data f) rest (fw_data _ Hf) (fw_size _ Hf) Hh)
    as (c' & l & E & Ho & Hl & Hc & Hd & Hw & Hh' & Hadv).
  rewrite source_received in Hc by (by left). assert (Target meta = Target (fr_meta f)) as Et
    by (unfold received; cbn [Target]; by rewrite decide_True). rewrite Et in *.
  exists c'. split; [done|]. split; [|done|done]. eapply abs_opened; try done.
  cbn [f_data]. unfold frame_items. by destruct (fr_data f).
Qed.

Lemma refine_keep c a : abs k d0 pre down0 c a → holds (c_reader c) body → SessionStatus (fr_meta f) = SessionStatusKeep →
  ∃ c', handleStatusKeep k meta c = Ret (c', None) ∧ refined k d0 pre down0 c c' (serve_frame f a) rest.
Proof using Type* - (dispatch Hserve).
  intros Ha Hh Hs. unfold handleStatusKeep. change (Option_ meta) with (Option_ (fr_meta f)). rewrite (fw_data _ Hf).
  destruct (fr_data f) as [d|] eqn:Ed.
  2: { rewrite bool_decide_false by (by intros [? [=]]). exists c. split; [done|]. split; [|done|done].
    unfold serve_frame. rewrite Hs, decide_False, decide_False, decide_False; try done. rewrite Ed. by intros [_ [? [=]]]. }
  rewrite bool_decide_true by done. cbn [negb]. change (SessionID meta) with (SessionID (fr_meta f)).
  pose proof Ha as [(m & Hm & Hcl & Hnone & Hids) _ (ls & Els & Hls) Hlive _ Hdown].
  unfold get_session. rewrite Hm. cbn [mbind option_bind]. unfold Get. rewrite Hcl.
  destruct (fl_ids a !! SessionID (fr_meta f)) as [i|] eqn:Ei.
  - destruct (Hids _ _ Ei) as (p & g & -> & Hg & ->). cbn [ret_or_panic new_session s_link s_type].
    destruct (Forall2_lookup_l _ _ _ _ _ Hls Hg) as (l & Hl & _).
    assert (st_links (c_store c) !! (length pre + i)%nat = Some l) as Hl'
      by (rewrite Els, lookup_app_r by lia; by replace (_ + i - _)%nat with i by lia).
    destruct (copy_to_spec (flow_type g) (Target meta) c _ l d rest (fw_size _ Hf d Ed) Hh Hl' (Hlive _ _ _ Ei Hl'))
      as (out' & rr & -> & Ho' & (s & Es & Hc) & Hh' & Hadv). cbn [outcome_bind IsWriteError fmap option_fmap option_map].
    eexists. split; [reflexivity|]. split; [|done|done].
    eapply (abs_pushed _ _ _ _ c); try done. exists s. split; [done|]. unfold frame_items.
    rewrite Ed, source_received in * by (by right). done.
  - rewrite (Hnone _ Ei). unfold notify_end.
    destruct (mux_Close_spec wlive wsink (NewResponseWriter (SessionID (fr_meta f)) TransferTypeStream) (c_down c))
      as (down & -> & He); [apply response_writer_ok, (fw_ok _ Hf)|apply Hdown|]. cbn [outcome_bind].
    destruct (discard_spec meta (with_down down c) (Some d) rest) as (r' & -> & Hh' & Hadv).
    { change (Option_ meta) with (Option_ (fr_meta f)). by rewrite (fw_data _ Hf), Ed. }
    { intros x [= <-]. by apply (fw_size _ Hf). }
    { done. }
    eexists. split; [reflexivity|]. split; [|done|done].
    unfold serve_frame. rewrite Hs, decide_False, decide_True by (done || (split; [done|by rewrite Ed])). rewrite Ei.
    destruct Ha as [Hopen Hinj Hlinks Hlv Hdial Hdn]. split; try done. cbn [fl_unknown with_reader with_down c_down].
    rewrite fmap_app, join_app. eapply emitted_trans; [done|]. cbn. by rewrite app_nil_r.
Qed.

Lemma refine_end c a : abs k d0 pre down0 c a → holds (c_reader c) body → SessionStatus (fr_meta f) = SessionStatusEnd →
  ∃ c', handleStatusEnd k meta c = Ret (c', None) ∧ refined k d0 pre down0 c c' (serve_frame f a) rest.
Proof using Type* - (dispatch Hserve).
  intros Ha Hh Hs. unfold handleStatusEnd. change (SessionID meta) with (SessionID (fr_meta f)).
  set (c1 := match get_session k (SessionID (fr_meta f)) c with Some p => _ | None => _ end).
  assert (abs k d0 pre down0 c1 (serve_frame f a) ∧ c_reader c1 = c_reader c) as [Ha1 Er].
  { unfold serve_frame. rewrite Hs, decide_False, decide_False, decide_True by (done || by intros [[=] _]).
    pose proof Ha as [(m & Hm & Hcl & Hnone & Hids) _ _ _ _ _]. subst c1.
    destruct (get_session k (SessionID (fr_meta f)) c) as [p|] eqn:Ep; pose proof Ep as Ep';
      unfold get_session in Ep'; rewrite Hm in Ep'; cbn in Ep'; unfold Get in Ep'; rewrite Hcl in Ep'.
    - destruct (fl_ids a !! SessionID (fr_meta f)) as [i|] eqn:Ei; [|by rewrite (Hnone _ Ei) in Ep'].
      destruct (Hids _ _ Ei) as (q & g & Hq & Hg & Hsess). rewrite Ep' in Hq. injection Hq as <-.
      split; [by eapply abs_closed|done].
    - split; [|done]. rewrite delete_id; [by destruct a|]. destruct (fl_ids a !! _) eqn:Ei; [|done].
      destruct (Hids _ _ Ei) as (q & g & Hq & _). congruence. }
  destruct (discard_spec meta c1 (fr_data f) rest (fw_data _ Hf) (fw_size _ Hf)) as (r' & -> & Hh' & Hadv); [by rewrite Er|].
  eexists. split; [reflexivity|]. rewrite Er in Hadv. split; [|done|done]. by eapply abs_proper.
Qed.

Lemma refine_alive c a : abs k d0 pre down0 c a → holds (c_reader c) body → SessionStatus (fr_meta f) = SessionStatusKeepAlive →
  ∃ c', handleStatusKeepAlive meta c = Ret (c', None) ∧ refined k d0 pre down0 c c' (serve_frame f a) rest.
Proof using Type* - (dispatch Hserve).
  intros Ha Hh Hst. unfold handleStatusKeepAlive.
  destruct (discard_spec meta c (fr_data f) rest (fw_data _ Hf) (fw_size _ Hf) Hh) as (r' & -> & Hh' & Hadv').
  eexists. split; [reflexivity|]. split; [|done|done].
  unfold serve_frame. rewrite Hst, decide_False, decide_False, decide_False by (done || by intros [[=] _]).
  by eapply abs_proper.
Qed.

(** The metadata of the frame comes first. *)
Lemma refine_meta c a : abs k d0 pre down0 c a → holds (c_reader c) (fr_bytes f ++ rest) →
  ∃ r, br_Unmarshal f0 (c_reader c) = Ret (Ok meta, r) ∧ abs k d0 pre down0 (with_reader r c) a ∧ holds r body ∧
    advanced (c_reader c) r.
Proof using Type* - (dispatch Hserve).
  intros Ha Hh. destruct (br_Unmarshal_spec (fr_meta f) (fr_udp f) f0 (c_reader c) body (fw_ok _ Hf)) as (r & -> & Hr & Hadv).
  { unfold fr_bytes, frame_bytes, data_bytes at 1 in Hh. unfold frame_bytes, data_bytes at 1. rewrite app_nil_r.
    by rewrite <- !app_assoc in *. }
  exists r. split; [done|]. split; [by eapply abs_proper|done].
Qed.

(** A frame read from where its metadata ends. *)
Lemma refined_after c c' r a' : refined k d0 pre down0 (with_reader r c) c' a' rest → advanced (c_reader c) r →
  refined k d0 pre down0 c c' a' rest.
Proof. intros [? ? ?] Hadv. split; [done|done|by eapply advanced_trans]. Qed.
End frames.

Lemma handleFrame_refines k d0 pre down0 f rest (Hf : frame_wf f) c a : abs k d0 pre down0 c a → holds (c_reader c) (fr_bytes f ++ rest) →
  ∃ c', handleFrame dispatch k Network_Unknown c = Ret (c', None) ∧ refined k d0 pre down0 c c' (serve_frame f a) rest.
Proof using Type*.
  intros Ha Hh. unfold handleFrame.
  destruct (refine_meta k d0 pre down0 f rest Hf zero_meta c a Ha Hh) as (r & -> & Ha' & Hr & Hadv).
  cbn [outcome_bind]. change (SessionStatus (received (fr_meta f) (fr_udp f) zero_meta)) with (SessionStatus (fr_meta f)).
  pose proof (fw_status _ Hf) as Hst. rewrite !elem_of_cons, elem_of_nil in Hst.
  destruct Hst as [Hst|[Hst|[Hst|[Hst|[]]]]].
  - rewrite (decide_False (P := _ = SessionStatusKeepAlive)), (decide_False (P := _ = SessionStatusEnd)),
      (decide_True (P := _ = SessionStatusNew)) by (by rewrite Hst).
    destruct (refine_new k d0 pre down0 f rest Hf zero_meta _ a eq_refl Ha' Hr Hst) as (c' & -> & Hc').
    exists c'. split; [done|by eapply refined_after].
  - rewrite (decide_False (P := _ = SessionStatusKeepAlive)), (decide_False (P := _ = SessionStatusEnd)),
      (decide_False (P := _ = SessionStatusNew)), (decide_True (P := _ = SessionStatusKeep)) by (by rewrite Hst).
    destruct (refine_keep k d0 pre down0 f rest Hf zero_meta _ a Ha' Hr Hst) as (c' & -> & Hc').
    exists c'. split; [done|by eapply refined_after].
  - rewrite (decide_False (P := _ = SessionStatusKeepAlive)), (decide_True (P := _ = SessionStatusEnd)) by (by rewrite Hst).
    destruct (refine_end k d0 pre down0 f rest Hf zero_meta _ a Ha' Hr Hst) as (c' & -> & Hc').
    exists c'. split; [done|by eapply refined_after].
  - rewrite decide_True by done.
    destruct (refine_alive k d0 pre down0 f rest Hf zero_meta _ a Ha' Hr Hst) as (c' & -> & Hc').
    exists c'. split; [done|by eapply refined_after].
Qed.
End refinement.
