(* ===== verification/MuxDelivery.v ===== *)
(** From the writers of a mux connection to the links behind the server
    (src/upstream/xray-core/common/mux: writer.go, client.go and server.go): any
    number of sessions write side by side, their frames are interleaved on the
    connection in any way, the connection is cut up in any way, and the server
    opens one link for every session and puts on it what the session wrote. *)
From stdpp Require Import gmap functions.
From S2P Require Import Prelude GoText NetIP Address Transport Frame Uuid Buf AddressParser BufAppend Mux MultiBuffer BufIO ChunkStream MuxStream MuxSession MuxServer MuxRefine.

(** ** Interleavings *)

(** [r] has the elements of the first [n] lists of [ls], each list in its
    order. *)
Inductive merges {A : Type} (n : nat) : (nat → list A) → list A → Prop :=
| merges_nil ls : (∀ j, (j < n)%nat → ls j = []) → merges n ls []
| merges_cons ls j x l r : (j < n)%nat → ls j = x :: l → merges n (<[j := l]> ls) r → merges n ls (x :: r).

(** The frames of one session, from the first to the last. *)
Record session_frames (id : Z) (t : Destination) (fs : list mux_frame) : Prop := {
  sf_shape : ∃ f0 mids e, fs = f0 :: mids ++ [e] ∧ SessionStatus (fr_meta f0) = SessionStatusNew ∧
    Forall (λ f, SessionStatus (fr_meta f) = SessionStatusKeep) mids ∧
    SessionStatus (fr_meta e) = SessionStatusEnd ∧ fr_data e = None ∧ Target (fr_meta f0) = t;
  sf_id : Forall (λ f, SessionID (fr_meta f) = id) fs
}.

(** The data of the frames [fs]. *)
Definition items (fs : list mux_frame) : list (bytes * option Destination) := mjoin (frame_items <$> fs).

Section interleaving.

(** The sessions of a connection: their numbers, their targets and their frames. *)
Context (n : nat) (id_of : nat → Z) (target_of : nat → Destination) (full : nat → list mux_frame).
Context (Hids : ∀ j1 j2, (j1 < n)%nat → (j2 < n)%nat → id_of j1 = id_of j2 → j1 = j2).
Context (Hfull : ∀ j, (j < n)%nat → session_frames (id_of j) (target_of j) (full j)).

(** The flow of a session that has sent the frames [sent]. *)
Definition part_flow (sent : nat → list mux_frame) (j : nat) : flow :=
  {| f_target := target_of j; f_data := items (sent j) |}.

(** The state [a] when the frames [sent] have been served and [todo] are to come;
    [order] tells which session every flow belongs to. *)
Record partway (sent todo : nat → list mux_frame) (order : list nat) (a : flows) : Prop := {
  pw_split : ∀ j, (j < n)%nat → full j = sent j ++ todo j;
  pw_started : ∀ j, j ∈ order ↔ (j < n)%nat ∧ sent j ≠ [];
  pw_order : NoDup order;
  pw_flows : fl_all a = part_flow sent <$> order;
  pw_ids : ∀ id i, fl_ids a !! id = Some i ↔ ∃ j, order !! i = Some j ∧ id_of j = id ∧ todo j ≠ [];
  pw_unknown : fl_unknown a = []
}.

Lemma items_snoc l f : items (l ++ [f]) = items l ++ frame_items f.
Proof. unfold items. rewrite fmap_app, join_app. cbn. by rewrite app_nil_r. Qed.

(** Where a frame of a session stands. *)
Lemma frame_position j d f l : (j < n)%nat → full j = d ++ f :: l →
  SessionID (fr_meta f) = id_of j ∧
  ((d = [] ∧ l ≠ [] ∧ SessionStatus (fr_meta f) = SessionStatusNew ∧ Target (fr_meta f) = target_of j) ∨
   (d ≠ [] ∧ l ≠ [] ∧ SessionStatus (fr_meta f) = SessionStatusKeep) ∨
   (d ≠ [] ∧ l = [] ∧ SessionStatus (fr_meta f) = SessionStatusEnd ∧ fr_data f = None)).
Proof using Hfull.
  intros Hj E. destruct (Hfull j Hj) as [(f0 & mids & e & Es & H0 & Hm & He & Hd & Ht) Hid]. rewrite E in Es.
  split. { rewrite E, Forall_app, Forall_cons in Hid. apply Hid. }
  destruct d as [|f1 d]; cbn [app] in Es; injection Es as -> Es.
  { left. subst l. split_all; try done. by destruct mids. }
  right. destruct (decide (l = [])) as [->|Hl].
  - right. apply app_inj_2 in Es as [-> [= ->]]; [done|done].
  - left. split; [done|]. split; [done|]. destruct (exists_last Hl) as (l' & e' & ->).
    change (d ++ f :: l' ++ [e']) with (d ++ (f :: l') ++ [e']) in Es. rewrite app_assoc in Es.
    apply app_inj_2 in Es as [<- _]; [|done]. rewrite Forall_app, Forall_cons in Hm. apply Hm.
Qed.

Lemma part_flow_insert sent j d (order : list nat) : j ∉ order → part_flow (<[j := d]> sent) <$> order = part_flow sent <$> order.
Proof.
  intros Hj. apply list_fmap_ext. intros i x Hx. unfold part_flow. rewrite fn_lookup_insert_ne; [done|].
  intros <-. apply Hj. by apply list_elem_of_lookup_2 in Hx.
Qed.

Section step.
Context (sent todo : nat → list mux_frame) (order : list nat) (a : flows) (Hpw : partway sent todo order a).
Context (j : nat) (f : mux_frame) (l : list mux_frame) (Hj : (j < n)%nat) (Hf : todo j = f :: l).

Notation sent' := (<[j := sent j ++ [f]]> sent).
Notation todo' := (<[j := l]> todo).

Lemma step_split j' : (j' < n)%nat → full j' = sent' j' ++ todo' j'.
Proof using Hpw Hf.
  intros Hj'. destruct (decide (j = j')) as [<-|Hne].
  - rewrite !fn_lookup_insert, <- app_assoc. cbn [app]. rewrite <- Hf. by apply (pw_split _ _ _ _ Hpw).
  - rewrite !fn_lookup_insert_ne by done. by apply (pw_split _ _ _ _ Hpw).
Qed.

Lemma order_bound j' i : order !! i = Some j' → (j' < n)%nat.
Proof using Hpw. intros Hi%list_elem_of_lookup_2. by apply (pw_started _ _ _ _ Hpw) in Hi as [? _]. Qed.

Lemma step_started j' : sent j ≠ [] → j' ∈ order ↔ (j' < n)%nat ∧ sent' j' ≠ [].
Proof using Hpw.
  intros Hd. rewrite (pw_started _ _ _ _ Hpw). destruct (decide (j = j')) as [<-|Hne].
  - rewrite fn_lookup_insert. split; intros [? _]; (split; [done|]); [by destruct (sent j)|done].
  - by rewrite fn_lookup_insert_ne.
Qed.

Lemma step_new : sent j = [] → l ≠ [] → SessionID (fr_meta f) = id_of j →
  SessionStatus (fr_meta f) = SessionStatusNew → Target (fr_meta f) = target_of j →
  partway sent' todo' (order ++ [j]) (serve_frame f a).
Proof using Hids Hpw Hj Hf.
  intros Hd Hl Hid Hs Ht. unfold serve_frame. rewrite Hs, decide_True by done.
  assert (j ∉ order) as Hno by (rewrite (pw_started _ _ _ _ Hpw); naive_solver).
  assert (length (fl_all a) = length order) as Elen by (by rewrite (pw_flows _ _ _ _ Hpw), length_fmap).
  split; cbn [fl_ids fl_all fl_unknown].
  - apply step_split.
  - intros j'. rewrite elem_of_app, list_elem_of_singleton, (pw_started _ _ _ _ Hpw). destruct (decide (j = j')) as [<-|Hne].
    + rewrite fn_lookup_insert, Hd. naive_solver.
    + rewrite fn_lookup_insert_ne by done. naive_solver.
  - apply NoDup_app. split; [apply Hpw|]. split; [|apply NoDup_singleton]. intros x Hx ->%list_elem_of_singleton. done.
  - rewrite fmap_app, part_flow_insert, (pw_flows _ _ _ _ Hpw) by done. f_equal. cbn [fmap list_fmap]. unfold part_flow.
    rewrite fn_lookup_insert, Hd, Ht. unfold items. cbn. by rewrite app_nil_r.
  - intros id i. rewrite Hid, lookup_insert_Some, (pw_ids _ _ _ _ Hpw). split.
    + intros [[<- <-]|[Hne (j' & Hi & <- & Ht')]].
      * exists j. rewrite Elen, lookup_app_r, Nat.sub_diag, fn_lookup_insert by done. done.
      * exists j'. rewrite lookup_app_l by (by eapply lookup_lt_Some). rewrite fn_lookup_insert_ne by naive_solver. done.
    + intros (j' & Hi & <- & Ht'). apply lookup_app_Some in Hi as [Hi|[Hle Hi]].
      * right. destruct (decide (j = j')) as [<-|Hne]; [by apply list_elem_of_lookup_2 in Hi|].
        rewrite fn_lookup_insert_ne in Ht' by done. split; [|by exists j'].
        intros E. apply Hne, Hids; [done|by eapply order_bound|done].
      * left. apply list_lookup_singleton_Some in Hi as [Hi <-]. split; [done|]. rewrite Elen. lia.
  - apply Hpw.
Qed.

Lemma open_id : sent j ≠ [] → ∃ i, order !! i = Some j ∧ fl_ids a !! id_of j = Some i.
Proof using Hpw Hj Hf.
  intros Hd. assert (j ∈ order) as [i Hi]%list_elem_of_lookup_1 by (by apply (pw_started _ _ _ _ Hpw)).
  exists i. split; [done|]. apply (pw_ids _ _ _ _ Hpw). exists j. by rewrite Hf.
Qed.

Lemma flows_push i : order !! i = Some j →
  part_flow sent' <$> order = alter (push_data (frame_items f)) i (part_flow sent <$> order).
Proof using Hpw.
  intros Hi. apply list_eq. intros i'. rewrite list_lookup_alter, !list_lookup_fmap. case_decide as E.
  - subst i'. rewrite Hi. cbn [fmap option_fmap option_map]. unfold part_flow, push_data. cbn [f_target f_data].
    by rewrite fn_lookup_insert, items_snoc.
  - destruct (order !! i') as [j'|] eqn:Ei; [|done]. cbn [fmap option_fmap option_map]. unfold part_flow.
    rewrite fn_lookup_insert_ne; [done|]. intros <-. apply E. by eapply NoDup_lookup; [apply (pw_order _ _ _ _ Hpw)|..].
Qed.

Lemma step_ids : l ≠ [] → ∀ id i, fl_ids a !! id = Some i ↔ ∃ j', order !! i = Some j' ∧ id_of j' = id ∧ todo' j' ≠ [].
Proof using Hpw Hf.
  intros Hl id i. rewrite (pw_ids _ _ _ _ Hpw). apply exist_proper. intros j'.
  destruct (decide (j = j')) as [<-|Hne]; [rewrite fn_lookup_insert, Hf; naive_solver|by rewrite fn_lookup_insert_ne].
Qed.

Lemma step_keep : sent j ≠ [] → l ≠ [] → SessionID (fr_meta f) = id_of j → SessionStatus (fr_meta f) = SessionStatusKeep →
  partway sent' todo' order (serve_frame f a).
Proof using Hids Hpw Hj Hf.
  intros Hd Hl Hid Hs. destruct (open_id Hd) as (i & Hi & Ei). unfold serve_frame. rewrite Hs, decide_False by done.
  destruct (fr_data f) as [x|] eqn:Ed.
  - rewrite decide_True by done. rewrite Hid, Ei. split; cbn [fl_ids fl_all fl_unknown];
      [apply step_split|intros; by apply step_started|apply Hpw| |by apply step_ids|apply Hpw].
    by rewrite (flows_push i), (pw_flows _ _ _ _ Hpw).
  - rewrite !decide_False by (done || by intros [_ [? [=]]]).
    split; [apply step_split|intros; by apply step_started|apply Hpw| |by apply step_ids|apply Hpw].
    rewrite (flows_push i), (pw_flows _ _ _ _ Hpw) by done. unfold frame_items. rewrite Ed.
    apply list_eq. intros i'. rewrite list_lookup_alter. case_decide as E; [rewrite E|done].
    destruct ((part_flow sent <$> order) !! i') as [[t d]|]; [|done]. unfold push_data. cbn. by rewrite app_nil_r.
Qed.

Lemma step_end : sent j ≠ [] → l = [] → SessionID (fr_meta f) = id_of j → SessionStatus (fr_meta f) = SessionStatusEnd →
  fr_data f = None → partway sent' todo' order (serve_frame f a).
Proof using Hids Hpw Hj Hf.
  intros Hd Hl Hid Hs Ed. unfold serve_frame. rewrite Hs, decide_False, decide_False, decide_True by (done || by intros [[=] _]).
  split; cbn [fl_ids fl_all fl_unknown]; [apply step_split|intros; by apply step_started|apply Hpw| | |apply Hpw].
  - destruct (open_id Hd) as (i & Hi & Ei). rewrite (flows_push i), (pw_flows _ _ _ _ Hpw) by done. unfold frame_items. rewrite Ed.
    apply list_eq. intros i'. rewrite list_lookup_alter. case_decide as E; [rewrite E|done].
    destruct ((part_flow sent <$> order) !! i') as [[t d]|]; [|done]. unfold push_data. cbn. by rewrite app_nil_r.
  - intros id i. rewrite Hid, lookup_delete_Some, (pw_ids _ _ _ _ Hpw). split.
    + intros [Hne (j' & Hi & <- & Ht')]. exists j'. rewrite fn_lookup_insert_ne by naive_solver. done.
    + intros (j' & Hi & <- & Ht'). destruct (decide (j = j')) as [<-|Hne]; [by rewrite fn_lookup_insert, Hl in Ht'|].
      rewrite fn_lookup_insert_ne in Ht' by done. split; [|by exists j'].
      intros E. apply Hne, Hids; [done|by eapply order_bound|done].
Qed.

Lemma partway_step : ∃ order', partway sent' todo' order' (serve_frame f a).
Proof using All.
  destruct (frame_position j (sent j) f l Hj) as [Hid [(Hd & Hl & Hs & Ht)|[(Hd & Hl & Hs)|(Hd & Hl & Hs & Ed)]]].
  - rewrite <- Hf. by apply (pw_split _ _ _ _ Hpw).
  - eexists. by apply step_new.
  - eexists. by apply step_keep.
  - eexists. by apply step_end.
Qed.
End step.

(** Whatever the interleaving, there is one flow for every session, to its target
    and with its data. *)
Lemma interleaved_flows fs : merges n full fs →
  ∃ order, order ≡ₚ seq 0 n ∧
    fl_all (serve_frames fs no_flows) = (λ j, {| f_target := target_of j; f_data := items (full j) |}) <$> order ∧
    fl_unknown (serve_frames fs no_flows) = [].
Proof using All.
  enough (∀ sent todo order a, partway sent todo order a → merges n todo fs →
    ∃ sent' order', partway sent' (λ _, []) order' (serve_frames fs a)) as Hgen.
  { intros Hm. destruct (Hgen (λ _, []) full [] no_flows) as (sent & order & Hpw); [|done|].
    - split; try done; [intros j; rewrite elem_of_nil; naive_solver|apply NoDup_nil_2|].
      intros id i. cbn. rewrite lookup_empty. naive_solver.
    - exists order. destruct Hpw as [Hsp Hst Hno Hfl _ Hun]. split; [|split; [|done]].
      + apply NoDup_Permutation; [done|apply NoDup_seq|]. intros j. rewrite Hst, elem_of_seq. split; [lia|].
        intros Hj. split; [lia|]. specialize (Hsp j ltac:(lia)). rewrite app_nil_r in Hsp. rewrite <- Hsp.
        destruct (Hfull j ltac:(lia)) as [(f0 & mids & e & -> & _) _]. done.
      + rewrite Hfl. apply list_fmap_ext. intros i j Hi%list_elem_of_lookup_2. unfold part_flow. f_equal.
        apply Hst in Hi as [Hj _]. rewrite (Hsp j Hj), app_nil_r. done. }
  intros sent todo order a Hpw Hm. revert sent order a Hpw. induction Hm as [todo Hnil|todo j f l r Hj Hf _ IH]; intros sent order a Hpw.
  - exists sent, order. destruct Hpw as [Hsp Hst Hno Hfl Hids' Hun]. split; try done.
    + intros j Hj. by rewrite (Hsp j Hj), (Hnil j Hj).
    + intros id i. cbn [serve_frames foldl]. rewrite Hids'. split.
      * intros (j & Hi & _ & Ht). destruct Ht. apply Hnil. apply list_elem_of_lookup_2 in Hi. by apply Hst in Hi as [? _].
      * by intros (? & _ & _ & ?).
  - destruct (partway_step _ _ _ _ Hpw j f l Hj Hf) as (order' & Hpw'). by eapply IH.
Qed.
End interleaving.

(** ** The server runs *)

(** The end of the connection. *)
Lemma br_Unmarshal_end f0 r : holds r [] → final (as_stream r) = ErrEOF → ∃ r', br_Unmarshal f0 r = Ret (Err ErrEOF, r').
Proof.
  intros [Hr Hc] Hf. unfold br_Unmarshal. destruct (br_ReadFull_stream 2 r Hr) as (r' & _ & Hrd).
  enough (ReadFull (as_stream r) 2 = Err ErrEOF) as E by (rewrite E in Hrd; destruct Hrd as [-> _]; by exists r').
  unfold ReadFull. rewrite Hf. unfold contents in Hc. induction (chunks (as_stream r)) as [|c cs IH]; [done|].
  change (c ++ mjoin cs = []) in Hc. apply app_eq_nil in Hc as [-> Hcs]. by apply IH.
Qed.

Section serving.
Context {L D W : Type} `{Link L, BufWriter W}.
Context (dispatch : D → Destination → D * result frame_error L).
Context (live : L → Prop) (sink : L → list (list Buffer)) (dialed : D → list Destination).
Context (wlive : W → Prop) (wsink : W → list (list Buffer)).
Context `{!ServingLinks live sink, !ServingDispatcher dispatch live sink dialed, !LiveWriter wlive wsink}.

(** Closing a session or a table of them takes nothing from the links. *)
Lemma on_link_sinks l (g : L → L) (w : store L) : (∀ x, sink (g x) = sink x) → sink <$> st_links (on_link l g w) = sink <$> st_links w.
Proof.
  intros Hg. destruct l as [l|]; [|done]. cbn. apply list_eq. intros i. rewrite !list_lookup_fmap, list_lookup_alter.
  case_decide as E; [rewrite E|done]. destruct (st_links w !! i); [|done]. cbn. by rewrite Hg.
Qed.

Lemma session_Close_sinks p (w : store L) : sink <$> st_links (session_Close p w) = sink <$> st_links w.
Proof using Type*.
  unfold session_Close. destruct (st_sessions w !! p) as [s|]; [|done]. destruct (s_closed s); [done|].
  destruct (s_XUDP s); cbn [on_manager on_xudps st_links]; rewrite on_link_sinks by (intros; apply sink_detached || apply sink_closed); done.
Qed.

Lemma manager_Close_sinks k (w : store L) : sink <$> st_links (manager_Close k w) = sink <$> st_links w.
Proof using Type*.
  unfold manager_Close. destruct (st_managers w !! k) as [m|]; [|done]. destruct (sm_closed m); [done|]. cbv zeta.
  set (w0 := on_manager k _ w). change (sink <$> st_links w) with (sink <$> st_links w0). cbn [on_manager st_links].
  induction (map_to_list (sm_sessions m)).*2 as [|p ps IH]; [done|]. cbn [foldr]. by rewrite session_Close_sinks.
Qed.

(** [n] rounds of the loop of a connection. *)
Fixpoint rounds (n k : nat) (v : @server L D W) : outcome (@server L D W) :=
  match n with O => Ret v | S n => let? v := run_round dispatch k v in rounds n k v end.

(** A connection that is being served. *)
Record serving (k : nat) (v : @server L D W) (x : worker) : Prop := {
  svg_worker : sv_workers v !! k = Some x;
  svg_running : wk_running x = true;
  svg_allowed : wk_allowed x = Network_Unknown;
  svg_calm : wk_interrupted x = false
}.

Notation abs_k k d0 pre down0 := (abs live sink dialed wlive wsink k d0 pre down0).

Lemma round_refine k d0 pre down0 f rest v x a : serving k v x → frame_wf f →
  abs_k k d0 pre down0 (conn_of v x) a → holds (wk_reader x) (fr_bytes f ++ rest) →
  ∃ v' x', run_round dispatch k v = Ret v' ∧ serving k v' x' ∧ abs_k k d0 pre down0 (conn_of v' x') (serve_frame f a) ∧
    holds (wk_reader x') rest ∧ final (as_stream (wk_reader x')) = final (as_stream (wk_reader x)).
Proof using Type*.
  intros [Hx Hrun Hal Hcalm] Hf Ha Hh. unfold run_round. rewrite Hx, Hrun, Hal. cbn [negb].
  destruct (handleFrame_refines dispatch live sink dialed wlive wsink k d0 pre down0 f rest Hf _ a Ha Hh)
    as (c' & -> & [Ha' Hh' [Hf' _]]). cbn [outcome_bind]. eexists _, _. split; [reflexivity|]. split.
  { split; [cbn; by rewrite list_lookup_alter_eq, Hx|done|done|done]. }
  cbn [conn_of]. split; [|split; [done|done]]. by eapply abs_proper.
Qed.

Lemma rounds_refine k d0 pre down0 fs v x a : serving k v x → Forall frame_wf fs →
  abs_k k d0 pre down0 (conn_of v x) a → holds (wk_reader x) (wire fs) →
  ∃ v' x', rounds (length fs) k v = Ret v' ∧ serving k v' x' ∧ abs_k k d0 pre down0 (conn_of v' x') (serve_frames fs a) ∧
    holds (wk_reader x') [] ∧ final (as_stream (wk_reader x')) = final (as_stream (wk_reader x)).
Proof using Type*.
  intros Hx Hfs. revert v x a Hx. induction Hfs as [|f fs Hf Hfs IH]; intros v x a Hx Ha Hh; cbn [length rounds].
  { by exists v, x. }
  destruct (round_refine k d0 pre down0 f (wire fs) v x a Hx Hf Ha Hh) as (v1 & x1 & -> & Hx1 & Ha1 & Hh1 & Hf1).
  cbn [outcome_bind]. destruct (IH v1 x1 _ Hx1 Ha1 Hh1) as (v' & x' & -> & Hx' & Ha' & Hh' & Hf'). exists v', x'.
  split; [done|]. split; [done|]. split; [done|]. split; [done|]. congruence.
Qed.

(** The last round, at the end of the connection. *)
Lemma round_end k v x : serving k v x → holds (wk_reader x) [] → final (as_stream (wk_reader x)) = ErrEOF →
  ∃ v' x', run_round dispatch k v = Ret v' ∧ sv_workers v' !! k = Some x' ∧ wk_running x' = false ∧
    wk_interrupted x' = false ∧ sv_disp v' = sv_disp v ∧ wk_down x' = wk_down x ∧
    sink <$> st_links (sv_store v') = sink <$> st_links (sv_store v).
Proof using Type*.
  intros [Hx Hrun Hal Hcalm] Hh Hf. unfold run_round, handleFrame. rewrite Hx, Hrun. cbn [negb conn_of c_reader].
  destruct (br_Unmarshal_end zero_meta _ Hh Hf) as (r' & ->). cbn [outcome_bind]. rewrite bool_decide_false by naive_solver.
  eexists _, _. split; [reflexivity|]. cbn [sv_on_store sv_on_worker after_conn sv_workers sv_disp sv_store].
  rewrite !list_lookup_alter_eq, Hx. split; [reflexivity|]. cbn. rewrite Hcalm. by rewrite manager_Close_sinks.
Qed.

(** A connection on which nothing has happened. *)
Record fresh_conn (k : nat) (v : @server L D W) (x : worker) : Prop := {
  fc_serving : serving k v x;
  fc_table : st_managers (sv_store v) !! k = Some NewSessionManager;
  fc_down : wlive (wk_down x)
}.

Lemma fresh_abs k v x : fresh_conn k v x → abs_k k (sv_disp v) (st_links (sv_store v)) (wk_down x) (conn_of v x) no_flows.
Proof.
  intros [_ Ht Hd]. split; cbn [conn_of c_store c_disp c_down fl_ids fl_all fl_unknown no_flows].
  - exists NewSessionManager. by split.
  - done.
  - exists []. by rewrite app_nil_r.
  - done.
  - by rewrite app_nil_r.
  - by apply emitted_nil.
Qed.

Lemma serve_connection k v x fs : fresh_conn k v x → Forall frame_wf fs → holds (wk_reader x) (wire fs) →
  final (as_stream (wk_reader x)) = ErrEOF →
  let a := serve_frames fs no_flows in
  ∃ v' x' ss, rounds (S (length fs)) k v = Ret v' ∧ sv_workers v' !! k = Some x' ∧
    wk_running x' = false ∧ wk_interrupted x' = false ∧
    dialed (sv_disp v') = dialed (sv_disp v) ++ (f_target <$> fl_all a) ∧
    sink <$> st_links (sv_store v') = (sink <$> st_links (sv_store v)) ++ ss ∧
    Forall2 (λ f s, carries (flow_type f) s (f_data f)) (fl_all a) ss ∧
    emitted wlive wsink (wk_down x) (mjoin (end_notice <$> fl_unknown a)) (wk_down x').
Proof using Type*.
  intros Hx Hfs Hh Hf a. pose proof (fresh_abs k v x Hx) as Ha. destruct Hx as [Hx _ _].
  destruct (rounds_refine k _ _ _ fs v x no_flows Hx Hfs Ha Hh) as (v1 & x1 & E1 & Hx1 & Ha1 & Hh1 & Hf1).
  destruct (round_end k v1 x1 Hx1 Hh1 ltac:(congruence)) as (v' & x' & E2 & Hx' & Hr & Hi & Hd & Hw & Hs).
  destruct Ha1 as [_ _ (ls & Els & Hls) _ Hdial Hdown]. cbn [conn_of c_store c_disp c_down] in *.
  exists v', x', (sink <$> ls). split.
  { clear -E1 E2. revert v E1. induction (length fs) as [|n IH]; intros v.
    - cbn [rounds]. intros [= ->]. rewrite E2. done.
    - change (rounds (S n) k v) with (let? v := run_round dispatch k v in rounds n k v).
      change (rounds (S (S n)) k v) with (let? v := run_round dispatch k v in rounds (S n) k v).
      destruct (run_round dispatch k v) as [v2| |]; try done. cbn [outcome_bind]. apply IH. }
  split; [done|]. split; [done|]. split; [done|]. rewrite Hd. split; [done|]. rewrite Hs, Els, fmap_app. split; [done|].
  split; [by apply Forall2_fmap_r|by rewrite Hw].
Qed.

(** C14. The server refines the meaning of the frames: whatever the connection
    cuts the bytes of a sequence of frames into, the loop reads them all and
    stops at the end of the connection without an error; it has then dialed the
    target of every new session, in the order in which they came; the link of
    every session holds the data of that session's frames, in their order, as one
    stream of bytes or as the packets they were, each with its source; and for
    data of a session that is not open the peer has been told its end. *)
Theorem mux_server_refines k v x fs : fresh_conn k v x → Forall frame_wf fs → holds (wk_reader x) (wire fs) →
  final (as_stream (wk_reader x)) = ErrEOF →
  let a := serve_frames fs no_flows in
  ∃ v' x' ss, rounds (S (length fs)) k v = Ret v' ∧ sv_workers v' !! k = Some x' ∧
    wk_running x' = false ∧ wk_interrupted x' = false ∧
    dialed (sv_disp v') = dialed (sv_disp v) ++ (f_target <$> fl_all a) ∧
    sink <$> st_links (sv_store v') = (sink <$> st_links (sv_store v)) ++ ss ∧
    Forall2 (λ f s, carries (flow_type f) s (f_data f)) (fl_all a) ss ∧
    emitted wlive wsink (wk_down x) (mjoin (end_notice <$> fl_unknown a)) (wk_down x').
Proof using Type*. apply serve_connection. Qed.

End serving.

(** ** From the writers to the links *)

(** The pieces [xs] have the data of the multi-buffers [mbs]. *)
Definition same_data (ty : TransferType) (xs : list bytes) (mbs : list (list Buffer)) : Prop :=
  match ty with
  | TransferTypeStream => mjoin xs = mjoin (contents_of <$> mbs)
  | TransferTypePacket => List.filter (λ x, bool_decide (x ≠ [])) xs =
                          List.filter (λ x, bool_decide (x ≠ [])) (content <$> mjoin mbs)
  end.

Lemma same_data_app ty xs1 xs2 mbs1 mbs2 : same_data ty xs1 mbs1 → same_data ty xs2 mbs2 →
  same_data ty (xs1 ++ xs2) (mbs1 ++ mbs2).
Proof.
  destruct ty; cbn [same_data]; intros H1 H2.
  - by rewrite fmap_app, !join_app, H1, H2.
  - by rewrite join_app, fmap_app, !List.filter_app, H1, H2.
Qed.

Lemma contents_of_nil_filter bs : contents_of bs = [] → List.filter (λ x, bool_decide (x ≠ [])) (content <$> bs) = [].
Proof.
  induction bs as [|b bs IH]; [done|]. rewrite contents_of_cons. intros [Eb Ebs]%app_eq_nil. cbn [fmap list_fmap List.filter].
  rewrite Eb. rewrite bool_decide_false by naive_solver. by apply IH.
Qed.

Lemma cut_data ty mb cs : cut ty mb cs → same_data ty (contents_of <$> cs) [mb].
Proof.
  intros [(dr & -> & Hdr) _ Hp _]. destruct ty; cbn [same_data].
  - cbn. rewrite app_nil_r, contents_of_app, Hdr, app_nil_r. clear. induction cs as [|c cs IH]; [done|].
    change (contents_of c ++ mjoin (contents_of <$> cs) = contents_of (c ++ mjoin cs)). by rewrite IH, contents_of_app.
  - cbn. rewrite app_nil_r, fmap_app, List.filter_app, (contents_of_nil_filter dr Hdr), app_nil_r. specialize (Hp eq_refl).
    f_equal. clear -Hp. induction Hp as [|c cs Hc _ IH]; [done|]. destruct c as [|b [|]]; try done.
    cbn [fmap list_fmap]. rewrite contents_of_one. cbn. by rewrite IH.
Qed.

(** The frames that a writer puts out before the last. *)
Record front_of (w : MuxWriter) (fs : list mux_frame) : Prop := {
  fo_wf : Forall frame_wf fs;
  fo_id : Forall (λ f, SessionID (fr_meta f) = mw_id w) fs;
  fo_status : ∀ i f, fs !! i = Some f →
    SessionStatus (fr_meta f) = (if decide (i = 0%nat ∧ followup w = false) then SessionStatusNew else SessionStatusKeep) ∧
    Target (fr_meta f) = mw_dest w
}.

(** A writer after some frames. *)
Record writer_after (w w' : MuxWriter) (fs : list mux_frame) : Prop := {
  wa_ok : writer_ok w';
  wa_id : mw_id w' = mw_id w;
  wa_dest : mw_dest w' = mw_dest w;
  wa_type : mw_type w' = mw_type w;
  wa_global : globalID w' = globalID w;
  wa_followup : fs ≠ [] → followup w' = true;
  wa_start : fs = [] → followup w' = followup w
}.

Lemma front_app w w' fs1 fs2 : front_of w fs1 → writer_after w w' fs1 → front_of w' fs2 → front_of w (fs1 ++ fs2).
Proof.
  intros [W1 I1 S1] [_ Ei Ed _ _ Ef Es] [W2 I2 S2]. rewrite Ei in I2. split; [by apply Forall_app|by apply Forall_app|].
  intros i f [Hi|[Hle Hi]]%lookup_app_Some; [by apply S1|]. destruct (S2 _ _ Hi) as [-> ->]. split; [|done].
  destruct fs1 as [|g fs1]; cbn [length] in *.
  - rewrite Es, Nat.sub_0_r by done. done.
  - rewrite (Ef ltac:(done)), !decide_False by (intros []; (done || lia)). done.
Qed.

Lemma after_trans w1 w2 w3 fs1 fs2 : writer_after w1 w2 fs1 → writer_after w2 w3 fs2 → writer_after w1 w3 (fs1 ++ fs2).
Proof.
  intros [O1 I1 D1 T1 G1 F1 S1] [O2 I2 D2 T2 G2 F2 S2]. split; try congruence.
  - intros Hne. destruct fs2 as [|f fs2]; [|by apply F2]. rewrite S2 by done. apply F1. by rewrite app_nil_r in Hne.
  - intros [-> ->]%app_eq_nil. by rewrite S2, S1.
Qed.

Lemma after_one w f : writer_ok w → writer_after w (after_frame w) [f].
Proof. intros Hw. split; try done. by apply writer_ok_next. Qed.

(** One frame of a writer that does not carry a global id. *)
Lemma front_one w f : writer_ok w → globalID w = replicate 8 0 →
  (f = meta_frame w ∨ ∃ c, f = chunk_frame w c ∧ sourced c ∧ Z.of_nat (length (contents_of c)) ≤ 8192) → front_of w [f].
Proof.
  intros Hw Hg Hf.
  assert (frame_wf f ∧ SessionID (fr_meta f) = mw_id w ∧ Target (fr_meta f) = mw_dest w ∧
    SessionStatus (fr_meta f) = if followup w then SessionStatusKeep else SessionStatusNew) as (H1 & H2 & H3 & H4).
  { destruct Hf as [->|(c & -> & Hs & Hl)]; (split; [|done]); split; cbn; try done.
    - exact (new_frame_ok w 0 None Hw ltac:(done)).
    - destruct (followup w); set_solver.
    - apply new_frame_ok; [done|]. intros u. by apply data_UDP_sourced.
    - intros d [= <-]. done.
    - destruct (followup w); set_solver. }
  split; [by constructor|by constructor|]. intros [|i] g; [|done]. intros [= <-]. rewrite H4. split; [|done].
  destruct (followup w); [by rewrite decide_False by naive_solver|by rewrite decide_True].
Qed.

Lemma chunk_frames_front w cs : writer_ok w → globalID w = replicate 8 0 →
  Forall (λ c, sourced c ∧ Z.of_nat (length (contents_of c)) ≤ 8192) cs →
  front_of w (chunk_frames w cs) ∧ writer_after w (foldl (λ w _, after_frame w) w cs) (chunk_frames w cs) ∧
  (items (chunk_frames w cs)).*1 = contents_of <$> cs.
Proof.
  intros Hw Hg Hcs. revert w Hw Hg. induction Hcs as [|c cs [Hs Hl] Hcs IH]; intros w Hw Hg; cbn [chunk_frames foldl].
  { split; [by repeat constructor|]. split; [by split|done]. }
  pose proof (after_one w (chunk_frame w c) Hw) as Ha1.
  destruct (IH (after_frame w) (writer_ok_next w Hw) Hg) as (H1 & H2 & H3).
  pose proof (front_one w (chunk_frame w c) Hw Hg ltac:(right; by exists c)) as Hf1. split_all.
  - exact (front_app w _ [_] _ Hf1 Ha1 H1).
  - exact (after_trans w _ _ [_] _ Ha1 H2).
  - cbn [fmap list_fmap]. rewrite <- H3. done.
Qed.

Lemma end_frame_wf w : writer_ok w → frame_wf (end_frame w).
Proof. intros [Hid _ _]. split; [by split|cbn; by destruct (hasError w)|done|set_solver|done]. Qed.

Section writers.
Context {W : Type} `{BufWriter W} (wlive : W → Prop) (wsink : W → list (list Buffer)) `{!LiveWriter wlive wsink}.

(** What a session does on the connection: its writes, then [Close]. *)
Fixpoint session_writes (mbs : list (list Buffer)) (w : MuxWriter) (out : W) : outcome (W * option frame_error) :=
  match mbs with
  | [] => let? out := mux_Close w out in Ret (out, None)
  | mb :: mbs =>
    let? (w, out, err) := mux_WriteMultiBuffer mb w out in
    match err with Some e => Ret (out, Some e) | None => session_writes mbs w out end
  end.

(** A session before its first write. *)
Record session_ok (w : MuxWriter) (mbs : list (list Buffer)) : Prop := {
  so_writer : writer_ok w;
  so_new : followup w = false;
  so_plain : globalID w = replicate 8 0;
  so_type : mw_type w = flow_type {| f_target := mw_dest w; f_data := [] |};
  so_writes : mbs ≠ [];
  so_data : Forall (λ mb, mb_ok mb ∧ sourced mb) mbs
}.
(** The frames of one write. *)
Lemma write_frames w mb : writer_ok w → globalID w = replicate 8 0 → mb_ok mb → sourced mb →
  ∃ fs w', fs ≠ [] ∧ front_of w fs ∧ writer_after w w' fs ∧ same_data (mw_type w) (items fs).*1 [mb] ∧
    ∀ out, wlive out → ∃ out', mux_WriteMultiBuffer mb w out = Ret (w', out', None) ∧ emitted wlive wsink out (wire fs) out'.
Proof using Type*.
  intros Hw Hg Hmb Hs. destruct (mux_WriteMultiBuffer_spec wlive wsink mb w Hmb Hs Hw) as (cs & Hcut & Hrun).
  pose proof (mb_ok_empty mb Hmb) as Eb. destruct (mb_IsEmpty mb) eqn:Em.
  - exists [meta_frame w], (after_frame w). split; [done|]. split; [apply front_one; by auto|]. split; [by apply after_one|].
    split; [|done]. symmetry in Eb. apply bool_decide_eq_true in Eb.
    destruct (mw_type w); cbn; rewrite app_nil_r; [done|]. by rewrite contents_of_nil_filter.
  - assert (Forall (λ c, sourced c ∧ Z.of_nat (length (contents_of c)) ≤ 8192) cs) as Hcs.
    { destruct Hcut as [(dr & -> & _) Hsz _ _]. apply Forall_app in Hs as [Hs _]. clear -Hs Hsz.
      induction Hsz as [|c cs Hc _ IH]; [constructor|]. change (Forall (λ b, ∀ u, UDP b = Some u → endpoint_wire u) (c ++ mjoin cs)) in Hs.
      apply Forall_app in Hs as [? ?]. constructor; [done|by apply IH]. }
    destruct (chunk_frames_front w cs Hw Hg Hcs) as (H1 & H2 & H3). exists (chunk_frames w cs). eexists.
    split; [|split; [done|split; [done|split; [|done]]]].
    + destruct cs; [|done]. destruct Hcut as [(dr & -> & Hdr) _ _ _]. symmetry in Eb. by apply bool_decide_eq_false in Eb.
    + rewrite H3. by apply cut_data.
Qed.

(** The frames of a session, from its first write to [Close]. *)
Lemma session_writes_frames w mbs : writer_ok w → globalID w = replicate 8 0 → Forall (λ mb, mb_ok mb ∧ sourced mb) mbs →
  ∃ front e, front_of w front ∧ same_data (mw_type w) (items front).*1 mbs ∧ (mbs ≠ [] → front ≠ []) ∧
    frame_wf e ∧ SessionID (fr_meta e) = mw_id w ∧ SessionStatus (fr_meta e) = SessionStatusEnd ∧ fr_data e = None ∧
    ∀ out, wlive out → ∃ out', session_writes mbs w out = Ret (out', None) ∧ emitted wlive wsink out (wire (front ++ [e])) out'.
Proof using Type*.
  intros Hw Hg Hmbs. revert w Hw Hg. induction Hmbs as [|mb mbs [Hmb Hs] Hmbs IH]; intros w Hw Hg.
  - exists [], (end_frame w). split; [by repeat constructor|]. split; [by destruct (mw_type w)|]. split; [done|].
    split; [by apply end_frame_wf|]. split; [done|]. split; [done|]. split; [done|].
    intros out Ho. destruct (mux_Close_spec wlive wsink w out Hw Ho) as (out' & E & He). exists out'.
    cbn [session_writes]. rewrite E. split; [done|]. unfold wire. cbn. by rewrite app_nil_r.
  - destruct (write_frames w mb Hw Hg Hmb Hs) as (fs & w' & Hne & Hf & Ha & Hd & Hrun). pose proof Ha as [Hw' Eid _ Ety Eg _ _].
    destruct (IH w' Hw' ltac:(congruence)) as (front & e & Hf2 & Hd2 & _ & He & Eid2 & Est & Edt & Hrun2).
    exists (fs ++ front), e. split; [by eapply front_app|]. split.
    { unfold items. rewrite fmap_app, join_app, fmap_app. rewrite Ety in Hd2. by apply (same_data_app _ _ _ [mb]). }
    split; [by destruct fs|]. split; [done|]. split; [congruence|]. split; [done|]. split; [done|].
    intros out Ho. destruct (Hrun out Ho) as (out1 & E1 & He1). destruct (Hrun2 out1 (em_live _ _ _ _ _ He1)) as (out' & E2 & He2).
    exists out'. cbn [session_writes]. rewrite E1. cbn [outcome_bind]. rewrite E2. split; [done|].
    rewrite <- app_assoc. unfold wire in *. rewrite fmap_app, join_app. by eapply emitted_trans.
Qed.
End writers.

Lemma finite_choice {A : Type} (P : nat → A → Prop) (a0 : A) (n : nat) :
  (∀ j, (j < n)%nat → ∃ x, P j x) → ∃ f : nat → A, ∀ j, (j < n)%nat → P j (f j).
Proof.
  induction n as [|n IH]; intros Hex; [exists (λ _, a0); lia|]. destruct IH as (f & Hf); [intros; apply Hex; lia|].
  destruct (Hex n ltac:(lia)) as (x & Hx). exists (<[n := x]> f). intros j Hj. destruct (decide (n = j)) as [<-|Hne].
  - by rewrite fn_lookup_insert.
  - rewrite fn_lookup_insert_ne by done. apply Hf. lia.
Qed.

(** What a link has been given is what a session wrote. *)
Definition delivered (ty : TransferType) (s mbs : list (list Buffer)) : Prop :=
  match ty with
  | TransferTypeStream => mjoin (contents_of <$> s) = mjoin (contents_of <$> mbs)
  | TransferTypePacket => content <$> mjoin s = List.filter (λ x, bool_decide (x ≠ [])) (content <$> mjoin mbs)
  end.

Lemma fst_filter (l : list (bytes * option Destination)) :
  (List.filter (λ x, bool_decide (x.1 ≠ [])) l).*1 = List.filter (λ x, bool_decide (x ≠ [])) l.*1.
Proof. induction l as [|[x u] l IH]; [done|]. cbn. case_bool_decide; cbn; by rewrite IH. Qed.

Lemma carries_delivered ty s data mbs : carries ty s data → same_data ty data.*1 mbs → delivered ty s mbs.
Proof.
  destruct ty; cbn [carries same_data delivered]; [by intros ->|]. unfold packets_of. intros Hc <-.
  rewrite <- fst_filter, <- Hc, <- list_fmap_compose. done.
Qed.

Section delivery.
Context {L D W : Type} `{Link L, BufWriter W}.
Context (dispatch : D → Destination → D * result frame_error L).
Context (live : L → Prop) (sink : L → list (list Buffer)) (dialed : D → list Destination).
Context (wlive : W → Prop) (wsink : W → list (list Buffer)).
Context `{!ServingLinks live sink, !ServingDispatcher dispatch live sink dialed, !LiveWriter wlive wsink}.

(** The frames that a session sends. *)
Record session_sends (w : MuxWriter) (mbs : list (list Buffer)) (fs : list mux_frame) : Prop := {
  ss_frames : session_frames (mw_id w) (mw_dest w) fs;
  ss_wf : Forall frame_wf fs;
  ss_data : same_data (mw_type w) (items fs).*1 mbs;
  ss_type : mw_type w = flow_type {| f_target := mw_dest w; f_data := items fs |};
  ss_writes : ∀ out, wlive out → ∃ out', session_writes mbs w out = Ret (out', None) ∧
    emitted wlive wsink out (wire fs) out'
}.

Lemma session_sends_ex w mbs : session_ok w mbs → ∃ fs, session_sends w mbs fs.
Proof using Type*.
  intros [Hw Hn Hg Ht Hne Hd].
  destruct (session_writes_frames wlive wsink w mbs Hw Hg Hd) as (front & e & [Hwf Hidf Hst] & Hsd & Hfne & He & Eid & Est & Edt & Hrun).
  exists (front ++ [e]). split; [split| | |done|done].
  - destruct front as [|f0 mids]; [by destruct (Hfne Hne)|]. exists f0, mids, e. destruct (Hst 0%nat f0 eq_refl) as [E0 T0].
    rewrite decide_True in E0 by done. split_all; try done. apply Forall_lookup. intros i f Hi.
    destruct (Hst (S i) f Hi) as [E _]. by rewrite decide_False in E by naive_solver.
  - apply Forall_app. split; [done|by constructor].
  - apply Forall_app. split; [done|by constructor].
  - unfold items in *. rewrite fmap_app, join_app. cbn. unfold frame_items at 2. rewrite Edt. by rewrite !app_nil_r.
Qed.

(** C12. Any number of sessions with numbers of their own write to one connection
    side by side: there are frames for every session, the same on every
    connection, that its writes and its [Close] put on the wire; and however the
    frames of all sessions are interleaved and the bytes of the connection are cut
    up, the server reads them all, ends without an error, dials the target of
    every session once, and gives to the link of every session what that session
    wrote, and nothing else: the same bytes in the same order for a stream, the
    same packets in the same order, but for empty ones, for packets. *)
Theorem mux_delivers (n : nat) (w : nat → MuxWriter) (mbs : nat → list (list Buffer)) (k : nat) (v : @server L D W) (x : worker) :
  (∀ i j, (i < n)%nat → (j < n)%nat → mw_id (w i) = mw_id (w j) → i = j) →
  (∀ j, (j < n)%nat → session_ok (w j) (mbs j)) →
  fresh_conn wlive k v x → final (as_stream (wk_reader x)) = ErrEOF →
  ∃ frames : nat → list mux_frame,
    (∀ j out, (j < n)%nat → wlive out →
       ∃ out', session_writes (mbs j) (w j) out = Ret (out', None) ∧ emitted wlive wsink out (wire (frames j)) out') ∧
    ∀ fs, merges n frames fs → holds (wk_reader x) (wire fs) →
      ∃ v' x' order ss, rounds dispatch (S (length fs)) k v = Ret v' ∧ sv_workers v' !! k = Some x' ∧
        wk_running x' = false ∧ wk_interrupted x' = false ∧ order ≡ₚ seq 0 n ∧
        dialed (sv_disp v') = dialed (sv_disp v) ++ ((λ j, mw_dest (w j)) <$> order) ∧
        sink <$> st_links (sv_store v') = (sink <$> st_links (sv_store v)) ++ ss ∧
        Forall2 (λ j s, delivered (mw_type (w j)) s (mbs j)) order ss.
Proof using Type*.
  intros Hids Hok Hfresh Hfin.
  destruct (finite_choice (λ j, session_sends (w j) (mbs j)) [] n) as (frames & Hframes).
  { intros j Hj. by apply session_sends_ex, Hok. }
  exists frames. split; [by intros j out Hj; apply Hframes|]. intros fs Hm Hh.
  destruct (interleaved_flows n (λ j, mw_id (w j)) (λ j, mw_dest (w j)) frames Hids) with (fs := fs)
    as (order & Hord & Hfl & _); [by intros j Hj; apply Hframes|done|].
  assert (Forall frame_wf fs) as Hfs.
  { clear -Hm Hframes. assert (∀ j, (j < n)%nat → Forall frame_wf (frames j)) as Hwf by (by intros j Hj; apply Hframes).
    clear Hframes. induction Hm as [|ls j f l r Hj E _ IH]; [constructor|]. pose proof (Hwf j Hj) as Hwj.
    rewrite E in Hwj. apply Forall_cons in Hwj as [Hf Hl]. constructor; [done|]. apply IH. intros i Hi.
    destruct (decide (j = i)) as [<-|Hne]; [by rewrite fn_lookup_insert|]. rewrite fn_lookup_insert_ne by done. by apply Hwf. }
  destruct (serve_connection dispatch live sink dialed wlive wsink k v x fs Hfresh Hfs Hh Hfin)
    as (v' & x' & ss & Hrun & Hx' & Hr & Hint & Hdial & Hss & Hcar & _).
  exists v', x', order, ss. rewrite Hfl in Hdial, Hcar. rewrite <- list_fmap_compose in Hdial. split_all; try done.
  apply Forall2_fmap_l in Hcar. apply Forall2_same_length_lookup. split; [by eapply Forall2_length|]. intros i j s Hi Hs.
  assert (j < n)%nat as Hj by (apply list_elem_of_lookup_2 in Hi; rewrite Hord, elem_of_seq in Hi; lia).
  destruct (Hframes j Hj) as [_ _ Hsd Ht _]. pose proof (Forall2_lookup_lr _ _ _ _ _ _ Hcar Hi Hs) as Hc. cbn in Hc.
  rewrite <- Ht in Hc. by eapply carries_delivered.
Qed.
End delivery.
