(* ===== verification/AddressTotal.v ===== *)
(** Reading an address and a port (src/upstream/xray-core/common/protocol/address.go)
    ends with a result or an error, whatever the bytes are. *)
From S2P Require Import Prelude GoText NetIP Address Transport Frame Uuid FoloJson Buf AddressParser BufAppend MultiBuffer BufIO ChunkStream.

(** ** Results without a panic *)

Definition safe {A} (o : outcome A) : Prop := o ≠ Panic.

Lemma safe_bind {A B} (o : outcome A) (k : A → outcome B) : safe o → (∀ a, o = Ret a → safe (k a)) → safe (outcome_bind o k).
Proof. unfold safe. destruct o; cbn; naive_solver. Qed.

(** [o] does not panic, and what it returns is in [P]. *)
Definition yields {A} (o : outcome A) (P : A → Prop) : Prop :=
  match o with Ret a => P a | Fail => True | Panic => False end.

Lemma yields_bind {A B} (o : outcome A) (k : A → outcome B) P Q :
  yields o P → (∀ a, P a → yields (k a) Q) → yields (outcome_bind o k) Q.
Proof. destruct o; cbn; auto. Qed.

Lemma yields_mono {A} (o : outcome A) (P Q : A → Prop) : yields o P → (∀ a, P a → Q a) → yields o Q.
Proof. destruct o; cbn; auto. Qed.

Lemma yields_safe {A} (o : outcome A) P : yields o P → safe o.
Proof. by destruct o. Qed.

(** ** Reading *)

(** A reading that went well. *)
Record read_into (b : Buffer) (size : Z) (b' : Buffer) (s' : stream) : Prop := {
  ri_wf : wf b';
  ri_room : room b' = (room b - Z.to_nat size)%nat;
  ri_read : ∃ x, content b' = content b ++ x ∧ Z.of_nat (length x) = size ∧ wf_bytes x;
  ri_bytes : wf_bytes (contents s')
}.

Lemma read_full_total b s size : wf b → 0 ≤ size ≤ Z.of_nat (room b) → wf_bytes (contents s) →
  yields (read_full b s size) (λ '(b', s'), read_into b size b' s').
Proof.
  intros Hb Hs Hbytes. destruct (decide (Z.to_nat size ≤ length (contents s))%nat) as [Hle|Hgt].
  - set (x := take (Z.to_nat size) (contents s)).
    assert (Z.of_nat (length x) = size) as Hx by (unfold x; rewrite length_take_le; lia).
    destruct (read_full_spec b s x (drop (Z.to_nat size) (contents s)) size Hb) as (b' & s' & -> & Hc & _ & W & C & R);
      [unfold x; by rewrite take_drop|lia|lia|].
    split; [done|lia| |rewrite Hc; by apply Forall_drop].
    exists x. split; [done|]. split; [done|by apply Forall_take].
  - unfold read_full, ReadFullFrom. pose proof Hb as [H1 H2 H3]. unfold room in Hs. cbv zeta.
    rewrite i32_small by lia. rewrite decide_False by lia. rewrite array_slice_wf by (done || lia). cbn [mbind option_bind].
    assert (length (take (Z.to_nat (end_ b + size - end_ b)) (drop (Z.to_nat (end_ b)) (v b))) = Z.to_nat size) as ->
      by (rewrite length_take, length_drop; lia).
    by rewrite (ReadFull_short pool_array pool_array_length s (Z.to_nat size) ltac:(lia)).
Qed.

Lemma readPort_total b s : wf b → (2 ≤ room b)%nat → wf_bytes (contents s) →
  yields (readPort b s) (λ '(port, (b', s')), is_uint 16 port ∧ read_into b 2 b' s').
Proof.
  intros Hb Hr Hs. unfold readPort. eapply yields_bind; [apply (read_full_total b s 2 Hb ltac:(lia) Hs)|].
  intros [b1 s1] [W R (x & C & Hl & Hx) B]. destruct x as [|p [|q []]]; try (cbn in Hl; lia).
  pose proof (BytesFrom_tail b1 _ _ W C ltac:(done)) as E. change (- Z.of_nat (length [p; q])) with (-2) in E. rewrite E.
  cbn. split; [|split; [done|done|by exists [p; q]|done]].
  rewrite !Forall_cons in Hx. destruct Hx as (Hp & Hq & _). unfold is_byte, is_uint in *. lia.
Qed.

Lemma BytesFrom_all b : wf b → BytesFrom b 0 = Some (content b).
Proof.
  intros Hb. pose proof Hb as [H1 H2 H3]. unfold BytesFrom, from_end. rewrite decide_False by lia. rewrite Z.add_0_r, i32_small by lia.
  rewrite array_slice_wf by (done || lia). done.
Qed.

Lemma read_domain_total d : d ≠ [] → yields (read_domain d) is_Some.
Proof.
  intros Hd. unfold read_domain. destruct d as [|c d]; [done|]. cbv zeta. destruct (ParseAddress_some (c :: d)) as [a ->].
  destruct (isValidDomain (c :: d)), (maybeIPPrefix c), (IsIP (Address.Family a)); cbn; eauto.
Qed.

Lemma IPAddress_total ip : length ip = 4%nat ∨ length ip = 16%nat → is_Some (IPAddress ip).
Proof. unfold IPAddress. intros [H|H]; repeat case_decide; eauto; lia. Qed.

(** A parser whose table has an entry for every type byte that is let through. *)
Section parser.
Context (p : addressParser) (Htp : typeParser p = None) (Hmap : length (addrTypeMap p) = 16%nat).

(** What reading an address leaves of its buffer and of the stream. *)
Definition address_read (b : Buffer) (r : option Address * (Buffer * stream)) : Prop :=
  is_Some r.1 ∧ wf r.2.1 ∧ (room b ≤ room r.2.1 + 257)%nat ∧ wf_bytes (contents r.2.2).

Lemma read_ip_total n b s b0 : wf b → (n = 4 ∨ n = 16)%nat → (n ≤ room b)%nat → (room b0 ≤ room b + 1)%nat → wf_bytes (contents s) →
  yields (outcome_bind (read_full b s (Z.of_nat n)) (λ '(b, s), ret_or_panic (BytesFrom b (- Z.of_nat n)) (λ ip, Ret (IPAddress ip, (b, s)))))
    (address_read b0).
Proof.
  intros Hb Hn Hr Hr0 Hs. eapply yields_bind; [apply (read_full_total b s (Z.of_nat n) Hb ltac:(lia) Hs)|].
  intros [b2 s2] [W2 R2 (y & C2 & Hl2 & _) B2]. pose proof (BytesFrom_tail b2 _ y W2 C2) as E2. rewrite Hl2 in E2.
  rewrite E2 by (intros ->; cbn in Hl2; lia). cbn [yields ret_or_panic]. unfold address_read.
  split_all; cbn [fst snd]; [apply IPAddress_total; lia|done|lia|done].
Qed.

Lemma readAddress_total b s : wf b → (257 ≤ room b)%nat → wf_bytes (contents s) → yields (readAddress p b s) (address_read b).
Proof using All.
  intros Hb Hr Hs. unfold readAddress. eapply yields_bind; [apply (read_full_total b s 1 Hb ltac:(lia) Hs)|].
  intros [b1 s1] [W R (x & C & Hl & Hx) B]. destruct x as [|t []]; try (cbn in Hl; lia). rewrite (Byte_last b1 _ t W C). cbn [ret_or_panic].
  apply Forall_cons in Hx as [Ht _]. unfold is_byte, is_uint in Ht. cbv zeta. rewrite Htp. case_decide as E; [done|].
  destruct (lookup_lt_is_Some_2 (addrTypeMap p) (Z.to_nat t)) as [fam ->]; [rewrite Hmap; lia|]. cbn [ret_or_panic].
  change (Z.to_nat 1) with 1%nat in R. destruct fam as [[]|]; [| | |done].
  - apply (read_ip_total 4); auto; lia.
  - apply (read_ip_total 16); auto; lia.
  - eapply yields_bind; [apply (read_full_total b1 s1 1 W ltac:(lia) B)|]. intros [b2 s2] [W2 R2 (y & C2 & Hl2 & Hy) B2].
    destruct y as [|n []]; try (cbn in Hl2; lia). rewrite (Byte_last b2 _ n W2 C2). cbn [ret_or_panic].
    apply Forall_cons in Hy as [Hn _]. unfold is_byte, is_uint in Hn. change (Z.to_nat 1) with 1%nat in R2.
    eapply yields_bind; [apply (read_full_total b2 s2 n W2 ltac:(lia) B2)|]. intros [b3 s3] [W3 R3 (z & C3 & Hl3 & _) B3].
    assert (∃ d, BytesFrom b3 (- n) = Some d ∧ d ≠ []) as (d & -> & Hd).
    { destruct (decide (n = 0)) as [->|Hn0].
      - exists (content b3). split; [by apply BytesFrom_all|]. rewrite C3, C2. by destruct (content b1).
      - exists z. pose proof (BytesFrom_tail b3 _ z W3 C3) as E3. rewrite Hl3 in E3.
        assert (z ≠ []) by (intros ->; cbn in Hl3; lia). auto. }
    cbn [ret_or_panic]. eapply yields_bind; [by apply read_domain_total|]. intros a Ha. cbn [yields]. unfold address_read. split_all; cbn [fst snd]; [done|done|lia|done].
Qed.

Lemma ReadAddressPort_total b s : wf b → (259 ≤ room b)%nat → wf_bytes (contents s) →
  yields (ReadAddressPort p b s) (λ '(a, port, s'), is_Some a ∧ is_uint 16 port ∧ wf_bytes (contents s')).
Proof using All.
  intros Hb Hr Hs. unfold ReadAddressPort. destruct (portFirst p).
  - eapply yields_bind; [apply readPort_total; [done|lia|done]|]. intros [port [b1 s1]] (Hp & [W R _ B]).
    change (Z.to_nat 2) with 2%nat in R. eapply yields_bind; [apply readAddress_total; [done|lia|done]|].
    by intros [a [b2 s2]] (Ha & _ & _ & B2).
  - eapply yields_bind; [apply readAddress_total; [done|lia|done]|]. intros [a [b1 s1]] (Ha & W & R & B). cbn in *.
    eapply yields_bind; [apply readPort_total; [done|lia|done]|]. by intros [port [b2 s2]] (Hp & [_ _ _ B2]).
Qed.
End parser.
