(* ===== verification/MuxTotal.v ===== *)
(** Nothing that comes in on a mux connection makes its readers panic
    (src/upstream/xray-core/common/mux: frame.go, reader.go): every read of a
    frame, and every copy of its data, ends with a result or an error, whatever
    the bytes are and wherever they stop. *)
From stdpp Require Import gmap.
From S2P Require Import Prelude GoText NetIP Address Transport Frame Uuid FoloJson Buf AddressParser BufAppend Mux MultiBuffer BufIO ChunkStream AddressTotal MuxStream MuxSession.

(** ** Reading bytes *)

(** A connection that delivers bytes. *)
Record sane (r : BufferedReader source) : Prop := {
  sane_ok : br_ok r;
  sane_bytes : wf_bytes (contents (as_stream r))
}.

(** [r'] is [r] after some reading. *)
Record read_on (r r' : BufferedReader source) : Prop := {
  ro_sane : sane r';
  ro_weight : (weight r' ≤ weight r)%nat
}.

Lemma read_on_refl r : sane r → read_on r r.
Proof. by split. Qed.

Lemma read_on_trans r1 r2 r3 : read_on r1 r2 → read_on r2 r3 → read_on r1 r3.
Proof. intros [_ ?] [? ?]. split; [done|lia]. Qed.

Lemma br_ReadFull_weight n r d r' : br_ok r → br_ReadFull n r = Ret (d, r') → (weight r' ≤ weight r)%nat.
Proof.
  intros Hr E. destruct n as [|n]; [|eapply br_read_loop_weight; [done| |done]; lia].
  unfold br_ReadFull in E. cbn [br_read_loop Nat.add] in E. rewrite decide_True in E by done. by injection E as _ ->.
Qed.

Lemma ReadFull_total n r : sane r →
  ∃ d r', br_ReadFull n r = Ret (d, r') ∧ read_on r r' ∧
    match d with Ok b => length b = n ∧ wf_bytes b | Err _ => True end.
Proof.
  intros [Hr Hb]. destruct (decide (n ≤ length (contents (as_stream r)))%nat) as [Hle|Hgt].
  - destruct (br_ReadFull_enough r (take n (contents (as_stream r))) (drop n (contents (as_stream r))) n Hr)
      as (r' & E & Hr' & Hc & _ & Hw); [by rewrite take_drop|by rewrite length_take_le|].
    do 2 eexists. split; [exact E|]. split; [split; [split; [done|]|done]|].
    + rewrite Hc. by apply Forall_drop.
    + split; [by apply length_take_le|by apply Forall_take].
  - destruct (br_ReadFull_stream n r Hr) as (r' & Hr' & Hs). rewrite (ReadFull_short pool_array pool_array_length (as_stream r) n ltac:(lia)) in Hs. destruct Hs as [E Hc].
    do 2 eexists. split; [exact E|]. split; [|done]. split; [split; [done|]|by eapply br_ReadFull_weight].
    unfold contents. by rewrite Hc.
Qed.

Lemma ReadFullFrom_total b size r : wf b → 0 ≤ size ≤ Z.of_nat (room b) → sane r →
  ∃ d r', br_ReadFullFrom b size r = Ret (d, r') ∧ read_on r r' ∧
    match d with Ok b' => ∃ x, appended b x b' ∧ Z.of_nat (length x) = size ∧ wf_bytes x | Err _ => True end.
Proof.
  intros Hb Hs Hr. pose proof Hb as [H1 H2 H3]. unfold br_ReadFullFrom, room in *. cbv zeta.
  rewrite i32_small by lia. rewrite decide_False by lia. rewrite array_slice_wf by (done || lia). cbn [ret_or_panic].
  assert (length (take (Z.to_nat (end_ b + size - end_ b)) (drop (Z.to_nat (end_ b)) (v b))) = Z.to_nat size) as ->
    by (rewrite length_take, length_drop; lia).
  destruct (ReadFull_total (Z.to_nat size) r Hr) as (d & r' & -> & Ho & Hd). cbn [outcome_bind].
  destruct d as [x|e]; [|by do 2 eexists]. destruct Hd as [Hl Hx]. do 2 eexists. split; [reflexivity|]. split; [done|].
  exists x. split; [|split; [lia|done]]. rewrite i32_small by lia. apply array_append; [done|]. unfold room. lia.
Qed.

(** ** Metadata *)

Lemma UnmarshalFromBuffer_total f c : wf_bytes c → safe (UnmarshalFromBuffer f c).
Proof.
  intros Hc. unfold UnmarshalFromBuffer. case_decide; [done|]. cbv zeta. apply safe_bind; [|by intros []].
  case_decide; [|done]. case_decide; [done|]. apply safe_bind.
  - eapply yields_safe, (ReadAddressPort_total mux_parser); [done|done|apply fresh_wf|apply fresh_room; lia|]. unfold contents. cbn. rewrite app_nil_r. by apply Forall_drop.
  - intros [[a p] s] _. by repeat case_decide.
Qed.

Lemma UnmarshalFromBuffer_id f c f' : wf_bytes c → UnmarshalFromBuffer f c = Ret f' → is_uint 16 (SessionID f').
Proof.
  intros Hc. unfold UnmarshalFromBuffer. case_decide as Hl; [done|]. cbv zeta. intros E.
  assert (SessionID f' = be_val (take 2 c)) as ->.
  { revert E. match goal with |- outcome_bind ?o _ = _ → _ => destruct o as [[t rest]| |] end; try done.
    cbn [outcome_bind]. by intros <-%Ret_inj. }
  pose proof (be_val_bound (take 2 c) ltac:(by apply Forall_take)) as Hb.
  rewrite length_take_le in Hb by lia. unfold is_uint. cbn in Hb. lia.
Qed.

Lemma br_Unmarshal_total f r : sane r →
  ∃ d r', br_Unmarshal f r = Ret (d, r') ∧ read_on r r' ∧
    match d with Ok f' => is_uint 16 (SessionID f') | Err _ => True end.
Proof.
  intros Hr. unfold br_Unmarshal. destruct (ReadFull_total 2 r Hr) as (d & r1 & -> & H1 & Hd). cbn [outcome_bind].
  destruct d as [b|e]; [|by do 2 eexists]. destruct Hd as [Hl Hb]. cbv zeta. case_decide as E; [by do 2 eexists|].
  destruct (new_buffer pool_array pool_array_length) as (W0 & C0 & R0). pose proof (be_val_bound b Hb) as Hv.
  destruct (ReadFullFrom_total (Buffer_New pool_array) (be_val b) r1 W0 ltac:(lia) (ro_sane _ _ H1)) as (d & r2 & -> & H2 & Hd).
  pose proof (read_on_trans _ _ _ H1 H2) as H12. cbn [outcome_bind].
  destruct d as [b2|[|e]]; [|by do 2 eexists..]. destruct Hd as (x & HA & _ & Hx).
  rewrite Bytes_content by apply HA. cbn [ret_or_panic]. rewrite (app_content _ _ _ HA), C0. cbn [app].
  destruct (UnmarshalFromBuffer f x) as [f'| |] eqn:Eu; [|by do 2 eexists|by destruct (UnmarshalFromBuffer_total f x Hx)].
  do 2 eexists. split; [reflexivity|]. split; [done|]. by eapply UnmarshalFromBuffer_id.
Qed.

(** ** Copies *)

(** A reader whose reads end: each one that is not an error uses something up. *)
Lemma Copy_total {R W} `{BufReader R, BufWriter W} (inv : R → Prop) (mu : R → nat) (fuel : nat) (r : R) (w : W) :
  (∀ r, inv r → ∃ mb err r', read_mb r = Ret (mb, err, r') ∧ inv r' ∧ (mu r' ≤ mu r)%nat ∧ (err = None → mu r' < mu r)%nat) →
  inv r → (mu r < fuel)%nat →
  ∃ r' w' err, Copy fuel r w = Ret (r', w', err) ∧ inv r' ∧ (mu r' ≤ mu r)%nat.
Proof.
  intros Hread Hi Hf.
  enough (∃ r' w' err, copyInternal fuel r w = Ret (r', w', err) ∧ inv r' ∧ (mu r' ≤ mu r)%nat) as (r' & w' & err & E & Hi' & Hm)
    by (do 3 eexists; unfold Copy; rewrite E; by split_all).
  revert r w Hi Hf. induction fuel as [|fuel IH]; intros r w Hi Hf; [lia|]. cbn [copyInternal].
  destruct (Hread r Hi) as (mb & err & r1 & -> & Hi1 & Hm1 & Hdec). cbn [outcome_bind].
  destruct (if mb_IsEmpty mb then (w, None) else write_mb w mb) as [w1 [e|]]; [by do 3 eexists|].
  destruct err as [e|]; [by do 3 eexists|]. specialize (Hdec eq_refl).
  destruct (IH r1 w1 Hi1 ltac:(lia)) as (r' & w' & err & -> & Hi' & Hm'). do 3 eexists. split; [reflexivity|]. split; [done|lia].
Qed.

(** The data readers of a frame, between two reads. *)
Definition reader_inv (rr : session_reader) : Prop :=
  match rr with
  | OfStream c => sane (cs_reader c) ∧ sizeDecoder c = plain_sizes ∧ 0 ≤ leftOverSize c < 65536 ∧ maxNumChunk c = 1
  | OfPackets p => sane (pr_reader p)
  end.

Definition reader_mu (rr : session_reader) : nat :=
  match rr with OfStream c => weight (cs_reader c) | OfPackets p => weight (pr_reader p) + (if eof p then 0 else 1) end.

Lemma read_left_total c size : sane (cs_reader c) → 0 < size < 65536 →
  ∃ mb err c', read_left size c = Ret (mb, err, c') ∧ sane (cs_reader c') ∧ sizeDecoder c' = sizeDecoder c ∧
    0 ≤ leftOverSize c' < 65536 ∧ maxNumChunk c' = maxNumChunk c ∧ (weight (cs_reader c') ≤ weight (cs_reader c))%nat ∧
    (err = None → weight (cs_reader c') < weight (cs_reader c))%nat.
Proof.
  intros [Hr Hb] Hs. pose proof (ReadAtMost_stream (cs_reader c) size Hr ltac:(lia)) as Hrd. unfold read_left.
  destruct (chunks (as_stream (cs_reader c))) as [|x xs].
  - rewrite Hrd. cbn [outcome_bind mb_IsEmpty forallb]. do 3 eexists. split; [reflexivity|]. cbn. split_all; (done || lia).
  - destruct Hrd as (mb & r' & -> & Hr' & Hmb & Hc & Hsz & _ & Hw). cbn [outcome_bind]. do 3 eexists. split; [reflexivity|].
    cbn [with_sizes cs_reader sizeDecoder leftOverSize maxNumChunk]. split.
    { split; [done|]. rewrite <- Hc in Hb. by apply Forall_app in Hb as [_ ?]. }
    split; [done|]. split; [|split; [done|split; [lia|done]]].
    destruct (mb_IsEmpty mb); [lia|]. pose proof Hmb as (Hwf & _ & Hlt). rewrite mb_Len_spec, i32_small by (done || lia). lia.
Qed.

Lemma reader_total rr : reader_inv rr →
  ∃ mb err rr', read_mb rr = Ret (mb, err, rr') ∧ reader_inv rr' ∧ (reader_mu rr' ≤ reader_mu rr)%nat ∧
    (err = None → reader_mu rr' < reader_mu rr)%nat.
Proof.
  destruct rr as [c|p]; cbn [reader_inv reader_mu].
  - intros (Hr & Hz & Hl & Hm). unfold read_mb, session_reader_read, read_mb, stream_reader, cs_ReadMultiBuffer. case_decide as E.
    + cbn [counted maxNumChunk numChunk]. case_decide as E2.
      { cbn [outcome_bind]. do 3 eexists. split; [reflexivity|]. cbn. split_all; (done || lia). }
      unfold readSize. cbn [counted sizeDecoder cs_reader]. rewrite Hz. change (SizeBytes plain_sizes) with 2%nat.
      destruct (ReadFull_total 2 (cs_reader c) Hr) as (d & r1 & -> & [H1 H1w] & Hd). cbn [outcome_bind].
      destruct d as [b|e].
      2: { cbn [outcome_bind]. do 3 eexists. split; [reflexivity|]. cbn. split_all; (done || lia). }
      destruct Hd as [Hlb Hb]. unfold Decode. cbn [plain_sizes sz_parser]. rewrite read_be_long by lia. cbn [outcome_bind].
      rewrite take_ge by lia. pose proof (be_val_bound b Hb) as Hv. rewrite Hlb in Hv. cbn in Hv. case_decide as E3.
      { cbn [outcome_bind]. do 3 eexists. split; [reflexivity|]. cbn. split_all; (done || lia). }
      match goal with |- context [read_left _ ?x] => destruct (read_left_total x (be_val b)) as (mb & err & c' & -> & Hs' & Hz' & Hl' & Hm' & Hw' & Hdec) end;
        [done|lia|]. cbn [outcome_bind]. do 3 eexists. split; [reflexivity|]. cbn in *. split_all; (done || congruence || lia || (intros ->; specialize (Hdec eq_refl); lia)).
    + destruct (read_left_total c (leftOverSize c) Hr ltac:(lia)) as (mb & err & c' & -> & Hs' & Hz' & Hl' & Hm' & Hw' & Hdec).
      cbn [outcome_bind]. do 3 eexists. split; [reflexivity|]. cbn in *. split_all; (done || congruence || lia || (intros ->; specialize (Hdec eq_refl); lia)).
  - intros Hr. unfold read_mb, session_reader_read, read_mb, packet_reader, pr_ReadMultiBuffer. destruct (eof p) eqn:Ee.
    { cbn [outcome_bind]. do 3 eexists. split; [reflexivity|]. cbn. rewrite Ee. by split_all. }
    destruct (ReadFull_total 2 (pr_reader p) Hr) as (d & r1 & -> & [H1 H1w] & Hd). cbn [outcome_bind].
    destruct d as [b|e]; [|cbn [outcome_bind]; do 3 eexists; split; [reflexivity|]; cbn; split_all; (done || lia)].
    destruct Hd as [Hlb Hb]. pose proof (be_val_bound b Hb) as Hv. cbv zeta. case_decide as E3.
    { cbn [outcome_bind]. do 3 eexists. split; [reflexivity|]. cbn. split_all; (done || lia). }
    destruct (new_buffer pool_array pool_array_length) as (W0 & C0 & R0).
    destruct (ReadFullFrom_total (Buffer_New pool_array) (be_val b) r1 W0 ltac:(lia) H1) as (d & r2 & -> & [H2 H2w] & _).
    cbn [outcome_bind]. destruct d as [b2|[|e]]; cbn [outcome_bind]; do 3 eexists; (split; [reflexivity|]); cbn; split_all; (done || lia).
Qed.

(** A copy of the data of a frame ends. *)
Lemma copy_session_total {W} `{BufWriter W} rr (w : W) : reader_inv rr →
  ∃ rr' w' err, Copy (copy_fuel (rr_reader rr)) rr w = Ret (rr', w', err) ∧ reader_inv rr'.
Proof.
  intros Hi. destruct (Copy_total reader_inv reader_mu (copy_fuel (rr_reader rr)) rr w reader_total Hi) as (rr' & w' & err & E & Hi' & _).
  - unfold copy_fuel. destruct rr as [c|p]; cbn; [lia|]. destruct (eof p); lia.
  - by exists rr', w', err.
Qed.

Lemma reader_inv_sane rr : reader_inv rr → sane (rr_reader rr).
Proof. by destruct rr as [c|p]; [intros (? & _)|]. Qed.

Lemma NewReader_inv ty r dest : sane r → reader_inv (NewReader ty r dest).
Proof. intros Hr. destruct ty; cbn; [split_all; (done || lia)|done]. Qed.

(** What a packet reader returns is one packet. *)
Lemma packet_read_total r dest : sane r →
  ∃ mb err p, read_mb (NewPacketReader r dest) = Ret (mb, err, p) ∧ sane (pr_reader p) ∧
    (err = None → ∃ b, mb = [b] ∧ wf b ∧ Z.of_nat (length (content b)) ≤ 8192).
Proof.
  intros Hr. unfold read_mb, packet_reader, pr_ReadMultiBuffer. cbn [NewPacketReader eof pr_reader pr_dest].
  destruct (ReadFull_total 2 r Hr) as (d & r1 & -> & [H1 _] & Hd). cbn [outcome_bind].
  destruct d as [b|e]; [|by do 3 eexists]. destruct Hd as [Hlb Hb]. pose proof (be_val_bound b Hb) as Hv. cbv zeta.
  case_decide as E3; [by do 3 eexists|]. destruct (new_buffer pool_array pool_array_length) as (W0 & C0 & R0).
  destruct (ReadFullFrom_total (Buffer_New pool_array) (be_val b) r1 W0 ltac:(lia) H1) as (d & r2 & -> & [H2 _] & Hd).
  cbn [outcome_bind]. destruct d as [b2|[|e]]; [|by do 3 eexists..]. destruct Hd as (x & [[? ? ?] C _ _ _] & Hl & _).
  do 3 eexists. split; [reflexivity|]. split; [done|]. intros _. eexists. split; [reflexivity|]. split; [by split|].
  change (Z.of_nat (length (content b2)) ≤ 8192). rewrite C, C0. cbn [app]. lia.
Qed.

(** ** Writers that may fail *)

(** A write to any writer returns, and leaves a writer that can write on. *)
Lemma writeData_total {W} `{BufWriter W} data w (out : W) : writer_ok w → Forall wf data → sourced data →
  Z.of_nat (length (contents_of data)) ≤ 8192 →
  ∃ out' err, writeData data w out = Ret (after_frame w, out', err).
Proof.
  intros Hw Hd Hu Hl. unfold writeData, writeMetaWithFrame.
  pose proof (new_frame_ok w OptionData (data_UDP data) Hw (λ u, data_UDP_sourced data u Hu)) as Hf.
  unfold after_frame. destruct (getNextFrameMeta w) as [meta w'] eqn:Em. cbn [fst snd] in *.
  destruct (WriteTo_wire _ _ Hf) as (b & -> & Hb & Hc & Hr).
  destruct (write_all_spec b (be_bytes 2 (u16 (mb_Len data))) Hb) as (b' & -> & HA); [rewrite be_bytes_length; lia|].
  cbn [outcome_bind]. destruct (write_mb out (b' :: data)) as [out' err]. by exists out', err.
Qed.

Lemma frame_loop_total {W} `{BufWriter W} fuel mb w (out : W) : mb_ok mb → sourced mb → writer_ok w → (length mb ≤ fuel)%nat →
  ∃ w' out' err, frame_loop fuel mb w out = Ret (w', out', err) ∧ writer_ok w'.
Proof.
  revert mb w out. induction fuel as [|fuel IH]; intros mb w out Hmb Hu Hw Hf; cbn [frame_loop];
    rewrite (mb_ok_empty mb Hmb); case_bool_decide as E; [by do 3 eexists| |by do 3 eexists|].
  { destruct mb; [done|cbn in Hf; lia]. }
  destruct (next_chunk_spec (mw_type w) mb Hmb E) as (rest & c & -> & -> & Hne & Hsz & _). cbn [outcome_bind].
  apply mb_ok_app in Hmb as [Hc Hrest]. apply Forall_app in Hu as [Huc Hur].
  destruct (writeData_total c w out Hw ltac:(apply Hc) Huc Hsz) as (out1 & [e|] & ->); cbn [outcome_bind].
  - do 3 eexists. split; [reflexivity|]. by apply writer_ok_next.
  - apply IH; [done|done|by apply writer_ok_next|]. rewrite length_app in Hf. destruct c; [done|cbn in Hf; lia].
Qed.

Lemma mux_Write_total {W} `{BufWriter W} mb w (out : W) : mb_ok mb → sourced mb → writer_ok w → mb_IsEmpty mb = false →
  ∃ w' out' err, mux_WriteMultiBuffer mb w out = Ret (w', out', err) ∧ writer_ok w'.
Proof.
  intros Hmb Hu Hw Hne. unfold mux_WriteMultiBuffer. rewrite Hne. apply frame_loop_total; try done. unfold pieces. lia.
Qed.

Lemma mux_Close_total {W} `{BufWriter W} w (out : W) : writer_ok w → ∃ out', mux_Close w out = Ret out'.
Proof.
  intros [Hid _ _]. unfold mux_Close. cbv zeta.
  match goal with |- context [WriteTo ?f _] => assert (frame_ok f None) as Hf by (by split; destruct (hasError w)) end.
  destruct (WriteTo_wire _ _ Hf) as (b & E & _).
  change (with_UDP None (Buffer_New pool_array)) with (Buffer_New pool_array) in E. rewrite E. by eexists.
Qed.

Lemma set_hasError_ok w : writer_ok w → writer_ok (set_hasError w).
Proof. intros []. by split. Qed.
