(* ===== verification/MuxTyped.v ===== *)
(** What a mux connection takes from the bytes that come in
    (src/upstream/xray-core/common/mux/frame.go, and the address parser below it,
    src/upstream/xray-core/common/protocol/address.go): whatever the bytes are, the
    metadata that is accepted has the types that the rest of the code relies on. *)
From S2P Require Import Prelude GoText NetIP NetIP6 Address Transport Frame Uuid FoloJson Buf AddressParser BufAppend Mux MultiBuffer BufIO ChunkStream AddressTotal MuxStream MuxTotal.

(** An address as the code builds them: four bytes, sixteen bytes that are not
    those of an IPv4 address, or a name of the runes that a domain may have. *)
Definition address_typed (a : Address) : Prop :=
  match a with
  | ipv4Address b => wf_bytes b ∧ length b = 4%nat
  | ipv6Address b => wf_bytes b ∧ length b = 16%nat ∧ To4 b = None
  | domainAddress d => d ≠ [] ∧ (length d ≤ 255)%nat ∧ isValidDomain d = true
  end.

Definition destination_typed (d : Destination) : Prop :=
  is_uint 16 (dest_Port d) ∧ ∀ a, dest_Address d = Some a → address_typed a.

Record meta_typed (f : FrameMetadata) : Prop := {
  mt_id : is_uint 16 (SessionID f);
  mt_status : is_byte (SessionStatus f);
  mt_option : is_byte (Option_ f);
  mt_global : wf_bytes (GlobalID f) ∧ length (GlobalID f) = 8%nat;
  mt_target : destination_typed (Target f)
}.

Lemma IPAddress_typed ip : wf_bytes ip → length ip = 4%nat ∨ length ip = 16%nat → ∃ a, IPAddress ip = Some a ∧ address_typed a.
Proof.
  intros Hw [Hl|Hl].
  - unfold IPAddress. rewrite decide_True by done. by eexists.
  - destruct (IPAddress_spec ip Hw Hl) as (b & -> & Hb). exists b. split; [done|].
    destruct Hb as [[-> _]|[-> H4]]; cbn; [|done]. split; [by apply Forall_drop|]. rewrite length_drop. lia.
Qed.

(** What one step of the parser leaves in the buffer. *)
Lemma read_full_typed b s size b' s' : read_full b s size = Ret (b', s') → wf b → 0 ≤ size ≤ Z.of_nat (room b) → wf_bytes (contents s) →
  read_into b size b' s'.
Proof. intros E Hb Hs Hw. pose proof (read_full_total b s size Hb Hs Hw) as H. by rewrite E in H. Qed.

Lemma read_domain_typed d a : (length d ≤ 255)%nat → read_domain d = Ret a → ∃ x, a = Some x ∧ address_typed x.
Proof.
  intros Hl E.
  assert ((if isValidDomain d then Ret (Some (DomainAddress d)) else Fail) = Ret a → d ≠ [] → ∃ x, a = Some x ∧ address_typed x) as Hplain.
  { destruct (isValidDomain d) eqn:Ev; [|done]. intros [= <-] Hd. by eexists. }
  unfold read_domain in E. destruct d as [|c d]; [done|]. cbv zeta in E. destruct (maybeIPPrefix c); [|by apply Hplain].
  unfold ParseAddress in E. destruct (ParseIP (trim_address (strip_brackets (c :: d)))) as [ip|] eqn:Ep.
  - apply ParseIP_sound in Ep as (_ & _ & Hw & Hip). destruct (IPAddress_typed ip Hw ltac:(by right)) as (x & Ex & Hx). rewrite Ex in E.
    destruct (IsIP (Address.Family x)); [|by apply Hplain]. injection E as <-. by exists x.
  - change (IsIP (Address.Family (DomainAddress (trim_address (strip_brackets (c :: d)))))) with false in E. by apply Hplain.
Qed.

(** A fresh buffer has nothing in it but what was read of this address. *)
Lemma readAddress_typed b s a r : wf b → (257 ≤ room b)%nat → (length (content b) ≤ 200)%nat → wf_bytes (contents s) →
  readAddress mux_parser b s = Ret (a, r) → (∃ x, a = Some x ∧ address_typed x) ∧ wf_bytes (contents r.2).
Proof.
  intros Hb Hr Hlen Hs E. unfold readAddress in E.
  destruct (read_full b s 1) as [[b1 s1]| |] eqn:E1; [|discriminate E|discriminate E]. cbn [outcome_bind] in E.
  destruct (read_full_typed _ _ _ _ _ E1 Hb ltac:(lia) Hs) as [W R (x & C & Hl & Hx) B].
  destruct x as [|t []]; try (cbn in Hl; lia). rewrite (Byte_last b1 _ t W C) in E. cbn [ret_or_panic] in E.
  cbv zeta in E. change (typeParser mux_parser) with (@None (Z → Z)) in E. cbv iota in E. case_decide as Et; [done|].
  destruct (addrTypeMap mux_parser !! Z.to_nat t) as [fam|]; [|done]. cbn [ret_or_panic] in E.
  change (Z.to_nat 1) with 1%nat in R.
  assert (∀ n, n = 4%nat ∨ n = 16%nat → (let? (b, s) := read_full b1 s1 (Z.of_nat n) in
    ret_or_panic (BytesFrom b (- Z.of_nat n)) (λ ip, Ret (IPAddress ip, (b, s)))) = Ret (a, r) →
    (∃ x, a = Some x ∧ address_typed x) ∧ wf_bytes (contents r.2)) as Hip.
  { intros n Hn E2. destruct (read_full b1 s1 (Z.of_nat n)) as [[b2 s2]| |] eqn:E3; [|discriminate E2|discriminate E2]. cbn [outcome_bind] in E2.
    destruct (read_full_typed _ _ _ _ _ E3 W ltac:(lia) B) as [W2 _ (y & C2 & Hl2 & Hy) B2].
    pose proof (BytesFrom_tail b2 _ y W2 C2) as Et2. rewrite Hl2 in Et2. rewrite Et2 in E2 by (intros ->; cbn in Hl2; lia).
    cbn [ret_or_panic] in E2. destruct (IPAddress_typed y Hy ltac:(lia)) as (z & Ez & Hz). rewrite Ez in E2. injection E2 as <- <-.
    split; [by exists z|done]. }
  destruct fam as [[]|]; [by apply (Hip 4%nat); [left|]|by apply (Hip 16%nat); [right|]| |done]. clear Hip.
  destruct (read_full b1 s1 1) as [[b2 s2]| |] eqn:E2; [|discriminate E|discriminate E]. cbn [outcome_bind] in E.
  destruct (read_full_typed _ _ _ _ _ E2 W ltac:(lia) B) as [W2 R2 (y & C2 & Hl2 & Hy) B2].
  destruct y as [|n []]; try (cbn in Hl2; lia). rewrite (Byte_last b2 _ n W2 C2) in E. cbn [ret_or_panic] in E.
  apply Forall_cons in Hy as [Hn _]. unfold is_byte, is_uint in Hn. change (Z.to_nat 1) with 1%nat in R2.
  destruct (read_full b2 s2 n) as [[b3 s3]| |] eqn:E3; [|discriminate E|discriminate E]. cbn [outcome_bind] in E.
  destruct (read_full_typed _ _ _ _ _ E3 W2 ltac:(lia) B2) as [W3 _ (z & C3 & Hl3 & _) B3].
  assert (∃ d, BytesFrom b3 (- n) = Some d ∧ (length d ≤ 255)%nat) as (d & Ed & Hd).
  { destruct (decide (n = 0)) as [->|Hn0].
    - exists (content b3). split; [by apply BytesFrom_all|]. rewrite C3, C2, C, !length_app. cbn [length]. lia.
    - exists z. pose proof (BytesFrom_tail b3 _ z W3 C3) as Ez. rewrite Hl3 in Ez. split; [|lia]. apply Ez. intros ->. cbn in Hl3. lia. }
  rewrite Ed in E. cbn [ret_or_panic] in E. destruct (read_domain d) as [a'| |] eqn:Er; [|discriminate E|discriminate E]. cbn [outcome_bind] in E.
  injection E as <- <-. split; [by apply (read_domain_typed d)|done].
Qed.

Lemma ReadAddressPort_typed s a port s' : wf_bytes (contents s) → ReadAddressPort mux_parser fresh s = Ret (a, port, s') →
  (∃ x, a = Some x ∧ address_typed x) ∧ is_uint 16 port ∧ wf_bytes (contents s').
Proof.
  intros Hs E. unfold ReadAddressPort in E. change (portFirst mux_parser) with true in E. cbv iota in E.
  destruct (readPort fresh s) as [[p [b1 s1]]| |] eqn:Ep; [|discriminate E|discriminate E]. cbn [outcome_bind] in E.
  pose proof (fresh_room 259 ltac:(lia)) as Hroom.
  pose proof (readPort_total fresh s fresh_wf ltac:(lia) Hs) as Hok. rewrite Ep in Hok. destruct Hok as (Hp & [W R (x & C & Hl & Hx) B]).
  change (Z.to_nat 2) with 2%nat in R. change (content fresh) with (@nil Z) in C.
  destruct (readAddress mux_parser b1 s1) as [[a' [b2 s2]]| |] eqn:Ea; [|discriminate E|discriminate E]. cbn [outcome_bind] in E. injection E as <- <- <-.
  destruct (readAddress_typed b1 s1 a' (b2, s2) W ltac:(lia)) as [H1 H2]; [rewrite C; cbn; lia|done|done|by split_all].
Qed.

Lemma Unmarshal_typed f c f' : wf_bytes c → meta_typed f → UnmarshalFromBuffer f c = Ret f' → meta_typed f'.
Proof.
  intros Hc Hf E. pose proof (UnmarshalFromBuffer_id f c f' Hc E) as Hid. unfold UnmarshalFromBuffer in E. case_decide as Hl; [done|]. cbv zeta in E.
  assert (∀ i, is_byte (default 0 (c !! i))) as Hat.
  { intros i. destruct (c !! i) as [x|] eqn:Ex; [by apply (Forall_lookup_1 _ _ _ _ Hc Ex)|done]. }
  match type of E with outcome_bind ?o _ = _ => destruct o as [[target rest]| |] eqn:Eo end; [|discriminate E|discriminate E]. cbn [outcome_bind] in E.
  assert (destination_typed target ∧ wf_bytes rest) as [Ht Hrest].
  { clear E. case_decide as Ec; [|injection Eo as <- <-; split; [|done]; apply (mt_target _ Hf)].
    case_decide as E8; [done|].
    destruct (ReadAddressPort mux_parser fresh {| chunks := [drop 5 c]; final := ErrEOF |}) as [[[a port] s]| |] eqn:Er; [|discriminate Eo|discriminate Eo].
    cbn [outcome_bind] in Eo.
    destruct (ReadAddressPort_typed {| chunks := [drop 5 c]; final := ErrEOF |} a port s ltac:(unfold contents; cbn; rewrite app_nil_r; by apply Forall_drop) Er) as ((x & -> & Hx) & Hp & Hs).
    assert (∀ n, destination_typed {| dest_Address := Some x; dest_Port := port; dest_Network := n |}) as Hd
      by (intros n; split; [done|]; cbn; by intros a [= <-]).
    case_decide; [injection Eo as <- <-; split; [apply Hd|done]|]. case_decide; [|done]. injection Eo as <- <-. split; [apply Hd|done]. }
  injection E as <-. split; try done; cbn [SessionStatus Option_ GlobalID]; [apply Hat|apply Hat|].
  case_decide as Eg; [|apply (mt_global _ Hf)]. destruct Eg as (_ & _ & _ & Hg). split; [by apply Forall_take|by apply length_take_le].
Qed.

(** C37. Whatever comes in on a connection, metadata that is accepted is typed: the
    number of the session is a 16 bit number, the global id eight bytes, the port
    16 bits, and the target, when there is one, an address that the code could
    have built itself; also when, as on the client, all frames share one record. *)
Theorem br_Unmarshal_typed (f : FrameMetadata) (r : BufferedReader source) : meta_typed f → sane r →
  ∃ d r', br_Unmarshal f r = Ret (d, r') ∧ sane r' ∧ match d with Ok f' => meta_typed f' | Err _ => True end.
Proof.
  intros Hf Hr. destruct (br_Unmarshal_total f r Hr) as (d & r' & E & Ho & _). exists d, r'. split; [done|]. split; [apply Ho|].
  destruct d as [f'|]; [|done]. unfold br_Unmarshal in E.
  destruct (ReadFull_total 2 r Hr) as (d & r1 & E1 & H1 & Hd). rewrite E1 in E. cbn [outcome_bind] in E.
  destruct d as [b|e]; [|done]. destruct Hd as [_ Hb]. cbv zeta in E. case_decide as El; [done|].
  destruct (new_buffer pool_array pool_array_length) as (W0 & C0 & R0). pose proof (be_val_bound b Hb) as Hv.
  destruct (ReadFullFrom_total (Buffer_New pool_array) (be_val b) r1 W0 ltac:(lia) (ro_sane _ _ H1)) as (d & r2 & E2 & H2 & Hd).
  rewrite E2 in E. cbn [outcome_bind] in E. destruct d as [b2|[|e]]; [|done..]. destruct Hd as (x & HA & _ & Hx).
  rewrite Bytes_content in E by apply HA. cbn [ret_or_panic] in E. rewrite (app_content _ _ _ HA), C0 in E. cbn [app] in E.
  destruct (UnmarshalFromBuffer f x) as [f2| |] eqn:Eu; [|discriminate E|discriminate E]. injection E as <- _. by eapply Unmarshal_typed.
Qed.

(** The address of a name that was sent by its length: metadata of a connection
    that is cut after seven bytes. *)
Lemma br_Unmarshal_typed_witness :
  ∃ d r', br_Unmarshal no_frame {| Reader := {| parts := [[FromBytes [0; 4; 0; 7; 4]]; [FromBytes [0; 9]]]; src_final := ErrEOF |};
                                   br_Buffer := []; Splitter := None |} = Ret (d, r') ∧
    sane r' ∧ match d with Ok f' => meta_typed f' | Err _ => True end.
Proof.
  apply (br_Unmarshal_typed no_frame {| Reader := {| parts := [[FromBytes [0; 4; 0; 7; 4]]; [FromBytes [0; 9]]]; src_final := ErrEOF |};
                                   br_Buffer := []; Splitter := None |}).
  - split; try done. split; [|done]. repeat (constructor; [by split|]). constructor.
  - split.
    + split; [apply mb_ok_nil| |done]. repeat (constructor; [split; [|split]|]).
      all: try (constructor; [apply FromBytes_wf; vm_compute; reflexivity|constructor]).
      all: try (constructor; [vm_compute; discriminate|constructor]).
      all: try constructor. all: vm_compute; reflexivity.
    + change (wf_bytes [0; 4; 0; 7; 4; 0; 9]). repeat (constructor; [by split|]). constructor.
Defined.
