(* ===== verification/MuxSafety.v ===== *)
(** What holds of a mux server in every state it can reach
    (src/upstream/xray-core/common/mux: session.go, server.go): its tables agree
    with its sessions, an open session has a link of its own, and no input makes
    a step panic.  The state of the table of UDP sessions is part of it: an entry
    is in use exactly while its session is open, and the cleaner only closes links
    that no open session has. *)
From stdpp Require Import gmap.
From S2P Require Import Prelude GoText NetIP Address Transport Frame Uuid Buf AddressParser BufAppend Mux MultiBuffer BufIO ChunkStream AddressTotal MuxStream MuxSession MuxServer MuxTotal.

Section safety.
Context {L : Type} `{Link L}.
Implicit Types w : store L.

(** ** The store *)

(** An entry that is in use has an open session, one that is not a closed one. *)
Definition entry_ok (w : store L) (x : nat) (e : XUDP) : Prop :=
  ∃ p s, x_Mux e = Some p ∧ st_sessions w !! p = Some s ∧ s_XUDP s = Some x ∧
    ((x_Status e = Active ∧ s_closed s = false) ∨ (x_Status e = Expiring ∧ s_closed s = true)).

(** The store is in order, but for the entry [ex], which is being set up. *)
Record store_inv (ex : option nat) (w : store L) : Prop := {
  si_tables : ∀ k m id p, st_managers w !! k = Some m → sm_closed m = false → sm_sessions m !! id = Some p →
    ∃ s, st_sessions w !! p = Some s ∧ s_ID s = id ∧ s_parent s = k ∧ s_closed s = false;
  si_links : ∀ p s, st_sessions w !! p = Some s → ∃ l, s_link s = Some l ∧ (l < length (st_links w))%nat;
  si_entries : ∀ p s x, st_sessions w !! p = Some s → s_XUDP s = Some x → (x < length (st_xudps w))%nat;
  si_shared : ∀ p1 p2 s1 s2, st_sessions w !! p1 = Some s1 → st_sessions w !! p2 = Some s2 → s_link s1 = s_link s2 →
    p1 = p2 ∨ ∃ x, s_XUDP s1 = Some x ∧ s_XUDP s2 = Some x;
  si_map : ∀ gid x, st_map w !! gid = Some x → ∃ e, st_xudps w !! x = Some e ∧ x_GlobalID e = gid ∧
    (ex ≠ Some x → entry_ok w x e);
  si_one : ∀ p s x e, st_sessions w !! p = Some s → s_XUDP s = Some x → s_closed s = false → st_xudps w !! x = Some e →
    x_Mux e = Some p ∧ x_Status e = Active;
  si_ex : ∀ p s x, ex = Some x → st_sessions w !! p = Some s → s_XUDP s = Some x → s_closed s = true
}.

(** Changing links does not matter, as long as none is lost. *)
Lemma store_inv_links ex w w' : store_inv ex w → st_sessions w' = st_sessions w → st_managers w' = st_managers w →
  st_xudps w' = st_xudps w → st_map w' = st_map w → (length (st_links w) ≤ length (st_links w'))%nat → store_inv ex w'.
Proof.
  intros [T K E S M O X] Es Em Ex Ep Hl. split; rewrite ?Es, ?Em, ?Ex, ?Ep; try done.
  - intros p s Hp. destruct (K p s Hp) as (l & ? & ?). exists l. split; [done|lia].
  - intros gid x Hx. destruct (M gid x Hx) as (e & ? & ? & He). exists e. split; [done|]. split; [done|].
    intros Hex. specialize (He Hex). unfold entry_ok in *. by rewrite Es.
Qed.

Lemma on_link_inv ex l f w : store_inv ex w → store_inv ex (on_link l f w).
Proof. intros Hw. destruct l; [|done]. eapply store_inv_links; try done. cbn. by rewrite length_alter. Qed.

(** What is still there after a step. *)
Record kept (w w' : store L) : Prop := {
  kp_sessions : (length (st_sessions w) ≤ length (st_sessions w'))%nat;
  kp_managers : length (st_managers w') = length (st_managers w)
}.

Lemma kept_trans w1 w2 w3 : kept w1 w2 → kept w2 w3 → kept w1 w3.
Proof. intros [] []. split; [lia|congruence]. Qed.

(** Looking sessions up after one of them was closed. *)
Lemma lookup_closed (l : list Session) p q s : alter close_session p l !! q = Some s →
  ∃ s0, l !! q = Some s0 ∧ s_link s = s_link s0 ∧ s_parent s = s_parent s0 ∧ s_ID s = s_ID s0 ∧ s_XUDP s = s_XUDP s0 ∧
    s_closed s = (if decide (p = q) then true else s_closed s0).
Proof.
  rewrite list_lookup_alter. case_decide as E; [subst q|intros; by exists s].
  destruct (l !! p) as [s0|]; [|done]. intros [= <-]. by exists s0.
Qed.

Lemma closed_lookup (l : list Session) p q s : l !! q = Some s →
  ∃ s', alter close_session p l !! q = Some s' ∧ s_link s' = s_link s ∧ s_parent s' = s_parent s ∧ s_ID s' = s_ID s ∧
    s_XUDP s' = s_XUDP s ∧ s_closed s' = (if decide (p = q) then true else s_closed s).
Proof.
  intros Hq. rewrite list_lookup_alter. case_decide as E; [subst q; rewrite Hq|by exists s]. by exists (close_session s).
Qed.

(** Closing twice, or nothing. *)
Lemma session_Close_noop p w : (∀ s, st_sessions w !! p = Some s → s_closed s = true) → session_Close p w = w.
Proof. intros Hc. unfold session_Close. destruct (st_sessions w !! p) as [s|]; [|done]. by rewrite (Hc s eq_refl). Qed.

(** The store after an open session was closed. *)
Record closing (p : nat) (s : Session) (w w' : store L) : Prop := {
  cl_sessions : st_sessions w' = alter close_session p (st_sessions w);
  cl_managers : st_managers w' = alter (Remove (s_ID s)) (s_parent s) (st_managers w);
  cl_links : length (st_links w') = length (st_links w);
  cl_xudps : st_xudps w' = match s_XUDP s with
                           | Some x => alter (put_xudp (st_now w)) x (st_xudps w)
                           | None => st_xudps w
                           end;
  cl_map : st_map w' = st_map w
}.

Lemma session_Close_closing p s w : st_sessions w !! p = Some s → s_closed s = false → closing p s w (session_Close p w).
Proof.
  intros Hp Hc. unfold session_Close. rewrite Hp, Hc. split; destruct (s_XUDP s), (s_link s); try done;
    cbn; by rewrite length_alter.
Qed.

Lemma length_closing_xudps p s w w' : closing p s w w' → length (st_xudps w') = length (st_xudps w).
Proof. intros [_ _ _ -> _]. destruct (s_XUDP s); [by rewrite length_alter|done]. Qed.

Lemma closing_tables p s ex w w' : store_inv ex w → st_sessions w !! p = Some s → closing p s w w' →
  ∀ k m id q, st_managers w' !! k = Some m → sm_closed m = false → sm_sessions m !! id = Some q →
    ∃ s', st_sessions w' !! q = Some s' ∧ s_ID s' = id ∧ s_parent s' = k ∧ s_closed s' = false.
Proof.
  intros Hw Hp [Es Em _ _ _] k m id q Hm Hcl Hq. rewrite Em, list_lookup_alter in Hm. rewrite Es.
  assert (∃ m0, st_managers w !! k = Some m0 ∧ sm_closed m0 = false ∧ sm_sessions m0 !! id = Some q ∧
    (s_parent s = k → s_ID s ≠ id)) as (m0 & H1 & H2 & H3 & H4).
  { case_decide as E; [|by exists m]. subst k. destruct (st_managers w !! s_parent s) as [m0|] eqn:E0; [|done].
    injection Hm as <-. unfold Remove in *. destruct (sm_closed m0) eqn:Ec; [congruence|]. cbn in Hq.
    apply lookup_delete_Some in Hq as [? ?]. by exists m0. }
  destruct (si_tables _ _ Hw _ _ _ _ H1 H2 H3) as (s0 & Hs0 & Hid & Hpar & Hop).
  destruct (closed_lookup _ p _ _ Hs0) as (s' & Hs' & _ & Ep & Ei & _ & Ecl). exists s'. split; [done|].
  rewrite Ei, Ep, Ecl. split; [done|]. split; [done|]. rewrite decide_False; [done|]. intros <-.
  rewrite Hp in Hs0. injection Hs0 as <-. by apply H4.
Qed.

Lemma closing_map p s ex w w' : store_inv ex w → st_sessions w !! p = Some s → s_closed s = false → closing p s w w' →
  ∀ gid x, st_map w' !! gid = Some x → ∃ e, st_xudps w' !! x = Some e ∧ x_GlobalID e = gid ∧ (ex ≠ Some x → entry_ok w' x e).
Proof.
  intros Hw Hp Hc [Es _ _ Ex Ep] gid x. rewrite Ep. intros Hx.
  destruct (si_map _ _ Hw _ _ Hx) as (e & He & Hg & Hok). rewrite Ex. destruct (decide (s_XUDP s = Some x)) as [Esx|Hne].
  - rewrite Esx, list_lookup_alter_eq, He. destruct (si_one _ _ Hw _ _ _ _ Hp Esx Hc He) as [Emux Est].
    eexists. split; [reflexivity|]. unfold put_xudp. rewrite decide_True by done. split; [done|]. intros _.
    exists p. destruct (closed_lookup _ p _ _ Hp) as (s' & Hs' & _ & _ & _ & E1 & E2). exists s'. rewrite Es.
    split; [done|]. split; [done|]. split; [congruence|]. right. split; [done|]. by rewrite E2, decide_True.
  - exists e. split; [|split; [done|]].
    + destruct (s_XUDP s) as [y|]; [|done]. rewrite list_lookup_alter_ne by congruence. done.
    + intros Hex. destruct (Hok Hex) as (q & s0 & H1 & H2 & H3 & H4). exists q.
      destruct (closed_lookup _ p _ _ H2) as (s' & Hs' & _ & _ & _ & E1 & E2). exists s'. rewrite Es.
      split; [done|]. split; [done|]. split; [congruence|]. rewrite E2, decide_False; [done|].
      intros <-. rewrite Hp in H2. by injection H2 as <-.
Qed.

Lemma closing_one p s ex w w' : store_inv ex w → st_sessions w !! p = Some s → s_closed s = false → closing p s w w' →
  ∀ q s' x e, st_sessions w' !! q = Some s' → s_XUDP s' = Some x → s_closed s' = false → st_xudps w' !! x = Some e →
    x_Mux e = Some q ∧ x_Status e = Active.
Proof.
  intros Hw Hp Hc [Es _ _ Ex _] q s' x e Hq Hx Hop He. rewrite Es in Hq.
  destruct (lookup_closed _ _ _ _ Hq) as (s0 & Hs0 & _ & _ & _ & E1 & E2). rewrite Hop in E2.
  destruct (decide (p = q)) as [|Hne]; [done|]. rewrite E1 in Hx. rewrite Ex in He.
  assert (st_xudps w !! x = Some e) as He0.
  { destruct (s_XUDP s) as [y|] eqn:Ey; [|done]. rewrite list_lookup_alter in He. case_decide as Exy; [|done]. subst y.
    destruct (st_xudps w !! x) as [e0|] eqn:E0; [|done]. exfalso. apply Hne.
    destruct (si_one _ _ Hw _ _ _ _ Hp Ey Hc E0) as [Em1 _].
    destruct (si_one _ _ Hw _ _ _ _ Hs0 Hx (eq_sym E2) E0) as [Em2 _]. congruence. }
  exact (si_one _ _ Hw _ _ _ _ Hs0 Hx (eq_sym E2) He0).
Qed.

Lemma session_Close_inv ex p w : store_inv ex w → store_inv ex (session_Close p w) ∧ kept w (session_Close p w).
Proof.
  intros Hw. destruct (st_sessions w !! p) as [s|] eqn:Hp; [|by rewrite session_Close_noop by congruence].
  destruct (s_closed s) eqn:Hc; [by rewrite session_Close_noop by congruence|].
  pose proof (session_Close_closing p s w Hp Hc) as Hcl. pose proof Hcl as [Es Em El _ _].
  split; [|split; rewrite ?Es, ?Em, ?length_alter; done].
  split; [by eapply closing_tables| | | |by eapply closing_map|by eapply closing_one|].
  - intros q s' Hq. rewrite Es in Hq. destruct (lookup_closed _ _ _ _ Hq) as (s0 & Hs0 & E1 & _). rewrite E1, El.
    exact (si_links _ _ Hw _ _ Hs0).
  - intros q s' x Hq Hx. rewrite Es in Hq. destruct (lookup_closed _ _ _ _ Hq) as (s0 & Hs0 & _ & _ & _ & E1 & _).
    rewrite (length_closing_xudps _ _ _ _ Hcl). eapply (si_entries _ _ Hw); [done|congruence].
  - intros p1 p2 s1 s2 H1 H2 E. rewrite Es in H1, H2. destruct (lookup_closed _ _ _ _ H1) as (a1 & A1 & L1 & _ & _ & X1 & _).
    destruct (lookup_closed _ _ _ _ H2) as (a2 & A2 & L2 & _ & _ & X2 & _). rewrite X1, X2.
    eapply (si_shared _ _ Hw); [done|done|congruence].
  - intros q s' x Hex Hq Hx. rewrite Es in Hq. destruct (lookup_closed _ _ _ _ Hq) as (s0 & Hs0 & _ & _ & _ & E1 & E2).
    rewrite E2. case_decide; [done|]. eapply (si_ex _ _ Hw); [done|done|congruence].
Qed.

(** Closing leaves the links that it has to leave. *)
Lemma manager_Close_inv ex k w : store_inv ex w → store_inv ex (manager_Close k w) ∧ kept w (manager_Close k w).
Proof.
  intros Hw. unfold manager_Close. destruct (st_managers w !! k) as [m|] eqn:Hm; [|by split].
  destruct (sm_closed m) eqn:Hcl; [by split|]. cbv zeta.
  set (w0 := on_manager k _ w).
  assert (store_inv ex w0 ∧ kept w w0) as [H0 K0].
  { split; [|split; [done|cbn; by rewrite length_alter]]. destruct Hw as [T K E S M O X]. split; try done.
    intros j m' id p. cbn. rewrite list_lookup_alter. case_decide; [|by apply T]. rewrite Hm. by intros [= <-]. }
  assert (∀ ps, store_inv ex (foldr session_Close w0 ps) ∧ kept w0 (foldr session_Close w0 ps) ∧
    ∀ m', st_managers (foldr session_Close w0 ps) !! k = Some m' → sm_closed m' = true) as Hfold.
  { induction ps as [|p ps (IH1 & IH2 & IH3)]; cbn [foldr].
    - split; [done|]. split; [by split|]. intros m'. cbn. rewrite list_lookup_alter_eq, Hm. by intros [= <-].
    - destruct (session_Close_inv ex p _ IH1) as [I1 I2]. split; [done|]. split; [by eapply kept_trans|]. intros m' Hm'.
      destruct (st_sessions (foldr session_Close w0 ps) !! p) as [s|] eqn:Hp;
        [|rewrite session_Close_noop in Hm' by congruence; auto].
      destruct (s_closed s) eqn:Hc; [rewrite session_Close_noop in Hm' by congruence; auto|].
      rewrite (cl_managers _ _ _ _ (session_Close_closing p s _ Hp Hc)), list_lookup_alter in Hm'.
      case_decide as E; [|by apply IH3]. rewrite E in Hm'. destruct (st_managers (foldr session_Close w0 ps) !! k) as [m0|]; [|done].
      specialize (IH3 m0 eq_refl). injection Hm' as <-. unfold Remove. by rewrite IH3. }
  destruct (Hfold (map_to_list (sm_sessions m)).*2) as (H1 & K1 & C1). set (w1 := foldr _ _ _) in *.
  split.
  - destruct H1 as [T K E S M O X]. split; try done. intros j m' id p. cbn. rewrite list_lookup_alter. case_decide; [|by apply T].
    destruct (st_managers w1 !! k) as [m1|] eqn:E1; [|done]. cbn. intros [= <-]. cbn. rewrite (C1 m1 eq_refl). done.
  - eapply kept_trans; [done|]. eapply kept_trans; [done|]. split; [done|cbn; by rewrite length_alter].
Qed.

(** ** The cleaner *)

(** No open session has the link of a closed session of an entry that is not in
    use. *)
Lemma expiring_link w x e p s l : store_inv None w → entry_ok w x e → st_xudps w !! x = Some e → x_Status e = Expiring →
  st_sessions w !! p = Some s → s_closed s = false → s_link s = Some l →
  ∀ q s', x_Mux e = Some q → st_sessions w !! q = Some s' → s_link s' ≠ Some l.
Proof.
  intros Hw (q0 & s0 & Em & Hs0 & Hx0 & Hst) He Est Hp Hop Hl q s' Hq Hs' Hl'. rewrite Em in Hq. injection Hq as <-.
  rewrite Hs0 in Hs'. injection Hs' as <-. destruct Hst as [[? _]|[_ Hcl]]; [congruence|].
  destruct (si_shared _ _ Hw _ _ _ _ Hp Hs0 ltac:(congruence)) as [->|(y & Hy & Hy0)]; [congruence|].
  rewrite Hx0 in Hy0. injection Hy0 as <-. destruct (si_one _ _ Hw _ _ _ _ Hp Hy Hop He). congruence.
Qed.

(** The cleaner, entry by entry: it takes entries out of the table and closes
    links of theirs. *)
Record swept (w w' : store L) : Prop := {
  sw_inv : store_inv None w';
  sw_sessions : st_sessions w' = st_sessions w;
  sw_managers : st_managers w' = st_managers w;
  sw_xudps : st_xudps w' = st_xudps w;
  sw_length : length (st_links w') = length (st_links w);
  sw_links : ∀ p s l, st_sessions w !! p = Some s → s_closed s = false → s_link s = Some l →
    st_links w' !! l = st_links w !! l
}.

Lemma sweep_entry_swept e w : store_inv None w →
  (∀ x, st_xudps w !! e.2 = Some x → entry_ok w e.2 x) → swept w (sweep_entry e w).
Proof.
  intros Hw He. unfold sweep_entry. destruct (st_xudps w !! e.2) as [x|] eqn:Hx; [|by split].
  unfold expired. case_bool_decide as E; [|by split]. destruct E as [Est _]. pose proof (He x eq_refl) as Hok.
  pose proof Hok as (q & s & Em & Hs & _). unfold xudp_Interrupt. rewrite Em. cbn [mbind option_bind]. rewrite Hs.
  destruct (si_links _ _ Hw _ _ Hs) as (li & Eli & _). rewrite Eli. split; try done.
  - apply (on_link_inv None (Some li) (λ l, link_close (link_interrupt l))) in Hw as [T K E S M O X]. split; try done.
    intros gid y. cbn. rewrite lookup_delete_Some. intros [_ Hy]. exact (M gid y Hy).
  - cbn. by rewrite length_alter.
  - intros p s' l Hp Hop Hl. cbn. rewrite list_lookup_alter_ne; [done|]. intros ->.
    exact (expiring_link w e.2 x p s' l Hw Hok Hx Est Hp Hop Hl q s Em Hs Eli).
Qed.

Lemma swept_trans w1 w2 w3 : swept w1 w2 → swept w2 w3 → swept w1 w3.
Proof.
  intros [_ S1 M1 X1 N1 L1] [I2 S2 M2 X2 N2 L2]. split; try congruence. intros p s l Hp Hop Hl.
  rewrite <- (L1 p s l Hp Hop Hl). eapply L2; [by rewrite S1|done|done].
Qed.

Lemma sweep_swept now w : store_inv None w → swept w (sweep now w).
Proof.
  intros Hw. unfold sweep. set (w0 := Build_store _ _ _ _ _ _). assert (store_inv None w0) as Hw0 by (by destruct Hw).
  assert (∀ es, Forall (λ e, st_map w0 !! e.1 = Some e.2) es → swept w0 (foldr sweep_entry w0 es)) as Hfold.
  { induction es as [|e es IH]; intros Hes; cbn [foldr]; [by split|]. apply Forall_cons in Hes as [He Hes].
    specialize (IH Hes). eapply swept_trans; [done|]. apply sweep_entry_swept; [apply IH|]. intros x Hx.
    rewrite (sw_xudps _ _ IH) in Hx. destruct (si_map _ _ Hw0 _ _ He) as (x' & Hx' & _ & Hok). rewrite Hx in Hx'. injection Hx' as <-.
    specialize (Hok ltac:(done)). unfold entry_ok in *. by rewrite (sw_sessions _ _ IH). }
  destruct (Hfold (map_to_list (st_map w0))) as [S1 S2 S3 S4 S5 S6]; [|by split].
  apply Forall_forall. intros [gid x] Hin%elem_of_map_to_list. done.
Qed.
End safety.

(** ** The handlers *)

(** Links whose answers are proper multi-buffers, whatever is done to them. *)
Class SaneLinks {L : Type} `{Link L} (linv : L → Prop) : Prop := {
  sl_read l : linv l → ∃ mb err l', read_mb l = Ret (mb, err, l') ∧ mb_ok mb ∧ sourced mb ∧ linv l';
  sl_write l mb : linv l → linv (write_mb l mb).1;
  sl_close l : linv l → linv (link_close (link_interrupt l));
  sl_detach l : linv l → linv (link_detach l)
}.

Section handlers.
Context {L D W : Type} `{Link L, BufWriter W}.
Context (dispatch : D → Destination → D * result frame_error L).
Context (linv : L → Prop) `{!SaneLinks linv}.
Context (Hdispatch : ∀ d t d' l, dispatch d t = (d', Ok l) → linv l).
Implicit Types c : @conn L D W.
Implicit Types w : store L.

Definition handlers_ok (w : store L) (hs : list handler) : Prop :=
  Forall (λ h, (h_session h < length (st_sessions w))%nat ∧ (h_worker h < length (st_managers w))%nat ∧ writer_ok (h_writer h)) hs.

(** The state that a frame is handled in, with an entry [ex] being set up. *)
Record conn_inv (ex : option nat) (c : @conn L D W) : Prop := {
  ci_store : store_inv ex (c_store c);
  ci_links : Forall linv (st_links (c_store c));
  ci_reader : sane (c_reader c);
  ci_handles : handlers_ok (c_store c) (c_handles c)
}.

Definition moved (c c' : @conn L D W) : Prop := length (st_managers (c_store c')) = length (st_managers (c_store c)).

(** A computation that ends in a good state. *)
Definition ends_well (ex : option nat) (c : @conn L D W) (o : outcome (conn * option frame_error)) : Prop :=
  ∃ c' err, o = Ret (c', err) ∧ conn_inv ex c' ∧ moved c c'.

Lemma handlers_kept w w' hs : handlers_ok w hs → kept w w' → handlers_ok w' hs.
Proof. intros Hh [K1 K2]. eapply Forall_impl; [exact Hh|]. cbn. intros h (? & ? & ?). rewrite K2. split_all; (done || lia). Qed.

Lemma conn_reader ex c r : conn_inv ex c → sane r → conn_inv ex (with_reader r c).
Proof. intros [] Hr. by split. Qed.

Lemma on_link_linv l (f : L → L) w : (∀ x, linv x → linv (f x)) → Forall linv (st_links w) → Forall linv (st_links (on_link l f w)).
Proof. intros Hf Hl. destruct l; [|done]. cbn. apply Forall_alter; auto. Qed.

Lemma session_Close_linv p w : Forall linv (st_links w) → Forall linv (st_links (session_Close p w)).
Proof using Type*.
  intros Hl. unfold session_Close. destruct (st_sessions w !! p) as [s|]; [|done]. destruct (s_closed s); [done|].
  destruct (s_XUDP s); cbn [on_manager on_xudps st_links]; (apply on_link_linv; [|done]); intros; (by apply sl_detach || by apply sl_close).
Qed.

Lemma manager_Close_linv k w : Forall linv (st_links w) → Forall linv (st_links (manager_Close k w)).
Proof using Type*.
  intros Hl. unfold manager_Close. destruct (st_managers w !! k) as [m|]; [|done]. destruct (sm_closed m); [done|]. cbv zeta.
  set (w0 := on_manager k _ w). cbn [on_manager st_links]. assert (Forall linv (st_links w0)) as Hl0 by done.
  induction (map_to_list (sm_sessions m)).*2 as [|p ps IH]; [done|]. cbn [foldr]. by apply session_Close_linv.
Qed.

Lemma sweep_linv now w : Forall linv (st_links w) → Forall linv (st_links (sweep now w)).
Proof using Type*.
  intros Hl. unfold sweep. set (w0 := Build_store _ _ _ _ _ _). assert (Forall linv (st_links w0)) as Hl0 by done. cbv zeta.
  induction (map_to_list (st_map w0)) as [|e es IH]; [done|]. cbn [foldr]. unfold sweep_entry at 1. destruct (_ !! e.2); [|done].
  destruct (expired _ _); [|done]. cbn [on_map st_links]. unfold xudp_Interrupt. destruct (_ ≫= _); [|done].
  apply on_link_linv; [|done]. intros. by apply sl_close.
Qed.

Lemma conn_close ex c p : conn_inv ex c → conn_inv ex (on_store (session_Close p) c) ∧ moved c (on_store (session_Close p) c).
Proof using Type*.
  intros [Hs Hl Hr Hh]. destruct (session_Close_inv ex p _ Hs) as [Hs' K]. split; [|apply K].
  split; [done|by apply session_Close_linv|done|by eapply handlers_kept].
Qed.

Lemma conn_link ex c l (f : L → L) : conn_inv ex c → (∀ x, linv x → linv (f x)) → conn_inv ex (on_store (on_link l f) c).
Proof using Type*.
  intros [Hs Hl Hr Hh] Hf. split; [by apply on_link_inv|by apply on_link_linv|done|by destruct l].
Qed.

Lemma copy_discard_safe ex rr c : conn_inv ex c → reader_inv rr → ends_well ex c (copy_discard rr c).
Proof using Type*.
  intros Hc Hrr. unfold copy_discard. destruct (copy_session_total (H := Discard) rr tt Hrr) as (rr' & ? & err & -> & Hrr').
  cbn [outcome_bind]. do 2 eexists. split; [reflexivity|]. split; [by apply conn_reader, reader_inv_sane|done].
Qed.

Lemma discard_data_safe ex meta c : conn_inv ex c → ends_well ex c (discard_data meta c).
Proof using Type*.
  intros Hc. unfold discard_data. destruct (Has _ _); [|by do 2 eexists].
  apply copy_discard_safe; [done|]. apply (NewReader_inv TransferTypeStream _ no_destination), Hc.
Qed.

(** Data copied to a link of the store. *)
Lemma copy_to_safe ex l rr c : conn_inv ex c → reader_inv rr → (l < length (st_links (c_store c)))%nat →
  ∃ c' rr' err, copy_to (Some l) rr c = Ret (c', rr', err) ∧ conn_inv ex c' ∧ moved c c' ∧ reader_inv rr'.
Proof using Type*.
  intros Hc Hrr Hl. unfold copy_to. destruct (lookup_lt_is_Some_2 _ _ Hl) as [out Hout]. rewrite Hout. cbn [ret_or_panic].
  destruct (copy_session_total rr out Hrr) as (rr' & out' & err & E & Hrr').
  assert (linv out') as Ho.
  { assert (linv out) as Ho by (exact (Forall_lookup_1 _ _ _ _ (ci_links _ _ Hc) Hout)).
    revert E. unfold Copy. generalize (copy_fuel (rr_reader rr)). intros n.
    assert (∀ n rr out rr' out' e, linv out → copyInternal n rr out = Ret (rr', out', e) → linv out') as Hcopy.
    { clear -SaneLinks0. induction n as [|n IH]; intros rr out rr' out' e Ho; cbn [copyInternal]; [done|].
      destruct (read_mb rr) as [[[mb er] rr1]| |]; try done. cbn [outcome_bind].
      pose proof (sl_write out mb Ho) as Hw. destruct (mb_IsEmpty mb).
      - destruct er; [by intros [= _ <- _]|by apply IH].
      - destruct (write_mb out mb) as [o [we|]]; cbn [fst] in Hw; [by intros [= _ <- _]|].
        destruct er; [by intros [= _ <- _]|by apply IH]. }
    destruct (copyInternal n rr out) as [[[rr1 o1] e1]| |] eqn:Ec; try done. cbn [outcome_bind]. intros [= _ <- _].
    by eapply Hcopy. }
  rewrite E. cbn [outcome_bind]. do 3 eexists. split; [reflexivity|]. split; [|split; [done|done]].
  apply conn_reader; [|by apply reader_inv_sane]. by apply conn_link.
Qed.

(** *** More sessions *)

(** A session with a link of its own, in no table yet. *)
Lemma add_plain_inv ex w w' k id ty : store_inv ex w →
  st_sessions w' = st_sessions w ++ [new_session k id ty None (Some (length (st_links w)))] →
  st_managers w' = st_managers w → st_xudps w' = st_xudps w → st_map w' = st_map w →
  length (st_links w') = S (length (st_links w)) → store_inv ex w'.
Proof.
  intros [T K E S M O X] Es Em Ex Ep El. set (s0 := new_session _ _ _ _ _) in *.
  assert (∀ p s, st_sessions w' !! p = Some s → st_sessions w !! p = Some s ∨ (p = length (st_sessions w) ∧ s = s0)) as Hlook.
  { intros p s. rewrite Es, lookup_app_Some. intros [?|[Hle Hp]]; [by left|].
    apply list_lookup_singleton_Some in Hp as [Hp <-]. right. split; [lia|done]. }
  assert (∀ p s, st_sessions w !! p = Some s → st_sessions w' !! p = Some s) as Hlook'
    by (intros p s Hp; rewrite Es; by apply lookup_app_l_Some).
  split; rewrite ?Em, ?Ex, ?Ep, ?El.
  - intros k' m i p H1 H2 H3. destruct (T _ _ _ _ H1 H2 H3) as (s & Hs & ?). exists s. auto.
  - intros p s [Hp|[-> ->]]%Hlook; [destruct (K p s Hp) as (l & ? & ?); exists l; split; [done|lia]|].
    exists (length (st_links w)). split; [done|lia].
  - intros p s x [Hp|[-> ->]]%Hlook; [by eapply E|done].
  - intros p1 p2 s1 s2 [H1|[-> ->]]%Hlook [H2|[-> ->]]%Hlook El12; [by eapply S| | |by left].
    + destruct (K _ _ H1) as (l & El1 & Hl). rewrite El1 in El12. injection El12 as ->. lia.
    + destruct (K _ _ H2) as (l & El2 & Hl). rewrite El2 in El12. injection El12 as <-. lia.
  - intros gid x Hx. destruct (M _ _ Hx) as (e & He & Hg & Hok). exists e. split; [done|]. split; [done|]. intros Hex.
    destruct (Hok Hex) as (p & s & H1 & H2 & H3). exists p, s. auto.
  - intros p s x e [Hp|[-> ->]]%Hlook; [by eapply O|done].
  - intros p s x Hex [Hp|[-> ->]]%Hlook; [by eapply X|done].
Qed.

(** An open session in the table of its connection. *)
Lemma add_to_inv ex w k p s : store_inv ex w → st_sessions w !! p = Some s → s_parent s = k → s_closed s = false →
  store_inv ex (on_manager k (λ m, (Add (s_ID s) p m).2) w).
Proof.
  intros [T K E S M O X] Hp Hk Hc. split; try done. intros k' m id q. cbn. rewrite list_lookup_alter. case_decide as Ek; [|by apply T].
  subst k'. destruct (st_managers w !! k) as [m0|] eqn:E0; [|done]. intros [= <-]. unfold Add.
  destruct (sm_closed m0) eqn:Ec; cbn; [by rewrite Ec|]. intros _. rewrite lookup_insert_Some.
  intros [[<- <-]|[_ Hq]]; [by exists s|by eapply T].
Qed.

Lemma handle_new_safe k meta c : conn_inv None c → (k < length (st_managers (c_store c)))%nat → is_uint 16 (SessionID meta) →
  ends_well None c (handle_new dispatch k meta c).
Proof using Type*.
  intros Hc Hk Hid. unfold handle_new. destruct (dispatch (c_disp c) (Target meta)) as [d [l|e]] eqn:Ed.
  2: { assert (conn_inv None (with_disp d c)) as Hc' by (by destruct Hc).
       destruct (discard_data_safe None meta (with_disp d c) Hc') as (c' & err & -> & Hc2 & Hm). cbn [outcome_bind]. by do 2 eexists. }
  cbv zeta. unfold add_to. set (ty := if decide _ then _ else _). set (li := next_link _). set (p := next_session _).
  match goal with |- context [NewReader ty (c_reader ?x) _] => set (c1 := x) end.
  assert (conn_inv None c1 ∧ moved c c1 ∧ li < length (st_links (c_store c1)))%nat as (Hc1 & Hm1 & Hli).
  { destruct Hc as [Hs Hl Hr Hh]. split; [split|split].
    - set (s0 := new_session k (SessionID meta) ty None (Some li)).
      assert (store_inv None (c_store (add_session s0 (add_link l (with_disp d c))))) as Hs1
        by (eapply add_plain_inv; [exact Hs|done..|cbn; rewrite length_app; cbn; lia]).
      refine (add_to_inv None _ k p s0 Hs1 _ _ _); [|done|done].
      cbn. unfold p, next_session. cbn. by rewrite lookup_app_r, Nat.sub_diag.
    - cbn. apply Forall_app. split; [done|]. constructor; [by eapply Hdispatch|done].
    - done.
    - cbn. apply Forall_app. split.
      + eapply handlers_kept; [exact Hh|]. split; cbn; [rewrite length_app; lia|by rewrite length_alter].
      + constructor; [|done]. cbn. unfold p, next_session. cbn. rewrite length_app, length_alter. cbn.
        split; [lia|]. split; [done|]. by apply response_writer_ok.
    - unfold moved. cbn. by rewrite length_alter.
    - cbn. unfold li, next_link. cbn. rewrite length_app. cbn. lia. }
  destruct (Has (Option_ meta) OptionData); cbn [negb]; [|by do 2 eexists].
  destruct (copy_to_safe None li (NewReader ty (c_reader c1) (Target meta)) c1 Hc1) as (c2 & rr & err & -> & Hc2 & Hm2 & Hrr).
  { apply NewReader_inv, Hc1. }
  { done. }
  cbn [outcome_bind]. destruct err as [e|]; [|do 2 eexists; split; [reflexivity|]; split; [done|unfold moved in *; congruence]].
  destruct (copy_discard_safe None rr c2 Hc2 Hrr) as (c3 & err & -> & Hc3 & Hm3). cbn [outcome_bind].
  destruct (conn_close None c3 p Hc3) as [Hc4 Hm4]. do 2 eexists. split; [reflexivity|]. split; [done|]. unfold moved in *. congruence.
Qed.

(** *** The other frames *)

Lemma get_session_spec k id c p : conn_inv None c → get_session k id c = Some p →
  ∃ s l, st_sessions (c_store c) !! p = Some s ∧ s_link s = Some l ∧ (l < length (st_links (c_store c)))%nat.
Proof.
  intros [Hs _ _ _] Hp. unfold get_session in Hp. destruct (st_managers (c_store c) !! k) as [m|] eqn:Hm; [|done]. cbn in Hp.
  unfold Get in Hp. destruct (sm_closed m) eqn:Hc; [done|]. destruct (si_tables _ _ Hs _ _ _ _ Hm Hc Hp) as (s & Hp' & _).
  destruct (si_links _ _ Hs _ _ Hp') as (l & ? & ?). by exists s, l.
Qed.

Lemma keep_safe k meta c : conn_inv None c → is_uint 16 (SessionID meta) → ends_well None c (handleStatusKeep k meta c).
Proof using Type*.
  intros Hc Hid. unfold handleStatusKeep. destruct (Has _ _); cbn [negb]; [|by do 2 eexists].
  destruct (get_session k (SessionID meta) c) as [p|] eqn:Ep.
  - destruct (get_session_spec k _ c p Hc Ep) as (s & l & -> & El & Hl). cbn [ret_or_panic]. rewrite El.
    destruct (copy_to_safe None l (NewReader (s_type s) (c_reader c) (Target meta)) c Hc) as (c2 & rr & err & -> & Hc2 & Hm2 & Hrr);
      [by apply NewReader_inv, Hc|done|]. cbn [outcome_bind]. destruct (IsWriteError err); [|by do 2 eexists].
    destruct (conn_close None c2 p Hc2) as [Hc3 Hm3].
    destruct (copy_discard_safe None rr _ Hc3 Hrr) as (c4 & err' & -> & Hc4 & Hm4). do 2 eexists. split; [reflexivity|].
    split; [done|]. unfold moved in *. congruence.
  - unfold notify_end. destruct (mux_Close_total (NewResponseWriter (SessionID meta) TransferTypeStream) (c_down c)) as (down & ->);
      [by apply response_writer_ok|]. cbn [outcome_bind]. apply (discard_data_safe None meta (with_down down c)). by destruct Hc.
Qed.

Lemma end_safe k meta c : conn_inv None c → ends_well None c (handleStatusEnd k meta c).
Proof using Type*.
  intros Hc. unfold handleStatusEnd. destruct (get_session k (SessionID meta) c) as [p|]; [|by apply discard_data_safe].
  destruct (conn_close None c p Hc) as [Hc1 Hm1]. destruct (discard_data_safe None meta _ Hc1) as (c2 & err & -> & Hc2 & Hm2).
  do 2 eexists. split; [reflexivity|]. split; [done|]. unfold moved in *. congruence.
Qed.

(** *** Entries of the table of UDP sessions *)

(** The entry [x] of the global id, which is being set up. *)
Record setting_up (gid : bytes) (x : nat) (c : @conn L D W) : Prop := {
  su_inv : conn_inv (Some x) c;
  su_map : st_map (c_store c) !! gid = Some x;
  su_entry : ∃ e, st_xudps (c_store c) !! x = Some e
}.

Lemma setting_up_new gid c : conn_inv None c → st_map (c_store c) !! gid = None →
  setting_up gid (length (st_xudps (c_store c)))
    (on_store (λ w, on_map <[gid := length (st_xudps (c_store c))]> (on_xudps (λ l, l ++ [new_xudp gid]) w)) c).
Proof.
  intros [[T K E S M O X] Hl Hr Hh] Hg. set (x := length _). split; [split; [|done|done|done]| |].
  - split; try done; cbn [on_store c_store on_map on_xudps st_sessions st_managers st_links st_xudps st_map].
    + intros p s y Hp Hy. rewrite length_app. cbn. pose proof (E _ _ _ Hp Hy). lia.
    + intros g y. rewrite lookup_insert_Some. intros [[<- <-]|[Hne Hy]].
      * exists (new_xudp gid). unfold x. rewrite lookup_app_r, Nat.sub_diag by done. by split_all.
      * destruct (M _ _ Hy) as (e & He & Hge & Hok). exists e. rewrite lookup_app_l by (by eapply lookup_lt_Some).
        split; [done|]. split; [done|]. intros _. by apply Hok.
    + intros p s y e Hp Hy Hc. pose proof (E _ _ _ Hp Hy). rewrite lookup_app_l by done. by eapply O.
    + intros p s y [= <-] Hp Hy. pose proof (E _ _ _ Hp Hy). unfold x in *. lia.
  - cbn. by rewrite lookup_insert_eq.
  - exists (new_xudp gid). cbn. unfold x. by rewrite lookup_app_r, Nat.sub_diag.
Qed.

(** An entry may be changed while it is being set up, if its sessions are closed. *)
Lemma store_inv_except x w w' : store_inv None w → st_sessions w' = st_sessions w → st_managers w' = st_managers w →
  length (st_links w') = length (st_links w) → st_map w' = st_map w → length (st_xudps w') = length (st_xudps w) →
  (∀ y, y ≠ x → st_xudps w' !! y = st_xudps w !! y) →
  x_GlobalID <$> st_xudps w' !! x = x_GlobalID <$> st_xudps w !! x →
  (∀ p s, st_sessions w !! p = Some s → s_XUDP s = Some x → s_closed s = true) → store_inv (Some x) w'.
Proof.
  intros [T K E S M O X] Es Em El Ep Exl Ex Egid Hcl. split; rewrite ?Es, ?Em, ?El, ?Ep, ?Exl; try done.
  - intros gid y Hy. destruct (M _ _ Hy) as (e & He & Hg & Hok). destruct (decide (y = x)) as [->|Hne].
    + rewrite He in Egid. destruct (st_xudps w' !! x) as [e'|]; [|done]. injection Egid as Eg. exists e'.
      split; [done|]. split; [congruence|done].
    + exists e. rewrite Ex by done. split; [done|]. split; [done|]. intros _. unfold entry_ok. rewrite Es. by apply Hok.
  - intros p s y e Hp Hy Hc He. destruct (decide (y = x)) as [->|Hne]; [rewrite (Hcl _ _ Hp Hy) in Hc; done|].
    rewrite Ex in He by done. by eapply O.
  - intros p s y [= <-]. apply Hcl.
Qed.

(** The session of the entry that is taken up again has been closed. *)
Lemma detach_inv gid x e p w : store_inv None w → st_map w !! gid = Some x → st_xudps w !! x = Some e → x_Mux e = Some p →
  store_inv (Some x) (session_Close p (on_xudps (alter (set_status Initializing) x) w)).
Proof.
  intros Hw Hg He Hp. destruct (session_Close_inv None p w Hw) as [Hw1 _].
  set (w0 := on_xudps (alter (set_status Initializing) x) w).
  destruct (si_map _ _ Hw _ _ Hg) as (e' & He' & _ & Hok). rewrite He in He'. injection He' as <-.
  destruct (Hok ltac:(done)) as (p' & s & Hp' & Hs & Hsx & Hst). rewrite Hp in Hp'. injection Hp' as <-.
  assert (length (st_xudps w0) = length (st_xudps w)) as El0 by (cbn; by rewrite length_alter).
  destruct Hst as [[Est Hc]|[Est Hc]].
  - pose proof (session_Close_closing p s w Hs Hc) as C1. pose proof (session_Close_closing p s w0 Hs Hc) as C2.
    pose proof (length_closing_xudps _ _ _ _ C1) as El1. pose proof (length_closing_xudps _ _ _ _ C2) as El2.
    destruct C1 as [Es1 Em1 L1 X1 P1], C2 as [Es2 Em2 L2 X2 P2]. rewrite Hsx in X1, X2.
    apply (store_inv_except x _ _ Hw1);
      [by rewrite Es1, Es2|by rewrite Em1, Em2|by rewrite L1, L2|by rewrite P1, P2|congruence|..].
    + intros y Hne. rewrite X1, X2. cbn [w0 on_xudps st_xudps]. rewrite !list_lookup_alter_ne by done. done.
    + rewrite X1, X2. cbn [w0 on_xudps st_xudps]. rewrite !list_lookup_alter_eq, He. cbn. unfold put_xudp. by repeat case_decide.
    + intros q s' Hq Hx'. rewrite Es1 in Hq. destruct (lookup_closed _ _ _ _ Hq) as (s0 & Hs0 & _ & _ & _ & E1 & E2).
      rewrite E2. case_decide as Epq; [done|]. rewrite E1 in Hx'. destruct (s_closed s0) eqn:Ec0; [done|].
      destruct (si_one _ _ Hw _ _ _ _ Hs0 Hx' Ec0 He) as [Em _]. congruence.
  - rewrite session_Close_noop by (cbn; congruence). apply (store_inv_except x _ _ Hw); try done.
    + intros y Hne. cbn. by rewrite list_lookup_alter_ne.
    + cbn. by rewrite list_lookup_alter_eq, He.
    + intros q s' Hq Hx'. destruct (s_closed s') eqn:Ec; [done|]. destruct (si_one _ _ Hw _ _ _ _ Hq Hx' Ec He). congruence.
Qed.

(** The session that an entry gets. *)
Lemma attach_inv x w k id l : store_inv (Some x) w → (∃ e, st_xudps w !! x = Some e) → (l < length (st_links w))%nat →
  (∀ p s, st_sessions w !! p = Some s → s_link s = Some l → s_XUDP s = Some x) →
  store_inv None (on_xudps (λ xs, alter (set_status Active) x (alter (set_mux (length (st_sessions w))) x xs))
    (on_sessions (λ ss, ss ++ [new_session k id TransferTypePacket (Some x) (Some l)]) w)).
Proof.
  intros [T K E S M O X] (e0 & He0) Hl Hlx. set (s0 := new_session _ _ _ _ _).
  set (w' := on_xudps _ _). set (p0 := length (st_sessions w)).
  assert (∀ p s, st_sessions w' !! p = Some s → st_sessions w !! p = Some s ∨ (p = p0 ∧ s = s0)) as Hlook.
  { intros p s. cbn. rewrite lookup_app_Some. intros [?|[Hle Hp]]; [by left|].
    apply list_lookup_singleton_Some in Hp as [Hp <-]. right. unfold p0. split; [lia|done]. }
  assert (∀ p s, st_sessions w !! p = Some s → st_sessions w' !! p = Some s) as Hlook'
    by (intros p s Hp; cbn; by apply lookup_app_l_Some).
  assert (st_sessions w' !! p0 = Some s0) as Hp0 by (cbn; unfold p0; by rewrite lookup_app_r, Nat.sub_diag).
  assert (∀ y, y ≠ x → st_xudps w' !! y = st_xudps w !! y) as Hxne by (intros y Hne; cbn; by rewrite !list_lookup_alter_ne).
  assert (st_xudps w' !! x = Some (set_status Active (set_mux p0 e0))) as Hxx by (cbn; by rewrite !list_lookup_alter_eq, He0).
  split.
  - intros k' m i p H1 H2 H3. destruct (T _ _ _ _ H1 H2 H3) as (s & Hs & ?). exists s. auto.
  - intros p s [Hp|[-> ->]]%Hlook; [by eapply K|]. by exists l.
  - intros p s y [Hp|[-> ->]]%Hlook Hy; cbn; rewrite !length_alter; [by eapply E|]. injection Hy as <-. by eapply lookup_lt_Some.
  - intros p1 p2 s1 s2 [H1|[-> ->]]%Hlook [H2|[-> ->]]%Hlook El; [by eapply S| | |by left].
    + right. exists x. split; [|done]. by apply (Hlx _ _ H1).
    + right. exists x. split; [done|]. by apply (Hlx _ _ H2).
  - intros gid y Hy. destruct (M _ _ Hy) as (e & He & Hg & Hok). destruct (decide (y = x)) as [->|Hne].
    + rewrite He0 in He. injection He as <-. eexists. split; [exact Hxx|]. split; [done|]. intros _. exists p0, s0.
      split; [done|]. split; [done|]. split; [done|]. by left.
    + exists e. rewrite Hxne by done. split; [done|]. split; [done|]. intros _.
      destruct (Hok ltac:(congruence)) as (q & s & H1 & H2 & H3). exists q, s. auto.
  - intros p s y e [Hp|[-> ->]]%Hlook Hy Hc He.
    + destruct (decide (y = x)) as [->|Hne]; [by rewrite (X _ _ _ eq_refl Hp Hy) in Hc|]. rewrite Hxne in He by done. by eapply O.
    + injection Hy as <-. rewrite Hxx in He. by injection He as <-.
  - done.
Qed.

(** The link of an entry: nobody else's. *)
Definition own_link (x l : nat) (c : @conn L D W) : Prop :=
  (l < length (st_links (c_store c)))%nat ∧
  ∀ p s, st_sessions (c_store c) !! p = Some s → s_link s = Some l → s_XUDP s = Some x.

(** The fields that marking an entry does not change. *)
Lemma session_Close_mark p x w : let w' := on_xudps (alter (set_status Initializing) x) w in
  st_sessions (session_Close p w') = st_sessions (session_Close p w) ∧
  st_managers (session_Close p w') = st_managers (session_Close p w) ∧
  st_links (session_Close p w') = st_links (session_Close p w) ∧ st_map (session_Close p w') = st_map w.
Proof.
  unfold session_Close. cbn [on_xudps st_sessions]. destruct (st_sessions w !! p) as [s|]; [|done].
  destruct (s_closed s); [done|]. by destruct (s_XUDP s), (s_link s).
Qed.

(** The entry is marked and its session closed: what is left is its link. *)
Lemma detach_conn gid x e c : conn_inv None c → st_map (c_store c) !! gid = Some x → st_xudps (c_store c) !! x = Some e →
  ∃ p s l, x_Mux e = Some p ∧
    let c1 := on_store (session_Close p) (on_store (on_xudps (alter (set_status Initializing) x)) c) in
    setting_up gid x c1 ∧ moved c c1 ∧ st_sessions (c_store c1) !! p = Some s ∧ s_link s = Some l ∧ own_link x l c1.
Proof using Type*.
  intros Hc Hg He. pose proof Hc as [Hst _ _ Hh]. destruct (si_map _ _ Hst _ _ Hg) as (e' & He' & _ & Hok).
  rewrite He in He'. injection He' as <-. destruct (Hok ltac:(done)) as (p & s0 & Hp & Hs0 & Hsx & _).
  pose proof (detach_inv gid x e p _ Hst Hg He Hp) as Hst1. destruct (conn_close None c p Hc) as [[_ Hln' _ _] Hm].
  destruct (session_Close_inv None p _ Hst) as [_ [K1 K2]]. destruct (session_Close_mark p x (c_store c)) as (Q1 & Q2 & Q3 & Q4).
  cbv zeta. set (c1 := on_store (session_Close p) (on_store (on_xudps (alter (set_status Initializing) x)) c)).
  assert (∃ s, st_sessions (c_store c1) !! p = Some s ∧ s_XUDP s = Some x) as (s & Hs & Ex).
  { cbn [c1 on_store c_store]. rewrite Q1. destruct (s_closed s0) eqn:Ecl.
    - rewrite session_Close_noop by congruence. by exists s0.
    - rewrite (cl_sessions _ _ _ _ (session_Close_closing p s0 _ Hs0 Ecl)).
      destruct (closed_lookup _ p _ _ Hs0) as (s1 & H1 & _ & _ & _ & H3 & _). exists s1. split; [done|congruence]. }
  destruct (si_links _ _ Hst1 _ _ Hs) as (l & El & Hlt). exists p, s, l. split; [done|].
  assert (conn_inv (Some x) c1) as Hc1.
  { split; [exact Hst1|cbn [c1 on_store c_store]; by rewrite Q3|apply Hc|]. eapply handlers_kept; [exact Hh|].
    split; cbn [c1 on_store c_store]; [by rewrite Q1|by rewrite Q2]. }
  split; [split; [done|cbn [c1 on_store c_store]; by rewrite Q4|]|].
  { destruct (si_map _ _ Hst1 gid x) as (e1 & ? & _); [by rewrite Q4|]. by exists e1. }
  split; [unfold moved; cbn [c1 on_store c_store]; by rewrite Q2, K2|]. split; [done|]. split; [done|]. split; [done|].
  intros q sq Hq Hlq. destruct (si_shared _ _ Hst1 _ _ _ _ Hq Hs ltac:(congruence)) as [->|(y & Hy & Hy1)]; [|congruence].
  change (st_sessions (c_store c1) !! p = Some sq) in Hq. congruence.
Qed.

(** A change of the link of an entry. *)
Lemma setting_up_link gid x l (f : L → L) c : setting_up gid x c → own_link x l c → (∀ z, linv z → linv (f z)) →
  setting_up gid x (on_store (on_link (Some l) f) c) ∧ own_link x l (on_store (on_link (Some l) f) c).
Proof using Type*.
  intros [H1 H2 H3] [O1 O2] Hf. split; [split; [by apply conn_link|done|done]|]. split; [cbn; by rewrite length_alter|done].
Qed.

Lemma xudp_hit_safe gid x e b0 c : conn_inv None c → st_map (c_store c) !! gid = Some x → st_xudps (c_store c) !! x = Some e →
  wf b0 → Z.of_nat (length (content b0)) ≤ 8192 →
  ∃ mb l c', xudp_hit x e [b0] c = Ret (mb, Some l, c') ∧ setting_up gid x c' ∧ own_link x l c' ∧ moved c c'.
Proof using Type*.
  intros Hc Hg He Hb Hl. destruct (detach_conn gid x e c Hc Hg He) as (p & s & l & Hp & Hsu & Hm & Hs & El & Hown).
  unfold xudp_hit. rewrite Hp. cbn [ret_or_panic]. cbv zeta in *. set (c1 := on_store (session_Close p) (on_store (on_xudps (alter (set_status Initializing) x)) c)) in *.
  rewrite Hs. cbn [ret_or_panic lookup list_lookup]. rewrite Bytes_content by done. cbn [ret_or_panic].
  destruct (new_buffer pool_array pool_array_length) as (W0 & C0 & R0).
  destruct (write_all_spec (Buffer_New pool_array) (content b0) W0) as (b & -> & _); [lia|]. cbn [outcome_bind].
  rewrite El. cbn [ret_or_panic]. destruct (lookup_lt_is_Some_2 _ _ (proj1 Hown)) as [out Hout]. rewrite Hout. cbn [ret_or_panic].
  pose proof (sl_write out [b0] (Forall_lookup_1 _ _ _ _ (ci_links _ _ (su_inv _ _ _ Hsu)) Hout)) as Hlo.
  destruct (write_mb out [b0]) as [out' err]. cbn [fst] in Hlo.
  destruct (setting_up_link gid x l (λ _, out') c1 Hsu Hown ltac:(done)) as [Hsu2 Hown2].
  set (c2 := on_store (on_link (Some l) (λ _, out')) c1) in *. destruct err as [er|]; do 3 eexists; (split; [reflexivity|]).
  - assert (on_store (xudp_Interrupt (set_status Initializing e)) c2 =
      on_store (on_link (Some l) (λ l, link_close (link_interrupt l))) c2) as ->.
    { unfold on_store at 1 2. f_equal. unfold xudp_Interrupt. cbn [set_status x_Mux]. rewrite Hp. cbn [mbind option_bind].
      change (st_sessions (c_store c2)) with (st_sessions (c_store c1)). by rewrite Hs, El. }
    destruct (setting_up_link gid x l _ c2 Hsu2 Hown2 sl_close). by split_all.
  - by split_all.
Qed.

Lemma xudp_lookup_safe gid b0 c : conn_inv None c → wf b0 → Z.of_nat (length (content b0)) ≤ 8192 →
  ∃ r c', xudp_lookup gid [b0] c = Ret (r, c') ∧ moved c c' ∧
    match r with
    | None => conn_inv None c'
    | Some (x, mb, l) => setting_up gid x c' ∧ (mb = None → ∃ li, l = Some li ∧ own_link x li c')
    end.
Proof using Type*.
  intros Hc Hb Hl. unfold xudp_lookup. destruct (st_map (c_store c) !! gid) as [x|] eqn:Hg.
  - destruct (si_map _ _ (ci_store _ _ Hc) _ _ Hg) as (e & He & _). rewrite He. cbn [ret_or_panic].
    case_decide; [by do 2 eexists|].
    destruct (xudp_hit_safe gid x e b0 c Hc Hg He Hb Hl) as (mb & l & c' & -> & Hsu & Hown & Hm). cbn [outcome_bind].
    do 2 eexists. split; [reflexivity|]. split; [done|]. split; [done|]. intros _. by exists l.
  - do 2 eexists. split; [reflexivity|]. split; [done|]. split; [by apply setting_up_new|done].
Qed.

Lemma xudp_attach_safe gid k x id l c : setting_up gid x c → own_link x l c → (k < length (st_managers (c_store c)))%nat →
  is_uint 16 id → conn_inv None (xudp_attach k x id (Some l) c) ∧ moved c (xudp_attach k x id (Some l) c).
Proof using Type*.
  intros [[Hst Hln Hr Hh] _ He] [Hl Hown] Hk Hid. unfold xudp_attach, add_to. cbv zeta. set (p := next_session c).
  set (s0 := new_session k id TransferTypePacket (Some x) (Some l)).
  match goal with |- context [st_managers (c_store ?y) !! k] => set (c1 := y) end.
  assert (conn_inv None c1) as Hc1.
  { split; [exact (attach_inv x _ k id l Hst He Hl Hown)|done|done|]. cbn [c1 start_handle spawn on_store c_store c_handles].
    apply Forall_app. split; [eapply handlers_kept; [exact Hh|]; split; [cbn; rewrite length_app; lia|done]|].
    constructor; [|done]. cbn. unfold p, next_session. rewrite length_app. cbn. split; [lia|]. split; [done|]. by apply response_writer_ok. }
  set (c2 := on_store (on_manager k (λ m, (Add id p m).2)) c1).
  assert (conn_inv None c2 ∧ moved c c2) as [Hc2 Hm2].
  { destruct Hc1 as [I1 I2 I3 I4]. split; [split; [|done|done|]|].
    - refine (add_to_inv None _ k p s0 I1 _ _ _); [|done|done]. cbn. unfold p, next_session. by rewrite lookup_app_r, Nat.sub_diag.
    - eapply handlers_kept; [exact I4|]. split; [done|cbn; by rewrite length_alter].
    - unfold moved. cbn. by rewrite length_alter. }
  destruct (match st_managers (c_store c1) !! k with Some m => (Add id p m).1 | None => false end); [by split|].
  destruct (conn_close None c2 p Hc2) as [Hc3 Hm3]. split; [done|]. unfold moved in *. congruence.
Qed.

(** A link of its own for the entry, or no entry. *)
Lemma xudp_dispatch_safe gid x t mb c : setting_up gid x c →
  let '(r, c') := xudp_dispatch dispatch x gid t mb c in
  moved c c' ∧ match r with Ok l => setting_up gid x c' ∧ own_link x l c' | Err _ => conn_inv None c' end.
Proof using Type*.
  intros [Hc Hg He]. pose proof Hc as [[T K E S M O X] Hln Hr Hh]. unfold xudp_dispatch.
  destruct (dispatch (c_disp c) t) as [d [l|e]] eqn:Ed; (split; [done|]).
  - split; [split; [split; [|cbn; apply Forall_app; split; [done|]|done|done]|done|done]|].
    + eapply store_inv_links; [exact (ci_store _ _ Hc)|done..|cbn; rewrite length_app; lia].
    + constructor; [|done]. apply sl_write. by eapply Hdispatch.
    + split; [cbn; unfold next_link; rewrite length_app; cbn; lia|]. intros p s Hp Hl. cbn in Hp.
      destruct (K _ _ Hp) as (l' & El & Hlt). rewrite El in Hl. injection Hl as ->. unfold next_link in Hlt. cbn in Hlt. lia.
  - split; [|done|done|done]. cbn. split; try done. cbn. intros g y. rewrite lookup_delete_Some. intros [Hne Hy].
    destruct (M _ _ Hy) as (e1 & He1 & Hge & Hok). exists e1. split; [done|]. split; [done|]. intros _. apply Hok.
    intros [= ->]. destruct (M _ _ Hg) as (e2 & He2 & Hge2 & _). congruence.
Qed.

Lemma handle_xudp_safe k meta c : conn_inv None c → (k < length (st_managers (c_store c)))%nat → is_uint 16 (SessionID meta) →
  ends_well None c (handle_xudp dispatch k meta c).
Proof using Type*.
  intros Hc Hk Hid. unfold handle_xudp.
  destruct (packet_read_total (c_reader c) (Some (Target meta)) (ci_reader _ _ Hc)) as (mb & err & pr & -> & Hpr & Hmb).
  cbn [outcome_bind]. pose proof (conn_reader None c _ Hc Hpr) as Hc1. destruct err as [e|]; [by do 2 eexists|].
  destruct (Hmb eq_refl) as (b & -> & Hb & Hl).
  destruct (xudp_lookup_safe (GlobalID meta) b _ Hc1 Hb Hl) as (r & c2 & -> & Hm2 & Hr). cbn [outcome_bind].
  destruct r as [[[x [mb|]] l]|]; [| |by do 2 eexists].
  - destruct Hr as [Hsu _]. pose proof (xudp_dispatch_safe (GlobalID meta) x (Target meta) mb c2 Hsu) as Hd.
    destruct (xudp_dispatch dispatch x (GlobalID meta) (Target meta) mb c2) as [[l'|e] c3]; destruct Hd as [Hm3 Hd].
    + destruct Hd as [Hsu3 Hown]. destruct (xudp_attach_safe _ k x (SessionID meta) l' c3 Hsu3 Hown) as [H1 H2];
        [unfold moved in *; cbn in *; lia|done|]. do 2 eexists. split; [reflexivity|]. split; [done|]. unfold moved in *. cbn in *. congruence.
    + do 2 eexists. split; [reflexivity|]. split; [done|]. unfold moved in *. cbn in *. congruence.
  - destruct Hr as [Hsu Hown]. destruct (Hown eq_refl) as (li & -> & Hown').
    destruct (xudp_attach_safe _ k x (SessionID meta) li c2 Hsu Hown') as [H1 H2]; [unfold moved in *; cbn in *; lia|done|].
    do 2 eexists. split; [reflexivity|]. split; [done|]. unfold moved in *. cbn in *. congruence.
Qed.

Lemma handleFrame_safe k allowed c : conn_inv None c → (k < length (st_managers (c_store c)))%nat →
  ends_well None c (handleFrame dispatch k allowed c).
Proof using Type*.
  intros Hc Hk. unfold handleFrame.
  destruct (br_Unmarshal_total zero_meta (c_reader c) (ci_reader _ _ Hc)) as (d & r & -> & [Hr _] & Hd). cbn [outcome_bind].
  pose proof (conn_reader None c r Hc Hr) as Hc1. destruct d as [meta|e]; [|by do 2 eexists].
  match goal with |- ends_well _ _ ?o => change (ends_well None (with_reader r c) o) end.
  case_decide; [by apply discard_data_safe|]. case_decide; [by apply end_safe|]. case_decide; [|case_decide; [by apply keep_safe|by do 2 eexists]].
  unfold handleStatusNew. case_decide; [by do 2 eexists|]. case_decide; [by apply handle_xudp_safe|by apply handle_new_safe].
Qed.

(** ** The server *)

Record server_inv (v : @server L D W) : Prop := {
  sv_inv_store : store_inv None (sv_store v);
  sv_inv_links : Forall linv (st_links (sv_store v));
  sv_inv_readers : Forall (λ x, sane (wk_reader x)) (sv_workers v);
  sv_inv_handles : handlers_ok (sv_store v) (sv_handles v);
  sv_inv_workers : length (sv_workers v) = length (st_managers (sv_store v))
}.

Lemma server_store v w : server_inv v → store_inv None w → Forall linv (st_links w) → kept (sv_store v) w →
  server_inv (sv_on_store (λ _, w) v).
Proof. intros [Hs Hl Hr Hh Hw] Hw1 Hl1 K. split; try done; [by eapply handlers_kept|]. cbn. rewrite (kp_managers _ _ K). done. Qed.

Lemma server_worker v k f : server_inv v → (∀ x, wk_reader (f x) = wk_reader x) → server_inv (sv_on_worker k f v).
Proof.
  intros [Hs Hl Hr Hh Hw] Hf. split; try done; cbn; [|by rewrite length_alter]. apply Forall_alter; [done|].
  intros x _ Hx. by rewrite Hf.
Qed.

Lemma server_stop v k b : server_inv v → server_inv (sv_on_store (manager_Close k) (sv_on_worker k (stop_worker b) v)).
Proof using Type*.
  intros Hv. pose proof (server_worker v k (stop_worker b) Hv ltac:(done)) as Hv1.
  destruct (manager_Close_inv None k _ (sv_inv_store _ Hv)) as [M1 M2]. apply (server_store _ _ Hv1); [done| |done].
  by apply manager_Close_linv, Hv.
Qed.

Lemma run_round_safe k v : server_inv v → ∃ v', run_round dispatch k v = Ret v' ∧ server_inv v'.
Proof using Type*.
  intros Hv. pose proof Hv as [Hs Hl Hr Hh Hw]. unfold run_round. destruct (sv_workers v !! k) as [x|] eqn:Hx; [|by eexists].
  destruct (wk_running x); cbn [negb]; [|by eexists].
  assert (conn_inv None (conn_of v x)) as Hc by (split; [done|done|exact (Forall_lookup_1 _ _ _ _ Hr Hx)|done]).
  destruct (handleFrame_safe k (wk_allowed x) (conn_of v x) Hc) as (c & err & -> & [I1 I2 I3 I4] & Hm).
  { cbn. rewrite <- Hw. by eapply lookup_lt_Some. }
  cbn [outcome_bind]. eexists. split; [reflexivity|].
  assert (server_inv (after_conn k c v)) as Hv1.
  { split; [done|done|cbn; by apply Forall_alter|done|cbn; rewrite length_alter]. unfold moved in Hm. cbn in Hm. congruence. }
  destruct err as [e|]; [by apply server_stop|done].
Qed.

Lemma set_handle_inv v i (w : MuxWriter) b : server_inv v → writer_ok w → server_inv (set_handle i w b v).
Proof.
  intros [Hs Hl Hr Hh Hw] Hok. split; try done. cbn. apply Forall_alter; [done|]. intros h _ (? & ? & _). done.
Qed.

Lemma handle_end_safe i h (w : MuxWriter) err down v : server_inv v → writer_ok w →
  ∃ v', handle_end i h w err down v = Ret v' ∧ server_inv v'.
Proof using Type*.
  intros Hv Hw. unfold handle_end. set (w1 := if decide _ then _ else _).
  assert (writer_ok w1) as Hw1 by (unfold w1; case_decide; [done|by apply set_hasError_ok]). cbv zeta.
  destruct (mux_Close_total w1 down Hw1) as (down' & ->). cbn [outcome_bind]. eexists. split; [reflexivity|].
  pose proof (server_worker v (h_worker h) (set_down down') Hv ltac:(done)) as Hv1.
  pose proof (set_handle_inv _ i w1 false Hv1 Hw1) as Hv2. destruct (session_Close_inv None (h_session h) _ (sv_inv_store _ Hv)) as [M1 M2].
  apply (server_store _ _ Hv2); [done| |done]. by apply session_Close_linv, Hv.
Qed.

Lemma handle_round_safe i v : server_inv v → ∃ v', handle_round i v = Ret v' ∧ server_inv v'.
Proof using Type*.
  intros Hv. pose proof Hv as [Hs Hl Hr Hh Hw]. unfold handle_round. destruct (sv_handles v !! i) as [h|] eqn:Hi; [|by eexists].
  destruct (h_live h); cbn [negb]; [|by eexists]. destruct (Forall_lookup_1 _ _ _ _ Hh Hi) as (H1 & H2 & H3).
  destruct (lookup_lt_is_Some_2 (sv_workers v) (h_worker h)) as [x ->]; [by rewrite Hw|]. cbn [ret_or_panic].
  destruct (lookup_lt_is_Some_2 _ _ H1) as [s Hsess]. rewrite Hsess. cbn [mbind option_bind].
  destruct (si_links _ _ Hs _ _ Hsess) as (li & -> & Hli). cbn [ret_or_panic].
  destruct (lookup_lt_is_Some_2 _ _ Hli) as [l Hlk]. rewrite Hlk. cbn [ret_or_panic].
  destruct (sl_read l (Forall_lookup_1 _ _ _ _ Hl Hlk)) as (mb & err & l' & -> & Hmb & Hsrc & Hl'). cbn [outcome_bind].
  set (v1 := sv_on_store (on_link (Some li) (λ _, l')) v).
  assert (server_inv v1) as Hv1.
  { apply (server_store v _ Hv); [by apply on_link_inv|by apply on_link_linv|by split]. }
  assert (∃ (w : MuxWriter) down werr, (if mb_IsEmpty mb then Ret (h_writer h, wk_down x, None) else mux_WriteMultiBuffer mb (h_writer h) (wk_down x)) =
    Ret (w, down, werr) ∧ writer_ok w) as (w & down & werr & -> & Hwok).
  { destruct (mb_IsEmpty mb) eqn:E; [by do 3 eexists|by apply mux_Write_total]. }
  cbn [outcome_bind]. destruct werr as [e|]; [by apply handle_end_safe|]. destruct err as [e|]; [by apply handle_end_safe|].
  eexists. split; [reflexivity|]. apply set_handle_inv; [|done]. by apply server_worker.
Qed.

(** What the peers of a server can do. *)
Definition event_ok (e : @server_event W) : Prop := match e with Connect r _ _ => sane r | _ => True end.

Lemma server_step_safe e v : server_inv v → event_ok e → ∃ v', server_step dispatch e v = Ret v' ∧ server_inv v'.
Proof using Type*.
  intros Hv He. pose proof Hv as [Hs Hl Hr Hh Hw]. destruct e as [r down allowed|k|k|i|now]; cbn [server_step].
  - eexists. split; [reflexivity|]. split.
    + destruct Hs as [T K E S M O X]. split; try done. cbn. intros k m id p. rewrite lookup_app_Some. intros [?|[_ Hm]]; [by apply T|].
      apply list_lookup_singleton_Some in Hm as [_ <-]. done.
    + done.
    + cbn. apply Forall_app. split; [done|by constructor].
    + cbn. eapply Forall_impl; [exact Hh|]. cbn. intros h (? & ? & ?). rewrite length_app. split_all; (done || lia).
    + cbn. rewrite !length_app, Hw. done.
  - by apply run_round_safe.
  - eexists. split; [reflexivity|]. unfold run_cancelled. destruct (sv_workers v !! k) as [x|]; [|done].
    destruct (wk_running x); [by apply server_stop|done].
  - by apply handle_round_safe.
  - eexists. split; [reflexivity|]. pose proof (sweep_swept now _ Hs) as [S1 S2 S3 S4 S5 _].
    apply (server_store v _ Hv); [done|by apply sweep_linv|split; [by rewrite S2|by rewrite S3]].
Qed.

(** The events of a server, one after the other. *)
Fixpoint server_run (es : list (@server_event W)) (v : @server L D W) : outcome (@server L D W) :=
  match es with [] => Ret v | e :: es => let? v := server_step dispatch e v in server_run es v end.

Lemma server_run_safe es v : server_inv v → Forall event_ok es → ∃ v', server_run es v = Ret v' ∧ server_inv v'.
Proof using Type*.
  intros Hv Hes. revert v Hv. induction Hes as [|e es He Hes IH]; intros v Hv; cbn [server_run]; [by eexists|].
  destruct (server_step_safe e v Hv He) as (v1 & -> & Hv1). cbn [outcome_bind]. by apply IH.
Qed.

(** The server before anything has happened. *)
Definition empty_server (d : D) : @server L D W :=
  {| sv_store := {| st_sessions := []; st_managers := []; st_links := []; st_xudps := []; st_map := ∅; st_now := 0 |};
     sv_disp := d; sv_workers := []; sv_handles := [] |}.

Lemma empty_server_inv d : server_inv (empty_server d).
Proof. split; try apply Forall_nil_2; [|done]. split; cbn; done. Qed.


(** In every such state the cleaner, at any time, leaves the links of all open
    sessions, all sessions and all tables as they are. *)
Theorem sweep_spares_open (v : server) (now : Z) (p : nat) (s : Session) (l : nat) :
  server_inv v → st_sessions (sv_store v) !! p = Some s → s_closed s = false → s_link s = Some l →
  let w := sweep now (sv_store v) in
  st_links w !! l = st_links (sv_store v) !! l ∧ st_sessions w = st_sessions (sv_store v) ∧
  st_managers w = st_managers (sv_store v).
Proof.
  intros Hv Hp Ho Hl w. destruct (sweep_swept now _ (sv_inv_store _ Hv)) as [_ S2 S3 _ _ S6].
  split; [by eapply S6|done].
Qed.
End handlers.
