(* ===== verification/MuxXudp.v ===== *)
(** UDP sessions that move from one mux connection to another
    (src/upstream/xray-core/common/mux: server.go, session.go): a packet with the
    global id of an entry takes its link over, and nothing is dialed again. *)
From stdpp Require Import gmap.
From S2P Require Import Prelude GoText NetIP Address Transport Frame Uuid Buf AddressParser BufAppend Mux MultiBuffer BufIO ChunkStream AddressTotal MuxStream MuxSession MuxServer MuxRefine MuxTotal MuxSafety.

Section xudp.
Context {L D W : Type} `{Link L, BufWriter W}.
Context (dispatch : D → Destination → D * result frame_error L).
Context (live : L → Prop) (sink : L → list (list Buffer)) `{!ServingLinks live sink}.
Context (live_detached : ∀ l, live l → live (link_detach l)).
Implicit Types c : @conn L D W.

(** The state of a link and of the tables after a session was closed that is part
    of an entry. *)
Lemma close_entry_session p s x l out k m (w : store L) : st_sessions w !! p = Some s → s_XUDP s = Some x → s_link s = Some l →
  st_links w !! l = Some out → live out → st_managers w !! k = Some m → sm_closed m = false →
  let w' := session_Close p w in
  (∃ s', st_sessions w' !! p = Some s' ∧ s_closed s' = true ∧ s_link s' = Some l) ∧
  (∃ out', st_links w' !! l = Some out' ∧ live out' ∧ sink out' = sink out) ∧
  (∃ m', st_managers w' !! k = Some m' ∧ sm_closed m' = false) ∧ length (st_sessions w') = length (st_sessions w).
Proof using Type*.
  intros Hs Hx Hl Hout Hlive Hm Hcl. cbv zeta. destruct (s_closed s) eqn:Ec.
  { rewrite session_Close_noop by congruence. split_all; eauto. }
  unfold session_Close. rewrite Hs, Ec, Hx, Hl. cbn [on_manager on_xudps on_link on_links on_sessions st_sessions st_links st_managers st_now].
  split; [|split; [|split]].
  - rewrite list_lookup_alter_eq, Hs. by exists (close_session s).
  - rewrite list_lookup_alter_eq, Hout. eexists. split; [reflexivity|]. split; [by apply live_detached|by rewrite sink_detached].
  - rewrite list_lookup_alter. case_decide as E; [rewrite E, Hm|by exists m]. eexists. split; [reflexivity|].
    unfold Remove. by rewrite Hcl.
  - by rewrite length_alter.
Qed.

(** The packet goes to the link of the entry. *)
Lemma xudp_hit_writes x e p s l out k m b0 c : x_Mux e = Some p → st_sessions (c_store c) !! p = Some s → s_XUDP s = Some x →
  s_link s = Some l → st_links (c_store c) !! l = Some out → live out →
  st_managers (c_store c) !! k = Some m → sm_closed m = false → wf b0 → Z.of_nat (length (content b0)) ≤ 8192 →
  ∃ c', xudp_hit x e [b0] c = Ret (None, Some l, c') ∧ c_disp c' = c_disp c ∧ c_down c' = c_down c ∧ c_reader c' = c_reader c ∧
    (∃ s', st_sessions (c_store c') !! p = Some s' ∧ s_closed s' = true) ∧
    (∃ out', st_links (c_store c') !! l = Some out' ∧ sink out' = sink out ++ [[b0]]) ∧
    (∃ m', st_managers (c_store c') !! k = Some m' ∧ sm_closed m' = false) ∧
    (p < length (st_sessions (c_store c')))%nat.
Proof using Type*.
  intros Hp Hs Hx Hl Hout Hlive Hm Hcl Hb Hlen. unfold xudp_hit. rewrite Hp. cbn [ret_or_panic]. cbv zeta.
  set (w0 := on_xudps (alter (set_status Initializing) x) (c_store c)).
  destruct (close_entry_session p s x l out k m w0 Hs Hx Hl Hout Hlive Hm Hcl) as ((s1 & Hs1 & Hc1 & Hl1) & (out1 & Ho1 & Hv1 & Es1) & Hm1 & Hn1).
  cbn [on_store c_store]. fold w0. rewrite Hs1. cbn [ret_or_panic lookup list_lookup]. rewrite Bytes_content by done. cbn [ret_or_panic].
  destruct (new_buffer pool_array pool_array_length) as (W0 & C0 & R0).
  destruct (write_all_spec (Buffer_New pool_array) (content b0) W0) as (b & -> & _); [lia|]. cbn [outcome_bind].
  rewrite Hl1. cbn [ret_or_panic]. rewrite Ho1. cbn [ret_or_panic].
  destruct (live_write out1 [b0] Hv1) as (out2 & -> & _ & Es2). eexists. split; [reflexivity|].
  cbn [on_store c_disp c_down c_reader c_store on_link on_links st_sessions st_links st_managers].
  split; [done|]. split; [done|]. split; [done|]. split; [by exists s1|]. split.
  - exists out2. rewrite list_lookup_alter_eq. unfold w0 in Ho1. rewrite Ho1. split; [done|]. by rewrite Es2, Es1.
  - split; [done|]. by eapply lookup_lt_Some.
Qed.

(** C28. A packet that opens a session with the global id of an entry of the table,
    on whatever connection, is written to the link that the entry has had all
    along, behind what was written there before: nothing is dialed, the session
    the entry had is closed, and the new session of this connection, open and
    with this number, has that link. *)
Theorem xudp_resumes (k x p l : nat) (e : XUDP) (s : Session) (out : L) (m : SessionManager) (meta : FrameMetadata)
    (d rest : bytes) (c : conn) :
  holds (c_reader c) (data_bytes (Some d) ++ rest) → Z.of_nat (length d) ≤ 8192 →
  st_map (c_store c) !! GlobalID meta = Some x → st_xudps (c_store c) !! x = Some e → x_Status e ≠ Initializing →
  x_Mux e = Some p → st_sessions (c_store c) !! p = Some s → s_XUDP s = Some x → s_link s = Some l →
  st_links (c_store c) !! l = Some out → live out → st_managers (c_store c) !! k = Some m → sm_closed m = false →
  ∃ c' q b out', handle_xudp dispatch k meta c = Ret (c', None) ∧ c_disp c' = c_disp c ∧
    st_links (c_store c') !! l = Some out' ∧ sink out' = sink out ++ [[b]] ∧ content b = d ∧
    UDP b = packet_source (Some (Target meta)) ∧
    get_session k (SessionID meta) c' = Some q ∧
    st_sessions (c_store c') !! q = Some (new_session k (SessionID meta) TransferTypePacket (Some x) (Some l)) ∧
    (∃ s', st_sessions (c_store c') !! p = Some s' ∧ s_closed s' = true) ∧ holds (c_reader c') rest.
Proof using Type*.
  intros Hh Hd Hg He Hst Hp Hs Hx Hl Hout Hlive Hm Hcl. unfold handle_xudp.
  destruct (packet_read _ d (Some (Target meta)) rest Hh Hd) as (b & r' & -> & Hb & Hcb & Hu & Hh' & _). cbn [outcome_bind].
  set (c1 := with_reader (pr_reader (with_pr r' true (NewPacketReader (c_reader c) (Some (Target meta))))) c).
  unfold xudp_lookup. change (st_map (c_store c1)) with (st_map (c_store c)). rewrite Hg.
  change (st_xudps (c_store c1)) with (st_xudps (c_store c)). rewrite He. cbn [ret_or_panic]. rewrite decide_False by done.
  destruct (xudp_hit_writes x e p s l out k m b c1 Hp Hs Hx Hl Hout Hlive Hm Hcl Hb ltac:(by rewrite Hcb))
    as (c2 & -> & Ed & _ & Er & (s' & Hs' & Hc') & (out' & Hout' & Es') & (m' & Hm' & Hcl') & Hlt). cbn [outcome_bind].
  unfold xudp_attach, add_to. cbv zeta. cbn [start_handle spawn on_store add_session c_store on_xudps on_sessions st_managers].
  rewrite Hm'. unfold Add at 1. rewrite Hcl'. cbn [fst]. eexists _, (next_session c2), b, out'. split; [reflexivity|].
  cbn [on_store add_session start_handle spawn on_manager on_xudps on_sessions st_links c_disp c_store st_sessions c_reader]. split; [done|]. split; [done|]. split; [done|]. split; [done|].
  split; [done|]. unfold get_session. cbn [on_store add_session start_handle spawn on_manager on_xudps on_sessions c_store st_managers]. rewrite list_lookup_alter_eq, Hm'. cbn [fmap option_fmap option_map mbind option_bind].
  unfold Add, Get. rewrite Hcl'. cbn [snd sm_closed sm_sessions]. rewrite lookup_insert_eq. split; [done|].
  split; [unfold next_session; by rewrite lookup_app_r, Nat.sub_diag|]. split; [|by rewrite Er].
  exists s'. by rewrite lookup_app_l.
Qed.
End xudp.
