(* ===== verification/MuxClient.v ===== *)
(** The client of the mux protocol (src/upstream/xray-core/common/mux/client.go):
    the choice of a connection for a new session, the copy of what the session
    sends, and the loop that hands out what comes back. *)
From stdpp Require Import gmap.
From S2P Require Import Prelude GoText NetIP Address Transport Frame Uuid Buf AddressParser BufAppend Mux MultiBuffer BufIO ChunkStream MuxStream MuxSession MuxServer MuxRefine MuxDelivery.

(** ** Workers *)

Record ClientStrategy := { MaxConcurrency : Z; MaxConnection : Z }.

(** [ClientWorker], without its link: the table of its sessions, whether it is
    done, and its limits. *)
Record ClientWorker := { cw_manager : SessionManager; cw_done : bool; cw_strategy : ClientStrategy }.

Definition with_manager (m : SessionManager) (w : ClientWorker) : ClientWorker :=
  {| cw_manager := m; cw_done := cw_done w; cw_strategy := cw_strategy w |}.

Definition NewClientWorker (s : ClientStrategy) : ClientWorker :=
  {| cw_manager := NewSessionManager; cw_done := false; cw_strategy := s |}.

Definition TotalConnections (w : ClientWorker) : Z := count (cw_manager w).
Definition ActiveConnections (w : ClientWorker) : Z := u32 (sm_Size (cw_manager w)).

Definition IsClosing (w : ClientWorker) : bool :=
  bool_decide (0 < MaxConnection (cw_strategy w) ∧ MaxConnection (cw_strategy w) ≤ count (cw_manager w)).

Definition IsFull (w : ClientWorker) : bool :=
  if IsClosing w || cw_done w then true
  else bool_decide (0 < MaxConcurrency (cw_strategy w) ∧ MaxConcurrency (cw_strategy w) ≤ sm_Size (cw_manager w)).

(** [ClientWorker.Dispatch]: the number of the session that is opened at the
    address [p]. *)
Definition worker_Dispatch (p : nat) (w : ClientWorker) : option Z * ClientWorker :=
  if IsFull w || cw_done w then (None, w)
  else let '(id, m) := Allocate p (cw_manager w) in (id, with_manager m w).

(** The ticks of [monitor], and its end. *)
Definition monitor_tick (w : ClientWorker) : ClientWorker :=
  if decide (sm_Size (cw_manager w) = 0) then
    let '(closed, m) := CloseIfNoSession (cw_manager w) in
    {| cw_manager := m; cw_done := cw_done w || closed; cw_strategy := cw_strategy w |}
  else w.

(** The end of [fetchOutput], and of the transfer of the worker's connection. *)
Definition worker_finish (w : ClientWorker) : ClientWorker :=
  {| cw_manager := cw_manager w; cw_done := true; cw_strategy := cw_strategy w |}.

(** ** The choice of a worker *)

(** Workers are shared: the picker holds their addresses.  The cleaner is there
    after the first worker was created, and runs or not. *)
Record IncrementalWorkerPicker := {
  heap : list ClientWorker;
  workers : list nat;
  cleanupTask : option bool
}.

Section picker.

(** [Factory.Create]; it fails when the argument says so. *)
Context (Create : list ClientWorker → result frame_error ClientWorker).

Definition worker_at (h : list ClientWorker) (i : nat) : ClientWorker :=
  default (NewClientWorker {| MaxConcurrency := 0; MaxConnection := 0 |}) (h !! i).

(** [cleanup] keeps the workers that are not closed. *)
Definition cleanup (p : IncrementalWorkerPicker) : IncrementalWorkerPicker :=
  {| heap := heap p; workers := List.filter (λ i, negb (cw_done (worker_at (heap p) i))) (workers p);
     cleanupTask := cleanupTask p |}.

(** [cleanupFunc]: nothing to do any more is an error, which ends the task. *)
Definition cleanupFunc (p : IncrementalWorkerPicker) : bool * IncrementalWorkerPicker :=
  if decide (workers p = []) then (false, p) else (true, cleanup p).

Definition set_cleaner (b : option bool) (p : IncrementalWorkerPicker) : IncrementalWorkerPicker :=
  {| heap := heap p; workers := workers p; cleanupTask := b |}.

(** [cleanupTask.Start]: the first round is at once, unless it runs already. *)
Definition start_cleaner (p : IncrementalWorkerPicker) : IncrementalWorkerPicker :=
  if decide (cleanupTask p = Some true) then p
  else let '(ok, p) := cleanupFunc p in set_cleaner (Some ok) p.

(** A later round. *)
Definition cleaner_tick (p : IncrementalWorkerPicker) : IncrementalWorkerPicker :=
  if decide (cleanupTask p = Some true) then let '(ok, p) := cleanupFunc p in set_cleaner (Some ok) p else p.

Fixpoint find_available (h : list ClientWorker) (idx : nat) (ws : list nat) : option nat :=
  match ws with
  | [] => None
  | w :: ws => if IsFull (worker_at h w) then find_available h (S idx) ws else Some idx
  end.

Definition findAvailable (p : IncrementalWorkerPicker) : option nat := find_available (heap p) 0 (workers p).

(** [p.workers[n-1], p.workers[idx] = p.workers[idx], p.workers[n-1]]. *)
Definition swap_last (idx : nat) (ws : list nat) : list nat :=
  let n := length ws in
  if decide ((1 < n)%nat ∧ idx ≠ (n - 1)%nat) then
    match ws !! idx, ws !! (n - 1)%nat with
    | Some a, Some b => <[idx := b]> (<[(n - 1)%nat := a]> ws)
    | _, _ => ws
    end
  else ws.

(** The worker that is picked, and whether the cleaner is to be started. *)
Definition pickInternal (p : IncrementalWorkerPicker) : result frame_error (nat * bool) * IncrementalWorkerPicker :=
  match findAvailable p with
  | Some idx =>
    let ws := swap_last idx (workers p) in
    (match ws !! idx with Some w => Ok (w, false) | None => Err errFrame end,
     {| heap := heap p; workers := ws; cleanupTask := cleanupTask p |})
  | None =>
    let p := cleanup p in
    match Create (heap p) with
    | Err e => (Err e, p)
    | Ok w => (Ok (length (heap p), true),
               {| heap := heap p ++ [w]; workers := workers p ++ [length (heap p)];
                  cleanupTask := Some (default false (cleanupTask p)) |})
    end
  end.

Definition PickAvailable (p : IncrementalWorkerPicker) : result frame_error nat * IncrementalWorkerPicker :=
  match pickInternal p with
  | (Err e, p) => (Err e, p)
  | (Ok (w, start), p) => (Ok w, if start then start_cleaner p else p)
  end.

(** The tries of [ClientManager.Dispatch]; the session is at the address [s], and
    the worker it is on and its number are returned. *)
Fixpoint dispatch_tries (tries : nat) (s : nat) (p : IncrementalWorkerPicker)
    : result frame_error (nat * Z) * IncrementalWorkerPicker :=
  match tries with
  | O => (Err errFrame, p)
  | S tries =>
    match PickAvailable p with
    | (Err e, p) => (Err e, p)
    | (Ok w, p) =>
      match worker_Dispatch s (worker_at (heap p) w) with
      | (Some id, x) => (Ok (w, id), {| heap := <[w := x]> (heap p); workers := workers p; cleanupTask := cleanupTask p |})
      | (None, _) => dispatch_tries tries s p
      end
    end
  end.

Definition manager_Dispatch := dispatch_tries 16.

(** ** Picking *)

Lemma find_available_spec h i ws :
  match find_available h i ws with
  | Some j => ∃ ws1 w ws2, ws = ws1 ++ w :: ws2 ∧ j = (i + length ws1)%nat ∧ IsFull (worker_at h w) = false ∧
                           Forall (λ w, IsFull (worker_at h w) = true) ws1
  | None => Forall (λ w, IsFull (worker_at h w) = true) ws
  end.
Proof.
  revert i. induction ws as [|w ws IH]; intros i; cbn [find_available]; [done|]. destruct (IsFull (worker_at h w)) eqn:E.
  - specialize (IH (S i)). destruct (find_available h (S i) ws) as [j|]; [|by constructor].
    destruct IH as (ws1 & w' & ws2 & -> & -> & Hw & Hf). exists (w :: ws1), w', ws2. cbn [length app].
    split_all; [done|lia|done|by constructor].
  - exists [], w, ws. cbn. split_all; [done|lia|done|constructor].
Qed.

(** A picker whose workers exist, and are closed only when they are done. *)
Record picker_ok (p : IncrementalWorkerPicker) : Prop := {
  pk_workers : Forall (λ w, (w < length (heap p))%nat) (workers p);
  pk_open : Forall (λ x, cw_done x = false → sm_closed (cw_manager x) = false) (heap p)
}.

(** What is swapped: the worker that was found goes to the end, and the one at
    the end is picked. *)
Lemma swap_last_spec ws1 w ws2 :
  ∃ x ws', swap_last (length ws1) (ws1 ++ w :: ws2) = ws1 ++ x :: ws' ∧
    (ws1 ++ x :: ws') ≡ₚ (ws1 ++ w :: ws2) ∧ ((ws2 = [] ∧ x = w ∧ ws' = []) ∨ ∃ ws3, ws2 = ws3 ++ [x] ∧ ws' = ws3 ++ [w]).
Proof.
  unfold swap_last. rewrite length_app. cbn [length]. destruct ws2 as [|y ws2 _] using rev_ind.
  - rewrite decide_False by (cbn; lia). exists w, []. split; [done|]. split; [done|]. by left.
  - rewrite length_app. cbn [length]. rewrite decide_True by lia. rewrite list_lookup_middle by done.
    replace (length ws1 + S (length ws2 + 1) - 1)%nat with (length (ws1 ++ w :: ws2)) by (rewrite length_app; cbn; lia).
    assert (ws1 ++ w :: ws2 ++ [y] = (ws1 ++ w :: ws2) ++ [y]) as E by (by rewrite <- app_assoc). rewrite E.
    rewrite list_lookup_middle by done. cbv zeta. exists y, (ws2 ++ [w]).
    split; [|split; [|right; by exists ws2]].
    + rewrite (insert_app_r_alt _ [y]) by done. rewrite Nat.sub_diag. cbn [insert list_insert]. rewrite <- app_assoc. cbn [app].
      rewrite insert_app_r_alt by done. by rewrite Nat.sub_diag.
    + rewrite <- E. apply Permutation_app_head. rewrite (Permutation_app_comm ws2 [w]), (Permutation_app_comm ws2 [y]). cbn. constructor.
Qed.

(** A session was opened on the worker [w]. *)
Record dispatched (s : nat) (p : IncrementalWorkerPicker) (w : nat) (id : Z) (p' : IncrementalWorkerPicker) : Prop := {
  di_worker : w ∈ workers p' ∧ sm_sessions (cw_manager (worker_at (heap p') w)) !! id = Some s;
  di_free : (w < length (heap p))%nat → IsFull (worker_at (heap p) w) = false;
  di_others : ∀ i, i ≠ w → (i < length (heap p))%nat → heap p' !! i = heap p !! i
}.

Lemma worker_at_insert h w x : (w < length h)%nat → worker_at (<[w := x]> h) w = x.
Proof. intros Hw. unfold worker_at. by rewrite list_lookup_insert_eq. Qed.

(** A worker that is not full has an open table. *)
Lemma free_open p w : picker_ok p → (w < length (heap p))%nat → IsFull (worker_at (heap p) w) = false →
  cw_done (worker_at (heap p) w) = false ∧ sm_closed (cw_manager (worker_at (heap p) w)) = false.
Proof.
  intros Hp Hw Hf. unfold worker_at in *. destruct (lookup_lt_is_Some_2 _ _ Hw) as [y Hy]. rewrite Hy in *. cbn in *.
  assert (cw_done y = false) as Hd.
  { unfold IsFull in Hf. destruct (IsClosing y || cw_done y) eqn:E; [done|]. by apply orb_false_elim in E as [_ ?]. }
  split; [done|]. exact (Forall_lookup_1 _ _ _ _ (pk_open _ Hp) Hy Hd).
Qed.

Lemma dispatch_not_full s p w : picker_ok p → (w < length (heap p))%nat → IsFull (worker_at (heap p) w) = false →
  worker_Dispatch s (worker_at (heap p) w) =
    (Some (u16 (count (cw_manager (worker_at (heap p) w)) + 1)),
     with_manager (Allocate s (cw_manager (worker_at (heap p) w))).2 (worker_at (heap p) w)).
Proof.
  intros Hp Hw Hf. unfold worker_Dispatch, Allocate. destruct (free_open p w Hp Hw Hf) as [-> ->]. by rewrite Hf.
Qed.

(** The last step: the worker that was picked takes the session. *)
Lemma take_session s p w id x : picker_ok p → w ∈ workers p → IsFull (worker_at (heap p) w) = false →
  worker_Dispatch s (worker_at (heap p) w) = (Some id, x) →
  dispatched s p w id {| heap := <[w := x]> (heap p); workers := workers p; cleanupTask := cleanupTask p |}.
Proof.
  intros Hp Hw Hf E. pose proof (proj1 (Forall_forall _ _) (pk_workers _ Hp) w Hw) as Hlt. cbn in Hlt.
  rewrite (dispatch_not_full s p w Hp Hlt Hf) in E. injection E as <- <-. split; cbn [heap workers].
  - split; [done|]. rewrite worker_at_insert by done. cbn [with_manager cw_manager]. unfold Allocate.
    destruct (free_open p w Hp Hlt Hf) as [_ ->].
    cbn. by rewrite lookup_insert_eq.
  - done.
  - intros i Hne _. by rewrite list_lookup_insert_ne.
Qed.

(** One pick among workers of which one is free. *)
Lemma pick_free p : picker_ok p → Exists (λ w, IsFull (worker_at (heap p) w) = false) (workers p) →
  ∃ ws1 w ws2 x ws', workers p = ws1 ++ w :: ws2 ∧ IsFull (worker_at (heap p) w) = false ∧
    Forall (λ w, IsFull (worker_at (heap p) w) = true) ws1 ∧ (ws1 ++ x :: ws') ≡ₚ workers p ∧
    ((ws2 = [] ∧ x = w ∧ ws' = []) ∨ ∃ ws3, ws2 = ws3 ++ [x] ∧ ws' = ws3 ++ [w]) ∧
    PickAvailable p = (Ok x, {| heap := heap p; workers := ws1 ++ x :: ws'; cleanupTask := cleanupTask p |}).
Proof.
  intros Hp Hex. unfold PickAvailable, pickInternal, findAvailable. pose proof (find_available_spec (heap p) 0 (workers p)) as Hfind.
  destruct (find_available (heap p) 0 (workers p)) as [j|].
  - destruct Hfind as (ws1 & w & ws2 & E & -> & Hw & Hf). cbn [Nat.add]. rewrite E.
    destruct (swap_last_spec ws1 w ws2) as (x & ws' & -> & Hperm & Hcase). rewrite list_lookup_middle by done.
    exists ws1, w, ws2, x, ws'. by split_all.
  - exfalso. apply Exists_exists in Hex as (w & Hw & Hf). rewrite Forall_forall in Hfind. specialize (Hfind w Hw). cbn in *. congruence.
Qed.

Lemma picker_ok_perm p ws b : picker_ok p → ws ≡ₚ workers p → picker_ok {| heap := heap p; workers := ws; cleanupTask := b |}.
Proof. intros [H1 H2] Hws. split; [cbn; by rewrite Hws|done]. Qed.

(** When some worker is free, the first or the second try finds one. *)
Lemma tries_free s tries p : picker_ok p → Exists (λ w, IsFull (worker_at (heap p) w) = false) (workers p) → (2 ≤ tries)%nat →
  ∃ w id p', dispatch_tries tries s p = (Ok (w, id), p') ∧ dispatched s p w id p'.
Proof.
  intros Hp Hex Ht. destruct tries as [|[|tries]]; [lia..|].
  destruct (pick_free p Hp Hex) as (ws1 & w & ws2 & x & ws' & E & Hw & Hf & Hperm & Hcase & Hpick).
  cbn [dispatch_tries]. rewrite Hpick. cbn [heap workers cleanupTask].
  pose proof (picker_ok_perm p _ (cleanupTask p) Hp Hperm) as Hp1.
  set (p1 := {| heap := heap p; workers := ws1 ++ x :: ws'; cleanupTask := cleanupTask p |}) in *.
  assert (∀ q y, picker_ok q → heap q = heap p → y ∈ workers q → IsFull (worker_at (heap p) y) = false →
    ∃ id x1, worker_Dispatch s (worker_at (heap p) y) = (Some id, x1) ∧
      dispatched s p y id {| heap := <[y := x1]> (heap p); workers := workers q; cleanupTask := cleanupTask q |}) as Htake.
  { intros q y Hq Eh Hy Hfy. pose proof (proj1 (Forall_forall _ _) (pk_workers _ Hq) y Hy) as Hlt. cbn in Hlt. rewrite Eh in Hlt.
    pose proof (dispatch_not_full s p y Hp Hlt Hfy) as Ed. do 2 eexists. split; [exact Ed|].
    rewrite <- Eh in Hfy, Ed. destruct (take_session s q y _ _ Hq Hy Hfy Ed) as [[H1 H2] H3 H4]. rewrite Eh in *. by split. }
  destruct (IsFull (worker_at (heap p) x)) eqn:Ex.
  - assert (worker_Dispatch s (worker_at (heap p) x) = (None, worker_at (heap p) x)) as -> by (unfold worker_Dispatch; by rewrite Ex).
    destruct Hcase as [(-> & -> & ->)|(ws3 & -> & ->)]; [congruence|].
    assert (Exists (λ w, IsFull (worker_at (heap p1) w) = false) (workers p1)) as Hex1.
    { apply Exists_exists. exists w. split; [|done]. cbn. set_solver. }
    destruct (pick_free p1 Hp1 Hex1) as (vs1 & w2 & vs2 & y & vs' & E2 & Hw2 & Hf2 & Hperm2 & Hcase2 & Hpick2).
    rewrite Hpick2. cbn [heap workers cleanupTask p1].
    assert (IsFull (worker_at (heap p) y) = false) as Hy.
    { destruct Hcase2 as [(-> & -> & ->)|(vs3 & -> & ->)]; [done|]. cbn [workers p1] in E2.
      rewrite app_comm_cons, app_assoc, app_comm_cons, app_assoc in E2. apply app_inj_2 in E2 as [_ [= <-]]; [done|done]. }
    pose proof (picker_ok_perm p1 _ (cleanupTask p1) Hp1 Hperm2) as Hp2.
    destruct (Htake _ y Hp2 eq_refl ltac:(cbn; set_solver) Hy) as (id & x1 & -> & Hdi). by do 3 eexists.
  - destruct (Htake p1 x Hp1 eq_refl ltac:(cbn; set_solver) Ex) as (id & x1 & -> & Hdi). by do 3 eexists.
Qed.

Lemma new_worker_free st : IsFull (NewClientWorker st) = false.
Proof.
  unfold IsFull, IsClosing. cbn [NewClientWorker cw_strategy cw_manager cw_done NewSessionManager count].
  rewrite (bool_decide_false (0 < MaxConnection st ∧ MaxConnection st ≤ 0)) by (intros []; lia). cbn [orb].
  apply bool_decide_false. intros [H1 H2]. change (MaxConcurrency st ≤ 0) in H2. lia.
Qed.

End picker.

(** A pick may return a full worker: the free one is swapped to the end, and the
    one that was there is returned. *)
Definition one_session : ClientStrategy := {| MaxConcurrency := 1; MaxConnection := 128 |}.

Definition full_worker : ClientWorker := (worker_Dispatch 0 (NewClientWorker one_session)).2.

Lemma pick_returns_full :
  let p := {| heap := [NewClientWorker one_session; full_worker]; workers := [0; 1]%nat; cleanupTask := Some true |} in
  PickAvailable (λ _, Err errFrame) p = (Ok 1%nat, {| heap := heap p; workers := [1; 0]%nat; cleanupTask := Some true |}) ∧
  IsFull (worker_at (heap p) 1) = true ∧ IsFull (worker_at (heap p) 0) = false.
Proof. by vm_compute. Qed.

(** ** The limits of a connection *)

(** What happens to the table of a worker. *)
Inductive worker_op := WDispatch (p : nat) | WRemove (id : Z) | WTick | WFinish | WClose.

Definition close_table (m : SessionManager) : SessionManager :=
  {| sm_sessions := ∅; count := count m; sm_closed := true |}.

(** The worker after an operation, with the number of a new session. *)
Definition worker_step (o : worker_op) (w : ClientWorker) : option Z * ClientWorker :=
  match o with
  | WDispatch p => worker_Dispatch p w
  | WRemove id => (None, with_manager (Remove id (cw_manager w)) w)
  | WTick => (None, monitor_tick w)
  | WFinish => (None, worker_finish w)
  | WClose => (None, if cw_done w then with_manager (close_table (cw_manager w)) w else w)
  end.

Fixpoint worker_run (os : list worker_op) (w : ClientWorker) : list Z * ClientWorker :=
  match os with
  | [] => ([], w)
  | o :: os =>
    let '(id, w) := worker_step o w in
    let '(ids, w) := worker_run os w in (option_list id ++ ids, w)
  end.

(** A worker whose limit of sessions fits their numbers. *)
Record limits_ok (w : ClientWorker) : Prop := {
  lm_max : 0 < MaxConnection (cw_strategy w) ≤ 65535;
  lm_count : 0 ≤ count (cw_manager w) ≤ MaxConnection (cw_strategy w);
  lm_size : 0 < MaxConcurrency (cw_strategy w) → sm_Size (cw_manager w) ≤ MaxConcurrency (cw_strategy w);
  lm_ids : ∀ id p, sm_sessions (cw_manager w) !! id = Some p → 0 < id ≤ count (cw_manager w);
  lm_done : sm_closed (cw_manager w) = true → cw_done w = true
}.

Lemma size_delete_le {A} (m : gmap Z A) i : (size (delete i m) ≤ size m)%nat.
Proof. rewrite map_size_delete. destruct (m !! i); unfold id; lia. Qed.

Lemma worker_step_ok o w : limits_ok w →
  let '(id, w') := worker_step o w in
  limits_ok w' ∧ cw_strategy w' = cw_strategy w ∧
  count (cw_manager w') = count (cw_manager w) + (if id then 1 else 0) ∧
  (∀ i, id = Some i → i = count (cw_manager w') ∧ sm_sessions (cw_manager w) !! i = None).
Proof.
  intros Hw. pose proof Hw as [Hm Hc Hs Hi Hd]. destruct o as [p|id| | |]; cbn [worker_step].
  - unfold worker_Dispatch. destruct (IsFull w || cw_done w) eqn:E.
    { split; [done|]. split; [done|]. split; [lia|done]. }
    apply orb_false_elim in E as [Ef Ed]. unfold IsFull in Ef. destruct (IsClosing w || cw_done w) eqn:E2; [done|].
    apply orb_false_elim in E2 as [Ecl _]. apply bool_decide_eq_false in Ef, Ecl. unfold Allocate.
    destruct (sm_closed (cw_manager w)) eqn:Eo; [by rewrite Hd in Ed|].
    rewrite wrap_small by (unfold is_uint; lia). cbn [with_manager cw_manager cw_strategy count sm_sessions].
    assert (sm_sessions (cw_manager w) !! (count (cw_manager w) + 1) = None) as Hnew.
    { destruct (sm_sessions (cw_manager w) !! _) eqn:E3; [|done]. apply Hi in E3. lia. }
    split; [|split; [done|split; [cbn; lia|by intros i [= <-]]]]. split; cbn [with_manager cw_manager cw_strategy cw_done count sm_sessions sm_closed].
    + done.
    + lia.
    + intros Hp. unfold sm_Size in *. cbn [sm_sessions]. rewrite map_size_insert_None by done. lia.
    + intros i q. rewrite lookup_insert_Some. intros [[<- _]|[_ Hq]]; [lia|]. apply Hi in Hq. lia.
    + done.
  - unfold Remove. destruct (sm_closed (cw_manager w)) eqn:Eo.
    { split; [by destruct w|]. split; [done|]. split; [cbn; lia|done]. }
    split; [|split; [done|split; [cbn; lia|done]]]. split; cbn [with_manager cw_manager cw_strategy cw_done count sm_sessions sm_closed]; try done.
    + intros Hp. unfold sm_Size in *. cbn [sm_sessions]. pose proof (size_delete_le (sm_sessions (cw_manager w)) id). lia.
    + intros i q. rewrite lookup_delete_Some. intros [_ Hq]. by eapply Hi.
  - unfold monitor_tick, CloseIfNoSession. case_decide as E; [|split; [done|split; [done|split; [lia|done]]]].
    destruct (sm_closed (cw_manager w)) eqn:Eo.
    { split; [split; cbn; try done|split; [done|split; [cbn; lia|done]]]. intros _. by rewrite orb_true_r. }
    unfold sm_Size in E. rewrite decide_True by lia. split; [|split; [done|split; [cbn; lia|done]]].
    split; cbn [cw_manager cw_strategy cw_done count sm_sessions sm_closed]; try done. intros _. by rewrite orb_true_r.
  - split; [by split|]. split; [done|]. split; [cbn; lia|done].
  - destruct (cw_done w) eqn:Ed; [|split; [done|split; [done|split; [lia|done]]]].
    split; [|split; [done|split; [cbn; lia|done]]]. split; cbn [with_manager close_table cw_manager cw_strategy cw_done count sm_sessions sm_closed]; try done.
    intros Hp. unfold sm_Size. cbn [sm_sessions]. change (Z.of_nat 0 ≤ MaxConcurrency (cw_strategy w)). lia.
Qed.

Lemma worker_run_ok os w : limits_ok w →
  let '(ids, w') := worker_run os w in
  limits_ok w' ∧ cw_strategy w' = cw_strategy w ∧ count (cw_manager w') = count (cw_manager w) + Z.of_nat (length ids) ∧
  NoDup ids ∧ Forall (λ i, count (cw_manager w) < i) ids.
Proof.
  revert w. induction os as [|o os IH]; intros w Hw; cbn [worker_run].
  { split; [done|]. split; [done|]. split; [cbn; lia|]. split; [apply NoDup_nil_2|constructor]. }
  pose proof (worker_step_ok o w Hw) as Hstep. destruct (worker_step o w) as [id w1]. destruct Hstep as (H1 & H2 & H3 & H4).
  specialize (IH w1 H1). destruct (worker_run os w1) as [ids w']. destruct IH as (I1 & I0 & I2 & I3 & I4). split; [done|]. split; [congruence|].
  rewrite length_app. destruct id as [i|]; [change (option_list (Some i)) with [i]|change (option_list (@None Z)) with (@nil Z)]; cbn [length app] in *.
  - destruct (H4 i eq_refl) as [E _]. clear H4. split; [lia|]. split.
    + apply NoDup_cons. split; [|done]. intros Hin. rewrite Forall_forall in I4. specialize (I4 i Hin). cbn in I4. lia.
    + constructor; [lia|]. eapply Forall_impl; [exact I4|]. cbn. intros. lia.
  - split; [lia|]. split; [done|]. eapply Forall_impl; [exact I4|]. cbn. intros. lia.
Qed.

(** A connection keeps its limits, whatever is done with it: it never has more
    sessions at a time than allowed, never opens more than allowed, and never
    gives a number twice, so that no session takes the place of another. *)
Theorem worker_limits (os : list worker_op) (st : ClientStrategy) : 0 < MaxConnection st ≤ 65535 →
  let '(ids, w) := worker_run os (NewClientWorker st) in
  Z.of_nat (length ids) ≤ MaxConnection st ∧ NoDup ids ∧ limits_ok w.
Proof.
  intros Hst. pose proof (worker_run_ok os (NewClientWorker st)) as Hrun.
  destruct (worker_run os (NewClientWorker st)) as [ids w]. destruct Hrun as (H1 & Es & H2 & H3 & _).
  - split; cbn; try done; [lia|intros; change (sm_Size NewSessionManager) with 0; lia].
  - split; [|done]. pose proof (lm_count _ H1) as Hc. rewrite H2, Es in Hc. cbn in Hc. lia.
Qed.

(** ** What a session sends *)

Section fetchInput.
Context {R W : Type} `{BufReader R, BufWriter W}.

(** [buf.Copy(s.input, writer)] for the writer of a session, whose connection is
    shared; out of fuel it is [Panic]. *)
Fixpoint fetch_copy (fuel : nat) (r : R) (w : MuxWriter) (out : W) : outcome (R * MuxWriter * W * copy_error) :=
  match fuel with
  | O => Panic
  | S fuel =>
    let? (buffer, err, r) := read_mb r in
    let? (w, out, werr) := (if mb_IsEmpty buffer then Ret (w, out, None) else mux_WriteMultiBuffer buffer w out) in
    match werr, err with
    | Some e, _ => Ret (r, w, out, WriteError e)
    | None, Some e => Ret (r, w, out, ReadError e)
    | None, None => fetch_copy fuel r w out
    end
  end.

(** The first payload: [None] when the reader has nothing in time, or cannot
    time out. *)
Definition writeFirstPayload (first : option (list Buffer * option frame_error)) (w : MuxWriter) (out : W)
    : outcome (MuxWriter * W * option frame_error) :=
  match first with
  | None => mux_WriteMultiBuffer [] w out
  | Some (_, Some e) => Ret (w, out, Some e)
  | Some (mb, None) => mux_WriteMultiBuffer mb w out
  end.

(** The type of a session, by its target. *)
Definition session_type (target : Destination) : TransferType :=
  if decide (dest_Network target = Network_UDP) then TransferTypePacket else TransferTypeStream.

(** [fetchInput]: the writer is closed at the end in any case. *)
Definition fetchInput (fuel : nat) (id : Z) (target : Destination) (gid : bytes)
    (first : option (list Buffer * option frame_error)) (r : R) (out : W) : outcome W :=
  let w := NewWriter id target (session_type target) gid in
  let? (w, out, err) := writeFirstPayload first w out in
  match err with
  | Some _ => mux_Close (set_hasError w) out
  | None =>
    let? (_, w, out, err) := fetch_copy fuel r w out in
    mux_Close (if decide (cause err = ErrEOF) then w else set_hasError w) out
  end.

(** A session whose input ends puts its writes on the connection, and its end. *)
Lemma fetch_copy_writes fuel (r r' : R) l w (out out' : W) : drains r l ErrEOF r' → (length l < fuel)%nat →
  session_writes (nonempty_parts l) w out = Ret (out', None) →
  ∃ w1 out1, fetch_copy fuel r w out = Ret (r', w1, out1, ReadError ErrEOF) ∧ mux_Close w1 out1 = Ret out'.
Proof.
  intros Hd. remember ErrEOF as e eqn:Ee. revert fuel w out. induction Hd as [r e r' E|r mb r1 l e r' E Hd IH]; subst e;
    intros fuel w out Hf; (destruct fuel as [|fuel]; [cbn in Hf; lia|]); cbn [fetch_copy]; rewrite E; cbn [outcome_bind nonempty_parts List.filter].
  - cbn [mb_IsEmpty forallb session_writes outcome_bind]. intros Hc. exists w, out. split; [done|].
    destruct (mux_Close w out); try done. cbn in Hc. by injection Hc as ->.
  - cbn [length] in Hf. destruct (mb_IsEmpty mb); cbn [negb session_writes outcome_bind]; [by apply IH; [|lia]|].
    destruct (mux_WriteMultiBuffer mb w out) as [[[w1 out1] [e|]]| |]; cbn [outcome_bind]; try done. by apply IH; [|lia].
Qed.

(** What the first payload writes. *)
Definition first_data (first : option (list Buffer * option frame_error)) : list Buffer :=
  match first with Some (mb, _) => mb | None => [] end.

(** A session sends its first payload, or an empty frame when there is none in
    time, then all of its input in order, without the parts that are empty, and
    its end: it is a session of the kind that the server is proved to deliver. *)
Theorem fetchInput_writes fuel id target gid first (r r' : R) l (out out' : W) :
  first ≫= snd = None → drains r l ErrEOF r' → (length l < fuel)%nat →
  session_writes (first_data first :: nonempty_parts l) (NewWriter id target (session_type target) gid) out = Ret (out', None) →
  fetchInput fuel id target gid first r out = Ret out'.
Proof.
  intros Hf Hd Hl Hs. unfold fetchInput. cbn [session_writes] in Hs.
  assert (writeFirstPayload first (NewWriter id target (session_type target) gid) out =
    mux_WriteMultiBuffer (first_data first) (NewWriter id target (session_type target) gid) out) as ->
    by (by destruct first as [[mb [e|]]|]).
  destruct (mux_WriteMultiBuffer (first_data first) _ out) as [[[w1 out1] [e|]]| |]; try done. cbn [outcome_bind] in *.
  destruct (fetch_copy_writes fuel r r' l w1 out1 out' Hd Hl Hs) as (w2 & out2 & -> & Hc). cbn [outcome_bind cause].
  by rewrite decide_True.
Qed.
End fetchInput.

(** ** What a connection receives *)

Section fetchOutput.
Context {L D W : Type} `{Link L, BufWriter W}.
Implicit Types c : @conn L D W.

(** The frames that say the same to a client as to a server are handled by the
    same code; a new session is not for a client to open, so its data is read
    over.  The connection is the first of its store. *)
Definition client_handleStatueKeepAlive (meta : FrameMetadata) c : outcome (conn * option frame_error) :=
  discard_data meta c.

Definition client_handleStatusNew (meta : FrameMetadata) c : outcome (conn * option frame_error) := discard_data meta c.

Definition client_handleStatusKeep (meta : FrameMetadata) c : outcome (conn * option frame_error) :=
  if negb (Has (Option_ meta) OptionData) then Ret (c, None)
  else
    match get_session 0 (SessionID meta) c with
    | None => let? c := notify_end (SessionID meta) c in discard_data meta c
    | Some p =>
      ret_or_panic (st_sessions (c_store c) !! p) (λ s,
      let? (c, rr, err) := copy_to (s_link s) (NewReader (s_type s) (c_reader c) (Target meta)) c in
      if IsWriteError err then copy_discard rr (on_store (session_Close p) c)
      else Ret (c, cause <$> err))
    end.

Definition client_handleStatusEnd (meta : FrameMetadata) c : outcome (conn * option frame_error) :=
  let c := match get_session 0 (SessionID meta) c with Some p => on_store (session_Close p) c | None => c end in
  discard_data meta c.

(** A round of the loop of [fetchOutput]: [meta] is one variable for all frames.
    A packet keeps a pointer to its target; here it has the value that the target
    has when the packet is read. *)
Definition fetchOutput_round (meta : FrameMetadata) c : outcome (FrameMetadata * conn * option frame_error) :=
  let? (res, r) := br_Unmarshal meta (c_reader c) in
  let c := with_reader r c in
  match res with
  | Err e => Ret (meta, c, Some e)
  | Ok meta =>
    let? (c, err) :=
      (if decide (SessionStatus meta = SessionStatusKeepAlive) then client_handleStatueKeepAlive meta c
       else if decide (SessionStatus meta = SessionStatusEnd) then client_handleStatusEnd meta c
       else if decide (SessionStatus meta = SessionStatusNew) then client_handleStatusNew meta c
       else if decide (SessionStatus meta = SessionStatusKeep) then client_handleStatusKeep meta c
       else Ret (c, Some errFrame)) in
    Ret (meta, c, err)
  end.

(** [n] rounds, unless the loop ends before. *)
Fixpoint fetchOutput (n : nat) (meta : FrameMetadata) c : outcome (conn * option frame_error) :=
  match n with
  | O => Ret (c, None)
  | S n =>
    let? (meta, c, err) := fetchOutput_round meta c in
    match err with Some e => Ret (c, Some e) | None => fetchOutput n meta c end
  end.

(** ** What a client makes of the frames *)

Definition receive_frame (a : flows) (f : mux_frame) : flows :=
  if decide (SessionStatus (fr_meta f) = SessionStatusNew) then a else serve_frame f a.

Context (live : L → Prop) (sink : L → list (list Buffer)) (dialed : D → list Destination).
Context (wlive : W → Prop) (wsink : W → list (list Buffer)).
Context `{!ServingLinks live sink, !LiveWriter wlive wsink}.
Notation abs := (abs live sink dialed wlive wsink).
Notation refined := (refined live sink dialed wlive wsink).

Lemma refine_ignored k d0 pre down0 f rest (Hf : frame_wf f) f0 c a :
  abs k d0 pre down0 c a → holds (c_reader c) (data_bytes (fr_data f) ++ rest) →
  ∃ c', discard_data (received (fr_meta f) (fr_udp f) f0) c = Ret (c', None) ∧ refined k d0 pre down0 c c' a rest.
Proof using Type*.
  intros Ha Hh.
  destruct (discard_spec (received (fr_meta f) (fr_udp f) f0) c (fr_data f) rest (fw_data _ Hf) (fw_size _ Hf) Hh) as (r' & -> & Hh' & Hadv').
  eexists. split; [reflexivity|]. split; [by eapply abs_proper|done|done].
Qed.

Lemma fetchOutput_round_refines d0 pre down0 f rest (Hf : frame_wf f) meta c a :
  abs 0 d0 pre down0 c a → holds (c_reader c) (fr_bytes f ++ rest) →
  ∃ c', fetchOutput_round meta c = Ret (received (fr_meta f) (fr_udp f) meta, c', None) ∧
    refined 0 d0 pre down0 c c' (receive_frame a f) rest.
Proof using Type*.
  intros Ha Hh. unfold fetchOutput_round.
  destruct (refine_meta live sink dialed wlive wsink 0 d0 pre down0 f rest Hf meta c a Ha Hh) as (r & -> & Ha' & Hr & Hadv).
  cbn [outcome_bind]. change (SessionStatus (received (fr_meta f) (fr_udp f) meta)) with (SessionStatus (fr_meta f)).
  unfold receive_frame. pose proof (fw_status _ Hf) as Hst. rewrite !elem_of_cons, elem_of_nil in Hst.
  destruct Hst as [Hst|[Hst|[Hst|[Hst|[]]]]].
  - rewrite (decide_False (P := _ = SessionStatusKeepAlive)), (decide_False (P := _ = SessionStatusEnd)),
      !(decide_True (P := _ = SessionStatusNew)) by (by rewrite Hst).
    destruct (refine_ignored 0 d0 pre down0 f rest Hf meta _ a Ha' Hr) as (c' & E & Hc').
    unfold client_handleStatusNew. rewrite E. exists c'. split; [done|by eapply refined_after].
  - rewrite (decide_False (P := _ = SessionStatusKeepAlive)), (decide_False (P := _ = SessionStatusEnd)),
      !(decide_False (P := _ = SessionStatusNew)), (decide_True (P := _ = SessionStatusKeep)) by (by rewrite Hst).
    destruct (refine_keep live sink dialed wlive wsink 0 d0 pre down0 f rest Hf meta _ a Ha' Hr Hst) as (c' & E & Hc').
    change (client_handleStatusKeep ?m ?c) with (handleStatusKeep 0 m c). rewrite E. exists c'. split; [done|by eapply refined_after].
  - rewrite (decide_False (P := _ = SessionStatusKeepAlive)), (decide_True (P := _ = SessionStatusEnd)),
      (decide_False (P := _ = SessionStatusNew)) by (by rewrite Hst).
    destruct (refine_end live sink dialed wlive wsink 0 d0 pre down0 f rest Hf meta _ a Ha' Hr Hst) as (c' & E & Hc').
    change (client_handleStatusEnd ?m ?c) with (handleStatusEnd 0 m c). rewrite E. exists c'. split; [done|by eapply refined_after].
  - rewrite decide_True, (decide_False (P := _ = SessionStatusNew)) by (by rewrite ?Hst).
    destruct (refine_alive live sink dialed wlive wsink 0 d0 pre down0 f rest Hf meta _ a Ha' Hr Hst) as (c' & E & Hc').
    change (client_handleStatueKeepAlive ?m ?c) with (handleStatusKeepAlive m c). rewrite E. exists c'. split; [done|by eapply refined_after].
Qed.

End fetchOutput.
