(* ===== verification/MuxWitness.v ===== *)
(** A mux server and its clients on links, a dispatcher and connections that keep
    what they are given: the theorems on src/upstream/xray-core/common/mux at
    concrete inputs. *)
From stdpp Require Import gmap.
From S2P Require Import Prelude GoText NetIP Address Transport Frame Uuid Buf AddressParser BufAppend Mux MultiBuffer BufIO ChunkStream AddressTotal MuxStream MuxSession MuxServer MuxRefine MuxDelivery MuxTotal MuxSafety MuxXudp MuxClient.

(** ** The parts *)

(** A link in memory: what was written to it while it was open, and what is to be
    read from it. *)
Record mem_link := { ml_got : list (list Buffer); ml_open : bool; ml_answers : list (list Buffer) }.

#[export] Instance mem_link_ops : Link mem_link := {|
  link_writer l mb :=
    if ml_open l then ({| ml_got := ml_got l ++ [mb]; ml_open := true; ml_answers := ml_answers l |}, None)
    else (l, Some errFrame);
  link_reader l :=
    match ml_answers l with
    | [] => Ret ([], Some ErrEOF, l)
    | mb :: mbs => Ret (mb, None, {| ml_got := ml_got l; ml_open := ml_open l; ml_answers := mbs |})
    end;
  link_close l := {| ml_got := ml_got l; ml_open := false; ml_answers := ml_answers l |};
  link_interrupt l := {| ml_got := ml_got l; ml_open := ml_open l; ml_answers := [] |};
  link_detach l := l
|}.

Definition ml_live (l : mem_link) : Prop := ml_open l = true.

#[export] Instance mem_link_serves : ServingLinks ml_live ml_got.
Proof.
  split; [|done|done]. intros l mb Hl. eexists. unfold write_mb, link_writer, mem_link_ops. rewrite Hl. by split_all.
Qed.

Definition answers_ok (l : mem_link) : Prop := Forall (λ mb, mb_ok mb ∧ sourced mb) (ml_answers l).

#[export] Instance mem_link_sane : SaneLinks answers_ok.
Proof.
  split.
  - intros [g o [|mb mbs]] Hl; unfold read_mb, link_reader, mem_link_ops; cbn [ml_answers].
    + do 3 eexists. split; [reflexivity|]. split; [apply mb_ok_nil|]. by split; [apply Forall_nil_2|].
    + unfold answers_ok in Hl. cbn [ml_answers] in Hl. apply Forall_cons in Hl as [[H1 H2] H3].
      do 3 eexists. by split_all.
  - intros l mb Hl. unfold write_mb, link_writer, mem_link_ops. by destruct (ml_open l).
  - intros l Hl. by apply Forall_nil_2.
  - done.
Qed.

(** The dispatcher notes the targets. *)
Definition mem_dispatch (d : list Destination) (t : Destination) : list Destination * result frame_error mem_link :=
  (d ++ [t], Ok {| ml_got := []; ml_open := true; ml_answers := [[FromBytes (lit "answer")]] |}).

#[export] Instance mem_dispatch_serves : ServingDispatcher mem_dispatch ml_live ml_got id.
Proof. intros d t. by do 2 eexists. Qed.

#[export] Existing Instance memory_mb.

Lemma content_FromBytes d : Z.of_nat (length d) < 2 ^ 30 → content (FromBytes d) = d.
Proof.
  intros Hd. unfold content. cbn [v start end_ FromBytes]. rewrite i32_small by lia.
  change (Z.to_nat 0) with 0%nat. rewrite drop_0. apply take_ge. lia.
Qed.

Lemma one_buffer_ok d : Z.of_nat (length d) ≤ 8192 → mb_ok [FromBytes d] ∧ sourced [FromBytes d].
Proof.
  intros Hd. assert (wf (FromBytes d)) as Hwf by (apply FromBytes_wf; lia).
  assert (content (FromBytes d) = d) as Hc by (by apply content_FromBytes; lia).
  split; [split; [by constructor|split; [constructor; [by rewrite Hc|constructor]|]]|by constructor].
  rewrite contents_of_one, Hc. lia.
Qed.

Lemma mem_dispatch_sane d t d' l : mem_dispatch d t = (d', Ok l) → answers_ok l.
Proof. intros [= _ <-]. apply Forall_singleton, one_buffer_ok. vm_compute. discriminate. Qed.

(** ** The sessions *)

Definition web : Destination := TCPDestination (Some (ipv4Address [1; 2; 3; 4])) 80.
Definition dns : Destination := UDPDestination (Some (ipv4Address [8; 8; 8; 8])) 53.

Lemma web_wire : endpoint_wire web.
Proof. exists (ipv4Address [1; 2; 3; 4]). split; [done|]. split; [split; [repeat (constructor; [done|])|]; done|done]. Qed.

Lemma dns_wire : endpoint_wire dns.
Proof. exists (ipv4Address [8; 8; 8; 8]). split; [done|]. split; [split; [repeat (constructor; [done|])|]; done|done]. Qed.

Definition no_gid : bytes := replicate 8 0.

Definition two_writers (j : nat) : MuxWriter :=
  match j with
  | O => NewWriter 1 web TransferTypeStream no_gid
  | _ => NewWriter 2 dns TransferTypePacket no_gid
  end.

Definition two_inputs (j : nat) : list (list Buffer) :=
  match j with
  | O => [[FromBytes (lit "GET")]; [FromBytes (lit " /")]]
  | _ => [[FromBytes (lit "query")]]
  end.

Lemma two_sessions j : (j < 2)%nat → session_ok (two_writers j) (two_inputs j).
Proof.
  intros Hj. destruct j as [|[|]]; [| |lia]; split; try done.
  - split; [done|done|]. intros _. split; [apply web_wire|by left].
  - repeat (constructor; [apply one_buffer_ok; vm_compute; discriminate|]). constructor.
  - split; [done|done|]. intros _. split; [apply dns_wire|by right].
  - repeat (constructor; [apply one_buffer_ok; vm_compute; discriminate|]). constructor.
Qed.

(** A connection on which these bytes come in, in these parts. *)
Definition arriving (ds : list bytes) : BufferedReader source :=
  {| Reader := {| parts := (λ d, [FromBytes d]) <$> ds; src_final := ErrEOF |}; br_Buffer := []; Splitter := None |}.

Lemma arriving_ok ds : Forall (λ d, Z.of_nat (length d) ≤ 8192) ds → br_ok (arriving ds).
Proof.
  intros Hds. split; [apply mb_ok_nil| |done]. apply Forall_fmap. eapply Forall_impl; [exact Hds|].
  intros d Hd. by apply one_buffer_ok.
Qed.

Definition mem_server := @server mem_link (list Destination) (list (list Buffer)).

Definition new_server (ds : list bytes) : mem_server := NewServerWorker (arriving ds) [] Network_Unknown (empty_server []).

Definition new_worker (ds : list bytes) : @worker (list (list Buffer)) :=
  {| wk_reader := arriving ds; wk_down := []; wk_allowed := Network_Unknown; wk_running := true; wk_interrupted := false |}.

Lemma new_server_fresh ds : fresh_conn (λ _, True) 0 (new_server ds) (new_worker ds).
Proof. by split. Qed.

(** The bytes of both sessions, one after the other, cut up. *)
Definition sent (j : nat) : bytes :=
  match session_writes (two_inputs j) (two_writers j) [] with Ret (out, _) => mjoin (contents_of <$> out) | _ => [] end.

Definition both_sent : list bytes := [take 5 (sent 0); drop 5 (sent 0) ++ take 9 (sent 1); drop 9 (sent 1)].

(** What the server makes of them. *)
Lemma both_arrive :
  match rounds mem_dispatch 8 0 (new_server both_sent) with
  | Ret v => sv_disp v = [web; dns] ∧
    (λ l, contents_of <$> ml_got l) <$> st_links (sv_store v) = [[lit "GET"; lit " /"]; [lit "query"]]
  | _ => False
  end.
Proof. by vm_compute. Qed.

Lemma mux_delivers_witness :
  ∃ frames : nat → list mux_frame,
    (∀ j out, (j < 2)%nat → True →
       ∃ out', session_writes (two_inputs j) (two_writers j) out = Ret (out', None) ∧
         emitted (λ _, True) id out (wire (frames j)) out') ∧
    ∀ fs, merges 2 frames fs → holds (arriving both_sent) (wire fs) →
      ∃ v' x' order ss, rounds mem_dispatch (S (length fs)) 0 (new_server both_sent) = Ret v' ∧ sv_workers v' !! 0%nat = Some x' ∧
        wk_running x' = false ∧ wk_interrupted x' = false ∧ order ≡ₚ seq 0 2 ∧
        sv_disp v' = [] ++ ((λ j, mw_dest (two_writers j)) <$> order) ∧
        ml_got <$> st_links (sv_store v') = [] ++ ss ∧
        Forall2 (λ j s, delivered (mw_type (two_writers j)) s (two_inputs j)) order ss.
Proof.
  apply (mux_delivers mem_dispatch ml_live ml_got id (λ _, True) id 2 two_writers two_inputs 0 (new_server both_sent) (new_worker both_sent)).
  - intros [|[|i]] [|[|j]] Hi Hj; (lia || done).
  - exact two_sessions.
  - apply new_server_fresh.
  - reflexivity.
Defined.

(** ** Frames of a client *)

(** A stream of three frames, and a frame for a session that was never opened. *)
Definition stray : mux_frame :=
  {| fr_meta := {| Target := web; SessionID := 7; Option_ := OptionData; SessionStatus := SessionStatusKeep; GlobalID := no_gid |};
     fr_udp := None; fr_data := Some (lit "lost") |}.

Definition some_frames : list mux_frame :=
  let w := two_writers 0 in
  [chunk_frame w [FromBytes (lit "ab")]; stray; chunk_frame (after_frame w) [FromBytes (lit "c")]; end_frame (after_frame w)].

Lemma some_frames_wf : Forall frame_wf some_frames.
Proof.
  repeat (apply Forall_cons; split); [..|apply Forall_nil_2].
  all: split; [split; [done|done|first [done|intros _; split; [apply web_wire|by left]]|done]|done|first [done|intros d [= <-]; vm_compute; discriminate]|cbn; set_solver|done].
Qed.

Lemma some_frames_arrive : holds (arriving [take 3 (wire some_frames); drop 3 (wire some_frames)]) (wire some_frames).
Proof.
  split; [apply arriving_ok; repeat (constructor; [vm_compute; discriminate|]); constructor|by vm_compute].
Qed.

Notation some_bytes := [take 3 (wire some_frames); drop 3 (wire some_frames)].

Lemma mux_server_refines_witness :
  let a := serve_frames some_frames no_flows in
  ∃ v' x' ss, rounds mem_dispatch 5 0 (new_server some_bytes) = Ret v' ∧ sv_workers v' !! 0%nat = Some x' ∧
    wk_running x' = false ∧ wk_interrupted x' = false ∧ sv_disp v' = [] ++ (f_target <$> fl_all a) ∧
    ml_got <$> st_links (sv_store v') = [] ++ ss ∧
    Forall2 (λ f s, carries (flow_type f) s (f_data f)) (fl_all a) ss ∧
    emitted (λ _, True) id [] (mjoin (end_notice <$> fl_unknown a)) (wk_down x').
Proof.
  apply (mux_server_refines mem_dispatch ml_live ml_got id (λ _, True) id 0 (new_server some_bytes) (new_worker some_bytes) some_frames).
  - apply new_server_fresh.
  - exact some_frames_wf.
  - exact some_frames_arrive.
  - reflexivity.
Defined.

(** ** A server and its cleaner *)

Definition some_events : list (@server_event (list (list Buffer))) :=
  [Connect (arriving some_bytes) [] Network_Unknown; Frame 0; Answer 0; Frame 0; Sweep 100].

Lemma some_events_ok : Forall event_ok some_events.
Proof.
  repeat (apply Forall_cons; split); [split; [apply some_frames_arrive|]|done..|apply Forall_nil_2].
  apply Forall_forall. intros x Hx. revert x Hx. apply Forall_forall.
  vm_compute. repeat (constructor; [split; [discriminate|reflexivity]|]). constructor.
Qed.


Definition some_server : mem_server :=
  match server_run mem_dispatch some_events (empty_server []) with Ret v => v | _ => empty_server [] end.

Lemma some_server_inv : server_inv answers_ok some_server.
Proof.
  destruct (server_run_safe mem_dispatch answers_ok mem_dispatch_sane some_events (empty_server []))
    as (v & E & Hv); [apply empty_server_inv|exact some_events_ok|]. unfold some_server. by rewrite E.
Qed.

Lemma sweep_spares_open_witness :
  let w := sweep 200 (sv_store some_server) in
  st_links w !! 0%nat = st_links (sv_store some_server) !! 0%nat ∧ st_sessions w = st_sessions (sv_store some_server) ∧
  st_managers w = st_managers (sv_store some_server).
Proof.
  apply (sweep_spares_open answers_ok some_server 200 0 (new_session 0 1 TransferTypeStream None (Some 0%nat)) 0).
  - exact some_server_inv.
  - vm_compute. reflexivity.
  - reflexivity.
  - reflexivity.
Defined.

(** ** A UDP session that comes back *)

Definition gid : bytes := [1; 2; 3; 4; 5; 6; 7; 8].

Definition old_session : Session :=
  {| s_link := Some 0%nat; s_parent := 0; s_ID := 1; s_type := TransferTypePacket; s_closed := true; s_XUDP := Some 0%nat |}.

Definition expiring : XUDP := {| x_GlobalID := gid; x_Status := Expiring; x_Expire := 60; x_Mux := Some 0%nat |}.

Definition old_link : mem_link := {| ml_got := [[FromBytes (lit "first")]]; ml_open := true; ml_answers := [] |}.

(** The first connection has ended, the second brings a packet for the entry. *)
Definition second_conn : @conn mem_link (list Destination) (list (list Buffer)) :=
  {| c_store := {| st_sessions := [old_session];
                   st_managers := [{| sm_sessions := ∅; count := 1; sm_closed := true |}; NewSessionManager];
                   st_links := [old_link]; st_xudps := [expiring]; st_map := {[gid := 0%nat]}; st_now := 10 |};
     c_disp := [dns]; c_down := []; c_handles := []; c_reader := arriving [data_bytes (Some (lit "second"))] |}.

Definition resuming : FrameMetadata :=
  {| Target := dns; SessionID := 1; Option_ := OptionData; SessionStatus := SessionStatusNew; GlobalID := gid |}.

Lemma mem_detached l : ml_live l → ml_live (link_detach l).
Proof. done. Qed.

Lemma xudp_resumes_witness :
  ∃ c' q b out', handle_xudp mem_dispatch 1 resuming second_conn = Ret (c', None) ∧ c_disp c' = [dns] ∧
    st_links (c_store c') !! 0%nat = Some out' ∧ ml_got out' = [[FromBytes (lit "first")]] ++ [[b]] ∧
    content b = lit "second" ∧ UDP b = packet_source (Some dns) ∧ get_session 1 1 c' = Some q ∧
    st_sessions (c_store c') !! q = Some (new_session 1 1 TransferTypePacket (Some 0%nat) (Some 0%nat)) ∧
    (∃ s', st_sessions (c_store c') !! 0%nat = Some s' ∧ s_closed s' = true) ∧ holds (c_reader c') [].
Proof.
  apply (xudp_resumes mem_dispatch ml_live ml_got mem_detached 1 0 0 0 expiring old_session old_link NewSessionManager resuming
    (lit "second") [] second_conn); try reflexivity; try discriminate.
  - split; [apply arriving_ok, Forall_singleton; vm_compute; discriminate|by vm_compute].
Defined.

(** ** Clients *)


Lemma worker_limits_witness :
  let '(ids, w) := worker_run [WDispatch 0; WDispatch 1; WRemove 1; WDispatch 2] (NewClientWorker one_session) in
  Z.of_nat (length ids) ≤ 128 ∧ NoDup ids ∧ limits_ok w.
Proof. apply (worker_limits [WDispatch 0; WDispatch 1; WRemove 1; WDispatch 2] one_session). done. Defined.

(** The client that opened the stream of [some_frames], with its link. *)
Definition some_client : @conn mem_link (list Destination) (list (list Buffer)) :=
  {| c_store := {| st_sessions := [new_session 0 1 TransferTypeStream None (Some 0%nat)];
                   st_managers := [{| sm_sessions := {[1 := 0%nat]}; count := 1; sm_closed := false |}];
                   st_links := [{| ml_got := []; ml_open := true; ml_answers := [] |}];
                   st_xudps := []; st_map := ∅; st_now := 0 |};
     c_disp := [web]; c_down := []; c_handles := []; c_reader := arriving [wire (tail some_frames)] |}.

Definition one_flow : flows := {| fl_ids := {[1 := 0%nat]}; fl_all := [{| f_target := web; f_data := [] |}]; fl_unknown := [] |}.


Lemma fetchInput_writes_witness :
  ∃ out', fetchInput (W := list (list Buffer)) 2 1 web no_gid (Some ([FromBytes (lit "GET")], None))
    {| parts := [[FromBytes (lit " /")]]; src_final := ErrEOF |} [] = Ret out'.
Proof.
  eexists. apply (fetchInput_writes 2 1 web no_gid (Some ([FromBytes (lit "GET")], None))
    {| parts := [[FromBytes (lit " /")]]; src_final := ErrEOF |} {| parts := []; src_final := ErrEOF |} [[FromBytes (lit " /")]]).
  - reflexivity.
  - econstructor; [reflexivity|]. constructor. reflexivity.
  - cbn. lia.
  - vm_compute. reflexivity.
Defined.
