(* ===== verification/Xudp.v ===== *)
(** UDP over a stream without a mux connection around it
    (src/upstream/xray-core/common/xudp/xudp.go): its writer puts packets into the
    frames of a mux session with the number 0, its reader takes them from such
    frames. *)
From S2P Require Import Prelude GoText NetIP Address Transport Frame Uuid Buf AddressParser BufAppend Mux MultiBuffer BufIO ChunkStream AddressTotal MuxStream MuxTotal MuxWitness.

(** [AddrParser]. *)
Definition AddrParser : addressParser := parser_of vless_options.

(** ** Global ids *)

(** What [GetGlobalID] looks at in the context: the inbound's source and name. *)
Record InboundInfo := { in_Source : Destination; in_Name : bytes }.

(** [hash key data] is the 8 byte BLAKE3 hash. *)
Definition GetGlobalID (hash : bytes → bytes → bytes) (BaseKey : bytes) (cone : option bool) (inbound : option InboundInfo)
    : outcome bytes :=
  match cone, inbound with
  | Some true, Some i =>
    if decide (dest_Network (in_Source i) = Network_UDP ∧
               in_Name i ∈ [lit "dokodemo-door"; lit "socks"; lit "shadowsocks"]) then
      ret_or_panic (Destination_String (in_Source i)) (λ s, Ret (overwrite (replicate 8 0) 0 (hash BaseKey s)))
    else Ret (replicate 8 0)
  | _, _ => Ret (replicate 8 0)
  end.

(** ** The writer *)

(** [PacketWriter], without the writer below; its network tells whether the first
    packet is still to come. *)
Record XudpWriter := { xw_Dest : Destination; xw_GlobalID : bytes }.

Definition xudp_NewPacketWriter (dest : Destination) (gid : bytes) : XudpWriter := {| xw_Dest := dest; xw_GlobalID := gid |}.

Definition xw_started (w : XudpWriter) : XudpWriter :=
  {| xw_Dest := {| dest_Address := dest_Address (xw_Dest w); dest_Port := dest_Port (xw_Dest w); dest_Network := Network_Unknown |};
     xw_GlobalID := xw_GlobalID w |}.

(** [eb.WriteByte(c)], the error ignored. *)
Definition write_byte (b : Buffer) (c : Z) : outcome Buffer := ret_or_panic (WriteByte b c) (λ '(b, _), Ret b).

(** [AddrParser.WriteAddressPort(eb, ...)], the error ignored: the port is written
    by then. *)
Definition write_endpoint (b : Buffer) (d : Destination) : outcome Buffer :=
  match write_address AddrParser b (dest_Address d) (dest_Port d) with
  | Ret b => Ret b
  | Fail => write_all b (writePort (dest_Port d))
  | Panic => Panic
  end.

(** The fields behind the length of the metadata and the number. *)
Definition xudp_fields (b : Buffer) (w : XudpWriter) (eb : Buffer) : outcome (Buffer * XudpWriter) :=
  if decide (dest_Network (xw_Dest w) = Network_UDP) then
    let? eb := write_byte eb 1 in
    let? eb := write_byte eb 1 in
    let? eb := write_byte eb 2 in
    let? eb := write_endpoint eb (xw_Dest w) in
    let? eb := (match UDP b with Some _ => write_all eb (xw_GlobalID w) | None => Ret eb end) in
    Ret (eb, xw_started w)
  else
    let? eb := write_byte eb 2 in
    let? eb := write_byte eb 1 in
    let? eb := (match UDP b with
                | Some u => let? eb := write_byte eb 2 in write_endpoint eb u
                | None => Ret eb
                end) in
    Ret (eb, w).

(** The loop body of [WriteMultiBuffer]; [None] is [continue]. *)
Definition xudp_packet (b : Buffer) (w : XudpWriter) : outcome (option Buffer * XudpWriter) :=
  let length := Len b in
  if decide (length = 0 ∨ 8192 < i32 (length + 666)) then Ret (None, w)
  else
    let? eb := write_all (Buffer_New pool_array) [0; 0; 0; 0] in
    let? (eb, w) := xudp_fields b w eb in
    let l := i32 (Len eb - 2) in
    ret_or_panic (SetByte eb 0 (u8 (Z.shiftr l 8))) (λ eb,
    ret_or_panic (SetByte eb 1 (u8 l)) (λ eb,
    let? eb := write_byte eb (u8 (Z.shiftr length 8)) in
    let? eb := write_byte eb (u8 length) in
    ret_or_panic (Bytes b) (λ d,
    let? eb := write_all eb d in Ret (Some eb, w)))).

Fixpoint xudp_packets (mb : list Buffer) (w : XudpWriter) : outcome (list Buffer * XudpWriter) :=
  match mb with
  | [] => Ret ([], w)
  | b :: mb =>
    let? (eb, w) := xudp_packet b w in
    let? (ebs, w) := xudp_packets mb w in Ret (option_list eb ++ ebs, w)
  end.

Definition xudp_WriteMultiBuffer {W} `{BufWriter W} (mb : list Buffer) (w : XudpWriter) (out : W)
    : outcome (XudpWriter * W * option frame_error) :=
  let? (mb2Write, w) := xudp_packets mb w in
  if mb_IsEmpty mb2Write then Ret (w, out, None)
  else let '(out, err) := write_mb out mb2Write in Ret (w, out, err).

(** ** The reader *)

(** The source of the packet in a frame [b], whose array keeps the metadata. *)
Definition xudp_source (l : Z) (b : Buffer) : outcome (option Destination) :=
  ret_or_panic (if decide (4 < l) then Byte b 4 else Some 0) (λ flag,
  if decide (4 < l ∧ flag = 2) then
    let b := Advance b 5 in
    ret_or_panic (Bytes b) (λ c,
    let? (addr, port, _) := ReadAddressPort AddrParser fresh {| chunks := [c]; final := ErrEOF |} in
    Ret (Some {| dest_Address := addr; dest_Port := port; dest_Network := Network_UDP |}))
  else Ret None).

(** What a frame says about its data: [None] ends the stream, otherwise whether
    the data is to be discarded and where it comes from. *)
Definition xudp_meta (l : Z) (b : Buffer) : outcome (option (bool * option Destination)) :=
  ret_or_panic (Byte b 2) (λ status,
  if decide (status = 2) then let? u := xudp_source l b in Ret (Some (false, u))
  else if decide (status = 4) then Ret (Some (true, None))
  else Ret None).

Definition buf_error_of (e : buf_error) : frame_error := match e with BufReadError e => e | BufOutOfBound => errFrame end.

(** The data of a frame, into the buffer [b]; [None] when there is none. *)
Definition xudp_data (b : Buffer) (r : BufferedReader source)
    : outcome (result frame_error (option Buffer) * BufferedReader source) :=
  ret_or_panic (Byte b 3) (λ option,
  if decide (option = 1) then
    let? (d, r) := br_ReadFull 2 r in
    match d with
    | Err e => Ret (Err e, r)
    | Ok d =>
      if decide (0 < be_val d) then
        let? (b, r) := br_ReadFullFrom b (be_val d) r in
        match b with Ok b => Ret (Ok (Some b), r) | Err e => Ret (Err (buf_error_of e), r) end
      else Ret (Ok None, r)
    end
  else Ret (Ok None, r)).

(** One round of the loop of [ReadMultiBuffer]: [None] goes on. *)
Definition xudp_round (r : BufferedReader source) : outcome (option (result frame_error Buffer) * BufferedReader source) :=
  let? (d, r) := br_ReadFull 2 r in
  match d with
  | Err e => Ret (Some (Err e), r)
  | Ok d =>
    let l := be_val d in
    if decide (l < 4) then Ret (Some (Err ErrEOF), r)
    else
      let? (b, r) := br_ReadFullFrom (Buffer_New pool_array) l r in
      match b with
      | Err e => Ret (Some (Err (buf_error_of e)), r)
      | Ok b =>
        match xudp_meta l b with
        | Panic => Panic
        | Fail => Ret (Some (Err errFrame), r)
        | Ret None => Ret (Some (Err ErrEOF), r)
        | Ret (Some (discard, u)) =>
          let? (d, r) := xudp_data (with_UDP u (Clear b)) r in
          match d with
          | Err e => Ret (Some (Err e), r)
          | Ok (Some b) => Ret (if discard : bool then None else Some (Ok b), r)
          | Ok None => Ret (None, r)
          end
        end
      end
  end.

Fixpoint xudp_loop (fuel : nat) (r : BufferedReader source) : outcome (list Buffer * option frame_error * BufferedReader source) :=
  match fuel with
  | O => Panic
  | S fuel =>
    let? (res, r) := xudp_round r in
    match res with
    | Some (Ok b) => Ret ([b], None, r)
    | Some (Err e) => Ret ([], Some e, r)
    | None => xudp_loop fuel r
    end
  end.

(** [xudp.PacketReader]; every round takes some bytes. *)
Record XudpReader := { xr_reader : BufferedReader source }.

#[global] Instance xudp_ReadMultiBuffer : BufReader XudpReader := λ p,
  let? (mb, err, r) := xudp_loop (S (length (contents (as_stream (xr_reader p))))) (xr_reader p) in
  Ret (mb, err, {| xr_reader := r |}).

(** ** What the writer puts on the wire *)

Lemma SetByte_spec b x c y d : wf b → content b = x ++ c :: y →
  ∃ b', SetByte b (Z.of_nat (length x)) d = Some b' ∧ wf b' ∧ content b' = x ++ d :: y ∧ room b' = room b.
Proof.
  intros Hb Hc. pose proof Hb as [H1 H2 H3]. pose proof (length_content b Hb) as Hl. rewrite Hc, length_app in Hl. cbn [length] in Hl.
  unfold SetByte, Byte, array_at. rewrite i32_small by lia. rewrite decide_True by lia.
  destruct (lookup_total_lt (v b) (Z.to_nat (start b + Z.of_nat (length x))) ltac:(lia)) as [z ->].
  eexists. split; [reflexivity|].
  assert (<[Z.to_nat (start b + Z.of_nat (length x)) := d]> (v b) = overwrite (v b) (Z.to_nat (start b + Z.of_nat (length x))) [d]) as ->.
  { unfold overwrite. cbv zeta. rewrite (take_ge [d]) by (cbn; lia). rewrite insert_take_drop by lia. cbn [app length]. do 3 f_equal. lia. }
  destruct (patch_spec b x [c] [d] y Hb Hc eq_refl) as (W & C & R & _). done.
Qed.

Lemma write_byte_spec b c : wf b → (1 ≤ room b)%nat → ∃ b', write_byte b c = Ret b' ∧ appended b [c] b'.
Proof.
  intros Hb Hr. destruct (WriteByte_spec b c Hb Hr) as (b' & E & H). exists b'. unfold write_byte. by rewrite E.
Qed.

Lemma write_endpoint_spec b d : endpoint_wire d → wf b → (259 ≤ room b)%nat →
  ∃ b', write_endpoint b d = Ret b' ∧ appended b (address_bytes AddrParser d) b'.
Proof.
  intros Hd Hb Hr. destruct (address_bytes_spec AddrParser vless_parser_ok d Hd) as (_ & _ & _ & _ & Hl).
  destruct (write_address_spec AddrParser vless_parser_ok b d Hd Hb ltac:(lia)) as (b' & E & H). exists b'. unfold write_endpoint. by rewrite E.
Qed.

(** The packets that are sent. *)
Definition fits (b : Buffer) : bool := bool_decide (0 < Z.of_nat (length (content b)) ≤ 7526).

(** The mux writer that does the same. *)
Record stands (w : XudpWriter) (m : MuxWriter) : Prop := {
  st_id : mw_id m = 0;
  st_ty : mw_type m = TransferTypePacket;
  st_gid : globalID m = xw_GlobalID w;
  st_start : followup m = bool_decide (dest_Network (xw_Dest w) ≠ Network_UDP);
  st_dest : dest_Network (xw_Dest w) = Network_UDP → mw_dest m = xw_Dest w;
  st_ok : writer_ok m
}.

Lemma stands_new dest gid : dest_Network dest = Network_UDP → endpoint_wire dest → length gid = 8%nat →
  stands (xudp_NewPacketWriter dest gid) (NewWriter 0 dest TransferTypePacket gid).
Proof.
  intros Hn Hd Hg. split; try done; cbn.
  - by rewrite bool_decide_false by naive_solver.
  - split; [done|done|]. intros _. split; [done|by right].
Qed.

(** The metadata of the frame, without its length. *)
Lemma xudp_fields_spec b w m eb : stands w m → (∀ u, UDP b = Some u → endpoint_wire u) → wf eb → (300 ≤ room eb)%nat →
  ∃ eb' w', xudp_fields b w eb = Ret (eb', w') ∧
    appended eb ([SessionStatus (data_meta m); OptionData] ++ tail_bytes (data_meta m) (UDP b)) eb' ∧ stands w' (after_frame m).
Proof.
  intros [Hid Hty Hg Hst Hd Hok] Hu Heb Hr. pose proof Hok as [_ Hgl Hdest]. unfold xudp_fields, data_meta, set_option, tail_bytes.
  cbn [getNextFrameMeta fst SessionStatus Target GlobalID]. rewrite Hst. case_decide as En.
  - rewrite bool_decide_false in Hst by naive_solver. rewrite bool_decide_false by naive_solver. specialize (Hd En).
    destruct (Hdest Hst) as [Hw _]. rewrite Hd in *. rewrite Hg in Hgl.
    destruct (address_bytes_spec AddrParser vless_parser_ok _ Hw) as (_ & _ & _ & _ & Hla).
    destruct (write_byte_spec eb 1 Heb ltac:(lia)) as (b1 & -> & A1). pose proof A1 as [W1 _ R1 _ _]. cbn [length outcome_bind] in *.
    destruct (write_byte_spec b1 1 W1 ltac:(lia)) as (b2 & -> & A2). pose proof A2 as [W2 _ R2 _ _]. cbn [length outcome_bind] in *.
    destruct (write_byte_spec b2 2 W2 ltac:(lia)) as (b3 & -> & A3). pose proof A3 as [W3 _ R3 _ _]. cbn [length outcome_bind] in *.
    destruct (write_endpoint_spec b3 (xw_Dest w) Hw W3 ltac:(lia)) as (b4 & -> & A4). pose proof A4 as [W4 _ R4 _ _]. cbn [outcome_bind].
    pose proof (appended_trans _ _ _ _ _ (appended_trans _ _ _ _ _ A1 A2) (appended_trans _ _ _ _ _ A3 A4)) as A.
    assert (∃ eb' x, (match UDP b with Some _ => write_all b4 (xw_GlobalID w) | None => Ret b4 end) = Ret eb' ∧ appended b4 x eb' ∧
      x = match UDP b with Some _ => xw_GlobalID w | None => [] end) as (eb' & x & -> & A5 & Ex).
    { destruct (UDP b).
      - destruct (write_all_spec b4 (xw_GlobalID w) W4 ltac:(lia)) as (b5 & -> & A5). by do 2 eexists.
      - exists b4, []. split; [done|]. split; [|done]. split; [done|by rewrite app_nil_r|cbn; lia|done|done]. }
    cbn [outcome_bind]. exists eb', (xw_started w). split; [done|]. split.
    + rewrite decide_True by done. unfold network_byte. rewrite En, Hg, <- Ex. pose proof (appended_trans _ _ _ _ _ A A5) as A'.
      rewrite <- !app_assoc in A'. exact A'.
    + split; try done. by destruct Hok.
  - rewrite !bool_decide_true by done. rewrite decide_False by done.
    destruct (write_byte_spec eb 2 Heb ltac:(lia)) as (b1 & -> & A1). pose proof A1 as [W1 _ R1 _ _]. cbn [length outcome_bind] in *.
    destruct (write_byte_spec b1 1 W1 ltac:(lia)) as (b2 & -> & A2). pose proof A2 as [W2 _ R2 _ _]. cbn [length outcome_bind] in *.
    pose proof (appended_trans _ _ _ _ _ A1 A2) as A.
    assert (∃ eb' x, (match UDP b with Some u => let? eb := write_byte b2 2 in write_endpoint eb u | None => Ret b2 end) = Ret eb' ∧
      appended b2 x eb' ∧ x = match UDP b with Some u => [TargetNetworkUDP] ++ address_bytes mux_parser u | None => [] end)
      as (eb' & x & -> & A5 & Ex).
    { destruct (UDP b) as [u|].
      - destruct (write_byte_spec b2 2 W2 ltac:(lia)) as (b3 & -> & A3). pose proof A3 as [W3 _ R3 _ _]. cbn [length outcome_bind] in *.
        destruct (write_endpoint_spec b3 u (Hu u eq_refl) W3 ltac:(lia)) as (b4 & -> & A4). do 2 eexists. split; [reflexivity|].
        split; [by eapply appended_trans|done].
      - exists b2, []. split; [done|]. split; [|done]. split; [done|by rewrite app_nil_r|cbn; lia|done|done]. }
    cbn [outcome_bind]. exists eb', w. split; [done|]. split.
    + rewrite <- Ex. pose proof (appended_trans _ _ _ _ _ A A5) as A'. exact A'.
    + split; try done; cbn; [by rewrite bool_decide_true|by apply (writer_ok_next m)].
Qed.

Lemma be_bytes_two x : be_bytes 2 x = [u8 (Z.shiftr x 8); u8 x].
Proof.
  cbn [be_bytes]. unfold wrap. rewrite Z.shiftr_div_pow2 by lia. change (256 ^ Z.of_nat 1) with 256. change (256 ^ Z.of_nat 0) with 1.
  change (2 ^ 8) with 256. by rewrite Z.div_1_r.
Qed.

Lemma xudp_packet_spec b w m : stands w m → (∀ u, UDP b = Some u → endpoint_wire u) → wf b → fits b = true →
  ∃ eb w', xudp_packet b w = Ret (Some eb, w') ∧ wf eb ∧ content eb = fr_bytes (chunk_frame m [b]) ∧ stands w' (after_frame m).
Proof.
  intros Hw Hu Hb Hf. unfold fits in Hf. apply bool_decide_eq_true in Hf. pose proof (st_ok _ _ Hw) as Hok.
  unfold xudp_packet. cbv zeta. rewrite Len_content by done. rewrite i32_small by lia. rewrite decide_False by lia.
  destruct (new_buffer pool_array pool_array_length) as (W0 & C0 & R0).
  destruct (write_all_spec (Buffer_New pool_array) [0; 0; 0; 0] W0) as (b1 & -> & A1); [cbn; lia|]. cbn [outcome_bind].
  pose proof A1 as [W1 C1 R1 _ _]. cbn [length] in R1. rewrite C0 in C1. cbn [app] in C1.
  destruct (xudp_fields_spec b w m b1 Hw Hu W1) as (b2 & w' & -> & A2 & Hw'); [lia|]. cbn [outcome_bind].
  pose proof A2 as [W2 C2 R2 _ _]. rewrite C1 in C2.
  set (t := [SessionStatus (data_meta m); OptionData] ++ tail_bytes (data_meta m) (UDP b)) in *.
  assert (meta_bytes (data_meta m) (UDP b) = [0; 0] ++ t) as Em.
  { unfold meta_bytes. change (SessionID (data_meta m)) with (mw_id m). rewrite (st_id _ _ Hw). done. }
  assert (frame_ok (data_meta m) (UDP b)) as Hfo by (by apply new_frame_ok).
  pose proof (length_meta_bytes _ _ Hfo) as Hl. rewrite Em in Hl. cbn [app] in Hl, C2. cbn [length] in Hl.
  rewrite Len_content by done. rewrite C2. cbn [length].
  assert (Z.of_nat (S (S (S (S (length t))))) - 2 = Z.of_nat (length ([0; 0] ++ t))) as El by (rewrite length_app; change (length [0; 0]) with 2%nat; lia).
  rewrite El. rewrite i32_small by lia. rewrite <- Em in El |- *.
  destruct (SetByte_spec b2 [] 0 (0 :: 0 :: 0 :: t) (u8 (Z.shiftr (Z.of_nat (length (meta_bytes (data_meta m) (UDP b)))) 8)) W2 C2)
    as (b3 & E3 & W3 & C3 & R3). cbn [length app] in E3, C3. change (Z.of_nat 0) with 0 in E3. rewrite E3. cbn [ret_or_panic].
  destruct (SetByte_spec b3 [_] 0 (0 :: 0 :: t) (u8 (Z.of_nat (length (meta_bytes (data_meta m) (UDP b))))) W3 C3)
    as (b4 & E4 & W4 & C4 & R4). cbn [length app] in E4, C4. change (Z.of_nat 1) with 1 in E4. rewrite E4. cbn [ret_or_panic].
  assert (length t ≤ 270)%nat as Ht by lia.
  assert (7900 ≤ Z.of_nat (room b4)) as Hroom by lia.
  destruct (write_byte_spec b4 (u8 (Z.shiftr (Z.of_nat (length (content b))) 8)) W4 ltac:(lia)) as (b5 & -> & [W5 C5 R5 _ _]).
  cbn [outcome_bind length] in *.
  destruct (write_byte_spec b5 (u8 (Z.of_nat (length (content b)))) W5 ltac:(lia)) as (b6 & -> & [W6 C6 R6 _ _]).
  cbn [outcome_bind length] in *. rewrite Bytes_content by done. cbn [ret_or_panic].
  destruct (write_all_spec b6 (content b) W6 ltac:(lia)) as (b7 & -> & [W7 C7 _ _ _]). cbn [outcome_bind].
  exists b7, w'. split; [done|]. split; [done|]. split; [|done].
  rewrite C7, C6, C5, C4. unfold fr_bytes, chunk_frame, frame_bytes, data_bytes. cbn [fr_meta fr_udp fr_data data_UDP].
  rewrite !contents_of_one, !be_bytes_two, Em. cbn [app]. by rewrite <- !app_assoc.
Qed.

Lemma xudp_packets_spec mb w m : stands w m → Forall wf mb → sourced mb → Forall (λ b, Z.of_nat (length (content b)) ≤ 8192) mb →
  ∃ ebs w', xudp_packets mb w = Ret (ebs, w') ∧ Forall wf ebs ∧
    contents_of ebs = wire (chunk_frames m ((λ b, [b]) <$> List.filter fits mb)) ∧
    stands w' (foldl (λ w _, after_frame w) m (List.filter fits mb)).
Proof.
  intros Hw Hwf. revert w m Hw. induction Hwf as [|b mb Hb Hmb IH]; intros w m Hw Hs Hl; cbn [xudp_packets List.filter].
  { exists [], w. by split_all. }
  apply Forall_cons in Hs as [Hs1 Hs]. apply Forall_cons in Hl as [Hl1 Hl]. destruct (fits b) eqn:Ef.
  - destruct (xudp_packet_spec b w m Hw Hs1 Hb Ef) as (eb & w1 & -> & Hwe & Hce & Hw1). cbn [outcome_bind].
    destruct (IH w1 _ Hw1 Hs Hl) as (ebs & w' & -> & H1 & H2 & H3). cbn [outcome_bind]. exists (eb :: ebs), w'.
    split; [done|]. split; [by constructor|]. split; [|done]. by rewrite contents_of_cons, Hce, H2.
  - assert (xudp_packet b w = Ret (None, w)) as ->.
    { unfold xudp_packet. cbv zeta. rewrite Len_content by done. unfold fits in Ef. apply bool_decide_eq_false in Ef.
      rewrite i32_small by lia. by rewrite decide_True by lia. }
    cbn [outcome_bind]. destruct (IH w m Hw Hs Hl) as (ebs & w' & -> & H1 & H2 & H3). by exists ebs, w'.
Qed.

Lemma length_wire fs : (length fs ≤ length (wire fs))%nat.
Proof.
  induction fs as [|f fs IH]; [done|]. change (wire (f :: fs)) with (fr_bytes f ++ wire fs).
  unfold fr_bytes, frame_bytes. rewrite !length_app, be_bytes_length. cbn [length]. lia.
Qed.

Section writes.
Context {W : Type} `{BufWriter W} (live : W → Prop) (sink : W → list (list Buffer)) `{!LiveWriter live sink}.

(** A mux writer cuts packets that are not empty up one by one. *)
Lemma cut_packets (kept : list Buffer) cs : Forall (λ b, content b ≠ []) kept → cut TransferTypePacket kept cs →
  cs = (λ b, [b]) <$> kept.
Proof.
  intros Hk [(dr & E & Hdr) _ Hp _]. specialize (Hp eq_refl). assert (dr = []) as ->.
  { destruct dr as [|b dr]; [done|]. rewrite contents_of_cons in Hdr. apply app_eq_nil in Hdr as [Hb _].
    rewrite E in Hk. apply Forall_app in Hk as [_ Hk]. by apply Forall_cons in Hk as [? _]. }
  rewrite app_nil_r in E. subst kept. clear Hk Hdr. induction Hp as [|c cs Hc _ IH]; [done|].
  destruct c as [|b [|]]; try done. change (mjoin ([b] :: cs)) with (b :: mjoin cs). rewrite fmap_cons. by rewrite <- IH.
Qed.

(** The packet writer is the mux writer of a session with the number 0: of the
    packets it is given it leaves out the empty ones and those that are too large
    for the frame to fit a buffer, and for the others it puts the very bytes on
    the connection that the mux writer puts there, and goes on as that one does. *)
Theorem xudp_is_mux (mb : list Buffer) (w : XudpWriter) (m : MuxWriter) (out : W) :
  stands w m → mb_ok mb → sourced mb → live out → List.filter fits mb ≠ [] →
  ∃ x w' out' m' out2, xudp_WriteMultiBuffer mb w out = Ret (w', out', None) ∧ emitted live sink out x out' ∧
    mux_WriteMultiBuffer (List.filter fits mb) m out = Ret (m', out2, None) ∧ emitted live sink out x out2 ∧ stands w' m'.
Proof using Type*.
  intros Hw (Hwf & Hsm & Hlt) Hs Ho Hne.
  destruct (xudp_packets_spec mb w m Hw Hwf Hs Hsm) as (ebs & w' & E & Hebs & Hc & Hw').
  set (kept := List.filter fits mb) in *. unfold xudp_WriteMultiBuffer. rewrite E. cbn [outcome_bind].
  assert (∀ P : Buffer → Prop, Forall P mb → Forall P kept) as Hsub.
  { intros P HP. apply Forall_forall. intros b Hb. apply list_elem_of_In, List.filter_In in Hb as [Hb _].
    rewrite Forall_forall in HP. by apply HP, list_elem_of_In. }
  assert (mb_ok kept) as Hkept.
  { split; [by apply Hsub|]. split; [by apply Hsub|]. enough (length (contents_of kept) ≤ length (contents_of mb))%nat by lia.
    subst kept. clear. induction mb as [|b l IH]; [done|]. cbn [List.filter]. destruct (fits b); rewrite !contents_of_cons, !length_app; lia. }
  assert (Forall (λ b, content b ≠ []) kept) as Hfull.
  { apply Forall_forall. intros b Hb. apply list_elem_of_In, List.filter_In in Hb as [_ Hb]. unfold fits in Hb.
    apply bool_decide_eq_true in Hb. intros Eb. rewrite Eb in Hb. cbn in Hb. lia. }
  destruct (mux_WriteMultiBuffer_spec live sink kept m Hkept (Hsub _ Hs) (st_ok _ _ Hw)) as (cs & Hcut & Hrun).
  rewrite (st_ty _ _ Hw) in Hcut. apply (cut_packets kept cs Hfull) in Hcut. subst cs.
  destruct (Hrun out Ho) as (out2 & E2 & He2).
  assert (mb_IsEmpty kept = false) as Ek.
  { rewrite mb_ok_empty by done. apply bool_decide_false. destruct kept as [|b l]; [done|]. rewrite contents_of_cons.
    intros [? _]%app_eq_nil. by apply Forall_cons in Hfull as [? _]. }
  rewrite Ek in E2, He2.
  assert (mb_IsEmpty ebs = false) as Ee.
  { rewrite mb_IsEmpty_spec by done. apply bool_decide_false. rewrite Hc. destruct kept as [|b l]; [by destruct Hne|]. rewrite fmap_cons.
    cbn [chunk_frames]. intros E2'. apply (f_equal length) in E2'. pose proof (length_wire (chunk_frame m [b] :: chunk_frames (after_frame m) ((λ b, [b]) <$> l))) as Hlw.
    rewrite E2' in Hlw. cbn in Hlw. lia. }
  rewrite Ee. destruct (emit_one live sink out ebs Ho Hebs) as (out' & -> & He). rewrite Hc in He.
  do 5 eexists. split; [reflexivity|]. split; [exact He|]. split; [exact E2|]. split; [exact He2|].
  clear -Hw'. enough (foldl (λ w _, after_frame w) m ((λ b, [b]) <$> kept) = foldl (λ w _, after_frame w) m kept) as -> by done.
  clear. revert m. induction kept as [|b l IH]; intros m; [done|]. apply IH.
Qed.
End writes.

(** ** What the reader takes from the wire *)

(** The frames that the other end sends before the last. *)
Record answer_frame (f : mux_frame) : Prop := {
  an_ok : frame_ok (fr_meta f) (fr_udp f);
  an_option : Option_ (fr_meta f) = match fr_data f with Some _ => OptionData | None => 0 end;
  an_size : ∀ d, fr_data f = Some d → Z.of_nat (length d) ≤ 8192;
  an_status : SessionStatus (fr_meta f) = SessionStatusKeep ∨ SessionStatus (fr_meta f) = SessionStatusKeepAlive
}.

(** The packet in a frame, with its source. *)
Definition answer_packet (f : mux_frame) : option (bytes * option Destination) :=
  d ← fr_data f;
  if decide (SessionStatus (fr_meta f) = SessionStatusKeep ∧ d ≠ []) then
    Some (d, u ← fr_udp f; Some (UDPDestination (dest_Address u) (dest_Port u)))
  else None.

(** The bytes at the start of a buffer that has not been read from stay in its
    array. *)
Lemma Byte_kept b i x : wf b → start b = 0 → content b !! i = Some x →
  Byte b (Z.of_nat i) = Some x ∧ ∀ u, Byte (with_UDP u (Clear b)) (Z.of_nat i) = Some x.
Proof.
  intros Hb H0 Hx. pose proof Hb as [H1 H2 H3]. pose proof (lookup_lt_Some _ _ _ Hx) as Hi. pose proof (length_content b Hb) as Hlc.
  unfold content in Hx. rewrite H0, drop_0 in Hx. apply lookup_take_Some in Hx as [Hx _].
  unfold Byte, array_at. cbn [start with_UDP Clear with_window v]. rewrite H0, i32_small by lia. rewrite decide_True by lia.
  by rewrite Z.add_0_l, Nat2Z.id.
Qed.

Lemma xudp_source_spec f b : frame_ok (fr_meta f) (fr_udp f) → SessionStatus (fr_meta f) = SessionStatusKeep → wf b → start b = 0 →
  content b = meta_bytes (fr_meta f) (fr_udp f) →
  xudp_source (Z.of_nat (length (content b))) b = Ret (u ← fr_udp f; Some (UDPDestination (dest_Address u) (dest_Port u))).
Proof.
  intros [_ _ _ Hu] Hs Hb H0 Hc. rewrite Hc. unfold meta_bytes, tail_bytes in *. rewrite Hs in *.
  rewrite (decide_False (P := SessionStatusKeep = SessionStatusNew)) in * by done.
  set (id := be_bytes 2 (SessionID (fr_meta f))) in *. assert (length id = 2%nat) as Hid by done.
  destruct (fr_udp f) as [u|]; unfold xudp_source.
  - destruct (address_bytes_spec mux_parser vless_parser_ok u (Hu u eq_refl)) as (_ & _ & _ & _ & Hl).
    rewrite !length_app, Hid. cbn [length]. rewrite decide_True by lia.
    destruct id as [|i0 [|i1 []]]; try done. cbn [app] in *.
    assert (content b !! 4%nat = Some TargetNetworkUDP) as H4 by (by rewrite Hc).
    destruct (Byte_kept b 4 _ Hb H0 H4) as [E _]. change (Z.of_nat 4) with 4 in E. rewrite E. cbn [ret_or_panic].
    rewrite decide_True by (split; [lia|done]).
    destruct (run_Advance b 5 Hb ltac:(lia)) as [Wa Ca]. change (Z.of_nat 5) with 5 in *. cbv zeta.
    rewrite Bytes_content by done. cbn [ret_or_panic]. rewrite Ca, Hc. cbn [drop app]. rewrite drop_0. change mux_parser with AddrParser in *.
    destruct (read_endpoint AddrParser vless_parser_ok fresh u
      {| chunks := [address_bytes AddrParser u]; final := ErrEOF |} [] (Hu u eq_refl) fresh_wf (fresh_room 259 ltac:(lia)))
      as (s' & Er & _ & _); [done|]. rewrite Er. done.
  - rewrite app_nil_r, length_app, Hid. cbn [length]. rewrite decide_False by lia. cbn [ret_or_panic].
    by rewrite decide_False by (intros []; lia).
Qed.

Lemma xudp_data_spec f b u r rest : answer_frame f → wf b → start b = 0 → content b = meta_bytes (fr_meta f) (fr_udp f) →
  Z.of_nat (length (v b)) = 8192 → holds r (data_bytes (fr_data f) ++ rest) →
  ∃ res r', xudp_data (with_UDP u (Clear b)) r = Ret (Ok res, r') ∧ holds r' rest ∧ final (as_stream r') = final (as_stream r) ∧
    match fr_data f with
    | Some d => if decide (d = []) then res = None
                else ∃ b', res = Some b' ∧ wf b' ∧ content b' = d ∧ UDP b' = u
    | None => res = None
    end.
Proof.
  intros [_ Ho Hsz _] Hb H0 Hc Hv Hh. unfold xudp_data.
  assert (content b !! 3%nat = Some (Option_ (fr_meta f))) as H3.
  { rewrite Hc. unfold meta_bytes. pose proof (be_bytes_length 2 (SessionID (fr_meta f))) as Hid.
    by destruct (be_bytes 2 (SessionID (fr_meta f))) as [|? [|? []]]. }
  destruct (Byte_kept b 3 _ Hb H0 H3) as [_ E]. specialize (E u). change (Z.of_nat 3) with 3 in E. rewrite E. cbn [ret_or_panic]. rewrite Ho.
  destruct (fr_data f) as [d|]; [|rewrite decide_False by done; by exists None, r].
  rewrite decide_True by done. specialize (Hsz d eq_refl). unfold data_bytes in Hh. rewrite <- app_assoc in Hh.
  destruct (ReadUint16_spec _ _ _ Hh) as (x & r1 & -> & Hx & [Hr1 Hc1] & [Hf1 _]); [unfold is_uint; lia|].
  cbn [outcome_bind]. rewrite Hx. case_decide as Ed.
  - assert (d ≠ []) by (intros ->; cbn in Ed; lia). destruct (Clear_spec b Hb) as [Wc Cc].
    assert (wf (with_UDP u (Clear b))) as Wu by (by destruct Wc).
    destruct (br_ReadFullFrom_spec (with_UDP u (Clear b)) r1 d rest (Z.of_nat (length d)) Wu Hr1 Hc1 eq_refl)
      as (b' & r' & -> & [Wb Cb _ Ub _] & Hr' & Hc' & Hf' & _).
    { unfold room. cbn. lia. }
    cbn [outcome_bind]. do 2 eexists. split; [reflexivity|]. split; [done|]. split; [congruence|]. rewrite decide_False by done.
    exists b'. split; [done|]. split; [done|]. split; [|done]. rewrite Cb. change (content (with_UDP u (Clear b))) with (content (Clear b)).
    by rewrite Cc.
  - assert (d = []) as -> by (destruct d; [done|cbn in Ed; lia]). exists None, r1. rewrite decide_True by done. by split_all.
Qed.

(** The buffer that the metadata is read into. *)
Lemma xudp_meta_read f r rest : frame_ok (fr_meta f) (fr_udp f) → holds r (fr_bytes f ++ rest) →
  ∃ d b r1 r2, br_ReadFull 2 r = Ret (Ok d, r1) ∧ be_val d = Z.of_nat (length (content b)) ∧ 4 ≤ be_val d ∧
    br_ReadFullFrom (Buffer_New pool_array) (be_val d) r1 = Ret (Ok b, r2) ∧ wf b ∧ start b = 0 ∧
    content b = meta_bytes (fr_meta f) (fr_udp f) ∧ Z.of_nat (length (v b)) = 8192 ∧
    holds r2 (data_bytes (fr_data f) ++ rest) ∧ final (as_stream r2) = final (as_stream r).
Proof.
  intros Hf Hh. pose proof (length_meta_bytes _ _ Hf) as Hl. unfold fr_bytes, frame_bytes in Hh. rewrite <- !app_assoc in Hh.
  destruct (ReadUint16_spec _ _ _ Hh) as (d & r1 & E1 & Hv & [Hr1 Hc1] & [Hf1 _]); [unfold is_uint; lia|].
  destruct (new_buffer pool_array pool_array_length) as (W0 & C0 & R0).
  destruct (br_ReadFullFrom_spec _ r1 _ _ (be_val d) W0 Hr1 Hc1 ltac:(done) ltac:(lia)) as (b & r2 & E2 & [Wb Cb Rb _ Sb] & Hr2 & Hc2 & Hf2 & _).
  rewrite C0 in Cb. cbn [app] in Cb. exists d, b, r1, r2. rewrite Cb. pose proof Wb as [H1 H2 H3].
  pose proof (length_content b Wb) as Hlb. rewrite Cb, Sb in Hlb. change (start (Buffer_New pool_array)) with 0 in *.
  unfold room in Rb, R0. split_all; try done; [lia| |congruence]. rewrite Sb in *. lia.
Qed.

Lemma Byte_status f b : wf b → start b = 0 → content b = meta_bytes (fr_meta f) (fr_udp f) → Byte b 2 = Some (SessionStatus (fr_meta f)).
Proof.
  intros Hb H0 Hc. assert (content b !! 2%nat = Some (SessionStatus (fr_meta f))) as H2.
  { rewrite Hc. unfold meta_bytes. pose proof (be_bytes_length 2 (SessionID (fr_meta f))) as Hid.
    by destruct (be_bytes 2 (SessionID (fr_meta f))) as [|? [|? []]]. }
  by destruct (Byte_kept b 2 _ Hb H0 H2) as [E _].
Qed.

Lemma xudp_round_spec f r rest : answer_frame f → holds r (fr_bytes f ++ rest) →
  ∃ res r', xudp_round r = Ret (res, r') ∧ holds r' rest ∧ final (as_stream r') = final (as_stream r) ∧
    match answer_packet f with
    | Some (d, u) => ∃ b, res = Some (Ok b) ∧ wf b ∧ content b = d ∧ UDP b = u
    | None => res = None
    end.
Proof.
  intros Hf Hh. pose proof Hf as [Hok Ho Hsz Hst].
  destruct (xudp_meta_read f r rest Hok Hh) as (d & b & r1 & r2 & E1 & Hv & Hd4 & E2 & Wb & S0 & Cb & Vb & Hh2 & Hf2).
  unfold xudp_round. rewrite E1. cbn [outcome_bind]. cbv zeta. rewrite decide_False by lia. rewrite E2. cbn [outcome_bind].
  unfold xudp_meta. rewrite (Byte_status f b Wb S0 Cb). cbn [ret_or_panic]. rewrite Hv.
  unfold answer_packet. destruct Hst as [Hst|Hst]; rewrite Hst.
  - rewrite decide_True by done. rewrite (xudp_source_spec f b Hok Hst Wb S0 Cb). cbn [outcome_bind].
    set (u := fr_udp f ≫= _).
    destruct (xudp_data_spec f b u r2 rest Hf Wb S0 Cb Vb Hh2) as (res & r' & -> & Hh' & Hf' & Hres). cbn [outcome_bind].
    rewrite <- Hf2. destruct (fr_data f) as [x|]; cbn [mbind option_bind].
    + destruct (decide (x = [])) as [->|Hx].
      * subst res. rewrite decide_False by (by intros [_ []]). by exists None, r'.
      * destruct Hres as (b' & -> & Hb'). rewrite decide_True by done. do 2 eexists. split; [reflexivity|]. split; [done|]. split; [done|]. by exists b'.
    + subst res. by exists None, r'.
  - rewrite (decide_False (P := SessionStatusKeepAlive = 2)), decide_True by done. cbn [outcome_bind].
    destruct (xudp_data_spec f b None r2 rest Hf Wb S0 Cb Vb Hh2) as (res & r' & -> & Hh' & Hf' & Hres). cbn [outcome_bind].
    rewrite <- Hf2. assert ((d0 ← fr_data f; if decide (SessionStatusKeepAlive = SessionStatusKeep ∧ d0 ≠ [])
      then Some (d0, u ← fr_udp f; Some (UDPDestination (dest_Address u) (dest_Port u))) else None) = None) as ->.
    { destruct (fr_data f); [|done]. cbn. by rewrite decide_False by (by intros [[=] _]). }
    exists None, r'. split; [by destruct res|done].
Qed.

Lemma xudp_round_end f r rest : frame_ok (fr_meta f) (fr_udp f) → SessionStatus (fr_meta f) = SessionStatusEnd →
  holds r (fr_bytes f ++ rest) → ∃ r', xudp_round r = Ret (Some (Err ErrEOF), r').
Proof.
  intros Hok Hst Hh. destruct (xudp_meta_read f r rest Hok Hh) as (d & b & r1 & r2 & E1 & Hv & Hd4 & E2 & Wb & S0 & Cb & _ & _ & _).
  unfold xudp_round. rewrite E1. cbn [outcome_bind]. cbv zeta. rewrite decide_False by lia. rewrite E2. cbn [outcome_bind].
  unfold xudp_meta. rewrite (Byte_status f b Wb S0 Cb), Hst. cbn [ret_or_panic]. rewrite !decide_False by done. by eexists.
Qed.

(** The packets of some frames. *)
Definition answer_packets (fs : list mux_frame) : list (bytes * option Destination) := omap answer_packet fs.

Section reads.
Context (e : mux_frame) (rest : bytes) (He : frame_ok (fr_meta e) (fr_udp e)) (Hend : SessionStatus (fr_meta e) = SessionStatusEnd).

Lemma xudp_loop_spec fs fuel r : Forall answer_frame fs → holds r (wire fs ++ fr_bytes e ++ rest) → (length fs < fuel)%nat →
  (answer_packets fs = [] ∧ ∃ r', xudp_loop fuel r = Ret ([], Some ErrEOF, r')) ∨
  (∃ f fs2 b r', (length fs2 < length fs)%nat ∧ answer_packets fs = (content b, UDP b) :: answer_packets fs2 ∧ wf b ∧
    answer_packet f = Some (content b, UDP b) ∧ Forall answer_frame fs2 ∧
    xudp_loop fuel r = Ret ([b], None, r') ∧ holds r' (wire fs2 ++ fr_bytes e ++ rest)).
Proof using He Hend.
  intros Hfs. revert fuel r. induction Hfs as [|f fs Hf Hfs IH]; intros fuel r Hh Hfuel; (destruct fuel as [|fuel]; [cbn in Hfuel; lia|]); cbn [xudp_loop].
  - left. split; [done|]. destruct (xudp_round_end e r rest He Hend Hh) as (r' & ->). by eexists.
  - change (wire (f :: fs)) with (fr_bytes f ++ wire fs) in Hh. rewrite <- app_assoc in Hh. cbn [length] in Hfuel.
    destruct (xudp_round_spec f r _ Hf Hh) as (res & r' & -> & Hh' & _ & Hres). cbn [outcome_bind].
    unfold answer_packets in *. cbn [omap list_omap]. destruct (answer_packet f) as [[d u]|] eqn:Ef.
    + destruct Hres as (b & -> & Hb & <- & <-). right. exists f, fs, b, r'. cbn [length]. by split_all; first [lia|done].
    + subst res. destruct (IH fuel r' Hh' ltac:(lia)) as [[E Hr]|(f' & fs2 & b & r2 & Hlen & E & Hrest)].
      * left. by split.
      * right. exists f', fs2, b, r2. cbn [length]. split; [lia|]. by split.
Qed.

Lemma xudp_drains fs r : Forall answer_frame fs → holds r (wire fs ++ fr_bytes e ++ rest) →
  ∃ l p, drains {| xr_reader := r |} l ErrEOF p ∧ Forall (λ mb, length mb = 1%nat ∧ Forall wf mb) l ∧
    (λ b, (content b, UDP b)) <$> mjoin l = answer_packets fs.
Proof using He Hend.
  remember (length fs) as n eqn:En. revert fs En r. induction (lt_wf n) as [n _ IH]. intros fs -> r Hfs Hh.
  assert (length fs < S (length (contents (as_stream r))))%nat as Hfuel.
  { destruct Hh as [_ ->]. rewrite length_app. pose proof (length_wire fs). lia. }
  destruct (xudp_loop_spec fs _ r Hfs Hh Hfuel) as [[E (r' & Hl)]|(f & fs2 & b & r' & Hlen & E & Hb & _ & Hfs2 & Hl & Hh')].
  - exists [], {| xr_reader := r' |}. split; [|by split]. constructor. unfold read_mb, xudp_ReadMultiBuffer. cbn [xr_reader]. by rewrite Hl.
  - destruct (IH (length fs2) Hlen fs2 eq_refl r' Hfs2 Hh') as (l & p & Hd & Hw & Hp). exists ([b] :: l), p. split.
    { econstructor; [|exact Hd]. unfold read_mb, xudp_ReadMultiBuffer. cbn [xr_reader]. by rewrite Hl. }
    split; [constructor; [|done]; by split; [|constructor]|].
    change (mjoin ([b] :: l)) with (b :: mjoin l). rewrite fmap_cons, Hp, E. done.
Qed.
End reads.

(** ** From a session of the other end *)

(** The packets of a write. *)
Definition full_packets (mb : list Buffer) : list (bytes * option Destination) :=
  (λ b, (content b, u ← UDP b; Some (UDPDestination (dest_Address u) (dest_Port u)))) <$> List.filter (λ b, bool_decide (content b ≠ [])) mb.

Lemma contents_nil_full mb : contents_of mb = [] → full_packets mb = [].
Proof.
  unfold full_packets. induction mb as [|b mb IH]; [done|]. rewrite contents_of_cons. intros [Eb Em]%app_eq_nil.
  cbn [List.filter]. rewrite bool_decide_false by naive_solver. by apply IH.
Qed.

Lemma full_packets_app m1 m2 : full_packets (m1 ++ m2) = full_packets m1 ++ full_packets m2.
Proof. unfold full_packets. by rewrite List.filter_app, fmap_app. Qed.

(** The frames of a packet session that has started. *)
Lemma answer_chunks m cs : writer_ok m → followup m = true → Forall (λ c, length c = 1%nat) cs → sourced (mjoin cs) →
  Forall (λ c, Z.of_nat (length (contents_of c)) ≤ 8192) cs →
  Forall answer_frame (chunk_frames m cs) ∧ answer_packets (chunk_frames m cs) = full_packets (mjoin cs).
Proof.
  intros Hm Hf Hc Hs Hl. revert m Hm Hf. induction Hc as [|c cs Hc Hcs IH]; intros m Hm Hf; [by split; [constructor|]|].
  destruct c as [|b [|]]; try done. change (mjoin ([b] :: cs)) with (b :: mjoin cs) in Hs |- *. apply Forall_cons in Hs as [Hs1 Hs].
  apply Forall_cons in Hl as [Hl1 Hl]. destruct (IH Hs Hl (after_frame m) (writer_ok_next m Hm) eq_refl) as [H1 H2].
  cbn [chunk_frames]. split.
  - constructor; [|done]. split; cbn [chunk_frame fr_meta fr_udp fr_data data_UDP].
    + by apply new_frame_ok.
    + done.
    + by intros d [= <-].
    + left. unfold data_meta, set_option. cbn. by rewrite Hf.
  - unfold answer_packets in *. cbn [omap list_omap]. rewrite H2. unfold answer_packet. cbn [chunk_frame fr_meta fr_udp fr_data data_UDP mbind option_bind].
    rewrite contents_of_one. assert (SessionStatus (data_meta m) = SessionStatusKeep) as -> by (unfold data_meta, set_option; cbn; by rewrite Hf).
    unfold full_packets. cbn [List.filter]. destruct (decide (content b = [])) as [Eb|Eb].
    + rewrite decide_False by naive_solver. by rewrite bool_decide_false by naive_solver.
    + rewrite decide_True by naive_solver. by rewrite bool_decide_true by naive_solver.
Qed.

Section session.
Context {W : Type} `{BufWriter W} (live : W → Prop) (sink : W → list (list Buffer)) `{!LiveWriter live sink}.

(** Writes of a session that has started, as frames. *)
Fixpoint answer_writes (mbs : list (list Buffer)) (m : MuxWriter) (out : W) : outcome (MuxWriter * W * option frame_error) :=
  match mbs with
  | [] => let? out := mux_Close m out in Ret (m, out, None)
  | mb :: mbs =>
    let? (m, out, err) := mux_WriteMultiBuffer mb m out in
    match err with Some e => Ret (m, out, Some e) | None => answer_writes mbs m out end
  end.

Lemma answer_frames m mb : writer_ok m → followup m = true → mw_type m = TransferTypePacket → mb_ok mb → sourced mb →
  ∃ fs m', Forall answer_frame fs ∧ answer_packets fs = full_packets mb ∧ writer_ok m' ∧ followup m' = true ∧
    mw_type m' = TransferTypePacket ∧
    ∀ out, live out → ∃ out', mux_WriteMultiBuffer mb m out = Ret (m', out', None) ∧ emitted live sink out (wire fs) out'.
Proof using Type*.
  intros Hm Hf Ht Hmb Hs. destruct (mux_WriteMultiBuffer_spec live sink mb m Hmb Hs Hm) as (cs & Hcut & Hrun). rewrite Ht in Hcut.
  pose proof (mb_ok_empty mb Hmb) as Eb. destruct (mb_IsEmpty mb).
  - symmetry in Eb. apply bool_decide_eq_true in Eb. exists [meta_frame m], (after_frame m). split.
    { constructor; [|constructor]. split; cbn; [|done|done|rewrite Hf; by left]. exact (new_frame_ok m 0 None Hm ltac:(done)). }
    split; [by rewrite contents_nil_full|]. split; [by apply writer_ok_next|]. by split_all.
  - destruct Hcut as [(dr & -> & Hdr) Hsz Hp _]. apply Forall_app in Hs as [Hs _].
    destruct (answer_chunks m cs Hm Hf (Hp eq_refl) Hs Hsz) as [H1 H2].
    exists (chunk_frames m cs), (foldl (λ w _, after_frame w) m cs). split; [done|].
    split; [by rewrite full_packets_app, (contents_nil_full dr Hdr), app_nil_r|].
    assert (writer_ok (foldl (λ w _, after_frame w) m cs) ∧ followup (foldl (λ w _, after_frame w) m cs) = true ∧
      mw_type (foldl (λ w _, after_frame w) m cs) = TransferTypePacket) as (? & ? & ?); [|by split_all].
    clear -Hm Hf Ht. revert m Hm Hf Ht. induction cs as [|c cs IH]; intros m Hm Hf Ht; [done|]. cbn [foldl].
    apply IH; [by apply writer_ok_next|done|done].
Qed.

(** The answers to a packet session: what the mux server writes for a session
    and then closes, cut up on the connection in any way, the packet reader reads
    back one packet at a time, every packet that is not empty, in order, each with
    the source it was written with, and then the end. *)
Theorem xudp_answers (id : Z) (mbs : list (list Buffer)) : is_uint 16 id → Forall (λ mb, mb_ok mb ∧ sourced mb) mbs →
  ∃ x, (∀ out, live out → ∃ m' out', answer_writes mbs (NewResponseWriter id TransferTypePacket) out = Ret (m', out', None) ∧
          emitted live sink out x out') ∧
    ∀ r rest, holds r (x ++ rest) →
      ∃ l p, drains {| xr_reader := r |} l ErrEOF p ∧ Forall (λ mb, length mb = 1%nat ∧ Forall wf mb) l ∧
        (λ b, (content b, UDP b)) <$> mjoin l = full_packets (mjoin mbs).
Proof using Type*.
  intros Hid Hmbs.
  enough (∀ m, writer_ok m → followup m = true → mw_type m = TransferTypePacket →
    ∃ fs e, Forall answer_frame fs ∧ frame_ok (fr_meta e) (fr_udp e) ∧ SessionStatus (fr_meta e) = SessionStatusEnd ∧
      answer_packets fs = full_packets (mjoin mbs) ∧
      ∀ out, live out → ∃ m' out', answer_writes mbs m out = Ret (m', out', None) ∧ emitted live sink out (wire fs ++ fr_bytes e) out') as Hall.
  { destruct (Hall (NewResponseWriter id TransferTypePacket)) as (fs & e & Hfs & He & Hend & Hp & Hrun); [by apply response_writer_ok|done|done|].
    exists (wire fs ++ fr_bytes e). split; [done|]. intros r rest Hh. rewrite <- app_assoc in Hh.
    rewrite <- Hp. by eapply xudp_drains. }
  clear Hid. induction Hmbs as [|mb mbs [Hmb Hs] Hmbs IH]; intros m Hm Hf Ht; cbn [answer_writes].
  - exists [], (end_frame m). split; [constructor|]. split; [destruct Hm; by split|]. split; [done|]. split; [done|].
    intros out Ho. destruct (mux_Close_spec live sink m out Hm Ho) as (out' & -> & He). by do 2 eexists.
  - destruct (answer_frames m mb Hm Hf Ht Hmb Hs) as (fs & m' & H1 & H2 & Hm' & Hf' & Ht' & Hrun).
    destruct (IH m' Hm' Hf' Ht') as (fs2 & e & H3 & He & Hend & H4 & Hrun2). exists (fs ++ fs2), e.
    split; [by apply Forall_app|]. split; [done|]. split; [done|]. split.
    { unfold answer_packets in *. rewrite omap_app, H2, H4. by rewrite <- full_packets_app. }
    intros out Ho. destruct (Hrun out Ho) as (out1 & -> & He1). cbn [outcome_bind].
    destruct (Hrun2 out1 (em_live _ _ _ _ _ He1)) as (m2 & out2 & -> & He2). do 2 eexists. split; [reflexivity|].
    unfold wire in *. rewrite fmap_app, join_app, <- app_assoc. by eapply emitted_trans.
Qed.
End session.

(** ** Examples *)

Definition queries : list Buffer := [FromBytes (lit "a"); FromBytes []; FromBytes (lit "bc")].

Lemma queries_ok : mb_ok queries ∧ sourced queries.
Proof.
  assert (∀ d, Z.of_nat (length d) ≤ 8192 → wf (FromBytes d)) as Hwf by (intros; apply FromBytes_wf; lia).
  split; [split; [|split]|].
  - repeat (constructor; [apply Hwf; vm_compute; discriminate|]). constructor.
  - repeat (constructor; [vm_compute; discriminate|]). constructor.
  - vm_compute. reflexivity.
  - repeat (constructor; [done|]). constructor.
Qed.

Lemma xudp_is_mux_witness :
  ∃ x w' out' m' out2, xudp_WriteMultiBuffer queries (xudp_NewPacketWriter dns gid) [] = Ret (w', out', None) ∧
    emitted (λ _, True) id [] x out' ∧
    mux_WriteMultiBuffer (List.filter fits queries) (NewWriter 0 dns TransferTypePacket gid) [] = Ret (m', out2, None) ∧
    emitted (λ _, True) id [] x out2 ∧ stands w' m'.
Proof.
  apply (xudp_is_mux (λ _, True) id queries (xudp_NewPacketWriter dns gid) (NewWriter 0 dns TransferTypePacket gid) []).
  - apply stands_new; [done|apply dns_wire|done].
  - apply queries_ok.
  - apply queries_ok.
  - exact I.
  - vm_compute. discriminate.
Defined.

Lemma xudp_answers_witness :
  ∃ x, (∀ out, True → ∃ m' out', answer_writes [queries] (NewResponseWriter 7 TransferTypePacket) out = Ret (m', out', None) ∧
          emitted (λ _, True) id out x out') ∧
    ∀ r rest, holds r (x ++ rest) →
      ∃ l p, drains {| xr_reader := r |} l ErrEOF p ∧ Forall (λ mb, length mb = 1%nat ∧ Forall wf mb) l ∧
        (λ b, (content b, UDP b)) <$> mjoin l = full_packets (mjoin [queries]).
Proof.
  apply (xudp_answers (λ _, True) id 7 [queries]).
  - done.
  - constructor; [apply queries_ok|constructor].
Defined.
