(* ===== verification/Validator.v ===== *)
(** The user tables of the VLESS and Trojan servers
    (src/upstream/xray-core/proxy/vless/validator.go and
    src/upstream/xray-core/proxy/trojan/validator.go), which differ only in the
    key they derive from an account.  Calls are taken one at a time. *)
From stdpp Require Import gmap.
From S2P Require Import Prelude GoText.

Record MemoryUser (A : Type) := { Account : A; Email : bytes; Level : Z }.
Arguments Account {A} m.
Arguments Email {A} m.
Arguments Level {A} m.

Record Validator (A : Type) := { email : gmap bytes (MemoryUser A); users : gmap bytes (MemoryUser A) }.
Arguments email {A} v.
Arguments users {A} v.

Section Validator.
Context `{UnicodeTables} {A : Type} (key : A → bytes).

Definition new_validator : Validator A := {| email := ∅; users := ∅ |}.

(** [Add]: the new table, or nothing when the email is taken. *)
Definition Add (v : Validator A) (u : MemoryUser A) : option (Validator A) :=
  let stored em := {| email := em; users := <[key (Account u) := u]> (users v) |} in
  if decide (Email u = []) then Some (stored (email v))
  else
    match email v !! ToLower (Email u) with
    | Some _ => None
    | None => Some (stored (<[ToLower (Email u) := u]> (email v)))
    end.

(** [Del]: the new table, or nothing when the email is empty or unknown. *)
Definition Del (v : Validator A) (e : bytes) : option (Validator A) :=
  if decide (e = []) then None
  else
    u ← email v !! ToLower e;
    Some {| email := delete (ToLower e) (email v); users := delete (key (Account u)) (users v) |}.

Definition Get (v : Validator A) (id : bytes) : option (MemoryUser A) := users v !! id.

(** ** Invariant *)

(** Every user that [Get] finds is stored under its own key and, when it has
    an email, is the user registered under it. *)
Record validator_ok (v : Validator A) : Prop := {
  ok_key : ∀ id u, users v !! id = Some u → key (Account u) = id;
  ok_email : ∀ id u, users v !! id = Some u → Email u ≠ [] → email v !! ToLower (Email u) = Some u
}.

Inductive call := CallAdd (u : MemoryUser A) | CallDel (e : bytes).

(** A call; one that fails leaves the table as it is. *)
Definition run_call (v : Validator A) (c : call) : Validator A :=
  default v (match c with CallAdd u => Add v u | CallDel e => Del v e end).

Definition run_calls (cs : list call) (v : Validator A) : Validator A := foldl run_call v cs.

Lemma new_validator_ok : validator_ok new_validator.
Proof. split; intros id u Hu; cbn in Hu; by rewrite lookup_empty in Hu. Qed.

Lemma Add_ok v u v' : validator_ok v → Add v u = Some v' → validator_ok v'.
Proof.
  intros [Hk He] Ha. unfold Add in Ha. cbv zeta in Ha.
  destruct (decide (Email u = [])) as [E0|E0]; [|destruct (email v !! ToLower (Email u)) eqn:E1; [done|]];
    injection Ha as <-; (split; cbn [users email]; intros id w; rewrite lookup_insert_Some).
  - intros [[<- <-]|[_ Hw]]; [done|by apply Hk].
  - intros [[<- <-]|[_ Hw]] Hne; [done|by apply (He id)].
  - intros [[<- <-]|[_ Hw]]; [done|by apply Hk].
  - intros [[<- <-]|[_ Hw]] Hne; [by rewrite lookup_insert_eq|].
    pose proof (He id w Hw Hne) as Hew. rewrite lookup_insert_ne; [done|]. intros E. congruence.
Qed.

Lemma Del_ok v e v' : validator_ok v → Del v e = Some v' → validator_ok v'.
Proof.
  intros [Hk He] Hd. unfold Del in Hd. case_decide; [done|].
  destruct (email v !! ToLower e) as [u|] eqn:Eu; [|done]. injection Hd as <-.
  split; cbn [users email]; intros id w; rewrite lookup_delete_Some; intros [Hid Hw].
  - by apply Hk.
  - intros Hne. rewrite lookup_delete_ne; [by apply (He id)|]. intros E.
    pose proof (He id w Hw Hne) as Hew. rewrite <- E, Eu in Hew. injection Hew as ->.
    apply Hid. symmetry. by rewrite (Hk id w Hw).
Qed.

Lemma run_calls_ok cs v : validator_ok v → validator_ok (run_calls cs v).
Proof.
  revert v. induction cs as [|c cs IH]; intros v Hv; [done|]. apply IH. unfold run_call.
  destruct c as [u|e]; [destruct (Add v u) eqn:E|destruct (Del v e) eqn:E]; cbn;
    eauto using Add_ok, Del_ok.
Qed.

(** ** Revocation *)

(** No user of this email is registered. *)
Definition unregistered (e : bytes) (v : Validator A) : Prop := email v !! ToLower e = None.

Lemma Del_unregisters v e v' : Del v e = Some v' → unregistered e v'.
Proof.
  unfold Del, unregistered. intros Hd. case_decide; [done|].
  destruct (email v !! ToLower e) as [u|]; [|done]. injection Hd as <-. cbn. by rewrite lookup_delete_eq.
Qed.

Lemma run_call_unregistered e v c :
  (∀ u, c = CallAdd u → Email u ≠ [] → ToLower (Email u) ≠ ToLower e) →
  unregistered e v → unregistered e (run_call v c).
Proof.
  unfold unregistered, run_call. intros Hc Hv. destruct c as [u|e'].
  - unfold Add. cbv zeta. destruct (decide (Email u = [])) as [E|E]; [done|].
    destruct (email v !! ToLower (Email u)); [done|]. cbn.
    rewrite lookup_insert_ne; [done|]. by apply Hc.
  - unfold Del. case_decide; [done|]. destruct (email v !! ToLower e') as [u|]; [|done]. cbn.
    destruct (decide (ToLower e' = ToLower e)) as [-> |Hne]; [by rewrite lookup_delete_eq|by rewrite lookup_delete_ne].
Qed.

Lemma run_calls_unregistered e cs v :
  (∀ u, CallAdd u ∈ cs → Email u ≠ [] → ToLower (Email u) ≠ ToLower e) →
  unregistered e v → unregistered e (run_calls cs v).
Proof.
  revert v. induction cs as [|c cs IH]; intros v Hc Hv; [done|]. apply IH.
  - intros u Hu. apply Hc. by right.
  - apply run_call_unregistered; [|done]. intros u -> . apply Hc. by left.
Qed.

(** Once [Del] has removed a user by email, no later lookup by any
    identifier returns a user of that email, whatever other users are added and
    removed, until one with the same email is added again; and every lookup
    returns a user of exactly the identifier that was asked for. *)
Theorem deleted_user_is_not_found (before after : list call) (e : bytes) (v' : Validator A) (id : bytes)
    (u : MemoryUser A) :
  Del (run_calls before new_validator) e = Some v' →
  (∀ w, CallAdd w ∈ after → Email w ≠ [] → ToLower (Email w) ≠ ToLower e) →
  Get (run_calls after v') id = Some u →
  key (Account u) = id ∧ (Email u = [] ∨ ToLower (Email u) ≠ ToLower e).
Proof.
  intros Hd Ha Hg.
  assert (validator_ok (run_calls after v')) as [Hk He].
  { apply run_calls_ok. by eapply Del_ok, Hd; apply run_calls_ok, new_validator_ok. }
  pose proof (run_calls_unregistered e after v' Ha (Del_unregisters _ _ _ Hd)) as Hu.
  split; [by apply (Hk id)|]. destruct (decide (Email u = [])) as [|Hne]; [by left|right].
  intros E. pose proof (He id u Hg Hne) as Hx. unfold unregistered in Hu. rewrite E in Hx. congruence.
Qed.

End Validator.

(** ** Two accounts with one identifier *)

Definition user_of (name id : bytes) : MemoryUser bytes :=
  {| Account := id; Email := name; Level := 0 |}.

Lemma deleted_user_is_not_found_witness :
  let H := ascii_tables in
  id (A := bytes) [9] = [9] ∧ (lit "bob" = [] ∨ ToLower (lit "bob") ≠ ToLower (lit "Alice")).
Proof.
  apply (@deleted_user_is_not_found ascii_tables bytes id
    [CallAdd (user_of (lit "alice") [7])] [CallAdd (user_of (lit "bob") [9])] (lit "Alice")
    {| email := ∅; users := ∅ |} [9] (user_of (lit "bob") [9])).
  - vm_compute. reflexivity.
  - intros w [= ->]%list_elem_of_singleton _. apply (bool_decide_unpack _). vm_compute. exact I.
  - vm_compute. reflexivity.
Defined.

(** A second account with the identifier of the first replaces it, and removing
    the first then locks out the second, which stays registered. *)
Example shared_identifier_locks_out :
  let H := ascii_tables in
  let v := run_calls id [CallAdd (user_of (lit "alice") [7]); CallAdd (user_of (lit "bob") [7]);
                         CallDel (lit "alice")] new_validator in
  Get v [7] = None ∧ email v !! lit "bob" = Some (user_of (lit "bob") [7]).
Proof. split; vm_compute; reflexivity. Qed.
