(* ===== verification/Vless.v ===== *)
(** The VLESS protocol headers
    (src/upstream/xray-core/proxy/vless/encoding/encoding.go and addons.go, with
    the request header of src/upstream/xray-core/common/protocol/headers.go).
    The protobuf codec of the addons is an argument. *)
From stdpp Require Import gmap.
From S2P Require Import Prelude GoText NetIP Address Transport Frame Uuid Buf AddressParser BufAppend Validator.

Definition XRV : bytes := lit "xtls-rprx-vision".

(** The key of the user table is the account's identifier. *)
Record vless_account := { ID : bytes; account_Flow : bytes; Encryption : bytes }.

Definition RequestCommandTCP : Z := 0x01.
Definition RequestCommandUDP : Z := 0x02.
Definition RequestCommandMux : Z := 0x03.

Record RequestHeader := {
  req_Version : Z;
  Command : Z;
  req_Option : Z;
  Security : Z;
  Port : Z;
  req_Address : option Address;
  User : option (MemoryUser vless_account)
}.

Definition req_Destination (h : RequestHeader) : Destination :=
  if decide (Command h = RequestCommandUDP) then UDPDestination (req_Address h) (Port h)
  else TCPDestination (req_Address h) (Port h).

Record Addons := { Flow : bytes; Seed : bytes }.

Definition no_addons : Addons := {| Flow := []; Seed := [] |}.

(** [proto.Marshal] and [proto.Unmarshal] on [Addons]. *)
Class AddonsCodec := {
  Marshal : Addons → option bytes;
  Unmarshal : bytes → option Addons
}.

(** The codec is inverted by its decoder, and the empty text is the message
    whose fields have their default values. *)
Class AddonsLaws `{AddonsCodec} : Prop := {
  Unmarshal_Marshal : ∀ a bs, Marshal a = Some bs → Unmarshal bs = Some a;
  Unmarshal_nil : Unmarshal [] = Some no_addons
}.

(** [buf.StackNew] with an array of the pool. *)
Definition StackNew (array : bytes) : Buffer := Buffer_New array.

Definition vless_parser : addressParser := parser_of vless_options.

Section Encoding.
Context `{AddonsCodec} (array : bytes).

Definition EncodeHeaderAddons (b : Buffer) (addons : Addons) : outcome Buffer :=
  if decide (Flow addons = XRV) then
    match Marshal addons with
    | None => Fail
    | Some bs => outcome_bind (try_byte b (u8 (Z.of_nat (length bs)))) (λ b, write_all b bs)
    end
  else try_byte b 0.

Definition DecodeHeaderAddons (b : Buffer) (reader : stream) : outcome (Addons * (Buffer * stream)) :=
  outcome_bind (read_full (Clear b) reader 1) (λ '(b, reader),
  ret_or_panic (Byte b 0) (λ length,
  if decide (length ≠ 0) then
    outcome_bind (read_full (Clear b) reader length) (λ '(b, reader),
    ret_or_panic (Bytes b) (λ bs,
    match Unmarshal bs with None => Fail | Some addons => Ret (addons, (b, reader)) end))
  else Ret (no_addons, (b, reader)))).

(** The bytes of the single [Write] to the connection. *)
Definition EncodeRequestHeader (request : RequestHeader) (requestAddons : Addons) : outcome bytes :=
  outcome_bind (try_byte (StackNew array) (req_Version request)) (λ b,
  ret_or_panic (User request) (λ user,
  outcome_bind (write_all b (ID (Account user))) (λ b,
  outcome_bind (EncodeHeaderAddons b requestAddons) (λ b,
  outcome_bind (try_byte b (Command request)) (λ b,
  outcome_bind (if decide (Command request ≠ RequestCommandMux)
                then write_address vless_parser b (req_Address request) (Port request) else Ret b) (λ b,
  ret_or_panic (Bytes b) Ret)))))).

(** The result of decoding: a request with its addons and the stream behind it,
    or an error with the flag that permits the fallback. *)
Inductive decoded :=
| Rejected (fallback : bool)
| Decoded (request : RequestHeader) (addons : Addons) (rest : stream).

Definition or_reject {A} (o : outcome A) (k : A → outcome decoded) : outcome decoded :=
  match o with Ret a => k a | Fail => Ret (Rejected false) | Panic => Panic end.

Definition mux_address : Address := DomainAddress (lit "v1.mux.cool").

(** The part behind the identifier: addons, command and address. *)
Definition decode_rest (user : MemoryUser vless_account) (b : Buffer) (reader : stream) : outcome decoded :=
  or_reject (DecodeHeaderAddons b reader) (λ '(addons, (b, reader)),
  or_reject (read_full (Clear b) reader 1) (λ '(b, reader),
  ret_or_panic (Byte b 0) (λ command,
  let request a port :=
    {| req_Version := 0; Command := command; req_Option := 0; Security := 0; Port := port; req_Address := a;
       User := Some user |} in
  let accept a port reader :=
    match a with None => Ret (Rejected false) | Some _ => Ret (Decoded (request a port) addons reader) end in
  if decide (command = RequestCommandMux) then accept (Some mux_address) 0 reader
  else if decide (command = RequestCommandTCP ∨ command = RequestCommandUDP) then
    match ReadAddressPort vless_parser b reader with
    | Ret (a, port, reader) => accept a port reader
    | Fail => Ret (Rejected false)
    | Panic => Panic
    end
  else Ret (Rejected false)))).

(** With [isfb] the version and the identifier come from [first], which the
    reader serves as well: what it delivers depends on the state of that
    buffer. *)
Definition DecodeRequestHeader (isfb : bool) (first : Buffer) (reader : Buffer → stream)
    (validator : Validator vless_account) : outcome decoded :=
  if isfb then
    ret_or_panic (Byte first 0) (λ version,
    if decide (version = 0) then
      ret_or_panic (BytesRange first 1 17) (λ id,
      match Get validator id with
      | None => Ret (Rejected true)
      | Some user => decode_rest user (StackNew array) (reader (Advance first 17))
      end)
    else Ret (Rejected true))
  else
    or_reject (read_full (StackNew array) (reader first) 1) (λ '(b, s),
    ret_or_panic (Byte b 0) (λ version,
    if decide (version = 0) then
      or_reject (read_full (Clear b) s 16) (λ '(b, s),
      ret_or_panic (Bytes b) (λ id,
      match Get validator id with
      | None => Ret (Rejected false)
      | Some user => decode_rest user b s
      end))
    else Ret (Rejected false))).

Definition EncodeResponseHeader (request : RequestHeader) (responseAddons : Addons) : outcome bytes :=
  outcome_bind (try_byte (StackNew array) (req_Version request)) (λ b,
  outcome_bind (EncodeHeaderAddons b responseAddons) (λ b,
  ret_or_panic (Bytes b) Ret)).

Definition DecodeResponseHeader (reader : stream) (request : RequestHeader) : outcome (Addons * stream) :=
  outcome_bind (read_full (StackNew array) reader 1) (λ '(b, reader),
  ret_or_panic (Byte b 0) (λ version,
  if decide (version ≠ req_Version request) then Fail
  else outcome_bind (DecodeHeaderAddons b reader) (λ '(addons, (b, reader)), Ret (addons, reader)))).

End Encoding.

(** ** Addons *)

Section Headers.
Context `{AddonsLaws} (array : bytes) (Harray : length array = Size).

Definition addons_bytes (a : Addons) : bytes :=
  if decide (Flow a = XRV)
  then match Marshal a with Some m => Z.of_nat (length m) :: m | None => [] end
  else [0].

(** Addons with a flow have an encoding whose length fits its byte. *)
Definition addons_ok (a : Addons) : Prop :=
  Flow a = XRV → ∃ m, Marshal a = Some m ∧ (length m ≤ 255)%nat.

(** Addons without the flow are not transmitted. *)
Definition received_addons (a : Addons) : Addons := if decide (Flow a = XRV) then a else no_addons.

Lemma length_addons_bytes a : addons_ok a → (1 ≤ length (addons_bytes a) ≤ 256)%nat.
Proof.
  intros Ha. unfold addons_bytes. case_decide as E; [|cbn; lia].
  destruct (Ha E) as (m & -> & Hm). cbn. lia.
Qed.

Lemma EncodeHeaderAddons_spec b a : addons_ok a → wf b → (256 ≤ room b)%nat →
  ∃ b', EncodeHeaderAddons b a = Ret b' ∧ appended b (addons_bytes a) b'.
Proof.
  intros Ha Hb Hr. unfold EncodeHeaderAddons, addons_bytes. case_decide as E.
  - destruct (Ha E) as (m & -> & Hm). rewrite wrap_small by (unfold is_uint; lia).
    destruct (try_byte_spec b (Z.of_nat (length m)) Hb) as (b1 & -> & A1); [lia|]. cbn [outcome_bind].
    pose proof (app_room _ _ _ A1) as R1. cbn [length] in R1.
    destruct (write_all_spec b1 m (app_wf _ _ _ A1)) as (b2 & -> & A2); [lia|].
    exists b2. split; [done|]. by apply (appended_trans _ [_] b1).
  - apply try_byte_spec; [done|lia].
Qed.

Lemma DecodeHeaderAddons_spec b a s rest :
  addons_ok a → wf b → (256 ≤ room b)%nat → contents s = addons_bytes a ++ rest →
  ∃ b' s', DecodeHeaderAddons b s = Ret (received_addons a, (b', s')) ∧ contents s' = rest ∧
           final s' = final s ∧ wf b' ∧ (room b - 256 ≤ room b')%nat.
Proof.
  intros Ha Hb Hr Hs. unfold DecodeHeaderAddons.
  assert (∃ l m, addons_bytes a = [l] ++ m) as (l & m & Elm).
  { pose proof (length_addons_bytes a Ha). destruct (addons_bytes a) as [|l m]; cbn in *; [lia|by exists l, m]. }
  pose proof Hs as Hs'. rewrite Elm, <- app_assoc in Hs'.
  destruct (read_cleared b s [l] _ 1 Hb Hs') as (b1 & s1 & -> & C1 & F1 & W1 & D1 & R1); [done|cbn [length]; lia|].
  cbn [outcome_bind]. rewrite (Byte_first b1 l [] W1 D1). cbn [ret_or_panic length] in *.
  unfold addons_bytes in Elm. unfold received_addons. destruct (decide (Flow a = XRV)) as [E|E].
  - destruct (Ha E) as (m' & Em & Hm). rewrite Em in Elm. injection Elm as Hlm Hmm. subst m'.
    assert (m ≠ []) as Hne.
    { intros ->. apply Unmarshal_Marshal in Em. rewrite Unmarshal_nil in Em. injection Em as <-. done. }
    assert (0 < length m)%nat by (destruct m; [done|cbn; lia]).
    rewrite decide_True by lia.
    destruct (read_cleared b1 s1 m rest l W1 C1) as (b2 & s2 & -> & C2 & F2 & W2 & D2 & R2); [lia|lia|].
    cbn [outcome_bind]. rewrite Bytes_content by done. cbn [ret_or_panic]. rewrite D2.
    rewrite (Unmarshal_Marshal a m Em). exists b2, s2. split_all; (done || congruence || lia).
  - injection Elm as <- <-. rewrite decide_False by (intros ?; done).
    exists b1, s1. split_all; (done || congruence || lia).
Qed.

(** ** Request headers *)

(** A request a client can send: a known command and, unless the connection is
    multiplexed, an address of the wire form. *)
Record request_ok (r : RequestHeader) (user : MemoryUser vless_account) : Prop := {
  ok_version : req_Version r = 0;
  ok_user : User r = Some user;
  ok_id : length (ID (Account user)) = 16%nat;
  ok_command : Command r = RequestCommandTCP ∨ Command r = RequestCommandUDP ∨ Command r = RequestCommandMux;
  ok_address : Command r ≠ RequestCommandMux → endpoint_wire (req_Destination r)
}.

Definition target_bytes (r : RequestHeader) : bytes :=
  if decide (Command r ≠ RequestCommandMux) then address_bytes vless_parser (req_Destination r) else [].

Definition request_bytes (r : RequestHeader) (id : bytes) (a : Addons) : bytes :=
  [req_Version r] ++ id ++ addons_bytes a ++ [Command r] ++ target_bytes r.

(** What the server learns of a request. *)
Definition received_request (r : RequestHeader) (user : MemoryUser vless_account) : RequestHeader :=
  {| req_Version := 0; Command := Command r; req_Option := 0; Security := 0;
     Port := if decide (Command r = RequestCommandMux) then 0 else Port r;
     req_Address := if decide (Command r = RequestCommandMux) then Some mux_address else req_Address r;
     User := Some user |}.

Lemma dest_parts r : dest_Address (req_Destination r) = req_Address r ∧ dest_Port (req_Destination r) = Port r.
Proof. unfold req_Destination. by case_decide. Qed.

Lemma StackNew_wf : wf (StackNew array) ∧ content (StackNew array) = [] ∧ Z.of_nat (room (StackNew array)) = 8192.
Proof using Harray.
  destruct (wf_New array Harray) as (H1 & H2 & H3). split; [done|]. split; [done|].
  unfold StackNew. rewrite H3. reflexivity.
Qed.

Lemma EncodeRequestHeader_spec r user a : request_ok r user → addons_ok a →
  EncodeRequestHeader array r a = Ret (request_bytes r (ID (Account user)) a).
Proof using Harray.
  intros [Hv Hu Hid Hc Ha] Hadd. destruct StackNew_wf as (W0 & C0 & R0).
  pose proof (length_addons_bytes a Hadd) as Hla. unfold EncodeRequestHeader.
  destruct (try_byte_spec _ (req_Version r) W0) as (b1 & -> & A1); [lia|]. cbn [outcome_bind].
  pose proof (app_room _ _ _ A1) as R1. cbn [length] in R1. rewrite Hu. cbn [ret_or_panic].
  destruct (write_all_spec b1 (ID (Account user)) (app_wf _ _ _ A1)) as (b2 & -> & A2); [lia|]. cbn [outcome_bind].
  pose proof (app_room _ _ _ A2) as R2.
  destruct (EncodeHeaderAddons_spec b2 a Hadd (app_wf _ _ _ A2)) as (b3 & -> & A3); [lia|]. cbn [outcome_bind].
  pose proof (app_room _ _ _ A3) as R3.
  destruct (try_byte_spec b3 (Command r) (app_wf _ _ _ A3)) as (b4 & -> & A4); [lia|]. cbn [outcome_bind].
  pose proof (app_room _ _ _ A4) as R4. cbn [length] in R4.
  assert (∃ b5, (if decide (Command r ≠ RequestCommandMux)
                 then write_address vless_parser b4 (req_Address r) (Port r) else Ret b4) = Ret b5 ∧
                appended b4 (target_bytes r) b5) as (b5 & -> & A5).
  { unfold target_bytes. destruct (decide (Command r ≠ RequestCommandMux)) as [E|E].
    - destruct (dest_parts r) as [<- <-]. destruct (address_bytes_spec _ vless_parser_ok _ (Ha E)) as (_ & _ & _ & _ & Hl).
      fold vless_parser in Hl.
      apply (write_address_spec vless_parser vless_parser_ok); [by apply Ha|apply A4|lia].
    - exists b4. split; [done|]. destruct A4. split; [done|by rewrite app_nil_r|cbn; lia|done|done]. }
  cbn [outcome_bind]. rewrite Bytes_content by apply A5. cbn [ret_or_panic].
  pose proof (appended_trans _ _ _ _ _ A1 (appended_trans _ _ _ _ _ A2 (appended_trans _ _ _ _ _ A3
    (appended_trans _ _ _ _ _ A4 A5)))) as A. by rewrite (app_content _ _ _ A), C0.
Qed.

Lemma decode_rest_spec r user user' a b s rest :
  request_ok r user → addons_ok a → wf b → (700 ≤ room b)%nat →
  contents s = (addons_bytes a ++ [Command r] ++ target_bytes r) ++ rest →
  ∃ s', decode_rest user' b s = Ret (Decoded (received_request r user') (received_addons a) s') ∧
        contents s' = rest ∧ final s' = final s.
Proof.
  intros [Hv Hu Hid Hc Ha] Hadd Hb Hr Hs. rewrite <- !app_assoc in Hs. unfold decode_rest.
  destruct (DecodeHeaderAddons_spec b a s _ Hadd Hb ltac:(lia) Hs) as (b1 & s1 & -> & C1 & F1 & W1 & R1).
  cbn [or_reject].
  destruct (read_cleared b1 s1 [Command r] _ 1 W1 C1) as (b2 & s2 & -> & C2 & F2 & W2 & D2 & R2);
    [done|cbn [length]; lia|]. cbn [or_reject]. rewrite (Byte_first b2 _ [] W2 D2). cbn [ret_or_panic length] in *.
  cbv zeta. unfold received_request. unfold target_bytes in C2.
  destruct (decide (Command r = RequestCommandMux)) as [E|E].
  - rewrite decide_False in C2 by (by intros []). exists s2. split_all; [done|done|congruence].
  - rewrite decide_True in C2 by done. rewrite decide_True by tauto.
    destruct (read_endpoint vless_parser vless_parser_ok b2 _ s2 rest (Ha E) W2 ltac:(lia) C2)
      as (s3 & -> & C3 & F3). destruct (dest_parts r) as [-> ->].
    destruct (Ha E) as (x & Hx & _). destruct (dest_parts r) as [Hda _]. rewrite Hda in Hx. rewrite Hx.
    exists s3. split_all; [done|done|congruence].
Qed.

(** What the decoder is given: with [isfb] a buffer that holds at least the
    version and the identifier and a reader that serves that buffer before the
    connection, otherwise the reader alone. *)
Definition serves (isfb : bool) (first : Buffer) (reader : Buffer → stream) (input : bytes) : Prop :=
  if isfb then
    wf first ∧ (17 ≤ length (content first))%nat ∧
    ∃ net, (∀ b, contents (reader b) = content b ++ net) ∧ input = content first ++ net
  else contents (reader first) = input.

Lemma split_content (q net x y : bytes) : q ++ net = x ++ y → (length x ≤ length q)%nat →
  ∃ z, q = x ++ z ∧ y = z ++ net.
Proof.
  intros E Hl. exists (drop (length x) q).
  assert (take (length x) q = x) as Ht.
  { pose proof (f_equal (take (length x)) E) as H1. rewrite take_app_length in H1.
    rewrite take_app_le in H1 by done. done. }
  split; [by rewrite <- Ht at 1; rewrite take_drop|].
  rewrite <- (take_drop (length x) q) in E. rewrite Ht, <- app_assoc in E. by apply app_inv_head in E.
Qed.

(** The head of the buffer that the fallback path reads. *)
Lemma first_head first version id z : wf first → content first = ([version] ++ id) ++ z → length id = 16%nat →
  Byte first 0 = Some version ∧ BytesRange first 1 17 = Some id ∧ content (Advance first 17) = z.
Proof.
  intros Hw Hf Hid. split_all.
  - by apply (Byte_first first version (id ++ z)).
  - change 1 with (Z.of_nat 1). change 17 with (Z.of_nat 17).
    rewrite BytesRange_content by (done || rewrite ?Hf, ?length_app; cbn; lia).
    rewrite Hf. cbn [app drop Nat.sub]. f_equal. by apply take_app_length'.
  - change 17 with (Z.of_nat 17). destruct (run_Advance first 17 Hw) as [_ ->]; [done|].
    rewrite Hf. apply drop_app_length'. rewrite length_app. cbn. lia.
Qed.

(** C33. [DecodeRequestHeader] inverts [EncodeRequestHeader]: for every request a
    client can send, the encoded header is read back, from any chunking of the
    connection and with or without a first buffer for the fallback, as the same
    command, address, port and addons, under the user the server knows for the
    identifier, and nothing behind the header is consumed.  A multiplexed
    connection is given the reserved address. *)
Theorem DecodeRequestHeader_EncodeRequestHeader (r : RequestHeader) (user user' : MemoryUser vless_account)
    (a : Addons) (validator : Validator vless_account) :
  request_ok r user → addons_ok a → Get validator (ID (Account user)) = Some user' →
  ∃ w, EncodeRequestHeader array r a = Ret w ∧
    ∀ isfb first reader rest, serves isfb first reader (w ++ rest) →
      ∃ s', DecodeRequestHeader array isfb first reader validator =
              Ret (Decoded (received_request r user') (received_addons a) s') ∧
            contents s' = rest.
Proof using All.
  intros Hr Ha Hg. exists (request_bytes r (ID (Account user)) a).
  split; [by apply EncodeRequestHeader_spec|]. intros isfb first reader rest Hs.
  pose proof Hr as [Hv _ Hid _ _]. unfold request_bytes in Hs. rewrite Hv in Hs.
  destruct StackNew_wf as (W0 & C0 & R0). unfold DecodeRequestHeader. destruct isfb.
  - destruct Hs as (Hw & Hl & net & Hread & Hin). rewrite (app_assoc [0]), <- app_assoc in Hin. symmetry in Hin.
    apply split_content in Hin as (z & Hf & Hz); [|rewrite length_app; cbn; lia].
    destruct (first_head first 0 _ z Hw Hf Hid) as (-> & -> & HA). cbn [ret_or_panic].
    rewrite decide_True by done. rewrite Hg.
    destruct (decode_rest_spec r user user' a (StackNew array) (reader (Advance first 17)) rest) as (s' & -> & Hc & _);
      try done; [lia|by rewrite Hread, HA, <- Hz|by exists s'].
  - rewrite <- app_assoc in Hs.
    destruct (read_full_spec _ _ [0] _ 1 W0 Hs) as (b1 & s1 & -> & C1 & F1 & W1 & D1 & R1); [done|cbn [length]; lia|].
    cbn [or_reject]. rewrite C0 in D1. rewrite (Byte_first b1 0 [] W1 D1). cbn [ret_or_panic length] in *.
    rewrite decide_True by done. rewrite <- app_assoc in C1.
    destruct (read_cleared b1 s1 (ID (Account user)) _ 16 W1 C1) as (b2 & s2 & -> & C2 & F2 & W2 & D2 & R2);
      [by rewrite Hid|lia|]. cbn [or_reject]. rewrite Bytes_content by done. cbn [ret_or_panic]. rewrite D2, Hg.
    destruct (decode_rest_spec r user user' a b2 s2 rest) as (s' & -> & Hc & _); try done; [lia|by exists s'].
Qed.

(** ** Authentication *)

Lemma read_full_inv b s n b' s' : wf b → Z.of_nat n < 2 ^ 30 →
  read_full b s (Z.of_nat n) = Ret (b', s') →
  ∃ x, length x = n ∧ contents s = x ++ contents s' ∧ wf b' ∧ content b' = content b ++ x.
Proof.
  intros Hb Hn E. pose proof Hb as [H1 H2 H3]. unfold read_full, ReadFullFrom in E.
  rewrite i32_small in E by lia. cbv zeta in E. case_decide as Hlt; [done|].
  rewrite array_slice_wf in E by (done || lia). cbn [mbind option_bind] in E.
  rewrite length_take, length_drop in E. replace (Nat.min _ _) with n in E by lia.
  destruct (ReadFull s n) as [[x s1]|] eqn:Er; [|done]. apply ReadFull_Ok in Er as (Hl & Hc & _).
  apply Ret_inj in E. injection E as <- <-. exists x. split; [done|]. split; [done|].
  rewrite i32_small by lia. destruct (append_spec b x Hb) as (Hw & Hcon & _); [unfold room; lia|].
  by split.
Qed.

Lemma decode_rest_inv user b s h a s' :
  decode_rest user b s = Ret (Decoded h a s') →
  User h = Some user ∧ req_Version h = 0 ∧ is_Some (req_Address h) ∧
  (Command h = RequestCommandTCP ∨ Command h = RequestCommandUDP ∨ Command h = RequestCommandMux).
Proof.
  unfold decode_rest. intros E. destruct (DecodeHeaderAddons b s) as [[ad [b1 s1]]| |]; try done. cbn [or_reject] in E.
  destruct (read_full (Clear b1) s1 1) as [[b2 s2]| |]; try done. cbn [or_reject] in E.
  destruct (Byte b2 0) as [c|]; [|done]. cbn [ret_or_panic] in E. cbv zeta in E.
  case_decide as Ec; [apply Ret_inj in E; injection E as <- <- <-; cbn; split_all; [done|done|by eexists|tauto]|].
  case_decide as Et; [|done]. destruct (ReadAddressPort vless_parser b2 s2) as [[[[x|] port] s3]| |]; try done.
  apply Ret_inj in E. injection E as <- <- <-. cbn. split_all; [done|done|by eexists|tauto].
Qed.

(** A request is accepted only under a known identifier: whatever the
    connection delivers, when [DecodeRequestHeader] returns a request, the input
    starts with version 0 and an identifier for which the user table has exactly
    the user of the returned request, the command is one of the three of the
    protocol and there is an address. *)
Theorem DecodeRequestHeader_authenticated (isfb : bool) (first : Buffer) (reader : Buffer → stream)
    (input : bytes) (validator : Validator vless_account) (h : RequestHeader) (a : Addons) (s : stream) :
  serves isfb first reader input →
  DecodeRequestHeader array isfb first reader validator = Ret (Decoded h a s) →
  ∃ id rest user, input = [0] ++ id ++ rest ∧ length id = 16%nat ∧ Get validator id = Some user ∧
    User h = Some user ∧ req_Version h = 0 ∧ is_Some (req_Address h) ∧
    (Command h = RequestCommandTCP ∨ Command h = RequestCommandUDP ∨ Command h = RequestCommandMux).
Proof using Harray.
  intros Hs E. unfold DecodeRequestHeader in E. destruct StackNew_wf as (W0 & C0 & _). destruct isfb.
  - destruct Hs as (Hw & Hl & net & _ & ->).
    destruct (content first) as [|v q] eqn:Eq; [cbn in Hl; lia|]. cbn [length] in Hl.
    assert (content first = ([v] ++ take 16 q) ++ drop 16 q) as Hf by (by rewrite <- app_assoc, take_drop).
    assert (length (take 16 q) = 16%nat) as Hid by (rewrite length_take; lia).
    destruct (first_head first v _ _ Hw Hf Hid) as (E1 & E2 & _). rewrite E1 in E. cbn [ret_or_panic] in E.
    case_decide as Hv; [|done]. subst v. rewrite E2 in E. cbn [ret_or_panic] in E.
    destruct (Get validator (take 16 q)) as [user|] eqn:Eg; [|done].
    exists (take 16 q), (drop 16 q ++ net), user. apply decode_rest_inv in E.
    split; [by rewrite (app_assoc (take 16 q)), take_drop|]. done.
  - unfold serves in Hs. subst input.
    destruct (read_full (StackNew array) (reader first) 1) as [[b1 s1]| |] eqn:E1; try done. cbn [or_reject] in E.
    apply (read_full_inv _ _ 1) in E1 as ([|v []] & Hl1 & Hc1 & W1 & D1); try done.
    rewrite C0 in D1. rewrite (Byte_first b1 v [] W1 D1) in E. cbn [ret_or_panic] in E.
    case_decide as Hv; [|done]. subst v.
    destruct (read_full (Clear b1) s1 16) as [[b2 s2]| |] eqn:E2; try done. cbn [or_reject] in E.
    destruct (Clear_spec b1 W1) as [W1' C1'].
    apply (read_full_inv _ _ 16) in E2 as (id & Hl2 & Hc2 & W2 & D2); try done.
    rewrite Bytes_content in E by done. cbn [ret_or_panic] in E. rewrite D2, C1' in E. cbn [app] in E.
    destruct (Get validator id) as [user|] eqn:Eg; [|done].
    exists id, (contents s2), user. apply decode_rest_inv in E. split; [by rewrite Hc1, Hc2|]. done.
Qed.

(** ** Response headers *)

(** [DecodeResponseHeader] inverts [EncodeResponseHeader]: the client reads
    the addons of the response back and nothing behind the header, for every
    version its request carried. *)
Theorem DecodeResponseHeader_EncodeResponseHeader (r : RequestHeader) (a : Addons) :
  addons_ok a →
  ∃ w, EncodeResponseHeader array r a = Ret w ∧
    ∀ s rest, contents s = w ++ rest →
      ∃ s', DecodeResponseHeader array s r = Ret (received_addons a, s') ∧ contents s' = rest.
Proof using All.
  intros Ha. destruct StackNew_wf as (W0 & C0 & R0). exists ([req_Version r] ++ addons_bytes a). split.
  - unfold EncodeResponseHeader.
    destruct (try_byte_spec _ (req_Version r) W0) as (b1 & -> & A1); [lia|]. cbn [outcome_bind].
    pose proof (app_room _ _ _ A1) as R1. cbn [length] in R1.
    destruct (EncodeHeaderAddons_spec b1 a Ha (app_wf _ _ _ A1)) as (b2 & -> & A2); [lia|]. cbn [outcome_bind].
    rewrite Bytes_content by apply A2. cbn [ret_or_panic].
    by rewrite (app_content _ _ _ (appended_trans _ _ _ _ _ A1 A2)), C0.
  - intros s rest Hs. rewrite <- app_assoc in Hs. unfold DecodeResponseHeader.
    destruct (read_full_spec _ _ [_] _ 1 W0 Hs) as (b1 & s1 & -> & C1 & F1 & W1 & D1 & R1);
      [done|cbn [length]; lia|]. cbn [outcome_bind]. rewrite C0 in D1.
    rewrite (Byte_first b1 _ [] W1 D1). cbn [ret_or_panic length] in *.
    destruct (decide (req_Version r ≠ req_Version r)) as [[]|_]; [done|].
    destruct (DecodeHeaderAddons_spec b1 a s1 rest Ha W1) as (b2 & s2 & -> & C2 & _); [lia|done|].
    by exists s2.
Qed.

End Headers.

(** ** A codec for small addons *)

(** The protobuf encoding of the two fields, for lengths of one byte. *)
Definition write_field (tag : Z) (d : bytes) : bytes :=
  match d with [] => [] | _ => [tag; Z.of_nat (length d)] ++ d end.

Definition read_field (tag : Z) (bs : bytes) : bytes * bytes :=
  match bs with
  | t :: l :: rest => if decide (t = tag) then (take (Z.to_nat l) rest, drop (Z.to_nat l) rest) else ([], bs)
  | _ => ([], bs)
  end.

Definition small_codec : AddonsCodec := {|
  Marshal a :=
    if decide (length (Flow a) < 128 ∧ length (Seed a) < 128)%nat
    then Some (write_field 10 (Flow a) ++ write_field 18 (Seed a)) else None;
  Unmarshal bs :=
    let '(flow, bs) := read_field 10 bs in
    let '(seed, bs) := read_field 18 bs in
    if decide (bs = []) then Some {| Flow := flow; Seed := seed |} else None
|}.

Lemma read_write_field tag d rest : (∀ t r, rest = t :: r → t ≠ tag) →
  read_field tag (write_field tag d ++ rest) = (d, rest).
Proof.
  intros Hr. destruct d as [|c q] eqn:E.
  - cbn [write_field app]. unfold read_field. destruct rest as [|t [|l r]]; [done|done|].
    rewrite decide_False; [done|]. by apply (Hr t (l :: r)).
  - rewrite <- E. unfold write_field. replace (match d with [] => [] | _ => [tag; Z.of_nat (length d)] ++ d end)
      with ([tag; Z.of_nat (length d)] ++ d) by (by rewrite E).
    cbn [app read_field]. rewrite decide_True by done. rewrite Nat2Z.id.
    by rewrite take_app_length, drop_app_length.
Qed.

#[local] Instance small_laws : @AddonsLaws small_codec.
Proof.
  split; [|done]. intros a bs Hm. cbn in Hm. case_decide; [|done]. injection Hm as <-. cbn.
  rewrite read_write_field.
  - rewrite <- (app_nil_r (write_field 18 (Seed a))), read_write_field by done. rewrite decide_True by done.
    by destruct a.
  - intros t r Ht. destruct (Seed a); [done|]. by injection Ht as <- _.
Qed.

(** ** Concrete headers *)

Definition sample_user : MemoryUser vless_account :=
  {| Account := {| ID := be_bytes 16 0x1234; account_Flow := XRV; Encryption := lit "none" |};
     Email := lit "a@b"; Level := 0 |}.

Definition sample_validator : Validator vless_account :=
  {| email := ∅; users := {[ be_bytes 16 0x1234 := sample_user ]} |}.

Definition sample_request : RequestHeader :=
  {| req_Version := 0; Command := RequestCommandTCP; req_Option := 0; Security := 0; Port := 443;
     req_Address := Some (DomainAddress (lit "a.org")); User := Some sample_user |}.

Definition sample_addons : Addons := {| Flow := XRV; Seed := [] |}.

Lemma sample_request_ok : request_ok sample_request sample_user.
Proof.
  split; [done|done|done|by left|]. intros _. exists (DomainAddress (lit "a.org")). split; [done|].
  split; [|by apply (bool_decide_unpack _)].
  split; [done|]. split; [cbn; lia|]. split; [by apply (bool_decide_unpack _)|by vm_compute].
Qed.

Lemma sample_addons_ok : @addons_ok small_codec sample_addons.
Proof. intros _. eexists. split; [reflexivity|]. cbn. lia. Qed.

Lemma DecodeRequestHeader_EncodeRequestHeader_witness :
  ∃ w, @EncodeRequestHeader small_codec pool_array sample_request sample_addons = Ret w ∧
    ∀ isfb first reader rest, serves isfb first reader (w ++ rest) →
      ∃ s', @DecodeRequestHeader small_codec pool_array isfb first reader sample_validator =
              Ret (Decoded (received_request sample_request sample_user) (received_addons sample_addons) s') ∧
            contents s' = rest.
Proof.
  apply (@DecodeRequestHeader_EncodeRequestHeader small_codec small_laws pool_array pool_array_length
    sample_request sample_user sample_user sample_addons sample_validator).
  - apply sample_request_ok.
  - apply sample_addons_ok.
  - vm_compute. reflexivity.
Defined.

(** A request without addons, as it arrives. *)
Definition sample_input : bytes :=
  [0] ++ be_bytes 16 0x1234 ++ [0; 1; 1; 187; 1; 192; 0; 2; 1; 99].

Definition sample_arrival : stream := {| chunks := [sample_input]; final := ErrEOF |}.

Definition sample_decoded : RequestHeader :=
  {| req_Version := 0; Command := 1; req_Option := 0; Security := 0; Port := 443;
     req_Address := Some (ipv4Address [192; 0; 2; 1]); User := Some sample_user |}.

Lemma DecodeRequestHeader_authenticated_witness :
  ∃ id rest user, sample_input = [0] ++ id ++ rest ∧ length id = 16%nat ∧
    Get sample_validator id = Some user ∧ User sample_decoded = Some user ∧ req_Version sample_decoded = 0 ∧
    is_Some (req_Address sample_decoded) ∧
    (Command sample_decoded = RequestCommandTCP ∨ Command sample_decoded = RequestCommandUDP ∨
     Command sample_decoded = RequestCommandMux).
Proof.
  apply (@DecodeRequestHeader_authenticated small_codec pool_array pool_array_length false fresh
    (λ _, sample_arrival) sample_input sample_validator sample_decoded no_addons
    {| chunks := [[99]]; final := ErrEOF |}); vm_compute; reflexivity.
Defined.

Lemma DecodeResponseHeader_EncodeResponseHeader_witness :
  ∃ w, @EncodeResponseHeader small_codec pool_array sample_request sample_addons = Ret w ∧
    ∀ s rest, contents s = w ++ rest →
      ∃ s', @DecodeResponseHeader small_codec pool_array s sample_request = Ret (received_addons sample_addons, s') ∧
            contents s' = rest.
Proof.
  apply (@DecodeResponseHeader_EncodeResponseHeader small_codec small_laws pool_array pool_array_length
    sample_request sample_addons). apply sample_addons_ok.
Defined.
