(* ===== verification/VlessPackets.v ===== *)
(** Packets in a VLESS connection, each behind its length
    (src/upstream/xray-core/proxy/vless/encoding/addons.go). *)
From S2P Require Import Prelude GoText NetIP Address Transport Frame Uuid Buf AddressParser BufAppend MultiBuffer.

(** The contents of the buffers, one after the other. *)
Fixpoint gather (mb : list Buffer) : outcome bytes :=
  match mb with
  | [] => Ret []
  | b :: mb => ret_or_panic (Bytes b) (λ x, outcome_bind (gather mb) (λ y, Ret (x ++ y)))
  end.

Section Packets.
Context (array : bytes).

(** [MultiLengthPacketWriter.WriteMultiBuffer]: the buffers it hands to the
    writer; a packet that is empty or does not fit a buffer is left out. *)
Definition frame_packet (b : Buffer) : outcome (option Buffer) :=
  let length := Len b in
  if decide (length = 0 ∨ Z.of_nat Size < i32 (length + 2)) then Ret None
  else
    match try_byte (Buffer_New array) (u8 (Z.shiftr length 8)) with
    | Fail => Ret None
    | Panic => Panic
    | Ret eb =>
      match try_byte eb (u8 length) with
      | Fail => Ret None
      | Panic => Panic
      | Ret eb => ret_or_panic (Bytes b) (λ d, outcome_bind (write_all eb d) (λ eb, Ret (Some eb)))
      end
    end.

Fixpoint frame_packets (mb : list Buffer) : outcome (list Buffer) :=
  match mb with
  | [] => Ret []
  | b :: mb =>
    outcome_bind (frame_packet b) (λ o,
    outcome_bind (frame_packets mb) (λ mb2, Ret (match o with Some eb => eb :: mb2 | None => mb2 end)))
  end.

(** Nothing is written when no packet is left. *)
Definition MultiLengthPacketWriter_Write (mb : list Buffer) : outcome (option (list Buffer)) :=
  outcome_bind (frame_packets mb) (λ mb2, Ret (if mb_IsEmpty mb2 then None else Some mb2)).

(** [LengthPacketWriter.WriteMultiBuffer]: the bytes of its single [Write]. *)
Definition LengthPacketWriter_Write (mb : list Buffer) : outcome (option bytes) :=
  let length := mb_Len mb in
  if decide (length = 0) then Ret None
  else outcome_bind (gather mb) (λ d, Ret (Some ([u8 (Z.shiftr length 8); u8 length] ++ d))).

(** The loop of [LengthPacketReader.ReadMultiBuffer]; each round reads at least
    one byte, so [length] rounds are enough. *)
Fixpoint read_payload (fuel : nat) (length : Z) (mb : list Buffer) (s : stream)
    : outcome (list Buffer * stream) :=
  if decide (0 < length) then
    match fuel with
    | O => Panic
    | S fuel =>
      let size := if decide (Z.of_nat Size < length) then Z.of_nat Size else length in
      outcome_bind (read_full (Buffer_New array) s size) (λ '(b, s),
      read_payload fuel (length - size) (mb ++ [b]) s)
    end
  else Ret (mb, s).

Definition LengthPacketReader_Read (s : stream) : outcome (list Buffer * stream) :=
  match ReadFull s 2 with
  | Err _ => Fail
  | Ok (cache, s) =>
    ret_or_panic (cache !! 0%nat) (λ c0,
    ret_or_panic (cache !! 1%nat) (λ c1,
    let length := Z.lor (Z.shiftl c0 8) c1 in
    read_payload (Z.to_nat length) length [] s))
  end.

(** ** Round trips *)

Context (Harray : length array = Size).

(** The buffers a packet is read into: well-formed and none of them empty. *)
Definition payload_buffers (mb : list Buffer) : Prop :=
  Forall (λ b, wf b ∧ content b ≠ [] ∧ (length (content b) ≤ Size)%nat) mb.

Lemma New_spec : wf (Buffer_New array) ∧ content (Buffer_New array) = [] ∧ Z.of_nat (room (Buffer_New array)) = 8192.
Proof using Harray.
  destruct (wf_New array Harray) as (H1 & H2 & H3). split; [done|]. split; [done|]. by rewrite H3.
Qed.

Lemma read_payload_spec fuel d mb s rest :
  contents s = d ++ rest → (length d ≤ fuel)%nat → payload_buffers mb →
  ∃ mb' s', read_payload fuel (Z.of_nat (length d)) mb s = Ret (mb', s') ∧ contents s' = rest ∧
    contents_of mb' = contents_of mb ++ d ∧ payload_buffers mb'.
Proof using Harray.
  destruct New_spec as (W & C & R). assert (Z.of_nat Size = 8192) as HS by reflexivity.
  revert d mb s. induction fuel as [|fuel IH]; intros d mb s Hs Hf Hmb; cbn [read_payload].
  - destruct d; [|cbn in Hf; lia]. exists mb, s. by rewrite app_nil_r.
  - case_decide as Hpos.
    + cbv zeta. rewrite HS.
      set (size := if decide (8192 < Z.of_nat (length d)) then 8192 else Z.of_nat (length d)).
      assert (0 < size ≤ 8192 ∧ size ≤ Z.of_nat (length d)) as [Hsz Hle] by (unfold size; case_decide; lia).
      rewrite <- (take_drop (Z.to_nat size) d), <- app_assoc in Hs.
      assert (length (take (Z.to_nat size) d) = Z.to_nat size) as Hlt by (rewrite length_take; lia).
      destruct (read_full_spec _ s _ _ size W Hs) as (b & s1 & -> & C1 & _ & W1 & D1 & _); [lia|lia|].
      cbn [outcome_bind]. rewrite C in D1. cbn [app] in D1.
      destruct (IH (drop (Z.to_nat size) d) (mb ++ [b]) s1 C1) as (mb' & s' & E & Hc & Hd & Hok).
      * rewrite length_drop. lia.
      * apply Forall_app. split; [done|]. constructor; [|done]. rewrite D1. split; [done|].
        split; [intros E; rewrite E in Hlt; cbn in Hlt; lia|lia].
      * rewrite length_drop in E. replace (Z.of_nat (length d - Z.to_nat size)) with (Z.of_nat (length d) - size) in E by lia.
        exists mb', s'. rewrite E. split_all; try done.
        by rewrite Hd, contents_of_app, contents_of_one, D1, <- app_assoc, take_drop.
    + destruct d; [|cbn in Hpos; lia]. exists mb, s. by rewrite app_nil_r.
Qed.

Lemma length_word n : 0 ≤ n < 65536 → Z.lor (Z.shiftl (u8 (Z.shiftr n 8)) 8) (u8 n) = n.
Proof.
  intros Hn. apply Z.bits_inj'. intros i Hi. rewrite Z.lor_spec, Z.shiftl_spec by lia. unfold wrap.
  destruct (decide (i < 8)).
  - rewrite Z.testbit_neg_r by lia. by rewrite Z.mod_pow2_bits_low by lia.
  - rewrite (Z.mod_pow2_bits_high n) by lia. rewrite orb_false_r. destruct (decide (i < 16)).
    + rewrite Z.mod_pow2_bits_low by lia. rewrite Z.shiftr_spec by lia. f_equal. lia.
    + rewrite Z.mod_pow2_bits_high by lia. symmetry.
      rewrite <- (Z.mod_small n (2 ^ 16)) by lia. apply Z.mod_pow2_bits_high. lia.
Qed.

(** A packet behind its two length bytes is read back. *)
Lemma LengthPacketReader_spec d s rest : Z.of_nat (length d) < 65536 →
  contents s = ([u8 (Z.shiftr (Z.of_nat (length d)) 8); u8 (Z.of_nat (length d))] ++ d) ++ rest →
  ∃ mb s', LengthPacketReader_Read s = Ret (mb, s') ∧ contents s' = rest ∧ contents_of mb = d ∧
           payload_buffers mb.
Proof using Harray.
  intros Hd Hs. rewrite <- app_assoc in Hs. unfold LengthPacketReader_Read.
  destruct (ReadFull_enough s _ _ 2 Hs eq_refl) as (s1 & -> & C1 & _). cbn [lookup list_lookup ret_or_panic].
  cbv zeta. rewrite length_word by lia. rewrite Nat2Z.id.
  destruct (read_payload_spec (length d) d [] s1 rest C1) as (mb & s' & E & H); [done|constructor|].
  by exists mb, s'.
Qed.

Lemma gather_spec mb : Forall wf mb → gather mb = Ret (contents_of mb).
Proof.
  induction 1 as [|b mb Hb _ IH]; [done|]. cbn [gather]. rewrite Bytes_content by done. cbn [ret_or_panic].
  by rewrite IH.
Qed.

(** A packet spread over any number of buffers, of less than 64 KiB, is
    written by [LengthPacketWriter] behind its length and read back whole by
    [LengthPacketReader], from any chunking of the connection, in non-empty
    buffers of at most the buffer size; an empty packet writes nothing. *)
Theorem LengthPacket_roundtrip (mb : list Buffer) :
  Forall wf mb → Z.of_nat (length (contents_of mb)) < 65536 →
  match LengthPacketWriter_Write mb with
  | Ret (Some w) =>
    contents_of mb ≠ [] ∧
    ∀ s rest, contents s = w ++ rest →
      ∃ mb' s', LengthPacketReader_Read s = Ret (mb', s') ∧ contents s' = rest ∧
                contents_of mb' = contents_of mb ∧ payload_buffers mb'
  | Ret None => contents_of mb = []
  | _ => False
  end.
Proof using Harray.
  intros Hmb Hl. unfold LengthPacketWriter_Write. rewrite mb_Len_spec by (done || lia). cbv zeta.
  case_decide as E.
  - apply nil_length_inv. lia.
  - rewrite gather_spec by done. cbn [outcome_bind]. split; [by intros E'; rewrite E' in E|].
    intros s rest Hs. by apply LengthPacketReader_spec.
Qed.

(** ** Several packets *)

(** The packets a buffer has space for together with their length. *)
Definition fits (d : bytes) : Prop := d ≠ [] ∧ Z.of_nat (length d) ≤ 8190.

#[global] Instance fits_dec d : Decision (fits d).
Proof. unfold fits. apply _. Defined.

Definition framed (d : bytes) : bytes :=
  [u8 (Z.shiftr (Z.of_nat (length d)) 8); u8 (Z.of_nat (length d))] ++ d.

Lemma frame_packet_spec b : wf b →
  if decide (fits (content b))
  then ∃ eb, frame_packet b = Ret (Some eb) ∧ wf eb ∧ content eb = framed (content b)
  else frame_packet b = Ret None.
Proof using Harray.
  intros Hb. destruct New_spec as (W & C & R). pose proof Hb as [H1 H2 H3]. pose proof (length_content b Hb) as Hl.
  assert (Z.of_nat Size = 8192) as HS by reflexivity. unfold frame_packet, fits. cbv zeta.
  rewrite Len_content by done. rewrite HS, i32_small by lia.
  destruct (decide (content b ≠ [] ∧ _)) as [[Hne Hle]|Hnf].
  - assert (0 < length (content b))%nat by (destruct (content b); [done|cbn; lia]).
    rewrite decide_False by lia.
    destruct (try_byte_spec _ (u8 (Z.shiftr (Z.of_nat (length (content b))) 8)) W) as (e1 & -> & A1); [lia|].
    pose proof (app_room _ _ _ A1) as R1. cbn [length] in R1.
    destruct (try_byte_spec e1 (u8 (Z.of_nat (length (content b)))) (app_wf _ _ _ A1)) as (e2 & -> & A2); [lia|].
    pose proof (app_room _ _ _ A2) as R2. cbn [length] in R2. rewrite Bytes_content by done. cbn [ret_or_panic].
    destruct (write_all_spec e2 (content b) (app_wf _ _ _ A2)) as (e3 & -> & A3); [lia|]. cbn [outcome_bind].
    exists e3. split; [done|]. split; [apply A3|].
    by rewrite (app_content _ _ _ (appended_trans _ _ _ _ _ A1 (appended_trans _ _ _ _ _ A2 A3))), C.
  - rewrite decide_True; [done|]. destruct (decide (content b = [])) as [-> |Hne]; [by left|right].
    assert (¬ Z.of_nat (length (content b)) ≤ 8190) by naive_solver. lia.
Qed.

Lemma frame_packets_spec mb : Forall wf mb →
  ∃ mb2, frame_packets mb = Ret mb2 ∧ Forall wf mb2 ∧
         content <$> mb2 = framed <$> filter fits (content <$> mb).
Proof using Harray.
  induction 1 as [|b mb Hb _ (mb2 & E & Hw & Hc)]; [by exists []|]. cbn [frame_packets fmap list_fmap].
  pose proof (frame_packet_spec b Hb) as Hf. rewrite filter_cons. destruct (decide (fits (content b))).
  - destruct Hf as (eb & -> & Hwe & Hce). cbn [outcome_bind]. rewrite E. cbn [outcome_bind].
    exists (eb :: mb2). split; [done|]. split; [by constructor|]. cbn. by rewrite Hce, Hc.
  - rewrite Hf. cbn [outcome_bind]. rewrite E. by exists mb2.
Qed.

(** [n] packets read one after the other. *)
Fixpoint read_packets (n : nat) (s : stream) : outcome (list (list Buffer) * stream) :=
  match n with
  | O => Ret ([], s)
  | S n =>
    outcome_bind (LengthPacketReader_Read s) (λ '(mb, s),
    outcome_bind (read_packets n s) (λ '(ps, s), Ret (mb :: ps, s)))
  end.

Lemma read_packets_spec ds s rest : Forall fits ds → contents s = mjoin (framed <$> ds) ++ rest →
  ∃ ps s', read_packets (length ds) s = Ret (ps, s') ∧ contents s' = rest ∧ contents_of <$> ps = ds ∧
           Forall payload_buffers ps.
Proof using Harray.
  intros Hd. revert s. induction Hd as [|d ds [_ Hlen] _ IH]; intros s Hs.
  - by exists [], s.
  - cbn [fmap list_fmap length read_packets] in *.
    change (mjoin (framed d :: (framed <$> ds))) with (framed d ++ mjoin (framed <$> ds)) in Hs.
    rewrite <- app_assoc in Hs.
    destruct (LengthPacketReader_spec d s _ ltac:(lia) Hs) as (mb & s1 & -> & C1 & D1 & P1). cbn [outcome_bind].
    destruct (IH s1 C1) as (ps & s' & -> & C2 & D2 & P2). cbn [outcome_bind].
    exists (mb :: ps), s'. split_all; [done|done|cbn; congruence|by constructor].
Qed.

(** [MultiLengthPacketWriter] keeps packets apart: whatever buffers it is
    given, reading its output packet by packet gives back, in order, exactly the
    packets that are not empty and fit a buffer with their length (8190 bytes);
    the others are dropped without an error. *)
Theorem MultiLengthPacket_roundtrip (mb : list Buffer) :
  Forall wf mb →
  let sent := filter fits (content <$> mb) in
  match MultiLengthPacketWriter_Write mb with
  | Ret (Some out) =>
    ∀ s rest, contents s = contents_of out ++ rest →
      ∃ ps s', read_packets (length sent) s = Ret (ps, s') ∧ contents s' = rest ∧
               contents_of <$> ps = sent ∧ Forall payload_buffers ps
  | Ret None => sent = []
  | _ => False
  end.
Proof using Harray.
  intros Hmb sent. unfold MultiLengthPacketWriter_Write.
  destruct (frame_packets_spec mb Hmb) as (mb2 & -> & Hw & Hc). cbn [outcome_bind]. fold sent in Hc.
  destruct (mb_IsEmpty mb2) eqn:E.
  - destruct mb2 as [|b mb2]; [by destruct sent|]. cbn in E. apply andb_prop in E as [Hb _].
    apply Forall_cons in Hw as [Hwb _]. unfold IsEmpty in Hb. rewrite Len_content in Hb by done.
    apply bool_decide_eq_true in Hb. destruct sent as [|d ds]; [done|]. cbn [fmap list_fmap] in Hc.
    injection Hc as Hcb _. rewrite Hcb in Hb. unfold framed in Hb. rewrite length_app in Hb. cbn [length] in Hb. lia.
  - intros s rest Hs. unfold contents_of in Hs. rewrite Hc in Hs. apply read_packets_spec; [|done].
    apply Forall_forall. intros d Hd. by apply list_elem_of_filter in Hd as [? _].
Qed.

End Packets.

(** ** Concrete packets *)

Definition two_packets : list Buffer := [FromBytes (lit "ab"); FromBytes []; FromBytes (lit "c")].

Lemma two_packets_wf : Forall wf two_packets.
Proof.
  apply Forall_cons_2; [|apply Forall_cons_2; [|apply Forall_cons_2; [|apply Forall_nil_2]]];
    apply FromBytes_wf; cbn; lia.
Qed.

Lemma LengthPacket_roundtrip_witness :
  match LengthPacketWriter_Write two_packets with
  | Ret (Some w) =>
    contents_of two_packets ≠ [] ∧
    ∀ s rest, contents s = w ++ rest →
      ∃ mb' s', LengthPacketReader_Read pool_array s = Ret (mb', s') ∧ contents s' = rest ∧
                contents_of mb' = contents_of two_packets ∧ payload_buffers mb'
  | Ret None => contents_of two_packets = []
  | _ => False
  end.
Proof.
  apply (LengthPacket_roundtrip pool_array pool_array_length two_packets); [apply two_packets_wf|].
  apply (bool_decide_unpack _). vm_compute. exact I.
Defined.

Lemma MultiLengthPacket_roundtrip_witness :
  let sent := filter fits (content <$> two_packets) in
  match MultiLengthPacketWriter_Write pool_array two_packets with
  | Ret (Some out) =>
    ∀ s rest, contents s = contents_of out ++ rest →
      ∃ ps s', read_packets pool_array (length sent) s = Ret (ps, s') ∧ contents s' = rest ∧
               contents_of <$> ps = sent ∧ Forall payload_buffers ps
  | Ret None => sent = []
  | _ => False
  end.
Proof. apply (MultiLengthPacket_roundtrip pool_array pool_array_length two_packets two_packets_wf). Defined.
