(* ===== verification/Trojan.v ===== *)
(** The Trojan protocol (src/upstream/xray-core/proxy/trojan/protocol.go): the
    header a client sends once, and packets with their destination inside a
    connection. *)
From S2P Require Import Prelude GoText NetIP Address Transport Frame Uuid Buf AddressParser BufAppend.

Definition crlf : bytes := [13; 10].
Definition maxLength : Z := 8192.
Definition commandTCP : Z := 1.
Definition commandUDP : Z := 3.

Definition trojan_parser : addressParser := parser_of trojan_options.

Record ConnWriter := { cw_Target : Destination; cw_Key : bytes; headerSent : bool }.

Definition header_sent (c : ConnWriter) : ConnWriter :=
  {| cw_Target := cw_Target c; cw_Key := cw_Key c; headerSent := true |}.

Section Trojan.
Context (array : bytes) {W : Type} `{Writer W}.

(** The header in its buffer, which is a fresh one of the pool. *)
Definition header_buffer (c : ConnWriter) : outcome bytes :=
  let command := if decide (dest_Network (cw_Target c) = Network_UDP) then commandUDP else commandTCP in
  outcome_bind (write_all (Buffer_New array) (cw_Key c)) (λ b,
  outcome_bind (write_all b crlf) (λ b,
  outcome_bind (try_byte b command) (λ b,
  outcome_bind (write_address trojan_parser b (dest_Address (cw_Target c)) (dest_Port (cw_Target c))) (λ b,
  outcome_bind (write_all b crlf) (λ b,
  ret_or_panic (Bytes b) Ret))))).

(** [writeHeader]: the writers after it, and whether it succeeded. *)
Definition writeHeader (c : ConnWriter) (w : W) : outcome (ConnWriter * W * bool) :=
  match header_buffer c with
  | Panic => Panic
  | Fail => Ret (c, w, false)
  | Ret p =>
    let '(w, (_, err)) := w_write w p in
    Ret (match err with None => (header_sent c, w, true) | Some _ => (c, w, false) end)
  end.

(** [ConnWriter.Write]: the count and the error of the underlying write, or no
    count when the header failed. *)
Definition ConnWriter_Write (c : ConnWriter) (w : W) (p : bytes)
    : outcome (ConnWriter * W * option (Z * option frame_error)) :=
  let write c w := let '(w, r) := w_write w p in Ret (c, w, Some r) in
  if headerSent c then write c w
  else
    outcome_bind (writeHeader c w) (λ '(c, w, ok),
    if ok : bool then write c w else Ret (c, w, None)).

(** [ConnWriter.WriteMultiBuffer]: whether all buffers were written. *)
Fixpoint ConnWriter_WriteMultiBuffer (c : ConnWriter) (w : W) (mb : list Buffer)
    : outcome (ConnWriter * W * bool) :=
  match mb with
  | [] => Ret (c, w, true)
  | b :: mb =>
    if IsEmpty b then ConnWriter_WriteMultiBuffer c w mb
    else
      ret_or_panic (Bytes b) (λ p,
      outcome_bind (ConnWriter_Write c w p) (λ '(c, w, r),
      match r with
      | Some (_, None) => ConnWriter_WriteMultiBuffer c w mb
      | _ => Ret (c, w, false)
      end))
  end.

(** [writePacket]: the writer, and the count it reports (none for an error).
    [Buffer.Write] copies what fits and reports no error. *)
Definition packet_buffer (payload : bytes) (dest : Destination) : outcome bytes :=
  outcome_bind (write_address trojan_parser (Buffer_New array) (dest_Address dest) (dest_Port dest)) (λ b,
  outcome_bind (write_all b (be_bytes 2 (u16 (Z.of_nat (length payload))))) (λ b,
  outcome_bind (write_all b crlf) (λ b,
  outcome_bind (write_all b payload) (λ b,
  ret_or_panic (Bytes b) Ret)))).

Definition writePacket (w : W) (payload : bytes) (dest : Destination) : outcome (W * option Z) :=
  match packet_buffer payload dest with
  | Panic => Panic
  | Fail => Ret (w, None)
  | Ret p =>
    let '(w, (_, err)) := w_write w p in
    Ret (w, match err with None => Some (Z.of_nat (length payload)) | Some _ => None end)
  end.

(** [PacketWriter.WriteMultiBuffer]: whether all packets were written. *)
Fixpoint PacketWriter_WriteMultiBuffer (target : Destination) (w : W) (mb : list Buffer)
    : outcome (W * bool) :=
  match mb with
  | [] => Ret (w, true)
  | b :: mb =>
    ret_or_panic (Bytes b) (λ p,
    outcome_bind (writePacket w p (default target (UDP b))) (λ '(w, n),
    match n with
    | Some _ => PacketWriter_WriteMultiBuffer target w mb
    | None => Ret (w, false)
    end))
  end.

(** [ParseHeader]: the target and the rest of the connection. *)
Definition fail_or {A B} (r : result frame_error A) (k : A → outcome B) : outcome B :=
  match r with Err _ => Fail | Ok a => k a end.

Definition ParseHeader (s : stream) : outcome (Destination * stream) :=
  fail_or (ReadFull s 56) (λ '(_, s),
  fail_or (ReadFull s 2) (λ '(_, s),
  fail_or (ReadFull s 1) (λ '(command, s),
  ret_or_panic (command !! 0%nat) (λ command,
  let network := if decide (command = commandUDP) then Network_UDP else Network_TCP in
  outcome_bind (ReadAddressPort trojan_parser (Buffer_New array) s) (λ '(addr, port, s),
  fail_or (ReadFull s 2) (λ '(_, s),
  Ret ({| dest_Address := addr; dest_Port := port; dest_Network := network |}, s))))))).

Definition with_UDP (b : Buffer) (d : Destination) : Buffer :=
  {| v := v b; start := start b; end_ := end_ b; unmanaged := unmanaged b; UDP := Some d |}.

(** The loop of [PacketReader.ReadMultiBuffer]; each round reads at least one
    byte. *)
Fixpoint read_parts (fuel : nat) (dest : Destination) (remain : Z) (mb : list Buffer) (s : stream)
    : outcome (list Buffer * stream) :=
  if decide (0 < remain) then
    match fuel with
    | O => Panic
    | S fuel =>
      let length := if decide (remain < Z.of_nat Size) then remain else Z.of_nat Size in
      outcome_bind (read_full (with_UDP (Buffer_New array) dest) s length) (λ '(b, s),
      read_parts fuel dest (remain - length) (mb ++ [b]) s)
    end
  else Ret (mb, s).

Definition PacketReader_ReadMultiBuffer (s : stream) : outcome (list Buffer * stream) :=
  outcome_bind (ReadAddressPort trojan_parser (Buffer_New array) s) (λ '(addr, port, s),
  fail_or (ReadFull s 2) (λ '(lengthBuf, s),
  let remain := be_val lengthBuf in
  if decide (maxLength < remain) then Fail
  else
    fail_or (ReadFull s 2) (λ '(_, s),
    read_parts (Z.to_nat remain) (UDPDestination addr port) remain [] s))).

(** ** The header *)

Context (Harray : length array = Size).

Lemma array_new : wf (Buffer_New array) ∧ content (Buffer_New array) = [] ∧ Z.of_nat (room (Buffer_New array)) = 8192.
Proof using Harray.
  destruct (wf_New array Harray) as (H1 & H2 & H3). split; [done|]. split; [done|]. by rewrite H3.
Qed.

Definition command_byte (d : Destination) : Z :=
  if decide (dest_Network d = Network_UDP) then commandUDP else commandTCP.

Definition header_bytes (c : ConnWriter) : bytes :=
  cw_Key c ++ crlf ++ [command_byte (cw_Target c)] ++ address_bytes trojan_parser (cw_Target c) ++ crlf.

(** A connection the client can open: the key is the hexadecimal digest of the
    password, the target has a wire form. *)
Definition conn_ok (c : ConnWriter) : Prop :=
  length (cw_Key c) = 56%nat ∧ endpoint_wire (cw_Target c).

Lemma header_buffer_spec c : conn_ok c → header_buffer c = Ret (header_bytes c).
Proof using Harray.
  intros [Hk Ht]. destruct array_new as (W0 & C0 & R0). unfold header_buffer. cbv zeta.
  destruct (address_bytes_spec trojan_parser trojan_parser_ok _ Ht) as (_ & _ & _ & _ & Hl).
  destruct (write_all_spec _ (cw_Key c) W0) as (b1 & -> & A1); [lia|]. cbn [outcome_bind].
  pose proof (app_room _ _ _ A1) as R1.
  destruct (write_all_spec b1 crlf (app_wf _ _ _ A1)) as (b2 & -> & A2); [cbn [length crlf]; lia|]. cbn [outcome_bind].
  pose proof (app_room _ _ _ A2) as R2. cbn [length crlf] in R2.
  fold (command_byte (cw_Target c)).
  destruct (try_byte_spec b2 (command_byte (cw_Target c)) (app_wf _ _ _ A2)) as (b3 & -> & A3); [lia|]. cbn [outcome_bind].
  pose proof (app_room _ _ _ A3) as R3. cbn [length] in R3.
  destruct (write_address_spec trojan_parser trojan_parser_ok b3 _ Ht (app_wf _ _ _ A3)) as (b4 & -> & A4); [lia|].
  cbn [outcome_bind]. pose proof (app_room _ _ _ A4) as R4.
  destruct (write_all_spec b4 crlf (app_wf _ _ _ A4)) as (b5 & -> & A5); [cbn [length crlf]; lia|]. cbn [outcome_bind].
  rewrite Bytes_content by apply A5. cbn [ret_or_panic].
  pose proof (appended_trans _ _ _ _ _ A1 (appended_trans _ _ _ _ _ A2 (appended_trans _ _ _ _ _ A3
    (appended_trans _ _ _ _ _ A4 A5)))) as A. by rewrite (app_content _ _ _ A), C0.
Qed.

(** Successive calls of [WriteMultiBuffer], all of which have to succeed. *)
Fixpoint write_calls (c : ConnWriter) (w : W) (calls : list (list Buffer)) : outcome (ConnWriter * W) :=
  match calls with
  | [] => Ret (c, w)
  | mb :: calls =>
    outcome_bind (ConnWriter_WriteMultiBuffer c w mb) (λ '(c, w, ok),
    if ok : bool then write_calls c w calls else Fail)
  end.

Section FullWriter.
Context (sink : W → bytes) `{!FullWriter sink}.

(** The header is due until the first byte is written. *)
Definition due_header (c : ConnWriter) (d : bytes) : bytes :=
  if headerSent c then [] else match d with [] => [] | _ => header_bytes c end.

Definition after (c : ConnWriter) (d : bytes) : ConnWriter :=
  match d with [] => c | _ => header_sent c end.

Lemma header_sent_idem c : headerSent c = true → header_sent c = c.
Proof. destruct c. cbn. by intros ->. Qed.

Lemma ConnWriter_Write_spec c w p : conn_ok c → p ≠ [] →
  ∃ w' n, ConnWriter_Write c w p = Ret (after c p, w', Some (n, None)) ∧
          sink w' = sink w ++ due_header c p ++ p.
Proof using All.
  intros Hc Hp. unfold ConnWriter_Write, due_header, after. destruct p as [|x p]; [done|].
  destruct (headerSent c) eqn:Es.
  - destruct (full_write w (x :: p)) as (w' & -> & Hw). rewrite header_sent_idem by done. by exists w', (Z.of_nat (length (x :: p))).
  - unfold writeHeader. rewrite header_buffer_spec by done.
    destruct (full_write w (header_bytes c)) as (w1 & -> & Hw1). cbn [outcome_bind].
    destruct (full_write w1 (x :: p)) as (w2 & -> & Hw2). do 2 eexists. split; [reflexivity|].
    by rewrite Hw2, Hw1, <- app_assoc.
Qed.

Lemma after_facts c d : conn_ok c → conn_ok (after c d) ∧ header_bytes (after c d) = header_bytes c ∧
  (∀ e, due_header c (d ++ e) = due_header c d ++ due_header (after c d) e) ∧
  ∀ e, after c (d ++ e) = after (after c d) e.
Proof.
  intros Hc. destruct d as [|x d].
  { split_all; try done. intros e. unfold due_header. cbn. by destruct (headerSent c). }
  split; [done|]. split; [done|]. split.
  - intros e. unfold due_header, after. cbn. destruct (headerSent c); [done|]. by rewrite app_nil_r.
  - intros e. by destruct e.
Qed.

(** One call appends its content, behind the header when that is due. *)
Lemma WriteMultiBuffer_spec mb c w : conn_ok c → Forall wf mb →
  ∃ w', ConnWriter_WriteMultiBuffer c w mb = Ret (after c (contents_of mb), w', true) ∧
        sink w' = sink w ++ due_header c (contents_of mb) ++ contents_of mb.
Proof using All.
  intros Hc Hmb. revert c w Hc. induction Hmb as [|b mb Hb _ IH]; intros c w Hc.
  - exists w. split; [done|]. unfold due_header, contents_of. cbn. destruct (headerSent c); by rewrite app_nil_r.
  - cbn [ConnWriter_WriteMultiBuffer]. change (contents_of (b :: mb)) with (content b ++ contents_of mb).
    unfold IsEmpty. rewrite Len_content by done. case_bool_decide as E.
    + assert (content b = []) as -> by (apply nil_length_inv; lia). by apply IH.
    + rewrite Bytes_content by done. cbn [ret_or_panic].
      destruct (ConnWriter_Write_spec c w (content b) Hc) as (w1 & n & -> & Hw1); [by intros E'; rewrite E' in E|].
      cbn [outcome_bind]. destruct (after_facts c (content b) Hc) as (Hc1 & Hh & Hdue & Haft).
      destruct (IH (after c (content b)) w1 Hc1) as (w2 & -> & Hw2). exists w2.
      rewrite Haft. split; [done|]. rewrite Hw2, Hw1, Hdue, <- !app_assoc. do 2 f_equal.
      unfold due_header. destruct (content b) eqn:Eb; [done|]. by destruct (headerSent c).
Qed.

Lemma write_calls_spec calls c w : conn_ok c → Forall (Forall wf) calls →
  ∃ w', write_calls c w calls = Ret (after c (mjoin (contents_of <$> calls)), w') ∧
        sink w' = sink w ++ due_header c (mjoin (contents_of <$> calls)) ++ mjoin (contents_of <$> calls).
Proof using All.
  intros Hc Hcs. revert c w Hc. induction Hcs as [|mb calls Hmb _ IH]; intros c w Hc.
  - exists w. split; [done|]. unfold due_header. cbn. destruct (headerSent c); by rewrite app_nil_r.
  - cbn [write_calls fmap list_fmap].
    change (mjoin (contents_of mb :: (contents_of <$> calls)))
      with (contents_of mb ++ mjoin (contents_of <$> calls)).
    destruct (WriteMultiBuffer_spec mb c w Hc Hmb) as (w1 & -> & Hw1). cbn [outcome_bind].
    destruct (after_facts c (contents_of mb) Hc) as (Hc1 & Hh & Hdue & Haft).
    destruct (IH (after c (contents_of mb)) w1 Hc1) as (w2 & -> & Hw2). exists w2.
    rewrite Haft. split; [done|]. rewrite Hw2, Hw1, Hdue, <- !app_assoc. do 2 f_equal.
    unfold due_header. destruct (contents_of mb) eqn:Eb; [done|]. by destruct (headerSent c).
Qed.

Lemma ParseHeader_spec c s rest : conn_ok c → contents s = header_bytes c ++ rest →
  ∃ s', ParseHeader s =
    Ret ({| dest_Address := dest_Address (cw_Target c); dest_Port := dest_Port (cw_Target c);
            dest_Network := if decide (dest_Network (cw_Target c) = Network_UDP)
                            then Network_UDP else Network_TCP |}, s') ∧
    contents s' = rest.
Proof using Harray.
  intros [Hk Ht] Hs. destruct array_new as (W0 & C0 & R0). unfold header_bytes in Hs. rewrite <- !app_assoc in Hs.
  unfold ParseHeader.
  destruct (ReadFull_enough s _ _ 56 Hs) as (s1 & -> & C1 & _); [by rewrite Hk|]. cbn [fail_or].
  destruct (ReadFull_enough s1 _ _ 2 C1) as (s2 & -> & C2 & _); [done|]. cbn [fail_or].
  destruct (ReadFull_enough s2 [_] _ 1 C2) as (s3 & -> & C3 & _); [done|]. cbn [fail_or lookup list_lookup ret_or_panic].
  cbv zeta.
  destruct (read_endpoint trojan_parser trojan_parser_ok _ _ s3 _ Ht W0 ltac:(lia) C3) as (s4 & -> & C4 & _).
  cbn [outcome_bind].
  destruct (ReadFull_enough s4 _ _ 2 C4) as (s5 & -> & C5 & _); [done|]. cbn [fail_or].
  exists s5. split; [|done]. do 3 f_equal. unfold command_byte. destruct (decide (dest_Network _ = _)); done.
Qed.

(** Whatever sequence of multi-buffers a client writes, the connection
    carries the header exactly once, before the first byte, and then exactly the
    bytes written; the server parses the target out of it, from any chunking,
    and finds the bytes behind it. *)
Theorem trojan_connection (c : ConnWriter) (w : W) (calls : list (list Buffer)) :
  conn_ok c → headerSent c = false → Forall (Forall wf) calls → mjoin (contents_of <$> calls) ≠ [] →
  ∃ c' w', write_calls c w calls = Ret (c', w') ∧ headerSent c' = true ∧
    sink w' = sink w ++ header_bytes c ++ mjoin (contents_of <$> calls) ∧
    ∀ s rest, contents s = header_bytes c ++ mjoin (contents_of <$> calls) ++ rest →
      ∃ d s', ParseHeader s = Ret (d, s') ∧
        dest_Address d = dest_Address (cw_Target c) ∧ dest_Port d = dest_Port (cw_Target c) ∧
        (dest_Network d = Network_UDP ↔ dest_Network (cw_Target c) = Network_UDP) ∧
        contents s' = mjoin (contents_of <$> calls) ++ rest.
Proof using All.
  intros Hc Hs Hcs Hne. destruct (write_calls_spec calls c w Hc Hcs) as (w' & E & Hw).
  exists (after c (mjoin (contents_of <$> calls))), w'. split; [done|].
  unfold due_header, after in *. rewrite Hs in Hw. destruct (mjoin (contents_of <$> calls)) as [|x d]; [done|].
  split; [done|]. split; [done|]. intros s rest Hin.
  destruct (ParseHeader_spec c s _ Hc Hin) as (s' & -> & Hc'). do 2 eexists. split; [done|]. cbn.
  split; [done|]. split; [done|]. split; [|done]. by case_decide.
Qed.

End FullWriter.

(** ** Packets *)

Definition packet_head (dest : Destination) (n : nat) : bytes :=
  address_bytes trojan_parser dest ++ be_bytes 2 (u16 (Z.of_nat n)) ++ crlf.

(** The space a packet's payload has behind its head in a buffer. *)
Definition payload_room (dest : Destination) : nat :=
  Z.to_nat (8188 - Z.of_nat (length (address_bytes trojan_parser dest))).

Lemma write_all_trunc b d : wf b →
  ∃ b', write_all b d = Ret b' ∧ wf b' ∧ content b' = content b ++ take (room b) d.
Proof.
  intros Hb. destruct (run_Write b d Hb) as (b' & E & Hw & Hc). exists b'. unfold write_all. by rewrite E.
Qed.

(** The payload is cut off where the buffer ends. *)
Lemma packet_buffer_spec payload dest : endpoint_wire dest →
  packet_buffer payload dest = Ret (packet_head dest (length payload) ++ take (payload_room dest) payload).
Proof using Harray.
  intros Hd. destruct array_new as (W0 & C0 & R0). unfold packet_buffer.
  destruct (address_bytes_spec trojan_parser trojan_parser_ok _ Hd) as (_ & _ & _ & _ & Hl).
  destruct (write_address_spec trojan_parser trojan_parser_ok _ _ Hd W0) as (b1 & -> & A1); [lia|].
  cbn [outcome_bind]. pose proof (app_room _ _ _ A1) as R1.
  destruct (write_all_spec b1 (be_bytes 2 (u16 (Z.of_nat (length payload)))) (app_wf _ _ _ A1)) as (b2 & -> & A2);
    [rewrite be_bytes_length; lia|].
  cbn [outcome_bind]. pose proof (app_room _ _ _ A2) as R2. rewrite be_bytes_length in R2.
  destruct (write_all_spec b2 crlf (app_wf _ _ _ A2)) as (b3 & -> & A3); [cbn [length crlf]; lia|].
  cbn [outcome_bind]. pose proof (app_room _ _ _ A3) as R3. cbn [length crlf] in R3.
  destruct (write_all_trunc b3 payload (app_wf _ _ _ A3)) as (b4 & -> & W4 & C4). cbn [outcome_bind].
  rewrite Bytes_content by done. cbn [ret_or_panic].
  pose proof (appended_trans _ _ _ _ _ A1 (appended_trans _ _ _ _ _ A2 A3)) as A.
  rewrite C4, (app_content _ _ _ A), C0. cbn [app]. unfold packet_head. do 3 f_equal.
  unfold payload_room. lia.
Qed.

(** The buffers a packet is read into. *)
Definition parts_ok (dest : Destination) (mb : list Buffer) : Prop :=
  Forall (λ b, wf b ∧ UDP b = Some dest) mb.

Lemma read_full_UDP b s size b' s' : read_full b s size = Ret (b', s') → UDP b' = UDP b.
Proof.
  unfold read_full, ReadFullFrom. intros E. cbv zeta in E. case_decide; [done|].
  destruct (array_slice b (end_ b) _) as [room|]; [|done]. cbn [mbind option_bind] in E.
  destruct (ReadFull s (length room)) as [[d s1]|]; [|done]. apply Ret_inj in E. by injection E as <- _.
Qed.

Lemma read_parts_spec fuel dest d mb s rest :
  contents s = d ++ rest → (length d ≤ fuel)%nat → parts_ok dest mb →
  ∃ mb' s', read_parts fuel dest (Z.of_nat (length d)) mb s = Ret (mb', s') ∧ contents s' = rest ∧
    contents_of mb' = contents_of mb ++ d ∧ parts_ok dest mb'.
Proof using Harray.
  destruct array_new as (W0 & C0 & R0). assert (Z.of_nat Size = 8192) as HS by reflexivity.
  revert d mb s. induction fuel as [|fuel IH]; intros d mb s Hs Hf Hmb; cbn [read_parts].
  - destruct d; [|cbn in Hf; lia]. exists mb, s. by rewrite app_nil_r.
  - case_decide as Hpos.
    + cbv zeta. rewrite HS. set (size := if decide (Z.of_nat (length d) < 8192) then Z.of_nat (length d) else 8192).
      assert (0 < size ≤ 8192 ∧ size ≤ Z.of_nat (length d)) as [Hsz Hle] by (unfold size; case_decide; lia).
      rewrite <- (take_drop (Z.to_nat size) d), <- app_assoc in Hs.
      assert (length (take (Z.to_nat size) d) = Z.to_nat size) as Hlt by (rewrite length_take; lia).
      destruct (read_full_spec (with_UDP (Buffer_New array) dest) s _ _ size ltac:(destruct W0; by split) Hs)
        as (b & s1 & E1 & C1 & _ & W1 & D1 & _); [lia|change (room (with_UDP (Buffer_New array) dest)) with (room (Buffer_New array)); lia|].
      rewrite E1. cbn [outcome_bind]. apply read_full_UDP in E1.
      change (content (with_UDP (Buffer_New array) dest)) with (content (Buffer_New array)) in D1.
      rewrite C0 in D1. cbn [app] in D1.
      destruct (IH (drop (Z.to_nat size) d) (mb ++ [b]) s1 C1) as (mb' & s' & E & Hc & Hd & Hok).
      * rewrite length_drop. lia.
      * apply Forall_app. split; [done|]. apply Forall_cons_2; [by rewrite E1|apply Forall_nil_2].
      * rewrite length_drop in E. replace (Z.of_nat (length d - Z.to_nat size)) with (Z.of_nat (length d) - size) in E by lia.
        exists mb', s'. rewrite E. split_all; try done.
        by rewrite Hd, contents_of_app, contents_of_one, D1, <- app_assoc, take_drop.
    + destruct d; [|cbn in Hpos; lia]. exists mb, s. by rewrite app_nil_r.
Qed.

(** The reader takes as many bytes as the length says. *)
Lemma PacketReader_spec dest d s rest : endpoint_wire dest → Z.of_nat (length d) ≤ 8192 →
  contents s = packet_head dest (length d) ++ d ++ rest →
  ∃ mb s', PacketReader_ReadMultiBuffer s = Ret (mb, s') ∧ contents s' = rest ∧ contents_of mb = d ∧
           parts_ok (UDPDestination (dest_Address dest) (dest_Port dest)) mb.
Proof using Harray.
  intros Hd Hl Hs. destruct array_new as (W0 & C0 & R0). unfold packet_head in Hs. rewrite <- !app_assoc in Hs.
  unfold PacketReader_ReadMultiBuffer.
  destruct (read_endpoint trojan_parser trojan_parser_ok _ _ s _ Hd W0 ltac:(lia) Hs) as (s1 & -> & C1 & _).
  cbn [outcome_bind]. rewrite wrap_small in C1 by (unfold is_uint; lia).
  destruct (ReadFull_enough s1 _ _ 2 C1) as (s2 & -> & C2 & _); [by rewrite be_bytes_length|]. cbn [fail_or]. cbv zeta.
  rewrite be_val_be_bytes by (change (256 ^ Z.of_nat 2) with 65536; lia). unfold maxLength.
  rewrite decide_False by lia.
  destruct (ReadFull_enough s2 _ _ 2 C2) as (s3 & -> & C3 & _); [done|]. cbn [fail_or]. rewrite Nat2Z.id.
  destruct (read_parts_spec (length d) (UDPDestination (dest_Address dest) (dest_Port dest)) d [] s3 rest C3)
    as (mb & s' & -> & H'); [done|apply Forall_nil_2|]. by exists mb, s'.
Qed.

Section FullPacketWriter.
Context (sink : W → bytes) `{!FullWriter sink}.

Lemma writePacket_spec w payload dest : endpoint_wire dest →
  ∃ w', writePacket w payload dest = Ret (w', Some (Z.of_nat (length payload))) ∧
        sink w' = sink w ++ packet_head dest (length payload) ++ take (payload_room dest) payload.
Proof using All.
  intros Hd. unfold writePacket. rewrite packet_buffer_spec by done.
  destruct (full_write w (packet_head dest (length payload) ++ take (payload_room dest) payload)) as (w' & -> & Hw).
  by exists w'.
Qed.

(** A packet for its own destination or that of the connection, which fits a
    buffer together with its head. *)
Definition packet_ok (target : Destination) (b : Buffer) : Prop :=
  wf b ∧ endpoint_wire (default target (UDP b)) ∧
  (length (content b) ≤ payload_room (default target (UDP b)))%nat.

Definition packet_bytes (target : Destination) (b : Buffer) : bytes :=
  packet_head (default target (UDP b)) (length (content b)) ++ content b.

Lemma PacketWriter_spec target mb w : Forall (packet_ok target) mb →
  ∃ w', PacketWriter_WriteMultiBuffer target w mb = Ret (w', true) ∧
        sink w' = sink w ++ mjoin (packet_bytes target <$> mb).
Proof using All.
  intros Hmb. revert w. induction Hmb as [|b mb (Hw & Hd & Hl) _ IH]; intros w.
  - exists w. cbn. by rewrite app_nil_r.
  - cbn [PacketWriter_WriteMultiBuffer]. rewrite Bytes_content by done. cbn [ret_or_panic].
    destruct (writePacket_spec w (content b) _ Hd) as (w1 & -> & Hw1). cbn [outcome_bind].
    destruct (IH w1) as (w2 & -> & Hw2). exists w2. split; [done|]. rewrite Hw2, Hw1.
    rewrite take_ge by done. cbn [fmap list_fmap].
    change (mjoin (packet_bytes target b :: (packet_bytes target <$> mb)))
      with (packet_bytes target b ++ mjoin (packet_bytes target <$> mb)).
    unfold packet_bytes at 2. by rewrite <- !app_assoc.
Qed.

Fixpoint read_trojan_packets (n : nat) (s : stream) : outcome (list (list Buffer) * stream) :=
  match n with
  | O => Ret ([], s)
  | S n =>
    outcome_bind (PacketReader_ReadMultiBuffer s) (λ '(mb, s),
    outcome_bind (read_trojan_packets n s) (λ '(ps, s), Ret (mb :: ps, s)))
  end.

(** The packet [p] that was read is the packet of the buffer [b]. *)
Definition same_packet (target : Destination) (b : Buffer) (p : list Buffer) : Prop :=
  contents_of p = content b ∧
  parts_ok (UDPDestination (dest_Address (default target (UDP b))) (dest_Port (default target (UDP b)))) p.

Lemma payload_room_bound dest : Z.of_nat (payload_room dest) ≤ 8192.
Proof. unfold payload_room. lia. Qed.

(** Packets with any destinations survive the connection: the packets of a
    multi-buffer that fit a buffer with their head are written one after the
    other and read back, from any chunking, one by one, each with its payload
    and its own destination (the connection's when it has none). *)
Theorem trojan_packets (target : Destination) (w : W) (mb : list Buffer) :
  Forall (packet_ok target) mb →
  ∃ w' out, PacketWriter_WriteMultiBuffer target w mb = Ret (w', true) ∧ sink w' = sink w ++ out ∧
    ∀ s rest, contents s = out ++ rest →
      ∃ ps s', read_trojan_packets (length mb) s = Ret (ps, s') ∧ contents s' = rest ∧
               Forall2 (same_packet target) mb ps.
Proof using All.
  intros Hmb. destruct (PacketWriter_spec target mb w Hmb) as (w' & E & Hw).
  exists w', (mjoin (packet_bytes target <$> mb)). split; [done|]. split; [done|]. clear E Hw.
  induction Hmb as [|b mb (Hwf & Hd & Hl) _ IH]; intros s rest Hs.
  - exists [], s. by split_all.
  - cbn [fmap list_fmap length read_trojan_packets] in *.
    change (mjoin (packet_bytes target b :: (packet_bytes target <$> mb)))
      with (packet_bytes target b ++ mjoin (packet_bytes target <$> mb)) in Hs.
    unfold packet_bytes at 1 in Hs. rewrite <- !app_assoc in Hs.
    pose proof (payload_room_bound (default target (UDP b))).
    destruct (PacketReader_spec _ (content b) s _ Hd ltac:(lia) Hs) as (p & s1 & -> & C1 & D1 & P1).
    cbn [outcome_bind]. destruct (IH s1 rest C1) as (ps & s' & -> & C2 & F2). cbn [outcome_bind].
    exists (p :: ps), s'. split; [done|]. split; [done|]. by constructor.
Qed.

(** A packet that does not fit a buffer with its head, though a buffer
    could hold it, is cut off, yet [writePacket] reports its full length; the
    reader then completes the payload with the first bytes of whatever follows
    in the connection, so that the packets behind it are misread. *)
Theorem oversized_packet_breaks_framing (w : W) (payload : bytes) (dest : Destination) :
  endpoint_wire dest → (payload_room dest < length payload)%nat → Z.of_nat (length payload) ≤ 8192 →
  let kept := take (payload_room dest) payload in
  ∃ w', writePacket w payload dest = Ret (w', Some (Z.of_nat (length payload))) ∧
    sink w' = sink w ++ packet_head dest (length payload) ++ kept ∧
    ∀ s next rest, length next = (length payload - payload_room dest)%nat →
      contents s = packet_head dest (length payload) ++ kept ++ next ++ rest →
      ∃ mb s', PacketReader_ReadMultiBuffer s = Ret (mb, s') ∧ contents s' = rest ∧
               contents_of mb = kept ++ next.
Proof using All.
  intros Hd Hlt Hle kept. destruct (writePacket_spec w payload dest Hd) as (w' & E & Hw).
  exists w'. split; [done|]. split; [done|]. intros s next rest Hn Hs.
  assert (length (kept ++ next) = length payload) as Hlen by (unfold kept; rewrite length_app, length_take; lia).
  rewrite <- Hlen, (app_assoc kept) in Hs.
  destruct (PacketReader_spec dest (kept ++ next) s rest Hd ltac:(lia) Hs) as (mb & s' & -> & C & D & _).
  by exists mb, s'.
Qed.

End FullPacketWriter.
End Trojan.

(** ** Concrete connections *)

Definition sample_target : Destination := UDPDestination (Some (ipv4Address [8; 8; 8; 8])) 53.

Lemma sample_target_wire : endpoint_wire sample_target.
Proof.
  exists (ipv4Address [8; 8; 8; 8]). split; [done|].
  split; [split; [by apply (bool_decide_unpack _)|done]|by apply (bool_decide_unpack _)].
Qed.

Definition sample_conn : ConnWriter :=
  {| cw_Target := sample_target; cw_Key := replicate 56 97; headerSent := false |}.

Definition sample_call : list Buffer := [FromBytes []; FromBytes (lit "hi")].

Lemma sample_call_wf : Forall wf sample_call.
Proof. apply Forall_cons_2; [|apply Forall_cons_2; [|apply Forall_nil_2]]; apply FromBytes_wf; cbn; lia. Qed.

Lemma trojan_connection_witness :
  ∃ c' w', write_calls pool_array (H := memory_writer) sample_conn [] [sample_call] = Ret (c', w') ∧ headerSent c' = true ∧
    id w' = id [] ++ header_bytes sample_conn ++ mjoin (contents_of <$> [sample_call]) ∧
    ∀ s rest, contents s = header_bytes sample_conn ++ mjoin (contents_of <$> [sample_call]) ++ rest →
      ∃ d s', ParseHeader pool_array s = Ret (d, s') ∧
        dest_Address d = dest_Address (cw_Target sample_conn) ∧ dest_Port d = dest_Port (cw_Target sample_conn) ∧
        (dest_Network d = Network_UDP ↔ dest_Network (cw_Target sample_conn) = Network_UDP) ∧
        contents s' = mjoin (contents_of <$> [sample_call]) ++ rest.
Proof.
  apply (trojan_connection pool_array (H := memory_writer) pool_array_length id (FullWriter0 := memory_full)
    sample_conn [] [sample_call]).
  - split; [done|apply sample_target_wire].
  - done.
  - apply Forall_cons_2; [apply sample_call_wf|apply Forall_nil_2].
  - vm_compute. discriminate.
Defined.

Lemma trojan_packets_witness :
  ∃ w' out, PacketWriter_WriteMultiBuffer pool_array (H := memory_writer) sample_target [] sample_call = Ret (w', true) ∧
    id w' = id [] ++ out ∧
    ∀ s rest, contents s = out ++ rest →
      ∃ ps s', read_trojan_packets pool_array (length sample_call) s = Ret (ps, s') ∧ contents s' = rest ∧
               Forall2 (same_packet sample_target) sample_call ps.
Proof.
  apply (trojan_packets pool_array (H := memory_writer) pool_array_length id (FullWriter0 := memory_full)
    sample_target [] sample_call).
  apply Forall_cons_2; [|apply Forall_cons_2; [|apply Forall_nil_2]];
    (split; [apply FromBytes_wf; cbn; lia|]); (split; [apply sample_target_wire|]);
    apply (bool_decide_unpack _); vm_compute; exact I.
Defined.

Definition large_payload : bytes := replicate 8190 65.

Lemma oversized_packet_breaks_framing_witness :
  let kept := take (payload_room sample_target) large_payload in
  ∃ w', writePacket pool_array (H := memory_writer) [] large_payload sample_target = Ret (w', Some (Z.of_nat (length large_payload))) ∧
    id w' = id [] ++ packet_head sample_target (length large_payload) ++ kept ∧
    ∀ s next rest, length next = (length large_payload - payload_room sample_target)%nat →
      contents s = packet_head sample_target (length large_payload) ++ kept ++ next ++ rest →
      ∃ mb s', PacketReader_ReadMultiBuffer pool_array s = Ret (mb, s') ∧ contents s' = rest ∧
               contents_of mb = kept ++ next.
Proof.
  apply (oversized_packet_breaks_framing pool_array (H := memory_writer) pool_array_length id (FullWriter0 := memory_full)
    [] large_payload sample_target).
  - apply sample_target_wire.
  - apply (bool_decide_unpack _). vm_compute. exact I.
  - apply (bool_decide_unpack _). vm_compute. exact I.
Defined.
