(* ===== verification/Pipe.v ===== *)
(** The pipe between two ends of a connection
    (src/upstream/xray-core/transport/pipe: impl.go, pipe.go, reader.go,
    writer.go; src/upstream/xray-core/common/signal: notifier.go, done/done.go),
    as an interleaving of any number of readers and writers.  A step is a section
    under the mutex of the pipe, a signal, or a wake-up in a select. *)
From stdpp Require Import gmap.
From S2P Require Import Prelude GoText NetIP Address Transport Frame Uuid Buf AddressParser BufAppend MultiBuffer.

(** ** Data *)

Inductive state := Open | Closed | Errord.

#[global] Instance state_eq_dec : EqDecision state.
Proof. solve_decision. Defined.

Record pipeOption := { limit : Z; discardOverflow : bool }.

Definition isFull (o : pipeOption) (curSize : Z) : bool := bool_decide (0 ≤ limit o ∧ limit o < curSize).

Inductive pipe_error := PipeBufferFull | PipeSlowDown | PipeClosedPipe | PipeEOF | PipeTimeout | PipeReturned.

#[global] Instance pipe_error_eq_dec : EqDecision pipe_error.
Proof. solve_decision. Defined.

(** [data] is nil or a multi-buffer; a notifier is a channel of capacity one;
    [errChan] holds at most one error. *)
Record pipe := {
  data : option (list Buffer);
  readSignal : bool;
  writeSignal : bool;
  done_closed : bool;
  errChan : bool;
  option_ : pipeOption;
  p_state : state
}.

Definition set_data (d : option (list Buffer)) (p : pipe) : pipe :=
  {| data := d; readSignal := readSignal p; writeSignal := writeSignal p; done_closed := done_closed p;
     errChan := errChan p; option_ := option_ p; p_state := p_state p |}.

Definition set_signals (r w : bool) (p : pipe) : pipe :=
  {| data := data p; readSignal := r; writeSignal := w; done_closed := done_closed p;
     errChan := errChan p; option_ := option_ p; p_state := p_state p |}.

Definition set_errChan (e : bool) (p : pipe) : pipe :=
  {| data := data p; readSignal := readSignal p; writeSignal := writeSignal p; done_closed := done_closed p;
     errChan := e; option_ := option_ p; p_state := p_state p |}.

(** [p.state = s] with [p.done.Close()]. *)
Definition finish (s : state) (d : option (list Buffer)) (p : pipe) : pipe :=
  {| data := d; readSignal := readSignal p; writeSignal := writeSignal p; done_closed := true;
     errChan := errChan p; option_ := option_ p; p_state := s |}.

Inductive Option_ := WithoutSizeLimit | WithSizeLimit (limit : Z) | DiscardOverflow.

Definition apply_opt (o : pipeOption) (x : Option_) : pipeOption :=
  match x with
  | WithoutSizeLimit => {| limit := -1; discardOverflow := discardOverflow o |}
  | WithSizeLimit l => {| limit := l; discardOverflow := discardOverflow o |}
  | DiscardOverflow => {| limit := limit o; discardOverflow := true |}
  end.

Definition New (opts : list Option_) : pipe :=
  {| data := None; readSignal := false; writeSignal := false; done_closed := false; errChan := false;
     option_ := foldl apply_opt {| limit := -1; discardOverflow := false |} opts; p_state := Open |}.

(** ** Operations under the mutex *)

(** [p.data.Len()] and [p.data.IsEmpty()], nil being empty. *)
Definition data_Len (p : pipe) : Z := mb_Len (default [] (data p)).
Definition data_IsEmpty (p : pipe) : bool := mb_IsEmpty (default [] (data p)).

Definition getState (forRead : bool) (p : pipe) : option pipe_error :=
  match p_state p with
  | Open => if negb forRead && isFull (option_ p) (data_Len p) then Some PipeBufferFull else None
  | Closed => if negb forRead then Some PipeClosedPipe
              else if negb (data_IsEmpty p) then None else Some PipeEOF
  | Errord => Some PipeClosedPipe
  end.

(** [readMultiBufferInternal]: the data, which may be nil, or an error. *)
Definition readMultiBufferInternal (p : pipe) : pipe * (option (list Buffer) + pipe_error) :=
  match getState true p with
  | Some err => (p, inr err)
  | None => (set_data None p, inl (data p))
  end.

Definition writeMultiBufferInternal (mb : list Buffer) (p : pipe) : pipe * option pipe_error :=
  match getState false p with
  | Some err => (p, Some err)
  | None =>
    match data p with
    | None => (set_data (Some mb) p, None)
    | Some d => (set_data (Some (MergeMulti d mb).1) p, Some PipeSlowDown)
    end
  end.

Definition Close (p : pipe) : pipe :=
  if decide (p_state p = Closed ∨ p_state p = Errord) then p else finish Closed (data p) p.

Definition Interrupt (p : pipe) : pipe :=
  if decide (p_state p = Closed ∨ p_state p = Errord) then p
  else finish Errord (if data_IsEmpty p then data p else None) p.

(** [Notifier.Signal] never blocks. *)
Definition signal_read (p : pipe) : pipe := set_signals true (writeSignal p) p.
Definition signal_write (p : pipe) : pipe := set_signals (readSignal p) true p.

(** ** Calls as threads *)

(** Where a call stands.  A read is about to look, about to signal the writer
    with what it will return, waiting, or back; a write is about to try, about to
    signal the reader with what it will return, waiting, or back. *)
Inductive thread :=
| RCheck | RSignal (r : option (list Buffer) + pipe_error) | RWait | RBack (r : option (list Buffer) + pipe_error)
| WTry (mb : list Buffer) | WSignal (r : option pipe_error) | WWait (mb : list Buffer) | WBack (r : option pipe_error).

(** The body of the loop of [ReadMultiBuffer] up to the select. *)
Definition read_section (p : pipe) : pipe * thread :=
  match readMultiBufferInternal p with
  | (p, inl None) => (p, RWait)
  | (p, r) => (p, RSignal r)
  end.

(** The body of the loop of [WriteMultiBuffer] up to the select. *)
Definition write_section (mb : list Buffer) (p : pipe) : pipe * thread :=
  match writeMultiBufferInternal mb p with
  | (p, None) | (p, Some PipeSlowDown) => (p, WSignal None)
  | (p, Some PipeBufferFull) => if discardOverflow (option_ p) then (p, WBack None) else (p, WWait mb)
  | (p, Some err) => (p, WSignal (Some err))
  end.

(** A step of one call; in a select any ready case may be taken. *)
Inductive thread_step : pipe → thread → pipe → thread → Prop :=
| step_check p p' t : read_section p = (p', t) → thread_step p RCheck p' t
| step_read_signal p r : thread_step p (RSignal r) (signal_write p) (RBack r)
| step_read_wake p : readSignal p = true → thread_step p RWait (set_signals false (writeSignal p) p) RCheck
| step_read_done p : done_closed p = true → thread_step p RWait p RCheck
| step_read_err p : errChan p = true → thread_step p RWait (set_errChan false p) (RBack (inr PipeReturned))
| step_try p mb p' t : write_section mb p = (p', t) → thread_step p (WTry mb) p' t
| step_write_signal p r : thread_step p (WSignal r) (signal_read p) (WBack r)
| step_write_wake p mb : writeSignal p = true → thread_step p (WWait mb) (set_signals (readSignal p) false p) (WTry mb)
| step_write_done p mb : done_closed p = true → thread_step p (WWait mb) p (WBack (Some PipeClosedPipe)).

(** The pipe with its calls, and the buffers that were accepted, returned by a
    read section, and dropped by an interrupt. *)
Record system := {
  s_pipe : pipe;
  s_threads : gmap nat thread;
  s_in : list Buffer;
  s_out : list Buffer;
  s_dropped : list Buffer
}.

(** What a step of a thread accepts and takes out. *)
Definition accepted (p : pipe) (t : thread) : list Buffer :=
  match t with WTry mb => if getState false p then [] else mb | _ => [] end.

Definition taken (p : pipe) (t : thread) : list Buffer :=
  match t with RCheck => if getState true p then [] else default [] (data p) | _ => [] end.

Definition with_pipe (s : system) (p : pipe) : system :=
  {| s_pipe := p; s_threads := s_threads s; s_in := s_in s; s_out := s_out s; s_dropped := s_dropped s |}.

Definition spawn (s : system) (i : nat) (t : thread) : system :=
  {| s_pipe := s_pipe s; s_threads := <[i := t]> (s_threads s); s_in := s_in s; s_out := s_out s;
     s_dropped := s_dropped s |}.

Definition moved (s : system) (i : nat) (t : thread) (p' : pipe) (t' : thread) : system :=
  {| s_pipe := p'; s_threads := <[i := t']> (s_threads s); s_in := s_in s ++ accepted (s_pipe s) t;
     s_out := s_out s ++ taken (s_pipe s) t; s_dropped := s_dropped s |}.

(** Calls begin at any time, time out while waiting, and proceed; anyone may
    close, interrupt, or make a read return an error.  A write of nothing returns
    at once and is left out. *)
Inductive pipe_step : system → system → Prop :=
| sys_read s i : s_threads s !! i = None → pipe_step s (spawn s i RCheck)
| sys_write s i mb : s_threads s !! i = None → mb_IsEmpty mb = false → pipe_step s (spawn s i (WTry mb))
| sys_move s i t p' t' : s_threads s !! i = Some t → thread_step (s_pipe s) t p' t' → pipe_step s (moved s i t p' t')
| sys_timeout s i : s_threads s !! i = Some RWait → pipe_step s (spawn s i (RBack (inr PipeTimeout)))
| sys_close s : pipe_step s (with_pipe s (Close (s_pipe s)))
| sys_interrupt s : pipe_step s
    {| s_pipe := Interrupt (s_pipe s); s_threads := s_threads s; s_in := s_in s; s_out := s_out s;
       s_dropped := if decide (p_state (s_pipe s) = Open) then default [] (data (s_pipe s)) else s_dropped s |}
| sys_return_error s : errChan (s_pipe s) = false → pipe_step s (with_pipe s (set_errChan true (s_pipe s)))
| sys_recover s : errChan (s_pipe s) = true → pipe_step s (with_pipe s (set_errChan false (s_pipe s))).

Definition start (opts : list Option_) : system :=
  {| s_pipe := New opts; s_threads := ∅; s_in := []; s_out := []; s_dropped := [] |}.

Definition reachable (opts : list Option_) : system → Prop := rtc pipe_step (start opts).

(** ** Invariant *)

(** Some call stands where [f] says. *)
Definition has (f : thread → bool) (m : gmap nat thread) : Prop := ∃ i t, m !! i = Some t ∧ f t = true.

Definition waits_to_read (t : thread) : bool := match t with RWait => true | _ => false end.
Definition waits_to_write (t : thread) : bool := match t with WWait _ => true | _ => false end.

(** A call that will look at the data, or will signal the readers. *)
Definition helps_reader (t : thread) : bool := match t with RCheck | WSignal _ => true | _ => false end.

(** A call that will try to write, or will signal the writers. *)
Definition helps_writer (t : thread) : bool := match t with RSignal _ | WTry _ => true | _ => false end.

Definition arguments_ok (t : thread) : Prop :=
  match t with WTry mb | WWait mb => mb_IsEmpty mb = false | _ => True end.

Record pipe_inv (s : system) : Prop := {
  inv_fifo : s_in s = s_out s ++ default [] (data (s_pipe s)) ++ s_dropped s;
  inv_dropped : p_state (s_pipe s) ≠ Errord → s_dropped s = [];
  inv_errord : p_state (s_pipe s) = Errord → data (s_pipe s) = None;
  inv_done : done_closed (s_pipe s) = bool_decide (p_state (s_pipe s) ≠ Open);
  inv_data : ∀ mb, data (s_pipe s) = Some mb → mb_IsEmpty mb = false;
  inv_args : ∀ i t, s_threads s !! i = Some t → arguments_ok t;
  inv_read : data (s_pipe s) ≠ None → has waits_to_read (s_threads s) →
    readSignal (s_pipe s) = true ∨ has helps_reader (s_threads s);
  inv_write : p_state (s_pipe s) = Open → isFull (option_ (s_pipe s)) (data_Len (s_pipe s)) = false →
    has waits_to_write (s_threads s) →
    writeSignal (s_pipe s) = true ∨ has helps_writer (s_threads s) ∨ data (s_pipe s) ≠ None
}.

Lemma has_new f m i t : f t = true → has f (<[i := t]> m).
Proof. intros. exists i, t. by rewrite lookup_insert_eq. Qed.

(** A call that is replaced by one that stands somewhere else leaves the others. *)
Lemma has_keep f m i t t' : m !! i = Some t → f t = false → has f m → has f (<[i := t']> m).
Proof.
  intros Hi Hf (j & x & Hj & Hx). exists j, x. split; [|done]. rewrite lookup_insert_ne; [done|].
  intros ->. congruence.
Qed.

Lemma has_back f m i t' : f t' = false → has f (<[i := t']> m) → has f m.
Proof.
  intros Hf (j & x & Hj & Hx). destruct (decide (j = i)) as [-> |Hne].
  - rewrite lookup_insert_eq in Hj. congruence.
  - rewrite lookup_insert_ne in Hj by done. by exists j, x.
Qed.

Lemma data_empty p : (∀ mb, data p = Some mb → mb_IsEmpty mb = false) → data_IsEmpty p = true → data p = None.
Proof. unfold data_IsEmpty. destruct (data p) as [mb|]; [|done]. intros H E. change (mb_IsEmpty mb = true) in E.
  pose proof (H mb eq_refl). congruence. Qed.

(** What the two sections do, case by case. *)
Lemma read_section_cases p p' t : (∀ mb, data p = Some mb → mb_IsEmpty mb = false) →
  (p_state p = Errord → data p = None) → read_section p = (p', t) →
  (getState true p = None ∧ p' = set_data None p ∧
     t = match data p with None => RWait | Some mb => RSignal (inl (Some mb)) end) ∨
  (∃ e, getState true p = Some e ∧ p' = p ∧ t = RSignal (inr e) ∧ data p = None).
Proof.
  intros Hd He E. unfold read_section, readMultiBufferInternal in E.
  destruct (getState true p) as [e|] eqn:Eg.
  - right. injection E as <- <-. exists e. split_all; try done.
    unfold getState in Eg. destruct (p_state p); [done| |by apply He].
    cbn in Eg. destruct (data_IsEmpty p) eqn:Ee; [|done]. by apply data_empty.
  - left. destruct (data p); injection E as <- <-; done.
Qed.

Lemma write_section_cases p mb p' t : write_section mb p = (p', t) →
  (getState false p = None ∧ p' = set_data (Some (default [] (data p) ++ mb)) p ∧ t = WSignal None) ∨
  (p' = p ∧ getState false p = Some PipeBufferFull ∧ (t = WBack None ∨ t = WWait mb) ∧
     isFull (option_ p) (data_Len p) = true) ∨
  (p' = p ∧ is_Some (getState false p) ∧ p_state p ≠ Open ∧ ∃ e, t = WSignal (Some e)).
Proof.
  unfold write_section, writeMultiBufferInternal. destruct (getState false p) as [e|] eqn:Eg.
  - unfold getState in Eg. destruct (p_state p) eqn:Es; cbn in Eg.
    + destruct (isFull (option_ p) (data_Len p)) eqn:Ef; [|done]. injection Eg as <-.
      destruct (discardOverflow (option_ p)); intros E; injection E as <- <-; right; left; split_all; try done;
        [by left|by right].
    + injection Eg as <-. intros E. injection E as <- <-. right; right. split_all; [done|by eexists|done|by eexists].
    + injection Eg as <-. intros E. injection E as <- <-. right; right. split_all; [done|by eexists|done|by eexists].
  - intros E. left. destruct (data p); injection E as <- <-; done.
Qed.

(** The data and the history: what goes in, out and away. *)
Lemma fifo_move p t p' t' (i o d : list Buffer) :
  (∀ mb, data p = Some mb → mb_IsEmpty mb = false) → (p_state p = Errord → data p = None) →
  (p_state p ≠ Errord → d = []) → thread_step p t p' t' →
  i = o ++ default [] (data p) ++ d →
  i ++ accepted p t = (o ++ taken p t) ++ default [] (data p') ++ d.
Proof.
  intros Hd He Hdr Hst Hi. destruct Hst as [p p' t E| | | | |p mb p' t E| | | ];
    try (cbn [accepted taken]; by rewrite !app_nil_r).
  - cbn [accepted taken]. rewrite app_nil_r.
    destruct (read_section_cases p p' t Hd He E) as [(-> & -> & _)|(e & -> & -> & _ & Hn)].
    + rewrite Hi. cbn. by rewrite <- app_assoc.
    + by rewrite app_nil_r.
  - cbn [accepted taken]. rewrite app_nil_r.
    destruct (write_section_cases p mb p' t E) as [(Eg & -> & _)|[(-> & -> & _)|(-> & [e ->] & _)]];
      [|by rewrite app_nil_r..].
    rewrite Eg. assert (d = []) as -> by (apply Hdr; intros Es; unfold getState in Eg; by rewrite Es in Eg).
    rewrite Hi, !app_nil_r. cbn. by rewrite <- app_assoc.
Qed.

(** State and data after a step of a call. *)
Lemma shape_move p t p' t' :
  (∀ mb, data p = Some mb → mb_IsEmpty mb = false) → (p_state p = Errord → data p = None) → arguments_ok t →
  thread_step p t p' t' →
  p_state p' = p_state p ∧ done_closed p' = done_closed p ∧ option_ p' = option_ p ∧
  (p_state p' = Errord → data p' = None) ∧ (∀ mb, data p' = Some mb → mb_IsEmpty mb = false) ∧ arguments_ok t'.
Proof.
  intros Hd He Ha Hst. destruct Hst as [p p' t E| | | | |p mb p' t E| | | ]; try done.
  - destruct (read_section_cases p p' t Hd He E) as [(_ & -> & ->)|(e & _ & -> & -> & _)]; [|done].
    cbn [p_state done_closed option_ data set_data]. split_all; try done. by destruct (data p).
  - destruct (write_section_cases p mb p' t E) as [(Eg & -> & ->)|[(-> & _ & [-> | ->] & _)|(-> & _ & _ & e & ->)]]; try done.
    cbn [p_state done_closed option_ data set_data]. split_all; try done.
    + intros Es. unfold getState in Eg. by rewrite Es in Eg.
    + intros x [= <-]. unfold mb_IsEmpty. rewrite forallb_app. cbn [arguments_ok] in Ha. unfold mb_IsEmpty in Ha.
      rewrite Ha. apply andb_false_r.
Qed.

(** A waiting reader is not forgotten. *)
Lemma read_move s i t p' t' : pipe_inv s → s_threads s !! i = Some t → thread_step (s_pipe s) t p' t' →
  data p' ≠ None → has waits_to_read (<[i := t']> (s_threads s)) →
  readSignal p' = true ∨ has helps_reader (<[i := t']> (s_threads s)).
Proof.
  intros Hs Hi Hst Hd' Hw. pose proof (inv_read s Hs) as HR.
  assert (∀ q, t' = q → helps_reader q = true → readSignal p' = true ∨ has helps_reader (<[i := t']> (s_threads s))) as Hhelp
    by (intros q -> Hq; right; by apply has_new).
  assert (data (s_pipe s) ≠ None → waits_to_read t' = false → helps_reader t = false →
    readSignal p' = readSignal (s_pipe s) →
    readSignal p' = true ∨ has helps_reader (<[i := t']> (s_threads s))) as Hkeep.
  { intros Hd Hwt Hht Hsig. rewrite Hsig. destruct (HR Hd (has_back _ _ _ _ Hwt Hw)); [by left|right].
    by apply (has_keep _ _ _ t). }
  remember (s_pipe s) as p eqn:Ep. destruct Hst as [p p' t E| | | | |p mb p' t E| | | ];
    try (by eapply Hhelp); try (by apply Hkeep); try (by left).
  - subst p. destruct (read_section_cases _ p' t (inv_data s Hs) (inv_errord s Hs) E) as [(_ & -> & _)|(e & _ & -> & _ & Hn)];
      [done|congruence].
  - destruct (write_section_cases p mb p' t E) as [(Eg & -> & ->)|[(-> & _ & [-> | ->] & _)|(-> & _ & _ & e & ->)]];
      try (by eapply Hhelp); by apply Hkeep.
Qed.

(** A waiting writer is not forgotten. *)
Lemma write_move s i t p' t' : pipe_inv s → s_threads s !! i = Some t → thread_step (s_pipe s) t p' t' →
  p_state p' = Open → isFull (option_ p') (data_Len p') = false →
  has waits_to_write (<[i := t']> (s_threads s)) →
  writeSignal p' = true ∨ has helps_writer (<[i := t']> (s_threads s)) ∨ data p' ≠ None.
Proof.
  intros Hs Hi Hst Ho Hf Hw. pose proof (inv_write s Hs) as HW.
  assert (∀ q, t' = q → helps_writer q = true →
    writeSignal p' = true ∨ has helps_writer (<[i := t']> (s_threads s)) ∨ data p' ≠ None) as Hhelp
    by (intros q -> Hq; right; left; by apply has_new).
  assert (p_state (s_pipe s) = Open → isFull (option_ (s_pipe s)) (data_Len (s_pipe s)) = false →
    waits_to_write t' = false → helps_writer t = false → writeSignal p' = writeSignal (s_pipe s) →
    data p' = data (s_pipe s) →
    writeSignal p' = true ∨ has helps_writer (<[i := t']> (s_threads s)) ∨ data p' ≠ None) as Hkeep.
  { intros Ho' Hf' Hwt Hht Hsig Hdat. rewrite Hsig, Hdat.
    destruct (HW Ho' Hf' (has_back _ _ _ _ Hwt Hw)) as [?|[?|?]]; [by left|right; left|by right; right].
    by apply (has_keep _ _ _ t). }
  remember (s_pipe s) as p eqn:Ep. destruct Hst as [p p' t E| | | | |p mb p' t E| | | ];
    try (by eapply Hhelp); try (by apply Hkeep); try (by left).
  - subst p. destruct (read_section_cases _ p' t (inv_data s Hs) (inv_errord s Hs) E) as [(_ & -> & ->)|(e & _ & -> & -> & Hn)];
      [|by eapply Hhelp].
    destruct (data (s_pipe s)) as [x|] eqn:Ed; [by eapply Hhelp|]. apply Hkeep; try done.
    unfold data_Len in *. by rewrite Ed.
  - destruct (write_section_cases p mb p' t E) as [(Eg & -> & ->)|[(-> & _ & _ & Hfull)|(-> & _ & Hno & _)]];
      [by right; right|congruence|done].
Qed.

Lemma spawn_inv s i t : pipe_inv s → arguments_ok t →
  (∀ u, s_threads s !! i = Some u → helps_reader u = false ∧ helps_writer u = false) →
  waits_to_read t = false → waits_to_write t = false → pipe_inv (spawn s i t).
Proof.
  intros [H1 H2 H3 H4 H5 H6 H7 H8] Ha Hu Hr Hw. split; cbn [spawn s_pipe s_threads s_in s_out s_dropped]; try done.
  - intros j x Hj. destruct (decide (j = i)) as [-> |Hne].
    + rewrite lookup_insert_eq in Hj. by injection Hj as <-.
    + rewrite lookup_insert_ne in Hj by done. by apply (H6 j).
  - intros Hd Hx. destruct (H7 Hd (has_back _ _ _ _ Hr Hx)) as [?|(j & x & Hj & Hxx)]; [by left|right].
    exists j, x. split; [|done]. rewrite lookup_insert_ne; [done|]. intros ->. destruct (Hu x Hj). congruence.
  - intros Ho Hf Hx. destruct (H8 Ho Hf (has_back _ _ _ _ Hw Hx)) as [?|[(j & x & Hj & Hxx)|?]];
      [by left|right; left|by right; right].
    exists j, x. split; [|done]. rewrite lookup_insert_ne; [done|]. intros ->. destruct (Hu x Hj). congruence.
Qed.

Lemma finish_inv s st d dr : pipe_inv s → st ≠ Open → p_state (s_pipe s) = Open →
  default [] (data (s_pipe s)) = default [] d ++ dr → (st ≠ Errord → dr = []) → (st = Errord → d = None) →
  (∀ mb, d = Some mb → data (s_pipe s) = Some mb) →
  pipe_inv {| s_pipe := finish st d (s_pipe s); s_threads := s_threads s; s_in := s_in s; s_out := s_out s;
              s_dropped := dr |}.
Proof.
  intros [H1 H2 H3 H4 H5 H6 H7 H8] Hst Ho Hd Hdr He Hsub.
  split; cbn [s_pipe s_threads s_in s_out s_dropped finish p_state data done_closed]; try done.
  - rewrite H1, (H2 ltac:(by rewrite Ho)), app_nil_r, Hd. done.
  - symmetry. by apply bool_decide_eq_true.
  - intros mb Hmb. by apply H5, Hsub.
  - intros Hx. apply H7. destruct d as [mb|]; [|done]. by rewrite (Hsub mb eq_refl).
Qed.

Lemma pipe_step_inv s s' : pipe_inv s → pipe_step s s' → pipe_inv s'.
Proof.
  intros Hs Hst. destruct Hst as [s i Hi|s i mb Hi Hmb|s i t p' t' Hi Hst|s i Hi|s|s|s He|s He].
  - apply spawn_inv; try done. intros u Hu. congruence.
  - apply spawn_inv; try done. intros u Hu. congruence.
  - destruct (shape_move _ _ _ _ (inv_data s Hs) (inv_errord s Hs) (inv_args s Hs i t Hi) Hst)
      as (Es & Ed & _ & Herr & Hdat & Harg).
    split; cbn [moved s_pipe s_threads s_in s_out s_dropped].
    + by apply (fifo_move _ _ _ t' _ _ _ (inv_data s Hs) (inv_errord s Hs) (inv_dropped s Hs) Hst), inv_fifo.
    + rewrite Es. by apply inv_dropped.
    + done.
    + rewrite Es, Ed. by apply inv_done.
    + done.
    + intros j x Hj. destruct (decide (j = i)) as [-> |Hne].
      * rewrite lookup_insert_eq in Hj. by injection Hj as <-.
      * rewrite lookup_insert_ne in Hj by done. by apply (inv_args s Hs j).
    + by apply (read_move s i t).
    + by apply (write_move s i t).
  - apply spawn_inv; try done. intros u Hu. rewrite Hi in Hu. by injection Hu as <-.
  - unfold Close. case_decide as Hc; [by destruct s|].
    assert (p_state (s_pipe s) = Open) as Ho by (destruct (p_state (s_pipe s)); [done|tauto|tauto]).
    unfold with_pipe. rewrite (inv_dropped s Hs) by (by rewrite Ho).
    apply finish_inv; try done. by rewrite app_nil_r.
  - unfold Interrupt. case_decide as Hc.
    + rewrite decide_False by (by destruct Hc as [-> | ->]). by destruct s.
    + assert (p_state (s_pipe s) = Open) as Ho by (destruct (p_state (s_pipe s)); [done|tauto|tauto]).
      rewrite decide_True by done.
      assert ((if data_IsEmpty (s_pipe s) then data (s_pipe s) else None) = None) as ->
        by (destruct (data_IsEmpty (s_pipe s)) eqn:E; [by apply data_empty; [apply inv_data|]|done]).
      by apply finish_inv.
  - by destruct Hs.
  - by destruct Hs.
Qed.

Lemma start_inv opts : pipe_inv (start opts).
Proof.
  split; cbn [start s_pipe s_threads s_in s_out s_dropped New data p_state]; try done.
  intros _ _ (i & t & Hi & _). by rewrite lookup_empty in Hi.
Qed.

Lemma reachable_inv opts s : reachable opts s → pipe_inv s.
Proof.
  unfold reachable. intros Hr. remember (start opts) as s0 eqn:E. assert (pipe_inv s0) as H0 by (subst; apply start_inv).
  clear E. induction Hr as [|s1 s2 s3 Hst _ IH]; [done|]. apply IH. by apply (pipe_step_inv s1).
Qed.

(** ** What a pipe promises *)


(** No call can proceed by itself. *)
Definition quiescent (s : system) : Prop :=
  ∀ i t p' t', s_threads s !! i = Some t → ¬ thread_step (s_pipe s) t p' t'.

Lemma quiescent_threads s i t : quiescent s → s_threads s !! i = Some t →
  helps_reader t = false ∧ helps_writer t = false ∧
  (waits_to_read t = true → readSignal (s_pipe s) = false ∧ done_closed (s_pipe s) = false) ∧
  (waits_to_write t = true → writeSignal (s_pipe s) = false ∧ done_closed (s_pipe s) = false).
Proof.
  intros Hq Hi. pose proof (λ p' t', Hq i t p' t' Hi) as Hn.
  destruct t as [|r| |r|mb|r|mb|r]; cbn [helps_reader helps_writer waits_to_read waits_to_write]; split_all; try done.
  - destruct (read_section (s_pipe s)) as [p' t'] eqn:E. by edestruct Hn; constructor.
  - by edestruct Hn; constructor.
  - destruct (readSignal (s_pipe s)) eqn:E; [|by destruct (done_closed (s_pipe s)) eqn:E'; [edestruct Hn; by constructor|]].
    edestruct Hn. by constructor.
  - destruct (write_section mb (s_pipe s)) as [p' t'] eqn:E. by edestruct Hn; constructor.
  - by edestruct Hn; constructor.
  - destruct (writeSignal (s_pipe s)) eqn:E; [|by destruct (done_closed (s_pipe s)) eqn:E'; [edestruct Hn; by constructor|]].
    edestruct Hn. by constructor.
Qed.

Lemma quiescent_has s f : quiescent s → (∀ t, f t = true → helps_reader t = true ∨ helps_writer t = true) →
  ¬ has f (s_threads s).
Proof.
  intros Hq Hf (i & t & Hi & Ht). destruct (quiescent_threads s i t Hq Hi) as (H1 & H2 & _).
  destruct (Hf t Ht); congruence.
Qed.

Lemma full_has_data p : isFull (option_ p) (data_Len p) = true → data p ≠ None.
Proof.
  unfold isFull, data_Len. intros E%bool_decide_eq_true Hn. rewrite Hn in E. cbn in E. lia.
Qed.

(** C35. No wake-up is lost: when no call can proceed by itself, a reader waits
    only while the pipe is open and holds nothing, and if a writer waits then the
    pipe is open and holds data, and nobody is reading. *)
Theorem pipe_no_lost_wakeup (opts : list Option_) (s : system) :
  reachable opts s → quiescent s →
  (has waits_to_read (s_threads s) → p_state (s_pipe s) = Open ∧ data (s_pipe s) = None) ∧
  (has waits_to_write (s_threads s) → p_state (s_pipe s) = Open ∧ data (s_pipe s) ≠ None ∧
     ∀ i t, s_threads s !! i = Some t → match t with RCheck | RSignal _ | RWait => False | _ => True end).
Proof.
  intros Hr%reachable_inv Hq.
  assert (¬ has helps_reader (s_threads s)) as HnR by (apply quiescent_has; [done|by left]).
  assert (¬ has helps_writer (s_threads s)) as HnW by (apply quiescent_has; [done|by right]).
  assert (∀ b, done_closed (s_pipe s) = b → b = false → p_state (s_pipe s) = Open) as Hopen.
  { intros b Hb ->. rewrite (inv_done s Hr) in Hb. apply bool_decide_eq_false in Hb.
    by destruct (decide (p_state (s_pipe s) = Open)). }
  assert (has waits_to_read (s_threads s) → data (s_pipe s) = None) as Hread.
  { intros (i & t & Hi & Ht). destruct (data (s_pipe s)) eqn:Ed; [|done].
    destruct (quiescent_threads s i t Hq Hi) as (_ & _ & Hs & _). destruct (Hs Ht) as [Hsig _].
    destruct (inv_read s Hr) as [?|?]; [by rewrite Ed|by exists i, t|congruence|done]. }
  split.
  - intros Hw. pose proof (Hread Hw) as Hd. destruct Hw as (i & t & Hi & Ht).
    destruct (quiescent_threads s i t Hq Hi) as (_ & _ & Hs & _). split; [|done]. by eapply Hopen; [|apply Hs].
  - intros Hw. pose proof Hw as (i & t & Hi & Ht).
    destruct (quiescent_threads s i t Hq Hi) as (_ & _ & _ & Hs). destruct (Hs Ht) as [Hsig Hdone].
    assert (p_state (s_pipe s) = Open) as Ho by (by eapply Hopen).
    assert (data (s_pipe s) ≠ None) as Hd.
    { destruct (isFull (option_ (s_pipe s)) (data_Len (s_pipe s))) eqn:Ef; [by apply full_has_data|].
      destruct (inv_write s Hr Ho Ef Hw) as [?|[?|?]]; [congruence|done|done]. }
    split; [done|]. split; [done|]. intros j u Hj. destruct u; try done.
    + apply HnR. by exists j, RCheck.
    + apply HnW. by eexists j, _.
    + apply Hd, Hread. by exists j, RWait.
Qed.

(** ** Concrete runs *)

(** A reader that found nothing and waits. *)
Definition waiting_reader : system :=
  {| s_pipe := set_data None (New []); s_threads := <[0%nat := RWait]> (<[0%nat := RCheck]> ∅); s_in := [];
     s_out := []; s_dropped := [] |}.

Lemma waiting_reader_reachable : reachable [] waiting_reader.
Proof.
  eapply rtc_l; [apply (sys_read (start []) 0); reflexivity|].
  eapply rtc_l; [|apply rtc_refl].
  change waiting_reader with (moved (spawn (start []) 0 RCheck) 0 RCheck (set_data None (New [])) RWait).
  by apply sys_move; [|apply step_check].
Qed.

Lemma waiting_reader_quiescent : quiescent waiting_reader.
Proof.
  intros i t p' t' Hi Hst. cbn [waiting_reader s_threads] in Hi. rewrite insert_insert_eq in Hi.
  apply lookup_insert_Some in Hi as [[<- <-]|[_ Hi]]; [|by rewrite lookup_empty in Hi].
  inversion Hst; by subst.
Qed.


Lemma pipe_no_lost_wakeup_witness :
  (has waits_to_read (s_threads waiting_reader) →
     p_state (s_pipe waiting_reader) = Open ∧ data (s_pipe waiting_reader) = None) ∧
  (has waits_to_write (s_threads waiting_reader) →
     p_state (s_pipe waiting_reader) = Open ∧ data (s_pipe waiting_reader) ≠ None ∧
     ∀ i t, s_threads waiting_reader !! i = Some t →
            match t with RCheck | RSignal _ | RWait => False | _ => True end).
Proof.
  apply (pipe_no_lost_wakeup [] waiting_reader); [apply waiting_reader_reachable|apply waiting_reader_quiescent].
Defined.

(** A write into an empty pipe, the wake-up of the waiting reader, and the read. *)
Example write_reaches_reader :
  let mb := [FromBytes (lit "hi")] in
  let '(p, w) := write_section mb (s_pipe waiting_reader) in
  let '(p', r) := read_section p in
  w = WSignal None ∧ data p = Some mb ∧ r = RSignal (inl (Some mb)) ∧ data p' = None.
Proof. by vm_compute. Qed.
