(* ===== verification/KcpSegment.v ===== *)
(** The packets of the mKCP transport
    (src/upstream/xray-core/transport/internet/kcp: segment.go, crypt.go, xor.go,
    io.go): segments with their wire form, the legacy authenticator, and packets
    of several segments. *)
From S2P Require Import Prelude Buf.

(** ** Segments *)

Definition CommandACK : Z := 0.
Definition CommandData : Z := 1.
Definition CommandTerminate : Z := 2.
Definition CommandPing : Z := 3.
Definition SegmentOptionClose : Z := 1.
Definition DataSegmentOverhead : Z := 18.
Definition ackNumberLimit : nat := 128.

(** The payload is the content of its buffer. *)
Record DataSegment := {
  d_Conv : Z; d_Option : Z; d_Timestamp : Z; d_Number : Z; d_SendingNext : Z;
  d_payload : bytes; d_timeout : Z; d_transmit : Z
}.

Record AckSegment := {
  a_Conv : Z; a_Option : Z; a_ReceivingWindow : Z; a_ReceivingNext : Z; a_Timestamp : Z;
  a_NumberList : list Z
}.

Record CmdOnlySegment := {
  c_Conv : Z; c_Cmd : Z; c_Option : Z; c_SendingNext : Z; c_ReceivingNext : Z; c_PeerRTO : Z
}.

Inductive Segment := SegData (d : DataSegment) | SegAck (a : AckSegment) | SegCmd (c : CmdOnlySegment).

#[global] Instance DataSegment_eq_dec : EqDecision DataSegment.
Proof. solve_decision. Defined.
#[global] Instance AckSegment_eq_dec : EqDecision AckSegment.
Proof. solve_decision. Defined.
#[global] Instance CmdOnlySegment_eq_dec : EqDecision CmdOnlySegment.
Proof. solve_decision. Defined.
#[global] Instance Segment_eq_dec : EqDecision Segment.
Proof. solve_decision. Defined.

Definition NewAckSegment : AckSegment :=
  {| a_Conv := 0; a_Option := 0; a_ReceivingWindow := 0; a_ReceivingNext := 0; a_Timestamp := 0;
     a_NumberList := [] |}.

Definition PutTimestamp (timestamp : Z) (s : AckSegment) : AckSegment :=
  if decide (u32 (timestamp - a_Timestamp s) < 0x7FFFFFFF)
  then {| a_Conv := a_Conv s; a_Option := a_Option s; a_ReceivingWindow := a_ReceivingWindow s;
          a_ReceivingNext := a_ReceivingNext s; a_Timestamp := timestamp; a_NumberList := a_NumberList s |}
  else s.

Definition PutNumber (number : Z) (s : AckSegment) : AckSegment :=
  {| a_Conv := a_Conv s; a_Option := a_Option s; a_ReceivingWindow := a_ReceivingWindow s;
     a_ReceivingNext := a_ReceivingNext s; a_Timestamp := a_Timestamp s;
     a_NumberList := a_NumberList s ++ [number] |}.

Definition AckSegment_IsFull (s : AckSegment) : bool := bool_decide (length (a_NumberList s) = ackNumberLimit).
Definition AckSegment_IsEmpty (s : AckSegment) : bool := bool_decide (length (a_NumberList s) = 0%nat).

Definition Conversation (s : Segment) : Z :=
  match s with SegData d => d_Conv d | SegAck a => a_Conv a | SegCmd c => c_Conv c end.

Definition Segment_Command (s : Segment) : Z :=
  match s with SegData _ => CommandData | SegAck _ => CommandACK | SegCmd c => c_Cmd c end.

Definition ByteSize (s : Segment) : Z :=
  match s with
  | SegData d => 2 + 1 + 1 + 4 + 4 + 4 + 2 + Z.of_nat (length (d_payload d))
  | SegAck a => 2 + 1 + 1 + 4 + 4 + 4 + 1 + i32 (Z.of_nat (length (a_NumberList a)) * 4)
  | SegCmd _ => 2 + 1 + 1 + 4 + 4 + 4
  end.

(** What [Serialize] puts into a slice of [ByteSize] bytes. *)
Definition Segment_Serialize (s : Segment) : bytes :=
  match s with
  | SegData d =>
    be_bytes 2 (d_Conv d) ++ [CommandData; d_Option d] ++ be_bytes 4 (d_Timestamp d) ++
    be_bytes 4 (d_Number d) ++ be_bytes 4 (d_SendingNext d) ++
    be_bytes 2 (u16 (Z.of_nat (length (d_payload d)))) ++ d_payload d
  | SegAck a =>
    be_bytes 2 (a_Conv a) ++ [CommandACK; a_Option a] ++ be_bytes 4 (a_ReceivingWindow a) ++
    be_bytes 4 (a_ReceivingNext a) ++ be_bytes 4 (a_Timestamp a) ++
    [u8 (Z.of_nat (length (a_NumberList a)))] ++ mjoin (be_bytes 4 <$> a_NumberList a)
  | SegCmd c =>
    be_bytes 2 (c_Conv c) ++ [c_Cmd c; c_Option c] ++ be_bytes 4 (c_SendingNext c) ++
    be_bytes 4 (c_ReceivingNext c) ++ be_bytes 4 (c_PeerRTO c)
  end.

(** ** Parsing *)

(** [parse] of the three kinds: a segment and the bytes behind it, or not
    valid. *)
Definition parse_data (conv opt : Z) (buf : bytes) : outcome (Segment * bytes) :=
  if decide (length buf < 15)%nat then Fail
  else
    let? (timestamp, buf) := read_be 4 buf in
    let? (number, buf) := read_be 4 buf in
    let? (sendingNext, buf) := read_be 4 buf in
    let? (dataLen, buf) := read_be 2 buf in
    let dataLen := Z.to_nat dataLen in
    if decide (length buf < dataLen)%nat then Fail
    else Ret (SegData {| d_Conv := conv; d_Option := opt; d_Timestamp := timestamp; d_Number := number;
                         d_SendingNext := sendingNext; d_payload := take Size (take dataLen buf);
                         d_timeout := 0; d_transmit := 0 |}, drop dataLen buf).

Fixpoint parse_numbers (count : nat) (buf : bytes) (numbers : list Z) : outcome (list Z * bytes) :=
  match count with
  | O => Ret (numbers, buf)
  | S count => let? (n, buf) := read_be 4 buf in parse_numbers count buf (numbers ++ [n])
  end.

Definition parse_ack (conv opt : Z) (buf : bytes) : outcome (Segment * bytes) :=
  if decide (length buf < 13)%nat then Fail
  else
    let? (receivingWindow, buf) := read_be 4 buf in
    let? (receivingNext, buf) := read_be 4 buf in
    let? (timestamp, buf) := read_be 4 buf in
    let? (count, buf) := read_be 1 buf in
    let count := Z.to_nat count in
    if decide (length buf < count * 4)%nat then Fail
    else
      let? (numbers, buf) := parse_numbers count buf [] in
      Ret (SegAck {| a_Conv := conv; a_Option := opt; a_ReceivingWindow := receivingWindow;
                     a_ReceivingNext := receivingNext; a_Timestamp := timestamp;
                     a_NumberList := numbers |}, buf).

Definition parse_cmd (conv cmd opt : Z) (buf : bytes) : outcome (Segment * bytes) :=
  if decide (length buf < 12)%nat then Fail
  else
    let? (sendingNext, buf) := read_be 4 buf in
    let? (receivingNext, buf) := read_be 4 buf in
    let? (peerRTO, buf) := read_be 4 buf in
    Ret (SegCmd {| c_Conv := conv; c_Cmd := cmd; c_Option := opt; c_SendingNext := sendingNext;
                   c_ReceivingNext := receivingNext; c_PeerRTO := peerRTO |}, buf).

Definition ReadSegment (buf : bytes) : outcome (Segment * bytes) :=
  if decide (length buf < 4)%nat then Fail
  else
    let? (conv, buf) := read_be 2 buf in
    let? (cmd, buf) := read_be 1 buf in
    let? (opt, buf) := read_be 1 buf in
    if decide (cmd = CommandData) then parse_data conv opt buf
    else if decide (cmd = CommandACK) then parse_ack conv opt buf
    else parse_cmd conv cmd opt buf.

(** The loop of [KCPPacketReader.Read]; a segment has at least four bytes. *)
Fixpoint read_segments (fuel : nat) (b : bytes) : outcome (list Segment) :=
  match b with
  | [] => Ret []
  | _ =>
    match fuel with
    | O => Panic
    | S fuel =>
      match ReadSegment b with
      | Fail => Ret []
      | Panic => Panic
      | Ret (seg, x) => let? segs := read_segments fuel x in Ret (seg :: segs)
      end
    end
  end.

(** ** The round trip *)

Lemma read_be_byte c rest : read_be 1 (c :: rest) = Ret (c, rest).
Proof. rewrite read_be_long by (cbn [length]; lia). cbn. by replace (0 * 256 + c) with c by lia. Qed.

(** The fields fit their widths, the payload fits its buffer, and the command of
    a command segment is not one of the two others. *)
Definition wf_segment (s : Segment) : Prop :=
  match s with
  | SegData d =>
    is_uint 16 (d_Conv d) ∧ is_uint 8 (d_Option d) ∧ is_uint 32 (d_Timestamp d) ∧ is_uint 32 (d_Number d) ∧
    is_uint 32 (d_SendingNext d) ∧ Z.of_nat (length (d_payload d)) ≤ 8192
  | SegAck a =>
    is_uint 16 (a_Conv a) ∧ is_uint 8 (a_Option a) ∧ is_uint 32 (a_ReceivingWindow a) ∧
    is_uint 32 (a_ReceivingNext a) ∧ is_uint 32 (a_Timestamp a) ∧ (length (a_NumberList a) ≤ 255)%nat ∧
    Forall (is_uint 32) (a_NumberList a)
  | SegCmd c =>
    is_uint 16 (c_Conv c) ∧ is_uint 8 (c_Cmd c) ∧ is_uint 8 (c_Option c) ∧ is_uint 32 (c_SendingNext c) ∧
    is_uint 32 (c_ReceivingNext c) ∧ is_uint 32 (c_PeerRTO c) ∧ c_Cmd c ≠ CommandACK ∧ c_Cmd c ≠ CommandData
  end.

#[global] Instance wf_segment_dec s : Decision (wf_segment s).
Proof. destruct s; apply _. Defined.

(** The state of a sender that is not sent. *)
Definition sent (s : Segment) : Segment :=
  match s with
  | SegData d => SegData {| d_Conv := d_Conv d; d_Option := d_Option d; d_Timestamp := d_Timestamp d;
                            d_Number := d_Number d; d_SendingNext := d_SendingNext d; d_payload := d_payload d;
                            d_timeout := 0; d_transmit := 0 |}
  | s => s
  end.

Ltac read_field :=
  first [ rewrite read_be_byte
        | rewrite read_be_bytes
            by (unfold is_uint in *; change (256 ^ Z.of_nat 2) with (2 ^ 16);
                change (256 ^ Z.of_nat 4) with (2 ^ 32); lia) ];
  cbn [outcome_bind].

Lemma numbers_length l : length (mjoin (be_bytes 4 <$> l)) = (length l * 4)%nat.
Proof.
  induction l as [|n l IH]; [done|]. rewrite fmap_cons. change (mjoin (?x :: ?l)) with (x ++ mjoin l).
  rewrite length_app, be_bytes_length, IH. cbn [length]. lia.
Qed.

Lemma parse_numbers_spec l rest acc :
  Forall (is_uint 32) l →
  parse_numbers (length l) (mjoin (be_bytes 4 <$> l) ++ rest) acc = Ret (acc ++ l, rest).
Proof.
  intros H. revert acc. induction H as [|n l Hn _ IH]; intros acc; [by rewrite app_nil_r|].
  cbn [length parse_numbers fmap list_fmap]. change (mjoin (?x :: ?l)) with (x ++ mjoin l).
  rewrite <- (assoc_L (++)). read_field. rewrite IH. by rewrite <- (assoc_L (++)).
Qed.

(** An empty payload is only parsed when something follows. *)
Definition parses (s : Segment) (rest : bytes) : Prop :=
  match s with SegData d => d_payload d ≠ [] ∨ rest ≠ [] | _ => True end.

#[global] Instance parses_dec s rest : Decision (parses s rest).
Proof. destruct s; apply _. Defined.

Lemma parse_data_spec d rest :
  wf_segment (SegData d) → parses (SegData d) rest →
  parse_data (d_Conv d) (d_Option d) (be_bytes 4 (d_Timestamp d) ++ be_bytes 4 (d_Number d) ++
    be_bytes 4 (d_SendingNext d) ++ be_bytes 2 (u16 (Z.of_nat (length (d_payload d)))) ++ d_payload d ++ rest) =
  Ret (sent (SegData d), rest).
Proof.
  intros (? & ? & ? & ? & ? & Hlen) Hne. unfold parse_data.
  rewrite decide_False.
  2: { rewrite !length_app, !be_bytes_length. destruct Hne as [Hne|Hne]; destruct (d_payload d), rest; cbn [length]; try done; lia. }
  rewrite (wrap_small 16) by (unfold is_uint; lia). do 4 read_field.
  rewrite Nat2Z.id, decide_False by (rewrite length_app; lia).
  rewrite take_app_length, drop_app_length. rewrite take_ge; [done|].
  apply Nat2Z.inj_le. change (Z.of_nat Size) with 8192. lia.
Qed.

Lemma parse_ack_spec a rest :
  wf_segment (SegAck a) →
  parse_ack (a_Conv a) (a_Option a) (be_bytes 4 (a_ReceivingWindow a) ++ be_bytes 4 (a_ReceivingNext a) ++
    be_bytes 4 (a_Timestamp a) ++ u8 (Z.of_nat (length (a_NumberList a))) ::
    mjoin (be_bytes 4 <$> a_NumberList a) ++ rest) = Ret (SegAck a, rest).
Proof.
  intros (? & ? & ? & ? & ? & Hlen & Hnums). unfold parse_ack.
  rewrite decide_False by (rewrite !length_app, !be_bytes_length; cbn [length]; lia).
  rewrite (wrap_small 8) by (unfold is_uint; lia).
  do 4 read_field.
  rewrite Nat2Z.id, decide_False.
  2: { rewrite length_app, numbers_length. lia. }
  rewrite parse_numbers_spec by done. cbn [outcome_bind]. by destruct a.
Qed.

Lemma parse_cmd_spec c rest :
  wf_segment (SegCmd c) →
  parse_cmd (c_Conv c) (c_Cmd c) (c_Option c) (be_bytes 4 (c_SendingNext c) ++ be_bytes 4 (c_ReceivingNext c) ++
    be_bytes 4 (c_PeerRTO c) ++ rest) = Ret (SegCmd c, rest).
Proof.
  intros (? & ? & ? & ? & ? & ? & _). unfold parse_cmd.
  rewrite decide_False by (rewrite !length_app, !be_bytes_length; lia).
  do 3 read_field. by destruct c.
Qed.

Lemma ReadSegment_Serialize s rest :
  wf_segment s → parses s rest → ReadSegment (Segment_Serialize s ++ rest) = Ret (sent s, rest).
Proof.
  intros Hs Hp. unfold ReadSegment.
  rewrite decide_False by (rewrite length_app; destruct s; cbn [Segment_Serialize]; rewrite !length_app, !be_bytes_length; cbn [length]; lia).
  destruct s as [d|a|c]; cbn [Segment_Serialize]; rewrite <- !(assoc_L (++)); cbn [app]; pose proof Hs as (? & Hrest).
  - do 3 read_field. rewrite decide_True by done. by apply parse_data_spec.
  - do 3 read_field. rewrite decide_False, decide_True by done. by apply parse_ack_spec.
  - do 3 read_field. rewrite !decide_False by naive_solver. by apply parse_cmd_spec.
Qed.

(** ** Totality *)

Ltac total_fields :=
  repeat (rewrite read_be_long by (rewrite ?length_drop; lia); cbn [outcome_bind]).

Lemma parse_numbers_total count buf acc :
  (count * 4 ≤ length buf)%nat →
  ∃ l, parse_numbers count buf acc = Ret (l, drop (count * 4) buf).
Proof.
  revert buf acc. induction count as [|count IH]; intros buf acc Hlen; cbn [parse_numbers]; [by eauto|].
  total_fields. destruct (IH (drop 4 buf) (acc ++ [be_val (take 4 buf)])) as (l & ->).
  { rewrite length_drop. lia. }
  exists l. by rewrite drop_drop.
Qed.

(** Parsing never panics, and a parsed segment has at least sixteen bytes. *)
Lemma ReadSegment_total buf :
  ReadSegment buf = Fail ∨ ∃ s rest, ReadSegment buf = Ret (s, rest) ∧ (length rest + 16 ≤ length buf)%nat.
Proof.
  unfold ReadSegment. case_decide; [by left|]. total_fields.
  case_decide; [|case_decide]; [unfold parse_data|unfold parse_ack|unfold parse_cmd];
    case_decide as Hlong; try (by left); rewrite ?length_drop in Hlong; total_fields.
  - case_decide; [by left|]. right. do 2 eexists. split; [done|]. rewrite !length_drop in *. lia.
  - case_decide as Hcount; [by left|]. rewrite !length_drop in Hcount.
    edestruct parse_numbers_total as (l & ->); [|cbn [outcome_bind]; right; do 2 eexists; split; [done|]];
      rewrite !length_drop in *; lia.
  - right. do 2 eexists. split; [done|]. rewrite !length_drop. lia.
Qed.

(** The loop ends: fuel for every byte is enough, and more changes nothing. *)
Lemma read_segments_total fuel b :
  (length b ≤ fuel)%nat → ∃ segs, read_segments fuel b = Ret segs ∧ (16 * length segs ≤ length b)%nat.
Proof.
  revert b. induction fuel as [|fuel IH]; intros b Hb.
  { destruct b; [|cbn in Hb; lia]. by exists []. }
  cbn [read_segments]. destruct b as [|c b]; [by exists []|].
  destruct (ReadSegment_total (c :: b)) as [-> | (s & rest & -> & Hlen)].
  { exists []. split; [done|]. cbn; lia. }
  destruct (IH rest) as (segs & -> & Hsegs); [lia|].
  exists (s :: segs). split; [done|]. cbn [length] in *. lia.
Qed.

Lemma read_segments_fuel fuel b :
  (length b ≤ fuel)%nat → read_segments fuel b = read_segments (length b) b.
Proof.
  remember (length b) as n eqn:Hn. revert fuel b Hn.
  induction n as [n IH] using lt_wf_ind. intros fuel b -> Hb.
  destruct b as [|c b]; [by destruct fuel|]. destruct fuel as [|fuel]; [cbn in Hb; lia|].
  cbn [read_segments length]. destruct (ReadSegment_total (c :: b)) as [-> | (s & rest & -> & Hlen)]; [done|].
  cbn [length] in *. rewrite (IH (length rest)) by lia. symmetry.
  rewrite (IH (length rest)) by lia. done.
Qed.

(** Several segments in one packet, the last with a payload if it is data. *)
Fixpoint all_parse (segs : list Segment) : Prop :=
  match segs with
  | [] => True
  | s :: segs => parses s (mjoin (Segment_Serialize <$> segs)) ∧ all_parse segs
  end.

#[global] Instance all_parse_dec segs : Decision (all_parse segs).
Proof. induction segs; apply _. Defined.

Lemma Serialize_not_nil s : Segment_Serialize s ≠ [].
Proof. destruct s; cbn [Segment_Serialize be_bytes]; done. Qed.

Lemma read_segments_serialize segs :
  Forall wf_segment segs → all_parse segs →
  read_segments (length (mjoin (Segment_Serialize <$> segs))) (mjoin (Segment_Serialize <$> segs)) =
  Ret (sent <$> segs).
Proof.
  intros Hwf. induction Hwf as [|s segs Hs _ IH]; [done|]. intros [Hp Hall].
  rewrite fmap_cons. change (mjoin (?x :: ?l)) with (x ++ mjoin l).
  set (rest := mjoin (Segment_Serialize <$> segs)) in *.
  pose proof (ReadSegment_Serialize s rest Hs Hp) as Hread.
  destruct (Segment_Serialize s) as [|c b] eqn:Eb; [by apply Serialize_not_nil in Eb|].
  rewrite <- app_comm_cons in *. cbn [length read_segments]. rewrite Hread.
  rewrite read_segments_fuel by (rewrite length_app; lia). by rewrite IH.
Qed.
