(* ===== verification/KcpPacket.v ===== *)
(** Packets of the mKCP transport: the disguising headers
    (src/upstream/xray-core/transport/internet/headers: noop, srtp, utp, wechat,
    tls/dtls.go, dns), the legacy authenticator and the packet reader and writer
    (src/upstream/xray-core/transport/internet/kcp: crypt.go, xor.go, io.go). *)
From S2P Require Import Prelude Buf KcpSegment.

(** ** Headers *)

(** The interface [internet.PacketHeader]: [Serialize] fills a slice of [Size]
    bytes and may change the header; [roll] is what [dice.RollUint16] returns. *)
Class PacketHeader (H : Type) := {
  header_Size : H → nat;
  header_Serialize : Z → H → H * bytes;
  header_Serialize_length roll h : length (header_Serialize roll h).2 = header_Size h;
  header_Serialize_Size roll h : header_Size (header_Serialize roll h).1 = header_Size h
}.

Inductive NoOpHeader := NewNoOpHeader.
Definition NoOp_Serialize (roll : Z) (h : NoOpHeader) : NoOpHeader * bytes := (h, []).

Record SRTP := { srtp_header : Z; srtp_number : Z }.
Definition SRTP_New (roll : Z) : SRTP := {| srtp_header := 0xB5E8; srtp_number := roll |}.
Definition SRTP_Serialize (roll : Z) (s : SRTP) : SRTP * bytes :=
  let s := {| srtp_header := srtp_header s; srtp_number := u16 (srtp_number s + 1) |} in
  (s, be_bytes 2 (srtp_header s) ++ be_bytes 2 (srtp_number s)).

Record UTP := { utp_header : Z; utp_extension : Z; utp_connectionID : Z }.
Definition UTP_New (roll : Z) : UTP := {| utp_header := 1; utp_extension := 0; utp_connectionID := roll |}.
Definition UTP_Serialize (roll : Z) (u : UTP) : UTP * bytes :=
  (u, be_bytes 2 (utp_connectionID u) ++ [utp_header u; utp_extension u]).

Record VideoChat := { sn : Z }.
Definition NewVideoChat (roll : Z) : VideoChat := {| sn := u32 roll |}.
Definition VideoChat_Serialize (roll : Z) (vc : VideoChat) : VideoChat * bytes :=
  let vc := {| sn := u32 (sn vc + 1) |} in
  (vc, [0xa1; 0x08] ++ be_bytes 4 (sn vc) ++ [0x00; 0x10; 0x11; 0x18; 0x30; 0x22; 0x30]).

Record DTLS := { epoch : Z; dtls_length : Z; sequence : Z }.
Definition DTLS_New (roll : Z) : DTLS := {| epoch := roll; dtls_length := 17; sequence := 0 |}.
Definition DTLS_Serialize (roll : Z) (d : DTLS) : DTLS * bytes :=
  let out := [23; 254; 253; u8 (Z.shiftr (epoch d) 8); u8 (epoch d); 0; 0;
              u8 (Z.shiftr (sequence d) 24); u8 (Z.shiftr (sequence d) 16); u8 (Z.shiftr (sequence d) 8);
              u8 (sequence d); u8 (Z.shiftr (dtls_length d) 8); u8 (dtls_length d)] in
  let length := u16 (dtls_length d + 17) in
  let length := if decide (100 < length) then u16 (length - 50) else length in
  ({| epoch := epoch d; dtls_length := length; sequence := u32 (sequence d + 1) |}, out).

(** [packDomainName] into a slice of 256 bytes: [out] is what has been written,
    [label] the bytes since the last dot.  A backslash is removed and the byte
    behind it taken as it is. *)
Definition msg_len : nat := 256.

Fixpoint pack_loop (s label out : bytes) : option bytes :=
  match s with
  | [] => Some out
  | c :: s =>
    if decide (c = 92) then
      if decide (msg_len < length out + 1)%nat then None
      else match s with [] => Some out | d :: s => pack_loop s (label ++ [d]) out end
    else if decide (c = 46) then
      if decide (64 ≤ length label)%nat then None
      else if decide (msg_len < length out + 1 + length label)%nat then None
      else pack_loop s [] (out ++ Z.of_nat (length label) :: label)
    else pack_loop s (label ++ [c]) out
  end.

(** The part of the slice that was written, and the offset behind it. *)
Definition packDomainName (s : bytes) : option (bytes * nat) :=
  out ← pack_loop s [] [];
  Some (if decide (length out < msg_len)%nat then out ++ [0] else out, (length out + 1)%nat).

Record DNS := { dns_header : bytes }.

(** [buf[:off1]] panics when the name has used up the slice. *)
Definition NewDNS (domain : bytes) : outcome DNS :=
  match packDomainName (domain ++ [46]) with
  | None => Fail
  | Some (msg, off1) =>
    if decide (msg_len < off1)%nat then Panic
    else Ret {| dns_header :=
      be_bytes 2 0x0000 ++ be_bytes 2 0x0100 ++ be_bytes 2 0x0001 ++ be_bytes 2 0x0000 ++
      be_bytes 2 0x0000 ++ be_bytes 2 0x0000 ++ take off1 msg ++ be_bytes 2 0x0001 ++ be_bytes 2 0x0001 |}
  end.

Definition DNS_Serialize (roll : Z) (d : DNS) : DNS * bytes := (d, overwrite (dns_header d) 0 (be_bytes 2 roll)).

#[global] Instance NoOp_header : PacketHeader NoOpHeader.
Proof. by refine {| header_Size := λ _, 0%nat; header_Serialize := NoOp_Serialize |}. Defined.
#[global] Instance SRTP_header : PacketHeader SRTP.
Proof. by refine {| header_Size := λ _, 4%nat; header_Serialize := SRTP_Serialize |}. Defined.
#[global] Instance UTP_header : PacketHeader UTP.
Proof. by refine {| header_Size := λ _, 4%nat; header_Serialize := UTP_Serialize |}. Defined.
#[global] Instance VideoChat_header : PacketHeader VideoChat.
Proof. by refine {| header_Size := λ _, 13%nat; header_Serialize := VideoChat_Serialize |}. Defined.
#[global] Instance DTLS_header : PacketHeader DTLS.
Proof. by refine {| header_Size := λ _, 13%nat; header_Serialize := DTLS_Serialize |}. Defined.
#[global] Instance DNS_header : PacketHeader DNS.
Proof.
  refine {| header_Size := λ d, length (dns_header d); header_Serialize := DNS_Serialize |}; [|done].
  intros roll d. unfold DNS_Serialize, overwrite. cbn [snd].
  rewrite !length_app, length_drop, !length_take. cbn [length Nat.min]. lia.
Defined.

(** ** The legacy authenticator *)

(** [hash/fnv.New32a]. *)
Definition fnv32a (data : bytes) : Z := foldl (λ h c, u32 (Z.lxor h c * 16777619)) 2166136261 data.

(** [x[i] ^= x[i-4]]. *)
Definition xor_at (x : bytes) (i : nat) : bytes :=
  match x !! i, x !! (i - 4)%nat with
  | Some a, Some b => <[i := Z.lxor a b]> x
  | _, _ => x
  end.

Definition xorfwd (x : bytes) : bytes := foldl xor_at x (seq 4 (length x - 4)).
Definition xorbkd (x : bytes) : bytes := foldl xor_at x (reverse (seq 4 (length x - 4))).

(** Padding to a multiple of four, removed afterwards. *)
Definition xtra (n : nat) : nat := 4 - n mod 4.
Definition padded (f : bytes → bytes) (dst : bytes) : bytes :=
  let dstLen := length dst in
  if decide (xtra dstLen = 4%nat) then f dst else take dstLen (f (dst ++ replicate (xtra dstLen) 0)).

Definition auth_body (plain : bytes) : bytes := be_bytes 2 (u16 (Z.of_nat (length plain))) ++ plain.

Definition unscrambled (plain : bytes) : bytes := be_bytes 4 (fnv32a (auth_body plain)) ++ auth_body plain.

Definition Simple_Seal (plain : bytes) : bytes := padded xorfwd (unscrambled plain).

(** [Open] into an empty slice of capacity six or more. *)
Definition Simple_Open (cipherText : bytes) : outcome bytes :=
  let dst := padded xorbkd cipherText in
  if decide (length dst < 4)%nat then Panic
  else if decide (be_val (take 4 dst) ≠ fnv32a (drop 4 dst)) then Fail
  else if decide (Z.of_nat (length dst) - 6 ≠ be_val (take 2 (drop 4 dst))) then Fail
  else Ret (drop 6 dst).

(** [crypto/cipher.AEAD].  [aead_Seal_in cap nonce plain] is what is left in a
    slice of the length of the sealed text and of capacity [cap] after sealing
    into it. *)
Record AEAD := {
  NonceSize : nat;
  Overhead : nat;
  aead_Seal_in : nat → bytes → bytes → bytes;
  aead_Open : bytes → bytes → outcome bytes
}.

(** Without room for the padding the last [append] moves to another array, and
    the slice keeps the unscrambled text. *)
Definition SimpleAuthenticator : AEAD := {|
  NonceSize := 0;
  Overhead := 6;
  aead_Seal_in cap _ plain :=
    let n := (6 + length plain)%nat in
    if decide (n + xtra n mod 4 ≤ cap)%nat then Simple_Seal plain else unscrambled plain;
  aead_Open _ cipherText := Simple_Open cipherText
|}.

(** ** Reading and writing packets *)

(** The security and the header of the reader, both of which may be nil. *)
Definition open_packet (security : option AEAD) (b : bytes) : outcome bytes :=
  match security with
  | None => Ret b
  | Some a =>
    if decide (length b ≤ NonceSize a + Overhead a)%nat then Fail
    else aead_Open a (take (NonceSize a) b) (drop (NonceSize a) b)
  end.

Definition skip_header (headerSize : option nat) (b : bytes) : outcome bytes :=
  match headerSize with
  | None => Ret b
  | Some n => if decide (length b ≤ n)%nat then Fail else Ret (drop n b)
  end.

Definition KCPPacketReader_Read (security : option AEAD) (headerSize : option nat) (b : bytes)
    : outcome (list Segment) :=
  match (let? b := skip_header headerSize b in open_packet security b) with
  | Fail => Ret []
  | Panic => Panic
  | Ret b => read_segments (length b) b
  end.

Definition KCPPacketWriter_Overhead (security : option AEAD) (headerSize : option nat) : nat :=
  default 0%nat headerSize + match security with None => 0 | Some a => Overhead a end.

(** The packet handed to the writer: [header] is what the header serialized,
    [random] what the random source gives; [bb] holds [Size] bytes. *)
Definition KCPPacketWriter_Write (security : option AEAD) (header : option bytes) (random b : bytes)
    : outcome bytes :=
  let? bb := match header with
             | None => Ret []
             | Some h => if decide (Size < length h)%nat then Panic else Ret h
             end in
  match security with
  | None => Ret (bb ++ take (Size - length bb) b)
  | Some a =>
    if decide (Size < length bb + NonceSize a)%nat then Panic
    else
      let bb := bb ++ take (NonceSize a) random in
      let nonce := if decide (NonceSize a = 0%nat) then bb else drop (length bb - NonceSize a) bb in
      if decide (Size < length bb + (Overhead a + length b))%nat then Panic
      else Ret (bb ++ aead_Seal_in a (Size - length bb) nonce b)
  end.

(** ** The scrambling is undone *)

Lemma xor_at_length x i : length (xor_at x i) = length x.
Proof. unfold xor_at. by repeat case_match; rewrite ?length_insert. Qed.

Lemma xor_at_involutive x i : (4 ≤ i)%nat → xor_at (xor_at x i) i = x.
Proof.
  intros Hi. unfold xor_at. destruct (x !! i) as [a|] eqn:Ea; [|by rewrite Ea].
  destruct (x !! (i - 4)%nat) as [b|] eqn:Eb; [|by rewrite Ea, Eb].
  rewrite list_lookup_insert_eq by (by eapply lookup_lt_Some).
  rewrite list_lookup_insert_ne, Eb by lia.
  rewrite list_insert_insert_eq, Z.lxor_assoc, Z.lxor_nilpotent, Z.lxor_0_r. by apply list_insert_id.
Qed.

Lemma xor_all_length x l : length (foldl xor_at x l) = length x.
Proof. revert x. induction l as [|i l IH]; intros x; cbn; [done|]. by rewrite IH, xor_at_length. Qed.

Lemma xor_all_undo x l : Forall (λ i, 4 ≤ i)%nat l → foldl xor_at (foldl xor_at x l) (reverse l) = x.
Proof.
  intros H. revert x. induction H as [|i l Hi _ IH]; intros x; [done|].
  cbn [foldl]. rewrite reverse_cons, foldl_app. cbn [foldl]. rewrite IH. by apply xor_at_involutive.
Qed.

Lemma seq_from_4 n : Forall (λ i, 4 ≤ i)%nat (seq 4 n).
Proof. apply Forall_seq. lia. Qed.

Lemma xorbkd_xorfwd x : xorbkd (xorfwd x) = x.
Proof. unfold xorbkd, xorfwd. rewrite xor_all_length. apply xor_all_undo, seq_from_4. Qed.

Lemma xorfwd_xorbkd x : xorfwd (xorbkd x) = x.
Proof.
  unfold xorbkd, xorfwd. rewrite xor_all_length.
  pose proof (xor_all_undo x (reverse (seq 4 (length x - 4)))) as H. rewrite reverse_involutive in H.
  apply H, Forall_reverse, seq_from_4.
Qed.

(** What stands behind position [i] does not matter before it. *)
Lemma xor_at_app x pad i : (i < length x)%nat → xor_at (x ++ pad) i = xor_at x i ++ pad.
Proof.
  intros Hi. unfold xor_at. rewrite !lookup_app_l by lia.
  destruct (x !! i), (x !! (i - 4)%nat); try done. by apply insert_app_l.
Qed.

Lemma xor_all_app x pad l : Forall (λ i, i < length x)%nat l → foldl xor_at (x ++ pad) l = foldl xor_at x l ++ pad.
Proof.
  remember (length x) as n eqn:Hn. intros H. revert x Hn. induction H as [|i l Hi _ IH]; intros x Hn; [done|].
  cbn [foldl]. rewrite xor_at_app by lia. apply IH. by rewrite xor_at_length.
Qed.

Lemma xor_all_behind x pad l :
  Forall (λ i, length x ≤ i)%nat l → ∃ pad', foldl xor_at (x ++ pad) l = x ++ pad'.
Proof.
  intros H. revert pad. induction H as [|i l Hi _ IH]; intros pad; [by exists pad|].
  cbn [foldl]. destruct (IH (drop (length x) (xor_at (x ++ pad) i))) as [pad' Hpad].
  exists pad'. rewrite <- Hpad. f_equal.
  unfold xor_at. rewrite !lookup_app_r by lia. destruct (pad !! _) as [a|].
  2: by rewrite drop_app_length.
  destruct ((x ++ pad) !! _); [|by rewrite drop_app_length].
  rewrite insert_app_r_alt by lia. by rewrite drop_app_length.
Qed.

Lemma seq_split4 n m : (4 ≤ n)%nat → seq 4 (n + m - 4) = seq 4 (n - 4) ++ seq n m.
Proof. intros. replace (n + m - 4)%nat with ((n - 4) + m)%nat by lia. rewrite seq_app. do 2 f_equal. lia. Qed.

Lemma xorfwd_app x pad : (4 ≤ length x)%nat → ∃ pad', xorfwd (x ++ pad) = xorfwd x ++ pad'.
Proof.
  intros Hx. unfold xorfwd at 1. rewrite length_app, seq_split4, foldl_app by done.
  rewrite xor_all_app by (apply Forall_seq; lia). fold (xorfwd x).
  apply xor_all_behind. unfold xorfwd. rewrite xor_all_length. apply Forall_seq. lia.
Qed.

Lemma xorbkd_app x pad : (4 ≤ length x)%nat → ∃ pad', xorbkd (x ++ pad) = xorbkd x ++ pad'.
Proof.
  intros Hx. unfold xorbkd at 1. rewrite length_app, seq_split4, reverse_app, foldl_app by done.
  destruct (xor_all_behind x pad (reverse (seq (length x) (length pad)))) as [pad' ->].
  { apply Forall_reverse, Forall_seq. lia. }
  exists pad'. apply xor_all_app. apply Forall_reverse, Forall_seq. lia.
Qed.

(** So the padding makes no difference. *)
Lemma padded_xorfwd x : (4 ≤ length x)%nat → padded xorfwd x = xorfwd x.
Proof.
  intros Hx. unfold padded. case_decide; [done|]. destruct (xorfwd_app x (replicate (xtra (length x)) 0) Hx) as [pad ->].
  apply take_app_length'. unfold xorfwd. by rewrite xor_all_length.
Qed.

Lemma padded_xorbkd x : (4 ≤ length x)%nat → padded xorbkd x = xorbkd x.
Proof.
  intros Hx. unfold padded. case_decide; [done|]. destruct (xorbkd_app x (replicate (xtra (length x)) 0) Hx) as [pad ->].
  apply take_app_length'. unfold xorbkd. by rewrite xor_all_length.
Qed.

(** ** The authenticator *)

Lemma fnv32a_bound data : 0 ≤ fnv32a data < 2 ^ 32.
Proof.
  unfold fnv32a. destruct (decide (data = [])) as [-> | Hne]; [done|].
  destruct (exists_last Hne) as (data' & c & ->). rewrite foldl_app. cbn [foldl].
  apply (wrap_bound 32). lia.
Qed.

Lemma unscrambled_length plain : length (unscrambled plain) = (6 + length plain)%nat.
Proof. unfold unscrambled, auth_body. rewrite !length_app, !be_bytes_length. lia. Qed.

Lemma Simple_Seal_length plain : length (Simple_Seal plain) = (6 + length plain)%nat.
Proof.
  unfold Simple_Seal. rewrite padded_xorfwd by (rewrite unscrambled_length; lia).
  unfold xorfwd. by rewrite xor_all_length, unscrambled_length.
Qed.

Lemma Simple_Open_Seal plain :
  Z.of_nat (length plain) < 2 ^ 16 → Simple_Open (Simple_Seal plain) = Ret plain.
Proof.
  intros Hlen. unfold Simple_Open. rewrite padded_xorbkd by (rewrite Simple_Seal_length; lia).
  unfold Simple_Seal. rewrite padded_xorfwd by (rewrite unscrambled_length; lia).
  rewrite xorbkd_xorfwd, unscrambled_length. rewrite decide_False by lia.
  unfold unscrambled. rewrite take_app_length', drop_app_length' by (by rewrite be_bytes_length).
  rewrite be_val_be_bytes by apply fnv32a_bound.
  rewrite decide_False by naive_solver. unfold auth_body.
  rewrite take_app_length' by (by rewrite be_bytes_length).
  rewrite wrap_small by (unfold is_uint; lia). rewrite be_val_be_bytes by (change (256 ^ _) with (2 ^ 16); lia).
  rewrite decide_False by lia. done.
Qed.

(** Only sealed texts are opened. *)
Lemma wf_xor_at x i : wf_bytes x → wf_bytes (xor_at x i).
Proof.
  intros Hx. unfold xor_at. destruct (x !! i) as [a|] eqn:Ea; [|done].
  destruct (x !! (i - 4)%nat) as [b|] eqn:Eb; [|done]. apply Forall_insert; [done|].
  pose proof (Forall_lookup_1 _ _ _ _ Hx Ea). pose proof (Forall_lookup_1 _ _ _ _ Hx Eb). unfold is_byte in *.
  cbn beta in *. split; [apply Z.lxor_nonneg; lia|].
  destruct (decide (Z.lxor a b = 0)) as [-> | Hne]; [lia|].
  apply Z.log2_lt_cancel. change (Z.log2 256) with 8.
  eapply Z.le_lt_trans; [apply Z.log2_lxor; lia|].
  apply Z.max_lub_lt; (destruct (decide (0 < a)), (decide (0 < b)));
    first [apply Z.log2_lt_pow2; lia | replace a with 0 by lia; done | replace b with 0 by lia; done].
Qed.

Lemma wf_xor_all l x : wf_bytes x → wf_bytes (foldl xor_at x l).
Proof. revert x. induction l; intros x Hx; cbn; auto using wf_xor_at. Qed.

Lemma Simple_Open_sound c plain :
  wf_bytes c → (6 ≤ length c)%nat → Simple_Open c = Ret plain → c = Simple_Seal plain.
Proof.
  intros Hwf Hlen. unfold Simple_Open. rewrite padded_xorbkd by lia.
  set (dst := xorbkd c). assert (length dst = length c) as Hdst by apply xor_all_length.
  assert (wf_bytes dst) as Hd by (by apply wf_xor_all).
  rewrite decide_False by lia. case_decide as Hhash; [done|]. case_decide as Hcount; [done|]. intros [= <-].
  assert (be_bytes 2 (be_val (take 2 (drop 4 dst))) = take 2 (drop 4 dst)) as H2.
  { rewrite <- (be_bytes_be_val (take 2 (drop 4 dst))) at 2 by (by apply Forall_take_drop).
    rewrite length_take, length_drop. f_equal. lia. }
  assert (unscrambled (drop 6 dst) = dst) as Hu.
  { unfold unscrambled, auth_body. rewrite length_drop.
    replace (Z.of_nat (length dst - 6)) with (be_val (take 2 (drop 4 dst))) by lia.
    assert (0 ≤ be_val (take 2 (drop 4 dst)) < 2 ^ 16) as Hb.
    { pose proof (be_val_bound (take 2 (drop 4 dst)) ltac:(by apply Forall_take_drop)) as Hb.
      rewrite length_take, length_drop in Hb. replace (2 `min` (length dst - 4))%nat with 2%nat in Hb by lia. exact Hb. }
    rewrite wrap_small, H2 by exact Hb.
    assert (take 2 (drop 4 dst) ++ drop 6 dst = drop 4 dst) as ->.
    { rewrite <- (take_drop 2 (drop 4 dst)) at 2. by rewrite drop_drop. }
    rewrite <- Hhash. rewrite <- (take_drop 4 dst) at 3. f_equal.
    rewrite <- (be_bytes_be_val (take 4 dst)) at 2 by (by apply Forall_take).
    f_equal. rewrite length_take. lia. }
  unfold Simple_Seal. rewrite padded_xorfwd, Hu by (rewrite unscrambled_length; lia).
  unfold dst. by rewrite xorfwd_xorbkd.
Qed.

(** ** Packets *)

(** What the packet reader and writer rely on of an authenticated cipher. *)
Class AEAD_laws (a : AEAD) := {
  seal_length cap nonce p : length (aead_Seal_in a cap nonce p) = (Overhead a + length p)%nat;
  open_seal cap nonce p :
    (Overhead a + length p + 3 ≤ cap)%nat → Z.of_nat (length p) ≤ 8192 →
    (NonceSize a = 0%nat ∨ length nonce = NonceSize a) →
    aead_Open a (if decide (NonceSize a = 0%nat) then [] else nonce) (aead_Seal_in a cap nonce p) = Ret p
}.

#[global] Instance SimpleAuthenticator_laws : AEAD_laws SimpleAuthenticator.
Proof.
  split; cbn.
  - intros. case_decide; [apply Simple_Seal_length|apply unscrambled_length].
  - intros cap nonce p Hcap Hp _. rewrite decide_True by (pose proof (Nat.mod_upper_bound (xtra (S (S (S (S (S (S (length p)))))))) 4); lia).
    apply Simple_Open_Seal. lia.
Qed.

(** The packet is the header, the nonce and the sealed text. *)
Lemma Write_shape security header random b packet :
  KCPPacketWriter_Write security header random b = Ret packet →
  match security with
  | None => packet = default [] header ++ take (Size - length (default [] header)) b
  | Some a => ∃ nonce, packet = default [] header ++ take (NonceSize a) random ++
      aead_Seal_in a (Size - length (default [] header ++ take (NonceSize a) random)) nonce b ∧
      (NonceSize a ≠ 0%nat → (NonceSize a ≤ length random)%nat → nonce = take (NonceSize a) random)
  end.
Proof.
  unfold KCPPacketWriter_Write. intros Hw.
  assert (match header with None => Ret [] | Some h => if decide (Size < length h)%nat then Panic else Ret h end
          = Ret (default [] header)) as Eh.
  { destruct header; [|done]. case_decide; done. }
  rewrite Eh in Hw. cbn [outcome_bind] in Hw. set (bb := default [] header) in *. clearbody bb.
  destruct security as [a|]; [|by apply Ret_inj in Hw as <-].
  case_decide; [done|]. case_decide; [done|]. apply Ret_inj in Hw as <-.
  eexists. split; [by rewrite <- (assoc_L (++))|].
  intros Hn Hr. rewrite decide_False by done. apply drop_app_length'.
  rewrite length_app, length_take. lia.
Qed.

Lemma open_packet_seal security (Hsec : ∀ a, security = Some a → AEAD_laws a) header random b packet :
  (∀ a, security = Some a → (NonceSize a ≤ length random)%nat) →
  KCPPacketWriter_Write security header random b = Ret packet → b ≠ [] →
  Z.of_nat (length packet) + 3 ≤ 8192 →
  ∃ body, packet = default [] header ++ body ∧ body ≠ [] ∧ open_packet security body = Ret b.
Proof.
  intros Hr Hw%Write_shape Hne Hlen. assert (0 < length b)%nat as Hb by (destruct b; [done|cbn; lia]).
  set (bb := default [] header) in *. unfold open_packet. destruct security as [a|].
  - destruct Hw as (nonce & -> & Hnonce). specialize (Hsec _ eq_refl). specialize (Hr _ eq_refl).
    assert (length (take (NonceSize a) random) = NonceSize a) as Hn by (rewrite length_take; lia).
    rewrite !length_app, seal_length, Hn in Hlen. eexists. split_all; [done| |].
    { intros [_ Hs]%app_nil. apply (f_equal length) in Hs. rewrite seal_length in Hs. cbn in Hs. lia. }
    rewrite length_app, Hn, seal_length, decide_False by lia.
    rewrite take_app_length', drop_app_length' by done.
    pose proof (open_seal (Size - length (bb ++ take (NonceSize a) random)) nonce b) as Hopen.
    destruct (decide (NonceSize a = 0%nat)) as [E|E].
    + assert (take (NonceSize a) random = []) as Enil by (by rewrite E). rewrite Enil in *.
      apply Hopen; [|lia|by left]. rewrite app_nil_r.
      apply Nat2Z.inj_le. rewrite Nat2Z.inj_sub; [change (Z.of_nat Size) with 8192; lia|].
      apply Nat2Z.inj_le. change (Z.of_nat Size) with 8192. lia.
    + rewrite Hnonce in * by done. apply Hopen; [|lia|by right]. rewrite length_app, Hn.
      apply Nat2Z.inj_le. rewrite Nat2Z.inj_sub; [change (Z.of_nat Size) with 8192; lia|].
      apply Nat2Z.inj_le. change (Z.of_nat Size) with 8192. lia.
  - subst packet. exists (take (Size - length bb) b). split; [done|].
    assert (length b ≤ Size - length bb)%nat as Hfit; [|by rewrite take_ge].
    rewrite length_app, length_take in Hlen. apply Nat2Z.inj_le.
    destruct (decide (Z.of_nat (length b) ≤ Z.of_nat (Size - length bb))) as [|Hbig]; [done|exfalso].
    rewrite Nat.min_l in Hlen by lia. pose proof (eq_refl : Z.of_nat Size = 8192). lia.
Qed.

(** A packet of segments that was written is read back, behind a header of
    any content and through any cipher that opens what it seals. *)
Theorem kcp_packet_roundtrip security (Hsec : ∀ a, security = Some a → AEAD_laws a) header random segs packet :
  (∀ a, security = Some a → (NonceSize a ≤ length random)%nat) →
  Forall wf_segment segs → all_parse segs → segs ≠ [] →
  KCPPacketWriter_Write security header random (mjoin (Segment_Serialize <$> segs)) = Ret packet →
  Z.of_nat (length packet) + 3 ≤ 8192 →
  KCPPacketReader_Read security (length <$> header) packet = Ret (sent <$> segs).
Proof.
  intros Hr Hwf Hall Hne Hw Hlen.
  destruct (open_packet_seal security Hsec header random _ packet Hr Hw) as (body & -> & Hbody & Hopen); [|done|].
  { destruct segs as [|s segs]; [done|]. rewrite fmap_cons. change (mjoin (?x :: ?l)) with (x ++ mjoin l).
    intros [Hs _]%app_nil. by apply Serialize_not_nil in Hs. }
  unfold KCPPacketReader_Read.
  assert (skip_header (length <$> header) (default [] header ++ body) = Ret body) as ->.
  { destruct header as [h|]; cbn; [|done]. rewrite decide_False, drop_app_length; [done|].
    rewrite length_app. destruct body; [done|cbn; lia]. }
  cbn [outcome_bind]. rewrite Hopen. by apply read_segments_serialize.
Qed.

(** C38. Reading any bytes as a packet ends without a panic, and gives at most one
    segment for every sixteen bytes. *)
Theorem kcp_packet_read_total headerSize b :
  ∃ segs, KCPPacketReader_Read (Some SimpleAuthenticator) headerSize b = Ret segs ∧
    (16 * length segs ≤ length b)%nat.
Proof.
  unfold KCPPacketReader_Read.
  assert (skip_header headerSize b = Fail ∨ ∃ b', skip_header headerSize b = Ret b' ∧ (length b' ≤ length b)%nat)
    as [-> | (b' & -> & Hb')].
  { unfold skip_header. destruct headerSize; [case_decide|]; [by left|right..]; eexists; split; try done.
    rewrite length_drop. lia. }
  { exists []. split; [done|]. cbn; lia. }
  cbn [outcome_bind open_packet]. case_decide as Hshort; cbn in Hshort. { exists []. split; [done|]. cbn; lia. }
  cbn [aead_Open SimpleAuthenticator NonceSize]. rewrite drop_0. unfold Simple_Open.
  assert (length (padded xorbkd b') = length b') as Hp.
  { rewrite padded_xorbkd by lia. apply xor_all_length. }
  rewrite Hp, decide_False by lia. do 2 (case_decide; [exists []; split; [done|cbn; lia]|]).
  destruct (read_segments_total (length (drop 6 (padded xorbkd b'))) (drop 6 (padded xorbkd b')) ltac:(done))
    as (segs & -> & Hsegs).
  exists segs. split; [done|]. rewrite length_drop in Hsegs. lia.
Qed.

(** ** Domain names in the DNS header *)

(** The name with every label behind its length, and its textual form. *)
Definition encode_labels (labels : list bytes) : bytes :=
  mjoin ((λ l, Z.of_nat (length l) :: l) <$> labels).
Definition dotted (labels : list bytes) : bytes := mjoin ((λ l, l ++ [46]) <$> labels).

Definition plain_label (l : bytes) : Prop := Forall (λ c, c ≠ 46 ∧ c ≠ 92) l ∧ (length l < 64)%nat.

Lemma pack_loop_label l label s out :
  Forall (λ c, c ≠ 46 ∧ c ≠ 92) l → pack_loop (l ++ s) label out = pack_loop s (label ++ l) out.
Proof.
  intros H. revert label. induction H as [|c l [H1 H2] _ IH]; intros label; [by rewrite app_nil_r|].
  cbn [app pack_loop]. rewrite !decide_False by done. by rewrite IH, <- (assoc_L (++)).
Qed.

Lemma pack_loop_dotted labels out :
  Forall plain_label labels → (length out + length (encode_labels labels) ≤ msg_len)%nat →
  pack_loop (dotted labels) [] out = Some (out ++ encode_labels labels).
Proof.
  intros H. revert out. induction H as [|l labels [Hl Hlen] _ IH]; intros out Hfit; [by rewrite app_nil_r|].
  unfold encode_labels, dotted in *. rewrite fmap_cons in *. change (mjoin (?x :: ?l)) with (x ++ mjoin l) in *.
  rewrite length_app in Hfit. cbn [length] in Hfit.
  rewrite <- (assoc_L (++)), pack_loop_label by done. cbn [app pack_loop].
  rewrite decide_False, decide_True, !decide_False by (done || lia).
  rewrite IH by (rewrite length_app; cbn [length]; lia). by rewrite <- (assoc_L (++)).
Qed.

(** [domain] is the labels joined with dots, [domain + "."] is [dotted]. *)
Lemma NewDNS_plain domain labels :
  domain ++ [46] = dotted labels → Forall plain_label labels → (length (encode_labels labels) < 256)%nat →
  NewDNS domain = Ret {| dns_header :=
    [0; 0; 1; 0; 0; 1; 0; 0; 0; 0; 0; 0] ++ encode_labels labels ++ [0; 0; 1; 0; 1] |}.
Proof.
  intros Hd Hl Hlen. unfold NewDNS, packDomainName. rewrite Hd, pack_loop_dotted by (try done; unfold msg_len; cbn [length]; lia).
  cbn [mbind option_bind app]. unfold msg_len. rewrite decide_False, decide_True by lia.
  rewrite take_ge by (rewrite length_app; cbn [length]; lia). do 2 f_equal. cbn. by rewrite <- (assoc_L (++)).
Qed.

(** A name of 255 bytes passes [packDomainName] and panics in [NewDNS]. *)
Lemma NewDNS_panics : NewDNS (mjoin (replicate 3 (replicate 63 97 ++ [46])) ++ replicate 63 97) = Panic.
Proof. vm_compute. reflexivity. Qed.

Definition example_segments : list Segment :=
  [SegAck {| a_Conv := 7; a_Option := 0; a_ReceivingWindow := 40; a_ReceivingNext := 8; a_Timestamp := 3; a_NumberList := [5; 6; 70000] |};
   SegData {| d_Conv := 7; d_Option := 1; d_Timestamp := 9; d_Number := 2; d_SendingNext := 1; d_payload := [1; 2; 3];
              d_timeout := 12; d_transmit := 1 |}].

Lemma kcp_packet_roundtrip_witness : ∃ packet,
  KCPPacketWriter_Write (Some SimpleAuthenticator) (Some (DTLS_Serialize 0 (DTLS_New 300)).2) []
    (mjoin (Segment_Serialize <$> example_segments)) = Ret packet ∧
  KCPPacketReader_Read (Some SimpleAuthenticator) (Some 13%nat) packet = Ret (sent <$> example_segments).
Proof.
  eexists. split; [vm_compute; reflexivity|].
  apply (kcp_packet_roundtrip (Some SimpleAuthenticator)
           ltac:(intros a [= <-]; exact SimpleAuthenticator_laws) (Some (DTLS_Serialize 0 (DTLS_New 300)).2) []).
  - intros a [= <-]. apply Nat.le_refl.
  - apply (bool_decide_unpack _); vm_compute; exact I.
  - apply (bool_decide_unpack _); vm_compute; exact I.
  - discriminate.
  - vm_compute. reflexivity.
  - vm_compute. discriminate.
Defined.
