(* ===== verification/KcpReceiving.v ===== *)
(** The receiving side of an mKCP connection
    (src/upstream/xray-core/transport/internet/kcp/receiving.go): the window of
    segments that arrived early, the list of numbers to acknowledge, and the
    worker that puts the payloads back in order. *)
From stdpp Require Import gmap.
From S2P Require Import Prelude GoText NetIP Address Transport Frame Uuid Buf AddressParser BufAppend MultiBuffer KcpSegment.

(** ** The receiving window *)

Abbreviation ReceivingWindow := (gmap Z DataSegment).

Definition window_Set (id : Z) (value : DataSegment) (w : ReceivingWindow) : ReceivingWindow * bool :=
  match w !! id with Some _ => (w, false) | None => (<[id := value]> w, true) end.

Definition window_Has (id : Z) (w : ReceivingWindow) : bool := bool_decide (is_Some (w !! id)).

Definition window_Remove (id : Z) (w : ReceivingWindow) : ReceivingWindow * option DataSegment :=
  match w !! id with None => (w, None) | Some v => (delete id w, Some v) end.

(** ** Acknowledgements *)

(** The entries of the three slices at one index. *)
Record ack_entry := { ae_number : Z; ae_timestamp : Z; ae_nextFlush : Z }.

#[global] Instance ack_entry_eq_dec : EqDecision ack_entry.
Proof. solve_decision. Defined.

Record AckList := { entries : list ack_entry; dirty : bool }.

Definition NewAckList : AckList := {| entries := []; dirty := false |}.

Definition AckList_Add (number timestamp : Z) (l : AckList) : AckList :=
  {| entries := entries l ++ [{| ae_number := number; ae_timestamp := timestamp; ae_nextFlush := 0 |}];
     dirty := true |}.

(** The loop of [Clear], which moves the entries that stay to the front: the
    entries before [count] are kept, [todo] is what is behind [i]. *)
Fixpoint clear_loop (una : Z) (i count : nat) (n : nat) (es : list ack_entry) : list ack_entry * nat :=
  match n with
  | O => (es, count)
  | S n =>
    match es !! i with
    | None => (es, count)
    | Some e =>
      if decide (ae_number e < una) then clear_loop una (S i) count n es
      else clear_loop una (S i) (S count) n (if decide (i ≠ count) then <[count := e]> es else es)
    end
  end.

Definition AckList_Clear (una : Z) (l : AckList) : AckList :=
  let '(es, count) := clear_loop una 0 0 (length (entries l)) (entries l) in
  if decide (count < length es)%nat then {| entries := take count es; dirty := true |}
  else {| entries := es; dirty := dirty l |}.

Definition candidates_cap : nat := 128.

(** What [Flush] changes as it goes: the candidates, the segment being filled
    and the segments written. *)
Record flush_state := { fs_candidates : list Z; fs_seg : AckSegment; fs_dirty : bool; fs_out : list AckSegment }.

Definition flush_timeout (rto : Z) : Z := let timeout := rto / 2 in if decide (timeout < 20) then 20 else timeout.

(** The body of the first loop for one entry. *)
Definition flush_entry (current rto : Z) (st : flush_state) (e : ack_entry) : flush_state * ack_entry :=
  if decide (current < ae_nextFlush e) then
    ({| fs_candidates := if decide (length (fs_candidates st) < candidates_cap)%nat
                         then fs_candidates st ++ [ae_number e] else fs_candidates st;
        fs_seg := fs_seg st; fs_dirty := fs_dirty st; fs_out := fs_out st |}, e)
  else
    let seg := PutTimestamp (ae_timestamp e) (PutNumber (ae_number e) (fs_seg st)) in
    let e := {| ae_number := ae_number e; ae_timestamp := ae_timestamp e;
                ae_nextFlush := u32 (current + flush_timeout rto) |} in
    if AckSegment_IsFull seg
    then ({| fs_candidates := fs_candidates st; fs_seg := NewAckSegment; fs_dirty := false;
             fs_out := fs_out st ++ [seg] |}, e)
    else ({| fs_candidates := fs_candidates st; fs_seg := seg; fs_dirty := fs_dirty st; fs_out := fs_out st |}, e).

Fixpoint flush_entries (current rto : Z) (st : flush_state) (es : list ack_entry) : flush_state * list ack_entry :=
  match es with
  | [] => (st, [])
  | e :: es =>
    let '(st, e) := flush_entry current rto st e in
    let '(st, es) := flush_entries current rto st es in (st, e :: es)
  end.

Fixpoint put_candidates (numbers : list Z) (seg : AckSegment) : AckSegment :=
  match numbers with
  | [] => seg
  | number :: numbers => if AckSegment_IsFull seg then seg else put_candidates numbers (PutNumber number seg)
  end.

(** [Flush]: the list, and the segments handed to the writer. *)
Definition AckList_Flush (current rto : Z) (l : AckList) : AckList * list AckSegment :=
  let '(st, es) := flush_entries current rto
    {| fs_candidates := []; fs_seg := NewAckSegment; fs_dirty := dirty l; fs_out := [] |} (entries l) in
  if fs_dirty st || negb (AckSegment_IsEmpty (fs_seg st))
  then ({| entries := es; dirty := false |}, fs_out st ++ [put_candidates (fs_candidates st) (fs_seg st)])
  else ({| entries := es; dirty := fs_dirty st |}, fs_out st).

(** ** The worker *)

Record ReceivingWorker := {
  rw_leftOver : option (list Buffer);
  rw_window : ReceivingWindow;
  rw_acklist : AckList;
  rw_nextNumber : Z;
  rw_windowSize : Z
}.

Definition rw_with_leftOver (mb : option (list Buffer)) (w : ReceivingWorker) : ReceivingWorker :=
  {| rw_leftOver := mb; rw_window := rw_window w; rw_acklist := rw_acklist w;
     rw_nextNumber := rw_nextNumber w; rw_windowSize := rw_windowSize w |}.

Definition rw_with_acklist (l : AckList) (w : ReceivingWorker) : ReceivingWorker :=
  {| rw_leftOver := rw_leftOver w; rw_window := rw_window w; rw_acklist := l;
     rw_nextNumber := rw_nextNumber w; rw_windowSize := rw_windowSize w |}.

Definition rw_with_window (x : ReceivingWindow) (next : Z) (w : ReceivingWorker) : ReceivingWorker :=
  {| rw_leftOver := rw_leftOver w; rw_window := x; rw_acklist := rw_acklist w;
     rw_nextNumber := next; rw_windowSize := rw_windowSize w |}.

Definition NewReceivingWorker (receivingInFlightSize : Z) : ReceivingWorker :=
  {| rw_leftOver := None; rw_window := ∅; rw_acklist := NewAckList; rw_nextNumber := 0;
     rw_windowSize := receivingInFlightSize |}.

Definition rw_Release (w : ReceivingWorker) : ReceivingWorker := rw_with_leftOver None w.

Definition ProcessSendingNext (number : Z) (w : ReceivingWorker) : ReceivingWorker :=
  rw_with_acklist (AckList_Clear number (rw_acklist w)) w.

Definition rw_ProcessSegment (seg : DataSegment) (w : ReceivingWorker) : ReceivingWorker :=
  let number := d_Number seg in
  let idx := u32 (number - rw_nextNumber w) in
  if decide (rw_windowSize w ≤ idx) then w
  else
    let l := AckList_Clear (d_SendingNext seg) (rw_acklist w) in
    let l := AckList_Add number (d_Timestamp seg) l in
    let w := rw_with_acklist l w in
    rw_with_window (window_Set (d_Number seg) seg (rw_window w)).1 (rw_nextNumber w) w.

(** The buffer of a segment; what lies outside its content does not matter. *)
Definition payload_buffer (p : bytes) : Buffer :=
  {| v := p; start := 0; end_ := Z.of_nat (length p); unmanaged := false; UDP := None |}.

(** The loop of [ReadMultiBuffer]; every turn removes a segment. *)
Fixpoint read_window (fuel : nat) (x : ReceivingWindow) (next : Z) (mb : list Buffer)
    : ReceivingWindow * Z * list Buffer :=
  match fuel with
  | O => (x, next, mb)
  | S fuel =>
    match window_Remove next x with
    | (x, None) => (x, next, mb)
    | (x, Some seg) => read_window fuel x (u32 (next + 1)) (mb ++ [payload_buffer (d_payload seg)])
    end
  end.

Definition rw_ReadMultiBuffer (w : ReceivingWorker) : ReceivingWorker * list Buffer :=
  match rw_leftOver w with
  | Some mb => (rw_with_leftOver None w, mb)
  | None =>
    let '(x, next, mb) := read_window (S (size (rw_window w))) (rw_window w) (rw_nextNumber w) [] in
    (rw_with_window x next w, mb)
  end.

(** [Read] into a slice of [n] bytes. *)
Definition rw_Read (n : nat) (w : ReceivingWorker) : outcome (ReceivingWorker * bytes) :=
  let '(w, mb) := rw_ReadMultiBuffer w in
  if mb_IsEmpty mb then Ret (w, [])
  else
    let? (mb, got) := SplitBytes mb n in
    Ret (if mb_IsEmpty mb then w else rw_with_leftOver (Some mb) w, got).

Definition rw_IsDataAvailable (w : ReceivingWorker) : bool := window_Has (rw_nextNumber w) (rw_window w).

Definition rw_NextNumber (w : ReceivingWorker) : Z := rw_nextNumber w.

(** [Write]: the fields of an acknowledgement the list does not know. *)
Definition rw_Write (conv : Z) (readyToClose : bool) (w : ReceivingWorker) (seg : AckSegment) : AckSegment :=
  {| a_Conv := conv; a_Option := if readyToClose then SegmentOptionClose else 0;
     a_ReceivingWindow := u32 (rw_nextNumber w + rw_windowSize w); a_ReceivingNext := rw_nextNumber w;
     a_Timestamp := a_Timestamp seg; a_NumberList := a_NumberList seg |}.

Definition rw_Flush (current rto conv : Z) (readyToClose : bool) (w : ReceivingWorker)
    : ReceivingWorker * list AckSegment :=
  let '(l, segs) := AckList_Flush current rto (rw_acklist w) in
  (rw_with_acklist l w, rw_Write conv readyToClose w <$> segs).

Definition rw_UpdateNecessary (w : ReceivingWorker) : bool := bool_decide (0 < length (entries (rw_acklist w)))%nat.

(** ** The list of acknowledgements *)

Lemma filter_length_all {A} (P : A → Prop) `{∀ x, Decision (P x)} l :
  length (filter P l) = length l ↔ Forall P l.
Proof.
  induction l as [|x l IH]; [done|]. rewrite filter_cons, Forall_cons. pose proof (length_filter P l).
  case_decide; cbn [length].
  - rewrite Nat.succ_inj_wd, IH. naive_solver.
  - split; [lia|]. naive_solver.
Qed.

Lemma clear_loop_spec una n i count es es' count' :
  (i + n)%nat = length es → (count ≤ i)%nat → clear_loop una i count n es = (es', count') →
  length es' = length es ∧ (count' ≤ length es)%nat ∧
  take count' es' = take count es ++ filter (λ e, una ≤ ae_number e) (drop i es).
Proof.
  revert i count es. induction n as [|n IH]; intros i count es Hn Hc; cbn [clear_loop].
  { intros [= <- <-]. rewrite (drop_ge es i) by lia. rewrite app_nil_r. split_all; [done|lia|done]. }
  destruct (lookup_total_lt es i) as [e He]; [lia|]. rewrite He, (drop_cons_lookup _ _ _ He), filter_cons.
  destruct (decide (ae_number e < una)) as [Hnum|Hnum], (decide (una ≤ ae_number e)); try lia.
  - intros H. apply IH in H; [done|lia..].
  - assert (∀ es1, length es1 = length es → take (S count) es1 = take count es ++ [e] →
              drop (S i) es1 = drop (S i) es →
              clear_loop una (S i) (S count) n es1 = (es', count') →
              length es' = length es ∧ (count' ≤ length es)%nat ∧
              take count' es' = take count es ++ e :: filter (λ e, una ≤ ae_number e) (drop (S i) es)) as Hstep.
    { intros es1 Hl Ht Hd H. apply IH in H as (H1 & H2 & H3); [|lia..]. rewrite Ht, Hd, <- (assoc_L (++)) in H3.
      rewrite <- Hl. done. }
    case_decide as Hi; apply Hstep; try done.
    + by rewrite length_insert.
    + rewrite (take_S_r _ _ e) by (apply list_lookup_insert_eq; lia). by rewrite take_insert_ge by lia.
    + by rewrite drop_insert_lt by lia.
    + destruct (decide (i = count)) as [-> | ]; [|done]. by apply take_S_r.
Qed.

(** [Clear] keeps the entries that are not below [una], in order, and marks the
    list when it dropped one. *)
Lemma AckList_Clear_spec una l :
  entries (AckList_Clear una l) = filter (λ e, una ≤ ae_number e) (entries l) ∧
  dirty (AckList_Clear una l) =
    (dirty l || bool_decide (Exists (λ e, ae_number e < una) (entries l))).
Proof.
  unfold AckList_Clear. destruct (clear_loop una 0 0 (length (entries l)) (entries l)) as [es count] eqn:E.
  apply clear_loop_spec in E as (Hlen & Hcount & Htake); [|lia..].
  change (drop 0 (entries l)) with (entries l) in Htake. rewrite take_0 in Htake. cbn [app] in Htake.
  assert (length (filter (λ e, una ≤ ae_number e) (entries l)) = count) as Hf.
  { rewrite <- Htake, length_take. lia. }
  case_decide as Hlt; cbn [entries dirty].
  - split; [done|]. symmetry. apply orb_true_intro. right. apply bool_decide_eq_true.
    apply dec_stable. intros Hno. rewrite <- Forall_Exists_neg in Hno.
    enough (length (filter (λ e, una ≤ ae_number e) (entries l)) = length (entries l)) by lia.
    apply filter_length_all. eapply Forall_impl; [done|]. cbn. lia.
  - rewrite take_ge in Htake by lia. split; [done|].
    rewrite bool_decide_eq_false_2, orb_false_r; [done|]. rewrite <- Forall_Exists_neg.
    assert (Forall (λ e, una ≤ ae_number e) (entries l)) as Hall by (apply (filter_length_all (λ e, una ≤ ae_number e)); lia).
    eapply Forall_impl; [done|]. cbn. lia.
Qed.

(** ** Flushing acknowledgements *)

(** All numbers of a list of acknowledgements. *)
Definition acked (segs : list AckSegment) : list Z := segs ≫= a_NumberList.

(** An entry that is acknowledged by a flush at [current]. *)
Definition due (current : Z) (e : ack_entry) : Prop := ae_nextFlush e ≤ current.

Record flush_ok (es : list ack_entry) (st : flush_state) : Prop := {
  ok_out : Forall (λ s, length (a_NumberList s) ≤ ackNumberLimit)%nat (fs_out st);
  ok_seg : (length (a_NumberList (fs_seg st)) < ackNumberLimit)%nat;
  ok_source n : n ∈ acked (fs_out st) ++ a_NumberList (fs_seg st) ++ fs_candidates st → n ∈ ae_number <$> es
}.

Lemma PutTimestamp_numbers t s : a_NumberList (PutTimestamp t s) = a_NumberList s.
Proof. unfold PutTimestamp. by case_decide. Qed.

Lemma acked_snoc segs s : acked (segs ++ [s]) = acked segs ++ a_NumberList s.
Proof. unfold acked. rewrite bind_app. cbn. by rewrite app_nil_r. Qed.

Lemma flush_entry_spec current rto es st e st' e' :
  flush_entry current rto st e = (st', e') → flush_ok es st →
  ae_number e' = ae_number e ∧ flush_ok (es ++ [e]) st' ∧
  (∀ n, n ∈ acked (fs_out st) ++ a_NumberList (fs_seg st) → n ∈ acked (fs_out st') ++ a_NumberList (fs_seg st')) ∧
  (due current e → ae_number e ∈ acked (fs_out st') ++ a_NumberList (fs_seg st')).
Proof.
  unfold flush_entry, due. intros Hf [Ho Hs Hn]. case_decide as Hdue; [|case_match eqn:Hfull]; injection Hf as <- <-; cbn.
  - split_all; [done| |done|lia]. split; cbn; [done..|]. intros n Hin. rewrite fmap_app. cbn.
    rewrite !elem_of_app, !list_elem_of_singleton in *. specialize (Hn n). rewrite !elem_of_app in Hn.
    destruct Hin as [|[|Hin]]; [tauto..|]. case_decide; [|tauto]. rewrite elem_of_app, list_elem_of_singleton in Hin. tauto.
  - unfold AckSegment_IsFull in Hfull. apply bool_decide_eq_true in Hfull. rewrite PutTimestamp_numbers in Hfull.
    split_all; [done| | |].
    + split; cbn.
      * apply Forall_app; split; [done|]. apply Forall_singleton. rewrite PutTimestamp_numbers, Hfull. done.
      * unfold ackNumberLimit. lia.
      * intros n. rewrite acked_snoc, PutTimestamp_numbers. cbn. rewrite fmap_app. cbn. intros Hin.
        rewrite !elem_of_app in *. specialize (Hn n). rewrite !elem_of_app in Hn. tauto.
    + intros n. rewrite acked_snoc, PutTimestamp_numbers. cbn. rewrite !elem_of_app. tauto.
    + intros _. rewrite acked_snoc, PutTimestamp_numbers. cbn. rewrite !elem_of_app, !list_elem_of_singleton. tauto.
  - unfold AckSegment_IsFull in Hfull. apply bool_decide_eq_false in Hfull. rewrite PutTimestamp_numbers in *.
    split_all; [done| | |].
    + split; cbn; [done| |].
      * rewrite PutTimestamp_numbers. cbn in *. rewrite length_app in *. cbn [length] in *. lia.
      * intros n. rewrite PutTimestamp_numbers. cbn. rewrite fmap_app. cbn.
        rewrite !elem_of_app in *. specialize (Hn n). rewrite !elem_of_app in Hn. tauto.
    + intros n. cbn. rewrite !elem_of_app. tauto.
    + intros _. cbn. rewrite !elem_of_app, !list_elem_of_singleton. tauto.
Qed.

Lemma flush_entries_spec current rto done es st st' es' :
  flush_entries current rto st es = (st', es') → flush_ok done st →
  ae_number <$> es' = ae_number <$> es ∧ flush_ok (done ++ es) st' ∧
  (∀ n, n ∈ acked (fs_out st) ++ a_NumberList (fs_seg st) → n ∈ acked (fs_out st') ++ a_NumberList (fs_seg st')) ∧
  (∀ e, e ∈ es → due current e → ae_number e ∈ acked (fs_out st') ++ a_NumberList (fs_seg st')).
Proof.
  revert done st es'. induction es as [|e es IH]; intros done st es'; cbn [flush_entries].
  { intros [= <- <-] Hok. rewrite app_nil_r. split_all; try done. intros e He. by apply elem_of_nil in He. }
  destruct (flush_entry current rto st e) as [st1 e1] eqn:E1.
  destruct (flush_entries current rto st1 es) as [st2 es1] eqn:E2. intros [= <- <-] Hok.
  eapply flush_entry_spec in E1 as (Hnum & Hok1 & Hmono1 & Hdue1); [|done].
  eapply IH in E2 as (Hnums & Hok2 & Hmono2 & Hdue2); [|done].
  rewrite !fmap_cons, Hnum, Hnums. split_all; [done| |auto|].
  - by rewrite <- (assoc_L (++)) in Hok2.
  - intros e' [->|He]%elem_of_cons Hd; auto.
Qed.

Lemma put_candidates_spec cs seg :
  (length (a_NumberList seg) < ackNumberLimit)%nat →
  (length (a_NumberList (put_candidates cs seg)) ≤ ackNumberLimit)%nat ∧
  (∃ k, a_NumberList (put_candidates cs seg) = a_NumberList seg ++ take k cs).
Proof.
  intros Hlen. apply Nat.lt_le_incl in Hlen. revert seg Hlen.
  induction cs as [|c cs IH]; intros seg Hlen; cbn [put_candidates].
  { split; [done|]. exists 0%nat. by rewrite app_nil_r. }
  case_match eqn:Hfull. { split; [done|]. exists 0%nat. by rewrite app_nil_r. }
  unfold AckSegment_IsFull in Hfull. apply bool_decide_eq_false in Hfull.
  destruct (IH (PutNumber c seg)) as (H1 & k & Hk).
  { cbn. rewrite length_app. cbn [length]. lia. }
  split; [done|]. exists (S k). rewrite Hk. cbn. by rewrite <- (assoc_L (++)).
Qed.

Lemma flush_entries_dirty current rto d st es st' es' :
  flush_entries current rto st es = (st', es') → fs_dirty st = d ∨ fs_out st ≠ [] → fs_dirty st' = d ∨ fs_out st' ≠ [].
Proof.
  revert st es'. induction es as [|e es IH]; intros st es'; cbn [flush_entries]; [by intros [= <- <-]|].
  destruct (flush_entry current rto st e) as [st1 e1] eqn:E1.
  destruct (flush_entries current rto st1 es) as [st2 es1] eqn:E2. intros [= <- <-] Hd.
  eapply IH; [exact E2|]. unfold flush_entry in E1. repeat case_match; simplify_eq; cbn; try done.
  right. by destruct (fs_out st).
Qed.

(** A flush acknowledges every entry that is due, only numbers of the list, and
    at most 128 of them in a segment; it keeps the entries. *)
Lemma AckList_Flush_spec current rto l l' segs :
  AckList_Flush current rto l = (l', segs) →
  ae_number <$> entries l' = ae_number <$> entries l ∧
  Forall (λ s, length (a_NumberList s) ≤ ackNumberLimit)%nat segs ∧
  (∀ n, n ∈ acked segs → n ∈ ae_number <$> entries l) ∧
  (∀ e, e ∈ entries l → due current e → ae_number e ∈ acked segs) ∧
  (dirty l = true → segs ≠ []).
Proof.
  unfold AckList_Flush. destruct (flush_entries _ _ _ _) as [st es] eqn:E.
  assert (fs_dirty st = dirty l ∨ fs_out st ≠ []) as Hdirty.
  { eapply flush_entries_dirty; [exact E|by left]. }
  eapply (flush_entries_spec current rto []) in E as (Hnum & [Ho Hs Hsrc] & _ & Hdue).
  2: { split; cbn; [apply Forall_nil_2|unfold ackNumberLimit; lia|]. intros n Hn. by apply elem_of_nil in Hn. }
  cbn [app] in Hsrc. case_match eqn:Hw; intros [= <- <-]; cbn [entries]; split_all; try done.
  - apply Forall_app; split; [done|]. apply Forall_singleton. by apply put_candidates_spec.
  - intros n. rewrite acked_snoc. destruct (put_candidates_spec (fs_candidates st) (fs_seg st) Hs) as (_ & k & ->).
    intros Hin. apply Hsrc. rewrite !elem_of_app in *. destruct Hin as [|[|Hin]]; [tauto..|].
    do 2 right. rewrite <- (take_drop k). apply elem_of_app. by left.
  - intros e He Hd. rewrite acked_snoc. destruct (put_candidates_spec (fs_candidates st) (fs_seg st) Hs) as (_ & k & ->).
    specialize (Hdue e He Hd). rewrite !elem_of_app in *. tauto.
  - intros _ []%app_nil. done.
  - intros n Hin. apply Hsrc. rewrite elem_of_app. by left.
  - intros e He Hd. specialize (Hdue e He Hd). apply orb_false_elim in Hw as [_ Hempty%negb_false_iff].
    unfold AckSegment_IsEmpty in Hempty. apply bool_decide_eq_true, nil_length_inv in Hempty.
    rewrite Hempty, app_nil_r in Hdue. done.
  - intros Hd. apply orb_false_elim in Hw as [Hw _]. destruct Hdirty as [Hdirty|]; [congruence|done].
Qed.

(** ** Reassembly *)

(** The worker has taken the first [n] payloads of [stream] out of its window,
    and the window holds later payloads under their numbers. *)
Record received (stream : list bytes) (n : nat) (w : ReceivingWorker) : Prop := {
  rcv_next : rw_nextNumber w = Z.of_nat n;
  rcv_length : (n ≤ length stream)%nat;
  rcv_window k seg : rw_window w !! k = Some seg →
    Z.of_nat n ≤ k ∧ stream !! Z.to_nat k = Some (d_payload seg)
}.

(** A segment of the stream, as the peer may send it any number of times. *)
Definition genuine (stream : list bytes) (seg : DataSegment) : Prop :=
  0 ≤ d_Number seg ∧ stream !! Z.to_nat (d_Number seg) = Some (d_payload seg).

(** The numbers that have arrived. *)
Definition arrived (w : ReceivingWorker) (k : Z) : Prop := k < rw_nextNumber w ∨ is_Some (rw_window w !! k).

Section reassembly.
Context (stream : list bytes) (Hstream : Z.of_nat (length stream) < 2 ^ 31).

Lemma received_NewReceivingWorker size : received stream 0 (NewReceivingWorker size).
Proof. split; [done|lia|]. intros k seg. cbn. by rewrite lookup_empty. Qed.

Lemma received_ext n w w' :
  rw_nextNumber w' = rw_nextNumber w → rw_window w' = rw_window w → received stream n w → received stream n w'.
Proof. intros H1 H2 [H3 H4 H5]. split; rewrite ?H1, ?H2; done. Qed.

Lemma rw_ProcessSegment_received n seg w :
  received stream n w → rw_windowSize w < 2 ^ 31 → genuine stream seg →
  received stream n (rw_ProcessSegment seg w) ∧
  (∀ k, arrived w k → arrived (rw_ProcessSegment seg w) k) ∧
  (d_Number seg < rw_nextNumber w + rw_windowSize w → arrived (rw_ProcessSegment seg w) (d_Number seg)) ∧
  (∀ k, k ∈ ae_number <$> entries (rw_acklist (rw_ProcessSegment seg w)) →
        k ∈ ae_number <$> entries (rw_acklist w) ∨ k = d_Number seg ∧ arrived (rw_ProcessSegment seg w) k).
Proof.
  intros [Hnext Hn Hwin] Hsize [Hpos Hseg]. pose proof (lookup_lt_Some _ _ _ Hseg) as Hlt.
  unfold rw_ProcessSegment. rewrite Hnext. case_decide as Hidx.
  - split_all; [done|done| |by left]. intros Hk. left. rewrite Hnext.
    destruct (decide (d_Number seg < Z.of_nat n)) as [|Hge]; [done|exfalso].
    rewrite wrap_small in Hidx by (unfold is_uint; lia). lia.
  - assert (Z.of_nat n ≤ d_Number seg) as Hge.
    { destruct (decide (Z.of_nat n ≤ d_Number seg)) as [|Hneg]; [done|exfalso].
      unfold wrap in Hidx. rewrite <- (Z_mod_plus_full _ 1), Z.mod_small in Hidx; lia. }
    match goal with |- received _ _ ?x ∧ _ => set (w' := x) end.
    assert (rw_nextNumber w' = Z.of_nat n) as Hnext' by done.
    assert (rw_window w' = (window_Set (d_Number seg) seg (rw_window w)).1) as Hwin' by done.
    assert (entries (rw_acklist w') = entries (AckList_Add (d_Number seg) (d_Timestamp seg)
      (AckList_Clear (d_SendingNext seg) (rw_acklist w)))) as Hent by done. clearbody w'.
    assert (∀ k s, rw_window w' !! k = Some s → rw_window w !! k = Some s ∨ k = d_Number seg ∧ s = seg) as Hold.
    { intros k s. rewrite Hwin'. unfold window_Set. case_match; cbn; [by left|].
      rewrite lookup_insert. case_decide; [intros [= <-]; subst; by right|by left]. }
    assert (∀ k, is_Some (rw_window w !! k) → is_Some (rw_window w' !! k)) as Hkeep.
    { intros k Hk. rewrite Hwin'. unfold window_Set. case_match; cbn; [done|]. rewrite lookup_insert. by case_decide. }
    assert (arrived w' (d_Number seg)) as Hin.
    { right. rewrite Hwin'. unfold window_Set. case_match eqn:E; cbn; [by eexists|]. rewrite lookup_insert_eq. by eexists. }
    split_all; [|intros k [Hk|Hk]; [left; lia|right; auto]|done|].
    + split; [done|done|]. intros k s [Hk|[-> ->]]%Hold; [by apply Hwin|done].
    + intros k. rewrite Hent. cbn. rewrite fmap_app, elem_of_app. intros [Hk|Hk].
      * left. rewrite (proj1 (AckList_Clear_spec _ _)) in Hk.
        apply list_elem_of_fmap in Hk as (e & -> & [_ He]%list_elem_of_filter). by apply list_elem_of_fmap_2.
      * right. cbn in Hk. apply list_elem_of_singleton in Hk as ->. done.
Qed.

Lemma read_window_received fuel n x mb x' next' mb' :
  (n ≤ length stream)%nat → (size x < fuel)%nat →
  (∀ k seg, x !! k = Some seg → Z.of_nat n ≤ k ∧ stream !! Z.to_nat k = Some (d_payload seg)) →
  read_window fuel x (Z.of_nat n) mb = (x', next', mb') →
  ∃ m, (n ≤ m ≤ length stream)%nat ∧ next' = Z.of_nat m ∧
    mb' = mb ++ (payload_buffer <$> take (m - n) (drop n stream)) ∧
    (∀ k seg, x' !! k = Some seg → Z.of_nat m ≤ k ∧ stream !! Z.to_nat k = Some (d_payload seg)) ∧
    x' !! next' = None ∧ (∀ k, is_Some (x !! k) → k < next' ∨ is_Some (x' !! k)).
Proof.
  revert n x mb. induction fuel as [|fuel IH]; intros n x mb Hn Hfuel Hx; [lia|].
  cbn [read_window]. unfold window_Remove. destruct (x !! Z.of_nat n) as [seg|] eqn:E.
  - destruct (Hx _ _ E) as [_ Hseg]. rewrite Nat2Z.id in Hseg. pose proof (lookup_lt_Some _ _ _ Hseg) as Hlt.
    rewrite wrap_small by (unfold is_uint; lia). replace (Z.of_nat n + 1) with (Z.of_nat (S n)) by lia.
    intros H. apply IH in H as (m & Hm & -> & -> & H1 & H2 & H3); [|lia| |].
    + exists m. split_all; [lia|lia|done| |done|done|].
      * rewrite <- (assoc_L (++)). f_equal. rewrite (drop_cons_lookup _ _ _ Hseg).
        replace (m - n)%nat with (S (m - S n)) by lia. done.
      * intros k Hk. destruct (decide (k = Z.of_nat n)) as [-> | Hne]; [left; lia|]. apply H3. by rewrite lookup_delete_ne.
    + rewrite map_size_delete, E. cbn. assert (0 < size x)%nat; [|lia].
      destruct (size x) eqn:Es; [|lia]. apply map_size_empty_inv in Es as ->. by rewrite lookup_empty in E.
    + intros k s Hk. destruct (decide (k = Z.of_nat n)) as [-> | Hne]; [by rewrite lookup_delete_eq in Hk|].
      rewrite lookup_delete_ne in Hk by done. destruct (Hx _ _ Hk). split; [lia|done].
  - intros [= <- <- <-]. exists n. rewrite Nat.sub_diag, take_0, app_nil_r. split_all; try done. by right.
Qed.

(** Taking the window out: what is returned continues the stream, up to the
    first number that has not arrived. *)
Lemma rw_ReadMultiBuffer_received n w w' mb :
  received stream n w → rw_leftOver w = None → rw_ReadMultiBuffer w = (w', mb) →
  ∃ m, (n ≤ m)%nat ∧ received stream m w' ∧ mb = payload_buffer <$> take (m - n) (drop n stream) ∧
    rw_leftOver w' = None ∧ rw_windowSize w' = rw_windowSize w ∧ rw_acklist w' = rw_acklist w ∧
    ¬ arrived w' (rw_nextNumber w') ∧ (∀ k, arrived w k → arrived w' k).
Proof.
  intros [Hnext Hn Hwin] Hl. unfold rw_ReadMultiBuffer. rewrite Hl, Hnext.
  destruct (read_window _ _ _ _) as [[x next] mb1] eqn:E.
  eapply read_window_received in E as (m & Hm & -> & -> & H1 & H2 & H3); [|done|lia|done].
  intros [= <- <-]. exists m. split_all; try done; try lia.
  - split; cbn; [done|lia|done].
  - unfold arrived. cbn. rewrite H2. intros [|[]]; [lia|done].
  - intros k [Hk|Hk]; [left; cbn; lia|]. apply H3 in Hk. exact Hk.
Qed.
(** ** What a reader gets *)

(** [delivered] was returned to the reader; together with what is left over it
    is the part of the stream that was taken out of the window. *)
Record reader_ok (n : nat) (delivered : bytes) (w : ReceivingWorker) : Prop := {
  rd_received : received stream n w;
  rd_wf : Forall wf (default [] (rw_leftOver w));
  rd_bytes : delivered ++ contents_of (default [] (rw_leftOver w)) = mjoin (take n stream)
}.

Context (Hpay : Forall (λ p, Z.of_nat (length p) ≤ 8192) stream).

Lemma payload_buffers_wf l : Forall (λ p, Z.of_nat (length p) ≤ 8192) l → Forall wf (payload_buffer <$> l).
Proof. intros H. induction H; constructor; [|done]. split; cbn; lia. Qed.

Lemma payload_buffers_contents l :
  contents_of (payload_buffer <$> l) = mjoin l.
Proof.
  induction l as [|p l IH]; [done|]. rewrite fmap_cons, contents_of_cons, IH. change (mjoin (p :: l)) with (p ++ mjoin l).
  f_equal. unfold content. cbn. rewrite drop_0, Z.sub_0_r, Nat2Z.id. by apply take_ge.
Qed.

Lemma rw_ReadMultiBuffer_reader n delivered w w' mb :
  reader_ok n delivered w → rw_ReadMultiBuffer w = (w', mb) →
  ∃ m, (n ≤ m)%nat ∧ received stream m w' ∧ rw_leftOver w' = None ∧ Forall wf mb ∧
    delivered ++ contents_of mb = mjoin (take m stream) ∧
    rw_windowSize w' = rw_windowSize w ∧ rw_acklist w' = rw_acklist w ∧ (∀ k, arrived w k → arrived w' k).
Proof using Hstream Hpay.
  intros [Hr Hw Hb] H. destruct (rw_leftOver w) as [left|] eqn:El.
  - unfold rw_ReadMultiBuffer in H. rewrite El in H. injection H as <- <-. exists n. split_all; try (done || lia). eapply received_ext; [| |exact Hr]; done.
  - eapply rw_ReadMultiBuffer_received in H as (m & Hm & Hr' & -> & Hl' & Hsz & Hack & _ & Hmono); [|done|done].
    cbn [default] in Hb. change (contents_of []) with (@nil Z) in Hb. rewrite app_nil_r in Hb.
    exists m. split_all; try done.
    + apply payload_buffers_wf. apply Forall_take, Forall_drop, Hpay.
    + rewrite payload_buffers_contents, Hb, <- join_app. f_equal.
      rewrite <- (take_drop n (take m stream)). rewrite take_take, Nat.min_l by lia. by rewrite skipn_firstn_comm.
Qed.

(** [Read] delivers the next bytes of the stream and keeps the rest. *)
Lemma rw_Read_reader n delivered k w :
  reader_ok n delivered w →
  ∃ w' got m, rw_Read k w = Ret (w', got) ∧ (n ≤ m)%nat ∧ reader_ok m (delivered ++ got) w' ∧ (length got ≤ k)%nat ∧
    rw_windowSize w' = rw_windowSize w ∧ rw_acklist w' = rw_acklist w ∧ (∀ k, arrived w k → arrived w' k).
Proof using Hstream Hpay.
  intros Hok. unfold rw_Read. destruct (rw_ReadMultiBuffer w) as [w1 mb] eqn:E.
  eapply rw_ReadMultiBuffer_reader in E as (m & Hm & Hr & Hl & Hwf & Hb & Hsz & Hack & Hmono); [|done].
  rewrite mb_IsEmpty_spec by done. case_bool_decide as Hempty.
  - exists w1, [], m. split_all; try done; [|cbn; lia]. split; [done|by rewrite Hl; apply Forall_nil_2|].
    rewrite Hl. cbn [default]. rewrite Hempty in Hb. change (contents_of []) with (@nil Z). by rewrite !app_nil_r in *.
  - destruct (SplitBytes_spec mb k Hwf) as (mb' & -> & Hwf' & Hc). cbn [outcome_bind].
    rewrite mb_IsEmpty_spec by done. eexists _, _, m. split; [done|]. split; [done|].
    split; [|split; [rewrite length_take; lia|case_bool_decide; done]].
    rewrite <- (take_drop k (contents_of mb)), <- Hc, (assoc_L (++)) in Hb.
    case_bool_decide as He; split; cbn; try done.
    + by rewrite Hl; apply Forall_nil_2.
    + rewrite Hl, <- Hb, He. done.
    + eapply received_ext; [| |exact Hr]; done.
Qed.
End reassembly.
