(* ===== verification/KcpSending.v ===== *)
(** The sending side of an mKCP connection
    (src/upstream/xray-core/transport/internet/kcp: sending.go, config.go and the
    round-trip estimate of connection.go): the window of segments that are not
    acknowledged, and the worker that sends them again. *)
From Stdlib Require Import Sorted.
From S2P Require Import Prelude Buf KcpSegment.

(** ** Configuration *)

(** The sizes of a configuration; a field that is nil has a default.  The
    header and the seed are only handed on. *)
Record KcpConfig := {
  Mtu : option Z; Tti : option Z; UplinkCapacity : option Z; DownlinkCapacity : option Z;
  Congestion : bool; WriteBuffer : option Z; ReadBuffer : option Z
}.

Definition GetMTUValue (c : KcpConfig) : Z := default 1350 (Mtu c).
Definition GetTTIValue (c : KcpConfig) : Z := default 50 (Tti c).
Definition GetUplinkCapacityValue (c : KcpConfig) : Z := default 5 (UplinkCapacity c).
Definition GetDownlinkCapacityValue (c : KcpConfig) : Z := default 20 (DownlinkCapacity c).
Definition GetWriteBufferSize (c : KcpConfig) : Z := default (2 * 1024 * 1024) (WriteBuffer c).
Definition GetReadBufferSize (c : KcpConfig) : Z := default (2 * 1024 * 1024) (ReadBuffer c).

(** Unsigned division, which panics on zero. *)
Definition u32_div (x y : Z) : option Z := if decide (y = 0) then None else Some (x / y).

Definition in_flight_size (capacity : Z) (c : KcpConfig) : option Z :=
  per ← u32_div (u32 (capacity * 1024 * 1024)) (GetMTUValue c);
  rounds ← u32_div 1000 (GetTTIValue c);
  size ← u32_div per rounds;
  Some (if decide (size < 8) then 8 else size).

Definition GetSendingInFlightSize (c : KcpConfig) : option Z := in_flight_size (GetUplinkCapacityValue c) c.
Definition GetReceivingInFlightSize (c : KcpConfig) : option Z := in_flight_size (GetDownlinkCapacityValue c) c.
Definition GetSendingBufferSize (c : KcpConfig) : option Z := u32_div (GetWriteBufferSize c) (GetMTUValue c).
Definition GetReceivingBufferSize (c : KcpConfig) : option Z := u32_div (GetReadBufferSize c) (GetMTUValue c).

(** [KCPConfig.Build]: absent fields stay absent, and a size of zero stands for
    half a megabyte.  Whether the header configuration was accepted is
    [header]. *)
Record KCPConfig := {
  kc_Mtu : option Z; kc_Tti : option Z; kc_UpCap : option Z; kc_DownCap : option Z;
  kc_Congestion : option bool; kc_ReadBufferSize : option Z; kc_WriteBufferSize : option Z
}.

Definition buffer_bytes (size : Z) : Z := if decide (0 < size) then u32 (size * 1024 * 1024) else 512 * 1024.

Definition KCPConfig_Build (header : bool) (c : KCPConfig) : option KcpConfig :=
  mtu ← match kc_Mtu c with
        | Some mtu => if decide (mtu < 576 ∨ 1460 < mtu) then None else Some (Some mtu)
        | None => Some None
        end;
  tti ← match kc_Tti c with
        | Some tti => if decide (tti < 10 ∨ 100 < tti) then None else Some (Some tti)
        | None => Some None
        end;
  if header
  then Some {| Mtu := mtu; Tti := tti; UplinkCapacity := kc_UpCap c; DownlinkCapacity := kc_DownCap c;
               Congestion := default false (kc_Congestion c); WriteBuffer := buffer_bytes <$> kc_WriteBufferSize c;
               ReadBuffer := buffer_bytes <$> kc_ReadBufferSize c |}
  else None.

(** ** Round trips *)

Record RoundTripInfo := { variation : Z; srtt : Z; rto : Z; minRtt : Z; updatedTimestamp : Z }.

Definition UpdatePeerRTO (rto' current : Z) (info : RoundTripInfo) : RoundTripInfo :=
  if decide (u32 (current - updatedTimestamp info) < 3000) then info
  else {| variation := variation info; srtt := srtt info; rto := rto'; minRtt := minRtt info;
          updatedTimestamp := current |}.

Definition rtt_Update (rtt current : Z) (info : RoundTripInfo) : RoundTripInfo :=
  if decide (0x7FFFFFFF < rtt) then info
  else
    let '(srtt', variation') :=
      if decide (srtt info = 0) then (rtt, rtt / 2)
      else
        let delta := if decide (rtt < srtt info) then u32 (srtt info - rtt) else u32 (rtt - srtt info) in
        let variation' := u32 (u32 (3 * variation info) + delta) / 4 in
        let srtt' := u32 (u32 (7 * srtt info) + rtt) / 8 in
        (if decide (srtt' < minRtt info) then minRtt info else srtt', variation') in
    let rto' := if decide (minRtt info < u32 (4 * variation')) then u32 (srtt' + u32 (4 * variation'))
                else u32 (srtt' + variation') in
    let rto' := if decide (10000 < rto') then 10000 else rto' in
    {| variation := variation'; srtt := srtt'; rto := u32 (rto' * 5) / 4; minRtt := minRtt info;
       updatedTimestamp := current |}.

Definition Timeout (info : RoundTripInfo) : Z := rto info.
Definition SmoothedTime (info : RoundTripInfo) : Z := srtt info.

(** ** The sending window *)

Record SendingWindow := { cache : list DataSegment; totalInFlightSize : Z }.

Definition NewSendingWindow : SendingWindow := {| cache := []; totalInFlightSize := 0 |}.

Definition win_Release (sw : SendingWindow) : SendingWindow :=
  {| cache := []; totalInFlightSize := totalInFlightSize sw |}.

Definition win_Len (sw : SendingWindow) : Z := u32 (Z.of_nat (length (cache sw))).
Definition win_IsEmpty (sw : SendingWindow) : bool := bool_decide (cache sw = []).

Definition win_Push (number : Z) (b : bytes) (sw : SendingWindow) : SendingWindow :=
  {| cache := cache sw ++ [{| d_Conv := 0; d_Option := 0; d_Timestamp := 0; d_Number := number;
                              d_SendingNext := 0; d_payload := b; d_timeout := 0; d_transmit := 0 |}];
     totalInFlightSize := totalInFlightSize sw |}.

Fixpoint clear_front (una : Z) (segs : list DataSegment) : list DataSegment :=
  match segs with
  | [] => []
  | seg :: rest => if decide (una ≤ d_Number seg) then segs else clear_front una rest
  end.

Definition win_Clear (una : Z) (sw : SendingWindow) : SendingWindow :=
  {| cache := clear_front una (cache sw); totalInFlightSize := totalInFlightSize sw |}.

Definition with_timeout (t : Z) (s : DataSegment) : DataSegment :=
  {| d_Conv := d_Conv s; d_Option := d_Option s; d_Timestamp := d_Timestamp s; d_Number := d_Number s;
     d_SendingNext := d_SendingNext s; d_payload := d_payload s; d_timeout := t; d_transmit := d_transmit s |}.

Fixpoint fast_ack (number rto : Z) (segs : list DataSegment) : list DataSegment :=
  match segs with
  | [] => []
  | seg :: rest =>
    if decide (number = d_Number seg ∨ 0x7FFFFFFF < u32 (number - d_Number seg)) then segs
    else
      (if decide (0 < d_transmit seg ∧ rto / 3 < d_timeout seg)
       then with_timeout (u32 (d_timeout seg - rto / 3)) seg else seg) :: fast_ack number rto rest
  end.

Definition HandleFastAck (number rto : Z) (sw : SendingWindow) : SendingWindow :=
  {| cache := fast_ack number rto (cache sw); totalInFlightSize := totalInFlightSize sw |}.

(** [SendingWorker.Write] sets the fields of the segment in the window. *)
Definition sw_Write (conv firstUnacknowledged : Z) (readyToClose : bool) (s : DataSegment) : DataSegment :=
  {| d_Conv := conv; d_Option := if readyToClose then SegmentOptionClose else 0; d_Timestamp := d_Timestamp s;
     d_Number := d_Number s; d_SendingNext := firstUnacknowledged; d_payload := d_payload s;
     d_timeout := d_timeout s; d_transmit := d_transmit s |}.

(** What [Flush] counts and writes while it visits the window. *)
Record visit_state := { vs_total : Z; vs_lost : Z; vs_inFlight : Z; vs_out : list DataSegment }.

Section visit.
Context (write : DataSegment → DataSegment) (current rto maxInFlightSize : Z).

Fixpoint flush_visit (st : visit_state) (segs : list DataSegment) : visit_state * list DataSegment :=
  match segs with
  | [] => (st, [])
  | segment :: rest =>
    if decide (0x7FFFFFFF ≤ u32 (current - d_timeout segment)) then
      let '(st, rest) := flush_visit st rest in (st, segment :: rest)
    else
      let first := decide (d_transmit segment = 0) in
      let segment := write {| d_Conv := d_Conv segment; d_Option := d_Option segment; d_Timestamp := current;
        d_Number := d_Number segment; d_SendingNext := d_SendingNext segment; d_payload := d_payload segment;
        d_timeout := u32 (current + rto); d_transmit := u32 (d_transmit segment + 1) |} in
      let st := {| vs_total := if first then u32 (vs_total st + 1) else vs_total st;
                   vs_lost := if first then vs_lost st else u32 (vs_lost st + 1);
                   vs_inFlight := u32 (vs_inFlight st + 1); vs_out := vs_out st ++ [segment] |} in
      if decide (vs_inFlight st < maxInFlightSize)
      then let '(st, rest) := flush_visit st rest in (st, segment :: rest)
      else (st, segment :: rest)
  end.

(** [Flush]: the window, the segments written, and the loss rate that is
    reported, if any. *)
Definition win_Flush (sw : SendingWindow) : SendingWindow * list DataSegment * option Z :=
  let '(st, segs) := flush_visit
    {| vs_total := totalInFlightSize sw; vs_lost := 0; vs_inFlight := 0; vs_out := [] |} (cache sw) in
  ({| cache := segs; totalInFlightSize := vs_total st |}, vs_out st,
   if decide (0 < vs_inFlight st ∧ vs_total st ≠ 0) then Some (u32 (vs_lost st * 100) / vs_total st) else None).
End visit.

(** The loop of [Remove]: the list without the segment, if it is there. *)
Fixpoint remove_number (number : Z) (segs : list DataSegment) : option (list DataSegment) :=
  match segs with
  | [] => None
  | seg :: rest =>
    if decide (number < d_Number seg) then None
    else if decide (d_Number seg = number) then Some rest
    else rest ← remove_number number rest; Some (seg :: rest)
  end.

Definition win_Remove (number : Z) (sw : SendingWindow) : SendingWindow * bool :=
  match remove_number number (cache sw) with
  | None => (sw, false)
  | Some segs =>
    ({| cache := segs;
        totalInFlightSize := if decide (0 < totalInFlightSize sw) then u32 (totalInFlightSize sw - 1)
                             else totalInFlightSize sw |}, true)
  end.

(** ** The worker *)

Record SendingWorker := {
  sw_window : SendingWindow;
  sw_firstUnacknowledged : Z;
  sw_nextNumber : Z;
  sw_remoteNextNumber : Z;
  sw_controlWindow : Z;
  sw_fastResend : Z;
  sw_windowSize : Z;
  sw_firstUnacknowledgedUpdated : bool;
  sw_closed : bool
}.

Definition sw_with_window (x : SendingWindow) (w : SendingWorker) : SendingWorker :=
  {| sw_window := x; sw_firstUnacknowledged := sw_firstUnacknowledged w; sw_nextNumber := sw_nextNumber w;
     sw_remoteNextNumber := sw_remoteNextNumber w; sw_controlWindow := sw_controlWindow w;
     sw_fastResend := sw_fastResend w; sw_windowSize := sw_windowSize w;
     sw_firstUnacknowledgedUpdated := sw_firstUnacknowledgedUpdated w; sw_closed := sw_closed w |}.

Definition sw_with_first (first : Z) (updated : bool) (w : SendingWorker) : SendingWorker :=
  {| sw_window := sw_window w; sw_firstUnacknowledged := first; sw_nextNumber := sw_nextNumber w;
     sw_remoteNextNumber := sw_remoteNextNumber w; sw_controlWindow := sw_controlWindow w;
     sw_fastResend := sw_fastResend w; sw_windowSize := sw_windowSize w;
     sw_firstUnacknowledgedUpdated := updated; sw_closed := sw_closed w |}.

Definition sw_with_numbers (next remote control : Z) (w : SendingWorker) : SendingWorker :=
  {| sw_window := sw_window w; sw_firstUnacknowledged := sw_firstUnacknowledged w; sw_nextNumber := next;
     sw_remoteNextNumber := remote; sw_controlWindow := control;
     sw_fastResend := sw_fastResend w; sw_windowSize := sw_windowSize w;
     sw_firstUnacknowledgedUpdated := sw_firstUnacknowledgedUpdated w; sw_closed := sw_closed w |}.

Definition sw_close (w : SendingWorker) : SendingWorker :=
  {| sw_window := sw_window w; sw_firstUnacknowledged := sw_firstUnacknowledged w; sw_nextNumber := sw_nextNumber w;
     sw_remoteNextNumber := sw_remoteNextNumber w; sw_controlWindow := sw_controlWindow w;
     sw_fastResend := sw_fastResend w; sw_windowSize := sw_windowSize w;
     sw_firstUnacknowledgedUpdated := sw_firstUnacknowledgedUpdated w; sw_closed := true |}.

Definition NewSendingWorker (sendingInFlightSize sendingBufferSize : Z) : SendingWorker :=
  {| sw_window := NewSendingWindow; sw_firstUnacknowledged := 0; sw_nextNumber := 0; sw_remoteNextNumber := 32;
     sw_controlWindow := sendingInFlightSize; sw_fastResend := 2; sw_windowSize := sendingBufferSize;
     sw_firstUnacknowledgedUpdated := false; sw_closed := false |}.

Definition sw_Release (w : SendingWorker) : SendingWorker := sw_close (sw_with_window (win_Release (sw_window w)) w).

Definition FindFirstUnacknowledged (w : SendingWorker) : SendingWorker :=
  let first := match cache (sw_window w) with [] => sw_nextNumber w | seg :: _ => d_Number seg end in
  sw_with_first first (sw_firstUnacknowledgedUpdated w || bool_decide (sw_firstUnacknowledged w ≠ first)) w.

Definition ProcessReceivingNext (nextNumber : Z) (w : SendingWorker) : SendingWorker :=
  FindFirstUnacknowledged (sw_with_window (win_Clear nextNumber (sw_window w)) w).

Definition processAck (number : Z) (w : SendingWorker) : SendingWorker * bool :=
  if decide (0x7FFFFFFF < u32 (number - sw_firstUnacknowledged w) ∨ u32 (number - sw_nextNumber w) < 0x7FFFFFFF)
  then (w, false)
  else
    let '(x, removed) := win_Remove number (sw_window w) in
    let w := sw_with_window x w in
    (if removed then FindFirstUnacknowledged w else w, removed).

(** The loop of [ProcessSegment] over the acknowledged numbers. *)
Fixpoint process_acks (numbers : list Z) (maxack : Z) (maxackRemoved : bool) (w : SendingWorker)
    : SendingWorker * Z * bool :=
  match numbers with
  | [] => (w, maxack, maxackRemoved)
  | number :: numbers =>
    let '(w, removed) := processAck number w in
    if decide (maxack < number) then process_acks numbers number removed w
    else process_acks numbers maxack maxackRemoved w
  end.

Definition sw_ProcessSegment (current : Z) (seg : AckSegment) (rto : Z) (info : RoundTripInfo) (w : SendingWorker)
    : SendingWorker * RoundTripInfo :=
  if sw_closed w then (w, info)
  else
    let w := if decide (sw_remoteNextNumber w < a_ReceivingWindow seg)
             then sw_with_numbers (sw_nextNumber w) (a_ReceivingWindow seg) (sw_controlWindow w) w else w in
    let w := ProcessReceivingNext (a_ReceivingNext seg) w in
    if AckSegment_IsEmpty seg then (w, info)
    else
      let '(w, maxack, maxackRemoved) := process_acks (a_NumberList seg) 0 false w in
      if maxackRemoved then
        (sw_with_window (HandleFastAck maxack rto (sw_window w)) w,
         if decide (u32 (current - a_Timestamp seg) < 10000)
         then rtt_Update (u32 (current - a_Timestamp seg)) current info else info)
      else (w, info).

Definition sw_Push (b : bytes) (w : SendingWorker) : SendingWorker * bool :=
  if sw_closed w then (w, false)
  else if decide (sw_windowSize w < win_Len (sw_window w)) then (w, false)
  else
    let w := sw_with_window (win_Push (sw_nextNumber w) b (sw_window w)) w in
    (sw_with_numbers (u32 (sw_nextNumber w + 1)) (sw_remoteNextNumber w) (sw_controlWindow w) w, true).

Definition OnPacketLoss (congestion : bool) (timeout inFlightSize lossRate : Z) (w : SendingWorker) : SendingWorker :=
  if negb congestion || bool_decide (timeout = 0) then w
  else
    let cw := sw_controlWindow w in
    let cw := if decide (15 ≤ lossRate) then u32 (3 * cw) / 4
              else if decide (lossRate ≤ 5) then u32 (cw + cw / 4) else cw in
    let cw := if decide (cw < 16) then 16 else cw in
    let cw := if decide (u32 (2 * inFlightSize) < cw) then u32 (2 * inFlightSize) else cw in
    sw_with_numbers (sw_nextNumber w) (sw_remoteNextNumber w) cw w.

(** [Flush]: the worker, what was written, and whether a ping follows. *)
Definition sw_Flush (congestion : bool) (inFlightSize timeout conv : Z) (readyToClose : bool) (current : Z)
    (w : SendingWorker) : SendingWorker * list DataSegment * bool :=
  if sw_closed w then (w, [], false)
  else
    let cwnd := inFlightSize in
    let room := u32 (sw_remoteNextNumber w - sw_firstUnacknowledged w) in
    let cwnd := if decide (room < cwnd) then room else cwnd in
    let cwnd := if congestion && bool_decide (sw_controlWindow w < cwnd) then sw_controlWindow w else cwnd in
    let cwnd := u32 (cwnd * 20) in
    if win_IsEmpty (sw_window w)
    then (sw_with_first (sw_firstUnacknowledged w) false w, [], sw_firstUnacknowledgedUpdated w)
    else
      let '(x, out, rate) := win_Flush (sw_Write conv (sw_firstUnacknowledged w) readyToClose) current timeout cwnd
                               (sw_window w) in
      let w := sw_with_window x w in
      let w := match rate with Some rate => OnPacketLoss congestion timeout inFlightSize rate w | None => w end in
      (sw_with_first (sw_firstUnacknowledged w) false w, out, false).

Definition CloseWrite (w : SendingWorker) : SendingWorker :=
  sw_with_window (win_Clear 0xFFFFFFFF (sw_window w)) w.

Definition sw_IsEmpty (w : SendingWorker) : bool := win_IsEmpty (sw_window w).
Definition sw_UpdateNecessary (w : SendingWorker) : bool := negb (sw_IsEmpty w).
Definition FirstUnacknowledged (w : SendingWorker) : Z := sw_firstUnacknowledged w.

(** ** The window keeps what is not acknowledged *)

Definition seg_pair (s : DataSegment) : Z * bytes := (d_Number s, d_payload s).
Definition pairs (sw : SendingWindow) : list (Z * bytes) := seg_pair <$> cache sw.

(** The window holds segments of [stream], in order, and the next number is its
    length. *)
Record sender_ok (stream : list bytes) (w : SendingWorker) : Prop := {
  snd_next : sw_nextNumber w = Z.of_nat (length stream);
  snd_pairs : Forall (λ p, 0 ≤ p.1 ∧ stream !! Z.to_nat p.1 = Some p.2) (pairs (sw_window w));
  snd_sorted : StronglySorted Z.lt (pairs (sw_window w)).*1
}.

(** The number is still in the window. *)
Definition unacked (w : SendingWorker) (k : Z) : Prop := k ∈ (pairs (sw_window w)).*1.

Lemma clear_front_drop una segs : ∃ n, clear_front una segs = drop n segs ∧ Forall (λ s, d_Number s < una) (take n segs).
Proof.
  induction segs as [|s segs (n & IH & Hn)]; cbn [clear_front]; [by exists 0%nat|].
  case_decide; [exists 0%nat; split; [done|apply Forall_nil_2]|]. exists (S n). split; [done|].
  cbn. constructor; [lia|done].
Qed.

Lemma remove_number_spec number segs segs' :
  remove_number number segs = Some segs' →
  ∃ l s r, segs = l ++ s :: r ∧ segs' = l ++ r ∧ d_Number s = number ∧ Forall (λ s, d_Number s < number) l.
Proof.
  revert segs'. induction segs as [|s segs IH]; intros segs'; cbn [remove_number]; [done|].
  case_decide; [done|]. case_decide as E; [intros [= <-]; exists [], s, segs; by split_all|].
  destruct (remove_number number segs) as [r'|] eqn:Er; cbn; [|done]. intros [= <-].
  destruct (IH _ eq_refl) as (l & s' & r & -> & -> & Hs & Hl).
  exists (s :: l), s', r. split_all; try done. constructor; [lia|done].
Qed.

(** A segment of a sorted window is found. *)
Lemma remove_number_found number segs :
  StronglySorted Z.lt (d_Number <$> segs) → number ∈ d_Number <$> segs → is_Some (remove_number number segs).
Proof.
  induction segs as [|s segs IH]; cbn; [by intros _ ?%elem_of_nil|]. intros [Hs Hall]%StronglySorted_inv Hin.
  apply elem_of_cons in Hin as [-> | Hin].
  { rewrite decide_False, decide_True by lia. by eexists. }
  rewrite Forall_forall in Hall. specialize (Hall _ Hin). rewrite !decide_False by lia.
  destruct (IH Hs Hin) as [r ->]. by eexists.
Qed.

Lemma pairs_fst sw : (pairs sw).*1 = d_Number <$> cache sw.
Proof. unfold pairs. by rewrite <- list_fmap_compose. Qed.

Lemma StronglySorted_sublist {A} (R : A → A → Prop) l k : l `sublist_of` k → StronglySorted R k → StronglySorted R l.
Proof.
  intros H. induction H as [|x l k Hs IH|x l k Hs IH]; intros Hk; [done| |]; apply StronglySorted_inv in Hk as [Hk Hx]; [|auto].
  constructor; [auto|]. rewrite Forall_forall in *. intros y Hy. apply Hx.
  by eapply elem_of_submseteq; [|apply sublist_submseteq].
Qed.

(** Removing segments keeps the rest. *)
Lemma sender_ok_shrink stream w w' :
  sw_nextNumber w' = sw_nextNumber w → pairs (sw_window w') `sublist_of` pairs (sw_window w) →
  sender_ok stream w → sender_ok stream w'.
Proof.
  intros Hn Hsub [H1 H2 H3]. split; [congruence| |].
  - rewrite Forall_forall in *. intros p Hp. apply H2. by eapply elem_of_submseteq; [|apply sublist_submseteq].
  - eapply StronglySorted_sublist; [|exact H3]. by apply fmap_sublist.
Qed.

(** [w'] is [w] with segments removed whose numbers satisfy [P]. *)
Definition shrinks (P : Z → Prop) (w w' : SendingWorker) : Prop :=
  sw_nextNumber w' = sw_nextNumber w ∧ pairs (sw_window w') `sublist_of` pairs (sw_window w) ∧
  (∀ k, unacked w k → unacked w' k ∨ P k).

Lemma shrinks_refl P w w' :
  sw_nextNumber w' = sw_nextNumber w → pairs (sw_window w') = pairs (sw_window w) → shrinks P w w'.
Proof. intros H1 H2. unfold shrinks, unacked. rewrite H1, H2. split_all; [done|done|by left]. Qed.

Lemma shrinks_trans (P : Z → Prop) w1 w2 w3 : shrinks P w1 w2 → shrinks P w2 w3 → shrinks P w1 w3.
Proof.
  intros (H1 & H2 & H3) (H4 & H5 & H6). unfold shrinks. split_all; [congruence|by etrans|].
  intros k [Hk|Hk]%H3; [|by right]. auto.
Qed.

Lemma shrinks_mono (P Q : Z → Prop) w w' : (∀ k, P k → Q k) → shrinks P w w' → shrinks Q w w'.
Proof. intros HPQ (H1 & H2 & H3). unfold shrinks. split_all; [done..|]. intros k [Hk|Hk]%H3; auto. Qed.

Lemma FindFirstUnacknowledged_shrinks P w : shrinks P w (FindFirstUnacknowledged w).
Proof. by apply shrinks_refl. Qed.

Lemma win_Clear_shrinks una w : shrinks (λ k, k < una) w (sw_with_window (win_Clear una (sw_window w)) w).
Proof.
  destruct (clear_front_drop una (cache (sw_window w))) as (n & Hd & Hn).
  unfold shrinks, unacked, pairs. cbn. rewrite Hd. split_all; [done|apply fmap_sublist, sublist_drop|].
  intros k Hk. rewrite <- (take_drop n (cache _)) in Hk. rewrite !fmap_app, elem_of_app in Hk. destruct Hk as [Hk|]; [|by left].
  right. rewrite <- list_fmap_compose in Hk. apply list_elem_of_fmap in Hk as (s & -> & Hs).
  rewrite Forall_forall in Hn. by apply Hn.
Qed.

Lemma ProcessReceivingNext_shrinks una w : shrinks (λ k, k < una) w (ProcessReceivingNext una w).
Proof. eapply shrinks_trans; [apply win_Clear_shrinks|apply FindFirstUnacknowledged_shrinks]. Qed.

Lemma win_Remove_shrinks number w x removed :
  win_Remove number (sw_window w) = (x, removed) → shrinks (λ k, k = number) w (sw_with_window x w).
Proof.
  unfold win_Remove. destruct (remove_number number _) as [segs|] eqn:E; intros [= <- <-]; [|by apply shrinks_refl].
  apply remove_number_spec in E as (l & s & r & Hc & -> & Hs & _).
  unfold shrinks, unacked, pairs. cbn. rewrite Hc, !fmap_app, !fmap_cons. split_all; [done| |].
  - apply sublist_app; [done|]. by apply sublist_cons.
  - intros k. rewrite !elem_of_app, elem_of_cons. cbn. rewrite Hs. tauto.
Qed.

Lemma processAck_shrinks number w w' removed :
  processAck number w = (w', removed) → shrinks (λ k, k = number) w w'.
Proof.
  unfold processAck. case_decide; [intros [= <- <-]; by apply shrinks_refl|].
  destruct (win_Remove number (sw_window w)) as [x r] eqn:E. intros [= <- <-].
  apply win_Remove_shrinks in E. destruct r; [|done].
  eapply shrinks_trans; [exact E|]. apply FindFirstUnacknowledged_shrinks.
Qed.

Lemma process_acks_shrinks numbers maxack removed w w' m r :
  process_acks numbers maxack removed w = (w', m, r) → shrinks (λ k, k ∈ numbers) w w'.
Proof.
  revert maxack removed w. induction numbers as [|n numbers IH]; intros maxack removed w; cbn [process_acks].
  { intros [= <- <- <-]. by apply shrinks_refl. }
  destruct (processAck n w) as [w1 r1] eqn:E. intros H. apply (shrinks_trans _ _ w1).
  - eapply shrinks_mono, processAck_shrinks, E. intros k ->. apply elem_of_cons. by left.
  - eapply shrinks_mono; [|by case_decide; eapply IH]. intros k Hk. apply elem_of_cons. by right.
Qed.

Lemma fast_ack_pairs number rto segs : seg_pair <$> fast_ack number rto segs = seg_pair <$> segs.
Proof.
  induction segs as [|s segs IH]; cbn [fast_ack]; [done|]. case_decide; [done|]. rewrite !fmap_cons, IH. f_equal.
  by case_decide.
Qed.

(** An acknowledgement removes only what it acknowledges. *)
Lemma sw_ProcessSegment_shrinks current seg rto info w w' info' :
  sw_ProcessSegment current seg rto info w = (w', info') →
  shrinks (λ k, k < a_ReceivingNext seg ∨ k ∈ a_NumberList seg) w w'.
Proof.
  unfold sw_ProcessSegment. case_match; [intros [= <- <-]; by apply shrinks_refl|].
  set (w1 := if decide _ then _ else w).
  assert (∀ P, shrinks P w w1) as Hw1 by (intros P; unfold w1; case_decide; by apply shrinks_refl). intros Hp.
  assert (shrinks (λ k, k < a_ReceivingNext seg ∨ k ∈ a_NumberList seg) w (ProcessReceivingNext (a_ReceivingNext seg) w1)) as Hs.
  { apply (shrinks_trans _ _ w1); [done|].
    eapply shrinks_mono, ProcessReceivingNext_shrinks. auto. }
  case_match; [by injection Hp as <- <-|].
  destruct (process_acks _ _ _ _) as [[w2 maxack] r] eqn:E. apply process_acks_shrinks in E.
  assert (shrinks (λ k, k < a_ReceivingNext seg ∨ k ∈ a_NumberList seg) w w2) as Hs2.
  { eapply shrinks_trans; [exact Hs|]. eapply shrinks_mono, E. auto. }
  destruct r; injection Hp as <- <-; [|done]. eapply shrinks_trans; [exact Hs2|]. apply shrinks_refl; [done|].
  apply fast_ack_pairs.
Qed.

(** ** Sending *)

Section sending.
Context (write : DataSegment → DataSegment) (current rto maxInFlightSize : Z).
Context (Hwrite : ∀ s, seg_pair (write s) = seg_pair s).

Definition is_due (s : DataSegment) : bool := bool_decide (u32 (current - d_timeout s) < 0x7FFFFFFF).

Lemma flush_visit_spec st segs st' segs' :
  0 ≤ vs_inFlight st → vs_inFlight st + Z.of_nat (length segs) < 2 ^ 32 →
  flush_visit write current rto maxInFlightSize st segs = (st', segs') →
  seg_pair <$> segs' = seg_pair <$> segs ∧
  ∃ out, vs_out st' = vs_out st ++ out ∧ vs_inFlight st' = vs_inFlight st + Z.of_nat (length out) ∧
    seg_pair <$> out =
      take (Z.to_nat (Z.max 1 (maxInFlightSize - vs_inFlight st))) (seg_pair <$> filter is_due segs).
Proof using Hwrite.
  revert st segs'. induction segs as [|s segs IH]; intros st segs' Hpos Hlen; cbn [flush_visit].
  { intros [= <- <-]. split; [done|]. exists []. rewrite app_nil_r, filter_nil, fmap_nil, take_nil. split_all; [done|cbn; lia|done]. }
  cbn [length] in Hlen. rewrite filter_cons. destruct (decide (0x7FFFFFFF ≤ u32 (current - d_timeout s))) as [Hnot|Hdue].
  - assert (is_due s = false) as Hs by (apply bool_decide_eq_false_2; lia). rewrite Hs.
    destruct (flush_visit _ _ _ _ st segs) as [st1 segs1] eqn:E. intros [= <- <-].
    apply IH in E as (Hp & Hout); [|done|lia]. rewrite !fmap_cons, Hp. split; [done|]. exact Hout.
  - assert (is_due s = true) as Hs by (apply bool_decide_eq_true_2; lia). rewrite Hs.
    set (first := decide (d_transmit s = 0)). set (seg := write _).
    assert (seg_pair seg = seg_pair s) as Hseg by (unfold seg; by rewrite Hwrite). clearbody seg first.
    match goal with |- context [vs_inFlight ?x] =>
      lazymatch x with Build_visit_state _ _ _ _ => set (st0 := x) end end.
    assert (vs_inFlight st0 = vs_inFlight st + 1) as Hin0 by (cbn; apply wrap_small; unfold is_uint; lia).
    assert (vs_out st0 = vs_out st ++ [seg]) as Hout0 by done. clearbody st0.
    rewrite (decide_True (P := Is_true true)) by done. rewrite fmap_cons.
    case_decide as Hmax.
    + destruct (flush_visit _ _ _ _ st0 segs) as [st1 segs1] eqn:E. intros [= <- <-].
      apply IH in E as (Hp & out & Ho & Hi & Ht); [|lia..]. rewrite !fmap_cons, Hp, Hseg. split; [done|].
      exists (seg :: out). rewrite Ho, Hi, Hin0, Hout0, <- (assoc_L (++)). split_all; [done|cbn [length]; lia|].
      rewrite fmap_cons, Ht, Hin0, Hseg.
      replace (Z.to_nat (Z.max 1 (maxInFlightSize - vs_inFlight st))) with
        (S (Z.to_nat (Z.max 1 (maxInFlightSize - (vs_inFlight st + 1))))) by lia. done.
    + intros [= <- <-]. rewrite !fmap_cons, Hseg. split; [done|]. exists [seg].
      rewrite Hout0, Hin0. split_all; [done|done|].
      replace (Z.to_nat (Z.max 1 (maxInFlightSize - vs_inFlight st))) with 1%nat by lia. cbn. by rewrite Hseg.
Qed.

(** A flush sends, in order, the segments that are due, as many as the window
    allows but at least one, and keeps them all. *)
Lemma win_Flush_spec sw sw' out rate :
  Z.of_nat (length (cache sw)) < 2 ^ 32 →
  win_Flush write current rto maxInFlightSize sw = (sw', out, rate) →
  pairs sw' = pairs sw ∧
  seg_pair <$> out = take (Z.to_nat (Z.max 1 maxInFlightSize)) (seg_pair <$> filter is_due (cache sw)).
Proof using Hwrite.
  intros Hlen. unfold win_Flush. destruct (flush_visit _ _ _ _ _ _) as [st segs] eqn:E. intros [= <- <- <-].
  apply flush_visit_spec in E as (Hp & o & Ho & _ & Ht); [|cbn; lia..]. cbn in Ho, Ht. rewrite Z.sub_0_r in Ht.
  split; [done|]. by rewrite Ho.
Qed.
End sending.

Lemma flush_visit_out write current rto m st segs st' segs' :
  (∀ s, seg_pair (write s) = seg_pair s) →
  flush_visit write current rto m st segs = (st', segs') →
  seg_pair <$> segs' = seg_pair <$> segs ∧
  (∀ s, s ∈ vs_out st' → s ∈ vs_out st ∨ seg_pair s ∈ seg_pair <$> segs).
Proof.
  intros Hwrite. revert st segs'. induction segs as [|s segs IH]; intros st segs'; cbn [flush_visit].
  { intros [= <- <-]. split; [done|]. by left. }
  case_decide.
  - destruct (flush_visit _ _ _ _ st segs) as [st1 segs1] eqn:E. intros [= <- <-].
    apply IH in E as (Hp & Ho). rewrite !fmap_cons, Hp. split; [done|].
    intros x [Hx|Hx]%Ho; [by left|right]. apply elem_of_cons. by right.
  - set (seg := write _). assert (seg_pair seg = seg_pair s) as Hseg by (unfold seg; by rewrite Hwrite). clearbody seg.
    case_decide.
    + destruct (flush_visit _ _ _ _ _ segs) as [st1 segs1] eqn:E. intros [= <- <-].
      apply IH in E as (Hp & Ho). rewrite !fmap_cons, Hp, Hseg. split; [done|].
      intros x [Hx|Hx]%Ho; [|right; apply elem_of_cons; by right].
      cbn in Hx. apply elem_of_app in Hx as [Hx|Hx%list_elem_of_singleton]; [by left|]. subst. right. apply elem_of_cons. by left.
    + intros [= <- <-]. rewrite !fmap_cons, Hseg. split; [done|]. intros x. cbn.
      intros [Hx|Hx%list_elem_of_singleton]%elem_of_app; [by left|]. subst. right. apply elem_of_cons. by left.
Qed.

Lemma OnPacketLoss_window congestion timeout inFlight rate w :
  sw_window (OnPacketLoss congestion timeout inFlight rate w) = sw_window w ∧
  sw_nextNumber (OnPacketLoss congestion timeout inFlight rate w) = sw_nextNumber w.
Proof. unfold OnPacketLoss. by case_match. Qed.

(** A flush keeps the window, and sends segments of it. *)
Lemma sw_Flush_window congestion inFlight timeout conv close current w w' out ping :
  sw_Flush congestion inFlight timeout conv close current w = (w', out, ping) →
  pairs (sw_window w') = pairs (sw_window w) ∧ sw_nextNumber w' = sw_nextNumber w ∧
  (∀ s, s ∈ out → seg_pair s ∈ pairs (sw_window w)).
Proof.
  unfold sw_Flush. case_match; [intros [= <- <- <-]; split_all; [done|done|by intros ? ?%elem_of_nil]|].
  case_match; [intros [= <- <- <-]; split_all; [done|done|by intros ? ?%elem_of_nil]|].
  destruct (win_Flush _ _ _ _ _) as [[x o] rate] eqn:E. intros [= <- <- <-].
  unfold win_Flush in E. destruct (flush_visit _ _ _ _ _ _) as [st segs] eqn:Ev. injection E as <- <- _.
  apply flush_visit_out in Ev as (Hp & Ho); [|done]. destruct rate as [r|]; cbn.
  - destruct (OnPacketLoss_window congestion timeout inFlight r
      (sw_with_window {| cache := segs; totalInFlightSize := vs_total st |} w)) as [-> ->]. cbn.
    split_all; [done|done|]. intros s [Hs|Hs]%Ho; [by apply elem_of_nil in Hs|done].
  - split_all; [done|done|]. intros s [Hs|Hs]%Ho; [by apply elem_of_nil in Hs|done].
Qed.

Lemma StronglySorted_snoc (l : list Z) x : StronglySorted Z.lt l → Forall (λ y, y < x) l → StronglySorted Z.lt (l ++ [x]).
Proof.
  intros H. induction H as [|y l Hl IH Hy]; intros Hx; cbn; [by repeat constructor|].
  inv Hx. constructor; [auto|]. apply Forall_app. by split; [|apply Forall_singleton].
Qed.

(** [Push] appends to the stream. *)
Lemma sw_Push_ok stream b w w' :
  Z.of_nat (length stream) + 1 < 2 ^ 32 → sender_ok stream w → sw_Push b w = (w', true) →
  sender_ok (stream ++ [b]) w' ∧ (∀ k, unacked w k → unacked w' k) ∧ unacked w' (Z.of_nat (length stream)).
Proof.
  intros Hlen [Hn Hp Hs]. unfold sw_Push. do 2 (case_match; [done|]). intros [= <-].
  match goal with |- sender_ok _ ?x ∧ _ => set (w' := x) end.
  assert (pairs (sw_window w') = pairs (sw_window w) ++ [(Z.of_nat (length stream), b)]) as Hpairs.
  { unfold pairs, w'. cbn. rewrite fmap_app. cbn. unfold seg_pair at 2. cbn. by rewrite Hn. }
  assert (sw_nextNumber w' = u32 (Z.of_nat (length stream) + 1)) as Hnext by (unfold w'; cbn; by rewrite Hn).
  clearbody w'. unfold unacked. rewrite Hpairs, fmap_app. split_all.
  - split; [rewrite Hnext, length_app, wrap_small by (unfold is_uint; lia); cbn [length]; lia| |].
    + rewrite Hpairs. apply Forall_app. split.
      * eapply Forall_impl; [done|]. intros [k p] [Hk Hl]; cbn in *. split; [done|]. by apply lookup_app_l_Some.
      * apply Forall_singleton. cbn. split; [lia|]. rewrite Nat2Z.id. by apply list_lookup_middle.
    + rewrite Hpairs, fmap_app. apply StronglySorted_snoc; [done|]. cbn. apply Forall_fmap.
      eapply Forall_impl; [done|]. intros [k p] [Hk Hl]; cbn in *. apply lookup_lt_Some in Hl. lia.
  - intros k Hk. apply elem_of_app. by left.
  - apply elem_of_app. right. cbn. by apply list_elem_of_singleton.
Qed.

(** ** Bounds *)

(** The sizes of a configuration that was built are defined and bounded. *)
Lemma KCPConfig_Build_sizes header kc c :
  KCPConfig_Build header kc = Some c →
  576 ≤ GetMTUValue c ≤ 1460 ∧ 10 ≤ GetTTIValue c ≤ 100 ∧
  (∃ r s, GetReceivingInFlightSize c = Some r ∧ GetSendingInFlightSize c = Some s ∧
     8 ≤ r < 2 ^ 31 ∧ 8 ≤ s < 2 ^ 31) ∧ is_Some (GetSendingBufferSize c).
Proof.
  unfold KCPConfig_Build. intros H.
  assert (576 ≤ GetMTUValue c ≤ 1460 ∧ 10 ≤ GetTTIValue c ≤ 100) as [Hmtu Htti].
  { destruct (kc_Mtu kc), (kc_Tti kc), header; repeat case_decide; cbn in H; simplify_eq;
      unfold GetMTUValue, GetTTIValue; cbn; lia. }
  assert (∀ cap, ∃ x, in_flight_size cap c = Some x ∧ 8 ≤ x < 2 ^ 31) as Hsize.
  { intros cap. unfold in_flight_size, u32_div. rewrite decide_False by lia. cbn [mbind option_bind].
    rewrite decide_False by lia. cbn [mbind option_bind].
    assert (0 < 1000 / GetTTIValue c) as Hpos by (apply Z.div_str_pos; lia).
    rewrite decide_False by lia. cbn [mbind option_bind]. eexists. split; [done|].
    pose proof (wrap_bound 32 (cap * 1024 * 1024) ltac:(lia)) as Hb. unfold is_uint in Hb.
    assert (u32 (cap * 1024 * 1024) / GetMTUValue c / (1000 / GetTTIValue c) < 2 ^ 31); [|case_decide; lia].
    apply Z.div_lt_upper_bound; [lia|]. apply Z.div_lt_upper_bound; [lia|]. nia. }
  split_all; try lia.
  - destruct (Hsize (GetDownlinkCapacityValue c)) as (r & ? & ?), (Hsize (GetUplinkCapacityValue c)) as (s & ? & ?).
    by exists r, s.
  - unfold GetSendingBufferSize, u32_div. rewrite decide_False by lia. by eexists.
Qed.

(** A capacity of 4096 megabytes a second overflows to nothing, and gives the
    smallest window. *)
Lemma capacity_overflows : in_flight_size 4096
  {| Mtu := None; Tti := None; UplinkCapacity := Some 4096; DownlinkCapacity := None; Congestion := false;
     WriteBuffer := None; ReadBuffer := None |} = Some 8 ∧ in_flight_size 4095
  {| Mtu := None; Tti := None; UplinkCapacity := Some 4095; DownlinkCapacity := None; Congestion := false;
     WriteBuffer := None; ReadBuffer := None |} = Some 159034.
Proof. split; vm_compute; reflexivity. Qed.

(** The estimate without wrap-around: RFC 6298 with a variation weighted by
    four, at most 10 seconds, and a quarter more. *)
Definition rtt_update_spec (rtt current : Z) (info : RoundTripInfo) : RoundTripInfo :=
  let '(s, v) :=
    if decide (srtt info = 0) then (rtt, rtt / 2)
    else (Z.max ((7 * srtt info + rtt) / 8) (minRtt info), (3 * variation info + Z.abs (rtt - srtt info)) / 4) in
  let r := if decide (minRtt info < 4 * v) then s + 4 * v else s + v in
  {| variation := v; srtt := s; rto := Z.min r 10000 * 5 / 4; minRtt := minRtt info; updatedTimestamp := current |}.

Record rtt_ok (info : RoundTripInfo) : Prop := {
  rtt_srtt : 0 ≤ srtt info ≤ 10000;
  rtt_variation : 0 ≤ variation info ≤ 10000;
  rtt_min : 0 ≤ minRtt info ≤ 100
}.

(** For the round trips the connection measures, the estimate does not
    overflow: it is the one of RFC 6298, and the timeout is at most 12.5
    seconds. *)
Theorem rtt_Update_bounds rtt current info :
  rtt_ok info → 0 ≤ rtt < 10000 →
  rtt_Update rtt current info = rtt_update_spec rtt current info ∧
  rtt_ok (rtt_Update rtt current info) ∧ 0 ≤ rto (rtt_Update rtt current info) ≤ 12500.
Proof.
  intros [Hs Hv Hm] Hr.
  assert (∀ x, 0 ≤ x < 2 ^ 32 → u32 x = x) as W by (intros; by apply wrap_small).
  assert (∃ s v, 0 ≤ s ≤ 10000 ∧ 0 ≤ v ≤ 10000 ∧
    (if decide (srtt info = 0) then (rtt, rtt / 2)
     else (Z.max ((7 * srtt info + rtt) / 8) (minRtt info), (3 * variation info + Z.abs (rtt - srtt info)) / 4)) = (s, v) ∧
    (if decide (srtt info = 0) then (rtt, rtt / 2)
     else
       let delta := if decide (rtt < srtt info) then u32 (srtt info - rtt) else u32 (rtt - srtt info) in
       let variation' := u32 (u32 (3 * variation info) + delta) / 4 in
       let srtt' := u32 (u32 (7 * srtt info) + rtt) / 8 in
       (if decide (srtt' < minRtt info) then minRtt info else srtt', variation')) = (s, v))
    as (s & v & Hs' & Hv' & E1 & E2).
  { destruct (decide (srtt info = 0)).
    - exists rtt, (rtt / 2). split_all; try done; try lia; apply Z.div_pos || apply Z.div_le_upper_bound; lia.
    - exists (Z.max ((7 * srtt info + rtt) / 8) (minRtt info)), ((3 * variation info + Z.abs (rtt - srtt info)) / 4).
      assert (0 ≤ (7 * srtt info + rtt) / 8 ≤ 10000) by (split; [apply Z.div_pos|apply Z.div_le_upper_bound]; lia).
      assert (0 ≤ (3 * variation info + Z.abs (rtt - srtt info)) / 4 ≤ 10000)
        by (split; [apply Z.div_pos|apply Z.div_le_upper_bound]; lia).
      split_all; try done; try lia. cbv zeta.
      assert ((if decide (rtt < srtt info) then u32 (srtt info - rtt) else u32 (rtt - srtt info)) = Z.abs (rtt - srtt info)) as ->
        by (case_decide; rewrite W; lia).
      rewrite (W (3 * _)), (W (7 * _)), !W by lia. f_equal. case_decide; lia. }
  assert (rtt_Update rtt current info = rtt_update_spec rtt current info) as E.
  { unfold rtt_Update, rtt_update_spec. cbv zeta in E2. rewrite decide_False, E1, E2 by lia. rewrite (W (4 * v)) by lia.
    assert ((if decide (minRtt info < 4 * v) then u32 (s + 4 * v) else u32 (s + v)) =
            (if decide (minRtt info < 4 * v) then s + 4 * v else s + v)) as -> by (destruct (decide (minRtt info < 4 * v)); apply W; lia).
    assert (0 ≤ (if decide (minRtt info < 4 * v) then s + 4 * v else s + v)) as Hr' by (destruct (decide (minRtt info < 4 * v)); lia).
    set (r := if decide _ then s + 4 * v else s + v) in *. clearbody r.
    f_equal. clear E1 E2. rewrite W by (case_decide; lia). f_equal. case_decide; lia. }
  split; [done|]. rewrite E. unfold rtt_update_spec. rewrite E1. cbn.
  split; [by split|]. clear E1 E2 E. split; [apply Z.div_pos|apply Z.div_le_upper_bound]; try case_decide; lia.
Qed.

Lemma rtt_Update_bounds_witness :
  rto (rtt_Update 9999 5 {| variation := 10000; srtt := 10000; rto := 100; minRtt := 50; updatedTimestamp := 0 |}) ≤ 12500.
Proof.
  apply (rtt_Update_bounds 9999 5 {| variation := 10000; srtt := 10000; rto := 100; minRtt := 50; updatedTimestamp := 0 |});
    [split; cbn; lia|lia].
Defined.

(** Congestion control keeps the window between the smaller of 16 and twice the
    configured size, and twice the configured size. *)
Lemma OnPacketLoss_bounds timeout inFlight rate w :
  timeout ≠ 0 → 0 ≤ inFlight < 2 ^ 31 →
  Z.min 16 (2 * inFlight) ≤ sw_controlWindow (OnPacketLoss true timeout inFlight rate w) ≤ 2 * inFlight.
Proof.
  intros Ht Hi. unfold OnPacketLoss. rewrite bool_decide_eq_false_2 by done. cbn [negb orb].
  rewrite (wrap_small 32 (2 * inFlight)) by (unfold is_uint; lia). cbv zeta. cbn.
  set (cw := if decide (15 ≤ rate) then _ else _). clearbody cw. repeat case_decide; lia.
Qed.
