(* ===== verification/KcpConnection.v ===== *)
(** An mKCP connection
    (src/upstream/xray-core/transport/internet/kcp/connection.go): its states, the
    handling of incoming segments, the periodic flush, and reading and writing.
    Calls are atomic; a clock reading is an argument, and a call that reads the
    clock twice has two of them.  Two connections over a network that loses,
    reorders and repeats packets deliver a prefix of what was written. *)
From stdpp Require Import gmap.
From S2P Require Import Prelude GoText NetIP Address Transport Frame Uuid Buf AddressParser BufAppend MultiBuffer KcpSegment KcpReceiving KcpSending.

(** ** State *)

Inductive State :=
| StateActive | StateReadyToClose | StatePeerClosed | StateTerminating | StatePeerTerminating | StateTerminated.

#[global] Instance State_eq_dec : EqDecision State.
Proof. solve_decision. Defined.

Definition State_Is (s : State) (states : list State) : bool := bool_decide (s ∈ states).

(** An updater: its token is there, its goroutine has started, is in its loop,
    or has left the loop and will return the token. *)
Inductive Updater := UIdle | UStart | ULoop | ULeave.

#[global] Instance Updater_eq_dec : EqDecision Updater.
Proof. solve_decision. Defined.

Definition WakeUp (u : Updater) : Updater := match u with UIdle => UStart | u => u end.

(** [dataInput] and [dataOutput] are channels of capacity one; [k_terminates]
    counts the goroutines that run [Terminate]. *)
Record Connection := {
  k_conv : Z;
  k_congestion : bool;
  k_inFlightSize : Z;
  k_mss : Z;
  k_state : State;
  k_stateBeginTime : Z;
  k_lastIncomingTime : Z;
  k_lastPingTime : Z;
  k_roundTrip : RoundTripInfo;
  k_receivingWorker : ReceivingWorker;
  k_sendingWorker : SendingWorker;
  k_dataInput : bool;
  k_dataOutput : bool;
  k_dataUpdater : Updater;
  k_pingUpdater : Updater;
  k_pingInterval : Z;
  k_terminates : nat;
  k_released : bool
}.

Definition k_with_state (s : State) (t : Z) (c : Connection) : Connection :=
  {| k_conv := k_conv c; k_congestion := k_congestion c; k_inFlightSize := k_inFlightSize c; k_mss := k_mss c;
     k_state := s; k_stateBeginTime := t; k_lastIncomingTime := k_lastIncomingTime c;
     k_lastPingTime := k_lastPingTime c; k_roundTrip := k_roundTrip c; k_receivingWorker := k_receivingWorker c;
     k_sendingWorker := k_sendingWorker c; k_dataInput := k_dataInput c; k_dataOutput := k_dataOutput c;
     k_dataUpdater := k_dataUpdater c; k_pingUpdater := k_pingUpdater c; k_pingInterval := k_pingInterval c;
     k_terminates := k_terminates c; k_released := k_released c |}.

Definition k_with_times (incoming ping : Z) (c : Connection) : Connection :=
  {| k_conv := k_conv c; k_congestion := k_congestion c; k_inFlightSize := k_inFlightSize c; k_mss := k_mss c;
     k_state := k_state c; k_stateBeginTime := k_stateBeginTime c; k_lastIncomingTime := incoming;
     k_lastPingTime := ping; k_roundTrip := k_roundTrip c; k_receivingWorker := k_receivingWorker c;
     k_sendingWorker := k_sendingWorker c; k_dataInput := k_dataInput c; k_dataOutput := k_dataOutput c;
     k_dataUpdater := k_dataUpdater c; k_pingUpdater := k_pingUpdater c; k_pingInterval := k_pingInterval c;
     k_terminates := k_terminates c; k_released := k_released c |}.

Definition k_with_workers (info : RoundTripInfo) (r : ReceivingWorker) (s : SendingWorker) (c : Connection) : Connection :=
  {| k_conv := k_conv c; k_congestion := k_congestion c; k_inFlightSize := k_inFlightSize c; k_mss := k_mss c;
     k_state := k_state c; k_stateBeginTime := k_stateBeginTime c; k_lastIncomingTime := k_lastIncomingTime c;
     k_lastPingTime := k_lastPingTime c; k_roundTrip := info; k_receivingWorker := r;
     k_sendingWorker := s; k_dataInput := k_dataInput c; k_dataOutput := k_dataOutput c;
     k_dataUpdater := k_dataUpdater c; k_pingUpdater := k_pingUpdater c; k_pingInterval := k_pingInterval c;
     k_terminates := k_terminates c; k_released := k_released c |}.

Definition k_with_signals (i o : bool) (c : Connection) : Connection :=
  {| k_conv := k_conv c; k_congestion := k_congestion c; k_inFlightSize := k_inFlightSize c; k_mss := k_mss c;
     k_state := k_state c; k_stateBeginTime := k_stateBeginTime c; k_lastIncomingTime := k_lastIncomingTime c;
     k_lastPingTime := k_lastPingTime c; k_roundTrip := k_roundTrip c; k_receivingWorker := k_receivingWorker c;
     k_sendingWorker := k_sendingWorker c; k_dataInput := i; k_dataOutput := o;
     k_dataUpdater := k_dataUpdater c; k_pingUpdater := k_pingUpdater c; k_pingInterval := k_pingInterval c;
     k_terminates := k_terminates c; k_released := k_released c |}.

Definition k_with_updaters (d p : Updater) (interval : Z) (c : Connection) : Connection :=
  {| k_conv := k_conv c; k_congestion := k_congestion c; k_inFlightSize := k_inFlightSize c; k_mss := k_mss c;
     k_state := k_state c; k_stateBeginTime := k_stateBeginTime c; k_lastIncomingTime := k_lastIncomingTime c;
     k_lastPingTime := k_lastPingTime c; k_roundTrip := k_roundTrip c; k_receivingWorker := k_receivingWorker c;
     k_sendingWorker := k_sendingWorker c; k_dataInput := k_dataInput c; k_dataOutput := k_dataOutput c;
     k_dataUpdater := d; k_pingUpdater := p; k_pingInterval := interval;
     k_terminates := k_terminates c; k_released := k_released c |}.

Definition k_with_end (terminates : nat) (released : bool) (c : Connection) : Connection :=
  {| k_conv := k_conv c; k_congestion := k_congestion c; k_inFlightSize := k_inFlightSize c; k_mss := k_mss c;
     k_state := k_state c; k_stateBeginTime := k_stateBeginTime c; k_lastIncomingTime := k_lastIncomingTime c;
     k_lastPingTime := k_lastPingTime c; k_roundTrip := k_roundTrip c; k_receivingWorker := k_receivingWorker c;
     k_sendingWorker := k_sendingWorker c; k_dataInput := k_dataInput c; k_dataOutput := k_dataOutput c;
     k_dataUpdater := k_dataUpdater c; k_pingUpdater := k_pingUpdater c; k_pingInterval := k_pingInterval c;
     k_terminates := terminates; k_released := released |}.

Definition k_with_rw (r : ReceivingWorker) (c : Connection) : Connection :=
  k_with_workers (k_roundTrip c) r (k_sendingWorker c) c.
Definition k_with_sw (s : SendingWorker) (c : Connection) : Connection :=
  k_with_workers (k_roundTrip c) (k_receivingWorker c) s c.

Definition signal_input (c : Connection) : Connection := k_with_signals true (k_dataOutput c) c.
Definition signal_output (c : Connection) : Connection := k_with_signals (k_dataInput c) true c.
Definition wake_data (c : Connection) : Connection :=
  k_with_updaters (WakeUp (k_dataUpdater c)) (k_pingUpdater c) (k_pingInterval c) c.
Definition wake_ping (c : Connection) : Connection :=
  k_with_updaters (k_dataUpdater c) (WakeUp (k_pingUpdater c)) (k_pingInterval c) c.
Definition ping_every_second (c : Connection) : Connection :=
  k_with_updaters (k_dataUpdater c) (k_pingUpdater c) 1000 c.

(** [NewConnection]; a configuration whose sizes divide by zero panics. *)
Definition NewConnection (conv overhead : Z) (config : KcpConfig) : option Connection :=
  receiving ← GetReceivingInFlightSize config;
  sending ← GetSendingInFlightSize config;
  buffer ← GetSendingBufferSize config;
  Some (wake_ping
    {| k_conv := conv; k_congestion := Congestion config; k_inFlightSize := sending;
       k_mss := u32 (u32 (GetMTUValue config - u32 overhead) - DataSegmentOverhead);
       k_state := StateActive; k_stateBeginTime := 0; k_lastIncomingTime := 0; k_lastPingTime := 0;
       k_roundTrip := {| variation := 0; srtt := 0; rto := 100; minRtt := GetTTIValue config; updatedTimestamp := 0 |};
       k_receivingWorker := NewReceivingWorker receiving;
       k_sendingWorker := NewSendingWorker sending buffer;
       k_dataInput := false; k_dataOutput := false; k_dataUpdater := UIdle; k_pingUpdater := UIdle;
       k_pingInterval := 5000; k_terminates := 0; k_released := false |}).

(** ** State changes *)

Definition close_write (c : Connection) : Connection := k_with_sw (CloseWrite (k_sendingWorker c)) c.

(** [CloseRead] does nothing. *)
Definition SetState (now : Z) (s : State) (c : Connection) : Connection :=
  let c := k_with_state s now c in
  match s with
  | StateActive | StateReadyToClose => c
  | StatePeerClosed => close_write c
  | StateTerminating | StatePeerTerminating => ping_every_second (close_write c)
  | StateTerminated =>
    let c := wake_ping (wake_data (ping_every_second (close_write c))) in
    k_with_end (S (k_terminates c)) (k_released c) c
  end.

(** [Close]: false is [ErrClosedConnection]. *)
Definition Connection_Close (now : Z) (c : Connection) : Connection * bool :=
  let c := signal_output (signal_input c) in
  match k_state c with
  | StateReadyToClose | StateTerminating | StateTerminated => (c, false)
  | StateActive => (SetState now StateReadyToClose c, true)
  | StatePeerClosed => (SetState now StateTerminating c, true)
  | StatePeerTerminating => (SetState now StateTerminated c, true)
  end.

Definition Terminate (c : Connection) : Connection :=
  let c := signal_output (signal_input c) in
  let c := k_with_workers (k_roundTrip c) (rw_Release (k_receivingWorker c)) (sw_Release (k_sendingWorker c)) c in
  k_with_end (k_terminates c) true c.

Definition OnPeerClosed (now : Z) (c : Connection) : Connection :=
  match k_state c with
  | StateReadyToClose => SetState now StateTerminating c
  | StateActive => SetState now StatePeerClosed c
  | _ => c
  end.

Definition HandleOption (now opt : Z) (c : Connection) : Connection :=
  if decide (Z.land opt SegmentOptionClose = SegmentOptionClose) then OnPeerClosed now c else c.

(** ** Input *)

Definition input_data (now : Z) (seg : DataSegment) (c : Connection) : Connection :=
  let c := HandleOption now (d_Option seg) c in
  let c := k_with_rw (rw_ProcessSegment seg (k_receivingWorker c)) c in
  let c := if rw_IsDataAvailable (k_receivingWorker c) then signal_input c else c in
  wake_data c.

Definition input_ack (now current : Z) (seg : AckSegment) (c : Connection) : Connection :=
  let c := HandleOption now (a_Option seg) c in
  let '(s, info) := sw_ProcessSegment current seg (Timeout (k_roundTrip c)) (k_roundTrip c) (k_sendingWorker c) in
  wake_data (signal_output (k_with_workers info (k_receivingWorker c) s c)).

Definition peer_terminates (now : Z) (c : Connection) : Connection :=
  match k_state c with
  | StateActive | StatePeerClosed => SetState now StatePeerTerminating c
  | StateReadyToClose => SetState now StateTerminating c
  | StateTerminating => SetState now StateTerminated c
  | _ => c
  end.

Definition input_cmd (now current : Z) (seg : CmdOnlySegment) (c : Connection) : Connection :=
  let c := HandleOption now (c_Option seg) c in
  let c := if decide (c_Cmd seg = CommandTerminate) then peer_terminates now c else c in
  let c := if decide (c_Option seg = SegmentOptionClose ∨ c_Cmd seg = CommandTerminate)
           then signal_output (signal_input c) else c in
  k_with_workers (UpdatePeerRTO (c_PeerRTO seg) current (k_roundTrip c))
    (ProcessSendingNext (c_SendingNext seg) (k_receivingWorker c))
    (ProcessReceivingNext (c_ReceivingNext seg) (k_sendingWorker c)) c.

Definition input_segment (now current : Z) (seg : Segment) (c : Connection) : Connection :=
  match seg with
  | SegData d => input_data now d c
  | SegAck a => input_ack now current a c
  | SegCmd x => input_cmd now current x c
  end.

(** The loop stops at the first segment of another conversation. *)
Fixpoint input_loop (now current : Z) (segs : list Segment) (c : Connection) : Connection :=
  match segs with
  | [] => c
  | seg :: segs =>
    if decide (Conversation seg ≠ k_conv c) then c else input_loop now current segs (input_segment now current seg c)
  end.

Definition Input (now current : Z) (segs : list Segment) (c : Connection) : Connection :=
  input_loop now current segs (k_with_times current (k_lastPingTime c) c).

(** ** Output *)

Definition is_state (s : State) (c : Connection) : bool := bool_decide (k_state c = s).

Definition Ping (current cmd : Z) (c : Connection) : Connection * list Segment :=
  (k_with_times (k_lastIncomingTime c) current c,
   [SegCmd {| c_Conv := k_conv c; c_Cmd := cmd;
              c_Option := if is_state StateReadyToClose c then SegmentOptionClose else 0;
              c_SendingNext := FirstUnacknowledged (k_sendingWorker c);
              c_ReceivingNext := rw_NextNumber (k_receivingWorker c);
              c_PeerRTO := Timeout (k_roundTrip c) |}]).

Definition flush_receiving (current : Z) (c : Connection) : Connection * list Segment :=
  let '(r, acks) := rw_Flush current (Timeout (k_roundTrip c)) (k_conv c) (is_state StateReadyToClose c)
                      (k_receivingWorker c) in
  (k_with_rw r c, SegAck <$> acks).

Definition flush_sending (current : Z) (c : Connection) : Connection * list Segment :=
  let '(s, segs, updated) := sw_Flush (k_congestion c) (k_inFlightSize c) (Timeout (k_roundTrip c)) (k_conv c)
                               (is_state StateReadyToClose c) current (k_sendingWorker c) in
  let c := k_with_sw s c in
  if updated then let '(c, ping) := Ping current CommandPing c in (c, (SegData <$> segs) ++ ping)
  else (c, SegData <$> segs).

(** Time since, as an unsigned difference. *)
Definition since (current t : Z) : Z := u32 (current - t).

Definition flush (now current : Z) (c : Connection) : Connection * list Segment :=
  if is_state StateTerminated c then (c, [])
  else
    let c := if is_state StateActive c && bool_decide (30000 ≤ since current (k_lastIncomingTime c))
             then (Connection_Close now c).1 else c in
    let c := if is_state StateReadyToClose c && sw_IsEmpty (k_sendingWorker c)
             then SetState now StateTerminating c else c in
    if is_state StateTerminating c then
      let '(c, out) := Ping current CommandTerminate c in
      (if decide (8000 < since current (k_stateBeginTime c)) then SetState now StateTerminated c else c, out)
    else
      let c := if is_state StatePeerTerminating c && bool_decide (4000 < since current (k_stateBeginTime c))
               then SetState now StateTerminating c else c in
      let c := if is_state StateReadyToClose c && bool_decide (15000 < since current (k_stateBeginTime c))
               then SetState now StateTerminating c else c in
      let '(c, acks) := flush_receiving current c in
      let '(c, segs) := flush_sending current c in
      if decide (3000 ≤ since current (k_lastPingTime c))
      then let '(c, ping) := Ping current CommandPing c in (c, acks ++ segs ++ ping)
      else (c, acks ++ segs).

(** ** Reading and writing *)

(** A turn of the loop of [ReadMultiBuffer] or [Read]: data, end of file, or
    waiting for a signal. *)
Inductive turn (A : Type) := TDone (a : A) | TEnd | TWait.
Arguments TDone {A} a.
Arguments TEnd {A}.
Arguments TWait {A}.

Definition locally_closed (c : Connection) : bool :=
  State_Is (k_state c) [StateReadyToClose; StateTerminating; StateTerminated].

Definition ReadMultiBuffer_turn (c : Connection) : Connection * turn (list Buffer) :=
  if locally_closed c then (c, TEnd)
  else
    let '(r, mb) := rw_ReadMultiBuffer (k_receivingWorker c) in
    let c := k_with_rw r c in
    if negb (mb_IsEmpty mb) then (wake_data c, TDone mb)
    else if is_state StatePeerTerminating c then (c, TEnd)
    else (c, TWait).

Definition Read_turn (n : nat) (c : Connection) : outcome (Connection * turn bytes) :=
  if locally_closed c then Ret (c, TEnd)
  else
    let? (r, got) := rw_Read n (k_receivingWorker c) in
    let c := k_with_rw r c in
    Ret (if decide (0 < length got)%nat then (wake_data c, TDone got) else (c, TWait)).

(** The next chunk of [writeMultiBufferInternal]: one read through a limit of
    [mss] bytes into a buffer. *)
Definition chunk_size (c : Connection) : nat := Nat.min (Z.to_nat (k_mss c)) Size.

(** The inner loop: the chunk that could not be pushed and the rest of the data
    when the window is full, end when the connection is closed, done when the data
    is used up.  Every turn takes a byte or more. *)
Fixpoint write_loop (fuel : nat) (b : option bytes) (data : bytes) (pending : bool) (c : Connection)
    : Connection * turn unit * option (bytes * bytes) * bool :=
  match fuel with
  | O => (c, TDone (), None, pending)
  | S fuel =>
    if decide (k_state c ≠ StateActive) then (c, TEnd, None, pending)
    else
      let next := match b with
                  | Some b => Some (b, data)
                  | None => if decide (take (chunk_size c) data = []) then None
                            else Some (take (chunk_size c) data, drop (chunk_size c) data)
                  end in
      match next with
      | None => (c, TDone (), None, pending)
      | Some (b, data) =>
        match sw_Push b (k_sendingWorker c) with
        | (_, false) => (c, TWait, Some (b, data), pending)
        | (s, true) => write_loop fuel None data true (k_with_sw s c)
        end
      end
  end.

(** A turn of the outer loop, up to waiting. *)
Definition Write_turn (b : option bytes) (data : bytes) (c : Connection) : Connection * turn unit * option (bytes * bytes) :=
  let '(c, t, rest, pending) := write_loop (2 + length data) b data false c in
  (if pending then wake_data c else c, t, rest).

(** ** The updaters *)

Definition isTerminating (c : Connection) : bool := State_Is (k_state c) [StateTerminating; StateTerminated].
Definition isTerminated (c : Connection) : bool := is_state StateTerminated c.

Definition data_continue (c : Connection) : bool :=
  negb (isTerminating c) && (sw_UpdateNecessary (k_sendingWorker c) || rw_UpdateNecessary (k_receivingWorker c)).
Definition ping_continue (c : Connection) : bool := negb (isTerminated c).

(** A step of the goroutine of an updater: whether it calls [updateFunc], and
    where it goes. *)
Definition updater_run (shouldTerminate shouldContinue : bool) (u : Updater) : Updater * bool :=
  match u with
  | UIdle => (UIdle, false)
  | UStart => if shouldTerminate then (ULeave, false) else (ULoop, false)
  | ULoop => if shouldContinue then (ULoop, true) else (ULeave, false)
  | ULeave => (UIdle, false)
  end.

Definition run_data (now current : Z) (c : Connection) : Connection * list Segment :=
  let '(u, update) := updater_run (isTerminating c) (data_continue c) (k_dataUpdater c) in
  let c := k_with_updaters u (k_pingUpdater c) (k_pingInterval c) c in
  if update then flush now current c else (c, []).

Definition run_ping (now current : Z) (c : Connection) : Connection * list Segment :=
  let '(u, update) := updater_run (isTerminated c) (ping_continue c) (k_pingUpdater c) in
  let c := k_with_updaters (k_dataUpdater c) u (k_pingInterval c) c in
  if update then flush now current c else (c, []).

(** ** States only advance *)

Definition rank (s : State) : nat :=
  match s with
  | StateActive => 0
  | StateReadyToClose | StatePeerClosed => 1
  | StatePeerTerminating => 2
  | StateTerminating => 3
  | StateTerminated => 4
  end.

(** The state stays or moves to one of a higher rank. *)
Definition advances (c c' : Connection) : Prop := k_state c' = k_state c ∨ (rank (k_state c) < rank (k_state c'))%nat.

Lemma advances_trans c1 c2 c3 : advances c1 c2 → advances c2 c3 → advances c1 c3.
Proof. unfold advances. intros [->|] [->|]; auto. right. lia. Qed.

Lemma SetState_state now s c : k_state (SetState now s c) = s.
Proof. by destruct s. Qed.

Lemma Connection_Close_advances now c : advances c (Connection_Close now c).1.
Proof.
  unfold Connection_Close, advances. cbn. destruct (k_state c) eqn:E; cbn [fst]; rewrite ?SetState_state; cbn; (by left) || (right; lia).
Qed.

Lemma HandleOption_advances now opt c : advances c (HandleOption now opt c).
Proof.
  unfold HandleOption, OnPeerClosed, advances. case_decide; [|by left].
  destruct (k_state c) eqn:E; rewrite ?SetState_state; cbn; (by left) || (right; lia).
Qed.

Lemma peer_terminates_advances now c : advances c (peer_terminates now c).
Proof.
  unfold peer_terminates, advances. destruct (k_state c) eqn:E; rewrite ?SetState_state; cbn; (by left) || (right; lia).
Qed.

Lemma advances_same c1 c2 c3 : k_state c3 = k_state c2 → advances c1 c2 → advances c1 c3.
Proof. unfold advances. by intros ->. Qed.

Lemma input_segment_advances now current seg c : advances c (input_segment now current seg c).
Proof.
  destruct seg as [d|a|x]; cbn [input_segment].
  - unfold input_data. eapply advances_same, HandleOption_advances. by case_match.
  - unfold input_ack. destruct (sw_ProcessSegment _ _ _ _ _). eapply advances_same, HandleOption_advances. done.
  - unfold input_cmd. set (c1 := HandleOption now (c_Option x) c).
    set (c2 := if decide (c_Cmd x = CommandTerminate) then peer_terminates now c1 else c1).
    apply advances_trans with c1; [apply HandleOption_advances|].
    apply advances_same with c2; [by case_decide|]. unfold c2. case_decide; [apply peer_terminates_advances|by left].
Qed.

Lemma Input_advances now current segs c : advances c (Input now current segs c).
Proof.
  unfold Input. set (c0 := k_with_times _ _ c). apply advances_trans with c0; [by left|]. clearbody c0. revert c0.
  induction segs as [|seg segs IH]; intros c0; cbn [input_loop]; [by left|]. case_decide; [by left|].
  eapply advances_trans; [apply input_segment_advances|apply IH].
Qed.

(** A state change that only happens in one state. *)
Lemma SetState_if_advances now s0 s c (b : bool) :
  (rank s0 < rank s)%nat → advances c (if is_state s0 c && b then SetState now s c else c).
Proof.
  intros Hr. unfold is_state, advances. case_bool_decide as E; cbn [andb]; [|by left].
  destruct b; [|by left]. right. by rewrite SetState_state, E.
Qed.

Lemma flush_tail_state current c c1 acks c2 segs :
  flush_receiving current c = (c1, acks) → flush_sending current c1 = (c2, segs) → k_state c2 = k_state c.
Proof.
  unfold flush_receiving, flush_sending. destruct (rw_Flush _ _ _ _ _). intros [= <- <-].
  destruct (sw_Flush _ _ _ _ _ _ _) as [[s o] u]. destruct u; intros [= <- <-]; done.
Qed.

Lemma flush_advances now current c : advances c (flush now current c).1.
Proof.
  unfold flush. destruct (is_state StateTerminated c) eqn:E0; [by left|].
  set (c1 := if is_state StateActive c && _ then _ else c).
  set (c2 := if is_state StateReadyToClose c1 && _ then _ else c1).
  assert (advances c c2) as H2.
  { apply advances_trans with c1; [|apply SetState_if_advances; cbn; lia].
    unfold c1. case_match; [apply Connection_Close_advances|by left]. }
  destruct (is_state StateTerminating c2) eqn:E2.
  { cbn. eapply advances_trans; [exact H2|]. unfold is_state in E2. apply bool_decide_eq_true in E2.
    case_decide; [|by left]. right. rewrite E2. cbn. lia. }
  set (c3 := if is_state StatePeerTerminating c2 && _ then _ else c2).
  set (c4 := if is_state StateReadyToClose c3 && _ then _ else c3).
  assert (advances c c4) as H4.
  { eapply advances_trans; [exact H2|]. apply advances_trans with c3; apply SetState_if_advances; cbn; lia. }
  destruct (flush_receiving current c4) as [c5 acks] eqn:E5. destruct (flush_sending current c5) as [c6 segs] eqn:E6.
  eapply advances_same, H4. pose proof (flush_tail_state _ _ _ _ _ _ E5 E6). by case_decide.
Qed.

(** ** What a segment may claim *)

(** A segment is sound for a side that receives [T] and whose own data has
    arrived at the peer as far as [arr] says: its data is of [T], and it
    acknowledges only what has arrived. *)
Definition seg_ok (arr : Z → Prop) (T : list bytes) (seg : Segment) : Prop :=
  match seg with
  | SegData d => genuine T d
  | SegAck a => (∀ k, 0 ≤ k < a_ReceivingNext a → arr k) ∧ (∀ k, k ∈ a_NumberList a → arr k)
  | SegCmd x => ∀ k, 0 ≤ k < c_ReceivingNext x → arr k
  end.

Lemma seg_ok_mono (arr arr' : Z → Prop) T seg : (∀ k, arr k → arr' k) → seg_ok arr T seg → seg_ok arr' T seg.
Proof. intros H. destruct seg; cbn; naive_solver. Qed.

Lemma genuine_app T b d : genuine T d → genuine (T ++ b) d.
Proof. intros [H1 H2]. split; [done|]. by apply lookup_app_l_Some. Qed.

Lemma seg_ok_app arr T b seg : seg_ok arr T seg → seg_ok arr (T ++ b) seg.
Proof. destruct seg; cbn; [apply genuine_app|done..]. Qed.

(** ** The invariant of a connection *)

(** [S] was written to the connection and [T] to its peer; [arr] holds of the
    numbers that arrived at the peer; [D] was read from the connection, which has
    taken [n] payloads of [T] in. *)
Record conn_ok (S T : list bytes) (arr : Z → Prop) (n : nat) (D : bytes) (c : Connection) : Prop := {
  co_sender : sender_ok S (k_sendingWorker c);
  co_covered : k_state c = StateActive ∨ k_state c = StateReadyToClose →
    ∀ k, 0 ≤ k < Z.of_nat (length S) → unacked (k_sendingWorker c) k ∨ arr k;
  co_received : received T n (k_receivingWorker c);
  co_reader : k_released c = false → reader_ok T n D (k_receivingWorker c);
  co_prefix : D `prefix_of` mjoin T;
  co_acks k : k ∈ ae_number <$> entries (rw_acklist (k_receivingWorker c)) → arrived (k_receivingWorker c) k;
  co_size : rw_windowSize (k_receivingWorker c) < 2 ^ 31;
  co_released : k_released c = true → k_state c = StateTerminated;
  co_terminates : (0 < k_terminates c)%nat → k_state c = StateTerminated
}.

Section connection.
Context (S T : list bytes) (arr : Z → Prop).
Context (HT : Z.of_nat (length T) < 2 ^ 31) (Hpay : Forall (λ p, Z.of_nat (length p) ≤ 8192) T).

(** Only these fields matter. *)
Lemma conn_ok_ext n D c c' :
  k_sendingWorker c' = k_sendingWorker c → k_receivingWorker c' = k_receivingWorker c → k_state c' = k_state c →
  k_released c' = k_released c → k_terminates c' = k_terminates c → conn_ok S T arr n D c → conn_ok S T arr n D c'.
Proof. intros E1 E2 E3 E4 E5 []. split; rewrite ?E1, ?E2, ?E3, ?E4, ?E5; done. Qed.

Lemma conn_ok_open n D c : conn_ok S T arr n D c → k_state c ≠ StateTerminated → k_released c = false ∧ k_terminates c = 0%nat.
Proof.
  intros [] Hs. split.
  - destruct (k_released c); [|done]. by destruct Hs; auto.
  - destruct (k_terminates c) as [|t]; [done|]. destruct Hs. apply co_terminates0. lia.
Qed.

(** The sender of a connection changes. *)
Lemma conn_ok_sender n D P s info c :
  conn_ok S T arr n D c → shrinks P (k_sendingWorker c) s →
  (k_state c = StateActive ∨ k_state c = StateReadyToClose → ∀ k, 0 ≤ k → P k → arr k) →
  conn_ok S T arr n D (k_with_workers info (k_receivingWorker c) s c).
Proof.
  intros [] (Hn & Hsub & Hk) HP. split; cbn; try done.
  - by eapply sender_ok_shrink.
  - intros Hs k Hrange. destruct (co_covered0 Hs k Hrange) as [Hu|]; [|by right].
    destruct (Hk k Hu) as [|HPk]; [by left|right]. apply HP; [done|lia|done].
Qed.

Lemma SetState_ok now s n D c :
  k_state c ≠ StateTerminated → s ≠ StateActive → (s = StateReadyToClose → k_state c = StateActive) →
  conn_ok S T arr n D c →
  conn_ok S T arr n D (SetState now s c) ∧ k_receivingWorker (SetState now s c) = k_receivingWorker c.
Proof.
  intros Hs Hact Hrtc Hok. destruct (conn_ok_open _ _ _ Hok Hs) as [Hrel Hterm]. split; [|by destruct s].
  assert (shrinks (λ k, k < 0xFFFFFFFF) (k_sendingWorker c) (CloseWrite (k_sendingWorker c))) as Hshrink
    by apply win_Clear_shrinks.
  assert (sender_ok S (CloseWrite (k_sendingWorker c))) as Hsend.
  { destruct Hshrink as (? & ? & _). eapply sender_ok_shrink; [done|done|]. apply Hok. }
  destruct Hok. destruct s; try done; split; cbn; try done; try congruence; try (by intros [|]); try lia.
  intros _. apply co_covered0. left. auto.
Qed.

Lemma Connection_Close_ok now n D c :
  conn_ok S T arr n D c →
  conn_ok S T arr n D (Connection_Close now c).1 ∧ k_receivingWorker (Connection_Close now c).1 = k_receivingWorker c.
Proof.
  intros Hok. set (c1 := signal_output (signal_input c)).
  assert (conn_ok S T arr n D c1) as Hok1 by (eapply conn_ok_ext; [..|exact Hok]; done).
  change (k_receivingWorker c) with (k_receivingWorker c1). unfold Connection_Close. fold c1. clearbody c1.
  destruct (k_state c1) eqn:E; cbn [fst]; try done; apply SetState_ok; try done; by rewrite E.
Qed.

Lemma HandleOption_ok now opt n D c :
  conn_ok S T arr n D c →
  conn_ok S T arr n D (HandleOption now opt c) ∧ k_receivingWorker (HandleOption now opt c) = k_receivingWorker c.
Proof.
  intros Hok. unfold HandleOption, OnPeerClosed. case_decide; [|done].
  destruct (k_state c) eqn:E; try done; apply SetState_ok; try done; by rewrite E.
Qed.

Lemma peer_terminates_ok now n D c :
  conn_ok S T arr n D c →
  conn_ok S T arr n D (peer_terminates now c) ∧ k_receivingWorker (peer_terminates now c) = k_receivingWorker c.
Proof.
  intros Hok. unfold peer_terminates. destruct (k_state c) eqn:E; try done; apply SetState_ok; try done; by rewrite E.
Qed.

Lemma reader_ok_ext n D w w' :
  rw_leftOver w' = rw_leftOver w → received T n w' → reader_ok T n D w → reader_ok T n D w'.
Proof. intros E Hr []. split; rewrite ?E; done. Qed.

(** The receiver of a connection changes, and nothing that arrived is lost. *)
Lemma conn_ok_receiver n D r info c :
  conn_ok S T arr n D c → received T n r → rw_leftOver r = rw_leftOver (k_receivingWorker c) →
  rw_windowSize r = rw_windowSize (k_receivingWorker c) →
  (∀ k, k ∈ ae_number <$> entries (rw_acklist r) → arrived r k) →
  conn_ok S T arr n D (k_with_workers info r (k_sendingWorker c) c).
Proof.
  intros [] Hr Hl Hsz Hack. split; cbn; try done; [|congruence].
  intros Hrel. eapply reader_ok_ext; [done|done|]. auto.
Qed.

Lemma rw_ProcessSegment_frame seg w :
  rw_leftOver (rw_ProcessSegment seg w) = rw_leftOver w ∧ rw_windowSize (rw_ProcessSegment seg w) = rw_windowSize w.
Proof. unfold rw_ProcessSegment. by case_decide. Qed.

Lemma ProcessSendingNext_acks number w k :
  k ∈ ae_number <$> entries (rw_acklist (ProcessSendingNext number w)) → k ∈ ae_number <$> entries (rw_acklist w).
Proof.
  cbn. rewrite (proj1 (AckList_Clear_spec _ _)). intros (e & -> & [_ He]%list_elem_of_filter)%list_elem_of_fmap.
  by apply list_elem_of_fmap_2.
Qed.

(** [c'] follows from [c]: the invariant holds, and what arrived has still
    arrived. *)
Definition follows (n : nat) (D : bytes) (c c' : Connection) : Prop :=
  conn_ok S T arr n D c' ∧ (∀ k, arrived (k_receivingWorker c) k → arrived (k_receivingWorker c') k).

Lemma follows_trans n D c1 c2 c3 : follows n D c1 c2 → follows n D c2 c3 → follows n D c1 c3.
Proof. intros [H1 H2] [H3 H4]. split; auto. Qed.

Lemma follows_same n D c c' :
  conn_ok S T arr n D c' ∧ k_receivingWorker c' = k_receivingWorker c → follows n D c c'.
Proof. intros [H1 H2]. split; [done|]. by rewrite H2. Qed.

Lemma follows_ext n D c c1 c' :
  k_sendingWorker c' = k_sendingWorker c1 → k_receivingWorker c' = k_receivingWorker c1 → k_state c' = k_state c1 →
  k_released c' = k_released c1 → k_terminates c' = k_terminates c1 → follows n D c c1 → follows n D c c'.
Proof. intros E1 E2 E3 E4 E5 [H1 H2]. split; [by eapply conn_ok_ext|]. by rewrite E2. Qed.

Lemma input_data_ok now d n D c : conn_ok S T arr n D c → genuine T d → follows n D c (input_data now d c).
Proof using HT.
  intros Hok Hd. unfold input_data. destruct (HandleOption_ok now (d_Option d) n D c Hok) as [Hok1 Hrw].
  set (c1 := HandleOption now (d_Option d) c) in *. clearbody c1.
  destruct (rw_ProcessSegment_received T HT n d (k_receivingWorker c1)) as (Hr & Hmono & _ & Hacks);
    [apply Hok1|apply Hok1|done|].
  destruct (rw_ProcessSegment_frame d (k_receivingWorker c1)) as [Hl Hsz].
  eapply (follows_ext n D c (k_with_rw (rw_ProcessSegment d (k_receivingWorker c1)) c1)); try by case_match.
  split; cbn; [|rewrite <- Hrw; done]. apply conn_ok_receiver; try done.
  intros k [Hk|[_ Hk]]%Hacks; [|done]. apply Hmono. by apply Hok1.
Qed.

Lemma input_ack_ok now current a n D c :
  conn_ok S T arr n D c → seg_ok arr T (SegAck a) → follows n D c (input_ack now current a c).
Proof.
  intros Hok [Ha1 Ha2]. unfold input_ack. destruct (HandleOption_ok now (a_Option a) n D c Hok) as [Hok1 Hrw].
  set (c1 := HandleOption now (a_Option a) c) in *. clearbody c1.
  destruct (sw_ProcessSegment _ _ _ _ _) as [s info] eqn:E. apply sw_ProcessSegment_shrinks in E.
  eapply (follows_ext n D c (k_with_workers info (k_receivingWorker c1) s c1)); try done.
  apply follows_same. split; [|done]. eapply conn_ok_sender; [done|done|]. intros _ k Hk [H1|H1]; [apply Ha1; lia|auto].
Qed.

Lemma input_cmd_ok now current x n D c :
  conn_ok S T arr n D c → seg_ok arr T (SegCmd x) → follows n D c (input_cmd now current x c).
Proof.
  intros Hok Hx. unfold input_cmd. destruct (HandleOption_ok now (c_Option x) n D c Hok) as [Hok1 Hrw].
  set (c1 := HandleOption now (c_Option x) c) in *. clearbody c1.
  set (c2 := if decide (c_Cmd x = CommandTerminate) then _ else c1).
  assert (conn_ok S T arr n D c2 ∧ k_receivingWorker c2 = k_receivingWorker c1) as [Hok2 Hrw2].
  { unfold c2. case_decide; [by apply peer_terminates_ok|done]. }
  set (c3 := if decide _ then _ else c2).
  assert (conn_ok S T arr n D c3 ∧ k_receivingWorker c3 = k_receivingWorker c2) as [Hok3 Hrw3].
  { unfold c3. case_decide; [|done]. split; [|done]. eapply conn_ok_ext; [..|exact Hok2]; done. }
  clearbody c3. rewrite Hrw2, Hrw in Hrw3. clear c2 Hok2 Hrw2 c1 Hok1 Hrw.
  set (r := ProcessSendingNext (c_SendingNext x) (k_receivingWorker c3)).
  assert (conn_ok S T arr n D (k_with_workers (k_roundTrip c3) r (k_sendingWorker c3) c3)) as Hok4.
  { apply conn_ok_receiver; try done; [by eapply received_ext; [..|apply Hok3]|].
    intros k Hk. apply ProcessSendingNext_acks in Hk. by apply Hok3 in Hk. }
  split; [|by rewrite <- Hrw3]. 
  eapply conn_ok_ext; [..|eapply (conn_ok_sender _ _ (λ k, k < c_ReceivingNext x) _ (k_roundTrip c3)); [exact Hok4|apply ProcessReceivingNext_shrinks|]]; try done.
  cbn. intros _ k Hk Hlt. apply Hx. lia.
Qed.

Lemma Input_ok now current segs n D c :
  conn_ok S T arr n D c → Forall (seg_ok arr T) segs → follows n D c (Input now current segs c).
Proof using HT.
  intros Hok Hsegs. unfold Input. eapply (follows_trans _ _ _ (k_with_times current (k_lastPingTime c) c)).
  { apply follows_same. split; [|done]. eapply conn_ok_ext; [..|exact Hok]; done. }
  assert (conn_ok S T arr n D (k_with_times current (k_lastPingTime c) c)) as Hok0.
  { eapply conn_ok_ext; [..|exact Hok]; done. }
  generalize dependent (k_with_times current (k_lastPingTime c) c). intros c0 Hok0. clear Hok c. revert c0 Hok0.
  induction Hsegs as [|seg segs Hseg _ IH]; intros c0 Hok; cbn [input_loop]; [by split|]. case_decide; [by split|].
  assert (follows n D c0 (input_segment now current seg c0)) as Hf.
  { destruct seg; cbn [input_segment]; [by apply input_data_ok|by apply input_ack_ok|by apply input_cmd_ok]. }
  eapply follows_trans; [exact Hf|]. apply IH, Hf.
Qed.

(** [c'] follows from [c], and the segments of [out] are sound for the peer. *)
Definition emits (n : nat) (D : bytes) (c c' : Connection) (out : list Segment) : Prop :=
  follows n D c c' ∧ Forall (seg_ok (arrived (k_receivingWorker c')) S) out.

Lemma emits_nil n D c c' : follows n D c c' → emits n D c c' [].
Proof. intros. by split; [|apply Forall_nil_2]. Qed.

Lemma emits_trans n D c1 c2 c3 out1 out2 :
  emits n D c1 c2 out1 → emits n D c2 c3 out2 → emits n D c1 c3 (out1 ++ out2).
Proof.
  intros [H1 H2] [H3 H4]. split; [by eapply follows_trans|]. apply Forall_app. split; [|done].
  eapply Forall_impl; [exact H2|]. intros seg. apply seg_ok_mono, H3.
Qed.

Lemma Ping_ok current cmd n D c c' out :
  conn_ok S T arr n D c → Ping current cmd c = (c', out) → emits n D c c' out.
Proof.
  intros Hok [= <- <-]. split.
  - apply follows_same. split; [|done]. eapply conn_ok_ext; [..|exact Hok]; done.
  - apply Forall_singleton. cbn. intros k Hk. left. cbn. unfold rw_NextNumber in Hk. lia.
Qed.

Lemma flush_receiving_ok current n D c c' out :
  conn_ok S T arr n D c → flush_receiving current c = (c', out) → emits n D c c' out.
Proof.
  intros Hok. unfold flush_receiving, rw_Flush. destruct (AckList_Flush _ _ _) as [l segs] eqn:E.
  apply AckList_Flush_spec in E as (Hnum & _ & Hsrc & _). intros [= <- <-].
  assert (∀ k, arrived (k_receivingWorker c) k → arrived (rw_with_acklist l (k_receivingWorker c)) k) as Hmono by done.
  split; [split; [|done]|].
  - apply conn_ok_receiver; try done; [by eapply received_ext; [..|apply Hok]|].
    cbn. rewrite Hnum. intros k Hk. apply Hmono. by apply Hok.
  - rewrite <- list_fmap_compose. apply Forall_fmap, Forall_forall. intros a Ha. cbn. split.
    + intros k Hk. left. cbn. lia.
    + intros k Hk. apply Hmono. apply Hok, Hsrc. apply list_elem_of_bind. by exists a.
Qed.

Lemma flush_sending_ok current n D c c' out :
  conn_ok S T arr n D c → flush_sending current c = (c', out) → emits n D c c' out.
Proof.
  intros Hok. unfold flush_sending. destruct (sw_Flush _ _ _ _ _ _ _) as [[s segs] updated] eqn:E.
  apply sw_Flush_window in E as (Hp & Hnext & Hout).
  assert (emits n D c (k_with_sw s c) (SegData <$> segs)) as Hemit.
  { split.
    - apply follows_same. split; [|done]. eapply (conn_ok_sender _ _ (λ _, False)); [done| |done].
      by apply shrinks_refl.
    - apply Forall_fmap, Forall_forall. intros d Hd. cbn. apply Hout in Hd.
      pose proof (snd_pairs _ _ (co_sender _ _ _ _ _ _ Hok)) as Hpairs. rewrite Forall_forall in Hpairs. exact (Hpairs _ Hd). }
  destruct updated; [|by intros [= <- <-]].
  destruct (Ping _ _ _) as [c1 ping] eqn:Ep. intros [= <- <-]. eapply emits_trans; [exact Hemit|].
  eapply Ping_ok; [apply Hemit|exact Ep].
Qed.

(** A state change inside [flush]. *)
Lemma SetState_if_ok now s0 s n D c (b : bool) :
  s0 ≠ StateTerminated → s ≠ StateActive → s ≠ StateReadyToClose → conn_ok S T arr n D c →
  follows n D c (if is_state s0 c && b then SetState now s c else c).
Proof.
  intros H0 H1 H2 Hok. unfold is_state. case_bool_decide as E; cbn [andb]; [|by split].
  destruct b; [|by split]. apply follows_same, SetState_ok; try done. by rewrite E.
Qed.

Lemma flush_emits now current n D c c' out :
  conn_ok S T arr n D c → flush now current c = (c', out) → emits n D c c' out.
Proof.
  intros Hok. unfold flush. destruct (is_state StateTerminated c); [intros [= <- <-]; apply emits_nil; by split|].
  set (c1 := if is_state StateActive c && _ then _ else c).
  set (c2 := if is_state StateReadyToClose c1 && _ then _ else c1).
  assert (follows n D c c1) as H1.
  { unfold c1. case_match; [by apply follows_same, Connection_Close_ok|by split]. }
  assert (follows n D c c2) as H2.
  { eapply follows_trans; [exact H1|]. by apply SetState_if_ok; [..|apply H1]. }
  clearbody c2. clear c1 H1. destruct (is_state StateTerminating c2) eqn:E2.
  { destruct (Ping _ _ _) as [c3 ping] eqn:Ep. assert (k_state c3 = StateTerminating) as E3.
    { injection Ep as <- _. cbn. unfold is_state in E2. by apply bool_decide_eq_true in E2. }
    eapply Ping_ok in Ep; [|apply H2]. intros [<- <-]%pair_equal_spec.
    rewrite <- (app_nil_r ping). rewrite <- (app_nil_l ping) at 1. rewrite <- (assoc_L (++)).
    eapply emits_trans; [by apply emits_nil|]. eapply emits_trans; [exact Ep|]. apply emits_nil.
    destruct Ep as [[Hok3 _] _]. case_decide; [|by split]. apply follows_same, SetState_ok; try done. by rewrite E3. }
  set (c3 := if is_state StatePeerTerminating c2 && _ then _ else c2).
  set (c4 := if is_state StateReadyToClose c3 && _ then _ else c3).
  assert (follows n D c2 c3) as H3 by (by apply SetState_if_ok; [..|apply H2]).
  assert (follows n D c c4) as H4.
  { eapply follows_trans; [exact H2|]. eapply follows_trans; [exact H3|]. by apply SetState_if_ok; [..|apply H3]. }
  clearbody c4. clear c3 H3 c2 H2 E2.
  destruct (flush_receiving current c4) as [c5 acks] eqn:E5. eapply flush_receiving_ok in E5; [|apply H4].
  destruct (flush_sending current c5) as [c6 segs] eqn:E6. eapply flush_sending_ok in E6; [|apply E5].
  assert (emits n D c c6 (acks ++ segs)) as H6.
  { rewrite <- (app_nil_l (acks ++ segs)). eapply emits_trans; [by apply emits_nil|]. by eapply emits_trans. }
  case_decide; [|by intros [= <- <-]]. destruct (Ping _ _ c6) as [c7 ping] eqn:Ep. intros [= <- <-].
  rewrite (assoc_L (++)). eapply emits_trans; [exact H6|]. eapply Ping_ok; [apply H6|exact Ep].
Qed.

Lemma Terminate_ok n D c : conn_ok S T arr n D c → (0 < k_terminates c)%nat → follows n D c (Terminate c).
Proof.
  intros Hok Hterm. pose proof (co_terminates _ _ _ _ _ _ Hok Hterm) as Hs. destruct Hok.
  assert (arrived (k_receivingWorker (Terminate c)) = arrived (k_receivingWorker c)) as Harr by done.
  split; [|by rewrite Harr]. split; try done.
  - split; cbn; [apply co_sender0|apply Forall_nil_2|constructor].
  - cbn. rewrite Hs. by intros [|].
  - cbn. eapply received_ext; [..|exact co_received0]; done.
Qed.

(** ** Reading *)

Lemma mjoin_take_prefix (l : list bytes) m : mjoin (take m l) `prefix_of` mjoin l.
Proof. exists (mjoin (drop m l)). by rewrite <- join_app, take_drop. Qed.

Lemma conn_ok_reader n D m D' r c :
  conn_ok S T arr n D c → reader_ok T m D' r → rw_windowSize r = rw_windowSize (k_receivingWorker c) →
  rw_acklist r = rw_acklist (k_receivingWorker c) → (∀ k, arrived (k_receivingWorker c) k → arrived r k) →
  conn_ok S T arr m D' (k_with_rw r c).
Proof.
  intros [] Hr Hsz Hack Hmono. split; cbn; try done.
  - apply Hr.
  - etrans; [|apply (mjoin_take_prefix T m)]. rewrite <- (rd_bytes _ _ _ _ Hr). by apply prefix_app_r.
  - rewrite Hack. auto.
  - congruence.
Qed.

Lemma locally_open_not_released n D c : conn_ok S T arr n D c → locally_closed c = false → k_released c = false.
Proof.
  intros Hok Hl. eapply conn_ok_open; [done|]. intros E. unfold locally_closed, State_Is in Hl. rewrite E in Hl. done.
Qed.

(** Bytes that a turn of reading returns. *)
Definition turn_bytes (t : turn bytes) : bytes := match t with TDone b => b | _ => [] end.

Lemma Read_turn_ok n D k c :
  conn_ok S T arr n D c →
  ∃ c' t m, Read_turn k c = Ret (c', t) ∧ conn_ok S T arr m (D ++ turn_bytes t) c' ∧
    (∀ k, arrived (k_receivingWorker c) k → arrived (k_receivingWorker c') k).
Proof using HT Hpay.
  intros Hok. unfold Read_turn. destruct (locally_closed c) eqn:El.
  { exists c, TEnd, n. cbn. by rewrite app_nil_r. }
  pose proof (locally_open_not_released _ _ _ Hok El) as Hrel.
  destruct (rw_Read_reader T HT Hpay n D k (k_receivingWorker c)) as (r & got & m & -> & Hm & Hr & _ & Hsz & Hack & Hmono).
  { by apply Hok. }
  cbn [outcome_bind]. pose proof (conn_ok_reader _ _ _ _ _ _ Hok Hr Hsz Hack Hmono) as Hok'.
  case_decide as Hlen; do 3 eexists; (split; [done|]).
  - split; [|done]. eapply conn_ok_ext; [..|exact Hok']; done.
  - assert (got = []) as -> by (destruct got; [done|cbn in Hlen; lia]). done.
Qed.

Lemma ReadMultiBuffer_turn_ok n D c c' t :
  conn_ok S T arr n D c → ReadMultiBuffer_turn c = (c', t) →
  ∃ m, conn_ok S T arr m (D ++ match t with TDone mb => contents_of mb | _ => [] end) c' ∧
    (∀ k, arrived (k_receivingWorker c) k → arrived (k_receivingWorker c') k).
Proof using HT Hpay.
  intros Hok. unfold ReadMultiBuffer_turn. destruct (locally_closed c) eqn:El.
  { intros [= <- <-]. exists n. by rewrite app_nil_r. }
  pose proof (locally_open_not_released _ _ _ Hok El) as Hrel.
  destruct (rw_ReadMultiBuffer _) as [r mb] eqn:E.
  eapply rw_ReadMultiBuffer_reader in E as (m & Hm & Hr & Hl & Hwf & Hb & Hsz & Hack & Hmono);
    [|done|done|by apply Hok].
  assert (reader_ok T m (D ++ contents_of mb) r) as Hrd.
  { split; [done|by rewrite Hl; apply Forall_nil_2|]. rewrite Hl, <- Hb. cbn. change (contents_of []) with (@nil Z). by rewrite app_nil_r. }
  pose proof (conn_ok_reader _ _ _ _ _ _ Hok Hrd Hsz Hack Hmono) as Hok'.
  rewrite mb_IsEmpty_spec by done. case_bool_decide as He; cbn [negb].
  - rewrite He in Hok'. exists m. case_match; simplify_eq; by repeat case_match; simplify_eq.
  - intros [= <- <-]. exists m. split; [|done]. eapply conn_ok_ext; [..|exact Hok']; done.
Qed.
End connection.

(** ** Writing *)

(** Chunks that were pushed one after the other. *)
Inductive pushes : Connection → list bytes → Connection → Prop :=
| pushes_nil c : pushes c [] c
| pushes_cons c b s chunks c' :
    k_state c = StateActive → sw_Push b (k_sendingWorker c) = (s, true) →
    pushes (k_with_sw s c) chunks c' → pushes c (b :: chunks) c'.

Lemma pushes_frame c chunks c' :
  pushes c chunks c' → k_receivingWorker c' = k_receivingWorker c ∧ k_state c' = k_state c ∧ k_mss c' = k_mss c.
Proof. induction 1 as [|c b s chunks c' _ _ _ (-> & -> & ->)]; done. Qed.

Lemma pushes_ok S T arr n D c chunks c' :
  pushes c chunks c' → Z.of_nat (length (S ++ chunks)) < 2 ^ 31 →
  conn_ok S T arr n D c → conn_ok (S ++ chunks) T arr n D c'.
Proof.
  intros Hp. revert S. induction Hp as [c|c b s chunks c' Hs Hpush Hp IH]; intros S Hlen Hok; [by rewrite app_nil_r|].
  rewrite length_app in Hlen. cbn [length] in Hlen.
  replace (S ++ b :: chunks) with ((S ++ [b]) ++ chunks) by (by rewrite <- (assoc_L (++))).
  apply IH. { rewrite !length_app. cbn [length]. lia. }
  destruct Hok. eapply (sw_Push_ok S) in Hpush as (Hsend & Hold & Hnew); [|lia|done].
  split; cbn; try done. intros Hst k Hk. rewrite length_app in Hk. cbn [length] in Hk.
  destruct (decide (k = Z.of_nat (length S))) as [-> | Hne]; [by left|].
  destruct (co_covered0 Hst k) as [Hu|]; [lia|left; auto|by right].
Qed.

(** The inner loop of a write: the chunks pushed are the data, in order, as far
    as the window had room. *)
Lemma write_loop_pushes fuel b data pending c c' t rest pending' :
  (match b with Some b => 1 | None => 0 end + length data < fuel)%nat →
  write_loop fuel b data pending c = (c', t, rest, pending') →
  ∃ chunks, pushes c chunks c' ∧
    Forall (λ p, length p ≤ Nat.max (chunk_size c) (length (default [] b)))%nat chunks ∧
    match t, rest with
    | TDone _, None => (chunk_size c ≠ 0%nat → mjoin chunks = default [] b ++ data)
    | TWait, Some (b', data') => mjoin chunks ++ b' ++ data' = default [] b ++ data
    | TEnd, None => k_state c ≠ StateActive
    | _, _ => False
    end.
Proof.
  revert b data pending c. induction fuel as [|fuel IH]; intros b data pending c Hfuel; [lia|]. cbn [write_loop].
  destruct (decide (k_state c ≠ StateActive)) as [Hs|Hs].
  { intros [= <- <- <- <-]. exists []. split_all; [constructor|apply Forall_nil_2|done]. }
  apply dec_stable in Hs.
  destruct b as [b|].
  - destruct (sw_Push b _) as [s [|]] eqn:Ep.
    + intros Hloop. apply IH in Hloop as (chunks & Hp & Hf & Ht); [|cbn; lia].
      exists (b :: chunks). split_all; [by eapply pushes_cons| |].
      * apply Forall_cons_2; [change (default [] (Some b)) with b; lia|]. change (chunk_size (k_with_sw s c)) with (chunk_size c) in Hf.
        eapply Forall_impl; [exact Hf|]. change (default [] (Some b)) with b. change (default [] None) with (@nil Z). cbn [length]. lia.
      * change (mjoin (b :: chunks)) with (b ++ mjoin chunks). cbn [default] in *.
        destruct t, rest as [[b' data']|]; try done.
        -- intros Hc. rewrite (Ht Hc). done.
        -- rewrite <- (assoc_L (++)), Ht. done.
    + intros [= <- <- <- <-]. exists []. split_all; [constructor|apply Forall_nil_2|]. by cbn.
  - case_decide as Hnil.
    + intros [= <- <- <- <-]. exists []. split_all; [constructor|apply Forall_nil_2|].
      intros Hc. cbn. destruct data; [done|]. by destruct (chunk_size c).
    + destruct (sw_Push (take (chunk_size c) data) _) as [s [|]] eqn:Ep.
      * intros Hloop. assert (0 < length (take (chunk_size c) data))%nat as Hpos by (destruct (take _ _); [done|cbn; lia]).
        rewrite length_take in Hpos.
        apply IH in Hloop as (chunks & Hp & Hf & Ht); [|rewrite length_drop; lia].
        exists (take (chunk_size c) data :: chunks). split_all; [by eapply pushes_cons| |].
        { apply Forall_cons_2; [rewrite length_take; lia|]. change (chunk_size (k_with_sw s c)) with (chunk_size c) in Hf.
          eapply Forall_impl; [exact Hf|]. cbn [default length]. lia. }
        change (mjoin (?x :: chunks)) with (x ++ mjoin chunks). cbn [default app] in *.
        destruct t, rest as [[b' data']|]; try done.
        -- intros Hc. rewrite (Ht Hc), take_drop. done.
        -- rewrite <- (assoc_L (++)), Ht, take_drop. done.
      * intros [= <- <- <- <-]. exists []. split_all; [constructor|apply Forall_nil_2|]. cbn. by rewrite take_drop.
Qed.

(** ** Two connections and the network between them *)

(** One end: what the application wrote, as the chunks pushed, what it read, and
    every segment the connection ever sent. *)
Record endpoint := { e_conn : Connection; e_written : list bytes; e_read : bytes; e_sent : list Segment }.

Definition e_with (c : Connection) (out : list Segment) (e : endpoint) : endpoint :=
  {| e_conn := c; e_written := e_written e; e_read := e_read e; e_sent := e_sent e ++ out |}.

(** A step of an end.  The network may hand over any segments the peer has sent,
    in any order and any number of times, or none.  Clock readings are arbitrary.
    A stream has fewer than 2^31 segments. *)
Inductive endpoint_step (peer_sent : list Segment) : endpoint → endpoint → Prop :=
| es_write e b data c t rest chunks c1 :
    Write_turn b data (e_conn e) = (c, t, rest) → (length (default [] b) ≤ Size)%nat →
    pushes (e_conn e) chunks c1 → c = c1 ∨ c = wake_data c1 →
    Forall (λ p, Z.of_nat (length p) ≤ 8192) chunks → Z.of_nat (length (e_written e ++ chunks)) < 2 ^ 31 →
    endpoint_step peer_sent e
      {| e_conn := c; e_written := e_written e ++ chunks; e_read := e_read e; e_sent := e_sent e |}
| es_read e k c t :
    Read_turn k (e_conn e) = Ret (c, t) →
    endpoint_step peer_sent e
      {| e_conn := c; e_written := e_written e; e_read := e_read e ++ turn_bytes t; e_sent := e_sent e |}
| es_read_multi e c t :
    ReadMultiBuffer_turn (e_conn e) = (c, t) →
    endpoint_step peer_sent e
      {| e_conn := c; e_written := e_written e;
         e_read := e_read e ++ match t with TDone mb => contents_of mb | _ => [] end; e_sent := e_sent e |}
| es_input e now current segs :
    Forall (.∈ peer_sent) segs → endpoint_step peer_sent e (e_with (Input now current segs (e_conn e)) [] e)
| es_run_data e now current c out :
    run_data now current (e_conn e) = (c, out) → endpoint_step peer_sent e (e_with c out e)
| es_run_ping e now current c out :
    run_ping now current (e_conn e) = (c, out) → endpoint_step peer_sent e (e_with c out e)
| es_close e now : endpoint_step peer_sent e (e_with (Connection_Close now (e_conn e)).1 [] e)
| es_terminate e :
    (0 < k_terminates (e_conn e))%nat → endpoint_step peer_sent e (e_with (Terminate (e_conn e)) [] e)
| es_wait e i o :
    (* a waiting read or write takes a signal *)
    endpoint_step peer_sent e (e_with (k_with_signals i o (e_conn e)) [] e).

Inductive network_step : endpoint * endpoint → endpoint * endpoint → Prop :=
| ns_left a a' b : endpoint_step (e_sent b) a a' → network_step (a, b) (a', b)
| ns_right a b b' : endpoint_step (e_sent a) b b' → network_step (a, b) (a, b').

Definition new_endpoint (c : Connection) : endpoint := {| e_conn := c; e_written := []; e_read := []; e_sent := [] |}.

(** ** The invariant of the network *)

Definition stream_ok (S : list bytes) : Prop :=
  Z.of_nat (length S) < 2 ^ 31 ∧ Forall (λ p, Z.of_nat (length p) ≤ 8192) S.

(** [a] as one end, with [b] as its peer. *)
Record end_ok (a b : endpoint) : Prop := {
  eo_stream : stream_ok (e_written a);
  eo_conn : ∃ n, conn_ok (e_written a) (e_written b) (arrived (k_receivingWorker (e_conn b))) n (e_read a) (e_conn a);
  eo_sent : Forall (seg_ok (arrived (k_receivingWorker (e_conn a))) (e_written a)) (e_sent a)
}.

Definition network_ok (s : endpoint * endpoint) : Prop := end_ok s.1 s.2 ∧ end_ok s.2 s.1.

(** The peer of an end that moved on. *)
Lemma conn_ok_peer S T T' (arr arr' : Z → Prop) n D c :
  (∀ k, arr k → arr' k) → conn_ok S T arr n D c → conn_ok S (T ++ T') arr' n D c.
Proof.
  intros Harr []. 
  assert (∀ w, received T n w → received (T ++ T') n w) as Hrec.
  { intros w [H1 H2 H3]. split; [done|rewrite length_app; lia|]. intros k seg Hk. destruct (H3 k seg Hk).
    split; [done|]. by apply lookup_app_l_Some. }
  pose proof (rcv_length _ _ _ co_received0) as Hn.
  split; try done; auto.
  - intros Hs k Hk. destruct (co_covered0 Hs k Hk); auto.
  - intros Hrel. destruct (co_reader0 Hrel) as [H1 H2 H3]. split; [auto|done|]. by rewrite take_app_le.
  - rewrite join_app. by apply prefix_app_r.
Qed.

(** An end makes a step. *)
Lemma endpoint_step_ok a a' b :
  endpoint_step (e_sent b) a a' → end_ok a b → end_ok b a → end_ok a' b ∧ end_ok b a'.
Proof.
  intros Hstep [Ha1 (n & Ha2) Ha3] [Hb1 (m & Hb2) Hb3].
  assert (∃ n' chunks,
    conn_ok (e_written a ++ chunks) (e_written b) (arrived (k_receivingWorker (e_conn b))) n' (e_read a') (e_conn a') ∧
    e_written a' = e_written a ++ chunks ∧ stream_ok (e_written a') ∧
    (∀ k, arrived (k_receivingWorker (e_conn a)) k → arrived (k_receivingWorker (e_conn a')) k) ∧
    ∃ out, e_sent a' = e_sent a ++ out ∧
      Forall (seg_ok (arrived (k_receivingWorker (e_conn a'))) (e_written a)) out)
    as (n' & chunks & Hok & Hw & Hstr & Hmono & out & Hsent & Hout).
  2: { split; split; [done| | |done| |done].
       - exists n'. by rewrite Hw.
       - rewrite Hsent, Hw. apply Forall_app. split.
         + eapply Forall_impl; [exact Ha3|]. intros seg Hseg. apply seg_ok_app. by eapply seg_ok_mono.
         + eapply Forall_impl; [exact Hout|]. intros seg. apply seg_ok_app.
       - exists m. rewrite Hw. by eapply conn_ok_peer. }
  destruct Hb1 as [Hlen Hpay]. set (W := e_written a) in *. set (arr := arrived (k_receivingWorker (e_conn b))) in *.
  assert (∀ c' n' D', conn_ok W (e_written b) arr n' D' c' → conn_ok (W ++ []) (e_written b) arr n' D' c') as Hsame
    by (intros; by rewrite app_nil_r).
  assert (∀ c' out, emits W (e_written b) arr n (e_read a) (e_conn a) c' out →
    ∃ n' chunks, conn_ok (W ++ chunks) (e_written b) arr n' (e_read a) c' ∧ W = W ++ chunks ∧ stream_ok W ∧
    (∀ k, arrived (k_receivingWorker (e_conn a)) k → arrived (k_receivingWorker c') k) ∧
    ∃ out', e_sent a ++ out = e_sent a ++ out' ∧ Forall (seg_ok (arrived (k_receivingWorker c')) W) out') as Hemits.
  { intros c' out [[Hf1 Hf2] Ho]. exists n, []. split_all; [auto|by rewrite app_nil_r|done|done|]. by exists out. }
  assert (∀ u1 u2 i c', c' = k_with_updaters u1 u2 i (e_conn a) → conn_ok W (e_written b) arr n (e_read a) c') as Hupd.
  { intros u1 u2 i c' ->. eapply conn_ok_ext; [..|exact Ha2]; done. }
  inv Hstep.
  - (* write *)
    match goal with H : pushes _ _ _ |- _ => pose proof (pushes_frame _ _ _ H) as (Hrw & _ & _);
      eapply pushes_ok in H as Hok; [|done|exact Ha2] end.
    exists n, chunks. split_all; [|done|split; cbn; [done|]| |].
    + match goal with H : _ ∨ _ |- _ => destruct H as [-> | ->]; [exact Hok|] end. eapply conn_ok_ext; [..|exact Hok]; done.
    + apply Forall_app. split; [apply Ha1|done].
    + match goal with H : _ ∨ _ |- _ => destruct H as [-> | ->]; cbn; by rewrite Hrw end.
    + exists []. rewrite app_nil_r. by split; [|apply Forall_nil_2].
  - (* read *)
    destruct (Read_turn_ok W (e_written b) arr Hlen Hpay n (e_read a) k (e_conn a) Ha2) as (c' & t' & n' & E & Hok & Hmono).
    match goal with H : Read_turn _ _ = _ |- _ => rewrite H in E; apply Ret_inj in E as [= -> ->] end.
    exists n', []. split_all; [by apply Hsame|by rewrite app_nil_r|done|done|].
    exists []. rewrite app_nil_r. by split; [|apply Forall_nil_2].
  - (* read a multi-buffer *)
    match goal with H : ReadMultiBuffer_turn _ = _ |- _ =>
      eapply (ReadMultiBuffer_turn_ok W (e_written b) arr Hlen Hpay) in H as (n' & Hok & Hmono); [|exact Ha2] end.
    exists n', []. split_all; [by apply Hsame|by rewrite app_nil_r|done|done|].
    exists []. rewrite app_nil_r. by split; [|apply Forall_nil_2].
  - (* input *)
    apply (Hemits _ []), emits_nil. apply Input_ok; [done|done|].
    eapply Forall_impl; [done|]. cbn. intros seg Hin. rewrite Forall_forall in Hb3. by apply Hb3.
  - (* data updater *)
    match goal with H : run_data _ _ _ = _ |- _ => unfold run_data in H; revert H end.
    destruct (updater_run _ _ _) as [u [|]].
    + intros E. eapply flush_emits in E; [|done|by eapply Hupd]. exact (Hemits _ _ E).
    + intros [= <- <-]. apply (Hemits _ []), emits_nil. by split; [eapply Hupd|].
  - (* ping updater *)
    match goal with H : run_ping _ _ _ = _ |- _ => unfold run_ping in H; revert H end.
    destruct (updater_run _ _ _) as [u [|]].
    + intros E. eapply flush_emits in E; [|done|by eapply Hupd]. exact (Hemits _ _ E).
    + intros [= <- <-]. apply (Hemits _ []), emits_nil. by split; [eapply Hupd|].
  - (* close *)
    apply (Hemits _ []), emits_nil, follows_same. by apply Connection_Close_ok.
  - (* terminate *)
    apply (Hemits _ []), emits_nil. by apply Terminate_ok.
  - (* a signal is taken *)
    apply (Hemits _ []), emits_nil. split; [|done]. eapply conn_ok_ext; [..|exact Ha2]; done.
Qed.

Lemma network_step_ok s s' : network_step s s' → network_ok s → network_ok s'.
Proof.
  intros [a a' b Hs|a b b' Hs] [H1 H2]; cbn [fst snd] in *; destruct (endpoint_step_ok _ _ _ Hs) as [H3 H4]; done.
Qed.

Lemma new_endpoint_ok header1 header2 kc1 kc2 config1 config2 conv o1 o2 c1 c2 :
  KCPConfig_Build header1 kc1 = Some config1 → KCPConfig_Build header2 kc2 = Some config2 →
  NewConnection conv o1 config1 = Some c1 → NewConnection conv o2 config2 = Some c2 →
  end_ok (new_endpoint c1) (new_endpoint c2).
Proof.
  intros H1 H2 Hc1 Hc2. apply KCPConfig_Build_sizes in H1 as (_ & _ & (r & s & Hr & Hs & Hr' & _) & [b Hb]).
  unfold NewConnection in Hc1. rewrite Hr, Hs, Hb in Hc1. cbn in Hc1. injection Hc1 as <-.
  split; cbn; [by split; [done|apply Forall_nil_2]| |apply Forall_nil_2]. exists 0%nat.
  split; cbn; try done; try lia.
  - split; cbn; [done|apply Forall_nil_2|constructor].
  - intros k Hk. by apply elem_of_nil in Hk.
Qed.

Section delivery.
Context (header1 header2 : bool) (kc1 kc2 : KCPConfig) (config1 config2 : KcpConfig) (conv o1 o2 : Z).
Context (c1 c2 : Connection) (a b : endpoint).
Context (Hconfig1 : KCPConfig_Build header1 kc1 = Some config1) (Hconfig2 : KCPConfig_Build header2 kc2 = Some config2).
Context (Hnew1 : NewConnection conv o1 config1 = Some c1) (Hnew2 : NewConnection conv o2 config2 = Some c2).
Context (Hrun : rtc network_step (new_endpoint c1, new_endpoint c2) (a, b)).

Lemma network_reachable : network_ok (a, b).
Proof using All.
  eapply (rtc_invariant network_step network_ok); [|exact Hrun|]; [exact network_step_ok|].
  split; cbn [fst snd].
  - exact (new_endpoint_ok _ _ _ _ _ _ _ _ _ _ _ Hconfig1 Hconfig2 Hnew1 Hnew2).
  - exact (new_endpoint_ok _ _ _ _ _ _ _ _ _ _ _ Hconfig2 Hconfig1 Hnew2 Hnew1).
Qed.
End delivery.

(** ** Claims *)

(** A connection that is running with an example configuration. *)
Definition example_config : KCPConfig :=
  {| kc_Mtu := Some 1350; kc_Tti := Some 20; kc_UpCap := None; kc_DownCap := None; kc_Congestion := Some true;
     kc_ReadBufferSize := None; kc_WriteBufferSize := Some 1 |}.

Definition example_new : option Connection := config ← KCPConfig_Build true example_config; NewConnection 7 6 config.

(** Three bytes are written on one side, sent, and acknowledged. *)
Lemma example_run : ∃ config c a b,
  KCPConfig_Build true example_config = Some config ∧ NewConnection 7 6 config = Some c ∧
  rtc network_step (new_endpoint c, new_endpoint c) (a, b) ∧ e_written a = [[1; 2; 3]] ∧
  k_state (e_conn a) = StateActive ∧ sw_IsEmpty (k_sendingWorker (e_conn a)) = true ∧
  k_released (e_conn b) = false ∧ rw_leftOver (k_receivingWorker (e_conn b)) = None.
Proof.
  do 4 eexists. split; [vm_compute; reflexivity|]. split; [vm_compute; reflexivity|]. split.
  - eapply rtc_l. { apply ns_left. eapply (es_write _ _ None [1; 2; 3] _ _ _ [[1; 2; 3]]).
      - vm_compute; reflexivity.
      - cbn. lia.
      - eapply pushes_cons; [reflexivity|vm_compute; reflexivity|]. apply pushes_nil.
      - right. vm_compute. reflexivity.
      - apply (bool_decide_unpack _); vm_compute; exact I.
      - vm_compute. reflexivity. }
    eapply rtc_l. { apply ns_left. eapply (es_run_data _ _ 10 10). vm_compute; reflexivity. }
    eapply rtc_l. { apply ns_left. eapply (es_run_data _ _ 10 10). vm_compute; reflexivity. }
    eapply rtc_l. { apply ns_right. eapply (es_input _ _ 30 30). cbn. apply Forall_cons_2; [apply elem_of_cons; left; reflexivity|apply Forall_nil_2]. }
    eapply rtc_l. { apply ns_right. eapply (es_run_data _ _ 30 30). vm_compute; reflexivity. }
    eapply rtc_l. { apply ns_right. eapply (es_run_data _ _ 30 30). vm_compute; reflexivity. }
    eapply rtc_l. { apply ns_left. eapply (es_input _ _ 50 50). cbn. apply Forall_cons_2; [apply elem_of_cons; left; reflexivity|apply Forall_nil_2]. }
    apply rtc_refl.
  - split_all; vm_compute; reflexivity.
Defined.


(** While a side has not been closed by its peer, a segment leaves its
    window only when the peer has it: once the window is empty, everything written
    is there for the peer to read. *)
Theorem kcp_empty_window_arrived header1 header2 kc1 kc2 config1 config2 conv o1 o2 c1 c2 a b r mb :
  KCPConfig_Build header1 kc1 = Some config1 → KCPConfig_Build header2 kc2 = Some config2 →
  NewConnection conv o1 config1 = Some c1 → NewConnection conv o2 config2 = Some c2 →
  rtc network_step (new_endpoint c1, new_endpoint c2) (a, b) →
  k_state (e_conn a) = StateActive ∨ k_state (e_conn a) = StateReadyToClose →
  sw_IsEmpty (k_sendingWorker (e_conn a)) = true →
  k_released (e_conn b) = false → rw_leftOver (k_receivingWorker (e_conn b)) = None →
  rw_ReadMultiBuffer (k_receivingWorker (e_conn b)) = (r, mb) →
  e_read b ++ contents_of mb = mjoin (e_written a).
Proof.
  intros H1 H2 H3 H4 Hrun Hstate Hempty Hrel Hleft Hread.
  destruct (network_reachable _ _ _ _ _ _ _ _ _ _ _ _ _ H1 H2 H3 H4 Hrun) as [[[Hlen Hpay] [n Ha] _] [_ [m Hb] _]].
  cbn [fst snd] in *. pose proof (co_covered _ _ _ _ _ _ Ha Hstate) as Hcov.
  assert (∀ k, ¬ unacked (k_sendingWorker (e_conn a)) k) as Hnone.
  { intros k. unfold unacked, pairs. unfold sw_IsEmpty, win_IsEmpty in Hempty. apply bool_decide_eq_true in Hempty as ->.
    cbn. apply not_elem_of_nil. }
  pose proof (co_reader _ _ _ _ _ _ Hb Hrel) as Hrd.
  eapply rw_ReadMultiBuffer_received in Hread as (l & Hl & Hr & -> & _ & _ & _ & Hnot & Hmono); [|done|apply Hb|done].
  assert (l = length (e_written a)) as ->.
  { destruct Hr as [Hnext Hle _]. apply Nat.le_antisymm; [done|]. apply Nat.nlt_ge. intros Hlt. apply Hnot.
    rewrite Hnext. apply Hmono. destruct (Hcov (Z.of_nat l)) as [Hu|Harr]; [lia|by apply Hnone in Hu|done]. }
  rewrite payload_buffers_contents. pose proof (rd_bytes _ _ _ _ Hrd) as Hb'. rewrite Hleft in Hb'. cbn in Hb'.
  change (contents_of []) with (@nil Z) in Hb'. rewrite app_nil_r in Hb'. rewrite Hb', <- join_app.
  rewrite (take_ge (drop m (e_written a))) by (rewrite length_drop; lia). by rewrite take_drop.
Qed.


Lemma kcp_empty_window_arrived_witness : ∃ b r mb,
  rw_ReadMultiBuffer (k_receivingWorker (e_conn b)) = (r, mb) ∧ e_read b ++ contents_of mb = [1; 2; 3].
Proof.
  destruct example_run as (config & c & a & b & H1 & H2 & H3 & H4 & H5 & H6 & H7 & H8).
  destruct (rw_ReadMultiBuffer (k_receivingWorker (e_conn b))) as [r mb] eqn:E. exists b, r, mb. split; [exact E|].
  change [1; 2; 3] with (mjoin [[1; 2; 3]]). rewrite <- H4.
  apply (kcp_empty_window_arrived true true example_config example_config config config 7 6 6 c c a b r mb);
    try assumption. left. exact H5.
Defined.

(** ** The life of a connection *)

Lemma endpoint_step_advances sent e e' : endpoint_step sent e e' → advances (e_conn e) (e_conn e').
Proof.
  intros Hs. inv Hs; cbn [e_conn e_with].
  - match goal with H : pushes _ _ _ |- _ => apply pushes_frame in H as (_ & Hst & _) end.
    left. match goal with H : _ ∨ _ |- _ => destruct H as [-> | ->] end; done.
  - left. match goal with H : Read_turn _ _ = _ |- _ => unfold Read_turn in H; revert H end.
    case_match; [by intros [= <- <-]|]. destruct (rw_Read _ _) as [[r got]| |]; cbn; [|done..].
    case_decide; by intros [= <- <-].
  - left. match goal with H : ReadMultiBuffer_turn _ = _ |- _ => unfold ReadMultiBuffer_turn in H; revert H end.
    case_match; [by intros [= <- <-]|]. destruct (rw_ReadMultiBuffer _) as [r mb].
    repeat case_match; by intros [= <- <-].
  - apply Input_advances.
  - match goal with H : run_data _ _ _ = _ |- _ => unfold run_data in H; revert H end.
    destruct (updater_run _ _ _) as [u [|]]; [|by intros [= <- <-]; left].
    intros Hf. apply (advances_trans _ _ _ (or_introl eq_refl : advances (e_conn e) (k_with_updaters u (k_pingUpdater (e_conn e)) (k_pingInterval (e_conn e)) (e_conn e)))).
    change c with (c, out).1. rewrite <- Hf. apply flush_advances.
  - match goal with H : run_ping _ _ _ = _ |- _ => unfold run_ping in H; revert H end.
    destruct (updater_run _ _ _) as [u [|]]; [|by intros [= <- <-]; left].
    intros Hf. apply (advances_trans _ _ _ (or_introl eq_refl : advances (e_conn e) (k_with_updaters (k_dataUpdater (e_conn e)) u (k_pingInterval (e_conn e)) (e_conn e)))).
    change c with (c, out).1. rewrite <- Hf. apply flush_advances.
  - apply Connection_Close_advances.
  - by left.
  - by left.
Qed.

(** Whatever happens, the state of a connection only moves forward: active,
    closed by one side, terminating at the peer, terminating, terminated; a state
    that was left never comes back, and a terminated connection stays so. *)
Theorem kcp_states_advance e e' :
  rtc (λ x y, ∃ sent, endpoint_step sent x y) e e' →
  k_state (e_conn e') = k_state (e_conn e) ∨
  (rank (k_state (e_conn e)) < rank (k_state (e_conn e')))%nat.
Proof.
  intros H. induction H as [e|e1 e2 e3 [sent Hs] _ IH]; [by left|].
  change (advances (e_conn e1) (e_conn e3)). eapply advances_trans; [by eapply endpoint_step_advances|exact IH].
Qed.

Lemma kcp_states_advance_witness :
  ∃ e e', rtc (λ x y, ∃ sent, endpoint_step sent x y) e e' ∧ k_state (e_conn e) = StateActive ∧
    k_state (e_conn e') = StateReadyToClose ∧
    (k_state (e_conn e') = k_state (e_conn e) ∨ (rank (k_state (e_conn e)) < rank (k_state (e_conn e')))%nat).
Proof.
  destruct example_run as (config & c & a & b & _ & _ & _ & _ & Ha & _).
  exists a, (e_with (Connection_Close 5 (e_conn a)).1 [] a).
  assert (rtc (λ x y, ∃ sent, endpoint_step sent x y) a (e_with (Connection_Close 5 (e_conn a)).1 [] a)) as Hrun
    by (eapply rtc_l; [exists []; apply es_close|apply rtc_refl]).
  split; [exact Hrun|]. split; [exact Ha|]. split.
  - cbn. unfold Connection_Close. cbn. rewrite Ha. reflexivity.
  - apply (kcp_states_advance a _ Hrun).
Defined.

Lemma is_state_true s c : is_state s c = true ↔ k_state c = s.
Proof. unfold is_state. by rewrite bool_decide_eq_true. Qed.

Lemma is_state_false s c : k_state c ≠ s → is_state s c = false.
Proof. intros. unfold is_state. by apply bool_decide_eq_false_2. Qed.

Lemma SetState_begin now s c : k_stateBeginTime (SetState now s c) = now.
Proof. by destruct s. Qed.

(** A flush of a connection that terminates. *)
Lemma flush_terminating now current c :
  k_state c = StateTerminating →
  k_state (flush now current c).1 = if decide (8000 < since current (k_stateBeginTime c)) then StateTerminated else StateTerminating.
Proof.
  intros E. unfold flush. rewrite (is_state_false StateTerminated), (is_state_false StateActive) by congruence. cbn [andb].
  rewrite (is_state_false StateReadyToClose) by congruence. cbn [andb].
  rewrite (proj2 (is_state_true StateTerminating c) E). cbn [Ping fst]. cbn [k_stateBeginTime k_with_times].
  case_decide; [by rewrite SetState_state|done].
Qed.

(** A flush of a connection that was closed locally more than 15 seconds ago. *)
Lemma flush_ready_to_close now current c :
  k_state c = StateReadyToClose → 15000 < since current (k_stateBeginTime c) →
  let c' := (flush now current c).1 in
  k_state c' = StateTerminated ∨ (k_state c' = StateTerminating ∧ k_stateBeginTime c' = now).
Proof.
  intros E Ht. unfold flush. rewrite (is_state_false StateTerminated), (is_state_false StateActive) by congruence. cbn [andb].
  rewrite (proj2 (is_state_true StateReadyToClose c) E). cbn [andb]. destruct (sw_IsEmpty (k_sendingWorker c)).
  - rewrite (proj2 (is_state_true StateTerminating _) (SetState_state now StateTerminating c)). cbn [Ping fst].
    case_decide; [left; by rewrite SetState_state|right]. done.
  - rewrite (is_state_false StateTerminating), (is_state_false StatePeerTerminating) by congruence. cbn [andb].
    rewrite (proj2 (is_state_true StateReadyToClose c) E), bool_decide_eq_true_2 by done. cbn [andb].
    set (c1 := SetState now StateTerminating c). assert (k_state c1 = StateTerminating ∧ k_stateBeginTime c1 = now) as [E1 E2] by done.
    clearbody c1. destruct (flush_receiving current c1) as [c2 acks] eqn:F1. destruct (flush_sending current c2) as [c3 segs] eqn:F2.
    assert (k_state c3 = StateTerminating ∧ k_stateBeginTime c3 = now) as [E3 E4].
    { split; [by rewrite (flush_tail_state _ _ _ _ _ _ F1 F2)|].
      unfold flush_receiving, flush_sending in *. destruct (rw_Flush _ _ _ _ _). injection F1 as <- <-.
      destruct (sw_Flush _ _ _ _ _ _ _) as [[s o] u]. destruct u; injection F2 as <- <-; done. }
    right. by case_decide.
Qed.



(** *** Two clock readings *)

(** [flush] reads the clock before [SetState] does.  When a millisecond passes
    in between, the unsigned difference is huge, and the eight seconds in which a
    terminating connection tells its peer are skipped. *)
Lemma flush_skips_linger c current :
  k_state c = StateReadyToClose → sw_IsEmpty (k_sendingWorker c) = true →
  k_state (flush (current + 1) current c).1 = StateTerminated.
Proof.
  intros E Hempty. unfold flush. rewrite (is_state_false StateTerminated), (is_state_false StateActive) by congruence. cbn [andb].
  rewrite (proj2 (is_state_true StateReadyToClose c) E), Hempty. cbn [andb].
  rewrite (proj2 (is_state_true StateTerminating _) (SetState_state _ StateTerminating c)). cbn [Ping fst].
  cbn [k_stateBeginTime k_with_times]. rewrite SetState_begin. unfold since.
  replace (current - (current + 1)) with (-1) by lia. rewrite decide_True by (vm_compute; reflexivity). by rewrite SetState_state.
Qed.

(** In the same way, a segment that arrives between the two readings makes an
    active connection look idle for 30 seconds, and [flush] closes it. *)
Lemma flush_closes_live_connection c now current :
  k_state c = StateActive → k_lastIncomingTime c = current + 1 → k_state (flush now current c).1 ≠ StateActive.
Proof.
  intros E Hin. set (c1 := (Connection_Close now c).1).
  assert (k_state c1 = StateReadyToClose) as E1 by (unfold c1, Connection_Close; cbn; by rewrite E).
  assert (flush now current c = flush now current c1) as ->.
  { unfold flush. rewrite !(is_state_false StateTerminated), (is_state_false StateActive c1) by congruence.
    rewrite (proj2 (is_state_true StateActive c) E).
    assert (30000 ≤ since current (k_lastIncomingTime c)) as Hlong.
    { rewrite Hin. unfold since. replace (current - (current + 1)) with (-1) by lia. vm_compute. discriminate. }
    by rewrite (bool_decide_eq_true_2 (30000 ≤ since current (k_lastIncomingTime c))) by done. }
  pose proof (flush_advances now current c1) as Hadv. unfold advances in Hadv. rewrite E1 in Hadv.
  intros E2. rewrite E2 in Hadv. destruct Hadv as [|Hadv]; [done|]. cbn in Hadv. lia.
Qed.

(** *** A lost wake-up *)

(** An updater that has left its loop but not yet returned its token does not
    see [WakeUp]: data written at that moment stays in the window with no updater
    running, until the ping updater comes by. *)
Lemma updater_loses_wake_up c :
  k_dataUpdater c = ULeave → k_state c = StateActive → sw_closed (k_sendingWorker c) = false →
  cache (sw_window (k_sendingWorker c)) = [] → 0 ≤ sw_windowSize (k_sendingWorker c) → 0 < k_mss c →
  ∃ c1 c2, Write_turn None [1] c = (c1, TDone (), None) ∧ run_data 0 0 c1 = (c2, []) ∧
    data_continue c2 = true ∧ k_dataUpdater c2 = UIdle.
Proof.
  intros Hu Hs Hclosed Hcache Hsize Hmss. unfold Write_turn. cbn [length Nat.add write_loop].
  rewrite decide_False by (rewrite Hs; auto).
  assert (∃ k, chunk_size c = Datatypes.S k) as [k Hk].
  { unfold chunk_size. destruct (Z.to_nat (k_mss c)) eqn:E; [lia|]. by eexists. }
  rewrite Hk. cbn [take drop]. rewrite decide_False by done.
  unfold sw_Push. rewrite Hclosed. unfold win_Len. rewrite Hcache. cbn [length].
  rewrite decide_False by (vm_compute (u32 _); lia). cbv beta iota zeta.
  set (c1 := k_with_sw _ c). assert (k_state c1 = StateActive) as Hs1 by done.
  rewrite decide_False by (rewrite Hs1; auto). rewrite drop_nil, take_nil, decide_True by done.
  assert (wake_data c1 = c1) as ->. { unfold wake_data, c1. cbn. rewrite Hu. cbn. by destruct c; cbn in *; subst. }
  do 2 eexists. split; [done|]. unfold run_data. assert (k_dataUpdater c1 = ULeave) as -> by done. cbn [updater_run].
  split; [done|]. split; [|done]. unfold data_continue, isTerminating, State_Is. cbn. rewrite Hs. cbn.
  unfold sw_UpdateNecessary, sw_IsEmpty, win_IsEmpty. cbn. by rewrite Hcache.
Qed.
