(* ===== verification/KcpListener.v ===== *)
(** The mKCP listener
    (src/upstream/xray-core/transport/internet/kcp/listener.go): one connection
    for every source and conversation. *)
From S2P Require Import Prelude Address KcpSegment KcpReceiving KcpSending KcpConnection.

Record ConnectionID := { id_Remote : option Address; id_Port : Z; id_Conv : Z }.

#[global] Instance ConnectionID_eq_dec : EqDecision ConnectionID.
Proof. solve_decision. Defined.

(** The map of sessions as a list with one entry for a key; [accepted] are the
    connections handed to [addConn], in order. *)
Record Listener := {
  sessions : list (ConnectionID * Connection);
  l_config : KcpConfig;
  l_overhead : Z;
  accepted : list ConnectionID
}.

Fixpoint session (id : ConnectionID) (l : list (ConnectionID * Connection)) : option Connection :=
  match l with
  | [] => None
  | (id', c) :: l => if decide (id' = id) then Some c else session id l
  end.

Fixpoint set_session (id : ConnectionID) (c : Connection) (l : list (ConnectionID * Connection)) :=
  match l with
  | [] => [(id, c)]
  | (id', c') :: l => if decide (id' = id) then (id, c) :: l else (id', c') :: set_session id c l
  end.

Definition with_sessions (s : list (ConnectionID * Connection)) (l : Listener) : Listener :=
  {| sessions := s; l_config := l_config l; l_overhead := l_overhead l; accepted := accepted l |}.

(** [OnReceive] on the segments of a packet from [src]; creating a connection
    panics when its configuration does. *)
Definition OnReceive (now current : Z) (segments : list Segment) (src : Destination) (l : Listener) : option Listener :=
  match segments with
  | [] => Some l
  | first :: _ =>
    let id := {| id_Remote := dest_Address src; id_Port := dest_Port src; id_Conv := Conversation first |} in
    match session id (sessions l) with
    | Some conn => Some (with_sessions (set_session id (Input now current segments conn) (sessions l)) l)
    | None =>
      if decide (Segment_Command first = CommandTerminate) then Some l
      else
        conn ← NewConnection (Conversation first) (l_overhead l) (l_config l);
        Some {| sessions := set_session id (Input now current segments conn) (sessions l);
                l_config := l_config l; l_overhead := l_overhead l; accepted := accepted l ++ [id] |}
    end
  end.

Definition Listener_Remove (id : ConnectionID) (l : Listener) : Listener :=
  with_sessions (filter (λ p, p.1 ≠ id) (sessions l)) l.

(** [Close] terminates every session; each is removed when its closer runs, and
    the hub is closed by its own code. *)
Definition Listener_Close (l : Listener) : Listener :=
  with_sessions ((λ p, (p.1, Terminate p.2)) <$> sessions l) l.

Definition ActiveConnections (l : Listener) : nat := length (sessions l).

(** ** Sessions *)

Lemma session_set id id' c l :
  session id' (set_session id c l) = if decide (id' = id) then Some c else session id' l.
Proof.
  induction l as [|[id1 c1] l IH]; cbn.
  - repeat case_decide; congruence.
  - destruct (decide (id1 = id)) as [->|Hne]; cbn; [repeat case_decide; congruence|].
    rewrite IH. repeat case_decide; congruence.
Qed.

Lemma session_elem id l c : session id l = Some c → (id, c) ∈ l.
Proof.
  induction l as [|[id1 c1] l IH]; cbn; [done|]. case_decide; [intros [= ->]; subst; left|]. intros Hs. right. auto.
Qed.

Lemma set_session_elem id c l p : p ∈ set_session id c l → p = (id, c) ∨ p ∈ l.
Proof.
  induction l as [|[id1 c1] l IH]; cbn.
  - intros ->%list_elem_of_singleton. by left.
  - case_decide; rewrite !elem_of_cons; [tauto|]. intros [H1|H1]; [tauto|]. apply IH in H1. tauto.
Qed.

Lemma SetState_conv now s c : k_conv (SetState now s c) = k_conv c.
Proof. by destruct s. Qed.

Lemma HandleOption_conv now opt c : k_conv (HandleOption now opt c) = k_conv c.
Proof. unfold HandleOption, OnPeerClosed. case_decide; [|done]. destruct (k_state c); by rewrite ?SetState_conv. Qed.

Lemma input_segment_conv now current seg c : k_conv (input_segment now current seg c) = k_conv c.
Proof.
  destruct seg as [d|a|x]; cbn [input_segment].
  - unfold input_data. etrans; [|apply (HandleOption_conv now (d_Option d))]. by case_match.
  - unfold input_ack. destruct (sw_ProcessSegment _ _ _ _ _). etrans; [|apply (HandleOption_conv now (a_Option a))]. done.
  - unfold input_cmd. etrans; [|apply (HandleOption_conv now (c_Option x))].
    set (c1 := HandleOption _ _ c). cbn. destruct (decide (c_Cmd x = CommandTerminate)).
    + etrans; [by destruct (decide _)|]. unfold peer_terminates. destruct (k_state c1); by rewrite ?SetState_conv.
    + by destruct (decide _).
Qed.

Lemma Input_conv now current segs c : k_conv (Input now current segs c) = k_conv c.
Proof.
  unfold Input. set (c0 := k_with_times _ _ c). change (k_conv c) with (k_conv c0). clearbody c0. revert c0.
  induction segs as [|seg segs IH]; intros c0; cbn [input_loop]; [done|]. case_decide; [done|].
  by rewrite IH, input_segment_conv.
Qed.

Lemma NewConnection_conv conv overhead config c : NewConnection conv overhead config = Some c → k_conv c = conv.
Proof.
  unfold NewConnection. destruct (GetReceivingInFlightSize _); cbn; [|done].
  destruct (GetSendingInFlightSize _); cbn; [|done]. destruct (GetSendingBufferSize _); cbn; [|done]. by intros [= <-].
Qed.

(** Every session has the conversation of its key. *)
Definition sessions_ok (l : Listener) : Prop := Forall (λ p, k_conv p.2 = id_Conv p.1) (sessions l).

(** A packet reaches only the session of its source and its first conversation;
    sessions keep their conversation; an unknown peer that terminates is
    ignored. *)
Lemma listener_isolates now current first rest src l l' :
  OnReceive now current (first :: rest) src l = Some l' → sessions_ok l →
  let id := {| id_Remote := dest_Address src; id_Port := dest_Port src; id_Conv := Conversation first |} in
  sessions_ok l' ∧ (∀ id', id' ≠ id → session id' (sessions l') = session id' (sessions l)) ∧
  (session id (sessions l) = None → Segment_Command first = CommandTerminate → l' = l) ∧
  (∀ c, session id (sessions l) = Some c → session id (sessions l') = Some (Input now current (first :: rest) c)).
Proof.
  intros Hrecv Hok id. unfold OnReceive in Hrecv. cbv beta iota zeta in Hrecv. fold id in Hrecv.
  assert (∀ c, k_conv c = id_Conv id → Forall (λ p, k_conv p.2 = id_Conv p.1) (set_session id c (sessions l))) as Hset.
  { intros c Hc. apply Forall_forall. intros p [-> | Hp]%set_session_elem; [done|].
    unfold sessions_ok in Hok. rewrite Forall_forall in Hok. by apply Hok. }
  destruct (session id (sessions l)) as [conn|] eqn:E.
  - apply (inj Some) in Hrecv as <-. split_all; [|intros id' Hne; cbn; by rewrite session_set, decide_False|done|].
    + apply Hset. rewrite Input_conv. apply session_elem in E. unfold sessions_ok in Hok.
      rewrite Forall_forall in Hok. apply (Hok _ E).
    + intros c [= ->]. cbn. by rewrite session_set, decide_True.
  - case_decide as Hcmd; [apply (inj Some) in Hrecv as <-; by split_all|].
    destruct (NewConnection _ _ _) as [conn|] eqn:En; cbn [mbind option_bind] in Hrecv; [|done]. apply (inj Some) in Hrecv as <-.
    split_all; [|intros id' Hne; cbn; by rewrite session_set, decide_False|done|done].
    apply Hset. rewrite Input_conv. by apply NewConnection_conv in En.
Qed.
