(* ===== verification/Vision.v ===== *)
(** The padding of the Vision flow
    (src/upstream/xray-core/proxy/proxy.go): packets of a handshake are sent with
    random padding behind a small header until the inner connection is known, and
    the reader takes them out of the stream again. *)
From S2P Require Import Prelude GoText NetIP GoConv Address Transport Frame Uuid Buf AddressParser BufAppend MultiBuffer.

(** ** Data *)

Definition Tls13SupportedVersions : bytes := [0x00; 0x2b; 0x00; 0x02; 0x03; 0x04].
Definition TlsClientHandShakeStart : bytes := [0x16; 0x03].
Definition TlsServerHandShakeStart : bytes := [0x16; 0x03; 0x03].
Definition TlsApplicationDataStart : bytes := [0x17; 0x03; 0x03].
Definition TlsHandshakeTypeClientHello : Z := 0x01.
Definition TlsHandshakeTypeServerHello : Z := 0x02.
Definition CommandPaddingContinue : Z := 0x00.
Definition CommandPaddingEnd : Z := 0x01.
Definition CommandPaddingDirect : Z := 0x02.

(** The cipher suites of TLS 1.3, and the one that is not accepted. *)
Definition Tls13CipherSuiteDic : list Z := [0x1301; 0x1302; 0x1303; 0x1304; 0x1305].
Definition TLS_AES_128_CCM_8_SHA256 : Z := 0x1305.

Record TrafficState := {
  UserUUID : bytes;
  NumberOfPacketToFilter : Z;
  EnableXtls : bool;
  IsTLS12orAbove : bool;
  IsTLS : bool;
  Cipher : Z;
  RemainingServerHello : Z;
  WithinPaddingBuffers : bool;
  ReaderSwitchToDirectCopy : bool;
  RemainingCommand : Z;
  RemainingContent : Z;
  RemainingPadding : Z;
  CurrentCommand : Z;
  IsPadding : bool;
  WriterSwitchToDirectCopy : bool
}.

Definition NewTrafficState (userUUID : bytes) : TrafficState := {|
  UserUUID := userUUID; NumberOfPacketToFilter := 8; EnableXtls := false; IsTLS12orAbove := false; IsTLS := false;
  Cipher := 0; RemainingServerHello := -1; WithinPaddingBuffers := true; ReaderSwitchToDirectCopy := false;
  RemainingCommand := -1; RemainingContent := -1; RemainingPadding := -1; CurrentCommand := 0; IsPadding := true;
  WriterSwitchToDirectCopy := false |}.

Definition with_filter (number : Z) (xtls tls12 tls : bool) (cipher hello : Z) (s : TrafficState) : TrafficState := {|
  UserUUID := UserUUID s; NumberOfPacketToFilter := number; EnableXtls := xtls; IsTLS12orAbove := tls12; IsTLS := tls;
  Cipher := cipher; RemainingServerHello := hello; WithinPaddingBuffers := WithinPaddingBuffers s;
  ReaderSwitchToDirectCopy := ReaderSwitchToDirectCopy s; RemainingCommand := RemainingCommand s;
  RemainingContent := RemainingContent s; RemainingPadding := RemainingPadding s; CurrentCommand := CurrentCommand s;
  IsPadding := IsPadding s; WriterSwitchToDirectCopy := WriterSwitchToDirectCopy s |}.

Definition with_remaining (command content padding current : Z) (s : TrafficState) : TrafficState := {|
  UserUUID := UserUUID s; NumberOfPacketToFilter := NumberOfPacketToFilter s; EnableXtls := EnableXtls s;
  IsTLS12orAbove := IsTLS12orAbove s; IsTLS := IsTLS s; Cipher := Cipher s;
  RemainingServerHello := RemainingServerHello s; WithinPaddingBuffers := WithinPaddingBuffers s;
  ReaderSwitchToDirectCopy := ReaderSwitchToDirectCopy s; RemainingCommand := command; RemainingContent := content;
  RemainingPadding := padding; CurrentCommand := current; IsPadding := IsPadding s;
  WriterSwitchToDirectCopy := WriterSwitchToDirectCopy s |}.

Definition with_reader (within direct : bool) (s : TrafficState) : TrafficState := {|
  UserUUID := UserUUID s; NumberOfPacketToFilter := NumberOfPacketToFilter s; EnableXtls := EnableXtls s;
  IsTLS12orAbove := IsTLS12orAbove s; IsTLS := IsTLS s; Cipher := Cipher s;
  RemainingServerHello := RemainingServerHello s; WithinPaddingBuffers := within; ReaderSwitchToDirectCopy := direct;
  RemainingCommand := RemainingCommand s; RemainingContent := RemainingContent s;
  RemainingPadding := RemainingPadding s; CurrentCommand := CurrentCommand s; IsPadding := IsPadding s;
  WriterSwitchToDirectCopy := WriterSwitchToDirectCopy s |}.

Definition with_writer (padding direct : bool) (s : TrafficState) : TrafficState := {|
  UserUUID := UserUUID s; NumberOfPacketToFilter := NumberOfPacketToFilter s; EnableXtls := EnableXtls s;
  IsTLS12orAbove := IsTLS12orAbove s; IsTLS := IsTLS s; Cipher := Cipher s;
  RemainingServerHello := RemainingServerHello s; WithinPaddingBuffers := WithinPaddingBuffers s;
  ReaderSwitchToDirectCopy := ReaderSwitchToDirectCopy s; RemainingCommand := RemainingCommand s;
  RemainingContent := RemainingContent s; RemainingPadding := RemainingPadding s; CurrentCommand := CurrentCommand s;
  IsPadding := padding; WriterSwitchToDirectCopy := direct |}.

(** ** Recognising TLS *)

(** The first bytes of a packet of six bytes or more. *)
Definition filter_start (b : Buffer) (s : TrafficState) : outcome TrafficState :=
  if decide (Len b < 6) then Ret s
  else
    ret_or_panic (BytesTo b 6) (λ starts,
    let start5 := default 0 (starts !! 5%nat) in
    if decide (take 3 starts = TlsServerHandShakeStart ∧ start5 = TlsHandshakeTypeServerHello) then
      let hello := Z.lor (Z.shiftl (default 0 (starts !! 3%nat)) 8) (default 0 (starts !! 4%nat)) + 5 in
      if decide (79 ≤ Len b ∧ 79 ≤ hello) then
        ret_or_panic (Byte b 43) (λ sessionIdLen,
        ret_or_panic (BytesRange b (43 + sessionIdLen + 1) (43 + sessionIdLen + 3)) (λ suite,
        let cipher := Z.lor (Z.shiftl (default 0 (suite !! 0%nat)) 8) (default 0 (suite !! 1%nat)) in
        Ret (with_filter (NumberOfPacketToFilter s) (EnableXtls s) true true cipher hello s)))
      else Ret (with_filter (NumberOfPacketToFilter s) (EnableXtls s) true true (Cipher s) hello s)
    else if decide (take 2 starts = TlsClientHandShakeStart ∧ start5 = TlsHandshakeTypeClientHello) then
      Ret (with_filter (NumberOfPacketToFilter s) (EnableXtls s) (IsTLS12orAbove s) true (Cipher s)
             (RemainingServerHello s) s)
    else Ret s).

(** The part that looks for TLS 1.3 in a server hello; true when the filter is
    done. *)
Definition filter_hello (b : Buffer) (s : TrafficState) : outcome (TrafficState * bool) :=
  if decide (RemainingServerHello s ≤ 0) then Ret (s, false)
  else
    let end_ := if decide (Len b < RemainingServerHello s) then Len b else RemainingServerHello s in
    let hello := i32 (RemainingServerHello s - Len b) in
    ret_or_panic (BytesTo b end_) (λ part,
    if Contains part Tls13SupportedVersions then
      let xtls := if decide (Cipher s ∈ Tls13CipherSuiteDic ∧ Cipher s ≠ TLS_AES_128_CCM_8_SHA256)
                  then true else EnableXtls s in
      Ret (with_filter 0 xtls (IsTLS12orAbove s) (IsTLS s) (Cipher s) hello s, true)
    else if decide (hello ≤ 0) then
      Ret (with_filter 0 (EnableXtls s) (IsTLS12orAbove s) (IsTLS s) (Cipher s) hello s, true)
    else
      Ret (with_filter (NumberOfPacketToFilter s) (EnableXtls s) (IsTLS12orAbove s) (IsTLS s) (Cipher s) hello s, false)).

Fixpoint XtlsFilterTls (buffer : list (option Buffer)) (s : TrafficState) : outcome TrafficState :=
  match buffer with
  | [] => Ret s
  | None :: buffer => XtlsFilterTls buffer s
  | Some b :: buffer =>
    let s := with_filter (NumberOfPacketToFilter s - 1) (EnableXtls s) (IsTLS12orAbove s) (IsTLS s) (Cipher s)
               (RemainingServerHello s) s in
    let? s := filter_start b s in
    let? (s, done) := filter_hello b s in
    if done then Ret s else XtlsFilterTls buffer s
  end.

(** ** Padding *)

Section padding.
(** The array of a new buffer, from the pool. *)
Context (array : bytes).

(** [padding_len contentLen longPadding l]: [l] is the random number, below 500
    or 256. *)
Definition padding_len (contentLen : Z) (longPadding : bool) (l : Z) : Z :=
  let paddingLen := if decide (contentLen < 900 ∧ longPadding = true) then l + 900 - contentLen else l in
  if decide (Z.of_nat Size - 21 - contentLen < paddingLen) then Z.of_nat Size - 21 - contentLen else paddingLen.

(** [XtlsPadding]; the user identifier is written once, and nil afterwards. *)
Definition XtlsPadding (b : option Buffer) (command : Z) (userUUID : bytes) (longPadding : bool) (l : Z)
    : outcome Buffer :=
  let contentLen := match b with Some b => Len b | None => 0 end in
  let paddingLen := padding_len contentLen longPadding l in
  let? nb := write_all (Buffer_New array) userUUID in
  let? nb := write_all nb [command; u8 (Z.shiftr contentLen 8); u8 contentLen; u8 (Z.shiftr paddingLen 8); u8 paddingLen] in
  let? nb := match b with
             | Some b => ret_or_panic (Bytes b) (λ d, write_all nb d)
             | None => Ret nb
             end in
  ret_or_panic (Extend nb paddingLen) (λ '(nb, _), Ret nb).

(** ** Reshaping *)

(** [bytes.LastIndex]; -1 when there is none. *)
Fixpoint LastIndex (s sep : bytes) : Z :=
  match s with
  | [] => if decide (sep = []) then 0 else -1
  | _ :: s' =>
    let i := LastIndex s' sep in
    if decide (0 ≤ i) then i + 1 else if HasPrefix s sep then 0 else -1
  end.

(** A buffer that leaves no room for the header is cut in two. *)
Definition reshape_one (b : Buffer) : outcome (list Buffer) :=
  if decide (Len b < Z.of_nat Size - 21) then Ret [b]
  else
    ret_or_panic (Bytes b) (λ d,
    let index := LastIndex d TlsApplicationDataStart in
    let index := if decide (index < 21 ∨ Z.of_nat Size - 21 < index) then Z.of_nat Size / 2 else index in
    ret_or_panic (BytesFrom b index) (λ tail,
    let? b2 := write_all (Buffer_New array) tail in
    ret_or_panic (Resize b 0 index) (λ b1, Ret [b1; b2]))).

Fixpoint reshape_all (buffer : list Buffer) : outcome (list Buffer) :=
  match buffer with
  | [] => Ret []
  | b :: buffer => let? x := reshape_one b in let? y := reshape_all buffer in Ret (x ++ y)
  end.

Definition ReshapeMultiBuffer (buffer : list Buffer) : outcome (list Buffer) :=
  if decide (Exists (λ b, Z.of_nat Size - 21 ≤ Len b) buffer) then reshape_all buffer else Ret buffer.

(** ** Unpadding *)

(** The state before and behind a padded part. *)
Definition initial (s : TrafficState) : bool :=
  bool_decide (RemainingCommand s = -1 ∧ RemainingContent s = -1 ∧ RemainingPadding s = -1).

(** A byte of the header. *)
Definition read_command (data : Z) (s : TrafficState) : TrafficState :=
  let rc := RemainingCommand s in
  if decide (rc = 5) then with_remaining (rc - 1) (RemainingContent s) (RemainingPadding s) data s
  else if decide (rc = 4) then with_remaining (rc - 1) (Z.shiftl data 8) (RemainingPadding s) (CurrentCommand s) s
  else if decide (rc = 3) then
    with_remaining (rc - 1) (Z.lor (RemainingContent s) data) (RemainingPadding s) (CurrentCommand s) s
  else if decide (rc = 2) then
    with_remaining (rc - 1) (RemainingContent s) (Z.shiftl data 8) (CurrentCommand s) s
  else if decide (rc = 1) then
    with_remaining (rc - 1) (RemainingContent s) (Z.lor (RemainingPadding s) data) (CurrentCommand s) s
  else with_remaining (rc - 1) (RemainingContent s) (RemainingPadding s) (CurrentCommand s) s.

(** One turn of the loop: the state, what is left of the buffer, and what was
    taken out. *)
Definition unpad_turn (s : TrafficState) (b : Buffer) : outcome (TrafficState * Buffer * bytes) :=
  if decide (0 < RemainingCommand s) then
    ret_or_panic (ReadByte b) (λ '(b, data),
    match data with None => Fail | Some data => Ret (read_command data s, b, []) end)
  else if decide (0 < RemainingContent s) then
    let len := if decide (Len b < RemainingContent s) then Len b else RemainingContent s in
    ret_or_panic (ReadBytes b len) (λ '(b, data),
    match data with
    | None => Fail
    | Some data => Ret (with_remaining (RemainingCommand s) (RemainingContent s - len) (RemainingPadding s)
                          (CurrentCommand s) s, b, data)
    end)
  else
    let len := if decide (Len b < RemainingPadding s) then Len b else RemainingPadding s in
    Ret (with_remaining (RemainingCommand s) (RemainingContent s) (RemainingPadding s - len) (CurrentCommand s) s,
         Advance b len, []).

Definition block_done (s : TrafficState) : bool :=
  bool_decide (RemainingCommand s ≤ 0 ∧ RemainingContent s ≤ 0 ∧ RemainingPadding s ≤ 0).

(** The loop; a read that fails returns what there is.  Every turn takes a byte
    or finishes a block. *)
Fixpoint unpad_loop (fuel : nat) (s : TrafficState) (b nb : Buffer) : outcome (TrafficState * Buffer) :=
  match fuel with
  | O => Panic
  | S fuel =>
    if decide (Len b ≤ 0) then Ret (s, nb)
    else
      match unpad_turn s b with
      | Panic => Panic
      | Fail => Ret (s, nb)
      | Ret (s, b, data) =>
        let? nb := write_all nb data in
        if block_done s then
          if decide (CurrentCommand s = 0)
          then unpad_loop fuel (with_remaining 5 (RemainingContent s) (RemainingPadding s) (CurrentCommand s) s) b nb
          else
            let s := with_remaining (-1) (-1) (-1) (CurrentCommand s) s in
            if decide (0 < Len b)
            then ret_or_panic (Bytes b) (λ d, let? nb := write_all nb d in Ret (s, nb))
            else Ret (s, nb)
        else unpad_loop fuel s b nb
      end
  end.

Definition XtlsUnpadding (b : Buffer) (s : TrafficState) : outcome (TrafficState * Buffer) :=
  let fuel := S (Z.to_nat (Len b)) in
  if initial s then
    if decide (Len b < 21) then Ret (s, b)
    else
      ret_or_panic (BytesTo b 16) (λ id,
      if decide (UserUUID s = id)
      then unpad_loop fuel (with_remaining 5 (RemainingContent s) (RemainingPadding s) (CurrentCommand s) s)
             (Advance b 16) (Buffer_New array)
      else Ret (s, b))
  else unpad_loop fuel s b (Buffer_New array).
End padding.

(** ** Writing and reading *)

Section vision.
Context (array : bytes) (roll : nat → Z).

(** The loop of [WriteMultiBuffer] over the buffers from index [i]. *)
Fixpoint pad_loop (i : nat) (mb : list Buffer) (s : TrafficState) (uuid : bytes) (longPadding : bool)
    : outcome (TrafficState * bytes * list Buffer) :=
  match mb with
  | [] => Ret (s, uuid, [])
  | b :: rest =>
    let last := bool_decide (rest = []) in
    let finishing := if EnableXtls s then CommandPaddingDirect else CommandPaddingEnd in
    let? tls := (if decide (IsTLS s = true ∧ 6 ≤ Len b)
                 then ret_or_panic (BytesTo b 3) (λ d, Ret (bool_decide (d = TlsApplicationDataStart)))
                 else Ret false) in
    if (tls : bool) then
      let s' := with_writer false (WriterSwitchToDirectCopy s || EnableXtls s) s in
      let? pb := XtlsPadding array (Some b) (if last then finishing else CommandPaddingContinue) uuid true (roll i) in
      let? (s', uuid', out) := pad_loop (S i) rest s' [] false in
      Ret (s', uuid', pb :: out)
    else if decide (IsTLS12orAbove s = false ∧ NumberOfPacketToFilter s ≤ 1) then
      let? pb := XtlsPadding array (Some b) CommandPaddingEnd uuid longPadding (roll i) in
      Ret (with_writer false (WriterSwitchToDirectCopy s) s, [], pb :: rest)
    else
      let command := if last && negb (IsPadding s) then finishing else CommandPaddingContinue in
      let? pb := XtlsPadding array (Some b) command uuid longPadding (roll i) in
      let? (s', uuid', out) := pad_loop (S i) rest s [] longPadding in
      Ret (s', uuid', pb :: out)
  end.

(** What is written: buffers, or the single nil buffer that stands for a packet
    of padding. *)
Inductive vision_input := VNil | VBuffers (mb : list Buffer).

Definition filter_input (mb : vision_input) : list (option Buffer) :=
  match mb with VNil => [None] | VBuffers mb => Some <$> mb end.

(** [VisionWriter.WriteMultiBuffer] up to the underlying writer. *)
Definition VisionWriter_Write (mb : vision_input) (s : TrafficState) (uuid : bytes)
    : outcome (TrafficState * bytes * list Buffer) :=
  let? s := if decide (0 < NumberOfPacketToFilter s) then XtlsFilterTls (filter_input mb) s else Ret s in
  match mb with
  | VNil =>
    if IsPadding s
    then let? pb := XtlsPadding array None CommandPaddingContinue uuid true (roll 0) in Ret (s, [], [pb])
    else Ret (s, uuid, [])
  | VBuffers mb =>
    if IsPadding s then let? mb := ReshapeMultiBuffer array mb in pad_loop 0 mb s uuid (IsTLS s)
    else Ret (s, uuid, mb)
  end.

(** The buffers of a read, one after the other; empty ones are dropped. *)
Fixpoint unpad_all (mb : list Buffer) (s : TrafficState) : outcome (TrafficState * list Buffer) :=
  match mb with
  | [] => Ret (s, [])
  | b :: mb =>
    let? (s, nb) := XtlsUnpadding array b s in
    let? (s, mb) := unpad_all mb s in
    Ret (s, if decide (0 < Len nb) then nb :: mb else mb)
  end.

Definition reader_flags (s : TrafficState) : TrafficState :=
  if decide (0 < RemainingContent s ∨ 0 < RemainingPadding s ∨ CurrentCommand s = 0)
  then with_reader true (ReaderSwitchToDirectCopy s) s
  else if decide (CurrentCommand s = 1) then with_reader false (ReaderSwitchToDirectCopy s) s
  else if decide (CurrentCommand s = 2) then with_reader false true s
  else s.

(** [VisionReader.ReadMultiBuffer] on what the underlying reader returned. *)
Definition VisionReader_Read (buffer : list Buffer) (s : TrafficState) : outcome (TrafficState * list Buffer) :=
  if mb_IsEmpty buffer then Ret (s, buffer)
  else
    let? (s, buffer) :=
      (if decide (WithinPaddingBuffers s = true ∨ 0 < NumberOfPacketToFilter s)
       then let? (s, mb2) := unpad_all buffer s in Ret (reader_flags s, mb2)
       else Ret (s, buffer)) in
    if decide (0 < NumberOfPacketToFilter s)
    then let? s := XtlsFilterTls (Some <$> buffer) s in Ret (s, buffer)
    else Ret (s, buffer).
End vision.

(** ** Unpadding, byte by byte *)

Definition step_byte (s : TrafficState) (c : Z) : TrafficState * bytes :=
  if decide (0 < RemainingCommand s) then (read_command c s, [])
  else if decide (0 < RemainingContent s) then
    (with_remaining (RemainingCommand s) (RemainingContent s - 1) (RemainingPadding s) (CurrentCommand s) s, [c])
  else (with_remaining (RemainingCommand s) (RemainingContent s) (RemainingPadding s - 1) (CurrentCommand s) s, []).

(** What follows a turn: the next block, the end of the padding, or more of the
    same block. *)
Definition next_block (s : TrafficState) : TrafficState * bool :=
  if block_done s then
    if decide (CurrentCommand s = 0)
    then (with_remaining 5 (RemainingContent s) (RemainingPadding s) (CurrentCommand s) s, false)
    else (with_remaining (-1) (-1) (-1) (CurrentCommand s) s, true)
  else (s, false).

Fixpoint run (s : TrafficState) (l : bytes) : TrafficState * bytes :=
  match l with
  | [] => (s, [])
  | c :: l =>
    let '(s, o) := step_byte s c in
    match next_block s with
    | (s, true) => (s, o ++ l)
    | (s, false) => let '(s', o') := run s l in (s', o ++ o')
    end
  end.

(** In the middle of a padded part. *)
Definition active (s : TrafficState) : Prop :=
  0 < RemainingCommand s ∨ 0 < RemainingContent s ∨ 0 < RemainingPadding s.

Lemma active_not_initial s : active s → initial s = false.
Proof. intros H. unfold initial. apply bool_decide_eq_false_2. unfold active in H. lia. Qed.

Lemma next_block_active s s' : next_block s = (s', false) → active s'.
Proof.
  unfold next_block, active, block_done. case_bool_decide as H; [case_decide|]; intros [= <-]; cbn; [lia|].
  destruct (decide (0 < RemainingCommand s)), (decide (0 < RemainingContent s)), (decide (0 < RemainingPadding s)); auto.
  destruct H. lia.
Qed.

Lemma next_block_initial s s' : next_block s = (s', true) → initial s' = true.
Proof. unfold next_block. repeat case_match; intros [= <-]. by apply bool_decide_eq_true_2. Qed.

Lemma not_done s : 0 < RemainingContent s ∨ 0 < RemainingPadding s → next_block s = (s, false).
Proof. intros H. unfold next_block, block_done. rewrite bool_decide_eq_false_2; [done|lia]. Qed.

(** A run of content, and a run of padding. *)
Definition take_content (n : Z) (s : TrafficState) : TrafficState :=
  with_remaining (RemainingCommand s) (RemainingContent s - n) (RemainingPadding s) (CurrentCommand s) s.
Definition take_padding (n : Z) (s : TrafficState) : TrafficState :=
  with_remaining (RemainingCommand s) (RemainingContent s) (RemainingPadding s - n) (CurrentCommand s) s.

Lemma run_content s x l :
  RemainingCommand s ≤ 0 → 0 < Z.of_nat (length x) ≤ RemainingContent s →
  run s (x ++ l) =
  match next_block (take_content (Z.of_nat (length x)) s) with
  | (s', true) => (s', x ++ l)
  | (s', false) => let '(s2, o) := run s' l in (s2, x ++ o)
  end.
Proof.
  intros Hrc. revert s Hrc. induction x as [|c x IH]; intros s Hrc Hlen; cbn [length] in Hlen; [lia|].
  cbn [app run]. unfold step_byte. rewrite decide_False, decide_True by lia.
  change (with_remaining (RemainingCommand s) (RemainingContent s - 1) (RemainingPadding s) (CurrentCommand s) s)
    with (take_content 1 s).
  destruct x as [|c' x]; [done|]. rewrite not_done by (cbn [length] in Hlen; cbn; lia).
  rewrite IH by (cbn [length] in *; cbn; lia).
  assert (take_content (Z.of_nat (length (c' :: x))) (take_content 1 s) = take_content (Z.of_nat (length (c :: c' :: x))) s) as ->.
  { unfold take_content, with_remaining. cbn [RemainingContent RemainingCommand RemainingPadding CurrentCommand length]. cbn. f_equal. lia. }
  destruct (next_block _) as [s' [|]]; [done|]. by destruct (run s' l).
Qed.

Lemma run_padding s x l :
  RemainingCommand s ≤ 0 → RemainingContent s ≤ 0 → 0 < Z.of_nat (length x) ≤ RemainingPadding s →
  run s (x ++ l) =
  match next_block (take_padding (Z.of_nat (length x)) s) with
  | (s', true) => (s', l)
  | (s', false) => run s' l
  end.
Proof.
  intros Hrc. revert s Hrc. induction x as [|c x IH]; intros s Hrc Hcon Hlen; cbn [length] in Hlen; [lia|].
  cbn [app run]. unfold step_byte. rewrite !decide_False by lia.
  change (with_remaining (RemainingCommand s) (RemainingContent s) (RemainingPadding s - 1) (CurrentCommand s) s)
    with (take_padding 1 s).
  destruct x as [|c' x]. { change (Z.of_nat (length [c])) with 1. destruct (next_block _) as [s' [|]]; [done|]. by destruct (run s' _). }
  rewrite not_done by (cbn [length] in Hlen; cbn; lia).
  rewrite IH by (cbn [length] in *; cbn; lia).
  assert (take_padding (Z.of_nat (length (c' :: x))) (take_padding 1 s) = take_padding (Z.of_nat (length (c :: c' :: x))) s) as ->.
  { unfold take_padding, with_remaining. cbn [RemainingContent RemainingCommand RemainingPadding CurrentCommand length]. cbn. f_equal. lia. }
  destruct (next_block _) as [s' [|]]; [done|]. by destruct (run s' l).
Qed.

(** Splitting the input anywhere makes no difference. *)
Lemma run_app s x y :
  active s →
  run s (x ++ y) =
  let '(s1, o1) := run s x in
  if initial s1 then (s1, o1 ++ y) else let '(s2, o2) := run s1 y in (s2, o1 ++ o2).
Proof.
  revert s. induction x as [|c x IH]; intros s Hs; cbn [app run].
  { rewrite active_not_initial by done. by destruct (run s y). }
  destruct (step_byte s c) as [s1 o]. destruct (next_block s1) as [s2 [|]] eqn:E.
  - rewrite (next_block_initial _ _ E). by rewrite (assoc_L (++)).
  - rewrite IH by (by eapply next_block_active). destruct (run s2 x) as [s3 o3].
    destruct (initial s3); [by rewrite (assoc_L (++))|]. destruct (run s3 y) as [s4 o4]. by rewrite (assoc_L (++)).
Qed.

Lemma run_active s l s' o : active s → run s l = (s', o) → active s' ∨ initial s' = true.
Proof.
  revert s o. induction l as [|c l IH]; intros s o Hs; cbn [run]; [intros [= <- <-]; by left|].
  destruct (step_byte s c) as [s1 o1]. destruct (next_block s1) as [s2 [|]] eqn:E.
  - intros [= <- <-]. right. by eapply next_block_initial.
  - destruct (run s2 l) as [s3 o3] eqn:E3. intros [= <- <-]. eapply IH; [|done]. by eapply next_block_active.
Qed.

(** ** The loop is the byte machine *)

Lemma unpad_turn_spec s b :
  wf b → content b ≠ [] → active s →
  ∃ s1 b1 data x y, unpad_turn s b = Ret (s1, b1, data) ∧ wf b1 ∧ content b = x ++ y ∧ content b1 = y ∧
    x ≠ [] ∧ (length data ≤ length x)%nat ∧
    run s (content b) = match next_block s1 with
                        | (s2, true) => (s2, data ++ y)
                        | (s2, false) => let '(s3, o) := run s2 y in (s3, data ++ o)
                        end.
Proof.
  intros Hb Hne Hs. pose proof (Len_content b Hb) as Hlen. pose proof (length_content b Hb) as Hl. pose proof Hb as [H1 H2 H3].
  assert (0 < length (content b))%nat as Hpos by (destruct (content b); [done|cbn; lia]).
  unfold unpad_turn. destruct (decide (0 < RemainingCommand s)) as [Hrc|Hrc].
  - pose proof (run_ReadByte b Hb) as Hr. destruct (content b) as [|c q] eqn:E; [done|].
    destruct Hr as (b' & -> & Hb' & Hc'). cbn [ret_or_panic]. exists (read_command c s), b', [], [c], q.
    split_all; try done; [cbn; lia|]. cbn [run]. unfold step_byte. rewrite decide_True by done.
    destruct (next_block _) as [s2 [|]]; [done|]. by destruct (run s2 q).
  - destruct (decide (0 < RemainingContent s)) as [Hc|Hc].
    + set (n := if decide (Len b < RemainingContent s) then Len b else RemainingContent s).
      assert (n = Z.of_nat (Z.to_nat n) ∧ 0 < n ∧ n ≤ RemainingContent s ∧ (Z.to_nat n ≤ length (content b))%nat) as (Hn & Hn0 & Hn1 & Hn2)
        by (unfold n; case_decide; lia).
      cbv zeta. pose proof (run_ReadBytes b (Z.to_nat n) Hb ltac:(lia)) as Hr. rewrite decide_False, <- Hn in Hr by lia.
      destruct Hr as (b' & -> & Hb' & Hc'). cbn [ret_or_panic].
      eexists _, b', (take (Z.to_nat n) (content b)), (take (Z.to_nat n) (content b)), (drop (Z.to_nat n) (content b)).
      split; [done|]. split_all; try done; [by rewrite take_drop|intros E; apply (f_equal length) in E; rewrite length_take in E; cbn in E; lia|].
      rewrite <- (take_drop (Z.to_nat n) (content b)) at 1. rewrite run_content by (rewrite ?length_take; lia).
      rewrite length_take, Nat.min_l by lia. rewrite <- Hn. done.
    + set (n := if decide (Len b < RemainingPadding s) then Len b else RemainingPadding s).
      assert (n = Z.of_nat (Z.to_nat n) ∧ 0 < n ∧ n ≤ RemainingPadding s ∧ (Z.to_nat n ≤ length (content b))%nat) as (Hn & Hn0 & Hn1 & Hn2)
        by (unfold n; unfold active in Hs; case_decide; lia).
      cbv zeta. destruct (run_Advance b (Z.to_nat n) Hb ltac:(lia)) as [Hb' Hc']. rewrite <- Hn in Hb', Hc'.
      eexists _, (Advance b n), [], (take (Z.to_nat n) (content b)), (drop (Z.to_nat n) (content b)).
      split; [done|]. split_all; try done; [by rewrite take_drop|intros E; apply (f_equal length) in E; rewrite length_take in E; cbn in E; lia|cbn; lia|].
      rewrite <- (take_drop (Z.to_nat n) (content b)) at 1. rewrite run_padding by (rewrite ?length_take; lia).
      rewrite length_take, Nat.min_l by lia. rewrite <- Hn. unfold take_padding.
      destruct (next_block _) as [s2 [|]]; [done|]. by destruct (run s2 _).
Qed.

Lemma unpad_loop_spec fuel s b nb :
  wf b → wf nb → active s → (length (content b) < fuel)%nat → (length (content b) ≤ room nb)%nat →
  ∃ s' nb' o, unpad_loop fuel s b nb = Ret (s', nb') ∧ run s (content b) = (s', o) ∧
    wf nb' ∧ content nb' = content nb ++ o.
Proof.
  revert s b nb. induction fuel as [|fuel IH]; intros s b nb Hb Hnb Hs Hfuel Hroom; [lia|].
  cbn [unpad_loop]. pose proof (Len_content b Hb) as Hlen. destruct (decide (Len b ≤ 0)) as [Hz|Hz].
  { assert (content b = []) as E by (apply nil_length_inv; lia). exists s, nb, []. by rewrite E, app_nil_r. }
  destruct (unpad_turn_spec s b Hb) as (s1 & b1 & data & x & y & -> & Hb1 & Hc & Hc1 & Hx & Hdata & Hrun);
    [intros E; rewrite E in Hlen; cbn in Hlen; lia|done|].
  assert (length (content b) = (length x + length y)%nat) as Hlens by (by rewrite Hc, length_app).
  assert (0 < length x)%nat as Hx0 by (destruct x; [done|cbn; lia]).
  destruct (write_all_spec nb data Hnb) as (nb1 & -> & [Hw1 Hcon1 Hroom1 _ _]); [lia|]. cbn [outcome_bind].
  rewrite Hrun. unfold next_block at 1. destruct (block_done s1) eqn:Ed.
  - unfold next_block in *. destruct (decide (CurrentCommand s1 = 0)) as [Ec|Ec].
    + destruct (IH (with_remaining 5 (RemainingContent s1) (RemainingPadding s1) (CurrentCommand s1) s1) b1 nb1)
        as (s' & nb' & o & -> & Hr & Hw & Ho); [done|done|left; cbn; lia|rewrite Hc1; lia|rewrite Hc1; lia|].
      rewrite Hc1 in Hr. rewrite Hr. exists s', nb', (data ++ o). by rewrite Ho, Hcon1, <- (assoc_L (++)).
    + pose proof (Len_content b1 Hb1) as Hl1. rewrite Hc1 in Hl1. case_decide as Hrest.
      * rewrite Bytes_content by done. cbn [ret_or_panic]. rewrite Hc1.
        destruct (write_all_spec nb1 y Hw1) as (nb2 & -> & [Hw2 Hcon2 _ _ _]); [lia|]. cbn [outcome_bind].
        do 3 eexists. split; [done|]. split; [done|]. by rewrite Hcon2, Hcon1, <- (assoc_L (++)).
      * assert (y = []) as -> by (apply nil_length_inv; lia). do 3 eexists. split; [done|]. split; [done|].
        by rewrite app_nil_r.
  - assert (next_block s1 = (s1, false)) as En by (unfold next_block; by rewrite Ed).
    destruct (IH s1 b1 nb1) as (s' & nb' & o & -> & Hr & Hw & Ho);
      [done|done|by eapply next_block_active|rewrite Hc1; lia|rewrite Hc1; lia|].
    rewrite Hc1 in Hr. rewrite Hr. exists s', nb', (data ++ o). by rewrite Ho, Hcon1, <- (assoc_L (++)).
Qed.

(** ** Frames *)

Definition frame (cmd : Z) (c p : bytes) : bytes :=
  [cmd; u8 (Z.shiftr (Z.of_nat (length c)) 8); u8 (Z.of_nat (length c));
   u8 (Z.shiftr (Z.of_nat (length p)) 8); u8 (Z.of_nat (length p))] ++ c ++ p.

(** What happens from a state behind a turn. *)
Definition proceed (s : TrafficState) (l : bytes) : TrafficState * bytes :=
  match next_block s with (s', true) => (s', l) | (s', false) => run s' l end.

Definition out_before (x : bytes) (r : TrafficState * bytes) : TrafficState * bytes := (r.1, x ++ r.2).

Lemma proceed_content s x l :
  RemainingCommand s ≤ 0 → RemainingContent s = Z.of_nat (length x) →
  proceed s (x ++ l) = out_before x (proceed (take_content (Z.of_nat (length x)) s) l).
Proof.
  intros Hrc Hx. destruct x as [|c x].
  { unfold take_content. cbn [length]. cbn in Hx. change (Z.of_nat 0) with 0. rewrite Z.sub_0_r.
    replace (with_remaining _ _ _ _ s) with s by (by destruct s). unfold out_before. cbn. by destruct (proceed s l). }
  unfold proceed at 1. rewrite not_done by (cbn [length] in Hx; lia). rewrite run_content by (cbn [length] in *; lia).
  unfold proceed, out_before. destruct (next_block _) as [s' [|]]; [done|]. by destruct (run s' l).
Qed.

Lemma proceed_padding s x l :
  RemainingCommand s ≤ 0 → RemainingContent s ≤ 0 → RemainingPadding s = Z.of_nat (length x) →
  proceed s (x ++ l) = proceed (take_padding (Z.of_nat (length x)) s) l.
Proof.
  intros Hrc Hc Hx. destruct x as [|c x].
  { unfold take_padding. cbn [length]. change (Z.of_nat 0) with 0. rewrite Z.sub_0_r.
    by replace (with_remaining _ _ _ _ s) with s by (by destruct s). }
  unfold proceed at 1. rewrite not_done by (cbn [length] in Hx; lia). rewrite run_padding by (cbn [length] in *; lia).
  done.
Qed.

Lemma two_bytes n : 0 ≤ n < 2 ^ 16 → Z.lor (Z.shiftl (u8 (Z.shiftr n 8)) 8) (u8 n) = n.
Proof.
  intros Hn. rewrite lor_shiftl_small by (try apply wrap_bound; lia). rewrite Z.shiftr_div_pow2 by lia.
  unfold wrap. rewrite (Z.mod_small (n / 2 ^ 8)).
  2: { split; [apply Z.div_pos; lia|]. apply Z.div_lt_upper_bound; lia. }
  rewrite (Z.div_mod n (2 ^ 8)) at 3 by lia. lia.
Qed.

(** The header of a frame. *)
Lemma run_header s cmd c p l :
  RemainingCommand s = 5 → Z.of_nat (length c) < 2 ^ 16 → Z.of_nat (length p) < 2 ^ 16 →
  run s (frame cmd c p ++ l) =
  proceed (with_remaining 0 (Z.of_nat (length c)) (Z.of_nat (length p)) cmd s) (c ++ p ++ l).
Proof.
  intros Hrc Hc Hp. unfold frame. rewrite <- (assoc_L (++) _ (c ++ p)), <- (assoc_L (++)). cbn [app].
  assert (∀ s' x l', 1 < RemainingCommand s' → run s' (x :: l') = run (read_command x s') l') as Hstep.
  { intros s' x l' H. cbn [run]. unfold step_byte. rewrite decide_True by lia.
    assert (next_block (read_command x s') = (read_command x s', false)) as ->.
    { unfold next_block, block_done. rewrite bool_decide_eq_false_2; [done|].
      unfold read_command. repeat case_decide; cbn; lia. }
    by destruct (run _ l'). }
  rewrite Hstep by lia. unfold read_command at 1. rewrite Hrc, decide_True by done.
  rewrite Hstep by (cbn; lia). unfold read_command at 1. cbn [RemainingCommand with_remaining].
  rewrite decide_False, decide_True by lia.
  rewrite Hstep by (cbn; lia). unfold read_command at 1. cbn [RemainingCommand with_remaining].
  do 2 rewrite decide_False by lia. rewrite decide_True by lia.
  rewrite Hstep by (cbn; lia). unfold read_command at 1. cbn [RemainingCommand with_remaining].
  do 3 rewrite decide_False by lia. rewrite decide_True by lia.
  cbn [run]. unfold step_byte. cbn [RemainingCommand with_remaining]. rewrite decide_True by lia.
  unfold read_command. cbn [RemainingCommand with_remaining].
  do 4 rewrite decide_False by lia. rewrite decide_True by lia.
  cbn [RemainingContent RemainingPadding CurrentCommand with_remaining].
  rewrite (two_bytes (Z.of_nat (length c))), (two_bytes (Z.of_nat (length p))) by lia.
  change (5 - 1 - 1 - 1 - 1 - 1) with 0. unfold proceed.
  match goal with |- context [next_block ?x] => replace x with
    (with_remaining 0 (Z.of_nat (length c)) (Z.of_nat (length p)) cmd s) by (by destruct s) end.
  destruct (next_block _) as [s' [|]]; [done|]. by destruct (run s' _).
Qed.

(** A frame gives its content; the last one ends the padding. *)
Lemma run_frame s cmd c p l :
  RemainingCommand s = 5 → Z.of_nat (length c) < 2 ^ 16 → Z.of_nat (length p) < 2 ^ 16 →
  run s (frame cmd c p ++ l) =
  out_before c (if decide (cmd = 0) then run (with_remaining 5 0 0 0 s) l else (with_remaining (-1) (-1) (-1) cmd s, l)).
Proof.
  intros Hrc Hc Hp. rewrite run_header by done. rewrite proceed_content by (cbn; lia).
  rewrite proceed_padding by (cbn; lia). f_equal. unfold proceed, next_block, block_done.
  rewrite bool_decide_eq_true_2 by (cbn; lia). cbn [CurrentCommand take_content take_padding with_remaining].
  case_decide as E; cbn [RemainingContent RemainingPadding take_padding take_content with_remaining].
  - rewrite !Z.sub_diag. subst cmd. done.
  - done.
Qed.

(** Frames that continue the padding. *)
Definition frames (fs : list (bytes * bytes)) : bytes := mjoin ((λ '(c, p), frame CommandPaddingContinue c p) <$> fs).
Definition payload (fs : list (bytes * bytes)) : bytes := mjoin fs.*1.

Definition fits (f : bytes * bytes) : Prop := Z.of_nat (length f.1) < 2 ^ 16 ∧ Z.of_nat (length f.2) < 2 ^ 16.

(** Two states that only differ in what no longer matters at a header. *)
Lemma run_frames s fs l :
  RemainingCommand s = 5 → Forall fits fs →
  ∃ s', RemainingCommand s' = 5 ∧ UserUUID s' = UserUUID s ∧
    run s (frames fs ++ l) = out_before (payload fs) (run s' l).
Proof.
  intros Hrc Hf. revert s Hrc. induction Hf as [|[c p] fs [Hc Hp] _ IH]; intros s Hrc.
  { exists s. split_all; [done|done|]. unfold out_before. cbn. by destruct (run s l). }
  destruct (IH (with_remaining 5 0 0 0 s) eq_refl) as (s' & H1 & H2 & H3). exists s'. split_all; [done|done|].
  change (frames ((c, p) :: fs)) with (frame CommandPaddingContinue c p ++ frames fs). rewrite <- (assoc_L (++)).
  rewrite run_frame by done. rewrite decide_True by done. rewrite H3. unfold out_before. cbn [fst snd].
  change (payload ((c, p) :: fs)) with (c ++ payload fs). by rewrite (assoc_L (++)).
Qed.

(** ** Any chunks *)

Lemma step_byte_uuid s c : UserUUID (step_byte s c).1 = UserUUID s.
Proof. unfold step_byte, read_command. by repeat case_decide. Qed.

Lemma next_block_uuid s : UserUUID (next_block s).1 = UserUUID s.
Proof. unfold next_block. by repeat case_match. Qed.

Lemma run_uuid s l : UserUUID (run s l).1 = UserUUID s.
Proof.
  revert s. induction l as [|c l IH]; intros s; cbn [run]; [done|].
  pose proof (step_byte_uuid s c) as H1. destruct (step_byte s c) as [s1 o]. cbn in H1.
  pose proof (next_block_uuid s1) as H2. destruct (next_block s1) as [s2 [|]]; cbn in *; [congruence|].
  specialize (IH s2). destruct (run s2 l) as [s3 o3]. cbn in *. congruence.
Qed.

(** A chunk that starts a padded part. *)
Definition starts_padding (s : TrafficState) (l : bytes) : Prop := (21 ≤ length l)%nat ∧ UserUUID s = take 16 l.

Definition feed (s : TrafficState) (l : bytes) : TrafficState * bytes :=
  if initial s then
    if decide (starts_padding s l)
    then run (with_remaining 5 (RemainingContent s) (RemainingPadding s) (CurrentCommand s) s) (drop 16 l)
    else (s, l)
  else run s l.

Lemma BytesTo_take b n : wf b → (n ≤ length (content b))%nat → BytesTo b (Z.of_nat n) = Some (take n (content b)).
Proof.
  intros Hb Hn. pose proof (length_content b Hb) as Hl. pose proof Hb as [H1 H2 H3].
  unfold BytesTo, from_end. rewrite (decide_False (P := Z.of_nat n < 0)) by lia. cbv zeta. rewrite decide_False by lia.
  rewrite i32_small by lia. by apply run_take.
Qed.

Section unpadding.
Context (array : bytes) (Harray : length array = Size).

(** Contents that fit a new buffer. *)
Definition small (b : Buffer) : Prop := wf b ∧ Z.of_nat (length (content b)) ≤ 8192.

Lemma room_New n : Z.of_nat n ≤ 8192 → (n ≤ room (Buffer_New array))%nat.
Proof using Harray.
  destruct (wf_New array Harray) as (_ & _ & Hr). intros Hn. rewrite Hr. apply Nat2Z.inj_le.
  change (Z.of_nat Size) with 8192. done.
Qed.

Lemma XtlsUnpadding_feed b s :
  small b → active s ∨ initial s = true →
  ∃ s' nb, XtlsUnpadding array b s = Ret (s', nb) ∧ wf nb ∧ feed s (content b) = (s', content nb).
Proof using Harray.
  intros [Hb Hlen] Hs. pose proof (Len_content b Hb) as HL. destruct (wf_New array Harray) as (Hnw & Hnc & _).
  unfold XtlsUnpadding, feed. destruct (initial s) eqn:Ei.
  - unfold starts_padding. destruct (decide (Len b < 21)) as [Hshort|Hlong].
    { rewrite decide_False by lia. by exists s, b. }
    change 16 with (Z.of_nat 16). rewrite BytesTo_take by (done || lia). cbn [ret_or_panic].
    destruct (decide (UserUUID s = take 16 (content b))) as [Eu|Eu].
    2: { rewrite decide_False by tauto. by exists s, b. }
    rewrite decide_True by (split; [lia|done]).
    destruct (run_Advance b 16 Hb ltac:(lia)) as [Ha Hac].
    destruct (unpad_loop_spec (S (Z.to_nat (Len b))) (with_remaining 5 (RemainingContent s) (RemainingPadding s) (CurrentCommand s) s)
      (Advance b (Z.of_nat 16)) (Buffer_New array)) as (s' & nb & o & -> & Hr & Hw & Hc); [done|done|left; cbn; lia| | |].
    + rewrite Hac, length_drop. lia.
    + rewrite Hac. apply room_New. rewrite length_drop. lia.
    + rewrite Hac in Hr. exists s', nb. rewrite Hr, Hc, Hnc. done.
  - destruct Hs as [Hs|]; [|done].
    destruct (unpad_loop_spec (S (Z.to_nat (Len b))) s b (Buffer_New array)) as (s' & nb & o & -> & Hr & Hw & Hc);
      [done|done|done|lia|by apply room_New|].
    exists s', nb. by rewrite Hr, Hc, Hnc.
Qed.

(** One buffer of a read, and the rest. *)
Lemma unpad_all_cons b mb s s1 nb s2 out :
  wf nb → XtlsUnpadding array b s = Ret (s1, nb) → unpad_all array mb s1 = Ret (s2, out) →
  ∃ out', unpad_all array (b :: mb) s = Ret (s2, out') ∧ contents_of out' = content nb ++ contents_of out.
Proof.
  intros Hw Hu Ha. cbn [unpad_all]. rewrite Hu. cbn [outcome_bind]. rewrite Ha. cbn [outcome_bind].
  eexists. split; [done|]. pose proof (Len_content nb Hw). case_decide; [by rewrite contents_of_cons|].
  by rewrite (nil_length_inv (content nb)) by lia.
Qed.

Lemma unpad_all_raw s mb :
  Forall small mb → initial s = true → Forall (λ b, ¬ starts_padding s (content b)) mb →
  ∃ out, unpad_all array mb s = Ret (s, out) ∧ contents_of out = contents_of mb.
Proof using Harray.
  intros Hmb Hi Hno. induction Hmb as [|b mb Hb Hmb IH]; [by exists []|]. inv Hno.
  destruct (XtlsUnpadding_feed b s Hb (or_intror Hi)) as (s1 & nb & Hu & Hw & Hf).
  unfold feed in Hf. rewrite Hi, decide_False in Hf by done. injection Hf as <- Hc.
  destruct (IH ltac:(done)) as (out & Ha & Ho). eapply unpad_all_cons in Ha as (out' & Ha & Hc'); [|done|done].
  exists out'. split; [done|]. by rewrite Hc', Ho, contents_of_cons, Hc.
Qed.

(** Chunks behind the first one must not look like the start of padding. *)
Lemma unpad_all_run s mb :
  Forall small mb → active s → Forall (λ b, ¬ starts_padding s (content b)) mb →
  ∃ s' out, unpad_all array mb s = Ret (s', out) ∧ contents_of out = (run s (contents_of mb)).2.
Proof using Harray.
  intros Hmb. revert s. induction Hmb as [|b mb Hb Hmb IH]; intros s Hs Hno; [by exists s, []|].
  inv Hno. destruct (XtlsUnpadding_feed b s Hb (or_introl Hs)) as (s1 & nb & Hun & Hw & Hf).
  unfold feed in Hf. rewrite active_not_initial in Hf by done.
  pose proof (run_uuid s (content b)) as Hu. rewrite Hf in Hu. cbn in Hu.
  assert (Forall (λ b, ¬ starts_padding s1 (content b)) mb) as Hno1.
  { eapply Forall_impl; [done|]. intros x Hx [? ?]. apply Hx. split; [done|congruence]. }
  rewrite contents_of_cons, run_app, Hf by done.
  assert (∃ s' out, unpad_all array mb s1 = Ret (s', out) ∧
    contents_of out = if initial s1 then contents_of mb else (run s1 (contents_of mb)).2) as (s' & out & Ha & Ho).
  { destruct (run_active _ _ _ _ Hs Hf) as [Hact|Hi].
    - rewrite active_not_initial by done. by apply IH.
    - rewrite Hi. destruct (unpad_all_raw s1 mb Hmb Hi Hno1) as (out & ? & ?). by exists s1, out. }
  eapply unpad_all_cons in Ha as (out' & Ha & Hc'); [|done|done]. exists s', out'. split; [done|].
  rewrite Hc', Ho. destruct (initial s1); [done|]. by destruct (run s1 _).
Qed.

(** A stream in its chunks, of which the first holds the identifier and a
    header. *)
Lemma unpad_all_stream s b mb stream :
  Forall small (b :: mb) → initial s = true → length (UserUUID s) = 16%nat → (21 ≤ length (content b))%nat →
  contents_of (b :: mb) = UserUUID s ++ stream → Forall (λ b, ¬ starts_padding s (content b)) mb →
  ∃ s' out, unpad_all array (b :: mb) s = Ret (s', out) ∧
    contents_of out = (run (with_remaining 5 (RemainingContent s) (RemainingPadding s) (CurrentCommand s) s) stream).2.
Proof using Harray.
  intros Hmb Hi Huu Hlen Hcon Hno. inv Hmb. rewrite contents_of_cons in Hcon.
  set (s5 := with_remaining 5 (RemainingContent s) (RemainingPadding s) (CurrentCommand s) s).
  assert (take 16 (content b) = UserUUID s) as Ht.
  { apply (f_equal (take 16)) in Hcon. rewrite take_app_le in Hcon by lia.
    rewrite Hcon. apply take_app_length'. done. }
  assert (drop 16 (content b) ++ contents_of mb = stream) as Hd.
  { apply (f_equal (drop 16)) in Hcon. rewrite drop_app_le in Hcon by lia.
    rewrite Hcon. by apply drop_app_length'. }
  destruct (XtlsUnpadding_feed b s ltac:(done) (or_intror Hi)) as (s1 & nb & Hun & Hw & Hf).
  unfold feed in Hf. rewrite Hi, decide_True in Hf by (split; [lia|done]). fold s5 in Hf.
  assert (active s5) as Ha5 by (left; cbn; lia).
  pose proof (run_uuid s5 (drop 16 (content b))) as Hu. rewrite Hf in Hu. cbn in Hu.
  assert (Forall (λ b, ¬ starts_padding s1 (content b)) mb) as Hno1.
  { eapply Forall_impl; [exact Hno|]. intros x Hx [? ?]. apply Hx. split; [done|congruence]. }
  rewrite <- Hd, run_app, Hf by done.
  assert (∃ s' out, unpad_all array mb s1 = Ret (s', out) ∧
    contents_of out = if initial s1 then contents_of mb else (run s1 (contents_of mb)).2) as (s' & out & Ha & Ho).
  { destruct (run_active _ _ _ _ Ha5 Hf) as [Hact|Hi1].
    - rewrite active_not_initial by done. by apply unpad_all_run.
    - rewrite Hi1. destruct (unpad_all_raw s1 mb ltac:(done) Hi1 Hno1) as (out & ? & ?). by exists s1, out. }
  eapply unpad_all_cons in Ha as (out' & Ha & Hc'); [|done|done]. exists s', out'. split; [done|].
  rewrite Hc', Ho. destruct (initial s1); [done|]. by destruct (run s1 _).
Qed.
End unpadding.

(** ** What the writer emits *)

Section writing.
Context (array : bytes) (Harray : length array = Size) (roll : nat → Z) (Hroll : ∀ i, 0 ≤ roll i < 500).

(** A buffer that leaves room for the header. *)
Definition padable (b : Buffer) : Prop := wf b ∧ Z.of_nat (length (content b)) ≤ 8171.

Lemma padding_len_bounds n long l :
  0 ≤ n ≤ 8171 → 0 ≤ l → 0 ≤ padding_len n long l ≤ 8171 - n.
Proof. intros Hn Hl. unfold padding_len. change (Z.of_nat Size) with 8192. repeat case_decide; lia. Qed.

Lemma XtlsPadding_spec b command uuid long l :
  match b with Some b => padable b | None => True end → (length uuid ≤ 16)%nat → 0 ≤ l →
  ∃ nb p, XtlsPadding array b command uuid long l = Ret nb ∧ wf nb ∧
    content nb = uuid ++ frame command (match b with Some b => content b | None => [] end) p ∧
    fits (match b with Some b => content b | None => [] end, p).
Proof using Harray.
  intros Hb Huu Hl. unfold XtlsPadding. destruct (wf_New array Harray) as (Hnw & Hnc & Hnr).
  set (c := match b with Some b => content b | None => [] end).
  assert ((match b with Some b => Len b | None => 0 end) = Z.of_nat (length c)) as ->.
  { unfold c. destruct b as [b|]; [|done]. apply Len_content, Hb. }
  assert (Z.of_nat (length c) ≤ 8171) as Hc by (unfold c; destruct b; [apply Hb|cbn; lia]).
  pose proof (padding_len_bounds (Z.of_nat (length c)) long l ltac:(lia) Hl) as Hp.
  set (n := padding_len _ _ _) in *. clearbody n.
  assert (Z.of_nat (room (Buffer_New array)) = 8192) as Hroom by (by rewrite Hnr).
  destruct (write_all_spec (Buffer_New array) uuid Hnw) as (b1 & -> & A1); [lia|]. cbn [outcome_bind].
  set (h := [command; _; _; _; _]). pose proof A1 as [W1 C1 R1 _ _].
  destruct (write_all_spec b1 h W1) as (b2 & -> & A2); [cbn; lia|]. cbn [outcome_bind].
  pose proof A2 as [W2 C2 R2 _ _]. cbn [length h] in R2.
  assert (∃ b3, (match b with Some b => ret_or_panic (Bytes b) (λ d, write_all b2 d) | None => Ret b2 end) = Ret b3 ∧
    wf b3 ∧ content b3 = content b2 ++ c ∧ room b3 = (room b2 - length c)%nat) as (b3 & -> & W3 & C3 & R3).
  { unfold c in *. destruct b as [b|].
    - rewrite Bytes_content by apply Hb. cbn [ret_or_panic].
      destruct (write_all_spec b2 (content b) W2) as (b3 & -> & [? ? ? _ _]); [lia|]. by exists b3.
    - exists b2. rewrite app_nil_r, Nat.sub_0_r. done. }
  cbn [outcome_bind]. destruct (Extend_spec b3 (Z.to_nat n) W3) as (b4 & ext & HE & Hext & [W4 C4 _ _ _] & _); [lia|].
  rewrite Z2Nat.id in HE by lia. rewrite HE. cbn [ret_or_panic]. exists b4, ext. split; [done|]. split; [done|].
  split; [|split; cbn; lia]. rewrite C4, C3, C2, C1, Hnc. cbn [app]. unfold frame. rewrite Hext, Z2Nat.id by lia.
  by rewrite <- !(assoc_L (++)).
Qed.

(** The shape of a padded part: frames that continue, and perhaps one that ends
    it with what follows. *)
Inductive ending := Open_ | Ended (command : Z) (c p tail : bytes).

Definition ending_bytes (e : ending) : bytes :=
  match e with Open_ => [] | Ended command c p tail => frame command c p ++ tail end.
Definition ending_payload (e : ending) : bytes := match e with Open_ => [] | Ended _ c _ tail => c ++ tail end.
Definition ending_ok (e : ending) : Prop :=
  match e with Open_ => True | Ended command c p _ => command ≠ 0 ∧ fits (c, p) end.

(** [out] carries [content_] behind [uuid]. *)
Record emitted (uuid content_ : bytes) (out : list Buffer) (open : bool) : Prop := {
  em_wf : Forall wf out;
  em_shape : ∃ fs e, contents_of out = uuid ++ frames fs ++ ending_bytes e ∧ Forall fits fs ∧ ending_ok e ∧
    content_ = payload fs ++ ending_payload e ∧ (open = true ↔ e = Open_)
}.

Lemma emitted_cons uuid c pb p content_ out open :
  wf pb → content pb = uuid ++ frame CommandPaddingContinue c p → fits (c, p) → emitted [] content_ out open →
  emitted uuid (c ++ content_) (pb :: out) open.
Proof.
  intros Hw Hc Hf [Hout (fs & e & H1 & H2 & H3 & H4 & H5)]. split; [by constructor|].
  exists ((c, p) :: fs), e. split_all; [|by constructor|done| |done].
  - rewrite contents_of_cons, Hc, H1. change (frames ((c, p) :: fs)) with (frame CommandPaddingContinue c p ++ frames fs).
    cbn [app]. by rewrite <- !(assoc_L (++)).
  - change (payload ((c, p) :: fs)) with (c ++ payload fs). by rewrite H4, (assoc_L (++)).
Qed.

Lemma emitted_end uuid command c pb p rest :
  wf pb → content pb = uuid ++ frame command c p → fits (c, p) → command ≠ 0 → Forall wf rest →
  emitted uuid (c ++ contents_of rest) (pb :: rest) false.
Proof.
  intros Hw Hc Hf Hcmd Hrest. split; [by constructor|]. exists [], (Ended command c p (contents_of rest)).
  split_all; try done; try apply Forall_nil_2. rewrite contents_of_cons, Hc.
  change (frames []) with (@nil Z). cbn [app ending_bytes]. by rewrite (assoc_L (++)).
Qed.

Lemma BytesTo_3 b : wf b → 6 ≤ Len b → BytesTo b 3 = Some (take 3 (content b)).
Proof.
  intros Hb Hl. rewrite Len_content in Hl by done. change 3 with (Z.of_nat 3). apply BytesTo_take; [done|lia].
Qed.

Lemma pad_loop_emits i mb s uuid long :
  Forall padable mb → mb ≠ [] → (length uuid ≤ 16)%nat →
  ∃ s' out, pad_loop array roll i mb s uuid long = Ret (s', [], out) ∧ UserUUID s' = UserUUID s ∧
    emitted uuid (contents_of mb) out (IsPadding s') ∧ (IsPadding s = false → IsPadding s' = false).
Proof using Harray Hroll.
  intros Hmb Hne. revert i s uuid long Hne. induction Hmb as [|b mb Hb Hmb IH]; intros i s uuid long Hne Huu; [done|].
  pose proof (Forall_impl _ _ _ Hmb (λ b (H : padable b), proj1 H)) as Hwf.
  cbn [pad_loop].
  set (tls := if decide (IsTLS s = true ∧ 6 ≤ Len b) then _ else _).
  assert (∃ t : bool, tls = Ret t) as [t ->].
  { unfold tls. case_decide as Hd; [|by eexists]. rewrite BytesTo_3 by (apply Hb || lia). by eexists. }
  cbn [outcome_bind].
  assert (∀ s1 command long1 long2, (mb = [] → command ≠ 0 ∧ IsPadding s1 = false ∨ command = 0 ∧ IsPadding s1 = true) →
    (mb ≠ [] → command = 0) → UserUUID s1 = UserUUID s → (IsPadding s = false → IsPadding s1 = false) →
    ∃ s' out, (let? pb := XtlsPadding array (Some b) command uuid long1 (roll i) in
               let? (s', uuid', out) := pad_loop array roll (S i) mb s1 [] long2 in Ret (s', uuid', pb :: out)) = Ret (s', [], out) ∧
      UserUUID s' = UserUUID s ∧ emitted uuid (contents_of (b :: mb)) out (IsPadding s') ∧ (IsPadding s = false → IsPadding s' = false)) as Hgo.
  { intros s1 command long1 long2 Hlast Hmore Hu1 Hpad1.
    destruct (XtlsPadding_spec (Some b) command uuid long1 (roll i) Hb Huu ltac:(apply Hroll)) as (pb & p & -> & Hw & Hc & Hf).
    cbn [outcome_bind]. rewrite contents_of_cons. destruct mb as [|b2 mb].
    - cbn [pad_loop outcome_bind]. do 2 eexists. split; [done|]. split; [done|]. split; [|done].
      destruct (Hlast eq_refl) as [[Hcmd ->]|[-> ->]]; [by eapply emitted_end|].
      eapply emitted_cons; [done|exact Hc|done|]. split; [done|]. exists [], Open_. by split_all.
    - destruct (IH (S i) s1 [] long2 ltac:(done) ltac:(cbn; lia)) as (s' & out & -> & Hu' & He & Hp'). cbn [outcome_bind].
      do 2 eexists. split; [done|]. split; [congruence|]. split; [|auto]. rewrite (Hmore ltac:(done)) in Hc.
      by eapply emitted_cons. }
  assert ((if EnableXtls s then CommandPaddingDirect else CommandPaddingEnd) ≠ 0) as Hfin by (by destruct (EnableXtls s)).
  destruct t.
  - apply Hgo; [intros ->; rewrite bool_decide_eq_true_2 by done; by left|intros Hm; by rewrite bool_decide_eq_false_2|done|done].
  - case_decide.
    + destruct (XtlsPadding_spec (Some b) CommandPaddingEnd uuid long (roll i) Hb Huu ltac:(apply Hroll)) as (pb & p & -> & Hw & Hc & Hf).
      cbn [outcome_bind]. do 2 eexists. split; [done|]. split; [done|]. split; [|done]. rewrite contents_of_cons. by eapply emitted_end.
    + apply Hgo; [|intros Hm; by rewrite bool_decide_eq_false_2|done|done].
      intros ->. rewrite bool_decide_eq_true_2 by done. destruct (IsPadding s) eqn:Ep; cbn [andb negb]; [by right|by left].
Qed.

(** ** Filtering never fails *)

(** A buffer of bytes with room behind the cipher suite, as every buffer of the
    pool that is read from its start. *)
Definition roomy (b : Buffer) : Prop :=
  wf b ∧ Z.of_nat (length (content b)) ≤ 8192 ∧ start b + 301 ≤ Z.of_nat (length (v b)) ∧ wf_bytes (v b).

Lemma filter_start_total b s :
  roomy b → ∃ s', filter_start b s = Ret s' ∧ UserUUID s' = UserUUID s ∧ IsPadding s' = IsPadding s.
Proof.
  clear. intros (Hb & _ & Hroom & Hbytes). pose proof (Len_content b Hb) as HL. pose proof (length_content b Hb) as Hl.
  pose proof Hb as [H1 H2 H3]. unfold filter_start. case_decide; [by exists s|].
  change 6 with (Z.of_nat 6) at 1. rewrite BytesTo_take by (done || lia). cbn [ret_or_panic].
  case_decide; [|case_decide; by eexists]. case_decide as Hlong; [|by eexists].
  unfold Byte. rewrite i32_small by lia. unfold array_at. rewrite decide_True by lia.
  destruct (lookup_total_lt (v b) (Z.to_nat (start b + 43))) as [x Hx]; [lia|]. rewrite Hx. cbn [ret_or_panic].
  pose proof (Forall_lookup_1 _ _ _ _ Hbytes Hx) as Hbx. unfold is_byte in Hbx. cbn beta in Hbx.
  unfold BytesRange, from_end. rewrite !(decide_False (P := _ < 0)) by lia. rewrite !i32_small by lia.
  rewrite array_slice_wf by (done || lia). cbn [ret_or_panic]. by eexists.
Qed.

Lemma filter_hello_total b s :
  roomy b → ∃ s' d, filter_hello b s = Ret (s', d) ∧ UserUUID s' = UserUUID s ∧ IsPadding s' = IsPadding s.
Proof.
  clear. intros (Hb & _ & _ & _). pose proof (Len_content b Hb) as HL. unfold filter_hello. case_decide; [by do 2 eexists|].
  set (e := if decide (Len b < RemainingServerHello s) then _ else _).
  assert (e = Z.of_nat (Z.to_nat e) ∧ (Z.to_nat e ≤ length (content b))%nat) as [He Hle] by (unfold e; case_decide; lia).
  cbv zeta. rewrite He, BytesTo_take by done. cbn [ret_or_panic]. repeat case_match; by do 2 eexists.
Qed.

Lemma XtlsFilterTls_total mb s :
  Forall roomy mb → ∃ s', XtlsFilterTls (Some <$> mb) s = Ret s' ∧ UserUUID s' = UserUUID s ∧ IsPadding s' = IsPadding s.
Proof.
  clear. intros Hmb. revert s. induction Hmb as [|b mb Hb Hmb IH]; intros s; [by exists s|].
  rewrite fmap_cons. cbn [XtlsFilterTls]. set (s0 := with_filter _ _ _ _ _ _ s).
  destruct (filter_start_total b s0 Hb) as (s1 & -> & Hu1 & Hp1). cbn [outcome_bind].
  destruct (filter_hello_total b s1 Hb) as (s2 & d & -> & Hu2 & Hp2). cbn [outcome_bind].
  destruct d; [exists s2; rewrite Hu2, Hu1, Hp2, Hp1; done|].
  destruct (IH s2) as (s3 & -> & Hu3 & Hp3). exists s3. rewrite Hu3, Hp3, Hu2, Hu1, Hp2, Hp1. done.
Qed.

(** ** Reshaping keeps the contents *)

Lemma LastIndex_bound d sep : -1 ≤ LastIndex d sep ≤ Z.of_nat (length d).
Proof.
  clear. induction d as [|c d IH]; [cbn; case_decide; lia|]. cbn [LastIndex]. cbv zeta.
  repeat case_match; cbn [length]; lia.
Qed.

Lemma BytesFrom_drop b n : wf b → (n ≤ length (content b))%nat → BytesFrom b (Z.of_nat n) = Some (drop n (content b)).
Proof.
  clear. intros Hb Hn. pose proof (length_content b Hb) as Hl. pose proof Hb as [H1 H2 H3].
  unfold BytesFrom, from_end. rewrite decide_False by lia. rewrite i32_small by lia.
  rewrite array_slice_wf by (done || lia). f_equal. unfold content. rewrite skipn_firstn_comm, drop_drop.
  f_equal; [lia|]. f_equal. lia.
Qed.

Lemma reshape_one_spec b :
  wf b → Z.of_nat (length (content b)) ≤ 8192 →
  ∃ l, reshape_one array b = Ret l ∧ Forall padable l ∧ contents_of l = content b ∧ l ≠ [].
Proof using Harray.
  intros Hb Hlen. pose proof (Len_content b Hb) as HL. unfold reshape_one. change (Z.of_nat Size) with 8192.
  case_decide as Hsmall.
  { exists [b]. rewrite contents_of_one. split_all; try done. apply Forall_singleton. split; [done|lia]. }
  rewrite Bytes_content by done. cbn [ret_or_panic]. pose proof (LastIndex_bound (content b) TlsApplicationDataStart) as Hi.
  cbv zeta. set (index := if decide (_ ∨ _) then 8192 / 2 else LastIndex _ _).
  assert (21 ≤ index ≤ 8171) as Hindex by (unfold index; change (8192 / 2) with 4096; case_decide; lia).
  assert (index = Z.of_nat (Z.to_nat index)) as Hz by lia. clearbody index. rewrite Hz.
  rewrite BytesFrom_drop by (done || lia). cbn [ret_or_panic].
  destruct (wf_New array Harray) as (Hnw & Hnc & Hnr). assert (Z.of_nat (room (Buffer_New array)) = 8192) as Hroom by (by rewrite Hnr).
  destruct (write_all_spec (Buffer_New array) (drop (Z.to_nat index) (content b)) Hnw) as (b2 & -> & [W2 C2 _ _ _]);
    [rewrite length_drop; lia|]. cbn [outcome_bind].
  destruct (run_Resize b 0 (Z.to_nat index) Hb) as (b1 & Hr & W1 & C1); [lia|lia|]. change (Z.of_nat 0) with 0 in Hr.
  rewrite Hr. cbn [ret_or_panic]. rewrite drop_0, Nat.sub_0_r in C1. rewrite Hnc in C2. cbn [app] in C2.
  exists [b1; b2]. split_all; [done| | |done].
  - apply Forall_cons_2; [split; [done|rewrite C1, length_take; lia]|]. apply Forall_singleton. split; [done|rewrite C2, length_drop; lia].
  - rewrite contents_of_cons, contents_of_one, C1, C2. apply take_drop.
Qed.

Lemma ReshapeMultiBuffer_spec mb :
  Forall (λ b, wf b ∧ Z.of_nat (length (content b)) ≤ 8192) mb →
  ∃ mb', ReshapeMultiBuffer array mb = Ret mb' ∧ Forall padable mb' ∧ contents_of mb' = contents_of mb ∧
    (mb ≠ [] → mb' ≠ []).
Proof using Harray.
  intros Hmb. unfold ReshapeMultiBuffer. case_decide as He.
  - clear He. induction Hmb as [|b mb [Hb Hlen] Hmb IH]; [by exists []|]. cbn [reshape_all].
    destruct (reshape_one_spec b Hb Hlen) as (l & -> & Hl & Hc & Hne). cbn [outcome_bind].
    destruct IH as (mb' & -> & Hmb' & Hc' & _). cbn [outcome_bind]. exists (l ++ mb'). split_all; [done| | |].
    + by apply Forall_app.
    + by rewrite contents_of_app, contents_of_cons, Hc, Hc'.
    + intros _ []%app_nil. done.
  - exists mb. split_all; [done| |done|done]. rewrite <- Forall_Exists_neg in He. rewrite Forall_forall in *.
    intros b Hin. destruct (Hmb b Hin) as [Hb Hlen]. split; [done|]. specialize (He b Hin). cbn beta in He.
    rewrite Len_content in He by done. change (Z.of_nat Size) with 8192 in He. lia.
Qed.

(** ** A write *)

Definition input_content (mb : vision_input) : bytes := match mb with VNil => [] | VBuffers mb => contents_of mb end.
Definition input_ok (mb : vision_input) : Prop := match mb with VNil => True | VBuffers mb => mb ≠ [] ∧ Forall roomy mb end.

Lemma VisionWriter_Write_emits mb s uuid :
  input_ok mb → (length uuid ≤ 16)%nat →
  ∃ s' uuid' out, VisionWriter_Write array roll mb s uuid = Ret (s', uuid', out) ∧ UserUUID s' = UserUUID s ∧
    if IsPadding s then uuid' = [] ∧ emitted uuid (input_content mb) out (IsPadding s')
    else uuid' = uuid ∧ IsPadding s' = false ∧ Forall wf out ∧ contents_of out = input_content mb.
Proof using Harray Hroll.
  intros Hmb Huu. unfold VisionWriter_Write.
  set (f := if decide (0 < NumberOfPacketToFilter s) then _ else _).
  assert (∃ s1, f = Ret s1 ∧ UserUUID s1 = UserUUID s ∧ IsPadding s1 = IsPadding s) as (s1 & -> & Hu & Hp).
  { unfold f. case_decide; [|by exists s]. destruct mb as [|mb]; [by exists s|]. cbn [filter_input].
    destruct Hmb as [_ Hmb]. by apply XtlsFilterTls_total. }
  cbn [outcome_bind]. rewrite Hp. destruct mb as [|mb]; cbn [input_content].
  - destruct (IsPadding s) eqn:Ep; [|by do 3 eexists].
    destruct (XtlsPadding_spec None CommandPaddingContinue uuid true (roll 0) I Huu ltac:(apply Hroll)) as (pb & p & -> & Hw & Hc & Hf).
    cbn [outcome_bind]. do 3 eexists. split; [done|]. split; [done|]. split; [done|]. rewrite Hp.
    apply (emitted_cons uuid [] pb p [] []); [done|exact Hc|done|].
    split; [apply Forall_nil_2|]. exists [], Open_. by split_all.
  - destruct Hmb as [Hne Hmb]. destruct (IsPadding s) eqn:Ep.
    + destruct (ReshapeMultiBuffer_spec mb) as (mb' & -> & Hmb' & Hc & Hne').
      { eapply Forall_impl; [done|]. intros b (? & ? & _). done. }
      cbn [outcome_bind]. destruct (pad_loop_emits 0 mb' s1 uuid (IsTLS s1) Hmb' (Hne' Hne) Huu) as (s' & out & -> & Hu' & He & _).
      do 3 eexists. split; [done|]. split; [congruence|]. split; [done|]. by rewrite <- Hc.
    + do 3 eexists. split; [done|]. split; [done|]. split_all; try done. eapply Forall_impl; [done|]. by intros b [? _].
Qed.
End writing.

(** ** The round trip *)

(** A sequence of writes.  The reader of the same connection shares the state,
    and may change it between writes, but not whether the writer pads. *)
Inductive vision_writes (array : bytes) : TrafficState → bytes → list vision_input → list Buffer → Prop :=
| vw_nil s uuid : vision_writes array s uuid [] []
| vw_cons s uuid s0 roll mb s1 uuid1 out1 mbs out :
    IsPadding s0 = IsPadding s → (∀ i, 0 ≤ roll i < 500) →
    VisionWriter_Write array roll mb s0 uuid = Ret (s1, uuid1, out1) →
    vision_writes array s1 uuid1 mbs out → vision_writes array s uuid (mb :: mbs) (out1 ++ out).

Lemma contents_of_nil : contents_of [] = [].
Proof. done. Qed.

Lemma emitted_open_app uuid c1 out1 c2 out2 open :
  emitted uuid c1 out1 true → emitted [] c2 out2 open → emitted uuid (c1 ++ c2) (out1 ++ out2) open.
Proof.
  intros [W1 (fs1 & e1 & H1 & F1 & _ & P1 & O1)] [W2 (fs2 & e2 & H2 & F2 & E2 & P2 & O2)].
  rewrite (proj1 O1 eq_refl) in *. cbn [ending_bytes ending_payload] in *. split; [by apply Forall_app|].
  exists (fs1 ++ fs2), e2. unfold frames, payload in *. rewrite !fmap_app, !join_app. split_all; [|by apply Forall_app|done| |done].
  - rewrite contents_of_app, H1, H2, !app_nil_r. cbn [app]. by rewrite <- !(assoc_L (++)).
  - rewrite P1, P2, app_nil_r. by rewrite (assoc_L (++)).
Qed.

Lemma emitted_open_nil uuid c1 out1 : emitted uuid c1 out1 true → emitted uuid (c1 ++ []) (out1 ++ []) true.
Proof. by rewrite !app_nil_r. Qed.

Lemma emitted_ended_app uuid c1 out1 out2 :
  emitted uuid c1 out1 false → Forall wf out2 → emitted uuid (c1 ++ contents_of out2) (out1 ++ out2) false.
Proof.
  intros [W1 (fs1 & e1 & H1 & F1 & E1 & P1 & O1)] W2. split; [by apply Forall_app|].
  destruct e1 as [|command c p tail]; [by destruct O1 as [_ O1]; discriminate O1|].
  exists fs1, (Ended command c p (tail ++ contents_of out2)). cbn [ending_bytes ending_payload ending_ok] in *.
  split_all; try done; try apply E1.
  - rewrite contents_of_app, H1. by rewrite <- !(assoc_L (++)).
  - rewrite P1. by rewrite <- !(assoc_L (++)).
Qed.

Section roundtrip.
Context (array : bytes) (Harray : length array = Size).

(** Once the padding has ended, everything is written as it is. *)
Lemma writes_raw s uuid mbs out :
  vision_writes array s uuid mbs out → IsPadding s = false → Forall input_ok mbs → (length uuid ≤ 16)%nat →
  Forall wf out ∧ contents_of out = mjoin (input_content <$> mbs).
Proof using Harray.
  induction 1 as [|s uuid s0 roll mb s1 uuid1 out1 mbs out Hp Hroll Hw _ IH]; intros Hpad Hok Huu; [by split; [apply Forall_nil_2|]|].
  inv Hok. destruct (VisionWriter_Write_emits array Harray roll Hroll mb s0 uuid) as (s' & uuid' & out' & E & _ & Hif); [done|done|].
  rewrite E in Hw. apply Ret_inj in Hw. injection Hw as -> -> ->.
  rewrite Hp, Hpad in Hif. destruct Hif as (-> & Hpad1 & Hw1 & Hc1). destruct IH as [Hw2 Hc2]; [done..|].
  split; [by apply Forall_app|]. rewrite contents_of_app, Hc1, Hc2. done.
Qed.

Lemma writes_emitted s uuid mbs out :
  vision_writes array s uuid mbs out → IsPadding s = true → Forall input_ok mbs → (length uuid ≤ 16)%nat → mbs ≠ [] →
  ∃ open, emitted uuid (mjoin (input_content <$> mbs)) out open.
Proof using Harray.
  induction 1 as [|s uuid s0 roll mb s1 uuid1 out1 mbs out Hp Hroll Hw Hws IH]; intros Hpad Hok Huu Hne; [done|].
  inv Hok. destruct (VisionWriter_Write_emits array Harray roll Hroll mb s0 uuid) as (s' & uuid' & out' & E & _ & Hif); [done|done|].
  rewrite E in Hw. apply Ret_inj in Hw. injection Hw as -> -> ->.
  rewrite Hp, Hpad in Hif. destruct Hif as (-> & He). rewrite fmap_cons. change (mjoin (?x :: ?l)) with (x ++ mjoin l).
  destruct (IsPadding s1) eqn:Ep.
  - destruct mbs as [|mb2 mbs].
    + inv Hws. exists true. by apply emitted_open_nil.
    + destruct IH as [open He2]; [done|done|cbn; lia|done|]. exists open. by eapply emitted_open_app.
  - destruct (writes_raw _ _ _ _ Hws Ep) as [Hw2 Hc2]; [done|cbn; lia|]. exists false. rewrite <- Hc2.
    by apply emitted_ended_app.
Qed.

Lemma run_emitted s fs e :
  RemainingCommand s = 5 → Forall fits fs → ending_ok e →
  (run s (frames fs ++ ending_bytes e)).2 = payload fs ++ ending_payload e.
Proof.
  intros Hrc Hf He. destruct (run_frames s fs (ending_bytes e) Hrc Hf) as (s' & Hrc' & _ & ->). unfold out_before. cbn [snd].
  f_equal. destruct e as [|command c p tail]; [done|]. destruct He as [Hcmd [Hc Hp]]. cbn [ending_bytes ending_payload].
  rewrite run_frame by done. rewrite decide_False by done. done.
Qed.
End roundtrip.


(** A writer with a first packet of padding and then a short packet. *)
Definition example_uuid : bytes := [1; 2; 3; 4; 5; 6; 7; 8; 9; 10; 11; 12; 13; 14; 15; 16].

Definition example_input : list vision_input := [VNil; VBuffers [pool_buffer [65; 66; 67]]].


(** ** A header that is cut *)

(** The reader decides from the command whether the padding has ended, also in
    the middle of a header: when a chunk ends behind the command byte of the last
    frame and no packets are left to filter, the rest of the header is delivered
    as data. *)
Definition cut_state : TrafficState :=
  with_filter 0 false false false 0 (-1) (NewTrafficState example_uuid).

Lemma cut_header_is_delivered :
  ∃ s1 s2 out1 out2,
    VisionReader_Read pool_array [pool_buffer (example_uuid ++ frame CommandPaddingContinue [65] [] ++ [CommandPaddingEnd])] cut_state
      = Ret (s1, out1) ∧
    VisionReader_Read pool_array [pool_buffer (drop 1 (frame CommandPaddingEnd [66] []))] s1 = Ret (s2, out2) ∧
    contents_of out1 = [65] ∧ contents_of out2 = [0; 1; 0; 0; 66].
Proof. do 4 eexists. split; [vm_compute; reflexivity|]. split; [vm_compute; reflexivity|]. split; vm_compute; reflexivity. Qed.
