(* ===== verification/StrMatcher.v ===== *)
(** String matchers and groups of them
    (src/upstream/xray-core/common/strmatcher: strmatcher.go, matchers.go,
    full_matcher.go, domain_matcher.go).  A group answers which of many patterns
    match an input: full patterns by a hash table, domain patterns by a trie over
    the labels of the name read from the right, the others one by one. *)
From stdpp Require Import gmap sorting.
From S2P Require Import Prelude GoText.

(** ** Single matchers *)

(** [regexp.Compile]: an error, or the predicate [MatchString] of the compiled
    expression. *)
Class RegexpEngine := regexp_Compile : bytes → option (bytes → bool).

(** The constants of [Type]. *)
Definition Full : Z := 0.
Definition Substr : Z := 1.
Definition Domain : Z := 2.
Definition Regex : Z := 3.

Definition dot : Z := 46.

Definition HasSuffix (s p : bytes) : bool := bool_decide (p `suffix_of` s).

Inductive Matcher :=
| fullMatcher (pattern : bytes)
| substrMatcher (pattern : bytes)
| domainMatcher (pattern : bytes)
| regexMatcher (source : bytes) (MatchString : bytes → bool).

Definition domainMatcher_Match (pattern s : bytes) : bool :=
  if HasSuffix s pattern then
    if decide (length s = length pattern) then true
    else bool_decide (s !! (length s - length pattern - 1)%nat = Some dot)
  else false.

Definition Matcher_Match (m : Matcher) (s : bytes) : bool :=
  match m with
  | fullMatcher p => bool_decide (p = s)
  | substrMatcher p => Contains s p
  | domainMatcher p => domainMatcher_Match p s
  | regexMatcher _ r => r s
  end.

Definition Matcher_String (m : Matcher) : bytes :=
  match m with
  | fullMatcher p => lit "full:" ++ p
  | substrMatcher p => lit "keyword:" ++ p
  | domainMatcher p => lit "domain:" ++ p
  | regexMatcher p _ => lit "regexp:" ++ p
  end.

(** [Type.New]; [Panic] for an unknown type, [Fail] for a bad expression. *)
Definition Type_New `{RegexpEngine} (t : Z) (pattern : bytes) : outcome Matcher :=
  if decide (t = Full) then Ret (fullMatcher pattern)
  else if decide (t = Substr) then Ret (substrMatcher pattern)
  else if decide (t = Domain) then Ret (domainMatcher pattern)
  else if decide (t = Regex) then
    match regexp_Compile pattern with
    | Some r => Ret (regexMatcher pattern r)
    | None => Fail
    end
  else Panic.

(** ** Full matchers *)

Record FullMatcherGroup := { matchers : gmap bytes (list Z) }.

(** A nil map reads as the empty one. *)
Definition full_Add (domain : bytes) (value : Z) (g : FullMatcherGroup) : FullMatcherGroup :=
  {| matchers := <[domain := default [] (matchers g !! domain) ++ [value]]> (matchers g) |}.

Definition full_Match (g : FullMatcherGroup) (str : bytes) : list Z := default [] (matchers g !! str).

(** ** Domain matchers *)

Definition breakDomain (domain : bytes) : list bytes := Split domain [dot].

Inductive node := Node { values : list Z; sub : gmap bytes node }.

Definition new_node : node := Node [] ∅.

(** The loop of [Add] from the last part to the first: [path] is what is left of
    the reversed parts. *)
Fixpoint add_path (path : list bytes) (value : Z) (current : node) : node :=
  match path with
  | [] => Node (values current ++ [value]) (sub current)
  | part :: path =>
      let next := default new_node (sub current !! part) in
      Node (values current) (<[part := add_path path value next]> (sub current))
  end.

Record DomainMatcherGroup := { root : option node }.

Definition domain_Add (domain : bytes) (value : Z) (g : DomainMatcherGroup) : DomainMatcherGroup :=
  {| root := Some (add_path (reverse (breakDomain domain)) value (default new_node (root g))) |}.

Definition byte_is (domain : bytes) (i : nat) (c : Z) : bool := bool_decide (domain !! i = Some c).

(** [nextPart]: the position of the last dot before [idx], or -1. *)
Fixpoint nextPart (domain : bytes) (idx : nat) : Z :=
  match idx with
  | O => -1
  | S i => if byte_is domain i dot then Z.of_nat i else nextPart domain i
  end.

(** The loop of [Match]; every turn moves [idx] to the left, so the length of the
    name and one more turn are enough fuel. *)
Fixpoint match_loop (fuel : nat) (domain : bytes) (idx : Z) (current : node) (matches : list (list Z)) :
  list (list Z) :=
  match fuel with
  | O => matches
  | S fuel =>
      if decide (idx = -1) then matches
      else
        let nidx := nextPart domain (Z.to_nat idx) in
        let part := take (Z.to_nat idx - Z.to_nat (nidx + 1)) (drop (Z.to_nat (nidx + 1)) domain) in
        match sub current !! part with
        | None => matches
        | Some next =>
            match_loop fuel domain nidx next
              (if decide (0 < length (values next))%nat then matches ++ [values next] else matches)
        end
  end.

Definition domain_Match (g : DomainMatcherGroup) (domain : bytes) : list Z :=
  if decide (domain = []) then []
  else match root g with
       | None => []
       | Some n =>
           match match_loop (S (S (length domain))) domain (Z.of_nat (length domain)) n [] with
           | [] => []
           | [m] => m
           | matches => mjoin (reverse matches)
           end
       end.

(** ** Groups of matchers *)

Record matcherEntry := { m : Matcher; id : Z }.

Record MatcherGroup := {
  count : Z;
  g_full : FullMatcherGroup;
  g_domain : DomainMatcherGroup;
  otherMatchers : list matcherEntry
}.

Definition empty_group : MatcherGroup :=
  {| count := 0; g_full := {| matchers := ∅ |}; g_domain := {| root := None |}; otherMatchers := [] |}.

Definition group_Add (x : Matcher) (g : MatcherGroup) : MatcherGroup * Z :=
  let c := u32 (count g + 1) in
  let g' := match x with
            | fullMatcher p =>
                {| count := c; g_full := full_Add p c (g_full g); g_domain := g_domain g;
                   otherMatchers := otherMatchers g |}
            | domainMatcher p =>
                {| count := c; g_full := g_full g; g_domain := domain_Add p c (g_domain g);
                   otherMatchers := otherMatchers g |}
            | _ =>
                {| count := c; g_full := g_full g; g_domain := g_domain g;
                   otherMatchers := otherMatchers g ++ [{| m := x; id := c |}] |}
            end in
  (g', c).

Definition other_Match (es : list matcherEntry) (s : bytes) : list Z :=
  id <$> filter (λ e, Matcher_Match (m e) s = true) es.

Definition group_Match (g : MatcherGroup) (s : bytes) : list Z :=
  full_Match (g_full g) s ++ domain_Match (g_domain g) s ++ other_Match (otherMatchers g) s.

Definition group_Size (g : MatcherGroup) : Z := count g.

(** ** Lists *)

Section filters.
Context {A : Type} (P : A → Prop) `{!∀ x, Decision (P x)}.

Lemma list_filter_all l : Forall P l → filter P l = l.
Proof. induction 1 as [|x l Hx _ IH]; [done|]. by rewrite filter_cons, decide_True, IH. Qed.

Lemma list_filter_none l : Forall (λ x, ¬ P x) l → filter P l = [].
Proof. induction 1 as [|x l Hx _ IH]; [done|]. by rewrite filter_cons, decide_False. Qed.
End filters.

Lemma list_fmap_join {A B} (f : A → B) (ls : list (list A)) : f <$> mjoin ls = mjoin (fmap f <$> ls).
Proof. induction ls as [|l ls IH]; [done|]. cbn [fmap list_fmap]. change (f <$> (l ++ mjoin ls) = (f <$> l) ++ mjoin (fmap f <$> ls)).
  by rewrite fmap_app, IH. Qed.

Lemma prefix_take_length {A} (l k : list A) : l `prefix_of` k → l = take (length l) k.
Proof. intros [r ->]. by rewrite take_app_length. Qed.

(** ** Names and their parts *)

Lemma not_in_Split c s n : (length s ≤ n)%nat → Forall (λ p, c ∉ p) (split_fuel n s [c]).
Proof.
  revert s. induction n as [|n IH]; intros s Hn; cbn [split_fuel].
  - destruct s; [|simpl in Hn; lia]. apply Forall_singleton. by apply not_elem_of_nil.
  - destruct (Index s [c]) as [i|] eqn:E.
    + apply Index_Some in E as ([k Hk] & Hlen & Hmin). apply Forall_cons_2.
      * intros Hin. apply list_elem_of_lookup_1 in Hin as [j Hj].
        apply lookup_take_Some in Hj as [Hj Hji]. apply (Hmin j Hji).
        rewrite (drop_cons_lookup _ _ _ Hj). apply prefix_cons, prefix_nil.
      * apply IH. rewrite length_drop. simpl. lia.
    + apply Forall_singleton. intros Hin. apply list_elem_of_lookup_1 in Hin as [j Hj].
      apply (Index_None _ _ E j).
      * apply lookup_lt_Some in Hj. lia.
      * rewrite (drop_cons_lookup _ _ _ Hj). apply prefix_cons, prefix_nil.
Qed.

Lemma breakDomain_no_dot s : Forall (λ p, dot ∉ p) (breakDomain s).
Proof. by apply not_in_Split. Qed.

Lemma Join_app ps qs sep : ps ≠ [] → qs ≠ [] → Join (ps ++ qs) sep = Join ps sep ++ sep ++ Join qs sep.
Proof.
  intros Hp Hq. induction ps as [|p ps IH]; [done|]. destruct ps as [|p' ps].
  - cbn [app]. by rewrite Join_cons.
  - change ((p :: p' :: ps) ++ qs) with (p :: ((p' :: ps) ++ qs)).
    rewrite Join_cons by (by destruct ps). rewrite IH by done. rewrite (Join_cons p (p' :: ps)) by done.
    by rewrite <- !(assoc (++)).
Qed.

Lemma breakDomain_app x y : breakDomain (x ++ dot :: y) = breakDomain x ++ breakDomain y.
Proof.
  unfold breakDomain. rewrite <- (Join_Split x [dot]) at 1 by done.
  rewrite <- (Join_Split y [dot]) at 1 by done.
  change (dot :: Join (Split y [dot]) [dot]) with ([dot] ++ Join (Split y [dot]) [dot]).
  rewrite <- Join_app by apply Split_ne. apply Split_Join.
  - by destruct (Split x [dot]) eqn:E; [apply Split_ne in E|].
  - apply Forall_app. split; apply breakDomain_no_dot.
Qed.

Lemma breakDomain_single x : dot ∉ x → breakDomain x = [x].
Proof. intros. unfold breakDomain. apply (Split_Join dot [] [x]); [done|]. by apply Forall_singleton. Qed.

Lemma breakDomain_inj x y : breakDomain x = breakDomain y → x = y.
Proof. unfold breakDomain. intros E. rewrite <- (Join_Split x [dot]), E by done. by apply Join_Split. Qed.

Lemma domainMatcher_Match_iff p s :
  domainMatcher_Match p s = true ↔ s = p ∨ ∃ x, s = x ++ dot :: p.
Proof.
  unfold domainMatcher_Match, HasSuffix. case_bool_decide as Hs.
  - destruct Hs as [x ->]. rewrite length_app. case_decide as Hl.
    { assert (x = []) as -> by (apply length_zero_iff_nil; lia). naive_solver. }
    destruct x as [|b y _] using rev_ind; [simpl in *; lia|].
    replace (length (y ++ [b]) + length p - length p - 1)%nat with (length y)
      by (rewrite length_app; simpl; lia).
    rewrite <- (assoc_L (++)), lookup_app_r, Nat.sub_diag by lia. cbn [app lookup list_lookup].
    rewrite bool_decide_eq_true. split.
    + intros [= ->]. right. by exists y.
    + intros [E|[z E]].
      * exfalso. apply (f_equal length) in E. rewrite length_app in E. simpl in E. lia.
      * change (b :: p) with ([b] ++ p) in E. change (dot :: p) with ([dot] ++ p) in E.
        rewrite !(assoc (++)) in E. by apply (inj (.++ p)), app_inj_tail in E as [_ ->].
  - split; [done|]. intros [->|[x ->]]; exfalso; apply Hs; [done|].
    apply suffix_app_r, suffix_cons_r. done.
Qed.

(** A domain pattern matches a name exactly when its labels end the labels of the
    name. *)
Lemma domainMatcher_Match_parts p s :
  domainMatcher_Match p s = true ↔ reverse (breakDomain p) `prefix_of` reverse (breakDomain s).
Proof.
  rewrite domainMatcher_Match_iff. rewrite <- suffix_prefix_reverse. split.
  - intros [->|[x ->]]; [done|]. rewrite breakDomain_app. by exists (breakDomain x).
  - intros [k Hk]. destruct k as [|a k].
    + left. by apply breakDomain_inj.
    + right. exists (Join (a :: k) [dot]). apply breakDomain_inj. rewrite breakDomain_app.
      unfold breakDomain at 2. rewrite Split_Join; [done|done|].
      apply (Forall_app (λ p, dot ∉ p) (a :: k) (breakDomain p)). rewrite <- Hk. apply breakDomain_no_dot.
Qed.

(** ** The trie *)

(** The values stored at a path. *)
Fixpoint vals (n : node) (path : list bytes) : list Z :=
  match path with
  | [] => values n
  | p :: path => match sub n !! p with None => [] | Some n' => vals n' path end
  end.

(** The values met along a path below the node, the deepest first. *)
Fixpoint walk (n : node) (path : list bytes) : list Z :=
  match path with
  | [] => []
  | p :: path => match sub n !! p with None => [] | Some n' => walk n' path ++ values n' end
  end.

Lemma vals_new q : vals new_node q = [].
Proof. by destruct q. Qed.

Lemma vals_default n p q : vals (default new_node (sub n !! p)) q = vals n (p :: q).
Proof. cbn [vals]. destruct (sub n !! p); [done|apply vals_new]. Qed.

Lemma vals_add_path q v n q' :
  vals (add_path q v n) q' = vals n q' ++ (if decide (q = q') then [v] else []).
Proof.
  revert n q'. induction q as [|p q IH]; intros n [|p' q']; cbn [add_path vals values sub].
  - done.
  - by rewrite app_nil_r.
  - by rewrite app_nil_r.
  - destruct (decide (p = p')) as [->|Hne].
    + rewrite lookup_insert_eq, IH, vals_default. cbn [vals].
      destruct (decide (q = q')) as [->|]; [by rewrite decide_True|]. rewrite decide_False; [done|congruence].
    + rewrite lookup_insert_ne by done. rewrite decide_False by congruence. by rewrite app_nil_r.
Qed.

Lemma walk_levels n path :
  walk n path = mjoin ((λ k, vals n (take k path)) <$> reverse (seq 1 (length path))).
Proof.
  revert n. induction path as [|p path IH]; intros n; [done|].
  cbn [length seq]. rewrite reverse_cons, fmap_app, join_app. cbn [walk fmap list_fmap mjoin list_join take].
  rewrite <- fmap_S_seq, <- fmap_reverse, <- list_fmap_compose, app_nil_r.
  cbn [vals]. destruct (sub n !! p) as [n'|] eqn:E.
  - rewrite take_0. cbn [vals]. f_equal. rewrite IH. f_equal. apply list_fmap_ext. intros _ k _.
    cbn [compose take vals]. by rewrite E.
  - rewrite app_nil_r. symmetry. apply elem_of_nil_inv. intros x Hx. apply list_elem_of_join in Hx as (l & Hx & Hl).
    apply list_elem_of_fmap in Hl as (k & -> & _). cbn [compose take vals] in Hx. rewrite E in Hx.
    by apply not_elem_of_nil in Hx.
Qed.

Lemma nextPart_app x y : nextPart (x ++ y) (length x) = nextPart x (length x).
Proof.
  assert (∀ k, (k ≤ length x)%nat → nextPart (x ++ y) k = nextPart x k) as Hk; [|by apply Hk].
  induction k as [|k IH]; intros Hk; [done|]. cbn [nextPart]. unfold byte_is.
  rewrite lookup_app_l by lia. by rewrite IH by lia.
Qed.

Lemma nextPart_cases x :
  (nextPart x (length x) = -1 ∧ dot ∉ x) ∨
  (∃ u w, x = u ++ dot :: w ∧ dot ∉ w ∧ nextPart x (length x) = Z.of_nat (length u)).
Proof.
  induction x as [|b x IH] using rev_ind; [left; split; [done|by apply not_elem_of_nil]|].
  rewrite length_app, Nat.add_1_r. cbn [nextPart]. unfold byte_is.
  rewrite lookup_app_r, Nat.sub_diag by lia. cbn [lookup list_lookup]. case_bool_decide as Hb.
  - right. exists x, []. simplify_eq. split_all; [done|by apply not_elem_of_nil|done].
  - rewrite nextPart_app. destruct IH as [[-> Hx]|(u & w & -> & Hw & ->)].
    + left. split; [done|]. rewrite elem_of_app, list_elem_of_singleton. naive_solver.
    + right. exists u, (w ++ [b]). split_all; [by rewrite <- (assoc_L (++))| |done].
      rewrite elem_of_app, list_elem_of_singleton. naive_solver.
Qed.

Lemma match_loop_stop fuel domain n ms : match_loop fuel domain (-1) n ms = ms.
Proof. by destruct fuel. Qed.

(** The loop collects the values along the labels of the name read from the right. *)
Lemma match_loop_walk fuel x y n ms :
  (length x < fuel)%nat →
  ∃ l, match_loop fuel (x ++ y) (Z.of_nat (length x)) n ms = ms ++ l ∧
       mjoin (reverse l) = walk n (reverse (breakDomain x)).
Proof.
  revert x y n ms. induction fuel as [|fuel IH]; intros x y n ms Hf; [lia|].
  cbn [match_loop]. rewrite decide_False by lia. rewrite Nat2Z.id, nextPart_app.
  set (push v := if decide (0 < length v)%nat then ms ++ [v] else ms).
  assert (∀ v, ∃ l1, push v = ms ++ l1 ∧ mjoin (reverse l1) = v) as Hpush.
  { intros v. unfold push. case_decide as Hv.
    - exists [v]. split; [done|]. cbn. by rewrite app_nil_r.
    - exists []. split; [by rewrite app_nil_r|]. destruct v; [done|simpl in Hv; lia]. }
  destruct (nextPart_cases x) as [[-> Hx]|(u & w & -> & Hw & ->)].
  - rewrite breakDomain_single by done. cbn [reverse rev_append walk]. change (-1 + 1) with 0.
    rewrite drop_0, Nat.sub_0_r, take_app_length. change (reverse [x]) with [x]. cbn [walk].
    destruct (sub n !! x) as [next|]; [|exists []; by rewrite app_nil_r].
    rewrite match_loop_stop. destruct (Hpush (values next)) as (l1 & E1 & E2). exists l1.
    split; [exact E1|]. exact E2.
  - rewrite breakDomain_app, (breakDomain_single w) by done. rewrite reverse_app.
    change (reverse [w]) with [w]. cbn [app walk].
    replace (Z.to_nat (Z.of_nat (length u) + 1)) with (length (u ++ [dot])) by (rewrite length_app; simpl; lia).
    change (u ++ dot :: w) with (u ++ [dot] ++ w). rewrite (assoc_L (++) u), <- (assoc_L (++) _ w y).
    rewrite drop_app_length, take_app_length' by (rewrite !length_app; simpl; lia).
    destruct (sub n !! w) as [next|]; [|exists []; by rewrite app_nil_r].
    rewrite <- (assoc_L (++) u). destruct (IH u ([dot] ++ w ++ y) next (push (values next))) as (l2 & E & Hl2).
    { rewrite length_app in Hf. simpl in Hf. lia. }
    destruct (Hpush (values next)) as (l1 & E1 & E2). exists (l1 ++ l2). unfold push in E, E1.
    rewrite E, E1. split; [by rewrite <- (assoc_L (++))|]. by rewrite reverse_app, join_app, Hl2, E2.
Qed.

Lemma domain_Match_walk n s :
  s ≠ [] → domain_Match {| root := Some n |} s = walk n (reverse (breakDomain s)).
Proof.
  intros Hs. unfold domain_Match. rewrite decide_False by done. cbn [root].
  destruct (match_loop_walk (S (S (length s))) s [] n []) as (l & E & Hl); [lia|].
  rewrite app_nil_r in E. rewrite E, <- Hl. cbn [app].
  destruct l as [|a [|b l]]; [done| |done]. cbn. by rewrite app_nil_r.
Qed.

(** ** Groups of domain patterns *)

Definition domain_group (es : list (bytes * Z)) : DomainMatcherGroup :=
  foldl (λ g e, domain_Add e.1 e.2 g) {| root := None |} es.

Lemma domain_group_snoc es e : domain_group (es ++ [e]) = domain_Add e.1 e.2 (domain_group es).
Proof. unfold domain_group. by rewrite foldl_snoc. Qed.

Lemma vals_domain_group es q :
  vals (default new_node (root (domain_group es))) q =
  (filter (λ e, reverse (breakDomain e.1) = q) es).*2.
Proof.
  induction es as [|e es IH] using rev_ind; [apply vals_new|].
  rewrite domain_group_snoc. unfold domain_Add; cbn [root from_option Datatypes.id].
  rewrite vals_add_path, IH, filter_app, fmap_app.
  f_equal. rewrite filter_cons, filter_nil. by case_decide.
Qed.

Section levels.
Context {A : Type} (f : A → nat).

Lemma filter_level_cons k ks (l : list A) :
  k ∉ ks → filter (λ x, f x ∈ k :: ks) l ≡ₚ filter (λ x, f x = k) l ++ filter (λ x, f x ∈ ks) l.
Proof.
  intros Hk. induction l as [|x l IH]; [done|]. rewrite !filter_cons.
  destruct (decide (f x = k)) as [->|Hne].
  - rewrite decide_True by apply list_elem_of_here. rewrite (decide_False (P := k ∈ ks)) by done.
    cbn [app]. by constructor.
  - destruct (decide (f x ∈ ks)) as [Hin|Hin].
    + rewrite decide_True by by apply list_elem_of_further. rewrite IH. apply Permutation_middle.
    + rewrite decide_False; [done|]. by intros [?|?]%elem_of_cons.
Qed.

Lemma filter_levels ks (l : list A) :
  NoDup ks → mjoin ((λ k, filter (λ x, f x = k) l) <$> ks) ≡ₚ filter (λ x, f x ∈ ks) l.
Proof.
  induction 1 as [|k ks Hk _ IH].
  - cbn. rewrite list_filter_none; [done|]. apply Forall_forall. intros x _. apply not_elem_of_nil.
  - cbn [fmap list_fmap mjoin list_join]. by rewrite filter_level_cons, IH by done.
Qed.

Lemma levels_sorted ks (l : list A) :
  StronglySorted (λ a b, b < a)%nat ks →
  StronglySorted (λ x y, f y ≤ f x)%nat (mjoin ((λ k, filter (λ x, f x = k) l) <$> ks)).
Proof.
  induction 1 as [|k ks _ IH Hk]; [constructor|]. cbn [fmap list_fmap mjoin list_join].
  apply StronglySorted_app_2; [|  |done].
  - intros x y Hx Hy. apply list_elem_of_filter in Hx as [Hx _].
    apply list_elem_of_join in Hy as (l' & Hy & Hl). apply list_elem_of_fmap in Hl as (k' & -> & Hk').
    apply list_elem_of_filter in Hy as [Hy _]. rewrite Forall_forall in Hk. apply Hk in Hk'. lia.
  - assert (∀ l', Forall (λ x, f x = k) l' → StronglySorted (λ x y, f y ≤ f x)%nat l') as Hs.
    { induction 1 as [|x l' Hx Hl IHl]; constructor; [done|]. eapply Forall_impl; [done|]. cbn. lia. }
    apply Hs, Forall_forall. by intros x [? _]%list_elem_of_filter.
Qed.
End levels.

Lemma seq_reverse_sorted k n : StronglySorted (λ a b, b < a)%nat (reverse (seq k n)).
Proof.
  induction n as [|n IH]; [constructor|]. rewrite seq_S, reverse_app. cbn. constructor; [exact IH|].
  apply Forall_forall. intros x Hx. rewrite elem_of_reverse, elem_of_seq in Hx. lia.
Qed.

Definition labels (p : bytes) : nat := length (reverse (breakDomain p)).

(** The entries whose pattern matches the name, the pattern with more labels first. *)
Lemma domain_group_ranked es s :
  s ≠ [] →
  ∃ l, domain_Match (domain_group es) s = l.*2 ∧
       l ≡ₚ filter (λ e, domainMatcher_Match e.1 s = true) es ∧
       StronglySorted (λ a b, labels b.1 ≤ labels a.1)%nat l.
Proof.
  intros Hs. set (P := reverse (breakDomain s)).
  set (es' := filter (λ e, domainMatcher_Match e.1 s = true) es).
  set (ks := reverse (seq 1 (length P))).
  exists (mjoin ((λ k, filter (λ e, labels e.1 = k) es') <$> ks)).
  split_all; [| |apply levels_sorted, seq_reverse_sorted].
  - destruct (domain_group es) as [[n|]] eqn:Hg.
    2:{ destruct es as [|e es _] using rev_ind.
        - unfold domain_Match. rewrite decide_False by done. cbn [root].
          unfold es'. rewrite join_nil_2; [done|]. by apply Forall_fmap, Forall_true.
        - by rewrite domain_group_snoc in Hg. }
    rewrite domain_Match_walk, walk_levels, list_fmap_join, <- list_fmap_compose by done.
    f_equal. apply list_fmap_ext. intros i k Hk. apply list_elem_of_lookup_2 in Hk.
    unfold ks in Hk. rewrite elem_of_reverse, elem_of_seq in Hk. fold P in Hk |- *.
    pose proof (vals_domain_group es (take k P)) as Hv. rewrite Hg in Hv. cbn [root from_option Datatypes.id] in Hv.
    rewrite Hv. cbn [compose]. f_equal. unfold es'. rewrite list_filter_filter. apply list_filter_iff.
    intros e. rewrite domainMatcher_Match_parts. fold P. unfold labels. split.
    + intros ->. split; [rewrite length_take; lia|]. apply prefix_take.
    + intros [Hl Hp]. rewrite <- Hl. by apply prefix_take_length.
  - rewrite (filter_levels (λ e, labels e.1)).
    2:{ unfold ks. rewrite reverse_Permutation. apply NoDup_seq. }
    rewrite list_filter_all; [done|]. apply Forall_forall. intros e He.
    apply list_elem_of_filter in He as [He _]. unfold ks. rewrite elem_of_reverse, elem_of_seq.
    rewrite domainMatcher_Match_parts in He. apply prefix_length in He. unfold labels. fold P in He.
    destruct (breakDomain e.1) eqn:E; [by apply Split_ne in E|]. rewrite length_reverse in *. simpl in *. lia.
Qed.

(** ** Groups against single matchers *)

Definition group_of (ms : list Matcher) : MatcherGroup :=
  foldl (λ g x, (group_Add x g).1) empty_group ms.

(** The matchers with the indexes [Add] returned for them. *)
Definition indexed (ms : list Matcher) : list (Matcher * Z) :=
  imap (λ i x, (x, u32 (Z.of_nat (S i)))) ms.

Definition full_entry (e : Matcher * Z) : option (bytes * Z) :=
  match e.1 with fullMatcher p => Some (p, e.2) | _ => None end.
Definition domain_entry (e : Matcher * Z) : option (bytes * Z) :=
  match e.1 with domainMatcher p => Some (p, e.2) | _ => None end.
Definition other_entry (e : Matcher * Z) : option matcherEntry :=
  match e.1 with fullMatcher _ | domainMatcher _ => None | x => Some {| m := x; id := e.2 |} end.

Record group_inv (es : list (Matcher * Z)) (g : MatcherGroup) : Prop := {
  gi_count : count g = u32 (Z.of_nat (length es));
  gi_full : ∀ s, full_Match (g_full g) s = (filter (λ e, e.1 = s) (omap full_entry es)).*2;
  gi_domain : g_domain g = domain_group (omap domain_entry es);
  gi_other : otherMatchers g = omap other_entry es
}.

Lemma full_Match_Add p c g s :
  full_Match (full_Add p c g) s = full_Match g s ++ (if decide (p = s) then [c] else []).
Proof.
  unfold full_Match, full_Add. cbn [matchers]. destruct (decide (p = s)) as [->|Hne].
  - by rewrite lookup_insert_eq.
  - by rewrite lookup_insert_ne, app_nil_r.
Qed.

Lemma group_Add_inv es g x :
  group_inv es g → group_inv (es ++ [(x, (group_Add x g).2)]) (group_Add x g).1.
Proof.
  intros [Hc Hf Hd Ho].
  assert (u32 (count g + 1) = u32 (Z.of_nat (length (es ++ [(x, (group_Add x g).2)])))) as Hcount.
  { rewrite Hc, length_app, Nat2Z.inj_add. unfold wrap. by rewrite Z.add_mod_idemp_l. }
  destruct x; split; cbn [group_Add fst snd count g_full g_domain otherMatchers];
    rewrite ?omap_app, ?app_nil_r; try done.
  all: cbn [omap list_omap full_entry domain_entry other_entry fst snd].
  all: rewrite ?app_nil_r; try done.
  all: try (intros s; rewrite ?full_Match_Add, Hf, ?filter_app, ?fmap_app, ?app_nil_r; try done).
  - f_equal. rewrite filter_cons, filter_nil. cbn [fst]. by destruct (decide (pattern = s)).
  - by rewrite Ho.
  - by rewrite Hd, domain_group_snoc.
  - by rewrite Ho.
Qed.

Lemma group_of_inv ms : group_inv (indexed ms) (group_of ms).
Proof.
  induction ms as [|x ms IH] using rev_ind.
  - by split.
  - unfold group_of. rewrite foldl_snoc. fold (group_of ms).
    assert (indexed (ms ++ [x]) = indexed ms ++ [(x, (group_Add x (group_of ms)).2)]) as ->.
    { unfold indexed. rewrite imap_app. cbn [imap]. do 3 f_equal.
      destruct IH as [Hc _ _ _]. transitivity (u32 (count (group_of ms) + 1)); [|by destruct x].
      rewrite Hc. unfold indexed. rewrite length_imap. unfold wrap. rewrite Z.add_mod_idemp_l by done. f_equal. lia. }
    by apply group_Add_inv.
Qed.

Lemma split_entries es s :
  (filter (λ e, e.1 = s) (omap full_entry es)).*2 ++
  (filter (λ e, domainMatcher_Match e.1 s = true) (omap domain_entry es)).*2 ++
  other_Match (omap other_entry es) s ≡ₚ
  (filter (λ e, Matcher_Match e.1 s = true) es).*2.
Proof.
  unfold other_Match. induction es as [|[x i] es IH]; [done|].
  rewrite (filter_cons (λ e, Matcher_Match e.1 s = true)).
  destruct x as [p|p|p|p r]; cbn [omap list_omap full_entry domain_entry other_entry fst snd Matcher_Match];
    rewrite filter_cons; cbn [fst snd m id Matcher_Match].
  - destruct (decide (p = s)) as [->|Hne].
    + rewrite decide_True by by apply bool_decide_eq_true. cbn. by rewrite <- IH.
    + rewrite decide_False by (by rewrite bool_decide_eq_true). done.
  - case_decide; [|done]. cbn [fmap list_fmap id snd]. rewrite <- IH, !Permutation_middle. done.
  - case_decide; [|done]. cbn [fmap list_fmap id snd]. rewrite <- IH, Permutation_middle. done.
  - case_decide; [|done]. cbn [fmap list_fmap id snd]. rewrite <- IH, !Permutation_middle. done.
Qed.

Lemma group_Match_entries ms s :
  s ≠ [] → group_Match (group_of ms) s ≡ₚ (filter (λ e, Matcher_Match e.1 s = true) (indexed ms)).*2.
Proof.
  intros Hs. destruct (group_of_inv ms) as [_ Hf Hd Ho]. unfold group_Match. rewrite Hf, Hd, Ho.
  destruct (domain_group_ranked (omap domain_entry (indexed ms)) s Hs) as (l & -> & Hl & _).
  rewrite Hl. apply split_entries.
Qed.

Lemma indexed_fst ms : (indexed ms).*1 = ms.
Proof.
  apply list_eq. intros i. unfold indexed. rewrite list_lookup_fmap, list_lookup_imap.
  by destruct (ms !! i).
Qed.

(** Something is found exactly when some matcher of the group matches. *)
Lemma group_Match_some ms s :
  s ≠ [] → group_Match (group_of ms) s ≠ [] ↔ existsb (λ x, Matcher_Match x s) ms = true.
Proof.
  intros Hs. pose proof (group_Match_entries ms s Hs) as Hp.
  rewrite <- (indexed_fst ms) at 2. rewrite existsb_exists. split.
  - intros Hne. destruct (filter (λ e, Matcher_Match e.1 s = true) (indexed ms)) as [|e l] eqn:E.
    + by apply Permutation_nil_r in Hp.
    + assert (e ∈ e :: l) as He by apply list_elem_of_here. rewrite <- E in He.
      apply list_elem_of_filter in He as [Hm He]. exists e.1. split; [|done].
      apply list_elem_of_In. by apply list_elem_of_fmap_2.
  - intros (x & ([y i] & -> & He)%list_elem_of_In%list_elem_of_fmap & Hm) Hnil. rewrite Hnil in Hp.
    apply Permutation_nil_l in Hp. assert ((y, i) ∈ filter (λ e, Matcher_Match e.1 s = true) (indexed ms)) as Hin
      by by apply list_elem_of_filter.
    destruct (filter _ _); [by apply elem_of_nil in Hin|done].
Qed.

(** A group finds exactly the indexes of the matchers that match on their own: the
    hash table and the trie lose nothing and add nothing.  Among the domain
    patterns the one with more labels comes first. *)
Theorem matcher_group_spec ms s :
  s ≠ [] →
  group_Match (group_of ms) s ≡ₚ (filter (λ e, Matcher_Match e.1 s = true) (indexed ms)).*2 ∧
  ∃ full l other, group_Match (group_of ms) s = full ++ l.*2 ++ other ∧
    StronglySorted (λ a b, labels b.1 ≤ labels a.1)%nat l ∧
    (∀ p i, (p, i) ∈ l ↔ (domainMatcher p, i) ∈ indexed ms ∧ domainMatcher_Match p s = true).
Proof.
  intros Hs. split; [by apply group_Match_entries|].
  destruct (group_of_inv ms) as [_ Hf Hd Ho]. unfold group_Match. rewrite Hf, Hd, Ho.
  destruct (domain_group_ranked (omap domain_entry (indexed ms)) s Hs) as (l & -> & Hl & Hsort).
  eexists _, l, _. split_all; [done|done|]. intros p i. rewrite Hl, list_elem_of_filter, list_elem_of_omap.
  split.
  - intros [Hm ([x j] & Hin & He)]. destruct x; try done. injection He as -> ->.
    by split.
  - intros [Hin Hm]. split; [done|]. by exists (domainMatcher p, i).
Qed.

Lemma matcher_group_spec_witness :
  let ms := [domainMatcher (lit "com"); fullMatcher (lit "a.b.com"); domainMatcher (lit "b.com");
             substrMatcher (lit "b.c"); domainMatcher (lit "c.com")] in
  group_Match (group_of ms) (lit "a.b.com") = [2; 3; 1; 4] ∧
  group_Match (group_of ms) (lit "a.b.com") ≡ₚ
    (filter (λ e, Matcher_Match e.1 (lit "a.b.com") = true) (indexed ms)).*2.
Proof. intros ms. split; [vm_compute; reflexivity|]. apply (matcher_group_spec ms (lit "a.b.com")). done. Defined.

(** The empty name is special: the trie answers nothing, although the pattern [domain:] matches it. *)
Lemma empty_name_not_found :
  Matcher_Match (domainMatcher []) [] = true ∧ group_Match (group_of [domainMatcher []]) [] = [].
Proof. by vm_compute. Qed.
