(* ===== verification/AcAutomaton.v ===== *)
(** The Aho-Corasick automaton of the keyword patterns
    (src/upstream/xray-core/common/strmatcher/ac_automaton_matcher.go): patterns
    and inputs are read from their last byte to the first, [Add] grows a trie,
    [Build] completes it breadth first with failure links, and [Match] runs the
    input through it. *)
From stdpp Require Import gmap.
From S2P Require Import Prelude GoText StrMatcher.

(** ** The automaton *)

Definition validCharCount : nat := 53.

Record MatchType := { matchType : Z; exist : bool }.

Definition TrieEdge : bool := true.
Definition FailEdge : bool := false.

Record Edge := { edgeType : bool; nextNode : nat }.

#[global] Instance Edge_eq_dec : EqDecision Edge.
Proof. solve_decision. Defined.

(** An index out of the range of one of the slices is a run-time panic, [None]. *)
Record ACAutomaton := {
  trie : list (list Edge);
  fail : list nat;
  exists_ : list MatchType;
  ac_count : nat
}.

Definition newNode : list Edge := replicate validCharCount {| edgeType := FailEdge; nextNode := 0 |}.

(** The characters of each index of [char2Index], in the order of the indexes. *)
Definition char_rows : list bytes :=
  lit <$> ["Aa"; "Bb"; "Cc"; "Dd"; "Ee"; "Ff"; "Gg"; "Hh"; "Ii"; "Jj"; "Kk"; "Ll"; "Mm";
           "Nn"; "Oo"; "Pp"; "Qq"; "Rr"; "Ss"; "Tt"; "Uu"; "Vv"; "Ww"; "Xx"; "Yy"; "Zz";
           "!"; "$"; "&"; "'"; "("; ")"; "*"; "+"; ","; ";"; "="; ":"; "%"; "-"; "."; "_"; "~";
           "0"; "1"; "2"; "3"; "4"; "5"; "6"; "7"; "8"; "9"]%string.

(** The slice [char2Index]: its last element is that of the tilde, and an element
    that the literal does not list is zero. *)
Definition char2Index_slice : list nat :=
  (λ c, default 0%nat (fst <$> list_find (λ row, Z.of_nat c ∈ row) char_rows)) <$> seq 0 127.

Definition char2Index (c : Z) : option nat :=
  if decide (0 ≤ c) then char2Index_slice !! Z.to_nat c else None.

Definition no_match : MatchType := {| matchType := Full; exist := false |}.

Definition NewACAutomaton : ACAutomaton :=
  {| trie := [newNode]; fail := [0%nat]; exists_ := [no_match]; ac_count := 0 |}.

(** [ac.trie[node][idx]]. *)
Definition edge (ac : ACAutomaton) (node idx : nat) : option Edge :=
  row ← trie ac !! node; row !! idx.

Definition set_edge (node idx : nat) (e : Edge) (ac : ACAutomaton) : ACAutomaton :=
  {| trie := alter (<[idx := e]>) node (trie ac); fail := fail ac; exists_ := exists_ ac;
     ac_count := ac_count ac |}.

Definition set_exists (node : nat) (x : MatchType) (ac : ACAutomaton) : option ACAutomaton :=
  if decide (node < length (exists_ ac))%nat then
    Some {| trie := trie ac; fail := fail ac; exists_ := <[node := x]> (exists_ ac); ac_count := ac_count ac |}
  else None.

Definition set_fail (node f : nat) (ac : ACAutomaton) : option ACAutomaton :=
  if decide (node < length (fail ac))%nat then
    Some {| trie := trie ac; fail := <[node := f]> (fail ac); exists_ := exists_ ac; ac_count := ac_count ac |}
  else None.

(** The part of [Add] that follows one edge and makes it when it is missing. *)
Definition add_child (ac : ACAutomaton) (node idx : nat) : option (ACAutomaton * nat) :=
  e ← edge ac node idx;
  let ac' :=
    if decide (nextNode e = 0%nat) then
      let c := S (ac_count ac) in
      let grown :=
        if decide (length (trie ac) < c + 1)%nat then
          {| trie := trie ac ++ [newNode]; fail := fail ac ++ [0%nat]; exists_ := exists_ ac ++ [no_match];
             ac_count := c |}
        else {| trie := trie ac; fail := fail ac; exists_ := exists_ ac; ac_count := c |} in
      set_edge node idx {| edgeType := TrieEdge; nextNode := c |} grown
    else ac in
  e' ← edge ac' node idx;
  Some (ac', nextNode e').

Fixpoint add_loop (cs : bytes) (ac : ACAutomaton) (node : nat) : option (ACAutomaton * nat) :=
  match cs with
  | [] => Some (ac, node)
  | c :: cs =>
      idx ← char2Index c;
      '(ac, node) ← add_child ac node idx;
      add_loop cs ac node
  end.

Definition ac_Add (domain : bytes) (t : Z) (ac : ACAutomaton) : option ACAutomaton :=
  '(ac, node) ← add_loop (reverse domain) ac 0;
  ac ← set_exists node {| matchType := t; exist := true |} ac;
  if decide (t = Domain) then
    ac ← set_exists node {| matchType := Full; exist := true |} ac;
    idx ← char2Index dot;
    '(ac, node) ← add_child ac node idx;
    set_exists node {| matchType := t; exist := true |} ac
  else Some ac.

(** One turn of the inner loop of [Build]. *)
Definition build_edge (node : nat) (st : ACAutomaton * list Edge) (i : nat) : option (ACAutomaton * list Edge) :=
  let '(ac, queue) := st in
  e ← edge ac node i;
  f ← fail ac !! node;
  fe ← edge ac f i;
  if decide (nextNode e = 0%nat) then
    Some (set_edge node i {| edgeType := FailEdge; nextNode := nextNode fe |} ac, queue)
  else
    ac' ← set_fail (nextNode e) (nextNode fe) ac;
    Some (ac', queue ++ [e]).

Fixpoint build_row (node : nat) (idxs : list nat) (st : ACAutomaton * list Edge) : option (ACAutomaton * list Edge) :=
  match idxs with
  | [] => Some st
  | i :: idxs => st ← build_edge node st i; build_row node idxs st
  end.

(** The outer loop of [Build]; [Fail] when the fuel is out.  Each turn takes a node
    from the queue and no node is queued twice. *)
Fixpoint build_loop (fuel : nat) (st : ACAutomaton * list Edge) : outcome ACAutomaton :=
  match fuel with
  | O => Fail
  | S fuel =>
      match st.2 with
      | [] => Ret st.1
      | front :: queue =>
          match build_row (nextNode front) (seq 0 validCharCount) (st.1, queue) with
          | Some st => build_loop fuel st
          | None => Panic
          end
      end
  end.

Definition root_queue (ac : ACAutomaton) : list Edge :=
  filter (λ e, nextNode e ≠ 0%nat) (default [] (trie ac !! 0%nat)).

Definition ac_Build (ac : ACAutomaton) : outcome ACAutomaton :=
  build_loop (S (length (trie ac))) (ac, root_queue ac).

Fixpoint match_chars (ac : ACAutomaton) (cs : bytes) (node : nat) (fullMatch : bool) : option bool :=
  match cs with
  | [] => x ← exists_ ac !! node; Some (fullMatch && exist x)
  | c :: cs =>
      match char2Index c with
      | None => Some false
      | Some idx =>
          e ← edge ac node idx;
          x ← exists_ ac !! nextNode e;
          let full := fullMatch && edgeType e in
          if decide (matchType x = Substr) then Some true
          else if decide (matchType x = Domain ∧ full = true) then Some true
          else match_chars ac cs (nextNode e) full
      end
  end.

Definition ac_Match (ac : ACAutomaton) (s : bytes) : option bool := match_chars ac (reverse s) 0 true.

(** The automaton of a list of keywords, as the callers build it. *)
Fixpoint add_keywords (ks : list bytes) (ac : ACAutomaton) : option ACAutomaton :=
  match ks with
  | [] => Some ac
  | k :: ks => ac ← ac_Add k Substr ac; add_keywords ks ac
  end.

Definition keyword_automaton (ks : list bytes) : outcome ACAutomaton :=
  ret_or_panic (add_keywords ks NewACAutomaton) ac_Build.

(** ** The trie of a list of words *)

Abbreviation word := (list nat).

Definition goto (ac : ACAutomaton) (u i : nat) : option nat := nextNode <$> edge ac u i.

Definition mark (K : list word) (w : word) : MatchType :=
  if decide (w ∈ K) then {| matchType := Substr; exist := true |} else no_match.

Lemma mark_in K w : w ∈ K → mark K w = {| matchType := Substr; exist := true |}.
Proof. intros. unfold mark. by rewrite decide_True. Qed.

Lemma mark_out K w : w ∉ K → mark K w = no_match.
Proof. intros. unfold mark. by rewrite decide_False. Qed.

(** [W] lists the words of the nodes; every word is the beginning of one of [P];
    the nodes of the words [K] are marked. *)
Record is_trie (W P K : list word) (ac : ACAutomaton) : Prop := {
  t_trie : length (trie ac) = length W;
  t_fail_len : length (fail ac) = length W;
  t_exists_len : length (exists_ ac) = length W;
  t_count : S (ac_count ac) = length W;
  t_root : W !! 0%nat = Some [];
  t_nodup : NoDup W;
  t_closed : ∀ w i, w ++ [i] ∈ W → w ∈ W ∧ (i < validCharCount)%nat;
  t_rows : ∀ u row, trie ac !! u = Some row → length row = validCharCount;
  t_goto : ∀ u w i, W !! u = Some w → (i < validCharCount)%nat →
    ∃ v, goto ac u i = Some v ∧ ((v = 0%nat ∧ w ++ [i] ∉ W) ∨ (v ≠ 0%nat ∧ W !! v = Some (w ++ [i])));
  t_fail : ∀ u, (u < length W)%nat → fail ac !! u = Some 0%nat;
  t_exists : ∀ u w, W !! u = Some w → exists_ ac !! u = Some (mark K w);
  t_prefix : ∀ w, w ∈ W → w = [] ∨ ∃ p, p ∈ P ∧ w `prefix_of` p;
  t_words : ∀ k, k ∈ K → k ∈ W
}.

Lemma is_trie_new P : is_trie [[]] P [] NewACAutomaton.
Proof.
  split; try done.
  - apply NoDup_singleton.
  - intros w i Hw%list_elem_of_singleton. by destruct w.
  - intros [|[|u]] row [= <-]. apply length_replicate.
  - intros [|[|u]] w i [= <-] Hi. exists 0%nat. unfold goto, edge. cbn -[newNode].
    unfold newNode. rewrite lookup_replicate_2 by done. split; [done|]. left. split; [done|].
    by intros ?%list_elem_of_singleton.
  - intros [|[|u]] Hu; try done; simpl in Hu; lia.
  - intros [|[|u]] w [= <-]. done.
  - intros w ->%list_elem_of_singleton. by left.
  - by intros k ?%elem_of_nil.
Qed.

Lemma edge_goto ac u i v : goto ac u i = Some v → ∃ e, edge ac u i = Some e ∧ nextNode e = v.
Proof. unfold goto. destruct (edge ac u i) as [e|]; [|done]. intros [= <-]. by exists e. Qed.

Lemma edge_bounds ac u i e : edge ac u i = Some e → ∃ row, trie ac !! u = Some row ∧ row !! i = Some e.
Proof. unfold edge. destruct (trie ac !! u) as [row|]; [|done]. eauto. Qed.

Lemma edge_set_edge ac u i e u' i' x :
  edge ac u i = Some x →
  edge (set_edge u i e ac) u' i' = if decide (u' = u ∧ i' = i) then Some e else edge ac u' i'.
Proof.
  intros (row & Hrow & Hi)%edge_bounds. unfold edge, set_edge. cbn [trie].
  destruct (decide (u' = u)) as [->|Hu].
  - rewrite list_lookup_alter_eq, Hrow. cbn. destruct (decide (i' = i)) as [->|Hne].
    + rewrite decide_True by done. apply list_lookup_insert_eq. by eapply lookup_lt_Some.
    + rewrite decide_False by naive_solver. by rewrite list_lookup_insert_ne.
  - rewrite decide_False by naive_solver. by rewrite list_lookup_alter_ne.
Qed.

Lemma goto_set_edge ac u i e u' i' x :
  edge ac u i = Some x →
  goto (set_edge u i e ac) u' i' = if decide (u' = u ∧ i' = i) then Some (nextNode e) else goto ac u' i'.
Proof. intros H. unfold goto. rewrite (edge_set_edge _ _ _ _ _ _ _ H). by case_decide. Qed.

Lemma rows_set_edge ac u i e n :
  (∀ v row, trie ac !! v = Some row → length row = n) →
  ∀ v row, trie (set_edge u i e ac) !! v = Some row → length row = n.
Proof.
  intros H v row. unfold set_edge. cbn [trie]. destruct (decide (u = v)) as [->|Hne].
  - rewrite list_lookup_alter_eq. destruct (trie ac !! v) as [r|] eqn:Hr; [|done].
    intros [= <-]. rewrite length_insert. by eapply H.
  - rewrite list_lookup_alter_ne by done. apply H.
Qed.

Section grow.
Context (W P K : list word) (ac : ACAutomaton) (HT : is_trie W P K ac).

Lemma trie_lookup_lt u w : W !! u = Some w → (u < length (trie ac))%nat.
Proof. intros H%lookup_lt_Some. by rewrite (t_trie _ _ _ _ HT). Qed.

Definition grown_ac : ACAutomaton :=
  {| trie := trie ac ++ [newNode]; fail := fail ac ++ [0%nat]; exists_ := exists_ ac ++ [no_match];
     ac_count := S (ac_count ac) |}.

Lemma edge_grown_old u i : (u < length W)%nat → edge grown_ac u i = edge ac u i.
Proof.
  intros Hu. unfold edge, grown_ac. cbn [trie].
  by rewrite lookup_app_l by (by rewrite (t_trie _ _ _ _ HT)).
Qed.

Lemma goto_grown_new i : (i < validCharCount)%nat → goto grown_ac (length W) i = Some 0%nat.
Proof.
  intros Hi. unfold goto, edge, grown_ac. cbn [trie].
  rewrite <- (t_trie _ _ _ _ HT), lookup_app_r, Nat.sub_diag by done. cbn -[newNode].
  unfold newNode. by rewrite lookup_replicate_2.
Qed.

Lemma is_trie_grow u w i e :
  W !! u = Some w → (i < validCharCount)%nat → edge ac u i = Some e → w ++ [i] ∉ W →
  (∃ p, p ∈ P ∧ w ++ [i] `prefix_of` p) →
  is_trie (W ++ [w ++ [i]]) P K
    (set_edge u i {| edgeType := TrieEdge; nextNode := S (ac_count ac) |} grown_ac).
Proof.
  intros Hu Hi He Hnew Hp. pose proof (lookup_lt_Some _ _ _ Hu) as Hlt.
  assert (edge grown_ac u i = Some e) as Hg by by rewrite edge_grown_old.
  split; cbn [set_edge grown_ac trie fail exists_ ac_count].
  - by rewrite length_alter, !length_app, (t_trie _ _ _ _ HT).
  - by rewrite !length_app, (t_fail_len _ _ _ _ HT).
  - by rewrite !length_app, (t_exists_len _ _ _ _ HT).
  - rewrite (t_count _ _ _ _ HT), length_app. simpl. lia.
  - apply lookup_app_l_Some, (t_root _ _ _ _ HT).
  - apply NoDup_app. split_all; [apply (t_nodup _ _ _ _ HT)| |apply NoDup_singleton].
    by intros x Hx ->%list_elem_of_singleton.
  - intros w' j. rewrite !elem_of_app, !list_elem_of_singleton. intros [Hw|E].
    + destruct (t_closed _ _ _ _ HT _ _ Hw). auto.
    + apply app_inj_tail in E as [-> ->]. split; [left; by eapply list_elem_of_lookup_2|done].
  - apply (rows_set_edge grown_ac). intros v row. unfold grown_ac. cbn [trie]. rewrite lookup_app_Some.
    intros [?|[_ [_ <-]%list_lookup_singleton_Some]]; [by eapply t_rows|apply length_replicate].
  - intros u' w' j Hu' Hj. rewrite (goto_set_edge _ _ _ _ _ _ _ Hg). cbn [nextNode].
    apply lookup_app_Some in Hu' as [Hu'|[Hge [E <-]%list_lookup_singleton_Some]].
    + case_decide as Hc.
      * destruct Hc as [-> ->]. simplify_eq. eexists. split; [done|]. right. split; [done|].
        rewrite (t_count _ _ _ _ HT), lookup_app_r, Nat.sub_diag by done. done.
      * unfold goto. rewrite edge_grown_old by (by eapply lookup_lt_Some). fold (goto ac u' j).
        destruct (t_goto _ _ _ _ HT _ _ _ Hu' Hj) as (v & -> & Hv). exists v. split; [done|].
        destruct Hv as [[-> Hn]|[Hv0 Hv]]; [left|right; by eauto using lookup_app_l_Some].
        split; [done|]. rewrite elem_of_app, list_elem_of_singleton. intros [?|E]; [done|].
        apply app_inj_tail in E as [-> ->]. apply Hc. split; [|done]. by eapply NoDup_lookup; [apply (t_nodup _ _ _ _ HT)|..].
    + assert (u' = length W) as -> by lia. rewrite decide_False by naive_solver lia.
      exists 0%nat. split; [by apply goto_grown_new|]. left. split; [done|].
      rewrite elem_of_app, list_elem_of_singleton. intros [Hin|E'].
      * by apply (t_closed _ _ _ _ HT) in Hin as [? _].
      * apply (f_equal length) in E'. rewrite !length_app in E'. simpl in E'. lia.
  - intros v Hv. rewrite length_app in Hv. simpl in Hv. destruct (decide (v < length W)%nat) as [Hl|Hl].
    + apply lookup_app_l_Some. by apply (t_fail _ _ _ _ HT).
    + rewrite lookup_app_r by (rewrite (t_fail_len _ _ _ _ HT); lia).
      replace (v - length (fail ac))%nat with 0%nat by (rewrite (t_fail_len _ _ _ _ HT); lia). done.
  - intros v x [Hv|[Hge [E <-]%list_lookup_singleton_Some]]%lookup_app_Some.
    + apply lookup_app_l_Some. by apply (t_exists _ _ _ _ HT).
    + rewrite lookup_app_r by (rewrite (t_exists_len _ _ _ _ HT); lia).
      replace (v - length (exists_ ac))%nat with 0%nat by (rewrite (t_exists_len _ _ _ _ HT); lia).
      cbn. rewrite mark_out; [done|]. by intros ?%(t_words _ _ _ _ HT).
  - intros x. rewrite elem_of_app, list_elem_of_singleton. intros [Hx| ->]; [by apply (t_prefix _ _ _ _ HT)|by right].
  - intros k Hk. apply elem_of_app. left. by apply (t_words _ _ _ _ HT).
Qed.
End grow.

Lemma add_child_trie W P K ac u w i :
  is_trie W P K ac → W !! u = Some w → (i < validCharCount)%nat →
  (∃ p, p ∈ P ∧ w ++ [i] `prefix_of` p) →
  ∃ ac' W' v, add_child ac u i = Some (ac', v) ∧ is_trie W' P K ac' ∧ W' !! v = Some (w ++ [i]).
Proof.
  intros HT Hu Hi Hp. destruct (t_goto _ _ _ _ HT _ _ _ Hu Hi) as (v & Hv & Hcase).
  apply edge_goto in Hv as (e & He & <-). unfold add_child. rewrite He. cbn [mbind option_bind].
  destruct Hcase as [[H0 Hnew]|[H0 Hold]].
  - rewrite decide_True by done. rewrite decide_True by (rewrite (t_trie _ _ _ _ HT), <- (t_count _ _ _ _ HT); lia).
    fold (grown_ac ac). eassert (edge (grown_ac ac) u i = Some e) as Hg.
    { erewrite edge_grown_old; [done|done|by eapply lookup_lt_Some]. }
    rewrite (edge_set_edge _ _ _ _ _ _ _ Hg), decide_True by done. cbn [mbind option_bind nextNode].
    eexists _, _, _. split; [done|]. split; [by eapply is_trie_grow|].
    by rewrite (t_count _ _ _ _ HT), lookup_app_r, Nat.sub_diag.
  - rewrite decide_False by done. rewrite He. cbn. eauto 10.
Qed.

Definition index_word (s : bytes) : option word := mapM char2Index s.

Lemma char2Index_bound c i : char2Index c = Some i → (i < validCharCount)%nat.
Proof.
  assert (Forall (λ i, i < validCharCount)%nat char2Index_slice) as H
    by (apply (bool_decide_unpack _); vm_compute; exact I).
  unfold char2Index. case_decide; [|done]. intros Hi. by eapply Forall_lookup_1 in H.
Qed.

Lemma add_loop_trie W P K ac cs x u w p :
  is_trie W P K ac → W !! u = Some w → index_word cs = Some x → p ∈ P → p = w ++ x →
  ∃ ac' W' v, add_loop cs ac u = Some (ac', v) ∧ is_trie W' P K ac' ∧ W' !! v = Some p.
Proof.
  revert W ac x u w. induction cs as [|c cs IH]; intros W ac x u w HT Hu Hx Hp ->.
  - injection Hx as <-. rewrite app_nil_r. cbn. eauto 10.
  - unfold index_word in Hx. cbn [mapM] in Hx. destruct (char2Index c) as [i|] eqn:Hc; [|done].
    destruct (mapM char2Index cs) as [x'|] eqn:Hcs; [|done]. cbn in Hx. injection Hx as <-.
    pose proof (char2Index_bound _ _ Hc) as Hi.
    assert (w ++ i :: x' = (w ++ [i]) ++ x') as E by by rewrite <- (assoc_L (++)).
    destruct (add_child_trie W P K ac u w i HT Hu Hi) as (ac1 & W1 & v & Hadd & HT1 & Hv).
    { exists (w ++ i :: x'). split; [done|]. rewrite E. by apply prefix_app_r. }
    cbn [add_loop]. rewrite Hc. cbn. rewrite Hadd. cbn. by eapply IH.
Qed.

Lemma is_trie_mark W P K ac u k :
  is_trie W P K ac → W !! u = Some k → k ∈ P →
  ∃ ac', set_exists u {| matchType := Substr; exist := true |} ac = Some ac' ∧ is_trie W P (k :: K) ac'.
Proof.
  intros HT Hu Hk. unfold set_exists. rewrite decide_True
    by (rewrite (t_exists_len _ _ _ _ HT); by eapply lookup_lt_Some).
  eexists. split; [done|]. destruct HT as [? ? ? ? ? Hnd ? ? ? ? Hex ? Hw]. split; try done; cbn [exists_].
  - by rewrite length_insert.
  - intros v w Hv. destruct (decide (v = u)) as [->|Hne].
    + simplify_eq. rewrite list_lookup_insert_eq by (by eapply lookup_lt_Some, Hex).
      unfold mark. by rewrite decide_True by apply list_elem_of_here.
    + rewrite list_lookup_insert_ne, (Hex _ _ Hv) by done. f_equal. unfold mark.
      assert (w ≠ k) by (intros ->; apply Hne; by eapply NoDup_lookup).
      apply decide_ext. rewrite elem_of_cons. naive_solver.
  - intros k'. rewrite elem_of_cons. intros [-> |?]; [by eapply list_elem_of_lookup_2|by apply Hw].
Qed.

(** The words of the keywords, read from their last character. *)
Definition keyword_words (ks : list bytes) : option (list word) := mapM (λ k, index_word (reverse k)) ks.

Lemma add_keywords_trie ks ws W P K ac :
  keyword_words ks = Some ws → Forall (λ w, w ∈ P) ws → is_trie W P K ac →
  ∃ ac' W', add_keywords ks ac = Some ac' ∧ is_trie W' P (reverse ws ++ K) ac'.
Proof.
  revert ws W K ac. induction ks as [|k ks IH]; intros ws W K ac Hws HP HT.
  - injection Hws as <-. cbn. eauto.
  - unfold keyword_words in Hws. cbn [mapM] in Hws.
    destruct (index_word (reverse k)) as [w|] eqn:Hw; [|done].
    destruct (mapM _ ks) as [ws'|] eqn:Hks; [|done]. cbn in Hws. injection Hws as <-.
    apply Forall_cons in HP as [Hp HP].
    destruct (add_loop_trie W P K ac (reverse k) w 0 [] w HT (t_root _ _ _ _ HT) Hw Hp eq_refl)
      as (ac1 & W1 & v & Hadd & HT1 & Hv).
    destruct (is_trie_mark _ _ _ _ _ _ HT1 Hv Hp) as (ac2 & Hmark & HT2).
    cbn [add_keywords]. unfold ac_Add. rewrite Hadd. cbn [mbind option_bind]. rewrite Hmark.
    cbn [mbind option_bind]. rewrite decide_False by done. cbn [mbind option_bind].
    rewrite reverse_cons, <- (assoc_L (++)). by eapply IH.
Qed.

(** ** The longest known end of a word *)

Section longest.
Context (W : list word).

Fixpoint longest (w : word) : word :=
  if decide (w ∈ W) then w else match w with [] => [] | _ :: w' => longest w' end.

Lemma longest_self w : w ∈ W → longest w = w.
Proof. intros. destruct w; cbn [longest]; by rewrite decide_True. Qed.

Lemma longest_cons a w : a :: w ∉ W → longest (a :: w) = longest w.
Proof. intros. cbn [longest]. by rewrite decide_False. Qed.

Lemma longest_suffix w : longest w `suffix_of` w.
Proof.
  induction w as [|a w IH]; cbn [longest]; case_decide; try done. by apply suffix_cons_r.
Qed.

Lemma longest_max x w : x ∈ W → x `suffix_of` w → x `suffix_of` longest w.
Proof.
  intros Hx. induction w as [|a w IH]; intros Hs.
  - apply suffix_nil_inv in Hs as ->. by rewrite longest_self.
  - destruct (decide (a :: w ∈ W)) as [Hin|Hin]; [by rewrite longest_self|].
    rewrite longest_cons by done. destruct x as [|b x]; [apply suffix_nil|].
    apply suffix_cons_inv in Hs as [E|?]; [by rewrite E in Hx|by apply IH].
Qed.

Hypothesis HW : [] ∈ W.

Lemma longest_in w : longest w ∈ W.
Proof. induction w as [|a w IH]; cbn [longest]; by case_decide. Qed.

(** Reading one more character only needs the longest known end of what was read. *)
Lemma longest_snoc x i :
  (∀ w, w ++ [i] ∈ W → w ∈ W) → longest (x ++ [i]) = longest (longest x ++ [i]).
Proof.
  intros Hclosed. induction x as [|a x IH]; [by rewrite (longest_self [])|].
  destruct (decide (a :: x ∈ W)) as [Hin|Hin]; [by rewrite (longest_self (a :: x))|].
  rewrite (longest_cons a x) by done. rewrite <- IH. apply longest_cons.
  intros H. by apply Hin, Hclosed.
Qed.
End longest.

(** ** Breadth-first completion *)

Lemma NoDup_fmap_filter {A B} (f : A → B) (P : A → Prop) `{!∀ x, Decision (P x)} l :
  (∀ i j x y, l !! i = Some x → l !! j = Some y → P x → P y → f x = f y → i = j) →
  NoDup (f <$> filter P l).
Proof.
  induction l as [|x l IH]; intros Hinj; [constructor|]. rewrite filter_cons.
  assert (NoDup (f <$> filter P l)) by (apply IH; intros i j; intros; by eapply Nat.succ_inj, (Hinj (S i) (S j))).
  case_decide as Hx; [|done]. cbn [fmap list_fmap]. constructor; [|done].
  intros (y & Hf & [Hy [j Hj]%list_elem_of_lookup_1]%list_elem_of_filter)%list_elem_of_fmap.
  by specialize (Hinj 0%nat (S j) x y eq_refl Hj Hx Hy Hf).
Qed.

Section build.
Context (W P K : list word) (ac0 : ACAutomaton) (HT : is_trie W P K ac0).

Let L := longest W.

Lemma W_nil : [] ∈ W.
Proof using HT. eapply list_elem_of_lookup_2, (t_root _ _ _ _ HT). Qed.

Lemma L_snoc x i : L (x ++ [i]) = L (L x ++ [i]).
Proof using HT.
  apply longest_snoc; [apply W_nil|]. intros w Hw. by apply (t_closed _ _ _ _ HT) in Hw as [? _].
Qed.

Lemma W_node w : w ∈ W → ∃ u, W !! u = Some w.
Proof using. apply list_elem_of_lookup_1. Qed.

Lemma W_inj u v w : W !! u = Some w → W !! v = Some w → u = v.
Proof using HT. apply NoDup_lookup, (t_nodup _ _ _ _ HT). Qed.

(** [dn u i]: the edge [i] of node [u] is final; [V]: the nodes found so far. *)
Record completing (dn : nat → nat → Prop) (V : list nat) (ac : ACAutomaton) : Prop := {
  c_fail_len : length (fail ac) = length W;
  c_exists : exists_ ac = exists_ ac0;
  c_done : ∀ u w i, dn u i → W !! u = Some w → (i < validCharCount)%nat →
    ∃ v, goto ac u i = Some v ∧ W !! v = Some (L (w ++ [i]));
  c_todo : ∀ u w i, ¬ dn u i → W !! u = Some w → (i < validCharCount)%nat → goto ac u i = goto ac0 u i;
  c_fail : ∀ u w, u ∈ V → W !! u = Some w → ∃ f, fail ac !! u = Some f ∧ W !! f = Some (L (tail w));
  c_found : ∀ u w v i, W !! u = Some w → W !! v = Some (w ++ [i]) → (i < validCharCount)%nat → dn u i ↔ v ∈ V;
  c_nodup : NoDup V;
  c_range : ∀ u, u ∈ V → is_Some (W !! u)
}.

Lemma completing_ext dn dn' V ac :
  (∀ u i, (i < validCharCount)%nat → dn u i ↔ dn' u i) → completing dn V ac → completing dn' V ac.
Proof using.
  intros E [? ? Hd Ht ? Hf ? ?]. split; try done.
  - intros u w i ???. eapply Hd; [|done|done]. by apply E.
  - intros u w i H ??. eapply Ht; [|done|done]. by rewrite E.
  - intros. rewrite <- E by done. by eapply Hf.
Qed.

Lemma build_edge_completing dn V ac queue u w i :
  completing dn V ac → W !! u = Some w → w ≠ [] → (i < validCharCount)%nat → u ∈ V → ¬ dn u i →
  (∀ f, W !! f = Some (L (tail w)) → dn f i) →
  ∃ ac' new, build_edge u (ac, queue) i = Some (ac', queue ++ new) ∧
    completing (λ v j, dn v j ∨ (v = u ∧ j = i)) (V ++ (nextNode <$> new)) ac' ∧
    Forall (λ e, W !! nextNode e = Some (w ++ [i])) new.
Proof using HT.
  intros [Hfl Hex Hdone Htodo Hfail Hfound Hnd Hr] Hu Hw Hi HV Hdn Hf.
  destruct (Hfail _ _ HV Hu) as (f & Hff & HWf). pose proof (Hf _ HWf) as Hdf.
  destruct (Hdone _ _ _ Hdf HWf Hi) as (g & Hg & HWg).
  apply edge_goto in Hg as (fe & Hfe & <-).
  destruct (t_goto _ _ _ _ HT _ _ _ Hu Hi) as (v & Hv & Hcase).
  rewrite <- (Htodo _ _ _ Hdn Hu Hi) in Hv. apply edge_goto in Hv as (e & He & <-).
  destruct w as [|a w']; [done|]. cbn [tail] in *.
  rewrite <- L_snoc in HWg. unfold build_edge. rewrite He. cbn [mbind option_bind]. rewrite Hff.
  cbn [mbind option_bind]. rewrite Hfe. cbn [mbind option_bind].
  destruct Hcase as [[H0 Hnew]|[H0 Hold]].
  - rewrite decide_True by done. eexists _, []. rewrite app_nil_r. split; [done|]. split; [|constructor].
    cbn [fmap list_fmap]. rewrite app_nil_r. split; try done.
    + intros u' x j Hd Hu' Hj. rewrite (goto_set_edge _ _ _ _ _ _ _ He). cbn [nextNode]. case_decide as Hc.
      * destruct Hc as [-> ->]. simplify_eq. eexists. split; [done|]. rewrite HWg. f_equal. symmetry.
        by apply longest_cons.
      * destruct Hd as [Hd|?]; [|done]. by eapply Hdone.
    + intros u' x j Hd Hu' Hj. rewrite (goto_set_edge _ _ _ _ _ _ _ He).
      rewrite decide_False by tauto. eapply Htodo; [tauto|done|done].
    + intros u' x v' j Hu' Hv' Hj. rewrite <- (Hfound _ _ _ _ Hu' Hv' Hj). split; [|tauto].
      intros [?|[-> ->]]; [done|]. simplify_eq. exfalso. apply Hnew. by eapply list_elem_of_lookup_2.
  - rewrite decide_False by done. unfold set_fail.
    rewrite decide_True by (rewrite Hfl; by eapply lookup_lt_Some). cbn [mbind option_bind].
    eexists _, [e]. split; [done|]. split; [|by apply Forall_singleton]. cbn [fmap list_fmap].
    assert (nextNode e ∉ V) as HnV by (rewrite <- (Hfound _ _ _ _ Hu Hold Hi); done).
    split; cbn [fail exists_]; try done.
    + by rewrite length_insert.
    + intros u' x j Hd Hu' Hj. destruct Hd as [Hd|[-> ->]]; [by eapply Hdone|].
      simplify_eq. exists (nextNode e). unfold goto. change (edge _ u i) with (edge ac u i).
      rewrite He. split; [done|]. rewrite Hold. f_equal. symmetry. apply longest_self. by eapply list_elem_of_lookup_2.
    + intros u' x j Hd Hu' Hj. eapply (Htodo u' x j); [tauto|done|done].
    + intros u' x. rewrite elem_of_app, list_elem_of_singleton. destruct (decide (u' = nextNode e)) as [->|Hne].
      * intros _ Hx. simplify_eq. exists (nextNode fe).
        rewrite list_lookup_insert_eq by (rewrite Hfl; by eapply lookup_lt_Some). done.
      * intros [?|?] Hx; [|done]. rewrite list_lookup_insert_ne by done. by apply Hfail.
    + intros u' x v' j Hu' Hv' Hj. rewrite elem_of_app, list_elem_of_singleton, <- (Hfound _ _ _ _ Hu' Hv' Hj).
      split.
      * intros [?|[-> ->]]; [by left|]. right. simplify_eq. by eapply W_inj.
      * intros [?| ->]; [by left|]. right.
        rewrite Hold in Hv'. injection Hv' as E. change (a :: w' ++ [i]) with ((a :: w') ++ [i]) in E.
        apply app_inj_tail in E as [<- <-]. split; [|done]. by eapply W_inj.
    + apply NoDup_app. split_all; [done| |apply NoDup_singleton]. by intros x Hx ->%list_elem_of_singleton.
    + intros u'. rewrite elem_of_app, list_elem_of_singleton. intros [?| ->]; [by apply Hr|by eexists].
Qed.

Lemma build_row_completing D V ac queue u w k n :
  (k + n = validCharCount)%nat →
  completing (λ v j, v ∈ D ∨ (v = u ∧ (j < k)%nat)) V ac → W !! u = Some w → w ≠ [] → u ∈ V → u ∉ D →
  (∀ f, W !! f = Some (L (tail w)) → f ∈ D) →
  ∃ ac' new, build_row u (seq k n) (ac, queue) = Some (ac', queue ++ new) ∧
    completing (λ v j, v ∈ u :: D) (V ++ (nextNode <$> new)) ac' ∧
    Forall (λ e, ∃ i, W !! nextNode e = Some (w ++ [i])) new.
Proof using HT.
  revert k V ac queue. induction n as [|n IH]; intros k V ac queue Hk Hc Hu Hw HV HD Hf.
  - exists ac, []. cbn [seq build_row fmap list_fmap]. rewrite !app_nil_r. split_all; [done| |constructor].
    eapply completing_ext; [|done]. intros v j Hj. rewrite elem_of_cons. split.
    + intros [?|[-> _]]; [by right|by left].
    + intros [-> |?]; [right; split; [done|lia]|by left].
  - destruct (build_edge_completing (λ v j, v ∈ D ∨ (v = u ∧ (j < k)%nat)) V ac queue u w k)
      as (ac1 & new & Hb & Hc1 & Hnew); try done; [lia|naive_solver lia|intros; left; by apply Hf|].
    cbn [seq build_row]. rewrite Hb. cbn [mbind option_bind].
    destruct (IH (S k) (V ++ (nextNode <$> new)) ac1 (queue ++ new)) as (ac2 & new2 & Hb2 & Hc2 & Hn2); try done.
    + lia.
    + eapply completing_ext; [|exact Hc1]. intros v j Hj. cbn beta. split; [naive_solver lia|].
      intros [?|[-> ?]]; [tauto|]. destruct (decide (j = k)) as [->|]; [tauto|]. left. right. split; [done|lia].
    + apply elem_of_app. by left.
    + exists ac2, (new ++ new2). rewrite Hb2, fmap_app, !(assoc_L (++)). split_all; [done|done|].
      apply Forall_app. split; [|done]. eapply Forall_impl; [exact Hnew|]. intros e He. by exists k.
Qed.

(** Every node is finished or lies below a queued one. *)
Lemma completing_cover D Q ac v w :
  completing (λ u _, u ∈ D) (D ++ Q) ac → 0%nat ∈ D → W !! v = Some w →
  v ∈ D ∨ ∃ q x, q ∈ Q ∧ W !! q = Some x ∧ x `prefix_of` w.
Proof using HT.
  intros Hc H0. revert v. induction w as [|i w IH] using rev_ind; intros v Hv.
  - left. by rewrite (W_inj _ _ _ Hv (t_root _ _ _ _ HT)).
  - destruct (t_closed _ _ _ _ HT w i) as [Hw Hi]; [by eapply list_elem_of_lookup_2|].
    apply W_node in Hw as [u Hu]. destruct (IH u Hu) as [HD|(q & x & ? & ? & ?)].
    + apply (c_found _ _ _ Hc _ _ _ _ Hu Hv Hi) in HD. apply elem_of_app in HD as [?|?]; [by left|].
      right. by exists v, (w ++ [i]).
    + right. exists q, x. split_all; [done|done|]. by apply prefix_app_r.
Qed.

Definition depth (d : nat) (e : Edge) : Prop := ∃ w, W !! nextNode e = Some w ∧ length w = d.

(** The queue holds nodes of one depth and then nodes of the next. *)
Definition layered (queue : list Edge) : Prop :=
  ∃ d q1 q2, queue = q1 ++ q2 ∧ Forall (depth d) q1 ∧ Forall (depth (S d)) q2.

Lemma layered_head e queue : layered (e :: queue) →
  ∃ d q1 q2, queue = q1 ++ q2 ∧ depth d e ∧ Forall (depth d) q1 ∧ Forall (depth (S d)) q2.
Proof using.
  intros (d & q1 & q2 & E & H1 & H2). destruct q1 as [|e' q1].
  - cbn in E. subst. apply Forall_cons in H2 as [He H2]. exists (S d), queue, [].
    rewrite app_nil_r. split_all; [done|done|done|constructor].
  - injection E as <- ->. apply Forall_cons in H1 as [He H1]. by exists d, q1, q2.
Qed.

Lemma nodes_bound l : NoDup l → (∀ u, u ∈ l → is_Some (W !! u)) → (length l ≤ length W)%nat.
Proof using.
  intros Hnd Hr. rewrite <- (length_seq (length W) 0). apply submseteq_length, NoDup_submseteq; [done|].
  intros u Hu. apply elem_of_seq. apply Hr, lookup_lt_is_Some_1 in Hu. lia.
Qed.

Lemma build_loop_completing fuel D ac queue :
  completing (λ u _, u ∈ D) (D ++ (nextNode <$> queue)) ac → 0%nat ∈ D → layered queue →
  (length W - length D < fuel)%nat →
  ∃ ac' D', build_loop fuel (ac, queue) = Ret ac' ∧ completing (λ u _, u ∈ D') (D' ++ []) ac' ∧ 0%nat ∈ D'.
Proof using HT.
  revert D ac queue. induction fuel as [|fuel IH]; intros D ac queue Hc H0 Hq Hfuel; [lia|].
  destruct queue as [|e queue]; cbn [build_loop fst snd]; [by exists ac, D|].
  apply layered_head in Hq as (d & q1 & q2 & -> & (w & Hw & Hd) & H1 & H2).
  set (u := nextNode e) in *. set (queue := q1 ++ q2) in *. cbn [fmap list_fmap] in Hc. fold u in Hc.
  pose proof (c_nodup _ _ _ Hc) as Hnd. apply NoDup_app in Hnd as (_ & Hdisj & _).
  assert (u ∉ D) as HuD by (intros H; apply (Hdisj _ H), list_elem_of_here).
  assert (w ≠ []) as Hw0. { intros ->. apply HuD. by rewrite (W_inj _ _ _ Hw (t_root _ _ _ _ HT)). }
  destruct (build_row_completing D (D ++ u :: (nextNode <$> queue)) ac queue u w 0 validCharCount)
    as (ac1 & new & Hb & Hc1 & Hnew); try done.
  - eapply completing_ext; [|exact Hc]. intros. cbn beta. split; [tauto|intros [?|[_ ?]]; [done|lia]].
  - apply elem_of_app. right. apply list_elem_of_here.
  - intros f Hf. destruct (completing_cover D _ ac f _ Hc H0 Hf) as [?|(q & x & Hin & Hqx & Hp)]; [done|exfalso].
    apply prefix_length in Hp. pose proof (suffix_length _ _ (longest_suffix W (tail w))) as Hs. fold L in Hs.
    assert (length (tail w) < d)%nat by (destruct w; [done|simpl in *; lia]).
    assert (d ≤ length x)%nat; [|lia]. apply elem_of_cons in Hin as [->|Hin]; [unfold u in *; simplify_eq; lia|].
    apply list_elem_of_fmap in Hin as (e' & -> & He'). apply elem_of_app in He' as [He'|He'].
    + eapply Forall_forall in H1 as (y & Hy & <-); [|exact He']. simplify_eq. lia.
    + eapply Forall_forall in H2 as (y & Hy & Hl); [|exact He']. simplify_eq. lia.
  - rewrite Hb. apply (IH (u :: D)).
    + rewrite fmap_app. destruct Hc1 as [? ? ? ? Hfa Hfo Hnd Hr].
      assert (∀ x, x ∈ (u :: D) ++ (nextNode <$> queue) ++ (nextNode <$> new) ↔
                   x ∈ (D ++ u :: (nextNode <$> queue)) ++ (nextNode <$> new)) as Hel
        by (intros x; rewrite ?elem_of_app, ?elem_of_cons, ?elem_of_app; tauto).
      split; try done.
      * intros v x Hv. apply Hfa. by apply Hel.
      * intros. rewrite Hel. by eapply Hfo.
      * assert ((u :: D) ++ (nextNode <$> queue) ++ (nextNode <$> new) ≡ₚ
                (D ++ u :: (nextNode <$> queue)) ++ (nextNode <$> new)) as E; [|by rewrite E].
        rewrite (assoc_L (++)). f_equiv. apply (Permutation_middle D).
      * intros v Hv. apply Hr. by apply Hel.
    + by apply list_elem_of_further.
    + exists d, q1, (q2 ++ new). unfold queue. split_all; [by rewrite (assoc_L (++))|done|].
      apply Forall_app. split; [done|]. eapply Forall_impl; [exact Hnew|]. intros e' [i Hi].
      exists (w ++ [i]). split; [done|]. rewrite length_app. simpl. lia.
    + assert (length (u :: D) ≤ length W)%nat; [|simpl in *; lia].
      apply nodes_bound.
      * constructor; [done|]. pose proof (c_nodup _ _ _ Hc) as Hnd. by apply NoDup_app in Hnd as (? & _ & _).
      * intros x Hx. apply (c_range _ _ _ Hc). rewrite elem_of_app, elem_of_cons.
        apply elem_of_cons in Hx. tauto.
Qed.
End build.

Section run.
Context (W P K : list word) (ac0 : ACAutomaton) (HT : is_trie W P K ac0).

Lemma root_queue_elem e :
  e ∈ root_queue ac0 ↔ ∃ i, (i < validCharCount)%nat ∧ edge ac0 0 i = Some e ∧ W !! nextNode e = Some [i].
Proof using HT.
  pose proof (t_root _ _ _ _ HT) as H0. pose proof (trie_lookup_lt _ _ _ _ HT _ _ H0) as Hlt.
  apply lookup_lt_is_Some_2 in Hlt as [row Hrow]. pose proof (t_rows _ _ _ _ HT _ _ Hrow) as Hlen.
  assert (∀ i, edge ac0 0 i = row !! i) as He by (intros i; unfold edge; by rewrite Hrow).
  unfold root_queue. rewrite Hrow. cbn [from_option Datatypes.id]. rewrite list_elem_of_filter. split.
  - intros [Hne [i Hi]%list_elem_of_lookup_1]. pose proof (lookup_lt_Some _ _ _ Hi) as Hb. rewrite Hlen in Hb.
    exists i. rewrite He. split_all; [done|done|]. destruct (t_goto _ _ _ _ HT _ _ _ H0 Hb) as (v & Hv & Hc).
    unfold goto in Hv. rewrite He, Hi in Hv. cbn in Hv. injection Hv as <-. by destruct Hc as [[??]|[??]].
  - intros (i & Hb & Hi & Hw). rewrite He in Hi. split; [|by eapply list_elem_of_lookup_2].
    intros E. rewrite E, H0 in Hw. done.
Qed.

Lemma root_queue_nodup : NoDup (nextNode <$> root_queue ac0).
Proof using HT.
  apply NoDup_fmap_filter. intros i j x y Hx Hy Hx0 Hy0 E.
  pose proof (t_root _ _ _ _ HT) as H0. pose proof (trie_lookup_lt _ _ _ _ HT _ _ H0) as Hlt.
  apply lookup_lt_is_Some_2 in Hlt as [row Hrow]. pose proof (t_rows _ _ _ _ HT _ _ Hrow) as Hlen.
  rewrite Hrow in Hx, Hy. cbn [from_option Datatypes.id] in Hx, Hy.
  assert (∀ k z, row !! k = Some z → nextNode z ≠ 0%nat → W !! nextNode z = Some [k]) as Hk.
  { intros k z Hz Hz0. pose proof (lookup_lt_Some _ _ _ Hz) as Hb. rewrite Hlen in Hb.
    destruct (t_goto _ _ _ _ HT _ _ _ H0 Hb) as (v & Hv & Hc). unfold goto, edge in Hv. rewrite Hrow in Hv.
    cbn in Hv. rewrite Hz in Hv. cbn in Hv. injection Hv as <-. by destruct Hc as [[??]|[??]]. }
  apply Hk in Hx, Hy; [|done..]. rewrite E in Hx. by simplify_eq.
Qed.

Lemma completing_root : completing W ac0 (λ u _, u ∈ [0%nat]) ([0%nat] ++ (nextNode <$> root_queue ac0)) ac0.
Proof using HT.
  pose proof (t_root _ _ _ _ HT) as H0.
  assert (∀ v, v ∈ nextNode <$> root_queue ac0 → ∃ i, W !! v = Some [i]) as Hq.
  { intros v (e & -> & (i & _ & _ & Hi)%root_queue_elem)%list_elem_of_fmap. by exists i. }
  split; try done.
  - apply (t_fail_len _ _ _ _ HT).
  - intros u w i ->%list_elem_of_singleton Hu Hi. simplify_eq. cbn [app].
    destruct (t_goto _ _ _ _ HT _ _ _ H0 Hi) as (v & Hv & [[-> Hn]|[_ Hin]]); (eexists; split; [exact Hv|]).
    + rewrite longest_cons by done. by rewrite longest_self by (by eapply W_nil).
    + rewrite Hin. f_equal. symmetry. apply longest_self. by eapply list_elem_of_lookup_2.
  - intros u w. rewrite elem_of_app, list_elem_of_singleton. intros Hu Hw. exists 0%nat.
    split; [by eapply (t_fail _ _ _ _ HT), lookup_lt_Some|]. rewrite H0. f_equal. symmetry.
    assert (tail w = []) as ->; [|by eapply longest_self, W_nil].
    destruct Hu as [-> |[i Hi]%Hq]; by simplify_eq.
  - intros u w v i Hu Hv Hi. rewrite elem_of_app, !list_elem_of_singleton. split.
    + intros ->. right. simplify_eq. cbn [app] in Hv.
      destruct (t_goto _ _ _ _ HT _ _ _ H0 Hi) as (v' & Hv' & [[-> Hn]|[_ Hin]]).
      { exfalso. apply Hn. by eapply list_elem_of_lookup_2. }
      apply edge_goto in Hv' as (e & He & <-). apply list_elem_of_fmap. exists e.
      split; [by eapply W_inj|]. apply root_queue_elem. by exists i.
    + intros [-> |[j Hj]%Hq].
      * rewrite H0 in Hv. injection Hv as Hv. by destruct w.
      * simplify_eq. destruct w as [|? [|]]; try done. by eapply W_inj.
  - constructor; [|apply root_queue_nodup]. intros [i Hi]%Hq. by rewrite H0 in Hi.
  - intros u. rewrite elem_of_app, list_elem_of_singleton. intros [-> |[i Hi]%Hq]; by eexists.
Qed.

(** [Build] ends and makes every edge lead to the longest known end. *)
Lemma ac_Build_complete :
  ∃ ac, ac_Build ac0 = Ret ac ∧ exists_ ac = exists_ ac0 ∧
    ∀ u w i, W !! u = Some w → (i < validCharCount)%nat →
      ∃ v, goto ac u i = Some v ∧ W !! v = Some (longest W (w ++ [i])).
Proof using HT.
  destruct (build_loop_completing W P K ac0 HT (S (length (trie ac0))) [0%nat] ac0 (root_queue ac0))
    as (ac & D & Hb & Hc & H0).
  - apply completing_root.
  - apply list_elem_of_here.
  - exists 1%nat, (root_queue ac0), []. rewrite app_nil_r. split_all; [done| |constructor].
    apply Forall_forall. intros e (i & _ & _ & Hi)%root_queue_elem. by exists [i].
  - rewrite (t_trie _ _ _ _ HT). simpl. lia.
  - exists ac. split; [exact Hb|]. split; [apply (c_exists _ _ _ _ _ Hc)|]. intros u w i Hu Hi.
    eapply (c_done _ _ _ _ _ Hc); [|done|done].
    destruct (completing_cover W P K ac0 HT D [] ac u w Hc H0 Hu) as [?|(q & x & Hq & _)]; [done|].
    by apply elem_of_nil in Hq.
Qed.

Context (ac : ACAutomaton) (Hex : exists_ ac = exists_ ac0).
Context (Hgo : ∀ u w i, W !! u = Some w → (i < validCharCount)%nat →
  ∃ v, goto ac u i = Some v ∧ W !! v = Some (longest W (w ++ [i]))).

Lemma match_chars_run cs y x u full :
  index_word cs = Some y → W !! u = Some (longest W x) → (x = [] ∧ full = true ∨ longest W x ∉ K) →
  ∃ b, match_chars ac cs u full = Some b ∧
    (b = true ↔ ∃ y1, y1 `prefix_of` y ∧ (y1 ≠ [] ∨ y = []) ∧ longest W (x ++ y1) ∈ K).
Proof using HT Hex Hgo.
  revert y x u full. induction cs as [|c cs IH]; intros y x u full Hy Hu Hx.
  - injection Hy as <-. cbn [match_chars]. rewrite Hex, (t_exists _ _ _ _ HT _ _ Hu). cbn [mbind option_bind].
    eexists. split; [done|]. unfold mark. split.
    + intros [_ Hm]%andb_true_iff. case_decide; [|done]. exists []. rewrite app_nil_r. auto.
    + intros (y1 & ->%prefix_nil_inv & _ & Hin). rewrite app_nil_r in Hin. rewrite decide_True by done.
      destruct Hx as [[_ ->]|?]; done.
  - unfold index_word in Hy. cbn [mapM] in Hy. destruct (char2Index c) as [i|] eqn:Hc; [|done].
    destruct (mapM char2Index cs) as [y'|] eqn:Hcs; [|done]. cbn in Hy. injection Hy as <-.
    destruct (Hgo _ _ _ Hu (char2Index_bound _ _ Hc)) as (v & Hv & HWv).
    apply edge_goto in Hv as (e & He & <-). rewrite <- (L_snoc W P K ac0 HT) in HWv.
    cbn [match_chars]. rewrite Hc, He. cbn [mbind option_bind].
    rewrite Hex, (t_exists _ _ _ _ HT _ _ HWv). cbn [mbind option_bind].
    destruct (decide (longest W (x ++ [i]) ∈ K)) as [Hin|Hin].
    + rewrite mark_in by done. cbn [matchType]. rewrite decide_True by done. exists true. split; [done|]. split; [|done]. intros _.
      exists [i]. split_all; [by apply prefix_cons, prefix_nil|by left|done].
    + rewrite mark_out by done. cbn [matchType no_match]. rewrite decide_False by done.
      rewrite decide_False by (by intros [??]).
      destruct (IH y' (x ++ [i]) (nextNode e) (full && edgeType e) Hcs HWv (or_intror Hin)) as (b & Hb & Hspec).
      exists b. split; [done|]. rewrite Hspec. split.
      * intros (y1 & Hp & _ & HK). exists (i :: y1). rewrite <- (assoc_L (++)) in HK.
        split_all; [by apply prefix_cons|by left|done].
      * intros (y1 & Hp & [Hne|?] & HK); [|done]. destruct y1 as [|j y1]; [done|].
        pose proof (prefix_cons_inv_1 _ _ _ _ Hp) as ->. apply prefix_cons_inv_2 in Hp.
        exists y1. rewrite <- (assoc_L (++)). split_all; [done| |done].
        destruct y1; [|by left]. right. destruct (decide (y' = [])) as [|Hy']; [done|].
        exfalso. apply Hin. done.
Qed.

End run.

(** ** Keywords *)

Definition infix (k s : word) : Prop := ∃ p q, s = p ++ k ++ q.

Lemma keyword_automaton_run ks ws s R :
  keyword_words ks = Some ws → index_word (reverse s) = Some R →
  ∃ ac b, keyword_automaton ks = Ret ac ∧ ac_Match ac s = Some b ∧
    (b = true → ∃ k, k ∈ ws ∧ infix k R) ∧
    ((∀ k k', k ∈ ws → k' ∈ ws → infix k k' → k = k') → (∃ k, k ∈ ws ∧ infix k R) → b = true).
Proof.
  intros Hws HR.
  destruct (add_keywords_trie ks ws [[]] ws [] NewACAutomaton Hws) as (ac0 & W & Hadd & HT).
  { by apply Forall_forall. } { apply is_trie_new. }
  rewrite app_nil_r in HT. set (K := reverse ws) in *.
  assert (∀ w, w ∈ K ↔ w ∈ ws) as HK by (intros w; apply elem_of_reverse).
  destruct (ac_Build_complete W ws K ac0 HT) as (ac & Hb & Hex & Hgo).
  destruct (match_chars_run W ws K ac0 HT ac Hex Hgo (reverse s) R [] 0 true HR) as (b & Hm & Hspec).
  { rewrite longest_self by (by eapply W_nil). apply (t_root _ _ _ _ HT). } { by left. }
  exists ac, b. split_all; [by unfold keyword_automaton, ret_or_panic; rewrite Hadd|done|..].
  - intros (y1 & [q ->] & _ & Hin)%Hspec. exists (longest W y1). split; [by apply HK|].
    destruct (longest_suffix W y1) as [p Hp]. exists p, q. by rewrite (assoc_L (++)), <- Hp.
  - intros Hno (k & Hk & p & q & ->). apply Hspec.
    assert (k ∈ W) as HkW by (apply (t_words _ _ _ _ HT); by apply HK).
    assert (∀ x, k `suffix_of` x → longest W x ∈ ws) as Hx.
    { intros x Hs. pose proof (longest_max W k x HkW Hs) as [u Hu].
      destruct (t_prefix _ _ _ _ HT (longest W x)) as [E|(k' & Hk' & v & Hv)].
      - apply longest_in. by eapply W_nil.
      - rewrite E in Hu |- *. by destruct u, k.
      - assert (k = k') as E by (apply Hno; [done..|]; exists u, v; by rewrite Hv, Hu, <- (assoc_L (++))).
        rewrite Hu in Hv |- *. subst k'. apply (f_equal length) in E. rewrite !length_app in E.
        destruct u; [done|simpl in E; lia]. }
    destruct (decide (p ++ k = [])) as [E|Hne].
    + destruct p; [|done]. cbn in E. subst k. cbn [app]. destruct q as [|c q].
      * exists []. split_all; [done|by right|]. by apply HK, Hx.
      * exists [c]. split_all; [apply prefix_cons, prefix_nil|by left|]. apply HK, Hx, suffix_nil.
    + exists (p ++ k). split_all; [rewrite (assoc_L (++)); by apply prefix_app_r|by left|].
      apply HK, Hx. by exists p.
Qed.

Lemma add_loop_index cs a u r : add_loop cs a u = Some r → is_Some (index_word cs).
Proof.
  revert a u. induction cs as [|c cs IH]; intros a u; [by eexists|]. cbn [add_loop].
  unfold index_word in *. cbn [mapM]. destruct (char2Index c) as [i|]; [|done]. cbn.
  destruct (add_child a u i) as [[a' v]|]; [|done]. cbn. intros [w Hw]%IH. by rewrite Hw.
Qed.

Lemma add_keywords_index ks a a' : add_keywords ks a = Some a' → is_Some (keyword_words ks).
Proof.
  revert a. induction ks as [|k ks IH]; intros a; [by eexists|]. cbn [add_keywords]. unfold ac_Add.
  destruct (add_loop (reverse k) a 0) as [[a1 v]|] eqn:E; [|done]. apply add_loop_index in E as [w Hw].
  unfold keyword_words in *. cbn [mapM]. rewrite Hw. cbn [mbind option_bind].
  destruct (set_exists v _ a1) as [a2|]; [|done]. cbn [mbind option_bind]. rewrite decide_False by done.
  cbn [mbind option_bind]. intros [ws Hws]%IH. by rewrite Hws.
Qed.

(** Whatever keywords could be added, [Build] ends without a panic. *)
Lemma keyword_Build_total ks a : add_keywords ks NewACAutomaton = Some a → ∃ a', ac_Build a = Ret a'.
Proof.
  intros Hadd. destruct (add_keywords_index _ _ _ Hadd) as [ws Hws].
  destruct (add_keywords_trie ks ws [[]] ws [] NewACAutomaton Hws) as (a1 & W & E & HT);
    [by apply Forall_forall|apply is_trie_new|].
  assert (a1 = a) as -> by congruence. destruct (ac_Build_complete _ _ _ _ HT) as (a' & ? & _). by exists a'.
Qed.

(** The characters of the table; the others below the tilde share the index of [a]. *)
Definition listed (c : Z) : bool := bool_decide (c ∈ mjoin char_rows).

Abbreviation lower := (fmap ascii_lower).

Definition idx (c : Z) : nat := default 0%nat (char2Index c).

Definition all_listed : list Z := mjoin char_rows.

Lemma listed_cases (Q : Z → bool) : forallb Q all_listed = true → ∀ c, listed c = true → Q c = true.
Proof.
  intros H c Hc. apply bool_decide_eq_true in Hc. rewrite forallb_forall in H. by apply H, list_elem_of_In.
Qed.

Lemma listed_index c : listed c = true → char2Index c = Some (idx c).
Proof.
  intros Hc. apply (listed_cases (λ c, bool_decide (char2Index c = Some (idx c)))) in Hc; [|by vm_compute].
  by apply bool_decide_eq_true in Hc.
Qed.

Lemma listed_lower c : listed c = true → idx (ascii_lower c) = idx c ∧ listed (ascii_lower c) = true.
Proof.
  intros Hc. apply (listed_cases (λ c, bool_decide (idx (ascii_lower c) = idx c) && listed (ascii_lower c))) in Hc;
    [|by vm_compute].
  apply andb_true_iff in Hc as [?%bool_decide_eq_true ?]. done.
Qed.

Lemma idx_lower_inj c d :
  listed c = true → listed d = true → idx (ascii_lower c) = idx (ascii_lower d) → ascii_lower c = ascii_lower d.
Proof.
  intros Hc Hd.
  pose proof (listed_cases (λ c, forallb (λ d, implb (Nat.eqb (idx (ascii_lower c)) (idx (ascii_lower d)))
    (Z.eqb (ascii_lower c) (ascii_lower d))) all_listed) ltac:(by vm_compute) c Hc) as H. cbn beta in H.
  apply (listed_cases _ H d) in Hd. intros E%Nat.eqb_eq. rewrite E in Hd. by apply Z.eqb_eq.
Qed.

Definition plain (s : bytes) : Prop := Forall (λ c, listed c = true) s.

Lemma plain_index s : plain s → index_word s = Some (idx <$> s).
Proof.
  induction 1 as [|c s Hc _ IH]; [done|]. unfold index_word in *. cbn [mapM].
  by rewrite (listed_index _ Hc), IH.
Qed.

Lemma plain_lower_idx s : plain s → idx <$> lower s = idx <$> s.
Proof.
  induction 1 as [|c s Hc _ IH]; [done|]. cbn [fmap list_fmap]. f_equal; [by apply listed_lower|done].
Qed.

Lemma plain_lower_inj s t : plain s → plain t → idx <$> s = idx <$> t → lower s = lower t.
Proof.
  intros Hs. revert t. induction Hs as [|c s Hc Hs IH]; intros [|d t] Ht E; try done.
  apply Forall_cons in Ht as [Hd Ht]. injection E as E1 E2. cbn [fmap list_fmap]. f_equal; [|by apply IH].
  apply idx_lower_inj; [done..|]. by rewrite (proj1 (listed_lower c Hc)), (proj1 (listed_lower d Hd)).
Qed.

Lemma infix_reverse k s : infix (reverse k) (reverse s) ↔ infix k s.
Proof.
  split; intros (p & q & E); exists (reverse q), (reverse p).
  - rewrite <- (reverse_involutive s), E, !reverse_app, reverse_involutive. by rewrite (assoc_L (++)).
  - by rewrite E, !reverse_app, (assoc_L (++)).
Qed.

(** On listed characters an infix of indexes is a substring up to case. *)
Lemma infix_Contains k s :
  plain k → plain s → infix (idx <$> k) (idx <$> s) ↔ Contains (lower s) (lower k) = true.
Proof.
  intros Hk Hs. rewrite Contains_spec. split.
  - intros (p & q & E). apply fmap_app_inv in E as (s1 & s23 & _ & E23 & ->).
    symmetry in E23. apply fmap_app_inv in E23 as (s2 & s3 & E2 & _ & ->).
    apply Forall_app in Hs as [_ [Hs2 _]%Forall_app]. exists (lower s1), (lower s3).
    rewrite !fmap_app. do 2 f_equal. by apply plain_lower_inj.
  - intros (p & q & E). exists (idx <$> p), (idx <$> q).
    rewrite <- (plain_lower_idx s Hs), <- (plain_lower_idx k Hk), E, !fmap_app. done.
Qed.

(** Some keyword occurs in the input, whatever the case of the letters. *)
Definition contains_keyword (ks : list bytes) (s : bytes) : bool :=
  existsb (λ k, Contains (lower s) (lower k)) ks.

Definition no_keyword_inside (ks : list bytes) : Prop :=
  ∀ k k', k ∈ ks → k' ∈ ks → Contains (lower k') (lower k) = true → lower k = lower k'.

Lemma plain_keyword_words ks :
  Forall plain ks → keyword_words ks = Some ((λ k, reverse (idx <$> k)) <$> ks).
Proof.
  induction 1 as [|k ks Hk _ IH]; [done|]. unfold keyword_words in *. cbn [mapM].
  rewrite plain_index by by apply Forall_reverse. rewrite IH. cbn. by rewrite fmap_reverse.
Qed.

Lemma plain_keyword_automaton ks s :
  Forall plain ks → plain s →
  ∃ ac b, keyword_automaton ks = Ret ac ∧ ac_Match ac s = Some b ∧
    (b = true → contains_keyword ks s = true) ∧
    (no_keyword_inside ks → b = contains_keyword ks s).
Proof.
  intros Hks Hs.
  destruct (keyword_automaton_run ks _ s _ (plain_keyword_words ks Hks)
    (plain_index (reverse s) (proj2 (Forall_reverse _ _) Hs))) as (ac & b & Hac & Hb & Hsound & Hcomp).
  assert ((∃ k, k ∈ (λ k, reverse (idx <$> k)) <$> ks ∧ infix k (idx <$> reverse s)) ↔
          contains_keyword ks s = true) as Hiff.
  { unfold contains_keyword. rewrite existsb_exists. rewrite Forall_forall in Hks. rewrite fmap_reverse. split.
    - intros (? & (k & -> & Hk)%list_elem_of_fmap & Hi). exists k. split; [by apply list_elem_of_In|].
      apply infix_Contains; [by apply Hks|done|]. by apply infix_reverse.
    - intros (k & Hk%list_elem_of_In & Hi). exists (reverse (idx <$> k)). split; [apply list_elem_of_fmap; by exists k|].
      apply infix_reverse, infix_Contains; [by apply Hks|done..]. }
  exists ac, b. split_all; [done|done|by rewrite <- Hiff|]. intros Hno.
  assert (b = true ↔ contains_keyword ks s = true) as E; [|by destruct b, (contains_keyword ks s); naive_solver].
  rewrite <- Hiff. split; [done|]. apply Hcomp. rewrite Forall_forall in Hks.
  intros ? ? (k & -> & Hk)%list_elem_of_fmap (k' & -> & Hk')%list_elem_of_fmap Hi.
  rewrite infix_reverse in Hi. apply infix_Contains in Hi; [|by apply Hks..].
  f_equal. rewrite <- (plain_lower_idx k), <- (plain_lower_idx k') by by apply Hks. f_equal. by apply Hno.
Qed.

(** The automaton of any keywords over the listed characters is built, and on every
    input over them it ends: it reports a keyword only if one occurs, and it
    reports one that occurs when no keyword lies inside another. *)
Theorem ac_keywords_spec ks s :
  Forall plain ks → plain s →
  ∃ ac b, keyword_automaton ks = Ret ac ∧ ac_Match ac s = Some b ∧
    (b = true → contains_keyword ks s = true) ∧
    (no_keyword_inside ks → b = contains_keyword ks s).
Proof. apply plain_keyword_automaton. Qed.

Lemma ac_keywords_spec_witness :
  let ks := [lit "Tracker"; lit "ads."; lit "beacon"] in
  no_keyword_inside ks ∧ contains_keyword ks (lit "cdn.myADS.net") = true ∧
  ∃ ac b, keyword_automaton ks = Ret ac ∧ ac_Match ac (lit "cdn.myADS.net") = Some b ∧
    (b = true → contains_keyword ks (lit "cdn.myADS.net") = true) ∧
    (no_keyword_inside ks → b = contains_keyword ks (lit "cdn.myADS.net")).
Proof.
  intros ks. split; [|split].
  - assert (Forall (λ k, Forall (λ k', Contains (lower k') (lower k) = true → lower k = lower k') ks) ks) as H
      by (apply (bool_decide_unpack _); vm_compute; exact I).
    intros k k' Hk Hk'. rewrite Forall_forall in H. specialize (H k Hk). rewrite Forall_forall in H. by apply H.
  - vm_compute. reflexivity.
  - apply (ac_keywords_spec ks (lit "cdn.myADS.net")); apply (bool_decide_unpack _); vm_compute; exact I.
Defined.

(** The failure links are followed but never asked for a mark: a keyword that lies
    inside another is missed where the longer one does not go on. *)
Lemma ac_misses_keyword :
  match keyword_automaton [lit "abc"; lit "b"] with
  | Ret ac => ac_Match ac (lit "xbc") = Some false
  | _ => False
  end ∧ contains_keyword [lit "abc"; lit "b"] (lit "xbc") = true.
Proof. by vm_compute. Qed.

(** A character that the table does not list has the index of the letter a. *)
Lemma ac_unlisted_is_a :
  match keyword_automaton [lit "abc"] with
  | Ret ac => ac_Match ac (lit "x/bc") = Some true
  | _ => False
  end ∧ contains_keyword [lit "abc"] (lit "x/bc") = false.
Proof. by vm_compute. Qed.
