(* ===== verification/Mph.v ===== *)
(** The matcher group of large rule sets
    (src/upstream/xray-core/common/strmatcher/mph_matcher.go): full and domain
    patterns in a two-level perfect hash table, keywords in the automaton, regular
    expressions one by one. *)
From stdpp Require Import gmap sorting.
From S2P Require Import Prelude GoText StrMatcher AcAutomaton.

(** ** Hashes *)

Definition PrimeRK : Z := 16777619.

(** One turn of [h = h*PrimeRK + uint32(c)]. *)
Definition roll (h c : Z) : Z := u32 (h * PrimeRK + c).

(** The loop runs from the last byte to the first. *)
Definition RollingHash (s : bytes) : Z := foldl roll 0 (reverse s).

Definition m1 : Z := 16877499708836156737.
Definition m2 : Z := 2820277070424839065.
Definition m3 : Z := 9497967016996688599.
Definition m4 : Z := 15839092249703872147.

Definition rotl31 (x : Z) : Z := Z.lor (u64 (Z.shiftl x 31)) (Z.shiftr x (64 - 31)).

(** The little-endian value of the [n] bytes at offset [off]; the cases of the
    length keep every read inside the string. *)
Definition readUnaligned (n off : nat) (p : bytes) : Z := be_val (reverse (take n (drop off p))).

Definition readUnaligned32 : nat → bytes → Z := readUnaligned 4.
Definition readUnaligned64 : nat → bytes → Z := readUnaligned 8.

Definition byte_at (off : nat) (p : bytes) : Z := readUnaligned 1 off p.

(** [h = rotl31(h*a) * b]. *)
Definition mix (h a b : Z) : Z := u64 (rotl31 (u64 (h * a)) * b).

(** The cases below the label [tail] for at most 32 bytes. *)
Definition hash_tail (h : Z) (p : bytes) : Z :=
  let s := length p in
  if decide (s = 0%nat) then h
  else if decide (s < 4)%nat then
    let h := Z.lxor h (byte_at 0 p) in
    let h := Z.lxor h (Z.shiftl (byte_at (s / 2) p) 8) in
    let h := Z.lxor h (Z.shiftl (byte_at (s - 1) p) 16) in
    mix h m1 m2
  else if decide (s ≤ 8)%nat then
    let h := Z.lxor h (readUnaligned32 0 p) in
    let h := Z.lxor h (Z.shiftl (readUnaligned32 (s - 4) p) 32) in
    mix h m1 m2
  else if decide (s ≤ 16)%nat then
    let h := mix (Z.lxor h (readUnaligned64 0 p)) m1 m2 in
    mix (Z.lxor h (readUnaligned64 (s - 8) p)) m1 m2
  else
    let h := mix (Z.lxor h (readUnaligned64 0 p)) m1 m2 in
    let h := mix (Z.lxor h (readUnaligned64 8 p)) m1 m2 in
    let h := mix (Z.lxor h (readUnaligned64 (s - 16) p)) m1 m2 in
    mix (Z.lxor h (readUnaligned64 (s - 8) p)) m1 m2.

(** The loop over blocks of 32 bytes; the number of blocks is fuel enough. *)
Fixpoint hash_blocks (fuel : nat) (v1 v2 v3 v4 : Z) (p : bytes) : Z * bytes :=
  match fuel with
  | O => (Z.lxor (Z.lxor (Z.lxor v1 v2) v3) v4, p)
  | S fuel =>
      if decide (32 ≤ length p)%nat then
        hash_blocks fuel
          (mix (Z.lxor v1 (readUnaligned64 0 p)) m1 m2) (mix (Z.lxor v2 (readUnaligned64 8 p)) m2 m3)
          (mix (Z.lxor v3 (readUnaligned64 16 p)) m3 m4) (mix (Z.lxor v4 (readUnaligned64 24 p)) m4 m1)
          (drop 32 p)
      else (Z.lxor (Z.lxor (Z.lxor v1 v2) v3) v4, p)
  end.

(** The elements of [hashkey] are all one. *)
Definition memhashFallback (p : bytes) (seed : Z) : Z :=
  let h := u64 (seed + Z.of_nat (length p)) in
  let h := if decide (length p ≤ 32)%nat then hash_tail h p
           else let '(h, p) := hash_blocks (length p / 32) h seed seed seed p in hash_tail h p in
  let h := Z.lxor h (Z.shiftr h 29) in
  let h := u64 (h * m3) in
  Z.lxor h (Z.shiftr h 32).

Definition strhashFallback (s : bytes) (seed : Z) : Z := memhashFallback s seed.

(** ** The group *)

Record MphMatcherGroup := {
  ac : option ACAutomaton;
  mph_otherMatchers : list matcherEntry;
  rules : list bytes;
  level0 : list Z;
  level0Mask : Z;
  level1 : list Z;
  level1Mask : Z;
  mph_count : Z;
  ruleMap : gmap bytes Z
}.

Definition NewMphMatcherGroup : MphMatcherGroup :=
  {| ac := None; mph_otherMatchers := []; rules := []; level0 := []; level0Mask := 0; level1 := [];
     level1Mask := 0; mph_count := 1; ruleMap := ∅ |}.

Definition set_ruleMap (m : gmap bytes Z) (g : MphMatcherGroup) : MphMatcherGroup :=
  {| ac := ac g; mph_otherMatchers := mph_otherMatchers g; rules := rules g; level0 := level0 g;
     level0Mask := level0Mask g; level1 := level1 g; level1Mask := level1Mask g; mph_count := mph_count g;
     ruleMap := m |}.

Definition set_ac (a : option ACAutomaton) (g : MphMatcherGroup) : MphMatcherGroup :=
  {| ac := a; mph_otherMatchers := mph_otherMatchers g; rules := rules g; level0 := level0 g;
     level0Mask := level0Mask g; level1 := level1 g; level1Mask := level1Mask g; mph_count := mph_count g;
     ruleMap := ruleMap g |}.

Definition set_others (l : list matcherEntry) (g : MphMatcherGroup) : MphMatcherGroup :=
  {| ac := ac g; mph_otherMatchers := l; rules := rules g; level0 := level0 g;
     level0Mask := level0Mask g; level1 := level1 g; level1Mask := level1Mask g; mph_count := mph_count g;
     ruleMap := ruleMap g |}.

Definition AddFullOrDomainPattern (pattern : bytes) (t : Z) (g : MphMatcherGroup) : MphMatcherGroup :=
  let h := RollingHash pattern in
  let m := if decide (t = Domain) then <[dot :: pattern := roll h dot]> (ruleMap g) else ruleMap g in
  if decide (t = Domain ∨ t = Full) then set_ruleMap (<[pattern := h]> m) g else g.

(** [Fail] is an expression that does not compile; [Panic] an unknown type or a
    keyword with a byte past the table of the automaton. *)
Definition AddPattern `{UnicodeTables, RegexpEngine} (pattern : bytes) (t : Z) (g : MphMatcherGroup) :
  outcome (MphMatcherGroup * Z) :=
  if decide (t = Substr) then
    ret_or_panic (ac_Add pattern t (default NewACAutomaton (ac g))) (λ a,
    Ret (set_ac (Some a) g, mph_count g))
  else if decide (t = Full ∨ t = Domain) then
    Ret (AddFullOrDomainPattern (ToLower pattern) t g, mph_count g)
  else if decide (t = Regex) then
    match regexp_Compile pattern with
    | None => Fail
    | Some r =>
        Ret (set_others (mph_otherMatchers g ++ [{| m := regexMatcher pattern r; id := mph_count g |}]) g,
             mph_count g)
    end
  else Panic.

Definition nextPow2 (v : Z) : Z := if decide (v ≤ 1) then 1 else 2 ^ (Z.log2 v + 1).

Record indexBucket := { b_n : nat; b_vals : list nat }.

(** [sort.Sort(bySize(buckets))]: the larger buckets first, in an order among equals
    that the package leaves open. *)
Class SortBySize := sort_bySize : list indexBucket → list indexBucket.

Class SortBySizeLaws `{SortBySize} : Prop := {
  sort_bySize_perm : ∀ l, sort_bySize l ≡ₚ l;
  sort_bySize_sorted : ∀ l, StronglySorted (λ a b, length (b_vals b) ≤ length (b_vals a))%nat (sort_bySize l)
}.

Definition to_slot (h mask : Z) : nat := Z.to_nat (Z.land h mask).

Definition set_slots (b : bool) (ns : list nat) (occ : list bool) : list bool :=
  foldl (λ occ n, <[n := b]> occ) occ ns.

(** The turn of the seed loop for one seed: the slots of the rules of the bucket one
    after the other.  At an occupied slot the slots taken in this turn are freed
    again; what was written to [level1] stays. *)
Fixpoint try_seed (rules : list bytes) (mask seed : Z) (vals tmpOcc : list nat) (occ : list bool) (level1 : list Z) :
  bool * list bool * list Z :=
  match vals with
  | [] => (true, occ, level1)
  | i :: vals =>
      let n := to_slot (strhashFallback (rules !!! i) seed) mask in
      if (occ !!! n : bool) then (false, set_slots false tmpOcc occ, level1)
      else try_seed rules mask seed vals (tmpOcc ++ [n]) (<[n := true]> occ) (<[n := Z.of_nat i]> level1)
  end.

(** The seed loop has no bound of its own: with no seed that fits, it never ends. *)
Fixpoint seed_loop (fuel : nat) (rules : list bytes) (mask seed : Z) (vals : list nat) (occ : list bool)
  (level1 : list Z) : option (Z * list bool * list Z) :=
  match fuel with
  | O => None
  | S fuel =>
      let '(found, occ, level1) := try_seed rules mask seed vals [] occ level1 in
      if found : bool then Some (seed, occ, level1)
      else seed_loop fuel rules mask (u32 (seed + 1)) vals occ level1
  end.

Fixpoint place_buckets (fuel : nat) (rules : list bytes) (mask : Z) (buckets : list indexBucket)
  (level0 : list Z) (occ : list bool) (level1 : list Z) : option (list Z * list Z) :=
  match buckets with
  | [] => Some (level0, level1)
  | b :: buckets =>
      '(seed, occ, level1) ← seed_loop fuel rules mask 0 (b_vals b) occ level1;
      place_buckets fuel rules mask buckets (<[b_n b := seed]> level0) occ level1
  end.

(** The loop over the map: the rule of index [ruleIdx] goes to the bucket of its hash. *)
Fixpoint fill_buckets (order : list (bytes * Z)) (mask : Z) (ruleIdx : nat) (sparse : list (list nat)) :
  list (list nat) :=
  match order with
  | [] => sparse
  | (_, hash) :: order =>
      fill_buckets order mask (S ruleIdx) (alter (λ vals, vals ++ [ruleIdx]) (to_slot hash mask) sparse)
  end.

Definition nonempty_buckets (bs : list (list nat)) : list indexBucket :=
  filter (λ b, 0 < length (b_vals b))%nat (imap (λ n vals, {| b_n := n; b_vals := vals |}) bs).

Definition empty_rule : bytes := lit "empty___".

Definition filled_ruleMap (g : MphMatcherGroup) : gmap bytes Z :=
  if decide (size (ruleMap g) = 0%nat) then <[empty_rule := RollingHash empty_rule]> (ruleMap g) else ruleMap g.

(** [order] is the order in which the loop over the map meets its entries. *)
Definition mph_Build `{SortBySize} (fuel : nat) (order : list (bytes * Z)) (g : MphMatcherGroup) :
  outcome MphMatcherGroup :=
  let? a := match ac g with
            | None => Ret None
            | Some a => let? a := ac_Build a in Ret (Some a)
            end in
  let keyLen := if decide (size (ruleMap g) = 0%nat) then 1 else Z.of_nat (size (ruleMap g)) in
  let n0 := Z.to_nat (nextPow2 (keyLen / 4)) in
  let n1 := Z.to_nat (nextPow2 keyLen) in
  let mask0 := Z.of_nat n0 - 1 in
  let mask1 := Z.of_nat n1 - 1 in
  let buckets := sort_bySize (nonempty_buckets (fill_buckets order mask0 0 (replicate n0 []))) in
  match place_buckets fuel order.*1 mask1 buckets (replicate n0 0) (replicate n1 false) (replicate n1 0) with
  | None => Fail
  | Some (l0, l1) =>
      Ret {| ac := a; mph_otherMatchers := mph_otherMatchers g; rules := order.*1; level0 := l0;
             level0Mask := mask0; level1 := l1; level1Mask := mask1; mph_count := mph_count g; ruleMap := ∅ |}
  end.

(** [None] is an index out of range. *)
Definition Lookup (g : MphMatcherGroup) (h : Z) (s : bytes) : option bool :=
  seed ← level0 g !! to_slot h (level0Mask g);
  n ← level1 g !! to_slot (strhashFallback s seed) (level1Mask g);
  rule ← rules g !! Z.to_nat n;
  Some (bool_decide (s = rule)).

(** The loop of [Match] over the name from its end: [rest] is what is left of the
    reversed name, [seen] the part read. *)
Fixpoint match_suffixes (g : MphMatcherGroup) (rest seen : bytes) (hash : Z) : option (bool * Z) :=
  match rest with
  | [] => Some (false, hash)
  | c :: rest =>
      let hash := roll hash c in
      if decide (c = dot) then
        found ← Lookup g hash (c :: seen);
        if found : bool then Some (true, hash) else match_suffixes g rest (c :: seen) hash
      else match_suffixes g rest (c :: seen) hash
  end.

(** [nil] and the empty slice are the same to the callers, which ask for the length. *)
Definition mph_Match (g : MphMatcherGroup) (pattern : bytes) : option (list Z) :=
  '(found, hash) ← match_suffixes g (reverse pattern) [] 0;
  if found : bool then Some [1]
  else
    found ← Lookup g hash pattern;
    if found : bool then Some [1]
    else
      found ← match ac g with None => Some false | Some a => ac_Match a pattern end;
      if found : bool then Some [1]
      else Some (id <$> take 1 (filter (λ e, Matcher_Match (m e) pattern = true) (mph_otherMatchers g))).

(** ** Slots *)

Lemma to_slot_lt h k : 0 ≤ k → (to_slot h (2 ^ k - 1) < Z.to_nat (2 ^ k))%nat.
Proof.
  intros Hk. unfold to_slot. replace (2 ^ k - 1) with (Z.ones k) by (rewrite Z.ones_equiv; lia).
  rewrite Z.land_ones by done. pose proof (Z.mod_pos_bound h (2 ^ k) ltac:(lia)). lia.
Qed.

Lemma nextPow2_pow v : ∃ k, 0 ≤ k ∧ nextPow2 v = 2 ^ k.
Proof.
  unfold nextPow2. case_decide; [by exists 0|]. exists (Z.log2 v + 1). split; [|done].
  pose proof (Z.log2_nonneg v). lia.
Qed.

Lemma to_slot_nextPow2 h v :
  (to_slot h (Z.of_nat (Z.to_nat (nextPow2 v)) - 1) < Z.to_nat (nextPow2 v))%nat.
Proof.
  destruct (nextPow2_pow v) as (k & Hk & ->). rewrite Z2Nat.id by lia. by apply to_slot_lt.
Qed.

(** ** Seeds *)

Lemma length_set_slots b ns occ : length (set_slots b ns occ) = length occ.
Proof.
  unfold set_slots. revert occ. induction ns as [|n ns IH]; intros occ; [done|]. cbn [foldl].
  by rewrite IH, length_insert.
Qed.

Lemma set_slots_lookup b ns occ n :
  set_slots b ns occ !! n = if decide (n ∈ ns ∧ (n < length occ)%nat) then Some b else occ !! n.
Proof.
  unfold set_slots. revert occ. induction ns as [|k ns IH]; intros occ; cbn [foldl].
  - rewrite decide_False; [done|]. by intros [?%elem_of_nil _].
  - rewrite IH, length_insert. destruct (decide (n ∈ ns ∧ (n < length occ)%nat)) as [[Hn Hl]|Hn].
    + rewrite decide_True by (rewrite elem_of_cons; tauto). done.
    + destruct (decide (n = k)) as [->|Hne].
      * destruct (decide (k < length occ)%nat) as [Hl|Hl].
        -- rewrite list_lookup_insert_eq by done. by rewrite decide_True by (rewrite elem_of_cons; tauto).
        -- rewrite list_insert_ge by lia. by rewrite decide_False by tauto.
      * rewrite list_lookup_insert_ne by done. rewrite decide_False; [done|]. rewrite elem_of_cons. tauto.
Qed.

Lemma set_slots_undo ns occ :
  Forall (λ n, occ !! n = Some false) ns → set_slots false ns (set_slots true ns occ) = occ.
Proof.
  intros Hfree. apply list_eq. intros n. rewrite !set_slots_lookup, length_set_slots. case_decide as Hc; [|done].
  rewrite Forall_forall in Hfree. symmetry. apply Hfree, Hc.
Qed.

Section seeds.
Context (rules : list bytes) (mask : Z).

Definition slot (seed : Z) (i : nat) : nat := to_slot (strhashFallback (rules !!! i) seed) mask.

(** The slots of the rules are free and different. *)
Definition fits (occ : list bool) (vals : list nat) (seed : Z) : Prop :=
  NoDup (slot seed <$> vals) ∧ Forall (λ n, occ !! n = Some false) (slot seed <$> vals).

Context (N : nat) (Hslot : ∀ seed i, (slot seed i < N)%nat).

Lemma try_seed_spec seed vals tmp occ l1 found occ' l1' :
  length occ = N → length l1 = N →
  NoDup tmp → Forall (λ n, occ !! n = Some false) tmp →
  try_seed rules mask seed vals tmp (set_slots true tmp occ) l1 = (found, occ', l1') →
  length l1' = N ∧
  (∀ n, set_slots true tmp occ !! n = Some true → l1' !! n = l1 !! n) ∧
  (∀ n x, l1' !! n = Some x → l1 !! n = Some x ∨ ∃ i, i ∈ vals ∧ x = Z.of_nat i) ∧
  if found then
    occ' = set_slots true (tmp ++ (slot seed <$> vals)) occ ∧ NoDup (tmp ++ (slot seed <$> vals)) ∧
    Forall (λ n, occ !! n = Some false) (slot seed <$> vals) ∧
    Forall (λ i, l1' !! slot seed i = Some (Z.of_nat i)) vals
  else occ' = occ ∧ ¬ (NoDup (tmp ++ (slot seed <$> vals)) ∧ fits occ vals seed).
Proof using Hslot.
  intros Hocc. revert tmp l1. induction vals as [|i vals IH]; intros tmp l1 Hl1 Hnd Hfree; cbn [try_seed].
  - intros [= <- <- <-]. cbn [fmap list_fmap]. rewrite app_nil_r. split_all; auto; constructor.
  - fold (slot seed i). pose proof (Hslot seed i) as Hi.
    assert (slot seed i < length occ)%nat as Hi' by lia.
    assert (set_slots true tmp occ !!! slot seed i = bool_decide (slot seed i ∈ tmp) || (occ !!! slot seed i)) as ->.
    { rewrite !list_lookup_total_alt, set_slots_lookup. case_bool_decide; [by rewrite decide_True|].
      by rewrite decide_False by tauto. }
    destruct (bool_decide (slot seed i ∈ tmp) || (occ !!! slot seed i)) eqn:Hb.
    + intros [= <- <- <-]. split_all; auto; [by apply set_slots_undo|]. cbn [fmap list_fmap].
      intros [Hn [_ Hf]]. apply Forall_cons in Hf as [Hf _]. apply orb_true_iff in Hb as [Hb|Hb].
      * apply bool_decide_eq_true in Hb. apply NoDup_app in Hn as (_ & Hd & _). by eapply Hd, list_elem_of_here.
      * rewrite list_lookup_total_alt, Hf in Hb. done.
    + apply orb_false_iff in Hb as [Hin%bool_decide_eq_false Hf].
      destruct (lookup_lt_is_Some_2 occ (slot seed i) Hi') as [b Hbo].
      rewrite list_lookup_total_alt, Hbo in Hf. cbn in Hf. subst b.
      assert (<[slot seed i := true]> (set_slots true tmp occ) = set_slots true (tmp ++ [slot seed i]) occ) as ->
        by (unfold set_slots; by rewrite foldl_app).
      intros Htry. apply IH in Htry as (Hlen & Hkeep & Hval & Hres).
      2:{ by rewrite length_insert. }
      2:{ apply NoDup_app. split_all; [done| |apply NoDup_singleton]. by intros x Hx ->%list_elem_of_singleton. }
      2:{ apply Forall_app. split; [done|by apply Forall_singleton]. }
      assert (∀ n, n ∈ tmp ++ [slot seed i] → (n < length occ)%nat → l1' !! n = <[slot seed i := Z.of_nat i]> l1 !! n) as Hk.
      { intros n Hn Hlt. apply Hkeep. rewrite set_slots_lookup. by rewrite decide_True. }
      cbn [fmap list_fmap]. rewrite <- (assoc_L (++)) in Hres. split_all; [done| | |].
      * intros n Hn. assert (n ≠ slot seed i) as Hne.
        { intros ->. rewrite set_slots_lookup in Hn. rewrite decide_False in Hn by tauto. congruence. }
        rewrite Hkeep; [by rewrite list_lookup_insert_ne|]. rewrite set_slots_lookup in Hn |- *.
        case_decide as Hc; [by rewrite decide_True by (rewrite elem_of_app; tauto)|].
        case_decide; [done|]. done.
      * intros n x Hx. apply Hval in Hx as [Hx|(j & Hj & ->)].
        -- apply list_lookup_insert_Some in Hx as [(_ & <- & _)|[_ ?]]; [|by left].
           right. exists i. split; [apply list_elem_of_here|done].
        -- right. exists j. split; [by apply list_elem_of_further|done].
      * destruct found.
        -- destruct Hres as (-> & Hn & Hfr & Hl). split_all; [done|done| |].
           ++ by apply Forall_cons.
           ++ apply Forall_cons. split; [|done]. rewrite Hk; [|apply elem_of_app; right; apply list_elem_of_here|done].
              apply list_lookup_insert_eq. lia.
        -- destruct Hres as (-> & Hn). split; [done|]. intros [Ha [Hd Hfr]]. apply Hn. split; [done|].
           apply Forall_cons in Hfr as [_ Hfr]. split; [by apply NoDup_cons in Hd as [_ ?]|done].
Qed.

(** The values of [l1'] are those of [l1] or indexes from [vals]. *)
Definition written (vals : list nat) (l1 l1' : list Z) : Prop :=
  ∀ n x, l1' !! n = Some x → l1 !! n = Some x ∨ ∃ i, i ∈ vals ∧ x = Z.of_nat i.

(** The seed loop stops at the first seed that fits. *)
Lemma seed_loop_run fuel seed s vals occ l1 :
  length occ = N → length l1 = N → 0 ≤ seed ≤ s → s < 2 ^ 32 → s < seed + Z.of_nat fuel →
  fits occ vals s → (∀ s', seed ≤ s' < s → ¬ fits occ vals s') →
  ∃ l1', seed_loop fuel rules mask seed vals occ l1 = Some (s, set_slots true (slot s <$> vals) occ, l1') ∧
    length l1' = N ∧ (∀ n, occ !! n = Some true → l1' !! n = l1 !! n) ∧ written vals l1 l1' ∧
    Forall (λ i, l1' !! slot s i = Some (Z.of_nat i)) vals.
Proof using Hslot.
  intros Hocc. revert seed l1. induction fuel as [|fuel IH]; intros seed l1 Hl1 Hs H32 Hf Hfits Hleast; [lia|].
  cbn [seed_loop]. destruct (try_seed _ _ _ _ _ _ _) as [[found occ1] l2] eqn:Htry.
  apply (try_seed_spec seed vals [] occ l1) in Htry as (Hlen & Hkeep & Hval & Hres);
    [|done|done|apply NoDup_nil_2|constructor]. cbn [app] in Hres. destruct found.
  - destruct Hres as (-> & Hnd & Hfree & Hl2). destruct (decide (seed = s)) as [->|Hne]; [by exists l2|].
    exfalso. eapply (Hleast seed); [lia|by split].
  - destruct Hres as (-> & Hn). destruct (decide (seed = s)) as [->|Hne].
    { exfalso. apply Hn. by destruct Hfits. }
    rewrite wrap_small by (unfold is_uint; lia).
    destruct (IH (seed + 1) l2) as (l3 & -> & Hlen3 & Hk3 & Hv3 & Hf3); [done|lia|done|lia|done| |].
    { intros s' ?. apply Hleast. lia. }
    exists l3. split_all; [done|done| | |done].
    + intros n Hn'. rewrite Hk3 by done. by apply Hkeep.
    + intros n x [Hx|?]%Hv3; [by apply Hval|by right].
Qed.

(** Bucket after bucket there is a seed that fits beside those placed before. *)
Fixpoint separable (fuel : nat) (buckets : list indexBucket) (occ : list bool) : Prop :=
  match buckets with
  | [] => True
  | b :: buckets =>
      ∃ s, 0 ≤ s < 2 ^ 32 ∧ s < Z.of_nat fuel ∧ fits occ (b_vals b) s ∧
        (∀ s', 0 ≤ s' < s → ¬ fits occ (b_vals b) s') ∧
        separable fuel buckets (set_slots true (slot s <$> b_vals b) occ)
  end.

Lemma place_buckets_run fuel buckets l0 occ l1 :
  length occ = N → length l1 = N → separable fuel buckets occ → NoDup (b_n <$> buckets) →
  Forall (λ b, b_n b < length l0)%nat buckets →
  ∃ l0' l1', place_buckets fuel rules mask buckets l0 occ l1 = Some (l0', l1') ∧
    length l0' = length l0 ∧ length l1' = N ∧
    (∀ n, occ !! n = Some true → l1' !! n = l1 !! n) ∧ written (buckets ≫= b_vals) l1 l1' ∧
    (∀ k, k ∉ b_n <$> buckets → l0' !! k = l0 !! k) ∧
    Forall (λ b, ∃ seed, l0' !! b_n b = Some seed ∧
                         Forall (λ i, l1' !! slot seed i = Some (Z.of_nat i)) (b_vals b)) buckets.
Proof using Hslot.
  revert l0 occ l1. induction buckets as [|b buckets IH]; intros l0 occ l1 Hocc Hl1 Hsep Hnd Hb.
  - exists l0, l1. cbn. split_all; try done. intros n x ?. by left.
  - destruct Hsep as (s & Hs & Hsf & Hfits & Hleast & Hsep). cbn [fmap list_fmap] in Hnd.
    apply NoDup_cons in Hnd as [Hnb Hnd]. apply Forall_cons in Hb as [Hb Hbs].
    destruct (seed_loop_run fuel 0 s (b_vals b) occ l1) as (l2 & Hrun & Hlen & Hk & Hv & Hf); try done; [lia..|].
    cbn [place_buckets]. rewrite Hrun. cbn [mbind option_bind].
    destruct (IH (<[b_n b := s]> l0) (set_slots true (slot s <$> b_vals b) occ) l2)
      as (l0' & l1' & Hp & Hlen0 & Hlen1 & Hk1 & Hv1 & Hk0 & Hall); try done.
    { by rewrite length_set_slots. } { eapply Forall_impl; [done|]. intros. by rewrite length_insert. }
    rewrite length_insert in Hlen0. exists l0', l1'. split_all; [done|done|done| | | |].
    + intros n Hn. rewrite Hk1; [by apply Hk|]. rewrite set_slots_lookup. by case_decide.
    + intros n x [Hx|(i & Hi & ->)]%Hv1.
      * apply Hv in Hx as [?|(i & Hi & ->)]; [by left|]. right. exists i. cbn. rewrite elem_of_app. auto.
      * right. exists i. cbn. rewrite elem_of_app. auto.
    + intros k [Hne Hnin]%not_elem_of_cons. rewrite Hk0 by done. by rewrite list_lookup_insert_ne.
    + apply Forall_cons. split; [|done]. exists s. rewrite Hk0 by done.
      rewrite list_lookup_insert_eq by done. split; [done|]. apply Forall_forall. intros i Hi.
      rewrite Hk1; [rewrite Forall_forall in Hf; by apply Hf|]. rewrite set_slots_lookup, decide_True; [done|].
      split; [by apply list_elem_of_fmap_2|]. rewrite Hocc. apply Hslot.
Qed.
Lemma seed_loop_found fuel seed s vals occ l1 occ' l1' :
  length occ = N → length l1 = N → 0 ≤ seed → seed + Z.of_nat fuel ≤ 2 ^ 32 →
  seed_loop fuel rules mask seed vals occ l1 = Some (s, occ', l1') →
  (seed ≤ s < seed + Z.of_nat fuel) ∧ fits occ vals s ∧ (∀ s', seed ≤ s' < s → ¬ fits occ vals s') ∧
  occ' = set_slots true (slot s <$> vals) occ ∧ length l1' = N.
Proof using Hslot.
  intros Hocc. revert seed l1. induction fuel as [|fuel IH]; intros seed l1 Hl1 Hs Hf; [done|].
  cbn [seed_loop]. destruct (try_seed _ _ _ _ _ _ _) as [[found occ1] l2] eqn:Htry.
  apply (try_seed_spec seed vals [] occ l1) in Htry as (Hlen & _ & _ & Hres);
    [|done|done|apply NoDup_nil_2|constructor]. cbn [app] in Hres. destruct found.
  - destruct Hres as (-> & Hnd & Hfree & _). intros [= <- <- <-]. split_all; [lia|lia|by split|intros; lia|done|done].
  - destruct Hres as (-> & Hn). destruct fuel as [|fuel]; [done|].
    rewrite wrap_small by (unfold is_uint; lia).
    intros (Hb & Hfit & Hleast & Ho & Hl)%IH; [|done|lia|lia]. split_all; [lia|lia|done| |done|done].
    intros s' Hs'. destruct (decide (s' = seed)) as [->|]; [|apply Hleast; lia].
    intros Hfs. apply Hn. split; [apply Hfs|done].
Qed.

(** The placement can only end by finding the seeds. *)
Lemma place_buckets_separable fuel buckets l0 occ l1 r :
  length occ = N → length l1 = N → Z.of_nat fuel ≤ 2 ^ 32 →
  place_buckets fuel rules mask buckets l0 occ l1 = Some r → separable fuel buckets occ.
Proof using Hslot.
  revert l0 occ l1. induction buckets as [|b buckets IH]; intros l0 occ l1 Hocc Hl1 Hfuel; [done|].
  cbn [place_buckets]. destruct (seed_loop _ _ _ _ _ _ _) as [[[s occ'] l1']|] eqn:Hloop; [|done].
  apply (seed_loop_found fuel 0) in Hloop as (Hs & Hfit & Hleast & -> & Hl); [|done|done|done|lia].
  cbn [mbind option_bind]. intros Hp%IH; [|by rewrite length_set_slots|done|done].
  exists s. split_all; [lia..|done|done|done].
Qed.
End seeds.

(** ** Buckets *)

Lemma fill_buckets_length order mask k bs : length (fill_buckets order mask k bs) = length bs.
Proof.
  revert k bs. induction order as [|[r h] order IH]; intros k bs; [done|]. cbn [fill_buckets].
  by rewrite IH, length_alter.
Qed.

Lemma alter_bucket k j (bs : list (list nat)) n vals :
  alter (λ vals, vals ++ [k]) j bs !! n = Some vals →
  ∃ vals0, bs !! n = Some vals0 ∧ (vals = vals0 ∨ (n = j ∧ vals = vals0 ++ [k])).
Proof.
  destruct (decide (j = n)) as [->|Hne].
  - rewrite list_lookup_alter_eq. destruct (bs !! n) as [v|]; [|done]. intros [= <-]. eauto.
  - rewrite list_lookup_alter_ne by done. eauto.
Qed.

Lemma fill_buckets_keep order mask k bs n vals i :
  bs !! n = Some vals → i ∈ vals → ∃ vals', fill_buckets order mask k bs !! n = Some vals' ∧ i ∈ vals'.
Proof.
  revert k bs vals. induction order as [|[r h] order IH]; intros k bs vals Hn Hi; cbn [fill_buckets]; [eauto|].
  destruct (decide (to_slot h mask = n)) as [E|Hne].
  - eapply IH; [by rewrite E, list_lookup_alter_eq, Hn|]. apply elem_of_app. by left.
  - eapply IH; [by rewrite list_lookup_alter_ne|done].
Qed.

Lemma fill_buckets_in order mask k bs i r h :
  order !! i = Some (r, h) → (to_slot h mask < length bs)%nat →
  ∃ vals, fill_buckets order mask k bs !! to_slot h mask = Some vals ∧ (k + i)%nat ∈ vals.
Proof.
  revert k bs i. induction order as [|[r' h'] order IH]; intros k bs [|i] Hi Hlt; try done; cbn [fill_buckets].
  - injection Hi as -> ->. apply lookup_lt_is_Some_2 in Hlt as [vals Hv].
    eapply fill_buckets_keep; [by rewrite list_lookup_alter_eq, Hv|]. rewrite Nat.add_0_r.
    apply elem_of_app. right. apply list_elem_of_here.
  - replace (k + S i)%nat with (S k + i)%nat by lia. apply IH; [done|by rewrite length_alter].
Qed.

Lemma fill_buckets_range order mask k bs n vals i :
  fill_buckets order mask k bs !! n = Some vals → i ∈ vals →
  (∃ vals0, bs !! n = Some vals0 ∧ i ∈ vals0) ∨ (k ≤ i < k + length order)%nat.
Proof.
  revert k bs vals. induction order as [|[r h] order IH]; intros k bs vals Hn Hi; cbn [fill_buckets] in Hn; [eauto|].
  apply (IH (S k)) in Hn; [|done]. destruct Hn as [(v1 & Hv1 & Hi1)|?]; [|right; simpl; lia].
  apply alter_bucket in Hv1 as (v0 & Hv0 & [-> |[_ ->]]); [eauto|].
  rewrite elem_of_app, list_elem_of_singleton in Hi1. destruct Hi1 as [?| ->]; [eauto|right; simpl; lia].
Qed.

Lemma bucket_lookup bs i b :
  imap (λ n vals, {| b_n := n; b_vals := vals |}) bs !! i = Some b → b_n b = i ∧ bs !! i = Some (b_vals b).
Proof. rewrite list_lookup_imap. destruct (bs !! i) as [v|]; [|done]. by intros [= <-]. Qed.

Lemma nonempty_buckets_elem bs b :
  b ∈ nonempty_buckets bs ↔ bs !! b_n b = Some (b_vals b) ∧ (0 < length (b_vals b))%nat.
Proof.
  unfold nonempty_buckets. rewrite list_elem_of_filter. split.
  - intros [Hl [i Hi]%list_elem_of_lookup_1]. apply bucket_lookup in Hi as [<- Hi]. done.
  - intros [Hb Hl]. split; [done|]. apply (list_elem_of_lookup_2 _ (b_n b)). rewrite list_lookup_imap, Hb.
    by destruct b.
Qed.

Lemma nonempty_buckets_nodup bs : NoDup (b_n <$> nonempty_buckets bs).
Proof.
  apply NoDup_fmap_filter. intros i j x y [<- _]%bucket_lookup [<- _]%bucket_lookup _ _ E. done.
Qed.

(** ** The table *)

Section table.
Context `{SortBySize, !SortBySizeLaws}.

(** The perfect hash exists for this order of the rules within the fuel. *)
Definition separable_order (fuel : nat) (order : list (bytes * Z)) : Prop :=
  let len := Z.of_nat (length order) in
  let n0 := Z.to_nat (nextPow2 (len / 4)) in
  let n1 := Z.to_nat (nextPow2 len) in
  separable order.*1 (Z.of_nat n1 - 1) fuel
    (sort_bySize (nonempty_buckets (fill_buckets order (Z.of_nat n0 - 1) 0 (replicate n0 []))))
    (replicate n1 false).

Lemma filled_size g order :
  order ≡ₚ map_to_list (filled_ruleMap g) →
  Z.of_nat (length order) = (if decide (size (ruleMap g) = 0%nat) then 1 else Z.of_nat (size (ruleMap g))) ∧
  (0 < length order)%nat.
Proof.
  intros ->. rewrite length_map_to_list. unfold filled_ruleMap. case_decide as Hs; [|lia].
  apply map_size_empty_inv in Hs as ->. rewrite map_size_insert, lookup_empty, map_size_empty. split; [done|lia].
Qed.

(** The two levels name the rule of every slot: a slot of the first level holds the
    seed of its bucket, the second level the index of the rule. *)
Record table_ok (order : list (bytes * Z)) (n0 n1 : nat) (l0 l1 : list Z) : Prop := {
  tb_len0 : length l0 = n0;
  tb_len1 : length l1 = n1;
  tb_values : ∀ n x, l1 !! n = Some x → (Z.to_nat x < length order)%nat;
  tb_rules : ∀ i r h, order !! i = Some (r, h) → ∃ seed,
    l0 !! to_slot h (Z.of_nat n0 - 1) = Some seed ∧
    l1 !! to_slot (strhashFallback r seed) (Z.of_nat n1 - 1) = Some (Z.of_nat i)
}.

Lemma place_table fuel order len0 len1 :
  let n0 := Z.to_nat (nextPow2 len0) in
  let n1 := Z.to_nat (nextPow2 len1) in
  let buckets := sort_bySize (nonempty_buckets (fill_buckets order (Z.of_nat n0 - 1) 0 (replicate n0 []))) in
  (0 < length order)%nat →
  separable order.*1 (Z.of_nat n1 - 1) fuel buckets (replicate n1 false) →
  ∃ l0 l1, place_buckets fuel order.*1 (Z.of_nat n1 - 1) buckets (replicate n0 0) (replicate n1 false)
             (replicate n1 0) = Some (l0, l1) ∧ table_ok order n0 n1 l0 l1.
Proof using All.
  intros n0 n1. set (bs := fill_buckets order (Z.of_nat n0 - 1) 0 (replicate n0 [])). cbn zeta. intros Hpos Hsep.
  assert (length bs = n0) as Hbs by (unfold bs; by rewrite fill_buckets_length, length_replicate).
  assert (∀ b, b ∈ sort_bySize (nonempty_buckets bs) ↔ b ∈ nonempty_buckets bs) as Hsort
    by (intros b; by rewrite sort_bySize_perm).
  destruct (place_buckets_run order.*1 (Z.of_nat n1 - 1) n1 (λ seed i, to_slot_nextPow2 _ len1)
    fuel (sort_bySize (nonempty_buckets bs)) (replicate n0 0) (replicate n1 false) (replicate n1 0))
    as (l0 & l1 & Hp & Hl0 & Hl1 & _ & Hw & _ & Hall); try done; try apply length_replicate.
  { rewrite sort_bySize_perm. apply nonempty_buckets_nodup. }
  { apply Forall_forall. intros b [Hb _]%Hsort%nonempty_buckets_elem. rewrite length_replicate, <- Hbs.
    by eapply lookup_lt_Some. }
  rewrite length_replicate in Hl0. exists l0, l1. split; [exact Hp|]. split; [done|done| |].
  - intros n x Hx. destruct (Hw _ _ Hx) as [[-> _]%lookup_replicate_1|(i & Hi & ->)]; [simpl; lia|].
    rewrite Nat2Z.id. apply list_elem_of_bind in Hi as (b & Hi & [Hb _]%Hsort%nonempty_buckets_elem).
    apply (fill_buckets_range _ _ _ _ _ _ i) in Hb as [(v & [-> _]%lookup_replicate_1 & Hv)|?]; [|lia|done].
    by apply elem_of_nil in Hv.
  - intros i r h Hi.
    destruct (fill_buckets_in order (Z.of_nat n0 - 1) 0 (replicate n0 []) i r h Hi) as (vals & Hv & Hin).
    { rewrite length_replicate. apply to_slot_nextPow2. }
    fold bs in Hv. set (b := {| b_n := to_slot h (Z.of_nat n0 - 1); b_vals := vals |}).
    assert (b ∈ sort_bySize (nonempty_buckets bs)) as Hb.
    { apply Hsort, nonempty_buckets_elem. cbn [b b_n b_vals]. split; [done|].
      destruct vals; [by apply elem_of_nil in Hin|simpl; lia]. }
    rewrite Forall_forall in Hall. destruct (Hall b Hb) as (seed & Hs & Hf). exists seed. split; [exact Hs|].
    rewrite Forall_forall in Hf. specialize (Hf i Hin). unfold slot in Hf.
    assert (order.*1 !! i = Some r) as Hri by (rewrite list_lookup_fmap, Hi; done).
    by rewrite (list_lookup_total_correct _ _ _ Hri) in Hf.
Qed.

Lemma Lookup_table g order len0 len1 m s :
  table_ok order (Z.to_nat (nextPow2 len0)) (Z.to_nat (nextPow2 len1)) (level0 g) (level1 g) →
  level0Mask g = Z.of_nat (Z.to_nat (nextPow2 len0)) - 1 → level1Mask g = Z.of_nat (Z.to_nat (nextPow2 len1)) - 1 →
  rules g = order.*1 → order ≡ₚ map_to_list m → map_Forall (λ r h, h = RollingHash r) m →
  Lookup g (RollingHash s) s = Some (bool_decide (is_Some (m !! s))).
Proof using.
  intros [Hl0 Hl1 Hval Hrules] E0 E1 Er Horder Hmap. unfold Lookup. rewrite E0, E1, Er.
  destruct (lookup_lt_is_Some_2 (level0 g) (to_slot (RollingHash s) (Z.of_nat (Z.to_nat (nextPow2 len0)) - 1)))
    as [seed Hseed]. { rewrite Hl0. apply to_slot_nextPow2. }
  rewrite Hseed. cbn [mbind option_bind].
  destruct (lookup_lt_is_Some_2 (level1 g) (to_slot (strhashFallback s seed) (Z.of_nat (Z.to_nat (nextPow2 len1)) - 1)))
    as [x Hx]. { rewrite Hl1. apply to_slot_nextPow2. }
  rewrite Hx. cbn [mbind option_bind].
  destruct (lookup_lt_is_Some_2 order (Z.to_nat x) (Hval _ _ Hx)) as [[r h] Hr].
  rewrite list_lookup_fmap, Hr. cbn. f_equal. apply bool_decide_ext. split.
  - intros ->. apply list_elem_of_lookup_2 in Hr. rewrite Horder in Hr. apply elem_of_map_to_list in Hr. eauto.
  - intros [h' Hs]. pose proof (map_Forall_lookup_1 _ _ _ _ Hmap Hs) as ->.
    apply elem_of_map_to_list in Hs. rewrite <- Horder in Hs. apply list_elem_of_lookup_1 in Hs as [i Hi].
    destruct (Hrules _ _ _ Hi) as (seed' & Hs' & Hf). assert (seed' = seed) as -> by congruence.
    rewrite Hx in Hf. injection Hf as ->. rewrite Nat2Z.id in Hr. congruence.
Qed.

(** [Build] fills the two levels so that [Lookup] recognises exactly the rules. *)
Lemma mph_Build_run fuel order g a :
  match ac g with None => a = None | Some a0 => ∃ a1, ac_Build a0 = Ret a1 ∧ a = Some a1 end →
  map_Forall (λ r h, h = RollingHash r) (filled_ruleMap g) →
  order ≡ₚ map_to_list (filled_ruleMap g) → separable_order fuel order →
  ∃ g', mph_Build fuel order g = Ret g' ∧ ac g' = a ∧ mph_otherMatchers g' = mph_otherMatchers g ∧
    ∀ s, Lookup g' (RollingHash s) s = Some (bool_decide (is_Some (filled_ruleMap g !! s))).
Proof using All.
  intros Ha Hmap Horder Hsep. destruct (filled_size g order Horder) as [Hlen Hpos].
  destruct (place_table fuel order _ _ Hpos Hsep) as (l0 & l1 & Hp & Htable).
  unfold mph_Build. rewrite <- Hlen.
  assert ((match ac g with
           | None => Ret None
           | Some a => let? a := ac_Build a in Ret (Some a)
           end) = Ret a) as ->.
  { destruct (ac g) as [a0|]; [|by subst]. by destruct Ha as (a1 & -> & ->). }
  cbn [outcome_bind]. rewrite Hp. eexists. split; [done|]. split_all; [done|done|]. intros s.
  eapply Lookup_table; [exact Htable|done..].
Qed.
End table.

(** ** Names against the table *)

Lemma RollingHash_cons c s : RollingHash (c :: s) = roll (RollingHash s) c.
Proof. unfold RollingHash. by rewrite reverse_cons, foldl_app. Qed.

(** A rule that begins with a dot is met at every end of the name, the others only
    as the whole name. *)
Lemma match_suffixes_run g (known : bytes → bool) rest seen :
  (∀ s, Lookup g (RollingHash s) s = Some (known s)) →
  ∃ found h, match_suffixes g rest seen (RollingHash seen) = Some (found, h) ∧
    (found = false → h = RollingHash (reverse rest ++ seen)) ∧
    (found = true ↔ ∃ p q, reverse rest = p ++ dot :: q ∧ known (dot :: q ++ seen) = true).
Proof.
  intros Hk. revert seen. induction rest as [|c rest IH]; intros seen; cbn [match_suffixes].
  - exists false, (RollingHash seen). split_all; [done|done|]. split; [done|]. intros (p & q & E & _). by destruct p.
  - rewrite <- RollingHash_cons, reverse_cons. destruct (IH (c :: seen)) as (found & h & E & Hh & Hiff).
    rewrite <- (assoc_L (++)). cbn [app].
    assert ((∃ p q, reverse rest ++ [c] = p ++ dot :: q ∧ known (dot :: q ++ seen) = true) ↔
            (c = dot ∧ known (dot :: seen) = true) ∨
            (∃ p q, reverse rest = p ++ dot :: q ∧ known (dot :: q ++ c :: seen) = true)) as Hsplit.
    { split.
      - intros (p & q & E1 & E2). destruct q as [|b q _] using rev_ind.
        + apply app_inj_tail in E1 as [_ ->]. by left.
        + right. change (dot :: q ++ [b]) with ((dot :: q) ++ [b]) in E1. rewrite (assoc_L (++)) in E1.
          apply app_inj_tail in E1 as [-> ->]. exists p, q. split; [done|]. by rewrite <- (assoc_L (++)) in E2.
      - intros [[-> ?]|(p & q & -> & ?)]; [by exists (reverse rest), []|]. exists p, (q ++ [c]).
        by rewrite <- !(assoc_L (++)). }
    case_decide as Hc.
    + subst c. rewrite Hk. cbn [mbind option_bind]. destruct (known (dot :: seen)) eqn:Hd.
      * eexists true, _. split; [done|]. split; [done|]. rewrite Hsplit. split; [by left|done].
      * exists found, h. split_all; [done|done|]. rewrite Hsplit, Hiff. naive_solver.
    + exists found, h. split_all; [done|done|]. rewrite Hsplit, Hiff. naive_solver.
Qed.

(** ** Patterns *)

Section patterns.
Context `{UnicodeTables, RegexpEngine}.

Fixpoint add_patterns (ps : list (bytes * Z)) (g : MphMatcherGroup) : outcome MphMatcherGroup :=
  match ps with
  | [] => Ret g
  | (p, t) :: ps => let? r := AddPattern p t g in add_patterns ps r.1
  end.

Definition keywords (ps : list (bytes * Z)) : list bytes := (filter (λ e, e.2 = Substr) ps).*1.

Definition is_rule (e : bytes * Z) (r : bytes) : Prop :=
  ((e.2 = Full ∨ e.2 = Domain) ∧ r = ToLower e.1) ∨ (e.2 = Domain ∧ r = dot :: ToLower e.1).

Definition regex_entry (e : bytes * Z) : option matcherEntry :=
  if decide (e.2 = Regex) then
    r ← regexp_Compile e.1; Some {| m := regexMatcher e.1 r; id := 1 |}
  else None.

(** What [g'] holds beyond [g] after the patterns [ps]. *)
Record extends (ps : list (bytes * Z)) (g g' : MphMatcherGroup) : Prop := {
  e_count : mph_count g' = mph_count g;
  e_ac : match keywords ps with
         | [] => ac g' = ac g
         | ks => ∃ a, ac g' = Some a ∧ add_keywords ks (default NewACAutomaton (ac g)) = Some a
         end;
  e_rules : ∀ r, is_Some (ruleMap g' !! r) ↔ is_Some (ruleMap g !! r) ∨ ∃ e, e ∈ ps ∧ is_rule e r;
  e_hash : map_Forall (λ r h, h = RollingHash r) (ruleMap g) → map_Forall (λ r h, h = RollingHash r) (ruleMap g');
  e_others : mph_count g = 1 → mph_otherMatchers g' = mph_otherMatchers g ++ omap regex_entry ps
}.

Lemma AddFullOrDomain_rules p t g r :
  is_Some (ruleMap (AddFullOrDomainPattern p t g) !! r) ↔
  is_Some (ruleMap g !! r) ∨ ((t = Full ∨ t = Domain) ∧ r = p) ∨ (t = Domain ∧ r = dot :: p).
Proof.
  unfold AddFullOrDomainPattern. destruct (decide (t = Domain)) as [->|Hd].
  - rewrite decide_True by tauto. cbn [set_ruleMap ruleMap]. rewrite !lookup_insert_is_Some.
    destruct (decide (r = p)), (decide (r = dot :: p)); naive_solver.
  - case_decide as Hf; [|tauto]. cbn [set_ruleMap ruleMap]. rewrite lookup_insert_is_Some.
    destruct (decide (r = p)); naive_solver.
Qed.

Lemma AddFullOrDomain_hash p t g :
  map_Forall (λ r h, h = RollingHash r) (ruleMap g) →
  map_Forall (λ r h, h = RollingHash r) (ruleMap (AddFullOrDomainPattern p t g)).
Proof.
  intros Hg. unfold AddFullOrDomainPattern. destruct (decide (t = Domain)), (decide (t = Domain ∨ t = Full));
    cbn [set_ruleMap ruleMap]; try done;
    repeat (apply map_Forall_insert_2; [by rewrite ?RollingHash_cons|]); done.
Qed.

Lemma AddPattern_extends p t g g' c : AddPattern p t g = Ret (g', c) → extends [(p, t)] g g'.
Proof.
  unfold AddPattern. case_decide as Hs; [|case_decide as Hf; [|case_decide as Hr; [|done]]].
  - subst t. destruct (ac_Add _ _ _) as [a|] eqn:Ha; [|done]. cbn [ret_or_panic].
    intros [<- _]%Ret_inj%pair_equal_spec. split; cbn [set_ac mph_count ac ruleMap mph_otherMatchers]; try done.
    + change (keywords [(p, Substr)]) with [p]. exists a. split; [done|]. cbn [add_keywords].
      by rewrite Ha.
    + intros r. split; [by left|]. intros [?|(e & ->%list_elem_of_singleton & [[[?|?] _]|[? _]])]; done.
    + intros _. by rewrite app_nil_r.
  - intros [<- _]%Ret_inj%pair_equal_spec.
    assert (t ≠ Substr ∧ t ≠ Regex) as [? ?] by (by destruct Hf as [-> | ->]).
    assert (∀ q, mph_count (AddFullOrDomainPattern q t g) = mph_count g ∧ ac (AddFullOrDomainPattern q t g) = ac g ∧
      mph_otherMatchers (AddFullOrDomainPattern q t g) = mph_otherMatchers g) as Hkeep
      by (intros q; unfold AddFullOrDomainPattern; by destruct (decide (t = Domain ∨ t = Full))).
    destruct (Hkeep (ToLower p)) as (Hc & Ha & Ho). split.
    + done.
    + unfold keywords. rewrite filter_cons, decide_False by done. done.
    + intros r. rewrite AddFullOrDomain_rules. f_equiv. split.
      * intros Hr. exists (p, t). split; [apply list_elem_of_here|exact Hr].
      * intros (e & ->%list_elem_of_singleton & Hr). exact Hr.
    + apply AddFullOrDomain_hash.
    + intros _. rewrite Ho. cbn. unfold regex_entry. cbn [snd]. rewrite decide_False by done. by rewrite app_nil_r.
  - subst t. destruct (regexp_Compile p) as [r|] eqn:E; [|done].
    intros [<- _]%Ret_inj%pair_equal_spec. split; cbn [set_others mph_count ac ruleMap mph_otherMatchers]; try done.
    + intros r'. split; [by left|]. intros [?|(e & ->%list_elem_of_singleton & [[[?|?] _]|[? _]])]; done.
    + intros ->. f_equal. cbn. unfold regex_entry. cbn [snd fst]. rewrite decide_True by done. by rewrite E.
Qed.

Lemma extends_cons p t ps g g1 g2 : extends [(p, t)] g g1 → extends ps g1 g2 → extends ((p, t) :: ps) g g2.
Proof.
  intros [Hc1 Ha1 Hr1 Hh1 Ho1] [Hc2 Ha2 Hr2 Hh2 Ho2]. split.
  - congruence.
  - unfold keywords in *. rewrite filter_cons in *. rewrite filter_nil in Ha1. cbn [snd] in *.
    destruct (decide (t = Substr)) as [Et|Et]; cbn [fmap list_fmap fst] in *.
    + destruct Ha1 as (a & Ha & Hadd). cbn [add_keywords] in Hadd |- *.
      destruct (ac_Add p Substr _) as [a'|]; [|done]. cbn in Hadd |- *. injection Hadd as ->.
      destruct (filter _ ps).*1 as [|k ks] eqn:Ek.
      * exists a. cbn [add_keywords]. split; [congruence|done].
      * rewrite Ha in Ha2. exact Ha2.
    + by rewrite <- Ha1.
  - intros r. rewrite Hr2, Hr1. setoid_rewrite elem_of_cons. setoid_rewrite elem_of_nil. naive_solver.
  - auto.
  - intros E. rewrite Ho2 by congruence. rewrite Ho1 by done. rewrite <- (assoc_L (++)), <- omap_app. done.
Qed.

Lemma add_patterns_extends ps g g' : add_patterns ps g = Ret g' → extends ps g g'.
Proof.
  revert g. induction ps as [|[p t] ps IH]; intros g; cbn [add_patterns].
  - intros <-%Ret_inj. split; try done.
    + intros r. setoid_rewrite elem_of_nil. naive_solver.
    + intros _. by rewrite app_nil_r.
  - destruct (AddPattern p t g) as [[g1 c]| |] eqn:E; [|done..]. cbn [outcome_bind fst]. intros ?%IH.
    eapply extends_cons; [by eapply AddPattern_extends|done].
Qed.

(** What a pattern matches on its own. *)
Definition pattern_matches (s : bytes) (e : bytes * Z) : bool :=
  if decide (e.2 = Full) then Matcher_Match (fullMatcher (ToLower e.1)) s
  else if decide (e.2 = Domain) then Matcher_Match (domainMatcher (ToLower e.1)) s
  else if decide (e.2 = Substr) then Matcher_Match (substrMatcher (lower e.1)) (lower s)
  else if decide (e.2 = Regex) then match regexp_Compile e.1 with Some r => r s | None => false end
  else false.

Context `{SortBySize, !SortBySizeLaws}.

(** No full or domain pattern begins with a dot. *)
Definition no_leading_dot (ps : list (bytes * Z)) : Prop :=
  Forall (λ e, e.2 = Full ∨ e.2 = Domain → head (ToLower e.1) ≠ Some dot) ps.

Definition has_rules (ps : list (bytes * Z)) : Prop := Exists (λ e, e.2 = Full ∨ e.2 = Domain) ps.

(** Some full or domain pattern matches. *)
Definition rule_matches (ps : list (bytes * Z)) (s : bytes) : Prop :=
  ∃ e, e ∈ ps ∧ (e.2 = Full ∨ e.2 = Domain) ∧ pattern_matches s e = true.

Lemma known_rules ps g r :
  extends ps NewMphMatcherGroup g → has_rules ps ∨ r ≠ empty_rule →
  is_Some (filled_ruleMap g !! r) ↔ ∃ e, e ∈ ps ∧ is_rule e r.
Proof using.
  intros Hext Hr. pose proof (e_rules _ _ _ Hext) as Hrules. cbn [NewMphMatcherGroup ruleMap] in Hrules.
  setoid_rewrite lookup_empty in Hrules.
  assert (∀ x, is_Some (ruleMap g !! x) ↔ ∃ e, e ∈ ps ∧ is_rule e x) as Hx
    by (intros x; rewrite Hrules; split; [intros [[? ?]|?]; done|by right]).
  unfold filled_ruleMap. case_decide as Hs; [|apply Hx]. apply map_size_empty_inv in Hs as Hm.
  rewrite lookup_insert_is_Some', Hx. split; [|by right]. intros [<-|?]; [|done]. destruct Hr as [Hr|?]; [|done].
  apply Exists_exists in Hr as (e & He & Ht). exfalso.
  destruct (proj2 (Hx (ToLower e.1))) as [h Hh]; [by exists e; split; [|left]|]. by rewrite Hm, lookup_empty in Hh.
Qed.

Lemma rule_matches_iff ps g s :
  extends ps NewMphMatcherGroup g → no_leading_dot ps → has_rules ps ∨ s ≠ empty_rule →
  (∃ p q, s = p ++ dot :: q ∧ is_Some (filled_ruleMap g !! (dot :: q))) ∨ is_Some (filled_ruleMap g !! s) ↔
  rule_matches ps s.
Proof using.
  intros Hext Hdot Hs. rewrite (known_rules _ _ _ Hext Hs).
  assert (∀ q, is_Some (filled_ruleMap g !! (dot :: q)) ↔ ∃ e, e ∈ ps ∧ is_rule e (dot :: q)) as Hq
    by (intros q; apply known_rules; [done|by right]).
  setoid_rewrite Hq. unfold no_leading_dot in Hdot. rewrite Forall_forall in Hdot.
  assert (∀ e q, e ∈ ps → is_rule e (dot :: q) → e.2 = Domain ∧ q = ToLower e.1) as Hlead.
  { intros e q He [[Ht E]|[Ht E]]; [|by simplify_eq]. exfalso. apply (Hdot e He Ht). by rewrite <- E. }
  unfold rule_matches, pattern_matches. split.
  - intros [(p & q & -> & e & He & [Ht ->]%(Hlead e q He))|(e & He & [[[Ht|Ht] ->]|[Ht ->]])];
      exists e; (split; [done|]); (split; [tauto|]); rewrite Ht; cbn [decide].
    + rewrite decide_False, decide_True by done. apply domainMatcher_Match_iff. right. by exists p.
    + rewrite decide_True by done. by apply bool_decide_eq_true.
    + rewrite decide_False, decide_True by done. apply domainMatcher_Match_iff. by left.
    + rewrite decide_False, decide_True by done. apply domainMatcher_Match_iff. right. by exists [].
  - intros (e & He & [Ht|Ht] & Hm); rewrite Ht in Hm.
    + rewrite decide_True in Hm by done. apply bool_decide_eq_true in Hm as <-. right. exists e.
      split; [done|]. left. tauto.
    + rewrite decide_False, decide_True in Hm by done. apply domainMatcher_Match_iff in Hm as [->|[x ->]].
      * right. exists e. split; [done|]. left. tauto.
      * left. exists x, (ToLower e.1). split; [done|]. exists e. split; [done|]. by right.
Qed.

Lemma keyword_part ps g s :
  extends ps NewMphMatcherGroup g → Forall plain (keywords ps) → no_keyword_inside (keywords ps) → plain s →
  ∃ a, match ac g with None => a = None | Some a0 => ∃ a1, ac_Build a0 = Ret a1 ∧ a = Some a1 end ∧
    match a with None => Some false | Some a => ac_Match a s end = Some (contains_keyword (keywords ps) s).
Proof using.
  intros Hext Hp Hno Hs. pose proof (e_ac _ _ _ Hext) as Ha. cbn [NewMphMatcherGroup ac] in Ha.
  destruct (plain_keyword_automaton (keywords ps) s Hp Hs) as (a1 & b & Hk & Hm & _ & Hb).
  specialize (Hb Hno) as ->. destruct (keywords ps) as [|k ks] eqn:Ek.
  - exists None. by rewrite Ha.
  - destruct Ha as (a & -> & Hadd). cbn [from_option] in Hadd. exists (Some a1). split; [|done].
    exists a1. split; [|done]. unfold keyword_automaton in Hk. by rewrite Hadd in Hk.
Qed.

Lemma filled_hash ps g :
  extends ps NewMphMatcherGroup g → map_Forall (λ r h, h = RollingHash r) (filled_ruleMap g).
Proof using.
  intros Hext. pose proof (e_hash _ _ _ Hext (map_Forall_empty _)) as Hh. unfold filled_ruleMap.
  case_decide; [|done]. by apply map_Forall_insert_2.
Qed.

Lemma existsb_parts ps s :
  existsb (pattern_matches s) ps = true ↔
  rule_matches ps s ∨ contains_keyword (keywords ps) s = true ∨
  ∃ en, en ∈ omap regex_entry ps ∧ Matcher_Match (m en) s = true.
Proof using.
  unfold contains_keyword, keywords, rule_matches. rewrite !existsb_exists. split.
  - intros ([p t] & Hin%list_elem_of_In & Hm). unfold pattern_matches in Hm. cbn [fst snd] in Hm.
    destruct (decide (t = Full)) as [->|Hnf]; [left; by exists (p, Full); split_all; [|left|]|].
    destruct (decide (t = Domain)) as [->|Hnd]; [left; by exists (p, Domain); split_all; [|right|]|].
    right. destruct (decide (t = Substr)) as [->|Hns].
    + left. exists p. split; [|done]. apply list_elem_of_In, list_elem_of_fmap. exists (p, Substr).
      split; [done|]. by apply list_elem_of_filter.
    + right. destruct (decide (t = Regex)) as [->|]; [|done]. destruct (regexp_Compile p) as [r|] eqn:E; [|done].
      exists {| m := regexMatcher p r; id := 1 |}. split; [|done]. apply list_elem_of_omap. exists (p, Regex).
      split; [done|]. unfold regex_entry. cbn [fst snd]. rewrite decide_True by done. by rewrite E.
  - intros [(e & He & _ & Hm)|[(p & Hp%list_elem_of_In & Hc)|(en & Hen & Hm)]].
    + exists e. split; [by apply list_elem_of_In|done].
    + apply list_elem_of_fmap in Hp as ([p' t] & -> & [Ht Hin]%list_elem_of_filter). cbn in Ht. subst t.
      exists (p', Substr). split; [by apply list_elem_of_In|exact Hc].
    + apply list_elem_of_omap in Hen as ([p t] & Hin & E). unfold regex_entry in E. cbn [fst snd] in E.
      case_decide as Ht; [|done]. subst t. destruct (regexp_Compile p) as [r|] eqn:Er; [|done].
      injection E as <-. exists (p, Regex). split; [by apply list_elem_of_In|]. unfold pattern_matches. cbn [fst snd].
      by rewrite !decide_False, decide_True, Er by done.
Qed.

Lemma mph_group_agrees ps g order fuel s :
  add_patterns ps NewMphMatcherGroup = Ret g →
  order ≡ₚ map_to_list (filled_ruleMap g) → separable_order fuel order →
  no_leading_dot ps → Forall plain (keywords ps) → no_keyword_inside (keywords ps) → plain s →
  has_rules ps ∨ s ≠ empty_rule →
  ∃ g' r, mph_Build fuel order g = Ret g' ∧ mph_Match g' s = Some r ∧
    (r ≠ [] ↔ existsb (pattern_matches s) ps = true).
Proof using All.
  intros Hadd Horder Hsep Hdot Hplain Hno Hs Hempty. apply add_patterns_extends in Hadd as Hext.
  destruct (keyword_part ps g s Hext Hplain Hno Hs) as (a & Ha & Hmatch).
  destruct (mph_Build_run fuel order g a Ha (filled_hash _ _ Hext) Horder Hsep) as (g' & Hb & Hac & Hother & Hlook).
  set (known := λ r, bool_decide (is_Some (filled_ruleMap g !! r))) in *.
  destruct (match_suffixes_run g' known (reverse s) [] Hlook) as (found & h & Hrun & Hh & Hfound).
  rewrite reverse_involutive in *. setoid_rewrite app_nil_r in Hfound. rewrite app_nil_r in Hh.
  pose proof (rule_matches_iff ps g s Hext Hdot Hempty) as Hrule. pose proof (existsb_parts ps s) as Hex.
  exists g'. unfold mph_Match. change 0 with (RollingHash []). rewrite Hrun. cbn [mbind option_bind].
  assert (found = true ∨ known s = true ↔ rule_matches ps s) as Hany.
  { rewrite <- Hrule, Hfound. unfold known. rewrite bool_decide_eq_true. setoid_rewrite bool_decide_eq_true. done. }
  destruct found.
  { exists [1]. split_all; [done|done|]. split; [|done]. intros _. apply Hex. left. apply Hany. by left. }
  rewrite (Hh eq_refl), Hlook. cbn [mbind option_bind]. fold (known s). destruct (known s) eqn:Hks.
  { exists [1]. split_all; [done|done|]. split; [|done]. intros _. apply Hex. left. apply Hany. by right. }
  rewrite Hac, Hmatch. cbn [mbind option_bind]. destruct (contains_keyword (keywords ps) s) eqn:Hkw.
  { exists [1]. split_all; [done|done|]. split; [|done]. intros _. apply Hex. tauto. }
  eexists. split_all; [done|done|]. rewrite Hex, Hother, (e_others _ _ _ Hext eq_refl).
  cbn [NewMphMatcherGroup mph_otherMatchers app]. assert (¬ rule_matches ps s) by (rewrite <- Hany; naive_solver).
  split.
  - intros Hne. right. right.
    destruct (filter (λ e, Matcher_Match (m e) s = true) (omap regex_entry ps)) as [|en l] eqn:E; [done|].
    assert (en ∈ en :: l) as Hin by apply list_elem_of_here. rewrite <- E in Hin.
    apply list_elem_of_filter in Hin as [? ?]. by exists en.
  - intros [?|[?|(en & Hen & Hm)]]; [done..|].
    assert (en ∈ filter (λ e, Matcher_Match (m e) s = true) (omap regex_entry ps)) as Hin by by apply list_elem_of_filter.
    destruct (filter _ _); [by apply elem_of_nil in Hin|done].
Qed.

End patterns.

(** The table of a group can be separated as soon as the placement of its rules ends. *)
Lemma separable_order_placed `{SortBySize} fuel order r :
  let len := Z.of_nat (length order) in
  let n0 := Z.to_nat (nextPow2 (len / 4)) in
  let n1 := Z.to_nat (nextPow2 len) in
  Z.of_nat fuel ≤ 2 ^ 32 →
  place_buckets fuel order.*1 (Z.of_nat n1 - 1)
    (sort_bySize (nonempty_buckets (fill_buckets order (Z.of_nat n0 - 1) 0 (replicate n0 []))))
    (replicate n0 0) (replicate n1 false) (replicate n1 0) = Some r →
  separable_order fuel order.
Proof.
  intros len n0 n1 Hfuel Hp. unfold separable_order. fold len n0 n1.
  eapply (place_buckets_separable order.*1 _ n1 (λ seed i, to_slot_nextPow2 _ len)); [..|exact Hp]; try done.
  all: apply length_replicate.
Qed.

(** ** A concrete group *)

Definition by_size (a b : indexBucket) : Prop := (length (b_vals b) ≤ length (b_vals a))%nat.

#[local] Instance by_size_dec : RelDecision by_size := λ a b, Nat.le_dec (length (b_vals b)) (length (b_vals a)).

#[local] Instance by_size_trans : Transitive by_size.
Proof. intros a b c. unfold by_size. lia. Qed.

#[local] Instance by_size_total : Total by_size.
Proof. intros a b. unfold by_size. lia. Qed.

Definition merge_sort_bySize : SortBySize := merge_sort by_size.

Lemma merge_sort_bySize_laws : @SortBySizeLaws merge_sort_bySize.
Proof.
  split; intros l.
  - apply merge_sort_Permutation.
  - apply (StronglySorted_merge_sort by_size).
Qed.

(** An engine for expressions without special characters: they match where they occur. *)
Definition literal_regexp : RegexpEngine := λ p, Some (λ s, Contains s p).

Definition sample_patterns : list (bytes * Z) :=
  [(lit "Example.com", Domain); (lit "localhost", Full); (lit "tracker", Substr); (lit "cdn", Regex);
   (lit "xray.dev", Domain); (lit "a-rather-long-label.in.a.rather-long-name.test", Full)].

Definition sample_group : MphMatcherGroup :=
  match @add_patterns ascii_tables literal_regexp sample_patterns NewMphMatcherGroup with
  | Ret g => g | _ => NewMphMatcherGroup end.


(** Without a full or domain pattern the placeholder rule is one of the rules. *)
Lemma placeholder_matches :
  match @mph_Build merge_sort_bySize 1 [(empty_rule, RollingHash empty_rule)] NewMphMatcherGroup with
  | Ret g => mph_Match g empty_rule = Some [1]
  | _ => False
  end.
Proof. by vm_compute. Qed.

(** A full pattern that begins with a dot matches the names below it as well. *)
Lemma dotted_full_matches_below :
  match @add_patterns ascii_tables literal_regexp [(lit ".com", Full)] NewMphMatcherGroup with
  | Ret g =>
      match @mph_Build merge_sort_bySize 1 (map_to_list (ruleMap g)) g with
      | Ret g => mph_Match g (lit "a.com") = Some [1]
      | _ => False
      end
  | _ => False
  end ∧ Matcher_Match (fullMatcher (lit ".com")) (lit "a.com") = false.
Proof. by vm_compute. Qed.
