(* ===== verification/Conditions.v ===== *)
(** The conditions of the routing rules of the core
    (src/upstream/xray-core/app/router: condition.go, condition_geoip.go, config.go;
    src/upstream/xray-core/features/routing: session/context.go, dns/context.go):
    what a connection shows to the router, the matchers over it, and how a rule of
    the configuration becomes a list of matchers. *)
From stdpp Require Import gmap sorting.
From S2P Require Import Prelude GoText NetIP Address StrMatcher AcAutomaton Mph.

(** ** What a connection shows *)

(** The session of a connection; [Attributes] lists a map in the order in which a
    loop meets its entries, [None] is nil. *)
Record Inbound := { in_Source : Destination; in_Tag : bytes; in_User : option bytes }.
Record Outbound := { out_Target : Destination; out_RouteTarget : Destination }.
Record Content := { Protocol : bytes; Attributes : option (list (bytes * bytes)); SkipDNSResolve : bool }.

Record Context := { c_Inbound : option Inbound; c_Outbound : option Outbound; c_Content : option Content }.

Definition GetInboundTag (ctx : Context) : bytes := from_option in_Tag [] (c_Inbound ctx).

(** A method call on a nil address is a run-time panic, [None]. *)
Definition GetSourceIPs (ctx : Context) : option (list bytes) :=
  match c_Inbound ctx with
  | None => Some []
  | Some i =>
      if IsValid (in_Source i) then
        a ← dest_Address (in_Source i);
        if IsDomain (Family a) then Some [] else ip ← Address_IP a; Some [ip]
      else Some []
  end.

Definition GetSourcePort (ctx : Context) : Z :=
  match c_Inbound ctx with
  | Some i => if IsValid (in_Source i) then dest_Port (in_Source i) else 0
  | None => 0
  end.

Definition session_GetTargetIPs (ctx : Context) : option (list bytes) :=
  match c_Outbound ctx with
  | None => Some []
  | Some o =>
      if IsValid (out_Target o) then
        a ← dest_Address (out_Target o);
        if IsIP (Family a) then ip ← Address_IP a; Some [ip] else Some []
      else Some []
  end.

Definition GetTargetPort (ctx : Context) : Z :=
  match c_Outbound ctx with
  | Some o => if IsValid (out_Target o) then dest_Port (out_Target o) else 0
  | None => 0
  end.

Definition GetTargetDomain (ctx : Context) : option bytes :=
  match c_Outbound ctx with
  | None => Some []
  | Some o =>
      if IsValid (out_Target o) then
        let of_target :=
          a ← dest_Address (out_Target o);
          if IsDomain (Family a) then Address.Domain a else Some [] in
        if IsValid (out_RouteTarget o) then
          a ← dest_Address (out_RouteTarget o);
          if IsDomain (Family a) then Address.Domain a else of_target
        else of_target
      else Some []
  end.

Definition GetNetwork (ctx : Context) : Network :=
  from_option (λ o, dest_Network (out_Target o)) Network_Unknown (c_Outbound ctx).

Definition GetProtocol (ctx : Context) : bytes := from_option Protocol [] (c_Content ctx).

Definition GetUser (ctx : Context) : bytes := default [] (c_Inbound ctx ≫= in_User).

Definition GetAttributes (ctx : Context) : option (list (bytes * bytes)) := c_Content ctx ≫= Attributes.

Definition GetSkipDNSResolve (ctx : Context) : bool := from_option SkipDNSResolve false (c_Content ctx).

(** ** Resolving the target *)

(** [dns.Client.LookupIP]: the answer to the [n]-th question, [None] for an error. *)
Class DnsClient := LookupIP : nat → bytes → option (list bytes).

(** A routing context: that of the session, or a [ResolvableContext] around it with
    the addresses it keeps; [lookups] counts the questions asked so far. *)
Record rctx := { session : Context; resolvable : bool; resolvedIPs : list bytes; lookups : nat }.

Definition AsRoutingContext (c : Context) : rctx :=
  {| session := c; resolvable := false; resolvedIPs := []; lookups := 0 |}.

Definition ContextWithDNSClient (ctx : rctx) : rctx :=
  {| session := session ctx; resolvable := true; resolvedIPs := []; lookups := lookups ctx |}.

Definition GetTargetIPs `{DnsClient} (ctx : rctx) : option (list bytes * rctx) :=
  if resolvable ctx then
    if decide (resolvedIPs ctx ≠ []) then Some (resolvedIPs ctx, ctx)
    else
      domain ← GetTargetDomain (session ctx);
      if decide (domain ≠ []) then
        let asked := {| session := session ctx; resolvable := true; resolvedIPs := resolvedIPs ctx;
                        lookups := S (lookups ctx) |} in
        match LookupIP (lookups ctx) domain with
        | Some ips =>
            Some (ips, {| session := session ctx; resolvable := true; resolvedIPs := ips;
                          lookups := S (lookups ctx) |})
        | None => ips ← session_GetTargetIPs (session ctx); Some (ips, asked)
        end
      else ips ← session_GetTargetIPs (session ctx); Some (ips, ctx)
  else ips ← session_GetTargetIPs (session ctx); Some (ips, ctx).

(** ** Sets of addresses *)

(** A prefix: the bytes of an address and the number of its leading bits. *)
Definition Prefix : Type := bytes * Z.

Definition bits_of (ip : bytes) : Z := 8 * Z.of_nat (length ip).

(** [netip.Prefix.Contains]. *)
Definition Prefix_Contains (p : Prefix) (ip : bytes) : bool :=
  bool_decide (length p.1 = length ip ∧
    be_val p.1 / 2 ^ (bits_of ip - p.2) = be_val ip / 2 ^ (bits_of ip - p.2)).

(** The package netipx: immutable sets of addresses and the conversion from [net.IP],
    which takes an IPv4 address out of its IPv6 form. *)
Class Netipx := {
  IPSet : Type;
  IPSetBuilder_IPSet : list Prefix → option IPSet;
  IPSet_Contains : IPSet → bytes → bool;
  FromStdIP : bytes → option bytes
}.

Class NetipxLaws `{Netipx} : Prop := {
  IPSet_built : ∀ ps, is_Some (IPSetBuilder_IPSet ps);
  IPSet_Contains_spec : ∀ ps s ip, IPSetBuilder_IPSet ps = Some s →
    IPSet_Contains s ip = existsb (λ p, Prefix_Contains p ip) ps;
  FromStdIP_4 : ∀ ip, length ip = 4%nat → FromStdIP ip = Some ip;
  FromStdIP_16 : ∀ ip, length ip = 16%nat → FromStdIP ip = Some (default ip (To4 ip))
}.

Definition CIDR : Type := bytes * Z.

(** [netip.ParsePrefix(ip.String() + "/" + strconv.Itoa(n))]: an IPv4 address in its
    IPv6 form prints, and so parses, as an IPv4 address. *)
Definition parse_prefix (cidr : CIDR) : option Prefix :=
  let '(ip, n) := cidr in
  if decide (length ip = 4%nat) then if decide (n ≤ 32) then Some (ip, n) else None
  else if decide (length ip = 16%nat) then
    match To4 ip with
    | Some ip4 => if decide (n ≤ 32) then Some (ip4, n) else None
    | None => if decide (n ≤ 128) then Some (ip, n) else None
    end
  else None.

Section with_netipx.
Context `{Netipx}.

Record GeoIPMatcher := { countryCode : bytes; reverseMatch : bool; ip4 : IPSet; ip6 : IPSet }.

(** The loop of [Init] over the CIDRs. *)
Fixpoint init_loop (cidrs : list CIDR) (builder4 builder6 : list Prefix) : option (list Prefix * list Prefix) :=
  match cidrs with
  | [] => Some (builder4, builder6)
  | c :: cidrs =>
      p ← parse_prefix c;
      if decide (length c.1 = 4%nat) then init_loop cidrs (builder4 ++ [p]) builder6
      else if decide (length c.1 = 16%nat) then init_loop cidrs builder4 (builder6 ++ [p])
      else init_loop cidrs builder4 builder6
  end.

Definition GeoIPMatcher_Init (code : bytes) (rev : bool) (cidrs : list CIDR) : option GeoIPMatcher :=
  '(b4, b6) ← init_loop cidrs [] [];
  s4 ← IPSetBuilder_IPSet b4;
  s6 ← IPSetBuilder_IPSet b6;
  Some {| countryCode := code; reverseMatch := rev; ip4 := s4; ip6 := s6 |}.

Definition match_set (s : IPSet) (ip : bytes) : bool :=
  match FromStdIP ip with None => false | Some nip => IPSet_Contains s nip end.

Definition GeoIPMatcher_Match (g : GeoIPMatcher) (ip : bytes) : bool :=
  let isMatched :=
    if decide (length ip = 4%nat) then match_set (ip4 g) ip
    else if decide (length ip = 16%nat) then match_set (ip6 g) ip
    else false in
  if reverseMatch g then negb isMatched else isMatched.

Record GeoIP := { CountryCode : bytes; Cidr : list CIDR; ReverseMatch : bool }.

(** The global container keeps the matchers with a country code; [None] is an error. *)
Definition container_Add (c : list GeoIPMatcher) (g : GeoIP) : option GeoIPMatcher * list GeoIPMatcher :=
  let known :=
    if decide (CountryCode g ≠ []) then
      snd <$> list_find (λ x, countryCode x = CountryCode g ∧ reverseMatch x = ReverseMatch g) c
    else None in
  match known with
  | Some x => (Some x, c)
  | None =>
      match GeoIPMatcher_Init (CountryCode g) (ReverseMatch g) (Cidr g) with
      | None => (None, c)
      | Some x => (Some x, if decide (CountryCode g ≠ []) then c ++ [x] else c)
      end
  end.

(** ** Conditions *)

(** [strmatcher.IndexMatcher]: a plain group or a perfect hash. *)
Inductive IndexMatcher := LinearIndex (g : MatcherGroup) | MphIndex (g : MphMatcherGroup).

Definition IndexMatcher_Match (x : IndexMatcher) (s : bytes) : option (list Z) :=
  match x with LinearIndex g => Some (group_Match g s) | MphIndex g => mph_Match g s end.

Inductive Condition :=
| DomainMatcher (matchers : IndexMatcher)
| MultiGeoIPMatcher (matchers : list GeoIPMatcher) (onSource : bool)
| PortMatcher (port : list (Z * Z)) (onSource : bool)
| NetworkMatcher (l : list bool)
| UserMatcher (user : list bytes)
| InboundTagMatcher (tags : list bytes)
| ProtocolMatcher (protocols : list bytes)
| AttributeMatcher (configuredKeys : gmap bytes (bytes → bool)).

Context `{UnicodeTables, DnsClient}.

Definition ApplyDomain (x : IndexMatcher) (domain : bytes) : option bool :=
  r ← IndexMatcher_Match x (ToLower domain);
  Some (bool_decide (0 < length r)%nat).

(** [list[int(n)]] of an array of eight. *)
Definition network_index (n : Network) : nat :=
  match n with
  | Network_Unknown => 0 | Network_RawTCP => 1 | Network_TCP => 2 | Network_UDP => 3 | Network_UNIX => 4
  end.

Definition lowered_headers (attrs : list (bytes * bytes)) : gmap bytes bytes :=
  foldl (λ m e, <[ToLower e.1 := e.2]> m) ∅ attrs.

Definition AttributeMatcher_Match (keys : gmap bytes (bytes → bool)) (attrs : list (bytes * bytes)) : bool :=
  let httpHeaders := lowered_headers attrs in
  forallb (λ e, match httpHeaders !! e.1 with Some a => e.2 a | None => false end) (map_to_list keys).

Definition Condition_Apply (c : Condition) (ctx : rctx) : option (bool * rctx) :=
  match c with
  | DomainMatcher x =>
      domain ← GetTargetDomain (session ctx);
      if decide (domain = []) then Some (false, ctx)
      else b ← ApplyDomain x domain; Some (b, ctx)
  | MultiGeoIPMatcher ms onSource =>
      '(ips, ctx) ← if onSource : bool then ips ← GetSourceIPs (session ctx); Some (ips, ctx) else GetTargetIPs ctx;
      Some (existsb (λ ip, existsb (λ g, GeoIPMatcher_Match g ip) ms) ips, ctx)
  | PortMatcher l onSource =>
      Some (MemoryPortList_Contains l
              (if onSource : bool then GetSourcePort (session ctx) else GetTargetPort (session ctx)), ctx)
  | NetworkMatcher l => b ← l !! network_index (GetNetwork (session ctx)); Some (b, ctx)
  | UserMatcher users =>
      let user := GetUser (session ctx) in
      Some (if decide (user = []) then false else existsb (λ u, bool_decide (u = user)) users, ctx)
  | InboundTagMatcher tags =>
      let tag := GetInboundTag (session ctx) in
      Some (if decide (tag = []) then false else existsb (λ t, bool_decide (t = tag)) tags, ctx)
  | ProtocolMatcher ps =>
      let protocol := GetProtocol (session ctx) in
      Some (if decide (protocol = []) then false else existsb (λ p, HasPrefix protocol p) ps, ctx)
  | AttributeMatcher keys =>
      Some (match GetAttributes (session ctx) with None => false | Some attrs => AttributeMatcher_Match keys attrs end, ctx)
  end.

(** [ConditionChan.Apply]: the conditions in order up to the first that fails. *)
Fixpoint Chan_Apply (cs : list Condition) (ctx : rctx) : option (bool * rctx) :=
  match cs with
  | [] => Some (true, ctx)
  | c :: cs =>
      '(b, ctx) ← Condition_Apply c ctx;
      if b : bool then Chan_Apply cs ctx else Some (false, ctx)
  end.

(** ** From the configuration *)

(** [Domain] of the configuration: [Type] and [Value]. *)
Inductive Domain_Type := Domain_Plain | Domain_Regex | Domain_Domain | Domain_Full | Domain_other (n : Z).

Definition matcherTypeMap (t : Domain_Type) : option Z :=
  match t with
  | Domain_Plain => Some Substr
  | Domain_Regex => Some Regex
  | Domain_Domain => Some StrMatcher.Domain
  | Domain_Full => Some Full
  | Domain_other _ => None
  end.

Context `{RegexpEngine, SortBySize}.

(** The order in which a loop meets the entries of a rule map, and the number of
    seeds a perfect hash may try. *)
Class MphEnv := { map_order : gmap bytes Z → list (bytes * Z); seed_fuel : nat }.
Context `{MphEnv}.

Definition domainToMatcher (d : Domain_Type * bytes) : outcome Matcher :=
  match matcherTypeMap d.1 with None => Fail | Some t => Type_New t d.2 end.

Fixpoint linear_loop (ds : list (Domain_Type * bytes)) (g : MatcherGroup) : outcome MatcherGroup :=
  match ds with
  | [] => Ret g
  | d :: ds => let? x := domainToMatcher d in linear_loop ds (group_Add x g).1
  end.

Definition NewDomainMatcher (ds : list (Domain_Type * bytes)) : outcome Condition :=
  let? g := linear_loop ds empty_group in Ret (DomainMatcher (LinearIndex g)).

Fixpoint mph_loop (ds : list (Domain_Type * bytes)) (g : MphMatcherGroup) : outcome MphMatcherGroup :=
  match ds with
  | [] => Ret g
  | d :: ds =>
      match matcherTypeMap d.1 with
      | None => Fail
      | Some t => let? r := AddPattern d.2 t g in mph_loop ds r.1
      end
  end.

Definition NewMphDomainMatcher (ds : list (Domain_Type * bytes)) : outcome Condition :=
  let? g := mph_loop ds Mph.NewMphMatcherGroup in
  let? g := mph_Build seed_fuel (map_order (filled_ruleMap g)) g in
  Ret (DomainMatcher (MphIndex g)).

(** The matchers added before an error stay in the container. *)
Fixpoint geoip_loop (gs : list GeoIP) (c : list GeoIPMatcher) : option (list GeoIPMatcher) * list GeoIPMatcher :=
  match gs with
  | [] => (Some [], c)
  | g :: gs =>
      match container_Add c g with
      | (None, c) => (None, c)
      | (Some x, c) => let '(xs, c) := geoip_loop gs c in (cons x <$> xs, c)
      end
  end.

Definition NewMultiGeoIPMatcher (gs : list GeoIP) (onSource : bool) (c : list GeoIPMatcher) :
  outcome Condition * list GeoIPMatcher :=
  match geoip_loop gs c with
  | (None, c) => (Fail, c)
  | (Some xs, c) => (Ret (MultiGeoIPMatcher xs onSource), c)
  end.

(** [list[int(n)] = true] for every network; the enum stays below eight. *)
Definition NewNetworkMatcher (ns : list Network) : Condition :=
  NetworkMatcher (foldl (λ l n, <[network_index n := true]> l) (replicate 8 false) ns).

Definition nonempty (l : list bytes) : list bytes := filter (λ x, x ≠ []) l.

Definition NewUserMatcher (users : list bytes) : Condition := UserMatcher (nonempty users).
Definition NewInboundTagMatcher (tags : list bytes) : Condition := InboundTagMatcher (nonempty tags).
Definition NewProtocolMatcher (ps : list bytes) : Condition := ProtocolMatcher (nonempty ps).

(** The loop that compiles the attributes; [MustCompile] panics. *)
Fixpoint compile_keys (attrs : list (bytes * bytes)) (m : gmap bytes (bytes → bool)) :
  outcome (gmap bytes (bytes → bool)) :=
  match attrs with
  | [] => Ret m
  | (k, v) :: attrs => ret_or_panic (regexp_Compile v) (λ r, compile_keys attrs (<[ToLower k := r]> m))
  end.

Record RoutingRule := {
  rr_Domain : list (Domain_Type * bytes);
  rr_DomainMatcher : bytes;
  rr_UserEmail : list bytes;
  rr_InboundTag : list bytes;
  rr_PortList : option (list PortRange);
  rr_PortRange : option PortRange;
  rr_SourcePortList : option (list PortRange);
  rr_Networks : list Network;
  rr_NetworkList : option (list Network);
  rr_Geoip : list GeoIP;
  rr_Cidr : list CIDR;
  rr_SourceGeoip : list GeoIP;
  rr_SourceCidr : list CIDR;
  rr_Protocol : list bytes;
  rr_Attributes : list (bytes * bytes);
  rr_Tag : bytes;
  rr_BalancingTag : bytes;
  rr_RuleTag : bytes
}.

(** The clauses of [BuildCondition], each adding nothing or one condition. *)
Definition domain_clause (rr : RoutingRule) : outcome (list Condition) :=
  if decide (rr_Domain rr = []) then Ret []
  else if decide (rr_DomainMatcher rr = lit "linear") then let? c := NewDomainMatcher (rr_Domain rr) in Ret [c]
  else let? c := NewMphDomainMatcher (rr_Domain rr) in Ret [c].

Definition list_clause {A} (l : list A) (f : list A → Condition) : list Condition :=
  match l with [] => [] | _ => [f l] end.

Definition port_clause (rr : RoutingRule) : list Condition :=
  match rr_PortList rr, rr_PortRange rr with
  | Some l, _ => [PortMatcher (PortListFromProto l) false]
  | None, Some r => [PortMatcher (PortListFromProto [r]) false]
  | None, None => []
  end.

Definition source_port_clause (rr : RoutingRule) : list Condition :=
  match rr_SourcePortList rr with Some l => [PortMatcher (PortListFromProto l) true] | None => [] end.

Definition network_clause (rr : RoutingRule) : list Condition :=
  match rr_Networks rr, rr_NetworkList rr with
  | _ :: _, _ => [NewNetworkMatcher (rr_Networks rr)]
  | [], Some l => [NewNetworkMatcher l]
  | [], None => []
  end.

Definition plain_geoip (cidrs : list CIDR) : GeoIP := {| CountryCode := []; Cidr := cidrs; ReverseMatch := false |}.

Definition geoip_clause (gs : list GeoIP) (cidrs : list CIDR) (onSource : bool) (c : list GeoIPMatcher) :
  outcome (list Condition) * list GeoIPMatcher :=
  let single r := (let? x := r.1 in Ret [x], r.2) in
  match gs, cidrs with
  | _ :: _, _ => single (NewMultiGeoIPMatcher gs onSource c)
  | [], _ :: _ => single (NewMultiGeoIPMatcher [plain_geoip cidrs] onSource c)
  | [], [] => (Ret [], c)
  end.

Definition attribute_clause (rr : RoutingRule) : outcome (list Condition) :=
  match rr_Attributes rr with
  | [] => Ret []
  | attrs => let? keys := compile_keys attrs ∅ in Ret [AttributeMatcher keys]
  end.

(** Sequencing of steps that may fail and change the container. *)
Definition and_then {A B} (r : outcome A * list GeoIPMatcher)
  (k : A → list GeoIPMatcher → outcome B * list GeoIPMatcher) : outcome B * list GeoIPMatcher :=
  match r with
  | (Ret a, c) => k a c
  | (Fail, c) => (Fail, c)
  | (Panic, c) => (Panic, c)
  end.

(** [Fail] is an error, among them a rule without an effective field. *)
Definition BuildCondition (rr : RoutingRule) (c : list GeoIPMatcher) : outcome (list Condition) * list GeoIPMatcher :=
  and_then (domain_clause rr, c) (λ domains c,
  let users := list_clause (rr_UserEmail rr) NewUserMatcher in
  let tags := list_clause (rr_InboundTag rr) NewInboundTagMatcher in
  and_then (geoip_clause (rr_Geoip rr) (rr_Cidr rr) false c) (λ targets c,
  and_then (geoip_clause (rr_SourceGeoip rr) (rr_SourceCidr rr) true c) (λ sources c,
  let protocols := list_clause (rr_Protocol rr) NewProtocolMatcher in
  and_then (attribute_clause rr, c) (λ attributes c,
  let conds := domains ++ users ++ tags ++ port_clause rr ++ source_port_clause rr ++ network_clause rr ++
               targets ++ sources ++ protocols ++ attributes in
  (if decide (conds = []) then Fail else Ret conds, c))))).
End with_netipx.

(** ** What the conditions mean *)

(** Every valid destination of the session has an address. *)
Definition dest_ok (d : Destination) : Prop := IsValid d = true → is_Some (dest_Address d).

Definition ctx_ok (c : Context) : Prop :=
  from_option (λ i, dest_ok (in_Source i)) True (c_Inbound c) ∧
  from_option (λ o, dest_ok (out_Target o) ∧ dest_ok (out_RouteTarget o)) True (c_Outbound c).

Lemma Address_cases a :
  (IsDomain (Family a) = true ∧ IsIP (Family a) = false ∧ is_Some (Address.Domain a)) ∨
  (IsDomain (Family a) = false ∧ IsIP (Family a) = true ∧ is_Some (Address_IP a)).
Proof. destruct a as [b|b|b]; [right|right|left]; (split; [done|]); (split; [done|by exists b]). Qed.

Lemma ctx_ok_source c : ctx_ok c → is_Some (GetSourceIPs c).
Proof.
  intros [Hi _]. unfold GetSourceIPs. destruct (c_Inbound c) as [i|]; [|eauto]. cbn in Hi.
  destruct (IsValid (in_Source i)) eqn:E; [|eauto]. destruct (Hi E) as [a ->]. cbn.
  destruct (Address_cases a) as [(-> & _ & _)|(-> & _ & [ip ->])]; eauto.
Qed.

Lemma ctx_ok_target c : ctx_ok c → is_Some (session_GetTargetIPs c).
Proof.
  intros [_ Ho]. unfold session_GetTargetIPs. destruct (c_Outbound c) as [o|]; [|eauto]. cbn in Ho.
  destruct (IsValid (out_Target o)) eqn:E; [|eauto]. destruct (proj1 Ho E) as [a ->]. cbn.
  destruct (Address_cases a) as [(_ & -> & _)|(_ & -> & [ip ->])]; eauto.
Qed.

Lemma ctx_ok_domain c : ctx_ok c → is_Some (GetTargetDomain c).
Proof.
  intros [_ Ho]. unfold GetTargetDomain. destruct (c_Outbound c) as [o|]; [|eauto]. cbn in Ho.
  destruct (IsValid (out_Target o)) eqn:E; [|eauto]. destruct (proj1 Ho E) as [a ->]. cbn [mbind option_bind].
  assert (is_Some (if IsDomain (Family a) then Address.Domain a else Some [])) as Ht
    by (destruct (Address_cases a) as [(-> & _ & ?)|(-> & _ & _)]; eauto).
  destruct (IsValid (out_RouteTarget o)) eqn:E'; [|done]. destruct (proj2 Ho E') as [a' ->]. cbn [mbind option_bind].
  destruct (Address_cases a') as [(-> & _ & ?)|(-> & _ & _)]; done.
Qed.

Definition target_domain (c : Context) : bytes := default [] (GetTargetDomain c).
Definition source_ips (c : Context) : list bytes := default [] (GetSourceIPs c).

Section target.
Context `{DnsClient}.

(** The resolver gives one answer per name. *)
Definition dns_stable : Prop := ∀ n d, LookupIP n d = LookupIP 0 d.

(** The addresses of the target as the router sees them. *)
Definition target_ips (ctx : rctx) : list bytes :=
  let plain := default [] (session_GetTargetIPs (session ctx)) in
  if resolvable ctx then
    if decide (resolvedIPs ctx ≠ []) then resolvedIPs ctx
    else if decide (target_domain (session ctx) ≠ []) then default plain (LookupIP 0 (target_domain (session ctx)))
    else plain
  else plain.

(** A resolver of one answer per name: asking changes nothing that is seen. *)
Lemma GetTargetIPs_stable ctx :
  dns_stable → ctx_ok (session ctx) →
  ∃ ctx', GetTargetIPs ctx = Some (target_ips ctx, ctx') ∧ session ctx' = session ctx ∧
    target_ips ctx' = target_ips ctx.
Proof.
  intros Hs Hok. unfold GetTargetIPs. destruct (ctx_ok_domain _ Hok) as [d Hd].
  destruct (ctx_ok_target _ Hok) as [ips Hips].
  assert (target_domain (session ctx) = d) as Ed by (unfold target_domain; by rewrite Hd).
  destruct (resolvable ctx) eqn:Hr.
  2:{ exists ctx. rewrite Hips. split; [|done]. unfold target_ips. by rewrite Hr, Hips. }
  case_decide as Hres.
  { exists ctx. split; [|done]. unfold target_ips. by rewrite Hr, decide_True. }
  rewrite Hd, Hips. cbn [mbind option_bind]. case_decide as Hne.
  2:{ exists ctx. split; [|done]. unfold target_ips. rewrite Hr, Hips. cbn zeta.
      rewrite decide_False by tauto. rewrite Ed, decide_False by tauto. done. }
  rewrite (Hs (lookups ctx)).
  assert (target_ips ctx = default ips (LookupIP 0 d)) as E
    by (unfold target_ips; rewrite Hr, decide_False by tauto; by rewrite Ed, decide_True, Hips).
  rewrite E. destruct (LookupIP 0 d) as [l|] eqn:El; cbn [from_option Datatypes.id].
  - eexists. split; [done|]. split; [done|]. unfold target_ips. cbn [resolvable session resolvedIPs].
    destruct (decide (l ≠ [])); [done|]. by rewrite Ed, decide_True, El.
  - eexists. split; [done|]. split; [done|]. unfold target_ips. cbn [resolvable session resolvedIPs].
    rewrite decide_False by tauto. by rewrite Ed, decide_True, El, Hips.
Qed.

(** A name that resolves to an address is asked for at most once. *)
Lemma GetTargetIPs_once ctx ips ctx' :
  GetTargetIPs ctx = Some (ips, ctx') → (resolvedIPs ctx' ≠ [] → GetTargetIPs ctx' = Some (resolvedIPs ctx', ctx') ∨ resolvable ctx' = false).
Proof.
  intros _ Hne. unfold GetTargetIPs. destruct (resolvable ctx'); [|by right]. left. by rewrite decide_True.
Qed.
End target.

(** *** Addresses *)

(** [net.IP] forms of one address compare in the form of the conversion. *)
Definition unmap (ip : bytes) : bytes := if decide (length ip = 16%nat) then default ip (To4 ip) else ip.

Definition cidr_contains (ip : bytes) (c : CIDR) : bool :=
  bool_decide (length c.1 = length ip) &&
  match parse_prefix c with Some p => Prefix_Contains p (unmap ip) | None => false end.

(** A set of addresses of the configuration, by definition. *)
Definition geoip_contains (g : GeoIP) (ip : bytes) : bool :=
  let inside := if decide (length ip = 4%nat ∨ length ip = 16%nat) then existsb (cidr_contains ip) (Cidr g) else false in
  xorb (ReverseMatch g) inside.

Section geoip.
Context `{Netipx, !NetipxLaws}.

Lemma init_loop_spec cidrs b4 b6 r4 r6 ip :
  init_loop cidrs b4 b6 = Some (r4, r6) →
  (length ip = 4%nat → existsb (λ p, Prefix_Contains p (unmap ip)) r4 =
     existsb (λ p, Prefix_Contains p (unmap ip)) b4 || existsb (cidr_contains ip) cidrs) ∧
  (length ip = 16%nat → existsb (λ p, Prefix_Contains p (unmap ip)) r6 =
     existsb (λ p, Prefix_Contains p (unmap ip)) b6 || existsb (cidr_contains ip) cidrs).
Proof using.
  revert b4 b6. induction cidrs as [|c cidrs IH]; intros b4 b6; cbn [init_loop existsb].
  - intros [= <- <-]. by rewrite !orb_false_r.
  - unfold cidr_contains at 1 3. destruct (parse_prefix c) as [p|]; [|done]. cbn [mbind option_bind].
    destruct (decide (length c.1 = 4%nat)) as [H4|H4]; [|destruct (decide (length c.1 = 16%nat)) as [H16|H16]].
    + intros [IH4 IH6]%IH. split; intros Hl.
      * rewrite IH4 by done. rewrite existsb_app. cbn [existsb]. rewrite bool_decide_true by congruence.
        by rewrite orb_false_r, andb_true_l, orb_assoc.
      * rewrite IH6 by done. rewrite bool_decide_false by congruence. done.
    + intros [IH4 IH6]%IH. split; intros Hl.
      * rewrite IH4 by done. rewrite bool_decide_false by congruence. done.
      * rewrite IH6 by done. rewrite existsb_app. cbn [existsb]. rewrite bool_decide_true by congruence.
        by rewrite orb_false_r, andb_true_l, orb_assoc.
    + intros [IH4 IH6]%IH. split; intros Hl; [rewrite IH4 by done|rewrite IH6 by done];
        rewrite bool_decide_false by congruence; done.
Qed.

(** The matcher of a set of the configuration recognises its addresses. *)
Lemma GeoIPMatcher_spec g x ip :
  GeoIPMatcher_Init (CountryCode g) (ReverseMatch g) (Cidr g) = Some x → GeoIPMatcher_Match x ip = geoip_contains g ip.
Proof using All.
  unfold GeoIPMatcher_Init. destruct (init_loop (Cidr g) [] []) as [[r4 r6]|] eqn:Hi; [|done]. cbn [mbind option_bind].
  destruct (IPSetBuilder_IPSet r4) as [s4|] eqn:E4; [|done]. cbn [mbind option_bind].
  destruct (IPSetBuilder_IPSet r6) as [s6|] eqn:E6; [|done]. cbn [mbind option_bind]. intros [= <-].
  destruct (init_loop_spec _ _ _ _ _ ip Hi) as [H4 H6]. cbn [existsb orb] in H4, H6.
  unfold GeoIPMatcher_Match, geoip_contains, match_set. cbn [ip4 ip6 reverseMatch].
  destruct (decide (length ip = 4%nat)) as [Hl|Hl]; [|destruct (decide (length ip = 16%nat)) as [Hl'|Hl']].
  - rewrite (FromStdIP_4 _ Hl), (IPSet_Contains_spec _ _ _ E4), decide_True by tauto.
    unfold unmap in H4. rewrite decide_False in H4 by lia. rewrite H4 by done. by destruct (ReverseMatch g), (existsb _ _).
  - rewrite (FromStdIP_16 _ Hl'), (IPSet_Contains_spec _ _ _ E6), decide_True by tauto.
    unfold unmap in H6. rewrite decide_True in H6 by done. rewrite H6 by done. by destruct (ReverseMatch g), (existsb _ _).
  - rewrite decide_False by tauto. by destruct (ReverseMatch g).
Qed.

(** The sets with a country code are those of one data file. *)
Definition from_file (file : bytes → list CIDR) (g : GeoIP) : Prop := CountryCode g ≠ [] → Cidr g = file (CountryCode g).

Definition cached (file : bytes → list CIDR) (c : list GeoIPMatcher) : Prop :=
  Forall (λ x, countryCode x ≠ [] ∧ GeoIPMatcher_Init (countryCode x) (reverseMatch x) (file (countryCode x)) = Some x) c.

Lemma container_Add_spec file c g x c' :
  cached file c → from_file file g → container_Add c g = (Some x, c') →
  cached file c' ∧ ∀ ip, GeoIPMatcher_Match x ip = geoip_contains g ip.
Proof using All.
  intros Hc Hf. unfold container_Add.
  assert (∀ y, GeoIPMatcher_Init (CountryCode g) (ReverseMatch g) (Cidr g) = Some y →
    countryCode y = CountryCode g ∧ reverseMatch y = ReverseMatch g) as Hinit.
  { intros y. unfold GeoIPMatcher_Init. destruct (init_loop _ _ _) as [[b4 b6]|]; [|done]. cbn.
    destruct (IPSetBuilder_IPSet b4) as [s4|]; [|done]. cbn.
    destruct (IPSetBuilder_IPSet b6) as [s6|]; [|done]. by intros [= <-]. }
  destruct (decide (CountryCode g ≠ [])) as [Hcode|Hcode]; cbn.
  - destruct (list_find _ c) as [[i y]|] eqn:E; cbn.
    + intros [= <- <-]. split; [done|]. intros ip. apply list_find_Some in E as (Hy & [E1 E2] & _).
      eapply Forall_lookup_1 in Hc as [_ Hy']; [|exact Hy]. apply GeoIPMatcher_spec.
      by rewrite <- E1, <- E2, (Hf Hcode), <- E1.
    + destruct (GeoIPMatcher_Init _ _ _) as [y|] eqn:Hy; [|done]. intros [= <- <-].
      split; [|intros ip; by apply GeoIPMatcher_spec]. destruct (Hinit y eq_refl) as [E1 E2].
      apply Forall_app. split; [done|]. apply Forall_singleton. rewrite E1, E2. by rewrite <- (Hf Hcode).
  - destruct (GeoIPMatcher_Init _ _ _) as [y|] eqn:Hy; [|done]. intros [= <- <-].
    split; [done|]. intros ip. by apply GeoIPMatcher_spec.
Qed.

Lemma geoip_loop_spec file gs c xs c' :
  cached file c → Forall (from_file file) gs → geoip_loop gs c = (Some xs, c') →
  cached file c' ∧ ∀ ip, existsb (λ x, GeoIPMatcher_Match x ip) xs = existsb (λ g, geoip_contains g ip) gs.
Proof using All.
  revert c xs. induction gs as [|g gs IH]; intros c xs Hc Hf; cbn [geoip_loop].
  - intros [= <- <-]. done.
  - apply Forall_cons in Hf as [Hg Hf]. destruct (container_Add c g) as [[x|] c1] eqn:Ha; [|done].
    destruct (container_Add_spec _ _ _ _ _ Hc Hg Ha) as [Hc1 Hx].
    destruct (geoip_loop gs c1) as [[ys|] c2] eqn:Hl; [|done]. cbn. intros [= <- <-].
    destruct (IH _ _ Hc1 Hf Hl) as [Hc2 Hys]. split; [done|]. intros ip. cbn [existsb]. by rewrite Hx, Hys.
Qed.
End geoip.

(** *** Names *)

Section names.
Context `{UnicodeTables, RegexpEngine, SortBySize, !SortBySizeLaws, MphEnv}.

Definition domain_matches (ds : list (Domain_Type * bytes)) (s : bytes) : bool :=
  existsb (λ d, match d.1 with
                | Domain_Full => bool_decide (d.2 = s)
                | Domain_Domain => domainMatcher_Match d.2 s
                | Domain_Plain => Contains s d.2
                | Domain_Regex => match regexp_Compile d.2 with Some r => r s | None => false end
                | Domain_other _ => false
                end) ds.

(** A name as the router hands it to a matcher: in lower case, of listed
    characters, and not the placeholder of an empty table. *)
Definition name_ok (s : bytes) : Prop := s ≠ [] ∧ plain s ∧ lower s = s ∧ s ≠ empty_rule.

(** What the index of a list of patterns promises to the router: on the names it is
    asked for it answers, and with something exactly when a pattern matches. *)
Class IndexFor (ds : list (Domain_Type * bytes)) (x : IndexMatcher) : Prop :=
  index_for : ∀ s, name_ok s →
    ∃ r, IndexMatcher_Match x s = Some r ∧ (r ≠ [] ↔ domain_matches ds s = true).

Lemma linear_loop_group ds ms0 g :
  linear_loop ds (group_of ms0) = Ret g →
  ∃ ms, g = group_of (ms0 ++ ms) ∧ ∀ s, existsb (λ x, Matcher_Match x s) ms = domain_matches ds s.
Proof using.
  revert ms0. induction ds as [|[t v] ds IH]; intros ms0; cbn [linear_loop].
  - intros <-%Ret_inj. exists []. by rewrite app_nil_r.
  - destruct (domainToMatcher (t, v)) as [x| |] eqn:Hx; [|done..]. cbn [outcome_bind].
    assert ((group_Add x (group_of ms0)).1 = group_of (ms0 ++ [x])) as -> by (unfold group_of; by rewrite foldl_app).
    intros (ms & -> & Hms)%IH. exists (x :: ms). rewrite <- (assoc_L (++)). split; [done|]. intros s.
    unfold domain_matches in *. cbn [existsb fst snd]. rewrite Hms. f_equal.
    destruct t; cbn in Hx; try done; try (by injection Hx as <-).
    unfold Type_New in Hx. cbn in Hx. destruct (regexp_Compile v) as [r|]; [|done]. by injection Hx as <-.
Qed.

#[global] Instance linear_index ds g : linear_loop ds empty_group = Ret g → IndexFor ds (LinearIndex g).
Proof using.
  intros Hl s [Hne _]. apply (linear_loop_group ds []) in Hl as (ms & -> & Hms). cbn [app].
  eexists. split; [done|]. rewrite <- Hms. by apply group_Match_some.
Qed.

Definition pattern_of (d : Domain_Type * bytes) : option (bytes * Z) := pair d.2 <$> matcherTypeMap d.1.

Lemma mph_loop_patterns ds g g' :
  mph_loop ds g = Ret g' → ∃ ps, mapM pattern_of ds = Some ps ∧ add_patterns ps g = Ret g'.
Proof using.
  revert g. induction ds as [|[t v] ds IH]; intros g; cbn [mph_loop].
  - intros <-%Ret_inj. by exists [].
  - cbn [fst snd]. destruct (matcherTypeMap t) as [k|] eqn:Ht; [|done].
    destruct (AddPattern v k g) as [[g1 c]| |] eqn:Ha; [|done..]. cbn [outcome_bind fst].
    intros (ps & Hps & Hadd)%IH. exists ((v, k) :: ps).
    assert (pattern_of (t, v) = Some (v, k)) as Hp by (unfold pattern_of; cbn [fst snd]; by rewrite Ht).
    split; [|cbn [add_patterns]; rewrite Ha; exact Hadd]. cbn [mapM]. rewrite Hp. cbn [mbind option_bind].
    rewrite Hps. done.
Qed.

(** The patterns of a perfect hash in the form in which it keeps them. *)
Definition patterns_ok (ds : list (Domain_Type * bytes)) : Prop :=
  Forall (λ d, match d.1 with
               | Domain_Full | Domain_Domain => ToLower d.2 = d.2 ∧ head d.2 ≠ Some dot
               | Domain_Plain => lower d.2 = d.2 ∧ plain d.2
               | _ => True
               end) ds ∧
  (∀ ps, mapM pattern_of ds = Some ps → no_keyword_inside (keywords ps)).

Definition hash_exists (ds : list (Domain_Type * bytes)) : Prop :=
  ∀ g, mph_loop ds Mph.NewMphMatcherGroup = Ret g → separable_order seed_fuel (map_order (filled_ruleMap g)).

Lemma patterns_match ds ps s :
  mapM pattern_of ds = Some ps → patterns_ok ds → lower s = s →
  no_leading_dot ps ∧ Forall plain (keywords ps) ∧ existsb (pattern_matches s) ps = domain_matches ds s.
Proof using.
  intros Hps [Hok _] Hs. unfold no_leading_dot, keywords. revert ps Hps.
  induction Hok as [|[t v] ds Hd _ IH]; intros ps Hps.
  - injection Hps as <-. split_all; [constructor|constructor|done].
  - cbn [mapM] in Hps. destruct (matcherTypeMap t) as [k|] eqn:Ht.
    2:{ assert (pattern_of (t, v) = None) as Hp by (unfold pattern_of; cbn [fst snd]; by rewrite Ht).
        by rewrite Hp in Hps. }
    assert (pattern_of (t, v) = Some (v, k)) as Hp by (unfold pattern_of; cbn [fst snd]; by rewrite Ht).
    rewrite Hp in Hps. cbn [mbind option_bind] in Hps.
    destruct (mapM pattern_of ds) as [ps'|]; [|done]. cbn [mbind option_bind] in Hps. injection Hps as <-.
    cbn [fst snd] in Hd.
    destruct (IH ps' eq_refl) as (Ha & Hb & Hc).
    assert (pattern_matches s (v, k) = match t with
              | Domain_Full => bool_decide (v = s)
              | Domain_Domain => domainMatcher_Match v s
              | Domain_Plain => Contains s v
              | Domain_Regex => match regexp_Compile v with Some r => r s | None => false end
              | Domain_other _ => false
              end) as Hm.
    { unfold pattern_matches. cbn [fst snd].
      destruct t; cbn in Ht; try done; injection Ht as <-; cbn [Matcher_Match]; try done.
      - cbn. destruct Hd as [-> _]. by rewrite Hs.
      - cbn. by destruct Hd as [-> _].
      - cbn. by destruct Hd as [-> _]. }
    unfold domain_matches in *. cbn [existsb fst snd]. rewrite Hm, Hc. rewrite filter_cons. cbn [snd].
    split_all; [|destruct (decide (k = Substr)) as [->|]; [|done]|done].
    + apply Forall_cons. split; [|done]. cbn [fst snd]. intros Hk.
      destruct t; cbn in Ht; try done; injection Ht as <-; try (by destruct Hk as [?|?]); by destruct Hd as [-> ?].
    + cbn [fmap list_fmap fst]. apply Forall_cons. split; [|done]. destruct t; try done. apply Hd.
Qed.

#[global] Instance mph_index ds g g' :
  (∀ m, map_order m ≡ₚ map_to_list m) → patterns_ok ds → hash_exists ds →
  mph_loop ds Mph.NewMphMatcherGroup = Ret g →
  mph_Build seed_fuel (map_order (filled_ruleMap g)) g = Ret g' → IndexFor ds (MphIndex g').
Proof using All.
  intros Horder Hok Hhash Hloop Hbuild s (_ & Hplain & Hlow & Hne).
  pose proof (Hhash _ Hloop) as Hsep. apply mph_loop_patterns in Hloop as (ps & Hps & Hadd).
  destruct (patterns_match ds ps s Hps Hok Hlow) as (Hdot & Hkw & Hm).
  destruct (mph_group_agrees ps g (map_order (filled_ruleMap g)) seed_fuel s Hadd (Horder _) Hsep Hdot Hkw
    (proj2 Hok _ Hps) Hplain (or_intror Hne)) as (g1 & r & Hb & Hr & Hiff).
  assert (g1 = g') as -> by (rewrite Hb in Hbuild; by apply Ret_inj in Hbuild).
  exists r. by rewrite Hiff, Hm.
Qed.
End names.

(** A rule with [linear] matching keeps the case of its pattern while the
    name is lowered: a pattern with a capital letter matches no name. *)
Lemma linear_keeps_case (g : MatcherGroup) :
  linear_loop (H2 := literal_regexp) [(Domain_Full, lit "Example.com")] empty_group = Ret g →
  ApplyDomain (H0 := ascii_tables) (LinearIndex g) (lit "Example.com") = Some false.
Proof. intros [= <-]. by vm_compute. Qed.
