(* ===== verification/RouteRules.v ===== *)
(** What a routing rule of the configuration means, and that the conditions that
    [BuildCondition] makes of it (src/upstream/xray-core/app/router/config.go) hold
    exactly then. *)
From stdpp Require Import gmap sorting.
From S2P Require Import Prelude GoText NetIP Address StrMatcher AcAutomaton Mph Conditions.

Section rules.
Context `{Netipx, NL : !NetipxLaws, UnicodeTables, DnsClient, RegexpEngine, SortBySize, SL : !SortBySizeLaws, MphEnv}.
Context (map_order_perm : ∀ m, map_order m ≡ₚ map_to_list m).

(** ** The meaning of a rule *)

Definition any_or {A} (l : list A) (f : list A → bool) : bool := match l with [] => true | _ => f l end.

Definition ports_hold (l : list PortRange) (port : Z) : bool := existsb (λ r, PortRange_Contains r port) l.

Definition ips_hold (gs : list GeoIP) (cidrs : list CIDR) (ips : list bytes) : bool :=
  let among gs := existsb (λ ip, existsb (λ g, geoip_contains g ip) gs) ips in
  match gs, cidrs with
  | _ :: _, _ => among gs
  | [], _ :: _ => among [plain_geoip cidrs]
  | [], [] => true
  end.

Definition attributes_hold (attrs : list (bytes * bytes)) (headers : option (list (bytes * bytes))) : bool :=
  match headers, compile_keys attrs ∅ with
  | Some headers, Ret keys => AttributeMatcher_Match keys headers
  | _, _ => false
  end.

(** Every field that the rule sets holds of the connection; [ips] are the addresses
    of its target. *)
Definition rule_holds (rr : RoutingRule) (c : Context) (ips : list bytes) : bool :=
  any_or (rr_Domain rr) (λ ds, bool_decide (target_domain c ≠ []) && domain_matches ds (ToLower (target_domain c))) &&
  (any_or (rr_UserEmail rr) (λ us, bool_decide (GetUser c ≠ [] ∧ GetUser c ∈ us)) &&
  (any_or (rr_InboundTag rr) (λ ts, bool_decide (GetInboundTag c ≠ [] ∧ GetInboundTag c ∈ ts)) &&
  (match rr_PortList rr, rr_PortRange rr with
   | Some l, _ => ports_hold l (GetTargetPort c)
   | None, Some r => ports_hold [r] (GetTargetPort c)
   | None, None => true
   end &&
  (match rr_SourcePortList rr with Some l => ports_hold l (GetSourcePort c) | None => true end &&
  (match rr_Networks rr, rr_NetworkList rr with
   | _ :: _, _ => bool_decide (GetNetwork c ∈ rr_Networks rr)
   | [], Some l => bool_decide (GetNetwork c ∈ l)
   | [], None => true
   end &&
  (ips_hold (rr_Geoip rr) (rr_Cidr rr) ips &&
  (ips_hold (rr_SourceGeoip rr) (rr_SourceCidr rr) (source_ips c) &&
  (any_or (rr_Protocol rr) (λ ps, bool_decide (GetProtocol c ≠ []) &&
     existsb (λ p, bool_decide (p ≠ []) && HasPrefix (GetProtocol c) p) ps) &&
  any_or (rr_Attributes rr) (λ attrs, attributes_hold attrs (GetAttributes c)))))))))).

(** ** Conditions as parts of a rule *)

(** The conditions [cs] answer [b] on every view of this session. *)
Definition answers (c : Context) (ips : list bytes) (cs : list Condition) (b : bool) : Prop :=
  ∀ ctx, session ctx = c → target_ips ctx = ips →
    ∃ ctx', Chan_Apply cs ctx = Some (b, ctx') ∧ session ctx' = c ∧ target_ips ctx' = ips.

Lemma answers_nil c ips : answers c ips [] true.
Proof using. intros ctx Hc Hi. by exists ctx. Qed.

Lemma Chan_Apply_app cs1 cs2 ctx :
  Chan_Apply (cs1 ++ cs2) ctx =
  '(b, ctx') ← Chan_Apply cs1 ctx; if b : bool then Chan_Apply cs2 ctx' else Some (false, ctx').
Proof using.
  revert ctx. induction cs1 as [|x cs1 IH]; intros ctx; [done|]. cbn [Chan_Apply app].
  destruct (Condition_Apply x ctx) as [[[] ctx2]|]; [|done..]. cbn [mbind option_bind]. apply IH.
Qed.

Lemma answers_app c ips cs1 cs2 b1 b2 :
  answers c ips cs1 b1 → answers c ips cs2 b2 → answers c ips (cs1 ++ cs2) (b1 && b2).
Proof using.
  intros Ha Hb ctx Hc Hi. destruct (Ha ctx Hc Hi) as (ctx1 & E1 & Hc1 & Hi1). rewrite Chan_Apply_app, E1.
  cbn [mbind option_bind]. destruct b1; [by apply Hb|by exists ctx1].
Qed.

(** A condition that asks nothing. *)
Lemma answers_single c ips x b :
  (∀ ctx, session ctx = c → Condition_Apply x ctx = Some (b, ctx)) → answers c ips [x] b.
Proof using.
  intros Hx ctx Hc Hi. cbn [Chan_Apply]. rewrite (Hx ctx Hc). cbn [mbind option_bind]. by destruct b; exists ctx.
Qed.

Lemma answers_list {A} c ips (l : list A) (f : list A → Condition) (h : list A → bool) :
  answers c ips [f l] (h l) → answers c ips (list_clause l f) (any_or l h).
Proof using. destruct l; [intros _; apply answers_nil|done]. Qed.

(** ** The clauses *)

Lemma nonempty_existsb (P : bytes → bool) l : existsb P (nonempty l) = existsb (λ x, bool_decide (x ≠ []) && P x) l.
Proof using.
  unfold nonempty. induction l as [|x l IH]; [done|]. rewrite filter_cons. cbn [existsb]. rewrite <- IH.
  destruct (decide (x ≠ [])); [by rewrite bool_decide_true|by rewrite bool_decide_false].
Qed.

Lemma existsb_eq (u : bytes) l :
  (if decide (u = []) then false else existsb (λ x, bool_decide (x = u)) (nonempty l)) = bool_decide (u ≠ [] ∧ u ∈ l).
Proof using.
  case_decide as Hu; [by rewrite bool_decide_false by tauto|].
  rewrite nonempty_existsb. apply eq_bool_prop_intro. rewrite bool_decide_spec. rewrite Is_true_true, existsb_exists.
  setoid_rewrite andb_true_iff. setoid_rewrite bool_decide_eq_true. setoid_rewrite <- list_elem_of_In. naive_solver.
Qed.

Lemma answers_users c ips us : answers c ips [NewUserMatcher us] (bool_decide (GetUser c ≠ [] ∧ GetUser c ∈ us)).
Proof using. apply answers_single. intros ctx <-. cbn [NewUserMatcher Condition_Apply]. by rewrite existsb_eq. Qed.

Lemma answers_tags c ips ts :
  answers c ips [NewInboundTagMatcher ts] (bool_decide (GetInboundTag c ≠ [] ∧ GetInboundTag c ∈ ts)).
Proof using. apply answers_single. intros ctx <-. cbn [NewInboundTagMatcher Condition_Apply]. by rewrite existsb_eq. Qed.

Lemma answers_protocols c ips ps :
  answers c ips [NewProtocolMatcher ps]
    (bool_decide (GetProtocol c ≠ []) && existsb (λ p, bool_decide (p ≠ []) && HasPrefix (GetProtocol c) p) ps).
Proof using.
  apply answers_single. intros ctx <-. cbn [NewProtocolMatcher Condition_Apply]. rewrite nonempty_existsb.
  by case_decide; [rewrite bool_decide_false by tauto|rewrite bool_decide_true].
Qed.

Lemma MemoryPortList_exists l port :
  MemoryPortList_Contains (PortListFromProto l) port = ports_hold l port.
Proof using.
  unfold PortListFromProto, ports_hold. induction l as [|r l IH]; [done|].
  cbn [fmap list_fmap MemoryPortList_Contains existsb]. rewrite IH. by destruct (MemoryPortRange_Contains _ _) eqn:E;
    unfold MemoryPortRange_Contains in E; cbn [fst snd] in E; unfold PortRange_Contains; rewrite E.
Qed.

Lemma answers_ports c ips l (onSource : bool) :
  answers c ips [PortMatcher (PortListFromProto l) onSource]
    (ports_hold l (if onSource then GetSourcePort c else GetTargetPort c)).
Proof using. apply answers_single. intros ctx <-. cbn [Condition_Apply]. by rewrite MemoryPortList_exists. Qed.

Lemma network_index_inj a b : network_index a = network_index b → a = b.
Proof using. by destruct a, b. Qed.

Lemma networks_lookup ns l n :
  length l = 8%nat →
  foldl (λ l n, <[network_index n := true]> l) l ns !! network_index n =
  Some (bool_decide (n ∈ ns) || (l !!! network_index n)).
Proof using.
  revert l. induction ns as [|k ns IH]; intros l Hl; cbn [foldl].
  - rewrite bool_decide_false by apply not_elem_of_nil. cbn [orb]. apply list_lookup_lookup_total_lt.
    rewrite Hl. destruct n; cbn; lia.
  - rewrite IH by by rewrite length_insert. f_equal. destruct (decide (n = k)) as [->|Hne].
    + rewrite list_lookup_total_insert_eq by (rewrite Hl; destruct k; cbn; lia).
      rewrite (bool_decide_true (k ∈ k :: ns)) by apply list_elem_of_here. by rewrite orb_true_r.
    + rewrite list_lookup_total_insert_ne by (intros E; by apply Hne, network_index_inj). f_equal.
      apply bool_decide_ext. rewrite elem_of_cons. naive_solver.
Qed.

Lemma answers_networks c ips ns : answers c ips [NewNetworkMatcher ns] (bool_decide (GetNetwork c ∈ ns)).
Proof using.
  apply answers_single. intros ctx <-. cbn [NewNetworkMatcher Condition_Apply]. rewrite networks_lookup by done.
  cbn [mbind option_bind]. rewrite lookup_total_replicate_2 by (destruct (GetNetwork (session ctx)); cbn; lia).
  by rewrite orb_false_r.
Qed.

Lemma answers_geoip c ips file gs onSource k x k' :
  cached file k → Forall (from_file file) gs →
  NewMultiGeoIPMatcher gs onSource k = (Ret x, k') →
  cached file k' ∧ (dns_stable → ctx_ok c →
  answers c ips [x] (existsb (λ ip, existsb (λ g, geoip_contains g ip) gs) (if onSource then source_ips c else ips))).
Proof using NL.
  intros Hk Hf. unfold NewMultiGeoIPMatcher.
  destruct (geoip_loop gs k) as [[xs|] k1] eqn:El; [|done]. intros [<-%Ret_inj <-]%pair_equal_spec.
  destruct (geoip_loop_spec _ _ _ _ _ Hk Hf El) as [Hk1 Hxs]. split; [done|]. intros Hs Hok.
  assert (∀ l, existsb (λ ip, existsb (λ g, GeoIPMatcher_Match g ip) xs) l =
               existsb (λ ip, existsb (λ g, geoip_contains g ip) gs) l) as E.
  { induction l as [|ip l IH]; [done|]. cbn [existsb]. by rewrite Hxs, IH. }
  intros ctx Hc Hi. cbn [Chan_Apply Condition_Apply]. destruct onSource.
  - destruct (ctx_ok_source _ Hok) as [l Hl]. rewrite Hc, Hl. cbn [mbind option_bind]. rewrite E.
    unfold source_ips. rewrite Hl. cbn [from_option Datatypes.id]. by destruct (existsb _ _); exists ctx.
  - destruct (GetTargetIPs_stable ctx Hs) as (ctx' & Ht & Hs' & Hi'); [by rewrite Hc|]. rewrite Ht.
    cbn [mbind option_bind]. rewrite E, Hi. exists ctx'. rewrite Hs', Hi'. by destruct (existsb _ _).
Qed.

Definition named_ok (c : Context) : Prop := target_domain c = [] ∨ name_ok (ToLower (target_domain c)).

(** The router relies on nothing but the promise of the index. *)
Lemma answers_domain c ips ds x :
  IndexFor ds x → ctx_ok c → named_ok c →
  answers c ips [DomainMatcher x]
    (bool_decide (target_domain c ≠ []) && domain_matches ds (ToLower (target_domain c))).
Proof using.
  intros Hx Hok Hn. apply answers_single. intros ctx Hc. cbn [Condition_Apply]. rewrite Hc.
  destruct (ctx_ok_domain _ Hok) as [d Hd]. unfold named_ok, target_domain in *. rewrite Hd in *.
  cbn [mbind option_bind from_option Datatypes.id] in *. case_decide as Hne.
  - by rewrite bool_decide_false by tauto.
  - rewrite bool_decide_true by done. destruct Hn as [?|Hn]; [done|].
    destruct (Hx _ Hn) as (r & Hr & Hiff). unfold ApplyDomain. rewrite Hr. cbn [mbind option_bind andb].
    do 2 f_equal. apply eq_bool_prop_intro. rewrite bool_decide_spec, !Is_true_true, <- Hiff.
    destruct r; simpl; split; try done; lia.
Qed.

(** The domain patterns of a rule suit the matcher it names. *)
Definition domains_ok (rr : RoutingRule) : Prop :=
  rr_DomainMatcher rr = lit "linear" ∨ (patterns_ok (rr_Domain rr) ∧ hash_exists (rr_Domain rr)).

Lemma answers_domain_clause c ips rr cs :
  domains_ok rr → ctx_ok c → named_ok c → domain_clause rr = Ret cs →
  answers c ips cs
    (any_or (rr_Domain rr) (λ ds, bool_decide (target_domain c ≠ []) && domain_matches ds (ToLower (target_domain c)))).
Proof using SL map_order_perm.
  intros Hd Hok Hn. unfold domain_clause. destruct (rr_Domain rr) as [|d ds] eqn:E.
  { rewrite decide_True by done. intros <-%Ret_inj. apply answers_nil. }
  rewrite decide_False by done. cbn [any_or]. rewrite <- E. case_decide as Hl.
  - unfold NewDomainMatcher. destruct (linear_loop _ _) as [g| |] eqn:Hg; [|done..]. cbn [outcome_bind].
    intros <-%Ret_inj. apply answers_domain; [|done..]. by apply linear_index.
  - unfold NewMphDomainMatcher. destruct (mph_loop _ _) as [g| |] eqn:Hg; [|done..]. cbn [outcome_bind].
    destruct (mph_Build _ _ _) as [g'| |] eqn:Hb; [|done..]. cbn [outcome_bind]. intros <-%Ret_inj.
    destruct Hd as [?|[Hp Hh]]; [done|]. apply answers_domain; [|done..]. by eapply mph_index.
Qed.

Lemma answers_geoip_clause c ips file gs cidrs onSource k cs k' :
  cached file k → Forall (from_file file) gs →
  geoip_clause gs cidrs onSource k = (Ret cs, k') →
  cached file k' ∧ (dns_stable → ctx_ok c →
    answers c ips cs (ips_hold gs cidrs (if onSource then source_ips c else ips))).
Proof using NL.
  intros Hk Hf. unfold geoip_clause, ips_hold. destruct gs as [|g gs]; [destruct cidrs as [|d cidrs]|].
  - intros [<-%Ret_inj <-]%pair_equal_spec. split; [done|intros; apply answers_nil].
  - destruct (NewMultiGeoIPMatcher _ _ _) as [[x| |] k1] eqn:E; cbn [fst snd outcome_bind]; [|done..].
    intros [<-%Ret_inj <-]%pair_equal_spec. eapply answers_geoip in E; [exact E|done..|].
    apply Forall_singleton. by intros [].
  - destruct (NewMultiGeoIPMatcher _ _ _) as [[x| |] k1] eqn:E; cbn [fst snd outcome_bind]; [|done..].
    intros [<-%Ret_inj <-]%pair_equal_spec. eapply answers_geoip in E; [exact E|done..].
Qed.

Lemma answers_attributes c ips rr cs :
  attribute_clause rr = Ret cs →
  answers c ips cs (any_or (rr_Attributes rr) (λ attrs, attributes_hold attrs (GetAttributes c))).
Proof using.
  unfold attribute_clause, attributes_hold. destruct (rr_Attributes rr) as [|a attrs].
  { intros <-%Ret_inj. apply answers_nil. }
  cbn [any_or]. destruct (compile_keys (a :: attrs) ∅) as [keys| |]; [|done..]. cbn [outcome_bind].
  intros <-%Ret_inj. apply answers_single. by intros ctx <-.
Qed.

Lemma answers_port_clause c ips rr :
  answers c ips (port_clause rr)
    match rr_PortList rr, rr_PortRange rr with
    | Some l, _ => ports_hold l (GetTargetPort c)
    | None, Some r => ports_hold [r] (GetTargetPort c)
    | None, None => true
    end.
Proof using.
  unfold port_clause. destruct (rr_PortList rr) as [l|]; [apply (answers_ports c ips l false)|].
  destruct (rr_PortRange rr) as [r|]; [apply (answers_ports c ips [r] false)|apply answers_nil].
Qed.

Lemma answers_source_port_clause c ips rr :
  answers c ips (source_port_clause rr)
    match rr_SourcePortList rr with Some l => ports_hold l (GetSourcePort c) | None => true end.
Proof using.
  unfold source_port_clause. destruct (rr_SourcePortList rr) as [l|]; [apply (answers_ports c ips l true)|apply answers_nil].
Qed.

Lemma answers_network_clause c ips rr :
  answers c ips (network_clause rr)
    match rr_Networks rr, rr_NetworkList rr with
    | _ :: _, _ => bool_decide (GetNetwork c ∈ rr_Networks rr)
    | [], Some l => bool_decide (GetNetwork c ∈ l)
    | [], None => true
    end.
Proof using.
  unfold network_clause. destruct (rr_Networks rr); [destruct (rr_NetworkList rr)|];
    [apply answers_networks|apply answers_nil|apply answers_networks].
Qed.

(** Everything that the theorem below asks of a rule and of the data file. *)
Definition rule_ok (file : bytes → list CIDR) (rr : RoutingRule) : Prop :=
  domains_ok rr ∧ Forall (from_file file) (rr_Geoip rr) ∧ Forall (from_file file) (rr_SourceGeoip rr).

Lemma BuildCondition_answers file rr k conds k' c ips :
  rule_ok file rr → cached file k → BuildCondition rr k = (Ret conds, k') →
  cached file k' ∧
  (dns_stable → ctx_ok c → named_ok c → answers c ips conds (rule_holds rr c ips)).
Proof using All.
  intros (Hd & Hg & Hsg) Hk. unfold BuildCondition.
  destruct (domain_clause rr) as [ds| |] eqn:Ed; cbn [and_then]; [|done..].
  destruct (geoip_clause (rr_Geoip rr) (rr_Cidr rr) false k) as [[ts| |] k1] eqn:Et; cbn [and_then]; [|done..].
  destruct (answers_geoip_clause c ips _ _ _ _ _ _ _ Hk Hg Et) as [Hk1 Hts].
  destruct (geoip_clause (rr_SourceGeoip rr) (rr_SourceCidr rr) true k1) as [[ss| |] k2] eqn:Es; cbn [and_then]; [|done..].
  destruct (answers_geoip_clause c ips _ _ _ _ _ _ _ Hk1 Hsg Es) as [Hk2 Hss].
  destruct (attribute_clause rr) as [as_| |] eqn:Ea; cbn [and_then]; [|done..]. case_decide; [done|].
  intros [<-%Ret_inj <-]%pair_equal_spec. split; [done|]. intros Hs Hok Hn. unfold rule_holds.
  repeat apply answers_app.
  - by apply answers_domain_clause.
  - apply answers_list, answers_users.
  - apply answers_list, answers_tags.
  - apply answers_port_clause.
  - apply answers_source_port_clause.
  - apply answers_network_clause.
  - by apply Hts.
  - by apply Hss.
  - apply answers_list, answers_protocols.
  - by apply answers_attributes.
Qed.

(** The conditions of a rule hold of a connection exactly when every field the rule
    sets does: the list of conditions, the cache of address sets and the resolver
    behind the context do not show. *)
Theorem rule_condition_spec file rr k conds k' ctx :
  rule_ok file rr → cached file k → BuildCondition rr k = (Ret conds, k') →
  dns_stable → ctx_ok (session ctx) → named_ok (session ctx) →
  ∃ ctx', Chan_Apply conds ctx = Some (rule_holds rr (session ctx) (target_ips ctx), ctx') ∧
    session ctx' = session ctx ∧ target_ips ctx' = target_ips ctx.
Proof using All.
  intros Hr Hk Hb Hs Hok Hn.
  destruct (BuildCondition_answers file rr k conds k' (session ctx) (target_ips ctx) Hr Hk Hb) as [_ Ha].
  by apply Ha.
Qed.
End rules.
