(* ===== verification/Balancer.v ===== *)
(** The balancers of the router
    (src/upstream/xray-core/app/router: balancing.go, balancing_override.go,
    strategy_random.go, strategy_leastping.go, strategy_leastload.go, weight.go, and
    BalancingRule.Build of config.go): the strategies that pick one of several
    outbounds, the override set from outside, and the fall-back. *)
From stdpp Require Import gmap sorting.
From S2P Require Import Prelude GoText StrMatcher.

(** ** What the strategies see *)

Record HealthPing := { All_ : Z; Fail_ : Z; Deviation : Z; Average : Z }.

Record OutboundStatus := { OutboundTag : bytes; Alive : bool; Delay : Z; hp : option HealthPing }.

(** The observatory at the time of a pick: not among the features of the instance,
    answering with an error, with a report of another type, or with its result. *)
Inductive observation :=
| NoObservatory
| ObservationError
| ObservationOther
| ObservationResult (status : list OutboundStatus).

(** [math/rand] behind [dice.Roll]. *)
Class Dice := rand_Intn : Z → Z.
Class DiceLaws `{Dice} : Prop := rand_Intn_bound : ∀ n, 0 < n → 0 ≤ rand_Intn n < n.

Definition Roll `{Dice} (n : Z) : Z := if decide (n = 1) then 0 else rand_Intn n.

(** Signed 64-bit results. *)
Definition s64 (x : Z) : Z := (x + 2 ^ 63) mod 2 ^ 64 - 2 ^ 63.

(** ** Candidates that are alive *)

(** [statusMap]: of several statuses of a tag the last one counts. *)
Definition statusMap (status : list OutboundStatus) : gmap bytes OutboundStatus :=
  foldl (λ m s, <[OutboundTag s := s]> m) ∅ status.

Definition is_alive (status : list OutboundStatus) (tag : bytes) : bool :=
  match statusMap status !! tag with Some s => Alive s | None => true end.

(** The common beginning of the round-robin and random strategies; the observatory
    is asked for only when there is a fall-back. *)
Definition alive_candidates (FallbackTag : bytes) (obs : observation) (tags : list bytes) : list bytes :=
  if decide (FallbackTag = []) then tags
  else match obs with ObservationResult status => filter (λ t, is_alive status t = true) tags | _ => tags end.

(** ** Least ping *)

Definition contains (o : list bytes) (name : bytes) : bool := existsb (λ v, bool_decide (v = name)) o.

Definition ping_step (tags : list bytes) (best : bytes * Z) (v : OutboundStatus) : bytes * Z :=
  if contains tags (OutboundTag v) && Alive v && bool_decide (Delay v < best.2) then (OutboundTag v, Delay v) else best.

(** [None] is the call of a method of a nil observatory. *)
Definition LeastPing_PickOutbound (obs : observation) (tags : list bytes) : option bytes :=
  match obs with
  | NoObservatory => None
  | ObservationResult status => Some (foldl (ping_step tags) ([], 99999999) status).1
  | _ => Some []
  end.

(** ** Weights *)

(** [numberFinder], the expression [\d+(\.\d+)?]: the leftmost longest number. *)
Definition digit (c : Z) : bool := bool_decide (48 ≤ c ≤ 57).

Fixpoint digits (s : bytes) : bytes :=
  match s with c :: s => if digit c then c :: digits s else [] | [] => [] end.

Fixpoint numberFinder (s : bytes) : bytes :=
  match s with
  | [] => []
  | c :: s' =>
      if digit c then
        let whole := digits s in
        match drop (length whole) s with
        | d :: rest =>
            if decide (d = dot ∧ digits rest ≠ []) then whole ++ dot :: digits rest else whole
        | [] => whole
        end
      else numberFinder s'
  end.

(** Floating-point numbers, [strconv.ParseFloat] and [regexp.FindString]. *)
Class Floats := {
  float : Type;
  ParseFloat : bytes → option float;
  FindString : bytes → option (bytes → bytes)
}.

Section weights.
Context `{Floats}.

(** [Value] is [None] when it is not positive. *)
Record StrategyWeight := { w_Regexp : bool; w_Match : bytes; w_Value : option float }.

Record WeightManager := { w_settings : list StrategyWeight; cache : gmap bytes float; defaultWeight : float }.

Definition getMatch (tag find : bytes) (isRegexp : bool) : bytes :=
  if isRegexp then match FindString find with Some f => f tag | None => [] end
  else match Index tag find with Some _ => find | None => [] end.

Fixpoint find_value (settings : list StrategyWeight) (dflt : float) (tag : bytes) : float :=
  match settings with
  | [] => dflt
  | w :: settings =>
      let matched := getMatch tag (w_Match w) (w_Regexp w) in
      if decide (matched = []) then find_value settings dflt tag
      else match w_Value w with
           | Some v => v
           | None =>
               let numStr := numberFinder matched in
               if decide (numStr = []) then dflt else default dflt (ParseFloat numStr)
           end
  end.

Definition Weight_Get (tag : bytes) (s : WeightManager) : float * WeightManager :=
  match cache s !! tag with
  | Some weight => (weight, s)
  | None =>
      let weight := find_value (w_settings s) (defaultWeight s) tag in
      (weight, {| w_settings := w_settings s; cache := <[tag := weight]> (cache s); defaultWeight := defaultWeight s |})
  end.

(** The cache only holds what the settings say. *)
Definition cache_ok (s : WeightManager) : Prop :=
  map_Forall (λ tag w, w = find_value (w_settings s) (defaultWeight s) tag) (cache s).

Lemma Weight_Get_cached tag s :
  cache_ok s → (Weight_Get tag s).1 = find_value (w_settings s) (defaultWeight s) tag ∧ cache_ok (Weight_Get tag s).2.
Proof.
  intros Hc. unfold Weight_Get. destruct (cache s !! tag) as [w|] eqn:E; cbn [fst snd].
  - split; [|done]. by apply (map_Forall_lookup_1 _ _ _ _ Hc E).
  - split; [done|]. unfold cache_ok. cbn [w_settings cache defaultWeight]. by apply map_Forall_insert_2.
Qed.
End weights.

(** ** Least load *)

Record node := {
  Tag : bytes; CountAll : Z; CountFail : Z; RTTAverage : Z; RTTDeviation : Z; RTTDeviationCost : Z
}.

Record StrategyLeastLoadConfig := { Baselines : list Z; Expected : Z; MaxRTT : Z }.

Definition Millisecond : Z := 1000000.

(** The comparison of strings, byte by byte. *)
Fixpoint bytes_lt (a b : bytes) : bool :=
  match a, b with
  | [], [] => false
  | [], _ :: _ => true
  | _ :: _, [] => false
  | x :: a, y :: b => if decide (x = y) then bytes_lt a b else bool_decide (x < y)
  end.

(** The comparison given to [sort.Slice]. *)
Definition node_less (left right : node) : bool :=
  if decide (RTTDeviationCost left ≠ RTTDeviationCost right) then
    bool_decide (RTTDeviationCost left < RTTDeviationCost right)
  else if decide (RTTAverage left ≠ RTTAverage right) then bool_decide (RTTAverage left < RTTAverage right)
  else if decide (CountFail left ≠ CountFail right) then bool_decide (CountFail left < CountFail right)
  else if decide (CountAll left ≠ CountAll right) then bool_decide (CountAll right < CountAll left)
  else bytes_lt (Tag left) (Tag right).

(** [sort.Slice], and the cost of a delay: the weight of the tag applied to it by the
    floating-point scaler. *)
Class LoadEnv := {
  leastloadSort : list node → list node;
  costs_Apply : bytes → Z → Z
}.

Class LoadEnvLaws `{LoadEnv} : Prop := {
  leastloadSort_perm : ∀ l, leastloadSort l ≡ₚ l;
  leastloadSort_sorted : ∀ l, StronglySorted (λ a b, node_less b a = false) (leastloadSort l)
}.

Section load.
Context `{LoadEnv}.

Definition status_node (v : OutboundStatus) : node :=
  let delay := s64 (Delay v * Millisecond) in
  match hp v with
  | None =>
      {| Tag := OutboundTag v; CountAll := 1; CountFail := 1; RTTAverage := delay; RTTDeviation := delay;
         RTTDeviationCost := costs_Apply (OutboundTag v) delay |}
  | Some h =>
      {| Tag := OutboundTag v; CountAll := All_ h; CountFail := Fail_ h; RTTAverage := Average h;
         RTTDeviation := Deviation h; RTTDeviationCost := costs_Apply (OutboundTag v) (Deviation h) |}
  end.

Definition qualifies (candidates : list bytes) (maxRTT : Z) (v : OutboundStatus) : bool :=
  Alive v && (bool_decide (Delay v < Z.quot maxRTT Millisecond) || bool_decide (maxRTT = 0)) &&
  contains candidates (OutboundTag v).

(** [None] is a nil observatory or a report of another type. *)
Definition getNodes (obs : observation) (candidates : list bytes) (maxRTT : Z) : option (list node) :=
  match obs with
  | NoObservatory | ObservationOther => None
  | ObservationError => Some []
  | ObservationResult status =>
      Some (leastloadSort (status_node <$> filter (λ v, qualifies candidates maxRTT v = true) status))
  end.

(** The inner loop: from [count] on, the nodes below the baseline. *)
Fixpoint below_baseline (baseline : Z) (nodes : list node) (count : nat) : nat :=
  match nodes with
  | [] => count
  | n :: nodes => if decide (baseline ≤ RTTDeviationCost n) then count else below_baseline baseline nodes (S count)
  end.

Fixpoint baseline_loop (baselines : list Z) (nodes : list node) (expected : Z) (count : nat) : nat :=
  match baselines with
  | [] => count
  | b :: baselines =>
      let count := below_baseline b (drop count nodes) count in
      if decide (expected ≤ Z.of_nat count) then count else baseline_loop baselines nodes expected count
  end.

(** [nodes[:n]] with its bounds check. *)
Definition first_nodes (nodes : list node) (n : Z) : option (list node) :=
  if decide (0 ≤ n ≤ Z.of_nat (length nodes)) then Some (take (Z.to_nat n) nodes) else None.

Definition selectLeastLoad (settings : StrategyLeastLoadConfig) (nodes : list node) : option (list node) :=
  let availableCount := Z.of_nat (length nodes) in
  if decide (nodes = []) then Some []
  else if decide (availableCount < Expected settings) then Some nodes
  else
    let expected := if decide (Expected settings ≤ 0) then 1 else Expected settings in
    if decide (Baselines settings = []) then first_nodes nodes expected
    else
      let count := Z.of_nat (baseline_loop (Baselines settings) nodes expected 0) in
      let count := if decide (0 < Expected settings ∧ count < expected) then expected else count in
      first_nodes nodes count.

Definition pickOutbounds (settings : StrategyLeastLoadConfig) (obs : observation) (candidates : list bytes) :
  option (list node) :=
  nodes ← getNodes obs candidates (MaxRTT settings);
  selectLeastLoad settings nodes.

(** ** Strategies *)

Inductive BalancingStrategy :=
| RoundRobinStrategy (FallbackTag : bytes) (index : Z)
| RandomStrategy (FallbackTag : bytes)
| LeastPingStrategy
| LeastLoadStrategy (settings : StrategyLeastLoadConfig).

Context `{Dice}.

(** The tag, empty for the fall-back, and the strategy afterwards; [None] is a panic. *)
Definition Strategy_PickOutbound (s : BalancingStrategy) (obs : observation) (tags : list bytes) :
  option (bytes * BalancingStrategy) :=
  match s with
  | RoundRobinStrategy fb index =>
      let tags := alive_candidates fb obs tags in
      let n := Z.of_nat (length tags) in
      if decide (n = 0) then Some ([], s)
      else
        tag ← tags !! Z.to_nat (index mod n);
        Some (tag, RoundRobinStrategy fb ((index + 1) mod n))
  | RandomStrategy fb =>
      let tags := alive_candidates fb obs tags in
      let n := Z.of_nat (length tags) in
      if decide (n = 0) then Some ([], s) else tag ← tags !! Z.to_nat (Roll n); Some (tag, s)
  | LeastPingStrategy => tag ← LeastPing_PickOutbound obs tags; Some (tag, s)
  | LeastLoadStrategy settings =>
      selects ← pickOutbounds settings obs tags;
      let n := Z.of_nat (length selects) in
      if decide (n = 0) then Some ([], s) else x ← selects !! Z.to_nat (Roll n); Some (Tag x, s)
  end.

Definition Strategy_GetPrincipleTarget (s : BalancingStrategy) (obs : observation) (tags : list bytes) :
  option (list bytes) :=
  match s with
  | RoundRobinStrategy _ _ | RandomStrategy _ => Some tags
  | LeastPingStrategy => (λ tag, [tag]) <$> LeastPing_PickOutbound obs tags
  | LeastLoadStrategy settings => (λ nodes : list node, Tag <$> nodes) <$> pickOutbounds settings obs tags
  end.

(** ** Balancers *)

(** [outbound.Manager] when it is a [HandlerSelector]. *)
Class HandlerSelector := hs_Select : list bytes → list bytes.

Record Balancer := { selectors : list bytes; strategy : BalancingStrategy; fallbackTag : bytes; override : bytes }.

Definition set_strategy (s : BalancingStrategy) (b : Balancer) : Balancer :=
  {| selectors := selectors b; strategy := s; fallbackTag := fallbackTag b; override := override b |}.

Definition override_Put (target : bytes) (b : Balancer) : Balancer :=
  {| selectors := selectors b; strategy := strategy b; fallbackTag := fallbackTag b; override := target |}.

Definition override_Clear : Balancer → Balancer := override_Put [].

(** [ohm] is [None] for a manager that is not a [HandlerSelector]. *)
Definition SelectOutbounds (ohm : option HandlerSelector) (b : Balancer) : option (list bytes) :=
  match ohm with None => None | Some select => Some (select (selectors b)) end.

Definition Balancer_PickOutbound (ohm : option HandlerSelector) (obs : observation) (b : Balancer) :
  outcome bytes * Balancer :=
  match SelectOutbounds ohm b with
  | None => (if decide (fallbackTag b ≠ []) then Ret (fallbackTag b) else Fail, b)
  | Some candidates =>
      let picked := if decide (override b ≠ []) then Some (override b, b)
                    else '(tag, s) ← Strategy_PickOutbound (strategy b) obs candidates; Some (tag, set_strategy s b) in
      match picked with
      | None => (Panic, b)
      | Some (tag, b) =>
          (if decide (tag = []) then if decide (fallbackTag b ≠ []) then Ret (fallbackTag b) else Fail else Ret tag, b)
      end
  end.

(** ** From the configuration *)

(** [StrategySettings.GetInstance()]: an error, a least-load configuration or another message. *)
Inductive strategy_settings := SettingsError | SettingsLeastLoad (s : StrategyLeastLoadConfig) | SettingsOther.

Record BalancingRule := {
  br_Tag : bytes; br_OutboundSelector : list bytes; br_Strategy : bytes; br_Settings : strategy_settings;
  br_FallbackTag : bytes
}.

Definition BalancingRule_Build `{UnicodeTables} (br : BalancingRule) : option Balancer :=
  let make s := Some {| selectors := br_OutboundSelector br; strategy := s; fallbackTag := br_FallbackTag br; override := [] |} in
  let name := ToLower (br_Strategy br) in
  if decide (name = lit "leastping") then make LeastPingStrategy
  else if decide (name = lit "roundrobin") then make (RoundRobinStrategy (br_FallbackTag br) 0)
  else if decide (name = lit "leastload") then
    match br_Settings br with SettingsLeastLoad s => make (LeastLoadStrategy s) | _ => None end
  else if decide (name = lit "random" ∨ name = []) then make (RandomStrategy (br_FallbackTag br))
  else None.
End load.

(** ** Round robin *)

Section round_robin.
Context `{LoadEnv, Dice}.

(** [k] picks one after the other, with the same candidates alive. *)
Fixpoint picks (k : nat) (s : BalancingStrategy) (obs : observation) (tags : list bytes) : option (list bytes) :=
  match k with
  | O => Some []
  | S k =>
      '(tag, s) ← Strategy_PickOutbound s obs tags;
      rest ← picks k s obs tags;
      Some (tag :: rest)
  end.

Lemma picks_from fb index obs tags k :
  let alive := alive_candidates fb obs tags in
  let n := Z.of_nat (length alive) in
  0 < n →
  picks k (RoundRobinStrategy fb index) obs tags =
  Some ((λ j, alive !!! Z.to_nat ((index + Z.of_nat j) mod n)) <$> seq 0 k).
Proof.
  intros alive n Hn. revert index. induction k as [|k IH]; intros index; [done|].
  cbn [picks Strategy_PickOutbound]. fold alive n. rewrite decide_False by lia.
  pose proof (Z.mod_pos_bound index n Hn) as Hb.
  assert (Z.to_nat (index mod n) < length alive)%nat as Hlt by lia.
  rewrite (list_lookup_lookup_total_lt _ _ Hlt). cbn [mbind option_bind]. rewrite IH. cbn [mbind option_bind].
  cbn [seq fmap list_fmap]. rewrite Z.add_0_r. do 2 f_equal. rewrite <- fmap_S_seq, <- list_fmap_compose.
  apply list_fmap_ext. intros _ j _. cbn [compose]. do 2 f_equal.
  rewrite Z.add_mod_idemp_l by lia. f_equal. lia.
Qed.

Lemma rotation_perm {A} `{Inhabited A} (l : list A) (i : Z) :
  (λ j, l !!! Z.to_nat ((i + Z.of_nat j) mod Z.of_nat (length l))) <$> seq 0 (length l) ≡ₚ l.
Proof.
  set (n := length l). destruct (decide (n = 0%nat)) as [E|Hn].
  { unfold n in *. destruct l; [done|simpl in E; lia]. }
  assert ((λ j, Z.to_nat ((i + Z.of_nat j) mod Z.of_nat n)) <$> seq 0 n ≡ₚ seq 0 n) as Hp.
  { apply submseteq_length_Permutation; [apply NoDup_submseteq|by rewrite length_fmap].
    - apply NoDup_fmap_2_strong; [|apply NoDup_seq]. intros x y Hx%elem_of_seq Hy%elem_of_seq E.
      apply Z2Nat.inj in E; [|apply Z.mod_pos_bound; lia..].
      assert ((Z.of_nat x - Z.of_nat y) mod Z.of_nat n = 0) as Hd.
      { replace (Z.of_nat x - Z.of_nat y) with ((i + Z.of_nat x) - (i + Z.of_nat y)) by lia.
        rewrite Zminus_mod, E, Z.sub_diag. apply Z.mod_0_l. lia. }
      apply Z.mod_divide in Hd as [q Hq]; [|lia]. assert (q = 0) as -> by nia. lia.
    - intros x (j & -> & Hj%elem_of_seq)%list_elem_of_fmap. apply elem_of_seq.
      pose proof (Z.mod_pos_bound (i + Z.of_nat j) (Z.of_nat n)). lia. }
  change ((λ j, l !!! j) ∘ (λ j, Z.to_nat ((i + Z.of_nat j) mod Z.of_nat n)) <$> seq 0 n ≡ₚ l).
  rewrite list_fmap_compose, Hp.
  assert ((λ j, l !!! j) <$> seq 0 n = l) as ->; [|done].
  apply list_eq. intros j. rewrite list_lookup_fmap. destruct (decide (j < n)%nat) as [Hj|Hj].
  - rewrite lookup_seq_lt by done. cbn. symmetry. by apply list_lookup_lookup_total_lt.
  - rewrite lookup_seq_ge by lia. cbn. symmetry. apply lookup_ge_None. unfold n in Hj. lia.
Qed.

(** As many picks as there are live candidates take every one of them once, wherever
    the index stands: no candidate waits longer than one round. *)
Theorem round_robin_fair fb index obs tags :
  alive_candidates fb obs tags ≠ [] →
  ∃ l, picks (length (alive_candidates fb obs tags)) (RoundRobinStrategy fb index) obs tags = Some l ∧
    l ≡ₚ alive_candidates fb obs tags.
Proof.
  intros Hne. set (alive := alive_candidates fb obs tags) in *.
  eexists. split; [apply picks_from|apply rotation_perm].
  fold alive. destruct alive; [done|simpl; lia].
Qed.
End round_robin.

Lemma round_robin_fair_witness :
  let tags := [lit "a"; lit "b"; lit "c"; lit "d"] in
  let status := [{| OutboundTag := lit "b"; Alive := false; Delay := 0; hp := None |};
                 {| OutboundTag := lit "c"; Alive := true; Delay := 7; hp := None |}] in
  let env := {| leastloadSort := λ l, l; costs_Apply := λ _ d, d |} in
  ∃ l, @picks env (λ _, 0) (length (alive_candidates (lit "x") (ObservationResult status) tags))
         (RoundRobinStrategy (lit "x") 5) (ObservationResult status) tags = Some l ∧
       l ≡ₚ alive_candidates (lit "x") (ObservationResult status) tags.
Proof. apply round_robin_fair. vm_compute. discriminate. Defined.

(** ** Least ping *)

(** A status that the strategy may take. *)
Definition eligible (tags : list bytes) (v : OutboundStatus) : Prop :=
  OutboundTag v ∈ tags ∧ Alive v = true ∧ Delay v < 99999999.

Lemma contains_spec tags t : contains tags t = true ↔ t ∈ tags.
Proof.
  unfold contains. rewrite existsb_exists. setoid_rewrite bool_decide_eq_true. setoid_rewrite <- list_elem_of_In.
  naive_solver.
Qed.

Lemma ping_fold tags status best :
  best.2 ≤ 99999999 →
  let r := foldl (ping_step tags) best status in
  (r = best ∨ ∃ v, v ∈ status ∧ eligible tags v ∧ r = (OutboundTag v, Delay v)) ∧
  r.2 ≤ best.2 ∧ (∀ v, v ∈ status → eligible tags v → r.2 ≤ Delay v) ∧
  (r = best ∨ r.2 < best.2).
Proof.
  revert best. induction status as [|v status IH]; intros best Hb; cbn [foldl].
  - split_all; [by left|lia|by intros v ?%elem_of_nil|by left].
  - destruct (contains tags (OutboundTag v) && Alive v && bool_decide (Delay v < best.2)) eqn:E.
    + assert (ping_step tags best v = (OutboundTag v, Delay v)) as -> by (unfold ping_step; by rewrite E).
      apply andb_true_iff in E as [[E1%contains_spec E2]%andb_true_iff E3%bool_decide_eq_true].
      destruct (IH (OutboundTag v, Delay v)) as (Hr & Hle & Hmin & Hlt); [cbn; lia|]. cbn [snd] in *.
      assert (eligible tags v) as He by (split; [done|split; [done|lia]]). split_all.
      * right. destruct Hr as [->|(w & ? & ? & ?)]; [exists v|exists w]; split_all; try done.
        -- apply list_elem_of_here.
        -- by apply list_elem_of_further.
      * lia.
      * intros w Hw Hew. apply elem_of_cons in Hw as [-> |Hw]; [lia|by apply Hmin].
      * right. lia.
    + assert (ping_step tags best v = best) as -> by (unfold ping_step; by rewrite E).
      destruct (IH best Hb) as (Hr & Hle & Hmin & Hlt). split_all; [|done| |done].
      * destruct Hr as [?|(w & ? & ?)]; [by left|]. right. exists w. split; [by apply list_elem_of_further|done].
      * intros w Hw Hew. apply elem_of_cons in Hw as [-> |Hw]; [|by apply Hmin]. destruct Hew as (E1 & E2 & _).
        apply contains_spec in E1. rewrite E1, E2 in E. cbn in E. apply bool_decide_eq_false in E. lia.
Qed.

(** The least-ping strategy takes the live candidate with the least delay, and none
    only if no candidate is alive below its limit. *)
Theorem least_ping_spec tags status tag :
  LeastPing_PickOutbound (ObservationResult status) tags = Some tag →
  (tag = [] ∧ ∀ v, v ∈ status → ¬ eligible tags v) ∨
  (∃ v, v ∈ status ∧ eligible tags v ∧ tag = OutboundTag v ∧ ∀ w, w ∈ status → eligible tags w → Delay v ≤ Delay w).
Proof.
  cbn [LeastPing_PickOutbound]. intros [= <-].
  destruct (ping_fold tags status ([], 99999999)) as (Hr & _ & Hmin & Hlt); [cbn; lia|].
  set (r := foldl (ping_step tags) ([], 99999999) status) in *. cbn [snd] in *.
  destruct Hr as [E|(v & Hv & He & E)].
  - left. rewrite E in *. cbn [fst snd] in *. split; [done|]. intros v Hv Hel. specialize (Hmin v Hv Hel).
    destruct Hel as (_ & _ & ?). lia.
  - right. exists v. rewrite E in *. split_all; [done|done|done|exact Hmin].
Qed.

Lemma least_ping_spec_witness :
  let status := [{| OutboundTag := lit "a"; Alive := true; Delay := 90; hp := None |};
                 {| OutboundTag := lit "b"; Alive := true; Delay := 40; hp := None |};
                 {| OutboundTag := lit "c"; Alive := false; Delay := 1; hp := None |}] in
  let tags := [lit "a"; lit "b"; lit "c"] in
  (lit "b" = [] ∧ ∀ v, v ∈ status → ¬ eligible tags v) ∨
  (∃ v, v ∈ status ∧ eligible tags v ∧ lit "b" = OutboundTag v ∧ ∀ w, w ∈ status → eligible tags w → Delay v ≤ Delay w).
Proof. apply least_ping_spec. vm_compute. reflexivity. Defined.

(** Without an observatory among the features the strategy calls a method of nil. *)
Lemma least_ping_without_observatory tags : LeastPing_PickOutbound NoObservatory tags = None.
Proof. done. Qed.

(** ** Least load *)

Lemma below_baseline_spec b nodes count :
  (count ≤ below_baseline b nodes count ≤ count + length nodes)%nat ∧
  ∀ i n, nodes !! i = Some n → (count + i < below_baseline b nodes count)%nat → RTTDeviationCost n < b.
Proof.
  revert count. induction nodes as [|x nodes IH]; intros count; cbn [below_baseline length].
  - split; [lia|done].
  - case_decide as Hc.
    + split; [lia|]. intros i n _ ?. lia.
    + destruct (IH (S count)) as [Hb Hi]. split; [lia|]. intros [|i] n Hn Hlt.
      * injection Hn as <-. lia.
      * apply (Hi i n Hn). lia.
Qed.

Lemma baseline_loop_bounds bs nodes expected count :
  (count ≤ length nodes)%nat → (count ≤ baseline_loop bs nodes expected count ≤ length nodes)%nat.
Proof.
  revert count. induction bs as [|b bs IH]; intros count Hc; cbn [baseline_loop]; [lia|].
  destruct (below_baseline_spec b (drop count nodes) count) as [Hb _]. rewrite length_drop in Hb.
  case_decide; [lia|]. pose proof (IH (below_baseline b (drop count nodes) count)). lia.
Qed.

Lemma baseline_loop_below bs nodes expected count i n :
  (count ≤ length nodes)%nat → nodes !! i = Some n →
  (count ≤ i < baseline_loop bs nodes expected count)%nat → ∃ b, b ∈ bs ∧ RTTDeviationCost n < b.
Proof.
  revert count. induction bs as [|b bs IH]; intros count Hc Hn; cbn [baseline_loop]; [lia|].
  destruct (below_baseline_spec b (drop count nodes) count) as [Hb Hlt]. rewrite length_drop in Hb.
  set (c' := below_baseline b (drop count nodes) count) in *. intros Hi.
  destruct (decide (i < c')%nat) as [Hic|Hic].
  - exists b. split; [apply list_elem_of_here|]. apply (Hlt (i - count)%nat n); [|lia].
    rewrite lookup_drop. by replace (count + (i - count))%nat with i by lia.
  - case_decide; [lia|]. destruct (IH c') as (b' & Hb' & ?); [lia|done|lia|]. exists b'. split; [|done].
    by apply list_elem_of_further.
Qed.

(** The selection never leaves the nodes: it is a beginning of the sorted list, as
    long as asked for when there are that many, and what it takes beyond the asked
    number lies below a baseline. *)
Theorem least_load_bounds settings nodes :
  ∃ sel, selectLeastLoad settings nodes = Some sel ∧ sel `prefix_of` nodes ∧
    (0 < Expected settings → Z.min (Expected settings) (Z.of_nat (length nodes)) ≤ Z.of_nat (length sel)) ∧
    (∀ i n, sel !! i = Some n →
       Z.of_nat i < Z.max 1 (Expected settings) ∨ ∃ b, b ∈ Baselines settings ∧ RTTDeviationCost n < b).
Proof.
  unfold selectLeastLoad. case_decide as Hn.
  { subst. exists []. split_all; [done|done|cbn; lia|done]. }
  assert (0 < length nodes)%nat as Hpos by (destruct nodes; [done|simpl; lia]).
  case_decide as Ha.
  { exists nodes. split_all; [done|done|lia|]. intros i n Hi%lookup_lt_Some. left. lia. }
  set (expected := if decide (Expected settings ≤ 0) then 1 else Expected settings).
  assert (expected = Z.max 1 (Expected settings)) as He by (unfold expected; case_decide; lia).
  assert (∀ c, 0 ≤ c ≤ Z.of_nat (length nodes) → (0 < Expected settings → Expected settings ≤ c) →
    (∀ i n, nodes !! i = Some n → Z.of_nat i < c → Z.of_nat i < Z.max 1 (Expected settings) ∨
       ∃ b, b ∈ Baselines settings ∧ RTTDeviationCost n < b) →
    ∃ sel, first_nodes nodes c = Some sel ∧ sel `prefix_of` nodes ∧
    (0 < Expected settings → Z.min (Expected settings) (Z.of_nat (length nodes)) ≤ Z.of_nat (length sel)) ∧
    (∀ i n, sel !! i = Some n →
       Z.of_nat i < Z.max 1 (Expected settings) ∨ ∃ b, b ∈ Baselines settings ∧ RTTDeviationCost n < b)) as Hfirst.
  { intros c Hc Hec Hi. unfold first_nodes. rewrite decide_True by done. eexists. split; [done|].
    split_all; [apply prefix_take|rewrite length_take; lia|]. intros i n [Hin Hlt]%lookup_take_Some.
    apply (Hi i n Hin). lia. }
  case_decide as Hb.
  { apply Hfirst; [lia|lia|]. intros i n _ ?. left. lia. }
  pose proof (baseline_loop_bounds (Baselines settings) nodes expected 0 ltac:(lia)) as Hl. apply Hfirst.
  - case_decide; lia.
  - case_decide; lia.
  - intros i n Hin Hlt. case_decide as Hc; [left; lia|]. right.
    eapply (baseline_loop_below _ nodes expected 0); [lia|done|lia].
Qed.
