(* ===== verification/CoreRouter.v ===== *)
(** The router of the core (src/upstream/xray-core/app/router: router.go, config.go,
    balancing.go, balancing_override.go): its rules and balancers, how they are made,
    changed and removed, and the choice of a route. *)
From stdpp Require Import gmap sorting.
From S2P Require Import Prelude GoText NetIP Address StrMatcher AcAutomaton Mph Conditions RouteRules Balancer.

Inductive Config_DomainStrategy := Config_AsIs | Config_UseIp | Config_IpIfNonMatch | Config_IpOnDemand.

#[global] Instance Config_DomainStrategy_eq_dec : EqDecision Config_DomainStrategy.
Proof. solve_decision. Defined.

Section router.
Context `{Netipx, NL : !NetipxLaws, UnicodeTables, DnsClient, RegexpEngine, SortBySize, SL : !SortBySizeLaws, MphEnv}.
Context `{LoadEnv, Dice}.

(** A rule points to its balancer, which the map of the router and other rules share:
    the balancers live in a store, a pointer is an index of it. *)
Record Rule := { r_Tag : bytes; r_RuleTag : bytes; r_Balancer : option nat; r_Condition : list Condition }.

Record Router := {
  domainStrategy : Config_DomainStrategy;
  rules : list Rule;
  balancers : gmap bytes nat;
  store : list Balancer;
  container : list GeoIPMatcher
}.

Record Config := { DomainStrategy : Config_DomainStrategy; cfg_Rule : list RoutingRule; cfg_BalancingRule : list BalancingRule }.

Definition add_balancer (tag : bytes) (b : Balancer) (r : Router) : Router :=
  {| domainStrategy := domainStrategy r; rules := rules r; balancers := <[tag := length (store r)]> (balancers r);
     store := store r ++ [b]; container := container r |}.

Definition add_rule (rule : Rule) (r : Router) : Router :=
  {| domainStrategy := domainStrategy r; rules := rules r ++ [rule]; balancers := balancers r; store := store r;
     container := container r |}.

Definition set_container (k : list GeoIPMatcher) (r : Router) : Router :=
  {| domainStrategy := domainStrategy r; rules := rules r; balancers := balancers r; store := store r; container := k |}.

Definition set_rules (l : list Rule) (r : Router) : Router :=
  {| domainStrategy := domainStrategy r; rules := l; balancers := balancers r; store := store r; container := container r |}.

Definition set_store (s : list Balancer) (r : Router) : Router :=
  {| domainStrategy := domainStrategy r; rules := rules r; balancers := balancers r; store := s; container := container r |}.

(** The loops over the balancing rules; [unique] is the check of [ReloadRules]. *)
Fixpoint balancer_loop (unique : bool) (brs : list BalancingRule) (r : Router) : outcome unit * Router :=
  match brs with
  | [] => (Ret tt, r)
  | br :: brs =>
      if decide (unique = true ∧ is_Some (balancers r !! br_Tag br)) then (Fail, r)
      else match BalancingRule_Build br with
           | None => (Fail, r)
           | Some b => balancer_loop unique brs (add_balancer (br_Tag br) b r)
           end
  end.

Definition RuleExists (tag : bytes) (r : Router) : bool :=
  if decide (tag = []) then false else existsb (λ rule, bool_decide (r_RuleTag rule = tag)) (rules r).

(** The loops over the routing rules. *)
Fixpoint rule_loop (unique : bool) (rrs : list RoutingRule) (r : Router) : outcome unit * Router :=
  match rrs with
  | [] => (Ret tt, r)
  | rr :: rrs =>
      if unique && RuleExists (rr_RuleTag rr) r then (Fail, r)
      else
        match BuildCondition rr (container r) with
        | (Panic, k) => (Panic, set_container k r)
        | (Fail, k) => (Fail, set_container k r)
        | (Ret cond, k) =>
            let r := set_container k r in
            let mk b := {| r_Tag := rr_Tag rr; r_RuleTag := rr_RuleTag rr; r_Balancer := b; r_Condition := cond |} in
            if decide (rr_BalancingTag rr = []) then rule_loop unique rrs (add_rule (mk None) r)
            else match balancers r !! rr_BalancingTag rr with
                 | None => (Fail, r)
                 | Some p => rule_loop unique rrs (add_rule (mk (Some p)) r)
                 end
        end
  end.

Definition load (unique : bool) (config : Config) (r : Router) : outcome unit * Router :=
  match balancer_loop unique (cfg_BalancingRule config) r with
  | (Ret _, r) => rule_loop unique (cfg_Rule config) r
  | failed => failed
  end.

(** [Init] of a new router; [k] are the address sets loaded before. *)
Definition Init (config : Config) (k : list GeoIPMatcher) : outcome unit * Router :=
  load false config {| domainStrategy := DomainStrategy config; rules := []; balancers := ∅; store := []; container := k |}.

Definition ReloadRules (config : Config) (shouldAppend : bool) (r : Router) : outcome unit * Router :=
  load true config
    (if shouldAppend then r
     else {| domainStrategy := domainStrategy r; rules := []; balancers := ∅; store := store r; container := container r |}).

Definition RemoveRule (tag : bytes) (r : Router) : outcome unit * Router :=
  if decide (tag = []) then (Fail, r)
  else (Ret tt, set_rules (filter (λ rule, r_RuleTag rule ≠ tag) (rules r)) r).

(** ** Picking a route *)

Fixpoint first_rule (l : list Rule) (ctx : rctx) : option (option Rule * rctx) :=
  match l with
  | [] => Some (None, ctx)
  | rule :: l =>
      '(b, ctx) ← Chan_Apply (r_Condition rule) ctx;
      if b : bool then Some (Some rule, ctx) else first_rule l ctx
  end.

(** [Fail] is [common.ErrNoClue]. *)
Definition pickRouteInternal (r : Router) (ctx : rctx) : outcome (Rule * rctx) :=
  let skipDNSResolve := GetSkipDNSResolve (session ctx) in
  let ctx := if decide (domainStrategy r = Config_IpOnDemand ∧ skipDNSResolve = false)
             then ContextWithDNSClient ctx else ctx in
  ret_or_panic (first_rule (rules r) ctx) (λ found,
  match found with
  | (Some rule, ctx) => Ret (rule, ctx)
  | (None, ctx) =>
      if decide (domainStrategy r ≠ Config_IpIfNonMatch) then Fail
      else
        ret_or_panic (GetTargetDomain (session ctx)) (λ domain,
        if decide (domain = [] ∨ skipDNSResolve = true) then Fail
        else
          ret_or_panic (first_rule (rules r) (ContextWithDNSClient ctx)) (λ found,
          match found with
          | (Some rule, ctx) => Ret (rule, ctx)
          | (None, _) => Fail
          end))
  end).

(** [Rule.GetTag]: the tag of the rule or what its balancer picks. *)
Definition Rule_GetTag (ohm : option HandlerSelector) (obs : observation) (rule : Rule) (s : list Balancer) :
  outcome bytes * list Balancer :=
  match r_Balancer rule with
  | None => (Ret (r_Tag rule), s)
  | Some p =>
      match s !! p with
      | None => (Panic, s)
      | Some b => let '(tag, b) := Balancer_PickOutbound ohm obs b in (tag, <[p := b]> s)
      end
  end.

Definition PickRoute (ohm : option HandlerSelector) (obs : observation) (r : Router) (ctx : rctx) :
  outcome bytes * Router :=
  match pickRouteInternal r ctx with
  | Panic => (Panic, r)
  | Fail => (Fail, r)
  | Ret (rule, _) => let '(tag, s) := Rule_GetTag ohm obs rule (store r) in (tag, set_store s r)
  end.

(** ** Balancers by their tag *)

Definition with_balancer {A} (tag : bytes) (r : Router) (k : Balancer → outcome A) : outcome A :=
  match balancers r !! tag with
  | None => Fail
  | Some p => ret_or_panic (store r !! p) k
  end.

Definition GetPrincipleTarget (ohm : option HandlerSelector) (obs : observation) (tag : bytes) (r : Router) :
  outcome (list bytes) :=
  with_balancer tag r (λ b,
  match SelectOutbounds ohm b with
  | None => Fail
  | Some candidates => ret_or_panic (Strategy_GetPrincipleTarget (strategy b) obs candidates) Ret
  end).

Definition SetOverrideTarget (tag target : bytes) (r : Router) : outcome unit * Router :=
  match balancers r !! tag with
  | None => (Fail, r)
  | Some p => (Ret tt, set_store (alter (override_Put target) p (store r)) r)
  end.

Definition OverrideBalancer : bytes → bytes → Router → outcome unit * Router := SetOverrideTarget.

Definition GetOverrideTarget (tag : bytes) (r : Router) : outcome bytes := with_balancer tag r (λ b, Ret (override b)).

(** ** Pointers *)

(** Every pointer to a balancer leads to one. *)
Record pointers_ok (r : Router) : Prop := {
  po_map : map_Forall (λ _ p, (p < length (store r))%nat) (balancers r);
  po_rules : Forall (λ rule, from_option (λ p, (p < length (store r))%nat) True (r_Balancer rule)) (rules r)
}.

Lemma pointers_grow rule n m :
  (n ≤ m)%nat → from_option (λ p, (p < n)%nat) True (r_Balancer rule) →
  from_option (λ p, (p < m)%nat) True (r_Balancer rule).
Proof using. destruct (r_Balancer rule); cbn; [lia|done]. Qed.

Lemma balancer_loop_pointers unique brs r : pointers_ok r → pointers_ok (balancer_loop unique brs r).2.
Proof using.
  revert r. induction brs as [|br brs IH]; intros r Hr; cbn [balancer_loop]; [done|].
  case_decide; [done|]. destruct (BalancingRule_Build br) as [b|]; [|done]. apply IH. destruct Hr as [Hm Hl].
  split; cbn [add_balancer balancers store rules].
  - rewrite length_app. cbn [length]. apply map_Forall_insert_2; [lia|]. eapply map_Forall_impl; [done|]. cbn. lia.
  - eapply Forall_impl; [done|]. intros rule. apply pointers_grow. rewrite length_app. lia.
Qed.

Lemma rule_loop_pointers unique rrs r : pointers_ok r → pointers_ok (rule_loop unique rrs r).2.
Proof using.
  revert r. induction rrs as [|rr rrs IH]; intros r Hr; cbn [rule_loop]; [done|].
  destruct (unique && RuleExists (rr_RuleTag rr) r); [done|].
  destruct (BuildCondition rr (container r)) as [[cond| |] k]; [|by destruct Hr..].
  case_decide as Hb.
  - apply IH. destruct Hr as [Hm Hl]. split; [done|]. cbn [add_rule set_container rules store].
    apply Forall_app. split; [done|]. by apply Forall_singleton.
  - destruct (balancers (set_container k r) !! rr_BalancingTag rr) as [p|] eqn:Hp; [|by destruct Hr].
    apply IH. destruct Hr as [Hm Hl]. split; [done|]. cbn [add_rule set_container rules store].
    apply Forall_app. split; [done|]. apply Forall_singleton. cbn.
    by apply (map_Forall_lookup_1 _ _ _ _ Hm Hp).
Qed.

Lemma load_pointers unique config r : pointers_ok r → pointers_ok (load unique config r).2.
Proof using.
  intros Hr. unfold load. pose proof (balancer_loop_pointers unique (cfg_BalancingRule config) r Hr) as Hb.
  destruct (balancer_loop _ _ _) as [[[]| |] r1]; [|done..]. by apply rule_loop_pointers.
Qed.

(** The calls on a router, each with what it finds outside. *)
Inductive call :=
| CReload (config : Config) (shouldAppend : bool)
| CRemove (tag : bytes)
| CPick (ohm : option HandlerSelector) (obs : observation) (ctx : rctx)
| COverride (tag target : bytes).

Definition perform (c : call) (r : Router) : Router :=
  match c with
  | CReload config app => (ReloadRules config app r).2
  | CRemove tag => (RemoveRule tag r).2
  | CPick ohm obs ctx => (PickRoute ohm obs r ctx).2
  | COverride tag target => (SetOverrideTarget tag target r).2
  end.

Lemma set_store_pointers s r : length s = length (store r) → pointers_ok r → pointers_ok (set_store s r).
Proof using. intros E [Hm Hl]. split; cbn [set_store store balancers rules]; by rewrite E. Qed.

Lemma perform_pointers c r : pointers_ok r → pointers_ok (perform c r).
Proof using.
  intros Hr. destruct c as [config app|tag|ohm obs ctx|tag target]; cbn [perform].
  - apply load_pointers. destruct app; [done|]. split; [apply map_Forall_empty|constructor].
  - unfold RemoveRule. case_decide; [done|]. destruct Hr as [Hm Hl]. split; [done|].
    cbn [set_rules rules store]. rewrite Forall_forall in Hl. apply Forall_forall.
    intros x [_ ?]%list_elem_of_filter. by apply Hl.
  - unfold PickRoute. destruct (pickRouteInternal r ctx) as [[rule ctx']| |]; [|done..].
    unfold Rule_GetTag. destruct (r_Balancer rule) as [p|]; [|by destruct Hr].
    destruct (store r !! p) as [b|]; [|by destruct Hr]. destruct (Balancer_PickOutbound ohm obs b) as [tag b'].
    apply set_store_pointers; [by rewrite length_insert|done].
  - unfold SetOverrideTarget. destruct (balancers r !! tag) as [p|]; [|done].
    apply set_store_pointers; [by rewrite length_alter|done].
Qed.

(** Whatever is loaded, reloaded with or without an error, removed, overridden or
    picked: a rule or a tag with a balancer always has one. *)
Theorem router_pointers config k calls :
  pointers_ok (foldl (λ r c, perform c r) (Init config k).2 calls).
Proof using.
  assert (pointers_ok (Init config k).2) as Hinit
    by (apply load_pointers; split; [apply map_Forall_empty|constructor]).
  revert Hinit. generalize (Init config k).2. induction calls as [|c calls IH]; intros r Hr; [done|].
  cbn [foldl]. apply IH. by apply perform_pointers.
Qed.

(** ** Routes *)

Context (map_order_perm : ∀ m, map_order m ≡ₚ map_to_list m).
Context (file : bytes → list CIDR).

(** A rule of the router and the rule of the configuration it was made of. *)
Record rule_built (bs : gmap bytes nat) (rr : RoutingRule) (rule : Rule) : Prop := {
  rb_ok : rule_ok file rr;
  rb_tag : r_Tag rule = rr_Tag rr;
  rb_found : rr_BalancingTag rr ≠ [] → is_Some (bs !! rr_BalancingTag rr);
  rb_balancer : r_Balancer rule = if decide (rr_BalancingTag rr = []) then None else bs !! rr_BalancingTag rr;
  rb_cond : ∃ k k', cached file k ∧ BuildCondition rr k = (Ret (r_Condition rule), k')
}.

Lemma rule_loop_built unique rrs0 rrs r r' :
  Forall (rule_ok file) rrs → cached file (container r) → Forall2 (rule_built (balancers r)) rrs0 (rules r) →
  rule_loop unique rrs r = (Ret tt, r') →
  Forall2 (rule_built (balancers r')) (rrs0 ++ rrs) (rules r') ∧ domainStrategy r' = domainStrategy r.
Proof using All.
  revert rrs0 r. induction rrs as [|rr rrs IH]; intros rrs0 r Hok Hk Hb; cbn [rule_loop].
  - intros [_ <-]%pair_equal_spec. by rewrite app_nil_r.
  - apply Forall_cons in Hok as [Hrr Hok]. destruct (unique && _); [done|].
    destruct (BuildCondition rr (container r)) as [[cond| |] k] eqn:Hc; [|done..].
    destruct (BuildCondition_answers map_order_perm file rr _ _ _ {| c_Inbound := None; c_Outbound := None; c_Content := None |} []
      Hrr Hk Hc) as [Hk' _].
    assert (∀ p, p = (if decide (rr_BalancingTag rr = []) then None else balancers r !! rr_BalancingTag rr) →
      (rr_BalancingTag rr ≠ [] → is_Some (balancers r !! rr_BalancingTag rr)) →
      rule_built (balancers r) rr {| r_Tag := rr_Tag rr; r_RuleTag := rr_RuleTag rr; r_Balancer := p; r_Condition := cond |})
      as Hnew by (intros p -> ?; split; try done; by exists (container r), k).
    case_decide as Ht.
    + intros Hl. apply (IH (rrs0 ++ [rr])) in Hl; [by rewrite <- (assoc_L (++)) in Hl|done|done|].
      cbn [add_rule set_container rules balancers]. apply Forall2_app; [done|]. constructor; [by apply Hnew|constructor].
    + cbn [set_container balancers]. destruct (balancers r !! rr_BalancingTag rr) as [p|] eqn:Hp; [|done].
      intros Hl. apply (IH (rrs0 ++ [rr])) in Hl; [by rewrite <- (assoc_L (++)) in Hl|done|done|].
      cbn [add_rule set_container rules balancers]. apply Forall2_app; [done|]. constructor; [by apply Hnew|constructor].
Qed.

Lemma balancer_loop_keeps unique brs r :
  container (balancer_loop unique brs r).2 = container r ∧ rules (balancer_loop unique brs r).2 = rules r ∧
  domainStrategy (balancer_loop unique brs r).2 = domainStrategy r.
Proof using.
  revert r. induction brs as [|br brs IH]; intros r; cbn [balancer_loop]; [done|]. case_decide; [done|].
  destruct (BalancingRule_Build br) as [b|]; [|done]. apply (IH (add_balancer (br_Tag br) b r)).
Qed.

Lemma Init_built config k r :
  Forall (rule_ok file) (cfg_Rule config) → cached file k → Init config k = (Ret tt, r) →
  Forall2 (rule_built (balancers r)) (cfg_Rule config) (rules r) ∧ domainStrategy r = DomainStrategy config.
Proof using All.
  intros Hok Hk. unfold Init, load. destruct (balancer_loop _ _ _) as [o r1] eqn:Hb.
  pose proof (balancer_loop_keeps false (cfg_BalancingRule config)
    {| domainStrategy := DomainStrategy config; rules := []; balancers := ∅; store := []; container := k |}) as Hkeep.
  rewrite Hb in Hkeep. cbn [snd container rules domainStrategy] in Hkeep. destruct Hkeep as (Ek & Er & Es).
  destruct o as [[]| |]; [|done..]. intros Hl. rewrite <- Es.
  apply (rule_loop_built false []) in Hl; [exact Hl|done|by rewrite Ek|]. rewrite Er. constructor.
Qed.

(** The first rule that holds with these addresses of the target. *)
Definition chosen (rrs : list RoutingRule) (c : Context) (ips : list bytes) : option nat :=
  fst <$> list_find (λ rr, rule_holds rr c ips = true) rrs.

Lemma first_rule_spec bs rrs l ctx :
  Forall2 (rule_built bs) rrs l → dns_stable → ctx_ok (session ctx) → named_ok (session ctx) →
  ∃ ctx', first_rule l ctx = Some (chosen rrs (session ctx) (target_ips ctx) ≫= (l !!.), ctx') ∧
    session ctx' = session ctx.
Proof using All.
  intros Hb Hs. revert ctx. induction Hb as [|rr rule rrs l Hrr _ IH]; intros ctx Hok Hn; [by exists ctx|].
  destruct Hrr as [Hr _ _ _ (k & k' & Hk & Hc)].
  destruct (BuildCondition_answers map_order_perm file rr k _ k' (session ctx) (target_ips ctx) Hr Hk Hc) as [_ Ha].
  destruct (Ha Hs Hok Hn ctx eq_refl eq_refl) as (ctx1 & E & Hs1 & Hi1). cbn [first_rule]. rewrite E.
  cbn [mbind option_bind]. unfold chosen. cbn [list_find].
  destruct (rule_holds rr (session ctx) (target_ips ctx)) eqn:Hh.
  - rewrite decide_True by done. by exists ctx1.
  - rewrite decide_False by done. rewrite <- Hs1, <- Hi1.
    destruct (IH ctx1) as (ctx2 & E2 & Hs2); [by rewrite Hs1..|]. exists ctx2. split; [|congruence].
    rewrite E2. unfold chosen. by destruct (list_find _ rrs) as [[i x]|].
Qed.

Definition plain_ips (c : Context) : list bytes := default [] (session_GetTargetIPs c).
Definition resolved_ips (c : Context) : list bytes := target_ips (ContextWithDNSClient (AsRoutingContext c)).

(** The rule of a connection by the strategy of the router: the addresses are asked
    for at once, only when no rule holds without them, or never. *)
Definition route_spec (strategy : Config_DomainStrategy) (rrs : list RoutingRule) (c : Context) : option nat :=
  let may_resolve := bool_decide (GetSkipDNSResolve c = false) in
  match strategy with
  | Config_IpOnDemand => chosen rrs c (if may_resolve then resolved_ips c else plain_ips c)
  | Config_IpIfNonMatch =>
      match chosen rrs c (plain_ips c) with
      | Some i => Some i
      | None => if may_resolve && bool_decide (target_domain c ≠ []) then chosen rrs c (resolved_ips c) else None
      end
  | _ => chosen rrs c (plain_ips c)
  end.

Lemma chosen_lookup bs rrs l c ips i :
  Forall2 (rule_built bs) rrs l → chosen rrs c ips = Some i → is_Some (l !! i).
Proof using.
  intros Hb. unfold chosen. destruct (list_find _ rrs) as [[j rr]|] eqn:E; [|done]. cbn. intros [= <-].
  apply list_find_Some in E as (Hj & _). eapply Forall2_lookup_l in Hb as (rule & Hl & _); [|done]. by exists rule.
Qed.

Lemma pick_internal r rrs c :
  Forall2 (rule_built (balancers r)) rrs (rules r) → dns_stable → ctx_ok c → named_ok c →
  match route_spec (domainStrategy r) rrs c with
  | Some i => ∃ rule ctx, rules r !! i = Some rule ∧ pickRouteInternal r (AsRoutingContext c) = Ret (rule, ctx)
  | None => pickRouteInternal r (AsRoutingContext c) = Fail
  end.
Proof using All.
  intros Hb Hs Hok Hn. unfold pickRouteInternal. cbn [AsRoutingContext session].
  set (ctx0 := if decide (domainStrategy r = Config_IpOnDemand ∧ GetSkipDNSResolve c = false)
               then ContextWithDNSClient (AsRoutingContext c) else AsRoutingContext c).
  assert (session ctx0 = c) as Hc0 by (unfold ctx0; by case_decide).
  destruct (first_rule_spec _ rrs (rules r) ctx0 Hb Hs) as (ctx1 & E1 & Hs1); [by rewrite Hc0..|].
  rewrite Hc0 in *. fold ctx0. rewrite E1. cbn [ret_or_panic].
  assert (∀ i, chosen rrs c (target_ips ctx0) = Some i → ∃ rule, rules r !! i = Some rule) as Hlook
    by (intros i Hi; by eapply chosen_lookup).
  assert (domainStrategy r ≠ Config_IpIfNonMatch →
          route_spec (domainStrategy r) rrs c = chosen rrs c (target_ips ctx0)) as Hroute.
  { intros Hne. unfold ctx0, route_spec. destruct (domainStrategy r) eqn:Ed; try done.
    destruct (GetSkipDNSResolve c); [rewrite bool_decide_false by done|rewrite bool_decide_true by done];
      [by rewrite decide_False by (by intros [_ ?])|by rewrite decide_True]. }
  destruct (decide (domainStrategy r = Config_IpIfNonMatch)) as [Ed|Ed].
  - unfold route_spec. rewrite Ed. assert (target_ips ctx0 = plain_ips c) as Ep.
    { unfold ctx0. by rewrite Ed, decide_False by (by intros [? _]). }
    rewrite Ep in *. destruct (chosen rrs c (plain_ips c)) as [i|] eqn:Ei; cbn [mbind option_bind].
    { destruct (Hlook i eq_refl) as [rule Hr]. rewrite Hr. by exists rule, ctx1. }
    rewrite decide_False by tauto. rewrite Hs1. destruct (ctx_ok_domain _ Hok) as [d Hd]. rewrite Hd. cbn [ret_or_panic].
    unfold target_domain. rewrite Hd. cbn [from_option Datatypes.id].
    destruct (GetSkipDNSResolve c).
    { rewrite bool_decide_false by done. by rewrite decide_True by tauto. }
    rewrite bool_decide_true by done. cbn [andb]. destruct (decide (d = [])) as [->|Hne].
    { rewrite bool_decide_false by tauto. by rewrite decide_True by tauto. }
    rewrite bool_decide_true by done. rewrite decide_False by naive_solver.
    destruct (first_rule_spec _ rrs (rules r) (ContextWithDNSClient ctx1) Hb Hs) as (ctx2 & E2 & Hs2);
      [cbn [ContextWithDNSClient session]; by rewrite Hs1..|].
    assert (target_ips (ContextWithDNSClient ctx1) = resolved_ips c) as Er.
    { unfold resolved_ips, target_ips. cbn [ContextWithDNSClient resolvable resolvedIPs session AsRoutingContext]. by rewrite Hs1. }
    rewrite E2, Er. cbn [ret_or_panic ContextWithDNSClient session]. rewrite Hs1. destruct (chosen rrs c (resolved_ips c)) as [i|] eqn:Ei2; [|done].
    destruct (chosen_lookup _ _ _ _ _ _ Hb Ei2) as [rule Hr]. cbn [mbind option_bind]. rewrite Hr. by exists rule, ctx2.
  - rewrite Hroute by done. destruct (chosen rrs c (target_ips ctx0)) as [i|] eqn:Ei; cbn [mbind option_bind].
    + destruct (Hlook i eq_refl) as [rule Hr]. rewrite Hr. by exists rule, ctx1.
    + by rewrite decide_True.
Qed.

End router.

(** ** Reloading *)

(** A reload that fails has already dropped the rules it was to replace. *)
Lemma failed_reload_drops_rules `{Netipx, UnicodeTables, DnsClient, RegexpEngine, SortBySize, MphEnv} r :
  let bad := {| br_Tag := lit "b"; br_OutboundSelector := []; br_Strategy := [0]; br_Settings := SettingsOther;
                br_FallbackTag := [] |} in
  BalancingRule_Build bad = None →
  let res := ReloadRules {| DomainStrategy := Config_AsIs; cfg_Rule := []; cfg_BalancingRule := [bad] |} false r in
  res.1 = Fail ∧ rules res.2 = [].
Proof.
  intros bad Hb. unfold ReloadRules, load. cbn [cfg_BalancingRule balancer_loop].
  rewrite decide_False by (intros [_ [p Hp]]; cbn in Hp; by rewrite lookup_empty in Hp). by rewrite Hb.
Qed.

(** ** A concrete router *)

Definition list_netipx : Netipx :=
  {| IPSet := list Prefix; IPSetBuilder_IPSet := Some;
     IPSet_Contains := λ s ip, existsb (λ p, Prefix_Contains p ip) s;
     FromStdIP := λ ip, if decide (length ip = 4%nat) then Some ip
                        else if decide (length ip = 16%nat) then Some (default ip (To4 ip)) else None |}.

Lemma list_netipx_laws : @NetipxLaws list_netipx.
Proof.
  split.
  - intros ps. by exists ps.
  - by intros ps s ip [= ->].
  - intros ip Hl. cbn. by rewrite decide_True.
  - intros ip Hl. cbn. by rewrite decide_False, decide_True by lia.
Qed.

Definition sample_env : MphEnv := {| map_order := map_to_list; seed_fuel := 50 |}.
Definition sample_load : LoadEnv := {| leastloadSort := λ l, l; costs_Apply := λ _ d, d |}.

(** One name with an address in the private range. *)
Definition sample_dns : DnsClient :=
  λ _ name, if decide (name = lit "Intra.test") then Some [[10; 1; 2; 3]] else None.

Definition domain_rr : RoutingRule :=
  {| rr_Domain := [(Domain_Domain, lit "example.com"); (Domain_Plain, lit "ads")]; rr_DomainMatcher := lit "hybrid";
     rr_UserEmail := []; rr_InboundTag := []; rr_PortList := None;
     rr_PortRange := None; rr_SourcePortList := None; rr_Networks := []; rr_NetworkList := None; rr_Geoip := [];
     rr_Cidr := []; rr_SourceGeoip := []; rr_SourceCidr := []; rr_Protocol := []; rr_Attributes := [];
     rr_Tag := lit "proxy"; rr_BalancingTag := []; rr_RuleTag := [] |}.

Definition cidr_rr : RoutingRule :=
  {| rr_Domain := []; rr_DomainMatcher := []; rr_UserEmail := []; rr_InboundTag := []; rr_PortList := Some [(1, 1024)];
     rr_PortRange := None; rr_SourcePortList := None; rr_Networks := [Network_TCP]; rr_NetworkList := None; rr_Geoip := [];
     rr_Cidr := [([10; 0; 0; 0], 8)]; rr_SourceGeoip := []; rr_SourceCidr := []; rr_Protocol := []; rr_Attributes := [];
     rr_Tag := lit "direct"; rr_BalancingTag := []; rr_RuleTag := [] |}.

Definition sample_config : Config :=
  {| DomainStrategy := Config_IpIfNonMatch; cfg_Rule := [domain_rr; cidr_rr]; cfg_BalancingRule := [] |}.

Definition sample_target : Destination :=
  {| dest_Address := Some (domainAddress (lit "Intra.test")); dest_Port := 443; dest_Network := Network_TCP |}.

Definition sample_session : Context :=
  {| c_Inbound := None;
     c_Outbound := Some {| out_Target := sample_target;
                           out_RouteTarget := {| dest_Address := None; dest_Port := 0; dest_Network := Network_Unknown |} |};
     c_Content := None |}.

#[local] Existing Instances list_netipx list_netipx_laws ascii_tables literal_regexp merge_sort_bySize
  merge_sort_bySize_laws sample_env sample_load sample_dns.
#[local] Instance sample_dice : Dice := λ _, 0.

Abbreviation sample_router := (Init sample_config []).2.

Lemma pair_of_fst {A B} (p : A * B) a : p.1 = a → p = (a, p.2).
Proof. by destruct p; intros <-. Qed.

Lemma sample_rules_ok : Forall (rule_ok (λ _, [])) (cfg_Rule sample_config).
Proof.
  apply Forall_cons. split; [|apply Forall_singleton].
  - split; [|split; constructor]. right. split.
    + split; [repeat constructor; cbn; apply (bool_decide_unpack _); vm_compute; exact I|]. intros ps [= <-].
      intros k k' ->%list_elem_of_singleton ->%list_elem_of_singleton. done.
    + intros g Hg. eapply separable_order_placed; [cbn; lia|].
      assert (g = match mph_loop (rr_Domain domain_rr) Mph.NewMphMatcherGroup with Ret g => g | _ => g end) as ->
        by by rewrite Hg.
      vm_compute. reflexivity.
  - split; [right; split|split; constructor].
    + split; [constructor|]. by intros ps [= <-] k k' ?%elem_of_nil.
    + intros g Hg. injection Hg as <-. eapply separable_order_placed; [cbn; lia|]. vm_compute. reflexivity.
Qed.

