(* ===== verification/OutboundManager.v ===== *)
(** The manager of the outbound handlers
    (src/upstream/xray-core/app/proxyman/outbound/outbound.go): handlers by their tag,
    the default handler, and the selection of tags by prefixes, which is kept in a
    cache until the handlers change. *)
From stdpp Require Import gmap sorting.
From S2P Require Import Prelude GoText StrMatcher Balancer.

(** A handler is known by an identity and its tag; starting and closing it are calls
    of other code. *)
Record Handler := { h_id : nat; h_Tag : bytes }.

#[global] Instance Handler_eq_dec : EqDecision Handler.
Proof. solve_decision. Defined.

(** [Start] of a handler answers with an error or not. *)
Class HandlerEnv := { h_Start : Handler → bool; h_Close : Handler → bool }.

Record Manager := {
  defaultHandler : option Handler;
  taggedHandler : gmap bytes Handler;
  untaggedHandlers : list Handler;
  running : bool;
  tagsCache : gmap bytes (list bytes)
}.

Definition New : Manager :=
  {| defaultHandler := None; taggedHandler := ∅; untaggedHandlers := []; running := false; tagsCache := ∅ |}.

Section manager.
Context `{HandlerEnv}.

(** The first error ends the loop; [order] is the order of the map. *)
Fixpoint start_all (hs : list Handler) : bool :=
  match hs with [] => true | h :: hs => if h_Start h then start_all hs else false end.

Definition Manager_Start (order : list Handler) (x : Manager) : bool * Manager :=
  let x := {| defaultHandler := defaultHandler x; taggedHandler := taggedHandler x;
              untaggedHandlers := untaggedHandlers x; running := true; tagsCache := tagsCache x |} in
  (start_all (order ++ untaggedHandlers x), x).

(** Every handler is closed and the errors are combined. *)
Definition Manager_Close (order : list Handler) (x : Manager) : bool * Manager :=
  (forallb h_Close (order ++ untaggedHandlers x),
   {| defaultHandler := defaultHandler x; taggedHandler := taggedHandler x;
      untaggedHandlers := untaggedHandlers x; running := false; tagsCache := tagsCache x |}).

Definition GetDefaultHandler (x : Manager) : option Handler := defaultHandler x.
Definition GetHandler (tag : bytes) (x : Manager) : option Handler := taggedHandler x !! tag.

(** [false] is an error. *)
Definition AddHandler (h : Handler) (x : Manager) : bool * Manager :=
  let dflt := match defaultHandler x with None => Some h | d => d end in
  let with_tables tagged untagged :=
    {| defaultHandler := dflt; taggedHandler := tagged; untaggedHandlers := untagged; running := running x;
       tagsCache := ∅ |} in
  if decide (h_Tag h ≠ []) then
    match taggedHandler x !! h_Tag h with
    | Some _ => (false, with_tables (taggedHandler x) (untaggedHandlers x))
    | None => (if running x then h_Start h else true,
               with_tables (<[h_Tag h := h]> (taggedHandler x)) (untaggedHandlers x))
    end
  else (if running x then h_Start h else true, with_tables (taggedHandler x) (untaggedHandlers x ++ [h])).

Definition RemoveHandler (tag : bytes) (x : Manager) : bool * Manager :=
  if decide (tag = []) then (false, x)
  else
    (true, {| defaultHandler := match defaultHandler x with
                                | Some d => if decide (h_Tag d = tag) then None else Some d
                                | None => None
                                end;
              taggedHandler := delete tag (taggedHandler x); untaggedHandlers := untaggedHandlers x;
              running := running x; tagsCache := ∅ |}).
End manager.

(** ** Selecting tags *)

Definition bytes_le (a b : bytes) : Prop := bytes_lt b a = false.

#[global] Instance bytes_le_dec : RelDecision bytes_le := λ a b, bool_eq_dec (bytes_lt b a) false.

(** [sort.Strings]. *)
Definition sort_Strings (l : list bytes) : list bytes := merge_sort bytes_le l.

Definition selected (selectors : list bytes) (tag : bytes) : bool := existsb (λ s, HasPrefix tag s) selectors.

(** The tags of the handlers that begin with one of the selectors, sorted. *)
Definition matching_tags (selectors : list bytes) (x : Manager) : list bytes :=
  sort_Strings (filter (λ t, selected selectors t = true) (map_to_list (taggedHandler x)).*1).

Definition comma : bytes := [44].

Definition Select (selectors : list bytes) (x : Manager) : list bytes * Manager :=
  let key := Join selectors comma in
  match tagsCache x !! key with
  | Some tags => (tags, x)
  | None =>
      let tags := matching_tags selectors x in
      (tags, {| defaultHandler := defaultHandler x; taggedHandler := taggedHandler x;
                untaggedHandlers := untaggedHandlers x; running := running x;
                tagsCache := <[key := tags]> (tagsCache x) |})
  end.

(** ** The cache *)

(** Selectors whose join tells them apart. *)
Definition selectors_ok (selectors : list bytes) : Prop := selectors ≠ [] ∧ Forall (λ s, 44 ∉ s) selectors.

(** What is in the cache is what the handlers give now. *)
Definition cache_fresh (x : Manager) : Prop :=
  map_Forall (λ key tags, ∃ selectors, selectors_ok selectors ∧ key = Join selectors comma ∧
                                       tags = matching_tags selectors x) (tagsCache x).

Lemma Join_inj ps qs : selectors_ok ps → selectors_ok qs → Join ps comma = Join qs comma → ps = qs.
Proof.
  intros [Hp Hp'] [Hq Hq'] E. rewrite <- (Split_Join 44 [] ps) by done. change ([44]) with comma.
  rewrite E. by apply (Split_Join 44 [] qs).
Qed.

Lemma Select_fresh selectors x :
  selectors_ok selectors → cache_fresh x →
  (Select selectors x).1 = matching_tags selectors x ∧ cache_fresh (Select selectors x).2 ∧
  taggedHandler (Select selectors x).2 = taggedHandler x.
Proof.
  intros Hs Hx. unfold Select. destruct (tagsCache x !! Join selectors comma) as [tags|] eqn:E; cbn [fst snd].
  - split_all; [|done|done]. destruct (map_Forall_lookup_1 _ _ _ _ Hx E) as (qs & Hqs & Ej & ->).
    by rewrite (Join_inj selectors qs).
  - split_all; [done| |done]. unfold cache_fresh. cbn [tagsCache]. apply map_Forall_insert_2; [by exists selectors|].
    eapply map_Forall_impl; [exact Hx|]. done.
Qed.

Section steps.
Context `{HandlerEnv}.

Inductive step : Manager → Manager → Prop :=
| step_add x h : step x (AddHandler h x).2
| step_remove x tag : step x (RemoveHandler tag x).2
| step_start x order : step x (Manager_Start order x).2
| step_close x order : step x (Manager_Close order x).2
| step_select x selectors : selectors_ok selectors → step x (Select selectors x).2.

Lemma step_fresh x y : step x y → cache_fresh x → cache_fresh y.
Proof.
  intros [] Hx.
  - unfold AddHandler. case_decide; [destruct (_ !! _)|]; apply map_Forall_empty.
  - unfold RemoveHandler. case_decide; [done|apply map_Forall_empty].
  - done.
  - done.
  - by apply Select_fresh.
Qed.

(** Whatever is added, removed, started, closed and selected before: a selection
    gives the tags of the handlers of this moment that begin with a selector, each
    once and in order. *)
Theorem select_is_current x selectors :
  rtc step New x → selectors_ok selectors →
  (Select selectors x).1 = matching_tags selectors x ∧
  (∀ t, t ∈ (Select selectors x).1 ↔ is_Some (GetHandler t x) ∧ selected selectors t = true) ∧
  NoDup (Select selectors x).1.
Proof.
  intros Hr Hs. assert (cache_fresh x) as Hx.
  { eapply (rtc_invariant step cache_fresh); [apply step_fresh|exact Hr|apply map_Forall_empty]. }
  destruct (Select_fresh _ _ Hs Hx) as (-> & _ & _). unfold matching_tags, sort_Strings, GetHandler.
  split; [done|]. split.
  - intros t. rewrite (merge_sort_Permutation bytes_le), list_elem_of_filter, list_elem_of_fmap. split.
    + intros [Ht ([t' h] & -> & Hin%elem_of_map_to_list)]. cbn [fst]. eauto.
    + intros [[h Hh] Ht]. split; [done|]. exists (t, h). split; [done|]. by apply elem_of_map_to_list.
  - rewrite (merge_sort_Permutation bytes_le). apply NoDup_filter, NoDup_fst_map_to_list.
Qed.
End steps.

#[local] Instance sample_handlers : HandlerEnv := {| h_Start := λ _, true; h_Close := λ _, true |}.

Definition sample_manager : Manager :=
  (RemoveHandler (lit "proxy-b") (AddHandler {| h_id := 3; h_Tag := lit "proxy-a" |}
    (Select [lit "proxy"] (AddHandler {| h_id := 2; h_Tag := lit "proxy-b" |}
      (AddHandler {| h_id := 1; h_Tag := lit "direct" |} New).2).2).2).2).2.

Lemma select_is_current_witness :
  (Select [lit "proxy"] sample_manager).1 = [lit "proxy-a"] ∧
  (Select [lit "proxy"] sample_manager).1 = matching_tags [lit "proxy"] sample_manager ∧
  (∀ t, t ∈ (Select [lit "proxy"] sample_manager).1 ↔
        is_Some (GetHandler t sample_manager) ∧ selected [lit "proxy"] t = true) ∧
  NoDup (Select [lit "proxy"] sample_manager).1.
Proof.
  assert (∀ s, s = lit "proxy" → selectors_ok [s]) as Hs
    by (intros s ->; split; [done|]; apply (bool_decide_unpack _); vm_compute; exact I).
  split; [vm_compute; reflexivity|]. apply select_is_current; [|by apply Hs].
  eapply rtc_l; [apply (step_add _ {| h_id := 1; h_Tag := lit "direct" |})|].
  eapply rtc_l; [apply (step_add _ {| h_id := 2; h_Tag := lit "proxy-b" |})|].
  eapply rtc_l; [apply (step_select _ [lit "proxy"]); by apply Hs|].
  eapply rtc_l; [apply (step_add _ {| h_id := 3; h_Tag := lit "proxy-a" |})|].
  apply rtc_once, step_remove.
Defined.

(** A selector with a comma shares its key with two selectors. *)
Lemma comma_confuses_cache :
  let x := (AddHandler {| h_id := 1; h_Tag := lit "b1" |} New).2 in
  let x := (Select [lit "a"; lit "b"] x).2 in
  (Select [lit "a,b"] x).1 = [lit "b1"] ∧ matching_tags [lit "a,b"] x = [].
Proof. by vm_compute. Qed.

(** A handler refused for its tag can still become the default one. *)
Lemma refused_handler_is_default :
  let x := (AddHandler {| h_id := 1; h_Tag := lit "first" |} New).2 in
  let x := (AddHandler {| h_id := 2; h_Tag := lit "second" |} x).2 in
  let x := (RemoveHandler (lit "first") x).2 in
  let r := AddHandler {| h_id := 3; h_Tag := lit "second" |} x in
  r.1 = false ∧ GetDefaultHandler r.2 = Some {| h_id := 3; h_Tag := lit "second" |} ∧
  GetHandler (lit "second") r.2 = Some {| h_id := 2; h_Tag := lit "second" |}.
Proof. by vm_compute. Qed.
