(* ===== verification/Lru.v ===== *)
(** The cache of recently used entries (src/upstream/xray-core/common/cache/lru.go):
    list elements are cells of a store, the two maps hold their addresses; and that
    the whole refines a list of entries ordered by their last use. *)
From stdpp Require Import gmap.
From S2P Require Import Prelude.

Section lru.
Context {K V : Type} `{Countable K, Countable V}.

Record lruElement := { key : K; value : V }.

(** [elements] is the store of the [list.Element] values, an element is its index;
    [doubleLinkedlist] the elements that are in the list, the front first. *)
Record lru := {
  capacity : Z;
  elements : list lruElement;
  doubleLinkedlist : list nat;
  keyToElement : gmap K nat;
  valueToElement : gmap V nat }.

Definition NewLru (cap : Z) : lru :=
  {| capacity := cap; elements := []; doubleLinkedlist := []; keyToElement := ∅; valueToElement := ∅ |}.

(** *** Package container/list: an element that is not in the list is not moved *)

Definition Remove (e : nat) (l : list nat) : list nat := filter (λ x, x ≠ e) l.

Definition MoveToFront (e : nat) (l : list nat) : list nat :=
  if decide (e ∈ l) then e :: Remove e l else l.

Definition with_list (l : lru) (o : list nat) : lru :=
  {| capacity := capacity l; elements := elements l; doubleLinkedlist := o;
     keyToElement := keyToElement l; valueToElement := valueToElement l |}.

(** *** The operations *)

Definition Get (k : K) (l : lru) : lru * option V :=
  match keyToElement l !! k with
  | Some element =>
    (with_list l (MoveToFront element (doubleLinkedlist l)), value <$> elements l !! element)
  | None => (l, None)
  end.

Definition GetKeyFromValue (v : V) (l : lru) : lru * option K :=
  match valueToElement l !! v with
  | Some element =>
    (with_list l (MoveToFront element (doubleLinkedlist l)), key <$> elements l !! element)
  | None => (l, None)
  end.

Definition PeekKeyFromValue (v : V) (l : lru) : option K :=
  element ← valueToElement l !! v; key <$> elements l !! element.

(** The end of [Put]: the last element goes when the list is too long. *)
Definition evict (l : lru) : lru :=
  if decide (capacity l < Z.of_nat (length (doubleLinkedlist l))) then
    match last (doubleLinkedlist l) with
    | Some toBeRemove =>
      {| capacity := capacity l;
         elements := elements l;
         doubleLinkedlist := Remove toBeRemove (doubleLinkedlist l);
         keyToElement := match elements l !! toBeRemove with
                         | Some e => delete (key e) (keyToElement l) | None => keyToElement l end;
         valueToElement := match elements l !! toBeRemove with
                           | Some e => delete (value e) (valueToElement l) | None => valueToElement l end |}
    | None => l
    end
  else l.

Definition Put (k : K) (v : V) (l : lru) : lru :=
  let e := {| key := k; value := v |} in
  match keyToElement l !! k with
  | Some element =>
    {| capacity := capacity l;
       elements := <[element := e]> (elements l);
       doubleLinkedlist := MoveToFront element (doubleLinkedlist l);
       keyToElement := keyToElement l;
       valueToElement := valueToElement l |}
  | None =>
    let element := length (elements l) in
    evict {| capacity := capacity l;
             elements := elements l ++ [e];
             doubleLinkedlist := element :: doubleLinkedlist l;
             keyToElement := <[k := element]> (keyToElement l);
             valueToElement := <[v := element]> (valueToElement l) |}
  end.

(** *** Entries ordered by their last use *)

(** The entry for which [P] holds moves to the front. *)
Definition recent_touch (P : K * V → Prop) `{∀ x, Decision (P x)} (es : list (K * V)) :
    list (K * V) * option (K * V) :=
  match list_find P es with
  | Some (i, x) => (x :: delete i es, Some x)
  | None => (es, None)
  end.

Definition recent_Get (k : K) (es : list (K * V)) : list (K * V) * option V :=
  let '(es', r) := recent_touch (λ x, x.1 = k) es in (es', snd <$> r).

Definition recent_GetKey (v : V) (es : list (K * V)) : list (K * V) * option K :=
  let '(es', r) := recent_touch (λ x, x.2 = v) es in (es', fst <$> r).

Definition recent_Put (cap : Z) (k : K) (v : V) (es : list (K * V)) : list (K * V) :=
  take (Z.to_nat cap) ((k, v) :: es).

(** *** The representation *)

(** [ts] lists the elements with their entries. *)
Record holds (l : lru) (ts : list (nat * (K * V))) : Prop := {
  h_order : doubleLinkedlist l = ts.*1;
  h_ids : NoDup ts.*1;
  h_keys : NoDup ts.*2.*1;
  h_values : NoDup ts.*2.*2;
  h_elements : ∀ e k v, (e, (k, v)) ∈ ts → elements l !! e = Some {| key := k; value := v |};
  h_key : ∀ k e, keyToElement l !! k = Some e ↔ ∃ v, (e, (k, v)) ∈ ts;
  h_value : ∀ v e, valueToElement l !! v = Some e ↔ ∃ k, (e, (k, v)) ∈ ts }.

Definition represents (l : lru) (es : list (K * V)) : Prop :=
  (∃ ts, holds l ts ∧ es = ts.*2) ∧ (length es ≤ Z.to_nat (capacity l))%nat.

Lemma NewLru_represents cap : represents (NewLru cap) [].
Proof.
  split; [|cbn; lia]. exists []. split; [|done]. split; cbn; try constructor.
  - intros e k v Hin. set_solver.
  - by rewrite lookup_empty.
  - intros [v Hin]. set_solver.
  - by rewrite lookup_empty.
  - intros [k Hin]. set_solver.
Qed.

Lemma filter_all {A} (P : A → Prop) `{∀ x, Decision (P x)} (l : list A) : (∀ x, x ∈ l → P x) → filter P l = l.
Proof.
  induction l as [|x l IH]; intros Hl; [done|].
  rewrite filter_cons_True by (apply Hl, list_elem_of_here). f_equal. apply IH. intros y Hy. by apply Hl, list_elem_of_further.
Qed.

Lemma Remove_delete i e (l : list nat) : NoDup l → l !! i = Some e → Remove e l = delete i l.
Proof.
  revert i. induction l as [|x l IH]; intros [|i] Hd Hi; [done|done| |]; apply NoDup_cons in Hd as [Hx Hd].
  - injection Hi as ->. unfold Remove. rewrite filter_cons_False by tauto.
    cbn. apply filter_all. by intros y Hy ->.
  - cbn in Hi. unfold Remove. rewrite filter_cons_True.
    + cbn. f_equal. by apply IH.
    + intros ->. apply Hx. by eapply list_elem_of_lookup_2.
Qed.

Lemma Remove_perm e l : NoDup l → e ∈ l → e :: Remove e l ≡ₚ l.
Proof.
  intros Hd [i Hi]%list_elem_of_lookup. rewrite (Remove_delete i) by done. symmetry. by apply delete_Permutation.
Qed.

(** The representation up to the order of the list. *)
Lemma holds_perm l ts ts' : holds l ts → ts' ≡ₚ ts → holds (with_list l ts'.*1) ts'.
Proof.
  intros [] Hp. split; cbn; try done.
  - by rewrite Hp.
  - by rewrite Hp.
  - by rewrite Hp.
  - intros e k v Hin. rewrite Hp in Hin. by apply h_elements0.
  - intros k e. rewrite h_key0. f_equiv. intros v. by rewrite Hp.
  - intros v e. rewrite h_value0. f_equiv. intros k. by rewrite Hp.
Qed.

(** Moving an element to the front. *)
Lemma touch_represents l ts i e k v :
  holds l ts → ts !! i = Some (e, (k, v)) →
  holds (with_list l (MoveToFront e (doubleLinkedlist l))) ((e, (k, v)) :: delete i ts).
Proof.
  intros Hh Hi. pose proof (holds_perm l ts ((e, (k, v)) :: delete i ts) Hh) as Hp.
  assert (MoveToFront e (doubleLinkedlist l) = ((e, (k, v)) :: delete i ts).*1) as ->.
  - rewrite (h_order _ _ Hh). unfold MoveToFront. rewrite decide_True.
    + cbn. f_equal. rewrite (Remove_delete i), list_fmap_delete; [done|apply Hh|].
      by rewrite list_lookup_fmap, Hi.
    + apply list_elem_of_fmap. exists (e, (k, v)). split; [done|]. by eapply list_elem_of_lookup_2.
  - apply Hp. symmetry. by apply delete_Permutation.
Qed.

Lemma touched_represents l ts i e k v :
  holds l ts → ts !! i = Some (e, (k, v)) → (length ts.*2 ≤ Z.to_nat (capacity l))%nat →
  represents (with_list l (MoveToFront e (doubleLinkedlist l))) ((k, v) :: delete i ts.*2).
Proof.
  intros Hh Hi Hs. split.
  - eexists. split; [by apply touch_represents|]. cbn. by rewrite list_fmap_delete.
  - rewrite <- (delete_Permutation _ _ (k, v)); [done|]. by rewrite list_lookup_fmap, Hi.
Qed.

(** A predicate that holds of one entry finds it. *)
Lemma find_unique {A B} (f : A → B) (es : list A) i x `{EqDecision B} :
  NoDup (f <$> es) → es !! i = Some x → list_find (λ y, f y = f x) es = Some (i, x).
Proof.
  intros Hd Hi. apply list_find_Some. split_and!; [done..|].
  intros j y Hj Hlt E.
  assert (i = j); [|lia].
  eapply (NoDup_lookup (f <$> es) i j (f x)); [done| |]; rewrite list_lookup_fmap; [by rewrite Hi|].
  rewrite Hj. cbn. by rewrite E.
Qed.

Lemma find_absent {A B} (f : A → B) (es : list A) b `{EqDecision B} :
  b ∉ f <$> es → list_find (λ y, f y = b) es = None.
Proof.
  intros Hb. apply list_find_None, Forall_forall. intros x Hx <-. apply Hb, list_elem_of_fmap_2, Hx.
Qed.

Lemma key_absent l ts k : holds l ts → keyToElement l !! k = None ↔ k ∉ ts.*2.*1.
Proof.
  intros Hh. split.
  - intros E ([k' v] & -> & ([e [k'' v']] & [= -> ->] & Hin)%list_elem_of_fmap)%list_elem_of_fmap.
    cbn in E. assert (keyToElement l !! k'' = Some e) by (apply (h_key _ _ Hh); eauto). congruence.
  - intros Hk. destruct (keyToElement l !! k) as [e|] eqn:E; [|done].
    apply (h_key _ _ Hh) in E as [v Hin]. destruct Hk.
    apply list_elem_of_fmap. exists (k, v). split; [done|]. apply list_elem_of_fmap. by exists (e, (k, v)).
Qed.

Lemma value_absent l ts v : holds l ts → valueToElement l !! v = None ↔ v ∉ ts.*2.*2.
Proof.
  intros Hh. split.
  - intros E ([k v'] & -> & ([e [k'' v'']] & [= -> ->] & Hin)%list_elem_of_fmap)%list_elem_of_fmap.
    cbn in E. assert (valueToElement l !! v'' = Some e) by (apply (h_value _ _ Hh); eauto). congruence.
  - intros Hk. destruct (valueToElement l !! v) as [e|] eqn:E; [|done].
    apply (h_value _ _ Hh) in E as [k Hin]. destruct Hk.
    apply list_elem_of_fmap. exists (k, v). split; [done|]. apply list_elem_of_fmap. by exists (e, (k, v)).
Qed.

(** *** The operations follow the list of entries *)

Lemma Get_represents l es k :
  represents l es → represents (Get k l).1 (recent_Get k es).1 ∧ (Get k l).2 = (recent_Get k es).2.
Proof.
  intros [(ts & Hh & ->) Hs]. unfold Get, recent_Get, recent_touch.
  destruct (keyToElement l !! k) as [e|] eqn:E.
  - apply (h_key _ _ Hh) in E as [v Hin]. pose proof (h_elements _ _ Hh _ _ _ Hin) as He.
    apply list_elem_of_lookup in Hin as [i Hi].
    pose proof (find_unique fst ts.*2 i (k, v) (h_keys _ _ Hh)) as Hf.
    rewrite list_lookup_fmap, Hi in Hf. cbn in Hf. rewrite Hf by done. rewrite He. cbn. split; [|done].
    by eapply touched_represents.
  - apply (key_absent l ts) in E; [|done]. rewrite (find_absent fst) by done. split; [|done]. split; [by exists ts|done].
Qed.

Lemma GetKey_represents l es v :
  represents l es →
  represents (GetKeyFromValue v l).1 (recent_GetKey v es).1 ∧ (GetKeyFromValue v l).2 = (recent_GetKey v es).2.
Proof.
  intros [(ts & Hh & ->) Hs]. unfold GetKeyFromValue, recent_GetKey, recent_touch.
  destruct (valueToElement l !! v) as [e|] eqn:E.
  - apply (h_value _ _ Hh) in E as [k Hin]. pose proof (h_elements _ _ Hh _ _ _ Hin) as He.
    apply list_elem_of_lookup in Hin as [i Hi].
    pose proof (find_unique snd ts.*2 i (k, v) (h_values _ _ Hh)) as Hf.
    rewrite list_lookup_fmap, Hi in Hf. cbn in Hf. rewrite Hf by done. rewrite He. cbn. split; [|done].
    by eapply touched_represents.
  - apply (value_absent l ts) in E; [|done]. rewrite (find_absent snd) by done. split; [|done]. split; [by exists ts|done].
Qed.

Lemma Peek_represents l es v :
  represents l es → PeekKeyFromValue v l = (recent_GetKey v es).2.
Proof.
  intros Hr. destruct (GetKey_represents l es v Hr) as [_ <-].
  unfold PeekKeyFromValue, GetKeyFromValue. by destruct (valueToElement l !! v).
Qed.

Lemma push_holds l ts k v :
  holds l ts → k ∉ ts.*2.*1 → v ∉ ts.*2.*2 →
  holds {| capacity := capacity l;
           elements := elements l ++ [{| key := k; value := v |}];
           doubleLinkedlist := length (elements l) :: doubleLinkedlist l;
           keyToElement := <[k := length (elements l)]> (keyToElement l);
           valueToElement := <[v := length (elements l)]> (valueToElement l) |}
        ((length (elements l), (k, v)) :: ts).
Proof.
  intros Hh Hk Hv. pose proof (h_elements _ _ Hh) as He.
  pose proof (key_absent l ts k Hh) as [_ Hk']. pose proof (value_absent l ts v Hh) as [_ Hv'].
  specialize (Hk' Hk). specialize (Hv' Hv). destruct Hh. split; cbn.
  - by rewrite h_order0.
  - constructor; [|done]. intros ([e [k' v']] & E & Hin)%list_elem_of_fmap.
    apply He, lookup_lt_Some in Hin. cbn in E. lia.
  - by constructor.
  - by constructor.
  - intros e k' v' [E|Hin]%elem_of_cons; [simplify_eq; by rewrite list_lookup_middle|].
    rewrite lookup_app_l; eauto using lookup_lt_Some.
  - intros k' e. setoid_rewrite elem_of_cons. destruct (decide (k' = k)) as [->|Hne].
    + rewrite lookup_insert. rewrite decide_True by done. split; [intros [= <-]; eauto|].
      intros (v' & [[= -> ->]|Hin]); [done|]. assert (keyToElement l !! k = Some e) by (apply h_key0; eauto). congruence.
    + rewrite lookup_insert_ne, h_key0 by done. f_equiv. intros v'. naive_solver.
  - intros v' e. setoid_rewrite elem_of_cons. destruct (decide (v' = v)) as [->|Hne].
    + rewrite lookup_insert. rewrite decide_True by done. split; [intros [= <-]; eauto|].
      intros (k' & [[= -> ->]|Hin]); [done|]. assert (valueToElement l !! v = Some e) by (apply h_value0; eauto). congruence.
    + rewrite lookup_insert_ne, h_value0 by done. f_equiv. intros k'. naive_solver.
Qed.

(** The last element leaves the list and the maps. *)
Lemma drop_holds l ts e k v :
  holds l (ts ++ [(e, (k, v))]) →
  holds {| capacity := capacity l;
           elements := elements l;
           doubleLinkedlist := Remove e (doubleLinkedlist l);
           keyToElement := delete k (keyToElement l);
           valueToElement := delete v (valueToElement l) |} ts.
Proof.
  intros []. rewrite !fmap_app in *. cbn in *.
  apply NoDup_app in h_ids0 as (Hi & Hie & _). apply NoDup_app in h_keys0 as (Hk & Hke & _).
  apply NoDup_app in h_values0 as (Hv & Hve & _).
  split; cbn; try done.
  - rewrite h_order0. unfold Remove. rewrite filter_app, filter_cons_False by tauto. cbn.
    rewrite app_nil_r. apply filter_all. intros x Hx ->. by apply (Hie _ Hx), list_elem_of_singleton.
  - intros e' k' v' Hin. apply h_elements0, elem_of_app. by left.
  - intros k' e'. rewrite lookup_delete_Some, h_key0. setoid_rewrite elem_of_app.
    setoid_rewrite list_elem_of_singleton. split; [naive_solver|]. intros [v' Hin]. split; [|by eauto].
    intros <-. apply (Hke k); [|by apply list_elem_of_singleton].
    apply list_elem_of_fmap. exists (k, v'). split; [done|]. apply list_elem_of_fmap. by exists (e', (k, v')).
  - intros v' e'. rewrite lookup_delete_Some, h_value0. setoid_rewrite elem_of_app.
    setoid_rewrite list_elem_of_singleton. split; [naive_solver|]. intros [k' Hin]. split; [|by eauto].
    intros <-. apply (Hve v); [|by apply list_elem_of_singleton].
    apply list_elem_of_fmap. exists (k', v). split; [done|]. apply list_elem_of_fmap. by exists (e', (k', v)).
Qed.

Lemma evict_holds l ts :
  holds l ts → (length ts ≤ S (Z.to_nat (capacity l)))%nat →
  holds (evict l) (take (Z.to_nat (capacity l)) ts).
Proof.
  intros Hh Hs. unfold evict. pose proof (h_order _ _ Hh) as Ho.
  assert (length (doubleLinkedlist l) = length ts) as -> by (by rewrite Ho, length_fmap).
  case_decide as Hc.
  - destruct ts as [|[e [k v]] ts _] using rev_ind.
    { rewrite Ho. cbn. by rewrite take_nil. }
    rewrite length_app in *. cbn in *. rewrite Ho, fmap_app, last_app. cbn.
    rewrite (h_elements _ _ Hh e k v) by (apply elem_of_app; right; by apply list_elem_of_singleton).
    cbn. rewrite take_app_length' by lia. pose proof (drop_holds _ _ _ _ _ Hh) as Hd.
    by rewrite Ho, fmap_app in Hd.
  - rewrite take_ge by lia. by destruct Hh.
Qed.

Lemma evict_capacity l : capacity (evict l) = capacity l.
Proof. unfold evict. case_decide; [|done]. by destruct (last _). Qed.

Lemma Put_represents l es k v :
  represents l es → k ∉ es.*1 → v ∉ es.*2 → represents (Put k v l) (recent_Put (capacity l) k v es).
Proof.
  intros [(ts & Hh & ->) Hs] Hk Hv. unfold Put, recent_Put.
  rewrite (proj2 (key_absent l ts k Hh)) by done.
  pose proof (push_holds l ts k v Hh Hk Hv) as Hp. apply evict_holds in Hp; [|cbn; rewrite length_fmap in Hs; lia].
  split.
  - eexists. split; [exact Hp|]. cbn [capacity]. by rewrite fmap_take.
  - rewrite evict_capacity. cbn [capacity]. rewrite length_take. lia.
Qed.

Lemma Get_capacity k l : capacity (Get k l).1 = capacity l.
Proof. unfold Get. by destruct (_ !! _). Qed.

Lemma GetKey_capacity v l : capacity (GetKeyFromValue v l).1 = capacity l.
Proof. unfold GetKeyFromValue. by destruct (_ !! _). Qed.

Lemma Put_capacity k v l : capacity (Put k v l) = capacity l.
Proof. unfold Put. destruct (_ !! _); [done|]. by rewrite evict_capacity. Qed.

(** *** What is found, in terms of the entries *)

Lemma find_split (P : K * V → Prop) `{∀ x, Decision (P x)} es i x :
  list_find P es = Some (i, x) → ∃ pre post, es = pre ++ x :: post ∧ delete i es = pre ++ post ∧ P x.
Proof.
  intros (Hi & Hx & _)%list_find_Some. exists (take i es), (drop (S i) es). split_and!; [|apply delete_take_drop|done].
  by rewrite take_drop_middle.
Qed.

Lemma Get_None l es k : represents l es → (Get k l).2 = None → k ∉ es.*1 ∧ represents (Get k l).1 es.
Proof.
  intros Hr. destruct (Get_represents l es k Hr) as [Hr' ->]. revert Hr'. unfold recent_Get, recent_touch.
  destruct (list_find _ es) as [[i x]|] eqn:E; cbn; [done|]. intros Hr' _. split; [|done].
  apply list_find_None in E. rewrite Forall_forall in E. intros (x & -> & Hx)%list_elem_of_fmap. by apply (E x).
Qed.

Lemma Get_Some l es k v :
  represents l es → (Get k l).2 = Some v →
  ∃ pre post, es = pre ++ (k, v) :: post ∧ represents (Get k l).1 ((k, v) :: pre ++ post).
Proof.
  intros Hr. destruct (Get_represents l es k Hr) as [Hr' ->]. revert Hr'. unfold recent_Get, recent_touch.
  destruct (list_find _ es) as [[i [k' v']]|] eqn:E; cbn; [|done]. intros Hr' [= ->].
  apply find_split in E as (pre & post & -> & Hd & Hk). cbn in Hk. subst k'. rewrite Hd in Hr'. eauto.
Qed.

Lemma GetKey_None l es v :
  represents l es → (GetKeyFromValue v l).2 = None → v ∉ es.*2 ∧ represents (GetKeyFromValue v l).1 es.
Proof.
  intros Hr. destruct (GetKey_represents l es v Hr) as [Hr' ->]. revert Hr'. unfold recent_GetKey, recent_touch.
  destruct (list_find _ es) as [[i x]|] eqn:E; cbn; [done|]. intros Hr' _. split; [|done].
  apply list_find_None in E. rewrite Forall_forall in E. intros (x & -> & Hx)%list_elem_of_fmap. by apply (E x).
Qed.

Lemma GetKey_Some l es v k :
  represents l es → (GetKeyFromValue v l).2 = Some k →
  ∃ pre post, es = pre ++ (k, v) :: post ∧ represents (GetKeyFromValue v l).1 ((k, v) :: pre ++ post).
Proof.
  intros Hr. destruct (GetKey_represents l es v Hr) as [Hr' ->]. revert Hr'. unfold recent_GetKey, recent_touch.
  destruct (list_find _ es) as [[i [k' v']]|] eqn:E; cbn; [|done]. intros Hr' [= ->].
  apply find_split in E as (pre & post & -> & Hd & Hk). cbn in Hk. subst v'. rewrite Hd in Hr'. eauto.
Qed.

Lemma GetKey_Peek v l : (GetKeyFromValue v l).2 = PeekKeyFromValue v l.
Proof. unfold PeekKeyFromValue, GetKeyFromValue. by destruct (valueToElement l !! v). Qed.

Lemma represents_NoDup l es : represents l es → NoDup es.*1 ∧ NoDup es.*2.
Proof. intros [(ts & [] & ->) _]. done. Qed.

Lemma Get_In l es k v : represents l es → (k, v) ∈ es → (Get k l).2 = Some v.
Proof.
  intros Hr Hin. destruct (Get k l).2 as [v'|] eqn:E.
  - destruct (Get_Some l es k v' Hr E) as (pre & post & -> & _). destruct (represents_NoDup _ _ Hr) as [Hd _].
    f_equal. apply list_elem_of_lookup in Hin as [i Hi].
    assert (i = length pre) as ->.
    { apply (NoDup_lookup _ _ _ k Hd); rewrite list_lookup_fmap; [by rewrite Hi|].
      by rewrite list_lookup_middle. }
    rewrite list_lookup_middle in Hi by done. by injection Hi.
  - destruct (Get_None l es k Hr E) as [Hk _]. destruct Hk. apply list_elem_of_fmap. by exists (k, v).
Qed.

Lemma GetKey_In l es k v : represents l es → (k, v) ∈ es → (GetKeyFromValue v l).2 = Some k.
Proof.
  intros Hr Hin. destruct (GetKeyFromValue v l).2 as [k'|] eqn:E.
  - destruct (GetKey_Some l es v k' Hr E) as (pre & post & -> & _). destruct (represents_NoDup _ _ Hr) as [_ Hd].
    f_equal. apply list_elem_of_lookup in Hin as [i Hi].
    assert (i = length pre) as ->.
    { apply (NoDup_lookup _ _ _ v Hd); rewrite list_lookup_fmap; [by rewrite Hi|].
      by rewrite list_lookup_middle. }
    rewrite list_lookup_middle in Hi by done. by injection Hi.
  - destruct (GetKey_None l es v Hr E) as [Hk _]. destruct Hk. apply list_elem_of_fmap. by exists (k, v).
Qed.

Lemma represents_size l es : represents l es → length (doubleLinkedlist l) = length es.
Proof. intros [(ts & Hh & ->) _]. by rewrite (h_order _ _ Hh), !length_fmap. Qed.

(** *** Any number of calls *)

Inductive lru_call :=
  | Call_Get (k : K) | Call_GetKeyFromValue (v : V) | Call_PeekKeyFromValue (v : V) | Call_Put (k : K) (v : V).

Inductive lru_answer := Answer_value (r : option V) | Answer_key (r : option K) | Answer_none.

Definition lru_do (c : lru_call) (l : lru) : lru * lru_answer :=
  match c with
  | Call_Get k => let '(l, r) := Get k l in (l, Answer_value r)
  | Call_GetKeyFromValue v => let '(l, r) := GetKeyFromValue v l in (l, Answer_key r)
  | Call_PeekKeyFromValue v => (l, Answer_key (PeekKeyFromValue v l))
  | Call_Put k v => (Put k v l, Answer_none)
  end.

Fixpoint lru_run (cs : list lru_call) (l : lru) : list lru_answer :=
  match cs with
  | [] => []
  | c :: cs => let '(l, a) := lru_do c l in a :: lru_run cs l
  end.

(** The same calls on the list of entries. *)
Definition recent_do (cap : Z) (c : lru_call) (es : list (K * V)) : list (K * V) * lru_answer :=
  match c with
  | Call_Get k => let '(es, r) := recent_Get k es in (es, Answer_value r)
  | Call_GetKeyFromValue v => let '(es, r) := recent_GetKey v es in (es, Answer_key r)
  | Call_PeekKeyFromValue v => (es, Answer_key (recent_GetKey v es).2)
  | Call_Put k v => (recent_Put cap k v es, Answer_none)
  end.

Fixpoint recent_run (cap : Z) (cs : list lru_call) (es : list (K * V)) : list lru_answer :=
  match cs with
  | [] => []
  | c :: cs => let '(es, a) := recent_do cap c es in a :: recent_run cap cs es
  end.

(** Every [Put] is of a key and a value that are not in the cache. *)
Fixpoint puts_fresh (cap : Z) (cs : list lru_call) (es : list (K * V)) : Prop :=
  match cs with
  | [] => True
  | c :: cs =>
    match c with Call_Put k v => k ∉ es.*1 ∧ v ∉ es.*2 | _ => True end ∧
    puts_fresh cap cs (recent_do cap c es).1
  end.

Lemma lru_do_represents c l es :
  represents l es →
  match c with Call_Put k v => k ∉ es.*1 ∧ v ∉ es.*2 | _ => True end →
  represents (lru_do c l).1 (recent_do (capacity l) c es).1 ∧
  (lru_do c l).2 = (recent_do (capacity l) c es).2 ∧ capacity (lru_do c l).1 = capacity l.
Proof.
  intros Hr Hf. destruct c; cbn.
  - pose proof (Get_represents l es k Hr) as [Hr' E]. pose proof (Get_capacity k l) as Ec.
    destruct (Get k l), (recent_Get k es). cbn in *. by subst.
  - pose proof (GetKey_represents l es v Hr) as [Hr' E]. pose proof (GetKey_capacity v l) as Ec.
    destruct (GetKeyFromValue v l), (recent_GetKey v es). cbn in *. by subst.
  - by rewrite (Peek_represents l es).
  - destruct Hf. split_and!; [by apply Put_represents|done|apply Put_capacity].
Qed.

Lemma lru_run_represents cs l es :
  represents l es → puts_fresh (capacity l) cs es → lru_run cs l = recent_run (capacity l) cs es.
Proof.
  revert l es. induction cs as [|c cs IH]; intros l es Hr Hf; [done|]. destruct Hf as [Hc Hf]. cbn.
  destruct (lru_do_represents c l es Hr Hc) as (Hr' & E & Ec). 
  destruct (lru_do c l) as [l' a], (recent_do (capacity l) c es) as [es' a'].
  cbn in *. subst a'. f_equal. rewrite <- Ec. apply IH; [done|]. by rewrite Ec.
Qed.

(** A cache that is only given new keys with new values answers every sequence of
    calls like the list of its entries ordered by their last use and cut at the
    capacity. *)
Theorem lru_refines cap cs :
  puts_fresh cap cs [] → lru_run cs (NewLru cap) = recent_run cap cs [].
Proof. intros Hf. by apply (lru_run_represents cs (NewLru cap)), Hf; apply NewLru_represents. Qed.

End lru.
Arguments lru : clear implicits.
Arguments lru _ _ {_ _ _ _}.

(** A [Put] of a key that is in the cache does not tell the map of the values: the
    old value is still found, the new one is not. *)
Theorem put_again_keeps_the_old_value :
  let l := Put 1 20 (Put 1 10 (NewLru (K:=Z) (V:=Z) 4)) in
  (Get 1 l).2 = Some 20 ∧ (GetKeyFromValue 20 l).2 = None ∧ (GetKeyFromValue 10 l).2 = Some 1.
Proof. vm_compute. done. Qed.

Lemma lru_refines_witness :
  let cs := [Call_Put 1 10; Call_Put 2 20; Call_Get 1; Call_Put 3 30; Call_Get 2; Call_GetKeyFromValue 10] in
  puts_fresh 2 cs [] ∧ lru_run cs (NewLru 2) = recent_run 2 cs [] ∧
  recent_run 2 cs [] = [Answer_none; Answer_none; Answer_value (Some 10); Answer_none; Answer_value None; Answer_key (Some 1)].
Proof.
  assert (puts_fresh 2 [Call_Put 1 10; Call_Put 2 20; Call_Get 1; Call_Put 3 30; Call_Get 2; Call_GetKeyFromValue 10] []).
  { cbn. repeat split; apply (bool_decide_unpack _); vm_compute; exact I. }
  split; [done|]. split; [by apply (lru_refines 2)|reflexivity].
Defined.
