(* ===== verification/FakeDns.v ===== *)
(** The fake DNS (src/upstream/xray-core/app/dns/fakedns/fake.go,
    nameserver_fakedns.go): addresses of a pool stand for names.  An address that
    was handed out lies in the pool, no two live names share one, the name of an
    address is found again, and a name keeps its address until as many other names
    were used as the cache holds. *)
From stdpp Require Import gmap.
From S2P Require Import Prelude GoText NetIP NetIP6 Address Lru.

#[global] Instance Address_countable : Countable Address.
Proof.
  refine (inj_countable'
    (λ a, match a with ipv4Address b => inl b | ipv6Address b => inr (inl b) | domainAddress b => inr (inr b) end)
    (λ s, match s with inl b => ipv4Address b | inr (inl b) => ipv6Address b | inr (inr b) => domainAddress b end) _).
  by intros [].
Defined.

(** ** Big integers (package math/big) and masks (package net) *)

(** [Int.Bytes]: big-endian, without leading zeros. *)
Definition big_Bytes (z : Z) : bytes :=
  if decide (z = 0) then [] else be_bytes (Z.to_nat (Z.log2 z / 8 + 1)) z.

(** The leading ones of a byte; -1 when other ones follow. *)
Fixpoint byte_ones (fuel : nat) (v n : Z) : Z :=
  match fuel with
  | O => n
  | S fuel => if decide (Z.land v 0x80 = 0) then (if decide (v = 0) then n else -1)
              else byte_ones fuel (u8 (Z.shiftl v 1)) (n + 1)
  end.

(** [simpleMaskLength]. *)
Fixpoint simpleMaskLength (mask : bytes) (n : Z) : Z :=
  match mask with
  | [] => n
  | v :: mask =>
    if decide (v = 0xff) then simpleMaskLength mask (n + 8)
    else let n' := byte_ones 8 v n in
         if decide (n' = -1 ∨ ¬ Forall (λ x, x = 0) mask) then -1 else n'
  end.

(** [IPMask.Size]. *)
Definition IPMask_Size (m : bytes) : Z * Z :=
  let ones := simpleMaskLength m 0 in
  if decide (ones = -1) then (0, 0) else (ones, 8 * Z.of_nat (length m)).

(** ** A pool *)

(** [Log2_reaches n r] is [math.Log2(float64(n)) >= float64(r)]. *)
Class FloatLog2 := Log2_reaches : Z → Z → bool.

(** A logarithm that is not too small. *)
Class FloatLog2Laws `{FloatLog2} : Prop :=
  log2_large n r : 0 < n → 0 ≤ r → 2 ^ r ≤ n → Log2_reaches n r = true.

Record FakeDnsPool := { IpPool : bytes; LruSize : Z }.

(** What [initialize] makes; an address of the cache is an interface, [None] is nil. *)
Record pool_state := {
  domainToIP : lru bytes (option Address);
  ipRange : IPNet }.

Record Holder := { running : option pool_state; config : option FakeDnsPool }.

Section fakedns.
Context `{FloatLog2}.

Definition initialize (ipPoolCidr : bytes) (lruSize : Z) (fkdns : Holder) : outcome Holder :=
  match ParseCIDR ipPoolCidr with
  | None => Fail
  | Some ipRange =>
    let '(ones, bits) := IPMask_Size (net_Mask ipRange) in
    let rooms := bits - ones in
    if Log2_reaches lruSize rooms then Fail
    else Ret {| running := Some {| domainToIP := NewLru lruSize; ipRange := ipRange |}; config := config fkdns |}
  end.

Definition NewFakeDNSHolderConfigOnly (conf : option FakeDnsPool) : Holder :=
  {| running := None; config := conf |}.

Definition NewFakeDNSHolder : outcome Holder :=
  initialize (lit "198.18.0.0/15") 65535 (NewFakeDNSHolderConfigOnly None).

Definition Start (fkdns : Holder) : outcome Holder :=
  match config fkdns with
  | Some c => if decide (IpPool c ≠ [] ∧ LruSize c ≠ 0) then initialize (IpPool c) (LruSize c) fkdns else Fail
  | None => Fail
  end.

Definition Close (fkdns : Holder) : Holder := {| running := None; config := config fkdns |}.

Definition with_cache (fkdns : Holder) (s : pool_state) (l : lru bytes (option Address)) : Holder :=
  {| running := Some {| domainToIP := l; ipRange := ipRange s |}; config := config fkdns |}.

(** The loop of [GetFakeIPForDomain]; out of fuel it is still running. *)
Fixpoint free_ip (fuel : nat) (s : pool_state) (bigIntIP : Z) : option (option Address) :=
  match fuel with
  | O => None
  | S fuel =>
    let ip := IPAddress (big_Bytes bigIntIP) in
    match PeekKeyFromValue ip (domainToIP s) with
    | None => Some ip
    | Some _ =>
      let next := bigIntIP + 1 in
      free_ip fuel s (if IPNet_Contains (ipRange s) (big_Bytes next) then next else be_val (net_IP (ipRange s)))
    end
  end.

(** [GetFakeIPForDomain] at the time [now] in milliseconds.  The use of a holder that
    is not running and the assertion on a nil address panic. *)
Definition GetFakeIPForDomain (now : Z) (domain : bytes) (fkdns : Holder) : outcome (list (option Address) * Holder) :=
  match running fkdns with
  | None => Panic
  | Some s =>
    match Get domain (domainToIP s) with
    | (l, Some None) => Panic
    | (l, Some v) => Ret ([v], with_cache fkdns s l)
    | (l, None) =>
      let '(ones, bits) := IPMask_Size (net_Mask (ipRange s)) in
      let rooms := bits - ones in
      let currentTimeMillis := if decide (rooms < 64) then u64 now mod 2 ^ rooms else u64 now in
      match free_ip (S (length (doubleLinkedlist l))) s (be_val (net_IP (ipRange s)) + currentTimeMillis) with
      | None => Panic
      | Some ip => Ret ([ip], with_cache fkdns s (Put domain ip l))
      end
    end
  end.

Definition GetFakeIPForDomain3 (now : Z) (domain : bytes) (ipv4 ipv6 : bool) (fkdns : Holder) :
    outcome (list (option Address) * Holder) :=
  match running fkdns with
  | None => Panic
  | Some s =>
    let isIPv6 := bool_decide (To4 (net_IP (ipRange s)) = None) in
    if isIPv6 && ipv6 || negb isIPv6 && ipv4 then GetFakeIPForDomain now domain fkdns
    else Ret ([], fkdns)
  end.

Definition IsIPInIPPool (ip : Address) (fkdns : Holder) : outcome bool :=
  if IsDomain (Family ip) then Ret false
  else ret_or_panic (Address_IP ip) (λ b, ret_or_panic (running fkdns) (λ s, Ret (IPNet_Contains (ipRange s) b))).

Definition GetDomainFromFakeDNS (ip : Address) (fkdns : Holder) : outcome (bytes * Holder) :=
  if negb (IsIP (Family ip)) then Ret ([], fkdns)
  else
    let? inpool := IsIPInIPPool ip fkdns in
    if negb inpool then Ret ([], fkdns)
    else ret_or_panic (running fkdns) (λ s,
      match GetKeyFromValue (Some ip) (domainToIP s) with
      | (l, Some k) => Ret (k, with_cache fkdns s l)
      | (l, None) => Ret ([], with_cache fkdns s l)
      end).

(** *** Several pools ([HolderMulti]) *)

Definition holder_config_ok (v : Holder) : bool :=
  match config v with
  | Some c => bool_decide (IpPool c ≠ [] ∧ LruSize c ≠ 0)
  | None => false
  end.

Fixpoint multi_Start (holders : list Holder) : outcome (list Holder) :=
  match holders with
  | [] => Ret []
  | v :: rest =>
    if holder_config_ok v then
      let? v := Start v in
      let? rest := multi_Start rest in
      Ret (v :: rest)
    else Fail
  end.

Definition NewFakeDNSHolderMulti (pools : list FakeDnsPool) : list Holder :=
  NewFakeDNSHolderConfigOnly ∘ Some <$> pools.

Fixpoint multi_IsIPInIPPool (ip : Address) (holders : list Holder) : outcome bool :=
  if IsDomain (Family ip) then Ret false
  else match holders with
       | [] => Ret false
       | v :: rest => let? b := IsIPInIPPool ip v in if b : bool then Ret true else multi_IsIPInIPPool ip rest
       end.

(** The pools are asked one after the other, the first at [now 0]. *)
Fixpoint multi_GetFakeIPForDomain3 (now : nat → Z) (domain : bytes) (ipv4 ipv6 : bool) (holders : list Holder) :
    outcome (list (option Address) * list Holder) :=
  match holders with
  | [] => Ret ([], [])
  | v :: rest =>
    let? (ips, v) := GetFakeIPForDomain3 (now 0%nat) domain ipv4 ipv6 v in
    let? (ret, rest) := multi_GetFakeIPForDomain3 (now ∘ S) domain ipv4 ipv6 rest in
    Ret (ips ++ ret, v :: rest)
  end.

Fixpoint multi_GetFakeIPForDomain (now : nat → Z) (domain : bytes) (holders : list Holder) :
    outcome (list (option Address) * list Holder) :=
  match holders with
  | [] => Ret ([], [])
  | v :: rest =>
    let? (ips, v) := GetFakeIPForDomain (now 0%nat) domain v in
    let? (ret, rest) := multi_GetFakeIPForDomain (now ∘ S) domain rest in
    Ret (ips ++ ret, v :: rest)
  end.

Fixpoint multi_GetDomainFromFakeDNS (ip : Address) (holders : list Holder) : outcome (bytes * list Holder) :=
  match holders with
  | [] => Ret ([], [])
  | v :: rest =>
    let? (domain, v) := GetDomainFromFakeDNS ip v in
    match domain with
    | [] => let? (domain, rest) := multi_GetDomainFromFakeDNS ip rest in Ret (domain, v :: rest)
    | _ :: _ => Ret (domain, v :: rest)
    end
  end.

(** *** The name server over the pools ([FakeDNSServer.QueryIP], [toNetIP]) *)

Fixpoint toNetIP (addrs : list (option Address)) : outcome (list bytes) :=
  match addrs with
  | [] => Ret []
  | None :: _ => Panic
  | Some addr :: addrs =>
    match Address_IP addr with
    | Some ip => let? ips := toNetIP addrs in Ret (ip :: ips)
    | None => Fail
    end
  end.

(** [Fail] is any error; an empty answer is one. *)
Definition QueryIP (now : nat → Z) (domain : bytes) (IPv4Enable IPv6Enable : bool) (holders : list Holder) :
    outcome (list bytes * list Holder) :=
  let? (ips, holders) := multi_GetFakeIPForDomain3 now domain IPv4Enable IPv6Enable holders in
  let? netIP := toNetIP ips in
  match netIP with [] => Fail | _ :: _ => Ret (netIP, holders) end.

End fakedns.

(** ** Pools as ranges of integers *)

(** A network of addresses of [k] bytes (4 or 16), of which [r] bits are free,
    and whose first byte is not zero. *)
Record good_pool (n : IPNet) (k : nat) (r : Z) : Prop := {
  gp_k : k = 4%nat ∨ k = 16%nat;
  gp_r : 0 ≤ r ≤ 8 * Z.of_nat k;
  gp_length : length (net_IP n) = k;
  gp_wf : wf_bytes (net_IP n);
  gp_first : 256 ^ (Z.of_nat k - 1) ≤ be_val (net_IP n);
  gp_mask : net_Mask n = mask_bytes k (8 * Z.of_nat k - r);
  gp_aligned : be_val (net_IP n) mod 2 ^ r = 0 }.

Lemma byte_ones_one fuel v n w :
  Z.land v 0x80 ≠ 0 → u8 (Z.shiftl v 1) = w → byte_ones (S fuel) v n = byte_ones fuel w (n + 1).
Proof. intros Hv <-. cbn [byte_ones]. by rewrite decide_False. Qed.

Lemma byte_ones_end fuel n : byte_ones fuel 0 n = n.
Proof. by destruct fuel. Qed.

(** Eight bits, the leading [o] of them ones. *)
Ltac each_partial o :=
  let Hc := fresh in
  assert (o = 0 ∨ o = 1 ∨ o = 2 ∨ o = 3 ∨ o = 4 ∨ o = 5 ∨ o = 6 ∨ o = 7) as Hc by lia;
  destruct Hc as [->|[->|[->|[->|[->|[->|[->| ->]]]]]]].

Lemma byte_ones_partial o n : 0 ≤ o < 8 → byte_ones 8 (0xff - Z.shiftr 0xff o) n = n + o.
Proof.
  intros Ho. each_partial o;
    repeat (erewrite byte_ones_one; [|by vm_compute|vm_compute; reflexivity]);
    (etrans; [apply byte_ones_end|lia]).
Qed.

Lemma mask_bytes_zero k : mask_bytes k 0 = replicate k 0.
Proof. induction k as [|k IH]; [done|]. cbn [mask_bytes]. rewrite decide_False by lia. by rewrite IH. Qed.

Lemma partial_not_ff o : 0 ≤ o < 8 → 0xff - Z.shiftr 0xff o ≠ 0xff.
Proof.
  intros Ho. each_partial o; done.
Qed.

Lemma simpleMaskLength_mask k ones n :
  0 ≤ ones ≤ 8 * Z.of_nat k → 0 ≤ n → simpleMaskLength (mask_bytes k ones) n = n + ones.
Proof.
  revert ones n. induction k as [|k IH]; intros ones n Ho Hn; [cbn; lia|].
  cbn [mask_bytes]. case_decide as Hc; cbn [simpleMaskLength].
  - rewrite decide_True by done. rewrite IH by lia. lia.
  - rewrite decide_False by (apply partial_not_ff; lia). rewrite byte_ones_partial by lia.
    rewrite decide_False; [done|]. intros [Hx|Hx]; [lia|]. apply Hx. rewrite mask_bytes_zero. by apply Forall_replicate.
Qed.

Lemma mask_bytes_length k ones : length (mask_bytes k ones) = k.
Proof. revert ones. induction k as [|k IH]; intros ones; [done|]. cbn [mask_bytes]. case_decide; cbn; by rewrite IH. Qed.

Lemma good_pool_size n k r : good_pool n k r → IPMask_Size (net_Mask n) = (8 * Z.of_nat k - r, 8 * Z.of_nat k).
Proof.
  intros []. unfold IPMask_Size. rewrite gp_mask0, simpleMaskLength_mask, mask_bytes_length by lia.
  rewrite decide_False by lia. f_equal.
Qed.

Lemma big_Bytes_be k z : 256 ^ (Z.of_nat k - 1) ≤ z < 256 ^ Z.of_nat k → (0 < k)%nat → big_Bytes z = be_bytes k z.
Proof.
  intros Hz Hk. assert (0 < 256 ^ (Z.of_nat k - 1)) by (apply Z.pow_pos_nonneg; lia).
  unfold big_Bytes. rewrite decide_False by lia. f_equal.
  change 256 with (2 ^ 8) in Hz. rewrite <- !Z.pow_mul_r in Hz by lia.
  pose proof (Z.log2_le_mono _ _ (proj1 Hz)) as Hl. rewrite Z.log2_pow2 in Hl by lia.
  assert (Z.log2 z < 8 * Z.of_nat k) by (apply Z.log2_lt_pow2; lia).
  assert (Z.log2 z / 8 = Z.of_nat k - 1); [|lia].
  symmetry. apply (Z.div_unique _ 8 _ (Z.log2 z - 8 * (Z.of_nat k - 1))); lia.
Qed.

Lemma pow256 k : 256 ^ Z.of_nat k = 2 ^ (8 * Z.of_nat k).
Proof. change 256 with (2 ^ 8). by rewrite <- Z.pow_mul_r by lia. Qed.

(** The first byte of a large number is not zero, so it is not a mapped address. *)
Lemma first_not_zero ip : wf_bytes ip → length ip = 16%nat → 256 ^ 15 ≤ be_val ip → take 1 ip ≠ [0].
Proof.
  intros Hw Hl Hv Ht. destruct ip as [|b ip]; [done|]. injection Ht as ->. inv Hw. rewrite be_val_cons in Hv.
  pose proof (be_val_bound ip ltac:(done)) as Hb. injection Hl as Hl. rewrite Hl in Hb. lia.
Qed.

Lemma To4_large ip : wf_bytes ip → length ip = 16%nat → 256 ^ 15 ≤ be_val ip → To4 ip = None.
Proof.
  intros Hw Hl Hv. unfold To4. rewrite decide_False by lia. rewrite decide_False; [done|]. intros [_ Ht].
  apply (first_not_zero ip); [done..|]. rewrite <- (take_take _ 1 12). by rewrite Ht.
Qed.

Lemma To4_pool_bytes n k r ip :
  good_pool n k r → wf_bytes ip → length ip = k → 256 ^ (Z.of_nat k - 1) ≤ be_val ip → default ip (To4 ip) = ip.
Proof.
  intros Hg Hw Hl Hv. destruct (gp_k _ _ _ Hg) as [->| ->].
  - unfold To4. by rewrite decide_True.
  - by rewrite To4_large.
Qed.

Lemma pool_network n k r : good_pool n k r → networkNumberAndMask n = Some (net_IP n, net_Mask n).
Proof.
  intros Hg. pose proof (gp_length _ _ _ Hg) as Hl. unfold networkNumberAndMask.
  assert (length (net_Mask n) = k) as Hm by (by rewrite (gp_mask _ _ _ Hg), mask_bytes_length).
  destruct (gp_k _ _ _ Hg) as [->| ->].
  - unfold To4. rewrite decide_True by done. by rewrite !decide_True.
  - rewrite To4_large; [|apply Hg|done|apply Hg]. rewrite decide_True by done. rewrite Hm, Hl. done.
Qed.

(** [Contains] compares the leading bits. *)
Lemma pool_contains_bytes n k r ip :
  good_pool n k r → wf_bytes ip → length ip = k → 256 ^ (Z.of_nat k - 1) ≤ be_val ip →
  IPNet_Contains n ip = bool_decide (be_val (net_IP n) ≤ be_val ip < be_val (net_IP n) + 2 ^ r).
Proof.
  intros Hg Hw Hl Hv. unfold IPNet_Contains. rewrite (pool_network n k r Hg). cbn [default from_option id].
  rewrite (To4_pool_bytes n k r ip) by done. destruct Hg.
  apply bool_decide_ext. rewrite Hl, gp_length0, gp_mask0, mask_agree by (done || lia).
  replace (8 * Z.of_nat k - (8 * Z.of_nat k - r)) with r by lia.
  assert (0 < 2 ^ r) by (apply Z.pow_pos_nonneg; lia).
  pose proof (Z.div_mod (be_val (net_IP n)) (2 ^ r) ltac:(lia)).
  pose proof (Z.div_mod (be_val ip) (2 ^ r) ltac:(lia)).
  pose proof (Z.mod_pos_bound (be_val ip) (2 ^ r) ltac:(lia)).
  split.
  - intros [_ E]. rewrite E in *. lia.
  - intros Hr. split; [done|]. nia.
Qed.

Lemma pool_top n k r : good_pool n k r → be_val (net_IP n) + 2 ^ r ≤ 256 ^ Z.of_nat k.
Proof.
  intros []. pose proof (be_val_bound _ gp_wf0) as Hb. rewrite gp_length0, pow256 in Hb. rewrite pow256.
  assert (0 < 2 ^ r) by (apply Z.pow_pos_nonneg; lia).
  pose proof (Z.div_mod (be_val (net_IP n)) (2 ^ r) ltac:(lia)) as H0.
  assert (2 ^ (8 * Z.of_nat k) = 2 ^ (8 * Z.of_nat k - r) * 2 ^ r) as E by (rewrite <- Z.pow_add_r by lia; f_equal; lia).
  rewrite gp_aligned0, Z.add_0_r in H0. rewrite E in Hb |- *.
  assert (be_val (net_IP n) / 2 ^ r < 2 ^ (8 * Z.of_nat k - r)) by (apply Z.div_lt_upper_bound; lia). nia.
Qed.

Definition in_pool (n : IPNet) (r z : Z) : Prop := be_val (net_IP n) ≤ z < be_val (net_IP n) + 2 ^ r.

Lemma in_pool_range n k r z : good_pool n k r → in_pool n r z → 256 ^ (Z.of_nat k - 1) ≤ z < 256 ^ Z.of_nat k.
Proof. intros Hg Hz. pose proof (pool_top _ _ _ Hg). destruct Hg. unfold in_pool in Hz. lia. Qed.

Lemma pool_k n k r : good_pool n k r → (0 < k)%nat.
Proof. intros []. lia. Qed.

Lemma pool_bytes n k r z : good_pool n k r → in_pool n r z → big_Bytes z = be_bytes k z.
Proof. intros Hg Hz. apply big_Bytes_be; [by eapply in_pool_range|by eapply pool_k]. Qed.

Lemma pool_contains n k r z :
  good_pool n k r → in_pool n r z → IPNet_Contains n (be_bytes k z) = true.
Proof.
  intros Hg Hz. pose proof (in_pool_range _ _ _ _ Hg Hz) as Hr. pose proof (pool_k _ _ _ Hg).
  assert (be_val (be_bytes k z) = z) as Hv.
  { apply be_val_be_bytes. assert (0 < 256 ^ (Z.of_nat k - 1)) by (apply Z.pow_pos_nonneg; lia). lia. }
  rewrite (pool_contains_bytes n k r) by (done || apply be_bytes_wf || apply be_bytes_length || lia).
  rewrite Hv. by apply bool_decide_eq_true.
Qed.

(** The next candidate of the loop: one more, or the start of the pool after its end. *)
Lemma pool_next n k r z :
  good_pool n k r → in_pool n r z →
  IPNet_Contains n (big_Bytes (z + 1)) = bool_decide (z + 1 < be_val (net_IP n) + 2 ^ r).
Proof.
  intros Hg Hz. pose proof (in_pool_range _ _ _ _ Hg Hz) as Hr. pose proof (pool_top _ _ _ Hg) as Ht.
  destruct (decide (z + 1 < 256 ^ Z.of_nat k)) as [Hlt|Hge].
  - pose proof (pool_k _ _ _ Hg). rewrite (big_Bytes_be k) by lia.
    assert (0 < 256 ^ (Z.of_nat k - 1)) by (apply Z.pow_pos_nonneg; lia).
    assert (be_val (be_bytes k (z + 1)) = z + 1) as Hv by (apply be_val_be_bytes; lia).
    rewrite (pool_contains_bytes n k r) by (done || apply be_bytes_wf || apply be_bytes_length || lia).
    rewrite Hv. apply bool_decide_ext. unfold in_pool in Hz. lia.
  - assert (z + 1 = 256 ^ Z.of_nat k) as -> by lia. rewrite bool_decide_false by lia.
    rewrite (big_Bytes_be (S k));
      [|split; [apply Z.eq_le_incl; f_equal; lia|apply Z.pow_lt_mono_r; lia]|apply Nat.lt_0_succ].
    unfold IPNet_Contains. rewrite (pool_network n k r Hg). cbn [default from_option id].
    apply bool_decide_false. intros [E _]. rewrite (gp_length _ _ _ Hg) in E. revert E.
    assert (To4 (be_bytes (S k) (256 ^ Z.of_nat k)) = None) as ->.
    { unfold To4. destruct (gp_k _ _ _ Hg) as [->| ->];
        rewrite !decide_False by (rewrite be_bytes_length; (lia || by intros [? _])); done. }
    cbn [default from_option id]. rewrite be_bytes_length. lia.
Qed.

(** ** The addresses of a pool *)

Lemma pool_address n k r z :
  good_pool n k r → in_pool n r z →
  ∃ a, IPAddress (be_bytes k z) = Some a ∧ Address_IP a = Some (be_bytes k z) ∧
       IsDomain (Family a) = false ∧ IsIP (Family a) = true.
Proof.
  intros Hg Hz. pose proof (in_pool_range _ _ _ _ Hg Hz) as Hr. unfold IPAddress. rewrite be_bytes_length.
  destruct (gp_k _ _ _ Hg) as [->| ->].
  - rewrite decide_True by done. by eexists.
  - rewrite decide_False, decide_True by done. rewrite decide_False; [by eexists|].
    intros (Ht & _ & _). assert (be_val (be_bytes 16 z) = z) as Hv by (apply be_val_be_bytes; lia).
    pose proof (be_bytes_wf 16 z) as Hw. pose proof (be_bytes_length 16 z) as Hl.
    apply (first_not_zero (be_bytes 16 z)); [done|done|lia|]. rewrite <- (take_take _ 1 10). by rewrite Ht.
Qed.

Lemma pool_address_inj n k r z z' :
  good_pool n k r → in_pool n r z → in_pool n r z' → IPAddress (be_bytes k z) = IPAddress (be_bytes k z') → z = z'.
Proof.
  intros Hg Hz Hz' E.
  destruct (pool_address n k r z Hg Hz) as (a & Ea & Hip & _).
  destruct (pool_address n k r z' Hg Hz') as (a' & Ea' & Hip' & _).
  rewrite Ea, Ea' in E. injection E as ->. rewrite Hip in Hip'. injection Hip' as E.
  pose proof (in_pool_range _ _ _ _ Hg Hz). pose proof (in_pool_range _ _ _ _ Hg Hz').
  assert (0 < 256 ^ (Z.of_nat k - 1)) by (apply Z.pow_pos_nonneg; destruct (gp_k _ _ _ Hg) as [->| ->]; lia).
  rewrite <- (be_val_be_bytes k z), <- (be_val_be_bytes k z') by lia. by rewrite E.
Qed.

Lemma mod_near a P i j : 0 ≤ i < P → 0 ≤ j < P → (a + i) mod P = (a + j) mod P → i = j.
Proof.
  intros Hi Hj E. pose proof (Z.div_mod (a + i) P ltac:(lia)) as Ei. pose proof (Z.div_mod (a + j) P ltac:(lia)) as Ej.
  rewrite E in Ei. revert Ei Ej. generalize ((a + i) / P), ((a + j) / P), ((a + j) mod P). clear E. intros p q m Ei Ej.
  assert (p = q) as -> by nia. lia.
Qed.

(** *** The network of a CIDR text *)

Lemma masked_zero l k : length l = k → and_bytes l (mask_bytes k 0) = replicate k 0.
Proof.
  intros Hl. rewrite mask_bytes_zero. revert l Hl. induction k as [|k IH]; intros [|b l] Hl; try done.
  cbn. rewrite Z.land_0_r. f_equal. apply IH. by injection Hl.
Qed.

Lemma be_val_zeros k : be_val (replicate k 0) = 0.
Proof. induction k as [|k IH]; [done|]. cbn [replicate]. rewrite be_val_cons, IH. lia. Qed.

Lemma masked_spec k l ones :
  wf_bytes l → length l = k → 0 ≤ ones ≤ 8 * Z.of_nat k →
  wf_bytes (and_bytes l (mask_bytes k ones)) ∧ length (and_bytes l (mask_bytes k ones)) = k ∧
  (2 ^ (8 * Z.of_nat k - ones) | be_val (and_bytes l (mask_bytes k ones))).
Proof.
  revert l ones. induction k as [|k IH]; intros l ones Hl Hk Ho.
  { destruct l; [|done]. cbn. split_and!; [constructor|done|apply Z.divide_0_r]. }
  destruct Hl as [|b l Hb Hl]; [done|]. injection Hk as Hk. cbn [mask_bytes]. unfold is_byte in Hb.
  case_decide as Hc; cbn [and_bytes zip_with].
  - fold (and_bytes l (mask_bytes k (ones - 8))). rewrite land_0xff by done.
    destruct (IH l (ones - 8) Hl Hk ltac:(lia)) as (Hw & Hlen & Hd).
    split_and!; [by constructor|cbn; by rewrite Hlen|].
    replace (8 * Z.of_nat (S k) - ones) with (8 * Z.of_nat k - (ones - 8)) by lia.
    rewrite be_val_cons, Hlen, pow256. apply Z.divide_add_r; [|done]. apply Z.divide_mul_r.
    exists (2 ^ (ones - 8)). rewrite <- Z.pow_add_r by lia. f_equal. lia.
  - fold (and_bytes l (mask_bytes k 0)). rewrite partial_mask by (unfold is_byte; lia). rewrite masked_zero by done.
    assert (0 < 2 ^ (8 - ones)) by (apply Z.pow_pos_nonneg; lia).
    pose proof (Z.mul_div_le b (2 ^ (8 - ones)) ltac:(lia)). pose proof (Z.div_pos b (2 ^ (8 - ones)) ltac:(lia) ltac:(lia)).
    split_and!.
    + constructor; [unfold is_byte; nia|]. by apply Forall_replicate.
    + cbn. by rewrite length_replicate.
    + rewrite be_val_cons, be_val_zeros, length_replicate, pow256, Z.add_0_r.
      exists (b / 2 ^ (8 - ones)). rewrite <- Z.mul_assoc, <- Z.pow_add_r by lia. f_equal. f_equal. lia.
Qed.

Lemma dtoi_all_nonneg s n v : 0 ≤ n → dtoi_all s n = Some v → 0 ≤ v.
Proof.
  revert n. induction s as [|c s IH]; intros n Hn; cbn [dtoi_all]; [intros [= <-]; lia|].
  destruct (is_digit c) eqn:Ec; [|done]. apply bool_decide_eq_true in Ec. cbv zeta. case_decide; [done|]. apply IH. lia.
Qed.

Lemma ParseAddr_sound s ip : ParseAddr s = Some ip → wf_bytes ip ∧ (length ip = 4%nat ∨ length ip = 16%nat).
Proof.
  unfold ParseAddr. destruct (parse_family s) as [[]|]; [| |done].
  - intros E. apply parseIPv4Fields_sound in E as (_ & Hw & Hl); [auto|constructor|done|cbn; lia].
  - case_decide; [done|]. intros E. apply parseIPv6_sound in E as (_ & Hw & Hl). auto.
Qed.

Lemma IP_Mask_same ip mask : length ip = length mask → IP_Mask ip mask = Some (and_bytes ip mask).
Proof.
  intros Hl. unfold IP_Mask.
  assert ((if decide (length mask = 16 ∧ length ip = 4 ∧ take 12 mask = all_ff)%nat then drop 12 mask else mask) = mask) as ->
    by (rewrite decide_False by lia; done).
  assert ((if decide (length mask = 4 ∧ length ip = 16 ∧ take 12 ip = v4in6Prefix)%nat then drop 12 ip else ip) = ip) as ->
    by (rewrite decide_False by lia; done).
  by rewrite decide_True.
Qed.

Lemma IP_Mask_mapped ip mask :
  length ip = 4%nat → length mask = 4%nat → IP_Mask (v4in6Prefix ++ ip) mask = Some (and_bytes ip mask).
Proof.
  intros Hl Hm. unfold IP_Mask.
  assert ((if decide (length mask = 16 ∧ length (v4in6Prefix ++ ip) = 4 ∧ take 12 mask = all_ff)%nat
           then drop 12 mask else mask) = mask) as -> by (rewrite decide_False by lia; done).
  assert ((if decide (length mask = 4 ∧ length (v4in6Prefix ++ ip) = 16 ∧ take 12 (v4in6Prefix ++ ip) = v4in6Prefix)%nat
           then drop 12 (v4in6Prefix ++ ip) else v4in6Prefix ++ ip) = ip) as ->.
  { rewrite decide_True; [by apply drop_app_length'|]. split_and!; [done|by rewrite length_app, Hl|reflexivity]. }
  rewrite decide_True; congruence.
Qed.

(** A network read from a text is a pool unless its first byte is zero. *)
Lemma ParseCIDR_good s n :
  ParseCIDR s = Some n → head (net_IP n) ≠ Some 0 → ∃ k r, good_pool n k r.
Proof.
  unfold ParseCIDR. destruct (Index s [47]) as [i|]; [|done]. cbv zeta.
  destruct (ParseAddr (take i s)) as [ip|] eqn:Ea; [|done]. apply ParseAddr_sound in Ea as [Hw Hl].
  destruct (drop (S i) s) as [|c m]; [done|]. destruct (dtoi_all (c :: m) 0) as [ones|] eqn:Ed; [|done].
  apply dtoi_all_nonneg in Ed; [|lia]. case_decide as Ho; [done|].
  assert (∃ ip16, To16 ip = Some ip16 ∧
    IP_Mask ip16 (CIDRMask ones (Z.of_nat (length ip) * 8)) = Some (and_bytes ip (mask_bytes (length ip) ones)))
    as (ip16 & -> & ->).
  { unfold To16, CIDRMask. rewrite Z.div_mul, Nat2Z.id by lia. destruct Hl as [Hl|Hl].
    - rewrite decide_True by done. eexists. split; [done|]. apply IP_Mask_mapped; [done|].
      by rewrite mask_bytes_length.
    - rewrite decide_False, decide_True by lia. eexists. split; [done|]. apply IP_Mask_same.
      by rewrite mask_bytes_length. }
  intros [= <-]. cbn [net_IP net_Mask]. intros Hh.
  destruct (masked_spec (length ip) ip ones Hw eq_refl ltac:(lia)) as (Hw' & Hl' & Hd).
  exists (length ip), (8 * Z.of_nat (length ip) - ones). split; cbn [net_IP net_Mask]; [done|lia|done|done| | |].
  - destruct (and_bytes _ _) as [|b l]; [cbn in Hl'; lia|]. inv Hw'. rewrite be_val_cons.
    pose proof (be_val_bound l ltac:(done)). cbn in Hh, Hl'. unfold is_byte in *.
    assert (b ≠ 0) by congruence. replace (Z.of_nat (length ip) - 1) with (Z.of_nat (length l)) by lia. nia.
  - unfold CIDRMask. rewrite Z.div_mul, Nat2Z.id by lia. f_equal. lia.
  - apply Z.mod_divide; [|done]. apply Z.pow_nonzero; lia.
Qed.

(** *** The search for a free address *)

Section search.
Context (s : pool_state) (k : nat) (r : Z) (Hg : good_pool (ipRange s) k r).
Let base := be_val (net_IP (ipRange s)).

(** The [i]-th candidate after [z]. *)
Definition candidate (z i : Z) : Z := base + (z - base + i) mod 2 ^ r.

Lemma pool_size_pos : 0 < 2 ^ r.
Proof. apply Z.pow_pos_nonneg; [lia|apply Hg]. Qed.

Lemma candidate_in_pool z i : in_pool (ipRange s) r (candidate z i).
Proof. pose proof pool_size_pos. pose proof (Z.mod_pos_bound (z - base + i) (2 ^ r)). unfold in_pool, candidate, base in *. lia. Qed.

Lemma candidate_0 z : in_pool (ipRange s) r z → candidate z 0 = z.
Proof. intros Hz. unfold candidate, in_pool, base in *. rewrite Z.mod_small by lia. lia. Qed.

(** What the loop tries after [z]. *)
Definition after (z : Z) : Z :=
  if IPNet_Contains (ipRange s) (big_Bytes (z + 1)) then z + 1 else base.

Lemma after_candidate z i : in_pool (ipRange s) r z → candidate (after z) i = candidate z (i + 1).
Proof.
  intros Hz. unfold after. rewrite (pool_next (ipRange s) k r z Hg Hz). fold base. unfold in_pool in Hz. fold base in Hz.
  case_bool_decide as Hc; unfold candidate; f_equal; [f_equal; lia|].
  replace (z - base + (i + 1)) with (base - base + i + 1 * 2 ^ r) by lia.
  by rewrite Z.mod_add by (pose proof pool_size_pos; lia).
Qed.

Lemma after_in_pool z : in_pool (ipRange s) r z → in_pool (ipRange s) r (after z).
Proof.
  intros Hz. unfold after. rewrite (pool_next (ipRange s) k r z Hg Hz). pose proof pool_size_pos.
  unfold in_pool in *. case_bool_decide; unfold base; lia.
Qed.

Lemma free_ip_step fuel z :
  in_pool (ipRange s) r z →
  free_ip (S fuel) s z = match PeekKeyFromValue (IPAddress (be_bytes k z)) (domainToIP s) with
                         | None => Some (IPAddress (be_bytes k z))
                         | Some _ => free_ip fuel s (after z)
                         end.
Proof. intros Hz. cbn [free_ip]. by rewrite (pool_bytes (ipRange s) k r z Hg Hz). Qed.

(** What is found is in the pool and free. *)
Lemma free_ip_free fuel z ip :
  in_pool (ipRange s) r z → free_ip fuel s z = Some ip →
  PeekKeyFromValue ip (domainToIP s) = None ∧ ∃ z', in_pool (ipRange s) r z' ∧ ip = IPAddress (be_bytes k z').
Proof.
  revert z. induction fuel as [|fuel IH]; intros z Hz; [done|]. rewrite free_ip_step by done.
  destruct (PeekKeyFromValue (IPAddress _) _) as [d|] eqn:E; [apply IH; by apply after_in_pool|].
  intros [= <-]. eauto.
Qed.

(** When nothing is found, every candidate is in use. *)
Lemma free_ip_None fuel z :
  in_pool (ipRange s) r z → free_ip fuel s z = None →
  ∀ i, (i < fuel)%nat → is_Some (PeekKeyFromValue (IPAddress (be_bytes k (candidate z (Z.of_nat i)))) (domainToIP s)).
Proof.
  revert z. induction fuel as [|fuel IH]; intros z Hz Hf i Hi; [lia|]. rewrite free_ip_step in Hf by done.
  destruct (PeekKeyFromValue _ _) as [d|] eqn:E; [|done]. destruct i as [|i].
  - rewrite candidate_0 by done. rewrite E. by eexists.
  - replace (Z.of_nat (S i)) with (Z.of_nat i + 1) by lia. rewrite <- after_candidate by done.
    apply IH; [by apply after_in_pool|done|lia].
Qed.

(** With fewer entries than addresses the search ends. *)
Lemma free_ip_finds es z :
  represents (domainToIP s) es → Z.of_nat (length es) < 2 ^ r → in_pool (ipRange s) r z →
  is_Some (free_ip (S (length es)) s z).
Proof.
  intros Hr Hl Hz. destruct (free_ip _ s z) eqn:E; [by eexists|]. exfalso.
  pose proof (free_ip_None _ z Hz E) as Hu.
  assert (∀ x, x ∈ (λ i, IPAddress (be_bytes k (candidate z (Z.of_nat i)))) <$> seq 0 (S (length es)) → x ∈ es.*2) as Hin.
  { intros x (i & -> & Hi%elem_of_seq)%list_elem_of_fmap. destruct (Hu i ltac:(lia)) as [d Hd].
    rewrite <- GetKey_Peek in Hd. destruct (GetKey_Some _ _ _ _ Hr Hd) as (pre & post & -> & _).
    rewrite fmap_app. apply elem_of_app. right. apply list_elem_of_here. }
  apply NoDup_submseteq in Hin.
  - apply submseteq_length in Hin. rewrite !length_fmap, length_seq in Hin. lia.
  - apply NoDup_fmap_2_strong; [|apply NoDup_seq]. intros i j Hi%elem_of_seq Hj%elem_of_seq Eij.
    eapply pool_address_inj in Eij; [|exact Hg|apply candidate_in_pool..].
    unfold candidate in Eij. apply Z.add_reg_l in Eij.
    apply Nat2Z.inj, (mod_near (z - base) (2 ^ r)); [lia..|exact Eij].
Qed.
End search.

(** ** The holder *)

Section holder.
Context `{FL : FloatLog2}.

(** A running holder over the pool [n], whose cache has room for [cap] entries, the
    entries by their last use being [es]. *)
Record serving (n : IPNet) (k : nat) (r cap : Z) (es : list (bytes * option Address)) (h : Holder) : Prop := {
  sv_pool : good_pool n k r;
  sv_cap : 0 < cap < 2 ^ r;
  sv_state : ∃ s, running h = Some s ∧ ipRange s = n ∧ capacity (domainToIP s) = cap ∧ represents (domainToIP s) es;
  sv_values : ∀ d v, (d, v) ∈ es → ∃ z, in_pool n r z ∧ v = IPAddress (be_bytes k z) }.

(** What one use of a name does to the entries. *)
Inductive uses (cap : Z) (d : bytes) (v : option Address) :
    list (bytes * option Address) → list (bytes * option Address) → Prop :=
  | uses_again pre post : uses cap d v (pre ++ (d, v) :: post) ((d, v) :: pre ++ post)
  | uses_new es : d ∉ es.*1 → v ∉ es.*2 → uses cap d v es (take (Z.to_nat cap) ((d, v) :: es)).

Lemma uses_head cap d v es es' : 0 < cap → uses cap d v es es' → (d, v) ∈ es'.
Proof.
  intros Hc [pre post|]; [apply list_elem_of_here|].
  destruct (Z.to_nat cap) eqn:E; [lia|]. apply list_elem_of_here.
Qed.

Lemma uses_incl cap d v es es' x : uses cap d v es es' → x ∈ es' → x = (d, v) ∨ x ∈ es.
Proof.
  intros [pre post|es0 _ _]; [set_solver|]. intros Hx%elem_of_take. destruct Hx as (i & Hi & _).
  apply list_elem_of_lookup_2 in Hi. set_solver.
Qed.

Lemma serving_uses n k r cap es es' h s l d z :
  serving n k r cap es h → in_pool n r z → ipRange s = n → capacity l = cap → represents l es' →
  uses cap d (IPAddress (be_bytes k z)) es es' → serving n k r cap es' (with_cache h s l).
Proof.
  intros [] Hz Hn Hc Hr Hu. split; [done..| |].
  - eexists. split; [done|]. split; [done|]. by split.
  - intros d' v Hin. destruct (uses_incl _ _ _ _ _ _ Hu Hin) as [[= -> ->]|Hin']; [eauto|by eapply sv_values0].
Qed.

(** Asking for a name. *)
Lemma ask_serving n k r cap es h now d :
  serving n k r cap es h →
  ∃ z a h' es',
    in_pool n r z ∧ IPAddress (be_bytes k z) = Some a ∧
    GetFakeIPForDomain now d h = Ret ([Some a], h') ∧
    uses cap d (Some a) es es' ∧ serving n k r cap es' h' ∧ ∀ v, (d, v) ∈ es → v = Some a.
Proof.
  intros Hs. pose proof Hs as [Hg Hc (s & Er & En & Ec & Hr) Hv]. unfold GetFakeIPForDomain. rewrite Er.
  pose proof (Get_capacity d (domainToIP s)) as Ecl. pose proof (Get_In (domainToIP s) es d) as Hin.
  destruct (Get d (domainToIP s)) as [l [v|]] eqn:EG; cbn in Ecl, Hin.
  - pose proof (Get_Some (domainToIP s) es d v Hr) as HS. rewrite EG in HS.
    destruct (HS eq_refl) as (pre & post & -> & Hr').
    destruct (Hv d v) as (z & Hz & ->); [apply elem_of_app; right; apply list_elem_of_here|].
    destruct (pool_address n k r z Hg Hz) as (a & Ea & _). rewrite Ea in *.
    exists z, a, (with_cache h s l), ((d, Some a) :: pre ++ post). split_and!; try done.
    + constructor.
    + eapply (serving_uses n k r cap); [done|exact Hz|done|congruence|done|]. rewrite Ea. constructor.
    + intros v Hvin. specialize (Hin v Hr Hvin). congruence.
  - pose proof (Get_None (domainToIP s) es d Hr) as HN. rewrite EG in HN.
    destruct (HN eq_refl) as [Hd Hr']. cbn in Hr'.
    rewrite En, (good_pool_size n k r Hg). cbv zeta beta iota.
    set (t := if decide _ then _ else _).
    assert (0 ≤ t < 2 ^ r) as Ht.
    { pose proof (pool_size_pos {| domainToIP := l; ipRange := n |} k r Hg) as Hp. subst t.
      replace (8 * Z.of_nat k - (8 * Z.of_nat k - r)) with r by lia.
      pose proof (wrap_bound 64 now ltac:(lia)) as Hb. unfold is_uint in Hb.
      case_decide; [apply Z.mod_pos_bound; lia|].
      split; [lia|]. eapply Z.lt_le_trans; [apply Hb|]. apply Z.pow_le_mono_r; lia. }
    assert (in_pool (ipRange s) r (be_val (net_IP n) + t)) as Hz by (rewrite En; unfold in_pool; lia).
    rewrite (represents_size _ _ Hr'). subst n.
    assert (Z.of_nat (length es) < 2 ^ r) as Hlt.
    { destruct Hr as [_ Hlen]. rewrite Ec in Hlen. lia. }
    destruct (free_ip_finds s k r Hg es _ Hr Hlt Hz) as [ip Hip]. rewrite Hip.
    destruct (free_ip_free s k r Hg _ _ _ Hz Hip) as (Hfree & z & Hz' & ->).
    destruct (pool_address _ k r z Hg Hz') as (a & Ea & _). rewrite Ea in *.
    rewrite <- GetKey_Peek in Hfree. destruct (GetKey_None _ _ _ Hr Hfree) as [Hval _].
    exists z, a, (with_cache h s (Put d (Some a) l)), (take (Z.to_nat cap) ((d, Some a) :: es)). split_and!; try done.
    + by constructor.
    + eapply (serving_uses (ipRange s) k r cap); [done|exact Hz'|done|rewrite Put_capacity; congruence| |].
      * pose proof (Put_represents l es d (Some a) Hr' Hd Hval) as HP. unfold recent_Put in HP.
        by rewrite Ecl, Ec in HP.
      * rewrite Ea. by constructor.
    + intros v Hvin. destruct Hd. apply list_elem_of_fmap. by exists (d, v).
Qed.

(** The reverse question: a hit uses the name, a miss changes nothing. *)
Lemma reverse_serving n k r cap es h a :
  serving n k r cap es h →
  ∃ name h' es',
    GetDomainFromFakeDNS a h = Ret (name, h') ∧ serving n k r cap es' h' ∧
    (es' = es ∧ name = [] ∧ (∀ d, (d, Some a) ∉ es) ∨ uses cap name (Some a) es es' ∧ (name, Some a) ∈ es).
Proof.
  intros Hs. pose proof Hs as [Hg Hc (s & Er & En & Ec & Hr) Hv]. unfold GetDomainFromFakeDNS.
  assert (∀ d, (d, Some a) ∈ es → ∃ z, in_pool n r z ∧ IPAddress (be_bytes k z) = Some a) as Hin.
  { intros d Hd. destruct (Hv _ _ Hd) as (z & Hz & E). by exists z. }
  destruct (IsIP (Family a)) eqn:EF; cbn [negb].
  2: { exists [], h, es. split_and!; [done..|]. left. split_and!; [done..|]. intros d Hd.
       destruct (Hin d Hd) as (z & Hz & E). destruct (pool_address n k r z Hg Hz) as (a' & E' & _ & _ & EI). congruence. }
  unfold IsIPInIPPool. assert (IsDomain (Family a) = false) as -> by (by destruct a).
  destruct (Address_IP a) as [b|] eqn:EA; [|by destruct a]. rewrite Er. cbn [ret_or_panic outcome_bind].
  destruct (IPNet_Contains (ipRange s) b) eqn:EC; cbn [negb].
  2: { exists [], h, es. split_and!; [done..|]. left. split_and!; [done..|]. intros d Hd.
       destruct (Hin d Hd) as (z & Hz & E). destruct (pool_address n k r z Hg Hz) as (a' & E' & EI & _). rewrite E in E'.
       injection E' as <-. rewrite EI in EA. injection EA as <-. rewrite En, (pool_contains n k r) in EC; done. }
  pose proof (GetKey_capacity (Some a) (domainToIP s)) as Ecl.
  pose proof (GetKey_In (domainToIP s) es) as HI.
  destruct (GetKeyFromValue (Some a) (domainToIP s)) as [l [d|]] eqn:EG; cbn in Ecl.
  - pose proof (GetKey_Some (domainToIP s) es (Some a) d Hr) as HS. rewrite EG in HS.
    destruct (HS eq_refl) as (pre & post & -> & Hr').
    destruct (Hin d) as (z & Hz & E); [apply elem_of_app; right; apply list_elem_of_here|].
    exists d, (with_cache h s l), ((d, Some a) :: pre ++ post). split_and!; [done| |].
    + eapply (serving_uses n k r cap); [done|exact Hz|done|congruence|done|]. rewrite E. constructor.
    + right. split; [constructor|]. apply elem_of_app. right. apply list_elem_of_here.
  - pose proof (GetKey_None (domainToIP s) es (Some a) Hr) as HN. rewrite EG in HN.
    destruct (HN eq_refl) as [Hd Hr'].
    exists [], (with_cache h s l), es. split_and!; [done| |].
    + split; [done..| |done]. eexists. split; [done|]. split; [done|]. by rewrite <- Ec.
    + left. split_and!; [done..|]. intros d Hd'. apply Hd, list_elem_of_fmap. by exists (d, Some a).
Qed.

(** *** An address in use is given to no other name *)

Lemma ask_other n k r cap es h now d d' a :
  serving n k r cap es h → (d', Some a) ∈ es → d ≠ d' →
  ∀ b h', GetFakeIPForDomain now d h = Ret ([Some b], h') → b ≠ a.
Proof.
  intros Hs Hin Hne b h' E ->.
  destruct (ask_serving n k r cap es h now d Hs) as (z & c & h2 & es2 & _ & _ & E2 & Hu & _ & _).
  rewrite E in E2. injection E2 as <- <-. pose proof Hs as [_ _ (s & _ & _ & _ & Hr) _].
  destruct (represents_NoDup _ _ Hr) as [_ Hd]. inversion Hu as [pre post E1 E3|es0 Hk Hv E1]; subst.
  - apply Hne. apply list_elem_of_lookup in Hin as [i Hi].
    assert (i = length pre) as ->.
    { apply (NoDup_lookup _ _ _ (Some a) Hd); rewrite list_lookup_fmap; [by rewrite Hi|by rewrite list_lookup_middle]. }
    rewrite list_lookup_middle in Hi by done. by injection Hi.
  - apply Hv, list_elem_of_fmap. by exists (d', Some a).
Qed.

(** *** What was used lately stays *)

(** Every entry before the one of [d] is of a name of [N]. *)
Definition kept (d : bytes) (v : option Address) (N : gset bytes) (es : list (bytes * option Address)) : Prop :=
  ∃ pre post, es = pre ++ (d, v) :: post ∧ list_to_set pre.*1 ⊆ N ∖ {[d]}.

Lemma kept_mono d v N M es : N ⊆ M → kept d v N es → kept d v M es.
Proof. intros Hs (pre & post & -> & Hp). exists pre, post. split; [done|]. set_solver. Qed.

Lemma kept_head d v N pre : kept d v N ((d, v) :: pre).
Proof. exists [], pre. split; [done|]. set_solver. Qed.

Lemma NoDup_split_eq (pre pre' post post' : list (bytes * option Address)) d v v' :
  NoDup (pre ++ (d, v) :: post).*1 → pre ++ (d, v) :: post = pre' ++ (d, v') :: post' → pre = pre' ∧ v = v' ∧ post = post'.
Proof.
  intros Hd E. assert (length pre = length pre') as Hl.
  { apply (NoDup_lookup _ _ _ d Hd); rewrite list_lookup_fmap; [|rewrite E]; by rewrite list_lookup_middle. }
  apply app_inj_1 in E as [-> E]; [|done]. by injection E as -> ->.
Qed.

Lemma uses_kept cap x w d v N es es' :
  0 < cap → NoDup es.*1 → uses cap x w es es' → kept d v N es →
  Z.of_nat (size (({[x]} ∪ N) ∖ {[d]} : gset bytes)) < cap → kept d v ({[x]} ∪ N) es'.
Proof.
  intros Hc Hd Hu (pre & post & -> & Hp) Hsz. destruct (decide (x = d)) as [->|Hne].
  - inversion Hu as [pre' post' E|es0 Hk _]; subst.
    + destruct (NoDup_split_eq _ _ _ _ _ _ _ Hd (eq_sym E)) as (_ & -> & _). apply kept_head.
    + destruct Hk. rewrite fmap_app. set_solver.
  - inversion Hu as [pre' post' E|es0 Hk _]; subst.
    + assert (((x, w) ∈ pre ∧ ∃ a b, pre = a ++ (x, w) :: b ∧ pre' = a ∧ post' = b ++ (d, v) :: post) ∨
              ∃ a b, pre' = pre ++ (d, v) :: a ∧ post' = b ∧ post = a ++ (x, w) :: b) as [Hx|Hx].
      { apply app_eq_inv in E as [(m & -> & E)|(m & -> & E)].
        - destruct m as [|m0 m]; cbn in E; [injection E as E1 E2; congruence|]. injection E as <- ->. right.
          by exists m, post'.
        - destruct m as [|m0 m]; cbn in E; [injection E as E1 E2; congruence|]. injection E as -> ->. left.
          split; [set_solver|]. exists pre', m. done. }
      * destruct Hx as (_ & a & b & -> & -> & ->). exists ((x, w) :: a ++ b), post. split; [cbn; by rewrite <- app_assoc|].
        rewrite fmap_app in Hp. cbn in *. rewrite fmap_app. set_solver.
      * destruct Hx as (a & b & -> & -> & ->). exists ((x, w) :: pre), (a ++ b). split; [cbn; by rewrite <- app_assoc|].
        cbn. set_solver.
    + assert (length ((x, w) :: pre) < Z.to_nat cap)%nat as Hlen.
      { rewrite fmap_app in Hk, Hd. cbn in Hk, Hd. apply NoDup_app in Hd as (Hd & _).
        assert (NoDup (x :: pre.*1)) as Hd' by (constructor; [set_solver|done]).
        pose proof (size_list_to_set (C:=gset bytes) _ Hd') as Hsl. cbn [length] in *. rewrite length_fmap in Hsl.
        assert (list_to_set (x :: pre.*1) ⊆ (({[x]} ∪ N) ∖ {[d]} : gset bytes)) as Hsub by set_solver.
        apply subseteq_size in Hsub. lia. }
      exists ((x, w) :: pre), (take (Z.to_nat cap - S (length ((x, w) :: pre))) post). split.
      * change ((x, w) :: pre ++ (d, v) :: post) with (((x, w) :: pre) ++ (d, v) :: post).
        rewrite take_app_ge by lia. f_equal.
        replace (Z.to_nat cap - length ((x, w) :: pre))%nat
          with (S (Z.to_nat cap - S (length ((x, w) :: pre)))) by lia. done.
      * cbn. set_solver.
Qed.

(** *** Sequences of questions *)

Inductive fake_call := Ask (now : Z) (domain : bytes) | Reverse (ip : Address).

(** The names that the calls used. *)
Fixpoint fake_run (cs : list fake_call) (h : Holder) : outcome (list bytes * Holder) :=
  match cs with
  | [] => Ret ([], h)
  | c :: cs =>
    let? (name, h) := match c with
                      | Ask now d => let? (_, h) := GetFakeIPForDomain now d h in Ret (d, h)
                      | Reverse ip => GetDomainFromFakeDNS ip h
                      end in
    let? (names, h) := fake_run cs h in
    Ret (name :: names, h)
  end.

Lemma fake_run_serving n k r cap cs es h :
  serving n k r cap es h → ∃ names h' es', fake_run cs h = Ret (names, h') ∧ serving n k r cap es' h' ∧
    ∀ d v N, kept d v N es → Z.of_nat (size ((list_to_set names ∪ N) ∖ {[d]} : gset bytes)) < cap →
             kept d v (list_to_set names ∪ N) es'.
Proof.
  revert es h. induction cs as [|c cs IH]; intros es h Hs.
  { exists [], h, es. split_and!; [done..|]. intros d v N Hk _. eapply kept_mono, Hk. set_solver. }
  assert (∃ name h1 es1,
    match c with
    | Ask now d => let? (_, h) := GetFakeIPForDomain now d h in Ret (d, h)
    | Reverse ip => GetDomainFromFakeDNS ip h
    end = Ret (name, h1) ∧ serving n k r cap es1 h1 ∧ (es1 = es ∨ ∃ v, uses cap name v es es1))
    as (name & h1 & es1 & E & Hs1 & Hu).
  { destruct c as [now d|ip].
    - destruct (ask_serving n k r cap es h now d Hs) as (z & a & h1 & es1 & _ & _ & -> & Hu & Hs1 & _).
      exists d, h1, es1. eauto.
    - destruct (reverse_serving n k r cap es h ip Hs) as (name & h1 & es1 & -> & Hs1 & Hu).
      exists name, h1, es1. split_and!; [done..|]. destruct Hu as [(-> & _)|(Hu & _)]; eauto. }
  cbn [fake_run]. rewrite E. cbn [outcome_bind].
  destruct (IH es1 h1 Hs1) as (names & h' & es' & -> & Hs' & Hk'). cbn [outcome_bind].
  exists (name :: names), h', es'. split_and!; [done..|]. intros d v N Hk Hsz.
  eapply (kept_mono _ _ (list_to_set names ∪ ({[name]} ∪ N))); [set_solver|]. apply Hk'.
  - destruct Hu as [->|[w Hu]]; [eapply kept_mono, Hk; set_solver|].
    pose proof Hs as [_ Hc (s & _ & _ & _ & Hr) _]. destruct (represents_NoDup _ _ Hr) as [Hd _].
    eapply (uses_kept cap); [lia|exact Hd|exact Hu|exact Hk|]. eapply Z.le_lt_trans; [|exact Hsz].
    apply inj_le, subseteq_size. set_solver.
  - eapply Z.le_lt_trans; [|exact Hsz]. apply inj_le, subseteq_size. set_solver.
Qed.

(** *** From the configuration *)

Lemma Start_serving `{!FloatLog2Laws} conf h0 :
  0 < LruSize conf →
  (∀ n, ParseCIDR (IpPool conf) = Some n → head (net_IP n) ≠ Some 0) →
  Start (NewFakeDNSHolderConfigOnly (Some conf)) = Ret h0 →
  ∃ n k r, ParseCIDR (IpPool conf) = Some n ∧ serving n k r (LruSize conf) [] h0.
Proof.
  intros Hs Hh. unfold Start, NewFakeDNSHolderConfigOnly. cbn [config]. case_decide; [|done].
  unfold initialize. destruct (ParseCIDR (IpPool conf)) as [n|] eqn:Ep; [|done].
  destruct (ParseCIDR_good _ _ Ep (Hh n eq_refl)) as (k & r & Hg). rewrite (good_pool_size n k r Hg).
  replace (8 * Z.of_nat k - (8 * Z.of_nat k - r)) with r by lia.
  destruct (Log2_reaches (LruSize conf) r) eqn:El; [done|]. intros [= <-].
  exists n, k, r. split; [done|]. split; [done| | |].
  - split; [done|]. destruct (decide (2 ^ r ≤ LruSize conf)) as [Hle|]; [|lia].
    rewrite (log2_large (LruSize conf) r) in El; [done|done|apply Hg|done].
  - eexists. split_and!; [done..|]. apply NewLru_represents.
  - intros d v Hin. set_solver.
Qed.

(** C10. After any sequence of questions to a fake DNS that was started, asking for any
    name gives one address, which lies in the pool, belongs to that name when it is
    asked back, and is given to no other name. *)
Theorem fakedns_answers `{!FloatLog2Laws} conf h0 cs :
  0 < LruSize conf →
  (∀ n, ParseCIDR (IpPool conf) = Some n → head (net_IP n) ≠ Some 0) →
  Start (NewFakeDNSHolderConfigOnly (Some conf)) = Ret h0 →
  ∃ names h, fake_run cs h0 = Ret (names, h) ∧
  ∀ now d, ∃ a h',
    GetFakeIPForDomain now d h = Ret ([Some a], h') ∧
    IsIPInIPPool a h' = Ret true ∧
    (∃ h2, GetDomainFromFakeDNS a h' = Ret (d, h2)) ∧
    (∀ now' d' b h2, d' ≠ d → GetFakeIPForDomain now' d' h' = Ret ([Some b], h2) → b ≠ a).
Proof.
  intros Hs Hh E. destruct (Start_serving conf h0 Hs Hh E) as (n & k & r & _ & Hsv).
  destruct (fake_run_serving n k r (LruSize conf) cs [] h0 Hsv) as (names & h & es & Er & Hsv' & _).
  exists names, h. split; [done|]. intros now d.
  destruct (ask_serving n k r _ es h now d Hsv') as (z & a & h' & es' & Hz & Ea & EA & Hu & Hsv2 & _).
  pose proof (uses_head _ _ _ _ _ Hs Hu) as Hin.
  exists a, h'. split_and!; [done| | |].
  - destruct (pool_address n k r z (sv_pool _ _ _ _ _ _ Hsv') Hz) as (a' & Ea' & Hip & Hdom & _).
    rewrite Ea in Ea'. injection Ea' as <-. unfold IsIPInIPPool. rewrite Hdom, Hip.
    destruct (sv_state _ _ _ _ _ _ Hsv2) as (s & -> & En & _). cbn [ret_or_panic]. rewrite En.
    by rewrite (pool_contains n k r z (sv_pool _ _ _ _ _ _ Hsv') Hz).
  - destruct (reverse_serving n k r _ es' h' a Hsv2) as (name & h2 & es2 & -> & _ & [(_ & _ & Hno)|(_ & Hn)]).
    + by destruct (Hno d).
    + exists h2. f_equal. f_equal. destruct (sv_state _ _ _ _ _ _ Hsv2) as (s & _ & _ & _ & Hr).
      pose proof (GetKey_In _ _ _ _ Hr Hin). pose proof (GetKey_In _ _ _ _ Hr Hn). congruence.
  - intros now' d' b h2 Hne Eb. by eapply (ask_other n k r _ es' h' now' d' d a).
Qed.

(** A name keeps its address while fewer other names are used than the cache
    holds, whatever the clock says. *)
Theorem fakedns_keeps `{!FloatLog2Laws} conf h0 cs now d a names1 names2 h1 h2 h3 cs' :
  0 < LruSize conf →
  (∀ n, ParseCIDR (IpPool conf) = Some n → head (net_IP n) ≠ Some 0) →
  Start (NewFakeDNSHolderConfigOnly (Some conf)) = Ret h0 →
  fake_run cs h0 = Ret (names1, h1) →
  GetFakeIPForDomain now d h1 = Ret ([Some a], h2) →
  fake_run cs' h2 = Ret (names2, h3) →
  Z.of_nat (size (list_to_set names2 ∖ {[d]} : gset bytes)) < LruSize conf →
  (∀ now', ∃ h4, GetFakeIPForDomain now' d h3 = Ret ([Some a], h4)) ∧
  ∃ h4, GetDomainFromFakeDNS a h3 = Ret (d, h4).
Proof.
  intros Hs Hh E E1 E2 E3 Hsz. destruct (Start_serving conf h0 Hs Hh E) as (n & k & r & _ & Hsv).
  destruct (fake_run_serving n k r _ cs [] h0 Hsv) as (names & h & es & Er & Hsv1 & _).
  rewrite E1 in Er. injection Er as <- <-.
  destruct (ask_serving n k r _ es h1 now d Hsv1) as (z & a' & h' & es2 & _ & _ & EA & Hu & Hsv2 & _).
  rewrite E2 in EA. injection EA as <- <-.
  destruct (fake_run_serving n k r _ cs' es2 h2 Hsv2) as (names & h & es3 & Er & Hsv3 & Hk).
  rewrite E3 in Er. injection Er as <- <-.
  assert (kept d (Some a) ∅ es2) as Hk2.
  { destruct Hu as [pre post|es0 _ _]; [apply kept_head|].
    destruct (Z.to_nat (LruSize conf)) eqn:Ez; [lia|]. apply kept_head. }
  specialize (Hk d (Some a) ∅ Hk2). rewrite (right_id_L ∅ (∪)) in Hk. destruct (Hk Hsz) as (pre & post & -> & _).
  assert ((d, Some a) ∈ pre ++ (d, Some a) :: post) as Hin.
  { apply elem_of_app. right. apply list_elem_of_here. }
  split.
  - intros now'. destruct (ask_serving n k r _ _ h3 now' d Hsv3) as (z' & b & h4 & es4 & _ & _ & EB & _ & _ & Hb).
    exists h4. specialize (Hb _ Hin). injection Hb as <-. done.
  - destruct (reverse_serving n k r _ _ h3 a Hsv3) as (name & h4 & es4 & -> & _ & [(_ & _ & Hno)|(_ & Hn)]).
    + by destruct (Hno d).
    + exists h4. f_equal. f_equal. destruct (sv_state _ _ _ _ _ _ Hsv3) as (s & _ & _ & _ & Hr).
      pose proof (GetKey_In _ _ _ _ Hr Hin). pose proof (GetKey_In _ _ _ _ Hr Hn). congruence.
Qed.
End holder.

(** ** Concrete instances *)

#[local] Instance exact_log2 : FloatLog2 := λ n r, bool_decide (0 < n ∧ 2 ^ r ≤ n).
#[local] Instance exact_log2_laws : FloatLog2Laws.
Proof. intros n r Hn _ Hp. by apply bool_decide_eq_true. Qed.

Definition small_pool : FakeDnsPool := {| IpPool := lit "198.18.0.0/30"; LruSize := 3 |}.

Definition or_stopped {A} (o : outcome (A * Holder)) : Holder :=
  match o with Ret (_, h) => h | _ => {| running := None; config := None |} end.

Definition small_holder : Holder :=
  match Start (NewFakeDNSHolderConfigOnly (Some small_pool)) with Ret h => h | _ => NewFakeDNSHolderConfigOnly None end.

(** Twelve names in a pool of four addresses with room for three. *)
Definition small_calls : list fake_call :=
  [Ask 2 (lit "a.com"); Ask 2 (lit "b.com"); Ask 3 (lit "c.com"); Ask 7 (lit "d.com"); Ask 2 (lit "b.com")].

Lemma small_pool_head n : ParseCIDR (IpPool small_pool) = Some n → head (net_IP n) ≠ Some 0.
Proof. intros E. vm_compute in E. injection E as <-. done. Qed.

Lemma fakedns_answers_witness :
  ∃ names h, fake_run small_calls small_holder = Ret (names, h) ∧
  ∀ now d, ∃ a h',
    GetFakeIPForDomain now d h = Ret ([Some a], h') ∧
    IsIPInIPPool a h' = Ret true ∧
    (∃ h2, GetDomainFromFakeDNS a h' = Ret (d, h2)) ∧
    (∀ now' d' b h2, d' ≠ d → GetFakeIPForDomain now' d' h' = Ret ([Some b], h2) → b ≠ a).
Proof. apply (fakedns_answers small_pool); [done|apply small_pool_head|vm_compute; reflexivity]. Defined.

Definition small_after_b : Holder := or_stopped (GetFakeIPForDomain 2 (lit "b.com") small_holder).
Definition small_later : Holder := or_stopped (fake_run [Ask 9 (lit "c.com"); Ask 1 (lit "d.com")] small_after_b).

Lemma fakedns_keeps_witness :
  (∀ now', ∃ h4, GetFakeIPForDomain now' (lit "b.com") small_later = Ret ([Some (ipv4Address [198; 18; 0; 2])], h4)) ∧
  ∃ h4, GetDomainFromFakeDNS (ipv4Address [198; 18; 0; 2]) small_later = Ret (lit "b.com", h4).
Proof.
  apply (fakedns_keeps small_pool small_holder [] 2 (lit "b.com") (ipv4Address [198; 18; 0; 2]) []
           [lit "c.com"; lit "d.com"] small_holder small_after_b small_later
           [Ask 9 (lit "c.com"); Ask 1 (lit "d.com")]);
    [done|apply small_pool_head|vm_compute; reflexivity|reflexivity|vm_compute; reflexivity|vm_compute; reflexivity|].
  vm_compute. reflexivity.
Defined.

(** A pool whose first byte is zero hands out a nil address, and the second question
    for the same name panics. *)
Theorem zero_pool_panics :
  match Start (NewFakeDNSHolderConfigOnly (Some {| IpPool := lit "0.0.0.0/8"; LruSize := 10 |})) with
  | Ret h =>
    match GetFakeIPForDomain 5 (lit "a.com") h with
    | Ret (ips, h') => ips = [None] ∧ GetFakeIPForDomain 6 (lit "a.com") h' = Panic
    | _ => False
    end
  | _ => False
  end.
Proof. vm_compute. done. Qed.
