(* ===== verification/DnsHosts.v ===== *)
(** The static hosts of the DNS (src/upstream/xray-core/app/dns/hosts.go,
    config.go): names with fixed addresses, or replaced by other names. *)
From stdpp Require Import gmap.
From S2P Require Import Prelude GoText NetIP Address StrMatcher.

(** [features/dns.IPOption]. *)
Record IPOption := { IPv4Enable : bool; IPv6Enable : bool; FakeEnable : bool }.

(** [Config_HostMapping]; the type is the number of the enumeration. *)
Record HostMapping := { hm_Type : Z; hm_Domain : bytes; hm_Ip : list bytes; hm_ProxiedDomain : bytes }.

(** [typeMap]. *)
Definition typeMap (t : Z) : option Z :=
  if decide (t = 0) then Some Full
  else if decide (t = 1) then Some Domain
  else if decide (t = 2) then Some Substr
  else if decide (t = 3) then Some Regex
  else None.

Definition toStrMatcher `{RegexpEngine} (t : Z) (domain : bytes) : outcome Matcher :=
  match typeMap t with
  | None => Fail
  | Some strMType => Type_New strMType domain
  end.

(** [ips] is an array: an index outside of it panics. *)
Record StaticHosts := { h_ips : list (list Address); h_matchers : MatcherGroup }.

Definition set_ips (id : Z) (v : list Address) (ips : list (list Address)) : outcome (list (list Address)) :=
  if decide (0 ≤ id < Z.of_nat (length ips)) then Ret (<[Z.to_nat id := v]> ips) else Panic.

Section hosts.
Context `{RegexpEngine}.

(** The addresses of one mapping; a bad one is an error. *)
Fixpoint mapping_ips (ips : list bytes) : outcome (list Address) :=
  match ips with
  | [] => Ret []
  | ip :: ips =>
    match IPAddress ip with
    | None => Fail
    | Some addr => let? rest := mapping_ips ips in Ret (addr :: rest)
    end
  end.

Definition mapping_value (mapping : HostMapping) : outcome (list Address) :=
  if decide (0 < length (hm_ProxiedDomain mapping))%nat then Ret [DomainAddress (hm_ProxiedDomain mapping)]
  else if decide (0 < length (hm_Ip mapping))%nat then mapping_ips (hm_Ip mapping)
  else Fail.

(** The loop over the old form, a map in the order in which the loop meets it. *)
Fixpoint legacy_loop (legacy : list (bytes * option (option IPOrDomain))) (sh : StaticHosts) : outcome StaticHosts :=
  match legacy with
  | [] => Ret sh
  | (domain, ip) :: legacy =>
    let? matcher := Type_New Full domain in
    let '(g, id) := group_Add matcher (h_matchers sh) in
    match AsAddress ip with
    | None | Some None => Panic
    | Some (Some address) =>
      if IsDomain (Family address) then Fail
      else
        let? ips := set_ips id [address] (h_ips sh) in
        legacy_loop legacy {| h_ips := ips; h_matchers := g |}
    end
  end.

Fixpoint hosts_loop (hosts : list HostMapping) (sh : StaticHosts) : outcome StaticHosts :=
  match hosts with
  | [] => Ret sh
  | mapping :: hosts =>
    let? matcher := toStrMatcher (hm_Type mapping) (hm_Domain mapping) in
    let '(g, id) := group_Add matcher (h_matchers sh) in
    let? value := mapping_value mapping in
    let? ips := set_ips id value (h_ips sh) in
    hosts_loop hosts {| h_ips := ips; h_matchers := g |}
  end.

Definition NewStaticHosts (hosts : list HostMapping) (legacy : list (bytes * option (option IPOrDomain))) :
    outcome StaticHosts :=
  let? sh := legacy_loop legacy
    {| h_ips := replicate (length hosts + length legacy + 16) []; h_matchers := empty_group |} in
  hosts_loop hosts sh.

End hosts.

Definition keeps_ip (opt : IPOption) (ip : Address) : bool :=
  IsIPv4 (Family ip) && IPv4Enable opt || IsIPv6 (Family ip) && IPv6Enable opt.

Definition filterIP (ips : list Address) (opt : IPOption) : list Address :=
  filter (λ ip, keeps_ip opt ip = true) ips.

(** The addresses of the matchers [ids]. *)
Fixpoint ips_of (h : StaticHosts) (ids : list Z) : outcome (list Address) :=
  match ids with
  | [] => Ret []
  | id :: ids =>
    if decide (0 ≤ id) then
      match h_ips h !! Z.to_nat id with
      | Some v => let? rest := ips_of h ids in Ret (v ++ rest)
      | None => Panic
      end
    else Panic
  end.

Definition lookupInternal (h : StaticHosts) (domain : bytes) : outcome (list Address) :=
  ips_of h (group_Match (h_matchers h) domain).

(** [None] is the nil slice: the name is not recorded. *)
Fixpoint lookup (maxDepth : nat) (h : StaticHosts) (domain : bytes) (opt : IPOption) :
    outcome (option (list Address)) :=
  let? addrs := lookupInternal h domain in
  match addrs with
  | [] => Ret None
  | [domainAddress d] =>
    match maxDepth with
    | S maxDepth =>
      let? unwrapped := lookup maxDepth h d opt in
      Ret (Some (default addrs unwrapped))
    | O => Ret (Some addrs)
    end
  | _ => Ret (Some (filterIP addrs opt))
  end.

Definition Lookup (h : StaticHosts) (domain : bytes) (opt : IPOption) : outcome (option (list Address)) :=
  lookup 5 h domain opt.

(** ** What the loops build *)

(** The mappings of a table of hosts: a matcher and its addresses. *)
Record built (sh : StaticHosts) (table : list (Matcher * list Address)) (room : nat) : Prop := {
  b_matchers : h_matchers sh = group_of table.*1;
  b_ips : ∀ i v, table.*2 !! i = Some v → h_ips sh !! S i = Some v;
  b_length : length (h_ips sh) = room }.

Lemma group_Add_index ms x : (group_Add x (group_of ms)).2 = u32 (Z.of_nat (S (length ms))).
Proof.
  destruct (group_of_inv ms) as [Hc _ _ _]. transitivity (u32 (count (group_of ms) + 1)); [by destruct x|].
  rewrite Hc. unfold indexed. rewrite length_imap. unfold wrap. rewrite Z.add_mod_idemp_l by done. f_equal. lia.
Qed.

Lemma group_Add_of ms x : (group_Add x (group_of ms)).1 = group_of (ms ++ [x]).
Proof. unfold group_of at 2. by rewrite foldl_snoc. Qed.

(** One more mapping. *)
Lemma built_snoc sh table room x v g id :
  built sh table room → (S (length table) < room)%nat → Z.of_nat room < 2 ^ 32 →
  group_Add x (h_matchers sh) = (g, id) →
  ∃ ips, set_ips id v (h_ips sh) = Ret ips ∧
    built {| h_ips := ips; h_matchers := g |} (table ++ [(x, v)]) room.
Proof.
  intros [Hm Hi Hl] Hr Hw Ha. rewrite Hm in Ha.
  pose proof (group_Add_index table.*1 x) as Hid. pose proof (group_Add_of table.*1 x) as Hg. rewrite Ha in Hid, Hg.
  cbn [fst snd] in Hid, Hg. rewrite length_fmap in Hid.
  rewrite wrap_small in Hid by (unfold is_uint; lia). subst id. unfold set_ips. rewrite decide_True by lia.
  eexists. split; [done|]. rewrite Nat2Z.id. split; cbn [h_ips h_matchers].
  - by rewrite Hg, fmap_app.
  - intros i w. rewrite fmap_app, lookup_app_Some, length_fmap. cbn. intros [Hiw|[Hle Hiw]].
    + rewrite list_lookup_insert_ne; [by apply Hi|]. apply lookup_lt_Some in Hiw. rewrite length_fmap in Hiw. lia.
    + apply list_lookup_singleton_Some in Hiw as [E <-]. assert (i = length table) as -> by lia.
      apply list_lookup_insert_eq. lia.
  - by rewrite length_insert.
Qed.

(** The table of a configuration. *)
Definition legacy_entry `{RegexpEngine} (e : bytes * option (option IPOrDomain)) (t : Matcher * list Address) : Prop :=
  t.1 = fullMatcher e.1 ∧ ∃ a, AsAddress e.2 = Some (Some a) ∧ IsDomain (Family a) = false ∧ t.2 = [a].

Definition host_entry `{RegexpEngine} (mapping : HostMapping) (t : Matcher * list Address) : Prop :=
  toStrMatcher (hm_Type mapping) (hm_Domain mapping) = Ret t.1 ∧ mapping_value mapping = Ret t.2.

Section build.
Context `{RegexpEngine}.

Lemma legacy_loop_built legacy sh table room sh' :
  built sh table room → (length table + length legacy + 1 < room)%nat → Z.of_nat room < 2 ^ 32 →
  legacy_loop legacy sh = Ret sh' →
  ∃ more, Forall2 legacy_entry legacy more ∧ built sh' (table ++ more) room.
Proof.
  revert sh table. induction legacy as [|[domain ip] legacy IH]; intros sh table Hb Hr Hw E; cbn [legacy_loop] in E.
  { injection E as <-. exists []. by rewrite app_nil_r. }
  change (Type_New Full domain) with (Ret (fullMatcher domain)) in E. cbn [outcome_bind] in E.
  destruct (group_Add (fullMatcher domain) (h_matchers sh)) as [g id] eqn:Ea.
  destruct (AsAddress ip) as [[a|]|] eqn:Eip; try done.
  destruct (IsDomain (Family a)) eqn:Ed; [done|].
  cbn [length] in Hr.
  destruct (built_snoc sh table room (fullMatcher domain) [a] g id Hb ltac:(lia) Hw Ea) as (ips & Eips & Hb').
  rewrite Eips in E. cbn [outcome_bind] in E.
  apply (IH _ (table ++ [(fullMatcher domain, [a])])) in E as (more & Hm & Hb2); [|done|rewrite length_app; cbn; lia|done].
  exists ((fullMatcher domain, [a]) :: more). rewrite <- app_assoc in Hb2. split; [|done].
  constructor; [|done]. split; [done|]. by exists a.
Qed.

Lemma hosts_loop_built hosts sh table room sh' :
  built sh table room → (length table + length hosts + 1 < room)%nat → Z.of_nat room < 2 ^ 32 →
  hosts_loop hosts sh = Ret sh' →
  ∃ more, Forall2 host_entry hosts more ∧ built sh' (table ++ more) room.
Proof.
  revert sh table. induction hosts as [|mapping hosts IH]; intros sh table Hb Hr Hw E; cbn [hosts_loop] in E.
  { injection E as <-. exists []. by rewrite app_nil_r. }
  destruct (toStrMatcher (hm_Type mapping) (hm_Domain mapping)) as [x| |] eqn:Ex; [|done..]. cbn [outcome_bind] in E.
  destruct (group_Add x (h_matchers sh)) as [g id] eqn:Ea.
  destruct (mapping_value mapping) as [v| |] eqn:Ev; [|done..]. cbn [outcome_bind] in E.
  cbn [length] in Hr. destruct (built_snoc sh table room x v g id Hb ltac:(lia) Hw Ea) as (ips & Eips & Hb').
  rewrite Eips in E. cbn [outcome_bind] in E.
  apply (IH _ (table ++ [(x, v)])) in E as (more & Hm & Hb2); [|done|rewrite length_app; cbn; lia|done].
  exists ((x, v) :: more). rewrite <- app_assoc in Hb2. split; [|done]. by constructor.
Qed.

Lemma NewStaticHosts_built hosts legacy sh :
  Z.of_nat (length hosts + length legacy + 16) < 2 ^ 32 →
  NewStaticHosts hosts legacy = Ret sh →
  ∃ t1 t2, Forall2 legacy_entry legacy t1 ∧ Forall2 host_entry hosts t2 ∧
           built sh (t1 ++ t2) (length hosts + length legacy + 16).
Proof.
  intros Hw. unfold NewStaticHosts.
  destruct (legacy_loop legacy _) as [sh1| |] eqn:E1; [|done..]. cbn [outcome_bind]. intros E2.
  apply (legacy_loop_built legacy _ [] (length hosts + length legacy + 16)) in E1 as (t1 & H1 & Hb1); [|split|cbn; lia|done].
  - apply (hosts_loop_built hosts _ t1 (length hosts + length legacy + 16)) in E2 as (t2 & H2 & Hb2); [eauto|done| |done].
    apply Forall2_length in H1. lia.
  - done.
  - done.
  - apply length_replicate.
Qed.
End build.

(** ** Looking up a name *)

(** The addresses of the mappings that match a name. *)
Definition recorded (table : list (Matcher * list Address)) (s : bytes) : list Address :=
  mjoin (filter (λ t, Matcher_Match t.1 s = true) table).*2.

(** The mappings with the indexes of their matchers. *)
Definition numbered (table : list (Matcher * list Address)) : list ((Matcher * Z) * list Address) :=
  imap (λ i t, ((t.1, u32 (Z.of_nat (S i))), t.2)) table.

Lemma numbered_fst table : (numbered table).*1 = indexed table.*1.
Proof. unfold numbered, indexed. by rewrite fmap_imap, imap_fmap. Qed.

Lemma imap_recorded (f : nat → Z) table s :
  mjoin (filter (λ t, Matcher_Match t.1.1 s = true) (imap (λ i t, ((t.1, f i), t.2)) table)).*2 = recorded table s.
Proof.
  unfold recorded. revert f. induction table as [|[x v] table IH]; intros f; [done|].
  cbn [imap]. rewrite !filter_cons. cbn [fst]. case_decide; [cbn; f_equal|]; apply (IH (f ∘ S)).
Qed.

Lemma numbered_recorded table s :
  mjoin (filter (λ t, Matcher_Match t.1.1 s = true) (numbered table)).*2 = recorded table s.
Proof. apply (imap_recorded (λ i, u32 (Z.of_nat (S i)))). Qed.

Lemma filter_fst {A B} (P : A → Prop) `{∀ x, Decision (P x)} (l : list (A * B)) :
  filter P l.*1 = (filter (λ t, P t.1) l).*1.
Proof. induction l as [|x l IH]; [done|]. cbn [fmap list_fmap]. rewrite !filter_cons. case_decide; cbn; by rewrite IH. Qed.

Lemma ips_of_built sh table room ts :
  built sh table room → Z.of_nat (length table) < 2 ^ 32 - 1 →
  (∀ t, t ∈ ts → t ∈ numbered table) → ips_of sh ts.*1.*2 = Ret (mjoin ts.*2).
Proof.
  intros [Hm Hi Hl] Hw. induction ts as [|[[x id] v] ts IH]; intros Hin; [done|].
  destruct (list_elem_of_lookup_1 _ _ (Hin _ (list_elem_of_here _ _))) as [i Hix].
  unfold numbered in Hix. rewrite list_lookup_imap in Hix.
  destruct (table !! i) as [[x' v']|] eqn:Et; [|done]. cbn in Hix. injection Hix as -> <- ->.
  assert (i < length table)%nat by (by eapply lookup_lt_Some).
  rewrite wrap_small by (unfold is_uint; lia).
  cbn [fmap list_fmap fst snd ips_of]. rewrite decide_True by lia. rewrite Nat2Z.id.
  rewrite (Hi i v) by (by rewrite list_lookup_fmap, Et).
  rewrite IH by (intros t Ht; apply Hin; by right). done.
Qed.

(** A name finds the addresses of all mappings that match it, and nothing else. *)
Lemma lookupInternal_built sh table room s :
  built sh table room → Z.of_nat (length table) < 2 ^ 32 - 1 → s ≠ [] →
  ∃ l, lookupInternal sh s = Ret l ∧ l ≡ₚ recorded table s.
Proof.
  intros Hb Hw Hs. unfold lookupInternal. rewrite (b_matchers _ _ _ Hb).
  pose proof (group_Match_entries table.*1 s Hs) as Hp.
  rewrite <- numbered_fst, filter_fst in Hp. set (ts := filter _ (numbered table)) in Hp.
  rewrite <- list_fmap_compose in Hp. apply Permutation_map_inv in Hp as (ts' & -> & Hp).
  change (map (snd ∘ fst) ts') with ((snd ∘ fst) <$> ts'). rewrite list_fmap_compose.
  rewrite (ips_of_built sh table room ts'); [|done|done|].
  - eexists. split; [done|]. rewrite <- numbered_recorded. fold ts. by rewrite Hp.
  - intros t Ht. rewrite <- Hp in Ht. by apply list_elem_of_filter in Ht as [_ Ht].
Qed.

(** Every index that a group finds is the index of a matcher, also for the empty name. *)
Lemma group_Match_index ms s id : id ∈ group_Match (group_of ms) s → ∃ x, (x, id) ∈ indexed ms.
Proof.
  destruct (decide (s = [])) as [->|Hs].
  - destruct (group_of_inv ms) as [_ Hf _ Ho]. unfold group_Match, domain_Match. rewrite decide_True by done.
    cbn [app]. rewrite Hf, Ho. intros [Hid|Hid]%elem_of_app.
    + apply list_elem_of_fmap in Hid as ([p j] & -> & (_ & Hin)%list_elem_of_filter).
      apply list_elem_of_omap in Hin as ([x k] & Hin & E). exists x. unfold full_entry in E. cbn in E. destruct x; try done.
      by injection E as _ ->.
    + unfold other_Match in Hid. apply list_elem_of_fmap in Hid as (e & -> & (_ & Hin)%list_elem_of_filter).
      apply list_elem_of_omap in Hin as ([x k] & Hin & E). exists x. unfold other_entry in E. cbn in E.
      destruct x; try done; by injection E as <-.
  - rewrite (group_Match_entries ms s Hs). intros ([x k] & -> & [_ Hin]%list_elem_of_filter)%list_elem_of_fmap. by exists x.
Qed.

Lemma indexed_lookup ms x id :
  (x, id) ∈ indexed ms → Z.of_nat (length ms) < 2 ^ 32 - 1 → ∃ i, ms !! i = Some x ∧ id = Z.of_nat (S i).
Proof.
  intros [i Hi]%list_elem_of_lookup Hw. unfold indexed in Hi. rewrite list_lookup_imap in Hi.
  destruct (ms !! i) as [y|] eqn:E; [|done]. injection Hi as -> <-. exists i. split; [done|].
  apply lookup_lt_Some in E. apply wrap_small. unfold is_uint. lia.
Qed.

Lemma lookupInternal_total sh table room s :
  built sh table room → Z.of_nat (length table) < 2 ^ 32 - 1 → ∃ l, lookupInternal sh s = Ret l.
Proof.
  intros Hb Hw. unfold lookupInternal. rewrite (b_matchers _ _ _ Hb). pose proof (group_Match_index table.*1 s) as Hids.
  revert Hids. generalize (group_Match (group_of table.*1) s) as ids.
  induction ids as [|id ids IH]; intros Hin; [by exists []|].
  destruct (Hin id) as [x Hx]; [apply list_elem_of_here|].
  apply indexed_lookup in Hx as (i & Hi & ->); [|by rewrite length_fmap].
  rewrite list_lookup_fmap in Hi. destruct (table !! i) as [[x' v]|] eqn:E; [|done].
  cbn [ips_of]. rewrite decide_True by lia. rewrite Nat2Z.id, (b_ips _ _ _ Hb i v) by (by rewrite list_lookup_fmap, E).
  destruct IH as [l ->]; [intros id' Hid; apply Hin; by right|]. by eexists.
Qed.

(** Looking up never panics. *)
Lemma hosts_total `{RegexpEngine} hosts legacy sh s :
  Z.of_nat (length hosts + length legacy + 16) < 2 ^ 32 - 1 →
  NewStaticHosts hosts legacy = Ret sh → ∃ l, lookupInternal sh s = Ret l.
Proof.
  intros Hw E. destruct (NewStaticHosts_built hosts legacy sh ltac:(lia) E) as (t1 & t2 & H1 & H2 & Hb).
  pose proof (Forall2_length _ _ _ H1). pose proof (Forall2_length _ _ _ H2).
  eapply lookupInternal_total; [done|]. rewrite length_app. lia.
Qed.

(** *** Following replaced names *)

(** [s] is replaced by [d]. *)
Definition replaced (sh : StaticHosts) (s d : bytes) : Prop := lookupInternal sh s = Ret [domainAddress d].

(** What [lookup] answers with [depth] replacements left. *)
Lemma lookup_spec sh depth s opt :
  (∀ s, ∃ l, lookupInternal sh s = Ret l) →
  ∃ r, lookup depth sh s opt = Ret r ∧
    ((r = None ∧ lookupInternal sh s = Ret []) ∨
     ∃ n s', (n ≤ depth)%nat ∧ nsteps (replaced sh) n s s' ∧
       ((∃ addrs, lookupInternal sh s' = Ret addrs ∧ addrs ≠ [] ∧ (∀ d, addrs ≠ [domainAddress d]) ∧
                  r = Some (filterIP addrs opt)) ∨
        (∃ d, replaced sh s' d ∧ r = Some [domainAddress d] ∧ (n = depth ∨ lookupInternal sh d = Ret [])))).
Proof.
  intros Hint. revert s. induction depth as [|depth IH]; intros s; cbn [lookup];
    destruct (Hint s) as [addrs E]; rewrite E; cbn [outcome_bind].
  - destruct addrs as [|a [|b addrs]].
    + exists None. auto.
    + destruct a as [a|a|d]; (eexists; split; [done|]; right; exists 0%nat, s; split_and!; [lia|constructor|]).
      * left. eexists. split; [exact E|]. done.
      * left. eexists. split; [exact E|]. done.
      * right. exists d. auto.
    + exists (Some (filterIP (a :: b :: addrs) opt)). split; [by destruct a|]. right. exists 0%nat, s.
      split_and!; [lia|constructor|]. left. eexists. split; [exact E|]. done.
  - destruct addrs as [|a [|b addrs]].
    + exists None. auto.
    + destruct a as [a|a|d].
      1,2: eexists; split; [done|]; right; exists 0%nat, s; split_and!; [lia|constructor|]; left; eexists; split; [exact E|done].
      destruct (IH d) as (r & -> & Hr). cbn [outcome_bind]. eexists. split; [done|]. right.
      destruct Hr as [[-> Hd]|(n & s' & Hn & Hst & Hr)].
      * exists 0%nat, s. split_and!; [lia|constructor|]. right. exists d. auto.
      * exists (S n), s'. split_and!; [lia|by econstructor|].
        destruct Hr as [(addrs & Ha & Hne & Hnd & ->)|(d' & Hd' & -> & Hl)].
        -- left. by exists addrs.
        -- right. exists d'. split_and!; [done|done|]. destruct Hl as [->|]; auto.
    + exists (Some (filterIP (a :: b :: addrs) opt)). split; [by destruct a|]. right. exists 0%nat, s.
      split_and!; [lia|constructor|]. left. eexists. split; [exact E|]. done.
Qed.


#[local] Instance no_regexp : RegexpEngine := λ _, None.

Definition two_hosts : list HostMapping :=
  [{| hm_Type := 0; hm_Domain := lit "a.com"; hm_Ip := []; hm_ProxiedDomain := lit "b.com" |};
   {| hm_Type := 1; hm_Domain := lit "b.com"; hm_Ip := [[1; 2; 3; 4]; replicate 15 0 ++ [1]]; hm_ProxiedDomain := [] |}].

Definition two_hosts_built : StaticHosts :=
  match NewStaticHosts two_hosts [] with
  | Ret sh => sh
  | _ => {| h_ips := []; h_matchers := empty_group |}
  end.

Definition only4 : IPOption := {| IPv4Enable := true; IPv6Enable := false; FakeEnable := false |}.

Example two_hosts_lookup : Lookup two_hosts_built (lit "a.com") only4 = Ret (Some [ipv4Address [1; 2; 3; 4]]).
Proof. vm_compute. reflexivity. Qed.

