(* ===== verification/DnsCache.v ===== *)
(** The name servers of the DNS and their caches
    (src/upstream/xray-core/app/dns: dnscommon.go, nameserver_udp.go, and the
    variants of nameserver_tcp.go, nameserver_doh.go, nameserver_quic.go;
    src/upstream/xray-core/features/dns/client.go).  Requests wait under a number,
    an answer with that number is stored under the name that was asked; records
    expire.  The clock is an integer of nanoseconds; the parser of messages is an
    argument. *)
From stdpp Require Import gmap.
From S2P Require Import Prelude GoText NetIP Address StrMatcher DnsHosts Buf.

(** ** Errors *)

Inductive dns_error :=
  | RecordNotFound | EmptyResponse | RCodeError (r : Z) | Canceled | DeadlineExceeded | ExpectedIPNonMatch | OtherError.

#[global] Instance dns_error_eq_dec : EqDecision dns_error.
Proof. solve_decision. Defined.

Definition RCodeFromError (err : option dns_error) : Z :=
  match err with Some (RCodeError r) => r | _ => 0 end.

(** [QueryStrategy], by number. *)
Definition ResolveIpOptionOverride (queryStrategy : Z) (ipOption : IPOption) : IPOption :=
  if decide (queryStrategy = 1) then
    {| IPv4Enable := IPv4Enable ipOption; IPv6Enable := false; FakeEnable := false |}
  else if decide (queryStrategy = 2) then
    {| IPv4Enable := false; IPv6Enable := IPv6Enable ipOption; FakeEnable := false |}
  else ipOption.

Definition Fqdn (domain : bytes) : bytes :=
  if decide (0 < length domain)%nat then if HasSuffix domain [dot] then domain else domain ++ [dot]
  else domain ++ [dot].

(** ** Records *)

Record IPRecord := { ReqID : Z; rec_IP : list Address; Expire : Z; RCode : Z }.

Record record := { rec_A : option IPRecord; rec_AAAA : option IPRecord }.

(** [time.Time.Before]. *)
Definition Before (t u : Z) : bool := bool_decide (t < u).

Definition getIPs (now : Z) (r : option IPRecord) : list Address * option dns_error :=
  match r with
  | None => ([], Some RecordNotFound)
  | Some r =>
    if Before (Expire r) now then ([], Some RecordNotFound)
    else if decide (RCode r ≠ 0) then ([], Some (RCodeError (u16 (RCode r))))
    else (rec_IP r, None)
  end.

Definition isNewer (baseRec newRec : option IPRecord) : bool :=
  match newRec with
  | None => false
  | Some n => match baseRec with None => true | Some b => Before (Expire b) (Expire n) end
  end.

(** ** Messages *)

Inductive reqType := TypeA | TypeAAAA.

#[global] Instance reqType_eq_dec : EqDecision reqType.
Proof. solve_decision. Defined.

Record dnsRequest := { req_type : reqType; req_domain : bytes; req_expire : Z; req_ID : Z }.

Definition second : Z := 1000000000.

(** The EDNS0 client subnet option of a request; [None] without a client address. *)
Definition genEDNS0Options (clientIP : bytes) : option bytes :=
  if decide (length clientIP = 0%nat) then None
  else
    let '(family, netmask) := if decide (length clientIP = 4%nat) then (1, 24) else (2, 96) in
    let b := be_bytes 2 family ++ [u8 netmask; 0] in
    let needLength := Z.to_nat ((netmask + 8 - 1) / 8) in
    let ip := if decide (family = 1)
              then ip4 ← To4 clientIP; IP_Mask ip4 (CIDRMask netmask 32)
              else IP_Mask clientIP (CIDRMask netmask 128) in
    Some (b ++ take needLength (default [] ip)).

(** What the parser of package dnsmessage gives: the header, whether the questions
    could be skipped, and for each answer its TTL and its body; a body that cannot
    be read ends the loop. *)
Inductive answer_body := Body_A (ip : option bytes) | Body_AAAA (ip : option bytes) | Body_other (skipped : bool).

Record dns_message := { msg_ID : Z; msg_RCode : Z; msg_questions : bool; msg_answers : list (Z * answer_body) }.

Class DnsParser := dnsmessage_Parse : bytes → option dns_message.

(** The loop of [parseResponse]. *)
Fixpoint answers_loop (now : Z) (answers : list (Z * answer_body)) (ipRecord : IPRecord) : IPRecord :=
  match answers with
  | [] => ipRecord
  | (ttl, body) :: answers =>
    let ttl := if decide (ttl = 0) then 600 else ttl in
    let expire := now + ttl * second in
    let r := {| ReqID := ReqID ipRecord; rec_IP := rec_IP ipRecord;
                Expire := if decide (expire < Expire ipRecord) then expire else Expire ipRecord;
                RCode := RCode ipRecord |} in
    match body with
    | Body_A None | Body_AAAA None | Body_other false => r
    | Body_A (Some ip) | Body_AAAA (Some ip) =>
      answers_loop now answers {| ReqID := ReqID r; rec_IP := rec_IP r ++ option_list (IPAddress ip); Expire := Expire r; RCode := RCode r |}
    | Body_other true => answers_loop now answers r
    end
  end.

Definition parseResponse `{DnsParser} (now : Z) (payload : bytes) : option IPRecord :=
  m ← dnsmessage_Parse payload;
  if msg_questions m then
    Some (answers_loop now (msg_answers m)
            {| ReqID := msg_ID m; rec_IP := []; Expire := now + 600 * second; RCode := msg_RCode m |})
  else None.

(** ** The cache that all name servers have *)

Definition find_error (err4 err6 : option dns_error) (last : dns_error) : dns_error :=
  match err4 with Some e => e | None => match err6 with Some e => e | None => last end end.

Definition toIPs (addrs : list Address) : option (list bytes) := mapM Address_IP addrs.

(** [findIPsForDomain] of the servers for UDP and TCP; the clock is read for each
    family.  An error of [toNetIP] is [OtherError]. *)
Definition findIPsForDomain (now4 now6 : Z) (domain : bytes) (opt : IPOption) (ips : gmap bytes record) :
    result dns_error (list bytes) :=
  match ips !! domain with
  | None => Err RecordNotFound
  | Some rec =>
    let '(ips4, err4) := if IPv4Enable opt then getIPs now4 (rec_A rec) else ([], None) in
    let '(ips6, err6) := if IPv6Enable opt then getIPs now6 (rec_AAAA rec) else ([], None) in
    let ips := ips4 ++ ips6 in
    if decide (0 < length ips)%nat then
      match toIPs ips with Some l => Ok l | None => Err OtherError end
    else Err (find_error err4 err6 EmptyResponse)
  end.

(** The variant of the servers for HTTPS and QUIC. *)
Definition doh_findIPsForDomain (now4 now6 : Z) (domain : bytes) (opt : IPOption) (ips : gmap bytes record) :
    result dns_error (list bytes) :=
  match ips !! domain with
  | None => Err RecordNotFound
  | Some rec =>
    let '(ips4, err4) := if IPv4Enable opt then getIPs now4 (rec_A rec) else ([], None) in
    let '(ips6, err6) := if IPv6Enable opt then getIPs now6 (rec_AAAA rec) else ([], None) in
    let ips := ips4 ++ ips6 in
    if decide (0 < length ips)%nat then
      match toIPs ips with Some l => Ok l | None => Err OtherError end
    else
      Err (find_error err4 err6
             (if decide (IPv4Enable opt ∧ rec_A rec ≠ None ∨ IPv6Enable opt ∧ rec_AAAA rec ≠ None)
              then EmptyResponse else RecordNotFound))
  end.

Definition expired (now : Z) (r : option IPRecord) : option IPRecord :=
  match r with Some x => if Before (Expire x) now then None else r | None => None end.

(** One turn of the loop of [Cleanup]; [None] deletes the entry. *)
Definition clean_record (now : Z) (r : record) : option record :=
  let r := {| rec_A := expired now (rec_A r); rec_AAAA := expired now (rec_AAAA r) |} in
  match rec_A r, rec_AAAA r with None, None => None | _, _ => Some r end.

Definition clean_ips (now : Z) (ips : gmap bytes record) : gmap bytes record := omap (clean_record now) ips.

(** [updateIP] of the UDP server; the second part is what it publishes. *)
Definition updateIP (domain : bytes) (newRec : record) (ips : gmap bytes record) : gmap bytes record * list bytes :=
  let rec := default {| rec_A := None; rec_AAAA := None |} (ips !! domain) in
  let newA := isNewer (rec_A rec) (rec_A newRec) in
  let newAAAA := isNewer (rec_AAAA rec) (rec_AAAA newRec) in
  let rec' := {| rec_A := if newA then rec_A newRec else rec_A rec;
                 rec_AAAA := if newAAAA then rec_AAAA newRec else rec_AAAA rec |} in
  (if newA || newAAAA then <[domain := rec']> ips else ips,
   (if decide (rec_A newRec ≠ None) then [domain ++ lit "4"] else []) ++
   (if decide (rec_AAAA newRec ≠ None) then [domain ++ lit "6"] else [])).

(** [updateIP] of the other servers: of the answers for IPv6 only those of sixteen
    bytes are kept. *)
Definition stream_updateIP (req : dnsRequest) (ipRec : IPRecord) (ips : gmap bytes record) : gmap bytes record * list bytes :=
  let rec := default {| rec_A := None; rec_AAAA := None |} (ips !! req_domain req) in
  match req_type req with
  | TypeA =>
    (if isNewer (rec_A rec) (Some ipRec)
     then <[req_domain req := {| rec_A := Some ipRec; rec_AAAA := rec_AAAA rec |}]> ips else ips,
     [req_domain req ++ lit "4"])
  | TypeAAAA =>
    let addr := filter (λ ip, bool_decide (length <$> Address_IP ip = Some 16%nat) = true) (rec_IP ipRec) in
    let ipRec := {| ReqID := ReqID ipRec; rec_IP := addr; Expire := Expire ipRec; RCode := RCode ipRec |} in
    (if isNewer (rec_AAAA rec) (Some ipRec)
     then <[req_domain req := {| rec_A := rec_A rec; rec_AAAA := Some ipRec |}]> ips else ips,
     [req_domain req ++ lit "6"])
  end.

(** ** The server for UDP ([ClassicNameServer]) *)

Record ClassicNameServer := {
  ips : gmap bytes record;
  requests : gmap Z dnsRequest;
  reqID : Z;
  queryStrategy : Z }.

Definition with_ips (s : ClassicNameServer) (m : gmap bytes record) : ClassicNameServer :=
  {| ips := m; requests := requests s; reqID := reqID s; queryStrategy := queryStrategy s |}.
Definition with_requests (s : ClassicNameServer) (m : gmap Z dnsRequest) : ClassicNameServer :=
  {| ips := ips s; requests := m; reqID := reqID s; queryStrategy := queryStrategy s |}.

Definition NewClassicNameServer (strategy : Z) : ClassicNameServer :=
  {| ips := ∅; requests := ∅; reqID := 0; queryStrategy := strategy |}.

(** [None]: there was nothing to do, which stops the periodic task. *)
Definition Cleanup (now : Z) (s : ClassicNameServer) : option ClassicNameServer :=
  if decide (ips s = ∅ ∧ requests s = ∅) then None
  else Some (with_requests (with_ips s (clean_ips now (ips s)))
               (filter (λ e, Before (req_expire e.2) now = false) (requests s))).

Section udp.
Context `{DnsParser}.

Definition HandleResponse (now : Z) (payload : bytes) (s : ClassicNameServer) : ClassicNameServer * list bytes :=
  match parseResponse now payload with
  | None => (s, [])
  | Some ipRec =>
    match requests s !! ReqID ipRec with
    | None => (s, [])
    | Some req =>
      let s := with_requests s (delete (ReqID ipRec) (requests s)) in
      let rec := match req_type req with
                 | TypeA => {| rec_A := Some ipRec; rec_AAAA := None |}
                 | TypeAAAA => {| rec_A := None; rec_AAAA := Some ipRec |}
                 end in
      if decide (0 < length (req_domain req))%nat then
        let '(m, pub) := updateIP (req_domain req) rec (ips s) in (with_ips s m, pub)
      else (s, [])
    end
  end.

End udp.

Definition newReqID (s : ClassicNameServer) : ClassicNameServer * Z :=
  let n := u32 (reqID s + 1) in
  ({| ips := ips s; requests := requests s; reqID := n; queryStrategy := queryStrategy s |}, u16 n).

(** [buildReqMsgs]; [MustNewName] panics for a name of more than 255 bytes.  The
    options of the messages are left out. *)
Definition buildReqMsgs (domain : bytes) (opt : IPOption) (s : ClassicNameServer) :
    outcome (ClassicNameServer * list dnsRequest) :=
  if decide (255 < length domain)%nat then Panic
  else
    let '(s, r4) := if IPv4Enable opt
                    then let '(s, id) := newReqID s in
                         (s, [{| req_type := TypeA; req_domain := domain; req_expire := 0; req_ID := id |}])
                    else (s, []) in
    let '(s, r6) := if IPv6Enable opt
                    then let '(s, id) := newReqID s in
                         (s, [{| req_type := TypeAAAA; req_domain := domain; req_expire := 0; req_ID := id |}])
                    else (s, []) in
    Ret (s, r4 ++ r6).

Definition addPendingRequest (now : Z) (req : dnsRequest) (s : ClassicNameServer) : ClassicNameServer :=
  with_requests s (<[req_ID req := {| req_type := req_type req; req_domain := req_domain req;
                                      req_expire := now + 8 * second; req_ID := req_ID req |}]> (requests s)).

(** The state after [sendQuery]; the messages go out in this order. *)
Definition sendQuery (now : Z) (domain : bytes) (opt : IPOption) (s : ClassicNameServer) : outcome ClassicNameServer :=
  let? (s, reqs) := buildReqMsgs domain opt s in
  Ret (foldl (λ s req, addPendingRequest now req s) s reqs).

(** [QueryIP] up to its first wait: an answer, or the requests that were sent. *)
Inductive query := Answer (r : result dns_error (list bytes)) | Waiting.

Definition QueryIP_begin (now4 now6 now : Z) (domain : bytes) (opt : IPOption) (disableCache : bool) (s : ClassicNameServer) :
    outcome (ClassicNameServer * query) :=
  let fqdn := Fqdn domain in
  let opt := ResolveIpOptionOverride (queryStrategy s) opt in
  if negb (IPv4Enable opt) && negb (IPv6Enable opt) then Ret (s, Answer (Err EmptyResponse))
  else
    let send := let? s := sendQuery now fqdn opt s in Ret (s, Waiting) in
    if disableCache then send
    else match findIPsForDomain now4 now6 fqdn opt (ips s) with
         | Err RecordNotFound => send
         | r => Ret (s, Answer r)
         end.

(** ** The variants agree *)

Lemma getIPs_none now r : (getIPs now r).2 = None → r ≠ None.
Proof. by destruct r. Qed.

(** The stricter lookup of the servers for HTTPS and QUIC answers like the plain one
    whenever some family is asked for. *)
Theorem findIPs_variants_agree now4 now6 domain opt m :
  IPv4Enable opt = true ∨ IPv6Enable opt = true →
  doh_findIPsForDomain now4 now6 domain opt m = findIPsForDomain now4 now6 domain opt m.
Proof.
  intros Hopt. unfold doh_findIPsForDomain, findIPsForDomain. destruct (m !! domain) as [rec|]; [|done].
  destruct (if IPv4Enable opt then _ else _) as [ips4 err4] eqn:E4.
  destruct (if IPv6Enable opt then _ else _) as [ips6 err6] eqn:E6.
  case_decide; [done|]. destruct err4; [done|]. destruct err6; [done|]. cbn [find_error].
  rewrite decide_True; [done|]. destruct Hopt as [Ho|Ho]; [left|right]; (split; [by rewrite Ho|]).
  - rewrite Ho in E4. apply (getIPs_none now4). by rewrite E4.
  - rewrite Ho in E6. apply (getIPs_none now6). by rewrite E6.
Qed.

(** ** Cleaning is not seen *)

Lemma getIPs_expired now t r : now ≤ t → getIPs t (expired now r) = getIPs t r.
Proof.
  intros Ht. destruct r as [r|]; [|done]. unfold expired, Before. case_bool_decide; [|done].
  unfold getIPs, Before. by rewrite bool_decide_true by lia.
Qed.

(** The periodic cleaning of a cache changes no later answer. *)
Theorem Cleanup_invisible now now4 now6 domain opt s s' :
  Cleanup now s = Some s' → now ≤ now4 → now ≤ now6 →
  IPv4Enable opt = true ∨ IPv6Enable opt = true →
  findIPsForDomain now4 now6 domain opt (ips s') = findIPsForDomain now4 now6 domain opt (ips s).
Proof.
  unfold Cleanup. case_decide; [done|]. intros [= <-] H4 H6 Hopt. cbn [ips with_ips with_requests].
  unfold findIPsForDomain, clean_ips. rewrite lookup_omap. destruct (ips s !! domain) as [rec|]; [|done]. cbn [mbind option_bind].
  rewrite <- (getIPs_expired now now4 (rec_A rec)), <- (getIPs_expired now now6 (rec_AAAA rec)) by done.
  unfold clean_record. cbn [rec_A rec_AAAA].
  destruct (expired now (rec_A rec)) as [a|] eqn:Ea, (expired now (rec_AAAA rec)) as [b|] eqn:Eb; cbn [rec_A rec_AAAA]; try done.
  destruct Hopt as [-> | ->]; cbn; [by destruct (IPv6Enable opt)|by destruct (IPv4Enable opt)].
Qed.

(** ** Where the records come from *)

Section origin.
Context `{DnsParser}.

Inductive dns_event :=
  | Send (now : Z) (domain : bytes) (opt : IPOption)
  | Response (now : Z) (payload : bytes)
  | Clean (now : Z).

(** One event; a query that panics ends the program. *)
Definition dns_step (e : dns_event) (s : ClassicNameServer) : option ClassicNameServer :=
  match e with
  | Send now domain opt => match sendQuery now domain opt s with Ret s => Some s | _ => None end
  | Response now payload => Some (HandleResponse now payload s).1
  | Clean now => Some (default s (Cleanup now s))
  end.

Fixpoint dns_run (es : list dns_event) (s : ClassicNameServer) : option ClassicNameServer :=
  match es with
  | [] => Some s
  | e :: es => dns_step e s ≫= dns_run es
  end.

Definition family_of (t : reqType) (opt : IPOption) : bool :=
  match t with TypeA => IPv4Enable opt | TypeAAAA => IPv6Enable opt end.

Definition record_of (t : reqType) (r : record) : option IPRecord :=
  match t with TypeA => rec_A r | TypeAAAA => rec_AAAA r end.

(** The name was asked for before, with this family. *)
Definition asked (es : list dns_event) (t : reqType) (domain : bytes) : Prop :=
  ∃ now opt, Send now domain opt ∈ es ∧ family_of t opt = true.

(** A response that was received gave this record under a number that was pending
    for this name and family. *)
Definition answered (s0 : ClassicNameServer) (es : list dns_event) (t : reqType) (domain : bytes) (r : IPRecord) : Prop :=
  ∃ pre now payload post s req,
    es = pre ++ Response now payload :: post ∧ dns_run pre s0 = Some s ∧
    parseResponse now payload = Some r ∧ requests s !! ReqID r = Some req ∧
    req_type req = t ∧ req_domain req = domain ∧ Expire r ≤ now + 600 * second.

Record explained (s0 : ClassicNameServer) (es : list dns_event) (s : ClassicNameServer) : Prop := {
  ex_requests : ∀ id req, requests s !! id = Some req → asked es (req_type req) (req_domain req);
  ex_records : ∀ d rec t r, ips s !! d = Some rec → record_of t rec = Some r →
               asked es t d ∧ answered s0 es t d r }.

Lemma dns_run_snoc es e s s1 : dns_run es s = Some s1 → dns_run (es ++ [e]) s = dns_step e s1.
Proof.
  revert s. induction es as [|e' es IH]; intros s; cbn [dns_run app].
  - intros [= ->]. by destruct (dns_step e s1).
  - destruct (dns_step e' s); [|done]. apply IH.
Qed.

Lemma dns_run_snoc_inv es e s s2 :
  dns_run (es ++ [e]) s = Some s2 → ∃ s1, dns_run es s = Some s1 ∧ dns_step e s1 = Some s2.
Proof.
  revert s. induction es as [|e' es IH]; intros s; cbn [dns_run app].
  - destruct (dns_step e s) as [s'|] eqn:E; cbn; [|done]. intros [= <-]. by exists s.
  - destruct (dns_step e' s); [|done]. apply IH.
Qed.

Lemma asked_snoc es e t d : asked es t d → asked (es ++ [e]) t d.
Proof. intros (now & opt & Hin & Hf). exists now, opt. split; [|done]. apply elem_of_app. by left. Qed.

Lemma answered_snoc s0 es e t d r : answered s0 es t d r → answered s0 (es ++ [e]) t d r.
Proof.
  intros (pre & now & payload & post & s & req & -> & Hr). exists pre, now, payload, (post ++ [e]), s, req.
  split; [|done]. by rewrite <- app_assoc.
Qed.

Lemma explained_snoc s0 es e s : explained s0 es s → explained s0 (es ++ [e]) s.
Proof.
  intros [Hq Hr]. split; [eauto using asked_snoc|]. intros d rec t r Hd Ht. destruct (Hr d rec t r Hd Ht).
  eauto using asked_snoc, answered_snoc.
Qed.

(** A record is not kept longer than ten minutes. *)
Lemma answers_loop_Expire now answers r :
  Expire (answers_loop now answers r) ≤ Expire r ∧ ReqID (answers_loop now answers r) = ReqID r.
Proof.
  revert r. induction answers as [|[ttl body] answers IH]; intros r; [split; [apply Z.le_refl|done]|].
  cbn [answers_loop]. cbv zeta. set (e := if decide (now + _ < _) then _ else _).
  assert (e ≤ Expire r) as He by (subst e; case_decide; lia).
  destruct body as [[ip|]|[ip|]|[]]; cbn [Expire ReqID]; try done;
    match goal with |- context [answers_loop now answers ?x] => destruct (IH x) as [H1 H2] end;
    cbn [Expire ReqID] in *; split; (lia || done).
Qed.

Lemma parseResponse_Expire now payload r : parseResponse now payload = Some r → Expire r ≤ now + 600 * second.
Proof.
  unfold parseResponse. destruct (dnsmessage_Parse payload) as [m|]; [|done]. cbn [mbind option_bind].
  destruct (msg_questions m); [|done]. intros [= <-]. apply answers_loop_Expire.
Qed.

(** What an update changes is the record that was received. *)
Lemma updateIP_lookup d newRec m d' rec t r :
  (updateIP d newRec m).1 !! d' = Some rec → record_of t rec = Some r →
  (d' = d ∧ record_of t newRec = Some r) ∨ ∃ old, m !! d' = Some old ∧ record_of t old = Some r.
Proof.
  unfold updateIP. cbn [fst].
  set (old := default _ (m !! d)).
  assert (∀ r, record_of t old = Some r → ∃ o, m !! d = Some o ∧ record_of t o = Some r) as Hold.
  { intros r0. subst old. destruct (m !! d) as [o|]; [by exists o|]. by destruct t. }
  destruct (isNewer (rec_A old) (rec_A newRec) || isNewer (rec_AAAA old) (rec_AAAA newRec)); [|intros; right; eauto].
  destruct (decide (d' = d)) as [->|Hne]; [|rewrite lookup_insert_ne by done; intros; right; eauto].
  rewrite lookup_insert_eq. intros [= <-]. destruct t; cbn [record_of rec_A rec_AAAA].
  - destruct (isNewer (rec_A old) (rec_A newRec)); [auto|]. intros Hr. right. by apply (Hold r).
  - destruct (isNewer (rec_AAAA old) (rec_AAAA newRec)); [auto|]. intros Hr. right. by apply (Hold r).
Qed.

Lemma clean_lookup now m d rec t r :
  clean_ips now m !! d = Some rec → record_of t rec = Some r → ∃ old, m !! d = Some old ∧ record_of t old = Some r.
Proof.
  unfold clean_ips. rewrite lookup_omap. destruct (m !! d) as [old|]; [|done]. cbn [mbind option_bind]. unfold clean_record.
  cbn [rec_A rec_AAAA]. intros Hc Hr. exists old. split; [done|].
  assert (rec = {| rec_A := expired now (rec_A old); rec_AAAA := expired now (rec_AAAA old) |}) as ->
    by (destruct (expired now (rec_A old)), (expired now (rec_AAAA old)); congruence).
  destruct t; cbn [record_of rec_A rec_AAAA] in *; unfold expired in Hr.
  - destruct (rec_A old) as [x|]; [|done]. by destruct (Before (Expire x) now).
  - destruct (rec_AAAA old) as [x|]; [|done]. by destruct (Before (Expire x) now).
Qed.

(** The requests after a query: the old ones, and new ones for the name. *)
Lemma sendQuery_requests now domain opt s s' :
  sendQuery now domain opt s = Ret s' →
  ips s' = ips s ∧ ∀ id req, requests s' !! id = Some req →
    requests s !! id = Some req ∨ (req_domain req = domain ∧ family_of (req_type req) opt = true).
Proof.
  unfold sendQuery, buildReqMsgs, newReqID, addPendingRequest. case_decide; [done|].
  destruct (IPv4Enable opt) eqn:E4, (IPv6Enable opt) eqn:E6; intros [= <-]; cbn;
    (split; [done|]); intros id req Hreq; repeat (apply lookup_insert_Some in Hreq as [[_ <-]|[_ Hreq]]);
    cbn [req_domain req_type family_of]; auto.
Qed.

Lemma dns_step_explained s0 es e s s' :
  dns_run es s0 = Some s → explained s0 es s → dns_step e s = Some s' → explained s0 (es ++ [e]) s'.
Proof.
  intros Hrun Hex Hstep. pose proof (explained_snoc s0 es e s Hex) as [Hq Hr].
  destruct e as [now domain opt|now payload|now]; cbn [dns_step] in Hstep.
  - destruct (sendQuery now domain opt s) as [s1| |] eqn:Es; [|done..]. injection Hstep as <-.
    destruct (sendQuery_requests _ _ _ _ _ Es) as [Ei Hreq]. split; [|by rewrite Ei].
    intros id req Hid. destruct (Hreq id req Hid) as [Hold|[<- Hf]]; [by apply (Hq id)|].
    exists now, opt. split; [|done]. apply elem_of_app. right. apply list_elem_of_here.
  - injection Hstep as <-. unfold HandleResponse. destruct (parseResponse now payload) as [ipRec|] eqn:Ep; [|done].
    destruct (requests s !! ReqID ipRec) as [req|] eqn:Er; [|done].
    case_decide as Hd.
    2: { split; [|done]. cbn. intros id q. rewrite lookup_delete_Some. intros [_ Hid]. by apply (Hq id). }
    destruct (updateIP (req_domain req) _ _) as [m pub] eqn:Eu. split.
    + cbn. intros id q. rewrite lookup_delete_Some. intros [_ Hid]. by apply (Hq id).
    + cbn. intros d rec t r Hrec Ht. pose proof (updateIP_lookup (req_domain req)
        (match req_type req with TypeA => {| rec_A := Some ipRec; rec_AAAA := None |}
         | TypeAAAA => {| rec_A := None; rec_AAAA := Some ipRec |} end) (ips s) d rec t r) as Hu.
      cbn in Eu. rewrite Eu in Hu. destruct (Hu Hrec Ht) as [[-> Hnew]|(old & Hold & Hot)]; [|by apply (Hr d old)].
      assert (req_type req = t ∧ r = ipRec) as [<- ->] by (destruct (req_type req), t; cbn in Hnew; naive_solver).
      split; [by apply (Hq (ReqID ipRec))|]. exists es, now, payload, [], s, req. split_and!; try done.
      by apply (parseResponse_Expire _ _ _ Ep).
  - injection Hstep as <-. destruct (Cleanup now s) as [s1|] eqn:Ec; [|done]. cbn [default from_option id].
    unfold Cleanup in Ec. case_decide; [done|]. injection Ec as <-. split; cbn.
    + intros id req. rewrite map_lookup_filter_Some. intros [Hid _]. by apply (Hq id).
    + intros d rec t r Hrec Ht. destruct (clean_lookup _ _ _ _ _ _ Hrec Ht) as (old & Hold & Hot). by apply (Hr d old).
Qed.

(** C22. Every record of the cache was asked for under its name and family, and came in a
    response whose number was pending for just that request; it is used for at
    most ten minutes after it was received. *)
Theorem cache_explained strategy es s d rec t r :
  dns_run es (NewClassicNameServer strategy) = Some s →
  ips s !! d = Some rec → record_of t rec = Some r →
  asked es t d ∧ answered (NewClassicNameServer strategy) es t d r.
Proof.
  intros Hrun. apply ex_records. revert s Hrun. induction es as [|e es IH] using rev_ind; intros s Hrun.
  - injection Hrun as <-. split; cbn; intros *; by rewrite lookup_empty.
  - destruct (dns_run_snoc_inv _ _ _ _ Hrun) as (s1 & H1 & H2). by eapply dns_step_explained; [|apply IH|].
Qed.
End origin.

(** ** Concrete runs *)

(** A parser for messages of three bytes: the number, the response code, and the last
    byte of one address for IPv4. *)
#[local] Instance small_messages : DnsParser := λ p,
  match p with
  | [id; rcode; b] => Some {| msg_ID := id; msg_RCode := rcode; msg_questions := true; msg_answers := [(60, Body_A (Some [10; 0; 0; b]))] |}
  | _ => None
  end.

Definition both : IPOption := {| IPv4Enable := true; IPv6Enable := true; FakeEnable := false |}.

(** Two names are asked; a response with an unknown number is dropped. *)
Definition small_events : list dns_event :=
  [Send 0 (lit "a.com.") only4; Send 5 (lit "b.com.") only4; Response 9 [7; 0; 1]; Response 10 [1; 0; 2]; Clean 11; Response 12 [2; 0; 3]].

Definition small_server : ClassicNameServer := default (NewClassicNameServer 0) (dns_run small_events (NewClassicNameServer 0)).

Definition record_a : IPRecord :=
  {| ReqID := 1; rec_IP := [ipv4Address [10; 0; 0; 2]]; Expire := 10 + 60 * second; RCode := 0 |}.

Lemma findIPs_variants_agree_witness :
  doh_findIPsForDomain 20 20 (lit "a.com.") both (ips small_server) = Ok [[10; 0; 0; 2]] ∧
  doh_findIPsForDomain 20 20 (lit "a.com.") both (ips small_server) =
  findIPsForDomain 20 20 (lit "a.com.") both (ips small_server).
Proof. split; [vm_compute; reflexivity|]. apply findIPs_variants_agree. by left. Defined.

Definition small_cleaned : ClassicNameServer := default small_server (Cleanup 30 small_server).

Lemma Cleanup_invisible_witness :
  findIPsForDomain 40 50 (lit "a.com.") both (ips small_cleaned) =
  findIPsForDomain 40 50 (lit "a.com.") both (ips small_server).
Proof. apply (Cleanup_invisible 30); [vm_compute; reflexivity|lia|lia|by left]. Defined.

Lemma cache_explained_witness :
  asked small_events TypeA (lit "a.com.") ∧
  answered (NewClassicNameServer 0) small_events TypeA (lit "a.com.") record_a.
Proof.
  apply (cache_explained 0 small_events small_server (lit "a.com.") {| rec_A := Some record_a; rec_AAAA := None |});
    vm_compute; reflexivity.
Defined.

(** ** Two panics *)

(** A name of 255 bytes without a dot at its end is too long for a message once the dot
    is added. *)
Theorem long_name_panics now4 now6 now s :
  ips s = ∅ → queryStrategy s = 0 →
  QueryIP_begin now4 now6 now (replicate 255 97) both false s = Panic.
Proof.
  intros Hi Hq. unfold QueryIP_begin. rewrite Hq.
  assert (ResolveIpOptionOverride 0 both = both) as -> by done. cbn [both IPv4Enable IPv6Enable negb andb].
  unfold findIPsForDomain. rewrite Hi, lookup_empty. unfold sendQuery, buildReqMsgs.
  rewrite decide_True; [done|]. vm_compute. lia.
Qed.

(** The length in front of a response over TCP is read as a signed number: from 32768 on
    it is negative, and reading so many bytes slices the buffer out of range. *)
Theorem tcp_length_panics n b s :
  0x8000 ≤ n < 0x10000 → ReadFullFrom (Clear b) s (n - 0x10000) = None.
Proof.
  intros Hn. unfold ReadFullFrom. change (end_ (Clear b)) with 0.
  assert (i32 (0 + (n - 0x10000)) = n - 0x10000) as -> by (unfold i32; rewrite Z.mod_small; lia).
  rewrite decide_False by lia. unfold array_slice. by rewrite decide_False by lia.
Qed.
