(* ===== verification/Dns.v ===== *)
(** The DNS client of the core (src/upstream/xray-core/app/dns: dns.go,
    nameserver.go): which name servers are asked for a name and in which order, and
    how an answer is chosen.  The name servers themselves are an argument; for UDP
    and the caches see DnsCache, for the fake DNS FakeDns. *)
From stdpp Require Import gmap.
From S2P Require Import Prelude GoText NetIP Address StrMatcher AcAutomaton Mph Conditions DnsHosts DnsCache.

(** ** Text *)

Definition TrimSuffix (s suffix : bytes) : bytes :=
  if HasSuffix s suffix then take (length s - length suffix) s else s.

(** A rune up to the case of ASCII letters; two other runes fold to k and s. *)
Definition fold_rune (r : Z) : Z :=
  if decide (65 ≤ r ≤ 90) then r + 32 else if decide (r = 0x17F) then 115 else if decide (r = 0x212A) then 107 else r.

(** [strings.EqualFold] when one of the texts is ASCII. *)
Definition EqualFold_ascii (s t : bytes) : bool :=
  bool_decide (fold_rune ∘ fst <$> Utf8.runes s = fold_rune ∘ fst <$> Utf8.runes t).

(** ** Name servers *)

(** The implementations of [Server]. *)
Inductive ServerKind :=
  | LocalNameServer
  | DoHNameServer (url : bytes) (remote : bool)
  | QUICNameServer (url : bytes)
  | TCPNameServer (url : bytes) (remote : bool)
  | FakeDNSServer
  | UDPNameServer (dest : Destination).

(** [url.Parse]: the text and the scheme of a URL. *)
Class UrlParser := url_Parse : bytes → option (bytes * bytes).

(** [NewServer]: [Fail] is an error, [Panic] a nil address. *)
Definition NewServer `{UrlParser} (dest : Destination) : outcome ServerKind :=
  let classic :=
    let network := if decide (dest_Network dest = Network_Unknown) then Network_UDP else dest_Network dest in
    if decide (network = Network_UDP)
    then Ret (UDPNameServer {| dest_Address := dest_Address dest; dest_Port := dest_Port dest; dest_Network := network |})
    else Fail in
  match dest_Address dest with
  | None => Panic
  | Some (domainAddress d) =>
    match url_Parse d with
    | None => Fail
    | Some (text, scheme) =>
      if EqualFold_ascii text (lit "localhost") then Ret LocalNameServer
      else if EqualFold_ascii scheme (lit "https") then Ret (DoHNameServer text true)
      else if EqualFold_ascii scheme (lit "https+local") then Ret (DoHNameServer text false)
      else if EqualFold_ascii scheme (lit "quic+local") then Ret (QUICNameServer text)
      else if EqualFold_ascii scheme (lit "tcp") then Ret (TCPNameServer text true)
      else if EqualFold_ascii scheme (lit "tcp+local") then Ret (TCPNameServer text false)
      else if EqualFold_ascii text (lit "fakedns") then Ret FakeDNSServer
      else classic
    end
  | Some _ => classic
  end.

(** What the servers are to their client, over a state [W] of the world. *)
Class NameServers (W : Type) := {
  Server : Type;
  make_Server : ServerKind → Z → option Server;
  srv_Name : Server → bytes;
  srv_QueryIP : Server → bytes → bytes → IPOption → bool → W → outcome (W * (list bytes * option dns_error)) }.

(** ** The configuration *)

Record NameServer `{Netipx} := {
  ns_Address : Destination;
  ns_ClientIp : bytes;
  ns_SkipFallback : bool;
  ns_PrioritizedDomain : list (Z * bytes);
  ns_OriginalRules : list (bytes * Z);
  ns_Geoip : list GeoIP;
  ns_QueryStrategy : Z }.

Record Config `{Netipx} := {
  cf_ClientIp : bytes;
  cf_Tag : bytes;
  cf_QueryStrategy : Z;
  cf_StaticHosts : list HostMapping;
  cf_Hosts : list (bytes * option (option IPOrDomain));
  cf_NameServers : list Destination;
  cf_NameServer : list NameServer;
  cf_DisableCache : bool;
  cf_DisableFallback : bool;
  cf_DisableFallbackIfMatch : bool }.

Definition localTLDsAndDotlessDomains : list (Z * bytes) :=
  [(3, lit "^[^.]+$"); (1, lit "local"); (1, lit "localdomain"); (1, lit "localhost"); (1, lit "lan");
   (1, lit "home.arpa"); (1, lit "example"); (1, lit "invalid"); (1, lit "test")].

Definition localTLDsAndDotlessDomainsRule : bytes * Z :=
  (lit "geosite:private", Z.of_nat (length localTLDsAndDotlessDomains)).

Section dns.
Context {W : Type} `{Netipx, RegexpEngine, UrlParser, NS : NameServers W}.

Record Client := {
  server : Server;
  clientIP : bytes;
  skipFallback : bool;
  domains : list bytes;
  expectIPs : list GeoIPMatcher }.

Definition client_Name (c : Client) : bytes := srv_Name (server c).

(** The client index and the rule index of a matcher; an entry that was not set is a
    nil pointer. *)
Record DomainMatcherInfo := Info { clientIdx : Z; domainRuleIdx : Z }.

(** [updateDomain] of [New]. *)
Definition updateDomain (clientIdx : nat) (domainRule : Matcher) (originalRuleIdx : nat)
    (infos : list (option DomainMatcherInfo)) (g : MatcherGroup) : outcome (list (option DomainMatcherInfo) * MatcherGroup) :=
  let '(g, midx) := group_Add domainRule g in
  if decide (0 ≤ midx < Z.of_nat (length infos))
  then Ret (<[Z.to_nat midx := Some (Info (u16 (Z.of_nat clientIdx)) (u16 (Z.of_nat originalRuleIdx)))]> infos, g)
  else Panic.

(** The loop of [NewClient] over the domains of a server: the rules so far, the current
    one and how many of its domains were seen. *)
Fixpoint rules_loop (clientIdx : nat) (ds : list (Z * bytes)) (orig : list (bytes * Z))
    (rules : list bytes) (ruleCurr : nat) (ruleIter : Z)
    (infos : list (option DomainMatcherInfo)) (g : MatcherGroup) :
    outcome (list bytes * list (option DomainMatcherInfo) * MatcherGroup) :=
  match ds with
  | [] => Ret (rules, infos, g)
  | (t, domain) :: ds =>
    let? domainRule := toStrMatcher t domain in
    let originalRuleIdx := ruleCurr in
    let '(rules, ruleCurr, ruleIter) :=
      match orig !! ruleCurr with
      | Some (rule, size) =>
        let rules := if decide (length rules ≤ ruleCurr)%nat then rules ++ [rule] else rules in
        let ruleIter := ruleIter + 1 in
        if decide (size ≤ ruleIter) then (rules, S ruleCurr, 0) else (rules, ruleCurr, ruleIter)
      | None => (rules ++ [Matcher_String domainRule], S ruleCurr, ruleIter)
      end in
    let? (infos, g) := updateDomain clientIdx domainRule originalRuleIdx infos g in
    rules_loop clientIdx ds orig rules ruleCurr ruleIter infos g
  end.

(** The local server also has the names that stay in the house. *)
Definition with_local_rules (kind : ServerKind) (ns : NameServer) (infos : list (option DomainMatcherInfo)) :
    list (Z * bytes) * list (bytes * Z) * list (option DomainMatcherInfo) :=
  match kind with
  | LocalNameServer =>
    (ns_PrioritizedDomain ns ++ localTLDsAndDotlessDomains,
     ns_OriginalRules ns ++ [localTLDsAndDotlessDomainsRule],
     infos ++ replicate (length localTLDsAndDotlessDomains) (Some (Info 0 0)))
  | _ => (ns_PrioritizedDomain ns, ns_OriginalRules ns, infos)
  end.

Definition NewClient (ns : NameServer) (myClientIP : bytes) (clientIdx : nat)
    (infos : list (option DomainMatcherInfo)) (g : MatcherGroup) :
    outcome (Client * list (option DomainMatcherInfo) * MatcherGroup) :=
  let? kind := NewServer (ns_Address ns) in
  match make_Server kind (ns_QueryStrategy ns) with
  | None => Fail
  | Some srv =>
    let '(ds, orig, infos) := with_local_rules kind ns infos in
    let? (rules, infos, g) := rules_loop clientIdx ds orig [] 0 0 infos g in
    match geoip_loop (ns_Geoip ns) [] with
    | (None, _) => Fail
    | (Some matchers, _) =>
      Ret ({| server := srv; clientIP := myClientIP; skipFallback := ns_SkipFallback ns;
              domains := rules; expectIPs := matchers |}, infos, g)
    end
  end.

Definition NewSimpleClient (endpoint : Destination) (myClientIP : bytes) : outcome Client :=
  let? kind := NewServer endpoint in
  match make_Server kind 0 with
  | None => Fail
  | Some srv => Ret {| server := srv; clientIP := myClientIP; skipFallback := false; domains := []; expectIPs := [] |}
  end.

Definition NewLocalDNSClient : outcome Client :=
  match make_Server LocalNameServer 0 with
  | None => Fail
  | Some srv => Ret {| server := srv; clientIP := []; skipFallback := false; domains := []; expectIPs := [] |}
  end.

(** ** The DNS *)

Record DNS := {
  tag : bytes;
  disableCache : bool;
  disableFallback : bool;
  disableFallbackIfMatch : bool;
  ipOption : option IPOption;
  hosts : StaticHosts;
  clients : list Client;
  dm : MatcherGroup;
  matcherInfos : list (option DomainMatcherInfo) }.

Fixpoint simple_loop (endpoints : list Destination) (ip : bytes) : outcome (list Client) :=
  match endpoints with
  | [] => Ret []
  | e :: endpoints =>
    let? c := NewSimpleClient e ip in
    let? rest := simple_loop endpoints ip in
    Ret (c :: rest)
  end.

Fixpoint servers_loop (nss : list NameServer) (ip : bytes) (cs : list Client)
    (infos : list (option DomainMatcherInfo)) (g : MatcherGroup) :
    outcome (list Client * list (option DomainMatcherInfo) * MatcherGroup) :=
  match nss with
  | [] => Ret (cs, infos, g)
  | ns :: nss =>
    let myClientIP := if decide (length (ns_ClientIp ns) = 4 ∨ length (ns_ClientIp ns) = 16)%nat then ns_ClientIp ns else ip in
    let? (c, infos, g) := NewClient ns myClientIP (length cs) infos g in
    servers_loop nss ip (cs ++ [c]) infos g
  end.

Definition strategy_option (queryStrategy : Z) : option IPOption :=
  if decide (queryStrategy = 0) then Some {| IPv4Enable := true; IPv6Enable := true; FakeEnable := false |}
  else if decide (queryStrategy = 1) then Some {| IPv4Enable := true; IPv6Enable := false; FakeEnable := false |}
  else if decide (queryStrategy = 2) then Some {| IPv4Enable := false; IPv6Enable := true; FakeEnable := false |}
  else None.

(** [New]; [random] is the tag that is generated when none is given. *)
Definition New (random : bytes) (config : Config) : outcome DNS :=
  if decide (length (cf_ClientIp config) ∉ [0; 4; 16]%nat) then Fail
  else
    let? hs := NewStaticHosts (cf_StaticHosts config) (cf_Hosts config) in
    let domainRuleCount := sum_list ((length ∘ ns_PrioritizedDomain) <$> cf_NameServer config) in
    let? simple := simple_loop (cf_NameServers config) (cf_ClientIp config) in
    let? (cs, infos, g) := servers_loop (cf_NameServer config) (cf_ClientIp config) simple
                             (replicate (domainRuleCount + 1) None) empty_group in
    let? cs := match cs with [] => let? c := NewLocalDNSClient in Ret [c] | _ :: _ => Ret cs end in
    Ret {| tag := if decide (0 < length (cf_Tag config))%nat then cf_Tag config else random;
           disableCache := cf_DisableCache config;
           disableFallback := cf_DisableFallback config;
           disableFallbackIfMatch := cf_DisableFallbackIfMatch config;
           ipOption := strategy_option (cf_QueryStrategy config);
           hosts := hs; clients := cs; dm := g; matcherInfos := infos |}.

(** *** The order of the clients *)

(** The loop of [sortClients] over the matches: the clients so far.  A client that is
    already there is not used again; every index is checked. *)
Fixpoint match_clients (s : DNS) (matches : list Z) (used : list nat) : outcome (list nat) :=
  match matches with
  | [] => Ret used
  | m :: matches =>
    match matcherInfos s !! Z.to_nat m with
    | Some (Some (Info clientIdx domainRuleIdx)) =>
      match clients s !! Z.to_nat clientIdx with
      | Some client =>
        match domains client !! Z.to_nat domainRuleIdx with
        | Some _ =>
          match_clients s matches
            (if decide (Z.to_nat clientIdx ∈ used) then used else used ++ [Z.to_nat clientIdx])
        | None => Panic
        end
      | None => Panic
      end
    | _ => Panic
    end
  end.

(** The clients that are asked anyway. *)
Definition fallback_clients (s : DNS) (used : list nat) : list nat :=
  filter (λ i, i ∉ used ∧ (skipFallback <$> clients s !! i) = Some false) (seq 0 (length (clients s))).

(** Clients are given by their indexes. *)
Definition sortClients (s : DNS) (domain : bytes) : outcome (list nat) :=
  let? matched := match_clients s (group_Match (dm s) domain) [] in
  let hasMatch := bool_decide (0 < length matched)%nat in
  let order := matched ++
    (if negb (disableFallback s || disableFallbackIfMatch s && hasMatch) then fallback_clients s matched else []) in
  match order with
  | [] => if decide (0 < length (clients s))%nat then Ret [0%nat] else Panic
  | _ :: _ => Ret order
  end.

(** *** Queries *)

Definition MatchExpectedIPs (c : Client) (ips : list bytes) : result dns_error (list bytes) :=
  if decide (length (expectIPs c) = 0%nat) then Ok ips
  else
    let newIps := filter (λ ip, existsb (λ matcher, GeoIPMatcher_Match matcher ip) (expectIPs c) = true) ips in
    if decide (length newIps = 0%nat) then Err ExpectedIPNonMatch else Ok newIps.

(** [Client.QueryIP]; addresses may come with an error. *)
Definition client_QueryIP (c : Client) (domain : bytes) (opt : IPOption) (noCache : bool) (w : W) :
    outcome (W * (list bytes * option dns_error)) :=
  let? (w, (ips, err)) := srv_QueryIP (server c) domain (clientIP c) opt noCache w in
  match err with
  | Some _ => Ret (w, (ips, err))
  | None => match MatchExpectedIPs c ips with
            | Ok ips => Ret (w, (ips, None))
            | Err e => Ret (w, ([], Some e))
            end
  end.

(** An error after which the next client is asked. *)
Definition try_next (err : option dns_error) : bool :=
  match err with
  | Some Canceled | Some DeadlineExceeded | Some ExpectedIPNonMatch | Some EmptyResponse => true
  | _ => bool_decide (RCodeFromError err = 5)
  end.

(** The loop of [LookupIP] over the clients; [None] for the error is nil. *)
Fixpoint query_loop (s : DNS) (order : list nat) (domain : bytes) (opt : IPOption) (w : W) :
    outcome (W * (list bytes * option dns_error)) :=
  match order with
  | [] => Ret (w, ([], Some OtherError))
  | i :: order =>
    match clients s !! i with
    | None => Panic
    | Some client =>
      if negb (FakeEnable opt) && EqualFold_ascii (client_Name client) (lit "FakeDNS")
      then query_loop s order domain opt w
      else
        let? (w, (ips, err)) := client_QueryIP client domain opt (disableCache s) w in
        if decide (0 < length ips)%nat then Ret (w, (ips, None))
        else if try_next err then query_loop s order domain opt w
        else Ret (w, ([], err))
    end
  end.

Definition LookupIP (s : DNS) (domain : bytes) (opt : IPOption) (w : W) :
    outcome (W * (list bytes * option dns_error)) :=
  if decide (domain = []) then Ret (w, ([], Some OtherError))
  else
    ret_or_panic (ipOption s) (λ own,
    let opt := {| IPv4Enable := IPv4Enable opt && IPv4Enable own; IPv6Enable := IPv6Enable opt && IPv6Enable own;
                     FakeEnable := FakeEnable opt |} in
    if negb (IPv4Enable opt) && negb (IPv6Enable opt) then Ret (w, ([], Some EmptyResponse))
    else
      let domain := TrimSuffix domain [dot] in
      let ask domain :=
        let? order := sortClients s domain in
        query_loop s order domain opt w in
      let? addrs := Lookup (hosts s) domain opt in
      match addrs with
      | None => ask domain
      | Some [] => Ret (w, ([], Some EmptyResponse))
      | Some [domainAddress d] => ask d
      | Some addrs => match toIPs addrs with
                      | Some ips => Ret (w, (ips, None))
                      | None => Ret (w, ([], Some OtherError))
                      end
      end).

Definition LookupHosts (s : DNS) (domain : bytes) : outcome (option Address) :=
  let domain := TrimSuffix domain [dot] in
  if decide (domain = []) then Ret None
  else
    ret_or_panic (ipOption s) (λ own,
    let? addrs := Lookup (hosts s) domain own in
    Ret (addrs ≫= head)).


(** ** What [New] builds *)

(** The matchers of a DNS: each with its client and its rule. *)
Abbreviation rule_table := (list (Matcher * (nat * nat))).

Record tabled (rt : rule_table) (infos : list (option DomainMatcherInfo)) (g : MatcherGroup) : Prop := {
  tb_group : g = group_of rt.*1;
  tb_infos : ∀ i x a b, rt !! i = Some (x, (a, b)) → infos !! S i = Some (Some (Info (u16 (Z.of_nat a)) (u16 (Z.of_nat b)))) }.

Lemma updateDomain_tabled rt infos g clientIdx x r infos' g' :
  tabled rt infos g → Z.of_nat (length rt) < 2 ^ 32 - 1 →
  updateDomain clientIdx x r infos g = Ret (infos', g') → tabled (rt ++ [(x, (clientIdx, r))]) infos' g'.
Proof.
  intros [-> Hi] Hw. unfold updateDomain.
  pose proof (group_Add_index rt.*1 x) as Hid. pose proof (group_Add_of rt.*1 x) as Hg.
  destruct (group_Add x (group_of rt.*1)) as [g1 midx]. cbn [fst snd] in Hid, Hg. rewrite length_fmap in Hid.
  rewrite wrap_small in Hid by (unfold is_uint; lia). subst midx g1. case_decide as Hr; [|done]. intros [= <- <-].
  rewrite Nat2Z.id. split; [by rewrite fmap_app|].
  intros i y a b [Hiy|[Hle Hiy]]%lookup_app_Some.
  - rewrite list_lookup_insert_ne; [by apply (Hi i y)|]. apply lookup_lt_Some in Hiy. lia.
  - apply list_lookup_singleton_Some in Hiy as [E [= <- <- <-]]. assert (i = length rt) as -> by lia.
    apply list_lookup_insert_eq. lia.
Qed.

(** The rules so far, the current one and the count of its domains fit together. *)
Definition rules_ok (orig : list (bytes * Z)) (rules : list bytes) (ruleCurr : nat) (ruleIter : Z) : Prop :=
  0 ≤ ruleIter ∧ (0 < ruleIter → is_Some (orig !! ruleCurr)) ∧
  length rules = (ruleCurr + (if decide (0 < ruleIter)%Z then 1 else 0))%nat.

Lemma rules_loop_tabled clientIdx ds orig rules ruleCurr ruleIter infos g rt rules' infos' g' :
  rules_ok orig rules ruleCurr ruleIter → tabled rt infos g → Z.of_nat (length rt + length ds) < 2 ^ 32 - 1 →
  rules_loop clientIdx ds orig rules ruleCurr ruleIter infos g = Ret (rules', infos', g') →
  ∃ new, tabled (rt ++ new) infos' g' ∧
    Forall2 (λ d e, toStrMatcher d.1 d.2 = Ret e.1 ∧ e.2.1 = clientIdx ∧ (e.2.2 < length rules')%nat) ds new ∧
    (length rules ≤ length rules' ≤ length rules + length ds)%nat.
Proof.
  revert rules ruleCurr ruleIter infos g rt. induction ds as [|[t domain] ds IH];
    intros rules ruleCurr ruleIter infos g rt Hok Ht Hw; cbn [rules_loop].
  { intros [= <- <- <-]. exists []. rewrite app_nil_r. split_and!; [done|constructor|lia|cbn; lia]. }
  destruct (toStrMatcher t domain) as [x| |] eqn:Ex; [|done..]. cbn [outcome_bind].
  destruct (match orig !! ruleCurr with Some _ => _ | None => _ end) as [[rules1 curr1] iter1] eqn:Er.
  assert (rules_ok orig rules1 curr1 iter1 ∧ (ruleCurr < length rules1)%nat ∧
          (length rules ≤ length rules1 ≤ length rules + 1)%nat) as (Hok1 & Hlt & Hgrow).
  { destruct Hok as (Hpos & Hs & Hl). destruct (orig !! ruleCurr) as [[rule size]|] eqn:Eo.
    - assert (length rules = ruleCurr ∨ length rules = S ruleCurr) as Hl2 by (destruct (decide (0 < ruleIter)); lia).
      assert (length (if decide (length rules ≤ ruleCurr)%nat then rules ++ [rule] else rules) = S ruleCurr) as Hl1
        by (destruct (decide (length rules ≤ ruleCurr)%nat); [rewrite length_app; cbn|]; lia).
      destruct (decide (size ≤ ruleIter + 1)); injection Er as <- <- <-; unfold rules_ok; rewrite Hl1.
      + split_and!; (lia || done).
      + rewrite decide_True by lia. split_and!; (lia || done).
    - assert (ruleIter = 0) as ->.
      { destruct (decide (0 < ruleIter)) as [Hp|]; [|lia]. destruct (Hs Hp). congruence. }
      injection Er as <- <- <-. unfold rules_ok. rewrite length_app, Hl. cbn. split_and!; try lia; try done. }
  destruct (updateDomain clientIdx x ruleCurr infos g) as [[infos1 g1]| |] eqn:Eu; [|done..]. cbn [outcome_bind].
  cbn [length] in Hw. apply (updateDomain_tabled rt) in Eu; [|done|lia]. intros E.
  apply (IH _ _ _ _ _ (rt ++ [(x, (clientIdx, ruleCurr))])) in E as (new & Htab & Hnew & Hl); [|done|done|rewrite length_app; cbn; lia].
  exists ((x, (clientIdx, ruleCurr)) :: new). rewrite <- app_assoc in Htab. split_and!; [done| |lia|cbn; lia].
  constructor; [|done]. cbn. split_and!; [done|done|lia].
Qed.

(** The domains for which a server has a rule. *)
Definition server_domains (ns : NameServer) : list (Z * bytes) :=
  match NewServer (ns_Address ns) with
  | Ret LocalNameServer => ns_PrioritizedDomain ns ++ localTLDsAndDotlessDomains
  | _ => ns_PrioritizedDomain ns
  end.

Lemma NewClient_tabled ns ip clientIdx infos g rt c infos' g' :
  tabled rt infos g → Z.of_nat (length rt + length (server_domains ns)) < 2 ^ 32 - 1 →
  NewClient ns ip clientIdx infos g = Ret (c, infos', g') →
  skipFallback c = ns_SkipFallback ns ∧ (length (domains c) ≤ length (server_domains ns))%nat ∧
  ∃ new, tabled (rt ++ new) infos' g' ∧
    Forall2 (λ d e, toStrMatcher d.1 d.2 = Ret e.1 ∧ e.2.1 = clientIdx ∧ (e.2.2 < length (domains c))%nat)
      (server_domains ns) new.
Proof.
  intros Ht Hw. unfold NewClient.
  destruct (NewServer (ns_Address ns)) as [kind| |] eqn:En; [|done..]. cbn [outcome_bind].
  destruct (make_Server kind (ns_QueryStrategy ns)) as [srv|]; [|done].
  destruct (with_local_rules kind ns infos) as [[ds orig] infos1] eqn:Ek.
  assert (ds = server_domains ns ∧ tabled rt infos1 g) as [-> Ht1].
  { unfold server_domains. rewrite En. destruct kind; injection Ek as <- <- <-; (split; [done|]); [|done..].
    destruct Ht as [Hg Hi]. split; [done|]. intros i x a b Hx. apply lookup_app_l_Some. by apply (Hi i x). }
  destruct (rules_loop clientIdx _ orig [] 0 0 infos1 g) as [[[rules infos2] g2]| |] eqn:Er; [|done..]. cbn [outcome_bind].
  apply (rules_loop_tabled clientIdx _ orig [] 0 0 infos1 g rt) in Er as (new & Htab & Hnew & Hl); [|by split|done|done].
  destruct (geoip_loop (ns_Geoip ns) []) as [[ms|] ?]; [|done]. intros [= <- <- <-].
  cbn [skipFallback domains length] in *. split; [done|]. split; [lia|]. by exists new.
Qed.

(** The clients and their rules after the loop of [New] over the servers. *)
Lemma servers_loop_tabled nss ip cs infos g rt cs' infos' g' :
  tabled rt infos g →
  Z.of_nat (length rt + sum_list ((length ∘ server_domains) <$> nss)) < 2 ^ 32 - 1 →
  servers_loop nss ip cs infos g = Ret (cs', infos', g') →
  ∃ rts, tabled (rt ++ mjoin rts) infos' g' ∧ length rts = length nss ∧
    ∃ more, cs' = cs ++ more ∧ length more = length nss ∧
    ∀ j ns, nss !! j = Some ns → ∃ c new, more !! j = Some c ∧ rts !! j = Some new ∧
      skipFallback c = ns_SkipFallback ns ∧ (length (domains c) ≤ length (server_domains ns))%nat ∧
      Forall2 (λ d e, toStrMatcher d.1 d.2 = Ret e.1 ∧ e.2.1 = (length cs + j)%nat ∧ (e.2.2 < length (domains c))%nat)
        (server_domains ns) new.
Proof.
  revert cs infos g rt. induction nss as [|ns nss IH]; intros cs infos g rt Ht Hw; cbn [servers_loop].
  { intros [= <- <- <-]. exists []. rewrite app_nil_r. split; [done|]. split; [done|]. exists [].
    rewrite app_nil_r. split_and!; [done..|]. by intros j ns. }
  destruct (NewClient ns _ (length cs) infos g) as [[[c infos1] g1]| |] eqn:Ec; [|done..]. cbn [outcome_bind].
  cbn [fmap list_fmap sum_list] in Hw. unfold compose in Hw at 1.
  apply (NewClient_tabled _ _ _ _ _ rt) in Ec as (Hskip & Hlen & new & Htab & Hnew); [|done|cbn in Hw; lia].
  pose proof (Forall2_length _ _ _ Hnew) as Hl. intros E.
  apply (IH _ _ _ (rt ++ new)) in E as (rts & Htab' & Hlr & more & -> & Hlm & Hj);
    [|done|rewrite length_app; cbn in Hw; lia].
  exists (new :: rts). cbn [mjoin list_join]. rewrite <- app_assoc in Htab'. split; [done|]. split; [cbn; lia|].
  exists (c :: more). rewrite <- app_assoc. split; [done|]. split; [cbn; lia|].
  intros [|j] ns' Hns; cbn in Hns.
  - injection Hns as <-. exists c, new. split_and!; try done. eapply Forall2_impl; [exact Hnew|].
    intros d e (? & ? & ?). split_and!; [done|lia|done].
  - destruct (Hj j ns' Hns) as (c' & new' & Hc' & Hn' & Hs' & Hd' & Hf'). exists c', new'. split_and!; try done.
    eapply Forall2_impl; [exact Hf'|]. intros d e (? & Ha & ?). rewrite length_app in Ha. cbn in Ha. split_and!; [done|lia|done].
Qed.

(** ** The order of the clients *)

(** A DNS whose tables fit together. *)
Record ready (s : DNS) (rt : rule_table) : Prop := {
  rd_tabled : tabled rt (matcherInfos s) (dm s);
  rd_rules : ∀ x a b, (x, (a, b)) ∈ rt →
    Z.of_nat a < 2 ^ 16 ∧ Z.of_nat b < 2 ^ 16 ∧ ∃ c, clients s !! a = Some c ∧ (b < length (domains c))%nat;
  rd_size : Z.of_nat (length rt) < 2 ^ 32 - 1;
  rd_clients : (0 < length (clients s))%nat }.

Lemma match_clients_ready s rt matches used :
  ready s rt → NoDup used → (∀ m, m ∈ matches → ∃ x, (x, m) ∈ indexed rt.*1) →
  ∃ order, match_clients s matches used = Ret order ∧ NoDup order ∧
    ∀ i, i ∈ order ↔ i ∈ used ∨ ∃ k x b, Z.of_nat (S k) ∈ matches ∧ rt !! k = Some (x, (i, b)).
Proof.
  intros Hr. revert used. induction matches as [|m matches IH]; intros used Hd Hin.
  { exists used. split_and!; [done..|]. intros i. split; [auto|]. intros [Hi|(k & x & b & Hm & _)]; [done|]. by apply elem_of_nil in Hm. }
  destruct (Hin m (list_elem_of_here _ _)) as [x Hx].
  apply indexed_lookup in Hx as (k & Hk & ->); [|rewrite length_fmap; apply Hr].
  rewrite list_lookup_fmap in Hk. destruct (rt !! k) as [[x' [a b]]|] eqn:Ek; [|done].
  destruct (rd_rules _ _ Hr x' a b) as (Ha & Hb & c & Hc & Hbl); [by eapply list_elem_of_lookup_2|].
  cbn [match_clients]. rewrite Nat2Z.id, (tb_infos _ _ _ (rd_tabled _ _ Hr) k x' a b Ek).
  rewrite !wrap_small by (unfold is_uint; lia). rewrite !Nat2Z.id, Hc.
  destruct (lookup_lt_is_Some_2 (domains c) b Hbl) as [d ->].
  destruct (IH (if decide (a ∈ used) then used else used ++ [a])) as (order & Eo & Hdo & Hord).
  { case_decide; [done|]. apply NoDup_app. split_and!; [done| |apply NoDup_singleton]. set_solver. }
  { intros m Hm. apply Hin. by right. }
  exists order. split_and!; [done..|]. intros i. rewrite Hord.
  assert (i ∈ (if decide (a ∈ used) then used else used ++ [a]) ↔ i ∈ used ∨ i = a) as ->.
  { case_decide; [naive_solver|]. rewrite elem_of_app, list_elem_of_singleton. done. }
  split.
  - intros [[Hi| ->]|(k' & y & b' & Hm & Hy)]; [auto| |].
    + right. exists k, x', b. split; [apply list_elem_of_here|done].
    + right. exists k', y, b'. split; [by right|done].
  - intros [Hi|(k' & y & b' & Hm & Hy)]; [auto|]. apply elem_of_cons in Hm as [E|Hm].
    + assert (k' = k) as -> by lia. rewrite Ek in Hy. injection Hy as _ <- _. auto.
    + right. eauto.
Qed.

(** A matcher of the table that matches the name. *)
Lemma matching_rules s rt domain i :
  ready s rt → domain ≠ [] →
  (∃ k x b, Z.of_nat (S k) ∈ group_Match (dm s) domain ∧ rt !! k = Some (x, (i, b))) ↔
  ∃ x b, (x, (i, b)) ∈ rt ∧ Matcher_Match x domain = true.
Proof.
  intros Hr Hd. rewrite (tb_group _ _ _ (rd_tabled _ _ Hr)).
  assert (∀ k x i b, rt !! k = Some (x, (i, b)) →
    (Z.of_nat (S k) ∈ group_Match (group_of rt.*1) domain ↔ Matcher_Match x domain = true)) as Hk.
  { intros k x j b Ek. rewrite (group_Match_entries rt.*1 domain Hd). split.
    - intros ([y m] & E & [Hy Hin]%list_elem_of_filter)%list_elem_of_fmap. cbn in E, Hy.
      apply indexed_lookup in Hin as (k' & Hk' & ->); [|rewrite length_fmap; apply Hr].
      assert (k' = k) as -> by lia. rewrite list_lookup_fmap, Ek in Hk'. by injection Hk' as <-.
    - intros Hm. apply list_elem_of_fmap. exists (x, Z.of_nat (S k)). split; [done|].
      apply list_elem_of_filter. split; [done|]. unfold indexed. apply list_elem_of_lookup. exists k.
      rewrite list_lookup_imap, list_lookup_fmap, Ek. cbn. do 2 f_equal. apply wrap_small.
      pose proof (rd_size _ _ Hr). apply lookup_lt_Some in Ek. unfold is_uint. lia. }
  split.
  - intros (k & x & b & Hm & Ek). exists x, b. split; [by eapply list_elem_of_lookup_2|]. by apply (Hk k x i b).
  - intros (x & b & [k Ek]%list_elem_of_lookup & Hm). exists k, x, b. split; [|done]. by apply (Hk k x i b).
Qed.

(** What [sortClients] gives, for a name that some rules match. *)
Definition in_order (s : DNS) (matched : list nat) : list nat :=
  matched ++ (if negb (disableFallback s || disableFallbackIfMatch s && bool_decide (0 < length matched)%nat)
              then fallback_clients s matched else []).

Lemma sortClients_ready s rt domain :
  ready s rt → ∃ matched, NoDup matched ∧
    (domain ≠ [] → ∀ i, i ∈ matched ↔ ∃ x b, (x, (i, b)) ∈ rt ∧ Matcher_Match x domain = true) ∧
    (∀ i, i ∈ matched → (i < length (clients s))%nat) ∧
    sortClients s domain = Ret (match in_order s matched with [] => [0%nat] | order => order end).
Proof.
  intros Hr. destruct (match_clients_ready s rt (group_Match (dm s) domain) []) as (matched & E & Hd & Hm); [done|constructor| |].
  { rewrite (tb_group _ _ _ (rd_tabled _ _ Hr)). intros m. apply group_Match_index. }
  exists matched. split_and!; [done| | |].
  - intros Hne i. rewrite Hm, <- (matching_rules s rt domain i) by done. set_solver.
  - intros i [Hi|(k & x & b & _ & Hk)]%Hm; [set_solver|].
    destruct (rd_rules _ _ Hr x i b) as (_ & _ & c & Hc & _); [by eapply list_elem_of_lookup_2|]. by eapply lookup_lt_Some.
  - unfold sortClients. rewrite E. cbn [outcome_bind]. fold (in_order s matched).
    destruct (in_order s matched); [|done]. by rewrite decide_True by apply Hr.
Qed.

Lemma in_order_spec s matched i :
  i ∈ in_order s matched ↔ i ∈ matched ∨
    (disableFallback s = false ∧ (disableFallbackIfMatch s = true → matched = []) ∧ i ∉ matched ∧
     (skipFallback <$> clients s !! i) = Some false).
Proof.
  unfold in_order. rewrite elem_of_app. f_equiv.
  destruct (disableFallback s); cbn [orb negb]; [split; [set_solver|by intros [? _]]|].
  destruct (disableFallbackIfMatch s); cbn [andb].
  - destruct matched as [|m matched]; cbn [length].
    + rewrite bool_decide_false by lia. cbn [negb]. unfold fallback_clients. rewrite list_elem_of_filter, elem_of_seq.
      split; [naive_solver|]. intros (_ & _ & Hn & Hs). split_and!; [done|done|lia|].
      destruct (clients s !! i) eqn:E; [|done]. apply lookup_lt_Some in E. lia.
    + rewrite bool_decide_true by lia. cbn [negb]. split; [set_solver|]. intros (_ & Hn & _). by specialize (Hn eq_refl).
  - unfold fallback_clients. cbn [negb]. rewrite list_elem_of_filter, elem_of_seq.
    split; [naive_solver|]. intros (_ & _ & Hn & Hs). split_and!; [done|done|lia|].
    destruct (clients s !! i) eqn:E; [|done]. apply lookup_lt_Some in E. lia.
Qed.

Lemma in_order_NoDup s matched : NoDup matched → NoDup (in_order s matched).
Proof.
  intros Hd. unfold in_order. apply NoDup_app. split_and!; [done| |].
  - intros i Hi. destruct (negb _); [|apply not_elem_of_nil]. unfold fallback_clients.
    rewrite list_elem_of_filter. naive_solver.
  - destruct (negb _); [|constructor]. apply NoDup_filter, NoDup_seq.
Qed.

(** ** From the configuration *)

(** A rule of the [i]-th client matches the name. *)
Definition wants (config : Config) (domain : bytes) (i : nat) : Prop :=
  ∃ j ns d x, cf_NameServer config !! j = Some ns ∧ i = (length (cf_NameServers config) + j)%nat ∧
    d ∈ server_domains ns ∧ toStrMatcher d.1 d.2 = Ret x ∧ Matcher_Match x domain = true.

(** Clients and rules are numbered with 16 bits. *)
Definition within_limits (config : Config) : Prop :=
  Z.of_nat (length (cf_NameServers config) + length (cf_NameServer config)) < 2 ^ 16 ∧
  Forall (λ ns, Z.of_nat (length (server_domains ns)) < 2 ^ 16) (cf_NameServer config).

Lemma simple_loop_length es ip cs : simple_loop es ip = Ret cs → length cs = length es.
Proof.
  revert cs. induction es as [|e es IH]; intros cs; cbn [simple_loop]; [by intros [= <-]|].
  destruct (NewSimpleClient e ip) as [c| |]; [|done..]. cbn [outcome_bind].
  destruct (simple_loop es ip) as [rest| |]; [|done..]. cbn [outcome_bind]. intros [= <-]. cbn. by rewrite (IH rest).
Qed.

Lemma sum_bound (l : list nat) b : Forall (λ n, Z.of_nat n ≤ b) l → Z.of_nat (sum_list l) ≤ Z.of_nat (length l) * b.
Proof.
  induction 1 as [|n l Hn _ IH]; [done|]. cbn [length]. change (sum_list (n :: l)) with (n + sum_list l)%nat.
  rewrite Nat2Z.inj_succ, Z.mul_succ_l, Nat2Z.inj_add. lia.
Qed.

Lemma New_ready random config s :
  New random config = Ret s → within_limits config →
  ∃ rt, ready s rt ∧
    (∀ i domain, (∃ x b, (x, (i, b)) ∈ rt ∧ Matcher_Match x domain = true) ↔ wants config domain i) ∧
    (∀ j ns, cf_NameServer config !! j = Some ns →
       skipFallback <$> clients s !! (length (cf_NameServers config) + j)%nat = Some (ns_SkipFallback ns)) ∧
    NewStaticHosts (cf_StaticHosts config) (cf_Hosts config) = Ret (hosts s) ∧
    ipOption s = strategy_option (cf_QueryStrategy config).
Proof.
  intros E [Hl1 Hl2]. unfold New in E. case_decide; [done|].
  destruct (NewStaticHosts _ _) as [hs| |]; [|done..]. cbn [outcome_bind] in E.
  destruct (simple_loop _ _) as [simple| |] eqn:Es; [|done..]. cbn [outcome_bind] in E. apply simple_loop_length in Es.
  destruct (servers_loop _ _ _ _ _) as [[[cs infos] g]| |] eqn:Ev; [|done..]. cbn [outcome_bind] in E.
  assert (Z.of_nat (sum_list ((length ∘ server_domains) <$> cf_NameServer config)) < 2 ^ 32 - 1) as Hsum.
  { pose proof (sum_bound ((length ∘ server_domains) <$> cf_NameServer config) (2 ^ 16 - 1)) as Hb.
    rewrite length_fmap in Hb. assert (Forall (λ n, Z.of_nat n ≤ 2 ^ 16 - 1) ((length ∘ server_domains) <$> cf_NameServer config)) as Hf.
    { apply Forall_fmap. eapply Forall_impl; [exact Hl2|]. intros ns Hns. cbn in *. lia. }
    specialize (Hb Hf). nia. }
  apply (servers_loop_tabled _ _ _ _ _ []) in Ev as (rts & Htab & Hlr & more & -> & Hlm & Hj); [|by split|done].
  cbn [app] in Htab.
  assert (Z.of_nat (length (mjoin rts)) < 2 ^ 32 - 1) as Hrt.
  { assert (length (mjoin rts) = sum_list ((length ∘ server_domains) <$> cf_NameServer config)) as ->; [|done].
    clear -Hlr Hj. revert rts more Hlr Hj. generalize (length simple) as n. induction (cf_NameServer config) as [|ns nss IH];
      intros n [|new rts] more Hlr Hj; try done.
    destruct (Hj 0%nat ns eq_refl) as (c & new' & _ & [= <-] & _ & _ & Hf). apply Forall2_length in Hf.
    cbn. rewrite length_app, Hf. f_equal. apply (IH (S n) rts (tail more)); [by injection Hlr|].
    intros j ns' Hns. destruct (Hj (S j) ns' Hns) as (c' & new' & Hc' & Hn' & ? & ? & Hf'). exists c', new'.
    split_and!; try done; [by destruct more|]. eapply Forall2_impl; [exact Hf'|]. intros d e (? & ? & ?). split_and!; [done|lia|done]. }
  assert (∃ cs', clients s = cs' ∧ (0 < length cs')%nat ∧ matcherInfos s = infos ∧ dm s = g ∧ hosts s = hs ∧
          ipOption s = strategy_option (cf_QueryStrategy config) ∧
          ∀ i c, (simple ++ more) !! i = Some c → cs' !! i = Some c) as (cs' & Ecs & Hpos & Ei & Eg & Eh & Eo & Hcs).
  { destruct (simple ++ more) as [|c0 cs0].
    - destruct NewLocalDNSClient as [c| |]; [|done..]. cbn [outcome_bind] in E. injection E as <-. cbn.
      eexists. split_and!; try done. cbn; lia.
    - cbn [outcome_bind] in E. injection E as <-. cbn. eexists. split_and!; try done. all: cbn; lia. }
  assert (∀ x a b, (x, (a, b)) ∈ mjoin rts ↔ ∃ j ns new d, cf_NameServer config !! j = Some ns ∧ rts !! j = Some new ∧
    a = (length simple + j)%nat ∧ d ∈ server_domains ns ∧ toStrMatcher d.1 d.2 = Ret x ∧ (x, (a, b)) ∈ new) as Hrts.
  { intros x a b. rewrite list_elem_of_join. split.
    - intros (new & Hx & [j Hn]%list_elem_of_lookup).
      destruct (lookup_lt_is_Some_2 (cf_NameServer config) j) as [ns Hns]; [rewrite <- Hlr; by eapply lookup_lt_Some|].
      destruct (Hj j ns Hns) as (c & new' & _ & Hn' & _ & _ & Hf). rewrite Hn in Hn'. injection Hn' as <-.
      pose proof Hx as [k Hk]%list_elem_of_lookup. destruct (Forall2_lookup_r _ _ _ _ _ Hf Hk) as (d & Hd & Ht & Ha & _).
      exists j, ns, new, d. split_and!; try done. by eapply list_elem_of_lookup_2.
    - intros (j & ns & new & d & _ & Hn & _ & _ & _ & Hx). exists new. split; [done|]. by eapply list_elem_of_lookup_2. }
  exists (mjoin rts). rewrite Eh, Eo. split_and!; try done.
  - split; [by rewrite Ei, Eg| |done|by rewrite Ecs]. intros x a b (j & ns & new & d & Hns & Hn & -> & _ & _ & Hx)%Hrts.
    destruct (Hj j ns Hns) as (c & new' & Hc & Hn' & _ & Hlen & Hf). rewrite Hn in Hn'. injection Hn' as <-.
    pose proof Hx as [k Hk]%list_elem_of_lookup. destruct (Forall2_lookup_r _ _ _ _ _ Hf Hk) as (d' & _ & _ & _ & Hb). cbn in Hb.
    pose proof (lookup_lt_Some _ _ _ Hns). eapply Forall_lookup_1 in Hl2; [|exact Hns]. split_and!; [lia|lia|].
    exists c. split; [|done]. rewrite Ecs. apply Hcs. rewrite lookup_app_r by lia. by replace (length simple + j - length simple)%nat with j by lia.
  - intros i domain. unfold wants. split.
    + intros (x & b & (j & ns & new & d & Hns & _ & -> & Hd & Ht & _)%Hrts & Hm). exists j, ns, d, x. by rewrite Es in *.
    + intros (j & ns & d & x & Hns & -> & Hd & Ht & Hm).
      destruct (Hj j ns Hns) as (c & new & Hc & Hn & _ & _ & Hf).
      pose proof Hd as [k Hk]%list_elem_of_lookup. destruct (Forall2_lookup_l _ _ _ _ _ Hf Hk) as ([y [a b]] & Hy & Ht' & Ha & _).
      cbn in Ht', Ha. rewrite Ht in Ht'. injection Ht' as <-. exists x, b. split; [|done]. apply Hrts.
      exists j, ns, new, d. subst a. rewrite Es in *. split_and!; try done. by eapply list_elem_of_lookup_2.
  - intros j ns Hns. destruct (Hj j ns Hns) as (c & new & Hc & _ & Hs & _). rewrite Ecs, (Hcs _ c).
    + cbn. by rewrite Hs.
    + rewrite lookup_app_r by lia. by replace (length (cf_NameServers config) + j - length simple)%nat with j by lia.
Qed.


(** *** A lookup always returns *)

Lemma query_loop_total s order domain opt w :
  (∀ srv d ip opt c w, ∃ r, srv_QueryIP srv d ip opt c w = Ret r) →
  (∀ i, i ∈ order → (i < length (clients s))%nat) → ∃ r, query_loop s order domain opt w = Ret r.
Proof.
  intros Hsrv. revert w. induction order as [|i order IH]; intros w Hi; cbn [query_loop]; [by eexists|].
  destruct (lookup_lt_is_Some_2 (clients s) i) as [c Hc]; [apply Hi, list_elem_of_here|]. rewrite Hc.
  assert (∀ i, i ∈ order → (i < length (clients s))%nat) as Hi' by (intros i' Hi'; apply Hi; by right).
  destruct (negb _ && _); [by apply IH|]. unfold client_QueryIP.
  destruct (Hsrv (server c) domain (clientIP c) opt (disableCache s) w) as [[w' [ips err]] ->]. cbn [outcome_bind].
  assert (∃ r, match err with
               | Some _ => Ret (w', (ips, err))
               | None => match MatchExpectedIPs c ips with Ok ips => Ret (w', (ips, None)) | Err e => Ret (w', ([], Some e)) end
               end = Ret r) as [[w2 [ips2 err2]] ->].
  { destruct err; [by eexists|]. destruct (MatchExpectedIPs c ips); by eexists. }
  cbn [outcome_bind]. case_decide; [by eexists|]. destruct (try_next err2); [by apply IH|by eexists].
Qed.

(** C23. A DNS made from a configuration with a known query strategy answers every lookup
    without a panic, if its name servers do. *)
Theorem LookupIP_total random config s domain opt w :
  New random config = Ret s → within_limits config →
  Z.of_nat (length (cf_StaticHosts config) + length (cf_Hosts config) + 16) < 2 ^ 32 - 1 →
  0 ≤ cf_QueryStrategy config ≤ 2 →
  (∀ srv d ip opt c w, ∃ r, srv_QueryIP srv d ip opt c w = Ret r) →
  ∃ r, LookupIP s domain opt w = Ret r.
Proof.
  intros E Hl Hh Hq Hsrv. destruct (New_ready _ _ _ E Hl) as (rt & Hr & _ & _ & Ehosts & Eo).
  unfold LookupIP. case_decide; [by eexists|]. rewrite Eo.
  assert (∃ own, strategy_option (cf_QueryStrategy config) = Some own) as [own ->].
  { unfold strategy_option. repeat (case_decide; [by eexists|]). lia. }
  cbn [ret_or_panic]. cbv zeta. set (opt' := {| IPv4Enable := _ |}).
  destruct (negb (IPv4Enable opt') && negb (IPv6Enable opt')); [by eexists|].
  assert (∀ d, ∃ r, (let? order := sortClients s d in query_loop s order d opt' w) = Ret r) as Hask.
  { intros d. destruct (sortClients_ready s rt d Hr) as (matched & _ & _ & Hlt & ->). cbn [outcome_bind].
    apply query_loop_total; [done|]. intros i. pose proof (rd_clients _ _ Hr).
    destruct (in_order s matched) as [|i0 l] eqn:El; [by intros ->%list_elem_of_singleton|].
    intros Hi. pose proof (in_order_spec s matched i) as Hin. rewrite El in Hin. apply Hin in Hi as [Hi|(_ & _ & _ & Hs)]; [auto|].
    destruct (clients s !! i) eqn:Ei; [|done]. by eapply lookup_lt_Some. }
  destruct (lookup_spec (hosts s) 5 (TrimSuffix domain [dot]) opt') as (r & Er & _).
  { intros s0. by eapply hosts_total. }
  unfold Lookup. rewrite Er. cbn [outcome_bind].
  destruct r as [[|[a|a|d] [|b addrs]]|]; try (by eexists); try apply Hask; destruct (toIPs _); by eexists.
Qed.
End dns.

(** ** A small configuration *)

Definition no_sets : Netipx :=
  {| IPSet := unit; IPSetBuilder_IPSet := λ _, Some tt; IPSet_Contains := λ _ _, false; FromStdIP := Some |}.

Definition plain_urls : UrlParser := λ s, Some (s, []).

Definition kind_name (k : ServerKind) : bytes :=
  match k with
  | LocalNameServer => lit "localhost" | FakeDNSServer => lit "FakeDNS" | UDPNameServer _ => lit "UDP" | _ => lit "other"
  end.

(** Servers that know one address each, but those for UDP, which know none. *)
Definition small_servers : NameServers unit :=
  {| Server := ServerKind; make_Server := λ k _, Some k; srv_Name := kind_name;
     srv_QueryIP := λ k _ _ _ _ w,
       Ret (w, match k with UDPNameServer _ => ([], Some EmptyResponse) | _ => ([[127; 0; 0; 1]], None) end) |}.

#[local] Existing Instances no_sets plain_urls small_servers literal_regexp.

Definition udp_at (ip : bytes) : Destination :=
  {| dest_Address := Some (ipv4Address ip); dest_Port := 53; dest_Network := Network_UDP |}.

Definition name_server (dest : Destination) (ds : list (Z * bytes)) : NameServer :=
  {| ns_Address := dest; ns_ClientIp := []; ns_SkipFallback := false; ns_PrioritizedDomain := ds;
     ns_OriginalRules := []; ns_Geoip := []; ns_QueryStrategy := 0 |}.

Definition small_dns : Config :=
  {| cf_ClientIp := []; cf_Tag := []; cf_QueryStrategy := 0; cf_StaticHosts := two_hosts; cf_Hosts := [];
     cf_NameServers := [udp_at [1; 1; 1; 1]];
     cf_NameServer := [name_server (udp_at [8; 8; 8; 8]) [];
                       name_server {| dest_Address := Some (DomainAddress (lit "LocalHost")); dest_Port := 0; dest_Network := Network_UDP |}
                         [(1, lit "home")]];
     cf_DisableCache := false; cf_DisableFallback := false; cf_DisableFallbackIfMatch := false |}.

Definition empty_dns : DNS :=
  {| tag := []; disableCache := false; disableFallback := false; disableFallbackIfMatch := false; ipOption := None;
     hosts := {| h_ips := []; h_matchers := empty_group |}; clients := []; dm := empty_group; matcherInfos := [] |}.

Definition small_built : DNS := match New (lit "tag") small_dns with Ret s => s | _ => empty_dns end.

Lemma small_dns_built : New (lit "tag") small_dns = Ret small_built.
Proof. vm_compute. reflexivity. Qed.

Lemma small_dns_limits : within_limits small_dns.
Proof. split; [vm_compute; reflexivity|]. repeat constructor. Qed.

(** The local server is asked first for its names, the others in their order. *)
Example small_order : sortClients small_built (lit "tv.home") = Ret [2; 0; 1]%nat ∧ sortClients small_built (lit "a.b") = Ret [0; 1; 2]%nat.
Proof. vm_compute. done. Qed.


Lemma LookupIP_total_witness :
  LookupIP small_built (lit "tv.home.") both tt = Ret (tt, ([[127; 0; 0; 1]], None)) ∧
  ∃ r, LookupIP small_built (lit "a.b") both tt = Ret r.
Proof.
  split; [vm_compute; reflexivity|].
  apply (LookupIP_total (lit "tag") small_dns small_built (lit "a.b") both tt small_dns_built small_dns_limits).
  - vm_compute. reflexivity.
  - cbn. lia.
  - intros srv d ip opt c w. by eexists.
Defined.
