(* ===== verification/ContentSniff.v ===== *)
(** The sniffers of the core over the first bytes of a connection
    (src/upstream/xray-core/common/protocol: tls/sniff.go, http/sniff.go,
    http/headers.go, bittorrent/bittorrent.go).  [None] is a run-time panic, or a
    loop that is still running without fuel. *)
From S2P Require Import Prelude GoText NetIP NetIP6 GoConv Address Sniffer.

(** [ErrNoClue] asks for more bytes, any other error rules the protocol out. *)
Inductive sniff_error := ErrNoClue | ErrOther.

#[global] Instance sniff_error_eq_dec : EqDecision sniff_error.
Proof. solve_decision. Defined.

(** ** TLS *)

(** [int(data[i])<<8 | int(data[i+1])]. *)
Definition u16_index (data : bytes) (i : nat) : option nat :=
  a ← data !! i; b ← data !! S i; Some (Z.to_nat (a * 256 + b)).

(** The loop over the names of a server_name extension: [Ok (Some name)] ends the
    search, [Ok None] goes on with the next extension. *)
Fixpoint tls_names (fuel : nat) (d : bytes) : option (result sniff_error (option bytes)) :=
  match fuel with
  | O => None
  | S fuel =>
    if decide (0 < length d)%nat then
      if decide (length d < 3)%nat then Some (Err ErrOther)
      else
        nameType ← d !! 0%nat;
        nameLen ← u16_index d 1;
        let d := drop 3 d in
        if decide (length d < nameLen)%nat then Some (Err ErrOther)
        else if decide (nameType = 0%Z) then
          let serverName := take nameLen d in
          if decide (last serverName = Some 46%Z) then Some (Err ErrOther)
          else Some (Ok (Some serverName))
        else tls_names fuel (drop nameLen d)
    else Some (Ok None)
  end.

(** The loop over the extensions. *)
Fixpoint tls_extensions (fuel : nat) (data : bytes) : option (result sniff_error bytes) :=
  match fuel with
  | O => None
  | S fuel =>
    if decide (length data ≠ 0)%nat then
      if decide (length data < 4)%nat then Some (Err ErrOther)
      else
        extension ← u16_index data 0;
        len ← u16_index data 2;
        let data := drop 4 data in
        if decide (length data < len)%nat then Some (Err ErrOther)
        else if decide (extension = 0)%nat then
          let d := take len data in
          if decide (length d < 2)%nat then Some (Err ErrOther)
          else
            namesLen ← u16_index d 0;
            let d := drop 2 d in
            if decide (length d ≠ namesLen) then Some (Err ErrOther)
            else
              r ← tls_names (S (length d)) d;
              match r with
              | Err e => Some (Err e)
              | Ok (Some name) => Some (Ok name)
              | Ok None => tls_extensions fuel (drop len data)
              end
        else tls_extensions fuel (drop len data)
    else Some (Err ErrOther)
  end.

(** [ReadClientHello]: the server name. *)
Definition ReadClientHello (data : bytes) : option (result sniff_error bytes) :=
  if decide (length data < 42)%nat then Some (Err ErrNoClue)
  else
    sid ← data !! 38%nat;
    let sessionIDLen := Z.to_nat sid in
    if decide (32 < sessionIDLen ∨ length data < 39 + sessionIDLen)%nat then Some (Err ErrNoClue)
    else
      let data := drop (39 + sessionIDLen) data in
      if decide (length data < 2)%nat then Some (Err ErrNoClue)
      else
        cipherSuiteLen ← u16_index data 0;
        if decide (Nat.odd cipherSuiteLen = true ∨ length data < 2 + cipherSuiteLen)%nat then Some (Err ErrOther)
        else
          let data := drop (2 + cipherSuiteLen) data in
          if decide (length data < 1)%nat then Some (Err ErrNoClue)
          else
            comp ← data !! 0%nat;
            let compressionMethodsLen := Z.to_nat comp in
            if decide (length data < 1 + compressionMethodsLen)%nat then Some (Err ErrNoClue)
            else
              let data := drop (1 + compressionMethodsLen) data in
              if decide (length data < 2)%nat then Some (Err ErrOther)
              else
                extensionsLength ← u16_index data 0;
                let data := drop 2 data in
                if decide (extensionsLength ≠ length data) then Some (Err ErrOther)
                else tls_extensions (S (length data)) data.

Definition IsValidTLSVersion (major minor : Z) : bool := bool_decide (major = 3).

Definition SniffTLS (b : bytes) : option (result sniff_error bytes) :=
  if decide (length b < 5)%nat then Some (Err ErrNoClue)
  else
    b0 ← b !! 0%nat; b1 ← b !! 1%nat; b2 ← b !! 2%nat;
    if decide (b0 ≠ 0x16) then Some (Err ErrOther)
    else if negb (IsValidTLSVersion b1 b2) then Some (Err ErrOther)
    else
      headerLen ← u16_index b 3;
      if decide (length b < 5 + headerLen)%nat then Some (Err ErrNoClue)
      else data ← slice b 5 (5 + headerLen); ReadClientHello data.

(** ** HTTP *)

Definition methods : list bytes := lit <$> ["get"; "post"; "head"; "put"; "delete"; "options"; "connect"]%string.

(** [beginWithHTTPMethod]; the texts are compared with ASCII words of their length,
    so the other runes that fold to letters, which are longer, do not matter. *)
Fixpoint beginWithHTTPMethod (ms : list bytes) (b : bytes) : result sniff_error unit :=
  match ms with
  | [] => Err ErrOther
  | m :: ms =>
    if decide (length m ≤ length b ∧ ascii_lower <$> take (length m) b = m)%nat then Ok tt
    else if decide (length b < length m)%nat then Err ErrNoClue
    else beginWithHTTPMethod ms b
  end.

(** The error of [SplitHostPort] says that there is no port. *)
Definition missing_port (hostport : bytes) : bool :=
  match last_index hostport 58 with
  | None => true
  | Some i =>
    if decide (head hostport = Some 91) then
      match Index hostport [93] with
      | None => false
      | Some e => if decide (S e = i) then false else bool_decide (hostport !! S e ≠ Some 58)
      end
    else false
  end.

(** [ParseHost]; [None] is an error. *)
Definition ParseHost (rawHost : bytes) (defaultPort : Z) : option Destination :=
  match SplitHostPort rawHost with
  | None => if missing_port rawHost then Some (TCPDestination (ParseAddress rawHost) defaultPort) else None
  | Some (host, rawPort) =>
    match rawPort with
    | [] => Some (TCPDestination (ParseAddress host) defaultPort)
    | _ :: _ => intPort ← Atoi rawPort; Some (TCPDestination (ParseAddress host) (u16 intPort))
    end
  end.

Section http.
Context `{UnicodeTables}.

(** The loop of [SniffHTTP] over the lines after the first. *)
Fixpoint http_lines (headers : list bytes) (host : bytes) : option (result sniff_error bytes) :=
  match headers with
  | [] => Some (Ok host)
  | header :: headers =>
    if decide (length header = 0%nat) then Some (Ok host)
    else match Index header [58] with
         | None => http_lines headers host
         | Some i =>
           if decide (ToLower (take i header) = lit "host") then
             let rawHost := ToLower (TrimSpace (drop (S i) header)) in
             match ParseHost rawHost 80 with
             | None => Some (Err ErrOther)
             | Some dest => a ← dest_Address dest; http_lines headers (Address_String a)
             end
           else http_lines headers host
         end
  end.

Definition SniffHTTP (b : bytes) : option (result sniff_error bytes) :=
  match beginWithHTTPMethod methods b with
  | Err e => Some (Err e)
  | Ok _ =>
    r ← http_lines (tail (Split b [10])) [];
    match r with
    | Err e => Some (Err e)
    | Ok host => if decide (0 < length host)%nat then Some (Ok host) else Some (Err ErrNoClue)
    end
  end.

End http.

(** ** BitTorrent *)

Definition SniffBittorrent (b : bytes) : option (result sniff_error unit) :=
  if decide (length b < 20)%nat then Some (Err ErrNoClue)
  else
    b0 ← b !! 0%nat;
    s ← slice b 1 20;
    if decide (b0 = 19 ∧ s = lit "BitTorrent protocol") then Some (Ok tt) else Some (Err ErrOther).

(** [binary.Read] of one byte, and of four, from the front of a buffer. *)
Definition read_u8 (buffer : bytes) : option (Z * bytes) :=
  match buffer with b :: rest => Some (b, rest) | [] => None end.

Definition read_n (n : nat) (buffer : bytes) : option (bytes * bytes) :=
  if decide (length buffer < n)%nat then None else Some (take n buffer, drop n buffer).

(** The loop over the extensions of a uTP header. *)
Fixpoint utp_extensions (fuel : nat) (extension : Z) (buffer : bytes) : option (result sniff_error bytes) :=
  match fuel with
  | O => None
  | S fuel =>
    if decide (extension ≠ 0) then
      if decide (extension ≠ 1) then Some (Err ErrOther)
      else match read_u8 buffer with
           | None => Some (Err ErrNoClue)
           | Some (extension, buffer) =>
             match read_u8 buffer with
             | None => Some (Err ErrNoClue)
             | Some (len, buffer) =>
               match read_n (Z.to_nat len) buffer with
               | None => Some (Err ErrNoClue)
               | Some (_, buffer) => utp_extensions fuel extension buffer
               end
             end
           end
    else Some (Ok buffer)
  end.

(** [float64(24*time.Hour)]: a duration is a number of nanoseconds. *)
Definition day : Z := 24 * 3600 * 1000000000.

(** [SniffUTP] at the time [now] in microseconds; the numbers are far below the ones
    that a float64 rounds. *)
Definition SniffUTP (now : Z) (b : bytes) : option (result sniff_error unit) :=
  if decide (length b < 20)%nat then Some (Err ErrNoClue)
  else
    match read_u8 b with
    | None => Some (Err ErrNoClue)
    | Some (_, buffer) =>
      b0 ← b !! 0%nat;
      if decide (4 < Z.land (Z.shiftr b0 4) 0xF ∨ Z.land b0 0xF ≠ 1) then Some (Err ErrOther)
      else
        match read_u8 buffer with
        | None => Some (Err ErrNoClue)
        | Some (extension, buffer) =>
          if decide (extension ≠ 0 ∧ extension ≠ 1) then Some (Err ErrOther)
          else
            r ← utp_extensions (S (length buffer)) extension buffer;
            match r with
            | Err e => Some (Err e)
            | Ok buffer =>
              match read_n 2 buffer with
              | None => Some (Err ErrNoClue)
              | Some (_, buffer) =>
                match read_n 4 buffer with
                | None => Some (Err ErrNoClue)
                | Some (t, _) =>
                  if decide (day < Z.abs (now - be_val t)) then Some (Err ErrOther) else Some (Ok tt)
                end
              end
            end
        end
    end.

(** ** No panic, and termination *)

Lemma u16_index_Some data i : (i + 2 ≤ length data)%nat → ∃ v, u16_index data i = Some v.
Proof.
  intros Hl. unfold u16_index. destruct (lookup_total_lt data i) as [a ->]; [lia|].
  destruct (lookup_total_lt data (S i)) as [b ->]; [lia|]. by eexists.
Qed.

Lemma tls_names_returns fuel d : (length d < fuel)%nat → ∃ r, tls_names fuel d = Some r.
Proof.
  revert d. induction fuel as [|fuel IH]; intros d Hf; [lia|]. cbn [tls_names].
  case_decide; [|by eexists]. case_decide as Hl; [by eexists|].
  destruct (lookup_total_lt d 0) as [t ->]; [lia|]. destruct (u16_index_Some d 1) as [n ->]; [lia|].
  cbn [mbind option_bind]. rewrite !length_drop. case_decide; [by eexists|]. case_decide; [case_decide; by eexists|].
  apply IH. rewrite !length_drop. lia.
Qed.

Lemma tls_extensions_returns fuel data : (length data < fuel)%nat → ∃ r, tls_extensions fuel data = Some r.
Proof.
  revert data. induction fuel as [|fuel IH]; intros data Hf; [lia|]. cbn [tls_extensions].
  case_decide; [|by eexists]. case_decide; [by eexists|].
  destruct (u16_index_Some data 0) as [ty ->]; [lia|]. destruct (u16_index_Some data 2) as [n ->]; [lia|].
  cbn [mbind option_bind]. rewrite length_drop. case_decide; [by eexists|].
  assert (∃ r, tls_extensions fuel (drop n (drop 4 data)) = Some r) as Hrest
    by (apply IH; rewrite !length_drop; lia).
  case_decide; [|done]. case_decide as Hlt2; [by eexists|].
  destruct (u16_index_Some (take n (drop 4 data)) 0) as [m ->]; [lia|]. cbn [mbind option_bind].
  case_decide; [by eexists|].
  destruct (tls_names_returns (S (length (drop 2 (take n (drop 4 data))))) (drop 2 (take n (drop 4 data)))) as [[[x|]|e] ->];
    [lia|by eexists|done|by eexists].
Qed.

Lemma SniffTLS_returns b : ∃ r, SniffTLS b = Some r.
Proof.
  unfold SniffTLS. case_decide; [by eexists|].
  destruct (lookup_total_lt b 0) as [b0 ->]; [lia|]. destruct (lookup_total_lt b 1) as [b1 ->]; [lia|].
  destruct (lookup_total_lt b 2) as [b2 ->]; [lia|]. cbn [mbind option_bind]. case_decide; [by eexists|].
  destruct (negb _); [by eexists|]. destruct (u16_index_Some b 3) as [n ->]; [lia|]. cbn [mbind option_bind].
  case_decide; [by eexists|]. rewrite slice_Some by lia. cbn [mbind option_bind]. set (data := take _ _).
  unfold ReadClientHello. case_decide; [by eexists|].
  destruct (lookup_total_lt data 38) as [sid ->]; [lia|]. cbn [mbind option_bind]. cbv zeta. case_decide; [by eexists|].
  case_decide; [by eexists|]. destruct (u16_index_Some (drop (39 + Z.to_nat sid) data) 0) as [cs ->]; [lia|].
  cbn [mbind option_bind]. case_decide; [by eexists|]. case_decide; [by eexists|].
  destruct (lookup_total_lt (drop (2 + cs) (drop (39 + Z.to_nat sid) data)) 0) as [cm ->]; [lia|].
  cbn [mbind option_bind]. case_decide; [by eexists|]. case_decide; [by eexists|].
  destruct (u16_index_Some (drop (1 + Z.to_nat cm) (drop (2 + cs) (drop (39 + Z.to_nat sid) data))) 0) as [el ->]; [lia|].
  cbn [mbind option_bind]. case_decide; [by eexists|]. apply tls_extensions_returns. lia.
Qed.

Lemma ParseAddress_returns s : is_Some (ParseAddress s).
Proof.
  unfold ParseAddress. destruct (ParseIP _) as [ip|] eqn:E; [|by eexists].
  apply ParseIP_sound in E as (_ & _ & _ & Hl). unfold IPAddress. rewrite decide_False by lia. rewrite decide_True by done.
  case_decide; by eexists.
Qed.

Lemma ParseHost_address s p dest : ParseHost s p = Some dest → is_Some (dest_Address dest).
Proof.
  unfold ParseHost. destruct (SplitHostPort s) as [[host [|c port]]|].
  - intros [= <-]. apply ParseAddress_returns.
  - destruct (Atoi (c :: port)); [|done]. intros [= <-]. apply ParseAddress_returns.
  - destruct (missing_port s); [|done]. intros [= <-]. apply ParseAddress_returns.
Qed.

Section http_total.
Context `{UnicodeTables}.

Lemma http_lines_returns headers host : ∃ r, http_lines headers host = Some r.
Proof.
  revert host. induction headers as [|header headers IH]; intros host; [by eexists|]. cbn [http_lines].
  case_decide; [by eexists|]. destruct (Index header [58]) as [i|]; [|apply IH].
  case_decide; [|apply IH]. destruct (ParseHost _ 80) as [dest|] eqn:E; [|by eexists].
  apply ParseHost_address in E as [a ->]. cbn [mbind option_bind]. apply IH.
Qed.

Lemma SniffHTTP_returns b : ∃ r, SniffHTTP b = Some r.
Proof.
  unfold SniffHTTP. destruct (beginWithHTTPMethod methods b); [|by eexists].
  destruct (http_lines_returns (tail (Split b [10])) []) as [[host|e] ->]; cbn [mbind option_bind]; [|by eexists].
  case_decide; by eexists.
Qed.
End http_total.

Lemma SniffBittorrent_returns b : ∃ r, SniffBittorrent b = Some r.
Proof.
  unfold SniffBittorrent. case_decide; [by eexists|]. destruct (lookup_total_lt b 0) as [b0 ->]; [lia|].
  rewrite slice_Some by lia. cbn [mbind option_bind]. case_decide; by eexists.
Qed.

Lemma utp_extensions_returns fuel e b : (length b < fuel)%nat → ∃ r, utp_extensions fuel e b = Some r.
Proof.
  revert e b. induction fuel as [|fuel IH]; intros e b Hf; [lia|]. cbn [utp_extensions].
  case_decide; [|by eexists]. case_decide; [by eexists|]. destruct b as [|x b]; [by eexists|]. cbn [read_u8].
  destruct b as [|y b]; [by eexists|]. cbn [read_u8]. unfold read_n. case_decide; [by eexists|]. apply IH.
  rewrite length_drop. cbn in Hf. lia.
Qed.

Lemma SniffUTP_returns now b : ∃ r, SniffUTP now b = Some r.
Proof.
  unfold SniffUTP. case_decide; [by eexists|]. destruct b as [|b0 b]; [by eexists|]. cbn [read_u8 lookup list_lookup mbind option_bind].
  case_decide; [by eexists|]. destruct b as [|e b]; [by eexists|]. cbn [read_u8]. case_decide; [by eexists|].
  destruct (utp_extensions_returns (S (length b)) e b) as [[r|err] ->]; [lia| |by eexists]. cbn [mbind option_bind].
  destruct (read_n 2 r) as [[x r']|]; [|by eexists]. destruct (read_n 4 r') as [[t r2]|]; [|by eexists].
  case_decide; by eexists.
Qed.

(** The content sniffers return for every payload: no index or slice expression is
    out of range, and their loops end. *)
Theorem content_sniffers_total `{UnicodeTables} (now : Z) (b : bytes) :
  (∃ r, SniffTLS b = Some r) ∧ (∃ r, SniffHTTP b = Some r) ∧ (∃ r, SniffBittorrent b = Some r) ∧
  (∃ r, SniffUTP now b = Some r).
Proof. auto using SniffTLS_returns, SniffHTTP_returns, SniffBittorrent_returns, SniffUTP_returns. Qed.

(** ** The server name of a ClientHello *)

Lemma u16_index_be data i v k :
  drop i data = be_bytes 2 v ++ k → 0 ≤ v < 65536 → u16_index data i = Some (Z.to_nat v).
Proof.
  intros Hd Hv. cbn [be_bytes app] in Hd. unfold u16_index. rewrite (lookup_at_drop _ _ _ _ Hd).
  pose proof (drop_next data [_] _ i 1 Hd eq_refl) as Hd1. rewrite Nat.add_1_r in Hd1. rewrite (lookup_at_drop _ _ _ _ Hd1).
  cbn [mbind option_bind]. f_equal. f_equal. change (256 ^ Z.of_nat 1) with 256. change (256 ^ Z.of_nat 0) with 1.
  rewrite Z.div_1_r. rewrite (Z.mod_small (v / 256)) by (split; [apply Z.div_pos|apply Z.div_lt_upper_bound]; lia).
  pose proof (Z.div_mod v 256 ltac:(lia)). lia.
Qed.

Lemma tls_names_host fuel host post :
  Z.of_nat (length host) < 65536 → last host ≠ Some 46 → (0 < fuel)%nat →
  tls_names fuel ([0] ++ vec16 host ++ post) = Some (Ok (Some host)).
Proof.
  intros Hh Hl Hf. destruct fuel as [|fuel]; [lia|]. cbn [tls_names]. rewrite decide_True by (cbn; lia).
  rewrite decide_False by (rewrite !length_app, vec16_length; cbn; lia). cbn [lookup list_lookup app mbind option_bind].
  rewrite (u16_index_be _ 1 (Z.of_nat (length host)) (host ++ post)) by (cbn [drop]; unfold vec16; rewrite <- ?app_assoc; done || lia).
  cbn [mbind option_bind]. rewrite Nat2Z.id. unfold vec16.
  change (drop 3 (0 :: (be_bytes 2 (Z.of_nat (length host)) ++ host) ++ post)) with (host ++ post).
  rewrite decide_False by (rewrite length_app; lia). rewrite decide_True by done. rewrite take_app_length' by done.
  by rewrite decide_False.
Qed.

Lemma drop2_vec16 s : drop 2 (vec16 s) = s.
Proof. unfold vec16. by rewrite drop_app_length' by (by rewrite be_bytes_length). Qed.

Lemma tls_extensions_hello before fuel host post :
  let exts := mjoin (extension <$> before) ++ sni_extension host ++ post in
  Forall (λ x, 0 < x.1 < 65536) before → Z.of_nat (length exts) < 65536 →
  last host ≠ Some 46 → (length before < fuel)%nat →
  tls_extensions fuel exts = Some (Ok host).
Proof.
  revert fuel. induction before as [|x before IH]; intros fuel exts Hall Hlen Hlast Hf;
    (destruct fuel as [|fuel]; [simpl in Hf; lia|]); cbn [tls_extensions].
  - subst exts. cbn [fmap list_fmap mjoin list_join app] in *. rewrite length_app, sni_extension_length in Hlen.
    rewrite decide_True by (rewrite length_app, sni_extension_length; lia).
    rewrite decide_False by (rewrite length_app, sni_extension_length; lia).
    set (names := vec16 (0 :: vec16 host)).
    assert (length names = (5 + length host)%nat) as Hnl.
    { unfold names. rewrite vec16_length. cbn [length]. rewrite vec16_length. lia. }
    assert (sni_extension host ++ post = be_bytes 2 0 ++ be_bytes 2 (Z.of_nat (length names)) ++ names ++ post) as ->.
    { unfold sni_extension, extension. cbn [fst snd]. unfold vec16 at 1. fold names. by rewrite <- !app_assoc. }
    rewrite (u16_index_be _ 0 0 (be_bytes 2 (Z.of_nat (length names)) ++ names ++ post)) by (done || lia).
    rewrite (u16_index_be _ 2 (Z.of_nat (length names)) (names ++ post)) by (done || lia). cbn [mbind option_bind].
    rewrite Nat2Z.id. change (drop 4 (be_bytes 2 0 ++ be_bytes 2 (Z.of_nat (length names)) ++ names ++ post)) with (names ++ post).
    rewrite decide_False by (rewrite length_app; lia). rewrite decide_True by done.
    rewrite take_app_length' by done. rewrite decide_False by lia.
    rewrite (u16_index_be _ 0 (Z.of_nat (length (0 :: vec16 host))) (0 :: vec16 host))
      by (done || cbn [length]; rewrite vec16_length; lia).
    cbn [mbind option_bind]. rewrite Nat2Z.id.
    assert (drop 2 names = 0 :: vec16 host) as Hdn by apply drop2_vec16. rewrite !Hdn.
    rewrite decide_False by (intros Hx; by apply Hx).
    pose proof (tls_names_host (S (length (0 :: vec16 host))) host []) as Hn. rewrite app_nil_r in Hn.
    cbn [app] in Hn. rewrite Hn by (done || lia). done.
  - inv Hall. assert (exts = extension x ++ (mjoin (extension <$> before) ++ sni_extension host ++ post)) as Hexts.
    { unfold exts. cbn [fmap list_fmap mjoin list_join]. by rewrite <- app_assoc. }
    clearbody exts. subst exts. set (rest := mjoin _ ++ _) in *. rewrite length_app, extension_length in Hlen.
    rewrite decide_True by (rewrite length_app, extension_length; lia).
    rewrite decide_False by (rewrite length_app, extension_length; lia).
    assert (extension x ++ rest = be_bytes 2 x.1 ++ be_bytes 2 (Z.of_nat (length x.2)) ++ x.2 ++ rest) as ->.
    { unfold extension, vec16. by rewrite <- !app_assoc. }
    rewrite (u16_index_be _ 0 x.1 (be_bytes 2 (Z.of_nat (length x.2)) ++ x.2 ++ rest)) by (done || lia).
    rewrite (u16_index_be _ 2 (Z.of_nat (length x.2)) (x.2 ++ rest)) by (done || lia). cbn [mbind option_bind].
    rewrite Nat2Z.id. change (drop 4 (be_bytes 2 x.1 ++ be_bytes 2 (Z.of_nat (length x.2)) ++ x.2 ++ rest)) with (x.2 ++ rest).
    rewrite decide_False by (rewrite length_app; lia). rewrite decide_False by lia.
    rewrite drop_app_length' by done. apply IH; [done|lia|done|simpl in Hf; lia].
Qed.

(** What the core asks of a ClientHello beyond the form of the message. *)
Definition core_hello_ok (h : hello) : Prop :=
  hello_ok h ∧ (length (h_sid h) ≤ 32)%nat ∧ Nat.even (length (h_ciphers h)) = true ∧
  last (h_host h) ≠ Some 46 ∧ Z.of_nat (length (hello_body h)) + 4 < 65536.

Lemma client_hello_length h : length (client_hello h) = (9 + length (hello_body h))%nat.
Proof. unfold client_hello. rewrite !length_app, !be_bytes_length. cbn. lia. Qed.

Lemma client_hello_header h n more :
  Z.of_nat (length (hello_body h)) + 4 < 65536 → (5 ≤ n)%nat →
  let b := take n (client_hello h ++ more) in
  b !! 0%nat = Some 0x16 ∧ b !! 1%nat = Some 3 ∧ (∃ b2, b !! 2%nat = Some b2) ∧
  u16_index b 3 = Some (4 + length (hello_body h))%nat.
Proof.
  intros Hb Hn b. assert (b = [0x16; 3; 1] ++ be_bytes 2 (Z.of_nat (length (hello_body h)) + 4) ++
    take (n - 5) ([1] ++ be_bytes 3 (Z.of_nat (length (hello_body h))) ++ hello_body h ++ more)) as ->.
  { subst b. unfold client_hello. rewrite <- !app_assoc. rewrite (app_assoc [22; 3; 1]).
    rewrite take_app_ge by (rewrite length_app, be_bytes_length; cbn; lia). rewrite <- app_assoc.
    rewrite length_app, be_bytes_length. done. }
  split_and!; [done|done|by eexists|].
  erewrite u16_index_be; [|reflexivity|lia]. f_equal. lia.
Qed.

(** The core finds the server name in the record of any well-formed ClientHello,
    whatever follows it; with a part of the record it asks for more bytes. *)
Theorem SniffTLS_client_hello (h : hello) (more : bytes) (n : nat) :
  core_hello_ok h →
  SniffTLS (client_hello h ++ more) = Some (Ok (h_host h)) ∧
  ((n < length (client_hello h))%nat → SniffTLS (take n (client_hello h)) = Some (Err ErrNoClue)).
Proof.
  intros ((Hr & Hs & Hc & Hm & Hall & He) & Hs32 & Heven & Hlast & Hbody). pose proof (client_hello_length h) as HL.
  split.
  - destruct (client_hello_header h (length (client_hello h ++ more)) more Hbody) as (H0 & H1 & (b2 & H2) & H3);
      [rewrite length_app; lia|]. rewrite take_ge in H0, H1, H2, H3 by lia.
    unfold SniffTLS. rewrite decide_False by (rewrite length_app; lia). rewrite H0, H1, H2. cbn [mbind option_bind].
    rewrite decide_False by lia. cbn [IsValidTLSVersion]. unfold IsValidTLSVersion. rewrite bool_decide_true by done. cbn [negb].
    rewrite H3. cbn [mbind option_bind]. rewrite decide_False by (rewrite length_app; lia).
    assert (slice (client_hello h ++ more) 5 (5 + (4 + length (hello_body h))) =
            Some ([1] ++ be_bytes 3 (Z.of_nat (length (hello_body h))) ++ hello_body h)) as ->.
    { rewrite slice_Some by (rewrite length_app; lia). f_equal.
      replace (5 + (4 + length (hello_body h)) - 5)%nat with (4 + length (hello_body h))%nat by lia.
      unfold client_hello. rewrite <- !app_assoc. rewrite (app_assoc [22; 3; 1]).
      rewrite drop_app_length' by (by rewrite length_app, be_bytes_length).
      rewrite (app_assoc (be_bytes 3 _)), (app_assoc [1]). apply take_app_length'.
      rewrite !length_app, be_bytes_length. cbn. lia. }
    cbn [mbind option_bind]. set (data := [1] ++ _ ++ _).
    assert (drop 38 data = vec8 (h_sid h) ++ vec16 (h_ciphers h) ++ vec8 (h_comps h) ++ vec16 (hello_exts h)) as Hd.
    { unfold data, hello_body. rewrite (app_assoc [1]), (app_assoc [3; 3]), (app_assoc ([1] ++ _)).
      apply drop_app_length'. rewrite !length_app, be_bytes_length, Hr. done. }
    assert (length (drop 38 data) = (1 + length (h_sid h) + (2 + length (h_ciphers h)) +
      (1 + length (h_comps h)) + (2 + length (hello_exts h)))%nat) as Hl.
    { rewrite Hd, !length_app, !vec16_length, !vec8_length. lia. }
    rewrite length_drop in Hl. unfold ReadClientHello. rewrite decide_False by lia.
    rewrite (lookup_at_drop _ _ _ _ Hd). cbn [mbind option_bind]. cbv zeta. rewrite Nat2Z.id. rewrite decide_False by lia.
    apply (drop_next _ _ _ _ (1 + length (h_sid h))) in Hd as Hd1; [|done].
    replace (38 + (1 + length (h_sid h)))%nat with (39 + length (h_sid h))%nat in Hd1 by lia. rewrite Hd1.
    rewrite decide_False by (rewrite length_app, vec16_length; lia).
    rewrite (u16_index_be _ 0 (Z.of_nat (length (h_ciphers h))) (h_ciphers h ++ vec8 (h_comps h) ++ vec16 (hello_exts h)))
      by (lia || unfold vec16; by rewrite <- !app_assoc).
    cbn [mbind option_bind]. rewrite Nat2Z.id.
    rewrite decide_False by (rewrite <- Nat.negb_even, Heven, length_app, vec16_length; intros [|]; [done|lia]).
    rewrite drop_app_length' by (by rewrite vec16_length).
    rewrite decide_False by (rewrite length_app, vec8_length; lia).
    cbn [vec8 app lookup list_lookup mbind option_bind]. rewrite Nat2Z.id.
    rewrite decide_False by (cbn; rewrite length_app; lia). cbn [drop Nat.add]. rewrite drop_app_length' by done.
    rewrite decide_False by (rewrite vec16_length; lia).
    rewrite (u16_index_be _ 0 (Z.of_nat (length (hello_exts h))) (hello_exts h)) by (done || lia).
    cbn [mbind option_bind]. rewrite Nat2Z.id, !drop2_vec16.
    rewrite decide_False by (intros Hx; by apply Hx). unfold hello_exts at 2. apply tls_extensions_hello; [done|done|done|].
    unfold hello_exts. rewrite length_app. pose proof (length_mjoin_extension (h_before h)). lia.
  - intros Hn. unfold SniffTLS. case_decide as H5; [done|]. rewrite length_take in H5.
    destruct (client_hello_header h n [] Hbody) as (H0 & H1 & (b2 & H2) & H3); [lia|]. rewrite app_nil_r in H0, H1, H2, H3.
    rewrite H0, H1, H2. cbn [mbind option_bind]. rewrite decide_False by lia. unfold IsValidTLSVersion.
    rewrite bool_decide_true by done. cbn [negb]. rewrite H3. cbn [mbind option_bind].
    rewrite decide_True; [done|]. rewrite length_take. lia.
Qed.

(** ** Two sniffers that do not do what they mean *)

(** The time of uTP is a number of microseconds that wraps at 32 bits; compared with a
    day in nanoseconds, no packet was recent enough since 1972. *)
Theorem SniffUTP_never now b :
  wf_bytes b → day + 2 ^ 32 ≤ now → SniffUTP now b ≠ Some (Ok tt).
Proof.
  intros Hw Hnow. unfold SniffUTP. case_decide; [done|]. destruct b as [|b0 b]; [done|].
  cbn [read_u8 lookup list_lookup mbind option_bind]. case_decide; [done|]. apply Forall_cons in Hw as [_ Hw].
  destruct b as [|e b]; [done|]. apply Forall_cons in Hw as [_ Hb]. cbn [read_u8]. case_decide; [done|].
  destruct (utp_extensions (S (length b)) e b) as [[r|err]|] eqn:E; cbn [mbind option_bind]; [|done|done].
  assert (wf_bytes r) as Hr.
  { revert E. generalize (S (length b)) as fuel. clear -Hb. intros fuel. revert e b Hb.
    induction fuel as [|fuel IH]; intros e b Hb; [done|]. cbn [utp_extensions]. case_decide; [|by intros [= <-]].
    case_decide; [done|]. destruct b as [|x b]; [done|]. cbn [read_u8]. destruct b as [|y b]; [done|]. cbn [read_u8].
    unfold read_n. case_decide; [done|]. apply IH, Forall_drop. apply Forall_cons in Hb as [_ Hb]. by apply Forall_cons in Hb as [_ Hb]. }
  unfold read_n. case_decide; [done|]. case_decide as H4; [done|]. rewrite decide_True; [done|].
  assert (wf_bytes (take 4 (drop 2 r))) as Ht by (by apply Forall_take, Forall_drop).
  apply be_val_bound in Ht. rewrite length_take in Ht. change (256 ^ 4) with (2 ^ 32) in Ht.
  replace (Nat.min 4 (length (drop 2 r))) with 4%nat in Ht by lia. unfold day in *. lia.
Qed.

(** A line of a body that starts with host replaces the header: the empty line between
    them holds a carriage return, so the loop does not stop there. *)
Theorem http_body_overrides :
  SniffHTTP (H:=ascii_tables)
    (lit "POST / HTTP/1.1" ++ crlf ++ lit "Host: a.com" ++ crlf ++ crlf ++ lit "host: b.com") = Some (Ok (lit "b.com")).
Proof. vm_compute. reflexivity. Qed.

Definition sample_client : hello :=
  {| h_random := replicate 32 7; h_sid := [1; 2]; h_ciphers := [0x13; 1]; h_comps := [0];
     h_before := [(10, [0; 1])]; h_host := lit "Bilibili.com"; h_after := [0; 23; 0; 0] |}.

Lemma sample_client_ok : core_hello_ok sample_client.
Proof.
  unfold core_hello_ok, hello_ok. split_all; try (vm_compute; reflexivity); try (vm_compute; discriminate).
  - repeat constructor; vm_compute; reflexivity.
  - vm_compute. lia.
Qed.

Lemma SniffTLS_client_hello_witness :
  SniffTLS (client_hello sample_client ++ [0; 0]) = Some (Ok (lit "Bilibili.com")) ∧
  SniffTLS (take 20 (client_hello sample_client)) = Some (Err ErrNoClue).
Proof.
  destruct (SniffTLS_client_hello sample_client [0; 0] 20 sample_client_ok) as [H1 H2].
  split; [exact H1|]. apply H2. vm_compute. lia.
Defined.
