(* ===== verification/Dispatcher.v ===== *)
(** The dispatcher of the core (src/upstream/xray-core/app/dispatcher: default.go,
    sniffer.go, fakednssniffer.go): the first bytes of a connection are read into a
    cache and sniffed, the sniffed name may replace the target, and a handler is
    chosen by the router.  The pipe is what its reads deliver, and the clock, the
    end of the context and the QUIC sniffer are arguments. *)
From stdpp Require Import gmap.
From S2P Require Import Prelude GoText NetIP NetIP6 GoConv Sniffer CoreRouter Dns Address Transport Buf BufAppend MultiBuffer.
From S2P Require Import Lru StrMatcher Conditions OutboundManager FakeDns ContentSniff.

(** ** Results of sniffing *)

(** A [HeaderResult] is the header of one of the protocol sniffers. *)
Inductive SniffResult :=
  | HeaderResult (protocol domain : bytes)
  | fakeDNSSniffResult (domainName : bytes)
  | DNSThenOthersSniffResult (domainName protocolOriginalName : bytes)
  | compositeResult (domainResult protocolResult : SniffResult).

Fixpoint result_Protocol (r : SniffResult) : bytes :=
  match r with
  | HeaderResult p _ => p
  | fakeDNSSniffResult _ => lit "fakedns"
  | DNSThenOthersSniffResult _ _ => lit "fakedns+others"
  | compositeResult _ p => result_Protocol p
  end.

Fixpoint result_Domain (r : SniffResult) : bytes :=
  match r with
  | HeaderResult _ d | fakeDNSSniffResult d | DNSThenOthersSniffResult d _ => d
  | compositeResult d _ => result_Domain d
  end.

(** [ProtocolForDomainResult] where there is one, else [Protocol]. *)
Definition ProtocolForDomainResult (r : SniffResult) : bytes :=
  match r with compositeResult d _ => result_Protocol d | _ => result_Protocol r end.

(** [false] also for a result that is no [SnifferIsProtoSubsetOf]. *)
Definition IsProtoSubsetOf (r : SniffResult) (protocolName : bytes) : bool :=
  match r with DNSThenOthersSniffResult _ original => HasPrefix protocolName original | _ => false end.

(** ** Sniffers *)

Inductive contentSniffer := Content_http | Content_tls | Content_bittorrent | Content_quic | Content_utp.

Inductive protocolSniffer :=
  | ContentSniffer (k : contentSniffer)
  | FakeDNSSniffer
  | FakeDNSThenOthers (others : list contentSniffer).

Record protocolSnifferWithMetadata := {
  sniff_with : protocolSniffer;
  metadataSniffer : bool;
  network : Network }.

(** [quic.SniffQUIC]: the server name; it decrypts the packets. *)
Class QuicSniffer := SniffQUIC : bytes → option (result sniff_error bytes).

(** The fake DNS engine, when the instance has one: its pools. *)
Abbreviation engine := (option (list Holder)).

Definition content_sniffers : list (contentSniffer * Network) :=
  [(Content_http, Network_TCP); (Content_tls, Network_TCP); (Content_bittorrent, Network_TCP);
   (Content_quic, Network_UDP); (Content_utp, Network_UDP)].

Definition newFakeDNSSniffer (e : engine) : option protocolSnifferWithMetadata :=
  match e with
  | None => None
  | Some _ => Some {| sniff_with := FakeDNSSniffer; metadataSniffer := true; network := Network_Unknown |}
  end.

Definition newFakeDNSThenOthers (others : list contentSniffer) : protocolSnifferWithMetadata :=
  {| sniff_with := FakeDNSThenOthers others; metadataSniffer := false; network := Network_Unknown |}.

Definition NewSniffer (e : engine) : list protocolSnifferWithMetadata :=
  let ret := (λ '(k, n), {| sniff_with := ContentSniffer k; metadataSniffer := false; network := n |}) <$> content_sniffers in
  match newFakeDNSSniffer e with
  | Some sniffer => newFakeDNSThenOthers content_sniffers.*1 :: ret ++ [sniffer]
  | None => ret
  end.

Section sniffing.
Context `{UnicodeTables, QuicSniffer}.

Definition with_protocol (protocol : bytes) (r : option (result sniff_error bytes)) : outcome (result sniff_error SniffResult) :=
  ret_or_panic r (λ r, Ret (match r with Ok d => Ok (HeaderResult protocol d) | Err e => Err e end)).

(** A content sniffer at the time [now] in microseconds. *)
Definition run_content (k : contentSniffer) (now : Z) (b : bytes) : outcome (result sniff_error SniffResult) :=
  let no_domain (r : option (result sniff_error unit)) := (λ r, result_bind r (λ _, Ok [])) <$> r in
  match k with
  | Content_http => with_protocol (lit "http1") (SniffHTTP b)
  | Content_tls => with_protocol (lit "tls") (SniffTLS b)
  | Content_bittorrent => with_protocol (lit "bittorrent") (no_domain (SniffBittorrent b))
  | Content_quic => with_protocol (lit "quic") (SniffQUIC b)
  | Content_utp => with_protocol (lit "bittorrent") (no_domain (SniffUTP now b))
  end.

(** The function of [newFakeDNSSniffer] on the target of the connection. *)
Definition fakedns_sniff (target : Destination) (holders : list Holder) : outcome (result sniff_error SniffResult * list Holder) :=
  let? (domainFromFakeDNS, holders) :=
    if decide (dest_Network target = Network_TCP ∨ dest_Network target = Network_UDP)
    then ret_or_panic (dest_Address target) (λ a, multi_GetDomainFromFakeDNS a holders)
    else Ret ([], holders) in
  if decide (domainFromFakeDNS ≠ []) then Ret (Ok (fakeDNSSniffResult domainFromFakeDNS), holders)
  else Ret (Err ErrNoClue, holders).

(** The loop of [newFakeDNSThenOthers]; the payload may be nil. *)
Fixpoint others_loop (others : list contentSniffer) (now : Z) (payload : option bytes) : outcome (option SniffResult) :=
  match others with
  | [] => Ret None
  | k :: others =>
    match payload with
    | None => others_loop others now payload
    | Some b =>
      let? r := run_content k now b in
      match r with
      | Ok result => Ret (Some (DNSThenOthersSniffResult (result_Domain result) (result_Protocol result)))
      | Err _ => others_loop others now payload
      end
    end
  end.

Definition others_sniff (others : list contentSniffer) (now : Z) (payload : option bytes) (target : Destination)
    (holders : list Holder) : outcome (result sniff_error SniffResult * list Holder) :=
  let? (r, holders) := fakedns_sniff target holders in
  match r with
  | Ok result => Ret (Ok result, holders)
  | Err _ =>
    let? addressInRange := ret_or_panic (dest_Address target) (λ a, multi_IsIPInIPPool a holders) in
    if addressInRange : bool then
      let? found := others_loop others now payload in
      Ret (match found with Some result => Ok result | None => Err ErrNoClue end, holders)
    else Ret (Err ErrNoClue, holders)
  end.

Definition run_sniffer (s : protocolSniffer) (now : Z) (payload : option bytes) (target : Destination) (e : engine) :
    outcome (result sniff_error SniffResult * engine) :=
  match s with
  | ContentSniffer k => let? r := run_content k now (default [] payload) in Ret (r, e)
  | FakeDNSSniffer =>
    ret_or_panic e (λ holders, let? (r, holders) := fakedns_sniff target holders in Ret (r, Some holders))
  | FakeDNSThenOthers others =>
    ret_or_panic e (λ holders,
      let? (r, holders) := others_sniff others now payload target holders in Ret (r, Some holders))
  end.

(** The loops of [Sniff] and [SniffMetadata]: a result, and the sniffers that have
    no clue yet. *)
Fixpoint sniff_loop (ss pending : list protocolSnifferWithMetadata) (now : Z) (payload : bytes) (n : Network)
    (target : Destination) (e : engine) : outcome (option SniffResult * list protocolSnifferWithMetadata * engine) :=
  match ss with
  | [] => Ret (None, pending, e)
  | si :: ss =>
    if decide (metadataSniffer si = true ∨ network si ≠ n) then sniff_loop ss pending now payload n target e
    else
      let? (r, e) := run_sniffer (sniff_with si) now (Some payload) target e in
      match r with
      | Ok result => Ret (Some result, pending, e)
      | Err ErrNoClue => sniff_loop ss (pending ++ [si]) now payload n target e
      | Err ErrOther => sniff_loop ss pending now payload n target e
      end
  end.

Fixpoint metadata_loop (ss pending : list protocolSnifferWithMetadata) (now : Z) (target : Destination) (e : engine) :
    outcome (option SniffResult * list protocolSnifferWithMetadata * engine) :=
  match ss with
  | [] => Ret (None, pending, e)
  | si :: ss =>
    if metadataSniffer si then
      let? (r, e) := run_sniffer (sniff_with si) now None target e in
      match r with
      | Ok result => Ret (Some result, pending, e)
      | Err ErrNoClue => metadata_loop ss (pending ++ [si]) now target e
      | Err ErrOther => metadata_loop ss pending now target e
      end
    else metadata_loop ss (pending ++ [si]) now target e
  end.

(** What a round leaves: the pending sniffers replace the others when there is no
    result but a sniffer without a clue. *)
Definition end_of_round (s : list protocolSnifferWithMetadata) (x : option SniffResult * list protocolSnifferWithMetadata * engine) :
    outcome (result sniff_error SniffResult * list protocolSnifferWithMetadata * engine) :=
  let '(found, pending, e) := x in
  match found, pending with
  | Some result, _ => Ret (Ok result, s, e)
  | None, _ :: _ => Ret (Err ErrNoClue, pending, e)
  | None, [] => Ret (Err ErrOther, s, e)
  end.

Definition Sniff (s : list protocolSnifferWithMetadata) (now : Z) (payload : bytes) (n : Network) (target : Destination) (e : engine) :
    outcome (result sniff_error SniffResult * list protocolSnifferWithMetadata * engine) :=
  let? x := sniff_loop s [] now payload n target e in end_of_round s x.

Definition SniffMetadata (s : list protocolSnifferWithMetadata) (now : Z) (target : Destination) (e : engine) :
    outcome (result sniff_error SniffResult * list protocolSnifferWithMetadata * engine) :=
  let? x := metadata_loop s [] now target e in end_of_round s x.

(** ** The cache of what was read *)

(** One read of the pipe with a timeout: it times out, or gives buffers; behind the
    last one every read fails. *)
Inductive delivery := Timeout | Data (mb : list Buffer).

Record cachedReader := { reader : list delivery; cache : option (list Buffer) }.

(** [pipe.Reader.ReadMultiBufferTimeout] and [ReadMultiBuffer]; [None] is an error. *)
Definition pipe_ReadTimeout (r : list delivery) : option (list Buffer) * list delivery :=
  match r with
  | [] => (None, [])
  | Timeout :: r => (None, r)
  | Data mb :: r => (Some mb, r)
  end.

Fixpoint pipe_Read (r : list delivery) : option (list Buffer) * list delivery :=
  match r with
  | [] => (None, [])
  | Timeout :: r => pipe_Read r
  | Data mb :: r => (Some mb, r)
  end.

(** [Cache] into the buffer [b]. *)
Definition Cache (b : Buffer) (r : cachedReader) : outcome (Buffer * cachedReader) :=
  let '(mb, rd) := pipe_ReadTimeout (reader r) in
  let mb := default [] mb in
  let c := if mb_IsEmpty mb then cache r else Some (MergeMulti (default [] (cache r)) mb).1 in
  ret_or_panic (Extend (Clear b) (Z.of_nat Size)) (λ '(b, rawBytes),
  let? copied := mb_Copy (default [] c) (length rawBytes) in
  ret_or_panic (Resize (with_array b (overwrite (v b) 0 copied) (end_ b)) 0 (Z.of_nat (length copied))) (λ b,
  Ret (b, {| reader := rd; cache := c |}))).

Definition cached_readInternal (r : cachedReader) : option (list Buffer) * cachedReader :=
  match cache r with
  | Some mb => if mb_IsEmpty mb then (None, r) else (Some mb, {| reader := reader r; cache := None |})
  | None => (None, r)
  end.

Definition cached_Read (read : list delivery → option (list Buffer) * list delivery) (r : cachedReader) :
    option (list Buffer) * cachedReader :=
  match cached_readInternal r with
  | (Some mb, r) => (Some mb, r)
  | (None, r) => let '(mb, rd) := read (reader r) in (mb, {| reader := rd; cache := cache r |})
  end.

Definition cached_ReadMultiBuffer : cachedReader → option (list Buffer) * cachedReader := cached_Read pipe_Read.
Definition cached_ReadMultiBufferTimeout : cachedReader → option (list Buffer) * cachedReader := cached_Read pipe_ReadTimeout.

(** ** Sniffing a connection *)

(** The loop over the content: [n] attempts are left; [cancelled i] says that the
    context is done before the [i]-th one, [now i] is its time. *)
Fixpoint content_loop (n i : nat) (cancelled : nat → bool) (now : nat → Z) (s : list protocolSnifferWithMetadata)
    (payload : Buffer) (net : Network) (target : Destination) (r : cachedReader) (e : engine) :
    outcome (result sniff_error SniffResult * cachedReader * engine) :=
  if cancelled i then Ret (Err ErrOther, r, e)
  else
    match n with
    | O => Ret (Err ErrOther, r, e)
    | S n =>
      let? (payload, r) := Cache payload r in
      let retry s e :=
        if IsFull payload then Ret (Err ErrOther, r, e)
        else content_loop n (S i) cancelled now s payload net target r e in
      if IsEmpty payload then retry s e
      else
        ret_or_panic (Bytes payload) (λ b,
        let? (res, s, e) := Sniff s (now i) b net target e in
        match res with
        | Err ErrNoClue => retry s e
        | res => Ret (res, r, e)
        end)
    end.

(** [sniffer]; [array] is that of the buffer from the pool. *)
Definition sniffer (array : bytes) (cancelled : nat → bool) (now : nat → Z) (metadataOnly : bool) (net : Network)
    (target : Destination) (r : cachedReader) (e : engine) :
    outcome (result sniff_error SniffResult * cachedReader * engine) :=
  let payload := Buffer_New array in
  let? (metaresult, s, e) := SniffMetadata (NewSniffer e) (now 0%nat) target e in
  if metadataOnly : bool then Ret (metaresult, r, e)
  else
    let? (contentResult, r, e) := content_loop 2 0 cancelled now s payload net target r e in
    Ret (match contentResult, metaresult with
         | Err _, Ok m => Ok m
         | Ok c, Ok m => Ok (compositeResult m c)
         | c, Err _ => c
         end, r, e).
End sniffing.

(** ** The target *)

Record SniffingRequest := {
  ExcludeForDomain : list bytes;
  OverrideDestinationForProtocol : list bytes;
  Enabled : bool;
  MetadataOnly : bool;
  RouteOnly : bool }.

(** The last outbound of the session. *)
Record Outbound := { OriginalTarget : Destination; Target : Destination; RouteTarget : Destination; ob_Tag : bytes }.

Definition zero_Destination : Destination := {| dest_Address := None; dest_Port := 0; dest_Network := Network_Unknown |}.
Definition zero_Outbound : Outbound :=
  {| OriginalTarget := zero_Destination; Target := zero_Destination; RouteTarget := zero_Destination; ob_Tag := [] |}.

Definition set_Target (d : Destination) (ob : Outbound) : Outbound :=
  {| OriginalTarget := OriginalTarget ob; Target := d; RouteTarget := RouteTarget ob; ob_Tag := ob_Tag ob |}.
Definition set_RouteTarget (d : Destination) (ob : Outbound) : Outbound :=
  {| OriginalTarget := OriginalTarget ob; Target := Target ob; RouteTarget := d; ob_Tag := ob_Tag ob |}.
Definition set_Tag (t : bytes) (ob : Outbound) : Outbound :=
  {| OriginalTarget := OriginalTarget ob; Target := Target ob; RouteTarget := RouteTarget ob; ob_Tag := t |}.
Definition set_Address (a : option Address) (d : Destination) : Destination :=
  {| dest_Address := a; dest_Port := dest_Port d; dest_Network := dest_Network d |}.

(** [fkr0.IsIPInIPPool] when there is an engine. *)
Definition fake_address (a : option Address) (e : engine) : outcome bool :=
  match e with Some holders => ret_or_panic a (λ a, multi_IsIPInIPPool a holders) | None => Ret false end.

Section dispatch.
Context `{UnicodeTables, QuicSniffer, RegexpEngine}.

(** The loop over [ExcludeForDomain]. *)
Definition excluded (domain : bytes) (d : bytes) : bool :=
  if HasPrefix d (lit "regexp:") then
    match regexp_Compile (drop 7 d) with Some matches => matches domain | None => false end
  else bool_decide (ToLower domain = d).

(** The loop over [OverrideDestinationForProtocol]. *)
Fixpoint override_loop (ps : list bytes) (protocolString : bytes) (result : SniffResult) (destination : Destination)
    (e : engine) : outcome bool :=
  match ps with
  | [] => Ret false
  | p :: ps =>
    if HasPrefix protocolString p || HasPrefix p protocolString then Ret true
    else
      let? missed := if decide (protocolString ≠ lit "bittorrent" ∧ p = lit "fakedns")
                     then fake_address (dest_Address destination) e else Ret false in
      if (missed : bool) || IsProtoSubsetOf result p then Ret true
      else override_loop ps protocolString result destination e
  end.

Definition shouldOverride (result : SniffResult) (request : SniffingRequest) (destination : Destination) (e : engine) : outcome bool :=
  let domain := result_Domain result in
  if decide (domain = []) then Ret false
  else if existsb (excluded domain) (ExcludeForDomain request) then Ret false
  else override_loop (OverrideDestinationForProtocol request) (ProtocolForDomainResult result) result destination e.

(** What [Dispatch] and [DispatchLink] do with the result of the sniffers: the
    destination and the outbound from then on. *)
Definition apply_result (r : result sniff_error SniffResult) (request : SniffingRequest) (destination : Destination)
    (ob : Outbound) (e : engine) : outcome (Destination * Outbound) :=
  match r with
  | Err _ => Ret (destination, ob)
  | Ok result =>
    let? override := shouldOverride result request destination e in
    if override : bool then
      let destination := set_Address (ParseAddress (result_Domain result)) destination in
      let protocol := ProtocolForDomainResult result in
      let? isFakeIP := fake_address (dest_Address (Target ob)) e in
      if RouteOnly request && bool_decide (protocol ≠ lit "fakedns") && bool_decide (protocol ≠ lit "fakedns+others") && negb isFakeIP
      then Ret (destination, set_RouteTarget destination ob)
      else Ret (destination, set_Target destination ob)
    else Ret (destination, ob)
  end.

(** ** The handler *)

(** [routing.Router] and [dns.HostsLookup]. *)
Class Routing (R : Type) := PickRoute : Context → R → outcome bytes * R.
Class HostsLookup := lookup_hosts : bytes → outcome (option Address).

(** How a connection ends up: with a handler and the detour for the access log, or
    its link closed. *)
Inductive routed := Handled (h : Handler) (detour : option bytes) | Refused.

Definition Detour (inTag tag : bytes) (isPickRoute : Z) : option bytes :=
  if decide (tag = []) then None
  else Some (if decide (inTag = []) then tag
             else if decide (isPickRoute = 1) then inTag ++ lit " ==> " ++ tag
             else if decide (isPickRoute = 2) then inTag ++ lit " -> " ++ tag
             else inTag ++ lit " >> " ++ tag).

(** The first part of [routedDispatch]: a static host replaces the target. *)
Definition replace_host (dns : option HostsLookup) (destination : Destination) (ob : Outbound) : outcome (Destination * Outbound) :=
  match dns with
  | None => Ret (destination, ob)
  | Some hosts =>
    ret_or_panic (dest_Address destination) (λ a,
    if IsDomain (Family a) then
      ret_or_panic (Destination_String (Target ob)) (λ name,
      let? proxied := lookup_hosts (HostsLookup:=hosts) name in
      match proxied with
      | None => Ret (destination, ob)
      | Some address =>
        let ro := bool_decide (RouteTarget ob = destination) in
        let destination := set_Address (Some address) destination in
        Ret (destination, if ro then set_RouteTarget destination ob else set_Target destination ob)
      end)
    else Ret (destination, ob))
  end.

Section routing.
Context {R : Type} `{!Routing R}.

(** What the router sees. *)
Definition routing_context (inbound : option Inbound) (content : option Content) (ob : Outbound) : Context :=
  {| c_Inbound := inbound;
     c_Outbound := Some {| out_Target := Target ob; out_RouteTarget := RouteTarget ob |};
     c_Content := content |}.

(** The choice of the handler: the forced one, that of the route, or none yet. *)
Definition pick_handler (forced : bytes) (router : option R) (x : Manager) (ctx : Context) :
    outcome (option (option Handler * Z)) * option R :=
  if decide (forced ≠ []) then
    (Ret (match GetHandler forced x with Some h => Some (Some h, 1) | None => None end), router)
  else
    match router with
    | None => (Ret (Some (None, 0)), None)
    | Some r =>
      match PickRoute ctx r with
      | (Panic, r) => (Panic, Some r)
      | (Fail, r) => (Ret (Some (None, 0)), Some r)
      | (Ret outTag, r) =>
        (Ret (Some match GetHandler outTag x with Some h => (Some h, 2) | None => (None, 0) end), Some r)
      end
    end.

Definition routedDispatch (dns : option HostsLookup) (router : option R) (x : Manager) (forced : bytes)
    (inbound : option Inbound) (content : option Content) (destination : Destination) (ob : Outbound) :
    outcome (routed * Outbound * option R) :=
  let? (_, ob) := replace_host dns destination ob in
  let ctx := routing_context inbound content ob in
  let '(picked, router) := pick_handler forced router x ctx in
  let? picked := picked in
  match picked with
  | None => Ret (Refused, ob, router)
  | Some (handler, isPickRoute) =>
    match (match handler with Some h => Some h | None => GetDefaultHandler x end) with
    | None => Ret (Refused, ob, router)
    | Some h => Ret (Handled h (Detour (GetInboundTag ctx) (h_Tag h) isPickRoute), set_Tag (h_Tag h) ob, router)
    end
  end.

(** ** Dispatching *)

(** What a connection comes with. *)
Record connection := {
  cn_Inbound : option Inbound;
  cn_Outbound : option Outbound;
  cn_Content : option Content;
  cn_Request : SniffingRequest;
  cn_Forced : bytes }.

Definition new_Content : Content := {| Protocol := []; Attributes := None; SkipDNSResolve := false |}.

Definition set_Protocol (p : bytes) (c : Content) : Content :=
  {| Protocol := p; Attributes := Attributes c; SkipDNSResolve := SkipDNSResolve c |}.

(** The session that [routedDispatch] gets: destination, outbound, content, the reader
    of the link and the engine. *)
Definition sniff_target (array : bytes) (cancelled : nat → bool) (now : nat → Z) (cn : connection) (destination : Destination)
    (link : list delivery) (e : engine) :
    outcome (Destination * Outbound * Content * cachedReader * engine) :=
  let ob := default zero_Outbound (cn_Outbound cn) in
  let ob := {| OriginalTarget := destination; Target := destination; RouteTarget := RouteTarget ob; ob_Tag := ob_Tag ob |} in
  let content := default new_Content (cn_Content cn) in
  let r := {| reader := link; cache := None |} in
  if Enabled (cn_Request cn) then
    let? (result, r, e) :=
      sniffer array cancelled now (MetadataOnly (cn_Request cn)) (dest_Network destination) (Target ob) r e in
    let content := match result with
                   | Ok result => set_Protocol (result_Protocol result) content
                   | Err _ => content
                   end in
    let? (destination, ob) := apply_result result (cn_Request cn) destination ob e in
    Ret (destination, ob, content, r, e)
  else Ret (destination, ob, content, r, e).

(** [Dispatch] panics where [DispatchLink] returns an error. *)
Definition DispatchLink (invalid : outcome (routed * Outbound * cachedReader * engine * option R))
    (dns : option HostsLookup) (router : option R) (x : Manager)
    (array : bytes) (cancelled : nat → bool) (now : nat → Z) (cn : connection) (destination : Destination)
    (link : list delivery) (e : engine) : outcome (routed * Outbound * cachedReader * engine * option R) :=
  if IsValid destination then
    let? (destination, ob, content, r, e) := sniff_target array cancelled now cn destination link e in
    let? (result, ob, router) := routedDispatch dns router x (cn_Forced cn) (cn_Inbound cn) (Some content) destination ob in
    Ret (result, ob, r, e, router)
  else invalid.
End routing.
End dispatch.

(** The router and the static hosts of the core. *)
#[global] Instance core_Routing `{Netipx, UnicodeTables, DnsClient, Balancer.LoadEnv, Balancer.Dice}
  (ohm : option Balancer.HandlerSelector) (obs : Balancer.observation) : Routing Router :=
  λ ctx r, CoreRouter.PickRoute ohm obs r (AsRoutingContext ctx).

#[global] Instance core_HostsLookup {W} `{Netipx, NameServers W} (s : DNS) : HostsLookup := λ name, LookupHosts s name.

(** ** Nothing that was read is lost *)

Lemma Size_Z : Z.of_nat Size = 8192.
Proof. vm_compute. reflexivity. Qed.

Definition delivery_bytes (d : delivery) : bytes := match d with Timeout => [] | Data mb => contents_of mb end.
Definition pipe_bytes (l : list delivery) : bytes := mjoin (delivery_bytes <$> l).
Definition delivery_wf (d : delivery) : Prop := match d with Timeout => True | Data mb => Forall wf mb end.

Record reader_ok (r : cachedReader) : Prop := {
  ro_reader : Forall delivery_wf (reader r);
  ro_cache : Forall wf (default [] (cache r)) }.

(** The bytes that are still to be read. *)
Definition to_read (r : cachedReader) : bytes := contents_of (default [] (cache r)) ++ pipe_bytes (reader r).

(** Reading until the first error. *)
Fixpoint drain (fuel : nat) (r : cachedReader) : option bytes :=
  match fuel with
  | O => None
  | S fuel =>
    match cached_ReadMultiBuffer r with
    | (Some mb, r) => app (contents_of mb) <$> drain fuel r
    | (None, _) => Some []
    end
  end.

Lemma pipe_bytes_cons d l : pipe_bytes (d :: l) = delivery_bytes d ++ pipe_bytes l.
Proof. done. Qed.

Lemma mb_IsEmpty_contents mb : Forall wf mb → mb_IsEmpty mb = true → contents_of mb = [].
Proof. intros Hmb. rewrite mb_IsEmpty_spec by done. by intros ?%bool_decide_eq_true. Qed.

Lemma pipe_ReadTimeout_spec l : Forall delivery_wf l →
  Forall wf (default [] (pipe_ReadTimeout l).1) ∧ Forall delivery_wf (pipe_ReadTimeout l).2 ∧
  pipe_bytes l = contents_of (default [] (pipe_ReadTimeout l).1) ++ pipe_bytes (pipe_ReadTimeout l).2 ∧
  (length (pipe_ReadTimeout l).2 ≤ length l)%nat.
Proof.
  destruct 1 as [|[|mb] l Hd Hl]; cbn [pipe_ReadTimeout fst snd default length].
  - by split_all.
  - rewrite pipe_bytes_cons. split_all; [done|done|done|lia].
  - rewrite pipe_bytes_cons. split_all; [done|done|done|lia].
Qed.

Lemma pipe_Read_spec l :
  match pipe_Read l with
  | (None, _) => pipe_bytes l = []
  | (Some mb, l') => pipe_bytes l = contents_of mb ++ pipe_bytes l' ∧ (length l' < length l)%nat
  end.
Proof.
  induction l as [|[|mb] l IH]; cbn [pipe_Read]; [done| |split; [done|cbn; lia]].
  destruct (pipe_Read l) as [[mb|] l']; [|done]. destruct IH. split; [done|cbn; lia].
Qed.

Lemma readInternal_empty r : mb_IsEmpty (default [] (cache r)) = true → cached_readInternal r = (None, r).
Proof. unfold cached_readInternal. destruct (cache r) as [mb|]; [|done]. change (default [] (Some mb)) with mb. by intros ->. Qed.

Lemma drain_pipe n c l :
  (length l < n)%nat → mb_IsEmpty (default [] c) = true → drain n {| reader := l; cache := c |} = Some (pipe_bytes l).
Proof.
  revert l. induction n as [|n IH]; intros l Hn Hc; [lia|]. cbn [drain].
  unfold cached_ReadMultiBuffer, cached_Read. pose proof (pipe_Read_spec l) as Hl.
  rewrite readInternal_empty by done. cbn [reader cache]. destruct (pipe_Read l) as [[mb|] l'] eqn:E; [|by rewrite Hl].
  destruct Hl as [-> Hl]. by rewrite IH by (done || lia).
Qed.

Lemma drain_all n r :
  reader_ok r → (S (length (reader r)) < n)%nat → drain n r = Some (to_read r).
Proof.
  intros [Hr Hc] Hn. destruct r as [l c]. cbn [reader cache] in *. unfold to_read. cbn [reader cache].
  destruct (mb_IsEmpty (default [] c)) eqn:E.
  - rewrite drain_pipe by (done || lia). by rewrite mb_IsEmpty_contents.
  - destruct c as [mb|]; [|done]. change (default [] (Some mb)) with mb in *. destruct n as [|n]; [lia|]. cbn [drain].
    unfold cached_ReadMultiBuffer, cached_Read, cached_readInternal. cbn [cache reader]. rewrite E.
    by rewrite drain_pipe by (done || lia).
Qed.

Lemma Extend_array b n b' ext : Extend b n = Some (b', ext) → v b' = v b.
Proof.
  unfold Extend. cbv zeta. case_decide; [done|]. destruct (array_slice _ _ _); cbn; [|done]. by intros [= <- <-].
Qed.

Lemma Resize_array b f t b' : Resize b f t = Some b' → v b' = v b.
Proof. unfold Resize. cbv zeta. case_decide; [done|]. by intros [= <-]. Qed.

(** [Cache] fills the payload with the front of what was read. *)
Lemma Cache_spec b r :
  wf b → length (v b) = Size → reader_ok r →
  ∃ b' r', Cache b r = Ret (b', r') ∧ wf b' ∧ length (v b') = Size ∧ reader_ok r' ∧ to_read r' = to_read r ∧
    (length (reader r') ≤ length (reader r))%nat ∧ content b' `prefix_of` to_read r.
Proof.
  intros Hb Hv [Hr Hc]. pose proof Size_Z as HS. unfold Cache.
  destruct (pipe_ReadTimeout_spec (reader r) Hr) as (Hmb & Hrd & Hbytes & Hlen).
  destruct (pipe_ReadTimeout (reader r)) as [mb rd]. cbn [fst snd] in *.
  set (c := if mb_IsEmpty (default [] mb) then cache r else _).
  assert (Forall wf (default [] c)) as Hwc.
  { subst c. destruct (mb_IsEmpty (default [] mb)); [done|]. by apply Forall_app. }
  assert (contents_of (default [] c) ++ pipe_bytes rd = to_read r) as Ec.
  { unfold to_read. rewrite Hbytes. subst c. destruct (mb_IsEmpty (default [] mb)) eqn:E.
    - by rewrite (mb_IsEmpty_contents (default [] mb)) by done.
    - change (default [] (Some ?x)) with x. unfold MergeMulti. cbn [fst]. by rewrite contents_of_app, app_assoc. }
  destruct (Clear_spec b Hb) as [Hwb _].
  destruct (Extend_spec (Clear b) Size Hwb) as (b1 & ext & EE & Hext & [Hw1 Hcon _ _ Hs1] & He1).
  { unfold room. cbn. lia. }
  rewrite EE. cbn [ret_or_panic]. rewrite mb_Copy_spec by done. cbn [outcome_bind]. rewrite Hext.
  set (d := take Size (contents_of (default [] c))).
  assert (length d ≤ Size)%nat as Hd by (subst d; rewrite length_take; lia).
  assert (content b1 = [] ++ take (length d) ext ++ drop (length d) ext) as Hc1.
  { cbn [app]. rewrite take_drop. rewrite Hcon. by rewrite (proj2 (Clear_spec b Hb)). }
  destruct (patch_spec b1 [] (take (length d) ext) d (drop (length d) ext)) as (Hw2 & Hc2 & _ & _);
    [done|done|rewrite length_take; lia|].
  assert (patch b1 (start b1 + Z.of_nat (length (@nil Z))) d = with_array b1 (overwrite (v b1) 0 d) (end_ b1)) as Ep.
  { unfold patch. rewrite Hs1. done. }
  rewrite Ep in Hw2, Hc2. cbn [app] in Hc2.
  destruct (run_Resize _ 0 (length d) Hw2) as (b3 & E3 & Hw3 & Hc3); [lia|rewrite Hc2, length_app; lia|].
  change (Z.of_nat 0) with 0 in E3. rewrite E3. cbn [ret_or_panic].
  exists b3, {| reader := rd; cache := c |}. split_all; [done|done| |by split|done|done|].
  - rewrite (Resize_array _ _ _ _ E3). cbn [v with_array]. rewrite length_overwrite by lia.
    by rewrite (Extend_array _ _ _ _ EE).
  - rewrite Hc3, Hc2, Nat.sub_0_r, drop_0, (take_app_length d). rewrite <- Ec. subst d.
    apply prefix_app_r, prefix_take.
Qed.

(** ** The sniffers return *)

(** Pools that serve. *)
Definition pool_ok (h : Holder) : Prop := ∃ n k r cap es, serving n k r cap es h.
Definition engine_ok (e : engine) : Prop := from_option (Forall pool_ok) True e.

Lemma GetDomain_ok a h : pool_ok h → ∃ d h', GetDomainFromFakeDNS a h = Ret (d, h') ∧ pool_ok h'.
Proof.
  intros (n & k & r & cap & es & Hs). destruct (reverse_serving n k r cap es h a Hs) as (d & h' & es' & E & Hs' & _).
  exists d, h'. split; [done|]. by exists n, k, r, cap, es'.
Qed.

Lemma IsIPInIPPool_ok a h : pool_ok h → ∃ b, IsIPInIPPool a h = Ret b.
Proof.
  intros (n & k & r & cap & es & [_ _ (s & Hrun & _) _]). unfold IsIPInIPPool. rewrite Hrun.
  destruct a; cbn; by eexists.
Qed.

Lemma multi_GetDomain_ok a hs : Forall pool_ok hs →
  ∃ d hs', multi_GetDomainFromFakeDNS a hs = Ret (d, hs') ∧ Forall pool_ok hs'.
Proof.
  induction 1 as [|h hs Hh Hhs (d' & hs' & IH & Hhs')]; [by exists [], []|]. cbn [multi_GetDomainFromFakeDNS].
  destruct (GetDomain_ok a h Hh) as (d & h' & -> & Hh'). cbn [outcome_bind]. destruct d as [|c d].
  - rewrite IH. cbn [outcome_bind]. do 2 eexists. split; [done|]. by constructor.
  - do 2 eexists. split; [done|]. by constructor.
Qed.

Lemma multi_InPool_ok a hs : Forall pool_ok hs → ∃ b, multi_IsIPInIPPool a hs = Ret b.
Proof.
  intros Hhs. induction Hhs as [|h hs Hh _ IH]; cbn [multi_IsIPInIPPool]; destruct (IsDomain _); try by eexists.
  destruct (IsIPInIPPool_ok a h Hh) as [[|] ->]; cbn [outcome_bind]; [by eexists|done].
Qed.

Lemma fake_address_ok a e : engine_ok e → ∃ b, fake_address (Some a) e = Ret b.
Proof. destruct e as [hs|]; [apply multi_InPool_ok|by eexists]. Qed.

Section returns.
Context `{UnicodeTables, QuicSniffer} (quic_returns : ∀ b, ∃ r, SniffQUIC b = Some r).
Variables (target : Destination) (a : Address).
Hypothesis Ha : dest_Address target = Some a.

Lemma run_content_ok k now b : ∃ r, run_content k now b = Ret r.
Proof using quic_returns.
  destruct k; cbn [run_content].
  - destruct (SniffHTTP_returns b) as [r ->]. by eexists.
  - destruct (SniffTLS_returns b) as [r ->]. by eexists.
  - destruct (SniffBittorrent_returns b) as [r ->]. by eexists.
  - destruct (quic_returns b) as [r ->]. by eexists.
  - destruct (SniffUTP_returns now b) as [r ->]. by eexists.
Qed.

Lemma others_loop_ok others now payload : ∃ r, others_loop others now payload = Ret r.
Proof using quic_returns.
  induction others as [|k others IH]; [by eexists|]. cbn [others_loop]. destruct payload as [b|]; [|done].
  destruct (run_content_ok k now b) as [[r|e] ->]; cbn [outcome_bind]; [by eexists|done].
Qed.

Lemma fakedns_sniff_ok hs : Forall pool_ok hs → ∃ r hs', fakedns_sniff target hs = Ret (r, hs') ∧ Forall pool_ok hs'.
Proof using Ha.
  intros Hhs. unfold fakedns_sniff. rewrite Ha. cbn [ret_or_panic].
  case_decide; [destruct (multi_GetDomain_ok a hs Hhs) as (d & hs' & -> & Hhs')|]; cbn [outcome_bind];
    case_decide; do 2 eexists; by split.
Qed.

(** A sniffer that looks at the engine is there only with an engine. *)
Definition sniffers_ok (e : engine) : list protocolSnifferWithMetadata → Prop :=
  Forall (λ s, match sniff_with s with ContentSniffer _ => True | _ => is_Some e end).

Lemma NewSniffer_ok e : sniffers_ok e (NewSniffer e).
Proof. destruct e; cbn; repeat (apply Forall_cons; split; [by cbn; eauto|]); by apply Forall_nil. Qed.

Lemma run_sniffer_ok s now payload e : sniffers_ok e [s] → engine_ok e →
  ∃ r e', run_sniffer (sniff_with s) now payload target e = Ret (r, e') ∧ engine_ok e' ∧ (is_Some e → is_Some e').
Proof using Ha quic_returns.
  intros Hs He. unfold sniffers_ok in Hs. rewrite Forall_singleton in Hs. revert Hs.
  destruct (sniff_with s) as [k| |others]; cbn [run_sniffer]; intros Hs.
  - destruct (run_content_ok k now (default [] payload)) as [r ->]. by exists r, e.
  - destruct Hs as [hs ->]. cbn [ret_or_panic]. destruct (fakedns_sniff_ok hs He) as (r & hs' & -> & Hhs').
    by exists r, (Some hs').
  - destruct Hs as [hs ->]. cbn [ret_or_panic]. unfold others_sniff.
    destruct (fakedns_sniff_ok hs He) as (r & hs' & -> & Hhs'). cbn [outcome_bind].
    destruct r as [r|err]; [by exists (Ok r), (Some hs')|]. rewrite Ha. cbn [ret_or_panic].
    destruct (multi_InPool_ok a hs' Hhs') as [[|] ->]; cbn [outcome_bind]; [|by exists (Err ErrNoClue), (Some hs')].
    destruct (others_loop_ok others now payload) as [found ->]. cbn [outcome_bind]. do 2 eexists. by split.
Qed.

Lemma sniffers_ok_mono e e' ss : (is_Some e → is_Some e') → sniffers_ok e ss → sniffers_ok e' ss.
Proof. intros Hm Hs. eapply Forall_impl; [exact Hs|]. intros s. cbn. destruct (sniff_with s); auto. Qed.

Lemma sniffers_ok_snoc e s ss pending : sniffers_ok e (s :: ss) → sniffers_ok e pending → sniffers_ok e (pending ++ [s]).
Proof. intros Hs Hp. apply Forall_cons in Hs as [Hs _]. apply Forall_app. split; [done|]. by repeat constructor. Qed.

Lemma sniffers_ok_head e s ss : sniffers_ok e (s :: ss) → sniffers_ok e [s] ∧ sniffers_ok e ss.
Proof. intros Hs. apply Forall_cons in Hs as [Hs Hss]. split; [by repeat constructor|done]. Qed.

(** Both loops run sniffers of the list and keep some of them. *)
Lemma sniff_loop_ok ss pending now payload n e :
  sniffers_ok e ss → sniffers_ok e pending → engine_ok e →
  ∃ r p e', sniff_loop ss pending now payload n target e = Ret (r, p, e') ∧
            sniffers_ok e' p ∧ engine_ok e' ∧ (is_Some e → is_Some e').
Proof using Ha quic_returns.
  revert pending e. induction ss as [|s ss IH]; intros pending e Hss Hp He; cbn [sniff_loop]; [by exists None, pending, e|].
  pose proof (sniffers_ok_snoc e s ss pending Hss Hp) as Hps. apply sniffers_ok_head in Hss as [Hs Hss].
  case_decide; [by apply IH|].
  destruct (run_sniffer_ok s now (Some payload) e Hs He) as (r & e' & -> & He' & Hm). cbn [outcome_bind].
  pose proof (sniffers_ok_mono _ _ _ Hm Hss). pose proof (sniffers_ok_mono _ _ _ Hm Hp).
  pose proof (sniffers_ok_mono _ _ _ Hm Hps).
  destruct r as [r|[]].
  - by exists (Some r), pending, e'.
  - destruct (IH (pending ++ [s]) e') as (r' & p & e2 & ? & ? & ? & ?); [done..|]. by do 3 eexists; split_all; eauto.
  - destruct (IH pending e') as (r' & p & e2 & ? & ? & ? & ?); [done..|]. by do 3 eexists; split_all; eauto.
Qed.

Lemma metadata_loop_ok ss pending now e :
  sniffers_ok e ss → sniffers_ok e pending → engine_ok e →
  ∃ r p e', metadata_loop ss pending now target e = Ret (r, p, e') ∧
            sniffers_ok e' p ∧ engine_ok e' ∧ (is_Some e → is_Some e').
Proof using Ha quic_returns.
  revert pending e. induction ss as [|s ss IH]; intros pending e Hss Hp He; cbn [metadata_loop]; [by exists None, pending, e|].
  pose proof (sniffers_ok_snoc e s ss pending Hss Hp) as Hps. apply sniffers_ok_head in Hss as [Hs Hss].
  destruct (metadataSniffer s); [|by apply IH].
  destruct (run_sniffer_ok s now None e Hs He) as (r & e' & -> & He' & Hm). cbn [outcome_bind].
  pose proof (sniffers_ok_mono _ _ _ Hm Hss). pose proof (sniffers_ok_mono _ _ _ Hm Hp).
  pose proof (sniffers_ok_mono _ _ _ Hm Hps).
  destruct r as [r|[]].
  - by exists (Some r), pending, e'.
  - destruct (IH (pending ++ [s]) e') as (r' & p & e2 & ? & ? & ? & ?); [done..|]. by do 3 eexists; split_all; eauto.
  - destruct (IH pending e') as (r' & p & e2 & ? & ? & ? & ?); [done..|]. by do 3 eexists; split_all; eauto.
Qed.

Lemma end_of_round_ok s found p e e' :
  sniffers_ok e s → sniffers_ok e' p → (is_Some e → is_Some e') →
  ∃ res s', end_of_round s (found, p, e') = Ret (res, s', e') ∧ sniffers_ok e' s'.
Proof.
  intros Hs Hp Hm. pose proof (sniffers_ok_mono _ _ _ Hm Hs).
  destruct found, p; cbn [end_of_round]; do 2 eexists; by split.
Qed.

Lemma Sniff_ok s now payload n e : sniffers_ok e s → engine_ok e →
  ∃ res s' e', Sniff s now payload n target e = Ret (res, s', e') ∧ sniffers_ok e' s' ∧ engine_ok e'.
Proof using Ha quic_returns.
  intros Hs He. unfold Sniff.
  destruct (sniff_loop_ok s [] now payload n e Hs) as (r & p & e' & -> & Hp & He' & Hm); [by constructor|done|].
  cbn [outcome_bind]. destruct (end_of_round_ok s r p e e' Hs Hp Hm) as (res & s' & -> & Hs'). by exists res, s', e'.
Qed.

Lemma SniffMetadata_ok s now e : sniffers_ok e s → engine_ok e →
  ∃ res s' e', SniffMetadata s now target e = Ret (res, s', e') ∧ sniffers_ok e' s' ∧ engine_ok e'.
Proof using Ha quic_returns.
  intros Hs He. unfold SniffMetadata.
  destruct (metadata_loop_ok s [] now e Hs) as (r & p & e' & -> & Hp & He' & Hm); [by constructor|done|].
  cbn [outcome_bind]. destruct (end_of_round_ok s r p e e' Hs Hp Hm) as (res & s' & -> & Hs'). by exists res, s', e'.
Qed.

Lemma content_loop_ok n i cancelled now s payload net r e :
  wf payload → length (v payload) = Size → reader_ok r → sniffers_ok e s → engine_ok e →
  ∃ res r' e', content_loop n i cancelled now s payload net target r e = Ret (res, r', e') ∧
    reader_ok r' ∧ to_read r' = to_read r ∧ (length (reader r') ≤ length (reader r))%nat ∧ engine_ok e'.
Proof using Ha quic_returns.
  revert i s payload r e. induction n as [|n IH]; intros i s payload r e Hw Hl Hr Hs He; cbn [content_loop];
    (destruct (cancelled i); [by exists (Err ErrOther), r, e|]); [by exists (Err ErrOther), r, e|].
  destruct (Cache_spec payload r Hw Hl Hr) as (b & r1 & -> & Hwb & Hlb & Hr1 & Eb & Hlen & _). cbn [outcome_bind].
  assert (∀ s e, sniffers_ok e s → engine_ok e →
    ∃ res r' e', (if IsFull b then Ret (Err ErrOther, r1, e) else content_loop n (S i) cancelled now s b net target r1 e)
      = Ret (res, r', e') ∧
    reader_ok r' ∧ to_read r' = to_read r ∧ (length (reader r') ≤ length (reader r))%nat ∧ engine_ok e') as Hretry.
  { intros s' e' Hs' He'. destruct (IsFull b); [by exists (Err ErrOther), r1, e'|].
    destruct (IH (S i) s' b r1 e' Hwb Hlb Hr1 Hs' He') as (res & r' & e2 & -> & ? & E & ? & ?).
    exists res, r', e2. split_all; [done|done|congruence|lia|done]. }
  destruct (IsEmpty b); [by apply Hretry|]. rewrite Bytes_content by done. cbn [ret_or_panic].
  destruct (Sniff_ok s (now i) (content b) net e Hs He) as (res & s' & e' & -> & Hs' & He'). cbn [outcome_bind].
  destruct res as [res|[]]; [by exists (Ok res), r1, e'|by apply Hretry|by exists (Err ErrOther), r1, e'].
Qed.

Lemma sniffer_ok array cancelled now metadataOnly net r e :
  length array = Size → reader_ok r → engine_ok e →
  ∃ res r' e', sniffer array cancelled now metadataOnly net target r e = Ret (res, r', e') ∧
    reader_ok r' ∧ to_read r' = to_read r ∧ (length (reader r') ≤ length (reader r))%nat ∧ engine_ok e'.
Proof using Ha quic_returns.
  intros Harr Hr He. unfold sniffer.
  destruct (SniffMetadata_ok (NewSniffer e) (now 0%nat) e) as (m & s & e1 & -> & Hs1 & He1); [apply NewSniffer_ok|done|].
  cbn [outcome_bind]. destruct metadataOnly; [by exists m, r, e1|].
  destruct (wf_New array Harr) as [Hw _].
  destruct (content_loop_ok 2 0 cancelled now s (Buffer_New array) net r e1 Hw) as (c & r' & e' & -> & H'); [done..|].
  cbn [outcome_bind]. do 3 eexists. split; [done|exact H'].
Qed.
End returns.

(** ** What sniffing does to the target *)

(** The header of a sniffer for the content. *)
Definition plain_result (r : SniffResult) : Prop :=
  ∃ p d, r = HeaderResult p d ∧ p ≠ lit "fakedns" ∧ p ≠ lit "fakedns+others".

Section targets.
Context `{UnicodeTables, QuicSniffer, RegexpEngine} (quic_returns : ∀ b, ∃ r, SniffQUIC b = Some r).
Variables (destination : Destination) (a : Address).
Hypothesis Ha : dest_Address destination = Some a.

Lemma run_content_plain k now b r : run_content k now b = Ret (Ok r) → plain_result r.
Proof.
  assert (∀ p o, p ≠ lit "fakedns" → p ≠ lit "fakedns+others" → with_protocol p o = Ret (Ok r) → plain_result r) as Hp.
  { intros p [[d|e]|] Hp1 Hp2; cbn; [|done|done]. intros [= <-]. by exists p, d. }
  destruct k; cbn [run_content]; apply Hp; vm_compute; discriminate.
Qed.

(** Outside the pools the engine knows nothing and is not touched. *)
Lemma GetDomain_outside h : IsIPInIPPool a h = Ret false → GetDomainFromFakeDNS a h = Ret ([], h).
Proof. intros E. unfold GetDomainFromFakeDNS. rewrite E. cbn. by destruct (IsIP (Family a)). Qed.

Lemma multi_outside hs : Forall pool_ok hs → multi_IsIPInIPPool a hs = Ret false → multi_GetDomainFromFakeDNS a hs = Ret ([], hs).
Proof.
  induction 1 as [|h hs Hh _ IH]; [done|]. cbn [multi_IsIPInIPPool multi_GetDomainFromFakeDNS].
  destruct (IsDomain (Family a)) eqn:Ed.
  - intros _. rewrite GetDomain_outside by (unfold IsIPInIPPool; by rewrite Ed). cbn [outcome_bind].
    rewrite IH; [done|]. destruct hs; cbn [multi_IsIPInIPPool]; by rewrite Ed.
  - destruct (IsIPInIPPool_ok a h Hh) as [b E]. rewrite E. cbn [outcome_bind]. destruct b; [done|].
    intros E'. rewrite GetDomain_outside by done. cbn [outcome_bind]. by rewrite IH.
Qed.

Section outside.
Variable e : engine.
Hypothesis (He : engine_ok e) (Hout : fake_address (Some a) e = Ret false).

Lemma fakedns_outside hs : e = Some hs → fakedns_sniff destination hs = Ret (Err ErrNoClue, hs).
Proof using Ha He Hout.
  intros ->. unfold fakedns_sniff. rewrite Ha. cbn [ret_or_panic]. rewrite (multi_outside hs) by done. by case_decide.
Qed.

Lemma run_sniffer_outside s now payload r e' :
  run_sniffer s now payload destination e = Ret (r, e') → e' = e ∧ ∀ res, r = Ok res → plain_result res.
Proof using Ha He Hout.
  pose proof fakedns_outside as Hfake.
  destruct s as [k| |others]; cbn [run_sniffer].
  - destruct (run_content k now (default [] payload)) as [r'| |] eqn:E; cbn [outcome_bind]; [|done|done].
    intros [= <- <-]. split; [done|]. intros res ->. by eapply run_content_plain.
  - destruct e as [hs|] eqn:Ee; cbn [ret_or_panic]; [|done]. rewrite (Hfake hs) by done. cbn [outcome_bind]. by intros [= <- <-].
  - destruct e as [hs|] eqn:Ee; cbn [ret_or_panic]; [|done]. unfold others_sniff. rewrite (Hfake hs) by done. cbn [outcome_bind].
    rewrite Ha. cbn [ret_or_panic]. cbn [fake_address ret_or_panic] in Hout. rewrite Hout. cbn [outcome_bind]. by intros [= <- <-].
Qed.

Lemma sniff_loop_outside ss pending now payload n r p e' :
  sniff_loop ss pending now payload n destination e = Ret (r, p, e') → e' = e ∧ ∀ res, r = Some res → plain_result res.
Proof using Ha He Hout.
  revert pending. induction ss as [|s ss IH]; intros pending; cbn [sniff_loop]; [by intros [= <- <- <-]|].
  case_decide; [apply IH|]. destruct (run_sniffer _ _ _ _ _) as [[r' e2]| |] eqn:E; cbn [outcome_bind]; [|done|done].
  apply run_sniffer_outside in E as [-> Hr]. destruct r' as [res|[]]; [|apply IH..].
  intros [= <- <- <-]. split; [done|]. intros ? [= <-]. by apply Hr.
Qed.

Lemma metadata_loop_outside ss pending now r p e' :
  metadata_loop ss pending now destination e = Ret (r, p, e') → e' = e ∧ ∀ res, r = Some res → plain_result res.
Proof using Ha He Hout.
  revert pending. induction ss as [|s ss IH]; intros pending; cbn [metadata_loop]; [by intros [= <- <- <-]|].
  destruct (metadataSniffer s); [|apply IH].
  destruct (run_sniffer _ _ _ _ _) as [[r' e2]| |] eqn:E; cbn [outcome_bind]; [|done|done].
  apply run_sniffer_outside in E as [-> Hr]. destruct r' as [res|[]]; [|apply IH..].
  intros [= <- <- <-]. split; [done|]. intros ? [= <-]. by apply Hr.
Qed.

Lemma end_of_round_inv s found p e2 res s' e' :
  end_of_round s (found, p, e2) = Ret (res, s', e') → e' = e2 ∧ ∀ r, res = Ok r → found = Some r.
Proof. destruct found, p; cbn; intros [= <- <- <-]; (split; [done|]); intros ? [=]; by subst. Qed.

Lemma Sniff_outside s now payload n res s' e' :
  Sniff s now payload n destination e = Ret (res, s', e') → e' = e ∧ ∀ r, res = Ok r → plain_result r.
Proof using Ha He Hout.
  unfold Sniff. destruct (sniff_loop _ _ _ _ _ _ _) as [[[r p] e2]| |] eqn:E; cbn [outcome_bind]; [|done|done].
  apply sniff_loop_outside in E as [-> Hr]. intros [-> Hres]%end_of_round_inv. eauto.
Qed.

Lemma content_loop_outside n i cancelled now s payload net r res r' e' :
  content_loop n i cancelled now s payload net destination r e = Ret (res, r', e') →
  e' = e ∧ ∀ x, res = Ok x → plain_result x.
Proof using Ha He Hout.
  revert i s payload r. induction n as [|n IH]; intros i s payload r; cbn [content_loop];
    (destruct (cancelled i); [by intros [= <- <- <-]|]); [by intros [= <- <- <-]|].
  destruct (Cache payload r) as [[b r1]| |]; cbn [outcome_bind]; [|done|done].
  assert (∀ s, (if IsFull b then Ret (Err ErrOther, r1, e) else content_loop n (S i) cancelled now s b net destination r1 e)
      = Ret (res, r', e') → e' = e ∧ ∀ x, res = Ok x → plain_result x) as Hretry.
  { intros s'. destruct (IsFull b); [by intros [= <- <- <-]|apply IH]. }
  destruct (IsEmpty b); [apply Hretry|]. destruct (Bytes b) as [d|]; cbn [ret_or_panic]; [|done].
  destruct (Sniff s (now i) d net destination e) as [[[x s'] e2]| |] eqn:E; cbn [outcome_bind]; [|done|done].
  apply Sniff_outside in E as [-> Hx]. destruct x as [x|[]]; [|apply Hretry|].
  - intros [= <- <- <-]. split; [done|]. intros ? [= <-]. by apply Hx.
  - by intros [= <- <- <-].
Qed.

Lemma metadata_no_result now res s e' :
  SniffMetadata (NewSniffer e) now destination e = Ret (res, s, e') → e' = e ∧ ∃ err, res = Err err.
Proof using Ha He Hout.
  pose proof fakedns_outside as Hfake.
  unfold SniffMetadata. destruct e as [hs|]; cbn; [|by intros [= <- <- <-]; eauto].
  rewrite (Hfake hs) by done. cbn. by intros [= <- <- <-]; eauto.
Qed.

Lemma sniffer_outside array cancelled now metadataOnly net r res r' e' :
  sniffer array cancelled now metadataOnly net destination r e = Ret (res, r', e') →
  e' = e ∧ ∀ x, res = Ok x → plain_result x.
Proof using Ha He Hout.
  unfold sniffer. destruct (SniffMetadata _ _ _ _) as [[[m s] e1]| |] eqn:E; cbn [outcome_bind]; [|done|done].
  apply metadata_no_result in E as [-> [err ->]]. destruct metadataOnly; [by intros [= <- <- <-]|].
  destruct (content_loop _ _ _ _ _ _ _ _ _ _) as [[[c r1] e2]| |] eqn:E; cbn [outcome_bind]; [|done|done].
  apply content_loop_outside in E as [-> Hc]. intros [= <- <- <-]. split; [done|]. intros x Hx. apply Hc. by destruct c.
Qed.
End outside.

(** *** The whole of it *)

Lemma override_loop_ok ps p r e : engine_ok e → ∃ b, override_loop ps p r destination e = Ret b.
Proof using Ha.
  intros He. induction ps as [|q ps IH]; [by eexists|]. cbn [override_loop].
  destruct (HasPrefix p q || HasPrefix q p); [by eexists|].
  destruct (fake_address_ok a e He) as [missed Em]. rewrite Ha.
  case_decide; [rewrite Em|]; cbn [outcome_bind];
    match goal with |- context [if ?b || _ then _ else _] => destruct b end; cbn [orb]; try (by eexists);
    destruct (IsProtoSubsetOf r q); done || by eexists.
Qed.

Lemma override_loop_fakedns ps r e : lit "fakedns" ∈ ps → engine_ok e →
  override_loop ps (lit "fakedns") r destination e = Ret true.
Proof using Ha.
  intros Hin He. induction ps as [|q ps IH]; [by apply not_elem_of_nil in Hin|]. cbn [override_loop].
  apply elem_of_cons in Hin as [<-|Hin].
  { assert (HasPrefix (lit "fakedns") (lit "fakedns") = true) as -> by (vm_compute; reflexivity). done. }
  destruct (HasPrefix _ q || _); [done|].
  destruct (fake_address_ok a e He) as [missed Em]. rewrite Ha.
  case_decide; [rewrite Em|]; cbn [outcome_bind];
    match goal with |- context [if ?b || _ then _ else _] => destruct b end; cbn [orb]; try (done);
    destruct (IsProtoSubsetOf r q); auto.
Qed.

(** What becomes of the outbound whatever was sniffed. *)
Lemma apply_result_ok r request ob e :
  engine_ok e → Target ob = destination →
  ∃ d ob', apply_result r request destination ob e = Ret (d, ob') ∧
    OriginalTarget ob' = OriginalTarget ob ∧ (Target ob' = destination ∨ Target ob' = d) ∧
    dest_Port d = dest_Port destination ∧ dest_Network d = dest_Network destination ∧
    (RouteOnly request = true → fake_address (Some a) e = Ret false → (∀ x, r = Ok x → plain_result x) →
     Target ob' = destination).
Proof using Ha.
  intros He Ht. destruct r as [x|err]; [|exists destination, ob; cbn; by split_all; auto].
  unfold apply_result, shouldOverride.
  assert (∃ b, (if decide (result_Domain x = []) then Ret false
     else if existsb (excluded (result_Domain x)) (ExcludeForDomain request) then Ret false
     else override_loop (OverrideDestinationForProtocol request) (ProtocolForDomainResult x) x destination e) = Ret b) as [b ->].
  { case_decide; [by eexists|]. destruct (existsb _ _); [by eexists|]. by apply override_loop_ok. }
  cbn [outcome_bind]. destruct b; [|exists destination, ob; by split_all; auto].
  destruct (fake_address_ok a e He) as [fake Ef]. rewrite Ht, Ha, Ef. cbn [outcome_bind].
  set (d := set_Address _ destination).
  destruct (RouteOnly request && _ && _ && negb fake) eqn:E.
  - exists d, (set_RouteTarget d ob). cbn. by split_all; auto.
  - exists d, (set_Target d ob). cbn. split_all; auto. intros Hro [= ->] Hx.
    destruct (Hx x eq_refl) as (p & q & -> & Hp1 & Hp2). cbn [ProtocolForDomainResult result_Protocol] in E.
    rewrite Hro, !bool_decide_true in E by done. done.
Qed.
End targets.


Lemma fake_serving `{FloatLog2, !FloatLog2Laws} conf h0 cs names h now0 name a h1 :
  0 < LruSize conf → (∀ n, ParseCIDR (IpPool conf) = Some n → head (net_IP n) ≠ Some 0) →
  Start (NewFakeDNSHolderConfigOnly (Some conf)) = Ret h0 → fake_run cs h0 = Ret (names, h) →
  GetFakeIPForDomain now0 name h = Ret ([Some a], h1) →
  ∃ h2, GetDomainFromFakeDNS a h1 = Ret (name, h2) ∧ pool_ok h1 ∧ pool_ok h2.
Proof.
  intros Hs Hh Estart Erun Eget. destruct (Start_serving conf h0 Hs Hh Estart) as (n & k & r & _ & Hsv).
  destruct (fake_run_serving n k r _ cs [] h0 Hsv) as (names' & h' & es & Er & Hsv1 & _).
  rewrite Erun in Er. injection Er as <- <-.
  destruct (ask_serving n k r _ es h now0 name Hsv1) as (z & a' & h'' & es' & _ & _ & EA & Hu & Hsv2 & _).
  rewrite Eget in EA. injection EA as <- <-. pose proof (uses_head _ _ _ _ _ Hs Hu) as Hin.
  destruct (reverse_serving n k r _ es' h1 a Hsv2) as (d & h2 & es2 & E & Hsv3 & [(_ & _ & Hno)|(_ & Hn)]).
  { by destruct (Hno name). }
  exists h2. split; [|split; by do 5 eexists]. rewrite E. f_equal. f_equal.
  destruct (sv_state _ _ _ _ _ _ Hsv2) as (s & _ & _ & _ & Hrep).
  pose proof (GetKey_In _ _ _ _ Hrep Hin). pose proof (GetKey_In _ _ _ _ Hrep Hn). congruence.
Qed.

(** With a fake address every result is that of its name. *)
Lemma sniffer_fakedns `{UnicodeTables, QuicSniffer} (quic_returns : ∀ b, ∃ r, SniffQUIC b = Some r)
    destination a (Ha : dest_Address destination = Some a) name h1 h2 array cancelled now metadataOnly net r :
  GetDomainFromFakeDNS a h1 = Ret (name, h2) → pool_ok h1 → pool_ok h2 → name ≠ [] →
  dest_Network destination = Network_TCP ∨ dest_Network destination = Network_UDP →
  length array = Size → reader_ok r →
  ∃ x r' e', sniffer array cancelled now metadataOnly net destination r (Some [h1]) = Ret (Ok x, r', e') ∧
    result_Domain x = name ∧ ProtocolForDomainResult x = lit "fakedns" ∧
    reader_ok r' ∧ to_read r' = to_read r ∧ (length (reader r') ≤ length (reader r))%nat ∧ engine_ok e'.
Proof.
  intros Eback Hok1 Hok2 Hname Hnet Harr Hr.
  assert (fakedns_sniff destination [h1] = Ret (Ok (fakeDNSSniffResult name), [h2])) as Efake.
  { unfold fakedns_sniff. rewrite decide_True, Ha by done. cbn [ret_or_panic multi_GetDomainFromFakeDNS].
    rewrite Eback. cbn [outcome_bind]. destruct name; [done|]. cbn [outcome_bind]. by rewrite decide_True. }
  assert (engine_ok (Some [h2])) as He2 by (cbn; by repeat constructor).
  assert (∃ s, SniffMetadata (NewSniffer (Some [h1])) (now 0%nat) destination (Some [h1]) =
    Ret (Ok (fakeDNSSniffResult name), s, Some [h2]) ∧ sniffers_ok (Some [h2]) s) as (s & Em & Hs).
  { exists (NewSniffer (Some [h2])). split; [|apply NewSniffer_ok].
    unfold SniffMetadata. cbn [NewSniffer newFakeDNSSniffer newFakeDNSThenOthers content_sniffers fmap list_fmap app
      metadata_loop metadataSniffer run_sniffer sniff_with ret_or_panic]. rewrite Efake. reflexivity. }
  unfold sniffer. rewrite Em. cbn [outcome_bind]. destruct metadataOnly.
  { do 3 eexists. split; [reflexivity|]. by split_all. }
  destruct (wf_New array Harr) as [Hw _].
  destruct (content_loop_ok quic_returns destination a Ha 2 0 cancelled now s (Buffer_New array) net r (Some [h2]) Hw)
    as (c & r' & e' & -> & Hr' & Eb & Hl & He'); [done..|]. cbn [outcome_bind].
  destruct c as [c|err]; (do 3 eexists; split; [reflexivity|]; by split_all).
Qed.

(** C7. A connection to the address that the fake DNS gave to a name goes to that name
    again: whatever the content is, its target is the name, unless the
    configuration excludes it, and no byte is lost. *)
Theorem fakedns_name_restored `{UnicodeTables, QuicSniffer, RegexpEngine, FloatLog2, !FloatLog2Laws}
    conf h0 cs names h now0 name a h1 array cancelled now cn destination link :
  0 < LruSize conf → (∀ n, ParseCIDR (IpPool conf) = Some n → head (net_IP n) ≠ Some 0) →
  Start (NewFakeDNSHolderConfigOnly (Some conf)) = Ret h0 → fake_run cs h0 = Ret (names, h) →
  name ≠ [] → GetFakeIPForDomain now0 name h = Ret ([Some a], h1) →
  dest_Address destination = Some a → dest_Network destination = Network_TCP ∨ dest_Network destination = Network_UDP →
  Enabled (cn_Request cn) = true → lit "fakedns" ∈ OverrideDestinationForProtocol (cn_Request cn) →
  existsb (excluded name) (ExcludeForDomain (cn_Request cn)) = false →
  (∀ b, ∃ r, SniffQUIC b = Some r) → length array = Size → Forall delivery_wf link →
  ∃ d ob content r e',
    sniff_target array cancelled now cn destination link (Some [h1]) = Ret (d, ob, content, r, e') ∧
    Target ob = set_Address (ParseAddress name) destination ∧
    drain (2 + length link) r = Some (pipe_bytes link).
Proof.
  intros Hs Hh Estart Erun Hname Eget Ha Hnet Hen Hov Hex Hquic Harr Hlink.
  destruct (fake_serving conf h0 cs names h now0 name a h1) as (h2 & Eback & Hok1 & Hok2); [done..|].
  unfold sniff_target. rewrite Hen. set (ob0 := {| OriginalTarget := destination |}).
  assert (reader_ok {| reader := link; cache := None |}) as Hr by (split; [done|by constructor]).
  destruct (sniffer_fakedns Hquic destination a Ha name h1 h2 array cancelled now (MetadataOnly (cn_Request cn))
    (dest_Network destination) {| reader := link; cache := None |})
    as (x & r & e' & E & Hdom & Hproto & Hr' & Eb & Hl & He'); [done..|].
  cbn [Target ob0]. rewrite E. cbn [outcome_bind].
  destruct (fake_address_ok a e' He') as [fake Ef].
  unfold apply_result, shouldOverride. rewrite Hdom, Hproto, decide_False, Hex by done.
  rewrite (override_loop_fakedns destination a Ha) by done. cbn [outcome_bind Target ob0]. rewrite Ha, Ef. cbn [outcome_bind].
  rewrite (bool_decide_false (lit "fakedns" ≠ lit "fakedns")) by tauto. rewrite andb_false_r. cbn [andb].
  do 5 eexists. split; [reflexivity|]. split; [done|]. change (pipe_bytes link) with (to_read {| reader := link; cache := None |}).
  rewrite <- Eb. apply drain_all; [done|cbn in Hl; lia].
Qed.

(** ** Behaviour that is not meant *)

(** The sniffer that combines the fake DNS with the others is for no network and not
    for metadata: neither loop runs it. *)
Theorem fakedns_others_never_runs `{UnicodeTables, QuicSniffer} others ss pending now payload destination target e :
  IsValid destination = true →
  sniff_loop (newFakeDNSThenOthers others :: ss) pending now payload (dest_Network destination) target e =
    sniff_loop ss pending now payload (dest_Network destination) target e ∧
  metadata_loop (newFakeDNSThenOthers others :: ss) pending now target e =
    metadata_loop ss (pending ++ [newFakeDNSThenOthers others]) now target e.
Proof.
  unfold IsValid. intros Hv%bool_decide_eq_true. split; [|done]. cbn [sniff_loop newFakeDNSThenOthers metadataSniffer network].
  by rewrite decide_True by (right; congruence).
Qed.

(** The static hosts are asked for the text of the whole destination, with its network
    and port: a full name or a domain without a colon never matches it. *)
Theorem hosts_asked_with_port destination name pattern :
  dest_Network destination = Network_TCP ∨ dest_Network destination = Network_UDP →
  0 ≤ dest_Port destination < 2 ^ 16 → 58 ∉ pattern → pattern ≠ [] →
  Destination_String destination = Some name →
  Matcher_Match (fullMatcher pattern) name = false ∧ Matcher_Match (domainMatcher pattern) name = false.
Proof.
  intros Hnet Hport Hc Hne Hname.
  assert (∃ pre, name = pre ++ [58] ++ Port_String (dest_Port destination)) as [pre ->].
  { unfold Destination_String, NetAddr in Hname.
    destruct Hnet as [Hn|Hn]; rewrite Hn in Hname; (destruct (dest_Address destination) as [a|]; [|done]);
      cbn [mbind option_bind fmap option_fmap option_map] in Hname; apply Some_inj in Hname as <-;
      eexists; by rewrite (app_assoc _ (Address_String a)). }
  assert (46 ∉ Port_String (dest_Port destination)) as Hdot by (apply Itoa_no; [lia|done]).
  revert Hdot. generalize (Port_String (dest_Port destination)). intros port Hdot.
  cbn [Matcher_Match]. split.
  - apply bool_decide_eq_false. intros ->. apply Hc. set_solver.
  - unfold domainMatcher_Match. destruct (HasSuffix _ pattern) eqn:Es; [|done].
    apply bool_decide_eq_true in Es as [x Ex]. case_decide as El.
    { destruct x; [|rewrite Ex, length_app in El; cbn in El; lia]. destruct Hc. cbn in Ex. rewrite <- Ex. set_solver. }
    apply bool_decide_eq_false. intros Hd. rewrite Ex, length_app in Hd.
    replace (length x + length pattern - length pattern - 1)%nat with (length x - 1)%nat in Hd by lia.
    destruct (decide (length x = 0)%nat) as [Hx|Hx].
    { destruct x; [|done]. destruct Hc. cbn in Ex. rewrite <- Ex. set_solver. }
    rewrite lookup_app_l in Hd by lia.
    destruct x as [|ch x _] using rev_ind; [done|]. rewrite length_app in Hd. cbn [length] in Hd.
    rewrite Nat.add_sub, list_lookup_middle in Hd by done. injection Hd as ->.
    rewrite <- app_assoc in Ex. apply app_eq_inv in Ex as [(k & -> & Ek)|(k & -> & Ek)].
    + destruct k as [|c k]; cbn in Ek; [discriminate|]. injection Ek as <- Ek. apply Hc. rewrite Ek. set_solver.
    + destruct k as [|c k]; cbn in Ek; [discriminate|]. injection Ek as <- ->. apply Hdot. set_solver.
Qed.

(** ** The handler *)

(** A connection is refused only when the handler it is forced to is not there, or no
    handler at all. *)
Lemma refused_without_handler {R} `{!Routing R} dns (router router' : option R) x forced inbound content destination ob ob' :
  routedDispatch dns router x forced inbound content destination ob = Ret (Refused, ob', router') →
  forced ≠ [] ∧ GetHandler forced x = None ∨ forced = [] ∧ GetDefaultHandler x = None.
Proof.
  unfold routedDispatch. destruct (replace_host dns destination ob) as [[d ob1]| |]; cbn [outcome_bind]; [|done|done].
  unfold pick_handler. case_decide as Hf.
  - cbn [outcome_bind]. destruct (GetHandler forced x) as [h|] eqn:Eh; [done|]. by left.
  - assert (forced = []) as -> by (by destruct forced). intros Hr. right. split; [done|]. revert Hr.
    assert (∀ (o : option Handler * Z) (router : option R),
      match o with (handler, isPickRoute) =>
        match (match handler with Some h => Some h | None => GetDefaultHandler x end) with
        | None => Ret (Refused, ob1, router)
        | Some h => Ret (Handled h (Detour (GetInboundTag (routing_context inbound content ob1)) (h_Tag h) isPickRoute),
                         set_Tag (h_Tag h) ob1, router)
        end
      end = Ret (Refused, ob', router') → GetDefaultHandler x = None) as Ho.
    { intros [[h|] i] r; [done|]. by destruct (GetDefaultHandler x). }
    destruct router as [r|]; [|apply (Ho (None, 0))].
    destruct (PickRoute _ r) as [[tag| |] r']; cbn [outcome_bind]; [apply Ho|apply (Ho (None, 0))|done].
Qed.

(** ** Concrete connections *)

#[local] Instance no_quic : QuicSniffer := λ _, Some (Err ErrNoClue).
#[local] Instance no_regexp : RegexpEngine := λ _, None.
#[local] Existing Instances ascii_tables exact_log2 exact_log2_laws.

Lemma no_quic_returns b : ∃ r, SniffQUIC b = Some r.
Proof. by exists (Err ErrNoClue). Qed.

Definition sniff_all (routeOnly : bool) : SniffingRequest :=
  {| ExcludeForDomain := [lit "regexp:("; lit "b.com"]; OverrideDestinationForProtocol := [lit "http"; lit "tls"; lit "fakedns"];
     Enabled := true; MetadataOnly := false; RouteOnly := routeOnly |}.

Definition plain_connection (routeOnly : bool) : connection :=
  {| cn_Inbound := None; cn_Outbound := None; cn_Content := None; cn_Request := sniff_all routeOnly; cn_Forced := [] |}.

(** A ClientHello in two pieces, with a pause before the first one. *)
Definition hello_link : list delivery :=
  [Timeout; Data [FromBytes (take 30 (client_hello sample_client))]; Data [FromBytes (drop 30 (client_hello sample_client))]].

(** A ClientHello in one piece. *)
Definition short_link : list delivery := [Data [FromBytes (client_hello sample_client)]].

Definition at_443 (a : Address) : Destination :=
  {| dest_Address := Some a; dest_Port := 443; dest_Network := Network_TCP |}.

Definition some_address : Address := ipv4Address [1; 2; 3; 4].

Lemma hello_links_wf : Forall delivery_wf hello_link ∧ Forall delivery_wf short_link.
Proof. split; repeat constructor; apply FromBytes_wf; vm_compute; reflexivity. Qed.


Definition small_after_a : Holder := or_stopped (GetFakeIPForDomain 2 (lit "a.com") small_holder).

Lemma fakedns_name_restored_witness :
  ∃ d ob content r e',
    sniff_target pool_array (λ _, false) (λ _, 0) (plain_connection true) (at_443 (ipv4Address [198; 18; 0; 2])) hello_link
      (Some [small_after_a]) = Ret (d, ob, content, r, e') ∧
    Target ob = at_443 (domainAddress (lit "a.com")) ∧
    drain 5 r = Some (pipe_bytes hello_link).
Proof.
  destruct (fakedns_name_restored small_pool small_holder [] [] small_holder 2 (lit "a.com") (ipv4Address [198; 18; 0; 2])
    small_after_a pool_array (λ _, false) (λ _, 0) (plain_connection true) (at_443 (ipv4Address [198; 18; 0; 2])) hello_link)
    as (d & ob & content & r & e' & E & Et & Hd);
    [done|apply small_pool_head|vm_compute; reflexivity|reflexivity|done|vm_compute; reflexivity|reflexivity|by left
    |reflexivity| |vm_compute; reflexivity|apply no_quic_returns|apply pool_array_length|apply hello_links_wf|].
  - apply list_elem_of_lookup_2 with 2%nat. reflexivity.
  - exists d, ob, content, r, e'. split_all; [done| |done]. rewrite Et. vm_compute. reflexivity.
Defined.
