(* ===== verification/Freedom.v ===== *)
(** The freedom outbound (src/upstream/xray-core/proxy/freedom: freedom.go, config.go)
    and its configuration (src/upstream/xray-core/infra/conf/freedom.go): the address
    that is dialed, the writer that cuts a ClientHello or a stream into fragments, and
    the writers of packets. *)
From S2P Require Import Prelude GoText NetIP NetIP6 GoConv Address Transport Buf BufAppend MultiBuffer DnsHosts.

(** ** The configuration *)

Record Fragment := {
  PacketsFrom : Z; PacketsTo : Z;
  LengthMin : Z; LengthMax : Z;
  IntervalMin : Z; IntervalMax : Z }.

Record Noise := { n_LengthMin : Z; n_LengthMax : Z; DelayMin : Z; DelayMax : Z; StrNoise : bytes }.

(** [DestinationOverride]: address and port of its server. *)
Record Config := {
  DomainStrategy : Z;
  DestinationOverride : option (option (option IPOrDomain) * Z);
  c_Timeout : Z;
  c_UserLevel : Z;
  c_Fragment : option Fragment;
  c_Noise : option Noise;
  ProxyProtocol : Z }.

(** The JSON of the configuration. *)
Record FragmentText := { t_Packets : bytes; t_Length : bytes; t_Interval : bytes }.
Record NoiseText := { t_Packet : bytes; t_Delay : bytes }.
Record FreedomConfig := {
  t_DomainStrategy : bytes;
  t_Timeout : option Z;
  t_Redirect : bytes;
  t_UserLevel : Z;
  t_Fragment : option FragmentText;
  t_Noise : option NoiseText;
  t_ProxyProtocol : Z }.

Definition hyphen : bytes := [45].

Section build.
Context `{UnicodeTables}.

Definition domain_strategies : list bytes :=
  lit <$> ["asis"; "useip"; "useipv4"; "useipv6"; "useipv4v6"; "useipv6v4"; "forceip"; "forceipv4"; "forceipv6";
           "forceipv4v6"; "forceipv6v4"]%string.

Definition parse_strategy (s : bytes) : option Z :=
  let s := ToLower s in
  if decide (s = []) then Some 0
  else Z.of_nat <$> (fst <$> list_find (λ name, name = s) domain_strategies).

(** A range of numbers, or one number twice, in their order; [None] is an error. *)
Definition parse_range (s : bytes) : option (Z * Z) :=
  match Split s hyphen with
  | [from; to] =>
    a ← ParseUint from 64; b ← ParseUint to 64;
    Some (if decide (b < a) then (b, a) else (a, b))
  | from :: _ => a ← ParseUint from 64; Some (a, a)
  | [] => None
  end.

Definition parse_packets (s : bytes) : option (Z * Z) :=
  if decide (ToLower s = lit "tlshello") then Some (0, 1)
  else if decide (ToLower s = []) then Some (0, 0)
  else '(from, to) ← parse_range s; if decide (from = 0) then None else Some (from, to).

Definition build_fragment (t : FragmentText) : option Fragment :=
  '(from, to) ← parse_packets (t_Packets t);
  if decide (t_Length t = []) then None
  else
    '(lmin, lmax) ← parse_range (t_Length t);
    if decide (lmin = 0) then None
    else if decide (t_Interval t = []) then None
    else
      '(imin, imax) ← parse_range (t_Interval t);
      Some {| PacketsFrom := from; PacketsTo := to; LengthMin := lmin; LengthMax := lmax;
              IntervalMin := imin; IntervalMax := imax |}.

Definition build_delay (s : bytes) : option (Z * Z) :=
  if decide (s = []) then Some (0, 0)
  else
    let d := ToLower s in
    if decide (2 < length (Split d hyphen))%nat then None
    else '(dmin, dmax) ← parse_range d; if decide (dmin = 0) then None else Some (dmin, dmax).

Definition build_noise (t : NoiseText) : option Noise :=
  match Split (ToLower (t_Packet t)) [58] with
  | [kind; arg] =>
    '(lmin, lmax, str) ←
      (if decide (kind = lit "rand") then
         if decide (2 < length (Split arg hyphen))%nat then None
         else '(lmin, lmax) ← parse_range arg; if decide (lmin = 0) then None else Some (lmin, lmax, [])
       else if decide (kind = lit "str") then Some (0, 0, TrimSpace arg)
       else None);
    '(dmin, dmax) ← build_delay (t_Delay t);
    Some {| n_LengthMin := lmin; n_LengthMax := lmax; DelayMin := dmin; DelayMax := dmax; StrNoise := str |}
  | _ => None
  end.

Definition build_redirect (s : bytes) : option (option (option (option IPOrDomain) * Z)) :=
  if decide (s = []) then Some None
  else
    '(host, portStr) ← SplitHostPort s;
    port ← PortFromString portStr;
    Some (Some (if decide (host = []) then None else Some (NewIPOrDomain <$> ParseAddress host), port)).

(** A part of the configuration that may be left out. *)
Definition optional {A B} (f : A → option B) (o : option A) : option (option B) :=
  match o with None => Some None | Some a => b ← f a; Some (Some b) end.

Definition FreedomConfig_Build (c : FreedomConfig) : option Config :=
  strategy ← parse_strategy (t_DomainStrategy c);
  fragment ← optional build_fragment (t_Fragment c);
  noise ← optional build_noise (t_Noise c);
  redirect ← build_redirect (t_Redirect c);
  Some {| DomainStrategy := strategy;
          DestinationOverride := redirect;
          c_Timeout := default 0 (t_Timeout c);
          c_UserLevel := t_UserLevel c;
          c_Fragment := fragment;
          c_Noise := noise;
          ProxyProtocol := if decide (0 < t_ProxyProtocol c ≤ 2) then t_ProxyProtocol c else 0 |}.
End build.

(** ** The address *)

Definition strategy : list (Z * Z * Z) :=
  [(0, 0, 0); (1, 0, 0); (1, 4, 0); (1, 6, 0); (1, 4, 6); (1, 6, 4);
   (2, 0, 0); (2, 4, 0); (2, 6, 0); (2, 4, 6); (2, 6, 4)].

(** [None]: the index is out of range. *)
Definition strategy_of (c : Config) : option (Z * Z * Z) :=
  if decide (0 ≤ DomainStrategy c) then strategy !! Z.to_nat (DomainStrategy c) else None.

Definition hasStrategy (c : Config) : option bool := (λ '(s, _, _), bool_decide (s ≠ 0)) <$> strategy_of c.
Definition forceIP (c : Config) : option bool := (λ '(s, _, _), bool_decide (s = 2)) <$> strategy_of c.
Definition preferIP4 (c : Config) : option bool := (λ '(_, p, _), bool_decide (p = 4 ∨ p = 0)) <$> strategy_of c.
Definition preferIP6 (c : Config) : option bool := (λ '(_, p, _), bool_decide (p = 6 ∨ p = 0)) <$> strategy_of c.
Definition hasFallback (c : Config) : option bool := (λ '(_, _, f), bool_decide (f ≠ 0)) <$> strategy_of c.
Definition fallbackIP4 (c : Config) : option bool := (λ '(_, _, f), bool_decide (f = 4)) <$> strategy_of c.
Definition fallbackIP6 (c : Config) : option bool := (λ '(_, _, f), bool_decide (f = 6)) <$> strategy_of c.

(** [dns.Client.LookupIP] over a state of the world: the addresses, and whether there
    was an error. *)
Class Resolver (W : Type) := LookupIP : W → bytes → IPOption → W * (list bytes * bool).

(** [dice.Roll n] gives a number below [n]. *)
Class Roll := dice_Roll : nat → nat.

Section resolve.
Context {W : Type} `{!Resolver W, Roll}.

Definition resolveIP (c : Config) (domain : bytes) (localAddr : option Address) (w : W) : outcome (W * option Address) :=
  ret_or_panic (preferIP4 c) (λ p4, ret_or_panic (preferIP6 c) (λ p6,
  ret_or_panic (hasFallback c) (λ fb, ret_or_panic (fallbackIP4 c) (λ f4, ret_or_panic (fallbackIP6 c) (λ f6,
  let local4 := match localAddr with None => true | Some a => IsIPv4 (Family a) end in
  let local6 := match localAddr with None => true | Some a => IsIPv6 (Family a) end in
  let '(w, (ips, err)) := LookupIP w domain {| IPv4Enable := local4 && p4; IPv6Enable := local6 && p6; FakeEnable := false |} in
  let '(w, (ips, err)) :=
    if (bool_decide (ips = []) || err) && fb && bool_decide (localAddr = None)
    then LookupIP w domain {| IPv4Enable := f4; IPv6Enable := f6; FakeEnable := false |}
    else (w, (ips, err)) in
  match ips with
  | [] => Ret (w, None)
  | _ => ret_or_panic (ips !! dice_Roll (length ips)) (λ ip, Ret (w, IPAddress ip))
  end))))).

(** [isValidAddress]; the method of an unset message panics. *)
Definition isValidAddress (addr : option (option IPOrDomain)) : outcome bool :=
  match addr with
  | None => Ret false
  | Some _ => ret_or_panic (AsAddress addr) (λ a, Ret (bool_decide (a ≠ Some AnyIP)))
  end.

(** The destination and the override of packets ([Process]). *)
Definition override_destination (c : Config) (target : Destination) : outcome (Destination * Destination) :=
  let UDPOverride := UDPDestination None 0 in
  match DestinationOverride c with
  | None => Ret (target, UDPOverride)
  | Some (address, port) =>
    let? valid := isValidAddress address in
    ret_or_panic (if valid : bool then AsAddress address else Some None) (λ a,
    let with_address (d : Destination) :=
      if valid : bool then {| dest_Address := a; dest_Port := dest_Port d; dest_Network := dest_Network d |} else d in
    let with_port (d : Destination) :=
      if decide (port ≠ 0)
      then {| dest_Address := dest_Address d; dest_Port := u16 port; dest_Network := dest_Network d |} else d in
    Ret (with_port (with_address target), with_port (with_address UDPOverride)))
  end.

(** One attempt to dial: the destination, or the error [ErrEmptyResponse]. *)
Definition dial_destination (c : Config) (localAddr : option Address) (destination : Destination) (w : W) :
    outcome (W * option Destination) :=
  ret_or_panic (hasStrategy c) (λ has,
  if has : bool then
    ret_or_panic (dest_Address destination) (λ a,
    match a with
    | domainAddress domain =>
      let? (w, ip) := resolveIP c domain localAddr w in
      match ip with
      | Some ip => Ret (w, Some {| dest_Address := Some ip; dest_Port := dest_Port destination; dest_Network := dest_Network destination |})
      | None => ret_or_panic (forceIP c) (λ force, Ret (w, if force : bool then None else Some destination))
      end
    | _ => Ret (w, Some destination)
    end)
  else Ret (w, Some destination)).
End resolve.

(** ** Fragments *)

(** [int64] of an unsigned number. *)
Definition s64 (x : Z) : Z := (x + 2 ^ 63) mod 2 ^ 64 - 2 ^ 63.

(** [randBetween] with a random number [r]; [rand.Int] panics without a positive bound. *)
Definition randBetween (left right r : Z) : outcome Z :=
  if decide (left = right) then Ret left
  else if decide (s64 (right - left) ≤ 0) then Panic
  else Ret (s64 (left + r mod s64 (right - left))).

(** [io.Writer]: how many bytes were written, and whether there was an error. *)
Class IoWriter (W : Type) := io_Write : W → bytes → W * (nat * bool).

Section fragments.
Context {W : Type} `{!IoWriter W}.

(** The end of the piece that begins at [from]; [Panic] for a slice out of range. *)
Definition piece_end (f : Fragment) (r : Z) (from : nat) (len : nat) : outcome nat :=
  let? n := randBetween (s64 (LengthMin f)) (s64 (LengthMax f)) r in
  let to := s64 (Z.of_nat from + n) in
  let to := if decide (Z.of_nat len < to) then Z.of_nat len else to in
  if decide (to < Z.of_nat from) then Panic else Ret (Z.to_nat to).

(** The random time of sleeping between pieces. *)
Definition sleep (f : Fragment) : outcome Z := randBetween (s64 (IntervalMin f)) (s64 (IntervalMax f)) 0.

(** A piece of a handshake message behind a header of its own, made in an array of
    1024 bytes. *)
Definition record_of (b piece : bytes) : outcome bytes :=
  let l := Z.of_nat (length piece) in
  if decide (1024 < 5 + l) then Panic
  else Ret (take 3 b ++ [u8 (Z.shiftr l 8); u8 l] ++ piece).

(** The loop over the pieces of [data]; [rs] are the random numbers.  It ends with what
    is left of [hello], or with an error.  Every piece of a configuration that is built
    has a byte, so the fuel is one round more than there are bytes. *)
Fixpoint hello_loop (fuel : nat) (f : Fragment) (rs : nat → Z) (b data : bytes) (from : nat) (hello : bytes) (w : W) :
    outcome (W * option bytes) :=
  match fuel with
  | O => Panic
  | S fuel =>
    let? to := piece_end f (rs 0%nat) from (length data) in
    let? rec := record_of b (take (to - from) (drop from data)) in
    let next hello w :=
      if decide (to = length data) then Ret (w, Some hello)
      else hello_loop fuel f (rs ∘ S) b data to hello w in
    if decide (IntervalMax f = 0) then next (hello ++ rec) w
    else
      let '(w, (_, err)) := io_Write w rec in
      let? _ := sleep f in
      if err : bool then Ret (w, None) else next hello w
  end.

(** The loop over the pieces of the whole. *)
Fixpoint piece_loop (fuel : nat) (f : Fragment) (rs : nat → Z) (b : bytes) (from : nat) (w : W) : outcome (W * (nat * bool)) :=
  match fuel with
  | O => Panic
  | S fuel =>
    let? to := piece_end f (rs 0%nat) from (length b) in
    let '(w, (n, err)) := io_Write w (take (to - from) (drop from b)) in
    let from := (from + n)%nat in
    let? _ := sleep f in
    if err : bool then Ret (w, (from, true))
    else if decide (length b ≤ from)%nat then Ret (w, (from, false))
    else piece_loop fuel f (rs ∘ S) b from w
  end.

(** [FragmentWriter]: the fragment and the count of writes. *)
Record FragmentWriter := { fragment : Fragment; count : Z }.

Definition FragmentWriter_Write (fw : FragmentWriter) (rs : nat → Z) (b : bytes) (w : W) :
    outcome (FragmentWriter * W * (nat * bool)) :=
  let f := fragment fw in
  let fw := {| fragment := f; count := u64 (count fw + 1) |} in
  let plain := let '(w, r) := io_Write w b in Ret (fw, w, r) in
  if decide (PacketsFrom f = 0 ∧ PacketsTo f = 1) then
    match b with
    | b0 :: _ :: _ :: b3 :: b4 :: _ :: _ =>
      if decide (count fw ≠ 1 ∨ b0 ≠ 22) then plain
      else
        let recordLen := (5 + Z.to_nat (b3 * 256 + b4))%nat in
        if decide (length b < recordLen)%nat then plain
        else
          let data := take (recordLen - 5) (drop 5 b) in
          let? (w, hello) := hello_loop (S (length data)) f rs b data 0 [] w in
          match hello with
          | None => Ret (fw, w, (0%nat, true))
          | Some hello =>
            let '(w, err) := if decide (hello = []) then (w, false)
                             else let '(w, (_, err)) := io_Write w hello in (w, err) in
            if err : bool then Ret (fw, w, (0%nat, true))
            else if decide (recordLen < length b)%nat then
              let '(w, (n, err)) := io_Write w (drop recordLen b) in
              if err : bool then Ret (fw, w, ((recordLen + n)%nat, true)) else Ret (fw, w, (length b, false))
            else Ret (fw, w, (length b, false))
          end
    | _ => plain
    end
  else if decide (PacketsFrom f ≠ 0 ∧ (count fw < PacketsFrom f ∨ PacketsTo f < count fw)) then plain
  else let? (w, r) := piece_loop (S (length b)) f rs b 0 w in Ret (fw, w, r).
End fragments.

(** ** Packets *)

(** The packet connection, and the resolver of package net on the text of an address
    ([None] when it finds none). *)
Class PacketConn (W : Type) := {
  pc_WriteTo : W → bytes → bytes → W * bool;
  pc_Write : W → bytes → W * bool;
  ResolveUDPAddr : W → bytes → option bytes }.

Section packets.
Context {W : Type} `{!Resolver W, Roll, !PacketConn W}.

(** Where a packet with a destination goes: its text.  The override and the resolved
    address replace parts of the destination. *)
Definition packet_target (c : Config) (UDPOverride : Destination) (d : Destination) (w : W) : outcome (W * Destination) :=
  let d := match dest_Address UDPOverride with
           | Some a => {| dest_Address := Some a; dest_Port := dest_Port d; dest_Network := dest_Network d |} | None => d end in
  let d := if decide (dest_Port UDPOverride ≠ 0)
           then {| dest_Address := dest_Address d; dest_Port := dest_Port UDPOverride; dest_Network := dest_Network d |} else d in
  ret_or_panic (hasStrategy c) (λ has,
  if has : bool then
    ret_or_panic (dest_Address d) (λ a,
    match a with
    | domainAddress domain =>
      let? (w, ip) := resolveIP c domain None w in
      match ip with
      | Some ip => Ret (w, {| dest_Address := Some ip; dest_Port := dest_Port d; dest_Network := dest_Network d |})
      | None => Ret (w, d)
      end
    | _ => Ret (w, d)
    end)
  else Ret (w, d)).

(** [PacketWriter.WriteMultiBuffer]: [true] is an error. *)
Fixpoint packet_writes (c : Config) (UDPOverride : Destination) (mb : list Buffer) (w : W) : outcome (W * bool) :=
  match mb with
  | [] => Ret (w, false)
  | b :: mb =>
    match UDP b with
    | None =>
      ret_or_panic (Bytes b) (λ d,
      let '(w, err) := pc_Write w d in
      if err : bool then Ret (w, true) else packet_writes c UDPOverride mb w)
    | Some d =>
      let? (w, d) := packet_target c UDPOverride d w in
      ret_or_panic (NetAddr d) (λ text,
      match ResolveUDPAddr w text with
      | None => packet_writes c UDPOverride mb w
      | Some addr =>
        ret_or_panic (Bytes b) (λ data,
        let '(w, err) := pc_WriteTo w data addr in
        if err : bool then Ret (w, true) else packet_writes c UDPOverride mb w)
      end)
    end
  end.

(** [NoisePacketWriter.WriteMultiBuffer]: the first write sends noise before it, except
    to the port of the DNS; [noise] are random bytes, [None] an error of their source.
    What is left of [firstWrite] comes first. *)
Definition noise_writes (c : Config) (n : Noise) (firstWrite : bool) (UDPOverride : Destination) (r : Z)
    (noise : nat → option bytes) (mb : list Buffer) (w : W) : outcome (bool * W * bool) :=
  let through mb w := let? (w, err) := packet_writes c UDPOverride mb w in Ret (false, w, err) in
  if firstWrite then
    if decide (dest_Port UDPOverride = 53) then through mb w
    else
      let? bytes :=
        if decide (StrNoise n ≠ []) then Ret (Some (StrNoise n))
        else let? l := randBetween (s64 (n_LengthMin n)) (s64 (n_LengthMax n)) r in
             if decide (l < 0) then Panic else Ret (noise (Z.to_nat l)) in
      match bytes with
      | None => Ret (false, w, true)
      | Some bytes =>
        let? (_, w, _) := through [FromBytes bytes] w in
        let? _ := if decide (DelayMin n ≠ 0) then randBetween (s64 (DelayMin n)) (s64 (DelayMax n)) 0 else Ret 0 in
        through mb w
      end
  else through mb w.
End packets.

(** ** What the fragments carry *)

(** A writer that takes everything that it is given is [live]; [written] is what it got
    so far, write by write. *)
Class LiveIo {W : Type} `{IoWriter W} (live : W → Prop) (written : W → list bytes) : Prop :=
  live_write : ∀ w b, live w → ∃ w', io_Write w b = (w', (length b, false)) ∧ live w' ∧ written w' = written w ++ [b].

(** A fragment as [build_fragment] makes it, with pieces of at most [m] bytes. *)
Record fragment_ok (m : Z) (f : Fragment) : Prop := {
  fo_length : 1 ≤ LengthMin f ≤ LengthMax f;
  fo_max : LengthMax f ≤ m;
  fo_interval : 0 ≤ IntervalMin f ≤ IntervalMax f;
  fo_interval_max : IntervalMax f < 2 ^ 63 }.

(** The header of a record of a message that begins with [b]. *)
Definition record_bytes (b piece : bytes) : bytes :=
  take 3 b ++ be_bytes 2 (Z.of_nat (length piece)) ++ piece.

Lemma s64_small x : - 2 ^ 63 ≤ x < 2 ^ 63 → s64 x = x.
Proof. intros. unfold s64. rewrite Z.mod_small; lia. Qed.

Lemma randBetween_spec l r x : 0 ≤ l ≤ r → r < 2 ^ 63 → ∃ n, randBetween l r x = Ret n ∧ l ≤ n ≤ r.
Proof.
  intros Hl Hr. unfold randBetween. destruct (decide (l = r)); [exists l; split; [done|lia]|].
  rewrite (s64_small (r - l)) by lia. rewrite decide_False by lia. pose proof (Z.mod_pos_bound x (r - l) ltac:(lia)).
  rewrite s64_small by lia. eexists. split; [done|]. lia.
Qed.

Lemma mjoin_one (x : bytes) : mjoin [x] = x.
Proof. cbn. by rewrite app_nil_r. Qed.

Section reassemble.
Context {W : Type} `{LiveIo W live written}.
Variables (m : Z) (f : Fragment).
Hypothesis (Hm : m < 2 ^ 62) (Hf : fragment_ok m f).

Lemma sleep_returns : ∃ n, sleep f = Ret n.
Proof using Hf.
  destruct Hf as [_ _ Hi Hx]. unfold sleep. rewrite !s64_small by lia.
  destruct (randBetween_spec (IntervalMin f) (IntervalMax f) 0) as (n & -> & _); [lia|lia|by exists n].
Qed.

Lemma piece_end_spec r from len : (from ≤ len)%nat → Z.of_nat len < 2 ^ 62 →
  ∃ to, piece_end f r from len = Ret to ∧ (from ≤ to ≤ len)%nat ∧ Z.of_nat (to - from) ≤ m ∧ ((from < len)%nat → (from < to)%nat).
Proof using Hf Hm.
  intros Hfrom Hlen. destruct Hf as [Hl Hmax _ _]. unfold piece_end. rewrite !s64_small by lia.
  destruct (randBetween_spec (LengthMin f) (LengthMax f) r) as (n & -> & Hn); [lia|lia|]. cbn [outcome_bind].
  rewrite (s64_small (Z.of_nat from + n)) by lia.
  destruct (decide (Z.of_nat len < Z.of_nat from + n)); (rewrite decide_False by lia); eexists; (split; [done|]); lia.
Qed.

(** The pieces of [data] from [from] on, each in a record of its own. *)
Lemma hello_loop_spec fuel rs b data from hello w :
  m ≤ 1019 → (3 ≤ length b)%nat → live w → (from ≤ length data)%nat → Z.of_nat (length data) < 2 ^ 62 →
  (length data - from < fuel)%nat → (IntervalMax f ≠ 0 → hello = []) →
  ∃ pieces hello' w', hello_loop fuel f rs b data from hello w = Ret (w', Some hello') ∧ live w' ∧
    mjoin pieces = drop from data ∧ Forall (λ p, Z.of_nat (length p) ≤ m) pieces ∧ pieces ≠ [] ∧
    mjoin (written w') ++ hello' = mjoin (written w) ++ hello ++ mjoin (record_bytes b <$> pieces).
Proof using All.
  intros Hm' Hb. revert rs from hello w. induction fuel as [|fuel IH]; intros rs from hello w Hw Hfrom Hlen Hfuel Hh; [lia|].
  cbn [hello_loop]. destruct (piece_end_spec (rs 0%nat) from (length data)) as (to & -> & Hto & Hpm & Hprog); [done..|].
  cbn [outcome_bind]. set (piece := take (to - from) (drop from data)).
  assert (length piece = (to - from)%nat) as Hpl by (unfold piece; rewrite length_take, length_drop; lia).
  assert (record_of b piece = Ret (record_bytes b piece)) as ->.
  { unfold record_of, record_bytes. rewrite decide_False by lia. do 2 f_equal.
    cbn [be_bytes]. rewrite Z.shiftr_div_pow2 by lia. change (256 ^ Z.of_nat 1) with (2 ^ 8). change (256 ^ Z.of_nat 0) with 1.
    by rewrite Z.div_1_r. }
  cbn [outcome_bind].
  assert (drop from data = piece ++ drop to data) as Hsplit.
  { unfold piece. replace to with (from + (to - from))%nat at 2 by lia. by rewrite <- drop_drop, take_drop. }
  (* one piece written or kept, then the rest *)
  assert (∀ hello1 w1, live w1 → (IntervalMax f ≠ 0 → hello1 = []) →
    mjoin (written w1) ++ hello1 = mjoin (written w) ++ hello ++ record_bytes b piece →
    ∃ pieces hello' w', (if decide (to = length data) then Ret (w1, Some hello1) else hello_loop fuel f (rs ∘ S) b data to hello1 w1)
       = Ret (w', Some hello') ∧ live w' ∧ mjoin pieces = drop from data ∧ Forall (λ p, Z.of_nat (length p) ≤ m) pieces ∧ pieces ≠ [] ∧
       mjoin (written w') ++ hello' = mjoin (written w) ++ hello ++ mjoin (record_bytes b <$> pieces)) as Hnext.
  { intros hello1 w1 Hw1 Hh1 E1. case_decide as Hend.
    - exists [piece], hello1, w1. split_all; [done|done| |by repeat constructor; lia|done|].
      + rewrite Hsplit, mjoin_one, Hend, drop_all, app_nil_r. done.
      + rewrite E1. cbn. by rewrite app_nil_r.
    - destruct (IH (rs ∘ S) to hello1 w1) as (pieces & hello' & w' & -> & Hw' & Hj & Hp & _ & E'); [done|lia|done|lia|done|].
      exists (piece :: pieces), hello', w'. split_all; [done|done| |constructor; [lia|done]|done|].
      + change (mjoin (piece :: pieces)) with (piece ++ mjoin pieces). by rewrite Hj.
      + rewrite E'. change (mjoin (record_bytes b <$> piece :: pieces)) with (record_bytes b piece ++ mjoin (record_bytes b <$> pieces)).
        rewrite app_assoc, E1. by rewrite <- !app_assoc. }
  destruct (decide (IntervalMax f = 0)).
  - by apply Hnext.
  - destruct (live_write w (record_bytes b piece) Hw) as (w1 & -> & Hw1 & Ew1). destruct sleep_returns as [x ->].
    cbn [outcome_bind]. apply Hnext; [done|done|].
    rewrite Ew1, join_app, mjoin_one, Hh by done. by rewrite app_nil_r.
Qed.

Lemma piece_loop_spec fuel rs b from w :
  live w → (from ≤ length b)%nat → Z.of_nat (length b) < 2 ^ 62 → (length b - from < fuel)%nat →
  ∃ w', piece_loop fuel f rs b from w = Ret (w', (length b, false)) ∧ live w' ∧
    mjoin (written w') = mjoin (written w) ++ drop from b ∧
    ∃ more, written w' = written w ++ more ∧ Forall (λ p, Z.of_nat (length p) ≤ m) more.
Proof using All.
  revert rs from w. induction fuel as [|fuel IH]; intros rs from w Hw Hfrom Hlen Hfuel; [lia|].
  cbn [piece_loop]. destruct (piece_end_spec (rs 0%nat) from (length b)) as (to & -> & Hto & Hpm & Hprog); [done..|].
  cbn [outcome_bind]. set (piece := take (to - from) (drop from b)).
  assert (length piece = (to - from)%nat) as Hpl by (unfold piece; rewrite length_take, length_drop; lia).
  assert (drop from b = piece ++ drop to b) as Hsplit.
  { unfold piece. replace to with (from + (to - from))%nat at 2 by lia. by rewrite <- drop_drop, take_drop. }
  destruct (live_write w piece Hw) as (w1 & -> & Hw1 & Ew1). destruct sleep_returns as [x ->]. cbn [outcome_bind].
  rewrite Hpl. replace (from + (to - from))%nat with to by lia.
  destruct (decide (length b ≤ to)%nat) as [Hend|Hend].
  - exists w1. replace to with (length b) in * by lia. split_all; [done|done| |].
    + rewrite Ew1, join_app, mjoin_one, Hsplit, drop_all. by rewrite app_nil_r.
    + exists [piece]. split; [done|]. by repeat constructor; lia.
  - destruct (IH (rs ∘ S) to w1) as (w' & -> & Hw' & E' & more & Em & Hmore); [done|lia|done|lia|].
    exists w'. split_all; [done|done| |].
    + by rewrite E', Ew1, join_app, mjoin_one, Hsplit, <- app_assoc.
    + exists (piece :: more). split; [by rewrite Em, Ew1, <- app_assoc|]. constructor; [lia|done].
Qed.
End reassemble.

Lemma be_bytes_pair hi lo : 0 ≤ hi < 256 → 0 ≤ lo < 256 → be_bytes 2 (hi * 256 + lo) = [hi; lo].
Proof.
  intros Hhi Hlo. cbn [be_bytes]. change (256 ^ Z.of_nat 1) with 256. change (256 ^ Z.of_nat 0) with 1.
  rewrite Z.div_1_r, Z.div_add_l, Z.div_small, Z.add_0_r by lia. rewrite Z.add_comm, Z_mod_plus_full, !Z.mod_small by lia. done.
Qed.

(** What the configuration builds. *)
Lemma parse_dec_nonneg max s n a : 0 ≤ n → parse_dec max s n = Some a → 0 ≤ a.
Proof.
  revert n. induction s as [|c s IH]; intros n Hn; cbn [parse_dec]; [by intros [= <-]|].
  destruct (is_digit c) eqn:Ec; [|done]. case_decide; [done|]. apply IH.
  unfold is_digit in Ec. apply bool_decide_eq_true in Ec. lia.
Qed.

Lemma ParseUint_nonneg s w a : ParseUint s w = Some a → 0 ≤ a.
Proof. unfold ParseUint. case_decide; [done|]. by apply parse_dec_nonneg. Qed.

Lemma parse_range_ordered s a b : parse_range s = Some (a, b) → 0 ≤ a ≤ b.
Proof.
  unfold parse_range. destruct (Split s hyphen) as [|from [|to [|]]]; [done| | |];
    (destruct (ParseUint from 64) as [x|] eqn:Ex; [|done]); cbn [mbind option_bind]; apply ParseUint_nonneg in Ex.
  - intros [= <- <-]. lia.
  - destruct (ParseUint to 64) as [y|] eqn:Ey; [|done]. cbn [mbind option_bind]. apply ParseUint_nonneg in Ey.
    case_decide; intros [= <- <-]; lia.
  - intros [= <- <-]. lia.
Qed.

Lemma build_fragment_ok `{UnicodeTables} t f m :
  build_fragment t = Some f → LengthMax f ≤ m → IntervalMax f < 2 ^ 63 → fragment_ok m f.
Proof.
  unfold build_fragment. destruct (parse_packets (t_Packets t)) as [[from to]|]; [|done]. cbn [mbind option_bind].
  case_decide; [done|]. destruct (parse_range (t_Length t)) as [[lmin lmax]|] eqn:El; [|done]. cbn [mbind option_bind].
  case_decide; [done|]. case_decide; [done|].
  destruct (parse_range (t_Interval t)) as [[imin imax]|] eqn:Ei; [|done]. cbn [mbind option_bind].
  apply parse_range_ordered in El, Ei. intros [= <-]. cbn. intros Hm Hi. split; cbn; lia.
Qed.


(** ** The address that is dialed *)

Lemma IPAddress_family y x : IPAddress y = Some x → IsIP (Family x) = true.
Proof.
  unfold IPAddress. repeat case_decide; try done; by intros [= <-].
Qed.

(** Dialing never panics on a strategy of the configuration; the port and the
    network stay.  Without a strategy nothing is resolved; with one an address stays,
    and a name becomes an address, or stays when it has none, but is never dialed when
    addresses are forced. *)
Theorem dial_destination_spec {W} `{!Resolver W, Roll} c localAddr destination a (w : W) :
  (∀ n, (0 < n)%nat → (dice_Roll n < n)%nat) → 0 ≤ DomainStrategy c ≤ 10 → dest_Address destination = Some a →
  ∃ w' r, dial_destination c localAddr destination w = Ret (w', r) ∧
    (DomainStrategy c = 0 → w' = w ∧ r = Some destination) ∧
    (IsDomain (Family a) = false → w' = w ∧ r = Some destination) ∧
    (DomainStrategy c ≤ 5 → r ≠ None) ∧
    ∀ d, r = Some d → dest_Port d = dest_Port destination ∧ dest_Network d = dest_Network destination ∧
      (d = destination ∨ ∃ ip, dest_Address d = Some ip ∧ IsIP (Family ip) = true) ∧
      (6 ≤ DomainStrategy c → ∃ ip, dest_Address d = Some ip ∧ IsIP (Family ip) = true).
Proof.
  intros Hroll Hs Ha.
  assert (∃ s p f, strategy_of c = Some (s, p, f) ∧ (s = 0 ↔ DomainStrategy c = 0) ∧ (s = 2 ↔ 6 ≤ DomainStrategy c)) as (s & p & f & Es & H0 & H2).
  { unfold strategy_of. rewrite decide_True by lia.
    assert (DomainStrategy c ∈ [0;1;2;3;4;5;6;7;8;9;10]) as Hin by (rewrite !elem_of_cons; lia).
    repeat (apply elem_of_cons in Hin as [-> | Hin]; [cbn; do 3 eexists; split; [reflexivity|]; lia|]). by apply not_elem_of_nil in Hin. }
  unfold dial_destination, hasStrategy, forceIP. rewrite Es, Ha. cbn [fmap option_fmap option_map ret_or_panic].
  case_bool_decide as Hz.
  2: { exists w, (Some destination). split_all; [done|done|done|done|]. intros d [= <-]. split_all; [done|done|by left|lia]. }
  destruct a as [a|a|domain].
  1, 2: exists w, (Some destination); split_all; [done|done|done|done|]; intros d [= <-]; split_all;
    [done|done|by left|intros _; rewrite Ha; by eexists].
  assert (∃ w' ip, resolveIP c domain localAddr w = Ret (w', ip) ∧ ∀ x, ip = Some x → IsIP (Family x) = true) as (w' & ip & -> & Hip).
  { unfold resolveIP, preferIP4, preferIP6, hasFallback, fallbackIP4, fallbackIP6. rewrite Es.
    cbn [fmap option_fmap option_map ret_or_panic]. destruct (LookupIP w domain _) as [w1 [ips1 err1]].
    destruct (if _ && _ && _ then _ else _) as [w2 [ips err]]. destruct ips as [|x ips]; [by exists w2, None|].
    destruct (lookup_lt_is_Some_2 (x :: ips) (dice_Roll (length (x :: ips)))) as [y ->]; [apply Hroll; cbn; lia|].
    cbn [ret_or_panic]. exists w2, (IPAddress y). split; [done|]. apply IPAddress_family. }
  cbn [outcome_bind]. destruct ip as [ip|].
  - do 2 eexists. split; [reflexivity|]. split_all; [lia|done|done|]. intros d [= <-]. cbn.
    split_all; [done|done| |]; [right|intros _]; exists ip; auto.
  - case_bool_decide as Hf.
    + exists w', None. split; [done|]. split; [lia|]. split; [done|]. split; [lia|done].
    + exists w', (Some destination). split; [done|]. split; [lia|]. split; [done|]. split; [done|]. intros d [= <-]. split_all; [done|done|by left|lia].
Qed.

(** ** Concrete fragments *)

(** A connection that keeps what is written to it. *)
#[local] Instance log_writer : IoWriter (list bytes) := λ w b, (w ++ [b], (length b, false)).
#[local] Instance log_writer_live : LiveIo (λ _ : list bytes, True) (λ w, w).
Proof. intros w b _. by eexists. Qed.
#[local] Existing Instance ascii_tables.

Definition hello_config (len : string) : FreedomConfig :=
  {| t_DomainStrategy := lit "ForceIPv4"; t_Timeout := None; t_Redirect := []; t_UserLevel := 0;
     t_Fragment := Some {| t_Packets := lit "tlshello"; t_Length := lit len; t_Interval := lit "20-10" |};
     t_Noise := None; t_ProxyProtocol := 0 |}.

Definition hello_fragment (a b : Z) : Fragment :=
  {| PacketsFrom := 0; PacketsTo := 1; LengthMin := a; LengthMax := b; IntervalMin := 10; IntervalMax := 20 |}.

Definition first_write : bytes := [22; 3; 1; 0; 10] ++ lit "0123456789" ++ lit "rest".


(** The array of a record has 1024 bytes: a configured piece of 2000 bytes does not fit,
    and the write of a long ClientHello panics. *)
Definition long_hello : bytes := [22; 3; 1; 7; 208] ++ replicate 2000 1.

Lemma large_pieces_panic :
  FreedomConfig_Build (hello_config "2000") ≠ None ∧
  (FreedomConfig_Build (hello_config "2000") ≫= c_Fragment) = Some (hello_fragment 2000 2000) ∧
  FragmentWriter_Write (W := list bytes) {| fragment := hello_fragment 2000 2000; count := 0 |} (λ _, 1) long_hello [] = Panic.
Proof. split_all; by vm_compute. Qed.

(** A resolver that knows one name, and the way to it. *)
#[local] Instance one_name : Resolver nat := λ w name opt,
  (S w, (if decide (name = lit "a.b" ∧ IPv4Enable opt) then [[192; 0; 2; 1]] else [], false)).
#[local] Instance first_roll : Roll := λ _, 0%nat.

Lemma dial_destination_spec_witness :
  let c := {| DomainStrategy := 7; DestinationOverride := None; c_Timeout := 0; c_UserLevel := 0;
              c_Fragment := None; c_Noise := None; ProxyProtocol := 0 |} in
  let at_name name := TCPDestination (Some (domainAddress name)) 443 in
  dial_destination c None (at_name (lit "a.b")) 0%nat = Ret (1%nat, Some (TCPDestination (Some (ipv4Address [192; 0; 2; 1])) 443)) ∧
  dial_destination c None (at_name (lit "c.d")) 0%nat = Ret (1%nat, None) ∧
  ∃ w' r, dial_destination c None (at_name (lit "a.b")) 0%nat = Ret (w', r) ∧
    (7 = 0 → w' = 0%nat ∧ r = Some (at_name (lit "a.b"))) ∧
    (false = false → IsDomain AddressFamilyDomain = false → w' = 0%nat ∧ r = Some (at_name (lit "a.b"))) ∧
    (7 ≤ 5 → r ≠ None) ∧
    ∀ d, r = Some d → dest_Port d = 443 ∧ dest_Network d = Network_TCP ∧
      (d = at_name (lit "a.b") ∨ ∃ ip, dest_Address d = Some ip ∧ IsIP (Family ip) = true) ∧
      (6 ≤ 7 → ∃ ip, dest_Address d = Some ip ∧ IsIP (Family ip) = true).
Proof.
  cbn zeta. split; [by vm_compute|]. split; [by vm_compute|].
  destruct (dial_destination_spec
    {| DomainStrategy := 7; DestinationOverride := None; c_Timeout := 0; c_UserLevel := 0;
       c_Fragment := None; c_Noise := None; ProxyProtocol := 0 |}
    None (TCPDestination (Some (domainAddress (lit "a.b"))) 443) (domainAddress (lit "a.b")) 0%nat)
    as (w' & r & E & H1 & H2 & H3 & H4); [intros n Hn; exact Hn|cbn; lia|done|].
  exists w', r. split; [exact E|]. split; [exact H1|]. split; [intros _; exact H2|]. split; [exact H3|exact H4].
Defined.
