(* ===== verification/Talk.v ===== *)
(** Handlers of a handshake: programs that read from a connection and write to it in
    turn, that may end with an error after they have written, and how what they read
    and write composes. *)
From S2P Require Import Prelude GoText NetIP Address Transport Frame Uuid Buf AddressParser BufAppend MultiBuffer BufIO ChunkStream AddressTotal.

(** ** Programs *)

Section talk.
Context {W : Type} (wr : Frame.Writer W).

(** The state of the connection afterwards, and a result with what is left to be read;
    [None] is an error. *)
Definition talk (A : Type) : Type := stream → W → outcome (W * option (A * stream)).

Definition t_ret {A} (a : A) : talk A := λ s w, Ret (w, Some (a, s)).

Definition t_fail {A} : talk A := λ _ w, Ret (w, None).

Definition t_bind {A B} (m : talk A) (k : A → talk B) : talk B := λ s w,
  match m s w with
  | Ret (w, Some (a, s)) => k a s w
  | Ret (w, None) => Ret (w, None)
  | Fail => Fail
  | Panic => Panic
  end.

(** A value, or a panic. *)
Definition t_need {A} (o : option A) : talk A := λ s w, ret_or_panic o (λ a, Ret (w, Some (a, s))).

(** A computation that does not touch the connection. *)
Definition t_pure {A} (o : outcome A) : talk A := λ s w,
  match o with Ret a => Ret (w, Some (a, s)) | Fail => Ret (w, None) | Panic => Panic end.

(** A computation that reads. *)
Definition t_read {A} (f : stream → outcome (A * stream)) : talk A := λ s w,
  match f s with Ret (a, s) => Ret (w, Some (a, s)) | Fail => Ret (w, None) | Panic => Panic end.

(** [buf.WriteAllBytes] on the connection. *)
Definition t_write (b : bytes) : talk unit := λ s w,
  match WriteAllBytes wr (length b) w b with
  | Ret (w, None) => Ret (w, Some (tt, s))
  | Ret (w, Some _) => Ret (w, None)
  | Fail => Fail
  | Panic => Panic
  end.

(** A call that only writes, its error ignored. *)
Definition t_ignore (m : talk unit) : talk unit := λ s w,
  match m s w with Ret (w, _) => Ret (w, Some (tt, s)) | Fail => Fail | Panic => Panic end.
End talk.

Declare Scope talk_scope.
Delimit Scope talk_scope with talk.
Notation "'let*' x ':=' m 'in' k" := (t_bind m (λ x, k))
  (at level 10, x pattern, k at level 200) : talk_scope.
#[global] Open Scope talk_scope.

(** ** What they read and write *)

Section runs.
Context {W : Type} (wr : Frame.Writer W) (taken : W → bytes).

(** On a connection that delivers [input] first, in whatever pieces, the program reads
    exactly that, writes [output] and returns a value in [P]. *)
Definition runs {A} (m : talk (W := W) A) (input output : bytes) (P : A → Prop) : Prop :=
  ∀ s w rest, contents s = input ++ rest → ∃ a s' w', m s w = Ret (w', Some (a, s')) ∧
    contents s' = rest ∧ final s' = final s ∧ taken w' = taken w ++ output ∧ P a.

(** ... and ends with an error. *)
Definition refuses {A} (m : talk (W := W) A) (input output : bytes) : Prop :=
  ∀ s w rest, contents s = input ++ rest → ∃ w', m s w = Ret (w', None) ∧ taken w' = taken w ++ output.

Lemma runs_ret {A} (a : A) P : P a → runs (t_ret a) [] [] P.
Proof. intros Ha s w rest Hs. exists a, s, w. rewrite app_nil_r. by split_all. Qed.

Lemma runs_bind {A B} (m : talk A) (k : A → talk B) i1 i2 o1 o2 P Q :
  runs m i1 o1 P → (∀ a, P a → runs (k a) i2 o2 Q) → runs (t_bind m k) (i1 ++ i2) (o1 ++ o2) Q.
Proof.
  intros Hm Hk s w rest Hs. rewrite <- app_assoc in Hs. destruct (Hm s w _ Hs) as (a & s1 & w1 & E1 & C1 & F1 & T1 & Ha).
  destruct (Hk a Ha s1 w1 rest C1) as (b & s2 & w2 & E2 & C2 & F2 & T2 & Hb).
  exists b, s2, w2. unfold t_bind. rewrite E1. split_all; [done|done|congruence| |done]. by rewrite T2, T1, app_assoc.
Qed.

Lemma refuses_bind {A B} (m : talk A) (k : A → talk B) i1 i2 o1 o2 P :
  runs m i1 o1 P → (∀ a, P a → refuses (k a) i2 o2) → refuses (t_bind m k) (i1 ++ i2) (o1 ++ o2).
Proof.
  intros Hm Hk s w rest Hs. rewrite <- app_assoc in Hs. destruct (Hm s w _ Hs) as (a & s1 & w1 & E1 & C1 & _ & T1 & Ha).
  destruct (Hk a Ha s1 w1 rest C1) as (w2 & E2 & T2). exists w2. unfold t_bind. rewrite E1. split; [done|].
  by rewrite T2, T1, app_assoc.
Qed.

Lemma refuses_early {A B} (m : talk A) (k : A → talk B) i o : refuses m i o → refuses (t_bind m k) i o.
Proof. intros Hm s w rest Hs. destruct (Hm s w rest Hs) as (w' & E & T). exists w'. unfold t_bind. by rewrite E. Qed.

Lemma refuses_fail {A} i : refuses (A := A) t_fail i [].
Proof. intros s w rest _. exists w. by rewrite app_nil_r. Qed.

(** Binding what neither reads nor writes, what only reads, what only writes. *)
Lemma runs_pure {A B} (m : talk A) (k : A → talk B) i o P Q :
  runs m [] [] P → (∀ a, P a → runs (k a) i o Q) → runs (t_bind m k) i o Q.
Proof. intros H1 H2. apply (runs_bind m k [] i [] o P Q H1 H2). Qed.

Lemma runs_reading {A B} (m : talk A) (k : A → talk B) i1 i2 o P Q :
  runs m i1 [] P → (∀ a, P a → runs (k a) i2 o Q) → runs (t_bind m k) (i1 ++ i2) o Q.
Proof. intros H1 H2. apply (runs_bind m k i1 i2 [] o P Q H1 H2). Qed.

Lemma runs_writing {A B} (m : talk A) (k : A → talk B) i o1 o2 P Q :
  runs m [] o1 P → (∀ a, P a → runs (k a) i o2 Q) → runs (t_bind m k) i (o1 ++ o2) Q.
Proof. intros H1 H2. apply (runs_bind m k [] i o1 o2 P Q H1 H2). Qed.

Lemma runs_mono {A} (m : talk A) i o (P Q : A → Prop) : runs m i o P → (∀ a, P a → Q a) → runs m i o Q.
Proof. intros Hm HPQ s w rest Hs. destruct (Hm s w rest Hs) as (a & s' & w' & H). exists a, s', w'. naive_solver. Qed.

Lemma runs_need {A} (o : option A) a (P : A → Prop) : o = Some a → P a → runs (t_need o) [] [] P.
Proof. intros -> Ha. by apply runs_ret. Qed.

Lemma runs_of {A} (o : outcome A) a (P : A → Prop) : o = Ret a → P a → runs (t_pure o) [] [] P.
Proof. intros -> Ha. by apply (runs_ret a P). Qed.

Lemma runs_t_read {A} (f : stream → outcome (A * stream)) i (P : A → Prop) :
  (∀ s rest, contents s = i ++ rest → ∃ a s', f s = Ret (a, s') ∧ contents s' = rest ∧ final s' = final s ∧ P a) →
  runs (t_read f) i [] P.
Proof.
  intros Hf s w rest Hs. destruct (Hf s rest Hs) as (a & s' & E & Hc & Hfin & Ha). exists a, s', w. unfold t_read.
  rewrite E, app_nil_r. by split_all.
Qed.

(** A read into a buffer. *)
Lemma runs_read_full b x size : wf b → size = Z.of_nat (length x) → (length x ≤ room b)%nat →
  runs (t_read (λ s, read_full b s size)) x []
    (λ b', wf b' ∧ content b' = content b ++ x ∧ room b' = (room b - length x)%nat).
Proof.
  intros Hb Hz Hr. apply runs_t_read. intros s rest Hs.
  destruct (read_full_spec b s x rest size Hb Hs Hz Hr) as (b' & s' & E & H1 & H2 & H3 & H4 & H5). by exists b', s'.
Qed.

Context `{!@FullWriter W wr taken}.

Lemma runs_write b : runs (t_write wr b) [] b (λ _, True).
Proof.
  intros s w rest Hs. destruct (WriteAllBytes_full taken wr w b) as (w' & E & T). exists tt, s, w'. unfold t_write. rewrite E. by split_all.
Qed.

Lemma runs_ignore m o P : runs m [] o P → runs (t_ignore m) [] o (λ _, True).
Proof.
  intros Hm s w rest Hs. destruct (Hm s w rest Hs) as (a & s' & w' & E & C & F & T & _). exists tt, s, w'. unfold t_ignore.
  rewrite E. by split_all.
Qed.
End runs.

(** ** Conversations *)

(** A conversation is a list of messages of a client with the answers of a server. *)
Section conversation.
Context {W : Type} (taken : W → bytes).
#[local] Notation runs := (runs taken).

Definition asked (l : list (bytes * bytes)) : bytes := mjoin l.*1.
Definition answered (l : list (bytes * bytes)) : bytes := mjoin l.*2.

(** When just [input] has come, the program has written [output] and needs more. *)
Definition stalls {A} (m : talk (W := W) A) (input output : bytes) : Prop :=
  ∀ s w, contents s = input → ∃ w', m s w = Ret (w', None) ∧ taken w' = taken w ++ output.

(** A server: every message is answered before the next one is needed. *)
Definition serves {A} (m : talk A) (l : list (bytes * bytes)) (P : A → Prop) : Prop :=
  runs m (asked l) (answered l) P ∧
  ∀ k, (k < length l)%nat → stalls m (asked (take k l)) (answered (take k l)).

(** A client: a message is sent as soon as all before it are answered. *)
Definition asks {A} (m : talk A) (l : list (bytes * bytes)) (P : A → Prop) : Prop :=
  runs m (answered l) (asked l) P ∧
  ∀ k, (k < length l)%nat → stalls m (answered (take k l)) (asked (take (S k) l)).

(** The same in the midst of the first message or answer. *)
Definition serving {A} (m : talk A) (l : list (bytes * bytes)) (P : A → Prop) : Prop :=
  runs m (asked l) (answered l) P ∧
  ∀ k, (0 < k < length l)%nat → stalls m (asked (take k l)) (answered (take k l)).

Definition asking {A} (m : talk A) (l : list (bytes * bytes)) (P : A → Prop) : Prop :=
  runs m (answered l) (asked l) P ∧
  ∀ k, (0 < k < length l)%nat → stalls m (answered (take k l)) (asked (take (S k) l)).

Lemma stalls_early {A B} (m : talk A) (k : A → talk B) i o : stalls m i o → stalls (t_bind m k) i o.
Proof. intros Hm s w Hs. destruct (Hm s w Hs) as (w' & E & T). exists w'. unfold t_bind. by rewrite E. Qed.

Lemma stalls_bind {A B} (m : talk A) (k : A → talk B) i1 i2 o1 o2 P :
  runs m i1 o1 P → (∀ a, P a → stalls (k a) i2 o2) → stalls (t_bind m k) (i1 ++ i2) (o1 ++ o2).
Proof.
  intros Hm Hk s w Hs. destruct (Hm s w i2 Hs) as (a & s1 & w1 & E1 & C1 & _ & T1 & Ha).
  destruct (Hk a Ha s1 w1 C1) as (w2 & E2 & T2). exists w2. unfold t_bind. rewrite E1. split; [done|].
  by rewrite T2, T1, app_assoc.
Qed.

Lemma stalls_read_full b n : wf b → 0 < n ≤ Z.of_nat (room b) → stalls (t_read (λ s, read_full b s n)) [] [].
Proof.
  intros Hb Hn s w Hs. exists w. rewrite app_nil_r. split; [|done]. unfold t_read.
  assert (read_full b s n = Fail) as ->; [|done]. pose proof Hb as [H1 H2 H3]. unfold room in Hn.
  unfold read_full, ReadFullFrom. cbv zeta. rewrite i32_small by lia. rewrite decide_False by lia.
  rewrite array_slice_wf by (done || lia). cbn [mbind option_bind].
  rewrite length_take, length_drop.
  rewrite (ReadFull_short pool_array pool_array_length s) by (rewrite Hs; cbn [length]; lia). done.
Qed.

Section steps.
Context {A B : Type} (m : talk (W := W) A) (k : A → talk (W := W) B) (P : A → Prop) (Q : B → Prop).

Lemma serve_read i M R l : runs m i [] P → stalls m [] [] → (∀ a, P a → serving (k a) ((M, R) :: l) Q) →
  serves (t_bind m k) ((i ++ M, R) :: l) Q.
Proof.
  intros Hm Hst Hk. split.
  - unfold asked, answered. cbn. rewrite <- app_assoc. eapply (runs_reading taken); [exact Hm|]. intros a Ha. by apply Hk.
  - intros [|n] Hn; [by apply stalls_early|]. unfold asked, answered. cbn. rewrite <- app_assoc.
    apply (stalls_bind m k i _ [] _ P Hm). intros a Ha. destruct (Hk a Ha) as [_ H]. apply (H (S n)). cbn in *. lia.
Qed.

Lemma serving_read i M R l : runs m i [] P → (∀ a, P a → serving (k a) ((M, R) :: l) Q) →
  serving (t_bind m k) ((i ++ M, R) :: l) Q.
Proof.
  intros Hm Hk. split.
  - unfold asked, answered. cbn. rewrite <- app_assoc. eapply (runs_reading taken); [exact Hm|]. intros a Ha. by apply Hk.
  - intros [|n] Hn; [lia|]. unfold asked, answered. cbn. rewrite <- app_assoc.
    apply (stalls_bind m k i _ [] _ P Hm). intros a Ha. destruct (Hk a Ha) as [_ H]. apply (H (S n)). cbn in *. lia.
Qed.

Lemma serving_write o R l : runs m [] o P → (∀ a, P a → serving (k a) (([], R) :: l) Q) →
  serving (t_bind m k) (([], o ++ R) :: l) Q.
Proof.
  intros Hm Hk. split.
  - unfold asked, answered. cbn. rewrite <- app_assoc. eapply (runs_writing taken); [exact Hm|]. intros a Ha. by apply Hk.
  - intros [|n] Hn; [lia|]. unfold asked, answered. cbn. rewrite <- app_assoc.
    apply (stalls_bind m k [] _ o _ P Hm). intros a Ha. destruct (Hk a Ha) as [_ H]. apply (H (S n)). cbn in *. lia.
Qed.

Lemma serving_pure l : runs m [] [] P → (∀ a, P a → serving (k a) l Q) → serving (t_bind m k) l Q.
Proof.
  intros Hm Hk. split; [eapply (runs_pure taken); [exact Hm|]; intros a Ha; by apply Hk|].
  intros n Hn. apply (stalls_bind m k [] _ [] _ P Hm). intros a Ha. by apply Hk.
Qed.

Lemma ask_write o M R l : runs m [] o P → (∀ a, P a → asks (k a) ((M, R) :: l) Q) →
  asks (t_bind m k) ((o ++ M, R) :: l) Q.
Proof.
  intros Hm Hk. split.
  - unfold asked, answered. cbn. rewrite <- app_assoc. eapply (runs_writing taken); [exact Hm|]. intros a Ha. by apply Hk.
  - intros n Hn. unfold asked, answered. cbn [take fmap list_fmap fst]. change (mjoin (?x :: ?y)) with (x ++ mjoin y). rewrite <- app_assoc.
    destruct n as [|n]; apply (stalls_bind m k [] _ o _ P Hm); intros a Ha; destruct (Hk a Ha) as [_ H];
      [apply (H 0%nat)|apply (H (S n))]; cbn in *; lia.
Qed.

Lemma ask_pure l : runs m [] [] P → (∀ a, P a → asks (k a) l Q) → asks (t_bind m k) l Q.
Proof.
  intros Hm Hk. split; [eapply (runs_pure taken); [exact Hm|]; intros a Ha; by apply Hk|].
  intros n Hn. apply (stalls_bind m k [] _ [] _ P Hm). intros a Ha. by apply Hk.
Qed.

Lemma ask_read i R l : runs m i [] P → stalls m [] [] → (∀ a, P a → asking (k a) (([], R) :: l) Q) →
  asks (t_bind m k) (([], i ++ R) :: l) Q.
Proof.
  intros Hm Hst Hk. split.
  - unfold asked, answered. cbn. rewrite <- app_assoc. eapply (runs_reading taken); [exact Hm|]. intros a Ha. by apply Hk.
  - intros [|n] Hn; [by apply stalls_early|]. unfold asked, answered. cbn [take fmap list_fmap fst snd]. change (mjoin (?x :: ?y)) with (x ++ mjoin y).
    rewrite <- app_assoc. apply (stalls_bind m k i _ [] _ P Hm). intros a Ha. destruct (Hk a Ha) as [_ H]. apply (H (S n)). cbn in *. lia.
Qed.

Lemma asking_read i R l : runs m i [] P → (∀ a, P a → asking (k a) (([], R) :: l) Q) →
  asking (t_bind m k) (([], i ++ R) :: l) Q.
Proof.
  intros Hm Hk. split.
  - unfold asked, answered. cbn. rewrite <- app_assoc. eapply (runs_reading taken); [exact Hm|]. intros a Ha. by apply Hk.
  - intros [|n] Hn; [lia|]. unfold asked, answered. cbn [take fmap list_fmap fst snd]. change (mjoin (?x :: ?y)) with (x ++ mjoin y).
    rewrite <- app_assoc. apply (stalls_bind m k i _ [] _ P Hm). intros a Ha. destruct (Hk a Ha) as [_ H]. apply (H (S n)). cbn in *. lia.
Qed.

Lemma asking_pure l : runs m [] [] P → (∀ a, P a → asking (k a) l Q) → asking (t_bind m k) l Q.
Proof.
  intros Hm Hk. split; [eapply (runs_pure taken); [exact Hm|]; intros a Ha; by apply Hk|].
  intros n Hn. apply (stalls_bind m k [] _ [] _ P Hm). intros a Ha. by apply Hk.
Qed.
End steps.

(** One after the other, with whole messages. *)
Lemma asked_app l1 l2 : asked (l1 ++ l2) = asked l1 ++ asked l2.
Proof. unfold asked. by rewrite fmap_app, join_app. Qed.

Lemma answered_app l1 l2 : answered (l1 ++ l2) = answered l1 ++ answered l2.
Proof. unfold answered. by rewrite fmap_app, join_app. Qed.

Lemma serving_seq {A B} (m : talk A) (k : A → talk B) l1 l2 P Q :
  serving m l1 P → (∀ a, P a → serves (k a) l2 Q) → serving (t_bind m k) (l1 ++ l2) Q.
Proof.
  intros [Hr Hs] Hk. split.
  - rewrite asked_app, answered_app. eapply (runs_bind taken); [exact Hr|]. intros a Ha. by apply Hk.
  - intros n Hn. rewrite length_app in Hn. destruct (decide (n < length l1)%nat) as [Hl|Hl].
    + rewrite take_app_le by lia. apply stalls_early, Hs. lia.
    + rewrite take_app_ge, asked_app, answered_app by lia. eapply stalls_bind; [exact Hr|]. intros a Ha. apply (Hk a Ha). lia.
Qed.

Lemma asks_seq {A B} (m : talk A) (k : A → talk B) l1 l2 P Q :
  asks m l1 P → (∀ a, P a → asks (k a) l2 Q) → asks (t_bind m k) (l1 ++ l2) Q.
Proof.
  intros [Hr Hs] Hk. split.
  - rewrite asked_app, answered_app. eapply (runs_bind taken); [exact Hr|]. intros a Ha. by apply Hk.
  - intros n Hn. rewrite length_app in Hn. destruct (decide (n < length l1)%nat) as [Hl|Hl].
    + rewrite !take_app_le by lia. apply stalls_early, Hs. lia.
    + rewrite !take_app_ge, asked_app, answered_app by lia. eapply stalls_bind; [exact Hr|]. intros a Ha.
      replace (S n - length l1)%nat with (S (n - length l1)) by lia. apply (Hk a Ha). lia.
Qed.

(** The next message, and the end. *)
Lemma serving_next {A} (m : talk A) l P : serves m l P → serving m (([], []) :: l) P.
Proof.
  intros [Hr Hs]. split; [exact Hr|]. intros [|n] Hn; [lia|]. apply (Hs n). cbn in Hn. lia.
Qed.

Lemma asking_next {A} (m : talk A) l P : asks m l P → asking m (([], []) :: l) P.
Proof.
  intros [Hr Hs]. split; [exact Hr|]. intros [|n] Hn; [lia|]. apply (Hs n). cbn in Hn. lia.
Qed.

Lemma serves_ret {A} (a : A) P : P a → serves (t_ret a) [] P.
Proof. intros Ha. split; [by apply (runs_ret taken a P)|]. intros k Hk. cbn in Hk. lia. Qed.

Lemma asks_ret {A} (a : A) P : P a → asks (t_ret a) [] P.
Proof. intros Ha. split; [by apply (runs_ret taken a P)|]. intros k Hk. cbn in Hk. lia. Qed.
End conversation.

(** ** Programs that never panic *)

Section total.
Context {W : Type} (wr : Frame.Writer W).

(** A connection that counts what it has written as it should. *)
Class HonestWriter : Prop :=
  honest_write : ∀ w b, 0 ≤ (@w_write W wr w b).2.1 ≤ Z.of_nat (length b) ∧
    ((@w_write W wr w b).2.2 = None → b ≠ [] → 0 < (@w_write W wr w b).2.1).

(** On a connection that delivers bytes the program does not panic, and what it
    returns is in [P]. *)
Definition total {A} (m : talk (W := W) A) (P : A → Prop) : Prop :=
  ∀ s w, wf_bytes (contents s) → yields (m s w) (λ '(_, r), match r with Some (a, s') => P a ∧ wf_bytes (contents s') | None => True end)
    ∧ m s w ≠ Fail.

Lemma total_ret {A} (a : A) (P : A → Prop) : P a → total (t_ret a) P.
Proof. intros Ha s w Hs. by split. Qed.

Lemma total_fail {A} P : total (A := A) t_fail P.
Proof. by split. Qed.

Lemma total_bind {A B} (m : talk A) (k : A → talk B) P Q : total m P → (∀ a, P a → total (k a) Q) → total (t_bind m k) Q.
Proof.
  intros Hm Hk s w Hs. destruct (Hm s w Hs) as [Hy Hf]. unfold t_bind. destruct (m s w) as [[w' [[a s']|]]| |]; [|done|done|done].
  destruct Hy as [Ha Hs']. by apply Hk.
Qed.

Lemma total_mono {A} (m : talk A) (P Q : A → Prop) : total m P → (∀ a, P a → Q a) → total m Q.
Proof.
  intros Hm HPQ s w Hs. destruct (Hm s w Hs) as [Hy Hf]. split; [|done]. eapply yields_mono; [exact Hy|].
  intros [w' [[a s']|]]; naive_solver.
Qed.

Lemma total_need {A} (o : option A) a (P : A → Prop) : o = Some a → P a → total (t_need o) P.
Proof. intros -> Ha. by apply (total_ret a P). Qed.

Lemma total_pure {A} (o : outcome A) (P : A → Prop) : yields o P → total (t_pure o) P.
Proof. intros Ho s w Hs. unfold t_pure. by destruct o. Qed.

Lemma total_t_read {A} (f : stream → outcome (A * stream)) (P : A → Prop) :
  (∀ s, wf_bytes (contents s) → yields (f s) (λ '(a, s'), P a ∧ wf_bytes (contents s'))) → total (t_read f) P.
Proof. intros Hf s w Hs. specialize (Hf s Hs). unfold t_read. by destruct (f s) as [[a s']| |]. Qed.

Lemma total_read_full b size : wf b → 0 ≤ size ≤ Z.of_nat (room b) →
  total (t_read (λ s, read_full b s size)) (λ b', ∃ x, wf b' ∧ content b' = content b ++ x ∧ Z.of_nat (length x) = size ∧
    wf_bytes x ∧ room b' = (room b - length x)%nat).
Proof.
  intros Hb Hz. apply total_t_read. intros s Hs. eapply yields_mono; [by apply read_full_total|].
  intros [b' s'] [Hw Hr (x & Hc & Hl & Hx) Hs']. split; [|done]. exists x. split_all; try done. lia.
Qed.

Context `{!HonestWriter}.

Lemma WriteAllBytes_total fuel w b : (length b ≤ fuel)%nat → ∃ w' e, WriteAllBytes wr fuel w b = Ret (w', e).
Proof using All.
  revert w b. induction fuel as [|fuel IH]; intros w b Hl; [destruct b; [by do 2 eexists|cbn in Hl; lia]|].
  destruct b as [|c b]; [by do 2 eexists|]. cbn [WriteAllBytes].
  pose proof (honest_write w (c :: b)) as [Hn Hpos]. destruct (w_write w (c :: b)) as [w' [n err]] eqn:E. cbn [fst snd] in *.
  destruct err as [e|]; [by do 2 eexists|]. rewrite decide_False by lia. apply IH. rewrite length_drop.
  specialize (Hpos eq_refl ltac:(done)). cbn [length] in *. lia.
Qed.

Lemma total_write b : total (t_write wr b) (λ _, True).
Proof using All.
  intros s w Hs. unfold t_write. destruct (WriteAllBytes_total (length b) w b ltac:(lia)) as (w' & [e|] & ->); by split.
Qed.

Lemma total_ignore (m : talk unit) P : total m P → total (t_ignore m) (λ _, True).
Proof.
  intros Hm s w Hs. destruct (Hm s w Hs) as [Hy Hf]. unfold t_ignore. by destruct (m s w) as [[w' r]| |].
Qed.
End total.
