(* ===== verification/Socks.v ===== *)
(** SOCKS 4, 4a and 5 (src/upstream/xray-core/proxy/socks: protocol.go, config.go,
    server.go, client.go; src/upstream/xray-core/infra/conf/socks.go): the handshakes
    of the server and of the client, packets, and what the two make of them. *)
From stdpp Require Import gmap.
From S2P Require Import Prelude GoText NetIP Address Transport Frame Uuid FoloJson Buf AddressParser BufAppend MultiBuffer BufIO ChunkStream AddressTotal Validator Trojan Talk.

Definition socks5Version : Z := 5.
Definition socks4Version : Z := 4.
Definition cmdTCPConnect : Z := 1.
Definition cmdTCPBind : Z := 2.
Definition cmdUDPAssociate : Z := 3.
Definition cmdTorResolve : Z := 0xF0.
Definition cmdTorResolvePTR : Z := 0xF1.
Definition socks4RequestGranted : Z := 90.
Definition socks4RequestRejected : Z := 91.
Definition authNotRequired : Z := 0.
Definition authPassword : Z := 2.
Definition authNoMatchingMethod : Z := 255.
Definition statusSuccess : Z := 0.
Definition statusCmdNotSupport : Z := 7.

Definition socks_options : list AddressOption :=
  [AddressFamilyByte 1 AddressFamilyIPv4; AddressFamilyByte 4 AddressFamilyIPv6;
   AddressFamilyByte 3 AddressFamilyDomain].

Definition addrParser : addressParser := parser_of socks_options.

(** The configuration and its accounts. *)
Inductive AuthType := AuthType_NO_AUTH | AuthType_PASSWORD.

#[global] Instance AuthType_eq_dec : EqDecision AuthType.
Proof. solve_decision. Defined.

Record ServerConfig := {
  AuthType_ : AuthType;
  Accounts : option (gmap bytes bytes);
  s_Address : option (option IPOrDomain);
  UdpEnabled : bool;
  s_Timeout : Z;
  s_UserLevel : Z }.

Definition HasAccount (c : ServerConfig) (username password : bytes) : bool :=
  match Accounts c with
  | None => false
  | Some accounts =>
    match accounts !! username with None => false | Some storedPassed => bool_decide (storedPassed = password) end
  end.

Record account := { Username : bytes; Password : bytes }.

Definition Equals (a : account) (another : option account) : bool :=
  match another with Some b => bool_decide (Username a = Username b) | None => false end.

(** [protocol.RequestHeader]: the parts that are used here.  The account of a user is
    [None] when there is none. *)
Inductive command := RequestCommandTCP | RequestCommandUDP.

#[global] Instance command_eq_dec : EqDecision command.
Proof. solve_decision. Defined.

Record Request := {
  r_Version : Z;
  r_Command : command;
  r_Address : option Address;
  r_Port : Z;
  r_User : option (MemoryUser (option account)) }.

Definition r_Destination (r : Request) : Destination :=
  match r_Command r with
  | RequestCommandUDP => UDPDestination (r_Address r) (r_Port r)
  | RequestCommandTCP => TCPDestination (r_Address r) (r_Port r)
  end.

Record ServerSession := {
  config : ServerConfig;
  ss_address : option Address;
  ss_port : Z;
  localAddress : option Address }.

Section handshake.
Context {W : Type} (wr : Frame.Writer W) (array : bytes).
#[local] Notation talk := (talk (W := W)).

(** A buffer of the stack or the pool. *)
Definition new_buffer : Buffer := Buffer_New array.

Definition recv (b : Buffer) (n : Z) : talk Buffer := t_read (λ s, read_full b s n).

Definition send (b : Buffer) : talk unit := let* d := t_need (Bytes b) in t_write wr d.

(** ** The server *)

(** [ReadUntilNull]: a round for every byte of the buffer. *)
Fixpoint until_null (fuel : nat) (b : Buffer) : talk bytes :=
  match fuel with
  | O => λ _ _, Panic
  | S fuel =>
    let* b := recv b 1 in
    let* c := t_need (Byte b (Len b - 1)) in
    if decide (c = 0) then
      let* b := t_need (Resize b 0 (Len b - 1)) in t_need (Bytes b)
    else if IsFull b then t_fail else until_null fuel b
  end.

Definition ReadUntilNull : talk bytes := until_null Size new_buffer.

Definition ReadUsernamePassword : talk (bytes * bytes) :=
  let* b := recv new_buffer 2 in
  let* nUsername := t_need (Byte b 1) in
  let* b := recv (Clear b) nUsername in
  let* username := t_need (Bytes b) in
  let* b := recv (Clear b) 1 in
  let* nPassword := t_need (Byte b 0) in
  let* b := recv (Clear b) nPassword in
  let* password := t_need (Bytes b) in
  t_ret (username, password).

Fixpoint hasAuthMethod (expectedAuth : Z) (authCandidates : bytes) : bool :=
  match authCandidates with
  | [] => false
  | a :: rest => if decide (a = expectedAuth) then true else hasAuthMethod expectedAuth rest
  end.

Definition writeSocks5AuthenticationResponse (version auth : Z) : talk unit := t_write wr [version; auth].

Definition writeSocks5Response (errCode : Z) (address : option Address) (port : Z) : talk unit :=
  let* b := t_pure (write_all new_buffer [socks5Version; errCode; 0]) in
  let* b := t_pure (write_address addrParser b address port) in
  send b.

Definition writeSocks4Response (errCode : Z) (address : Address) (port : Z) : talk unit :=
  let* b := t_pure (must_byte new_buffer 0) in
  let* b := t_pure (must_byte b errCode) in
  let* (e, _) := t_need (Extend b 2) in
  let* ip := t_need (Address_IP address) in
  let* b := t_pure (write_all (patch e (end_ b) (be_bytes 2 port)) ip) in
  send b.

Definition handshake4 (s : ServerSession) (cmd : Z) : talk Request :=
  if decide (AuthType_ (config s) = AuthType_PASSWORD) then
    let* _ := t_ignore (writeSocks4Response socks4RequestRejected AnyIP 0) in t_fail
  else
    let* b := recv new_buffer 6 in
    let* p := t_need (BytesRange b 0 2) in
    let* port := t_need (PortFromBytes p) in
    let* ip := t_need (BytesRange b 2 6) in
    let address := IPAddress ip in
    let* _ := ReadUntilNull in
    let* a := t_need address in
    let* octets := t_need (Address_IP a) in
    let* first := t_need (head octets) in
    let* address :=
      if decide (first = 0) then let* domain := ReadUntilNull in let* a := t_need (ParseAddress domain) in t_ret (Some a) else t_ret address in
    if decide (cmd = cmdTCPConnect) then
      let* _ := writeSocks4Response socks4RequestGranted AnyIP 0 in
      t_ret {| r_Version := socks4Version; r_Command := RequestCommandTCP; r_Address := address; r_Port := port; r_User := None |}
    else
      let* _ := t_ignore (writeSocks4Response socks4RequestRejected AnyIP 0) in t_fail.

Definition auth5 (s : ServerSession) (nMethod : Z) : talk bytes :=
  let* b := recv new_buffer nMethod in
  let expectedAuth := if decide (AuthType_ (config s) = AuthType_PASSWORD) then authPassword else authNotRequired in
  let* methods := t_need (BytesRange b 0 nMethod) in
  if hasAuthMethod expectedAuth methods then
    let* _ := writeSocks5AuthenticationResponse socks5Version expectedAuth in
    if decide (expectedAuth = authPassword) then
      let* (username, password) := ReadUsernamePassword in
      if HasAccount (config s) username password then
        let* _ := writeSocks5AuthenticationResponse 1 0 in t_ret username
      else
        let* _ := t_ignore (writeSocks5AuthenticationResponse 1 255) in t_fail
    else t_ret []
  else
    let* _ := t_ignore (writeSocks5AuthenticationResponse socks5Version authNoMatchingMethod) in t_fail.

(** The command of a request: [None] is one that is answered as not supported. *)
Definition request_command (c : ServerConfig) (cmd : Z) : option command :=
  if decide (cmd = cmdTCPConnect ∨ cmd = cmdTorResolve ∨ cmd = cmdTorResolvePTR) then Some RequestCommandTCP
  else if decide (cmd = cmdUDPAssociate) then if UdpEnabled c then Some RequestCommandUDP else None
  else None.

(** The address of the answer; [None] is a panic. *)
Definition response_address (s : ServerSession) (c : command) : option (option Address) :=
  match c with
  | RequestCommandUDP =>
    match s_Address (config s) with
    | Some _ => AsAddress (s_Address (config s))
    | None => Some (localAddress s)
    end
  | RequestCommandTCP => Some (ss_address s)
  end.

Definition handshake5 (s : ServerSession) (nMethod : Z) : talk Request :=
  let* username := auth5 s nMethod in
  let* b := recv new_buffer 3 in
  let* cmd := t_need (Byte b 1) in
  let user := if decide (username = []) then None else Some {| Account := None; Email := username; Level := 0 |} in
  match request_command (config s) cmd with
  | None =>
    let* _ := t_ignore (writeSocks5Response statusCmdNotSupport (Some AnyIP) 0) in t_fail
  | Some c =>
    let* (addr, port) := t_read (ReadAddressPort addrParser new_buffer) in
    let* responseAddress := t_need (response_address s c) in
    let* _ := writeSocks5Response statusSuccess responseAddress (ss_port s) in
    t_ret {| r_Version := socks5Version; r_Command := c; r_Address := addr; r_Port := port; r_User := user |}
  end.

Definition Handshake (s : ServerSession) : talk Request :=
  let* b := recv new_buffer 2 in
  let* version := t_need (Byte b 0) in
  let* cmd := t_need (Byte b 1) in
  if decide (version = socks4Version) then handshake4 s cmd
  else if decide (version = socks5Version) then handshake5 s cmd
  else t_fail.

(** ** The client *)

(** The message with the name and the password; a user without an account panics. *)
Definition account_message (b : Buffer) (user : MemoryUser (option account)) : outcome Buffer :=
  ret_or_panic (Account user) (λ a,
  let? b := must_byte b 1 in
  let? b := must_byte b (u8 (Z.of_nat (length (Username a)))) in
  let? b := write_all b (Username a) in
  let? b := must_byte b (u8 (Z.of_nat (length (Password a)))) in
  write_all b (Password a)).

Definition client_auth (request : Request) (b : Buffer) : talk Buffer :=
  match r_User request with
  | None => t_ret b
  | Some user =>
    let* b := t_pure (account_message (Clear b) user) in
    let* _ := send b in
    let* b := recv (Clear b) 2 in
    let* status := t_need (Byte b 1) in
    if decide (status ≠ 0) then t_fail else t_ret b
  end.

Definition client_command (request : Request) (b : Buffer) : outcome Buffer :=
  match r_Command request with
  | RequestCommandUDP =>
    let? b := write_all b [socks5Version; cmdUDPAssociate; 0] in write_all b [1; 0; 0; 0; 0; 0; 0]
  | RequestCommandTCP =>
    let? b := write_all b [socks5Version; cmdTCPConnect; 0] in
    write_address addrParser b (r_Address request) (r_Port request)
  end.

(** The result is where packets go, for the command for packets. *)
Definition ClientHandshake (request : Request) : talk (option Request) :=
  let authByte := match r_User request with Some _ => authPassword | None => authNotRequired end in
  let* b := t_pure (write_all new_buffer [socks5Version; 1; authByte]) in
  let* _ := send b in
  let* b := recv (Clear b) 2 in
  let* version := t_need (Byte b 0) in
  if decide (version ≠ socks5Version) then t_fail else
  let* method := t_need (Byte b 1) in
  if decide (method ≠ authByte) then t_fail else
  let* b := client_auth request b in
  let* b := t_pure (client_command request (Clear b)) in
  let* _ := send b in
  let* b := recv (Clear b) 3 in
  let* resp := t_need (Byte b 1) in
  if decide (resp ≠ 0) then t_fail else
  let* (address, port) := t_read (ReadAddressPort addrParser (Clear b)) in
  t_ret (match r_Command request with
         | RequestCommandUDP =>
           Some {| r_Version := socks5Version; r_Command := RequestCommandUDP; r_Address := address; r_Port := port; r_User := None |}
         | RequestCommandTCP => None
         end).
End handshake.

(** ** Packets *)

(** What is left of a packet whose last bytes are [rest] when it was read as a stream. *)
Definition read_up_to (b : Buffer) (rest : bytes) : Buffer :=
  match rest with [] => Clear b | _ => Advance b (Len b - Z.of_nat (length rest)) end.

Section packets.
Context (array : bytes).

Definition DecodeUDPPacket (packet : Buffer) : outcome (Request * Buffer) :=
  if decide (Len packet < 5) then Fail
  else
    ret_or_panic (Byte packet 2) (λ frag,
    if decide (frag ≠ 0) then Fail
    else
      let packet := Advance packet 3 in
      ret_or_panic (Bytes packet) (λ d,
      let? (addr, port, s) := ReadAddressPort addrParser (new_buffer array) {| chunks := [d]; final := ErrEOF |} in
      Ret ({| r_Version := socks5Version; r_Command := RequestCommandUDP; r_Address := addr; r_Port := port; r_User := None |},
           read_up_to packet (contents s)))).

Definition EncodeUDPPacket (address : option Address) (port : Z) (data : bytes) : outcome Buffer :=
  let? b := write_all (new_buffer array) [0; 0; 0] in
  let? b := write_address addrParser b address port in
  write_all b data.

(** [UDPReader.ReadMultiBuffer] on a buffer that holds what was read. *)
Definition UDPReader_ReadMultiBuffer (buffer : Buffer) : outcome (list Buffer) :=
  let? (u, b) := DecodeUDPPacket buffer in Ret [with_UDP b (r_Destination u)].

(** [UDPWriter.WriteMultiBuffer]: a write for every packet; [true] is an error. *)
Fixpoint UDPWriter_WriteMultiBuffer {W} (wr : Frame.Writer W) (request : Request) (mb : list Buffer) (w : W) : outcome (W * bool) :=
  match mb with
  | [] => Ret (w, false)
  | b :: mb =>
    let '(address, port) := match UDP b with
                            | Some d => (dest_Address d, dest_Port d)
                            | None => (r_Address request, r_Port request) end in
    ret_or_panic (Bytes b) (λ d,
    match EncodeUDPPacket address port d with
    | Panic => Panic
    | Fail => Ret (w, true)
    | Ret packet =>
      ret_or_panic (Bytes packet) (λ p,
      let '(w, (_, err)) := @w_write W wr w p in
      match err with Some _ => Ret (w, true) | None => UDPWriter_WriteMultiBuffer wr request mb w end)
    end)
  end.

(** The packets of one read on the packet connection of the server
    ([Server.handleUDPPayload]): where each is dispatched, with its request.  With
    [cone] all go by the destination of the first. *)
Fixpoint udp_payloads (cone : bool) (dest : option Destination) (payloads : list Buffer) :
    outcome (option Destination * list (Destination * Request * Buffer)) :=
  match payloads with
  | [] => Ret (dest, [])
  | payload :: payloads =>
    match DecodeUDPPacket payload with
    | Panic => Panic
    | Fail => udp_payloads cone dest payloads
    | Ret (request, payload) =>
      if IsEmpty payload then udp_payloads cone dest payloads
      else
        let destination := r_Destination request in
        let to := match dest with Some d => if cone then d else destination | None => destination end in
        let? (dest, more) := udp_payloads cone (Some to) payloads in
        Ret (dest, (to, request, with_UDP payload destination) :: more)
    end
  end.
End packets.

(** The filter of packets: the addresses of clients that were let in. *)
Definition UDPFilter : Type := gset bytes.

Definition filter_Add (f : UDPFilter) (addr : bytes) : UDPFilter :=
  {[ match SplitHostPort addr with Some (ip, _) => ip | None => [] end ]} ∪ f.

Definition filter_Check (f : UDPFilter) (addr : bytes) : bool :=
  bool_decide (match SplitHostPort addr with Some (ip, _) => ip | None => [] end ∈ f).

(** ** The server and the client *)

(** The first byte decides who goes on ([Server.Process]); without one it stays 0. *)
Definition is_socks (firstbyte : option Z) : bool :=
  let b := default 0 firstbyte in bool_decide (b = 5 ∨ b = 4).

Definition Network_list (c : ServerConfig) : list Network :=
  Network_TCP :: if UdpEnabled c then [Network_UDP] else [].

Inductive Version := Version_SOCKS5 | Version_SOCKS4 | Version_SOCKS4A.

(** The request of the outbound ([Client.Process]); [LookupIP] gives addresses, or an
    error. *)
Definition outbound_request (LookupIP : bytes → option (list bytes)) (version : Version) (destination : Destination)
    (user : option (MemoryUser (option account))) : outcome Request :=
  let request v c a :=
    {| r_Version := v; r_Command := c; r_Address := a; r_Port := dest_Port destination; r_User := user |} in
  let command := if decide (dest_Network destination = Network_UDP) then RequestCommandUDP else RequestCommandTCP in
  let checked a :=
    if decide (dest_Network destination = Network_UDP) then Fail
    else ret_or_panic (dest_Address destination) (λ d,
         if IsIPv6 (Address.Family d) then Fail else Ret (request socks4Version command a)) in
  match version with
  | Version_SOCKS5 => Ret (request socks5Version command (dest_Address destination))
  | Version_SOCKS4A => checked (dest_Address destination)
  | Version_SOCKS4 =>
    ret_or_panic (dest_Address destination) (λ a,
    match a with
    | domainAddress domain =>
      match LookupIP domain with
      | None | Some [] => Fail
      | Some (ip :: _) => checked (IPAddress ip)
      end
    | _ => checked (dest_Address destination)
    end)
  end.

(** Where packets go when the server answers with an unspecified address. *)
Definition packet_server (dest : Destination) (udpRequest : Request) : Destination :=
  if decide (r_Address udpRequest = Some AnyIP ∨ r_Address udpRequest = Some AnyIPv6)
  then UDPDestination (dest_Address dest) (r_Port udpRequest)
  else r_Destination udpRequest.

(** The JSON of the server; accounts in order, a later one replaces an earlier one. *)
Record SocksServerConfig := {
  j_AuthMethod : bytes;
  j_Accounts : list account;
  j_UDP : bool;
  j_Host : option Address;
  j_Timeout : Z;
  j_UserLevel : Z }.

Definition SocksServerConfig_Build (v : SocksServerConfig) : ServerConfig :=
  {| AuthType_ := if decide (j_AuthMethod v = lit "password") then AuthType_PASSWORD else AuthType_NO_AUTH;
     Accounts := if decide (j_Accounts v = []) then None
                 else Some (foldl (λ m a, <[Username a := Password a]> m) ∅ (j_Accounts v));
     s_Address := (λ a, Some (NewIPOrDomain a)) <$> j_Host v;
     UdpEnabled := j_UDP v;
     s_Timeout := j_Timeout v;
     s_UserLevel := j_UserLevel v |}.
