(* ===== verification/SocksSpec.v ===== *)
(** What the two sides of a SOCKS handshake make of each other, that the server survives
    any client and lets in only its accounts, and that packets arrive with their
    destinations. *)
From stdpp Require Import gmap.
From S2P Require Import Prelude GoText NetIP Address Transport Frame Uuid FoloJson Buf AddressParser BufAppend MultiBuffer BufIO ChunkStream AddressTotal Validator Trojan Talk Socks.

Lemma addrParser_ok : parser_ok addrParser.
Proof. split; [done|]. intros []; cbn; eexists; (split_all; [reflexivity|lia..|reflexivity]). Qed.

Lemma range_parts b x d y : wf b → content b = x ++ d ++ y →
  BytesRange b (Z.of_nat (length x)) (Z.of_nat (length x + length d)) = Some d.
Proof.
  intros Hb Hc. rewrite BytesRange_content; [|done|lia|rewrite Hc, !length_app; lia]. rewrite Hc, drop_app_length.
  replace (length x + length d - length x)%nat with (length d) by lia. by rewrite take_app_length.
Qed.

Section conversation.
Context {W : Type} (wr : Frame.Writer W) (taken : W → bytes) `{!@FullWriter W wr taken}.
Context (array : bytes) (Harray : length array = Size).
#[local] Notation runs := (runs taken).
#[local] Notation refuses := (refuses taken).
#[local] Notation new := (new_buffer array).

Lemma new_ok : wf new ∧ content new = [] ∧ Z.of_nat (room new) = 8192.
Proof using Harray.
  destruct (wf_New array Harray) as (H1 & H2 & H3). split_all; [done|done|]. unfold new_buffer. by rewrite H3.
Qed.

(** ** Steps *)

Lemma runs_recv_clear b x n : wf b → n = Z.of_nat (length x) → (length x ≤ room b)%nat →
  runs (recv (Clear b) n) x [] (λ b', wf b' ∧ content b' = x ∧ (room b - length x ≤ room b')%nat).
Proof using.
  intros Hb Hn Hr. apply runs_t_read. intros s rest Hs.
  destruct (read_cleared b s x rest n Hb Hs Hn Hr) as (b' & s' & E & H1 & H2 & H3 & H4 & H5). by exists b', s'.
Qed.

Lemma runs_recv_new x n : n = Z.of_nat (length x) → Z.of_nat (length x) ≤ 8192 →
  runs (recv new n) x [] (λ b', wf b' ∧ content b' = x ∧ 8192 - Z.of_nat (length x) ≤ Z.of_nat (room b')).
Proof using Harray.
  intros Hn Hl. destruct new_ok as (Hw & _ & Hr). eapply runs_mono; [apply (runs_recv_clear new x n Hw Hn); lia|].
  intros b (H1 & H2 & H3). split_all; [done|done|lia].
Qed.

Lemma runs_send b d : wf b → content b = d → runs (send wr b) [] d (λ _, True).
Proof using All.
  intros Hb <-. unfold send. eapply (runs_pure taken _ _ _ _ (λ x, x = content b)).
  - by eapply runs_need; [apply Bytes_content|].
  - intros ? ->. by apply runs_write.
Qed.

Lemma runs_byte {B} b i c (k : Z → talk B) inp out P : wf b → content b !! i = Some c →
  runs (k c) inp out P → runs (t_bind (t_need (Byte b (Z.of_nat i))) k) inp out P.
Proof using.
  intros Hb Hc Hk. eapply (runs_pure taken _ _ _ _ (λ x, x = c)); [by eapply runs_need; [by apply Byte_content|]|]. by intros ? ->.
Qed.

Lemma runs_bytes {B} b (k : bytes → talk B) inp out P : wf b →
  runs (k (content b)) inp out P → runs (t_bind (t_need (Bytes b)) k) inp out P.
Proof using.
  intros Hb Hk. eapply (runs_pure taken _ _ _ _ (λ x, x = content b)); [by eapply runs_need; [by apply Bytes_content|]|]. by intros ? ->.
Qed.

(** ** Messages *)

Definition target (a : option Address) (port : Z) : bytes := address_bytes addrParser (TCPDestination a port).

Lemma AnyIP_wire port : is_uint 16 port → endpoint_wire (TCPDestination (Some AnyIP) port).
Proof using. intros Hp. exists AnyIP. split_all; [done| |done]. split; [repeat constructor; done|done]. Qed.

Lemma runs_Socks5Response code a port : endpoint_wire (TCPDestination a port) →
  runs (writeSocks5Response wr array code a port) [] ([5; code; 0] ++ target a port) (λ _, True).
Proof using All.
  intros Ha. unfold writeSocks5Response. destruct new_ok as (W0 & C0 & R0).
  destruct (write_all_spec new [socks5Version; code; 0] W0 ltac:(cbn [length]; lia)) as (b1 & E1 & A1). pose proof (app_room _ _ _ A1) as R1.
  destruct (address_bytes_spec _ addrParser_ok _ Ha) as (x & _ & _ & _ & Hl).
  destruct (write_address_spec addrParser addrParser_ok b1 _ Ha (app_wf _ _ _ A1)) as (b2 & E2 & A2); [cbn [length] in R1; lia|].
  eapply (runs_pure taken _ _ _ _ (λ b, b = b1)); [by eapply runs_of|]. intros ? ->.
  eapply (runs_pure taken _ _ _ _ (λ b, b = b2)); [by eapply runs_of|]. intros ? ->.
  apply runs_send; [apply A2|]. by rewrite (app_content _ _ _ A2), (app_content _ _ _ A1), C0.
Qed.

Lemma runs_Socks4Response code port : is_uint 16 port →
  runs (writeSocks4Response wr array code AnyIP port) [] ([0; code] ++ be_bytes 2 port ++ [0; 0; 0; 0]) (λ _, True).
Proof using All.
  intros Hp. unfold writeSocks4Response. destruct new_ok as (W0 & C0 & R0).
  destruct (must_byte_spec new 0 W0 ltac:(lia)) as (b1 & E1 & A1). pose proof (app_room _ _ _ A1) as R1. cbn [length] in R1.
  destruct (must_byte_spec b1 code (app_wf _ _ _ A1) ltac:(lia)) as (b2 & E2 & A2). pose proof (app_room _ _ _ A2) as R2. cbn [length] in R2.
  destruct (Extend_spec b2 2 (app_wf _ _ _ A2) ltac:(lia)) as (e & ext & E3 & L3 & A3 & _). pose proof (app_room _ _ _ A3) as R3.
  assert (appended b2 (be_bytes 2 port) (patch e (end_ b2) (be_bytes 2 port))) as A4.
  { pose proof (patch_appended b2 ext [] e (be_bytes 2 port) (app_wf _ _ _ A2)) as Hp4. rewrite !app_nil_r in Hp4.
    apply Hp4; [done|by rewrite be_bytes_length]. }
  pose proof (app_room _ _ _ A4) as R4. rewrite be_bytes_length in R4.
  destruct (write_all_spec _ [0; 0; 0; 0] (app_wf _ _ _ A4) ltac:(cbn [length]; lia)) as (b5 & E5 & A5).
  eapply (runs_pure taken _ _ _ _ (λ b, b = b1)); [by eapply runs_of|]. intros ? ->.
  eapply (runs_pure taken _ _ _ _ (λ b, b = b2)); [by eapply runs_of|]. intros ? ->.
  eapply (runs_pure taken _ _ _ _ (λ r, r = (e, ext))); [by eapply runs_need|]. intros ? ->.
  eapply (runs_pure taken _ _ _ _ (λ ip, ip = [0; 0; 0; 0])); [by eapply runs_need|]. intros ? ->.
  eapply (runs_pure taken _ _ _ _ (λ b, b = b5)); [by eapply runs_of|]. intros ? ->.
  apply runs_send; [apply A5|]. rewrite (app_content _ _ _ A5), (app_content _ _ _ A4), (app_content _ _ _ A2), (app_content _ _ _ A1), C0.
  by rewrite <- !app_assoc.
Qed.

(** ** Texts *)

Lemma runs_until_null fuel b x : wf b → 0 ∉ x → (length x < room b)%nat → (length x < fuel)%nat →
  runs (until_null fuel b) (x ++ [0]) [] (λ d, d = content b ++ x).
Proof using Harray.
  revert b x. induction fuel as [|fuel IH]; intros b x Hb Hx Hr Hf; [lia|]. cbn [until_null].
  destruct x as [|c x].
  - eapply (runs_bind taken _ _ [0] [] [] []); [by apply (runs_read_full taken b [0]); [|done|cbn in *; lia]|].
    intros b1 (W1 & C1 & _). pose proof (Byte_last b1 _ 0 W1 C1) as Hc. pose proof (Len_content b1 W1) as HL.
    rewrite C1, length_app in HL. cbn [length] in HL.
    eapply (runs_pure taken _ _ _ _ (λ x, x = 0)); [by eapply runs_need|]. intros ? ->. rewrite decide_True by done.
    destruct (run_Resize b1 0 (length (content b)) W1) as (b2 & E2 & W2 & C2); [lia|rewrite C1, length_app; lia|].
    replace (Len b1 - 1) with (Z.of_nat (length (content b))) by lia.
    eapply (runs_pure taken _ _ _ _ (λ x, x = b2)); [by eapply runs_need|]. intros ? ->.
    eapply runs_need; [by apply Bytes_content|]. by rewrite C2, drop_0, Nat.sub_0_r, C1, take_app_length, app_nil_r.
  - eapply (runs_bind taken _ _ [c] (x ++ [0]) [] []); [by apply (runs_read_full taken b [c]); [|done|cbn in *; lia]|].
    intros b1 (W1 & C1 & R1). cbn [length] in *. pose proof (Byte_last b1 _ c W1 C1) as Hc.
    eapply (runs_pure taken _ _ _ _ (λ x, x = c)); [by eapply runs_need|]. intros ? ->.
    rewrite elem_of_cons in Hx. rewrite decide_False by (intros ->; tauto).
    assert (IsFull b1 = false) as ->.
    { unfold IsFull. apply bool_decide_eq_false. unfold room in *. lia. }
    eapply runs_mono; [apply IH; [done|tauto|lia|lia]|]. intros d ->. by rewrite C1, <- app_assoc.
Qed.

Lemma runs_ReadUntilNull x : 0 ∉ x → Z.of_nat (length x) < 8192 → runs (ReadUntilNull array) (x ++ [0]) [] (λ d, d = x).
Proof using Harray.
  intros Hx Hl. destruct new_ok as (W0 & C0 & R0). unfold ReadUntilNull.
  assert (Z.of_nat Size = 8192) as HS by reflexivity.
  eapply runs_mono; [apply (runs_until_null Size new x W0 Hx); lia|]. intros d ->. by rewrite C0.
Qed.

(** The name and the password on the wire; the first byte is not looked at. *)
Definition account_bytes (version : Z) (name pass : bytes) : bytes :=
  [version; Z.of_nat (length name)] ++ name ++ [Z.of_nat (length pass)] ++ pass.

Lemma runs_ReadUsernamePassword version name pass : (length name ≤ 255)%nat → (length pass ≤ 255)%nat →
  runs (ReadUsernamePassword array) (account_bytes version name pass) [] (λ r, r = (name, pass)).
Proof using Harray.
  intros Hn Hp. unfold ReadUsernamePassword, account_bytes.
  eapply (runs_reading taken); [by apply runs_recv_new|]. intros b1 (W1 & C1 & R1). cbn [length] in R1.
  apply (runs_byte b1 1 (Z.of_nat (length name))); [done|by rewrite C1|].
  eapply (runs_reading taken); [apply runs_recv_clear; [done|done|lia]|]. intros b2 (W2 & C2 & R2).
  apply runs_bytes; [done|].
  eapply (runs_reading taken); [apply runs_recv_clear; [done|done|cbn [length]; lia]|]. intros b3 (W3 & C3 & R3). cbn [length] in R3.
  apply (runs_byte b3 0 (Z.of_nat (length pass))); [done|by rewrite C3|]. rewrite <- (app_nil_r pass) at 2.
  eapply (runs_reading taken); [apply runs_recv_clear; [done|done|lia]|]. intros b4 (W4 & C4 & R4).
  apply runs_bytes; [done|]. apply runs_ret. by rewrite C2, C4.
Qed.

Lemma hasAuthMethod_elem m l : hasAuthMethod m l = bool_decide (m ∈ l).
Proof using.
  induction l as [|a l IH]; [done|]. cbn [hasAuthMethod]. destruct (decide (a = m)) as [E|E].
  - subst. symmetry. apply bool_decide_eq_true. by left.
  - rewrite IH. apply bool_decide_ext. rewrite elem_of_cons. split; [tauto|]. intros [->|?]; done.
Qed.

(** ** The server *)

Lemma stalls_recv b n : wf b → 0 < n ≤ Z.of_nat (room b) → stalls taken (recv b n) [] [].
Proof using. apply stalls_read_full. Qed.

(** The part of the name and password: what the client says, and the name. *)
Definition auth_method (c : ServerConfig) : Z := if decide (AuthType_ c = AuthType_PASSWORD) then 2 else 0.

Definition logs_in (c : ServerConfig) (user : option (MemoryUser (option account))) : Prop :=
  match user with
  | None => AuthType_ c = AuthType_NO_AUTH
  | Some u => AuthType_ c = AuthType_PASSWORD ∧ ∃ a, Account u = Some a ∧
      HasAccount c (Username a) (Password a) = true ∧ (length (Username a) ≤ 255)%nat ∧ (length (Password a) ≤ 255)%nat
  end.

Definition account_of (user : option (MemoryUser (option account))) : option account := u ← user; Account u.

Definition login_messages (user : option (MemoryUser (option account))) : list (bytes * bytes) :=
  match account_of user with Some a => [(account_bytes 1 (Username a) (Password a), [1; 0])] | None => [] end.

Lemma serving_auth5 s user n : n = 1 → logs_in (config s) user →
  serving taken (auth5 wr array s n) (([auth_method (config s)], [5; auth_method (config s)]) :: login_messages user)
    (λ name, name = from_option Username [] (account_of user)).
Proof using All.
  intros -> Hu. unfold auth5. cbv zeta. destruct new_ok as (W0 & C0 & R0). set (m := auth_method (config s)).
  change (if decide (AuthType_ (config s) = AuthType_PASSWORD) then authPassword else authNotRequired) with m.
  eapply (serving_read taken _ _ _ _ [m] []); [by apply runs_recv_new|]. intros b (Wb & Cb & _).
  eapply (serving_pure taken _ _ (λ x, x = [m])).
  { eapply runs_need; [|reflexivity]. by apply (range_parts b [] [m] []). }
  intros ? ->. cbn [hasAuthMethod]. rewrite decide_True by done.
  eapply (serving_write taken _ _ (λ _, True) _ [5; m] []); [by apply runs_write|]. intros _ _.
  apply serving_next. unfold login_messages. destruct user as [u|].
  - destruct Hu as (Hp & a & Ha & Hacc & Hn & Hpw). cbn [account_of mbind option_bind]. rewrite Ha. cbn [from_option].
    assert (m = authPassword) as Em by (unfold m, auth_method; by rewrite decide_True). rewrite (decide_True _ _ Em).
    rewrite <- (app_nil_r (account_bytes _ _ _)).
    eapply serve_read; [by apply runs_ReadUsernamePassword| |].
    { unfold ReadUsernamePassword. apply stalls_early, stalls_recv; [done|lia]. }
    intros ? ->. rewrite Hacc.
    eapply (serving_write taken _ _ (λ _, True) _ [1; 0] []); [by apply runs_write|]. intros _ _.
    apply serving_next. by apply serves_ret.
  - cbn [account_of mbind option_bind from_option].
    assert (m ≠ authPassword) as Em by (unfold m, auth_method; rewrite decide_False by (rewrite Hu; done); done).
    rewrite (decide_False _ _ Em). by apply serves_ret.
Qed.

(** What a client asks for, in bytes. *)
Definition command_byte (r : Request) : Z := match r_Command r with RequestCommandUDP => 3 | RequestCommandTCP => 1 end.

Definition requested (r : Request) : option Address * Z :=
  match r_Command r with RequestCommandUDP => (Some AnyIP, 0) | RequestCommandTCP => (r_Address r, r_Port r) end.

Definition request_message (r : Request) : bytes := [5; command_byte r; 0] ++ target (requested r).1 (requested r).2.

(** The whole conversation, with the address of the answer. *)
Definition socks5_conversation (s : ServerSession) (r : Request) (a : option Address) : list (bytes * bytes) :=
  ([5; 1; auth_method (config s)], [5; auth_method (config s)]) :: login_messages (r_User r) ++
  [(request_message r, [5; 0; 0] ++ target a (ss_port s))].

(** The request that the server makes of it. *)
Definition accepted_request (r : Request) : Request :=
  let name := from_option Username [] (account_of (r_User r)) in
  {| r_Version := 5; r_Command := r_Command r; r_Address := (requested r).1; r_Port := (requested r).2;
     r_User := if decide (name = []) then None else Some {| Account := None; Email := name; Level := 0 |} |}.

Record agreeable (s : ServerSession) (r : Request) (a : option Address) : Prop := {
  ag_login : logs_in (config s) (r_User r);
  ag_udp : r_Command r = RequestCommandUDP → UdpEnabled (config s) = true;
  ag_answer : response_address s (r_Command r) = Some a ∧ endpoint_wire (TCPDestination a (ss_port s));
  ag_target : r_Command r = RequestCommandTCP → endpoint_wire (TCPDestination (r_Address r) (r_Port r))
}.

Lemma requested_wire s r a : agreeable s r a → endpoint_wire (TCPDestination (requested r).1 (requested r).2).
Proof using. intros [_ _ _ Ht]. unfold requested. destruct (r_Command r); [by apply Ht|by apply AnyIP_wire]. Qed.

Lemma runs_target b a port : endpoint_wire (TCPDestination a port) → wf b → (259 ≤ room b)%nat →
  runs (t_read (ReadAddressPort addrParser b)) (target a port) [] (λ r, r = (a, port)).
Proof using.
  intros Ha Hb Hr. apply runs_t_read. intros s rest Hs.
  destruct (read_endpoint addrParser addrParser_ok b _ s rest Ha Hb Hr Hs) as (s' & E & Hc & Hf). by exists (a, port), s'.
Qed.

Lemma serves_socks5 s r a : agreeable s r a →
  serves taken (Handshake wr array s) (socks5_conversation s r a) (λ q, q = accepted_request r).
Proof using All.
  intros Hag. pose proof (requested_wire s r a Hag) as Hreq. destruct Hag as [Hlogin Hudp [Hans Hanswire] _].
  destruct new_ok as (W0 & C0 & R0). unfold Handshake, socks5_conversation.
  eapply (serve_read taken _ _ _ _ [5; 1] [auth_method (config s)]); [by apply runs_recv_new|by apply stalls_recv; [|lia]|].
  intros b (Wb & Cb & _).
  eapply (serving_pure taken _ _ (λ x, x = 5)); [by eapply runs_need; [apply (Byte_content b 0); [done|by rewrite Cb]|]|]. intros ? ->.
  eapply (serving_pure taken _ _ (λ x, x = 1)); [by eapply runs_need; [apply (Byte_content b 1); [done|by rewrite Cb]|]|]. intros ? ->.
  rewrite decide_False, decide_True by done. unfold handshake5. rewrite app_comm_cons.
  eapply serving_seq; [by apply serving_auth5|]. intros ? ->. unfold request_message.
  eapply (serve_read taken _ _ _ _ [5; command_byte r; 0]); [by apply runs_recv_new|by apply stalls_recv; [|lia]|].
  intros b2 (Wb2 & Cb2 & _).
  eapply (serving_pure taken _ _ (λ x, x = command_byte r)); [by eapply runs_need; [apply (Byte_content b2 1); [done|by rewrite Cb2]|]|].
  intros ? ->. cbv zeta.
  assert (request_command (config s) (command_byte r) = Some (r_Command r)) as ->.
  { unfold request_command, command_byte. destruct (r_Command r); [done|]. by rewrite Hudp. }
  rewrite <- (app_nil_r (target (requested r).1 (requested r).2)).
  eapply (serving_read taken); [apply runs_target; [done|done|lia]|]. intros ? ->. cbn beta iota.
  eapply (serving_pure taken _ _ (λ x, x = a)); [by eapply runs_need|]. intros ? ->.
  rewrite <- (app_nil_r ([5; 0; 0] ++ _)). eapply (serving_write taken); [by apply runs_Socks5Response|]. intros _ _.
  apply serving_next. by apply serves_ret.
Qed.

Lemma cleared b n : wf b → (n ≤ room b)%nat → wf (Clear b) ∧ content (Clear b) = [] ∧ (n ≤ room (Clear b))%nat.
Proof using All.
  intros Hb Hn. destruct (Clear_spec b Hb) as [Hw Hc]. split_all; [done|done|]. destruct Hb. unfold room in *. cbn. lia.
Qed.

Lemma account_message_spec b u a : wf b → (600 ≤ room b)%nat → Account u = Some a →
  (length (Username a) ≤ 255)%nat → (length (Password a) ≤ 255)%nat →
  ∃ b', account_message b u = Ret b' ∧ appended b (account_bytes 1 (Username a) (Password a)) b'.
Proof using All.
  intros Hb Hr Ha Hn Hp. unfold account_message. rewrite Ha. cbn [ret_or_panic].
  destruct (must_byte_spec b 1 Hb ltac:(lia)) as (b1 & -> & A1). pose proof (app_room _ _ _ A1) as R1. cbn [outcome_bind length] in *.
  destruct (must_byte_spec b1 (u8 (Z.of_nat (length (Username a)))) (app_wf _ _ _ A1) ltac:(lia)) as (b2 & -> & A2).
  pose proof (app_room _ _ _ A2) as R2. cbn [outcome_bind length] in *.
  destruct (write_all_spec b2 (Username a) (app_wf _ _ _ A2) ltac:(lia)) as (b3 & -> & A3). pose proof (app_room _ _ _ A3) as R3. cbn [outcome_bind].
  destruct (must_byte_spec b3 (u8 (Z.of_nat (length (Password a)))) (app_wf _ _ _ A3) ltac:(lia)) as (b4 & -> & A4).
  pose proof (app_room _ _ _ A4) as R4. cbn [outcome_bind length] in *.
  destruct (write_all_spec b4 (Password a) (app_wf _ _ _ A4) ltac:(lia)) as (b5 & -> & A5). exists b5. split; [done|].
  pose proof (appended_trans _ _ _ _ _ A1 (appended_trans _ _ _ _ _ A2 (appended_trans _ _ _ _ _ A3 (appended_trans _ _ _ _ _ A4 A5)))) as Hall.
  rewrite !wrap_small in Hall by (unfold is_uint; lia). exact Hall.
Qed.

Lemma client_command_spec b r : wf b → (300 ≤ room b)%nat → endpoint_wire (TCPDestination (requested r).1 (requested r).2) →
  ∃ b', client_command r b = Ret b' ∧ appended b (request_message r) b'.
Proof using All.
  intros Hb Hr Ha. unfold client_command, request_message, command_byte, requested in *. destruct (r_Command r).
  - destruct (write_all_spec b [socks5Version; cmdTCPConnect; 0] Hb ltac:(cbn [length]; lia)) as (b1 & E1 & A1). rewrite E1. cbn [outcome_bind].
    pose proof (app_room _ _ _ A1) as R1. cbn [length] in R1.
    destruct (address_bytes_spec _ addrParser_ok _ Ha) as (x & _ & _ & _ & Hl).
    destruct (write_address_spec addrParser addrParser_ok b1 _ Ha (app_wf _ _ _ A1)) as (b2 & E2 & A2); [lia|].
    exists b2. split; [exact E2|]. by apply (appended_trans _ _ _ _ _ A1 A2).
  - destruct (write_all_spec b [socks5Version; cmdUDPAssociate; 0] Hb ltac:(cbn [length]; lia)) as (b1 & E1 & A1). rewrite E1. cbn [outcome_bind].
    pose proof (app_room _ _ _ A1) as R1. cbn [length] in R1.
    destruct (write_all_spec b1 [1; 0; 0; 0; 0; 0; 0] (app_wf _ _ _ A1) ltac:(cbn [length]; lia)) as (b2 & E2 & A2).
    exists b2. split; [exact E2|]. by apply (appended_trans _ _ _ _ _ A1 A2).
Qed.

Lemma asks_client_auth c r b : logs_in c (r_User r) → wf b → (4000 ≤ room b)%nat →
  asks taken (client_auth wr r b) (login_messages (r_User r)) (λ b', wf b' ∧ (3000 ≤ room b')%nat).
Proof using All.
  intros Hu Hb Hr. unfold client_auth, login_messages. destruct (r_User r) as [u|]; [|by apply asks_ret; split; [|lia]].
  destruct Hu as (_ & a & Ha & _ & Hn & Hp). cbn [account_of mbind option_bind]. rewrite Ha.
  destruct (cleared b 4000 Hb Hr) as (Wc & Cc & Rc).
  destruct (account_message_spec (Clear b) u a Wc ltac:(lia) Ha Hn Hp) as (b1 & E1 & A1). pose proof (app_room _ _ _ A1) as R1.
  assert (length (account_bytes 1 (Username a) (Password a)) ≤ 600)%nat as Hl
    by (unfold account_bytes; rewrite !length_app; cbn [length]; lia).
  eapply (ask_pure taken _ _ (λ x, x = b1)); [by eapply runs_of|]. intros ? ->.
  rewrite <- (app_nil_r (account_bytes _ _ _)).
  eapply (ask_write taken); [by apply runs_send; [apply A1|rewrite (app_content _ _ _ A1), Cc]|]. intros _ _.
  eapply (ask_read taken _ _ _ _ [1; 0] []); [apply runs_recv_clear; [apply A1|done|cbn [length]; lia]| |].
  { destruct (cleared b1 3300 (app_wf _ _ _ A1) ltac:(lia)) as (? & _ & ?). apply stalls_recv; [done|lia]. }
  intros b2 (W2 & C2 & R2). cbn [length] in R2.
  eapply (asking_pure taken _ _ (λ x, x = 0)); [by eapply runs_need; [apply (Byte_content b2 1); [done|by rewrite C2]|]|]. intros ? ->.
  rewrite decide_False by (by intros []). apply asking_next. apply asks_ret. split; [done|lia].
Qed.

(** What a client makes of the answer. *)
Definition client_result (s : ServerSession) (r : Request) (a : option Address) : option Request :=
  match r_Command r with
  | RequestCommandUDP =>
    Some {| r_Version := 5; r_Command := RequestCommandUDP; r_Address := a; r_Port := ss_port s; r_User := None |}
  | RequestCommandTCP => None
  end.

Lemma asks_socks5 s r a : agreeable s r a →
  asks taken (ClientHandshake wr array r) (socks5_conversation s r a) (λ q, q = client_result s r a).
Proof using All.
  intros Hag. pose proof (requested_wire s r a Hag) as Hreq. destruct Hag as [Hlogin Hudp [_ Hans] _].
  destruct new_ok as (W0 & C0 & R0). unfold ClientHandshake, socks5_conversation. cbv zeta. set (m := auth_method (config s)).
  assert ((match r_User r with Some _ => authPassword | None => authNotRequired end) = m) as ->.
  { unfold m, auth_method. destruct (r_User r); [by rewrite decide_True by apply Hlogin|]. by rewrite decide_False by (rewrite Hlogin; done). }
  destruct (write_all_spec new [socks5Version; 1; m] W0 ltac:(cbn [length]; lia)) as (b1 & E1 & A1).
  pose proof (app_room _ _ _ A1) as R1. cbn [length] in R1.
  eapply (ask_pure taken _ _ (λ x, x = b1)); [by eapply runs_of|]. intros ? ->.
  eapply (ask_write taken _ _ _ _ [5; 1; m] []); [by apply runs_send; [apply A1|rewrite (app_content _ _ _ A1), C0]|]. intros _ _.
  eapply (ask_read taken _ _ _ _ [5; m] []); [apply runs_recv_clear; [apply A1|done|cbn [length]; lia]| |].
  { destruct (cleared b1 4900 (app_wf _ _ _ A1) ltac:(lia)) as (? & _ & ?). apply stalls_recv; [done|lia]. }
  intros b2 (W2 & C2 & R2). cbn [length] in R2.
  eapply (asking_pure taken _ _ (λ x, x = 5)); [by eapply runs_need; [apply (Byte_content b2 0); [done|by rewrite C2]|]|]. intros ? ->.
  rewrite decide_False by (by intros []).
  eapply (asking_pure taken _ _ (λ x, x = m)); [by eapply runs_need; [apply (Byte_content b2 1); [done|by rewrite C2]|]|]. intros ? ->.
  rewrite decide_False by (by intros []). apply asking_next.
  eapply asks_seq; [by eapply asks_client_auth; [|done|lia]|]. intros b3 (W3 & R3).
  destruct (cleared b3 3000 W3 ltac:(lia)) as (Wc & Cc & Rc).
  destruct (client_command_spec (Clear b3) r Wc ltac:(lia) Hreq) as (b4 & E4 & A4). pose proof (app_room _ _ _ A4) as R4.
  assert (length (request_message r) ≤ 300)%nat as Hl.
  { destruct (address_bytes_spec _ addrParser_ok _ Hreq) as (x & _ & _ & _ & Hx). unfold request_message, target. rewrite length_app. cbn [length]. lia. }
  eapply (ask_pure taken _ _ (λ x, x = b4)); [by eapply runs_of|]. intros ? ->. rewrite <- (app_nil_r (request_message r)).
  eapply (ask_write taken); [by apply runs_send; [apply A4|rewrite (app_content _ _ _ A4), Cc]|]. intros _ _.
  eapply (ask_read taken _ _ _ _ [5; 0; 0]); [apply runs_recv_clear; [apply A4|done|cbn [length]; lia]| |].
  { destruct (cleared b4 2600 (app_wf _ _ _ A4) ltac:(lia)) as (? & _ & ?). apply stalls_recv; [done|lia]. }
  intros b5 (W5 & C5 & R5). cbn [length] in R5.
  eapply (asking_pure taken _ _ (λ x, x = 0)); [by eapply runs_need; [apply (Byte_content b5 1); [done|by rewrite C5]|]|]. intros ? ->.
  rewrite decide_False by (by intros []). destruct (cleared b5 2500 W5 ltac:(lia)) as (Wd & _ & Rd).
  rewrite <- (app_nil_r (target a (ss_port s))).
  eapply (asking_read taken); [apply runs_target; [done|done|lia]|]. intros ? ->. cbn beta iota.
  apply asking_next. by apply asks_ret.
Qed.

(** ** SOCKS 4 *)

Definition socks4_answer (code : Z) : bytes := [0; code; 0; 0; 0; 0; 0; 0].

Lemma runs_Socks4_answer code : runs (writeSocks4Response wr array code AnyIP 0) [] (socks4_answer code) (λ _, True).
Proof using All. by apply (runs_Socks4Response code 0). Qed.

(** The request on the wire; an address that begins with 0 has a name behind it. *)
Definition socks4_message (port : Z) (ip user name : bytes) : bytes :=
  [4; 1] ++ be_bytes 2 port ++ ip ++ user ++ [0] ++ (if decide (head ip = Some 0) then name ++ [0] else []).

Definition socks4_target (ip name : bytes) : option Address :=
  if decide (head ip = Some 0) then ParseAddress name else Some (ipv4Address ip).

Lemma runs_socks4 s port ip user name : AuthType_ (config s) = AuthType_NO_AUTH → is_uint 16 port → length ip = 4%nat →
  0 ∉ user → Z.of_nat (length user) < 8192 → 0 ∉ name → Z.of_nat (length name) < 8192 →
  runs (Handshake wr array s) (socks4_message port ip user name) (socks4_answer 90)
    (λ q, q = {| r_Version := 4; r_Command := RequestCommandTCP; r_Address := socks4_target ip name; r_Port := port; r_User := None |}).
Proof using All.
  intros Ha Hp Hip Hu Hul Hn Hnl. unfold Handshake, socks4_message.
  eapply (runs_reading taken); [by apply runs_recv_new|]. intros b (Wb & Cb & _).
  apply (runs_byte b 0 4); [done|by rewrite Cb|]. apply (runs_byte b 1 1); [done|by rewrite Cb|].
  rewrite decide_True by done. unfold handshake4. rewrite decide_False by (rewrite Ha; done).
  assert (length (be_bytes 2 port ++ ip) = 6%nat) as Hl6 by (rewrite length_app, be_bytes_length; lia).
  rewrite app_assoc. eapply (runs_reading taken); [apply runs_recv_new; lia|]. intros b1 (W1 & C1 & _).
  eapply (runs_pure taken _ _ _ _ (λ x, x = be_bytes 2 port)).
  { eapply runs_need; [|reflexivity]. by apply (range_parts b1 [] (be_bytes 2 port) ip). }
  intros ? ->. eapply (runs_pure taken _ _ _ _ (λ x, x = port)).
  { eapply runs_need; [|reflexivity]. unfold PortFromBytes. cbn [be_bytes]. f_equal.
    pose proof (be_val_be_bytes 2 port ltac:(unfold is_uint in Hp; cbn; lia)) as Hv. cbn in Hv. exact Hv. }
  intros ? ->. eapply (runs_pure taken _ _ _ _ (λ x, x = ip)).
  { eapply runs_need; [|reflexivity]. destruct ip as [|i0 [|i1 [|i2 [|i3 []]]]]; try done.
    apply (range_parts b1 (be_bytes 2 port) [i0; i1; i2; i3] []); [done|by rewrite C1, app_nil_r]. }
  intros ? ->. cbv zeta. rewrite app_assoc.
  eapply (runs_reading taken); [by apply runs_ReadUntilNull|]. intros _ _.
  assert (IPAddress ip = Some (ipv4Address ip)) as -> by (unfold IPAddress; by rewrite decide_True).
  eapply (runs_pure taken _ _ _ _ (λ x, x = ipv4Address ip)); [by eapply runs_need|]. intros ? ->.
  eapply (runs_pure taken _ _ _ _ (λ x, x = ip)); [by eapply runs_need|]. intros ? ->.
  destruct ip as [|i0 ip]; [done|].
  eapply (runs_pure taken _ _ _ _ (λ x, x = i0)); [by eapply runs_need|]. intros ? ->.
  rewrite <- (app_nil_r (if decide (head (i0 :: ip) = Some 0) then _ else _)).
  eapply (runs_reading taken _ _ _ _ _ (λ a, a = socks4_target (i0 :: ip) name)).
  { unfold socks4_target. cbn [head]. destruct (decide (i0 = 0)) as [->|Hi0].
    - rewrite !decide_True by done. rewrite <- (app_nil_r (name ++ [0])).
      eapply (runs_reading taken); [by apply runs_ReadUntilNull|]. intros ? ->.
      destruct (ParseAddress_some name) as [x Ex].
      eapply (runs_pure taken _ _ _ _ (λ y, y = x)); [by eapply runs_need|]. intros ? ->. by apply runs_ret.
    - rewrite !decide_False by (by intros [= ->]). by apply runs_ret. }
  intros ? ->. rewrite decide_True by done. rewrite <- (app_nil_r (socks4_answer 90)).
  eapply (runs_writing taken); [apply runs_Socks4_answer|]. intros _ _. by apply runs_ret.
Qed.

(** ** Refusals *)

Lemma refused_at {A B} (m : talk A) (k : A → talk B) i o P : runs m [] o P →
  (∀ a, P a → refuses (k a) i []) → refuses (t_bind m k) i o.
Proof using.
  intros Hm Hk. rewrite <- (app_nil_r o). apply (refuses_bind taken m k [] i o [] P Hm Hk).
Qed.

Lemma refuses_reading {A B} (m : talk A) (k : A → talk B) i1 i2 o P : runs m i1 [] P →
  (∀ a, P a → refuses (k a) i2 o) → refuses (t_bind m k) (i1 ++ i2) o.
Proof using. intros Hm Hk. apply (refuses_bind taken m k i1 i2 [] o P Hm Hk). Qed.

Lemma refuses_writing {A B} (m : talk A) (k : A → talk B) i o1 o2 P : runs m [] o1 P →
  (∀ a, P a → refuses (k a) i o2) → refuses (t_bind m k) i (o1 ++ o2).
Proof using. intros Hm Hk. apply (refuses_bind taken m k [] i o1 o2 P Hm Hk). Qed.

Lemma refuses_pure {A B} (m : talk A) (k : A → talk B) i o P : runs m [] [] P →
  (∀ a, P a → refuses (k a) i o) → refuses (t_bind m k) i o.
Proof using. intros Hm Hk. apply (refuses_bind taken m k [] i [] o P Hm Hk). Qed.

(** A client with a name and a password that are not of an account. *)
Lemma refuses_stranger s version name pass : AuthType_ (config s) = AuthType_PASSWORD →
  HasAccount (config s) name pass = false → (length name ≤ 255)%nat → (length pass ≤ 255)%nat →
  refuses (Handshake wr array s) ([5; 1; 2] ++ account_bytes version name pass) ([5; 2] ++ [1; 255]).
Proof using All.
  intros Ha Hacc Hn Hp. unfold Handshake.
  eapply (refuses_reading _ _ [5; 1] ([2] ++ _)); [by apply runs_recv_new|]. intros b (Wb & Cb & _).
  eapply (refuses_pure _ _ _ _ (λ x, x = 5)); [by eapply runs_need; [apply (Byte_content b 0); [done|by rewrite Cb]|]|]. intros ? ->.
  eapply (refuses_pure _ _ _ _ (λ x, x = 1)); [by eapply runs_need; [apply (Byte_content b 1); [done|by rewrite Cb]|]|]. intros ? ->.
  rewrite decide_False, decide_True by done. unfold handshake5. apply refuses_early. unfold auth5. cbv zeta.
  rewrite (decide_True _ _ Ha).
  eapply (refuses_reading _ _ [2]); [by apply runs_recv_new|]. intros b2 (W2 & C2 & _).
  eapply (refuses_pure _ _ _ _ (λ x, x = [2])).
  { eapply runs_need; [|reflexivity]. by apply (range_parts b2 [] [2] []). }
  intros ? ->. cbn [hasAuthMethod]. rewrite decide_True by done.
  eapply (refuses_writing _ _ _ [5; 2]); [by apply runs_write|]. intros _ _. rewrite decide_True by done.
  rewrite <- (app_nil_r (account_bytes _ _ _)).
  eapply refuses_reading; [by apply runs_ReadUsernamePassword|]. intros ? ->. rewrite Hacc.
  eapply refused_at; [eapply runs_ignore, runs_write; done|]. intros _ _. apply refuses_fail.
Qed.
End conversation.

(** ** Whatever a client sends *)

Section strangers.
Context {W : Type} (wr : Frame.Writer W) `{!HonestWriter wr} (array : bytes) (Harray : length array = Size).
#[local] Notation new := (new_buffer array).

Lemma new_room : wf new ∧ content new = [] ∧ Z.of_nat (room new) = 8192.
Proof using Harray. apply (new_ok array Harray). Qed.

(** Reading [n] bytes into an empty buffer, and looking at them. *)
Lemma total_recv b n : wf b → 0 ≤ n ≤ Z.of_nat (room b) → total (W := W) (recv (Clear b) n)
  (λ b', wf b' ∧ Z.of_nat (length (content b')) = n ∧ wf_bytes (content b') ∧ Z.of_nat (room b) - n ≤ Z.of_nat (room b')).
Proof using All.
  intros Hb Hn. destruct (Clear_spec b Hb) as [Wc Cc].
  assert (room b ≤ room (Clear b))%nat as Hr by (destruct Hb; unfold room; cbn; lia).
  eapply total_mono; [apply (total_read_full (Clear b) n Wc); lia|].
  intros b' (x & W' & C' & L' & B' & R'). rewrite C', Cc. split_all; [done|done|done|lia].
Qed.

Lemma total_recv_new n : 0 ≤ n ≤ 8192 → total (W := W) (recv new n)
  (λ b', wf b' ∧ Z.of_nat (length (content b')) = n ∧ wf_bytes (content b') ∧ 8192 - n ≤ Z.of_nat (room b')).
Proof using All.
  intros Hn. destruct new_room as (W0 & _ & R0). pose proof (total_recv new n W0) as Ht. rewrite R0 in Ht. by apply Ht.
Qed.

Lemma total_byte {B} b i (k : Z → talk (W := W) B) P : wf b → wf_bytes (content b) → (i < length (content b))%nat →
  (∀ c, is_byte c → total (k c) P) → total (t_bind (t_need (Byte b (Z.of_nat i))) k) P.
Proof using All.
  intros Hb Hbytes Hi Hk. destruct (lookup_lt_is_Some_2 _ _ Hi) as [c Hc].
  eapply total_bind; [eapply (total_need _ c is_byte); [by apply Byte_content|by apply (Forall_lookup_1 _ _ _ _ Hbytes Hc)]|done].
Qed.

Lemma total_bytes {B} b (k : bytes → talk (W := W) B) P : wf b → total (k (content b)) P → total (t_bind (t_need (Bytes b)) k) P.
Proof using All.
  intros Hb Hk. eapply total_bind; [eapply (total_need _ _ (λ d, d = content b)); [by apply Bytes_content|done]|]. by intros ? ->.
Qed.

Lemma total_send b : wf b → total (send wr b) (λ _, True).
Proof using All. intros Hb. unfold send. apply total_bytes; [done|]. by apply total_write. Qed.

Lemma write_all_total b d : wf b → yields (write_all b d) wf.
Proof using. intros Hb. unfold write_all. destruct (run_Write b d Hb) as (b' & -> & Hw & _). done. Qed.

Lemma write_address_total b a port : wf b → yields (write_address addrParser b (Some a) port) wf.
Proof using All.
  intros Hb. unfold write_address. cbn [ret_or_panic]. eapply (yields_bind _ _ (λ _, True)); [|intros d _; by apply write_all_total].
  unfold WriteAddressPort, writeAddress.
  assert (∃ tb, addrByteMap addrParser !! family_index (Address.Family a) = Some tb) as [tb ->] by (destruct a; vm_compute; by eexists).
  case_decide; [done|]. destruct a as [x|x|d]; [done|done|]. by destruct (isDomainTooLong d).
Qed.

Lemma total_Socks5Response code a port : total (writeSocks5Response wr array code (Some a) port) (λ _, True).
Proof using All.
  destruct new_room as (W0 & _ & _). unfold writeSocks5Response.
  eapply total_bind; [by apply total_pure, write_all_total|]. intros b Hb.
  eapply total_bind; [by apply total_pure, write_address_total|]. intros b2 Hb2. by apply total_send.
Qed.

Lemma total_Socks4Response code : total (writeSocks4Response wr array code AnyIP 0) (λ _, True).
Proof using All.
  destruct new_room as (W0 & C0 & R0). unfold writeSocks4Response.
  destruct (must_byte_spec new 0 W0 ltac:(lia)) as (b1 & E1 & A1). pose proof (app_room _ _ _ A1) as R1. cbn [length] in R1.
  destruct (must_byte_spec b1 code (app_wf _ _ _ A1) ltac:(lia)) as (b2 & E2 & A2). pose proof (app_room _ _ _ A2) as R2. cbn [length] in R2.
  destruct (Extend_spec b2 2 (app_wf _ _ _ A2) ltac:(lia)) as (e & ext & E3 & L3 & A3 & _).
  rewrite E1. eapply (total_bind _ _ (λ b, b = b1)); [by apply total_pure|]. intros ? ->.
  rewrite E2. eapply (total_bind _ _ (λ b, b = b2)); [by apply total_pure|]. intros ? ->.
  eapply (total_bind _ _ (λ r, r = (e, ext))); [by eapply total_need|]. intros ? ->.
  eapply (total_bind _ _ (λ _, True)); [by eapply total_need|]. intros ip _.
  eapply (total_bind _ _ wf); [|intros b Hb; by apply total_send]. apply total_pure, write_all_total.
  pose proof (patch_appended b2 ext [] e (be_bytes 2 0) (app_wf _ _ _ A2)) as Hp. rewrite !app_nil_r in Hp.
  apply Hp; [done|by rewrite be_bytes_length].
Qed.

Lemma total_refusal {A} (m : talk (W := W) unit) P Q : total m P → total (W := W) (let* _ := t_ignore m in t_fail (A := A)) Q.
Proof using. intros Hm. eapply total_bind; [by eapply total_ignore|]. intros _ _. apply total_fail. Qed.

Lemma total_until_null fuel b : wf b → (0 < room b)%nat → (room b ≤ fuel)%nat → total (W := W) (until_null fuel b) (λ _, True).
Proof using All.
  revert b. induction fuel as [|fuel IH]; intros b Hb Hr Hf; [lia|]. cbn [until_null].
  eapply total_bind; [apply (total_read_full b 1 Hb); lia|]. intros b1 (x & W1 & C1 & L1 & B1 & R1).
  destruct x as [|c []]; try (cbn in L1; lia). cbn [length] in R1.
  eapply (total_bind _ _ (λ y, y = c)); [eapply total_need; [by apply (Byte_last b1 (content b))|done]|]. intros ? ->. case_decide.
  - pose proof (Len_content b1 W1) as HL. rewrite C1, length_app in HL. cbn [length] in HL.
    destruct (run_Resize b1 0 (length (content b)) W1) as (b2 & E2 & W2 & C2); [lia|rewrite C1, length_app; lia|].
    replace (Len b1 - 1) with (Z.of_nat (length (content b))) by lia.
    eapply (total_bind _ _ (λ x, x = b2)); [by eapply total_need|]. intros ? ->.
    by eapply total_need; [by apply Bytes_content|].
  - destruct (IsFull b1) eqn:Ef; [apply total_fail|]. apply IH; [done| |lia].
    unfold IsFull in Ef. apply bool_decide_eq_false in Ef. destruct W1. unfold room in *. lia.
Qed.

Lemma total_ReadUntilNull : total (W := W) (ReadUntilNull array) (λ _, True).
Proof using All.
  destruct new_room as (W0 & _ & R0). assert (Z.of_nat Size = 8192) by reflexivity.
  unfold ReadUntilNull. apply total_until_null; [done|lia|lia].
Qed.

Lemma total_ReadUsernamePassword : total (W := W) (ReadUsernamePassword array) (λ _, True).
Proof using All.
  unfold ReadUsernamePassword. eapply total_bind; [by apply total_recv_new|]. intros b1 (W1 & L1 & B1 & R1).
  apply (total_byte b1 1); [done|done|lia|]. intros n Hn. unfold is_byte, is_uint in Hn.
  eapply total_bind; [apply total_recv; [done|lia]|]. intros b2 (W2 & L2 & B2 & R2). apply total_bytes; [done|].
  eapply total_bind; [apply total_recv; [done|lia]|]. intros b3 (W3 & L3 & B3 & R3).
  apply (total_byte b3 0); [done|done|lia|]. intros p Hp. unfold is_byte, is_uint in Hp.
  eapply total_bind; [apply total_recv; [done|lia]|]. intros b4 (W4 & L4 & B4 & R4). apply total_bytes; [done|]. by apply total_ret.
Qed.

(** The addresses of the answers are there. *)
Definition session_ok (s : ServerSession) : Prop := ∀ c, ∃ a, response_address s c = Some (Some a).

Definition server_user (name : bytes) : option (MemoryUser (option account)) :=
  if decide (name = []) then None else Some {| Account := None; Email := name; Level := 0 |}.

(** A request that may be let in. *)
Record let_in (c : ServerConfig) (r : Request) : Prop := {
  li_address : is_Some (r_Address r);
  li_port : is_uint 16 (r_Port r);
  li_udp : r_Command r = RequestCommandUDP → UdpEnabled c = true;
  li_user : AuthType_ c = AuthType_PASSWORD → r_Version r = 5 ∧
    ∃ name pass, HasAccount c name pass = true ∧ r_User r = server_user name
}.

Lemma total_auth5 s n : is_byte n →
  total (auth5 wr array s n) (λ name, AuthType_ (config s) = AuthType_PASSWORD → ∃ pass, HasAccount (config s) name pass = true).
Proof using All.
  unfold is_byte, is_uint. intros Hn. unfold auth5. cbv zeta. eapply total_bind; [apply total_recv_new; lia|]. intros b (Wb & Lb & Bb & _).
  eapply (total_bind _ _ (λ _, True)).
  { eapply total_need; [|done]. replace n with (Z.of_nat (@length Z [] + length (content b))) by (cbn [length]; lia).
    apply (range_parts b [] _ []); [done|by rewrite app_nil_r]. }
  intros methods _. destruct (hasAuthMethod _ methods); [|by eapply total_refusal, total_write].
  eapply total_bind; [by apply total_write|]. intros _ _.
  destruct (decide (AuthType_ (config s) = AuthType_PASSWORD)) as [Ha|Ha]; [rewrite decide_True by done|rewrite decide_False by done; by apply total_ret].
  eapply total_bind; [apply total_ReadUsernamePassword|]. intros [name pass] _.
  destruct (HasAccount (config s) name pass) eqn:Eacc; [|by eapply total_refusal, total_write].
  eapply total_bind; [by apply total_write|]. intros _ _. apply total_ret. intros _. by exists pass.
Qed.

Lemma total_handshake5 s n : session_ok s → is_byte n → total (handshake5 wr array s n) (let_in (config s)).
Proof using All.
  intros Hs Hn. unfold handshake5. eapply total_bind; [by apply total_auth5|]. intros name Hname. cbv zeta.
  eapply total_bind; [by apply total_recv_new|]. intros b (Wb & Lb & Bb & _).
  apply (total_byte b 1); [done|done|lia|]. intros cmd _.
  destruct (request_command (config s) cmd) as [c|] eqn:Ec; [|eapply total_refusal, total_Socks5Response].
  eapply (total_bind _ _ (λ '(a, port), is_Some a ∧ is_uint 16 port)).
  { apply total_t_read. intros st Hst. destruct new_room as (W0 & _ & R0).
    eapply yields_mono; [apply (ReadAddressPort_total addrParser); [done|done|done|lia|done]|]. by intros [[a port] st'] (? & ? & ?). }
  intros [addr port] [Ha Hp]. destruct (Hs c) as [a Hans].
  eapply (total_bind _ _ (λ x, x = Some a)); [by eapply total_need|]. intros ? ->.
  eapply total_bind; [apply total_Socks5Response|]. intros _ _. apply total_ret. split; [done|done| |].
  - cbn. intros ->. unfold request_command in Ec. repeat case_decide; try done. by destruct (UdpEnabled (config s)).
  - cbn. intros Hpw. split; [done|]. destruct (Hname Hpw) as [pass Hpass]. by exists name, pass.
Qed.

Lemma total_handshake4 s cmd : total (handshake4 wr array s cmd) (let_in (config s)).
Proof using All.
  unfold handshake4. destruct (decide (AuthType_ (config s) = AuthType_PASSWORD)) as [Ha|Ha]; [eapply total_refusal, total_Socks4Response|].
  eapply total_bind; [by apply total_recv_new|]. intros b (Wb & Lb & Bb & _).
  destruct (content b) as [|p0 [|p1 [|i0 [|i1 [|i2 [|i3 []]]]]]] eqn:Cb; try (cbn in Lb; lia).
  eapply (total_bind _ _ (λ x, x = [p0; p1])); [eapply total_need; [|done]; by apply (range_parts b [] [p0; p1] [i0; i1; i2; i3])|].
  intros ? ->. eapply (total_bind _ _ (λ x, is_uint 16 x)).
  { eapply total_need; [done|]. rewrite !Forall_cons in Bb. destruct Bb as (Hp0 & Hp1 & _). unfold is_byte, is_uint in *. lia. }
  intros port Hport. eapply (total_bind _ _ (λ x, x = [i0; i1; i2; i3])).
  { eapply total_need; [|done]. by apply (range_parts b [p0; p1] [i0; i1; i2; i3] []). }
  intros ? ->. cbv zeta. eapply total_bind; [apply total_ReadUntilNull|]. intros _ _.
  assert (IPAddress [i0; i1; i2; i3] = Some (ipv4Address [i0; i1; i2; i3])) as -> by done.
  eapply (total_bind _ _ (λ x, x = ipv4Address [i0; i1; i2; i3])); [by eapply total_need|]. intros ? ->.
  eapply (total_bind _ _ (λ x, x = [i0; i1; i2; i3])); [by eapply total_need|]. intros ? ->.
  eapply (total_bind _ _ (λ _, True)); [by eapply total_need|]. intros first _.
  eapply (total_bind _ _ is_Some).
  { case_decide; [|apply total_ret; by eexists]. eapply total_bind; [apply total_ReadUntilNull|]. intros name _.
    destruct (ParseAddress_some name) as [x Ex]. eapply (total_bind _ _ (λ _, True)); [by eapply total_need|]. intros y _. apply total_ret. by eexists. }
  intros address Haddr. case_decide; [|eapply total_refusal, total_Socks4Response].
  eapply total_bind; [apply total_Socks4Response|]. intros _ _. apply total_ret. by split.
Qed.

Lemma total_Handshake s : session_ok s → total (Handshake wr array s) (let_in (config s)).
Proof using All.
  intros Hs. unfold Handshake. eapply total_bind; [by apply total_recv_new|]. intros b (Wb & Lb & Bb & _).
  apply (total_byte b 0); [done|done|lia|]. intros version _. apply (total_byte b 1); [done|done|lia|]. intros cmd Hcmd.
  case_decide; [apply total_handshake4|]. case_decide; [by apply total_handshake5|apply total_fail].
Qed.
End strangers.

(** ** Packets *)

Section packets.
Context (array : bytes) (Harray : length array = Size).
#[local] Notation new := (new_buffer array).

Lemma EncodeUDPPacket_spec a port d : endpoint_wire (TCPDestination a port) → 3 + Z.of_nat (length (target a port)) + Z.of_nat (length d) ≤ 8192 →
  ∃ b, EncodeUDPPacket array a port d = Ret b ∧ wf b ∧ content b = [0; 0; 0] ++ target a port ++ d.
Proof using Harray.
  intros Ha Hl. destruct (new_ok array Harray) as (W0 & C0 & R0). unfold EncodeUDPPacket.
  destruct (write_all_spec new [0; 0; 0] W0 ltac:(cbn [length]; lia)) as (b1 & -> & A1). pose proof (app_room _ _ _ A1) as R1.
  cbn [outcome_bind length] in *.
  destruct (write_address_spec addrParser addrParser_ok b1 _ Ha (app_wf _ _ _ A1)) as (b2 & E2 & A2); [unfold target in Hl; lia|].
  pose proof (app_room _ _ _ A2) as R2. cbn [dest_Address dest_Port TCPDestination] in E2. rewrite E2. cbn [outcome_bind]. unfold target in Hl.
  destruct (write_all_spec b2 d (app_wf _ _ _ A2)) as (b3 & -> & A3); [lia|]. exists b3. split; [done|]. split; [apply A3|].
  rewrite (app_content _ _ _ A3), (app_content _ _ _ A2), (app_content _ _ _ A1), C0. by rewrite <- app_assoc.
Qed.

Lemma read_up_to_spec b x rest : wf b → content b = x ++ rest → Z.of_nat (length (content b)) < 2 ^ 30 →
  wf (read_up_to b rest) ∧ content (read_up_to b rest) = rest.
Proof using All.
  intros Hb Hc Hl. unfold read_up_to. destruct rest as [|c rest]; [by apply Clear_spec|]. set (r := c :: rest) in *.
  pose proof (Len_content b Hb) as HL. rewrite Hc, length_app in HL, Hl.
  destruct (run_Advance b (length x) Hb ltac:(lia)) as (W & C). replace (Len b - Z.of_nat (length r)) with (Z.of_nat (length x)) by lia.
  split; [done|]. by rewrite C, Hc, drop_app_length.
Qed.

Lemma DecodeUDPPacket_spec packet x y a port d : wf packet → endpoint_wire (TCPDestination a port) →
  content packet = [x; y; 0] ++ target a port ++ d → Z.of_nat (length (content packet)) < 2 ^ 30 →
  ∃ b, DecodeUDPPacket array packet = Ret ({| r_Version := 5; r_Command := RequestCommandUDP; r_Address := a; r_Port := port; r_User := None |}, b) ∧
    wf b ∧ content b = d.
Proof using Harray.
  intros Hp Ha Hc Hl. destruct (address_bytes_spec _ addrParser_ok _ Ha) as (a' & _ & _ & _ & Hlt). fold (target a port) in Hlt.
  pose proof (Len_content packet Hp) as HL. rewrite Hc, !length_app in HL. cbn [length] in HL.
  unfold DecodeUDPPacket. rewrite decide_False by lia. 
  assert (Byte packet 2 = Some 0) as -> by (apply (Byte_content packet 2); [done|by rewrite Hc]). cbn [ret_or_panic].
  rewrite decide_False by (by intros []). destruct (run_Advance packet 3 Hp ltac:(lia)) as (W1 & C1). rewrite Hc in C1.
  change (Z.of_nat 3) with 3 in *. change (drop 3 ([x; y; 0] ++ ?l)) with l in C1. rewrite Bytes_content by done. cbn [ret_or_panic].
  destruct (new_ok array Harray) as (W0 & C0 & R0).
  destruct (read_endpoint addrParser addrParser_ok new (TCPDestination a port) {| chunks := [content (Advance packet 3)]; final := ErrEOF |} d)
    as (s' & E & Hs' & _); [done|done|lia|unfold contents; cbn; by rewrite C1, app_nil_r|].
  rewrite E. cbn [outcome_bind dest_Address dest_Port TCPDestination]. rewrite Hs'. eexists. split; [reflexivity|].
  apply (read_up_to_spec _ (target a port)); [done|done|]. rewrite C1. rewrite Hc, length_app in Hl. lia.
Qed.

(** A connection for packets: every write is one packet. *)
Class PacketWriter {W} (wr : Frame.Writer W) (sent : W → list bytes) : Prop :=
  packet_write : ∀ w p, ∃ w' n, @w_write W wr w p = (w', (n, None)) ∧ sent w' = sent w ++ [p].

Definition packet_dest (request : Request) (b : Buffer) : option Address * Z :=
  match UDP b with Some d => (dest_Address d, dest_Port d) | None => (r_Address request, r_Port request) end.

Definition packet_ok (request : Request) (b : Buffer) : Prop :=
  wf b ∧ endpoint_wire (TCPDestination (packet_dest request b).1 (packet_dest request b).2) ∧
  3 + Z.of_nat (length (target (packet_dest request b).1 (packet_dest request b).2)) + Z.of_nat (length (content b)) ≤ 8192.

(** What comes out of a packet that was written for [b]. *)
Definition packet_arrives (request : Request) (b : Buffer) (d : bytes) : Prop :=
  ∀ packet, wf packet → content packet = d → ∃ b', UDPReader_ReadMultiBuffer array packet = Ret [b'] ∧ wf b' ∧ content b' = content b ∧
    UDP b' = Some (UDPDestination (packet_dest request b).1 (packet_dest request b).2).

Lemma packets_arrive {W} (wr : Frame.Writer W) sent `{!PacketWriter wr sent} request mb w : Forall (packet_ok request) mb →
  ∃ w' ds, UDPWriter_WriteMultiBuffer array wr request mb w = Ret (w', false) ∧ sent w' = sent w ++ ds ∧
    Forall2 (packet_arrives request) mb ds.
Proof using Harray.
  revert w. induction mb as [|b mb IH]; intros w Hmb; [exists w, []; rewrite app_nil_r; by split_all|].
  apply Forall_cons in Hmb as [(Hb & Ha & Hl) Hmb]. cbn [UDPWriter_WriteMultiBuffer].
  assert ((match UDP b with Some d => (dest_Address d, dest_Port d) | None => (r_Address request, r_Port request) end) = packet_dest request b) as -> by done.
  destruct (packet_dest request b) as [a port] eqn:Ed. cbn [fst snd] in *. rewrite Bytes_content by done. cbn [ret_or_panic].
  destruct (EncodeUDPPacket_spec a port (content b) Ha Hl) as (p & -> & Wp & Cp). rewrite Bytes_content by done. cbn [ret_or_panic].
  destruct (packet_write w (content p)) as (w1 & n & -> & Hs1). destruct (IH w1 Hmb) as (w' & ds & -> & Hs & Hds).
  exists w', (content p :: ds). split; [done|]. split; [by rewrite Hs, Hs1, <- app_assoc|]. constructor; [|done].
  intros packet Hpk Hcp. rewrite Ed. cbn [fst snd].
  destruct (DecodeUDPPacket_spec packet 0 0 a port (content b) Hpk Ha) as (b' & E & W' & C').
  - by rewrite Hcp, Cp.
  - rewrite Hcp, Cp, !length_app. cbn [length]. lia.
  - unfold UDPReader_ReadMultiBuffer. rewrite E. eexists. split; [reflexivity|]. split; [by destruct W'|done].
Qed.
End packets.

(** ** The properties *)

(** C9. A client and a server that agree on the login finish the SOCKS 5 handshake with each
    other, over any chunking: each message is sent as soon as what it answers has come,
    so neither waits for ever; the server gets the request of the client under the name
    of its account, and the client where its packets go. *)
Theorem socks5_agree {W} (wr : Frame.Writer W) (taken : W → bytes) `{!@FullWriter W wr taken} (array array' : bytes)
    (s : ServerSession) (r : Request) (a : option Address) :
  length array = Size → length array' = Size → agreeable s r a →
  serves taken (Handshake wr array s) (socks5_conversation s r a) (λ q, q = accepted_request r) ∧
  asks taken (ClientHandshake wr array' r) (socks5_conversation s r a) (λ q, q = client_result s r a).
Proof. intros Ha Ha' Hag. split; [by apply serves_socks5|by apply asks_socks5]. Qed.


(** ** Concrete handshakes *)

Definition sample_config : ServerConfig :=
  {| AuthType_ := AuthType_PASSWORD; Accounts := Some {[ lit "me" := lit "pw" ]}; s_Address := None;
     UdpEnabled := true; s_Timeout := 0; s_UserLevel := 0 |}.

Definition sample_session : ServerSession :=
  {| config := sample_config; ss_address := Some (ipv4Address [127; 0; 0; 1]); ss_port := 1080;
     localAddress := Some (ipv4Address [10; 0; 0; 1]) |}.

Definition sample_request : Request :=
  {| r_Version := 5; r_Command := RequestCommandTCP; r_Address := Some (domainAddress (lit "a.org")); r_Port := 443;
     r_User := Some {| Account := Some {| Username := lit "me"; Password := lit "pw" |}; Email := []; Level := 0 |} |}.

Lemma sample_agreeable : agreeable sample_session sample_request (Some (ipv4Address [127; 0; 0; 1])).
Proof.
  split.
  - split; [done|]. eexists. split; [reflexivity|]. split; [by vm_compute|]. cbn. lia.
  - done.
  - split; [done|]. eexists. split; [reflexivity|]. split; [|done]. split; [repeat constructor; done|done].
  - intros _. eexists. split; [reflexivity|]. split; [|done].
    split; [done|]. split; [cbn; lia|]. split; [apply (bool_decide_unpack _); by vm_compute|by vm_compute].
Qed.

Lemma memory_honest : HonestWriter memory_writer.
Proof. intros w b. cbn. destruct b; [done|]. split; [lia|]. intros _ _. cbn [length]. lia. Qed.

Lemma socks5_agree_witness :
  let l := socks5_conversation sample_session sample_request (Some (ipv4Address [127; 0; 0; 1])) in
  l = [([5; 1; 2], [5; 2]); ([1; 2] ++ lit "me" ++ [2] ++ lit "pw", [1; 0]);
       ([5; 1; 0; 3; 5] ++ lit "a.org" ++ [1; 187], [5; 0; 0; 1; 127; 0; 0; 1; 4; 56])] ∧
  serves id (Handshake memory_writer pool_array sample_session) l (λ q, q = accepted_request sample_request) ∧
  asks id (ClientHandshake memory_writer pool_array sample_request) l (λ q, q = None).
Proof.
  cbn zeta. split; [by vm_compute|].
  apply (socks5_agree memory_writer id (H := memory_full) pool_array pool_array sample_session sample_request
    (Some (ipv4Address [127; 0; 0; 1])) pool_array_length pool_array_length sample_agreeable).
Defined.

Definition sample_arrival : stream := {| chunks := [[5; 1]; [2; 1; 2]; lit "me" ++ [2] ++ lit "pw"; [5; 1; 0; 3; 0; 1; 1]]; final := ErrEOF |}.


(** ** What the code does not do *)

(** The version of a request has no effect on what the client sends: an outbound that is
    configured for SOCKS 4 speaks SOCKS 5. *)
Lemma version_has_no_effect {W} (wr : Frame.Writer W) array r v :
  ClientHandshake wr array {| r_Version := v; r_Command := r_Command r; r_Address := r_Address r; r_Port := r_Port r; r_User := r_User r |} =
  ClientHandshake wr array r.
Proof. by destruct r. Qed.

(** A packet that does not fit into a buffer with its header is sent without its end. *)
Lemma long_packet_cut :
  ∃ b, EncodeUDPPacket pool_array (Some (ipv4Address [8; 8; 8; 8])) 53 (replicate 8190 7) = Ret b ∧
    Bytes b = Some ([0; 0; 0; 1; 8; 8; 8; 8; 0; 53] ++ replicate 8182 7).
Proof. eexists. split; [by vm_compute|]. by vm_compute. Qed.
