(* ===== verification/Fallback.v ===== *)
(** Fallbacks of the VLESS and Trojan servers (src/upstream/xray-core/proxy/vless/inbound/inbound.go,
    src/upstream/xray-core/proxy/trojan/server.go and the part of
    src/upstream/xray-core/infra/conf/vless.go that checks them): the tables, the choice
    by server name, ALPN and path, the PROXY header, and who is let in. *)
From stdpp Require Import gmap.
From S2P Require Import Prelude GoText NetIP NetIP6 GoConv Address Transport Frame Uuid FoloJson Buf AddressParser BufAppend MultiBuffer BufIO ChunkStream AddressTotal Validator Vless.

Record Fallback := {
  fb_Name : bytes; fb_Alpn : bytes; fb_Path : bytes;
  fb_Type : bytes; fb_Dest : bytes; fb_Xver : Z }.

(** ** The configuration *)

(** [VLessInboundConfig.Build] on one fallback, its destination a number or a text;
    [pads] is the length of the padded socket addresses of Linux and Android. *)
Definition dest_text (dest : Z + bytes) : bytes := match dest with inl i => Itoa i | inr s => s end.

Definition build_fallback (pads : option nat) (fb : Fallback) : option Fallback :=
  let with_dest ty dest :=
    {| fb_Name := fb_Name fb; fb_Alpn := fb_Alpn fb; fb_Path := fb_Path fb; fb_Type := ty; fb_Dest := dest; fb_Xver := fb_Xver fb |} in
  if decide (fb_Path fb ≠ [] ∧ head (fb_Path fb) ≠ Some 47) then None
  else
    let fb :=
      if decide (fb_Type fb = [] ∧ fb_Dest fb ≠ []) then
        if decide (fb_Dest fb = lit "serve-ws-none") then with_dest (lit "serve") (fb_Dest fb)
        else if HasPrefix (fb_Dest fb) [47] || bool_decide (head (fb_Dest fb) = Some 64) then
          with_dest (lit "unix")
            (match pads with
             | Some n =>
               if HasPrefix (fb_Dest fb) [64; 64]
               then let d := take n (drop 1 (fb_Dest fb)) in d ++ replicate (n - length d) 0
               else fb_Dest fb
             | None => fb_Dest fb
             end)
        else
          let dest := match Atoi (fb_Dest fb) with Some _ => lit "127.0.0.1:" ++ fb_Dest fb | None => fb_Dest fb end in
          with_dest (match SplitHostPort dest with Some _ => lit "tcp" | None => [] end) dest
      else fb in
    if decide (fb_Type fb = []) then None
    else if decide (2 < fb_Xver fb) then None
    else Some fb.

Fixpoint build_fallbacks (pads : option nat) (fbs : list Fallback) : option (list Fallback) :=
  match fbs with
  | [] => Some []
  | fb :: fbs => fb ← build_fallback pads fb; fbs ← build_fallbacks pads fbs; Some (fb :: fbs)
  end.

(** ** The tables *)

(** By name, ALPN and path. *)
Notation pfb := (gmap bytes Fallback).
Notation apfb := (gmap bytes pfb).
Notation napfb := (gmap bytes apfb).

(** The order in which a range statement meets the keys of a map. *)
Class MapOrder := {
  keys : ∀ {A}, gmap bytes A → list bytes;
  keys_NoDup : ∀ {A} (m : gmap bytes A), NoDup (keys m);
  elem_of_keys : ∀ {A} (m : gmap bytes A) k, k ∈ keys m ↔ is_Some (m !! k)
}.

Section tables.
Context `{MapOrder}.

Definition add_fallback (m : napfb) (fb : Fallback) : napfb :=
  let a : apfb := default ∅ (m !! fb_Name fb) in
  let p : pfb := default ∅ (a !! fb_Alpn fb) in
  <[fb_Name fb := <[fb_Alpn fb := <[fb_Path fb := fb]> p]> a]> m.

(** The second loop: every other name gets the ALPNs of the default one. *)
Definition add_alpns (d a : apfb) : apfb :=
  foldl (λ a alpn, match a !! alpn with None => <[alpn := ∅]> a | Some _ => a end) a (keys d).

Definition alpn_loop (m : napfb) : napfb :=
  match m !! [] with
  | None => m
  | Some d => foldl (λ m name, if decide (name = []) then m else alter (add_alpns d) name m) m (keys m)
  end.

(** The paths of [base] that [p] does not have. *)
Definition fill (base p : pfb) : pfb :=
  foldl (λ p path, match p !! path with
                   | Some _ => p
                   | None => match base !! path with Some fb => <[path := fb]> p | None => p end end) p (keys base).

(** The third loop: an ALPN gets the paths of the default one. *)
Definition fill_alpns (a : apfb) : apfb :=
  match a !! [] with
  | None => a
  | Some base => foldl (λ a alpn, if decide (alpn = []) then a else alter (fill base) alpn a) a (keys a)
  end.

Definition path_loop (m : napfb) : napfb := foldl (λ m name, alter fill_alpns name m) m (keys m).

(** The fourth loop: a name gets the paths of the default name; [None] is a write to a
    map that is nil. *)
Definition fill_alpn (d : apfb) (a : option apfb) (alpn : bytes) : option apfb :=
  a ← a;
  match d !! alpn with
  | None => Some a
  | Some base =>
    match a !! alpn with
    | Some p => Some (<[alpn := fill base p]> a)
    | None => if decide (base = ∅) then Some a else None
    end
  end.

Definition fill_name (d a : apfb) : option apfb := foldl (fill_alpn d) (Some a) (keys d).

Definition name_loop (m : napfb) : option napfb :=
  match m !! [] with
  | None => Some m
  | Some d =>
    foldl (λ m name,
      m ← m;
      if decide (name = []) then Some m
      else match m !! name with
           | None => Some m
           | Some a => a ← fill_name d a; Some (<[name := a]> m)
           end) (Some m) (keys m)
  end.

(** The tables of [New]; without a list of fallbacks there are none. *)
Definition New_fallbacks (fbs : option (list Fallback)) : option (option napfb) :=
  match fbs with
  | None => Some None
  | Some fbs => Some <$> name_loop (path_loop (alpn_loop (foldl add_fallback ∅ fbs)))
  end.

(** ** The choice *)

(** The longest name inside the name of the connection; the first of several in the
    order of the map. *)
Definition longest_name (m : napfb) (name : bytes) : bytes :=
  foldl (λ match_ n, if Contains name n && bool_decide (n ≠ [] ∧ length match_ < length n)%nat then n else match_) [] (keys m).

Definition pick_name (m : napfb) (name : bytes) : bytes :=
  let name := if decide ((1 < size m)%nat ∨ m !! [] = None)
              then if decide (name ≠ [] ∧ m !! name = None) then longest_name m name else name
              else name in
  if decide (m !! name = None) then [] else name.

(** The path of a request line: up to a question mark or a space, within the first 64
    bytes. *)
Fixpoint path_text (l acc : bytes) : option bytes :=
  match l with
  | [] => None
  | k :: l =>
    if decide (k = 13 ∨ k = 10) then None
    else if decide (k = 63 ∨ k = 32) then Some acc
    else path_text l (acc ++ [k])
  end.

Fixpoint find_path (ixs : list nat) (first : bytes) : option bytes :=
  match ixs with
  | [] => None
  | i :: ixs =>
    if decide (first !! i = Some 47 ∧ first !! (i - 1)%nat = Some 32)
    then path_text (drop (S i) (take 64 first)) [47] else find_path ixs first
  end.

Definition pick_path (p : pfb) (first : bytes) : bytes :=
  if decide ((1 < size p)%nat ∨ p !! [] = None) then
    if decide ((18 ≤ length first)%nat ∧ first !! 4%nat ≠ Some 42) then
      match find_path [4; 5; 6; 7; 8]%nat first with
      | Some path => if decide (p !! path = None) then [] else path
      | None => []
      end
    else []
  else [].

Inductive fallback_error := NoDefaultName | NoDefaultAlpn | NoDefaultPath.

(** The fallback of a connection with its server name, its ALPN and its first bytes. *)
Definition select_fallback `{UnicodeTables} (m : napfb) (name alpn first : bytes) : result fallback_error Fallback :=
  match m !! pick_name m (ToLower name) with
  | None => Err NoDefaultName
  | Some a =>
    let alpn := ToLower alpn in
    match a !! (if decide (a !! alpn = None) then [] else alpn) with
    | None => Err NoDefaultAlpn
    | Some p => match p !! pick_path p first with None => Err NoDefaultPath | Some fb => Ok fb end
    end
  end.
End tables.

(** ** The PROXY header *)

(** [strconv.ParseUint s 10 16] with its error ignored: the greatest number when the
    digits go above it, 0 at a character that is no digit. *)
Fixpoint port_digits (s : bytes) (n : Z) : Z :=
  match s with
  | [] => n
  | c :: s =>
    if is_digit c then
      let n := n * 10 + (c - 48) in if decide (65535 < n) then 65535 else port_digits s n
    else 0
  end.

Definition port_or_zero (s : bytes) : Z := port_digits s 0.

Definition signature : bytes := [13; 10; 13; 10; 0; 13; 10; 81; 85; 73; 84; 10].

(** An address in the form of a family; nil writes nothing. *)
Definition ip_or_nil (to : bytes → option bytes) (s : bytes) : bytes := default [] (ip ← ParseIP s; to ip).

(** The header for the texts of the two addresses of the connection. *)
Definition proxy_header (xver : Z) (remote local : bytes) : bytes :=
  let parts := match SplitHostPort remote, SplitHostPort local with Some r, Some l => Some (r, l) | _, _ => None end in
  if decide (xver = 0) then []
  else if decide (xver = 1) then
    match parts with
    | None => lit "PROXY UNKNOWN" ++ [13; 10]
    | Some ((ra, rp), (la, lp)) =>
      (if decide (58 ∈ ra) then lit "PROXY TCP6 " else lit "PROXY TCP4 ") ++
      ra ++ [32] ++ la ++ [32] ++ rp ++ [32] ++ lp ++ [13; 10]
    end
  else if decide (xver = 2) then
    signature ++
    match parts with
    | None => [0x20; 0; 0; 0]
    | Some ((ra, rp), (la, lp)) =>
      (if decide (58 ∈ ra)
       then [0x21; 0x21; 0; 0x24] ++ ip_or_nil To16 ra ++ ip_or_nil To16 la
       else [0x21; 0x11; 0; 0x0c] ++ ip_or_nil To4 ra ++ ip_or_nil To4 la) ++
      be_bytes 2 (port_or_zero rp) ++ be_bytes 2 (port_or_zero lp)
    end
  else [].

(** ** Who is let in *)

Section front.
Context `{MapOrder} `{UnicodeTables}.

(** The beginning of [Process]: a request, a fallback with the header that goes before
    the first bytes, or an error. *)
Inductive front (R : Type) :=
| Accepted (request : R)
| ToFallback (fb : Fallback) (header : bytes)
| NoFallback (e : fallback_error)
| Refused.

(** The connection: the server name and the ALPN of its TLS, empty without it, and the
    texts of its two addresses. *)
Record connection := { c_name : bytes; c_alpn : bytes; c_remote : bytes; c_local : bytes }.

Definition fall_back {R : Type} (m : napfb) (c : connection) (first : bytes) : front R :=
  match select_fallback m (c_name c) (c_alpn c) first with
  | Err e => NoFallback R e
  | Ok fb => ToFallback R fb (proxy_header (fb_Xver fb) (c_remote c) (c_local c))
  end.

Context `{AddonsCodec} (array : bytes).

(** The VLESS server; [first] holds the first read of the connection. *)
Definition vless_front (fallbacks : option napfb) (c : connection) (first : Buffer) (reader : Buffer → stream)
    (validator : Validator vless_account) : outcome (front (RequestHeader * Addons * stream)) :=
  ret_or_panic (Bytes first) (λ bytes,
  match fallbacks with
  | Some m =>
    if decide (length bytes < 18)%nat then Ret (fall_back m c bytes)
    else
      let? d := DecodeRequestHeader array true first reader validator in
      match d with
      | Decoded request addons rest => Ret (Accepted _ (request, addons, rest))
      | Rejected true => Ret (fall_back m c bytes)
      | Rejected false => Ret (Refused _)
      end
  | None =>
    let? d := DecodeRequestHeader array false first reader validator in
    match d with
    | Decoded request addons rest => Ret (Accepted _ (request, addons, rest))
    | Rejected _ => Ret (Refused _)
    end
  end).

(** [hexString] *)
Definition hexString (data : bytes) : bytes := hex_EncodeToString data.

(** The Trojan server: the key is 56 bytes before a line break. *)
Definition trojan_front {A : Type} (fallbacks : option napfb) (c : connection) (first : Buffer) (validator : Validator A) :
    outcome (front (MemoryUser A)) :=
  ret_or_panic (Bytes first) (λ bytes,
  let refused := match fallbacks with Some m => Ret (fall_back m c bytes) | None => Ret (Refused _) end in
  if decide (length bytes < 58)%nat then refused
  else
    ret_or_panic (Byte first 56) (λ sep,
    if decide (sep ≠ 13) then refused
    else
      ret_or_panic (BytesTo first 56) (λ key,
      match Get validator (hexString key) with
      | None => refused
      | Some user => Ret (Accepted _ user)
      end))).

(** The check of the flow of an accepted VLESS request; [tls13] says what the connection
    is: TLS with its version being 1.3, REALITY, or neither. *)
Inductive outer_conn := Outer_tls (tls13 : bool) | Outer_reality | Outer_other.

Definition isMuxAndNotXUDP (request : RequestHeader) (first : bytes) : bool :=
  if decide (Command request ≠ RequestCommandMux) then false
  else if decide (length first < 7)%nat then true
  else negb (bool_decide (first !! 2%nat = Some 0 ∧ first !! 3%nat = Some 0 ∧ first !! 6%nat = Some 2)).

Definition flow_allowed (account : vless_account) (request : RequestHeader) (flow first : bytes) (outer : outer_conn) : bool :=
  if decide (flow = XRV) then
    if decide (account_Flow account = flow) then
      if decide (Command request = RequestCommandUDP) then false
      else if decide (Command request = RequestCommandMux ∨ Command request = RequestCommandTCP) then
        match outer with Outer_tls tls13 => tls13 | Outer_reality => true | Outer_other => false end
      else true
    else false
  else if decide (flow = []) then
    negb (bool_decide (account_Flow account = XRV) &&
          (bool_decide (Command request = RequestCommandTCP) || isMuxAndNotXUDP request first))
  else false.
End front.

(** ** What the tables hold *)

Definition get2 (m : napfb) (n a : bytes) : option pfb := x ← m !! n; x !! a.
Definition get3 (m : napfb) (n a p : bytes) : option Fallback := x ← get2 m n a; x !! p.

(** The last fallback that was configured for exactly these. *)
Definition own (fbs : list Fallback) (n a p : bytes) : option Fallback :=
  last (filter (λ fb, fb_Name fb = n ∧ fb_Alpn fb = a ∧ fb_Path fb = p) fbs).

Definition has_name (fbs : list Fallback) (n : bytes) : Prop := Exists (λ fb, fb_Name fb = n) fbs.
Definition has_alpn (fbs : list Fallback) (n a : bytes) : Prop := Exists (λ fb, fb_Name fb = n ∧ fb_Alpn fb = a) fbs.

(** An ALPN is known for a name when it was configured for it, or for no name. *)
Definition known (fbs : list Fallback) (n a : bytes) : Prop :=
  has_name fbs n ∧ (has_alpn fbs n a ∨ n ≠ [] ∧ has_alpn fbs [] a).

#[global] Instance known_dec fbs n a : Decision (known fbs n a).
Proof. unfold known, has_name, has_alpn. apply _. Defined.

(** The fallback of a name, an ALPN and a path: its own one; one of the name for every
    ALPN; and, for an ALPN that is configured without a name, one of those. *)
Definition inherited (fbs : list Fallback) (n a p : bytes) : option Fallback :=
  if decide (known fbs n a) then
    match own fbs n a p, own fbs n [] p with
    | Some fb, _ | None, Some fb => Some fb
    | None, None =>
      if decide (n ≠ [] ∧ has_alpn fbs [] a) then
        match own fbs [] a p with Some fb => Some fb | None => own fbs [] [] p end
      else None
    end
  else None.

Section tables_spec.
Context `{MapOrder}.

Lemma foldl_alter {A} (f : A → A) (P : bytes → Prop) `{!∀ k, Decision (P k)} (ks : list bytes) (m : gmap bytes A) k : NoDup ks →
  foldl (λ m k, if decide (P k) then m else alter f k m) m ks !! k =
  if decide (k ∈ ks ∧ ¬ P k) then f <$> m !! k else m !! k.
Proof.
  revert m. induction ks as [|x ks IH]; intros m Hnd; cbn [foldl]; [by rewrite decide_False by (intros [Hin _]; by apply not_elem_of_nil in Hin)|].
  apply NoDup_cons in Hnd as [Hx Hnd]. rewrite IH by done.
  destruct (decide (k = x)) as [->|Hne].
  - rewrite (decide_False (P := x ∈ ks ∧ _)) by tauto. destruct (decide (P x)) as [HP|HP].
    + rewrite decide_False by tauto. done.
    + rewrite decide_True by (split; [by left|done]). by rewrite lookup_alter_eq.
  - assert ((if decide (P x) then m else alter f x m) !! k = m !! k) as -> by (destruct (decide (P x)); [done|by rewrite lookup_alter_ne]).
    destruct (decide (k ∈ ks ∧ ¬ P k)) as [Hin|Hin]; destruct (decide (k ∈ x :: ks ∧ ¬ P k)) as [Hin'|Hin']; try done.
    + destruct Hin'. destruct Hin. split; [by right|done].
    + destruct Hin. destruct Hin' as [Hin' ?]. split; [|done]. by apply elem_of_cons in Hin' as [?|?].
Qed.

Lemma fill_lookup base p k : fill base p !! k = match p !! k with Some fb => Some fb | None => base !! k end.
Proof.
  unfold fill. enough (∀ (ks : list bytes) (p' : pfb), foldl (λ (p : pfb) (path : bytes), match p !! path with
      | Some _ => p
      | None => match base !! path with Some fb => <[path := fb]> p | None => p end end) p' ks !! k =
      match p' !! k with Some fb => Some fb | None => if decide (k ∈ ks) then base !! k else None end) as Hks.
  { rewrite Hks. destruct (p !! k); [done|]. destruct (decide (k ∈ keys base)) as [Hk|Hk]; [done|].
    destruct (base !! k) eqn:E; [|done]. destruct Hk. apply elem_of_keys. by eexists. }
  induction ks as [|x ks IH]; intros p'; cbn [foldl].
  - destruct (p' !! k); [done|]. by rewrite decide_False by apply not_elem_of_nil.
  - rewrite IH. destruct (decide (k = x)) as [->|Hne].
    + destruct (p' !! x) as [y|] eqn:Ex; [by rewrite Ex|]. destruct (base !! x) as [y|] eqn:Eb.
      * rewrite lookup_insert_eq. by rewrite decide_True by left.
      * rewrite Ex. by repeat case_decide.
    + assert ((match p' !! x with Some _ => p' | None => match base !! x with Some fb => <[x:=fb]> p' | None => p' end end) !! k = p' !! k) as ->.
      { destruct (p' !! x); [done|]. destruct (base !! x); [|done]. by rewrite lookup_insert_ne. }
      destruct (p' !! k); [done|]. destruct (decide (k ∈ ks)) as [Hk|Hk].
      * by rewrite decide_True by (by right).
      * rewrite decide_False; [done|]. by intros [?|?]%elem_of_cons.
Qed.

Lemma add_alpns_lookup d a k : add_alpns d a !! k =
  match a !! k with Some p => Some p | None => if decide (is_Some (d !! k)) then Some ∅ else None end.
Proof.
  unfold add_alpns. enough (∀ (ks : list bytes) (a' : apfb), foldl (λ (a : apfb) (alpn : bytes), match a !! alpn with None => <[alpn := ∅]> a | Some _ => a end) a' ks !! k =
      match a' !! k with Some p => Some p | None => if decide (k ∈ ks) then Some (∅ : pfb) else None end) as Hks.
  { rewrite Hks. destruct (a !! k); [done|]. repeat case_decide; try done; by rewrite elem_of_keys in *. }
  induction ks as [|x ks IH]; intros a'; cbn [foldl].
  - destruct (a' !! k); [done|]. by rewrite decide_False by apply not_elem_of_nil.
  - rewrite IH. destruct (decide (k = x)) as [->|Hne].
    + destruct (a' !! x) as [y|] eqn:Ex; [by rewrite Ex|]. rewrite lookup_insert_eq. by rewrite decide_True by left.
    + assert ((match a' !! x with None => <[x:=∅]> a' | Some _ => a' end) !! k = a' !! k) as ->
        by (destruct (a' !! x); [done|]; by rewrite lookup_insert_ne).
      destruct (a' !! k); [done|]. destruct (decide (k ∈ ks)) as [Hk|Hk].
      * by rewrite decide_True by (by right).
      * rewrite decide_False; [done|]. by intros [?|?]%elem_of_cons.
Qed.

Lemma alpn_loop_lookup m n : alpn_loop m !! n =
  match m !! [] with Some d => if decide (n = []) then m !! n else add_alpns d <$> m !! n | None => m !! n end.
Proof.
  unfold alpn_loop. destruct (m !! []) as [d|]; [|done]. rewrite (foldl_alter (add_alpns d) (λ n, n = [])) by apply keys_NoDup.
  destruct (decide (n = [])) as [->|Hn]; [by rewrite decide_False by tauto|]. case_decide as Hin; [done|].
  destruct (m !! n) eqn:E; [|done]. destruct Hin. split; [|done]. apply elem_of_keys. by eexists.
Qed.

Lemma fill_alpns_lookup a k : fill_alpns a !! k =
  match a !! [] with Some base => if decide (k = []) then a !! k else fill base <$> a !! k | None => a !! k end.
Proof.
  unfold fill_alpns. destruct (a !! []) as [base|]; [|done]. rewrite (foldl_alter (fill base) (λ n, n = [])) by apply keys_NoDup.
  destruct (decide (k = [])) as [->|Hn]; [by rewrite decide_False by tauto|]. case_decide as Hin; [done|].
  destruct (a !! k) eqn:E; [|done]. destruct Hin. split; [|done]. apply elem_of_keys. by eexists.
Qed.

Lemma path_loop_lookup m n : path_loop m !! n = fill_alpns <$> m !! n.
Proof.
  unfold path_loop. pose proof (foldl_alter fill_alpns (λ _, False) (keys m) m n (keys_NoDup m)) as Hf.
  assert (∀ (ks : list bytes) (m' : napfb), foldl (λ (m : napfb) (k : bytes), if decide False then m else alter fill_alpns k m) m' ks = foldl (λ m name, alter fill_alpns name m) m' ks) as Hd.
  { induction ks as [|x ks IH]; intros m'; [done|]. cbn [foldl]. apply IH. }
  cbn beta in Hf. rewrite Hd in Hf. rewrite Hf. destruct (decide (n ∈ keys m ∧ ¬ False)) as [Hin|Hin]; [done|].
  destruct (m !! n) eqn:E; [|done]. destruct Hin. split; [|tauto].
  apply elem_of_keys. by eexists.
Qed.

Lemma fill_name_lookup d a : (∀ k, is_Some (d !! k) → is_Some (a !! k)) →
  ∃ a', fill_name d a = Some a' ∧
    ∀ k, a' !! k = match d !! k with Some base => fill base <$> a !! k | None => a !! k end.
Proof.
  intros Ha. unfold fill_name.
  enough (∀ (ks : list bytes) (b : apfb), NoDup ks → (∀ k, is_Some (d !! k) → is_Some (b !! k)) →
    ∃ a', foldl (fill_alpn d) (Some b) ks = Some a' ∧
      ∀ k, a' !! k = match d !! k with Some base => if decide (k ∈ ks) then fill base <$> b !! k else b !! k | None => b !! k end) as Hks.
  { destruct (Hks (keys d) a (keys_NoDup d) Ha) as (a' & E & Ha'). exists a'. split; [done|]. intros k. rewrite Ha'.
    destruct (d !! k) eqn:Ed; [|done]. rewrite decide_True; [done|]. apply elem_of_keys. by eexists. }
  induction ks as [|x ks IH]; intros b Hnd Hb.
  - exists b. split; [done|]. intros k. destruct (d !! k); [|done]. by rewrite decide_False by apply not_elem_of_nil.
  - apply NoDup_cons in Hnd as [Hx Hnd]. cbn [foldl fill_alpn mbind option_bind]. destruct (d !! x) as [base|] eqn:Ed.
    + destruct (Hb x) as [p Ep]; [by eexists|]. rewrite Ep.
      destruct (IH (<[x := fill base p]> b) Hnd) as (a' & E & Ha').
      { intros k Hk. destruct (decide (k = x)) as [->|Hne]; [rewrite lookup_insert_eq; by eexists|rewrite lookup_insert_ne by done; by apply Hb]. }
      exists a'. split; [exact E|]. intros k. rewrite Ha'. destruct (decide (k = x)) as [->|Hne].
      * rewrite Ed. rewrite decide_False by done. rewrite decide_True by left. by rewrite lookup_insert_eq, Ep.
      * rewrite lookup_insert_ne by done. destruct (d !! k); [|done].
        destruct (decide (k ∈ ks)) as [Hk|Hk]; [by rewrite decide_True by (by right)|].
        rewrite decide_False; [done|]. by intros [?|?]%elem_of_cons.
    + destruct (IH b Hnd Hb) as (a' & E & Ha'). exists a'. split; [exact E|]. intros k. rewrite Ha'.
      destruct (d !! k) eqn:Ek; [|done]. destruct (decide (k ∈ ks)) as [Hk|Hk]; [by rewrite decide_True by (by right)|].
      rewrite decide_False; [done|]. intros [->|?]%elem_of_cons; congruence.
Qed.

Lemma name_loop_lookup m : (∀ d n a k, m !! [] = Some d → m !! n = Some a → is_Some (d !! k) → is_Some (a !! k)) →
  ∃ m', name_loop m = Some m' ∧ ∀ n,
    match m !! [], m !! n with
    | Some d, Some a =>
      if decide (n = []) then m' !! n = Some a
      else ∃ a', m' !! n = Some a' ∧ ∀ k, a' !! k = match d !! k with Some base => fill base <$> a !! k | None => a !! k end
    | _, _ => m' !! n = m !! n
    end.
Proof.
  intros Hm. unfold name_loop. destruct (m !! []) as [d|] eqn:Ed; [|by exists m].
  set (step := λ (o : option napfb) (name : bytes), m ← o; if decide (name = []) then Some m
         else match m !! name with None => Some m | Some a => a ← fill_name d a; Some (<[name := a]> m) end).
  enough (∀ (ks : list bytes) (m0 : napfb), NoDup ks → (∀ n a k, m0 !! n = Some a → is_Some (d !! k) → is_Some (a !! k)) →
    ∃ m', foldl step (Some m0) ks = Some m' ∧ ∀ n,
      match m0 !! n with
      | Some a =>
        if decide (n = [] ∨ n ∉ ks) then m' !! n = Some a
        else ∃ a', m' !! n = Some a' ∧ ∀ k, a' !! k = match d !! k with Some base => fill base <$> a !! k | None => a !! k end
      | None => m' !! n = None
      end) as Hks.
  { destruct (Hks (keys m) m (keys_NoDup m)) as (m' & E & Hm'); [intros n a k; by apply Hm|]. exists m'. split; [exact E|].
    intros n. specialize (Hm' n). destruct (m !! n) as [a|] eqn:En; [|done]. destruct (decide (n = [])) as [->|Hn].
    - by rewrite decide_True in Hm' by tauto.
    - rewrite decide_False in Hm'; [done|]. intros [?|Hin]; [done|]. destruct Hin. apply elem_of_keys. by eexists. }
  induction ks as [|x ks IH]; intros m0 Hnd Hok.
  - exists m0. split; [done|]. intros n. destruct (m0 !! n) eqn:En; [|done]. rewrite decide_True; [done|]. right. apply not_elem_of_nil.
  - apply NoDup_cons in Hnd as [Hx Hnd]. cbn [foldl]. unfold step at 2. cbn [mbind option_bind].
    destruct (decide (x = [])) as [->|Hne].
    + destruct (IH m0 Hnd Hok) as (m' & E & Hm'). exists m'. split; [exact E|]. intros n. specialize (Hm' n).
      destruct (m0 !! n) as [a|]; [|done]. destruct (decide (n = [])) as [->|Hn]; [by rewrite decide_True in * by tauto|].
      destruct (decide (n ∈ ks)) as [Hin|Hin].
      * rewrite decide_False in Hm' by tauto. rewrite decide_False; [done|]. intros [?|Hin']; [done|]. destruct Hin'. by right.
      * rewrite decide_True in Hm' by tauto. rewrite decide_True; [done|]. right. by intros [?|?]%elem_of_cons.
    + destruct (m0 !! x) as [a|] eqn:Ex.
      * destruct (fill_name_lookup d a) as (a' & -> & Ha'); [intros k; by apply (Hok x)|]. cbn [mbind option_bind].
        destruct (IH (<[x := a']> m0) Hnd) as (m' & E & Hm').
        { intros n b k. destruct (decide (n = x)) as [->|Hnx].
          - rewrite lookup_insert_eq. intros [= <-] Hk. rewrite Ha'. pose proof Hk as [base ->].
            destruct (Hok x a k Ex Hk) as [p ->]. by eexists.
          - rewrite lookup_insert_ne by done. apply Hok. }
        exists m'. split; [exact E|]. intros n. specialize (Hm' n). destruct (decide (n = x)) as [->|Hnx].
        { rewrite lookup_insert_eq in Hm'. rewrite decide_True in Hm' by tauto. rewrite Ex.
          rewrite decide_False; [by exists a'|]. intros [?|Hin]; [done|]. destruct Hin. by left. }
        rewrite lookup_insert_ne in Hm' by done. destruct (m0 !! n) as [b|]; [|done].
        destruct (decide (n = [] ∨ n ∉ ks)) as [Hin|Hin].
        { rewrite decide_True; [done|]. destruct Hin as [?|Hin]; [by left|]. right. by intros [?|?]%elem_of_cons. }
        rewrite decide_False; [done|]. intros [?|Hin']; [tauto|]. apply Hin. right. intros Hk. apply Hin'. by right.
      * destruct (IH m0 Hnd Hok) as (m' & E & Hm'). exists m'. split; [exact E|]. intros n. specialize (Hm' n).
        destruct (m0 !! n) as [b|] eqn:En; [|done]. destruct (decide (n = [] ∨ n ∉ ks)) as [Hin|Hin].
        { rewrite decide_True; [done|]. destruct Hin as [?|Hin]; [by left|]. right. intros [->|?]%elem_of_cons; congruence. }
        rewrite decide_False; [done|]. intros [?|Hin']; [tauto|]. apply Hin. right. intros Hk. apply Hin'. by right.
Qed.

(** The first loop. *)
Lemma add_fallback_lookup m fb n :
  add_fallback m fb !! n =
  if decide (fb_Name fb = n) then
    Some (<[fb_Alpn fb := <[fb_Path fb := fb]> (default ∅ (get2 m n (fb_Alpn fb)))]> (default ∅ (m !! n)))
  else m !! n.
Proof.
  unfold add_fallback, get2. destruct (decide (fb_Name fb = n)) as [<-|Hn]; [|by rewrite lookup_insert_ne].
  rewrite lookup_insert_eq. do 3 f_equal. destruct (m !! fb_Name fb); [done|]. cbn. by rewrite lookup_empty.
Qed.

Lemma own_snoc fbs fb n a p : own (fbs ++ [fb]) n a p =
  if decide (fb_Name fb = n ∧ fb_Alpn fb = a ∧ fb_Path fb = p) then Some fb else own fbs n a p.
Proof.
  unfold own. rewrite filter_app. case_decide as Hd.
  - by rewrite filter_cons_True, filter_nil, last_snoc.
  - by rewrite filter_cons_False, filter_nil, app_nil_r.
Qed.

Lemma first_loop fbs :
  (∀ n, is_Some (foldl add_fallback ∅ fbs !! n) ↔ has_name fbs n) ∧
  (∀ n a, is_Some (get2 (foldl add_fallback ∅ fbs) n a) ↔ has_alpn fbs n a) ∧
  (∀ n a p, get3 (foldl add_fallback ∅ fbs) n a p = own fbs n a p).
Proof.
  induction fbs as [|fb fbs (IH1 & IH2 & IH3)] using rev_ind.
  - unfold has_name, has_alpn, get3, get2. cbn [foldl]. split_all; intros; rewrite lookup_empty; cbn; rewrite ?Exists_nil; [..|done].
    all: by split; [intros [? ?]|].
  - rewrite foldl_snoc. set (m := foldl add_fallback ∅ fbs) in *. unfold has_name, has_alpn in *.
    assert (∀ n a, get2 (add_fallback m fb) n a =
      if decide (fb_Name fb = n ∧ fb_Alpn fb = a) then Some (<[fb_Path fb := fb]> (default ∅ (get2 m n a))) else get2 m n a) as H2.
    { intros n a. unfold get2 at 1. rewrite add_fallback_lookup. destruct (decide (fb_Name fb = n)) as [<-|Hn].
      - cbn [mbind option_bind]. destruct (decide (fb_Alpn fb = a)) as [<-|Ha].
        + rewrite decide_True by done. by rewrite lookup_insert_eq.
        + rewrite decide_False by tauto. rewrite lookup_insert_ne by done. unfold get2. destruct (m !! fb_Name fb); [done|]. cbn. by rewrite lookup_empty.
      - by rewrite decide_False by tauto. }
    split_all.
    + intros n. rewrite add_fallback_lookup, Exists_app, Exists_cons, Exists_nil, <- IH1.
      destruct (decide (fb_Name fb = n)); [split; [tauto|by eexists]|]. tauto.
    + intros n a. rewrite H2, Exists_app, Exists_cons, Exists_nil, <- IH2.
      destruct (decide (fb_Name fb = n ∧ fb_Alpn fb = a)); [split; [tauto|by eexists]|]. tauto.
    + intros n a p. rewrite own_snoc, <- IH3. unfold get3. rewrite H2.
      destruct (decide (fb_Name fb = n ∧ fb_Alpn fb = a)) as [[Hn Ha]|Hna].
      * cbn [mbind option_bind]. destruct (decide (fb_Path fb = p)) as [<-|Hp].
        -- rewrite decide_True by done. by rewrite lookup_insert_eq.
        -- rewrite decide_False by tauto. rewrite lookup_insert_ne by done. destruct (get2 m n a); [done|]. cbn. by rewrite lookup_empty.
      * by rewrite decide_False by tauto.
Qed.

(** The second and the third loop on a name and an ALPN. *)
Lemma after_path_loop m n a : let m3 := path_loop (alpn_loop m) in
  (is_Some (m3 !! n) ↔ is_Some (m !! n)) ∧
  (is_Some (get2 m3 n a) ↔ is_Some (m !! n) ∧ (is_Some (get2 m n a) ∨ n ≠ [] ∧ is_Some (get2 m [] a))) ∧
  ∀ p, get3 m3 n a p = if decide (is_Some (get2 m3 n a)) then
    match get3 m n a p with Some fb => Some fb | None => get3 m n [] p end else None.
Proof.
  cbn zeta. set (m2 := alpn_loop m).
  assert (∀ a, get2 m2 n a = match get2 m n a with
    | Some p => Some p
    | None => if decide (is_Some (m !! n) ∧ n ≠ [] ∧ is_Some (get2 m [] a)) then Some ∅ else None end) as H2.
  { intros a'. unfold get2, m2. rewrite alpn_loop_lookup. destruct (m !! []) as [d|] eqn:Ed.
    - destruct (decide (n = [])) as [->|Hn].
      + rewrite Ed. cbn. destruct (d !! a') eqn:Ea; [done|]. by rewrite decide_False by (intros (_ & Hx & _); by apply Hx).
      + destruct (m !! n) as [x|] eqn:En; cbn; [|by rewrite decide_False by (by intros ([? [=]] & _))]. rewrite add_alpns_lookup.
        destruct (x !! a'); [done|]. destruct (decide (is_Some (d !! a'))) as [Hd|Hd];
          [by rewrite decide_True by (split_all; [by eexists|done|done])|by rewrite decide_False by tauto].
    - cbn. destruct (m !! n) as [x|] eqn:En; cbn; [|by rewrite decide_False by (by intros ([? [=]] & _))].
      destruct (x !! a') eqn:Ea; [done|]. by rewrite decide_False by (by intros (_ & _ & [? [=]])). }
  assert (∀ n, is_Some (m2 !! n) ↔ is_Some (m !! n)) as H1.
  { intros n'. unfold m2. rewrite alpn_loop_lookup. destruct (m !! []); [|done]. destruct (decide (n' = [])); [done|]. by rewrite fmap_is_Some. }
  assert (get2 (path_loop m2) n a = match get2 m2 n [] with
    | Some base => if decide (a = []) then get2 m2 n a else fill base <$> get2 m2 n a | None => get2 m2 n a end) as H3.
  { unfold get2. rewrite path_loop_lookup. destruct (m2 !! n) as [x|]; [|done]. cbn. by rewrite fill_alpns_lookup. }
  assert (is_Some (get2 (path_loop m2) n a) ↔ is_Some (get2 m2 n a)) as H4.
  { rewrite H3. destruct (get2 m2 n []); [|done]. destruct (decide (a = [])); [done|]. by rewrite fmap_is_Some. }
  split_all.
  - rewrite path_loop_lookup, fmap_is_Some. apply H1.
  - rewrite H4, H2. destruct (get2 m n a) eqn:E.
    + split; [|by eexists]. intros _. split; [|left; by eexists]. unfold get2 in E. destruct (m !! n); [by eexists|done].
    + destruct (decide (is_Some (m !! n) ∧ n ≠ [] ∧ is_Some (get2 m [] a))) as [(Hd1 & Hd2 & Hd3)|Hd].
      * split; [|by eexists]. intros _. split; [done|]. by right.
      * split; [by intros [? ?]|]. intros (Hs & [[? ?]|[? ?]]); [done|]. by destruct Hd.
  - intros p. unfold get3 at 1. destruct (decide (is_Some (get2 (path_loop m2) n a))) as [Hs|Hs];
      [|destruct (get2 (path_loop m2) n a); [by destruct Hs; eexists|done]].
    apply H4 in Hs. rewrite H3. unfold get3.
    assert (∀ a, get2 m2 n a ≫= (λ x, x !! p) = get2 m n a ≫= (λ x, x !! p)) as Hown.
    { intros a'. rewrite H2. destruct (get2 m n a'); [done|].
      destruct (decide (is_Some (m !! n) ∧ n ≠ [] ∧ is_Some (get2 m [] a'))); [|done]. cbn. by rewrite lookup_empty. }
    rewrite <- !Hown. destruct Hs as [x Hx]. destruct (get2 m2 n []) as [base|] eqn:Eb.
    + destruct (decide (a = [])) as [->|Ha]; [rewrite Eb; cbn; by destruct (base !! p)|]. rewrite Hx. cbn. by rewrite fill_lookup.
    + rewrite Hx. cbn. by destruct (x !! p).
Qed.

(** The tables of [New]: an ALPN is in the table of a name exactly when it is known, and
    each entry is the inherited fallback, in whatever order the maps are gone through. *)
Lemma tables_spec fbs : ∃ m, New_fallbacks (Some fbs) = Some (Some m) ∧
  (∀ n, is_Some (m !! n) ↔ has_name fbs n) ∧
  (∀ n a, is_Some (get2 m n a) ↔ known fbs n a) ∧
  ∀ n a p, get3 m n a p = inherited fbs n a p.
Proof.
  unfold New_fallbacks. destruct (first_loop fbs) as (B1 & B2 & B3). set (m0 := foldl add_fallback ∅ fbs) in *.
  set (m3 := path_loop (alpn_loop m0)).
  assert (∀ n a, is_Some (get2 m3 n a) ↔ known fbs n a) as K2.
  { intros n a. destruct (after_path_loop m0 n a) as (_ & E & _). etransitivity; [exact E|]. by rewrite B1, !B2. }
  assert (∀ n, is_Some (m3 !! n) ↔ has_name fbs n) as K1 by (intros n; destruct (after_path_loop m0 n []) as (E & _); etransitivity; [exact E|apply B1]).
  assert (∀ n a p, get3 m3 n a p = if decide (known fbs n a) then
    match own fbs n a p with Some fb => Some fb | None => own fbs n [] p end else None) as K3.
  { intros n a p. destruct (after_path_loop m0 n a) as (_ & _ & E). etransitivity; [apply E|]. rewrite !B3. fold m3.
    destruct (decide (known fbs n a)) as [Hk|Hk]; [rewrite decide_True by (by apply K2)|rewrite decide_False by (by rewrite K2)]; done. }
  destruct (name_loop_lookup m3) as (m & -> & Hm).
  { intros d n a k Hd Hn [p Hp]. assert (known fbs [] k) as (Hnil & [Hk|[? _]]); [|clear Hd|done].
    - apply K2. unfold get2. rewrite Hd. by exists p.
    - assert (known fbs n k) as Hkn; [|apply K2 in Hkn; unfold get2 in Hkn; by rewrite Hn in Hkn].
      split; [apply K1; rewrite Hn; by eexists|]. destruct (decide (n = [])) as [->|Hne]; [by left|by right]. }
  exists m. split; [done|].
  assert (∀ a, is_Some (get2 m3 [] a) ↔ has_alpn fbs [] a) as K0.
  { intros a. rewrite K2. unfold known, has_name, has_alpn. split; [by intros (_ & [?|[? _]])|].
    intros Ha. split; [|by left]. eapply Exists_impl; [exact Ha|]. by intros ? []. }
  assert (∀ n, is_Some (m !! n) ↔ is_Some (m3 !! n)) as L1.
  { intros n. specialize (Hm n). destruct (m3 !! []) as [d|]; [|by rewrite Hm]. destruct (m3 !! n) as [a|]; [|by rewrite Hm].
    destruct (decide (n = [])); [rewrite Hm; done|]. destruct Hm as (a' & -> & _). split; by eexists. }
  assert (∀ n a, get2 m n a = if decide (n ≠ [] ∧ is_Some (get2 m3 [] a)) then
    fill (default ∅ (get2 m3 [] a)) <$> get2 m3 n a else get2 m3 n a) as L2.
  { intros n a. specialize (Hm n). unfold get2. destruct (m3 !! []) as [d|] eqn:Ed; [|rewrite Hm; by rewrite decide_False by (by intros [_ [? [=]]])].
    destruct (m3 !! n) as [x|] eqn:En; [|rewrite Hm; cbn [mbind option_bind fmap option_fmap option_map]; by case_decide]. cbn [mbind option_bind].
    destruct (decide (n = [])) as [->|Hn]; [by rewrite Hm, decide_False by tauto|].
    destruct Hm as (x' & -> & Hx'). cbn [mbind option_bind]. rewrite Hx'.
    destruct (d !! a) as [base|]; [by rewrite decide_True by (by split)|by rewrite decide_False by (by intros [_ [? [=]]])]. }
  split; [intros n; by rewrite L1|]. split.
  - intros n a. rewrite L2, <- K2. destruct (decide (n ≠ [] ∧ is_Some (get2 m3 [] a))); [by rewrite fmap_is_Some|done].
  - intros n a p. unfold get3. rewrite L2. unfold inherited. specialize (K3 n a p) as K3'. unfold get3 in K3'.
    destruct (decide (known fbs n a)) as [Hk|Hk].
    2: { assert (get2 m3 n a = None) as -> by (destruct (get2 m3 n a) eqn:E; [destruct Hk; apply K2; by rewrite E|done]). by destruct (decide _). }
    apply K2 in Hk as [x Hx]. rewrite Hx in K3' |- *. cbn [mbind option_bind] in K3'.
    destruct (decide (n ≠ [] ∧ is_Some (get2 m3 [] a))) as [[Hn Hd]|Hd].
    + cbn. rewrite fill_lookup, K3'. destruct (own fbs n a p); [done|]. destruct (own fbs n [] p); [done|].
      rewrite decide_True by (split; [done|by apply K0]). specialize (K3 [] a p) as K3d. unfold get3 in K3d.
      rewrite decide_True in K3d by (by apply K2). destruct Hd as [base Hb]. by rewrite Hb in K3d |- *.
    + cbn. rewrite K3'. destruct (own fbs n a p); [done|]. destruct (own fbs n [] p); [done|].
      rewrite decide_False; [done|]. intros [? Ha]. apply Hd. split; [done|by apply K0].
Qed.
End tables_spec.

(** ** The choice *)

Section choice.
Context `{MapOrder} `{UnicodeTables}.

Lemma longest_name_spec m name : longest_name m name = [] ∨ Contains name (longest_name m name) = true.
Proof.
  unfold longest_name. enough (∀ ks b, b = [] ∨ Contains name b = true → let r := foldl (λ match_ n,
    if Contains name n && bool_decide (n ≠ [] ∧ length match_ < length n)%nat then n else match_) b ks in r = [] ∨ Contains name r = true) as Hks.
  { apply Hks. by left. }
  induction ks as [|x ks IH]; intros b Hb; [done|]. cbn [foldl]. apply IH.
  destruct (Contains name x) eqn:Ex; cbn [andb]; [|done]. case_bool_decide; [by right|done].
Qed.

Lemma Contains_self s : Contains s s = true.
Proof. apply Contains_spec. exists [], []. by rewrite app_nil_r. Qed.

Lemma pick_name_spec m name : pick_name m name = [] ∨ Contains name (pick_name m name) = true.
Proof.
  unfold pick_name. cbv zeta. destruct (decide ((1 < size m)%nat ∨ _)) as [?|?];
    [destruct (decide (name ≠ [] ∧ _)) as [?|?]|]; destruct (decide (m !! _ = None)); try by left.
  - apply longest_name_spec.
  - right. apply Contains_self.
  - right. apply Contains_self.
Qed.

Lemma pick_name_exact m name : is_Some (m !! name) → pick_name m name = name.
Proof.
  intros [a Ha]. unfold pick_name. cbv zeta.
  assert ((if decide ((1 < size m)%nat ∨ m !! [] = None) then if decide (name ≠ [] ∧ m !! name = None) then longest_name m name else name else name) = name) as ->.
  { destruct (decide ((1 < size m)%nat ∨ m !! [] = None)); [|done]. rewrite decide_False; [done|]. intros [_ ?]. congruence. }
  rewrite decide_False; [done|]. congruence.
Qed.

(** The path of the request line in the first bytes, empty when there is none. *)
Definition real_path (first : bytes) : bytes :=
  if decide ((18 ≤ length first)%nat ∧ first !! 4%nat ≠ Some 42) then default [] (find_path [4; 5; 6; 7; 8]%nat first) else [].

Lemma pick_path_spec p first : pick_path p first = [] ∨ pick_path p first = real_path first.
Proof.
  unfold pick_path, real_path. destruct (decide ((1 < size p)%nat ∨ p !! [] = None)); [|by left].
  destruct (decide ((18 ≤ length first)%nat ∧ first !! 4%nat ≠ Some 42)); [|by left].
  destruct (find_path _ first) as [path|]; [|by left]. destruct (decide (p !! path = None)); [by left|by right].
Qed.

Lemma two_keys {A} (p : gmap bytes A) k k' : is_Some (p !! k) → is_Some (p !! k') → k ≠ k' → (1 < size p)%nat.
Proof.
  intros [x Hk] [y Hk'] Hne. rewrite <- (insert_delete_id p k x Hk). rewrite map_size_insert_None by apply lookup_delete_eq.
  assert (size (delete k p) ≠ 0%nat) as Hs; [|lia]. apply map_size_ne_0_lookup. exists k'. rewrite lookup_delete_ne by done. by eexists.
Qed.

Lemma pick_path_exact p first : is_Some (p !! real_path first) → pick_path p first = real_path first.
Proof.
  intros Hp. destruct (decide (real_path first = [])) as [E|Hne]; [destruct (pick_path_spec p first) as [->| ->]; [by rewrite E|done]|].
  unfold pick_path. rewrite decide_True.
  2: { destruct (p !! []) eqn:E0; [|by right]. left. apply (two_keys p (real_path first) []); [done|by eexists|done]. }
  unfold real_path in *. destruct (decide ((18 ≤ length first)%nat ∧ first !! 4%nat ≠ Some 42)); [|done].
  destruct (find_path _ first) as [path|]; [|done]. change (is_Some (p !! path)) in Hp.
  change (default [] (Some path)) with path. rewrite decide_False; [done|]. destruct Hp as [? ->]. done.
Qed.

(** A fallback that fits a connection. *)
Record fits (fbs : list Fallback) (c : connection) (first : bytes) (fb : Fallback) : Prop := {
  fit_in : fb ∈ fbs;
  fit_name : fb_Name fb = [] ∨ Contains (ToLower (c_name c)) (fb_Name fb) = true;
  fit_alpn : fb_Alpn fb = [] ∨ fb_Alpn fb = ToLower (c_alpn c);
  fit_path : fb_Path fb = [] ∨ fb_Path fb = real_path first
}.

Lemma own_in fbs n a p fb : own fbs n a p = Some fb → fb ∈ fbs ∧ fb_Name fb = n ∧ fb_Alpn fb = a ∧ fb_Path fb = p.
Proof. unfold own. intros Hl%last_Some_elem_of. apply list_elem_of_filter in Hl. tauto. Qed.

Lemma select_get3 m name alpn first fb : select_fallback m name alpn first = Ok fb →
  ∃ n a p, get3 m n a p = Some fb ∧ n = pick_name m (ToLower name) ∧ (a = [] ∨ a = ToLower alpn) ∧ (p = [] ∨ p = real_path first).
Proof.
  unfold select_fallback. set (n := pick_name m (ToLower name)). destruct (m !! n) as [x|] eqn:En; [|done]. cbv zeta.
  set (a := if decide (x !! ToLower alpn = None) then [] else ToLower alpn). destruct (x !! a) as [q|] eqn:Ea; [|done].
  destruct (q !! pick_path q first) as [f|] eqn:Ep; [|done]. intros [= <-].
  exists n, a, (pick_path q first). split_all; [|done| |apply pick_path_spec].
  - unfold get3, get2. rewrite En. cbn [mbind option_bind]. rewrite Ea. exact Ep.
  - unfold a. destruct (decide (x !! ToLower alpn = None)); [by left|by right].
Qed.

Lemma select_fits fbs m c first fb : New_fallbacks (Some fbs) = Some (Some m) →
  select_fallback m (c_name c) (c_alpn c) first = Ok fb → fits fbs c first fb.
Proof.
  intros Hm Hs. destruct (tables_spec fbs) as (m' & Hm' & _ & _ & H3). assert (m' = m) as -> by congruence.
  apply select_get3 in Hs as (n & a & p & Hg & -> & Ha & Hp). rewrite H3 in Hg. unfold inherited in Hg.
  destruct (decide (known fbs _ a)); [|done].
  pose proof (pick_name_spec m (ToLower (c_name c))) as Hn.
  assert (∀ n a p, own fbs n a p = Some fb → (n = [] ∨ Contains (ToLower (c_name c)) n = true) → (a = [] ∨ a = ToLower (c_alpn c)) →
    (p = [] ∨ p = real_path first) → fits fbs c first fb) as Hown.
  { intros n' a' p' (Hin & <- & <- & <-)%own_in ???. by split. }
  destruct (own fbs _ a p) eqn:E1; [injection Hg as ->; by eapply Hown|].
  destruct (own fbs _ [] p) eqn:E2; [injection Hg as ->; eapply Hown; eauto|].
  destruct (decide (_ ≠ [] ∧ has_alpn fbs [] a)); [|done].
  destruct (own fbs [] a p) eqn:E3; [injection Hg as ->; eapply Hown; eauto|]. eapply Hown; eauto.
Qed.

(** The fallback for exactly the name, the ALPN and the path of the connection. *)
Lemma select_exact fbs m c first fb : New_fallbacks (Some fbs) = Some (Some m) →
  own fbs (ToLower (c_name c)) (ToLower (c_alpn c)) (real_path first) = Some fb →
  select_fallback m (c_name c) (c_alpn c) first = Ok fb.
Proof.
  intros Hm Ho. destruct (tables_spec fbs) as (m' & Hm' & H1 & H2 & H3). assert (m' = m) as -> by congruence.
  pose proof (own_in _ _ _ _ _ Ho) as (Hin & Hn & Ha & Hp).
  assert (known fbs (ToLower (c_name c)) (ToLower (c_alpn c))) as Hk.
  { unfold known, has_name, has_alpn. split; [|left]; apply Exists_exists; exists fb; auto. }
  pose proof (H3 (ToLower (c_name c)) (ToLower (c_alpn c)) (real_path first)) as Hg. unfold inherited in Hg.
  rewrite decide_True, Ho in Hg by done. unfold select_fallback.
  rewrite pick_name_exact by (apply H1; apply Hk). unfold get3, get2 in Hg.
  destruct (m !! ToLower (c_name c)) as [x|]; [|done]. cbn [mbind option_bind] in Hg. cbv zeta.
  destruct (x !! ToLower (c_alpn c)) as [q|] eqn:Ex; [|done]. cbn [mbind option_bind] in Hg.
  rewrite decide_False by done. rewrite Ex. rewrite pick_path_exact by (by eexists). by rewrite Hg.
Qed.
End choice.

(** ** Decoding never panics *)

Section decoding.
Context `{AddonsCodec} (array : bytes) (Harray : length array = Size).

Lemma or_reject_total {A} (o : outcome A) (k : A → outcome decoded) P (Q : decoded → Prop) :
  yields o P → Q (Rejected false) → (∀ a, P a → yields (k a) Q) → yields (or_reject o k) Q.
Proof. destruct o; cbn; auto. Qed.

Lemma cleared_total b s size : wf b → 0 ≤ size ≤ Z.of_nat (room b) → wf_bytes (contents s) →
  yields (read_full (Clear b) s size) (λ '(b', s'), wf b' ∧ Z.of_nat (length (content b')) = size ∧ wf_bytes (content b') ∧
    (Z.of_nat (room b) - size ≤ Z.of_nat (room b')) ∧ wf_bytes (contents s')).
Proof.
  intros Hb Hs Hbytes. destruct (Clear_spec b Hb) as [Wc Cc].
  assert (room b ≤ room (Clear b))%nat as Hr by (destruct Hb; unfold room; cbn; lia).
  eapply yields_mono; [apply (read_full_total (Clear b) s size Wc); [lia|done]|].
  intros [b' s'] [W R (x & C & L & B) S]. rewrite C, Cc. split_all; try done. lia.
Qed.

Lemma byte0_total {A} b (k : Z → outcome A) Q : wf b → wf_bytes (content b) → content b ≠ [] →
  (∀ c, is_byte c → content b !! 0%nat = Some c → yields (k c) Q) → yields (ret_or_panic (Byte b 0) k) Q.
Proof.
  intros Hb Hw Hne Hk. destruct (content b) as [|c q] eqn:E; [done|]. rewrite (Byte_first b c q Hb E). cbn.
  apply Forall_cons in Hw as [Hc _]. by apply Hk.
Qed.

Lemma DecodeHeaderAddons_total b s : wf b → (600 ≤ room b)%nat → wf_bytes (contents s) →
  yields (DecodeHeaderAddons b s) (λ '(_, (b', s')), wf b' ∧ (room b ≤ room b' + 300)%nat ∧ wf_bytes (contents s')).
Proof.
  intros Hb Hr Hs. unfold DecodeHeaderAddons. eapply yields_bind; [apply (cleared_total b s 1 Hb ltac:(lia) Hs)|].
  intros [b1 s1] (W1 & L1 & B1 & R1 & S1). apply byte0_total; [done|done|by intros E; rewrite E in L1|].
  intros n Hn _. unfold is_byte, is_uint in Hn. destruct (decide (n ≠ 0)); [|cbn; split_all; [done|lia|done]].
  eapply yields_bind; [apply (cleared_total b1 s1 n W1 ltac:(lia) S1)|].
  intros [b2 s2] (W2 & L2 & B2 & R2 & S2). rewrite Bytes_content by done. cbn [ret_or_panic].
  destruct (Unmarshal (content b2)); [|done]. cbn. split_all; [done|lia|done].
Qed.

(** A user that was found is not sent to a fallback. *)
Definition let_through (user : MemoryUser vless_account) (d : decoded) : Prop :=
  match d with Rejected fallback => fallback = false | Decoded request _ _ => User request = Some user end.

Lemma decode_rest_total user b s : wf b → (1000 ≤ room b)%nat → wf_bytes (contents s) → yields (decode_rest user b s) (let_through user).
Proof.
  intros Hb Hr Hs. unfold decode_rest. eapply or_reject_total; [apply (DecodeHeaderAddons_total b s Hb ltac:(lia) Hs)|done|].
  intros [addons [b1 s1]] (W1 & R1 & S1).
  eapply or_reject_total; [apply (cleared_total b1 s1 1 W1 ltac:(lia) S1)|done|].
  intros [b2 s2] (W2 & L2 & B2 & R2 & S2). apply byte0_total; [done|done|by intros E; rewrite E in L2|]. intros cmd _ _. cbv zeta.
  case_decide; [done|]. case_decide; [|done].
  pose proof (ReadAddressPort_total vless_parser eq_refl eq_refl b2 s2 W2 ltac:(lia) S2) as Ht.
  destruct (ReadAddressPort vless_parser b2 s2) as [[[a port] s3]| |]; [|done|done]. destruct Ht as ([x ->] & _ & _). done.
Qed.

(** The bytes at which a client is taken for one of its users. *)
Definition user_found (validator : Validator vless_account) (q : bytes) : option (MemoryUser vless_account) :=
  if decide (q !! 0%nat = Some 0) then Get validator (take 16 (drop 1 q)) else None.

Lemma decode_first_total first reader validator : wf first → (18 ≤ length (content first))%nat →
  wf_bytes (content first) → wf_bytes (contents (reader (Advance first 17))) →
  yields (DecodeRequestHeader array true first reader validator)
    (λ d, match user_found validator (content first) with Some user => let_through user d | None => d = Rejected true end).
Proof.
  intros Hf Hl Hw Hs. unfold DecodeRequestHeader, user_found. destruct (content first) as [|c q] eqn:E; [cbn in Hl; lia|].
  rewrite (Byte_first first c q Hf E). cbn [ret_or_panic lookup list_lookup]. destruct (decide (c = 0)) as [->|Hc].
  - rewrite decide_True by done. change 1 with (Z.of_nat 1). change 17 with (Z.of_nat 17) at 1.
    rewrite BytesRange_content by (rewrite ?E; done || lia). cbn [ret_or_panic]. rewrite E. change (17 - 1)%nat with 16%nat.
    destruct (Get validator (take 16 (drop 1 (0 :: q)))) as [user|]; [|done].
    destruct (StackNew_wf array Harray) as (W0 & _ & R0). apply decode_rest_total; [done|lia|done].
  - rewrite decide_False by congruence. done.
Qed.

(** A request that is accepted has a user of the table. *)
Definition of_user (validator : Validator vless_account) (request : RequestHeader) : Prop :=
  ∃ id user, Get validator id = Some user ∧ User request = Some user.

Lemma decode_plain_total first reader validator : wf_bytes (contents (reader first)) →
  yields (DecodeRequestHeader array false first reader validator)
    (λ d, match d with Decoded request _ _ => of_user validator request | Rejected _ => True end).
Proof.
  intros Hs. unfold DecodeRequestHeader. destruct (StackNew_wf array Harray) as (W0 & C0 & R0).
  eapply or_reject_total; [apply (read_full_total _ _ 1 W0 ltac:(lia) Hs)|done|]. intros [b s] [W R (x & C & L & B) S].
  rewrite C0 in C. cbn in C. subst x. change (Z.to_nat 1) with 1%nat in R.
  apply byte0_total; [done|done|by intros E; rewrite E in L|]. intros v _ _. case_decide; [|done].
  eapply or_reject_total; [apply (cleared_total b s 16 W ltac:(lia) S)|done|]. intros [b2 s2] (W2 & L2 & B2 & R2 & S2).
  rewrite Bytes_content by done. cbn [ret_or_panic]. destruct (Get validator (content b2)) as [user|] eqn:Eg; [|done].
  eapply yields_mono; [apply (decode_rest_total user); [done|lia|done]|].
  intros [q|request addons rest] Hd; [done|]. by exists (content b2), user.
Qed.
End decoding.

(** ** The properties *)

(** A client of the server: one whose first read names a user. *)
Definition client_of (validator : Validator vless_account) (q : bytes) : option (MemoryUser vless_account) :=
  if decide (length q < 18)%nat then None else user_found validator q.


(** ** Concrete fallbacks *)

#[export] Instance listed_order : MapOrder.
Proof.
  refine {| keys := λ A m, (map_to_list m).*1 |}.
  - intros A m. apply NoDup_fst_map_to_list.
  - intros A m k. rewrite list_elem_of_fmap. split.
    + intros ([k' x] & -> & Hin). apply elem_of_map_to_list in Hin. by eexists.
    + intros [x Hx]. exists (k, x). split; [done|]. by apply elem_of_map_to_list.
Defined.

Definition fb_of (name alpn path : string) (dest : string) : Fallback :=
  {| fb_Name := lit name; fb_Alpn := lit alpn; fb_Path := lit path; fb_Type := lit "tcp"; fb_Dest := lit dest; fb_Xver := 2 |}.

Definition sample_fallbacks : list Fallback :=
  [fb_of "" "" "" "127.0.0.1:80"; fb_of "a.org" "" "/x" "127.0.0.1:81"; fb_of "" "h2" "" "127.0.0.1:82"].

Definition sample_probe : bytes := lit "GET /x?y HTTP/1.1" ++ [13; 10] ++ lit "Host: a.org" ++ [13; 10; 13; 10].

Definition sample_connection : connection :=
  {| c_name := lit "www.A.org"; c_alpn := lit "http/1.1"; c_remote := lit "192.0.2.7:4000"; c_local := lit "10.0.0.1:443" |}.

Definition probe_reader : Buffer → stream := λ b, {| chunks := [content b]; final := ErrEOF |}.

#[local] Existing Instance ascii_tables.
#[local] Existing Instance small_codec.


(** A catch-all does not catch a connection whose name and ALPN have an entry for one
    path only: the ALPN of that name does not inherit the paths of the default name. *)
Definition one_path : list Fallback :=
  [fb_of "" "" "" "127.0.0.1:80"; fb_of "a.org" "h2" "/x" "127.0.0.1:81"].

Lemma catch_all_missed :
  match New_fallbacks (Some one_path) with
  | Some (Some m) => select_fallback m (lit "a.org") (lit "h2") (lit "GET /other HTTP/1.1")
  | _ => Err NoDefaultName
  end = Err NoDefaultPath.
Proof. by vm_compute. Qed.

(** The zone of a link-local address is part of its text, which is not an address then:
    the header announces 36 bytes and has 4. *)
Lemma zone_breaks_proxy_header :
  proxy_header 2 (lit "[fe80::1%en0]:4000") (lit "[fe80::2%en0]:443") =
    signature ++ [0x21; 0x21; 0; 0x24] ++ [15; 160; 1; 187].
Proof. by vm_compute. Qed.

(** The header of version 2 carries the two addresses and ports. *)
Definition endpoint_text (a : Address) (port : Z) : bytes := Address_String a ++ [58] ++ Port_String port.

Lemma port_digits_parse s n v : parse_dec (2 ^ 16 - 1) s n = Some v → port_digits s n = v.
Proof.
  revert n. induction s as [|c s IH]; intros n; cbn [parse_dec port_digits]; [by intros [= ->]|].
  destruct (is_digit c); [|done]. change (2 ^ 16 - 1) with 65535. case_decide; [done|]. apply IH.
Qed.

Lemma port_or_zero_String port : is_uint 16 port → port_or_zero (Port_String port) = port.
Proof.
  intros Hp. unfold is_uint in Hp. apply port_digits_parse. unfold Port_String.
  assert (ParseUint (Itoa port) 16 = Some port) as E by (rewrite ParseUint_Itoa; [done|lia|lia]).
  unfold ParseUint in E. by case_decide.
Qed.

Lemma To4_v4in6 b : length b = 4%nat → To4 (v4in6Prefix ++ b) = Some b.
Proof.
  intros Hl. unfold To4. assert (length (v4in6Prefix ++ b) = 16%nat) as Hl16 by (rewrite length_app, Hl; done).
  rewrite decide_False by lia. rewrite decide_True by (split; [done|by apply take_app_length']). by rewrite drop_app_length'.
Qed.

Lemma proxy_header_v4 b1 p1 b2 p2 : address_ok (ipv4Address b1) → address_ok (ipv4Address b2) → is_uint 16 p1 → is_uint 16 p2 →
  proxy_header 2 (endpoint_text (ipv4Address b1) p1) (endpoint_text (ipv4Address b2) p2) =
    signature ++ [0x21; 0x11; 0; 0x0c] ++ b1 ++ b2 ++ be_bytes 2 p1 ++ be_bytes 2 p2.
Proof.
  intros H1 H2 Hp1 Hp2. unfold proxy_header, endpoint_text. rewrite !SplitHostPort_String by done.
  rewrite decide_False, decide_False, decide_True by done. rewrite !port_or_zero_String by done.
  rewrite decide_False by (by apply host_text_no_colon). cbn [host_text]. unfold ip_or_nil.
  destruct H1 as [W1 L1], H2 as [W2 L2]. rewrite !ParseIP_IP_String by auto. rewrite !To16_v4 by done. cbn [mbind option_bind].
  rewrite !To4_v4in6 by done. cbn. by rewrite <- !app_assoc.
Qed.

Lemma proxy_header_v6 b1 p1 b2 p2 : address_ok (ipv6Address b1) → address_ok (ipv6Address b2) → is_uint 16 p1 → is_uint 16 p2 →
  proxy_header 2 (endpoint_text (ipv6Address b1) p1) (endpoint_text (ipv6Address b2) p2) =
    signature ++ [0x21; 0x21; 0; 0x24] ++ b1 ++ b2 ++ be_bytes 2 p1 ++ be_bytes 2 p2.
Proof.
  intros H1 H2 Hp1 Hp2. unfold proxy_header, endpoint_text. rewrite !SplitHostPort_String by done.
  rewrite decide_False, decide_False, decide_True by done. rewrite !port_or_zero_String by done.
  destruct H1 as (W1 & L1 & N1), H2 as (W2 & L2 & N2). cbn [host_text].
  assert (58 ∈ IP_String b1) as Hcol.
  { unfold IP_String. rewrite N1. by apply string6_chars. }
  rewrite decide_True by done. unfold ip_or_nil. rewrite !ParseIP_IP_String by auto.
  assert (∀ b, length b = 16%nat → To16 b = Some b) as H16 by (intros b Hb; unfold To16; rewrite decide_False by lia; by rewrite decide_True).
  rewrite (H16 b1), (H16 b2) by done. cbn [mbind option_bind]. rewrite (H16 b1), (H16 b2) by done. cbn. by rewrite <- !app_assoc.
Qed.
