(* ===== verification/ConfCommon.v ===== *)
(** Values of the JSON configuration (src/upstream/xray-core/infra/conf/common.go, with
    environment flags of common/platform/platform.go): lists of strings and of networks,
    ports, ranges. *)
From S2P Require Import Prelude GoText NetIP GoConv Address Transport Buf.

(** What these values are decoded from; a number is one that a Go integer may hold. *)
Inductive json_value :=
| J_list (l : list bytes)
| J_string (s : bytes)
| J_number (n : Z)
| J_other.

(** The upper-case mapping of the runes above ASCII. *)
Class UpperTables := unicode_upper : Z → Z.

(** Only ASCII letters have case: a table to evaluate examples with. *)
Definition ascii_upper_table : UpperTables := λ r, r.

Definition ascii_upper (b : Z) : Z := if decide (97 ≤ b ≤ 122) then b - 32 else b.

Definition unicode_ToUpper `{UpperTables} (r : Z) : Z :=
  if decide (r < 0x80) then ascii_upper r else unicode_upper r.

(** [strings.ToUpper] *)
Definition ToUpper `{UpperTables} (s : bytes) : bytes :=
  if decide (Forall (λ b, b < 0x80) s) then ascii_upper <$> s else Map unicode_ToUpper s.

(** [strings.SplitN s sep 2]: one part or two. *)
Definition SplitN2 (s sep : bytes) : bytes * option bytes :=
  match Index s sep with
  | None => (s, None)
  | Some m => (take m s, Some (drop (m + length sep) s))
  end.

(** [json.Unmarshal] of a text into a uint32: [null] leaves the zero value, and a number
    has no leading zero. *)
Definition json_uint32 (t : bytes) : option Z :=
  if decide (t = lit "null") then Some 0
  else if decide (head t = Some 48 ∧ length t ≠ 1%nat) then None
  else ParseUint t 32.

(** ** Environment flags *)

(** [os.LookupEnv] *)
Class Environment := LookupEnv : bytes → option bytes.

Record EnvFlag := { env_Name : bytes; env_AltName : bytes }.

Section common.
Context `{UnicodeTables, UpperTables, Environment}.

Definition NormalizeEnvName (name : bytes) : bytes :=
  (λ b, if decide (b = 46) then 95 else b) <$> ToUpper (TrimSpace name).

Definition NewEnvFlag (name : bytes) : EnvFlag := {| env_Name := name; env_AltName := NormalizeEnvName name |}.

Definition GetValue (f : EnvFlag) (defaultValue : bytes) : bytes :=
  match LookupEnv (env_Name f) with
  | Some v => v
  | None => if decide (env_AltName f = []) then defaultValue else default defaultValue (LookupEnv (env_AltName f))
  end.

(** A text that may name a flag instead. *)
Definition env_text (s : bytes) : bytes :=
  if HasPrefix s (lit "env:") then GetValue (NewEnvFlag (drop 4 s)) [] else s.

(** ** Lists and addresses *)

Definition comma : bytes := [44].

Definition StringList_Unmarshal (v : json_value) : option (list bytes) :=
  match v with J_list l => Some l | J_string s => Some (Split s comma) | _ => None end.

(** [None] is an error; the address may be nil only when [ParseAddress] panics. *)
Definition Address_Unmarshal (v : json_value) : option (option Address) :=
  match v with J_string s => Some (ParseAddress (env_text s)) | _ => None end.

Definition Network_Build (v : bytes) : Network :=
  let v := ToLower v in
  if decide (v = lit "tcp") then Network_TCP
  else if decide (v = lit "udp") then Network_UDP
  else if decide (v = lit "unix") then Network_UNIX
  else Network_Unknown.

Definition NetworkList_Unmarshal : json_value → option (list bytes) := StringList_Unmarshal.

Definition NetworkList_Build (v : option (list bytes)) : list Network :=
  match v with None => [Network_TCP] | Some l => Network_Build <$> l end.

(** ** Ports *)

(** A port from the text of a JSON number. *)
Definition parseIntPort (data : bytes) : option Z := intPort ← json_uint32 data; PortFromInt intPort.

Definition parseStringPort (s : bytes) : option (Z * Z) :=
  match SplitN2 (env_text s) [45] with
  | (one, None) => port ← PortFromString one; Some (port, port)
  | (from, Some to) => fromPort ← PortFromString from; toPort ← PortFromString to; Some (fromPort, toPort)
  end.

Definition PortRange_Unmarshal (v : json_value) : option PortRange :=
  let single := match v with
                | J_number n => if decide (0 ≤ n < 2 ^ 32) then PortFromInt n else None
                | _ => None end in
  match single with
  | Some port => Some (port, port)
  | None =>
    match v with
    | J_string s => '(from, to) ← parseStringPort s; if decide (to < from) then None else Some (from, to)
    | _ => None
    end
  end.

(** A part of the text of a list of ports; an empty part adds nothing. *)
Definition parse_range_text (rangeStr : bytes) : option (list PortRange) :=
  let trimmed := TrimSpace rangeStr in
  if decide (trimmed = []) then Some []
  else if Contains trimmed [45] || Contains trimmed (lit "env:") then
    '(from, to) ← parseStringPort trimmed; Some [(from, to)]
  else port ← parseIntPort trimmed; Some [(port, port)].

Fixpoint ranges_loop (rangelist : list bytes) : option (list PortRange) :=
  match rangelist with
  | [] => Some []
  | rangeStr :: rest => r ← parse_range_text rangeStr; more ← ranges_loop rest; Some (r ++ more)
  end.

(** A bare number is not checked as those in a text are. *)
Definition PortList_Unmarshal (v : json_value) : option (list PortRange) :=
  match v with
  | J_string s => ranges_loop (Split s comma)
  | J_number n =>
    if decide (0 ≤ n < 2 ^ 32) then Some (if decide (n = 0) then [] else [(n, n)]) else None
  | _ => None
  end.

(** ** Ranges of numbers *)

Definition Int32Range_Unmarshal (v : json_value) : option (Z * Z) :=
  match v with
  | J_string s =>
    match SplitN2 s [45] with
    | (a, Some b) => from ← Atoi a; to ← Atoi b; Some (i32 from, i32 to)
    | (_, None) => None
    end
  | J_number n => if decide (- 2 ^ 31 ≤ n < 2 ^ 31) then Some (n, n) else None
  | _ => None
  end.

(** ** The text of a list of ports *)

Definition range_text (r : PortRange) : bytes := Port_String r.1 ++ [45] ++ Port_String r.2.

Lemma port_digits_ends n : is_uint 16 n → Forall (λ c, 0x20 < c < 0x80 ∧ is_digit c = true) (Port_String n).
Proof.
  intros Hn. unfold is_uint in Hn. assert (0 ≤ n < 10 ^ 20) as Hd by lia. eapply Forall_impl; [exact (Itoa_digits n Hd)|].
  intros c Hc. split; [|done]. unfold is_digit in Hc. apply bool_decide_eq_true in Hc. lia.
Qed.

Lemma parse_range_text_spec r : is_uint 16 r.1 → is_uint 16 r.2 → parse_range_text (range_text r) = Some [r].
Proof.
  intros Ha Hb. destruct r as [a b]. cbn [fst snd] in *. unfold parse_range_text, range_text. cbn [fst snd].
  destruct (ends_ok _ (Port_String a) (Itoa_ne a) (port_digits_ends a Ha)) as (c & _ & Hc & _ & [Hcp Hcd] & _).
  destruct (ends_ok _ (Port_String b) (Itoa_ne b) (port_digits_ends b Hb)) as (_ & z & _ & Hz & _ & [Hzp _]).
  assert (∃ s, Port_String a = c :: s) as [s Es] by (destruct (Port_String a); [done|]; injection Hc as ->; by eexists).
  assert (TrimSpace (Port_String a ++ [45] ++ Port_String b) = Port_String a ++ [45] ++ Port_String b) as ->.
  { apply (TrimSpace_plain _ c z); [by rewrite Es| |done|done]. rewrite app_assoc, last_app, Hz. done. }
  rewrite decide_False by (by rewrite Es). assert (Contains (Port_String a ++ [45] ++ Port_String b) [45] = true) as ->
    by (apply Contains_spec; by exists (Port_String a), (Port_String b)).
  cbn [orb]. unfold parseStringPort, env_text.
  assert (HasPrefix (Port_String a ++ [45] ++ Port_String b) (lit "env:") = false) as ->.
  { rewrite Es. apply bool_decide_eq_false. intros Hp. change (lit "env:") with (101 :: lit "nv:") in Hp. apply prefix_cons_inv_1 in Hp as <-.
    by vm_compute in Hcd. }
  unfold SplitN2. unfold is_uint in Ha. assert (45 ∉ Port_String a) as Hno by (apply Itoa_no; [lia|done]).
  change ([45] ++ Port_String b) with ((45 :: []) ++ Port_String b). rewrite Index_app_sep by done.
  rewrite take_app_length. change (length [45]) with 1%nat.
  assert (drop (length (Port_String a) + 1) (Port_String a ++ [45] ++ Port_String b) = Port_String b) as ->.
  { rewrite app_assoc. apply drop_app_length'. rewrite length_app. done. }
  rewrite !PortFromString_String by done. done.
Qed.

(** A list of ranges is read back from its text. *)
Lemma PortList_text l : Forall (λ r, is_uint 16 r.1 ∧ is_uint 16 r.2) l →
  PortList_Unmarshal (J_string (Join (range_text <$> l) comma)) = Some l.
Proof.
  intros Hl. cbn [PortList_Unmarshal]. destruct l as [|r l]; [done|]. unfold comma. rewrite Split_Join; [|done|].
  - induction Hl as [|r' l' [Ha Hb] _ IH]; [done|]. cbn [fmap list_fmap ranges_loop]. rewrite parse_range_text_spec by done.
    cbn [mbind option_bind]. rewrite IH. done.
  - apply Forall_fmap. eapply Forall_impl; [exact Hl|]. intros [a b] [Ha Hb]. unfold range_text, Port_String. cbn [fst snd compose] in *.
    unfold is_uint in *. rewrite !not_elem_of_app. split_all; [apply Itoa_no; [lia|done]| |apply Itoa_no; [lia|done]].
    by rewrite list_elem_of_singleton.
Qed.
End common.
