(* ===== verification/ConfRouter.v ===== *)
(** The routing section of the JSON configuration (src/upstream/xray-core/infra/conf:
    router.go, router_strategy.go): rules and balancers as text, the lists they name in
    data files, and the configuration of the router that is made of them. *)
From stdpp Require Import gmap sorting.
From S2P Require Import Prelude GoText NetIP GoConv Address StrMatcher AcAutomaton Mph Conditions RouteRules Balancer CoreRouter ConfCommon.

(** ** Lists in data files *)

(** A domain of a list, with the keys of its attributes. *)
Record GeoDomain := { gd_Type : Domain_Type; gd_Value : bytes; gd_Attribute : list bytes }.

(** Reading a data file, and the protobuf decoding of one list of it. *)
Class DataFiles := {
  ReadAsset : bytes → option bytes;
  Unmarshal_GeoIP : bytes → option (list CIDR);
  Unmarshal_GeoSite : bytes → option (list GeoDomain)
}.

(** [DecodeVarint]: the number and how many bytes it has; (0, 0) is an error.  [shift]
    grows by 7 below 64, so there are ten rounds. *)
Fixpoint varint_loop (fuel : nat) (buf : bytes) (shift x : Z) (n : nat) : Z * nat :=
  match fuel with
  | O => (0, 0%nat)
  | S fuel =>
    match buf with
    | [] => (0, 0%nat)
    | b :: buf =>
      let x := Z.lor x (u64 (Z.shiftl (Z.land b 0x7F) shift)) in
      if decide (Z.land b 0x80 = 0) then (x, S n) else varint_loop fuel buf (shift + 7) x (S n)
    end
  end.

Definition DecodeVarint (buf : bytes) : Z * nat := varint_loop 10 buf 0 0 0.

(** The comparison of [find]: [None] is an index out of range. *)
Fixpoint same_code (data code : bytes) {struct code} : option bool :=
  match code with
  | [] => Some true
  | c :: code => match data with [] => None | x :: data => if decide (x = c) then same_code data code else Some false end
  end.

(** The signed value of a 64-bit integer. *)
Definition int_of (x : Z) : Z := (x + 2 ^ 63) mod 2 ^ 64 - 2 ^ 63.

(** [find]: every round drops the head of an entry, so it is bounded by the length. *)
Fixpoint find_loop (fuel : nat) (data code : bytes) : outcome (option bytes) :=
  match fuel with
  | O => Panic
  | S fuel =>
    if decide (length data < 2)%nat then Ret None
    else
      let '(x, y) := DecodeVarint (drop 1 data) in
      if decide (x = 0 ∧ y = 0%nat) then Ret None
      else
        let bodyL := int_of x in
        let data := drop (1 + y) data in
        if decide (Z.of_nat (length data) < bodyL) then Ret None
        else
          ret_or_panic (data !! 1%nat) (λ codeL,
          ret_or_panic (if decide (codeL = Z.of_nat (length code)) then same_code (drop 2 data) code else Some false) (λ same,
          if same : bool then (if decide (bodyL < 0) then Panic else Ret (Some (take (Z.to_nat bodyL) data)))
          else if decide (Z.of_nat (length data) = bodyL) then Ret None
          else if decide (bodyL < 0) then Panic
          else find_loop fuel (drop (Z.to_nat bodyL) data) code))
  end.

Definition find (data code : bytes) : outcome (option bytes) :=
  if decide (code = []) then Ret None else find_loop (S (length data)) data code.

Section conf_router.
Context `{UnicodeTables, UpperTables, Environment, DataFiles}.

(** [loadFile]: nothing is ever put into its cache. *)
Definition loadFile (file : bytes) : outcome bytes :=
  match ReadAsset file with None | Some [] => Fail | Some bs => Ret bs end.

(** A list of a file by its code. *)
Definition load_list {A} (unmarshal : bytes → option A) (file code : bytes) : outcome A :=
  let? bs := loadFile file in
  let? found := find bs code in
  match found with
  | None => Fail
  | Some bs => match unmarshal bs with None => Fail | Some a => Ret a end
  end.

Definition loadIP (file code : bytes) : outcome (list CIDR) := load_list Unmarshal_GeoIP file code.
Definition loadSite (file code : bytes) : outcome (list GeoDomain) := load_list Unmarshal_GeoSite file code.
Definition loadGeoIP (code : bytes) : outcome (list CIDR) := loadIP (lit "geoip.dat") code.

Definition BooleanMatcher_Match (m : bytes) (domain : GeoDomain) : bool := bool_decide (m ∈ gd_Attribute domain).

Definition AttributeList_Match (al : list bytes) (domain : GeoDomain) : bool :=
  forallb (λ m, BooleanMatcher_Match m domain) al.

Definition parseAttrs (attrs : list bytes) : list bytes := ToLower <$> attrs.

Definition loadGeositeWithAttr (file siteWithAttr : bytes) : outcome (list GeoDomain) :=
  match Split siteWithAttr [64] with
  | [] => Fail
  | country :: attrs =>
    let? domains := loadSite file (ToUpper country) in
    match parseAttrs attrs with
    | [] => Ret domains
    | al => Ret (filter (λ d, AttributeList_Match al d = true) domains)
    end
  end.

(** ** Texts of rules *)

Definition slash : bytes := [47].

(** The length of the prefix of an external resource, 0 without one. *)
Definition isExtDatFile (s qualified : bytes) : nat :=
  if HasPrefix s qualified then length qualified else if HasPrefix s (lit "ext:") then 4%nat else 0%nat.

Definition cidr_of (ip mask : bytes) (max : Z) : option CIDR :=
  bits ← (if decide (mask = []) then Some max else u32 <$> ParseUint mask 32);
  if decide (max < bits) then None else Some (ip, bits).

(** [None] of the outcome is never: an address that is parsed is not nil. *)
Definition ParseIP (s : bytes) : outcome CIDR :=
  let '(addr, mask) := match Index s slash with
                       | None => (s, [])
                       | Some i => (take i s, drop (i + 1) s) end in
  ret_or_panic (ParseAddress addr) (λ ip,
  match (match ip with
         | ipv4Address b => cidr_of b mask 32
         | ipv6Address b => cidr_of b mask 128
         | domainAddress _ => None
         end) with
  | Some c => Ret c
  | None => Fail
  end).

Definition typed (t : Domain_Type) (v : bytes) : outcome (list (Domain_Type * bytes)) := Ret [(t, v)].

Definition listed (o : outcome (list GeoDomain)) : outcome (list (Domain_Type * bytes)) :=
  let? ds := o in Ret ((λ d, (gd_Type d, gd_Value d)) <$> ds).

Definition parseDomainRule (domain : bytes) : outcome (list (Domain_Type * bytes)) :=
  if HasPrefix domain (lit "geosite:") then
    listed (loadGeositeWithAttr (lit "geosite.dat") (ToUpper (drop 8 domain)))
  else
    let ext := isExtDatFile domain (lit "ext-domain:") in
    if decide (ext ≠ 0%nat) then
      match Split (drop ext domain) [58] with
      | [filename; country] => listed (loadGeositeWithAttr filename country)
      | _ => Fail
      end
    else if HasPrefix domain (lit "regexp:") then typed Domain_Regex (drop 7 domain)
    else if HasPrefix domain (lit "domain:") then typed Domain_Domain (drop 7 domain)
    else if HasPrefix domain (lit "full:") then typed Domain_Full (drop 5 domain)
    else if HasPrefix domain (lit "keyword:") then typed Domain_Plain (drop 8 domain)
    else if HasPrefix domain (lit "dotless:") then
      let substr := drop 8 domain in
      if decide (substr = []) then typed Domain_Regex (lit "^[^.]*$")
      else if Contains substr [46] then Fail
      else typed Domain_Regex (lit "^[^.]*" ++ substr ++ lit "[^.]*$")
    else typed Domain_Plain domain.

Fixpoint domains_loop (l : list bytes) : outcome (list (Domain_Type * bytes)) :=
  match l with
  | [] => Ret []
  | domain :: l => let? rules := parseDomainRule domain in let? more := domains_loop l in Ret (rules ++ more)
  end.

(** One entry of a list of addresses: a list of a file, or an address. *)
Definition ip_entry (ip : bytes) : outcome (GeoIP + CIDR) :=
  if HasPrefix ip (lit "geoip:") then
    let isReverseMatch := HasPrefix ip (lit "geoip:!") in
    let country := drop (if isReverseMatch then 7 else 6) ip in
    if decide (country = []) then Fail
    else
      let? geoip := loadGeoIP (ToUpper country) in
      Ret (inl {| CountryCode := ToUpper country; Cidr := geoip; ReverseMatch := isReverseMatch |})
  else
    let ext := isExtDatFile ip (lit "ext-ip:") in
    if decide (ext ≠ 0%nat) then
      match Split (drop ext ip) [58] with
      | [filename; country] =>
        if decide (filename = [] ∨ country = []) then Fail
        else
          let isReverseMatch := HasPrefix country [33] in
          let country := if isReverseMatch then drop 1 country else country in
          let? geoip := loadIP filename (ToUpper country) in
          Ret (inl {| CountryCode := ToUpper (filename ++ [95] ++ country); Cidr := geoip; ReverseMatch := isReverseMatch |})
      | _ => Fail
      end
    else let? ipRule := ParseIP ip in Ret (inr ipRule).

(** The loop of [ToCidrList], with both lists. *)
Fixpoint cidrs_loop (ips : list bytes) (geoipList : list GeoIP) (customCidrs : list CIDR) : outcome (list GeoIP * list CIDR) :=
  match ips with
  | [] => Ret (geoipList, customCidrs)
  | ip :: ips =>
    let? e := ip_entry ip in
    match e with
    | inl g => cidrs_loop ips (geoipList ++ [g]) customCidrs
    | inr c => cidrs_loop ips geoipList (customCidrs ++ [c])
    end
  end.

Definition ToCidrList (ips : list bytes) : outcome (list GeoIP) :=
  let? (geoipList, customCidrs) := cidrs_loop ips [] [] in
  Ret (match customCidrs with [] => geoipList | _ => geoipList ++ [plain_geoip customCidrs] end).

(** ** Rules *)

(** The JSON of a rule; a field that is absent or null is [None], and for the names the
    empty text. *)
Record JsonRule := {
  j_Type : bytes; j_RuleTag : bytes; j_OutboundTag : bytes; j_BalancerTag : bytes; j_DomainMatcher : bytes;
  j_Domain : option json_value; j_Domains : option json_value; j_IP : option json_value;
  j_Port : option json_value; j_Network : option json_value; j_SourceIP : option json_value;
  j_SourcePort : option json_value; j_User : option json_value; j_InboundTag : option json_value;
  j_Protocols : option json_value; j_Attributes : list (bytes * bytes) }.

(** [RawFieldRule] after decoding. *)
Record RawFieldRule := {
  f_Domain : option (list bytes); f_Domains : option (list bytes); f_IP : option (list bytes);
  f_Port : option (list PortRange); f_Network : option (list bytes); f_SourceIP : option (list bytes);
  f_SourcePort : option (list PortRange); f_User : option (list bytes); f_InboundTag : option (list bytes);
  f_Protocols : option (list bytes) }.

Definition decode_field {A} (unmarshal : json_value → option A) (v : option json_value) : option (option A) :=
  match v with None => Some None | Some v => a ← unmarshal v; Some (Some a) end.

Definition decode_rule (j : JsonRule) : option RawFieldRule :=
  domain ← decode_field StringList_Unmarshal (j_Domain j);
  domains ← decode_field StringList_Unmarshal (j_Domains j);
  ip ← decode_field StringList_Unmarshal (j_IP j);
  port ← decode_field PortList_Unmarshal (j_Port j);
  network ← decode_field NetworkList_Unmarshal (j_Network j);
  source ← decode_field StringList_Unmarshal (j_SourceIP j);
  sourcePort ← decode_field PortList_Unmarshal (j_SourcePort j);
  user ← decode_field StringList_Unmarshal (j_User j);
  inboundTag ← decode_field StringList_Unmarshal (j_InboundTag j);
  protocols ← decode_field StringList_Unmarshal (j_Protocols j);
  Some {| f_Domain := domain; f_Domains := domains; f_IP := ip; f_Port := port; f_Network := network;
          f_SourceIP := source; f_SourcePort := sourcePort; f_User := user; f_InboundTag := inboundTag;
          f_Protocols := protocols |}.

Definition parseFieldRule (j : JsonRule) : outcome RoutingRule :=
  match decode_rule j with
  | None => Fail
  | Some f =>
    if decide (j_OutboundTag j = [] ∧ j_BalancerTag j = []) then Fail
    else
      let? domain := domains_loop (default [] (f_Domain f)) in
      let? domains := domains_loop (default [] (f_Domains f)) in
      let? geoip := ToCidrList (default [] (f_IP f)) in
      let? source := ToCidrList (default [] (f_SourceIP f)) in
      Ret {| rr_Domain := domain ++ domains;
             rr_DomainMatcher := j_DomainMatcher j;
             rr_UserEmail := default [] (f_User f);
             rr_InboundTag := default [] (f_InboundTag f);
             rr_PortList := f_Port f;
             rr_PortRange := None;
             rr_SourcePortList := f_SourcePort f;
             rr_Networks := match f_Network f with Some l => NetworkList_Build (Some l) | None => [] end;
             rr_NetworkList := None;
             rr_Geoip := geoip;
             rr_Cidr := [];
             rr_SourceGeoip := source;
             rr_SourceCidr := [];
             rr_Protocol := default [] (f_Protocols f);
             rr_Attributes := j_Attributes j;
             rr_Tag := j_OutboundTag j;
             rr_BalancingTag := if decide (j_OutboundTag j = []) then j_BalancerTag j else [];
             rr_RuleTag := j_RuleTag j |}
  end.

(** [strings.EqualFold] with the text field, whose letters have no other case forms than
    those of ASCII. *)
Definition is_field (s : bytes) : bool := bool_decide ((ascii_lower <$> s) = lit "field").

Definition ParseRule (j : JsonRule) : outcome RoutingRule :=
  if bool_decide (j_Type j = []) || is_field (j_Type j) then parseFieldRule j else Fail.

(** ** Balancers *)

(** The settings of the least-load strategy that the balancer uses itself; costs and
    tolerance, which pass to the order of the nodes, are part of its arguments. *)
Record strategyLeastLoadConfig := { l_Baselines : list Z; l_Expected : Z; l_MaxRTT : Z }.

Definition LeastLoad_Build (v : strategyLeastLoadConfig) : StrategyLeastLoadConfig :=
  {| Baselines := filter (λ b, 0 < b) (l_Baselines v);
     Expected := Z.max 0 (l_Expected v);
     MaxRTT := Z.max 0 (l_MaxRTT v) |}.

(** The JSON of a balancer; its settings are given as what the loader makes of them: an
    error, those of the least-load strategy, or an object without fields. *)
Inductive json_settings := BadSettings | EmptyConfig | LeastLoad (v : strategyLeastLoadConfig).

Record JsonBalancer := {
  b_Tag : bytes; b_Selectors : list bytes; b_Type : bytes; b_Settings : bytes → json_settings; b_FallbackTag : bytes }.

Definition strategies : list bytes := lit <$> ["random"; "leastping"; "roundrobin"; "leastload"]%string.

Definition JsonBalancer_Build (r : JsonBalancer) : option BalancingRule :=
  if decide (b_Tag r = []) then None
  else if decide (b_Selectors r = []) then None
  else
    let type := ToLower (b_Type r) in
    let type := if decide (type = []) then lit "random" else type in
    if decide (type ∉ strategies) then None
    else
      settings ← match b_Settings r type with
                 | BadSettings => None
                 | EmptyConfig => Some SettingsOther
                 | LeastLoad v => Some (SettingsLeastLoad (LeastLoad_Build v))
                 end;
      Some {| br_Tag := b_Tag r; br_OutboundSelector := b_Selectors r; br_Strategy := type;
              br_Settings := settings; br_FallbackTag := b_FallbackTag r |}.

(** ** The whole section *)

Record RouterConfig := {
  c_Settings : option (list JsonRule * bytes);
  c_RuleList : list JsonRule;
  c_DomainStrategy : option bytes;
  c_Balancers : list JsonBalancer;
  c_DomainMatcher : bytes }.

Definition getDomainStrategy (c : RouterConfig) : Config_DomainStrategy :=
  let ds := ToLower (match c_DomainStrategy c with
                     | Some ds => ds
                     | None => match c_Settings c with Some (_, ds) => ds | None => [] end end) in
  if decide (ds = lit "alwaysip") then Config_UseIp
  else if decide (ds = lit "ipifnonmatch") then Config_IpIfNonMatch
  else if decide (ds = lit "ipondemand") then Config_IpOnDemand
  else Config_AsIs.

Definition with_matcher (m : bytes) (rr : RoutingRule) : RoutingRule :=
  {| rr_Domain := rr_Domain rr; rr_DomainMatcher := if decide (rr_DomainMatcher rr = []) then m else rr_DomainMatcher rr;
     rr_UserEmail := rr_UserEmail rr; rr_InboundTag := rr_InboundTag rr; rr_PortList := rr_PortList rr;
     rr_PortRange := rr_PortRange rr; rr_SourcePortList := rr_SourcePortList rr; rr_Networks := rr_Networks rr;
     rr_NetworkList := rr_NetworkList rr; rr_Geoip := rr_Geoip rr; rr_Cidr := rr_Cidr rr;
     rr_SourceGeoip := rr_SourceGeoip rr; rr_SourceCidr := rr_SourceCidr rr; rr_Protocol := rr_Protocol rr;
     rr_Attributes := rr_Attributes rr; rr_Tag := rr_Tag rr; rr_BalancingTag := rr_BalancingTag rr; rr_RuleTag := rr_RuleTag rr |}.

Fixpoint rules_loop (matcher : bytes) (l : list JsonRule) : outcome (list RoutingRule) :=
  match l with
  | [] => Ret []
  | rawRule :: l =>
    let? rule := ParseRule rawRule in
    let? more := rules_loop matcher l in
    Ret (with_matcher matcher rule :: more)
  end.

Fixpoint balancers_loop (l : list JsonBalancer) : option (list BalancingRule) :=
  match l with
  | [] => Some []
  | r :: l => balancer ← JsonBalancer_Build r; more ← balancers_loop l; Some (balancer :: more)
  end.

(** The rules of the deprecated section come after the others. *)
Definition raw_rules (c : RouterConfig) : list JsonRule :=
  c_RuleList c ++ match c_Settings c with Some (l, _) => l | None => [] end.

Definition RouterConfig_Build (c : RouterConfig) : outcome Config :=
  let? rules := rules_loop (c_DomainMatcher c) (raw_rules c) in
  match balancers_loop (c_Balancers c) with
  | None => Fail
  | Some balancers => Ret {| DomainStrategy := getDomainStrategy c; cfg_Rule := rules; cfg_BalancingRule := balancers |}
  end.
End conf_router.
