(* ===== verification/ConfRouterSpec.v ===== *)
(** What the routing section means (src/upstream/xray-core/infra/conf/router.go): the
    list that [find] takes out of a data file, and the connections that the text of a
    rule is about. *)
From stdpp Require Import gmap sorting.
From S2P Require Import Prelude GoText NetIP NetIP6 GoConv Address Transport StrMatcher AcAutomaton Mph Conditions RouteRules Balancer CoreRouter ConfCommon ConfRouter.

(** ** Lists in data files *)

(** The varint of protobuf. *)
Fixpoint varint (fuel : nat) (n : Z) : bytes :=
  match fuel with
  | O => []
  | S fuel => if decide (n < 128) then [n] else (n mod 128 + 128) :: varint fuel (n / 128)
  end.

(** A list in a file: the key of the field, the length of the body, and the body, which
    begins with the code. *)
Definition body (code rest : bytes) : bytes := [10; Z.of_nat (length code)] ++ code ++ rest.
Definition entry (e : bytes * bytes) : bytes := [10] ++ varint 10 (Z.of_nat (length (body e.1 e.2))) ++ body e.1 e.2.
Definition data_file (l : list (bytes * bytes)) : bytes := mjoin (entry <$> l).

Definition entry_ok (e : bytes * bytes) : Prop :=
  Z.of_nat (length e.1) < 128 ∧ Z.of_nat (length (body e.1 e.2)) < 2 ^ 63.

(** The first list of a code. *)
Definition list_of (l : list (bytes * bytes)) (code : bytes) : option bytes :=
  (λ ie, body ie.2.1 ie.2.2) <$> list_find (λ e, e.1 = code) l.

Lemma byte_check (P : Z → bool) b : forallb P (Z.of_nat <$> seq 0 256) = true → is_byte b → P b = true.
Proof.
  rewrite forallb_forall. intros HP Hb. apply HP, list_elem_of_In, list_elem_of_fmap. unfold is_byte in Hb.
  exists (Z.to_nat b). split; [lia|]. apply elem_of_seq. lia.
Qed.

Lemma varint_digit b : is_byte b → Z.land b 0x7F = b mod 128 ∧ (Z.land b 0x80 = 0 ↔ b < 128).
Proof.
  intros Hb.
  pose proof (byte_check (λ b, bool_decide (Z.land b 0x7F = b mod 128 ∧ (Z.land b 0x80 = 0 ↔ b < 128))) b eq_refl Hb) as H.
  by apply bool_decide_eq_true in H.
Qed.

Lemma lor_shift x b shift : 0 ≤ shift → 0 ≤ x < 2 ^ shift → 0 ≤ b → Z.lor x (Z.shiftl b shift) = x + b * 2 ^ shift.
Proof.
  intros Hs Hx Hb. rewrite <- Z.shiftl_mul_pow2 by done. symmetry. apply Z.add_nocarry_lor.
  apply Z.bits_inj_0. intros i. rewrite Z.land_spec. destruct (decide (shift ≤ i)) as [Hi|Hi].
  - apply andb_false_intro1. by apply (proj1 (Z.bounded_iff_bits_nonneg shift x Hs (proj1 Hx)) (proj2 Hx)).
  - destruct (decide (0 ≤ i)); [|by rewrite (Z.testbit_neg_r x) by lia].
    rewrite Z.shiftl_spec by done. rewrite (Z.testbit_neg_r b) by lia. apply andb_false_r.
Qed.

(** Each round reads seven bits. *)
Lemma varint_loop_spec fuel n rest shift x k :
  0 ≤ shift → 0 ≤ x < 2 ^ shift → 0 ≤ n < 128 ^ Z.of_nat fuel → x + n * 2 ^ shift < 2 ^ 64 →
  varint_loop fuel (varint fuel n ++ rest) shift x k = (x + n * 2 ^ shift, (k + length (varint fuel n))%nat) ∧ varint fuel n ≠ [] ∨ fuel = 0%nat.
Proof.
  revert n shift x k. induction fuel as [|fuel IH]; intros n shift x k Hs Hx Hn Hlt; [by right|left].
  assert (0 < 2 ^ shift) by (apply Z.pow_pos_nonneg; lia).
  cbn [varint]. case_decide as Hsm; cbn [app varint_loop].
  - destruct (varint_digit n) as [E1 E2]; [unfold is_byte; lia|]. rewrite decide_True by (apply E2; lia).
    rewrite E1, (Z.mod_small n) by lia. split; [|done]. f_equal; [|cbn [length]; lia].
    rewrite (wrap_small 64); [by apply lor_shift; lia|]. rewrite Z.shiftl_mul_pow2 by done. unfold is_uint. nia.
  - assert (0 ≤ n mod 128 < 128) as Hm by (apply Z.mod_pos_bound; lia).
    destruct (varint_digit (n mod 128 + 128)) as [E1 E2]; [unfold is_byte; lia|].
    rewrite decide_False by (rewrite E2; lia). rewrite E1.
    replace ((n mod 128 + 128) mod 128) with (n mod 128) by (rewrite <- Z.add_mod_idemp_r by done; by rewrite Z.add_0_r, Z.mod_mod).
    assert (n = 128 * (n / 128) + n mod 128) as En by (apply Z.div_mod; lia).
    assert (0 ≤ n / 128) by (apply Z.div_pos; lia).
    assert (2 ^ (shift + 7) = 128 * 2 ^ shift) as Ep by (rewrite Z.pow_add_r by lia; lia).
    assert (u64 (Z.shiftl (n mod 128) shift) = Z.shiftl (n mod 128) shift) as ->.
    { apply wrap_small. rewrite Z.shiftl_mul_pow2 by done. unfold is_uint. nia. }
    rewrite lor_shift by lia.
    destruct (IH (n / 128) (shift + 7) (x + n mod 128 * 2 ^ shift) (S k)) as [[E _]|E].
    + lia.
    + rewrite Ep. nia.
    + split; [done|]. apply Z.div_lt_upper_bound; [lia|]. rewrite Nat2Z.inj_succ, Z.pow_succ_r in Hn by lia. lia.
    + rewrite Ep. nia.
    + rewrite E. split; [|done]. f_equal; [rewrite Ep; nia|cbn [length]; lia].
    + subst fuel. cbn in Hn. lia.
Qed.

Lemma DecodeVarint_varint n rest : 0 ≤ n < 2 ^ 64 →
  DecodeVarint (varint 10 n ++ rest) = (n, length (varint 10 n)) ∧ varint 10 n ≠ [].
Proof.
  intros Hn. unfold DecodeVarint. destruct (varint_loop_spec 10 n rest 0 0 0) as [[E Hne]|?]; [lia|lia| |lia| |done].
  - split; [lia|]. change (128 ^ Z.of_nat 10) with (64 * 2 ^ 64). lia.
  - rewrite E. split; [f_equal; lia|done].
Qed.

Lemma same_code_spec code x rest : (length code ≤ length x)%nat →
  same_code (x ++ rest) code = Some (bool_decide (take (length code) x = code)).
Proof.
  revert x. induction code as [|c code IH]; intros x Hl; [by destruct x|].
  destruct x as [|a x]; [cbn in Hl; lia|]. cbn [app same_code length take].
  cbn [length] in Hl. case_decide as Hc.
  - rewrite IH by lia. f_equal. subst a. apply bool_decide_ext. split; [by intros ->|by intros [= ?]].
  - by rewrite bool_decide_false by congruence.
Qed.

(** The loop over a whole file. *)
Lemma find_loop_spec fuel l code : code ≠ [] → Z.of_nat (length code) < 128 → Forall entry_ok l →
  (length (data_file l) < fuel)%nat → find_loop fuel (data_file l) code = Ret (list_of l code).
Proof.
  intros Hc Hc'. revert fuel. induction l as [|[c r] l IH]; intros fuel Hl Hf.
  { destruct fuel; [cbn in Hf; lia|]. done. }
  apply Forall_cons in Hl as [[Hk Hb] Hl]. cbn [fst snd] in *.
  destruct (DecodeVarint_varint (Z.of_nat (length (body c r))) (body c r ++ data_file l)) as [Ev Hv]; [lia|].
  set (v := varint 10 (Z.of_nat (length (body c r)))) in *. set (n := Z.of_nat (length (body c r))) in *.
  assert (data_file ((c, r) :: l) = 10 :: v ++ body c r ++ data_file l) as E.
  { unfold data_file. cbn [fmap list_fmap mjoin list_join]. unfold entry at 1. cbn [fst snd]. by rewrite <- !app_assoc. }
  rewrite E in *. destruct fuel as [|fuel]; [cbn in Hf; lia|]. cbn [length] in Hf. rewrite !length_app in Hf.
  assert (length v ≠ 0)%nat as Hv0 by (by destruct v).
  cbn [find_loop]. rewrite decide_False by (cbn [length]; rewrite length_app; lia).
  change (drop 1 (10 :: ?x)) with x. rewrite Ev. rewrite decide_False by lia.
  change (drop (1 + ?m) (10 :: ?x)) with (drop m x). rewrite drop_app_length.
  assert (int_of n = n) as -> by (unfold int_of; rewrite Z.mod_small; lia).
  assert (2 ≤ length (body c r))%nat as Hb2 by (unfold body; cbn; lia).
  rewrite decide_False by (rewrite length_app; lia). unfold body at 1 2. cbn [app lookup list_lookup ret_or_panic drop]. rewrite drop_0.
  assert ((if decide (Z.of_nat (length c) = Z.of_nat (length code)) then same_code ((c ++ r) ++ data_file l) code else Some false) =
    Some (bool_decide (c = code))) as ->.
  { case_decide as Hlc.
    - rewrite <- app_assoc, same_code_spec by lia. by rewrite take_ge by lia.
    - rewrite bool_decide_false; [done|]. by intros ->. }
  cbn [ret_or_panic]. unfold list_of. cbn [list_find]. case_bool_decide as Hsame.
  - rewrite decide_False by lia. rewrite decide_True by done. cbn [fmap option_fmap option_map fst snd]. do 2 f_equal.
    unfold n. by rewrite Nat2Z.id, take_app_length.
  - rewrite (decide_False (P := c = code)) by done.
    destruct l as [|e l].
    + rewrite decide_True; [done|]. change (data_file []) with (@nil Z). by rewrite app_nil_r.
    + assert (0 < length (data_file (e :: l)))%nat by (cbn; lia).
      rewrite decide_False by (rewrite length_app; lia). rewrite decide_False by lia. unfold n. rewrite Nat2Z.id, drop_app_length.
      rewrite IH by (try done; lia). unfold list_of. f_equal.
      by destruct (list_find _ (e :: l)) as [[? ?]|].
Qed.

(** ** Texts *)

Section texts.
Context `{UnicodeTables, UpperTables, Environment, DataFiles, RegexpEngine}.

Definition one_matches (t : Domain_Type) (v s : bytes) : Prop := domain_matches [(t, v)] s = true.

(** The name is in a list of a file, under a code and with all given attributes. *)
Definition site_has (file site s : bytes) : Prop :=
  ∃ code attrs ds d, Split site [64] = code :: attrs ∧ loadSite file (ToUpper code) = Ret ds ∧ d ∈ ds ∧
    Forall (λ a, ToLower a ∈ gd_Attribute d) attrs ∧ one_matches (gd_Type d) (gd_Value d) s.

Definition typed_prefixes : list (bytes * Domain_Type) :=
  [(lit "regexp:", Domain_Regex); (lit "domain:", Domain_Domain); (lit "full:", Domain_Full); (lit "keyword:", Domain_Plain)].

Definition domain_prefixes : list bytes :=
  lit <$> ["geosite:"; "ext:"; "ext-domain:"; "regexp:"; "domain:"; "full:"; "keyword:"; "dotless:"]%string.

(** The names that the text of a domain rule stands for. *)
Inductive names : bytes → bytes → Prop :=
| names_typed p t v s : (p, t) ∈ typed_prefixes → one_matches t v s → names (p ++ v) s
| names_plain v s : Forall (λ p, HasPrefix v p = false) domain_prefixes → one_matches Domain_Plain v s → names v s
| names_dotless s : one_matches Domain_Regex (lit "^[^.]*$") s → names (lit "dotless:") s
| names_dotless_with v s : v ≠ [] → one_matches Domain_Regex (lit "^[^.]*" ++ v ++ lit "[^.]*$") s → names (lit "dotless:" ++ v) s
| names_geosite site s : site_has (lit "geosite.dat") (ToUpper site) s → names (lit "geosite:" ++ site) s
| names_ext p file site s : p ∈ [lit "ext:"; lit "ext-domain:"] → 58 ∉ file → 58 ∉ site → site_has file site s →
    names (p ++ file ++ [58] ++ site) s.

Definition range_has (cidrs : list CIDR) (ip : bytes) : Prop := geoip_contains (plain_geoip cidrs) ip = true.

Definition ip_prefixes : list bytes := lit <$> ["geoip:"; "ext:"; "ext-ip:"]%string.

(** The addresses that the text of an address rule stands for. *)
Inductive covers : bytes → bytes → Prop :=
| covers_geoip code cidrs ip : HasPrefix code (lit "!") = false → loadGeoIP (ToUpper code) = Ret cidrs → range_has cidrs ip →
    covers (lit "geoip:" ++ code) ip
| covers_not_geoip code cidrs ip : loadGeoIP (ToUpper code) = Ret cidrs → ¬ range_has cidrs ip → covers (lit "geoip:!" ++ code) ip
| covers_ext p file code cidrs ip : p ∈ [lit "ext:"; lit "ext-ip:"] → 58 ∉ file → 58 ∉ code → HasPrefix code (lit "!") = false →
    loadIP file (ToUpper code) = Ret cidrs → range_has cidrs ip → covers (p ++ file ++ [58] ++ code) ip
| covers_not_ext p file code cidrs ip : p ∈ [lit "ext:"; lit "ext-ip:"] → 58 ∉ file → 58 ∉ code →
    loadIP file (ToUpper code) = Ret cidrs → ¬ range_has cidrs ip → covers (p ++ file ++ [58] ++ lit "!" ++ code) ip
| covers_address t cidr ip : Forall (λ p, HasPrefix t p = false) ip_prefixes → ParseIP t = Ret cidr → range_has [cidr] ip → covers t ip.

(** *** Prefixes *)

Lemma HasPrefix_nil s : HasPrefix s [] = true.
Proof. unfold HasPrefix. apply bool_decide_eq_true, prefix_nil. Qed.

Lemma HasPrefix_cons c r d k : HasPrefix (c :: r) (d :: k) = (c =? d) && HasPrefix r k.
Proof.
  unfold HasPrefix. destruct (Z.eqb_spec c d) as [->|Hne]; cbn [andb].
  - apply bool_decide_ext. split; [apply prefix_cons_inv_2|apply prefix_cons].
  - apply bool_decide_eq_false. intros Hp. by apply prefix_cons_inv_1 in Hp.
Qed.

Lemma HasPrefix_true s p : HasPrefix s p = true → s = p ++ drop (length p) s.
Proof. intros [r ->]%bool_decide_eq_true. by rewrite drop_app_length. Qed.

Lemma HasPrefix_app p r : HasPrefix (p ++ r) p = true.
Proof. apply bool_decide_eq_true. by exists r. Qed.
End texts.

(** Decides prefixes of texts that begin with literals. *)
Ltac lits := repeat match goal with |- context [lit ?s] => let v := eval vm_compute in (lit s) in change (lit s) with v end.
Ltac prefixes := lits; cbn [app]; rewrite ?HasPrefix_cons, ?HasPrefix_nil; cbn [Z.eqb Pos.eqb andb].

Section domains.
Context `{UnicodeTables, UpperTables, Environment, DataFiles, RegexpEngine}.

Lemma domain_matches_app a b s : domain_matches (a ++ b) s = domain_matches a s || domain_matches b s.
Proof. apply existsb_app. Qed.

Lemma domain_matches_in ds s : domain_matches ds s = true ↔ ∃ d, d ∈ ds ∧ one_matches d.1 d.2 s.
Proof.
  unfold one_matches, domain_matches. rewrite existsb_exists. split; intros (d & Hd & Hm); exists d;
    (split; [by apply list_elem_of_In|]); destruct d as [t v]; cbn [existsb fst snd] in *; [by rewrite orb_false_r|by rewrite orb_false_r in Hm].
Qed.

Lemma AttributeList_Match_spec al d : AttributeList_Match al d = true ↔ Forall (λ m, m ∈ gd_Attribute d) al.
Proof.
  unfold AttributeList_Match. rewrite forallb_forall, Forall_forall. split; intros Hm m Hin.
  - apply list_elem_of_In, Hm, bool_decide_eq_true in Hin. done.
  - apply bool_decide_eq_true, Hm. by apply list_elem_of_In.
Qed.

Lemma loadGeosite_spec file site ds s : loadGeositeWithAttr file site = Ret ds →
  domain_matches ((λ d, (gd_Type d, gd_Value d)) <$> ds) s = true ↔ site_has file site s.
Proof.
  unfold loadGeositeWithAttr, site_has. destruct (Split site [64]) as [|code attrs] eqn:E; [done|].
  destruct (loadSite file (ToUpper code)) as [all| |] eqn:El; [|done|done]. cbn [outcome_bind]. intros Hds.
  assert (ds = filter (λ d, AttributeList_Match (parseAttrs attrs) d = true) all) as ->.
  { destruct (parseAttrs attrs) as [|a al]; [|by injection Hds as <-]. injection Hds as <-. symmetry. apply list_filter_all, Forall_true. done. }
  rewrite domain_matches_in. split.
  - intros (d & (g & -> & [Hm Hg]%list_elem_of_filter)%list_elem_of_fmap & Hs). exists code, attrs, all, g.
    split_all; [done|done|done| |done]. apply AttributeList_Match_spec in Hm. by apply Forall_fmap in Hm.
  - intros (code' & attrs' & ds' & d & [= <- <-] & E' & Hd & Ha & Hm). rewrite El in E'. injection E' as <-.
    exists (gd_Type d, gd_Value d). split; [|done]. apply list_elem_of_fmap. exists d. split; [done|]. apply list_elem_of_filter.
    split; [|done]. apply AttributeList_Match_spec. by apply Forall_fmap.
Qed.

(** A part after a colon. *)
Lemma Split_one c a b : c ∉ a → c ∉ b → Split (a ++ [c] ++ b) [c] = [a; b].
Proof. intros Ha Hb. apply (Split_Join c [] [a; b]); [done|]. by repeat constructor. Qed.

Lemma Split_two_inv s a b : Split s [58] = [a; b] → s = a ++ [58] ++ b ∧ 58 ∉ a ∧ 58 ∉ b.
Proof.
  intros E. split; [by rewrite <- (Join_Split s [58]), E by done|].
  assert (Forall (λ p, 58 ∉ p) (Split s [58])) as Hp by (by apply not_in_Split). rewrite E in Hp.
  by rewrite !Forall_cons in Hp; destruct Hp as (? & ? & _).
Qed.

(** Texts with one of the prefixes, and without. *)
Lemma ext_prefix s q : isExtDatFile s q ≠ 0%nat → ∃ p, p ∈ [lit "ext:"; q] ∧ s = p ++ drop (isExtDatFile s q) s ∧ isExtDatFile s q = length p.
Proof.
  unfold isExtDatFile. destruct (HasPrefix s q) eqn:Eq; [|destruct (HasPrefix s (lit "ext:")) eqn:Ee; [|done]]; intros _.
  - exists q. split_all; [set_solver|by apply HasPrefix_true|done].
  - exists (lit "ext:"). split_all; [set_solver|by apply HasPrefix_true|done].
Qed.

Lemma listed_Ret o ds : listed o = Ret ds → ∃ l, o = Ret l ∧ ds = (λ d, (gd_Type d, gd_Value d)) <$> l.
Proof. destruct o as [l| |]; [|done|done]. intros [= <-]. by exists l. Qed.

Lemma site_has_loaded file site s l : loadGeositeWithAttr file site = Ret l →
  domain_matches ((λ d, (gd_Type d, gd_Value d)) <$> l) s = true ↔ site_has file site s.
Proof. apply loadGeosite_spec. Qed.

(** What [parseDomainRule] reads is what the text says. *)
Lemma parse_names t ds s : parseDomainRule t = Ret ds → domain_matches ds s = true → names t s.
Proof.
  unfold parseDomainRule. destruct (HasPrefix t (lit "geosite:")) eqn:Eg.
  { intros (l & El & ->)%listed_Ret Hm. rewrite (HasPrefix_true _ _ Eg). apply names_geosite. by apply (loadGeosite_spec _ _ _ _ El). }
  destruct (decide (isExtDatFile t (lit "ext-domain:") ≠ 0%nat)) as [He|He].
  { destruct (ext_prefix _ _ He) as (p & Hp & Et & Elen). destruct (Split _ _) as [|file [|site [|]]] eqn:Es; [done|done| |done].
    intros (l & El & ->)%listed_Ret Hm. apply Split_two_inv in Es as (E & Hf & Hs). rewrite Et, E.
    apply names_ext; [done|done|done|]. by apply (loadGeosite_spec _ _ _ _ El). }
  apply dec_stable in He. unfold isExtDatFile in He.
  destruct (HasPrefix t (lit "ext-domain:")) eqn:Eed; [done|]. destruct (HasPrefix t (lit "ext:")) eqn:Ee; [done|].
  assert (∀ p ty, (p, ty) ∈ typed_prefixes → HasPrefix t p = true → typed ty (drop (length p) t) = Ret ds →
    domain_matches ds s = true → names t s) as Htyped.
  { intros p ty Hin Ht [= <-] Hm. rewrite (HasPrefix_true _ _ Ht). by eapply names_typed. }
  unfold typed_prefixes in Htyped.
  destruct (HasPrefix t (lit "regexp:")) eqn:Er; [apply (Htyped (lit "regexp:") Domain_Regex); [set_solver|done]|].
  destruct (HasPrefix t (lit "domain:")) eqn:Ed; [apply (Htyped (lit "domain:") Domain_Domain); [set_solver|done]|].
  destruct (HasPrefix t (lit "full:")) eqn:Ef; [apply (Htyped (lit "full:") Domain_Full); [set_solver|done]|].
  destruct (HasPrefix t (lit "keyword:")) eqn:Ek; [apply (Htyped (lit "keyword:") Domain_Plain); [set_solver|done]|].
  destruct (HasPrefix t (lit "dotless:")) eqn:Edl.
  - rewrite (HasPrefix_true _ _ Edl). change (drop 8) with (drop (A:=Z) (length (lit "dotless:"))). rewrite drop_app_length.
    case_decide as Hn; [rewrite Hn; intros [= <-] Hm; rewrite app_nil_r; by apply names_dotless|].
    destruct (Contains _ [46]); [done|]. intros [= <-] Hm. by apply names_dotless_with.
  - intros [= <-] Hm. apply names_plain; [|done]. by repeat (apply Forall_cons; split; [assumption|]).
Qed.

Lemma parse_typed p ty v : (p, ty) ∈ typed_prefixes → parseDomainRule (p ++ v) = Ret [(ty, v)].
Proof.
  intros Hin. unfold typed_prefixes in Hin. rewrite !elem_of_cons, elem_of_nil in Hin. unfold parseDomainRule, isExtDatFile, typed.
  destruct Hin as [[= -> ->]|[[= -> ->]|[[= -> ->]|[[= -> ->]|[]]]]]; prefixes; by rewrite ?drop_0.
Qed.

Lemma names_parse t ds s : names t s → parseDomainRule t = Ret ds → domain_matches ds s = true.
Proof.
  intros Hn. destruct Hn as [p ty v s Hin Hm|v s Hno Hm|s Hm|v s Hv Hm|site s Hm|p file site s Hin Hf Hs Hm].
  - rewrite (parse_typed p ty v Hin). by intros [= <-].
  - unfold domain_prefixes in Hno. cbn [fmap list_fmap] in Hno. rewrite !Forall_cons in Hno.
    destruct Hno as (E1 & E2 & E3 & E4 & E5 & E6 & E7 & E8 & _). unfold parseDomainRule, isExtDatFile.
    rewrite E1, E3, E2, E4, E5, E6, E7, E8. rewrite decide_False by tauto. by intros [= <-].
  - unfold parseDomainRule, isExtDatFile. prefixes. rewrite decide_False by tauto. by intros [= <-].
  - unfold parseDomainRule, isExtDatFile. prefixes. rewrite decide_False by tauto. cbn [drop]. rewrite ?drop_0.
    rewrite decide_False by done. destruct (Contains v [46]); [done|]. by intros [= <-].
  - unfold parseDomainRule. prefixes. cbn [drop]. rewrite ?drop_0. intros (l & El & ->)%listed_Ret.
    by apply (loadGeosite_spec _ _ _ _ El).
  - assert (parseDomainRule (p ++ file ++ [58] ++ site) = listed (loadGeositeWithAttr file site)) as ->.
    { rewrite !elem_of_cons, elem_of_nil in Hin. unfold parseDomainRule, isExtDatFile.
      destruct Hin as [->|[->|[]]]; prefixes; rewrite decide_True by done; cbn [drop length]; rewrite ?drop_0;
        change (58 :: site) with ([58] ++ site); by rewrite Split_one. }
    intros (l & El & ->)%listed_Ret. by apply (loadGeosite_spec _ _ _ _ El).
Qed.

(** All texts of a rule. *)
Lemma domains_loop_spec ts ds s : domains_loop ts = Ret ds → domain_matches ds s = true ↔ ∃ t, t ∈ ts ∧ names t s.
Proof.
  revert ds. induction ts as [|t ts IH]; intros ds; cbn [domains_loop].
  - intros [= <-]. split; [done|]. intros (t & Hin & _). by apply not_elem_of_nil in Hin.
  - destruct (parseDomainRule t) as [d| |] eqn:Et; [|done|done]. cbn [outcome_bind].
    destruct (domains_loop ts) as [more| |]; [|done|done]. cbn [outcome_bind]. intros [= <-].
    rewrite domain_matches_app, orb_true_iff, (IH more eq_refl). split.
    + intros [Hm|(t' & Hin & Hm)]; [exists t; split; [by left|by eapply parse_names]|exists t'; split; [by right|done]].
    + intros (t' & [->|Hin]%elem_of_cons & Hm); [left; by eapply names_parse|right; by exists t'].
Qed.

Lemma domains_loop_nonempty ts ds : domains_loop ts = Ret ds → Forall (λ t, parseDomainRule t ≠ Ret []) ts → ds = [] ↔ ts = [].
Proof.
  destruct ts as [|t ts]; cbn [domains_loop]; [by intros [= <-]|].
  destruct (parseDomainRule t) as [d| |] eqn:Et; [|done|done]. cbn [outcome_bind].
  destruct (domains_loop ts) as [more| |]; [|done|done]. cbn [outcome_bind]. intros [= <-] Hf.
  apply Forall_cons in Hf as [Hf _]. rewrite Et in Hf. split; [|done]. intros [-> _]%app_eq_nil. done.
Qed.
End domains.

Section addresses.
Context `{UnicodeTables, UpperTables, Environment, DataFiles}.

Definition entry_has (e : GeoIP + CIDR) (ip : bytes) : Prop :=
  match e with inl g => geoip_contains g ip = true | inr c => range_has [c] ip end.

Lemma geoip_reverse code cidrs rev ip :
  geoip_contains {| CountryCode := code; Cidr := cidrs; ReverseMatch := rev |} ip = xorb rev (geoip_contains (plain_geoip cidrs) ip).
Proof. unfold geoip_contains. cbn. by destruct rev. Qed.

Lemma geoip_entry code cidrs rev ip :
  entry_has (inl {| CountryCode := code; Cidr := cidrs; ReverseMatch := rev |}) ip ↔
  if rev : bool then ¬ range_has cidrs ip else range_has cidrs ip.
Proof.
  cbn [entry_has]. rewrite geoip_reverse. unfold range_has. destruct rev, (geoip_contains (plain_geoip cidrs) ip); cbn; split; done || (intros Hn; by destruct Hn).
Qed.

(** What [ip_entry] reads is what the text says. *)
Lemma entry_covers t e ip : ip_entry t = Ret e → entry_has e ip → covers t ip.
Proof.
  unfold ip_entry. destruct (HasPrefix t (lit "geoip:")) eqn:Eg.
  { destruct (HasPrefix t (lit "geoip:!")) eqn:Er; (case_decide; [done|]);
      (destruct (loadGeoIP _) as [cidrs| |] eqn:El; [|done|done]); cbn [outcome_bind]; intros [= <-] Hm%geoip_entry.
    - rewrite (HasPrefix_true _ _ Er). by eapply covers_not_geoip.
    - rewrite (HasPrefix_true _ _ Eg). eapply covers_geoip; [|done|done].
      rewrite (HasPrefix_true _ _ Eg) in Er. revert Er. change (length (lit "geoip:")) with 6%nat. prefixes. by intros ->. }
  destruct (decide (isExtDatFile t (lit "ext-ip:") ≠ 0%nat)) as [He|He].
  { destruct (ext_prefix _ _ He) as (p & Hp & Et & Elen). destruct (Split _ _) as [|file [|code [|]]] eqn:Es; [done|done| |done].
    apply Split_two_inv in Es as (E & Hf & Hs). case_decide; [done|].
    destruct (HasPrefix code [33]) eqn:Er; (destruct (loadIP _ _) as [cidrs| |] eqn:El; [|done|done]); cbn [outcome_bind];
      intros [= <-] Hm%geoip_entry; rewrite Et, E.
    - rewrite (HasPrefix_true _ _ Er). eapply covers_not_ext; [done|done| |done|done].
      intros Hin. apply Hs. rewrite (HasPrefix_true _ _ Er). set_solver.
    - by eapply covers_ext. }
  apply dec_stable in He. unfold isExtDatFile in He.
  destruct (HasPrefix t (lit "ext-ip:")) eqn:Eei; [done|]. destruct (HasPrefix t (lit "ext:")) eqn:Ee; [done|].
  destruct (ParseIP t) as [c| |] eqn:Ep; [|done|done]. cbn [outcome_bind]. intros [= <-] Hm.
  eapply covers_address; [|done|done]. by repeat (apply Forall_cons; split; [assumption|]).
Qed.

Lemma covers_entry t e ip : covers t ip → ip_entry t = Ret e → entry_has e ip.
Proof.
  intros Hc. destruct Hc as [code cidrs ip Hr El Hm|code cidrs ip El Hm|p file code cidrs ip Hin Hf Hs Hr El Hm|p file code cidrs ip Hin Hf Hs El Hm|t cidr ip Hno Ep Hm].
  - change (lit "!") with [33] in Hr. unfold ip_entry. prefixes. rewrite Hr. cbn [drop]. rewrite ?drop_0. case_decide; [done|]. rewrite El. cbn [outcome_bind].
    intros [= <-]. by apply geoip_entry.
  - unfold ip_entry. prefixes. cbn [drop]. rewrite ?drop_0. case_decide; [done|]. rewrite El. cbn [outcome_bind].
    intros [= <-]. by apply geoip_entry.
  - change (lit "!") with [33] in Hr. rewrite !elem_of_cons, elem_of_nil in Hin. unfold ip_entry, isExtDatFile.
    destruct Hin as [->|[->|[]]]; prefixes; rewrite decide_True by done; cbn [drop length]; rewrite ?drop_0;
      change (58 :: code) with ([58] ++ code); rewrite Split_one by done; (case_decide; [done|]); rewrite Hr, El; cbn [outcome_bind];
      intros [= <-]; by apply geoip_entry.
  - rewrite !elem_of_cons, elem_of_nil in Hin. assert (58 ∉ lit "!" ++ code) as Hs' by set_solver.
    unfold ip_entry, isExtDatFile.
    destruct Hin as [->|[->|[]]]; prefixes; rewrite decide_True by done; cbn [drop length]; rewrite ?drop_0;
      change (58 :: 33 :: code) with ([58] ++ lit "!" ++ code); rewrite Split_one by done; (case_decide; [done|]);
      change (lit "!" ++ code) with (33 :: code); rewrite HasPrefix_cons, HasPrefix_nil; cbn [Z.eqb Pos.eqb andb drop];
      rewrite ?drop_0, El; cbn [outcome_bind]; intros [= <-]; by apply geoip_entry.
  - unfold ip_prefixes in Hno. cbn [fmap list_fmap] in Hno. rewrite !Forall_cons in Hno. destruct Hno as (E1 & E2 & E3 & _).
    unfold ip_entry, isExtDatFile. rewrite E1, E3, E2. rewrite decide_False by tauto. rewrite Ep. cbn [outcome_bind]. by intros [= <-].
Qed.

Lemma range_app a b ip : range_has (a ++ b) ip ↔ range_has a ip ∨ range_has b ip.
Proof.
  unfold range_has, geoip_contains, plain_geoip. cbn [Cidr ReverseMatch xorb]. case_decide; [|split; [done|by intros [|]]].
  by rewrite existsb_app, orb_true_iff.
Qed.

Lemma range_nil ip : ¬ range_has [] ip.
Proof. unfold range_has, geoip_contains, plain_geoip. cbn. by case_decide. Qed.

Lemma existsb_snoc {A} (f : A → bool) l x : existsb f (l ++ [x]) = true ↔ existsb f l = true ∨ f x = true.
Proof. rewrite existsb_app, orb_true_iff. cbn [existsb]. by rewrite orb_false_r. Qed.

Lemma cidrs_loop_spec ts gs cs gs' cs' ip : cidrs_loop ts gs cs = Ret (gs', cs') →
  existsb (λ g, geoip_contains g ip) gs' = true ∨ range_has cs' ip ↔
  (existsb (λ g, geoip_contains g ip) gs = true ∨ range_has cs ip) ∨ ∃ t, t ∈ ts ∧ covers t ip.
Proof.
  revert gs cs. induction ts as [|t ts IH]; intros gs cs; cbn [cidrs_loop].
  - intros [= <- <-]. split; [by left|]. intros [Hm|(t & Hin & _)]; [done|by apply not_elem_of_nil in Hin].
  - destruct (ip_entry t) as [e| |] eqn:Ee; [|done|done]. cbn [outcome_bind]. intros E.
    assert ((∃ t', t' ∈ t :: ts ∧ covers t' ip) ↔ entry_has e ip ∨ ∃ t', t' ∈ ts ∧ covers t' ip) as ->.
    { split.
      - intros (t' & [->|Hin]%elem_of_cons & Hm); [left; by eapply covers_entry|right; by exists t'].
      - intros [Hm|(t' & Hin & Hm)]; [exists t; split; [by left|by eapply entry_covers]|exists t'; split; [by right|done]]. }
    destruct e as [g|c]; rewrite (IH _ _ E); cbn [entry_has]; [rewrite existsb_snoc|rewrite range_app]; tauto.
Qed.

Lemma ToCidrList_spec ts gs ip : ToCidrList ts = Ret gs →
  existsb (λ g, geoip_contains g ip) gs = true ↔ ∃ t, t ∈ ts ∧ covers t ip.
Proof.
  unfold ToCidrList. destruct (cidrs_loop ts [] []) as [[gl cs]| |] eqn:El; [|done|done]. cbn [outcome_bind]. intros [= <-].
  pose proof (cidrs_loop_spec _ _ _ _ _ ip El) as Hs. cbn [existsb] in Hs. pose proof (range_nil ip).
  assert (existsb (λ g, geoip_contains g ip) (match cs with [] => gl | _ => gl ++ [plain_geoip cs] end) = true ↔
    existsb (λ g, geoip_contains g ip) gl = true ∨ range_has cs ip) as ->.
  { destruct cs as [|c cs]; [tauto|]. by rewrite existsb_snoc. }
  rewrite Hs. split; [intros [[?|?]|?]; done|by right].
Qed.

Lemma cidrs_loop_length ts gs cs gs' cs' : cidrs_loop ts gs cs = Ret (gs', cs') →
  (length gs' + length cs' = length ts + length gs + length cs)%nat.
Proof.
  revert gs cs. induction ts as [|t ts IH]; intros gs cs; cbn [cidrs_loop]; [by intros [= <- <-]|].
  destruct (ip_entry t) as [[g|c]| |]; cbn [outcome_bind]; [| |done|done]; intros E%IH; rewrite E, length_app; cbn; lia.
Qed.

Lemma ToCidrList_nil ts gs : ToCidrList ts = Ret gs → gs = [] ↔ ts = [].
Proof.
  unfold ToCidrList. destruct (cidrs_loop ts [] []) as [[gl cs]| |] eqn:El; [|done|done]. cbn [outcome_bind]. intros [= <-].
  apply cidrs_loop_length in El. cbn [length] in El. split.
  - intros E. destruct ts; [done|]. cbn in El. destruct cs; [destruct gl; [cbn in El; lia|done]|by apply app_eq_nil in E as [_ ?]].
  - intros ->. cbn in El. destruct gl, cs; done.
Qed.
End addresses.

(** ** Rules *)

Section rules.
Context `{UnicodeTables, UpperTables, Environment, DataFiles, RegexpEngine}.

Definition texts (v : option json_value) : list bytes := default [] (v ≫= StringList_Unmarshal).

(** A list of texts restricts nothing when it is empty. *)
Definition given (ts : list bytes) (P : bytes → Prop) : Prop := ts = [] ∨ ∃ t, t ∈ ts ∧ P t.

Definition port_in (v : option json_value) (port : Z) : Prop :=
  ∀ w l, v = Some w → PortList_Unmarshal w = Some l → ports_hold l port = true.

(** The connections that the text of a rule is about; [ips] are the addresses of the
    target. *)
Record fits (j : JsonRule) (c : Context) (ips : list bytes) : Prop := {
  fit_domain : given (texts (j_Domain j) ++ texts (j_Domains j)) (λ t, target_domain c ≠ [] ∧ names t (ToLower (target_domain c)));
  fit_ip : given (texts (j_IP j)) (λ t, ∃ ip, ip ∈ ips ∧ covers t ip);
  fit_source : given (texts (j_SourceIP j)) (λ t, ∃ ip, ip ∈ source_ips c ∧ covers t ip);
  fit_port : port_in (j_Port j) (GetTargetPort c);
  fit_source_port : port_in (j_SourcePort j) (GetSourcePort c);
  fit_network : given (texts (j_Network j)) (λ t, Network_Build t = GetNetwork c);
  fit_user : given (texts (j_User j)) (λ t, t ≠ [] ∧ t = GetUser c);
  fit_inbound : given (texts (j_InboundTag j)) (λ t, t ≠ [] ∧ t = GetInboundTag c);
  fit_protocol : given (texts (j_Protocols j)) (λ t, t ≠ [] ∧ t `prefix_of` GetProtocol c);
  fit_attributes : j_Attributes j = [] ∨ attributes_hold (j_Attributes j) (GetAttributes c) = true
}.

(** The target of a rule is its outbound, or without one its balancer. *)
Definition rule_target (j : JsonRule) (rr : RoutingRule) : Prop :=
  rr_RuleTag rr = j_RuleTag j ∧ rr_Tag rr = j_OutboundTag j ∧
  if decide (j_OutboundTag j = []) then rr_BalancingTag rr = j_BalancerTag j ∧ j_BalancerTag j ≠ [] else rr_BalancingTag rr = [].

(** Every list of domains that the rule names has an entry. *)
Definition lists_domains (j : JsonRule) : Prop :=
  Forall (λ t, parseDomainRule t ≠ Ret []) (texts (j_Domain j) ++ texts (j_Domains j)).

Lemma decode_field_spec {A} (u : json_value → option A) v o : decode_field u v = Some o → o = v ≫= u.
Proof. destruct v as [w|]; cbn; [|by intros [= <-]]. destruct (u w); [|done]. by intros [= <-]. Qed.

Lemma given_any_or {A} (l : list A) ts (f : list A → bool) (P : bytes → Prop) :
  (l = [] ↔ ts = []) → (f l = true ↔ ∃ t, t ∈ ts ∧ P t) → any_or l f = true ↔ given ts P.
Proof.
  intros He Hf. unfold any_or, given. destruct l as [|a l].
  - split; [left; by apply He|done].
  - rewrite Hf. split; [by right|]. intros [Ht|?]; [|done]. by apply He in Ht.
Qed.

Lemma domains_clause ts ds c : domains_loop ts = Ret ds → Forall (λ t, parseDomainRule t ≠ Ret []) ts →
  any_or ds (λ ds, bool_decide (target_domain c ≠ []) && domain_matches ds (ToLower (target_domain c))) = true ↔
  given ts (λ t, target_domain c ≠ [] ∧ names t (ToLower (target_domain c))).
Proof.
  intros Hd Hf. apply given_any_or; [by apply domains_loop_nonempty|].
  rewrite andb_true_iff, bool_decide_eq_true, (domains_loop_spec ts ds) by done. naive_solver.
Qed.

Lemma ips_clause ts gs ips : ToCidrList ts = Ret gs →
  ips_hold gs [] ips = true ↔ given ts (λ t, ∃ ip, ip ∈ ips ∧ covers t ip).
Proof.
  intros Hg. pose proof (ToCidrList_nil _ _ Hg) as Hn.
  assert (ips_hold gs [] ips = any_or gs (λ gs, existsb (λ ip, existsb (λ g, geoip_contains g ip) gs) ips)) as -> by (by destruct gs).
  apply given_any_or; [done|]. rewrite existsb_exists. split.
  - intros (ip & Hin & Hm). apply (ToCidrList_spec _ _ _ Hg) in Hm as (t & Ht & Hc). exists t. split; [done|].
    exists ip. by rewrite list_elem_of_In.
  - intros (t & Ht & ip & Hin & Hc). exists ip. rewrite <- list_elem_of_In. split; [done|].
    apply (ToCidrList_spec _ _ _ Hg). by exists t.
Qed.

Lemma ports_clause v o port : decode_field PortList_Unmarshal v = Some o →
  (match o with Some l => ports_hold l port | None => true end) = true ↔ port_in v port.
Proof.
  unfold port_in. destruct v as [w|]; cbn.
  - destruct (PortList_Unmarshal w) as [l|] eqn:El; [|done]. cbn. intros [= <-]. split.
    + intros Hm w' l' [= <-] E. rewrite El in E. by injection E as <-.
    + intros Hm. by apply (Hm w).
  - intros [= <-]. done.
Qed.

Lemma names_clause ts (x : bytes) :
  any_or ts (λ us, bool_decide (x ≠ [] ∧ x ∈ us)) = true ↔ given ts (λ t, t ≠ [] ∧ t = x).
Proof. apply given_any_or; [done|]. rewrite bool_decide_eq_true. naive_solver. Qed.

Lemma protocols_clause ts (x : bytes) :
  any_or ts (λ ps, bool_decide (x ≠ []) && existsb (λ p, bool_decide (p ≠ []) && HasPrefix x p) ps) = true ↔
  given ts (λ t, t ≠ [] ∧ t `prefix_of` x).
Proof.
  apply given_any_or; [done|]. rewrite andb_true_iff, bool_decide_eq_true, existsb_exists. split.
  - intros (_ & p & Hin & [Hne Hp]%andb_true_iff). exists p. apply list_elem_of_In in Hin.
    unfold HasPrefix in Hp. by rewrite bool_decide_eq_true in Hne, Hp.
  - intros (t & Hin & Hne & Hp). split; [intros ->; by apply prefix_nil_inv in Hp|]. exists t. rewrite <- list_elem_of_In. split; [done|].
    apply andb_true_iff. split; by apply bool_decide_eq_true.
Qed.

Lemma networks_clause ts n :
  match Network_Build <$> ts with [] => true | _ :: _ => bool_decide (n ∈ Network_Build <$> ts) end = true ↔
  given ts (λ t, Network_Build t = n).
Proof.
  unfold given. destruct ts as [|t ts]; [split; [by left|done]|]. cbn [fmap list_fmap]. rewrite bool_decide_eq_true. split.
  - intros Hin. right. change (Network_Build t :: (Network_Build <$> ts)) with (Network_Build <$> (t :: ts)) in Hin.
    apply list_elem_of_fmap in Hin as (t' & -> & Hin). by exists t'.
  - intros [?|(t' & Hin & <-)]; [done|]. change (Network_Build t :: (Network_Build <$> ts)) with (Network_Build <$> (t :: ts)).
    by apply list_elem_of_fmap_2.
Qed.

Lemma domains_loop_app a b d1 d2 : domains_loop a = Ret d1 → domains_loop b = Ret d2 → domains_loop (a ++ b) = Ret (d1 ++ d2).
Proof.
  revert d1. induction a as [|t a IH]; intros d1; cbn [domains_loop app]; [by intros [= <-]|].
  destruct (parseDomainRule t) as [d| |]; [|done|done]. cbn [outcome_bind].
  destruct (domains_loop a) as [more| |]; [|done|done]. cbn [outcome_bind]. intros [= <-] Hb.
  rewrite (IH more eq_refl Hb). cbn [outcome_bind]. by rewrite app_assoc.
Qed.

(** The fields of a rule that is decoded. *)
Lemma decode_rule_fields j f : decode_rule j = Some f →
  (default [] (f_Domain f) = texts (j_Domain j) ∧ default [] (f_Domains f) = texts (j_Domains j) ∧
   default [] (f_IP f) = texts (j_IP j) ∧ default [] (f_SourceIP f) = texts (j_SourceIP j) ∧
   default [] (f_User f) = texts (j_User j) ∧ default [] (f_InboundTag f) = texts (j_InboundTag j) ∧
   default [] (f_Protocols f) = texts (j_Protocols j)) ∧
  match f_Network f with Some l => NetworkList_Build (Some l) | None => [] end = Network_Build <$> texts (j_Network j) ∧
  decode_field PortList_Unmarshal (j_Port j) = Some (f_Port f) ∧
  decode_field PortList_Unmarshal (j_SourcePort j) = Some (f_SourcePort f).
Proof.
  intros Ej. unfold decode_rule in Ej.
  repeat match type of Ej with (decode_field ?u ?v ≫= _) = _ =>
    let E := fresh "E" in destruct (decode_field u v) eqn:E; [cbn [mbind option_bind] in Ej|done] end.
  injection Ej as <-. cbn [f_Domain f_Domains f_IP f_Port f_Network f_SourceIP f_SourcePort f_User f_InboundTag f_Protocols].
  repeat match goal with E : decode_field StringList_Unmarshal _ = Some _ |- _ => apply decode_field_spec in E
                       | E : decode_field NetworkList_Unmarshal _ = Some _ |- _ => apply decode_field_spec in E end.
  unfold texts. split_all; try (by f_equal); try done. subst. unfold NetworkList_Unmarshal.
  by destruct (j_Network j ≫= StringList_Unmarshal).
Qed.

(** What the configuration of the router says is what the text says. *)
Lemma parse_fits j rr : parseFieldRule j = Ret rr → lists_domains j →
  rule_target j rr ∧ ∀ c ips, rule_holds rr c ips = true ↔ fits j c ips.
Proof.
  unfold parseFieldRule. destruct (decode_rule j) as [f|] eqn:Ej; [|done]. case_decide as Htag; [done|]. intros Hrr Hl.
  destruct (decode_rule_fields _ _ Ej) as [(-> & -> & -> & -> & -> & -> & ->) (-> & Ep & Esp)] in Hrr.
  destruct (domains_loop (texts (j_Domain j))) as [d1| |] eqn:D1; [|done|done]. cbn [outcome_bind] in Hrr.
  destruct (domains_loop (texts (j_Domains j))) as [d2| |] eqn:D2; [|done|done]. cbn [outcome_bind] in Hrr.
  destruct (ToCidrList (texts (j_IP j))) as [gi| |] eqn:G1; [|done|done]. cbn [outcome_bind] in Hrr.
  destruct (ToCidrList (texts (j_SourceIP j))) as [gs| |] eqn:G2; [|done|done]. cbn [outcome_bind] in Hrr.
  injection Hrr as <-. split.
  { unfold rule_target. cbn. split; [done|]. split; [done|]. case_decide; [|done]. split; [done|]. intros ?. by apply Htag. }
  intros c ips. unfold rule_holds.
  cbn [rr_Domain rr_UserEmail rr_InboundTag rr_PortList rr_PortRange rr_SourcePortList rr_Networks rr_NetworkList rr_Geoip rr_Cidr rr_SourceGeoip rr_SourceCidr rr_Protocol rr_Attributes].
  rewrite !andb_true_iff, (domains_clause _ _ _ (domains_loop_app _ _ _ _ D1 D2) Hl), !names_clause,
    (ports_clause _ _ _ Esp), (ips_clause _ _ _ G1), (ips_clause _ _ _ G2), protocols_clause.
  assert (match f_Port f with Some l => ports_hold l (GetTargetPort c) | None => true end = true ↔ port_in (j_Port j) (GetTargetPort c)) as Hp
    by (by apply ports_clause).
  assert (any_or (j_Attributes j) (λ attrs, attributes_hold attrs (GetAttributes c)) = true ↔
    j_Attributes j = [] ∨ attributes_hold (j_Attributes j) (GetAttributes c) = true) as Ha.
  { unfold any_or. destruct (j_Attributes j); [split; [by left|done]|]. split; [by right|by intros [|]]. }
  rewrite Ha, Hp, (networks_clause (texts (j_Network j)) (GetNetwork c)).
  split; [by intros (? & ? & ? & ? & ? & ? & ? & ? & ? & ?)|intros []; by split_all].
Qed.

Lemma with_matcher_holds m rr c ips : rule_holds (with_matcher m rr) c ips = rule_holds rr c ips.
Proof. done. Qed.

Lemma rules_loop_fits m l rules : rules_loop m l = Ret rules → Forall lists_domains l →
  Forall2 (λ j rr, rule_target j rr ∧ ∀ c ips, rule_holds rr c ips = true ↔ fits j c ips) l rules.
Proof.
  revert rules. induction l as [|j l IH]; intros rules; cbn [rules_loop]; [intros [= <-] _; constructor|].
  destruct (ParseRule j) as [rr| |] eqn:Ej; [|done|done]. cbn [outcome_bind].
  destruct (rules_loop m l) as [more| |]; [|done|done]. cbn [outcome_bind]. intros [= <-] Hl.
  apply Forall_cons in Hl as [Hj Hl]. constructor; [|by apply IH]. unfold ParseRule in Ej.
  destruct (bool_decide (j_Type j = []) || is_field (j_Type j)); [|done]. by apply (parse_fits j rr).
Qed.
End rules.

(** ** Addresses and files *)

(** An address with its length is read as written. *)
Lemma ParseIP_text a n (max : Z) ip : address_ok a → a = ipv4Address ip ∧ max = 32 ∨ a = ipv6Address ip ∧ max = 128 → 0 ≤ n ≤ max →
  ParseIP (host_text a ++ slash ++ Itoa n) = Ret (ip, n) ∧ ParseIP (host_text a) = Ret (ip, max).
Proof.
  intros Ha Hmax Hn. assert (0 ≤ n < 2 ^ 32) as Hn' by (destruct Hmax as [[_ ->]|[_ ->]]; lia). destruct (host_text_spec a Ha) as (_ & Hc & _).
  assert (47 ∉ host_text a) as Hno by (rewrite Forall_forall in Hc; intros Hin; apply Hc in Hin as [_ Hin]; set_solver).
  unfold ParseIP. change (slash ++ Itoa n) with ((47 :: []) ++ Itoa n). unfold slash.
  rewrite Index_app_sep, Index_no_sep by done. rewrite take_app_length.
  assert (drop (length (host_text a) + 1) (host_text a ++ [47] ++ Itoa n) = Itoa n) as ->
    by (rewrite app_assoc; apply drop_app_length'; by rewrite length_app).
  rewrite (host_text_bare a Ha). cbn [ret_or_panic]. unfold cidr_of. rewrite (decide_False (P := Itoa n = [])) by apply Itoa_ne.
  rewrite ParseUint_Itoa by lia. cbn [fmap option_fmap option_map mbind option_bind].
  rewrite (wrap_small 32) by done.
  destruct Hmax as [[-> ->]|[-> ->]]; repeat case_decide; try lia; split; cbn [mbind option_bind]; repeat case_decide;
    done || lia || by destruct (Itoa_ne n).
Qed.

(** Without external resources the address lists of a rule are those of one file: what
    the conditions of the router ask of a configuration. *)
Definition geoip_file `{UpperTables, Environment, DataFiles} (code : bytes) : list CIDR :=
  match loadGeoIP code with Ret cidrs => cidrs | _ => [] end.

Lemma ToCidrList_from_file `{UnicodeTables, UpperTables, Environment, DataFiles} ts gs :
  Forall (λ t, isExtDatFile t (lit "ext-ip:") = 0%nat) ts → ToCidrList ts = Ret gs → Forall (from_file geoip_file) gs.
Proof.
  intros Hts. unfold ToCidrList. destruct (cidrs_loop ts [] []) as [[gl cs]| |] eqn:El; [|done|done]. cbn [outcome_bind]. intros [= <-].
  assert (∀ ts gs cs gs' cs', Forall (λ t, isExtDatFile t (lit "ext-ip:") = 0%nat) ts → Forall (from_file geoip_file) gs →
    cidrs_loop ts gs cs = Ret (gs', cs') → Forall (from_file geoip_file) gs') as Hloop.
  { clear. induction ts as [|t ts IH]; intros gs cs gs' cs' Ht Hg; cbn [cidrs_loop]; [by intros [= <- <-]|].
    apply Forall_cons in Ht as [Ht Hts]. destruct (ip_entry t) as [[g|c]| |] eqn:Ee; cbn [outcome_bind]; [| |done|done].
    - apply IH; [done|]. apply Forall_app. split; [done|]. apply Forall_singleton.
      unfold ip_entry in Ee. rewrite Ht in Ee. destruct (HasPrefix t (lit "geoip:")).
      + case_decide; [done|]. destruct (loadGeoIP _) as [cidrs| |] eqn:Eg; [|done|done]. cbn [outcome_bind] in Ee. injection Ee as <-.
        intros _. cbn [CountryCode Cidr]. unfold geoip_file. by rewrite Eg.
      + rewrite decide_False in Ee by tauto. by destruct (ParseIP t).
    - by apply IH. }
  apply (Hloop _ _ _ _ _ Hts) in El; [|constructor]. destruct cs; [done|]. apply Forall_app. split; [done|].
  apply Forall_singleton. intros ?. done.
Qed.

(** ** The properties *)


(** C20. In a data file of lists, each behind its length, a code finds the first list that
    has it, and nothing when there is none. *)
Theorem loads_first_list `{UnicodeTables, UpperTables, Environment, DataFiles} {A} (unmarshal : bytes → option A) file l code :
  ReadAsset file = Some (data_file l) → l ≠ [] → Forall entry_ok l → code ≠ [] → Z.of_nat (length code) < 128 →
  load_list unmarshal file code =
    match list_of l code ≫= unmarshal with Some a => Ret a | None => Fail end.
Proof.
  intros Hf Hl Hok Hc Hlen. unfold load_list, loadFile. rewrite Hf.
  assert (∃ x d, data_file l = x :: d) as (x & d & E) by (destruct l as [|e l]; [done|by do 2 eexists]).
  rewrite E. cbn [outcome_bind]. rewrite <- E. unfold find. rewrite decide_False by done.
  rewrite (find_loop_spec _ l code) by (done || lia). cbn [outcome_bind].
  destruct (list_of l code) as [b|]; [|done]. cbn [mbind option_bind]. by destruct (unmarshal b).
Qed.

(** ** A concrete section *)

#[local] Existing Instances ascii_tables ascii_upper_table literal_regexp list_netipx list_netipx_laws.
#[local] Instance no_environment : Environment := λ _, None.

(** One file of domain lists with two codes, and one of addresses; a body is decoded by
    its code. *)
Definition site_entries : list (bytes * bytes) := [(lit "ADS", [1]); (lit "CN", replicate 200 2)].

#[local] Instance sample_files : DataFiles := {|
  ReadAsset := λ f, if decide (f = lit "geosite.dat") then Some (data_file site_entries)
                    else if decide (f = lit "a" ∨ f = lit "a_b") then Some (data_file [(lit "B_C", [1]); (lit "C", [2])]) else None;
  Unmarshal_GeoIP := λ b, if decide (last b = Some 1) then Some [([10; 0; 0; 0], 8)] else Some [([192; 168; 0; 0], 16)];
  Unmarshal_GeoSite := λ b, if decide (last b = Some 1) then Some [{| gd_Type := Domain_Full; gd_Value := lit "ads.org"; gd_Attribute := [lit "us"] |}]
                            else Some [{| gd_Type := Domain_Domain; gd_Value := lit "cn"; gd_Attribute := [] |}] |}.

Definition bare_rule : JsonRule :=
  {| j_Type := lit "Field"; j_RuleTag := []; j_OutboundTag := lit "direct"; j_BalancerTag := []; j_DomainMatcher := [];
     j_Domain := None; j_Domains := None; j_IP := None; j_Port := None; j_Network := None; j_SourceIP := None;
     j_SourcePort := None; j_User := None; j_InboundTag := None; j_Protocols := None; j_Attributes := [] |}.

Definition with_domain (d : json_value) (j : JsonRule) : JsonRule :=
  {| j_Type := j_Type j; j_RuleTag := j_RuleTag j; j_OutboundTag := j_OutboundTag j; j_BalancerTag := j_BalancerTag j;
     j_DomainMatcher := j_DomainMatcher j; j_Domain := Some d; j_Domains := j_Domains j; j_IP := j_IP j; j_Port := Some (J_string (lit "80, 1000-2000"));
     j_Network := Some (J_string (lit "tcp")); j_SourceIP := j_SourceIP j; j_SourcePort := j_SourcePort j; j_User := j_User j;
     j_InboundTag := j_InboundTag j; j_Protocols := j_Protocols j; j_Attributes := j_Attributes j |}.

Definition sample_section (d : json_value) : RouterConfig :=
  {| c_Settings := None; c_RuleList := [with_domain d bare_rule]; c_DomainStrategy := Some (lit "IPIfNonMatch");
     c_Balancers := [{| b_Tag := lit "b"; b_Selectors := [lit "p"]; b_Type := []; b_Settings := λ _, EmptyConfig; b_FallbackTag := [] |}];
     c_DomainMatcher := lit "linear" |}.

Definition sample_texts : json_value := J_list [lit "geosite:ads@US"; lit "full:a.org"].

Definition built (c : RouterConfig) : Config :=
  match RouterConfig_Build c with Ret config => config | _ => {| DomainStrategy := Config_AsIs; cfg_Rule := []; cfg_BalancingRule := [] |} end.


Lemma loads_first_list_witness :
  list_of site_entries (lit "CN") = Some (body (lit "CN") (replicate 200 2)) ∧
  load_list Some (lit "geosite.dat") (lit "CN") =
    match list_of site_entries (lit "CN") ≫= Some with Some a => Ret a | None => Fail end.
Proof.
  split; [by vm_compute|].
  apply (loads_first_list Some (lit "geosite.dat") site_entries (lit "CN")); [done|done| |done|by vm_compute].
  repeat (apply Forall_cons; split; [by split; vm_compute|]). by apply Forall_nil.
Defined.

(** ** What the text does not mean *)

(** A number that is no text is not checked: 65616 is port 80. *)
Lemma bare_port_wraps :
  PortList_Unmarshal (J_number 65616) = Some [(65616, 65616)] ∧ ports_hold [(65616, 65616)] 80 = true ∧
  PortList_Unmarshal (J_string (lit "65616")) = None.
Proof. split_all; by vm_compute. Qed.

(** A list without a domain of the wanted attribute restricts nothing: a rule for it and
    for TCP holds of every name. *)
Lemma missing_attribute_is_everything :
  (rr_Domain <$> cfg_Rule (built (sample_section (J_string (lit "geosite:ads@nosuch"))))) = [[]].
Proof. by vm_compute. Qed.

(** The router keeps one set of addresses for a code. *)
Lemma container_reuses `{Netipx} g1 g2 x k : CountryCode g1 ≠ [] → CountryCode g2 = CountryCode g1 → ReverseMatch g2 = ReverseMatch g1 →
  container_Add [] g1 = (Some x, k) → (container_Add k g2).1 = Some x.
Proof.
  intros Hne Hc Hr. unfold container_Add. rewrite Hc, Hr.
  destruct (decide (CountryCode g1 ≠ [])) as [_|?]; [|done]. cbn [list_find fmap option_fmap option_map].
  destruct (GeoIPMatcher_Init _ _ _) as [y|] eqn:Ei; [|done]. intros [= <- <-].
  assert (countryCode y = CountryCode g1 ∧ reverseMatch y = ReverseMatch g1) as Hy.
  { unfold GeoIPMatcher_Init in Ei. destruct (init_loop _ _ _) as [[b4 b6]|]; [|done]. cbn in Ei.
    destruct (IPSetBuilder_IPSet b4); [|done]. cbn in Ei. destruct (IPSetBuilder_IPSet b6); [|done]. by injection Ei as <-. }
  cbn [app list_find]. by rewrite decide_True.
Qed.

(** Two external lists get one code, under which the router keeps the addresses of the
    first. *)
Lemma external_codes_collide :
  ∃ g1 g2, ToCidrList [lit "ext:a:b_c"; lit "ext:a_b:c"] = Ret [g1; g2] ∧ CountryCode g1 = CountryCode g2 ∧ Cidr g1 ≠ Cidr g2 ∧
    ∀ x k, container_Add [] g1 = (Some x, k) → (container_Add k g2).1 = Some x.
Proof.
  exists {| CountryCode := lit "A_B_C"; Cidr := [([10; 0; 0; 0], 8)]; ReverseMatch := false |},
    {| CountryCode := lit "A_B_C"; Cidr := [([192; 168; 0; 0], 16)]; ReverseMatch := false |}.
  split; [by vm_compute|]. split; [done|]. split; [done|]. intros x k. by apply container_reuses.
Qed.

(** The end of a file inside an entry is a panic. *)
Lemma truncated_file_panics : find [10; 1; 10] (lit "A") = Panic.
Proof. by vm_compute. Qed.
